(* ===== verification/_CoqProject ===== *)
-Q . S2P
Prelude.v
Decimals.v
Enums.v
Identifiers.v
Orders.v
OrderState.v
Market.v
Accounts.v
OrderLists.v
Cache.v
CacheFacts.v
Samples.v
Reconciler.v
ReconcilerFacts.v
Kernel.v
Risk.v
RiskFacts.v
Matching.v
ExecManager.v
ExecManagerFacts.v
Emulator.v
EmulatorFacts.v
ExecEngine.v
ExecEngineFacts.v
ExecEngineCache.v
OrderListProgress.v
ExecReconciliation.v
ExecReconciliationFacts.v
Portfolio.v
PortfolioFacts.v
PortfolioLedger.v
MatchingFacts.v
Partial.v
Channels.v
MsgBus.v
MsgBusFacts.v
Bus.v
BusFacts.v
TradingAccount.v
TradingAccountFacts.v
Aggregation.v
AggregationFacts.v
DataEngine.v
DataEngineFacts.v
Indicators.v
BacktestRuntime.v
BacktestOrders.v
BacktestRunner.v
BacktestInvariants.v
BacktestLedger.v
BacktestTermination.v
NodeReports.v
Node.v
NodeOrders.v
NodeLife.v
NodeFacts.v
NodeInvariants.v
NodeEmulation.v
NodeLifeFacts.v
NodeTermination.v
StarkPrimes.v
CurveGroup.v
StarkConstants.v
StarkCurve.v
StarkField.v
StarkHash.v
StarkBase.v
StarkHashFacts.v
StarkSign.v
StarkSignFacts.v
EdgexPerp.v
EdgexFacts.v
Witnesses.v
ExecWitnesses.v
TradingWitnesses.v
SystemWitnesses.v
BacktestWitnesses.v
NodeWitnesses.v
StarkWitnesses.v
