(* ===== verification/Prelude.v ===== *)
(** * Verification of the exchanges trading runtime: overview and prelude

    The repository is a trading runtime in Go: a venue-independent model of orders, fills,
    positions and market data (package [model]), a cache of all of it ([cache]), and the
    components that read and write the cache: the account reconciler and the trading account
    ([account]), the risk engine ([risk]), the portfolio ([portfolio]), the execution manager,
    emulator and engine ([execution]), the data engine ([data]), the buses ([kernel], [bus]),
    the back-test runner with its matching core ([backtest]), and the platform node ([platform]),
    which puts a cache, a risk engine, an execution engine and a data engine together for live
    trading.  Adapters and SDKs translate exchange protocols into the model; of the SDKs the one
    of EdgeX brings its own elliptic curve, hashes and signatures ([sdk/edgex]).

    ** Files and sources

    - [Prelude]: errors and results, state passing, nested maps, order-independent sorting, record setters, tactics.
    - [Decimals]: the interface to shopspring/decimal (the parameter [Decimal] with its laws
      [DecimalLaws]) and the rational instance [QDecimal] that shows the laws can hold.
    - [Enums]: the string enumerations of model/*.go and of the components.
    - [Identifiers]: model/identifiers.go.  [Orders]: model/order.go, model/command_metadata.go.
      [Market]: model/instrument.go, model/market_data.go, model/data_request.go.
      [Accounts]: model/account.go, model/order_event.go, model/position_event.go,
      the mass status of model/command.go.  [OrderLists]: model/order_list.go, model/order_factory.go,
      the list commands of model/command.go.
    - [OrderState]: account/state_machine.go.
    - [Cache]: cache/*.go, with [CacheFacts].  The cache is the record of its maps, each
      method one function on it.
    - [Reconciler]: account/reconciler.go, with [ReconcilerFacts].  Most operations are
      functions on the cache, which is what they change; position repair has the attempt counters too.
    - [TradingAccount]: account/trading_account.go, account/order_tracker.go, with [TradingAccountFacts].
    - [Kernel]: kernel/component.go, kernel/clock.go, kernel/health.go.
    - [Channels]: channels of Go.  [MsgBus]: kernel/msgbus.go, with [MsgBusFacts].
      [Bus]: bus/bus.go, with [BusFacts].
    - [Risk]: risk/risk.go, with [RiskFacts].
    - [ExecManager]: execution/manager.go, with [ExecManagerFacts] and, for the order lists it
      drives, [OrderListProgress].  [ExecReconciliation]: execution/reconciliation.go, with
      [ExecReconciliationFacts].  [Emulator]: execution/emulator.go, with [EmulatorFacts].
      [ExecEngine]: execution/engine.go, with [ExecEngineFacts] and [ExecEngineCache].
    - [Aggregation]: data/aggregation.go, data/catalog.go, with [AggregationFacts].
      [DataEngine]: data/engine.go, with [DataEngineFacts].
    - [Indicators]: strategy/indicator.go, strategy/timer.go.
    - [Portfolio]: portfolio/portfolio.go, with [PortfolioFacts] (one fill,
      account balances) and [PortfolioLedger] (runs of fills).
    - [Matching]: backtest/matching_core.go, backtest/fill_model.go and the prices, triggers,
      trailing stops, quantities and positions of backtest/runner.go, with [MatchingFacts].
    - [Partial]: computations that may not return.  The rest of backtest/runner.go: [BacktestRuntime]
      (state, strategies, dispatch, timers, execution client; strategy/engine.go as the runner uses
      it), [BacktestOrders] (orders, fills, matching), [BacktestRunner] (the run, with
      backtest/engine.go, backtest/results.go, backtest/catalog.go).  [BacktestInvariants]: what holds
      along every run; [BacktestLedger]: positions and fills; [BacktestTermination]: runs that return,
      and that more fuel changes nothing.
    - platform/node.go and platform/retry.go: [NodeReports] (the reports and events a node makes),
      [Node] (its state, market data and the subscriptions of emulated orders), [NodeOrders]
      (orders and order lists), [NodeLife] (start, stop, health, reconnects, reconciliation).
      [NodeFacts], [NodeInvariants] (what holds along every run), [NodeEmulation] (subscriptions),
      [NodeLifeFacts]; [NodeTermination]: submissions return, and more depth changes nothing.
    - sdk/edgex/starkcurve: [StarkConstants] (constant_points.go, pedersen_params.go), [StarkCurve]
      (starkcurve.go and the tables of fast_basemult.go), [StarkHash] (the hashes of hash.go and
      fast_hash.go, SHA-256 and HMAC), [StarkSign] (rfc6979.go and the signatures of hash.go,
      fast_basemult.go).  Proofs: [StarkPrimes] (the two primes, by Pocklington's
      criterion), [CurveGroup] (the group law over any field), [StarkField] (the additions are
      the group's), [StarkBase] (constants, multiples, tables), [StarkHashFacts], [StarkSignFacts].
    - sdk/edgex/perp: [EdgexPerp] (utils.go, order.go), with [EdgexFacts].
    - [Samples], [Witnesses], [ExecWitnesses], [TradingWitnesses], [SystemWitnesses],
      [BacktestWitnesses], [NodeWitnesses], [StarkWitnesses]: concrete values, and each property
      applied at one.

    Definitions keep the names of the source; a method [Recv.Name] is [Recv_Name] where
    [Name] alone would clash, a record field has a two-letter prefix, a [xLocked] helper and the
    method that only takes the lock around it are one definition.

    ** Properties

    - Model: what the validations of orders, order lists, market events, instruments and
      balances accept, identifiers round-trip, order modification changes only what it may,
      the position lifecycle event is the one the two reports call for, brackets are valid.
    - Order states: the transition function stays in its table, the sequences of statuses
      it allows, and that an order that keeps changing reaches a terminal state.
    - Cache: [PutOrder] meets an abstract specification by order, every index agrees with
      the order map in every reachable cache, listings do not depend on map order, fills
      are stored once, purging keeps the newest closed orders.
    - Reconciler: reports follow the state machine, fills count once, fills that precede
      their order are replayed, orders the venue lost are closed, position repair gives up
      after its number of attempts.
    - Trading account: a tracker receives the reports of its own order alone and exactly once,
      and what becomes of a submission that the event stream overtakes.
    - Risk: what an accepted order satisfies, the least positive limit is in force, the
      command rate is bounded in every window, the kill switch lets nothing through, the
      command queue is first-in first-out and loses nothing it took.
    - Execution: fills are booked once whatever their order and replayed when they came first;
      held children of an order list are submitted at most once, contingent orders follow
      their rules; the mass status books the missing fills; an emulated order is released at
      most once, when its trigger is met, and eventually; an order reaches a venue only validated.
    - Portfolio: for one fill and for any run of them, signed positions, entry prices and
      realized profits account for the cash exchanged up to the rounding of the average
      entry price; every fill and its commission count once; balance deltas succeed
      exactly when they can be paid and move nothing else.
    - Back-test: matching against a book takes the best levels that cross, and no more than
      they hold; trailing stops only move with the market; positions agree with the portfolio's
      and, along every run of whatever strategies, are the sums of the fills; a run of
      strategies that neither submit order lists nor act on executions returns.
    - Data: bars summarise the maximal runs of events in a time bucket, the engine publishes
      what it accepts and the bars of each aggregator, queries return what matches.
    - Buses: what is delivered and dropped, the panic of one bus and the deadlock of the other.
    - Kernel: the life cycle sequentially and under interleaving, and the test clock.
    - Indicators: the moving average stays within its inputs, the true range is smoothed.
    - Node: along every run of its operations the market data that an emulated order needs is
      subscribed while the order is tracked; submissions return, however the lists nest; an order
      reaches the execution engine only after the risk engine accepted it; a failed start leaves the
      component faulted; an emulated order can be neither modified nor canceled through the node.
    - EdgeX: the additions of the code are a commutative group on the points of the curve and never
      divide by zero there; three ways to multiply the base point agree, two hashes agree on the
      low 251 bits; what the three signatures return verifies; a signature gives the private key away
      to whoever knows the second it was made in; the packed fields of a limit order do not overlap; the
      request of an order carries a signature of the hash of the amounts it states.

    ** Conventions

    - Errors are a sentinel and the literal text of the message; formatted operands are left out.
      A method that may change its receiver before failing returns the receiver with the result.
    - A method that holds its mutex throughout is one atomic step; [Kernel] splits the
      methods that release it around a hook, [Risk] the rounds of the queue goroutines, the
      buses the calls that run while others do, [TradingAccount] the submission around the
      answer of the venue.  Goroutines that loop over a channel are their rounds.
    - Code outside (venue clients, algorithms, data clients, catalogs) is a record of operations
      on a state [W], which the engine and the accounts thread with their own state in [St];
      an interface a Go value may also implement is an option.
    - A Go map is a [gmap].  Where code ranges over a map and the order can matter, the
      order is an argument of the definition ([Instruments] in [Risk] and [Portfolio],
      [order] for balance deltas and aggregators) and theorems hold for every one, or the theorem shows that
      the order does not matter.
    - Times are nanoseconds in [Z], zero for the zero [time.Time]; counters and limits of type [int] are [Z]
      and are only compared with and incremented by small values, so 64-bit wrap-around is out of reach.
    - Decimals are exact except for division, which rounds to 16 places, half away from zero.
      The probabilities of the fill model, floating point in the source, are rationals.
    - An enumeration has a constructor per constant, one for the empty string where it is
      meaningful, and [...Other s] for any other string, since Go's string types admit it.
    - Upper-casing and trimming are those of ASCII text.
    - Recursions are structural: over the list a Go loop ranges over, or over the attempts that
      are left.  The back-test alone uses fuel, since strategies call the runtime that calls
      them: [calls n] lets calls nest [n] deep, and [rounds] bounds the timers that fire before one event.
      A run without result ran out of fuel; more fuel never changes a result ([fuel_irrelevant]),
      and [run_returns] gives fuel that is enough.  A node calls itself when a fill releases held
      children: [node_calls n] lets calls nest [n] deep, more depth changes nothing
      ([depth_irrelevant]), and [submit_returns] gives the depth that is enough.  The search for a
      nonce has no bound in the code either, only an expected length: its fuel is the number of
      values tried, [Some None] says that none of them served, and theorems hold for every fuel.
    - In the EdgeX files [None] is a panic, a [big.Int] is a [Z] and a nil pointer an inner [None];
      the clock, the generator of math/rand, Keccak, the JSON decoder, modular square roots and the conversions
      between decimals and integers are arguments.  Concrete sums of points are
      computed on [BigZ], by checkers proved correct in [StarkPrimes], [StarkField] and [StarkBase].
    - In a back-test contexts are never done, and the bus is the list of what was published.  The runtime shares
      its cache with its execution engine; a flag tells whether the portfolio shares it too.
      A strategy is a program over the commands of its runtime: it reads the cache, but does
      not write to it through the pointer.

    ** Not modelled

    The JSON text of a back-test's result.  Of the strategies the indicators, the timers and the
    engine with synchronous dispatch are modelled: the rest hands events to user code.  Of the platform
    node the interleaving of its goroutines (each round of one is an operation) and the methods that
    nothing calls.  Live nodes wire components to goroutines and timers; venue adapters and the other SDKs
    are network input and output, as are the HTTP client and the endpoints of EdgeX other than the
    placing of orders; [Params] copies constants and [GetMsgHash] returns nil; the test suite,
    the examples and the scripts are left out. *)
From stdpp Require Import base gmap sets list strings sorting.
From Stdlib Require Import QArith Qabs Lqa.
From Stdlib Require Export Lia.

(** ** Scope and boolean equality *)

Declare Scope go_scope.
Delimit Scope go_scope with go.

(** Go's [==] on comparable values, as a boolean. *)
Notation "a '≟' b" := (bool_decide (a = b)) (at level 70, no associativity) : go_scope.
Notation "a '≠?' b" := (negb (bool_decide (a = b))) (at level 70, no associativity) : go_scope.
#[global] Open Scope go_scope.

(** ** Errors and results *)

(** The sentinel errors of the runtime packages ([errors.New] values that
    callers test with [errors.Is]). *)
Inductive ErrKind :=
  | ErrInvalidInstrumentID | ErrInvalidInstrument | ErrInstrumentNotFound
  | ErrInvalidMarketData | ErrInvalidOrder | ErrInvalidAccount
  | ErrInvalidExecutionEvent | ErrNotSupported
  | ErrComponentFaulted | ErrRiskRejected | ErrRiskQueueFull
  | ErrInvalidTransition | ErrOverfill
  | ErrClientNotFound | ErrAlgorithmNotFound | ErrAlgorithmIDMissing
  | ErrBackpressure | ErrEndpointNotFound | ErrCanceled
  | ErrInvalidIndicator | ErrInvalidTimer
  | ErrOther.

#[global] Instance ErrKind_eq_dec : EqDecision ErrKind.
Proof. solve_decision. Defined.

(** An error value: the sentinel it wraps and the literal text of its message
    (formatted operands are left out). *)
Record error := mkErr { err_kind : ErrKind; err_msg : string }.

#[global] Instance error_eq_dec : EqDecision error.
Proof. solve_decision. Defined.

(** The result of a fallible Go function [(A, error)]. *)
Inductive res (A : Type) : Type :=
  | Ok (a : A)
  | Fail (e : error).
Arguments Ok {A} a.
Arguments Fail {A} e.

#[global] Instance res_ret : MRet res := fun A a => Ok a.
#[global] Instance res_bind : MBind res := fun A B f m =>
  match m with Ok a => f a | Fail e => Fail e end.
#[global] Instance res_fmap : FMap res := fun A B f m =>
  match m with Ok a => Ok (f a) | Fail e => Fail e end.

Lemma Ok_inj {A} (a b : A) : Ok a = Ok b -> a = b.
Proof. by intros [=]. Qed.

(** [errors.Is(err, k)] on a result. *)
Definition fails_with {A} (k : ErrKind) (m : res A) : bool :=
  match m with Ok _ => false | Fail e => err_kind e ≟ k end.

Definition is_ok {A} (m : res A) : bool :=
  match m with Ok _ => true | Fail _ => false end.

(** Go's early returns: [if b { return e }] and [if err := m; err != nil { return err }]. *)
Notation "'fail_if' b 'with' e ';;' k" := (if b then Fail e else k)
  (at level 10, b at level 99, e at level 99, k at level 200,
   format "'[v' 'fail_if'  b  'with'  e  ';;' '/' k ']'") : go_scope.
Notation "'ensure' m ';;' k" := (match m with Ok _ => k | Fail err => Fail err end)
  (at level 10, m at level 99, k at level 200,
   format "'[v' 'ensure'  m  ';;' '/' k ']'") : go_scope.

(** A method on a mutable receiver returns its new state and its result; the state changes
    that precede an error stay. *)
Definition outcome (S A : Type) : Type := S * res A.

(** ** State passing

    A method that calls into other components is a function on the whole state; [attempt] is
    its early return on an error, written [let! x := m in k]. *)
Definition St (S A : Type) : Type := S -> S * A.
#[global] Instance St_ret {S} : MRet (St S) := fun A a s => (s, a).
#[global] Instance St_bind {S} : MBind (St S) := fun A B f m s => let '(s, a) := m s in f a s.
Definition attempt {S A B} (m : St S (res A)) (f : A -> St S (res B)) : St S (res B) :=
  mbind (fun r => match r with Ok a => f a | Fail e => mret (Fail e) end) m.
Definition pass {S A} (r : res A) : St S (res A) := mret r.

Notation "'let!' x ':=' m 'in' k" := (attempt m (fun x => k))
  (at level 200, x name, m at level 100, k at level 200, format "'[v' 'let!'  x  ':='  m  'in' '/' k ']'") : go_scope.

(** A loop over a slice whose body may return early. *)
Fixpoint for_each {S X} (f : X -> St S (res unit)) (l : list X) : St S (res unit) :=
  match l with
  | [] => pass (Ok tt)
  | x :: l => let! _ := f x in for_each f l
  end.

(** The first failure of a list of checks, as a [for] loop of Go that returns early. *)
Fixpoint check_all {A} (f : A -> res unit) (l : list A) : res unit :=
  match l with
  | [] => Ok tt
  | x :: l' => ensure f x ;; check_all f l'
  end.

Lemma check_all_ok {A} (f : A -> res unit) l :
  check_all f l = Ok tt <-> Forall (fun x => f x = Ok tt) l.
Proof.
  induction l as [|x l IH]; simpl.
  - split; [constructor | done].
  - destruct (f x) as [[]|e] eqn:E; rewrite Forall_cons, E; [|naive_solver].
    rewrite IH. naive_solver.
Qed.

(** ** Automation *)

(** Splits the boolean tests and matches of a hypothesis [m = Ok a], discarding the
    branches that fail. *)
Ltac go_step :=
  match goal with
  | H : Fail _ = Ok _ |- _ => discriminate H
  | H : Ok _ = Fail _ |- _ => discriminate H
  | H : Ok _ = Ok _ |- _ => injection H as H
  | H : (if ?b then _ else _) = Ok _ |- _ => destruct b eqn:?
  | H : (match ?m with Ok _ => _ | Fail _ => _ end) = Ok _ |- _ => destruct m eqn:?
  | u : unit |- _ => destruct u
  end.
Ltac go_inv := repeat (go_step; try subst).

(** Peels the early returns off [H : m = Ok a], keeping each test that passed. *)
Ltac peel H :=
  repeat match type of H with
  | (if ?b then Fail _ else _) = Ok _ => destruct b eqn:?; [discriminate H|]
  | (match ?m with Ok _ => _ | Fail _ => _ end) = Ok _ => destruct m eqn:?; [|discriminate H]
  | mbind _ ?m = Ok _ => destruct m eqn:?; cbn [mbind res_bind] in H; [|discriminate H]
  end.

Create HintDb go.

(** ** Two-level maps

    Go's [map[A]map[K]V] with the inner map made on first use; reading or
    deleting through a missing inner map is the zero case. *)
Section maps2.
Context {A K V : Type} `{Countable A} `{Countable K}.
Implicit Types (m : gmap A (gmap K V)) (a : A) (k : K) (v : V).

Definition inner m a : gmap K V := default ∅ (m !! a).
Definition get2 m a k : option V := inner m a !! k.
Definition put2 m a k v : gmap A (gmap K V) := <[a := <[k := v]> (inner m a)]> m.
Definition del2 m a k : gmap A (gmap K V) :=
  match m !! a with Some s => <[a := delete k s]> m | None => m end.

Lemma inner_put2 m a k v a' :
  inner (put2 m a k v) a' = if decide (a = a') then <[k := v]> (inner m a) else inner m a'.
Proof. unfold inner, put2. rewrite lookup_insert. by case_decide. Qed.

Lemma inner_del2 m a k a' :
  inner (del2 m a k) a' = if decide (a = a') then delete k (inner m a) else inner m a'.
Proof.
  unfold inner, del2. destruct (m !! a) eqn:E.
  - rewrite lookup_insert. by case_decide.
  - case_decide; [subst|done]. rewrite E. simpl. by rewrite delete_empty.
Qed.

Lemma get2_put2 m a k v a' k' :
  get2 (put2 m a k v) a' k' = if decide (a = a' /\ k = k') then Some v else get2 m a' k'.
Proof.
  unfold get2. rewrite inner_put2.
  destruct (decide (a = a')) as [->|]; [|case_decide; naive_solver].
  rewrite lookup_insert. repeat case_decide; naive_solver.
Qed.

Lemma get2_del2 m a k a' k' :
  get2 (del2 m a k) a' k' = if decide (a = a' /\ k = k') then None else get2 m a' k'.
Proof.
  unfold get2. rewrite inner_del2.
  destruct (decide (a = a')) as [->|]; [|case_decide; naive_solver].
  rewrite lookup_delete. repeat case_decide; naive_solver.
Qed.

Lemma get2_empty a k : get2 (∅ : gmap A (gmap K V)) a k = None.
Proof. unfold get2, inner. by rewrite lookup_empty. Qed.
End maps2.


#[global] Hint Rewrite @get2_put2 @get2_del2 @get2_empty : maps2.

(** The values of a map, as the range loop of Go enumerates them in some order. *)
Definition map_values {K V} `{Countable K} (m : gmap K V) : list V :=
  (map_to_list m).*2.

Lemma elem_of_map_values {K V} `{Countable K} (m : gmap K V) v :
  v ∈ map_values m <-> exists k, m !! k = Some v.
Proof.
  unfold map_values. rewrite list_elem_of_fmap. split.
  - intros ([k v'] & -> & Hin). exists k. by apply elem_of_map_to_list.
  - intros [k Hk]. exists (k, v). split; [done|]. by apply elem_of_map_to_list.
Qed.

(** ** Functional record update: [r <| field := v |>] *)
Class Setter {R T : Type} (proj : R -> T) := set : (T -> T) -> R -> R.
Arguments set {R T} proj {_} f r.
Notation "r <| proj := v |>" := (set proj (fun _ => v) r)
  (at level 12, left associativity, proj at level 9) : go_scope.

(** Reduces projections of updated records in the whole context. *)
Ltac fields := unfold set in *; simpl in *.

(** Walks back, along the preorder [R], through the updates that lead to the final cache. *)
Ltac walk :=
  repeat match goal with
  | |- ?R ?c (set _ ?f ?c1) =>
      transitivity c1; [|generalize c1; generalize f; intros; repeat split]
  | |- ?R _ (if ?b then _ else _) => destruct b
  | |- ?R _ (match ?x with _ => _ end) => destruct x
  | |- ?R ?c ?c => reflexivity
  end.

(** ** Instants and durations

    A [time.Time] is its distance in nanoseconds from Go's zero time; a
    [time.Duration] is a signed 64-bit count of nanoseconds. *)
Abbreviation time := Z (only parsing).
Abbreviation duration := Z (only parsing).

Definition time_IsZero (t : time) : bool := Z.eqb t 0.
Definition After (t u : time) : bool := Z.ltb u t.
Definition Before (t u : time) : bool := Z.ltb t u.
Definition time_Equal (t u : time) : bool := Z.eqb t u.
(** [time.Unix(0, 0)]: 62135596800 s after year 1. *)
Definition UnixEpoch : time := 62135596800000000000.
Definition Second : duration := 1000000000.
Definition maxDuration : duration := 9223372036854775807.
Definition minDuration : duration := -9223372036854775808.
(** [t.Sub(u)] saturates at the ends of the duration range. *)
Definition time_Sub (t u : time) : duration := Z.max minDuration (Z.min maxDuration (t - u)).
Definition time_Add (t : time) (d : duration) : time := (t + d)%Z.

(** Turns boolean hypotheses into propositions. *)
Ltac bools :=
  repeat match goal with
  | u : unit |- _ => destruct u
  | H : _ && true = _ |- _ => rewrite andb_true_r in H
  | H : _ && false = _ |- _ => rewrite andb_false_r in H
  | H : _ && _ = true |- _ => apply andb_true_iff in H as [? ?]
  | H : _ || _ = false |- _ => apply orb_false_iff in H as [? ?]
  | H : negb _ = true |- _ => apply negb_true_iff in H
  | H : negb _ = false |- _ => apply negb_false_iff in H
  | H : After _ _ = true |- _ => apply Z.ltb_lt in H
  | H : After _ _ = false |- _ => apply Z.ltb_ge in H
  | H : Before _ _ = true |- _ => apply Z.ltb_lt in H
  | H : Before _ _ = false |- _ => apply Z.ltb_ge in H
  | H : time_IsZero _ = true |- _ => apply Z.eqb_eq in H
  | H : time_IsZero _ = false |- _ => apply Z.eqb_neq in H
  | H : time_Equal _ _ = true |- _ => apply Z.eqb_eq in H
  | H : time_Equal _ _ = false |- _ => apply Z.eqb_neq in H
  | H : bool_decide _ = true |- _ => apply bool_decide_eq_true in H
  | H : bool_decide _ = false |- _ => apply bool_decide_eq_false in H
  end.


(** ** Sorting

    [sort.Slice] with a strict order on keys; on elements with distinct keys the outcome is
    the only sorted permutation ([sort_unique]), so it does not depend on the order in
    which Go enumerates a map. *)
Section lex.
Context {A B C : Type} (RB : relation B) (RC : relation C) (f : A -> B) (g : A -> C).

(** First by [f], then by [g]. *)
Definition lex_le (x y : A) : Prop := RB (f x) (f y) /\ (RB (f y) (f x) -> RC (g x) (g y)).

#[global] Instance lex_le_dec `{!RelDecision RB, !RelDecision RC} : RelDecision lex_le.
Proof. intros x y. unfold lex_le. apply _. Defined.
#[global] Instance lex_le_trans `{!Transitive RB, !Transitive RC} : Transitive lex_le.
Proof.
  intros x y z [H1 H2] [H3 H4]. split; [by etrans|]. intros H.
  assert (RB (f y) (f x)) by by etrans. assert (RB (f z) (f y)) by by etrans.
  etrans; eauto.
Qed.
#[global] Instance lex_le_total `{!Total RB, !Total RC, forall a b, Decision (RB a b)} : Total lex_le.
Proof.
  intros x y. unfold lex_le.
  destruct (decide (RB (f x) (f y))), (decide (RB (f y) (f x))); try tauto.
  - destruct (total RC (g x) (g y)); tauto.
  - destruct (total RB (f x) (f y)); tauto.
Qed.
Lemma lex_le_antisymm `{!AntiSymm eq RB, !AntiSymm eq RC} x y :
  lex_le x y -> lex_le y x -> f x = f y /\ g x = g y.
Proof.
  intros [H1 H2] [H3 H4]. split; [by apply (anti_symm RB)|].
  apply (anti_symm RC); eauto.
Qed.
End lex.

Definition by_key {A} (f : A -> string) : relation A := fun x y => String.le (f x) (f y).
#[global] Instance by_key_dec {A} (f : A -> string) : RelDecision (by_key f).
Proof. intros x y. unfold by_key. apply _. Defined.
#[global] Instance by_key_trans {A} (f : A -> string) : Transitive (by_key f).
Proof. intros x y z. unfold by_key. apply transitivity. Qed.
#[global] Instance by_key_total {A} (f : A -> string) : Total (by_key f).
Proof. intros x y. apply (total String.le). Qed.

Lemma sort_unique {A} (R : relation A) `{!RelDecision R, !Transitive R, !Total R} (l l' : list A) :
  (forall x y, x ∈ l -> y ∈ l -> R x y -> R y x -> x = y) ->
  Sorted R l' -> l' ≡ₚ l -> l' = merge_sort R l.
Proof.
  intros Hinj Hs Hp. apply (Sorted_unique_strong R); [| done | by apply Sorted_merge_sort |].
  - intros x y Hx Hy. rewrite Hp in Hx. rewrite merge_sort_Permutation in Hy. eauto.
  - by rewrite merge_sort_Permutation.
Qed.

Lemma elem_of_merge_sort {A} (R : relation A) `{!RelDecision R} (l : list A) x :
  x ∈ merge_sort R l <-> x ∈ l.
Proof. by rewrite merge_sort_Permutation. Qed.
