(* ===== verification/Decimals.v ===== *)
(** * Decimal numbers

    The runtime computes with [decimal.Decimal] of github.com/shopspring/decimal,
    which is not part of the repository.  It is a parameter here: [Decimal] lists the
    operations the code calls, with [dval], the number a decimal stands for
    ("number = value * 10 ^ exp" in the library's documentation), and
    [DecimalLaws] the documented behaviour the theorems rely on: addition,
    subtraction, multiplication, negation and comparison are exact, [Div] rounds to
    16 places (half away from zero), [Mod] is the remainder of truncated division,
    and a printed decimal parses back.  The predicates ([IsPositive], [LessThan], ...)
    are the library's own derivations from [Cmp].

    [QDecimal] is a concrete instance on rationals, which the witnesses evaluate. *)
From stdpp Require Import base list strings.
From Stdlib Require Import QArith Qabs Qround Qreduction Qminmax Lqa DecimalString DecimalZ DecimalPos.
From S2P Require Import Prelude.

Open Scope go_scope.

(** ** Rounding to [DivisionPrecision] = 16 places, half away from zero *)

Definition ulp16 : positive := 10000000000000000.

Definition round16 (q : Q) : Q :=
  if Qle_bool 0 q
  then Qfloor (q * (Zpos ulp16 # 1) + (1 # 2)) # ulp16
  else - (Qfloor (- q * (Zpos ulp16 # 1) + (1 # 2)) # ulp16).

(** Truncation toward zero. *)
Definition Qtrunc (q : Q) : Z :=
  if Qle_bool 0 q then Qfloor q else (- Qfloor (- q))%Z.

(** ** Operations and their laws *)

Class Decimal := {
  D : Type;
  dval : D -> Q;
  dzero : D;                        (** [decimal.Zero] *)
  dint : Z -> D;                    (** [decimal.NewFromInt] *)
  dadd : D -> D -> D;               (** [Add] *)
  dsub : D -> D -> D;               (** [Sub] *)
  dmul : D -> D -> D;               (** [Mul] *)
  ddiv : D -> D -> D;               (** [Div] *)
  dmod : D -> D -> D;               (** [Mod] *)
  dneg : D -> D;                    (** [Neg] *)
  dabs : D -> D;                    (** [Abs] *)
  dcmp : D -> D -> comparison;      (** [Cmp] *)
  dparse : string -> option D;      (** [decimal.NewFromString] *)
  dstring : D -> string;            (** [String] *)
}.

Class DecimalLaws (DD : Decimal) : Prop := {
  dval_zero : dval dzero == 0;
  dval_int z : dval (dint z) == inject_Z z;
  dval_add a b : dval (dadd a b) == dval a + dval b;
  dval_sub a b : dval (dsub a b) == dval a - dval b;
  dval_mul a b : dval (dmul a b) == dval a * dval b;
  dval_div a b : ~ dval b == 0 -> dval (ddiv a b) == round16 (dval a / dval b);
  dval_mod a b : ~ dval b == 0 ->
    dval (dmod a b) == dval a - dval b * inject_Z (Qtrunc (dval a / dval b));
  dval_neg a : dval (dneg a) == - dval a;
  dval_abs a : dval (dabs a) == Qabs (dval a);
  dcmp_val a b : dcmp a b = (dval a ?= dval b)%Q;
  dparse_string a : exists b, dparse (dstring a) = Some b /\ dval b == dval a;
  dstring_nonempty a : dstring a <> "";
}.

Section predicates.
Context {DD : Decimal}.
Implicit Types a b : D.

Definition IsZero a : bool := match dcmp a dzero with Eq => true | _ => false end.
Definition IsPositive a : bool := match dcmp a dzero with Gt => true | _ => false end.
Definition IsNegative a : bool := match dcmp a dzero with Lt => true | _ => false end.
Definition Equal a b : bool := match dcmp a b with Eq => true | _ => false end.
Definition LessThan a b : bool := match dcmp a b with Lt => true | _ => false end.
Definition GreaterThan a b : bool := match dcmp a b with Gt => true | _ => false end.
Definition LessThanOrEqual a b : bool := match dcmp a b with Gt => false | _ => true end.
Definition GreaterThanOrEqual a b : bool := match dcmp a b with Lt => false | _ => true end.
Definition Sign a : Z := match dcmp a dzero with Lt => -1 | Eq => 0 | Gt => 1 end.
Definition dmin a b : D := if LessThan b a then b else a.
Definition dmax a b : D := if GreaterThan b a then b else a.
End predicates.

(** ** Reflection of the predicates on [dval] *)
Section laws.
Context {DD : Decimal} {DL : DecimalLaws DD}.
Implicit Types a b : D.

Lemma dcmp_zero a : dcmp a dzero = (dval a ?= 0)%Q.
Proof. rewrite dcmp_val. apply Qcompare_comp; [done | apply dval_zero]. Qed.

Lemma IsZero_spec a : IsZero a = true <-> dval a == 0.
Proof.
  unfold IsZero. rewrite dcmp_zero.
  destruct (Qcompare_spec (dval a) 0); split; intros; try done; lra.
Qed.
Lemma IsPositive_spec a : IsPositive a = true <-> 0 < dval a.
Proof.
  unfold IsPositive. rewrite dcmp_zero.
  destruct (Qcompare_spec (dval a) 0); split; intros; try done; lra.
Qed.
Lemma IsNegative_spec a : IsNegative a = true <-> dval a < 0.
Proof.
  unfold IsNegative. rewrite dcmp_zero.
  destruct (Qcompare_spec (dval a) 0); split; intros; try done; lra.
Qed.
Lemma Equal_spec a b : Equal a b = true <-> dval a == dval b.
Proof.
  unfold Equal. rewrite dcmp_val.
  destruct (Qcompare_spec (dval a) (dval b)); split; intros; try done; lra.
Qed.
Lemma LessThan_spec a b : LessThan a b = true <-> dval a < dval b.
Proof.
  unfold LessThan. rewrite dcmp_val.
  destruct (Qcompare_spec (dval a) (dval b)); split; intros; try done; lra.
Qed.
Lemma GreaterThan_spec a b : GreaterThan a b = true <-> dval b < dval a.
Proof.
  unfold GreaterThan. rewrite dcmp_val.
  destruct (Qcompare_spec (dval a) (dval b)); split; intros; try done; lra.
Qed.
Lemma LessThanOrEqual_spec a b : LessThanOrEqual a b = true <-> dval a <= dval b.
Proof.
  unfold LessThanOrEqual. rewrite dcmp_val.
  destruct (Qcompare_spec (dval a) (dval b)); split; intros; try done; lra.
Qed.
Lemma GreaterThanOrEqual_spec a b : GreaterThanOrEqual a b = true <-> dval b <= dval a.
Proof.
  unfold GreaterThanOrEqual. rewrite dcmp_val.
  destruct (Qcompare_spec (dval a) (dval b)); split; intros; try done; lra.
Qed.

Lemma IsZero_false a : IsZero a = false <-> ~ dval a == 0.
Proof. rewrite <- IsZero_spec. by destruct (IsZero a). Qed.
Lemma IsPositive_false a : IsPositive a = false <-> dval a <= 0.
Proof.
  destruct (IsPositive a) eqn:E; split; intros; try done.
  - apply IsPositive_spec in E. lra.
  - apply Qnot_lt_le. intros ?%IsPositive_spec. congruence.
Qed.
Lemma IsNegative_false a : IsNegative a = false <-> 0 <= dval a.
Proof.
  destruct (IsNegative a) eqn:E; split; intros; try done.
  - apply IsNegative_spec in E. lra.
  - apply Qnot_lt_le. intros ?%IsNegative_spec. congruence.
Qed.
Lemma Equal_false a b : Equal a b = false <-> ~ dval a == dval b.
Proof. rewrite <- Equal_spec. by destruct (Equal a b). Qed.
Lemma LessThan_false a b : LessThan a b = false <-> dval b <= dval a.
Proof.
  destruct (LessThan a b) eqn:E; split; intros; try done.
  - apply LessThan_spec in E. lra.
  - apply Qnot_lt_le. intros ?%LessThan_spec. congruence.
Qed.
Lemma GreaterThan_false a b : GreaterThan a b = false <-> dval a <= dval b.
Proof.
  destruct (GreaterThan a b) eqn:E; split; intros; try done.
  - apply GreaterThan_spec in E. lra.
  - apply Qnot_lt_le. intros ?%GreaterThan_spec. congruence.
Qed.
Lemma LessThanOrEqual_false a b : LessThanOrEqual a b = false <-> dval b < dval a.
Proof.
  destruct (LessThanOrEqual a b) eqn:E; split; intros; try done.
  - apply LessThanOrEqual_spec in E. lra.
  - apply Qnot_le_lt. intros ?%LessThanOrEqual_spec. congruence.
Qed.
Lemma GreaterThanOrEqual_false a b : GreaterThanOrEqual a b = false <-> dval a < dval b.
Proof.
  destruct (GreaterThanOrEqual a b) eqn:E; split; intros; try done.
  - apply GreaterThanOrEqual_spec in E. lra.
  - apply Qnot_le_lt. intros ?%GreaterThanOrEqual_spec. congruence.
Qed.

Lemma dval_min a b : dval (dmin a b) == Qmin (dval a) (dval b).
Proof.
  unfold dmin. destruct (LessThan b a) eqn:E.
  - apply LessThan_spec in E. rewrite Q.min_r; [done | lra].
  - apply LessThan_false in E. rewrite Q.min_l; [done | lra].
Qed.
End laws.

(** Moves every decimal fact of the context and the goal to [Q]. *)
Ltac dec_hyps :=
  repeat match goal with
  | H : IsZero _ = true |- _ => apply IsZero_spec in H
  | H : IsZero _ = false |- _ => apply IsZero_false in H
  | H : IsPositive _ = true |- _ => apply IsPositive_spec in H
  | H : IsPositive _ = false |- _ => apply IsPositive_false in H
  | H : IsNegative _ = true |- _ => apply IsNegative_spec in H
  | H : IsNegative _ = false |- _ => apply IsNegative_false in H
  | H : Equal _ _ = true |- _ => apply Equal_spec in H
  | H : Equal _ _ = false |- _ => apply Equal_false in H
  | H : LessThan _ _ = true |- _ => apply LessThan_spec in H
  | H : LessThan _ _ = false |- _ => apply LessThan_false in H
  | H : GreaterThan _ _ = true |- _ => apply GreaterThan_spec in H
  | H : GreaterThan _ _ = false |- _ => apply GreaterThan_false in H
  | H : LessThanOrEqual _ _ = true |- _ => apply LessThanOrEqual_spec in H
  | H : LessThanOrEqual _ _ = false |- _ => apply LessThanOrEqual_false in H
  | H : GreaterThanOrEqual _ _ = true |- _ => apply GreaterThanOrEqual_spec in H
  | H : GreaterThanOrEqual _ _ = false |- _ => apply GreaterThanOrEqual_false in H
  end.
Ltac dec_goal :=
  lazymatch goal with
  | |- IsZero _ = true => apply IsZero_spec
  | |- IsZero _ = false => apply IsZero_false
  | |- IsPositive _ = true => apply IsPositive_spec
  | |- IsPositive _ = false => apply IsPositive_false
  | |- IsNegative _ = true => apply IsNegative_spec
  | |- IsNegative _ = false => apply IsNegative_false
  | |- Equal _ _ = true => apply Equal_spec
  | |- Equal _ _ = false => apply Equal_false
  | |- LessThan _ _ = true => apply LessThan_spec
  | |- LessThan _ _ = false => apply LessThan_false
  | |- GreaterThan _ _ = true => apply GreaterThan_spec
  | |- GreaterThan _ _ = false => apply GreaterThan_false
  | |- LessThanOrEqual _ _ = true => apply LessThanOrEqual_spec
  | |- LessThanOrEqual _ _ = false => apply LessThanOrEqual_false
  | |- GreaterThanOrEqual _ _ = true => apply GreaterThanOrEqual_spec
  | |- GreaterThanOrEqual _ _ = false => apply GreaterThanOrEqual_false
  | |- _ => idtac
  end.
Ltac dec_rew :=
  repeat progress rewrite ?dval_add, ?dval_sub, ?dval_mul, ?dval_neg, ?dval_abs, ?dval_zero, ?dval_int in *.
Ltac dec := dec_hyps; dec_goal; dec_rew; try lra.

(** ** Properties of the rounding *)

Lemma round16_error q : Qabs (round16 q - q) <= 1 # (2 * ulp16).
Proof.
  assert (H0 : forall x, Qabs ((Qfloor (x * (Zpos ulp16 # 1) + (1 # 2)) # ulp16) - x) <= 1 # (2 * ulp16)).
  { intros x. pose proof (Qfloor_le (x * (Zpos ulp16 # 1) + (1 # 2))) as H1.
    pose proof (Qlt_floor (x * (Zpos ulp16 # 1) + (1 # 2))) as H2.
    set (z := Qfloor _) in *. rewrite inject_Z_plus in H2.
    assert (E : z # ulp16 == inject_Z z * (1 # ulp16)) by (unfold Qeq, inject_Z; simpl; lia).
    change (inject_Z 1) with 1 in H2. rewrite E.
    change (1 # (2 * ulp16)) with (1 # 20000000000000000).
    unfold ulp16 in *. generalize dependent (inject_Z z). intros w H1 H2 _.
    apply Qabs_Qle_condition. split; lra. }
  unfold round16. destruct (Qle_bool 0 q); [apply H0|].
  rewrite <- Qabs_opp.
  setoid_replace (- (- (Qfloor (- q * (Zpos ulp16 # 1) + (1 # 2)) # ulp16) - q))
    with ((Qfloor (- q * (Zpos ulp16 # 1) + (1 # 2)) # ulp16) - - q) using relation Qeq by ring.
  apply H0.
Qed.

Lemma round16_nonneg q : 0 <= q -> 0 <= round16 q.
Proof.
  intros Hq. unfold round16. rewrite (proj2 (Qle_bool_iff 0 q) Hq).
  assert (0 <= Qfloor (q * (Zpos ulp16 # 1) + (1 # 2)))%Z.
  { change 0%Z with (Qfloor 0). apply Qfloor_resp_le. unfold ulp16. lra. }
  generalize dependent (Qfloor (q * (Zpos ulp16 # 1) + (1 # 2))).
  intros z Hz. unfold Qle; simpl. lia.
Qed.

#[global] Instance round16_proper : Proper (Qeq ==> Qeq) round16.
Proof.
  intros x y E. unfold round16. rewrite (Qleb_comp 0 0 (Qeq_refl 0) x y E).
  destruct (Qle_bool 0 y); now rewrite E.
Qed.

(** ** A concrete instance

    Rationals in lowest terms, printed as ["num"] or ["num/den"]. *)

Definition slash : Ascii.ascii := Ascii.Ascii true true true true false true false false.

(** [strings.Cut(s, c)]: the text before and after the first [c]. *)
Fixpoint cut (c : Ascii.ascii) (s : string) : option (string * string) :=
  match s with
  | EmptyString => None
  | String x s' =>
      if Ascii.eqb x c then Some (EmptyString, s')
      else match cut c s' with
           | Some (l, r) => Some (String x l, r)
           | None => None
           end
  end.

Definition Qprint (q : Q) : string :=
  let q := Qred q in
  if Pos.eqb (Qden q) 1 then NilZero.string_of_int (Z.to_int (Qnum q))
  else String.append (NilZero.string_of_int (Z.to_int (Qnum q)))
         (String slash (NilZero.string_of_uint (Pos.to_uint (Qden q)))).

Definition Qparse_int (s : string) : option Z := Z.of_int <$> NilZero.int_of_string s.

Definition Qparse (s : string) : option Q :=
  match cut slash s with
  | None => inject_Z <$> Qparse_int s
  | Some (n, d) =>
      match Qparse_int n, Qparse_int d with
      | Some n, Some (Zpos d) => Some (n # d)
      | _, _ => None
      end
  end.

#[export] Instance QDecimal : Decimal := {
  D := Q;
  dval q := q;
  dzero := 0;
  dint z := inject_Z z;
  dadd a b := Qred (a + b);
  dsub a b := Qred (a - b);
  dmul a b := Qred (a * b);
  ddiv a b := Qred (round16 (a / b));
  dmod a b := Qred (a - b * inject_Z (Qtrunc (a / b)));
  dneg a := Qred (- a);
  dabs a := Qred (Qabs a);
  dcmp a b := (a ?= b)%Q;
  dparse := Qparse;
  dstring := Qprint;
}.

Lemma append_nil_l s : String.append "" s = s.
Proof. reflexivity. Qed.
Lemma append_cons a s t : String.append (String a s) t = String a (String.append s t).
Proof. reflexivity. Qed.
Lemma append_nil_r s : String.append s "" = s.
Proof. induction s; [done|]. rewrite append_cons. by f_equal. Qed.

Lemma cut_uint_app u s :
  cut slash (String.append (NilEmpty.string_of_uint u) s) =
  match cut slash s with
  | Some (l, r) => Some (String.append (NilEmpty.string_of_uint u) l, r)
  | None => None
  end.
Proof.
  induction u as [|u IH|u IH|u IH|u IH|u IH|u IH|u IH|u IH|u IH|u IH]; simpl;
    rewrite ?append_cons, ?append_nil_l; simpl; rewrite ?IH;
    destruct (cut slash s) as [[]|]; rewrite ?append_cons, ?append_nil_l; done.
Qed.

Lemma string_of_uint_zero u :
  NilZero.string_of_uint u = NilEmpty.string_of_uint u \/
  NilZero.string_of_uint u = NilEmpty.string_of_uint (Init.Decimal.D0 Init.Decimal.Nil).
Proof. destruct u; eauto. Qed.

Lemma cut_uint u : cut slash (NilZero.string_of_uint u) = None.
Proof.
  destruct (string_of_uint_zero u) as [->| ->]; [|done].
  rewrite <- (append_nil_r (NilEmpty.string_of_uint u)), cut_uint_app. done.
Qed.

Lemma cut_int_app z s :
  cut slash (String.append (NilZero.string_of_int (Z.to_int z)) (String slash s)) =
  Some (NilZero.string_of_int (Z.to_int z), s).
Proof.
  assert (N : forall u, cut slash (String.append (NilZero.string_of_uint u) (String slash s)) =
                        Some (NilZero.string_of_uint u, s)).
  { intros u. destruct (string_of_uint_zero u) as [->| ->]; [|done].
    rewrite cut_uint_app. simpl. by rewrite append_nil_r. }
  destruct (Z.to_int z) as [u|u]; [apply N|].
  unfold NilZero.string_of_int. rewrite append_cons. simpl. by rewrite N.
Qed.

Lemma cut_int z : cut slash (NilZero.string_of_int (Z.to_int z)) = None.
Proof. destruct (Z.to_int z); simpl; by rewrite cut_uint. Qed.

Lemma to_int_not_nil z : Z.to_int z <> Init.Decimal.Pos Init.Decimal.Nil /\ Z.to_int z <> Init.Decimal.Neg Init.Decimal.Nil.
Proof.
  destruct z as [|p|p]; simpl; split; try discriminate; intros [= E];
    by apply DecimalPos.Unsigned.to_uint_nonnil in E.
Qed.

Lemma Qparse_print_int z : Qparse_int (NilZero.string_of_int (Z.to_int z)) = Some z.
Proof.
  unfold Qparse_int. destruct (to_int_not_nil z). rewrite NilZero.isi by done.
  simpl. by rewrite DecimalZ.of_to.
Qed.

Lemma Qparse_print q : Qparse (Qprint q) = Some (Qred q).
Proof.
  unfold Qprint, Qparse. destruct (Qred q) as [n d]; cbn [Qnum Qden].
  destruct (Pos.eqb_spec d 1) as [->|].
  - by rewrite cut_int, Qparse_print_int.
  - rewrite cut_int_app, Qparse_print_int.
    change (NilZero.string_of_uint (Pos.to_uint d)) with
      (NilZero.string_of_int (Z.to_int (Zpos d))).
    by rewrite Qparse_print_int.
Qed.

#[export] Instance QDecimalLaws : DecimalLaws QDecimal.
Proof.
  constructor; intros; cbn -[Qeq Qred]; try reflexivity; try apply Qred_correct.
  - exists (Qred a). split; [apply Qparse_print | apply Qred_correct].
  - unfold Qprint.
    destruct (Pos.eqb _ _); destruct (Z.to_int _) as [u|u]; try done; by destruct u.
Qed.
