(* ===== verification/Enums.v ===== *)
(** * Enumerations

    The string enumerations of the model, kernel, risk, execution and backtest packages.
    A Go string type holds any string, so each type here has its declared constants, the
    empty string (the zero value) and [...Other s] for any other value; [..._string] is
    the underlying string.  The methods of the types follow their declarations. *)
From stdpp Require Import base strings.
From S2P Require Import Prelude.

(** ** model/order.go *)

(** [model.OrderSide] *)
Inductive OrderSide :=
  | OrderSideNone
  | OrderSideBuy | OrderSideSell
  | OrderSideOther (s : string).

#[global] Instance OrderSide_eq_dec : EqDecision OrderSide.
Proof. solve_decision. Defined.

Definition OrderSide_string (x : OrderSide) : string :=
  match x with
  | OrderSideNone => ""
  | OrderSideBuy => "buy"
  | OrderSideSell => "sell"
  | OrderSideOther s => s
  end.

Definition OrderSide_Opposite (s : OrderSide) : OrderSide :=
  match s with
  | OrderSideBuy => OrderSideSell
  | OrderSideSell => OrderSideBuy
  | _ => OrderSideNone
  end.

(** [model.ContingencyType] *)
Inductive ContingencyType :=
  | ContingencyTypeNone
  | ContingencyTypeOTO | ContingencyTypeOCO | ContingencyTypeOUO
  | ContingencyTypeOther (s : string).

#[global] Instance ContingencyType_eq_dec : EqDecision ContingencyType.
Proof. solve_decision. Defined.

Definition ContingencyType_string (x : ContingencyType) : string :=
  match x with
  | ContingencyTypeNone => ""
  | ContingencyTypeOTO => "oto"
  | ContingencyTypeOCO => "oco"
  | ContingencyTypeOUO => "ouo"
  | ContingencyTypeOther s => s
  end.

Definition ContingencyType_Validate (c : ContingencyType) : res unit :=
  match c with
  | ContingencyTypeNone => Ok tt
  | ContingencyTypeOTO | ContingencyTypeOCO | ContingencyTypeOUO => Ok tt
  | ContingencyTypeOther _ => Fail (mkErr ErrInvalidOrder "invalid contingency type")
  end.

(** [model.OrderType] *)
Inductive OrderType :=
  | OrderTypeNone
  | OrderTypeMarket | OrderTypeLimit | OrderTypeMarketToLimit | OrderTypeStopMarket 
  | OrderTypeStopLimit | OrderTypeMarketIfTouched | OrderTypeLimitIfTouched 
  | OrderTypeTrailingStopMarket | OrderTypeTrailingStopLimit
  | OrderTypeOther (s : string).

#[global] Instance OrderType_eq_dec : EqDecision OrderType.
Proof. solve_decision. Defined.

Definition OrderType_string (x : OrderType) : string :=
  match x with
  | OrderTypeNone => ""
  | OrderTypeMarket => "market"
  | OrderTypeLimit => "limit"
  | OrderTypeMarketToLimit => "market_to_limit"
  | OrderTypeStopMarket => "stop_market"
  | OrderTypeStopLimit => "stop_limit"
  | OrderTypeMarketIfTouched => "market_if_touched"
  | OrderTypeLimitIfTouched => "limit_if_touched"
  | OrderTypeTrailingStopMarket => "trailing_stop_market"
  | OrderTypeTrailingStopLimit => "trailing_stop_limit"
  | OrderTypeOther s => s
  end.

Definition OrderType_Validate (t : OrderType) : res unit :=
  match t with
  | OrderTypeNone | OrderTypeOther _ => Fail (mkErr ErrInvalidOrder "invalid order type")
  | _ => Ok tt
  end.

Definition orderTypeAllowsLimitPrice (t : OrderType) : bool :=
  (t ≟ OrderTypeLimit) || (t ≟ OrderTypeStopLimit) || (t ≟ OrderTypeLimitIfTouched) ||
  (t ≟ OrderTypeTrailingStopLimit) || (t ≟ OrderTypeMarketToLimit).

Definition orderTypeAllowsTriggerPrice (t : OrderType) : bool :=
  (t ≟ OrderTypeStopMarket) || (t ≟ OrderTypeStopLimit) ||
  (t ≟ OrderTypeMarketIfTouched) || (t ≟ OrderTypeLimitIfTouched).

Definition orderTypeAllowsTrailing (t : OrderType) : bool :=
  (t ≟ OrderTypeTrailingStopMarket) || (t ≟ OrderTypeTrailingStopLimit).

(** [model.TimeInForce] *)
Inductive TimeInForce :=
  | TimeInForceNone
  | TimeInForceGTC | TimeInForceIOC | TimeInForceFOK | TimeInForceGTD | TimeInForceDAY
  | TimeInForceOther (s : string).

#[global] Instance TimeInForce_eq_dec : EqDecision TimeInForce.
Proof. solve_decision. Defined.

Definition TimeInForce_string (x : TimeInForce) : string :=
  match x with
  | TimeInForceNone => ""
  | TimeInForceGTC => "gtc"
  | TimeInForceIOC => "ioc"
  | TimeInForceFOK => "fok"
  | TimeInForceGTD => "gtd"
  | TimeInForceDAY => "day"
  | TimeInForceOther s => s
  end.

Definition TimeInForce_Validate (t : TimeInForce) : res unit :=
  match t with
  | TimeInForceOther _ => Fail (mkErr ErrInvalidOrder "invalid time in force")
  | _ => Ok tt
  end.

(** [model.TriggerType] *)
Inductive TriggerType :=
  | TriggerTypeNone
  | TriggerTypeNoTrigger | TriggerTypeDefault | TriggerTypeBidAsk | TriggerTypeLastPrice
  | TriggerTypeOther (s : string).

#[global] Instance TriggerType_eq_dec : EqDecision TriggerType.
Proof. solve_decision. Defined.

Definition TriggerType_string (x : TriggerType) : string :=
  match x with
  | TriggerTypeNone => ""
  | TriggerTypeNoTrigger => "no_trigger"
  | TriggerTypeDefault => "default"
  | TriggerTypeBidAsk => "bid_ask"
  | TriggerTypeLastPrice => "last_price"
  | TriggerTypeOther s => s
  end.

Definition TriggerType_Validate (t : TriggerType) : res unit :=
  match t with
  | TriggerTypeOther _ => Fail (mkErr ErrInvalidOrder "invalid trigger type")
  | _ => Ok tt
  end.

Definition TriggerType_IsActive (t : TriggerType) : bool :=
  (t ≠? TriggerTypeNone) && (t ≠? TriggerTypeNoTrigger).

(** [model.TrailingOffsetType] *)
Inductive TrailingOffsetType :=
  | TrailingOffsetTypeNone
  | TrailingOffsetTypePrice | TrailingOffsetTypeBasisPoints | TrailingOffsetTypeTicks
  | TrailingOffsetTypeOther (s : string).

#[global] Instance TrailingOffsetType_eq_dec : EqDecision TrailingOffsetType.
Proof. solve_decision. Defined.

Definition TrailingOffsetType_string (x : TrailingOffsetType) : string :=
  match x with
  | TrailingOffsetTypeNone => ""
  | TrailingOffsetTypePrice => "price"
  | TrailingOffsetTypeBasisPoints => "basis_points"
  | TrailingOffsetTypeTicks => "ticks"
  | TrailingOffsetTypeOther s => s
  end.

Definition TrailingOffsetType_Canonical (t : TrailingOffsetType) : TrailingOffsetType :=
  if t ≟ TrailingOffsetTypeNone then TrailingOffsetTypePrice else t.

Definition TrailingOffsetType_Validate (t : TrailingOffsetType) : res unit :=
  match TrailingOffsetType_Canonical t with
  | TrailingOffsetTypePrice | TrailingOffsetTypeBasisPoints | TrailingOffsetTypeTicks => Ok tt
  | _ => Fail (mkErr ErrInvalidOrder "invalid trailing offset type")
  end.

(** [model.OrderStatus] *)
Inductive OrderStatus :=
  | OrderStatusNone
  | OrderStatusInitialized | OrderStatusDenied | OrderStatusEmulated | OrderStatusReleased 
  | OrderStatusSubmitted | OrderStatusAccepted | OrderStatusTriggered 
  | OrderStatusPendingCancel | OrderStatusPendingUpdate | OrderStatusPartiallyFilled 
  | OrderStatusFilled | OrderStatusCanceled | OrderStatusRejected | OrderStatusExpired
  | OrderStatusOther (s : string).

#[global] Instance OrderStatus_eq_dec : EqDecision OrderStatus.
Proof. solve_decision. Defined.

Definition OrderStatus_string (x : OrderStatus) : string :=
  match x with
  | OrderStatusNone => ""
  | OrderStatusInitialized => "initialized"
  | OrderStatusDenied => "denied"
  | OrderStatusEmulated => "emulated"
  | OrderStatusReleased => "released"
  | OrderStatusSubmitted => "submitted"
  | OrderStatusAccepted => "accepted"
  | OrderStatusTriggered => "triggered"
  | OrderStatusPendingCancel => "pending_cancel"
  | OrderStatusPendingUpdate => "pending_update"
  | OrderStatusPartiallyFilled => "partially_filled"
  | OrderStatusFilled => "filled"
  | OrderStatusCanceled => "canceled"
  | OrderStatusRejected => "rejected"
  | OrderStatusExpired => "expired"
  | OrderStatusOther s => s
  end.

Definition OrderStatus_IsTerminal (s : OrderStatus) : bool :=
  match s with
  | OrderStatusDenied | OrderStatusFilled | OrderStatusCanceled
  | OrderStatusRejected | OrderStatusExpired => true
  | _ => false
  end.

Definition OrderStatus_IsOpen (s : OrderStatus) : bool :=
  (s ≠? OrderStatusNone) && negb (OrderStatus_IsTerminal s).

(** [model.PositionSide] *)
Inductive PositionSide :=
  | PositionSideNone
  | PositionSideLong | PositionSideShort | PositionSideFlat
  | PositionSideOther (s : string).

#[global] Instance PositionSide_eq_dec : EqDecision PositionSide.
Proof. solve_decision. Defined.

Definition PositionSide_string (x : PositionSide) : string :=
  match x with
  | PositionSideNone => ""
  | PositionSideLong => "long"
  | PositionSideShort => "short"
  | PositionSideFlat => "flat"
  | PositionSideOther s => s
  end.

(** ** model/order_event.go, model/position_event.go *)

(** [model.OrderEventKind] *)
Inductive OrderEventKind :=
  | OrderEventNone
  | OrderEventInitialized | OrderEventDenied | OrderEventEmulated | OrderEventReleased 
  | OrderEventSubmitted | OrderEventAccepted | OrderEventRejected | OrderEventTriggered 
  | OrderEventPendingUpdate | OrderEventPendingCancel | OrderEventUpdated 
  | OrderEventModifyRejected | OrderEventCancelRejected | OrderEventCanceled 
  | OrderEventExpired | OrderEventPartiallyFilled | OrderEventFilled
  | OrderEventKindOther (s : string).

#[global] Instance OrderEventKind_eq_dec : EqDecision OrderEventKind.
Proof. solve_decision. Defined.

Definition OrderEventKind_string (x : OrderEventKind) : string :=
  match x with
  | OrderEventNone => ""
  | OrderEventInitialized => "order_initialized"
  | OrderEventDenied => "order_denied"
  | OrderEventEmulated => "order_emulated"
  | OrderEventReleased => "order_released"
  | OrderEventSubmitted => "order_submitted"
  | OrderEventAccepted => "order_accepted"
  | OrderEventRejected => "order_rejected"
  | OrderEventTriggered => "order_triggered"
  | OrderEventPendingUpdate => "order_pending_update"
  | OrderEventPendingCancel => "order_pending_cancel"
  | OrderEventUpdated => "order_updated"
  | OrderEventModifyRejected => "order_modify_rejected"
  | OrderEventCancelRejected => "order_cancel_rejected"
  | OrderEventCanceled => "order_canceled"
  | OrderEventExpired => "order_expired"
  | OrderEventPartiallyFilled => "order_partially_filled"
  | OrderEventFilled => "order_filled"
  | OrderEventKindOther s => s
  end.

Definition OrderEventKind_TargetStatus (k : OrderEventKind) : option OrderStatus :=
  match k with
  | OrderEventInitialized => Some OrderStatusInitialized
  | OrderEventDenied => Some OrderStatusDenied
  | OrderEventEmulated => Some OrderStatusEmulated
  | OrderEventReleased => Some OrderStatusReleased
  | OrderEventSubmitted => Some OrderStatusSubmitted
  | OrderEventAccepted => Some OrderStatusAccepted
  | OrderEventRejected => Some OrderStatusRejected
  | OrderEventTriggered => Some OrderStatusTriggered
  | OrderEventPendingUpdate => Some OrderStatusPendingUpdate
  | OrderEventPendingCancel => Some OrderStatusPendingCancel
  | OrderEventUpdated | OrderEventModifyRejected | OrderEventCancelRejected =>
      Some OrderStatusAccepted
  | OrderEventCanceled => Some OrderStatusCanceled
  | OrderEventExpired => Some OrderStatusExpired
  | OrderEventPartiallyFilled => Some OrderStatusPartiallyFilled
  | OrderEventFilled => Some OrderStatusFilled
  | OrderEventNone | OrderEventKindOther _ => None
  end.

(** [model.PositionEventKind] *)
Inductive PositionEventKind :=
  | PositionEventNone
  | PositionEventOpened | PositionEventChanged | PositionEventClosed
  | PositionEventKindOther (s : string).

#[global] Instance PositionEventKind_eq_dec : EqDecision PositionEventKind.
Proof. solve_decision. Defined.

Definition PositionEventKind_string (x : PositionEventKind) : string :=
  match x with
  | PositionEventNone => ""
  | PositionEventOpened => "position_opened"
  | PositionEventChanged => "position_changed"
  | PositionEventClosed => "position_closed"
  | PositionEventKindOther s => s
  end.

(** ** model/account.go, model/instrument.go, model/order_list.go, model/market_data.go *)

(** [model.AccountType] *)
Inductive AccountType :=
  | AccountTypeNone
  | AccountTypeCash | AccountTypeMargin
  | AccountTypeOther (s : string).

#[global] Instance AccountType_eq_dec : EqDecision AccountType.
Proof. solve_decision. Defined.

Definition AccountType_string (x : AccountType) : string :=
  match x with
  | AccountTypeNone => ""
  | AccountTypeCash => "cash"
  | AccountTypeMargin => "margin"
  | AccountTypeOther s => s
  end.

(** [model.InstrumentType] *)
Inductive InstrumentType :=
  | InstrumentTypeNone
  | InstrumentTypeSpot | InstrumentTypePerp | InstrumentTypeFuture | InstrumentTypeOption 
  | InstrumentTypeSpread | InstrumentTypeSynthetic | InstrumentTypeIndex | InstrumentTypeEquity 
  | InstrumentTypeBetting
  | InstrumentTypeOther (s : string).

#[global] Instance InstrumentType_eq_dec : EqDecision InstrumentType.
Proof. solve_decision. Defined.

Definition InstrumentType_string (x : InstrumentType) : string :=
  match x with
  | InstrumentTypeNone => ""
  | InstrumentTypeSpot => "spot"
  | InstrumentTypePerp => "perp"
  | InstrumentTypeFuture => "future"
  | InstrumentTypeOption => "option"
  | InstrumentTypeSpread => "spread"
  | InstrumentTypeSynthetic => "synthetic"
  | InstrumentTypeIndex => "index"
  | InstrumentTypeEquity => "equity"
  | InstrumentTypeBetting => "betting"
  | InstrumentTypeOther s => s
  end.

Definition InstrumentType_Validate (t : InstrumentType) : res unit :=
  match t with
  | InstrumentTypeNone | InstrumentTypeOther _ =>
      Fail (mkErr ErrInvalidInstrument "invalid instrument type")
  | _ => Ok tt
  end.

Definition requiresBaseQuote (t : InstrumentType) : bool :=
  match t with
  | InstrumentTypeSpot | InstrumentTypePerp | InstrumentTypeFuture | InstrumentTypeOption => true
  | _ => false
  end.

Definition requiresSettle (t : InstrumentType) : bool :=
  match t with
  | InstrumentTypePerp | InstrumentTypeFuture | InstrumentTypeOption => true
  | _ => false
  end.

(** [model.InstrumentStatus] *)
Inductive InstrumentStatus :=
  | InstrumentStatusNone
  | InstrumentStatusTrading | InstrumentStatusHalted
  | InstrumentStatusOther (s : string).

#[global] Instance InstrumentStatus_eq_dec : EqDecision InstrumentStatus.
Proof. solve_decision. Defined.

Definition InstrumentStatus_string (x : InstrumentStatus) : string :=
  match x with
  | InstrumentStatusNone => ""
  | InstrumentStatusTrading => "trading"
  | InstrumentStatusHalted => "halted"
  | InstrumentStatusOther s => s
  end.

(** [model.OrderListKind] *)
Inductive OrderListKind :=
  | OrderListKindNone
  | OrderListKindBulk | OrderListKindOTO | OrderListKindOCO | OrderListKindOUO 
  | OrderListKindBracket
  | OrderListKindOther (s : string).

#[global] Instance OrderListKind_eq_dec : EqDecision OrderListKind.
Proof. solve_decision. Defined.

Definition OrderListKind_string (x : OrderListKind) : string :=
  match x with
  | OrderListKindNone => ""
  | OrderListKindBulk => "bulk"
  | OrderListKindOTO => "oto"
  | OrderListKindOCO => "oco"
  | OrderListKindOUO => "ouo"
  | OrderListKindBracket => "bracket"
  | OrderListKindOther s => s
  end.

(** [model.MarketDataType] *)
Inductive MarketDataType :=
  | MarketDataTypeNone
  | MarketDataTypeTicker | MarketDataTypeOrderBook | MarketDataTypeTradeTick 
  | MarketDataTypeQuoteTick | MarketDataTypeBar | MarketDataTypeFundingRate 
  | MarketDataTypeCustom
  | MarketDataTypeOther (s : string).

#[global] Instance MarketDataType_eq_dec : EqDecision MarketDataType.
Proof. solve_decision. Defined.

Definition MarketDataType_string (x : MarketDataType) : string :=
  match x with
  | MarketDataTypeNone => ""
  | MarketDataTypeTicker => "ticker"
  | MarketDataTypeOrderBook => "order_book"
  | MarketDataTypeTradeTick => "trade_tick"
  | MarketDataTypeQuoteTick => "quote_tick"
  | MarketDataTypeBar => "bar"
  | MarketDataTypeFundingRate => "funding_rate"
  | MarketDataTypeCustom => "custom"
  | MarketDataTypeOther s => s
  end.

Definition MarketDataType_Validate (t : MarketDataType) : res unit :=
  match t with
  | MarketDataTypeNone | MarketDataTypeOther _ =>
      Fail (mkErr ErrInvalidMarketData "invalid market data type")
  | _ => Ok tt
  end.

(** [model.AggressorSide] *)
Inductive AggressorSide :=
  | AggressorSideNone
  | AggressorSideBuyer | AggressorSideSeller | AggressorSideNoAggressor
  | AggressorSideOther (s : string).

#[global] Instance AggressorSide_eq_dec : EqDecision AggressorSide.
Proof. solve_decision. Defined.

Definition AggressorSide_string (x : AggressorSide) : string :=
  match x with
  | AggressorSideNone => ""
  | AggressorSideBuyer => "buyer"
  | AggressorSideSeller => "seller"
  | AggressorSideNoAggressor => "no_aggressor"
  | AggressorSideOther s => s
  end.

Definition AggressorSide_Validate (s : AggressorSide) : res unit :=
  match s with
  | AggressorSideBuyer | AggressorSideSeller | AggressorSideNoAggressor => Ok tt
  | _ => Fail (mkErr ErrInvalidMarketData "invalid aggressor side")
  end.

(** [model.BarAggregation] *)
Inductive BarAggregation :=
  | BarAggregationNone
  | BarAggregationTime
  | BarAggregationOther (s : string).

#[global] Instance BarAggregation_eq_dec : EqDecision BarAggregation.
Proof. solve_decision. Defined.

Definition BarAggregation_string (x : BarAggregation) : string :=
  match x with
  | BarAggregationNone => ""
  | BarAggregationTime => "time"
  | BarAggregationOther s => s
  end.

(** [model.BarPriceType] *)
Inductive BarPriceType :=
  | BarPriceTypeNone
  | BarPriceTypeLast
  | BarPriceTypeOther (s : string).

#[global] Instance BarPriceType_eq_dec : EqDecision BarPriceType.
Proof. solve_decision. Defined.

Definition BarPriceType_string (x : BarPriceType) : string :=
  match x with
  | BarPriceTypeNone => ""
  | BarPriceTypeLast => "last"
  | BarPriceTypeOther s => s
  end.

(** [model.AggregationSource] *)
Inductive AggregationSource :=
  | AggregationSourceNone
  | AggregationSourceExternal | AggregationSourceInternal
  | AggregationSourceOther (s : string).

#[global] Instance AggregationSource_eq_dec : EqDecision AggregationSource.
Proof. solve_decision. Defined.

Definition AggregationSource_string (x : AggregationSource) : string :=
  match x with
  | AggregationSourceNone => ""
  | AggregationSourceExternal => "external"
  | AggregationSourceInternal => "internal"
  | AggregationSourceOther s => s
  end.

(** ** kernel/component.go, risk/risk.go, execution/manager.go *)

(** [kernel.ComponentState] *)
Inductive ComponentState :=
  | ComponentStateNone
  | ComponentStateInitialized | ComponentStateStarting | ComponentStateRunning 
  | ComponentStateStopping | ComponentStateStopped | ComponentStateDegraded 
  | ComponentStateFaulted
  | ComponentStateOther (s : string).

#[global] Instance ComponentState_eq_dec : EqDecision ComponentState.
Proof. solve_decision. Defined.

Definition ComponentState_string (x : ComponentState) : string :=
  match x with
  | ComponentStateNone => ""
  | ComponentStateInitialized => "initialized"
  | ComponentStateStarting => "starting"
  | ComponentStateRunning => "running"
  | ComponentStateStopping => "stopping"
  | ComponentStateStopped => "stopped"
  | ComponentStateDegraded => "degraded"
  | ComponentStateFaulted => "faulted"
  | ComponentStateOther s => s
  end.

(** [risk.TradingState] *)
Inductive TradingState :=
  | TradingStateNone
  | TradingStateActive | TradingStateHalted | TradingStateReducing
  | TradingStateOther (s : string).

#[global] Instance TradingState_eq_dec : EqDecision TradingState.
Proof. solve_decision. Defined.

Definition TradingState_string (x : TradingState) : string :=
  match x with
  | TradingStateNone => ""
  | TradingStateActive => "active"
  | TradingStateHalted => "halted"
  | TradingStateReducing => "reducing"
  | TradingStateOther s => s
  end.

(** [execution.PositionIDMode] *)
Inductive PositionIDMode :=
  | PositionIDModeNone
  | PositionIDModeNetting | PositionIDModeHedging
  | PositionIDModeOther (s : string).

#[global] Instance PositionIDMode_eq_dec : EqDecision PositionIDMode.
Proof. solve_decision. Defined.

Definition PositionIDMode_string (x : PositionIDMode) : string :=
  match x with
  | PositionIDModeNone => ""
  | PositionIDModeNetting => "netting"
  | PositionIDModeHedging => "hedging"
  | PositionIDModeOther s => s
  end.

(** [execution.OrderListStatus] *)
Inductive OrderListStatus :=
  | OrderListStatusNone
  | OrderListStatusInitialized | OrderListStatusOpen | OrderListStatusClosed
  | OrderListStatusOther (s : string).

#[global] Instance OrderListStatus_eq_dec : EqDecision OrderListStatus.
Proof. solve_decision. Defined.

Definition OrderListStatus_string (x : OrderListStatus) : string :=
  match x with
  | OrderListStatusNone => ""
  | OrderListStatusInitialized => "initialized"
  | OrderListStatusOpen => "open"
  | OrderListStatusClosed => "closed"
  | OrderListStatusOther s => s
  end.

(** ** Facts shared by the components *)

Lemma IsOpen_not_terminal s : OrderStatus_IsOpen s = true -> OrderStatus_IsTerminal s = false.
Proof. by destruct s. Qed.

Lemma IsTerminal_not_open s : OrderStatus_IsTerminal s = true -> OrderStatus_IsOpen s = false.
Proof. by destruct s. Qed.

Lemma Opposite_involutive s :
  OrderSide_Opposite s <> OrderSideNone -> OrderSide_Opposite (OrderSide_Opposite s) = s.
Proof. by destruct s. Qed.
