(* ===== verification/Identifiers.v ===== *)
(** * Identifiers (model/identifiers.go)

    Go's string helpers on ASCII text, the identifier types and [InstrumentID] with its
    parser, printer and validation.  Parsing accepts exactly what printing produces, up to
    case and surrounding blanks ([parse_print_roundtrip], [parse_canonical]). *)
From stdpp Require Import base gmap list strings.
From Stdlib Require Import Ascii String.
From S2P Require Import Prelude Decimals.

Open Scope go_scope.

(** ** Package strings, on ASCII text *)

Definition is_space (c : ascii) : bool :=
  let n := nat_of_ascii c in (n =? 32)%nat || ((9 <=? n)%nat && (n <=? 13)%nat).

Fixpoint drop_spaces (l : list ascii) : list ascii :=
  match l with
  | [] => []
  | c :: l' => if is_space c then drop_spaces l' else l
  end.

Definition TrimSpace (s : string) : string :=
  string_of_list_ascii (reverse (drop_spaces (reverse (drop_spaces (list_ascii_of_string s))))).

Definition upper (c : ascii) : ascii :=
  let n := nat_of_ascii c in
  if (97 <=? n)%nat && (n <=? 122)%nat then ascii_of_nat (n - 32) else c.

Fixpoint ToUpper (s : string) : string :=
  match s with
  | EmptyString => EmptyString
  | String c s' => String (upper c) (ToUpper s')
  end.

(** [strings.Contains(s, sub)]. *)
Fixpoint Contains (s sub : string) : bool :=
  String.prefix sub s || match s with EmptyString => false | String _ s' => Contains s' sub end.

Definition dot : ascii := Eval cbv in ascii_of_nat 46.

(** [strings.Contains(s, ".")]. *)
Definition has_dot (s : string) : bool := Contains s (String dot EmptyString).

(** ** Identifier types *)

(** Identifiers are Go string types. *)
Abbreviation Venue := string (only parsing).
Abbreviation Currency := string (only parsing).
Abbreviation AccountID := string (only parsing).
Abbreviation ClientOrderID := string (only parsing).
Abbreviation OrderListID := string (only parsing).
Abbreviation OrderID := string (only parsing).
Abbreviation VenueOrderID := string (only parsing).
Abbreviation TradeID := string (only parsing).
Abbreviation PositionID := string (only parsing).
Abbreviation VenuePositionID := string (only parsing).
Abbreviation ExecAlgorithmID := string (only parsing).
Abbreviation ExecSpawnID := string (only parsing).
Abbreviation ComponentID := string (only parsing).
Abbreviation StrategyID := string (only parsing).

Record InstrumentID := mkInstrumentID { id_Symbol : string; id_Venue : Venue }.

#[global] Instance InstrumentID_eq_dec : EqDecision InstrumentID.
Proof. solve_decision. Defined.
#[global] Instance InstrumentID_countable : Countable InstrumentID.
Proof.
  refine (inj_countable' (fun i => (id_Symbol i, id_Venue i))
                         (fun p => mkInstrumentID p.1 p.2) _).
  by intros [].
Defined.

(** The zero value [InstrumentID{}]. *)
Definition InstrumentID_zero : InstrumentID := mkInstrumentID "" "".

Definition InstrumentID_String (id : InstrumentID) : string :=
  if (id_Symbol id ≟ "") && (id_Venue id ≟ "") then ""
  else String.append (id_Symbol id) (String dot (id_Venue id)).

Definition InstrumentID_Validate (id : InstrumentID) : res unit :=
  fail_if (TrimSpace (id_Symbol id) ≟ "") || (TrimSpace (id_Venue id) ≟ "")
    with mkErr ErrInvalidInstrumentID (InstrumentID_String id) ;;
  fail_if has_dot (id_Symbol id)
    with mkErr ErrInvalidInstrumentID (InstrumentID_String id) ;;
  Ok tt.

Definition ParseInstrumentID (raw : string) : res InstrumentID :=
  let raw := TrimSpace raw in
  match cut dot raw with
  | None => Fail (mkErr ErrInvalidInstrumentID raw)
  | Some (symbol, venue) =>
      let id := mkInstrumentID (ToUpper (TrimSpace symbol)) (ToUpper (TrimSpace venue)) in
      ensure InstrumentID_Validate id ;;
      Ok id
  end.

Definition IsSynthetic (id : InstrumentID) : bool := id_Venue id ≟ "SYNTH".

(** ** Facts about trimming and case *)

Definition trimmed (l : list ascii) : Prop :=
  (forall c, head l = Some c -> is_space c = false) /\
  (forall c, last l = Some c -> is_space c = false).

Lemma drop_spaces_head l c : head (drop_spaces l) = Some c -> is_space c = false.
Proof.
  induction l as [|x l IH]; simpl; [done|]. destruct (is_space x) eqn:E; [done|].
  simpl. by intros [= <-].
Qed.

Lemma drop_spaces_id l : (forall c, head l = Some c -> is_space c = false) -> drop_spaces l = l.
Proof. destruct l as [|x l]; simpl; [done|]. intros H. by rewrite (H x). Qed.

Lemma drop_spaces_suffix l : exists k, l = k ++ drop_spaces l.
Proof.
  induction l as [|x l [k IH]]; [by exists []|]. simpl. destruct (is_space x).
  - exists (x :: k). simpl. by f_equal.
  - by exists [].
Qed.

Lemma last_drop_spaces l c : last (drop_spaces l) = Some c -> last l = Some c.
Proof.
  destruct (drop_spaces_suffix l) as [k E]. intros H.
  rewrite E, last_app, H. done.
Qed.

Lemma trim_trimmed s : trimmed (list_ascii_of_string (TrimSpace s)).
Proof.
  unfold TrimSpace. rewrite list_ascii_of_string_of_list_ascii.
  set (l := drop_spaces (list_ascii_of_string s)). split; intros c.
  - rewrite head_reverse. intros H%last_drop_spaces. rewrite last_reverse in H.
    by apply drop_spaces_head in H.
  - rewrite last_reverse. apply drop_spaces_head.
Qed.

Lemma trim_id s : trimmed (list_ascii_of_string s) -> TrimSpace s = s.
Proof.
  intros [Hh Hl]. unfold TrimSpace.
  rewrite (drop_spaces_id (list_ascii_of_string s)) by done.
  rewrite drop_spaces_id, reverse_involutive.
  - apply string_of_list_ascii_of_string.
  - intros c. rewrite head_reverse. apply Hl.
Qed.

Lemma trim_idem s : TrimSpace (TrimSpace s) = TrimSpace s.
Proof. apply trim_id, trim_trimmed. Qed.

Lemma is_space_upper c : is_space (upper c) = is_space c.
Proof. by destruct c as [[] [] [] [] [] [] [] []]. Qed.
Lemma upper_upper c : upper (upper c) = upper c.
Proof. by destruct c as [[] [] [] [] [] [] [] []]. Qed.
Lemma upper_dot c : upper c = dot <-> c = dot.
Proof. destruct c as [[] [] [] [] [] [] [] []]; split; (done || discriminate). Qed.

Lemma ToUpper_idem s : ToUpper (ToUpper s) = ToUpper s.
Proof. induction s; simpl; [done|]. by rewrite upper_upper, IHs. Qed.

Lemma ToUpper_list s : list_ascii_of_string (ToUpper s) = upper <$> list_ascii_of_string s.
Proof. induction s; simpl; [done|]. by rewrite IHs. Qed.

Lemma trim_upper s : trimmed (list_ascii_of_string s) -> trimmed (list_ascii_of_string (ToUpper s)).
Proof.
  rewrite ToUpper_list. intros [Hh Hl]. split; intros c.
  - destruct (list_ascii_of_string s) as [|x l]; [done|].
    intros [= <-]. rewrite is_space_upper. by apply Hh.
  - rewrite fmap_last. destruct (last _) as [x|] eqn:E; [|done].
    intros [= <-]. rewrite is_space_upper. by apply Hl.
Qed.

(** ** Facts about cutting at the dot *)

Lemma prefix_dot c s : String.prefix (String dot EmptyString) (String c s) = bool_decide (c = dot).
Proof. destruct s; by destruct c as [[] [] [] [] [] [] [] []]. Qed.

Lemma has_dot_cons c s : has_dot (String c s) = bool_decide (c = dot) || has_dot s.
Proof. unfold has_dot. rewrite <- (prefix_dot c s). reflexivity. Qed.

Lemma cut_append s t : has_dot s = false -> cut dot (String.append s (String dot t)) = Some (s, t).
Proof.
  induction s as [|c s IH]; [done|]. rewrite has_dot_cons, append_cons. intros H. bools.
  simpl. destruct (Ascii.eqb_spec c dot); [done|]. by rewrite IH.
Qed.

Lemma cut_no_dot s l r : cut dot s = Some (l, r) -> has_dot l = false.
Proof.
  revert l. induction s as [|c s IH]; intros l; simpl; [done|].
  destruct (Ascii.eqb_spec c dot); [by intros [= <- <-]|].
  destruct (cut dot s) as [[l' r']|]; [|done]. intros [= <- <-].
  rewrite has_dot_cons, (IH _ eq_refl), orb_false_r. by apply bool_decide_eq_false.
Qed.

Lemma list_append s t :
  list_ascii_of_string (String.append s t) = list_ascii_of_string s ++ list_ascii_of_string t.
Proof. induction s; [done|]. rewrite append_cons. simpl. by rewrite IHs. Qed.

(** ** Printing and parsing *)

(** The identifiers the parser produces: valid, upper case, without outer blanks. *)
Definition canonical (id : InstrumentID) : Prop :=
  InstrumentID_Validate id = Ok tt /\
  ToUpper (id_Symbol id) = id_Symbol id /\ ToUpper (id_Venue id) = id_Venue id /\
  TrimSpace (id_Symbol id) = id_Symbol id /\ TrimSpace (id_Venue id) = id_Venue id.

Lemma Validate_ok id :
  InstrumentID_Validate id = Ok tt <->
  TrimSpace (id_Symbol id) <> "" /\ TrimSpace (id_Venue id) <> "" /\ has_dot (id_Symbol id) = false.
Proof.
  unfold InstrumentID_Validate. split.
  - intros H. go_inv. bools. done.
  - intros (H1 & H2 & ->). by rewrite !bool_decide_eq_false_2.
Qed.

Lemma trimmed_join s t :
  trimmed (list_ascii_of_string s) -> trimmed (list_ascii_of_string t) -> s <> "" -> t <> "" ->
  trimmed (list_ascii_of_string (String.append s (String dot t))).
Proof.
  intros [Hs _] [_ Ht] Hs0 Ht0. rewrite list_append. split; intros c.
  - destruct s as [|x s]; [done|]. simpl. intros [= <-]. by apply Hs.
  - destruct t as [|x t]; [done|]. rewrite last_app.
    change (list_ascii_of_string (String dot (String x t)))
      with (dot :: list_ascii_of_string (String x t)).
    rewrite last_cons. destruct (last (list_ascii_of_string (String x t))) eqn:E.
    + intros [= <-]. by apply Ht.
    + by apply last_None in E.
Qed.

Lemma parse_print id : canonical id -> ParseInstrumentID (InstrumentID_String id) = Ok id.
Proof.
  intros ([Hs [Hv Hd]]%Validate_ok & Us & Uv & Ts & Tv).
  assert (trimmed (list_ascii_of_string (id_Symbol id))) by (rewrite <- Ts; apply trim_trimmed).
  assert (trimmed (list_ascii_of_string (id_Venue id))) by (rewrite <- Tv; apply trim_trimmed).
  rewrite Ts in Hs. rewrite Tv in Hv.
  unfold InstrumentID_String. rewrite bool_decide_eq_false_2 by done. cbn [andb].
  unfold ParseInstrumentID. rewrite trim_id by by apply trimmed_join.
  rewrite cut_append, Ts, Us, Tv, Uv by done. destruct id as [sy ve]; cbn [id_Symbol id_Venue] in *.
  rewrite (proj2 (Validate_ok (mkInstrumentID sy ve))); [done|]. simpl. by rewrite Ts, Tv.
Qed.

(** C36: instrument identifiers round-trip.  Printing a canonical identifier and parsing
    the text gives the identifier back; and whatever text the parser accepts, with
    blanks or lower case, the identifier it returns is canonical, so that it prints to a
    text which parses to itself. *)
Theorem parse_print_roundtrip :
  (forall id, canonical id -> ParseInstrumentID (InstrumentID_String id) = Ok id) /\
  (forall raw id, ParseInstrumentID raw = Ok id ->
     canonical id /\ ParseInstrumentID (InstrumentID_String id) = Ok id).
Proof.
  split; [apply parse_print|]. intros raw id H.
  assert (canonical id); [|eauto using parse_print].
  unfold ParseInstrumentID in H. destruct (cut _ _) as [[sy ve]|] eqn:E; [|done].
  go_inv. repeat split; simpl; try done.
  1,2: by rewrite ToUpper_idem.
  1,2: apply trim_id, trim_upper, trim_trimmed.
Qed.

Example parse_lower :
  ParseInstrumentID "  btc-usdt . binance " = Ok (mkInstrumentID "BTC-USDT" "BINANCE").
Proof. vm_compute. reflexivity. Qed.

(** The zero identifier does not validate. *)
Lemma zero_invalid : is_ok (InstrumentID_Validate InstrumentID_zero) = false.
Proof. done. Qed.

Lemma valid_nonzero id : InstrumentID_Validate id = Ok tt -> id <> InstrumentID_zero.
Proof. intros H ->. done. Qed.
#[export] Hint Resolve valid_nonzero : go.
