(* ===== verification/Orders.v ===== *)
(** * Commands and reports (model/command_metadata.go, model/order.go)

    The command metadata, the trading commands (submit, modify, cancel, query), the venue
    reports (order status, fill, position), their validation, and
    [ApplyOrderModification], which a venue report goes through when an order is
    modified.  A Go method [T.M] is the definition [T_M]. *)
From stdpp Require Import base gmap list strings.
From Stdlib Require Import QArith Lqa.
From S2P Require Import Prelude Decimals Enums Identifiers.

Open Scope go_scope.

(** ** Command metadata *)

(** [model.CommandMetadata]; a nil and an empty [Params] are the empty map. *)
Record CommandMetadata := mkCommandMetadata {
  md_TraderID : string;
  md_StrategyID : string;
  md_CommandID : string;
  md_CorrelationID : string;
  md_ClientID : string;
  md_ComponentID : string;
  md_ExecAlgorithmID : string;
  md_ExecSpawnID : string;
  md_TsInit : time;
  md_Params : gmap string string;
}.

#[global] Instance set_md_StrategyID : Setter md_StrategyID := fun f r => mkCommandMetadata
  (md_TraderID r) (f (md_StrategyID r)) (md_CommandID r) (md_CorrelationID r) (md_ClientID r)
  (md_ComponentID r) (md_ExecAlgorithmID r) (md_ExecSpawnID r) (md_TsInit r) (md_Params r).

Definition CommandMetadata_zero : CommandMetadata :=
  mkCommandMetadata "" "" "" "" "" "" "" "" 0 ∅.

(** [cloneCommandParams]: a fresh map with the same entries. *)
Definition cloneCommandParams (params : gmap string string) : gmap string string :=
  if (size params =? 0)%nat then ∅ else map_fold (fun k v clone => <[k := v]> clone) ∅ params.

Definition CommandMetadata_Clone (m : CommandMetadata) : CommandMetadata :=
  mkCommandMetadata (md_TraderID m) (md_StrategyID m) (md_CommandID m) (md_CorrelationID m)
    (md_ClientID m) (md_ComponentID m) (md_ExecAlgorithmID m) (md_ExecSpawnID m) (md_TsInit m)
    (cloneCommandParams (md_Params m)).

Definition or_default (s d : string) : string := if s ≟ "" then d else s.

Definition CommandMetadata_WithDefaults (m defaults : CommandMetadata) : CommandMetadata :=
  let m := CommandMetadata_Clone m in
  mkCommandMetadata
    (or_default (md_TraderID m) (md_TraderID defaults))
    (or_default (md_StrategyID m) (md_StrategyID defaults))
    (or_default (md_CommandID m) (md_CommandID defaults))
    (or_default (md_CorrelationID m) (md_CorrelationID defaults))
    (or_default (md_ClientID m) (md_ClientID defaults))
    (or_default (md_ComponentID m) (md_ComponentID defaults))
    (or_default (md_ExecAlgorithmID m) (md_ExecAlgorithmID defaults))
    (or_default (md_ExecSpawnID m) (md_ExecSpawnID defaults))
    (if time_IsZero (md_TsInit m) then md_TsInit defaults else md_TsInit m)
    (if (size (md_Params m) =? 0)%nat && (0 <? size (md_Params defaults))%nat
     then cloneCommandParams (md_Params defaults) else md_Params m).

Lemma cloneCommandParams_id params : cloneCommandParams params = params.
Proof.
  unfold cloneCommandParams. destruct (Nat.eqb_spec (size params) 0) as [E|].
  - symmetry. by apply map_size_empty_inv.
  - apply (map_fold_weak_ind (fun r m => r = m)); [done|]. by intros ????? ->.
Qed.

Lemma Clone_id m : CommandMetadata_Clone m = m.
Proof. destruct m. unfold CommandMetadata_Clone; simpl. by rewrite cloneCommandParams_id. Qed.

Lemma or_default_idem s d : or_default (or_default s d) d = or_default s d.
Proof. unfold or_default. repeat case_bool_decide; done. Qed.
Lemma or_default_assoc s d e : or_default (or_default s d) e = or_default s (or_default d e).
Proof. unfold or_default. repeat case_bool_decide; done. Qed.

Section orders.
Context {DD : Decimal}.

(** ** Submitting *)

(** [model.SubmitOrder] *)
Record SubmitOrder := mkSubmitOrder {
  so_Metadata : CommandMetadata;
  so_AccountID : AccountID;
  so_InstrumentID : InstrumentID;
  so_TriggerInstrumentID : InstrumentID;
  so_OrderListID : OrderListID;
  so_ParentClientOrderID : ClientOrderID;
  so_ClientOrderID : ClientOrderID;
  so_Side : OrderSide;
  so_Type : OrderType;
  so_Contingency : ContingencyType;
  so_TimeInForce : TimeInForce;
  so_Quantity : D;
  so_Price : D;
  so_TriggerPrice : D;
  so_ActivationPrice : D;
  so_TrailingOffset : D;
  so_TrailingOffsetType : TrailingOffsetType;
  so_EmulationTrigger : TriggerType;
  so_PostOnly : bool;
  so_ReduceOnly : bool;
  so_ExpireTime : time;
}.

#[global] Instance set_so_Metadata : Setter so_Metadata := fun f r => mkSubmitOrder (f (so_Metadata
  r)) (so_AccountID r) (so_InstrumentID r) (so_TriggerInstrumentID r) (so_OrderListID r)
  (so_ParentClientOrderID r) (so_ClientOrderID r) (so_Side r) (so_Type r) (so_Contingency r)
  (so_TimeInForce r) (so_Quantity r) (so_Price r) (so_TriggerPrice r) (so_ActivationPrice r)
  (so_TrailingOffset r) (so_TrailingOffsetType r) (so_EmulationTrigger r) (so_PostOnly r)
  (so_ReduceOnly r) (so_ExpireTime r).
#[global] Instance set_so_AccountID : Setter so_AccountID := fun f r => mkSubmitOrder (so_Metadata
  r) (f (so_AccountID r)) (so_InstrumentID r) (so_TriggerInstrumentID r) (so_OrderListID r)
  (so_ParentClientOrderID r) (so_ClientOrderID r) (so_Side r) (so_Type r) (so_Contingency r)
  (so_TimeInForce r) (so_Quantity r) (so_Price r) (so_TriggerPrice r) (so_ActivationPrice r)
  (so_TrailingOffset r) (so_TrailingOffsetType r) (so_EmulationTrigger r) (so_PostOnly r)
  (so_ReduceOnly r) (so_ExpireTime r).
#[global] Instance set_so_InstrumentID : Setter so_InstrumentID := fun f r => mkSubmitOrder
  (so_Metadata r) (so_AccountID r) (f (so_InstrumentID r)) (so_TriggerInstrumentID r)
  (so_OrderListID r) (so_ParentClientOrderID r) (so_ClientOrderID r) (so_Side r) (so_Type r)
  (so_Contingency r) (so_TimeInForce r) (so_Quantity r) (so_Price r) (so_TriggerPrice r)
  (so_ActivationPrice r) (so_TrailingOffset r) (so_TrailingOffsetType r) (so_EmulationTrigger r)
  (so_PostOnly r) (so_ReduceOnly r) (so_ExpireTime r).
#[global] Instance set_so_TriggerInstrumentID : Setter so_TriggerInstrumentID := fun f r =>
  mkSubmitOrder (so_Metadata r) (so_AccountID r) (so_InstrumentID r) (f (so_TriggerInstrumentID r))
  (so_OrderListID r) (so_ParentClientOrderID r) (so_ClientOrderID r) (so_Side r) (so_Type r)
  (so_Contingency r) (so_TimeInForce r) (so_Quantity r) (so_Price r) (so_TriggerPrice r)
  (so_ActivationPrice r) (so_TrailingOffset r) (so_TrailingOffsetType r) (so_EmulationTrigger r)
  (so_PostOnly r) (so_ReduceOnly r) (so_ExpireTime r).
#[global] Instance set_so_OrderListID : Setter so_OrderListID := fun f r => mkSubmitOrder
  (so_Metadata r) (so_AccountID r) (so_InstrumentID r) (so_TriggerInstrumentID r) (f (so_OrderListID
  r)) (so_ParentClientOrderID r) (so_ClientOrderID r) (so_Side r) (so_Type r) (so_Contingency r)
  (so_TimeInForce r) (so_Quantity r) (so_Price r) (so_TriggerPrice r) (so_ActivationPrice r)
  (so_TrailingOffset r) (so_TrailingOffsetType r) (so_EmulationTrigger r) (so_PostOnly r)
  (so_ReduceOnly r) (so_ExpireTime r).
#[global] Instance set_so_ParentClientOrderID : Setter so_ParentClientOrderID := fun f r =>
  mkSubmitOrder (so_Metadata r) (so_AccountID r) (so_InstrumentID r) (so_TriggerInstrumentID r)
  (so_OrderListID r) (f (so_ParentClientOrderID r)) (so_ClientOrderID r) (so_Side r) (so_Type r)
  (so_Contingency r) (so_TimeInForce r) (so_Quantity r) (so_Price r) (so_TriggerPrice r)
  (so_ActivationPrice r) (so_TrailingOffset r) (so_TrailingOffsetType r) (so_EmulationTrigger r)
  (so_PostOnly r) (so_ReduceOnly r) (so_ExpireTime r).
#[global] Instance set_so_ClientOrderID : Setter so_ClientOrderID := fun f r => mkSubmitOrder
  (so_Metadata r) (so_AccountID r) (so_InstrumentID r) (so_TriggerInstrumentID r) (so_OrderListID r)
  (so_ParentClientOrderID r) (f (so_ClientOrderID r)) (so_Side r) (so_Type r) (so_Contingency r)
  (so_TimeInForce r) (so_Quantity r) (so_Price r) (so_TriggerPrice r) (so_ActivationPrice r)
  (so_TrailingOffset r) (so_TrailingOffsetType r) (so_EmulationTrigger r) (so_PostOnly r)
  (so_ReduceOnly r) (so_ExpireTime r).
#[global] Instance set_so_Side : Setter so_Side := fun f r => mkSubmitOrder (so_Metadata r)
  (so_AccountID r) (so_InstrumentID r) (so_TriggerInstrumentID r) (so_OrderListID r)
  (so_ParentClientOrderID r) (so_ClientOrderID r) (f (so_Side r)) (so_Type r) (so_Contingency r)
  (so_TimeInForce r) (so_Quantity r) (so_Price r) (so_TriggerPrice r) (so_ActivationPrice r)
  (so_TrailingOffset r) (so_TrailingOffsetType r) (so_EmulationTrigger r) (so_PostOnly r)
  (so_ReduceOnly r) (so_ExpireTime r).
#[global] Instance set_so_Type : Setter so_Type := fun f r => mkSubmitOrder (so_Metadata r)
  (so_AccountID r) (so_InstrumentID r) (so_TriggerInstrumentID r) (so_OrderListID r)
  (so_ParentClientOrderID r) (so_ClientOrderID r) (so_Side r) (f (so_Type r)) (so_Contingency r)
  (so_TimeInForce r) (so_Quantity r) (so_Price r) (so_TriggerPrice r) (so_ActivationPrice r)
  (so_TrailingOffset r) (so_TrailingOffsetType r) (so_EmulationTrigger r) (so_PostOnly r)
  (so_ReduceOnly r) (so_ExpireTime r).
#[global] Instance set_so_Contingency : Setter so_Contingency := fun f r => mkSubmitOrder
  (so_Metadata r) (so_AccountID r) (so_InstrumentID r) (so_TriggerInstrumentID r) (so_OrderListID r)
  (so_ParentClientOrderID r) (so_ClientOrderID r) (so_Side r) (so_Type r) (f (so_Contingency r))
  (so_TimeInForce r) (so_Quantity r) (so_Price r) (so_TriggerPrice r) (so_ActivationPrice r)
  (so_TrailingOffset r) (so_TrailingOffsetType r) (so_EmulationTrigger r) (so_PostOnly r)
  (so_ReduceOnly r) (so_ExpireTime r).
#[global] Instance set_so_TimeInForce : Setter so_TimeInForce := fun f r => mkSubmitOrder
  (so_Metadata r) (so_AccountID r) (so_InstrumentID r) (so_TriggerInstrumentID r) (so_OrderListID r)
  (so_ParentClientOrderID r) (so_ClientOrderID r) (so_Side r) (so_Type r) (so_Contingency r) (f
  (so_TimeInForce r)) (so_Quantity r) (so_Price r) (so_TriggerPrice r) (so_ActivationPrice r)
  (so_TrailingOffset r) (so_TrailingOffsetType r) (so_EmulationTrigger r) (so_PostOnly r)
  (so_ReduceOnly r) (so_ExpireTime r).
#[global] Instance set_so_Quantity : Setter so_Quantity := fun f r => mkSubmitOrder (so_Metadata r)
  (so_AccountID r) (so_InstrumentID r) (so_TriggerInstrumentID r) (so_OrderListID r)
  (so_ParentClientOrderID r) (so_ClientOrderID r) (so_Side r) (so_Type r) (so_Contingency r)
  (so_TimeInForce r) (f (so_Quantity r)) (so_Price r) (so_TriggerPrice r) (so_ActivationPrice r)
  (so_TrailingOffset r) (so_TrailingOffsetType r) (so_EmulationTrigger r) (so_PostOnly r)
  (so_ReduceOnly r) (so_ExpireTime r).
#[global] Instance set_so_Price : Setter so_Price := fun f r => mkSubmitOrder (so_Metadata r)
  (so_AccountID r) (so_InstrumentID r) (so_TriggerInstrumentID r) (so_OrderListID r)
  (so_ParentClientOrderID r) (so_ClientOrderID r) (so_Side r) (so_Type r) (so_Contingency r)
  (so_TimeInForce r) (so_Quantity r) (f (so_Price r)) (so_TriggerPrice r) (so_ActivationPrice r)
  (so_TrailingOffset r) (so_TrailingOffsetType r) (so_EmulationTrigger r) (so_PostOnly r)
  (so_ReduceOnly r) (so_ExpireTime r).
#[global] Instance set_so_TriggerPrice : Setter so_TriggerPrice := fun f r => mkSubmitOrder
  (so_Metadata r) (so_AccountID r) (so_InstrumentID r) (so_TriggerInstrumentID r) (so_OrderListID r)
  (so_ParentClientOrderID r) (so_ClientOrderID r) (so_Side r) (so_Type r) (so_Contingency r)
  (so_TimeInForce r) (so_Quantity r) (so_Price r) (f (so_TriggerPrice r)) (so_ActivationPrice r)
  (so_TrailingOffset r) (so_TrailingOffsetType r) (so_EmulationTrigger r) (so_PostOnly r)
  (so_ReduceOnly r) (so_ExpireTime r).
#[global] Instance set_so_ActivationPrice : Setter so_ActivationPrice := fun f r => mkSubmitOrder
  (so_Metadata r) (so_AccountID r) (so_InstrumentID r) (so_TriggerInstrumentID r) (so_OrderListID r)
  (so_ParentClientOrderID r) (so_ClientOrderID r) (so_Side r) (so_Type r) (so_Contingency r)
  (so_TimeInForce r) (so_Quantity r) (so_Price r) (so_TriggerPrice r) (f (so_ActivationPrice r))
  (so_TrailingOffset r) (so_TrailingOffsetType r) (so_EmulationTrigger r) (so_PostOnly r)
  (so_ReduceOnly r) (so_ExpireTime r).
#[global] Instance set_so_TrailingOffset : Setter so_TrailingOffset := fun f r => mkSubmitOrder
  (so_Metadata r) (so_AccountID r) (so_InstrumentID r) (so_TriggerInstrumentID r) (so_OrderListID r)
  (so_ParentClientOrderID r) (so_ClientOrderID r) (so_Side r) (so_Type r) (so_Contingency r)
  (so_TimeInForce r) (so_Quantity r) (so_Price r) (so_TriggerPrice r) (so_ActivationPrice r) (f
  (so_TrailingOffset r)) (so_TrailingOffsetType r) (so_EmulationTrigger r) (so_PostOnly r)
  (so_ReduceOnly r) (so_ExpireTime r).
#[global] Instance set_so_TrailingOffsetType : Setter so_TrailingOffsetType := fun f r =>
  mkSubmitOrder (so_Metadata r) (so_AccountID r) (so_InstrumentID r) (so_TriggerInstrumentID r)
  (so_OrderListID r) (so_ParentClientOrderID r) (so_ClientOrderID r) (so_Side r) (so_Type r)
  (so_Contingency r) (so_TimeInForce r) (so_Quantity r) (so_Price r) (so_TriggerPrice r)
  (so_ActivationPrice r) (so_TrailingOffset r) (f (so_TrailingOffsetType r)) (so_EmulationTrigger r)
  (so_PostOnly r) (so_ReduceOnly r) (so_ExpireTime r).
#[global] Instance set_so_EmulationTrigger : Setter so_EmulationTrigger := fun f r => mkSubmitOrder
  (so_Metadata r) (so_AccountID r) (so_InstrumentID r) (so_TriggerInstrumentID r) (so_OrderListID r)
  (so_ParentClientOrderID r) (so_ClientOrderID r) (so_Side r) (so_Type r) (so_Contingency r)
  (so_TimeInForce r) (so_Quantity r) (so_Price r) (so_TriggerPrice r) (so_ActivationPrice r)
  (so_TrailingOffset r) (so_TrailingOffsetType r) (f (so_EmulationTrigger r)) (so_PostOnly r)
  (so_ReduceOnly r) (so_ExpireTime r).
#[global] Instance set_so_PostOnly : Setter so_PostOnly := fun f r => mkSubmitOrder (so_Metadata r)
  (so_AccountID r) (so_InstrumentID r) (so_TriggerInstrumentID r) (so_OrderListID r)
  (so_ParentClientOrderID r) (so_ClientOrderID r) (so_Side r) (so_Type r) (so_Contingency r)
  (so_TimeInForce r) (so_Quantity r) (so_Price r) (so_TriggerPrice r) (so_ActivationPrice r)
  (so_TrailingOffset r) (so_TrailingOffsetType r) (so_EmulationTrigger r) (f (so_PostOnly r))
  (so_ReduceOnly r) (so_ExpireTime r).
#[global] Instance set_so_ReduceOnly : Setter so_ReduceOnly := fun f r => mkSubmitOrder (so_Metadata
  r) (so_AccountID r) (so_InstrumentID r) (so_TriggerInstrumentID r) (so_OrderListID r)
  (so_ParentClientOrderID r) (so_ClientOrderID r) (so_Side r) (so_Type r) (so_Contingency r)
  (so_TimeInForce r) (so_Quantity r) (so_Price r) (so_TriggerPrice r) (so_ActivationPrice r)
  (so_TrailingOffset r) (so_TrailingOffsetType r) (so_EmulationTrigger r) (so_PostOnly r) (f
  (so_ReduceOnly r)) (so_ExpireTime r).
#[global] Instance set_so_ExpireTime : Setter so_ExpireTime := fun f r => mkSubmitOrder (so_Metadata
  r) (so_AccountID r) (so_InstrumentID r) (so_TriggerInstrumentID r) (so_OrderListID r)
  (so_ParentClientOrderID r) (so_ClientOrderID r) (so_Side r) (so_Type r) (so_Contingency r)
  (so_TimeInForce r) (so_Quantity r) (so_Price r) (so_TriggerPrice r) (so_ActivationPrice r)
  (so_TrailingOffset r) (so_TrailingOffsetType r) (so_EmulationTrigger r) (so_PostOnly r)
  (so_ReduceOnly r) (f (so_ExpireTime r)).

Definition is_limit_type (t : OrderType) : bool :=
  (t ≟ OrderTypeLimit) || (t ≟ OrderTypeStopLimit) ||
  (t ≟ OrderTypeLimitIfTouched) || (t ≟ OrderTypeTrailingStopLimit).

Definition SubmitOrder_Validate (o : SubmitOrder) : res unit :=
  fail_if (so_AccountID o ≟ "") || (so_Side o ≟ OrderSideNone) || (so_Type o ≟ OrderTypeNone) ||
          negb (IsPositive (so_Quantity o))
    with mkErr ErrInvalidOrder "invalid submit order" ;;
  ensure OrderType_Validate (so_Type o) ;;
  ensure TimeInForce_Validate (so_TimeInForce o) ;;
  ensure TriggerType_Validate (so_EmulationTrigger o) ;;
  ensure TrailingOffsetType_Validate (so_TrailingOffsetType o) ;;
  ensure ContingencyType_Validate (so_Contingency o) ;;
  ensure InstrumentID_Validate (so_InstrumentID o) ;;
  ensure (if so_TriggerInstrumentID o ≠? InstrumentID_zero
          then InstrumentID_Validate (so_TriggerInstrumentID o) else Ok tt) ;;
  ensure (if so_TimeInForce o ≟ TimeInForceGTD then
            fail_if negb (After (so_ExpireTime o) UnixEpoch)
              with mkErr ErrInvalidOrder "GTD order requires expire time after UNIX epoch" ;;
            Ok tt
          else
            fail_if negb (time_IsZero (so_ExpireTime o))
              with mkErr ErrInvalidOrder "expire time requires GTD time in force" ;;
            Ok tt) ;;
  fail_if (so_Type o ≟ OrderTypeMarket) && (so_TimeInForce o ≟ TimeInForceGTD)
    with mkErr ErrInvalidOrder "market order does not support GTD time in force" ;;
  fail_if is_limit_type (so_Type o) && negb (IsPositive (so_Price o))
    with mkErr ErrInvalidOrder "limit order requires price" ;;
  fail_if orderTypeAllowsTriggerPrice (so_Type o) && negb (IsPositive (so_TriggerPrice o))
    with mkErr ErrInvalidOrder "trigger order requires trigger price" ;;
  fail_if orderTypeAllowsTrailing (so_Type o) && negb (IsPositive (so_TrailingOffset o))
    with mkErr ErrInvalidOrder "trailing order requires trailing offset" ;;
  fail_if so_PostOnly o &&
          ((so_Type o ≟ OrderTypeMarket) || (so_Type o ≟ OrderTypeMarketToLimit) ||
           (so_Type o ≟ OrderTypeStopMarket) || (so_Type o ≟ OrderTypeMarketIfTouched) ||
           (so_Type o ≟ OrderTypeTrailingStopMarket))
    with mkErr ErrInvalidOrder "post-only requires limit-style order" ;;
  Ok tt.

Definition SubmitOrder_TriggerInstrument (o : SubmitOrder) : InstrumentID :=
  if so_TriggerInstrumentID o ≠? InstrumentID_zero then so_TriggerInstrumentID o
  else so_InstrumentID o.

(** ** Canceling and querying *)

(** [model.CancelOrder] *)
Record CancelOrder := mkCancelOrder {
  co_Metadata : CommandMetadata;
  co_AccountID : AccountID;
  co_InstrumentID : InstrumentID;
  co_OrderID : OrderID;
  co_ClientOrderID : ClientOrderID;
}.

#[global] Instance set_co_AccountID : Setter co_AccountID := fun f r => mkCancelOrder (co_Metadata
  r) (f (co_AccountID r)) (co_InstrumentID r) (co_OrderID r) (co_ClientOrderID r).

Definition CancelOrder_Validate (o : CancelOrder) : res unit :=
  fail_if (co_AccountID o ≟ "") || ((co_OrderID o ≟ "") && (co_ClientOrderID o ≟ ""))
    with mkErr ErrInvalidOrder "invalid cancel order" ;;
  InstrumentID_Validate (co_InstrumentID o).

(** [model.BatchCancelOrders] *)
Record BatchCancelOrders := mkBatchCancelOrders {
  bc_Metadata : CommandMetadata;
  bc_AccountID : AccountID;
  bc_InstrumentID : InstrumentID;
  bc_Cancels : list CancelOrder;
}.

Definition BatchCancelOrders_Validate (b : BatchCancelOrders) : res unit :=
  fail_if (bc_AccountID b ≟ "") || (length (bc_Cancels b) =? 0)%nat
    with mkErr ErrInvalidOrder "invalid batch cancel orders" ;;
  ensure InstrumentID_Validate (bc_InstrumentID b) ;;
  check_all (fun cancel =>
    fail_if (co_AccountID cancel ≠? "") && (co_AccountID cancel ≠? bc_AccountID b)
      with mkErr ErrInvalidOrder "batch cancel account mismatch" ;;
    fail_if (co_InstrumentID cancel ≠? InstrumentID_zero) &&
            (co_InstrumentID cancel ≠? bc_InstrumentID b)
      with mkErr ErrInvalidOrder "batch cancel instrument mismatch" ;;
    fail_if (co_OrderID cancel ≟ "") && (co_ClientOrderID cancel ≟ "")
      with mkErr ErrInvalidOrder "batch cancel requires order identity" ;;
    Ok tt) (bc_Cancels b).

(** [model.CancelAllOrders] *)
Record CancelAllOrders := mkCancelAllOrders {
  ca_Metadata : CommandMetadata;
  ca_AccountID : AccountID;
  ca_InstrumentID : InstrumentID;
  ca_OrderSide : OrderSide;
}.

Definition CancelAllOrders_Validate (c : CancelAllOrders) : res unit :=
  fail_if ca_AccountID c ≟ "" with mkErr ErrInvalidOrder "invalid cancel all orders" ;;
  fail_if (ca_OrderSide c ≠? OrderSideNone) && (ca_OrderSide c ≠? OrderSideBuy) &&
          (ca_OrderSide c ≠? OrderSideSell)
    with mkErr ErrInvalidOrder "invalid cancel all order side" ;;
  InstrumentID_Validate (ca_InstrumentID c).

(** [model.QueryOrder] *)
Record QueryOrder := mkQueryOrder {
  qo_Metadata : CommandMetadata;
  qo_AccountID : AccountID;
  qo_InstrumentID : InstrumentID;
  qo_OrderID : OrderID;
  qo_VenueOrderID : VenueOrderID;
  qo_ClientOrderID : ClientOrderID;
}.

#[global] Instance set_qo_AccountID : Setter qo_AccountID := fun f r => mkQueryOrder (qo_Metadata r)
  (f (qo_AccountID r)) (qo_InstrumentID r) (qo_OrderID r) (qo_VenueOrderID r) (qo_ClientOrderID r).

Definition QueryOrder_Validate (q : QueryOrder) : res unit :=
  fail_if (qo_AccountID q ≟ "") ||
          ((qo_OrderID q ≟ "") && (qo_ClientOrderID q ≟ "") && (qo_VenueOrderID q ≟ ""))
    with mkErr ErrInvalidOrder "invalid query order" ;;
  InstrumentID_Validate (qo_InstrumentID q).

(** ** Modifying *)

(** [model.ModifyOrder] *)
Record ModifyOrder := mkModifyOrder {
  mo_Metadata : CommandMetadata;
  mo_AccountID : AccountID;
  mo_InstrumentID : InstrumentID;
  mo_OrderID : OrderID;
  mo_VenueOrderID : VenueOrderID;
  mo_ClientOrderID : ClientOrderID;
  mo_Quantity : D;
  mo_Price : D;
  mo_TriggerPrice : D;
  mo_ActivationPrice : D;
  mo_TrailingOffset : D;
  mo_TrailingOffsetType : TrailingOffsetType;
  mo_TimeInForce : TimeInForce;
}.

#[global] Instance set_mo_AccountID : Setter mo_AccountID := fun f r => mkModifyOrder (mo_Metadata
  r) (f (mo_AccountID r)) (mo_InstrumentID r) (mo_OrderID r) (mo_VenueOrderID r) (mo_ClientOrderID
  r) (mo_Quantity r) (mo_Price r) (mo_TriggerPrice r) (mo_ActivationPrice r) (mo_TrailingOffset r)
  (mo_TrailingOffsetType r) (mo_TimeInForce r).

Definition modify_values (o : ModifyOrder) : list D :=
  [mo_Quantity o; mo_Price o; mo_TriggerPrice o; mo_ActivationPrice o; mo_TrailingOffset o].

Definition ModifyOrder_Validate (o : ModifyOrder) : res unit :=
  fail_if (mo_AccountID o ≟ "") || ((mo_OrderID o ≟ "") && (mo_ClientOrderID o ≟ ""))
    with mkErr ErrInvalidOrder "invalid modify order" ;;
  ensure InstrumentID_Validate (mo_InstrumentID o) ;;
  ensure TimeInForce_Validate (mo_TimeInForce o) ;;
  ensure TrailingOffsetType_Validate (mo_TrailingOffsetType o) ;;
  let hasChange := (mo_TimeInForce o ≠? TimeInForceNone) in
  let hasChange := (mo_TrailingOffsetType o ≠? TrailingOffsetTypeNone) || hasChange in
  ensure check_all (fun value =>
    fail_if IsNegative value with mkErr ErrInvalidOrder "invalid modify value" ;; Ok tt)
    (modify_values o) ;;
  let hasChange := existsb IsPositive (modify_values o) || hasChange in
  fail_if negb hasChange with mkErr ErrInvalidOrder "modify order requires a changed field" ;;
  Ok tt.

(** ** Reports *)

(** [model.OrderStatusReport] *)
Record OrderStatusReport := mkOrderStatusReport {
  or_Metadata : CommandMetadata;
  or_AccountID : AccountID;
  or_InstrumentID : InstrumentID;
  or_TriggerInstrumentID : InstrumentID;
  or_OrderListID : OrderListID;
  or_PositionID : PositionID;
  or_OrderID : OrderID;
  or_VenueOrderID : VenueOrderID;
  or_ParentClientOrderID : ClientOrderID;
  or_ClientOrderID : ClientOrderID;
  or_Status : OrderStatus;
  or_Side : OrderSide;
  or_Type : OrderType;
  or_Contingency : ContingencyType;
  or_Quantity : D;
  or_FilledQuantity : D;
  or_LeavesQuantity : D;
  or_Price : D;
  or_TriggerPrice : D;
  or_ActivationPrice : D;
  or_TrailingOffset : D;
  or_TrailingOffsetType : TrailingOffsetType;
  or_PostOnly : bool;
  or_ReduceOnly : bool;
  or_TimeInForce : TimeInForce;
  or_ExpireTime : time;
  or_AveragePrice : D;
  or_LastUpdatedTime : time;
}.

#[global] Instance set_or_Metadata : Setter or_Metadata := fun f r => mkOrderStatusReport (f
  (or_Metadata r)) (or_AccountID r) (or_InstrumentID r) (or_TriggerInstrumentID r) (or_OrderListID
  r) (or_PositionID r) (or_OrderID r) (or_VenueOrderID r) (or_ParentClientOrderID r)
  (or_ClientOrderID r) (or_Status r) (or_Side r) (or_Type r) (or_Contingency r) (or_Quantity r)
  (or_FilledQuantity r) (or_LeavesQuantity r) (or_Price r) (or_TriggerPrice r) (or_ActivationPrice
  r) (or_TrailingOffset r) (or_TrailingOffsetType r) (or_PostOnly r) (or_ReduceOnly r)
  (or_TimeInForce r) (or_ExpireTime r) (or_AveragePrice r) (or_LastUpdatedTime r).
#[global] Instance set_or_AccountID : Setter or_AccountID := fun f r => mkOrderStatusReport
  (or_Metadata r) (f (or_AccountID r)) (or_InstrumentID r) (or_TriggerInstrumentID r)
  (or_OrderListID r) (or_PositionID r) (or_OrderID r) (or_VenueOrderID r) (or_ParentClientOrderID r)
  (or_ClientOrderID r) (or_Status r) (or_Side r) (or_Type r) (or_Contingency r) (or_Quantity r)
  (or_FilledQuantity r) (or_LeavesQuantity r) (or_Price r) (or_TriggerPrice r) (or_ActivationPrice
  r) (or_TrailingOffset r) (or_TrailingOffsetType r) (or_PostOnly r) (or_ReduceOnly r)
  (or_TimeInForce r) (or_ExpireTime r) (or_AveragePrice r) (or_LastUpdatedTime r).
#[global] Instance set_or_InstrumentID : Setter or_InstrumentID := fun f r => mkOrderStatusReport
  (or_Metadata r) (or_AccountID r) (f (or_InstrumentID r)) (or_TriggerInstrumentID r)
  (or_OrderListID r) (or_PositionID r) (or_OrderID r) (or_VenueOrderID r) (or_ParentClientOrderID r)
  (or_ClientOrderID r) (or_Status r) (or_Side r) (or_Type r) (or_Contingency r) (or_Quantity r)
  (or_FilledQuantity r) (or_LeavesQuantity r) (or_Price r) (or_TriggerPrice r) (or_ActivationPrice
  r) (or_TrailingOffset r) (or_TrailingOffsetType r) (or_PostOnly r) (or_ReduceOnly r)
  (or_TimeInForce r) (or_ExpireTime r) (or_AveragePrice r) (or_LastUpdatedTime r).
#[global] Instance set_or_TriggerInstrumentID : Setter or_TriggerInstrumentID := fun f r =>
  mkOrderStatusReport (or_Metadata r) (or_AccountID r) (or_InstrumentID r) (f
  (or_TriggerInstrumentID r)) (or_OrderListID r) (or_PositionID r) (or_OrderID r) (or_VenueOrderID
  r) (or_ParentClientOrderID r) (or_ClientOrderID r) (or_Status r) (or_Side r) (or_Type r)
  (or_Contingency r) (or_Quantity r) (or_FilledQuantity r) (or_LeavesQuantity r) (or_Price r)
  (or_TriggerPrice r) (or_ActivationPrice r) (or_TrailingOffset r) (or_TrailingOffsetType r)
  (or_PostOnly r) (or_ReduceOnly r) (or_TimeInForce r) (or_ExpireTime r) (or_AveragePrice r)
  (or_LastUpdatedTime r).
#[global] Instance set_or_OrderListID : Setter or_OrderListID := fun f r => mkOrderStatusReport
  (or_Metadata r) (or_AccountID r) (or_InstrumentID r) (or_TriggerInstrumentID r) (f (or_OrderListID
  r)) (or_PositionID r) (or_OrderID r) (or_VenueOrderID r) (or_ParentClientOrderID r)
  (or_ClientOrderID r) (or_Status r) (or_Side r) (or_Type r) (or_Contingency r) (or_Quantity r)
  (or_FilledQuantity r) (or_LeavesQuantity r) (or_Price r) (or_TriggerPrice r) (or_ActivationPrice
  r) (or_TrailingOffset r) (or_TrailingOffsetType r) (or_PostOnly r) (or_ReduceOnly r)
  (or_TimeInForce r) (or_ExpireTime r) (or_AveragePrice r) (or_LastUpdatedTime r).
#[global] Instance set_or_PositionID : Setter or_PositionID := fun f r => mkOrderStatusReport
  (or_Metadata r) (or_AccountID r) (or_InstrumentID r) (or_TriggerInstrumentID r) (or_OrderListID r)
  (f (or_PositionID r)) (or_OrderID r) (or_VenueOrderID r) (or_ParentClientOrderID r)
  (or_ClientOrderID r) (or_Status r) (or_Side r) (or_Type r) (or_Contingency r) (or_Quantity r)
  (or_FilledQuantity r) (or_LeavesQuantity r) (or_Price r) (or_TriggerPrice r) (or_ActivationPrice
  r) (or_TrailingOffset r) (or_TrailingOffsetType r) (or_PostOnly r) (or_ReduceOnly r)
  (or_TimeInForce r) (or_ExpireTime r) (or_AveragePrice r) (or_LastUpdatedTime r).
#[global] Instance set_or_OrderID : Setter or_OrderID := fun f r => mkOrderStatusReport (or_Metadata
  r) (or_AccountID r) (or_InstrumentID r) (or_TriggerInstrumentID r) (or_OrderListID r)
  (or_PositionID r) (f (or_OrderID r)) (or_VenueOrderID r) (or_ParentClientOrderID r)
  (or_ClientOrderID r) (or_Status r) (or_Side r) (or_Type r) (or_Contingency r) (or_Quantity r)
  (or_FilledQuantity r) (or_LeavesQuantity r) (or_Price r) (or_TriggerPrice r) (or_ActivationPrice
  r) (or_TrailingOffset r) (or_TrailingOffsetType r) (or_PostOnly r) (or_ReduceOnly r)
  (or_TimeInForce r) (or_ExpireTime r) (or_AveragePrice r) (or_LastUpdatedTime r).
#[global] Instance set_or_VenueOrderID : Setter or_VenueOrderID := fun f r => mkOrderStatusReport
  (or_Metadata r) (or_AccountID r) (or_InstrumentID r) (or_TriggerInstrumentID r) (or_OrderListID r)
  (or_PositionID r) (or_OrderID r) (f (or_VenueOrderID r)) (or_ParentClientOrderID r)
  (or_ClientOrderID r) (or_Status r) (or_Side r) (or_Type r) (or_Contingency r) (or_Quantity r)
  (or_FilledQuantity r) (or_LeavesQuantity r) (or_Price r) (or_TriggerPrice r) (or_ActivationPrice
  r) (or_TrailingOffset r) (or_TrailingOffsetType r) (or_PostOnly r) (or_ReduceOnly r)
  (or_TimeInForce r) (or_ExpireTime r) (or_AveragePrice r) (or_LastUpdatedTime r).
#[global] Instance set_or_ParentClientOrderID : Setter or_ParentClientOrderID := fun f r =>
  mkOrderStatusReport (or_Metadata r) (or_AccountID r) (or_InstrumentID r) (or_TriggerInstrumentID
  r) (or_OrderListID r) (or_PositionID r) (or_OrderID r) (or_VenueOrderID r) (f
  (or_ParentClientOrderID r)) (or_ClientOrderID r) (or_Status r) (or_Side r) (or_Type r)
  (or_Contingency r) (or_Quantity r) (or_FilledQuantity r) (or_LeavesQuantity r) (or_Price r)
  (or_TriggerPrice r) (or_ActivationPrice r) (or_TrailingOffset r) (or_TrailingOffsetType r)
  (or_PostOnly r) (or_ReduceOnly r) (or_TimeInForce r) (or_ExpireTime r) (or_AveragePrice r)
  (or_LastUpdatedTime r).
#[global] Instance set_or_ClientOrderID : Setter or_ClientOrderID := fun f r => mkOrderStatusReport
  (or_Metadata r) (or_AccountID r) (or_InstrumentID r) (or_TriggerInstrumentID r) (or_OrderListID r)
  (or_PositionID r) (or_OrderID r) (or_VenueOrderID r) (or_ParentClientOrderID r) (f
  (or_ClientOrderID r)) (or_Status r) (or_Side r) (or_Type r) (or_Contingency r) (or_Quantity r)
  (or_FilledQuantity r) (or_LeavesQuantity r) (or_Price r) (or_TriggerPrice r) (or_ActivationPrice
  r) (or_TrailingOffset r) (or_TrailingOffsetType r) (or_PostOnly r) (or_ReduceOnly r)
  (or_TimeInForce r) (or_ExpireTime r) (or_AveragePrice r) (or_LastUpdatedTime r).
#[global] Instance set_or_Status : Setter or_Status := fun f r => mkOrderStatusReport (or_Metadata
  r) (or_AccountID r) (or_InstrumentID r) (or_TriggerInstrumentID r) (or_OrderListID r)
  (or_PositionID r) (or_OrderID r) (or_VenueOrderID r) (or_ParentClientOrderID r) (or_ClientOrderID
  r) (f (or_Status r)) (or_Side r) (or_Type r) (or_Contingency r) (or_Quantity r) (or_FilledQuantity
  r) (or_LeavesQuantity r) (or_Price r) (or_TriggerPrice r) (or_ActivationPrice r)
  (or_TrailingOffset r) (or_TrailingOffsetType r) (or_PostOnly r) (or_ReduceOnly r) (or_TimeInForce
  r) (or_ExpireTime r) (or_AveragePrice r) (or_LastUpdatedTime r).
#[global] Instance set_or_Side : Setter or_Side := fun f r => mkOrderStatusReport (or_Metadata r)
  (or_AccountID r) (or_InstrumentID r) (or_TriggerInstrumentID r) (or_OrderListID r) (or_PositionID
  r) (or_OrderID r) (or_VenueOrderID r) (or_ParentClientOrderID r) (or_ClientOrderID r) (or_Status
  r) (f (or_Side r)) (or_Type r) (or_Contingency r) (or_Quantity r) (or_FilledQuantity r)
  (or_LeavesQuantity r) (or_Price r) (or_TriggerPrice r) (or_ActivationPrice r) (or_TrailingOffset
  r) (or_TrailingOffsetType r) (or_PostOnly r) (or_ReduceOnly r) (or_TimeInForce r) (or_ExpireTime
  r) (or_AveragePrice r) (or_LastUpdatedTime r).
#[global] Instance set_or_Type : Setter or_Type := fun f r => mkOrderStatusReport (or_Metadata r)
  (or_AccountID r) (or_InstrumentID r) (or_TriggerInstrumentID r) (or_OrderListID r) (or_PositionID
  r) (or_OrderID r) (or_VenueOrderID r) (or_ParentClientOrderID r) (or_ClientOrderID r) (or_Status
  r) (or_Side r) (f (or_Type r)) (or_Contingency r) (or_Quantity r) (or_FilledQuantity r)
  (or_LeavesQuantity r) (or_Price r) (or_TriggerPrice r) (or_ActivationPrice r) (or_TrailingOffset
  r) (or_TrailingOffsetType r) (or_PostOnly r) (or_ReduceOnly r) (or_TimeInForce r) (or_ExpireTime
  r) (or_AveragePrice r) (or_LastUpdatedTime r).
#[global] Instance set_or_Contingency : Setter or_Contingency := fun f r => mkOrderStatusReport
  (or_Metadata r) (or_AccountID r) (or_InstrumentID r) (or_TriggerInstrumentID r) (or_OrderListID r)
  (or_PositionID r) (or_OrderID r) (or_VenueOrderID r) (or_ParentClientOrderID r) (or_ClientOrderID
  r) (or_Status r) (or_Side r) (or_Type r) (f (or_Contingency r)) (or_Quantity r) (or_FilledQuantity
  r) (or_LeavesQuantity r) (or_Price r) (or_TriggerPrice r) (or_ActivationPrice r)
  (or_TrailingOffset r) (or_TrailingOffsetType r) (or_PostOnly r) (or_ReduceOnly r) (or_TimeInForce
  r) (or_ExpireTime r) (or_AveragePrice r) (or_LastUpdatedTime r).
#[global] Instance set_or_Quantity : Setter or_Quantity := fun f r => mkOrderStatusReport
  (or_Metadata r) (or_AccountID r) (or_InstrumentID r) (or_TriggerInstrumentID r) (or_OrderListID r)
  (or_PositionID r) (or_OrderID r) (or_VenueOrderID r) (or_ParentClientOrderID r) (or_ClientOrderID
  r) (or_Status r) (or_Side r) (or_Type r) (or_Contingency r) (f (or_Quantity r)) (or_FilledQuantity
  r) (or_LeavesQuantity r) (or_Price r) (or_TriggerPrice r) (or_ActivationPrice r)
  (or_TrailingOffset r) (or_TrailingOffsetType r) (or_PostOnly r) (or_ReduceOnly r) (or_TimeInForce
  r) (or_ExpireTime r) (or_AveragePrice r) (or_LastUpdatedTime r).
#[global] Instance set_or_FilledQuantity : Setter or_FilledQuantity := fun f r =>
  mkOrderStatusReport (or_Metadata r) (or_AccountID r) (or_InstrumentID r) (or_TriggerInstrumentID
  r) (or_OrderListID r) (or_PositionID r) (or_OrderID r) (or_VenueOrderID r) (or_ParentClientOrderID
  r) (or_ClientOrderID r) (or_Status r) (or_Side r) (or_Type r) (or_Contingency r) (or_Quantity r)
  (f (or_FilledQuantity r)) (or_LeavesQuantity r) (or_Price r) (or_TriggerPrice r)
  (or_ActivationPrice r) (or_TrailingOffset r) (or_TrailingOffsetType r) (or_PostOnly r)
  (or_ReduceOnly r) (or_TimeInForce r) (or_ExpireTime r) (or_AveragePrice r) (or_LastUpdatedTime r).
#[global] Instance set_or_LeavesQuantity : Setter or_LeavesQuantity := fun f r =>
  mkOrderStatusReport (or_Metadata r) (or_AccountID r) (or_InstrumentID r) (or_TriggerInstrumentID
  r) (or_OrderListID r) (or_PositionID r) (or_OrderID r) (or_VenueOrderID r) (or_ParentClientOrderID
  r) (or_ClientOrderID r) (or_Status r) (or_Side r) (or_Type r) (or_Contingency r) (or_Quantity r)
  (or_FilledQuantity r) (f (or_LeavesQuantity r)) (or_Price r) (or_TriggerPrice r)
  (or_ActivationPrice r) (or_TrailingOffset r) (or_TrailingOffsetType r) (or_PostOnly r)
  (or_ReduceOnly r) (or_TimeInForce r) (or_ExpireTime r) (or_AveragePrice r) (or_LastUpdatedTime r).
#[global] Instance set_or_Price : Setter or_Price := fun f r => mkOrderStatusReport (or_Metadata r)
  (or_AccountID r) (or_InstrumentID r) (or_TriggerInstrumentID r) (or_OrderListID r) (or_PositionID
  r) (or_OrderID r) (or_VenueOrderID r) (or_ParentClientOrderID r) (or_ClientOrderID r) (or_Status
  r) (or_Side r) (or_Type r) (or_Contingency r) (or_Quantity r) (or_FilledQuantity r)
  (or_LeavesQuantity r) (f (or_Price r)) (or_TriggerPrice r) (or_ActivationPrice r)
  (or_TrailingOffset r) (or_TrailingOffsetType r) (or_PostOnly r) (or_ReduceOnly r) (or_TimeInForce
  r) (or_ExpireTime r) (or_AveragePrice r) (or_LastUpdatedTime r).
#[global] Instance set_or_TriggerPrice : Setter or_TriggerPrice := fun f r => mkOrderStatusReport
  (or_Metadata r) (or_AccountID r) (or_InstrumentID r) (or_TriggerInstrumentID r) (or_OrderListID r)
  (or_PositionID r) (or_OrderID r) (or_VenueOrderID r) (or_ParentClientOrderID r) (or_ClientOrderID
  r) (or_Status r) (or_Side r) (or_Type r) (or_Contingency r) (or_Quantity r) (or_FilledQuantity r)
  (or_LeavesQuantity r) (or_Price r) (f (or_TriggerPrice r)) (or_ActivationPrice r)
  (or_TrailingOffset r) (or_TrailingOffsetType r) (or_PostOnly r) (or_ReduceOnly r) (or_TimeInForce
  r) (or_ExpireTime r) (or_AveragePrice r) (or_LastUpdatedTime r).
#[global] Instance set_or_ActivationPrice : Setter or_ActivationPrice := fun f r =>
  mkOrderStatusReport (or_Metadata r) (or_AccountID r) (or_InstrumentID r) (or_TriggerInstrumentID
  r) (or_OrderListID r) (or_PositionID r) (or_OrderID r) (or_VenueOrderID r) (or_ParentClientOrderID
  r) (or_ClientOrderID r) (or_Status r) (or_Side r) (or_Type r) (or_Contingency r) (or_Quantity r)
  (or_FilledQuantity r) (or_LeavesQuantity r) (or_Price r) (or_TriggerPrice r) (f
  (or_ActivationPrice r)) (or_TrailingOffset r) (or_TrailingOffsetType r) (or_PostOnly r)
  (or_ReduceOnly r) (or_TimeInForce r) (or_ExpireTime r) (or_AveragePrice r) (or_LastUpdatedTime r).
#[global] Instance set_or_TrailingOffset : Setter or_TrailingOffset := fun f r =>
  mkOrderStatusReport (or_Metadata r) (or_AccountID r) (or_InstrumentID r) (or_TriggerInstrumentID
  r) (or_OrderListID r) (or_PositionID r) (or_OrderID r) (or_VenueOrderID r) (or_ParentClientOrderID
  r) (or_ClientOrderID r) (or_Status r) (or_Side r) (or_Type r) (or_Contingency r) (or_Quantity r)
  (or_FilledQuantity r) (or_LeavesQuantity r) (or_Price r) (or_TriggerPrice r) (or_ActivationPrice
  r) (f (or_TrailingOffset r)) (or_TrailingOffsetType r) (or_PostOnly r) (or_ReduceOnly r)
  (or_TimeInForce r) (or_ExpireTime r) (or_AveragePrice r) (or_LastUpdatedTime r).
#[global] Instance set_or_TrailingOffsetType : Setter or_TrailingOffsetType := fun f r =>
  mkOrderStatusReport (or_Metadata r) (or_AccountID r) (or_InstrumentID r) (or_TriggerInstrumentID
  r) (or_OrderListID r) (or_PositionID r) (or_OrderID r) (or_VenueOrderID r) (or_ParentClientOrderID
  r) (or_ClientOrderID r) (or_Status r) (or_Side r) (or_Type r) (or_Contingency r) (or_Quantity r)
  (or_FilledQuantity r) (or_LeavesQuantity r) (or_Price r) (or_TriggerPrice r) (or_ActivationPrice
  r) (or_TrailingOffset r) (f (or_TrailingOffsetType r)) (or_PostOnly r) (or_ReduceOnly r)
  (or_TimeInForce r) (or_ExpireTime r) (or_AveragePrice r) (or_LastUpdatedTime r).
#[global] Instance set_or_PostOnly : Setter or_PostOnly := fun f r => mkOrderStatusReport
  (or_Metadata r) (or_AccountID r) (or_InstrumentID r) (or_TriggerInstrumentID r) (or_OrderListID r)
  (or_PositionID r) (or_OrderID r) (or_VenueOrderID r) (or_ParentClientOrderID r) (or_ClientOrderID
  r) (or_Status r) (or_Side r) (or_Type r) (or_Contingency r) (or_Quantity r) (or_FilledQuantity r)
  (or_LeavesQuantity r) (or_Price r) (or_TriggerPrice r) (or_ActivationPrice r) (or_TrailingOffset
  r) (or_TrailingOffsetType r) (f (or_PostOnly r)) (or_ReduceOnly r) (or_TimeInForce r)
  (or_ExpireTime r) (or_AveragePrice r) (or_LastUpdatedTime r).
#[global] Instance set_or_ReduceOnly : Setter or_ReduceOnly := fun f r => mkOrderStatusReport
  (or_Metadata r) (or_AccountID r) (or_InstrumentID r) (or_TriggerInstrumentID r) (or_OrderListID r)
  (or_PositionID r) (or_OrderID r) (or_VenueOrderID r) (or_ParentClientOrderID r) (or_ClientOrderID
  r) (or_Status r) (or_Side r) (or_Type r) (or_Contingency r) (or_Quantity r) (or_FilledQuantity r)
  (or_LeavesQuantity r) (or_Price r) (or_TriggerPrice r) (or_ActivationPrice r) (or_TrailingOffset
  r) (or_TrailingOffsetType r) (or_PostOnly r) (f (or_ReduceOnly r)) (or_TimeInForce r)
  (or_ExpireTime r) (or_AveragePrice r) (or_LastUpdatedTime r).
#[global] Instance set_or_TimeInForce : Setter or_TimeInForce := fun f r => mkOrderStatusReport
  (or_Metadata r) (or_AccountID r) (or_InstrumentID r) (or_TriggerInstrumentID r) (or_OrderListID r)
  (or_PositionID r) (or_OrderID r) (or_VenueOrderID r) (or_ParentClientOrderID r) (or_ClientOrderID
  r) (or_Status r) (or_Side r) (or_Type r) (or_Contingency r) (or_Quantity r) (or_FilledQuantity r)
  (or_LeavesQuantity r) (or_Price r) (or_TriggerPrice r) (or_ActivationPrice r) (or_TrailingOffset
  r) (or_TrailingOffsetType r) (or_PostOnly r) (or_ReduceOnly r) (f (or_TimeInForce r))
  (or_ExpireTime r) (or_AveragePrice r) (or_LastUpdatedTime r).
#[global] Instance set_or_ExpireTime : Setter or_ExpireTime := fun f r => mkOrderStatusReport
  (or_Metadata r) (or_AccountID r) (or_InstrumentID r) (or_TriggerInstrumentID r) (or_OrderListID r)
  (or_PositionID r) (or_OrderID r) (or_VenueOrderID r) (or_ParentClientOrderID r) (or_ClientOrderID
  r) (or_Status r) (or_Side r) (or_Type r) (or_Contingency r) (or_Quantity r) (or_FilledQuantity r)
  (or_LeavesQuantity r) (or_Price r) (or_TriggerPrice r) (or_ActivationPrice r) (or_TrailingOffset
  r) (or_TrailingOffsetType r) (or_PostOnly r) (or_ReduceOnly r) (or_TimeInForce r) (f
  (or_ExpireTime r)) (or_AveragePrice r) (or_LastUpdatedTime r).
#[global] Instance set_or_AveragePrice : Setter or_AveragePrice := fun f r => mkOrderStatusReport
  (or_Metadata r) (or_AccountID r) (or_InstrumentID r) (or_TriggerInstrumentID r) (or_OrderListID r)
  (or_PositionID r) (or_OrderID r) (or_VenueOrderID r) (or_ParentClientOrderID r) (or_ClientOrderID
  r) (or_Status r) (or_Side r) (or_Type r) (or_Contingency r) (or_Quantity r) (or_FilledQuantity r)
  (or_LeavesQuantity r) (or_Price r) (or_TriggerPrice r) (or_ActivationPrice r) (or_TrailingOffset
  r) (or_TrailingOffsetType r) (or_PostOnly r) (or_ReduceOnly r) (or_TimeInForce r) (or_ExpireTime
  r) (f (or_AveragePrice r)) (or_LastUpdatedTime r).
#[global] Instance set_or_LastUpdatedTime : Setter or_LastUpdatedTime := fun f r =>
  mkOrderStatusReport (or_Metadata r) (or_AccountID r) (or_InstrumentID r) (or_TriggerInstrumentID
  r) (or_OrderListID r) (or_PositionID r) (or_OrderID r) (or_VenueOrderID r) (or_ParentClientOrderID
  r) (or_ClientOrderID r) (or_Status r) (or_Side r) (or_Type r) (or_Contingency r) (or_Quantity r)
  (or_FilledQuantity r) (or_LeavesQuantity r) (or_Price r) (or_TriggerPrice r) (or_ActivationPrice
  r) (or_TrailingOffset r) (or_TrailingOffsetType r) (or_PostOnly r) (or_ReduceOnly r)
  (or_TimeInForce r) (or_ExpireTime r) (or_AveragePrice r) (f (or_LastUpdatedTime r)).

(** The zero value [OrderStatusReport{}]. *)
Definition OrderStatusReport_zero : OrderStatusReport :=
  mkOrderStatusReport CommandMetadata_zero "" InstrumentID_zero InstrumentID_zero "" "" "" "" "" ""
    OrderStatusNone OrderSideNone OrderTypeNone ContingencyTypeNone
    dzero dzero dzero dzero dzero dzero dzero TrailingOffsetTypeNone false false
    TimeInForceNone 0 dzero 0.

Definition OrderStatusReport_Validate (r : OrderStatusReport) : res unit :=
  fail_if (or_AccountID r ≟ "") || (or_OrderID r ≟ "") || (or_Status r ≟ OrderStatusNone)
    with mkErr ErrInvalidOrder "invalid order report" ;;
  ensure InstrumentID_Validate (or_InstrumentID r) ;;
  ensure (if or_TriggerInstrumentID r ≠? InstrumentID_zero
          then InstrumentID_Validate (or_TriggerInstrumentID r) else Ok tt) ;;
  ensure ContingencyType_Validate (or_Contingency r) ;;
  ensure TrailingOffsetType_Validate (or_TrailingOffsetType r) ;;
  fail_if IsNegative (or_FilledQuantity r) || IsNegative (or_Quantity r)
    with mkErr ErrInvalidOrder "invalid order quantities" ;;
  fail_if IsNegative (or_LeavesQuantity r)
    with mkErr ErrInvalidOrder "invalid leaves quantity" ;;
  fail_if IsPositive (or_Quantity r) && GreaterThan (or_FilledQuantity r) (or_Quantity r)
    with mkErr ErrInvalidOrder "filled quantity exceeds order quantity" ;;
  Ok tt.

Definition OrderStatusReport_TriggerInstrument (r : OrderStatusReport) : InstrumentID :=
  if or_TriggerInstrumentID r ≠? InstrumentID_zero then or_TriggerInstrumentID r
  else or_InstrumentID r.

Definition CancelAllOrders_MatchesOrder (c : CancelAllOrders) (order : OrderStatusReport) : bool :=
  if (or_AccountID order ≠? ca_AccountID c) || (or_InstrumentID order ≠? ca_InstrumentID c)
  then false
  else (ca_OrderSide c ≟ OrderSideNone) || (or_Side order ≟ ca_OrderSide c).

(** [model.FillReport] *)
Record FillReport := mkFillReport {
  fr_AccountID : AccountID;
  fr_InstrumentID : InstrumentID;
  fr_OrderID : OrderID;
  fr_VenueOrderID : VenueOrderID;
  fr_ClientOrderID : ClientOrderID;
  fr_TradeID : TradeID;
  fr_PositionID : PositionID;
  fr_IsLeg : bool;
  fr_Side : OrderSide;
  fr_Price : D;
  fr_Quantity : D;
  fr_Fee : D;
  fr_FeeCurrency : Currency;
  fr_Timestamp : time;
}.

#[global] Instance set_fr_PositionID : Setter fr_PositionID := fun f r => mkFillReport (fr_AccountID
  r) (fr_InstrumentID r) (fr_OrderID r) (fr_VenueOrderID r) (fr_ClientOrderID r) (fr_TradeID r) (f
  (fr_PositionID r)) (fr_IsLeg r) (fr_Side r) (fr_Price r) (fr_Quantity r) (fr_Fee r)
  (fr_FeeCurrency r) (fr_Timestamp r).
#[global] Instance set_fr_Side : Setter fr_Side := fun f r => mkFillReport (fr_AccountID r)
  (fr_InstrumentID r) (fr_OrderID r) (fr_VenueOrderID r) (fr_ClientOrderID r) (fr_TradeID r)
  (fr_PositionID r) (fr_IsLeg r) (f (fr_Side r)) (fr_Price r) (fr_Quantity r) (fr_Fee r)
  (fr_FeeCurrency r) (fr_Timestamp r).

Definition FillReport_IsLegFill (r : FillReport) : bool :=
  fr_IsLeg r || Contains (fr_ClientOrderID r) "-LEG-" || Contains (fr_VenueOrderID r) "-LEG-".

Definition FillReport_Validate (r : FillReport) : res unit :=
  fail_if (fr_AccountID r ≟ "") || (fr_TradeID r ≟ "")
    with mkErr ErrInvalidOrder "invalid fill report" ;;
  fail_if (fr_OrderID r ≟ "") && negb (FillReport_IsLegFill r)
    with mkErr ErrInvalidOrder "invalid fill report" ;;
  ensure InstrumentID_Validate (fr_InstrumentID r) ;;
  fail_if negb (IsPositive (fr_Price r)) || negb (IsPositive (fr_Quantity r))
    with mkErr ErrInvalidOrder "invalid fill price or quantity" ;;
  fail_if IsNegative (fr_Fee r) with mkErr ErrInvalidOrder "invalid fill fee" ;;
  Ok tt.

(** [model.PositionStatusReport] *)
Record PositionStatusReport := mkPositionStatusReport {
  pr_Metadata : CommandMetadata;
  pr_AccountID : AccountID;
  pr_InstrumentID : InstrumentID;
  pr_PositionID : PositionID;
  pr_VenuePositionID : VenuePositionID;
  pr_Side : PositionSide;
  pr_Quantity : D;
  pr_EntryPrice : D;
  pr_Timestamp : time;
}.

#[global] Instance set_pr_Metadata : Setter pr_Metadata := fun f r => mkPositionStatusReport (f
  (pr_Metadata r)) (pr_AccountID r) (pr_InstrumentID r) (pr_PositionID r) (pr_VenuePositionID r)
  (pr_Side r) (pr_Quantity r) (pr_EntryPrice r) (pr_Timestamp r).
#[global] Instance set_pr_AccountID : Setter pr_AccountID := fun f r => mkPositionStatusReport
  (pr_Metadata r) (f (pr_AccountID r)) (pr_InstrumentID r) (pr_PositionID r) (pr_VenuePositionID r)
  (pr_Side r) (pr_Quantity r) (pr_EntryPrice r) (pr_Timestamp r).
#[global] Instance set_pr_InstrumentID : Setter pr_InstrumentID := fun f r => mkPositionStatusReport
  (pr_Metadata r) (pr_AccountID r) (f (pr_InstrumentID r)) (pr_PositionID r) (pr_VenuePositionID r)
  (pr_Side r) (pr_Quantity r) (pr_EntryPrice r) (pr_Timestamp r).
#[global] Instance set_pr_PositionID : Setter pr_PositionID := fun f r => mkPositionStatusReport
  (pr_Metadata r) (pr_AccountID r) (pr_InstrumentID r) (f (pr_PositionID r)) (pr_VenuePositionID r)
  (pr_Side r) (pr_Quantity r) (pr_EntryPrice r) (pr_Timestamp r).
#[global] Instance set_pr_VenuePositionID : Setter pr_VenuePositionID := fun f r =>
  mkPositionStatusReport (pr_Metadata r) (pr_AccountID r) (pr_InstrumentID r) (pr_PositionID r) (f
  (pr_VenuePositionID r)) (pr_Side r) (pr_Quantity r) (pr_EntryPrice r) (pr_Timestamp r).
#[global] Instance set_pr_Side : Setter pr_Side := fun f r => mkPositionStatusReport (pr_Metadata r)
  (pr_AccountID r) (pr_InstrumentID r) (pr_PositionID r) (pr_VenuePositionID r) (f (pr_Side r))
  (pr_Quantity r) (pr_EntryPrice r) (pr_Timestamp r).
#[global] Instance set_pr_Quantity : Setter pr_Quantity := fun f r => mkPositionStatusReport
  (pr_Metadata r) (pr_AccountID r) (pr_InstrumentID r) (pr_PositionID r) (pr_VenuePositionID r)
  (pr_Side r) (f (pr_Quantity r)) (pr_EntryPrice r) (pr_Timestamp r).
#[global] Instance set_pr_EntryPrice : Setter pr_EntryPrice := fun f r => mkPositionStatusReport
  (pr_Metadata r) (pr_AccountID r) (pr_InstrumentID r) (pr_PositionID r) (pr_VenuePositionID r)
  (pr_Side r) (pr_Quantity r) (f (pr_EntryPrice r)) (pr_Timestamp r).
#[global] Instance set_pr_Timestamp : Setter pr_Timestamp := fun f r => mkPositionStatusReport
  (pr_Metadata r) (pr_AccountID r) (pr_InstrumentID r) (pr_PositionID r) (pr_VenuePositionID r)
  (pr_Side r) (pr_Quantity r) (pr_EntryPrice r) (f (pr_Timestamp r)).

Definition PositionStatusReport_Validate (r : PositionStatusReport) : res unit :=
  fail_if (pr_AccountID r ≟ "") || (pr_PositionID r ≟ "")
    with mkErr ErrInvalidOrder "invalid position report" ;;
  ensure InstrumentID_Validate (pr_InstrumentID r) ;;
  fail_if IsNegative (pr_EntryPrice r)
    with mkErr ErrInvalidOrder "invalid position entry price" ;;
  fail_if (pr_Side r ≠? PositionSideNone) && (pr_Side r ≠? PositionSideLong) &&
          (pr_Side r ≠? PositionSideShort) && (pr_Side r ≠? PositionSideFlat)
    with mkErr ErrInvalidOrder "invalid position side" ;;
  Ok tt.
(** ** ApplyOrderModification *)

Definition opposes (a b : string) : bool := (a ≠? "") && (b ≠? "") && (a ≠? b).

(** One [if modify.F.IsPositive() { ... }] block: the type must allow the field, and a new
    value replaces the old one. *)
Definition modify_field (value current : D) (allowed : bool) (msg : string)
    (update : OrderStatusReport -> OrderStatusReport)
    (st : OrderStatusReport * bool) : res (OrderStatusReport * bool) :=
  if IsPositive value then
    fail_if negb allowed with mkErr ErrInvalidOrder msg ;;
    if negb (Equal value current) then Ok (update (fst st), true) else Ok st
  else Ok st.

Definition modify_quantity (order : OrderStatusReport) (modify : ModifyOrder)
    (st : OrderStatusReport * bool) : res (OrderStatusReport * bool) :=
  if IsPositive (mo_Quantity modify) then
    fail_if LessThan (mo_Quantity modify) (or_FilledQuantity order)
      with mkErr ErrInvalidOrder "quantity below filled quantity" ;;
    if negb (Equal (mo_Quantity modify) (or_Quantity order)) then
      let updated := fst st <| or_Quantity := mo_Quantity modify |>
                            <| or_LeavesQuantity := dsub (mo_Quantity modify) (or_FilledQuantity order) |> in
      let updated := if IsNegative (or_LeavesQuantity updated)
                     then updated <| or_LeavesQuantity := dzero |> else updated in
      Ok (updated, true)
    else Ok st
  else Ok st.

Definition modify_trailing_type (order : OrderStatusReport) (modify : ModifyOrder)
    (st : OrderStatusReport * bool) : res (OrderStatusReport * bool) :=
  if mo_TrailingOffsetType modify ≠? TrailingOffsetTypeNone then
    fail_if negb (orderTypeAllowsTrailing (or_Type order))
      with mkErr ErrInvalidOrder "order type does not support trailing type modification" ;;
    if TrailingOffsetType_Canonical (mo_TrailingOffsetType modify)
         ≠? TrailingOffsetType_Canonical (or_TrailingOffsetType order)
    then Ok (fst st <| or_TrailingOffsetType := mo_TrailingOffsetType modify |>, true)
    else Ok st
  else Ok st.

Definition modify_tif (order : OrderStatusReport) (modify : ModifyOrder)
    (st : OrderStatusReport * bool) : OrderStatusReport * bool :=
  if (mo_TimeInForce modify ≠? TimeInForceNone) &&
     (mo_TimeInForce modify ≠? or_TimeInForce order)
  then (fst st <| or_TimeInForce := mo_TimeInForce modify |>, true) else st.

(** The modifications, one after the other, on a copy of the order. *)
Definition modify_fields (order : OrderStatusReport) (modify : ModifyOrder) :
    res (OrderStatusReport * bool) :=
  let t := or_Type order in
  st ← modify_quantity order modify (order, false);
  st ← modify_field (mo_Price modify) (or_Price order) (orderTypeAllowsLimitPrice t)
         "order type does not support price modification"
         (fun u => u <| or_Price := mo_Price modify |>) st;
  st ← modify_field (mo_TriggerPrice modify) (or_TriggerPrice order) (orderTypeAllowsTriggerPrice t)
         "order type does not support trigger modification"
         (fun u => u <| or_TriggerPrice := mo_TriggerPrice modify |>) st;
  st ← modify_field (mo_ActivationPrice modify) (or_ActivationPrice order) (orderTypeAllowsTrailing t)
         "order type does not support activation modification"
         (fun u => u <| or_ActivationPrice := mo_ActivationPrice modify |>) st;
  st ← modify_field (mo_TrailingOffset modify) (or_TrailingOffset order) (orderTypeAllowsTrailing t)
         "order type does not support trailing modification"
         (fun u => u <| or_TrailingOffset := mo_TrailingOffset modify |>) st;
  st ← modify_trailing_type order modify st;
  Ok (modify_tif order modify st).

(** Succeeds with the updated order; the Go function returns [changed = true] exactly
    when it returns no error. *)
Definition ApplyOrderModification (order : OrderStatusReport) (modify : ModifyOrder) :
    res OrderStatusReport :=
  ensure ModifyOrder_Validate modify ;;
  fail_if mo_AccountID modify ≠? or_AccountID order
    with mkErr ErrInvalidOrder "account mismatch" ;;
  fail_if mo_InstrumentID modify ≠? or_InstrumentID order
    with mkErr ErrInvalidOrder "instrument mismatch" ;;
  fail_if opposes (mo_OrderID modify) (or_OrderID order)
    with mkErr ErrInvalidOrder "order id mismatch" ;;
  fail_if opposes (mo_ClientOrderID modify) (or_ClientOrderID order)
    with mkErr ErrInvalidOrder "client order id mismatch" ;;
  fail_if opposes (mo_VenueOrderID modify) (or_VenueOrderID order)
    with mkErr ErrInvalidOrder "venue order id mismatch" ;;
  fail_if negb (OrderStatus_IsOpen (or_Status order)) || (or_Status order ≟ OrderStatusPendingCancel)
    with mkErr ErrInvalidOrder "order is not modifiable" ;;
  st ← modify_fields order modify;
  fail_if negb (snd st) with mkErr ErrInvalidOrder "modify order did not change order" ;;
  Ok (fst st <| or_Status := OrderStatusAccepted |>).

End orders.

(** ** Theorems *)

Section facts.
Context {DD : Decimal} {DL : DecimalLaws DD}.
Implicit Types (o : SubmitOrder) (r order : OrderStatusReport) (m : ModifyOrder) (f : FillReport).

(** The type a validated order has, and the fields that type requires. *)
Definition well_typed_order o : Prop :=
  match so_Type o with
  | OrderTypeMarket | OrderTypeMarketToLimit => so_PostOnly o = false
  | OrderTypeLimit => 0 < dval (so_Price o)
  | OrderTypeStopMarket | OrderTypeMarketIfTouched =>
      0 < dval (so_TriggerPrice o) /\ so_PostOnly o = false
  | OrderTypeStopLimit | OrderTypeLimitIfTouched =>
      0 < dval (so_Price o) /\ 0 < dval (so_TriggerPrice o)
  | OrderTypeTrailingStopMarket => 0 < dval (so_TrailingOffset o) /\ so_PostOnly o = false
  | OrderTypeTrailingStopLimit => 0 < dval (so_Price o) /\ 0 < dval (so_TrailingOffset o)
  | OrderTypeNone | OrderTypeOther _ => False
  end.

(** The rest of what validation establishes. *)
Definition well_formed_order o : Prop :=
  so_AccountID o <> "" /\ so_Side o <> OrderSideNone /\ 0 < dval (so_Quantity o) /\
  InstrumentID_Validate (so_InstrumentID o) = Ok tt /\
  InstrumentID_Validate (SubmitOrder_TriggerInstrument o) = Ok tt /\
  (so_TimeInForce o = TimeInForceGTD -> (UnixEpoch < so_ExpireTime o)%Z /\ so_Type o <> OrderTypeMarket) /\
  (so_TimeInForce o <> TimeInForceGTD -> so_ExpireTime o = 0%Z).

Definition valid_enums o : Prop :=
  TimeInForce_Validate (so_TimeInForce o) = Ok tt /\
  TriggerType_Validate (so_EmulationTrigger o) = Ok tt /\
  TrailingOffsetType_Validate (so_TrailingOffsetType o) = Ok tt /\
  ContingencyType_Validate (so_Contingency o) = Ok tt.

Lemma validate_gives_form o :
  SubmitOrder_Validate o = Ok tt -> valid_enums o /\ well_typed_order o /\ well_formed_order o.
Proof.
  intros H. unfold SubmitOrder_Validate in H. peel H. repeat split; bools; try done; try (dec; done).
  - unfold well_typed_order, is_limit_type, orderTypeAllowsTriggerPrice, orderTypeAllowsTrailing in *.
    destruct (so_Type o); simpl in *; try done; bools; dec; auto.
  - unfold SubmitOrder_TriggerInstrument. by destruct (so_TriggerInstrumentID o ≠? InstrumentID_zero).
  - rewrite bool_decide_eq_true_2 in Heqr6 by done. peel Heqr6. by bools.
  - intros Et. rewrite Et, H0 in *. discriminate Heqb0.
  - intros ?. rewrite bool_decide_eq_false_2 in Heqr6 by done. peel Heqr6. by bools.
Qed.

Lemma form_gives_validate o :
  valid_enums o -> well_typed_order o -> well_formed_order o -> SubmitOrder_Validate o = Ok tt.
Proof.
  intros (E1 & E2 & E3 & E4) T (F1 & F2 & F3 & F4 & F5 & F6 & F7).
  unfold SubmitOrder_Validate. unfold well_typed_order in T.
  assert (OrderType_Validate (so_Type o) = Ok tt) as -> by (by destruct (so_Type o)).
  assert (forall (b : bool) (x : res unit), (b = true -> x = Ok tt) -> (if b then x else Ok tt) = Ok tt)
    as Hif by (intros []; auto).
  rewrite E1, E2, E3, E4, F4, Hif.
  2: { unfold SubmitOrder_TriggerInstrument in F5. intros E. by rewrite E in F5. }
  assert (forall (b1 b2 c : bool) e1 e2, (b1 = true -> b2 = false) -> (b1 = false -> c = false) ->
    (if b1 then (if b2 then Fail e1 else Ok tt) else (if c then Fail e2 else Ok tt)) = Ok tt) as Hif2.
  { intros [] b2 c e1 e2 H1 H2; [by rewrite H1 | by rewrite H2]. }
  rewrite Hif2; clear Hif Hif2.
  2: { intros H%bool_decide_eq_true. apply negb_false_iff, Z.ltb_lt, (F6 H). }
  2: { intros H%bool_decide_eq_false. apply negb_false_iff, Z.eqb_eq, (F7 H). }
  apply IsPositive_spec in F3. rewrite F3, !bool_decide_eq_false_2 by (done || by intros E; rewrite E in T).
  destruct (so_Type o) eqn:Et; simpl in *; try done; destruct_and?;
    repeat match goal with H : 0 < _ |- _ => apply IsPositive_spec in H; rewrite H end; simpl;
    rewrite ?andb_false_r; try done.
  1: rewrite bool_decide_eq_false_2 by (intros E; by destruct (F6 E)).
  all: by match goal with H : so_PostOnly _ = false |- _ => rewrite H end.
Qed.

(** C34: a submit order validates exactly when its enumerations are declared values and it
    has every field its type requires: an account, a side, a positive quantity, a
    positive limit price, trigger price or trailing offset where the type uses one,
    post-only never with a market style, an expiry after the Unix epoch exactly for GTD
    (which a market order never is), and valid instruments, its own and the one that
    triggers it. *)
Theorem SubmitOrder_Validate_spec o :
  SubmitOrder_Validate o = Ok tt <-> valid_enums o /\ well_typed_order o /\ well_formed_order o.
Proof. split; [apply validate_gives_form | intros (?&?&?); by apply form_gives_validate]. Qed.

(** *** Validation of reports *)

Record valid_report r : Prop := {
  vr_account : or_AccountID r <> "";
  vr_order : or_OrderID r <> "";
  vr_status : or_Status r <> OrderStatusNone;
  vr_instrument : InstrumentID_Validate (or_InstrumentID r) = Ok tt;
  vr_trigger : InstrumentID_Validate (OrderStatusReport_TriggerInstrument r) = Ok tt;
  vr_contingency : ContingencyType_Validate (or_Contingency r) = Ok tt;
  vr_trailing : TrailingOffsetType_Validate (or_TrailingOffsetType r) = Ok tt;
  vr_filled : 0 <= dval (or_FilledQuantity r);
  vr_quantity : 0 <= dval (or_Quantity r);
  vr_leaves : 0 <= dval (or_LeavesQuantity r);
  vr_bound : 0 < dval (or_Quantity r) -> dval (or_FilledQuantity r) <= dval (or_Quantity r);
}.

Lemma OrderStatusReport_Validate_ok r : OrderStatusReport_Validate r = Ok tt <-> valid_report r.
Proof.
  unfold OrderStatusReport_Validate. split.
  - intros H. peel H. bools. constructor; try done; try dec; unfold OrderStatusReport_TriggerInstrument.
    + by destruct (or_TriggerInstrumentID r ≠? InstrumentID_zero).
    + intros Hq. apply IsPositive_spec in Hq. rewrite Hq in *. simpl in *. dec.
  - intros []. rewrite !bool_decide_eq_false_2 by done. rewrite vr_instrument0, vr_contingency0, vr_trailing0.
    unfold OrderStatusReport_TriggerInstrument in *.
    destruct (or_TriggerInstrumentID r ≠? InstrumentID_zero); rewrite ?vr_trigger0.
    all: repeat match goal with |- context [IsNegative ?x] =>
           destruct (IsNegative x) eqn:?; [exfalso; dec|] end.
    all: destruct (IsPositive (or_Quantity r)) eqn:?; [|done]; simpl.
    all: destruct (GreaterThan _ _) eqn:?; [exfalso|done]; dec_hyps; lra.
Qed.

(** *** Order modification *)

(** What a modification may change: quantity, prices, trailing parameters and time in
    force; everything else, the filled quantity above all, is the order's. *)
Definition strip_terms r : OrderStatusReport :=
  r <| or_Quantity := dzero |> <| or_LeavesQuantity := dzero |> <| or_Price := dzero |>
    <| or_TriggerPrice := dzero |> <| or_ActivationPrice := dzero |> <| or_TrailingOffset := dzero |>
    <| or_TrailingOffsetType := TrailingOffsetTypeNone |> <| or_TimeInForce := TimeInForceNone |>.
Definition only_terms_differ order u : Prop := strip_terms u = strip_terms order.

(** The quantity a modification leaves: the order's, or the requested one, never below
    what is filled and with the leaves recomputed. *)
Definition quantity_ok order m u : Prop :=
  (or_Quantity u = or_Quantity order /\ or_LeavesQuantity u = or_LeavesQuantity order) \/
  (or_Quantity u = mo_Quantity m /\ 0 < dval (or_Quantity u) /\
   dval (or_FilledQuantity order) <= dval (or_Quantity u) /\
   dval (or_LeavesQuantity u) == dval (or_Quantity u) - dval (or_FilledQuantity order)).

Definition trailing_ok order m u : Prop :=
  or_TrailingOffsetType u = or_TrailingOffsetType order \/
  or_TrailingOffsetType u = mo_TrailingOffsetType m.

Definition modified order m u : Prop :=
  only_terms_differ order u /\ quantity_ok order m u /\ trailing_ok order m u.

Lemma modified_refl order m : modified order m order.
Proof. split_and!; by left || done. Qed.

Lemma modified_step order m value current allowed msg update st st' :
  (forall u, modified order m u -> modified order m (update u)) ->
  modify_field value current allowed msg update st = Ok st' ->
  modified order m (fst st) -> modified order m (fst st').
Proof.
  unfold modify_field. intros Hu H Hm. destruct (IsPositive value); [|by go_inv].
  peel H. go_inv; eauto.
Qed.

Lemma modified_quantity order m st' :
  modify_quantity order m (order, false) = Ok st' -> modified order m (fst st').
Proof.
  unfold modify_quantity. intros H. destruct (IsPositive _) eqn:Hp; [|go_inv; apply modified_refl].
  peel H. destruct (Equal _ _); simpl in H; [go_inv; apply modified_refl|].
  injection H as <-. split_and!; [|right|left; by destruct (IsNegative _)].
  - by destruct (IsNegative _).
  - destruct (IsNegative _) eqn:E; fields; dec; split_and!; try done; dec.
Qed.

Lemma modified_trailing order m st st' :
  modify_trailing_type order m st = Ok st' -> modified order m (fst st) -> modified order m (fst st').
Proof.
  unfold modify_trailing_type. intros H Hm. destruct (_ ≠? TrailingOffsetTypeNone); [|by go_inv].
  peel H. go_inv; [|done]. destruct Hm as (? & ? & ?). split_and!; [done | done | by right].
Qed.

Lemma modified_tif order m st :
  modified order m (fst st) -> modified order m (fst (modify_tif order m st)).
Proof. unfold modify_tif. by destruct (_ && _). Qed.

Lemma modify_fields_modified order m st :
  modify_fields order m = Ok st -> modified order m (fst st).
Proof.
  unfold modify_fields. intros H. peel H. injection H as <-.
  apply modified_tif. eapply modified_trailing; [eassumption|].
  do 4 (eapply modified_step; [| eassumption |]; [by intros u|]).
  by apply modified_quantity.
Qed.

Lemma terms_kept order u : only_terms_differ order u ->
  or_AccountID u = or_AccountID order /\ or_OrderID u = or_OrderID order /\
  or_InstrumentID u = or_InstrumentID order /\
  or_TriggerInstrumentID u = or_TriggerInstrumentID order /\
  or_Contingency u = or_Contingency order /\ or_FilledQuantity u = or_FilledQuantity order /\
  or_Status u = or_Status order.
Proof.
  intros T. split_and!.
  - exact (f_equal or_AccountID T).
  - exact (f_equal or_OrderID T).
  - exact (f_equal or_InstrumentID T).
  - exact (f_equal or_TriggerInstrumentID T).
  - exact (f_equal or_Contingency T).
  - exact (f_equal or_FilledQuantity T).
  - exact (f_equal or_Status T).
Qed.

Lemma modified_valid order m u :
  valid_report order -> ModifyOrder_Validate m = Ok tt -> modified order m u -> valid_report u.
Proof.
  intros [] VM (T & Q & TT). unfold ModifyOrder_Validate in VM. peel VM.
  apply terms_kept in T as (E1 & E2 & E3 & E4 & E5 & E6 & E7).
  assert (dval (or_FilledQuantity u) == dval (or_FilledQuantity order)) as Ef by by rewrite E6.
  constructor; rewrite ?E1, ?E2, ?E3, ?E5, ?E7; try done.
  - unfold OrderStatusReport_TriggerInstrument in *. by rewrite E3, E4.
  - destruct TT as [-> | ->]; [done|]. by bools.
  - by rewrite Ef.
  - destruct Q as [[-> _]|(_ & ? & _)]; [done | lra].
  - destruct Q as [[_ ->]|(_ & ? & ? & ?)]; [done | lra].
  - destruct Q as [[-> _]|(_ & ? & ? & ?)]; rewrite Ef; [done | lra].
Qed.

(** A modification that succeeds yields an accepted order whose identity, filled
    quantity, average price and flags are those of the order, whose quantity is the
    order's or the requested one (never below the filled quantity, with the leaves
    recomputed as their difference), and which still validates. *)
Theorem ApplyOrderModification_sound order m u :
  OrderStatusReport_Validate order = Ok tt -> ApplyOrderModification order m = Ok u ->
  only_terms_differ (order <| or_Status := OrderStatusAccepted |>) u /\
  quantity_ok order m u /\ OrderStatusReport_Validate u = Ok tt.
Proof.
  intros V H. unfold ApplyOrderModification in H. peel H. injection H as <-.
  match goal with H : modify_fields _ _ = Ok ?st |- _ =>
    apply modify_fields_modified in H as (T & Q & TT); destruct st as [u c]; simpl in * end.
  split_and!; [|done|].
  - exact (f_equal (set or_Status (fun _ => OrderStatusAccepted)) T).
  - apply OrderStatusReport_Validate_ok. apply OrderStatusReport_Validate_ok in V.
    bools. by destruct (modified_valid order m u); [| | |constructor].
Qed.

(** An order that is not open, or whose cancel is pending, is never modified. *)
Theorem ApplyOrderModification_closed order m :
  OrderStatus_IsOpen (or_Status order) = false \/ or_Status order = OrderStatusPendingCancel ->
  is_ok (ApplyOrderModification order m) = false.
Proof.
  intros Hc. destruct (ApplyOrderModification order m) as [u|] eqn:H; [exfalso|done].
  unfold ApplyOrderModification in H. peel H. bools.
  destruct Hc as [Hc|Hc]; [by rewrite Hc in *|]. done.
Qed.

(** Fills with a positive price and quantity and a non-negative fee. *)
Record valid_fill f : Prop := {
  vf_account : fr_AccountID f <> "";
  vf_trade : fr_TradeID f <> "";
  vf_order : fr_OrderID f = "" -> FillReport_IsLegFill f = true;
  vf_instrument : InstrumentID_Validate (fr_InstrumentID f) = Ok tt;
  vf_price : 0 < dval (fr_Price f);
  vf_quantity : 0 < dval (fr_Quantity f);
  vf_fee : 0 <= dval (fr_Fee f);
}.

Lemma FillReport_Validate_ok f : FillReport_Validate f = Ok tt -> valid_fill f.
Proof.
  unfold FillReport_Validate. intros H. peel H. bools. constructor; try done; try dec.
  intros E. rewrite E in *. simpl in *. by bools.
Qed.

Record valid_position (p : PositionStatusReport) : Prop := {
  vp_account : pr_AccountID p <> "";
  vp_position : pr_PositionID p <> "";
  vp_instrument : InstrumentID_Validate (pr_InstrumentID p) = Ok tt;
  vp_entry : 0 <= dval (pr_EntryPrice p);
}.

Lemma PositionStatusReport_Validate_ok p : PositionStatusReport_Validate p = Ok tt -> valid_position p.
Proof.
  unfold PositionStatusReport_Validate. intros H. peel H. bools. constructor; try done; dec.
Qed.
End facts.
