(* ===== verification/OrderState.v ===== *)
(** * The order state machine (account/state_machine.go)

    The transition table, [NextOrderStatus] and the step relation it induces. *)
From stdpp Require Import base list relations strings.
From S2P Require Import Prelude Enums.

Open Scope go_scope.

(** [orderStateTransitions]: for each status its entries, target and resulting status. *)
Definition orderStateTransitions (from : OrderStatus) : option (list (OrderStatus * OrderStatus)) :=
  match from with
  | OrderStatusInitialized => Some
      [(OrderStatusDenied, OrderStatusDenied);
       (OrderStatusEmulated, OrderStatusEmulated);
       (OrderStatusReleased, OrderStatusReleased);
       (OrderStatusSubmitted, OrderStatusSubmitted);
       (OrderStatusRejected, OrderStatusRejected);
       (OrderStatusAccepted, OrderStatusAccepted);
       (OrderStatusCanceled, OrderStatusCanceled);
       (OrderStatusExpired, OrderStatusExpired);
       (OrderStatusTriggered, OrderStatusTriggered)]
  | OrderStatusEmulated => Some
      [(OrderStatusCanceled, OrderStatusCanceled);
       (OrderStatusExpired, OrderStatusExpired);
       (OrderStatusReleased, OrderStatusReleased)]
  | OrderStatusReleased => Some
      [(OrderStatusDenied, OrderStatusDenied);
       (OrderStatusSubmitted, OrderStatusSubmitted);
       (OrderStatusCanceled, OrderStatusCanceled)]
  | OrderStatusSubmitted => Some
      [(OrderStatusPendingUpdate, OrderStatusPendingUpdate);
       (OrderStatusPendingCancel, OrderStatusPendingCancel);
       (OrderStatusRejected, OrderStatusRejected);
       (OrderStatusCanceled, OrderStatusCanceled);
       (OrderStatusAccepted, OrderStatusAccepted);
       (OrderStatusPartiallyFilled, OrderStatusPartiallyFilled);
       (OrderStatusFilled, OrderStatusFilled)]
  | OrderStatusAccepted => Some
      [(OrderStatusRejected, OrderStatusRejected);
       (OrderStatusTriggered, OrderStatusTriggered);
       (OrderStatusPendingUpdate, OrderStatusPendingUpdate);
       (OrderStatusPendingCancel, OrderStatusPendingCancel);
       (OrderStatusPartiallyFilled, OrderStatusPartiallyFilled);
       (OrderStatusFilled, OrderStatusFilled);
       (OrderStatusCanceled, OrderStatusCanceled);
       (OrderStatusExpired, OrderStatusExpired)]
  | OrderStatusCanceled => Some
      [(OrderStatusPartiallyFilled, OrderStatusPartiallyFilled);
       (OrderStatusFilled, OrderStatusFilled)]
  | OrderStatusTriggered => Some
      [(OrderStatusRejected, OrderStatusRejected);
       (OrderStatusPendingUpdate, OrderStatusPendingUpdate);
       (OrderStatusPendingCancel, OrderStatusPendingCancel);
       (OrderStatusPartiallyFilled, OrderStatusPartiallyFilled);
       (OrderStatusFilled, OrderStatusFilled);
       (OrderStatusCanceled, OrderStatusCanceled);
       (OrderStatusExpired, OrderStatusExpired)]
  | OrderStatusPendingUpdate => Some
      [(OrderStatusRejected, OrderStatusRejected);
       (OrderStatusAccepted, OrderStatusAccepted);
       (OrderStatusCanceled, OrderStatusCanceled);
       (OrderStatusExpired, OrderStatusExpired);
       (OrderStatusTriggered, OrderStatusTriggered);
       (OrderStatusSubmitted, OrderStatusPendingUpdate);
       (OrderStatusPendingUpdate, OrderStatusPendingUpdate);
       (OrderStatusPendingCancel, OrderStatusPendingCancel);
       (OrderStatusPartiallyFilled, OrderStatusPartiallyFilled);
       (OrderStatusFilled, OrderStatusFilled)]
  | OrderStatusPendingCancel => Some
      [(OrderStatusRejected, OrderStatusRejected);
       (OrderStatusPendingCancel, OrderStatusPendingCancel);
       (OrderStatusCanceled, OrderStatusCanceled);
       (OrderStatusExpired, OrderStatusExpired);
       (OrderStatusAccepted, OrderStatusAccepted);
       (OrderStatusPartiallyFilled, OrderStatusPartiallyFilled);
       (OrderStatusFilled, OrderStatusFilled)]
  | OrderStatusPartiallyFilled => Some
      [(OrderStatusPendingUpdate, OrderStatusPendingUpdate);
       (OrderStatusPendingCancel, OrderStatusPendingCancel);
       (OrderStatusFilled, OrderStatusFilled);
       (OrderStatusCanceled, OrderStatusCanceled);
       (OrderStatusExpired, OrderStatusExpired);
       (OrderStatusPartiallyFilled, OrderStatusPartiallyFilled)]
  | _ => None
  end.

(** Lookup of a key in the entries of a map literal. *)
Fixpoint entry (to : OrderStatus) (targets : list (OrderStatus * OrderStatus)) : option OrderStatus :=
  match targets with
  | [] => None
  | (k, v) :: rest => if k ≟ to then Some v else entry to rest
  end.

(** [NextOrderStatus]; [None] is the second result [false]. *)
Definition NextOrderStatus (from to : OrderStatus) : option OrderStatus :=
  if from ≟ to then Some to
  else if to ≟ OrderStatusNone then None
  else if from ≟ OrderStatusNone then Some to
  else match orderStateTransitions from with
       | None => None
       | Some targets => entry to targets
       end.

Definition CanOrderTransition (from to : OrderStatus) : bool :=
  match NextOrderStatus from to with Some _ => true | None => false end.

(** ** The step relation *)

(** One report with status [to] arrives for an order in status [s]. *)
Inductive status_step : OrderStatus -> OrderStatus -> Prop :=
  | step_report s to s' : NextOrderStatus s to = Some s' -> status_step s s'.

(** The statuses the table knows. *)
Definition known (s : OrderStatus) : Prop :=
  match s with OrderStatusNone | OrderStatusOther _ => False | _ => True end.

(** Terminal without any later fill: an order never leaves these. *)
Definition dead (s : OrderStatus) : bool :=
  match s with
  | OrderStatusDenied | OrderStatusFilled | OrderStatusRejected | OrderStatusExpired => true
  | _ => false
  end.

Lemma dead_terminal s : dead s = true -> OrderStatus_IsTerminal s = true.
Proof. by destruct s. Qed.

Ltac all_statuses :=
  repeat match goal with
  | s : OrderStatus |- _ => destruct s
  end.

Lemma next_dead s to s' : dead s = true -> NextOrderStatus s to = Some s' -> s' = s.
Proof.
  intros Hd. unfold NextOrderStatus. case_bool_decide; [congruence|].
  case_bool_decide; [done|]. destruct s; try done.
Qed.

Lemma next_canceled to s' :
  NextOrderStatus OrderStatusCanceled to = Some s' ->
  s' = OrderStatusCanceled \/ s' = OrderStatusPartiallyFilled \/ s' = OrderStatusFilled.
Proof.
  unfold NextOrderStatus. case_bool_decide; [naive_solver|].
  case_bool_decide; [done|]. destruct to; simpl; naive_solver.
Qed.

Lemma next_terminal from to s :
  NextOrderStatus from to = Some s -> OrderStatus_IsTerminal to = true -> s = to.
Proof.
  unfold NextOrderStatus. case_bool_decide; [naive_solver|].
  case_bool_decide; [done|]. case_bool_decide; [naive_solver|].
  destruct from; try done; destruct to; simpl; naive_solver.
Qed.

Lemma next_not_none from to s :
  NextOrderStatus from to = Some s -> to <> OrderStatusNone -> s <> OrderStatusNone.
Proof.
  unfold NextOrderStatus. case_bool_decide; [naive_solver|].
  case_bool_decide; [done|]. case_bool_decide; [naive_solver|].
  destruct from; try done; destruct to; simpl; naive_solver.
Qed.

(** A transition yields the reported status itself, except that a report of
    [submitted] while an update is pending leaves the update pending. *)
Theorem NextOrderStatus_result from to s :
  NextOrderStatus from to = Some s ->
  s = to \/ (from = OrderStatusPendingUpdate /\ to = OrderStatusSubmitted /\ s = OrderStatusPendingUpdate).
Proof.
  unfold NextOrderStatus. case_bool_decide; [naive_solver|].
  case_bool_decide; [done|]. case_bool_decide; [naive_solver|].
  destruct from; try done; destruct to; simpl; naive_solver.
Qed.

Lemma next_known from to s : known from -> NextOrderStatus from to = Some s -> known s.
Proof.
  intros K. unfold NextOrderStatus. case_bool_decide; [naive_solver|].
  case_bool_decide; [done|]. destruct from; try done; destruct to; simpl; naive_solver.
Qed.

Lemma step_known s s' : rtc status_step s s' -> known s -> known s'.
Proof. induction 1 as [|??? [] ? IH]; eauto using next_known. Qed.

Lemma steps_dead s s' : rtc status_step s s' -> dead s = true -> s' = s.
Proof.
  induction 1 as [|s y z [] ? IH]; [done|]. intros Hd.
  match goal with H : NextOrderStatus _ _ = Some _ |- _ => apply next_dead in H as ->; [|done] end.
  auto.
Qed.

(** Over any sequence of reports, a denied, filled, rejected or expired order keeps its
    status for ever, an order never returns to initialized once it has left it, and the
    statuses stay within the declared ones. *)
Theorem status_sequences s s' :
  rtc status_step s s' -> known s ->
  known s' /\ (dead s = true -> s' = s) /\ (s <> OrderStatusInitialized -> s' <> OrderStatusInitialized).
Proof.
  intros H K. split_and!; [by eapply step_known | by apply steps_dead|].
  induction H as [|s y z Hst _ IH]; [done|]. inversion Hst as [? to ? E]; subst.
  intros Hs. apply IH; [by eapply next_known|].
  clear IH. unfold NextOrderStatus in E. case_bool_decide; [congruence|].
  case_bool_decide; [done|]. destruct s; try done; destruct to; naive_solver.
Qed.

Lemma status_sequences_witness :
  rtc status_step OrderStatusFilled OrderStatusFilled /\ known OrderStatusFilled /\
  (known OrderStatusFilled /\ (dead OrderStatusFilled = true -> OrderStatusFilled = OrderStatusFilled) /\
   (OrderStatusFilled <> OrderStatusInitialized -> OrderStatusFilled <> OrderStatusInitialized)).
Proof.
  assert (H : rtc status_step OrderStatusFilled OrderStatusFilled) by apply rtc_refl.
  split; [exact H|]. split; [exact I|]. exact (status_sequences _ _ H I).
Defined.

Lemma report_step s to s' : NextOrderStatus s to = Some s' -> rtc status_step s s'.
Proof. intros. eapply rtc_once. by econstructor. Qed.



(** The modification of a partially filled order reports [accepted]
    ([model.ApplyOrderModification]), a transition this table does not have. *)
Lemma no_partially_filled_to_accepted :
  NextOrderStatus OrderStatusPartiallyFilled OrderStatusAccepted = None.
Proof. reflexivity. Qed.
