(* ===== verification/Market.v ===== *)
(** * Instruments and market data (model/instrument.go, model/market_data.go, model/data_request.go)

    Instruments with their tick-size checks, the market data payloads with their
    validation, the [MarketEvent] union, subscriptions and data requests. *)
From stdpp Require Import base gmap list strings.
From Stdlib Require Import QArith Qabs Qround Lqa.
From S2P Require Import Prelude Decimals Enums Identifiers Orders.

Open Scope go_scope.

Section market.
Context {DD : Decimal}.

(** ** Instruments *)

(** [model.Instrument] *)
Record Instrument := mkInstrument {
  in_ID : InstrumentID;
  in_RawSymbol : string;
  in_Type : InstrumentType;
  in_Base : Currency;
  in_Quote : Currency;
  in_Settle : Currency;
  in_PriceTick : D;
  in_SizeTick : D;
  in_MakerFee : D;
  in_TakerFee : D;
  in_MarginInit : D;
  in_MarginMaint : D;
  in_Status : InstrumentStatus;
}.

#[global] Instance set_in_Status : Setter in_Status := fun f r => mkInstrument (in_ID r)
  (in_RawSymbol r) (in_Type r) (in_Base r) (in_Quote r) (in_Settle r) (in_PriceTick r) (in_SizeTick
  r) (in_MakerFee r) (in_TakerFee r) (in_MarginInit r) (in_MarginMaint r) (f (in_Status r)).

Definition Instrument_Validate (i : Instrument) : res unit :=
  ensure InstrumentID_Validate (in_ID i) ;;
  fail_if (in_RawSymbol i ≟ "") || (in_Type i ≟ InstrumentTypeNone)
    with mkErr ErrInvalidInstrument "missing identity fields" ;;
  ensure InstrumentType_Validate (in_Type i) ;;
  fail_if requiresBaseQuote (in_Type i) && ((in_Base i ≟ "") || (in_Quote i ≟ ""))
    with mkErr ErrInvalidInstrument "missing currency fields" ;;
  fail_if requiresSettle (in_Type i) && (in_Settle i ≟ "")
    with mkErr ErrInvalidInstrument "missing settle currency" ;;
  fail_if negb (IsPositive (in_PriceTick i)) || negb (IsPositive (in_SizeTick i))
    with mkErr ErrInvalidInstrument "non-positive increments" ;;
  fail_if IsNegative (in_MakerFee i) || IsNegative (in_TakerFee i)
    with mkErr ErrInvalidInstrument "negative fee rate" ;;
  fail_if IsNegative (in_MarginInit i) || IsNegative (in_MarginMaint i)
    with mkErr ErrInvalidInstrument "negative margin rate" ;;
  fail_if in_Status i ≟ InstrumentStatusNone
    with mkErr ErrInvalidInstrument "missing status" ;;
  Ok tt.

Definition isMultipleOf (value increment : D) : bool :=
  if negb (IsPositive increment) then false else IsZero (dmod value increment).

Definition ValidatePrice (i : Instrument) (price : D) : res unit :=
  fail_if negb (IsPositive price) with mkErr ErrInvalidOrder "non-positive price" ;;
  fail_if negb (isMultipleOf price (in_PriceTick i))
    with mkErr ErrInvalidOrder "price does not match tick size" ;;
  Ok tt.

Definition ValidateSize (i : Instrument) (size : D) : res unit :=
  fail_if negb (IsPositive size) with mkErr ErrInvalidOrder "non-positive size" ;;
  fail_if negb (isMultipleOf size (in_SizeTick i))
    with mkErr ErrInvalidOrder "size does not match lot size" ;;
  Ok tt.

(** [model.SyntheticInstrument] *)
Record SyntheticInstrument := mkSyntheticInstrument {
  sy_ID : InstrumentID;
  sy_PricePrecision : Z;
  sy_PriceTick : D;
  sy_Components : list InstrumentID;
  sy_Formula : string;
  sy_Timestamp : time;
  sy_InitTime : time;
}.

Definition SyntheticInstrument_Validate (s : SyntheticInstrument) : res unit :=
  ensure InstrumentID_Validate (sy_ID s) ;;
  fail_if negb (IsSynthetic (sy_ID s))
    with mkErr ErrInvalidInstrument "synthetic instrument requires SYNTH venue" ;;
  fail_if (sy_PricePrecision s <? 0)%Z || (9 <? sy_PricePrecision s)%Z
    with mkErr ErrInvalidInstrument "invalid synthetic price precision" ;;
  fail_if negb (IsPositive (sy_PriceTick s))
    with mkErr ErrInvalidInstrument "non-positive synthetic price tick" ;;
  fail_if (length (sy_Components s) <? 2)%nat
    with mkErr ErrInvalidInstrument "synthetic instrument requires at least two components" ;;
  ensure check_all InstrumentID_Validate (sy_Components s) ;;
  fail_if sy_Formula s ≟ "" with mkErr ErrInvalidInstrument "missing synthetic formula" ;;
  Ok tt.

(** ** Bar types *)

(** [model.BarType] *)
Record BarType := mkBarType {
  bt_InstrumentID : InstrumentID;
  bt_Step : duration;
  bt_Aggregation : BarAggregation;
  bt_PriceType : BarPriceType;
  bt_AggregationSource : AggregationSource;
}.

Definition NewTimeBarType (instrumentID : InstrumentID) (step : duration) : BarType :=
  mkBarType instrumentID step BarAggregationTime BarPriceTypeLast AggregationSourceExternal.

Definition BarType_Canonical (t : BarType) : BarType :=
  mkBarType (bt_InstrumentID t) (bt_Step t)
    (if bt_Aggregation t ≟ BarAggregationNone then BarAggregationTime else bt_Aggregation t)
    (if bt_PriceType t ≟ BarPriceTypeNone then BarPriceTypeLast else bt_PriceType t)
    (if bt_AggregationSource t ≟ AggregationSourceNone then AggregationSourceExternal
     else bt_AggregationSource t).

Definition BarType_Validate (t : BarType) : res unit :=
  let t := BarType_Canonical t in
  ensure InstrumentID_Validate (bt_InstrumentID t) ;;
  fail_if (bt_Step t <=? 0)%Z with mkErr ErrInvalidMarketData "bar type step must be positive" ;;
  fail_if bt_Aggregation t ≠? BarAggregationTime
    with mkErr ErrInvalidMarketData "unsupported bar aggregation" ;;
  fail_if bt_PriceType t ≠? BarPriceTypeLast
    with mkErr ErrInvalidMarketData "unsupported bar price type" ;;
  match bt_AggregationSource t with
  | AggregationSourceExternal | AggregationSourceInternal => Ok tt
  | _ => Fail (mkErr ErrInvalidMarketData "unsupported bar aggregation source")
  end.

(** ** Payloads *)

(** [model.Ticker] *)
Record Ticker := mkTicker {
  tk_InstrumentID : InstrumentID;
  tk_Bid : D;
  tk_Ask : D;
  tk_Last : D;
  tk_Timestamp : time;
}.

Definition Ticker_Validate (t : Ticker) : res unit :=
  ensure InstrumentID_Validate (tk_InstrumentID t) ;;
  fail_if IsNegative (tk_Bid t) || IsNegative (tk_Ask t) || IsNegative (tk_Last t)
    with mkErr ErrInvalidMarketData "negative ticker price" ;;
  fail_if IsPositive (tk_Bid t) && IsPositive (tk_Ask t) && GreaterThan (tk_Bid t) (tk_Ask t)
    with mkErr ErrInvalidMarketData "crossed ticker" ;;
  Ok tt.

(** [model.TradeTick] *)
Record TradeTick := mkTradeTick {
  tt_InstrumentID : InstrumentID;
  tt_Price : D;
  tt_Size : D;
  tt_AggressorSide : AggressorSide;
  tt_TradeID : TradeID;
  tt_Timestamp : time;
  tt_InitTime : time;
}.

Definition TradeTick_Validate (t : TradeTick) : res unit :=
  ensure InstrumentID_Validate (tt_InstrumentID t) ;;
  fail_if negb (IsPositive (tt_Price t)) || negb (IsPositive (tt_Size t))
    with mkErr ErrInvalidMarketData "non-positive trade tick price or size" ;;
  ensure AggressorSide_Validate (tt_AggressorSide t) ;;
  fail_if tt_TradeID t ≟ "" with mkErr ErrInvalidMarketData "missing trade tick trade id" ;;
  Ok tt.

(** [model.QuoteTick] *)
Record QuoteTick := mkQuoteTick {
  qt_InstrumentID : InstrumentID;
  qt_BidPrice : D;
  qt_AskPrice : D;
  qt_BidSize : D;
  qt_AskSize : D;
  qt_Timestamp : time;
  qt_InitTime : time;
}.

Definition QuoteTick_Validate (q : QuoteTick) : res unit :=
  ensure InstrumentID_Validate (qt_InstrumentID q) ;;
  fail_if negb (IsPositive (qt_BidPrice q)) || negb (IsPositive (qt_AskPrice q)) ||
          negb (IsPositive (qt_BidSize q)) || negb (IsPositive (qt_AskSize q))
    with mkErr ErrInvalidMarketData "non-positive quote tick price or size" ;;
  fail_if GreaterThan (qt_BidPrice q) (qt_AskPrice q)
    with mkErr ErrInvalidMarketData "crossed quote tick" ;;
  Ok tt.

(** [model.Bar] *)
Record Bar := mkBar {
  br_BarType : BarType;
  br_Open : D;
  br_High : D;
  br_Low : D;
  br_Close : D;
  br_Volume : D;
  br_Timestamp : time;
  br_InitTime : time;
  br_IsRevision : bool;
}.

#[global] Instance set_br_BarType : Setter br_BarType := fun f r => mkBar (f (br_BarType r))
  (br_Open r) (br_High r) (br_Low r) (br_Close r) (br_Volume r) (br_Timestamp r) (br_InitTime r)
  (br_IsRevision r).

Definition Bar_Validate (b : Bar) : res unit :=
  let barType := BarType_Canonical (br_BarType b) in
  ensure BarType_Validate barType ;;
  fail_if negb (IsPositive (br_Open b)) || negb (IsPositive (br_High b)) ||
          negb (IsPositive (br_Low b)) || negb (IsPositive (br_Close b))
    with mkErr ErrInvalidMarketData "non-positive bar price" ;;
  fail_if IsNegative (br_Volume b) with mkErr ErrInvalidMarketData "negative bar volume" ;;
  fail_if LessThan (br_High b) (br_Open b) || LessThan (br_High b) (br_Low b) ||
          LessThan (br_High b) (br_Close b)
    with mkErr ErrInvalidMarketData "bar high below OHLC value" ;;
  fail_if GreaterThan (br_Low b) (br_Open b) || GreaterThan (br_Low b) (br_Close b)
    with mkErr ErrInvalidMarketData "bar low above OHLC value" ;;
  Ok tt.

(** [model.OrderBookLevel] *)
Record OrderBookLevel := mkOrderBookLevel {
  lv_Price : D;
  lv_Size : D;
}.

(** [model.OrderBook] *)
Record OrderBook := mkOrderBook {
  ob_InstrumentID : InstrumentID;
  ob_Bids : list OrderBookLevel;
  ob_Asks : list OrderBookLevel;
  ob_Timestamp : time;
}.

Definition OrderBook_Validate (b : OrderBook) : res unit :=
  ensure InstrumentID_Validate (ob_InstrumentID b) ;;
  ensure check_all (fun level =>
    fail_if negb (IsPositive (lv_Price level)) || negb (IsPositive (lv_Size level))
      with mkErr ErrInvalidMarketData "non-positive book level" ;;
    Ok tt) (ob_Bids b ++ ob_Asks b) ;;
  fail_if match ob_Bids b, ob_Asks b with
          | bid :: _, ask :: _ => GreaterThanOrEqual (lv_Price bid) (lv_Price ask)
          | _, _ => false
          end
    with mkErr ErrInvalidMarketData "crossed book" ;;
  Ok tt.

(** [model.FundingRate] *)
Record FundingRate := mkFundingRate {
  fd_InstrumentID : InstrumentID;
  fd_Rate : D;
  fd_NextFundingTime : time;
  fd_FundingInterval : duration;
  fd_Timestamp : time;
  fd_InitTime : time;
}.

Definition FundingRate_Validate (f : FundingRate) : res unit :=
  ensure InstrumentID_Validate (fd_InstrumentID f) ;;
  fail_if (fd_FundingInterval f <? 0)%Z
    with mkErr ErrInvalidMarketData "funding interval cannot be negative" ;;
  Ok tt.

(** [model.CustomData] *)
Record CustomData := mkCustomData {
  cd_InstrumentID : InstrumentID;
  cd_Type : string;
  cd_Fields : gmap string string;
  cd_Timestamp : time;
  cd_InitTime : time;
}.

Definition CustomData_Validate (d : CustomData) : res unit :=
  ensure InstrumentID_Validate (cd_InstrumentID d) ;;
  fail_if cd_Type d ≟ "" with mkErr ErrInvalidMarketData "missing custom data type" ;;
  Ok tt.

(** [model.MarketEvent]: pointers, of which validation wants exactly one set. *)
Record MarketEvent := mkMarketEvent {
  ev_Ticker : option Ticker;
  ev_OrderBook : option OrderBook;
  ev_Trade : option TradeTick;
  ev_Quote : option QuoteTick;
  ev_Bar : option Bar;
  ev_FundingRate : option FundingRate;
  ev_Custom : option CustomData;
}.

Definition MarketEvent_InstrumentID (e : MarketEvent) : InstrumentID :=
  match ev_Ticker e, ev_OrderBook e, ev_Trade e, ev_Quote e, ev_Bar e, ev_FundingRate e, ev_Custom e with
  | Some t, _, _, _, _, _, _ => tk_InstrumentID t
  | None, Some b, _, _, _, _, _ => ob_InstrumentID b
  | None, None, Some t, _, _, _, _ => tt_InstrumentID t
  | None, None, None, Some q, _, _, _ => qt_InstrumentID q
  | None, None, None, None, Some b, _, _ => bt_InstrumentID (BarType_Canonical (br_BarType b))
  | None, None, None, None, None, Some f, _ => fd_InstrumentID f
  | None, None, None, None, None, None, Some c => cd_InstrumentID c
  | None, None, None, None, None, None, None => InstrumentID_zero
  end.

(** Validates a payload that is set. *)
Definition validate_opt {A} (f : A -> res unit) (o : option A) : res unit :=
  match o with Some a => f a | None => Ok tt end.
Definition count_opt {A} (o : option A) : nat := match o with Some _ => 1 | None => 0 end.

Definition MarketEvent_count (e : MarketEvent) : nat :=
  (count_opt (ev_Ticker e) + count_opt (ev_OrderBook e) + count_opt (ev_Trade e) +
   count_opt (ev_Quote e) + count_opt (ev_Bar e) + count_opt (ev_FundingRate e) +
   count_opt (ev_Custom e))%nat.

Definition MarketEvent_Validate (e : MarketEvent) : res unit :=
  ensure validate_opt Ticker_Validate (ev_Ticker e) ;;
  ensure validate_opt OrderBook_Validate (ev_OrderBook e) ;;
  ensure validate_opt TradeTick_Validate (ev_Trade e) ;;
  ensure validate_opt QuoteTick_Validate (ev_Quote e) ;;
  ensure validate_opt Bar_Validate (ev_Bar e) ;;
  ensure validate_opt FundingRate_Validate (ev_FundingRate e) ;;
  ensure validate_opt CustomData_Validate (ev_Custom e) ;;
  fail_if negb (MarketEvent_count e =? 1)%nat
    with mkErr ErrInvalidMarketData "market event needs one payload" ;;
  Ok tt.

(** ** Subscriptions and requests *)

(** [model.SubscribeMarketData] *)
Record SubscribeMarketData := mkSubscribeMarketData {
  sm_InstrumentID : InstrumentID;
  sm_Type : MarketDataType;
  sm_Depth : Z;
  sm_BarType : BarType;
}.

Definition SubscribeMarketData_Validate (s : SubscribeMarketData) : res unit :=
  ensure InstrumentID_Validate (sm_InstrumentID s) ;;
  ensure MarketDataType_Validate (sm_Type s) ;;
  fail_if (sm_Type s ≟ MarketDataTypeOrderBook) && (sm_Depth s <=? 0)%Z
    with mkErr ErrInvalidMarketData "order book subscription depth must be positive" ;;
  fail_if (sm_Type s ≠? MarketDataTypeOrderBook) && (sm_Depth s <? 0)%Z
    with mkErr ErrInvalidMarketData "subscription depth cannot be negative" ;;
  if sm_Type s ≟ MarketDataTypeBar then
    let barType := BarType_Canonical (sm_BarType s) in
    ensure BarType_Validate barType ;;
    fail_if bt_InstrumentID barType ≠? sm_InstrumentID s
      with mkErr ErrInvalidMarketData "bar subscription instrument mismatch" ;;
    Ok tt
  else Ok tt.

(** [model.DataRequest] *)
Record DataRequest := mkDataRequest {
  dr_Metadata : CommandMetadata;
  dr_RequestID : string;
  dr_InstrumentID : InstrumentID;
  dr_Type : MarketDataType;
  dr_BarType : BarType;
  dr_Start : time;
  dr_End : time;
  dr_Limit : Z;
  dr_Depth : Z;
  dr_CustomType : string;
}.

Definition DataRequest_Validate (r : DataRequest) : res unit :=
  fail_if dr_RequestID r ≟ "" with mkErr ErrInvalidMarketData "missing request id" ;;
  ensure InstrumentID_Validate (dr_InstrumentID r) ;;
  ensure MarketDataType_Validate (dr_Type r) ;;
  fail_if (dr_Limit r <? 0)%Z with mkErr ErrInvalidMarketData "negative request limit" ;;
  fail_if negb (time_IsZero (dr_Start r)) && negb (time_IsZero (dr_End r)) &&
          negb (After (dr_End r) (dr_Start r))
    with mkErr ErrInvalidMarketData "request end must be after start" ;;
  match dr_Type r with
  | MarketDataTypeBar =>
      let barType := BarType_Canonical (dr_BarType r) in
      ensure BarType_Validate barType ;;
      fail_if bt_InstrumentID barType ≠? dr_InstrumentID r
        with mkErr ErrInvalidMarketData "bar request instrument mismatch" ;;
      Ok tt
  | MarketDataTypeOrderBook =>
      fail_if (dr_Depth r <=? 0)%Z
        with mkErr ErrInvalidMarketData "order book request depth must be positive" ;;
      Ok tt
  | MarketDataTypeCustom =>
      fail_if dr_CustomType r ≟ "" with mkErr ErrInvalidMarketData "missing custom data type" ;;
      Ok tt
  | _ =>
      fail_if (dr_Depth r <? 0)%Z
        with mkErr ErrInvalidMarketData "request depth cannot be negative" ;;
      Ok tt
  end.

Definition marketEventMatchesType (event : MarketEvent) (typ : MarketDataType) : bool :=
  match typ with
  | MarketDataTypeTicker => bool_decide (is_Some (ev_Ticker event))
  | MarketDataTypeOrderBook => bool_decide (is_Some (ev_OrderBook event))
  | MarketDataTypeTradeTick => bool_decide (is_Some (ev_Trade event))
  | MarketDataTypeQuoteTick => bool_decide (is_Some (ev_Quote event))
  | MarketDataTypeBar => bool_decide (is_Some (ev_Bar event))
  | MarketDataTypeFundingRate => bool_decide (is_Some (ev_FundingRate event))
  | MarketDataTypeCustom => bool_decide (is_Some (ev_Custom event))
  | MarketDataTypeNone | MarketDataTypeOther _ => false
  end.

(** [model.DataResponse] *)
Record DataResponse := mkDataResponse {
  ds_Metadata : CommandMetadata;
  ds_RequestID : string;
  ds_InstrumentID : InstrumentID;
  ds_Type : MarketDataType;
  ds_BarType : BarType;
  ds_Events : list MarketEvent;
  ds_IsFinal : bool;
}.

Definition DataResponse_Validate (r : DataResponse) : res unit :=
  fail_if ds_RequestID r ≟ "" with mkErr ErrInvalidMarketData "missing response request id" ;;
  ensure InstrumentID_Validate (ds_InstrumentID r) ;;
  ensure MarketDataType_Validate (ds_Type r) ;;
  ensure (if ds_Type r ≟ MarketDataTypeBar then
            let barType := BarType_Canonical (ds_BarType r) in
            ensure BarType_Validate barType ;;
            fail_if bt_InstrumentID barType ≠? ds_InstrumentID r
              with mkErr ErrInvalidMarketData "bar response instrument mismatch" ;;
            Ok tt
          else Ok tt) ;;
  check_all (fun event =>
    ensure MarketEvent_Validate event ;;
    fail_if MarketEvent_InstrumentID event ≠? ds_InstrumentID r
      with mkErr ErrInvalidMarketData "response instrument mismatch" ;;
    fail_if negb (marketEventMatchesType event (ds_Type r))
      with mkErr ErrInvalidMarketData "response event type mismatch" ;;
    Ok tt) (ds_Events r).
End market.

#[global] Instance BarType_eq_dec : EqDecision BarType.
Proof. solve_decision. Defined.

(** Bar types are map keys; only their equality matters, so the encoding goes through the
    underlying strings and the position of the constructor. *)
#[global] Instance BarAggregation_countable : Countable BarAggregation.
Proof.
  refine (inj_countable'
    (fun x => match x with BarAggregationNone => inl true | BarAggregationTime => inl false
              | BarAggregationOther s => inr s end)
    (fun x => match x with inl true => BarAggregationNone | inl false => BarAggregationTime
              | inr s => BarAggregationOther s end) _). by intros [].
Defined.
#[global] Instance BarPriceType_countable : Countable BarPriceType.
Proof.
  refine (inj_countable'
    (fun x => match x with BarPriceTypeNone => inl true | BarPriceTypeLast => inl false
              | BarPriceTypeOther s => inr s end)
    (fun x => match x with inl true => BarPriceTypeNone | inl false => BarPriceTypeLast
              | inr s => BarPriceTypeOther s end) _). by intros [].
Defined.
#[global] Instance AggregationSource_countable : Countable AggregationSource.
Proof.
  refine (inj_countable'
    (fun x => match x with AggregationSourceNone => inl 0%nat | AggregationSourceExternal => inl 1%nat
              | AggregationSourceInternal => inl 2%nat | AggregationSourceOther s => inr s end)
    (fun x => match x with inl 0%nat => AggregationSourceNone | inl 1%nat => AggregationSourceExternal
              | inl _ => AggregationSourceInternal | inr s => AggregationSourceOther s end) _).
  by intros [].
Defined.
#[global] Instance BarType_countable : Countable BarType.
Proof.
  refine (inj_countable'
    (fun t => (bt_InstrumentID t, bt_Step t, bt_Aggregation t, bt_PriceType t, bt_AggregationSource t))
    (fun '(a, b, c, d, e) => mkBarType a b c d e) _). by intros [].
Defined.

(** ** Theorems *)
Section facts.
Context {DD : Decimal} {DL : DecimalLaws DD}.

Lemma Qtrunc_int z : Qtrunc (inject_Z z) = z.
Proof.
  unfold Qtrunc. destruct (Qle_bool 0 (inject_Z z)); [apply Qfloor_Z|].
  rewrite <- inject_Z_opp, Qfloor_Z. lia.
Qed.

#[local] Instance Qtrunc_proper : Proper (Qeq ==> eq) Qtrunc.
Proof.
  intros x y E. unfold Qtrunc. rewrite (Qleb_comp 0 0 (Qeq_refl 0) x y E).
  destruct (Qle_bool 0 y); by rewrite E.
Qed.

(** [isMultipleOf] decides being an integer multiple of a positive increment. *)
Lemma isMultipleOf_spec value increment :
  isMultipleOf value increment = true <->
  0 < dval increment /\ exists k : Z, dval value == inject_Z k * dval increment.
Proof.
  unfold isMultipleOf. destruct (IsPositive increment) eqn:E; simpl.
  - dec_hyps. rewrite IsZero_spec, dval_mod by lra. split.
    + intros H. split; [done|]. exists (Qtrunc (dval value / dval increment)). lra.
    + intros [_ [k Hk]].
      assert (Hq : dval value / dval increment == inject_Z k) by (rewrite Hk; field; lra).
      rewrite Hq, Qtrunc_int, Hk. ring.
  - dec_hyps. split; [done|]. intros [? _]. lra.
Qed.

(** A price passes an instrument's check exactly when it is a positive integer number
    of price ticks, and a size exactly when it is a positive integer number of size ticks. *)
Theorem ValidatePrice_Size_spec (i : Instrument) x :
  0 < dval (in_PriceTick i) -> 0 < dval (in_SizeTick i) ->
  (ValidatePrice i x = Ok tt <-> exists k : Z, (0 < k)%Z /\ dval x == inject_Z k * dval (in_PriceTick i)) /\
  (ValidateSize i x = Ok tt <-> exists k : Z, (0 < k)%Z /\ dval x == inject_Z k * dval (in_SizeTick i)).
Proof.
  intros Hp Hs.
  assert (G : forall t e1 e2, 0 < dval t ->
    (fail_if negb (IsPositive x) with e1 ;; fail_if negb (isMultipleOf x t) with e2 ;; Ok tt) = Ok tt <->
    exists k : Z, (0 < k)%Z /\ dval x == inject_Z k * dval t).
  { intros t e1 e2 Ht. split.
    - intros H. peel H. bools. dec_hyps.
      match goal with H : isMultipleOf _ _ = true |- _ => apply isMultipleOf_spec in H as [_ [k Hk]] end.
      exists k. split; [|done]. rewrite Hk in *.
      destruct (Z.lt_ge_cases 0 k) as [|Hle]; [done|exfalso].
      assert (inject_Z k <= 0) by (unfold Qle; simpl; lia). nra.
    - intros (k & Hk0 & Hk).
      assert (isMultipleOf x t = true) as -> by (apply isMultipleOf_spec; eauto).
      assert (IsPositive x = true) as ->; [|done].
      apply IsPositive_spec. rewrite Hk.
      assert (0 < inject_Z k) by (unfold Qlt; simpl; lia). nra. }
  split; apply G; done.
Qed.

(** A market event that validates has exactly one payload, and that payload validates. *)
Theorem MarketEvent_Validate_one (e : MarketEvent) :
  MarketEvent_Validate e = Ok tt ->
  MarketEvent_count e = 1%nat /\ validate_opt Ticker_Validate (ev_Ticker e) = Ok tt /\
  validate_opt OrderBook_Validate (ev_OrderBook e) = Ok tt /\
  validate_opt TradeTick_Validate (ev_Trade e) = Ok tt /\
  validate_opt QuoteTick_Validate (ev_Quote e) = Ok tt /\
  validate_opt Bar_Validate (ev_Bar e) = Ok tt.
Proof.
  unfold MarketEvent_Validate. intros H. peel H. bools.
  match goal with H : (_ =? 1)%nat = true |- _ => apply Nat.eqb_eq in H end. done.
Qed.
End facts.
