(* ===== verification/Accounts.v ===== *)
(** * Accounts, lifecycle events and mass status
    (model/account.go, model/order_event.go, model/position_event.go, model/command.go)

    Balances written as decimal strings, account snapshots, the order and position
    lifecycle events, the [ExecutionEvent] union and the mass status report. *)
From stdpp Require Import base gmap list strings.
From Stdlib Require Import QArith Lqa.
From S2P Require Import Prelude Decimals Enums Identifiers Orders Market.

Open Scope go_scope.

Section accounts.
Context {DD : Decimal}.

(** ** Balances *)

(** [model.Balance]: amounts are decimal strings, [""] for an amount left out. *)
Record Balance := mkBalance {
  bl_Currency : Currency;
  bl_Free : string;
  bl_Locked : string;
  bl_Total : string;
}.

Definition parseOptionalDecimal (value : string) : res D :=
  if value ≟ "" then Ok dzero
  else match dparse value with
       | None => Fail (mkErr ErrInvalidAccount "invalid amount")
       | Some amount => Ok amount
       end.

(** [Balance.Amounts]: total, locked and free, each derived from the other two when it is
    left out. *)
Definition Balance_Amounts (b : Balance) : res (D * D * D) :=
  total ← parseOptionalDecimal (bl_Total b);
  locked ← parseOptionalDecimal (bl_Locked b);
  free ← parseOptionalDecimal (bl_Free b);
  let total := if (bl_Total b ≟ "") && ((bl_Free b ≠? "") || (bl_Locked b ≠? ""))
               then dadd free locked else total in
  let locked := if (bl_Locked b ≟ "") && (bl_Total b ≠? "") && (bl_Free b ≠? "")
                then dsub total free else locked in
  let free := if (bl_Free b ≟ "") && (bl_Total b ≠? "")
              then dsub total locked else free in
  Ok (total, locked, free).

Definition Balance_TotalAmount (b : Balance) : res D := (fun '(total, _, _) => total) <$> Balance_Amounts b.
Definition Balance_LockedAmount (b : Balance) : res D := (fun '(_, locked, _) => locked) <$> Balance_Amounts b.
Definition Balance_FreeAmount (b : Balance) : res D := (fun '(_, _, free) => free) <$> Balance_Amounts b.

Definition Balance_Validate (b : Balance) : res unit :=
  fail_if bl_Currency b ≟ "" with mkErr ErrInvalidAccount "missing balance currency" ;;
  '(total, locked, free) ← Balance_Amounts b;
  fail_if IsNegative total || IsNegative locked || IsNegative free
    with mkErr ErrInvalidAccount "negative balance amount" ;;
  fail_if negb (Equal (dsub total locked) free)
    with mkErr ErrInvalidAccount "total - locked must equal free" ;;
  Ok tt.

(** [model.MarginBalance] *)
Record MarginBalance := mkMarginBalance {
  mb_Currency : Currency;
  mb_InstrumentID : InstrumentID;
  mb_Initial : string;
  mb_Maintenance : string;
}.

Definition MarginBalance_Amounts (m : MarginBalance) : res (D * D) :=
  initial ← parseOptionalDecimal (mb_Initial m);
  maintenance ← parseOptionalDecimal (mb_Maintenance m);
  Ok (initial, maintenance).

Definition MarginBalance_Validate (m : MarginBalance) : res unit :=
  fail_if mb_Currency m ≟ "" with mkErr ErrInvalidAccount "missing margin currency" ;;
  '(initial, maintenance) ← MarginBalance_Amounts m;
  fail_if IsNegative initial || IsNegative maintenance
    with mkErr ErrInvalidAccount "negative margin amount" ;;
  Ok tt.

(** ** Accounts *)

(** [model.AccountSnapshot] *)
Record AccountSnapshot := mkAccountSnapshot {
  as_AccountID : AccountID;
  as_Venue : Venue;
  as_Type : AccountType;
  as_BaseCurrency : Currency;
  as_Balances : list Balance;
  as_Margins : list MarginBalance;
  as_Timestamp : time;
}.

#[global] Instance set_as_Balances : Setter as_Balances := fun f r => mkAccountSnapshot
  (as_AccountID r) (as_Venue r) (as_Type r) (as_BaseCurrency r) (f (as_Balances r)) (as_Margins r)
  (as_Timestamp r).

Definition AccountSnapshot_zero : AccountSnapshot :=
  mkAccountSnapshot "" "" AccountTypeNone "" [] [] 0.

Definition AccountSnapshot_Validate (a : AccountSnapshot) : res unit :=
  fail_if as_AccountID a ≟ "" with mkErr ErrInvalidAccount "invalid account" ;;
  ensure match as_Type a with
         | AccountTypeNone | AccountTypeCash | AccountTypeMargin => Ok tt
         | AccountTypeOther _ => Fail (mkErr ErrInvalidAccount "invalid account type")
         end ;;
  ensure check_all Balance_Validate (as_Balances a) ;;
  check_all MarginBalance_Validate (as_Margins a).

(** ** Order lifecycle events *)

(** [model.OrderLifecycleEvent] *)
Record OrderLifecycleEvent := mkOrderLifecycleEvent {
  oe_Metadata : CommandMetadata;
  oe_AccountID : AccountID;
  oe_InstrumentID : InstrumentID;
  oe_OrderID : OrderID;
  oe_ClientOrderID : ClientOrderID;
  oe_VenueOrderID : VenueOrderID;
  oe_Kind : OrderEventKind;
  oe_PreviousStatus : OrderStatus;
  oe_Status : OrderStatus;
  oe_Reason : string;
  oe_Report : option OrderStatusReport;
}.

Definition OrderLifecycleEvent_Validate (e : OrderLifecycleEvent) : res unit :=
  fail_if (oe_AccountID e ≟ "") || ((oe_OrderID e ≟ "") && (oe_ClientOrderID e ≟ "")) ||
          (oe_Kind e ≟ OrderEventNone) || (oe_Status e ≟ OrderStatusNone)
    with mkErr ErrInvalidOrder "invalid order lifecycle event" ;;
  ensure InstrumentID_Validate (oe_InstrumentID e) ;;
  match OrderEventKind_TargetStatus (oe_Kind e) with
  | None => Fail (mkErr ErrInvalidOrder "unknown order event kind")
  | Some target =>
      fail_if oe_Status e ≠? target with mkErr ErrInvalidOrder "event targets another status" ;;
      validate_opt OrderStatusReport_Validate (oe_Report e)
  end.

(** ** Position lifecycle events *)

(** [model.PositionLifecycleEvent] *)
Record PositionLifecycleEvent := mkPositionLifecycleEvent {
  pe_AccountID : AccountID;
  pe_InstrumentID : InstrumentID;
  pe_PositionID : PositionID;
  pe_Kind : PositionEventKind;
  pe_PreviousSide : PositionSide;
  pe_PreviousQuantity : D;
  pe_Side : PositionSide;
  pe_Quantity : D;
  pe_Report : option PositionStatusReport;
}.

Definition isFlatPosition (side : PositionSide) (quantity : D) : bool :=
  (side ≟ PositionSideNone) || (side ≟ PositionSideFlat) || IsZero quantity.

Definition PositionLifecycleEvent_Validate (e : PositionLifecycleEvent) : res unit :=
  fail_if (pe_AccountID e ≟ "") || (pe_PositionID e ≟ "") || (pe_Kind e ≟ PositionEventNone)
    with mkErr ErrInvalidOrder "invalid position lifecycle event" ;;
  ensure InstrumentID_Validate (pe_InstrumentID e) ;;
  fail_if IsNegative (pe_Quantity e) || IsNegative (pe_PreviousQuantity e)
    with mkErr ErrInvalidOrder "invalid position quantities" ;;
  let wasFlat := isFlatPosition (pe_PreviousSide e) (pe_PreviousQuantity e) in
  let isFlat := isFlatPosition (pe_Side e) (pe_Quantity e) in
  ensure match pe_Kind e with
         | PositionEventOpened =>
             fail_if negb wasFlat || isFlat
               with mkErr ErrInvalidOrder "invalid position opened transition" ;; Ok tt
         | PositionEventChanged =>
             fail_if wasFlat || isFlat
               with mkErr ErrInvalidOrder "invalid position changed transition" ;; Ok tt
         | PositionEventClosed =>
             fail_if wasFlat || negb isFlat
               with mkErr ErrInvalidOrder "invalid position closed transition" ;; Ok tt
         | PositionEventNone | PositionEventKindOther _ =>
             Fail (mkErr ErrInvalidOrder "unknown position event kind")
         end ;;
  validate_opt PositionStatusReport_Validate (pe_Report e).

(** [NewPositionLifecycleEvent]; [None] is the second result [false]. *)
Definition NewPositionLifecycleEvent (previous : option PositionStatusReport)
    (next : PositionStatusReport) : option PositionLifecycleEvent :=
  let previousSide := match previous with Some p => pr_Side p | None => PositionSideFlat end in
  let previousQuantity := match previous with Some p => pr_Quantity p | None => dzero end in
  let previousFlat := isFlatPosition previousSide previousQuantity in
  let nextFlat := isFlatPosition (pr_Side next) (pr_Quantity next) in
  if previousFlat && nextFlat then None
  else
    let event kind := Some (mkPositionLifecycleEvent (pr_AccountID next) (pr_InstrumentID next)
      (pr_PositionID next) kind previousSide previousQuantity (pr_Side next) (pr_Quantity next)
      (Some next)) in
    if previousFlat && negb nextFlat then event PositionEventOpened
    else if negb previousFlat && nextFlat then event PositionEventClosed
    else if (previousSide ≟ pr_Side next) && Equal previousQuantity (pr_Quantity next) then None
    else event PositionEventChanged.

(** ** Execution events *)

(** [model.ExecutionEvent]: pointers, of which validation wants exactly one set. *)
Record ExecutionEvent := mkExecutionEvent {
  ee_Account : option AccountSnapshot;
  ee_Order : option OrderStatusReport;
  ee_Lifecycle : option OrderLifecycleEvent;
  ee_Fill : option FillReport;
  ee_Position : option PositionStatusReport;
  ee_PositionLifecycle : option PositionLifecycleEvent;
}.

Definition ExecutionEvent_zero : ExecutionEvent := mkExecutionEvent None None None None None None.
Definition account_event a : ExecutionEvent := mkExecutionEvent (Some a) None None None None None.
Definition order_event r : ExecutionEvent := mkExecutionEvent None (Some r) None None None None.
Definition lifecycle_event e : ExecutionEvent := mkExecutionEvent None None (Some e) None None None.
Definition fill_event f : ExecutionEvent := mkExecutionEvent None None None (Some f) None None.
Definition position_event p : ExecutionEvent := mkExecutionEvent None None None None (Some p) None.

Definition ExecutionEvent_count (e : ExecutionEvent) : nat :=
  (count_opt (ee_Account e) + count_opt (ee_Order e) + count_opt (ee_Lifecycle e) +
   count_opt (ee_Fill e) + count_opt (ee_Position e) + count_opt (ee_PositionLifecycle e))%nat.

Definition ExecutionEvent_Validate (e : ExecutionEvent) : res unit :=
  ensure validate_opt AccountSnapshot_Validate (ee_Account e) ;;
  ensure validate_opt OrderStatusReport_Validate (ee_Order e) ;;
  ensure validate_opt OrderLifecycleEvent_Validate (ee_Lifecycle e) ;;
  ensure validate_opt FillReport_Validate (ee_Fill e) ;;
  ensure validate_opt PositionStatusReport_Validate (ee_Position e) ;;
  ensure validate_opt PositionLifecycleEvent_Validate (ee_PositionLifecycle e) ;;
  fail_if negb (ExecutionEvent_count e =? 1)%nat
    with mkErr ErrInvalidExecutionEvent "invalid execution event" ;;
  Ok tt.

(** ** Mass status *)

(** [model.ExecutionMassStatus] *)
Record ExecutionMassStatus := mkExecutionMassStatus {
  ms_Metadata : CommandMetadata;
  ms_AccountID : AccountID;
  ms_Venue : Venue;
  ms_Accounts : list AccountSnapshot;
  ms_Orders : list OrderStatusReport;
  ms_Fills : list FillReport;
  ms_Positions : list PositionStatusReport;
  ms_Timestamp : time;
}.

Definition ExecutionMassStatus_Validate (s : ExecutionMassStatus) : res unit :=
  fail_if ms_AccountID s ≟ "" with mkErr ErrInvalidAccount "invalid account" ;;
  ensure check_all (fun account =>
    ensure AccountSnapshot_Validate account ;;
    fail_if as_AccountID account ≠? ms_AccountID s
      with mkErr ErrInvalidAccount "account report account mismatch" ;;
    fail_if (ms_Venue s ≠? "") && (as_Venue account ≠? "") && (as_Venue account ≠? ms_Venue s)
      with mkErr ErrInvalidAccount "account report venue mismatch" ;;
    Ok tt) (ms_Accounts s) ;;
  ensure check_all (fun order =>
    ensure OrderStatusReport_Validate order ;;
    fail_if or_AccountID order ≠? ms_AccountID s
      with mkErr ErrInvalidOrder "order report account mismatch" ;;
    Ok tt) (ms_Orders s) ;;
  ensure check_all (fun fill =>
    ensure FillReport_Validate fill ;;
    fail_if fr_AccountID fill ≠? ms_AccountID s
      with mkErr ErrInvalidOrder "fill report account mismatch" ;;
    Ok tt) (ms_Fills s) ;;
  check_all (fun position =>
    ensure PositionStatusReport_Validate position ;;
    fail_if pr_AccountID position ≠? ms_AccountID s
      with mkErr ErrInvalidOrder "position report account mismatch" ;;
    Ok tt) (ms_Positions s).
End accounts.

(** ** Theorems *)
Section facts.
Context {DD : Decimal} {DL : DecimalLaws DD}.

(** The amounts of a balance.  With at most one amount left out they satisfy
    total = locked + free, whichever it is; and a balance that validates satisfies
    total = locked + free with no amount negative. *)
Theorem Balance_Amounts_sum b total locked free :
  Balance_Amounts b = Ok (total, locked, free) ->
  (bl_Total b = "" \/ bl_Locked b = "" /\ bl_Free b <> "" \/ bl_Free b = "" ->
   dval total == dval locked + dval free) /\
  (Balance_Validate b = Ok tt ->
   dval total == dval locked + dval free /\ 0 <= dval total /\ 0 <= dval locked /\ 0 <= dval free).
Proof.
  intros H. split.
  - intros Hb. unfold Balance_Amounts, parseOptionalDecimal in H.
    repeat case_bool_decide; simpl in H; try destruct_or?; destruct_and?; try done;
      repeat match type of H with context [dparse ?s] => destruct (dparse s); [|discriminate H] end;
      simpl in H; injection H as <- <- <-; dec.
  - unfold Balance_Validate. rewrite H. simpl. intros V. peel V. bools.
    dec_hyps. dec_rew. repeat split; lra.
Qed.

Definition prev_side (previous : option PositionStatusReport) : PositionSide :=
  match previous with Some p => pr_Side p | None => PositionSideFlat end.
Definition prev_quantity (previous : option PositionStatusReport) : D :=
  match previous with Some p => pr_Quantity p | None => dzero end.

(** The lifecycle event the model derives from two position reports with
    non-negative quantities always validates; and there is none exactly when both
    positions are flat, or both are not and have the same side and quantity. *)
Theorem NewPositionLifecycleEvent_spec previous next :
  0 <= dval (prev_quantity previous) -> 0 <= dval (pr_Quantity next) ->
  PositionStatusReport_Validate next = Ok tt ->
  let wasFlat := isFlatPosition (prev_side previous) (prev_quantity previous) in
  let isFlat := isFlatPosition (pr_Side next) (pr_Quantity next) in
  match NewPositionLifecycleEvent previous next with
  | Some event => PositionLifecycleEvent_Validate event = Ok tt /\ (wasFlat && isFlat)%bool = false
  | None => wasFlat = isFlat /\
            (wasFlat = false -> prev_side previous = pr_Side next /\
                                dval (prev_quantity previous) == dval (pr_Quantity next))
  end.
Proof.
  intros Hq' Hq V. pose proof (PositionStatusReport_Validate_ok _ V) as [Va Vp Vi Ve].
  apply IsNegative_false in Hq, Hq'. unfold NewPositionLifecycleEvent.
  fold (prev_side previous) (prev_quantity previous).
  destruct (isFlatPosition (prev_side previous) _) eqn:F1,
    (isFlatPosition (pr_Side next) _) eqn:F2; simpl; try done;
    try (destruct (_ && _) eqn:E; [bools; dec_hyps; done|]); (split; [|done]);
    unfold PositionLifecycleEvent_Validate; simpl;
    by rewrite !bool_decide_eq_false_2, Vi, Hq, Hq', F1, F2 by done.
Qed.

Lemma Balance_Validate_nonneg b :
  Balance_Validate b = Ok tt -> exists t l f, Balance_Amounts b = Ok (t, l, f) /\
    0 <= dval t /\ 0 <= dval l /\ 0 <= dval f /\ dval t == dval l + dval f.
Proof.
  unfold Balance_Validate. intros V. peel V.
  match goal with H : Balance_Amounts _ = Ok ?a |- _ => destruct a as [[t l] f] end.
  peel V. bools. exists t, l, f. dec_hyps. dec_rew. repeat split; try done; lra.
Qed.
End facts.
