(* ===== verification/OrderLists.v ===== *)
(** * Order lists and the order factory
    (model/order_list.go, model/order_factory.go, the list and report commands of model/command.go) *)
From stdpp Require Import base gmap list strings.
From Stdlib Require Import QArith Lqa.
From Stdlib Require DecimalString.
From S2P Require Import Prelude Decimals Enums Identifiers Orders.

Open Scope go_scope.

(** [%d] of [fmt.Sprintf]. *)
Definition itoa (z : Z) : string := DecimalString.NilZero.string_of_int (Z.to_int z).

Section order_lists.
Context {DD : Decimal}.

(** ** Order lists *)

(** [model.OrderList] *)
Record OrderList := mkOrderList {
  ol_Metadata : CommandMetadata;
  ol_ID : OrderListID;
  ol_Orders : list SubmitOrder;
}.

#[global] Instance set_ol_Metadata : Setter ol_Metadata := fun f r => mkOrderList (f (ol_Metadata r)) (ol_ID r) (ol_Orders r).
#[global] Instance set_ol_ID : Setter ol_ID := fun f r => mkOrderList (ol_Metadata r) (f (ol_ID r)) (ol_Orders r).
#[global] Instance set_ol_Orders : Setter ol_Orders := fun f r => mkOrderList (ol_Metadata r) (ol_ID r) (f (ol_Orders r)).

Definition OrderList_WithCommandMetadataDefaults (l : OrderList) : OrderList :=
  let l := l <| ol_Metadata := CommandMetadata_Clone (ol_Metadata l) |> in
  l <| ol_Orders := (fun o => o <| so_Metadata := CommandMetadata_WithDefaults (so_Metadata o) (ol_Metadata l) |>)
                      <$> ol_Orders l |>.

(** The loop of [Validate]; [venue] is the first order's venue once it is known. *)
Fixpoint validate_orders (id : OrderListID) (venue : option Venue) (orders : list SubmitOrder) : res unit :=
  match orders with
  | [] => Ok tt
  | order :: orders =>
      ensure SubmitOrder_Validate order ;;
      fail_if so_OrderListID order ≠? id with mkErr ErrInvalidOrder "order list id mismatch" ;;
      match venue with
      | None => validate_orders id (Some (id_Venue (so_InstrumentID order))) orders
      | Some v =>
          fail_if id_Venue (so_InstrumentID order) ≠? v with mkErr ErrInvalidOrder "mixed venue order list" ;;
          validate_orders id venue orders
      end
  end.

Definition OrderList_Validate (l : OrderList) : res unit :=
  fail_if (ol_ID l ≟ "") || (List.length (ol_Orders l) =? 0)%nat with mkErr ErrInvalidOrder "invalid order list" ;;
  validate_orders (ol_ID l) None (ol_Orders l).

Definition IsBracket (l : OrderList) : bool :=
  match ol_Orders l with
  | [entry; child1; child2] =>
      if (so_ClientOrderID entry ≟ "") || (so_ParentClientOrderID entry ≠? "") ||
         (OrderSide_Opposite (so_Side entry) ≟ OrderSideNone) then false
      else if (so_Contingency entry ≠? ContingencyTypeNone) && (so_Contingency entry ≠? ContingencyTypeOTO) then false
      else
        let exitSide := OrderSide_Opposite (so_Side entry) in
        forallb (fun child =>
          (so_ParentClientOrderID child ≟ so_ClientOrderID entry) &&
          ((so_Side child ≟ exitSide) && so_ReduceOnly child) &&
          Equal (so_Quantity child) (so_Quantity entry) &&
          ((so_Contingency child ≟ ContingencyTypeOCO) || (so_Contingency child ≟ ContingencyTypeOUO)))
          [child1; child2]
  | _ => false
  end.

(** The conversion [OrderListKind(s)] of a string. *)
Definition OrderListKind_of_string (s : string) : OrderListKind :=
  if s ≟ "" then OrderListKindNone else if s ≟ "bulk" then OrderListKindBulk
  else if s ≟ "oto" then OrderListKindOTO else if s ≟ "oco" then OrderListKindOCO
  else if s ≟ "ouo" then OrderListKindOUO else if s ≟ "bracket" then OrderListKindBracket
  else OrderListKindOther s.

(** The loop of [Kind], from the kind found so far. *)
Fixpoint kind_of_orders (kind : OrderListKind) (orders : list SubmitOrder) : OrderListKind :=
  match orders with
  | [] => if kind ≟ OrderListKindNone then OrderListKindBulk else kind
  | order :: orders =>
      if so_Contingency order ≟ ContingencyTypeNone then kind_of_orders kind orders
      else
        let current := OrderListKind_of_string (ContingencyType_string (so_Contingency order)) in
        if kind ≟ OrderListKindNone then kind_of_orders current orders
        else if kind ≠? current then OrderListKindBulk
        else kind_of_orders kind orders
  end.

Definition Kind (l : OrderList) : OrderListKind :=
  if IsBracket l then OrderListKindBracket
  else if (List.length (ol_Orders l) =? 0)%nat then OrderListKindNone
  else kind_of_orders OrderListKindNone (ol_Orders l).

Definition UniformInstrument (l : OrderList) : option InstrumentID :=
  match ol_Orders l with
  | [] => None
  | first :: rest => if forallb (fun o => so_InstrumentID o ≟ so_InstrumentID first) rest
                     then Some (so_InstrumentID first) else None
  end.

Definition OrderList_Venue (l : OrderList) : option Venue :=
  match ol_Orders l with
  | [] => None
  | first :: rest =>
      let venue := id_Venue (so_InstrumentID first) in
      if venue ≟ "" then None
      else if forallb (fun o => id_Venue (so_InstrumentID o) ≟ venue) rest then Some venue else None
  end.

(** ** Commands on lists and reports (command.go) *)

(** [model.SubmitOrderList] *)
Record SubmitOrderList := mkSubmitOrderList {
  sl_Metadata : CommandMetadata;
  sl_AccountID : AccountID;
  sl_List : OrderList;
}.

Definition SubmitOrderList_WithCommandMetadataDefaults (c : SubmitOrderList) : SubmitOrderList :=
  let metadata := CommandMetadata_Clone (sl_Metadata c) in
  let l := sl_List c in
  let l := l <| ol_Metadata := CommandMetadata_WithDefaults (ol_Metadata l) metadata |> in
  mkSubmitOrderList metadata (sl_AccountID c) (OrderList_WithCommandMetadataDefaults l).

Definition SubmitOrderList_Validate (c : SubmitOrderList) : res unit :=
  fail_if sl_AccountID c ≟ "" with mkErr ErrInvalidAccount "invalid account" ;;
  ensure OrderList_Validate (sl_List c) ;;
  check_all (fun order =>
    fail_if so_AccountID order ≠? sl_AccountID c with mkErr ErrInvalidOrder "order account mismatch" ;; Ok tt)
    (ol_Orders (sl_List c)).

Definition validateReportCommandScope (a : AccountID) (i : InstrumentID) : res unit :=
  fail_if a ≟ "" with mkErr ErrInvalidAccount "invalid account" ;;
  InstrumentID_Validate i.

(** ** The order factory (order_factory.go) *)

(** [model.OrderFactory]; each method holds the lock only while it takes a number. *)
Record OrderFactory := mkOrderFactory {
  of_accountID : AccountID;
  of_prefix : string;
  of_nextID : Z;
  of_nextList : Z;
  of_metadata : CommandMetadata;
}.

#[global] Instance set_of_prefix : Setter of_prefix := fun f r =>
  mkOrderFactory (of_accountID r) (f (of_prefix r)) (of_nextID r) (of_nextList r) (of_metadata r).
#[global] Instance set_of_nextID : Setter of_nextID := fun f r =>
  mkOrderFactory (of_accountID r) (of_prefix r) (f (of_nextID r)) (of_nextList r) (of_metadata r).
#[global] Instance set_of_nextList : Setter of_nextList := fun f r =>
  mkOrderFactory (of_accountID r) (of_prefix r) (of_nextID r) (f (of_nextList r)) (of_metadata r).
#[global] Instance set_of_metadata : Setter of_metadata := fun f r =>
  mkOrderFactory (of_accountID r) (of_prefix r) (of_nextID r) (of_nextList r) (f (of_metadata r)).

(** Options of the factory and of an order: functions applied to what was built, in order. *)
Definition WithClientOrderIDPrefix (prefix : string) (f : OrderFactory) : OrderFactory := f <| of_prefix := prefix |>.
Definition WithOrderMetadata (metadata : CommandMetadata) (f : OrderFactory) : OrderFactory :=
  f <| of_metadata := CommandMetadata_Clone metadata |>.

Definition NewOrderFactory (a : AccountID) (opts : list (OrderFactory -> OrderFactory)) : OrderFactory :=
  foldl (fun f opt => opt f) (mkOrderFactory a a 0 0 CommandMetadata_zero) opts.

Definition SubmitOrderOption : Type := SubmitOrder -> SubmitOrder.
Definition WithCommandMetadata (m : CommandMetadata) : SubmitOrderOption := fun o => o <| so_Metadata := CommandMetadata_Clone m |>.
Definition WithClientOrderID (id : ClientOrderID) : SubmitOrderOption := fun o => o <| so_ClientOrderID := id |>.
Definition WithOrderListID (id : OrderListID) : SubmitOrderOption := fun o => o <| so_OrderListID := id |>.
Definition WithTriggerInstrumentID (id : InstrumentID) : SubmitOrderOption := fun o => o <| so_TriggerInstrumentID := id |>.
Definition WithParentClientOrderID (id : ClientOrderID) : SubmitOrderOption := fun o => o <| so_ParentClientOrderID := id |>.
Definition WithContingency (c : ContingencyType) : SubmitOrderOption := fun o => o <| so_Contingency := c |>.
Definition WithTimeInForce (tif : TimeInForce) : SubmitOrderOption := fun o => o <| so_TimeInForce := tif |>.
Definition WithPostOnly : SubmitOrderOption := fun o => o <| so_PostOnly := true |>.
Definition WithReduceOnly : SubmitOrderOption := fun o => o <| so_ReduceOnly := true |>.
Definition WithExpireTime (expire : time) : SubmitOrderOption := fun o => o <| so_ExpireTime := expire |>.
Definition WithTriggerPrice (price : D) : SubmitOrderOption := fun o => o <| so_TriggerPrice := price |>.
Definition WithActivationPrice (price : D) : SubmitOrderOption := fun o => o <| so_ActivationPrice := price |>.
Definition WithTrailingOffset (offset : D) : SubmitOrderOption := fun o => o <| so_TrailingOffset := offset |>.
Definition WithTrailingOffsetType (t : TrailingOffsetType) : SubmitOrderOption := fun o => o <| so_TrailingOffsetType := t |>.

Definition nextClientOrderID (f : OrderFactory) : OrderFactory * ClientOrderID :=
  let f := f <| of_nextID := (of_nextID f + 1)%Z |> in
  (f, of_prefix f +:+ "-" +:+ itoa (of_nextID f)).
Definition nextOrderListID (f : OrderFactory) : OrderFactory * OrderListID :=
  let f := f <| of_nextList := (of_nextList f + 1)%Z |> in
  (f, of_prefix f +:+ "-list-" +:+ itoa (of_nextList f)).

Definition newOrder (f : OrderFactory) (i : InstrumentID) (side : OrderSide) (typ : OrderType) (quantity price : D)
    (opts : list SubmitOrderOption) : OrderFactory * SubmitOrder :=
  let '(f, id) := nextClientOrderID f in
  (f, foldl (fun o opt => opt o)
        (mkSubmitOrder (CommandMetadata_Clone (of_metadata f)) (of_accountID f) i InstrumentID_zero "" "" id side typ
           ContingencyTypeNone TimeInForceGTC quantity price dzero dzero dzero TrailingOffsetTypeNone TriggerTypeNone
           false false 0%Z) opts).

Definition Market (f : OrderFactory) i side quantity opts := newOrder f i side OrderTypeMarket quantity dzero opts.
Definition Limit (f : OrderFactory) i side quantity price opts := newOrder f i side OrderTypeLimit quantity price opts.
Definition MarketToLimit (f : OrderFactory) i side quantity opts := newOrder f i side OrderTypeMarketToLimit quantity dzero opts.
Definition StopMarket (f : OrderFactory) i side quantity trigger opts :=
  newOrder f i side OrderTypeStopMarket quantity dzero (WithTriggerPrice trigger :: opts).
Definition StopLimit (f : OrderFactory) i side quantity price trigger opts :=
  newOrder f i side OrderTypeStopLimit quantity price (WithTriggerPrice trigger :: opts).
Definition MarketIfTouched (f : OrderFactory) i side quantity trigger opts :=
  newOrder f i side OrderTypeMarketIfTouched quantity dzero (WithTriggerPrice trigger :: opts).
Definition LimitIfTouched (f : OrderFactory) i side quantity price trigger opts :=
  newOrder f i side OrderTypeLimitIfTouched quantity price (WithTriggerPrice trigger :: opts).
Definition TrailingStopMarket (f : OrderFactory) i side quantity offset opts :=
  newOrder f i side OrderTypeTrailingStopMarket quantity dzero (WithTrailingOffset offset :: opts).
Definition TrailingStopLimit (f : OrderFactory) i side quantity price offset opts :=
  newOrder f i side OrderTypeTrailingStopLimit quantity price (WithTrailingOffset offset :: opts).

(** [model.BracketOrderRequest] *)
Record BracketOrderRequest := mkBracketOrderRequest {
  br_InstrumentID : InstrumentID;
  br_Side : OrderSide;
  br_Quantity : D;
  br_EntryPrice : D;
  br_TakeProfit : D;
  br_StopLoss : D;
}.

Definition Bracket (f : OrderFactory) (req : BracketOrderRequest) : OrderFactory * OrderList :=
  let '(f, listID) := nextOrderListID f in
  let '(f, entry) := Limit f (br_InstrumentID req) (br_Side req) (br_Quantity req) (br_EntryPrice req)
                       [WithOrderListID listID; WithContingency ContingencyTypeOTO] in
  let exitSide := OrderSide_Opposite (br_Side req) in
  let child := [WithOrderListID listID; WithParentClientOrderID (so_ClientOrderID entry);
                WithContingency ContingencyTypeOCO; WithReduceOnly] in
  let '(f, stopLoss) := StopMarket f (br_InstrumentID req) exitSide (br_Quantity req) (br_StopLoss req) child in
  let '(f, takeProfit) := Limit f (br_InstrumentID req) exitSide (br_Quantity req) (br_TakeProfit req) child in
  (f, mkOrderList CommandMetadata_zero listID [entry; stopLoss; takeProfit]).
End order_lists.

(** ** Facts *)

Section facts.
Context {DD : Decimal} {DL : DecimalLaws DD}.
Implicit Types (l : OrderList) (o : SubmitOrder) (f : OrderFactory) (req : BracketOrderRequest).

Lemma itoa_inj a b : itoa a = itoa b -> a = b.
Proof. intros H. pose proof (Qparse_print_int a) as Ha. unfold itoa in H. rewrite H, Qparse_print_int in Ha. congruence. Qed.

Lemma append_inj_l p s t : p +:+ s = p +:+ t -> s = t.
Proof. induction p as [|c p IH]; simpl; [done|]. intros [= H]. by apply IH. Qed.

Lemma client_id_inj p a b : p +:+ "-" +:+ itoa a = p +:+ "-" +:+ itoa b -> a = b.
Proof. intros H%append_inj_l. injection H as H. by apply itoa_inj. Qed.

(** The venue every order of the list has. *)
Definition same_venue (orders : list SubmitOrder) : Prop :=
  exists v, Forall (fun o => id_Venue (so_InstrumentID o) = v) orders.

Lemma validate_orders_ok id venue orders :
  validate_orders id venue orders = Ok tt <->
  Forall (fun o => SubmitOrder_Validate o = Ok tt /\ so_OrderListID o = id) orders /\
  match venue with
  | Some v => Forall (fun o => id_Venue (so_InstrumentID o) = v) orders
  | None => same_venue orders
  end.
Proof.
  revert venue. induction orders as [|o orders IH]; intros venue; simpl.
  { split; [|done]. intros _. split; [constructor|]. destruct venue; [constructor|]. by exists ""%string; constructor. }
  rewrite Forall_cons. destruct (SubmitOrder_Validate o) as [[]|e] eqn:V; [|split; [done|naive_solver]].
  case_bool_decide as Hid; simpl; [|split; [done|naive_solver]].
  destruct venue as [v|].
  - rewrite Forall_cons. case_bool_decide as Hv; simpl; [|split; [done|naive_solver]]. rewrite IH. naive_solver.
  - rewrite IH. unfold same_venue. split.
    + intros [H1 H2]. split; [done|]. exists (id_Venue (so_InstrumentID o)). by constructor.
    + intros [[_ H1] (v & [<- H2]%Forall_cons)]. done.
Qed.

(** The contingencies that name a kind of list. *)
Definition contingency_kind (c : ContingencyType) : OrderListKind :=
  OrderListKind_of_string (ContingencyType_string c).

(** The contingency the orders share, those without one aside, as a kind of list. *)
Definition shared_kind (orders : list SubmitOrder) : OrderListKind :=
  match filter (.≠ ContingencyTypeNone) (so_Contingency <$> orders) with
  | [] => OrderListKindBulk
  | c :: cs => if decide (Forall (eq c) cs) then contingency_kind c else OrderListKindBulk
  end.

Definition valid_contingency (c : ContingencyType) : Prop := ContingencyType_Validate c = Ok tt.

Lemma kind_of_orders_some orders c :
  c <> ContingencyTypeNone -> valid_contingency c ->
  Forall (fun o => valid_contingency (so_Contingency o)) orders ->
  kind_of_orders (contingency_kind c) orders =
    if decide (Forall (eq c) (filter (.≠ ContingencyTypeNone) (so_Contingency <$> orders)))
    then contingency_kind c else OrderListKindBulk.
Proof.
  intros Hc Hv. induction 1 as [|o orders Ho _ IH]; cbn [kind_of_orders fmap list_fmap].
  { rewrite decide_True by constructor. by destruct c. }
  case_bool_decide as Hn; [by rewrite filter_cons_False by (by intros Hx)|].
  rewrite filter_cons_True by done.
  change (OrderListKind_of_string (ContingencyType_string (so_Contingency o))) with (contingency_kind (so_Contingency o)).
  rewrite bool_decide_eq_false_2 by by destruct c.
  case_bool_decide as Heq; cbn [negb].
  - assert (c = so_Contingency o) as Hoc by (by destruct c, (so_Contingency o)).
    rewrite IH. apply decide_ext. rewrite Forall_cons. tauto.
  - rewrite decide_False; [done|]. rewrite Forall_cons. by intros [-> _].
Qed.

Lemma kind_of_orders_none orders :
  Forall (fun o => valid_contingency (so_Contingency o)) orders ->
  kind_of_orders OrderListKindNone orders = shared_kind orders.
Proof.
  unfold shared_kind. induction 1 as [|o orders Ho Hos IH]; cbn [kind_of_orders fmap list_fmap]; [done|].
  case_bool_decide as Hn; [by rewrite filter_cons_False by (by intros Hx)|].
  rewrite filter_cons_True by done. by rewrite <- (kind_of_orders_some orders (so_Contingency o)).
Qed.

Lemma OrderList_Validate_ok l :
  OrderList_Validate l = Ok tt <->
    ol_ID l <> "" /\ ol_Orders l <> [] /\
    Forall (fun o => SubmitOrder_Validate o = Ok tt /\ so_OrderListID o = ol_ID l) (ol_Orders l) /\
    same_venue (ol_Orders l).
Proof.
  unfold OrderList_Validate.
  destruct (ol_ID l ≟ "") eqn:E1; simpl; bools; [split; naive_solver|].
  destruct (ol_Orders l) as [|o os] eqn:E2; simpl length; simpl Nat.eqb; [split; naive_solver|]. cbv iota.
  rewrite validate_orders_ok. naive_solver.
Qed.

(** Order lists.  A list validates exactly when it has an id, at least one order, every
    order is valid and carries the list's id, and all trade on one venue.  The kind of a valid
    list is [bracket] for a bracket and otherwise the contingency its orders share, orders
    without one aside, or [bulk] when there is none or they differ. *)
Theorem OrderList_spec l :
  (OrderList_Validate l = Ok tt <->
     ol_ID l <> "" /\ ol_Orders l <> [] /\
     Forall (fun o => SubmitOrder_Validate o = Ok tt /\ so_OrderListID o = ol_ID l) (ol_Orders l) /\
     same_venue (ol_Orders l)) /\
  (OrderList_Validate l = Ok tt ->
     Kind l = if IsBracket l then OrderListKindBracket else shared_kind (ol_Orders l)).
Proof.
  split; [apply OrderList_Validate_ok|]. intros (_ & Hne & Hos & _)%OrderList_Validate_ok.
  unfold Kind. destruct (IsBracket l); [done|].
  destruct (Nat.eqb_spec (List.length (ol_Orders l)) 0) as [E%nil_length_inv|]; [done|].
  apply kind_of_orders_none. eapply Forall_impl; [exact Hos|]. simpl.
  intros o [((_ & _ & _ & H) & _)%validate_gives_form _]. exact H.
Qed.

(** *** Brackets *)

(** The ids a factory has not yet issued. *)
Definition fresh_client_id f (id : ClientOrderID) : Prop :=
  forall n, (n <= of_nextID f)%Z -> id <> of_prefix f +:+ "-" +:+ itoa n.

Lemma SubmitOrder_Validate_iff o :
  SubmitOrder_Validate o = Ok tt <-> valid_enums o /\ well_typed_order o /\ well_formed_order o.
Proof. split; [apply validate_gives_form | intros (?&?&?); by apply form_gives_validate]. Qed.

Lemma Opposite_real side : OrderSide_Opposite side <> OrderSideNone <-> side = OrderSideBuy \/ side = OrderSideSell.
Proof. split; [by destruct side; auto | intros [-> | ->]; done]. Qed.

(** What the request and the account must satisfy. *)
Definition bracket_ok f req : Prop :=
  of_accountID f <> "" /\ InstrumentID_Validate (br_InstrumentID req) = Ok tt /\
  (br_Side req = OrderSideBuy \/ br_Side req = OrderSideSell) /\ 0 < dval (br_Quantity req) /\
  0 < dval (br_EntryPrice req) /\ 0 < dval (br_TakeProfit req) /\ 0 < dval (br_StopLoss req).

Lemma bracket_orders_valid f req :
  Forall (fun o => SubmitOrder_Validate o = Ok tt) (ol_Orders (Bracket f req).2) <-> bracket_ok f req.
Proof.
  unfold Bracket. simpl. rewrite !Forall_cons, !SubmitOrder_Validate_iff, Forall_nil.
  unfold valid_enums, well_typed_order, well_formed_order, SubmitOrder_TriggerInstrument, bracket_ok.
  simpl. rewrite !Opposite_real. rewrite <- (Opposite_real (br_Side req)).
  split.
  - intros H. destruct_and?. repeat split; try done.
  - intros (?&?&?&?&?&?&?). repeat split; try done.
    all: try (by destruct (br_Side req)).
Qed.

Lemma bracket_valid f req : OrderList_Validate (Bracket f req).2 = Ok tt <-> bracket_ok f req.
Proof.
  rewrite OrderList_Validate_ok, <- bracket_orders_valid, Forall_and.
  split; [tauto|]. intros H. split; [|split; [done|split; [split; [done|]|]]].
  - unfold Bracket. simpl. by destruct (of_prefix f).
  - by repeat constructor.
  - exists (id_Venue (br_InstrumentID req)). by repeat constructor.
Qed.

Lemma bracket_ids f req :
  let ids := so_ClientOrderID <$> ol_Orders (Bracket f req).2 in
  NoDup ids /\ Forall (fresh_client_id f) ids.
Proof.
  intros ids. subst ids. unfold Bracket. simpl. split.
  - rewrite !NoDup_cons, !not_elem_of_cons. repeat split; try apply not_elem_of_nil; try constructor.
    all: intros H%client_id_inj; lia.
  - repeat constructor; intros n Hn E%client_id_inj; lia.
Qed.

Lemma bracket_recognised f req :
  br_Side req = OrderSideBuy \/ br_Side req = OrderSideSell -> IsBracket (Bracket f req).2 = true.
Proof.
  intros Hs. unfold Bracket, IsBracket. simpl.
  assert (Equal (br_Quantity req) (br_Quantity req) = true) as Hq by (apply Equal_spec; reflexivity).
  rewrite Hq. rewrite (bool_decide_eq_false_2 (_ = "")) by (by destruct (of_prefix f)).
  rewrite !(bool_decide_eq_true_2 (of_prefix _ +:+ _ = _)) by done.
  by destruct Hs as [-> | ->].
Qed.

(** A bracket.  The list the factory builds validates exactly when the account and the
    instrument are set, the side is buy or sell and the quantity and the three prices are
    positive; whatever the request, its orders carry the list's id and three distinct client
    order ids the factory has not issued before, and when the side is buy or sell the list is
    recognised as a bracket on the one instrument whose exits are reduce-only children of the
    entry for its whole quantity. *)
Theorem Bracket_spec f req :
  let '(f', l) := Bracket f req in
  (OrderList_Validate l = Ok tt <-> bracket_ok f req) /\
  (NoDup (so_ClientOrderID <$> ol_Orders l) /\ Forall (fresh_client_id f) (so_ClientOrderID <$> ol_Orders l) /\
   of_nextID f' = (of_nextID f + 3)%Z) /\
  (br_Side req = OrderSideBuy \/ br_Side req = OrderSideSell ->
     IsBracket l = true /\ Kind l = OrderListKindBracket /\ UniformInstrument l = Some (br_InstrumentID req) /\
     Forall (fun o => so_ReduceOnly o = true /\ so_Quantity o = br_Quantity req /\
               Some (so_ParentClientOrderID o) = so_ClientOrderID <$> head (ol_Orders l)) (tail (ol_Orders l))).
Proof.
  pose proof (bracket_valid f req) as Hv. pose proof (bracket_ids f req) as [Hnd Hfr].
  pose proof (bracket_recognised f req) as Hb. unfold Kind, UniformInstrument.
  assert (of_nextID (Bracket f req).1 = (of_nextID f + 3)%Z) as Hn by (unfold Bracket, set; simpl; lia).
  destruct (Bracket f req) as [f' l] eqn:E. split; [exact Hv|]. split; [done|].
  intros Hs. simpl in Hb. rewrite (Hb Hs). injection E as _ <-. simpl.
  rewrite bool_decide_eq_true_2 by done. by repeat constructor.
Qed.
End facts.
