(* ===== verification/Cache.v ===== *)
(** * The cache (package cache): state and operations

    One [Record] with the maps of [cache.Cache], and one definition per method.  Methods
    run under the cache's lock, so each is one atomic step here.  A nil inner map and an
    empty one cannot be told apart through the methods, so the two-level maps of the
    prelude make inner maps on first use.  A set ([map[K]struct{}]) is a [gset]. *)
From stdpp Require Import base gmap list strings sorting.
From S2P Require Import Prelude Decimals Enums Identifiers Orders Market Accounts.

Open Scope go_scope.

Section cache.
Context {DD : Decimal}.

(** [cache.Cache] *)
Record Cache := mkCache {
  c_instruments : gmap InstrumentID Instrument;
  c_synthetics : gmap InstrumentID SyntheticInstrument;
  c_accounts : gmap AccountID AccountSnapshot;
  c_accountHistory : gmap AccountID (list AccountSnapshot);
  c_orders : gmap AccountID (gmap OrderID (OrderStatusReport));
  c_orderClients : gmap AccountID (gmap ClientOrderID (OrderID));
  c_orderVenues : gmap AccountID (gmap VenueOrderID (OrderID));
  c_orderStrategies : gmap AccountID (gmap StrategyID (gset OrderID));
  c_orderPositions : gmap AccountID (gmap PositionID (gset OrderID));
  c_orderLists : gmap AccountID (gmap OrderListID (gset OrderID));
  c_orderExecSpawns : gmap AccountID (gmap ExecSpawnID (gset OrderID));
  c_fills : gmap AccountID (gmap OrderID (gmap TradeID FillReport));
  c_fillTrades : gmap AccountID (gmap TradeID (FillReport));
  c_fillVenues : gmap AccountID (gmap VenueOrderID (gmap TradeID FillReport));
  c_deferredFills : gmap AccountID (gmap OrderID (gmap TradeID FillReport));
  c_positions : gmap AccountID (gmap PositionID (PositionStatusReport));
  c_positionInst : gmap AccountID (gmap InstrumentID (PositionID));
  c_positionVenues : gmap AccountID (gmap VenuePositionID (PositionID));
  c_positionStrategies : gmap AccountID (gmap StrategyID (gset PositionID));
  c_tickers : gmap InstrumentID Ticker;
  c_orderBooks : gmap InstrumentID OrderBook;
  c_trades : gmap InstrumentID TradeTick;
  c_quotes : gmap InstrumentID QuoteTick;
  c_bars : gmap BarType Bar;
  c_latestBars : gmap InstrumentID Bar;
  c_fundingRates : gmap InstrumentID FundingRate;
  c_customData : gmap InstrumentID (gmap string CustomData);
}.

#[global] Instance set_c_instruments : Setter c_instruments := fun f r => mkCache (f (c_instruments
  r)) (c_synthetics r) (c_accounts r) (c_accountHistory r) (c_orders r) (c_orderClients r)
  (c_orderVenues r) (c_orderStrategies r) (c_orderPositions r) (c_orderLists r) (c_orderExecSpawns
  r) (c_fills r) (c_fillTrades r) (c_fillVenues r) (c_deferredFills r) (c_positions r)
  (c_positionInst r) (c_positionVenues r) (c_positionStrategies r) (c_tickers r) (c_orderBooks r)
  (c_trades r) (c_quotes r) (c_bars r) (c_latestBars r) (c_fundingRates r) (c_customData r).
#[global] Instance set_c_synthetics : Setter c_synthetics := fun f r => mkCache (c_instruments r) (f
  (c_synthetics r)) (c_accounts r) (c_accountHistory r) (c_orders r) (c_orderClients r)
  (c_orderVenues r) (c_orderStrategies r) (c_orderPositions r) (c_orderLists r) (c_orderExecSpawns
  r) (c_fills r) (c_fillTrades r) (c_fillVenues r) (c_deferredFills r) (c_positions r)
  (c_positionInst r) (c_positionVenues r) (c_positionStrategies r) (c_tickers r) (c_orderBooks r)
  (c_trades r) (c_quotes r) (c_bars r) (c_latestBars r) (c_fundingRates r) (c_customData r).
#[global] Instance set_c_accounts : Setter c_accounts := fun f r => mkCache (c_instruments r)
  (c_synthetics r) (f (c_accounts r)) (c_accountHistory r) (c_orders r) (c_orderClients r)
  (c_orderVenues r) (c_orderStrategies r) (c_orderPositions r) (c_orderLists r) (c_orderExecSpawns
  r) (c_fills r) (c_fillTrades r) (c_fillVenues r) (c_deferredFills r) (c_positions r)
  (c_positionInst r) (c_positionVenues r) (c_positionStrategies r) (c_tickers r) (c_orderBooks r)
  (c_trades r) (c_quotes r) (c_bars r) (c_latestBars r) (c_fundingRates r) (c_customData r).
#[global] Instance set_c_accountHistory : Setter c_accountHistory := fun f r => mkCache
  (c_instruments r) (c_synthetics r) (c_accounts r) (f (c_accountHistory r)) (c_orders r)
  (c_orderClients r) (c_orderVenues r) (c_orderStrategies r) (c_orderPositions r) (c_orderLists r)
  (c_orderExecSpawns r) (c_fills r) (c_fillTrades r) (c_fillVenues r) (c_deferredFills r)
  (c_positions r) (c_positionInst r) (c_positionVenues r) (c_positionStrategies r) (c_tickers r)
  (c_orderBooks r) (c_trades r) (c_quotes r) (c_bars r) (c_latestBars r) (c_fundingRates r)
  (c_customData r).
#[global] Instance set_c_orders : Setter c_orders := fun f r => mkCache (c_instruments r)
  (c_synthetics r) (c_accounts r) (c_accountHistory r) (f (c_orders r)) (c_orderClients r)
  (c_orderVenues r) (c_orderStrategies r) (c_orderPositions r) (c_orderLists r) (c_orderExecSpawns
  r) (c_fills r) (c_fillTrades r) (c_fillVenues r) (c_deferredFills r) (c_positions r)
  (c_positionInst r) (c_positionVenues r) (c_positionStrategies r) (c_tickers r) (c_orderBooks r)
  (c_trades r) (c_quotes r) (c_bars r) (c_latestBars r) (c_fundingRates r) (c_customData r).
#[global] Instance set_c_orderClients : Setter c_orderClients := fun f r => mkCache (c_instruments
  r) (c_synthetics r) (c_accounts r) (c_accountHistory r) (c_orders r) (f (c_orderClients r))
  (c_orderVenues r) (c_orderStrategies r) (c_orderPositions r) (c_orderLists r) (c_orderExecSpawns
  r) (c_fills r) (c_fillTrades r) (c_fillVenues r) (c_deferredFills r) (c_positions r)
  (c_positionInst r) (c_positionVenues r) (c_positionStrategies r) (c_tickers r) (c_orderBooks r)
  (c_trades r) (c_quotes r) (c_bars r) (c_latestBars r) (c_fundingRates r) (c_customData r).
#[global] Instance set_c_orderVenues : Setter c_orderVenues := fun f r => mkCache (c_instruments r)
  (c_synthetics r) (c_accounts r) (c_accountHistory r) (c_orders r) (c_orderClients r) (f
  (c_orderVenues r)) (c_orderStrategies r) (c_orderPositions r) (c_orderLists r) (c_orderExecSpawns
  r) (c_fills r) (c_fillTrades r) (c_fillVenues r) (c_deferredFills r) (c_positions r)
  (c_positionInst r) (c_positionVenues r) (c_positionStrategies r) (c_tickers r) (c_orderBooks r)
  (c_trades r) (c_quotes r) (c_bars r) (c_latestBars r) (c_fundingRates r) (c_customData r).
#[global] Instance set_c_orderStrategies : Setter c_orderStrategies := fun f r => mkCache
  (c_instruments r) (c_synthetics r) (c_accounts r) (c_accountHistory r) (c_orders r)
  (c_orderClients r) (c_orderVenues r) (f (c_orderStrategies r)) (c_orderPositions r) (c_orderLists
  r) (c_orderExecSpawns r) (c_fills r) (c_fillTrades r) (c_fillVenues r) (c_deferredFills r)
  (c_positions r) (c_positionInst r) (c_positionVenues r) (c_positionStrategies r) (c_tickers r)
  (c_orderBooks r) (c_trades r) (c_quotes r) (c_bars r) (c_latestBars r) (c_fundingRates r)
  (c_customData r).
#[global] Instance set_c_orderPositions : Setter c_orderPositions := fun f r => mkCache
  (c_instruments r) (c_synthetics r) (c_accounts r) (c_accountHistory r) (c_orders r)
  (c_orderClients r) (c_orderVenues r) (c_orderStrategies r) (f (c_orderPositions r)) (c_orderLists
  r) (c_orderExecSpawns r) (c_fills r) (c_fillTrades r) (c_fillVenues r) (c_deferredFills r)
  (c_positions r) (c_positionInst r) (c_positionVenues r) (c_positionStrategies r) (c_tickers r)
  (c_orderBooks r) (c_trades r) (c_quotes r) (c_bars r) (c_latestBars r) (c_fundingRates r)
  (c_customData r).
#[global] Instance set_c_orderLists : Setter c_orderLists := fun f r => mkCache (c_instruments r)
  (c_synthetics r) (c_accounts r) (c_accountHistory r) (c_orders r) (c_orderClients r)
  (c_orderVenues r) (c_orderStrategies r) (c_orderPositions r) (f (c_orderLists r))
  (c_orderExecSpawns r) (c_fills r) (c_fillTrades r) (c_fillVenues r) (c_deferredFills r)
  (c_positions r) (c_positionInst r) (c_positionVenues r) (c_positionStrategies r) (c_tickers r)
  (c_orderBooks r) (c_trades r) (c_quotes r) (c_bars r) (c_latestBars r) (c_fundingRates r)
  (c_customData r).
#[global] Instance set_c_orderExecSpawns : Setter c_orderExecSpawns := fun f r => mkCache
  (c_instruments r) (c_synthetics r) (c_accounts r) (c_accountHistory r) (c_orders r)
  (c_orderClients r) (c_orderVenues r) (c_orderStrategies r) (c_orderPositions r) (c_orderLists r)
  (f (c_orderExecSpawns r)) (c_fills r) (c_fillTrades r) (c_fillVenues r) (c_deferredFills r)
  (c_positions r) (c_positionInst r) (c_positionVenues r) (c_positionStrategies r) (c_tickers r)
  (c_orderBooks r) (c_trades r) (c_quotes r) (c_bars r) (c_latestBars r) (c_fundingRates r)
  (c_customData r).
#[global] Instance set_c_fills : Setter c_fills := fun f r => mkCache (c_instruments r)
  (c_synthetics r) (c_accounts r) (c_accountHistory r) (c_orders r) (c_orderClients r)
  (c_orderVenues r) (c_orderStrategies r) (c_orderPositions r) (c_orderLists r) (c_orderExecSpawns
  r) (f (c_fills r)) (c_fillTrades r) (c_fillVenues r) (c_deferredFills r) (c_positions r)
  (c_positionInst r) (c_positionVenues r) (c_positionStrategies r) (c_tickers r) (c_orderBooks r)
  (c_trades r) (c_quotes r) (c_bars r) (c_latestBars r) (c_fundingRates r) (c_customData r).
#[global] Instance set_c_fillTrades : Setter c_fillTrades := fun f r => mkCache (c_instruments r)
  (c_synthetics r) (c_accounts r) (c_accountHistory r) (c_orders r) (c_orderClients r)
  (c_orderVenues r) (c_orderStrategies r) (c_orderPositions r) (c_orderLists r) (c_orderExecSpawns
  r) (c_fills r) (f (c_fillTrades r)) (c_fillVenues r) (c_deferredFills r) (c_positions r)
  (c_positionInst r) (c_positionVenues r) (c_positionStrategies r) (c_tickers r) (c_orderBooks r)
  (c_trades r) (c_quotes r) (c_bars r) (c_latestBars r) (c_fundingRates r) (c_customData r).
#[global] Instance set_c_fillVenues : Setter c_fillVenues := fun f r => mkCache (c_instruments r)
  (c_synthetics r) (c_accounts r) (c_accountHistory r) (c_orders r) (c_orderClients r)
  (c_orderVenues r) (c_orderStrategies r) (c_orderPositions r) (c_orderLists r) (c_orderExecSpawns
  r) (c_fills r) (c_fillTrades r) (f (c_fillVenues r)) (c_deferredFills r) (c_positions r)
  (c_positionInst r) (c_positionVenues r) (c_positionStrategies r) (c_tickers r) (c_orderBooks r)
  (c_trades r) (c_quotes r) (c_bars r) (c_latestBars r) (c_fundingRates r) (c_customData r).
#[global] Instance set_c_deferredFills : Setter c_deferredFills := fun f r => mkCache (c_instruments
  r) (c_synthetics r) (c_accounts r) (c_accountHistory r) (c_orders r) (c_orderClients r)
  (c_orderVenues r) (c_orderStrategies r) (c_orderPositions r) (c_orderLists r) (c_orderExecSpawns
  r) (c_fills r) (c_fillTrades r) (c_fillVenues r) (f (c_deferredFills r)) (c_positions r)
  (c_positionInst r) (c_positionVenues r) (c_positionStrategies r) (c_tickers r) (c_orderBooks r)
  (c_trades r) (c_quotes r) (c_bars r) (c_latestBars r) (c_fundingRates r) (c_customData r).
#[global] Instance set_c_positions : Setter c_positions := fun f r => mkCache (c_instruments r)
  (c_synthetics r) (c_accounts r) (c_accountHistory r) (c_orders r) (c_orderClients r)
  (c_orderVenues r) (c_orderStrategies r) (c_orderPositions r) (c_orderLists r) (c_orderExecSpawns
  r) (c_fills r) (c_fillTrades r) (c_fillVenues r) (c_deferredFills r) (f (c_positions r))
  (c_positionInst r) (c_positionVenues r) (c_positionStrategies r) (c_tickers r) (c_orderBooks r)
  (c_trades r) (c_quotes r) (c_bars r) (c_latestBars r) (c_fundingRates r) (c_customData r).
#[global] Instance set_c_positionInst : Setter c_positionInst := fun f r => mkCache (c_instruments
  r) (c_synthetics r) (c_accounts r) (c_accountHistory r) (c_orders r) (c_orderClients r)
  (c_orderVenues r) (c_orderStrategies r) (c_orderPositions r) (c_orderLists r) (c_orderExecSpawns
  r) (c_fills r) (c_fillTrades r) (c_fillVenues r) (c_deferredFills r) (c_positions r) (f
  (c_positionInst r)) (c_positionVenues r) (c_positionStrategies r) (c_tickers r) (c_orderBooks r)
  (c_trades r) (c_quotes r) (c_bars r) (c_latestBars r) (c_fundingRates r) (c_customData r).
#[global] Instance set_c_positionVenues : Setter c_positionVenues := fun f r => mkCache
  (c_instruments r) (c_synthetics r) (c_accounts r) (c_accountHistory r) (c_orders r)
  (c_orderClients r) (c_orderVenues r) (c_orderStrategies r) (c_orderPositions r) (c_orderLists r)
  (c_orderExecSpawns r) (c_fills r) (c_fillTrades r) (c_fillVenues r) (c_deferredFills r)
  (c_positions r) (c_positionInst r) (f (c_positionVenues r)) (c_positionStrategies r) (c_tickers r)
  (c_orderBooks r) (c_trades r) (c_quotes r) (c_bars r) (c_latestBars r) (c_fundingRates r)
  (c_customData r).
#[global] Instance set_c_positionStrategies : Setter c_positionStrategies := fun f r => mkCache
  (c_instruments r) (c_synthetics r) (c_accounts r) (c_accountHistory r) (c_orders r)
  (c_orderClients r) (c_orderVenues r) (c_orderStrategies r) (c_orderPositions r) (c_orderLists r)
  (c_orderExecSpawns r) (c_fills r) (c_fillTrades r) (c_fillVenues r) (c_deferredFills r)
  (c_positions r) (c_positionInst r) (c_positionVenues r) (f (c_positionStrategies r)) (c_tickers r)
  (c_orderBooks r) (c_trades r) (c_quotes r) (c_bars r) (c_latestBars r) (c_fundingRates r)
  (c_customData r).
#[global] Instance set_c_tickers : Setter c_tickers := fun f r => mkCache (c_instruments r)
  (c_synthetics r) (c_accounts r) (c_accountHistory r) (c_orders r) (c_orderClients r)
  (c_orderVenues r) (c_orderStrategies r) (c_orderPositions r) (c_orderLists r) (c_orderExecSpawns
  r) (c_fills r) (c_fillTrades r) (c_fillVenues r) (c_deferredFills r) (c_positions r)
  (c_positionInst r) (c_positionVenues r) (c_positionStrategies r) (f (c_tickers r)) (c_orderBooks
  r) (c_trades r) (c_quotes r) (c_bars r) (c_latestBars r) (c_fundingRates r) (c_customData r).
#[global] Instance set_c_orderBooks : Setter c_orderBooks := fun f r => mkCache (c_instruments r)
  (c_synthetics r) (c_accounts r) (c_accountHistory r) (c_orders r) (c_orderClients r)
  (c_orderVenues r) (c_orderStrategies r) (c_orderPositions r) (c_orderLists r) (c_orderExecSpawns
  r) (c_fills r) (c_fillTrades r) (c_fillVenues r) (c_deferredFills r) (c_positions r)
  (c_positionInst r) (c_positionVenues r) (c_positionStrategies r) (c_tickers r) (f (c_orderBooks
  r)) (c_trades r) (c_quotes r) (c_bars r) (c_latestBars r) (c_fundingRates r) (c_customData r).
#[global] Instance set_c_trades : Setter c_trades := fun f r => mkCache (c_instruments r)
  (c_synthetics r) (c_accounts r) (c_accountHistory r) (c_orders r) (c_orderClients r)
  (c_orderVenues r) (c_orderStrategies r) (c_orderPositions r) (c_orderLists r) (c_orderExecSpawns
  r) (c_fills r) (c_fillTrades r) (c_fillVenues r) (c_deferredFills r) (c_positions r)
  (c_positionInst r) (c_positionVenues r) (c_positionStrategies r) (c_tickers r) (c_orderBooks r) (f
  (c_trades r)) (c_quotes r) (c_bars r) (c_latestBars r) (c_fundingRates r) (c_customData r).
#[global] Instance set_c_quotes : Setter c_quotes := fun f r => mkCache (c_instruments r)
  (c_synthetics r) (c_accounts r) (c_accountHistory r) (c_orders r) (c_orderClients r)
  (c_orderVenues r) (c_orderStrategies r) (c_orderPositions r) (c_orderLists r) (c_orderExecSpawns
  r) (c_fills r) (c_fillTrades r) (c_fillVenues r) (c_deferredFills r) (c_positions r)
  (c_positionInst r) (c_positionVenues r) (c_positionStrategies r) (c_tickers r) (c_orderBooks r)
  (c_trades r) (f (c_quotes r)) (c_bars r) (c_latestBars r) (c_fundingRates r) (c_customData r).
#[global] Instance set_c_bars : Setter c_bars := fun f r => mkCache (c_instruments r) (c_synthetics
  r) (c_accounts r) (c_accountHistory r) (c_orders r) (c_orderClients r) (c_orderVenues r)
  (c_orderStrategies r) (c_orderPositions r) (c_orderLists r) (c_orderExecSpawns r) (c_fills r)
  (c_fillTrades r) (c_fillVenues r) (c_deferredFills r) (c_positions r) (c_positionInst r)
  (c_positionVenues r) (c_positionStrategies r) (c_tickers r) (c_orderBooks r) (c_trades r)
  (c_quotes r) (f (c_bars r)) (c_latestBars r) (c_fundingRates r) (c_customData r).
#[global] Instance set_c_latestBars : Setter c_latestBars := fun f r => mkCache (c_instruments r)
  (c_synthetics r) (c_accounts r) (c_accountHistory r) (c_orders r) (c_orderClients r)
  (c_orderVenues r) (c_orderStrategies r) (c_orderPositions r) (c_orderLists r) (c_orderExecSpawns
  r) (c_fills r) (c_fillTrades r) (c_fillVenues r) (c_deferredFills r) (c_positions r)
  (c_positionInst r) (c_positionVenues r) (c_positionStrategies r) (c_tickers r) (c_orderBooks r)
  (c_trades r) (c_quotes r) (c_bars r) (f (c_latestBars r)) (c_fundingRates r) (c_customData r).
#[global] Instance set_c_fundingRates : Setter c_fundingRates := fun f r => mkCache (c_instruments
  r) (c_synthetics r) (c_accounts r) (c_accountHistory r) (c_orders r) (c_orderClients r)
  (c_orderVenues r) (c_orderStrategies r) (c_orderPositions r) (c_orderLists r) (c_orderExecSpawns
  r) (c_fills r) (c_fillTrades r) (c_fillVenues r) (c_deferredFills r) (c_positions r)
  (c_positionInst r) (c_positionVenues r) (c_positionStrategies r) (c_tickers r) (c_orderBooks r)
  (c_trades r) (c_quotes r) (c_bars r) (c_latestBars r) (f (c_fundingRates r)) (c_customData r).
#[global] Instance set_c_customData : Setter c_customData := fun f r => mkCache (c_instruments r)
  (c_synthetics r) (c_accounts r) (c_accountHistory r) (c_orders r) (c_orderClients r)
  (c_orderVenues r) (c_orderStrategies r) (c_orderPositions r) (c_orderLists r) (c_orderExecSpawns
  r) (c_fills r) (c_fillTrades r) (c_fillVenues r) (c_deferredFills r) (c_positions r)
  (c_positionInst r) (c_positionVenues r) (c_positionStrategies r) (c_tickers r) (c_orderBooks r)
  (c_trades r) (c_quotes r) (c_bars r) (c_latestBars r) (c_fundingRates r) (f (c_customData r)).

(** [cache.New]. *)
Definition New : Cache :=
  mkCache ∅ ∅ ∅ ∅ ∅ ∅ ∅ ∅ ∅ ∅ ∅ ∅ ∅ ∅ ∅ ∅ ∅ ∅ ∅ ∅ ∅ ∅ ∅ ∅ ∅ ∅ ∅.

(** ** Instruments and accounts (instruments.go, accounts.go) *)

Definition PutInstrument (c : Cache) (inst : Instrument) : res Cache :=
  ensure Instrument_Validate inst ;;
  Ok (c <| c_instruments := <[in_ID inst := inst]> (c_instruments c) |>).

Definition cache_Instrument (c : Cache) (id : InstrumentID) : option Instrument := c_instruments c !! id.

(** [Instruments]: Go returns the map's values in no fixed order; this is one enumeration,
    and clients take any permutation of it. *)
Definition cache_Instruments (c : Cache) : list Instrument := map_values (c_instruments c).

Definition PutSyntheticInstrument (c : Cache) (inst : SyntheticInstrument) : res Cache :=
  ensure SyntheticInstrument_Validate inst ;;
  Ok (c <| c_synthetics := <[sy_ID inst := inst]> (c_synthetics c) |>).

Definition cache_SyntheticInstrument (c : Cache) (id : InstrumentID) : option SyntheticInstrument :=
  c_synthetics c !! id.

Definition cache_SyntheticInstruments (c : Cache) : list SyntheticInstrument :=
  merge_sort (by_key (fun i => InstrumentID_String (sy_ID i))) (map_values (c_synthetics c)).

Definition PutAccount (c : Cache) (account : AccountSnapshot) : Cache :=
  c <| c_accounts := <[as_AccountID account := account]> (c_accounts c) |>
    <| c_accountHistory :=
         <[as_AccountID account := default [] (c_accountHistory c !! as_AccountID account) ++ [account]]>
         (c_accountHistory c) |>.

Definition cache_Account (c : Cache) (id : AccountID) : option AccountSnapshot := c_accounts c !! id.
Definition AccountHistory (c : Cache) (id : AccountID) : list AccountSnapshot :=
  default [] (c_accountHistory c !! id).

(** ** Indexes (indexes.go) *)

Definition normalizeOrder (order : OrderStatusReport) : OrderStatusReport :=
  let order :=
    if IsPositive (or_Quantity order) && IsZero (or_LeavesQuantity order) &&
       OrderStatus_IsOpen (or_Status order)
    then order <| or_LeavesQuantity := dsub (or_Quantity order) (or_FilledQuantity order) |>
    else order in
  let order :=
    if (or_Status order ≟ OrderStatusFilled) && IsPositive (or_Quantity order) &&
       IsZero (or_FilledQuantity order)
    then order <| or_FilledQuantity := or_Quantity order |>
    else order in
  if or_Status order ≟ OrderStatusFilled then order <| or_LeavesQuantity := dzero |> else order.

(** [addOrderIndex] and [addPositionIndex]: the generic code is the same for every key type. *)
Definition addOrderIndex (index : gmap AccountID (gmap string (gset OrderID)))
    (accountID : AccountID) (key : string) (orderID : OrderID) :=
  if key ≟ "" then index
  else put2 index accountID key ({[orderID]} ∪ default ∅ (get2 index accountID key)).

Definition removeOrderIndex (index : gmap AccountID (gmap string (gset OrderID)))
    (accountID : AccountID) (key : string) (orderID : OrderID) :=
  if key ≟ "" then index
  else match get2 index accountID key with
       | None => index
       | Some ids =>
           let ids := ids ∖ {[orderID]} in
           if (size ids =? 0)%nat then del2 index accountID key else put2 index accountID key ids
       end.

Definition addOrderIndexes (c : Cache) (order : OrderStatusReport) : Cache :=
  let a := or_AccountID order in let o := or_OrderID order in
  c <| c_orderStrategies := addOrderIndex (c_orderStrategies c) a (md_StrategyID (or_Metadata order)) o |>
    <| c_orderPositions := addOrderIndex (c_orderPositions c) a (or_PositionID order) o |>
    <| c_orderLists := addOrderIndex (c_orderLists c) a (or_OrderListID order) o |>
    <| c_orderExecSpawns := addOrderIndex (c_orderExecSpawns c) a (md_ExecSpawnID (or_Metadata order)) o |>.

Definition del_key (m : gmap AccountID (gmap string OrderID)) (a : AccountID) (k : string) :=
  if k ≟ "" then m else del2 m a k.

Definition removeOrderIndexes (c : Cache) (order : OrderStatusReport) : Cache :=
  let a := or_AccountID order in let o := or_OrderID order in
  c <| c_orderStrategies := removeOrderIndex (c_orderStrategies c) a (md_StrategyID (or_Metadata order)) o |>
    <| c_orderPositions := removeOrderIndex (c_orderPositions c) a (or_PositionID order) o |>
    <| c_orderLists := removeOrderIndex (c_orderLists c) a (or_OrderListID order) o |>
    <| c_orderExecSpawns := removeOrderIndex (c_orderExecSpawns c) a (md_ExecSpawnID (or_Metadata order)) o |>
    <| c_orderClients := del_key (c_orderClients c) a (or_ClientOrderID order) |>
    <| c_orderVenues := del_key (c_orderVenues c) a (or_VenueOrderID order) |>.

(** ** Orders (orders.go) *)

(** The [removeOrderLocked] of snapshots.go. *)
Definition removeOrder (c : Cache) (order : OrderStatusReport) : Cache :=
  let c := removeOrderIndexes c order in
  c <| c_orders := del2 (c_orders c) (or_AccountID order) (or_OrderID order) |>.

(** Removes the order another map links to [key], when it is not [orderID] itself. *)
Definition evict (c : Cache) (links : gmap AccountID (gmap string OrderID))
    (a : AccountID) (key : string) (orderID : OrderID) : Cache :=
  if key ≠? "" then
    let existingOrderID := default "" (get2 links a key) in
    if (existingOrderID ≠? "") && (existingOrderID ≠? orderID) then
      match get2 (c_orders c) a existingOrderID with
      | Some existing =>
          let c := removeOrderIndexes c existing in
          c <| c_orders := del2 (c_orders c) a existingOrderID |>
      | None => c
      end
    else c
  else c.

Definition link (links : gmap AccountID (gmap string OrderID)) (a : AccountID) (key : string)
    (orderID : OrderID) := if key ≠? "" then put2 links a key orderID else links.

Definition PutOrder (c : Cache) (order : OrderStatusReport) : res Cache :=
  let order := normalizeOrder order in
  ensure OrderStatusReport_Validate order ;;
  let a := or_AccountID order in
  let c := match get2 (c_orders c) a (or_OrderID order) with
           | Some existing => removeOrderIndexes c existing
           | None => c
           end in
  let c := evict c (c_orderClients c) a (or_ClientOrderID order) (or_OrderID order) in
  let c := evict c (c_orderVenues c) a (or_VenueOrderID order) (or_OrderID order) in
  let c := c <| c_orders := put2 (c_orders c) a (or_OrderID order) order |> in
  let c := c <| c_orderClients := link (c_orderClients c) a (or_ClientOrderID order) (or_OrderID order) |> in
  let c := c <| c_orderVenues := link (c_orderVenues c) a (or_VenueOrderID order) (or_OrderID order) |> in
  Ok (addOrderIndexes c order).

Definition cache_Order (c : Cache) (a : AccountID) (o : OrderID) : option OrderStatusReport :=
  get2 (c_orders c) a o.

Definition OrderByClientID (c : Cache) (a : AccountID) (cl : ClientOrderID) : option OrderStatusReport :=
  o ← get2 (c_orderClients c) a cl; get2 (c_orders c) a o.

Definition OrderByVenueID (c : Cache) (a : AccountID) (v : VenueOrderID) : option OrderStatusReport :=
  o ← get2 (c_orderVenues c) a v; get2 (c_orders c) a o.

Definition sortOrders (orders : list OrderStatusReport) : list OrderStatusReport :=
  merge_sort (by_key or_OrderID) orders.

Definition cache_Orders (c : Cache) (a : AccountID) : list OrderStatusReport :=
  sortOrders (map_values (inner (c_orders c) a)).

Definition OpenOrders (c : Cache) (a : AccountID) : list OrderStatusReport :=
  sortOrders (List.filter (fun r => OrderStatus_IsOpen (or_Status r)) (map_values (inner (c_orders c) a))).

Definition ClosedOrders (c : Cache) (a : AccountID) : list OrderStatusReport :=
  sortOrders (List.filter (fun r => (or_Status r ≠? OrderStatusNone) && negb (OrderStatus_IsOpen (or_Status r)))
                (map_values (inner (c_orders c) a))).

Definition ordersByIDSet (c : Cache) (a : AccountID) (ids : gset OrderID) : list OrderStatusReport :=
  sortOrders (omap (fun o => get2 (c_orders c) a o) (elements ids)).

Definition OrdersByStrategy (c : Cache) (a : AccountID) (s : StrategyID) :=
  ordersByIDSet c a (default ∅ (get2 (c_orderStrategies c) a s)).
Definition OrdersByPositionID (c : Cache) (a : AccountID) (p : PositionID) :=
  ordersByIDSet c a (default ∅ (get2 (c_orderPositions c) a p)).
Definition OrdersByOrderListID (c : Cache) (a : AccountID) (l : OrderListID) :=
  ordersByIDSet c a (default ∅ (get2 (c_orderLists c) a l)).
Definition OrdersByExecSpawnID (c : Cache) (a : AccountID) (x : ExecSpawnID) :=
  ordersByIDSet c a (default ∅ (get2 (c_orderExecSpawns c) a x)).

(** ** Fills (fills.go) *)

Definition sortFills (fills : list FillReport) : list FillReport :=
  merge_sort (lex_le Z.le String.le fr_Timestamp fr_TradeID) fills.

(** [fills[a][o][t]], with the inner maps made on first use. *)
Definition put3 (m : gmap AccountID (gmap string (gmap TradeID FillReport)))
    (a : AccountID) (o : string) (t : TradeID) (f : FillReport) :=
  put2 m a o (<[t := f]> (default ∅ (get2 m a o))).
Definition get3 (m : gmap AccountID (gmap string (gmap TradeID FillReport)))
    (a : AccountID) (o : string) (t : TradeID) : option FillReport :=
  default ∅ (get2 m a o) !! t.

(** [PutFill]: the new cache, and whether the fill was stored. *)
Definition PutFill (c : Cache) (fill : FillReport) : res (Cache * bool) :=
  ensure FillReport_Validate fill ;;
  let a := fr_AccountID fill in
  match get3 (c_fills c) a (fr_OrderID fill) (fr_TradeID fill) with
  | Some _ => Ok (c, false)
  | None =>
      let c := c <| c_fills := put3 (c_fills c) a (fr_OrderID fill) (fr_TradeID fill) fill |> in
      let c := c <| c_fillTrades := put2 (c_fillTrades c) a (fr_TradeID fill) fill |> in
      let c := if fr_VenueOrderID fill ≠? ""
               then c <| c_fillVenues := put3 (c_fillVenues c) a (fr_VenueOrderID fill) (fr_TradeID fill) fill |>
               else c in
      Ok (c, true)
  end.

Definition FillByTradeID (c : Cache) (a : AccountID) (t : TradeID) : option FillReport :=
  get2 (c_fillTrades c) a t.
Definition FillsByVenueOrderID (c : Cache) (a : AccountID) (v : VenueOrderID) : list FillReport :=
  sortFills (map_values (default ∅ (get2 (c_fillVenues c) a v))).
Definition FillsForOrder (c : Cache) (a : AccountID) (o : OrderID) : list FillReport :=
  sortFills (map_values (default ∅ (get2 (c_fills c) a o))).

Definition PutDeferredFill (c : Cache) (fill : FillReport) : res (Cache * bool) :=
  ensure FillReport_Validate fill ;;
  let a := fr_AccountID fill in
  match get3 (c_deferredFills c) a (fr_OrderID fill) (fr_TradeID fill) with
  | Some _ => Ok (c, false)
  | None =>
      Ok (c <| c_deferredFills := put3 (c_deferredFills c) a (fr_OrderID fill) (fr_TradeID fill) fill |>, true)
  end.

Definition DeferredFillsForOrder (c : Cache) (a : AccountID) (o : OrderID) : list FillReport :=
  sortFills (map_values (default ∅ (get2 (c_deferredFills c) a o))).
Definition ClearDeferredFillsForOrder (c : Cache) (a : AccountID) (o : OrderID) : Cache :=
  c <| c_deferredFills := del2 (c_deferredFills c) a o |>.

(** ** Positions (positions.go) *)

Definition positionIsOpen (position : PositionStatusReport) : bool :=
  (pr_Side position ≠? PositionSideFlat) && negb (IsZero (pr_Quantity position)).

(** By instrument and position id; the instrument's text stands for the instrument, which
    it determines for the valid ids the cache holds ([Identifiers.parse_print_roundtrip]). *)
Definition sortPositions (positions : list PositionStatusReport) : list PositionStatusReport :=
  merge_sort (lex_le String.le String.le (fun p => InstrumentID_String (pr_InstrumentID p)) pr_PositionID)
    positions.

Definition PutPosition (c : Cache) (position : PositionStatusReport) : res Cache :=
  ensure PositionStatusReport_Validate position ;;
  let a := pr_AccountID position in
  let p := pr_PositionID position in
  let c := match get2 (c_positions c) a p with
           | Some existing =>
               let c := if (pr_VenuePositionID existing ≠? "") &&
                           (pr_VenuePositionID existing ≠? pr_VenuePositionID position)
                        then c <| c_positionVenues := del2 (c_positionVenues c) a (pr_VenuePositionID existing) |>
                        else c in
               c <| c_positionStrategies :=
                      removeOrderIndex (c_positionStrategies c) (pr_AccountID existing)
                        (md_StrategyID (pr_Metadata existing)) (pr_PositionID existing) |>
           | None => c
           end in
  let c := c <| c_positions := put2 (c_positions c) a p position |> in
  let c := c <| c_positionInst := put2 (c_positionInst c) a (pr_InstrumentID position) p |> in
  let c := if pr_VenuePositionID position ≠? ""
           then c <| c_positionVenues := put2 (c_positionVenues c) a (pr_VenuePositionID position) p |>
           else c in
  Ok (c <| c_positionStrategies :=
             addOrderIndex (c_positionStrategies c) a (md_StrategyID (pr_Metadata position)) p |>).

Definition cache_Position (c : Cache) (a : AccountID) (p : PositionID) : option PositionStatusReport :=
  get2 (c_positions c) a p.
Definition PositionByInstrument (c : Cache) (a : AccountID) (i : InstrumentID) : option PositionStatusReport :=
  p ← get2 (c_positionInst c) a i; get2 (c_positions c) a p.
Definition PositionByVenueID (c : Cache) (a : AccountID) (v : VenuePositionID) : option PositionStatusReport :=
  p ← get2 (c_positionVenues c) a v; get2 (c_positions c) a p.
Definition cache_Positions (c : Cache) (a : AccountID) : list PositionStatusReport :=
  sortPositions (map_values (inner (c_positions c) a)).
Definition OpenPositions (c : Cache) (a : AccountID) : list PositionStatusReport :=
  sortPositions (List.filter positionIsOpen (map_values (inner (c_positions c) a))).
Definition ClosedPositions (c : Cache) (a : AccountID) : list PositionStatusReport :=
  sortPositions (List.filter (fun p => negb (positionIsOpen p)) (map_values (inner (c_positions c) a))).
Definition positionsByIDSet (c : Cache) (a : AccountID) (ids : gset PositionID) : list PositionStatusReport :=
  sortPositions (omap (fun p => get2 (c_positions c) a p) (elements ids)).
Definition PositionsByStrategy (c : Cache) (a : AccountID) (s : StrategyID) :=
  positionsByIDSet c a (default ∅ (get2 (c_positionStrategies c) a s)).
Definition PositionsForInstrument (c : Cache) (i : InstrumentID) : list PositionStatusReport :=
  merge_sort (lex_le String.le String.le pr_AccountID pr_PositionID)
    (List.filter (fun p => pr_InstrumentID p ≟ i)
       (mjoin (map_values <$> map_values (c_positions c)))).

(** ** Market data (market.go) *)

Definition put_opt {A} (o : option A) (f : A -> Cache -> Cache) (c : Cache) : Cache :=
  match o with Some x => f x c | None => c end.

Definition put_bar (b : Bar) (c : Cache) : Cache :=
  let bar := mkBar (BarType_Canonical (br_BarType b)) (br_Open b) (br_High b) (br_Low b)
               (br_Close b) (br_Volume b) (br_Timestamp b) (br_InitTime b) (br_IsRevision b) in
  let c := c <| c_bars := <[br_BarType bar := bar]> (c_bars c) |> in
  let id := bt_InstrumentID (br_BarType bar) in
  if match c_latestBars c !! id with
     | None => true
     | Some existing => After (br_Timestamp bar) (br_Timestamp existing) ||
                        time_Equal (br_Timestamp bar) (br_Timestamp existing)
     end
  then c <| c_latestBars := <[id := bar]> (c_latestBars c) |>
  else c.

Definition PutMarketEvent (c : Cache) (event : MarketEvent) : res Cache :=
  ensure MarketEvent_Validate event ;;
  let c := put_opt (ev_Ticker event) (fun x c =>
             c <| c_tickers := <[tk_InstrumentID x := x]> (c_tickers c) |>) c in
  let c := put_opt (ev_OrderBook event) (fun x c =>
             c <| c_orderBooks := <[ob_InstrumentID x := x]> (c_orderBooks c) |>) c in
  let c := put_opt (ev_Trade event) (fun x c =>
             c <| c_trades := <[tt_InstrumentID x := x]> (c_trades c) |>) c in
  let c := put_opt (ev_Quote event) (fun x c =>
             c <| c_quotes := <[qt_InstrumentID x := x]> (c_quotes c) |>) c in
  let c := put_opt (ev_Bar event) put_bar c in
  let c := put_opt (ev_FundingRate event) (fun x c =>
             c <| c_fundingRates := <[fd_InstrumentID x := x]> (c_fundingRates c) |>) c in
  let c := put_opt (ev_Custom event) (fun x c =>
             c <| c_customData := put2 (c_customData c) (cd_InstrumentID x) (cd_Type x) x |>) c in
  Ok c.

Definition cache_Ticker (c : Cache) (id : InstrumentID) : option Ticker := c_tickers c !! id.
Definition cache_OrderBook (c : Cache) (id : InstrumentID) : option OrderBook := c_orderBooks c !! id.
Definition cache_TradeTick (c : Cache) (id : InstrumentID) : option TradeTick := c_trades c !! id.
Definition cache_QuoteTick (c : Cache) (id : InstrumentID) : option QuoteTick := c_quotes c !! id.
Definition cache_Bar (c : Cache) (t : BarType) : option Bar := c_bars c !! BarType_Canonical t.
Definition LatestBar (c : Cache) (id : InstrumentID) : option Bar := c_latestBars c !! id.
Definition cache_FundingRate (c : Cache) (id : InstrumentID) : option FundingRate := c_fundingRates c !! id.
Definition cache_CustomData (c : Cache) (id : InstrumentID) (typ : string) : option CustomData :=
  get2 (c_customData c) id typ.

(** ** Residuals, snapshots and purging (residuals.go, snapshots.go) *)

Record Residuals := mkResiduals {
  rs_OpenOrders : nat;
  rs_OpenPositions : nat;
  rs_DeferredFills : nat;
  rs_InconsistentOrderMappings : nat;
  rs_InconsistentPositionMappings : nat;
}.

Definition count {A} (f : A -> bool) (l : list A) : nat := List.length (List.filter f l).

Definition dangling_order (c : Cache) (a : AccountID) (o : OrderID) : bool :=
  match get2 (c_orders c) a o with Some _ => false | None => true end.
Definition dangling_position (c : Cache) (a : AccountID) (p : PositionID) : bool :=
  match get2 (c_positions c) a p with Some _ => false | None => true end.

(** [residualsLocked], behind [Cache.Residuals]. *)
Definition cache_Residuals (c : Cache) (a : AccountID) : Residuals :=
  mkResiduals
    (count (fun r => OrderStatus_IsOpen (or_Status r)) (map_values (inner (c_orders c) a)))
    (count positionIsOpen (map_values (inner (c_positions c) a)))
    (sum_list (size <$> map_values (inner (c_deferredFills c) a)))
    (count (dangling_order c a) (map_values (inner (c_orderClients c) a)) +
     count (dangling_order c a) (map_values (inner (c_orderVenues c) a)))
    (count (dangling_position c a) (map_values (inner (c_positionInst c) a)) +
     count (dangling_position c a) (map_values (inner (c_positionVenues c) a)) +
     sum_list ((fun ids : gset PositionID => count (dangling_position c a) (elements ids))
                 <$> map_values (inner (c_positionStrategies c) a))).

Record Snapshot := mkSnapshot {
  sn_AccountID : AccountID;
  sn_Account : AccountSnapshot;
  sn_AccountHistory : list AccountSnapshot;
  sn_OpenOrders : list OrderStatusReport;
  sn_ClosedOrders : list OrderStatusReport;
  sn_OpenPositions : list PositionStatusReport;
  sn_ClosedPositions : list PositionStatusReport;
  sn_DeferredFills : list FillReport;
  sn_Residuals : Residuals;
}.

Definition deferredFills (c : Cache) (a : AccountID) : list FillReport :=
  sortFills (mjoin (map_values <$> map_values (inner (c_deferredFills c) a))).

Definition cache_Snapshot (c : Cache) (a : AccountID) : Snapshot :=
  mkSnapshot a (default AccountSnapshot_zero (c_accounts c !! a)) (AccountHistory c a)
    (OpenOrders c a) (ClosedOrders c a) (OpenPositions c a) (ClosedPositions c a)
    (deferredFills c a) (cache_Residuals c a).

Record PurgePolicy := mkPurgePolicy {
  pp_ClosedOrdersLimit : Z;
  pp_ClosedPositionsLimit : Z;
  pp_AccountSnapshotsLimit : Z;
}.

Record PurgeResult := mkPurgeResult {
  pg_ClosedOrders : nat;
  pg_ClosedPositions : nat;
  pg_AccountSnapshots : nat;
}.

Definition removePosition (c : Cache) (position : PositionStatusReport) : Cache :=
  let a := pr_AccountID position in
  let p := pr_PositionID position in
  let c := c <| c_positions := del2 (c_positions c) a p |> in
  let c := if default "" (get2 (c_positionInst c) a (pr_InstrumentID position)) ≟ p
           then c <| c_positionInst := del2 (c_positionInst c) a (pr_InstrumentID position) |> else c in
  let c := if (pr_VenuePositionID position ≠? "") &&
              (default "" (get2 (c_positionVenues c) a (pr_VenuePositionID position)) ≟ p)
           then c <| c_positionVenues := del2 (c_positionVenues c) a (pr_VenuePositionID position) |> else c in
  c <| c_positionStrategies :=
         removeOrderIndex (c_positionStrategies c) a (md_StrategyID (pr_Metadata position)) p |>.

(** [l[:len(l)-keep]], or nothing when [keep] is negative or covers the list. *)
Definition all_but_last {A} (l : list A) (keep : Z) : list A :=
  if (keep <? 0)%Z then []
  else if (Z.of_nat (List.length l) <=? keep)%Z then []
  else take (List.length l - Z.to_nat keep) l.

Definition closedOrdersToPurge (orders : gmap OrderID OrderStatusReport) (keep : Z) : list OrderStatusReport :=
  all_but_last
    (merge_sort (lex_le Z.le String.le or_LastUpdatedTime or_OrderID)
       (List.filter (fun r => (or_Status r ≠? OrderStatusNone) && negb (OrderStatus_IsOpen (or_Status r)))
          (map_values orders))) keep.

Definition closedPositionsToPurge (positions : gmap PositionID PositionStatusReport) (keep : Z)
    : list PositionStatusReport :=
  all_but_last
    (merge_sort (lex_le Z.le String.le pr_Timestamp pr_PositionID)
       (List.filter (fun p => negb (positionIsOpen p)) (map_values positions))) keep.

Definition purgeAccounts (c : Cache) (a : AccountID) (limit : Z) : Cache * nat :=
  let history := AccountHistory c a in
  if (0 <=? limit)%Z && (limit <? Z.of_nat (List.length history))%Z then
    let n := (List.length history - Z.to_nat limit)%nat in
    let kept := drop n history in
    let c := c <| c_accountHistory := <[a := kept]> (c_accountHistory c) |> in
    match last kept with
    | None => (c <| c_accounts := delete a (c_accounts c) |>, n)
    | Some account => (c <| c_accounts := <[a := account]> (c_accounts c) |>, n)
    end
  else (c, 0%nat).

Definition Purge (c : Cache) (a : AccountID) (policy : PurgePolicy) : Cache * PurgeResult :=
  let orders := closedOrdersToPurge (inner (c_orders c) a) (pp_ClosedOrdersLimit policy) in
  let c := foldl removeOrder c orders in
  let positions := closedPositionsToPurge (inner (c_positions c) a) (pp_ClosedPositionsLimit policy) in
  let c := foldl removePosition c positions in
  let '(c, n) := purgeAccounts c a (pp_AccountSnapshotsLimit policy) in
  (c, mkPurgeResult (List.length orders) (List.length positions) n).
End cache.
