(* ===== verification/CacheFacts.v ===== *)
(** * Correctness of the cache's order store

    The cache keeps each order in one map and finds it through six secondary maps.  The
    abstract state is the lookup function of the first map; [indexed] says that the other
    six agree with it.  [PutOrder] keeps that agreement and implements the abstract update
    [put_spec]; purging and the other operations keep it too. *)
From stdpp Require Import base gmap list strings sorting.
From S2P Require Import Prelude Decimals Enums Identifiers Orders Market Accounts Cache.

Open Scope go_scope.

Section facts.
Context {DD : Decimal}.
Implicit Types (c : Cache) (r order : OrderStatusReport) (a : AccountID) (o : OrderID).

Abbreviation lookup2 := (AccountID -> OrderID -> option OrderStatusReport).

(** ** The invariant *)

Definition client := or_ClientOrderID.
Definition venue := or_VenueOrderID.
Definition strategy r := md_StrategyID (or_Metadata r).
Definition spawn r := md_ExecSpawnID (or_Metadata r).

(** Some order of [L] has the non-empty [key] [k] and id [o]. *)
Definition has_key (L : lookup2) (key : OrderStatusReport -> string) a (k : string) o : Prop :=
  k <> "" /\ exists r, L a o = Some r /\ key r = k.

Definition links_ok (L : lookup2) key (links : gmap AccountID (gmap string OrderID)) : Prop :=
  forall a k o, get2 links a k = Some o <-> has_key L key a k o.

Definition members (index : gmap AccountID (gmap string (gset OrderID))) a k : gset OrderID :=
  default ∅ (get2 index a k).

Definition index_ok (L : lookup2) key (index : gmap AccountID (gmap string (gset OrderID))) : Prop :=
  forall a k o, o ∈ members index a k <-> has_key L key a k o.

Record indexed (L : lookup2) (c : Cache) : Prop := {
  ix_keys : forall a o r, L a o = Some r -> or_AccountID r = a /\ or_OrderID r = o /\ o <> "";
  ix_clients : links_ok L client (c_orderClients c);
  ix_venues : links_ok L venue (c_orderVenues c);
  ix_strategies : index_ok L strategy (c_orderStrategies c);
  ix_positions : index_ok L or_PositionID (c_orderPositions c);
  ix_lists : index_ok L or_OrderListID (c_orderLists c);
  ix_spawns : index_ok L spawn (c_orderExecSpawns c);
}.

(** The invariant of the order store. *)
Definition orders_ok c : Prop := indexed (cache_Order c) c.

(** ** Taking an order out of the secondary maps *)

Definition without a o (L : lookup2) : lookup2 :=
  fun a' o' => if decide (a = a' /\ o = o') then None else L a' o'.

Lemma has_key_without L key a o r a' k' o' :
  L a o = Some r ->
  has_key (without a o L) key a' k' o' <-> has_key L key a' k' o' /\ ~ (a = a' /\ o = o').
Proof. unfold has_key, without. intros. case_decide; naive_solver. Qed.

Lemma members_remove index a k o a' k' o' :
  o' ∈ members (removeOrderIndex index a k o) a' k' <->
  o' ∈ members index a' k' /\ ~ (k <> "" /\ a = a' /\ k = k' /\ o = o').
Proof.
  unfold removeOrderIndex, members.
  case_bool_decide; [naive_solver|].
  destruct (get2 index a k) as [ids|] eqn:E.
  - destruct (size _ =? 0)%nat eqn:Hs.
    + apply Nat.eqb_eq, size_empty_iff in Hs. rewrite get2_del2.
      case_decide as Hd; [|naive_solver]. destruct Hd as [-> ->]. rewrite E. simpl.
      set_solver.
    + rewrite get2_put2. case_decide as Hd; [|naive_solver].
      destruct Hd as [-> ->]. rewrite E. simpl. set_solver.
  - split; [|naive_solver]. intros Hin. split; [exact Hin|].
    intros (_ & -> & -> & _). rewrite E in Hin. by apply elem_of_empty in Hin.
Qed.

Lemma members_add index a k o a' k' o' :
  o' ∈ members (addOrderIndex index a k o) a' k' <->
  o' ∈ members index a' k' \/ (k <> "" /\ a = a' /\ k = k' /\ o = o').
Proof.
  unfold addOrderIndex, members. case_bool_decide; [naive_solver|].
  rewrite get2_put2. case_decide as Hd; [|naive_solver].
  destruct Hd as [-> ->]. simpl. set_solver.
Qed.

Lemma index_remove L key index a o r :
  L a o = Some r -> index_ok L key index ->
  index_ok (without a o L) key (removeOrderIndex index a (key r) o).
Proof.
  intros Hr Hok a' k' o'. rewrite members_remove, (has_key_without L key a o r) by done.
  rewrite (Hok a' k' o'). unfold has_key. split; [|naive_solver].
  intros [[Hk (r' & Hr' & <-)] Hn]. split; [by split; eauto|].
  intros [-> ->]. apply Hn. simplify_eq. done.
Qed.

Lemma links_remove L key links a o r :
  L a o = Some r -> links_ok L key links ->
  links_ok (without a o L) key (del_key links a (key r)).
Proof.
  intros Hr Hok a' k' o'. rewrite (has_key_without L key a o r) by done. rewrite <- (Hok a' k' o').
  unfold del_key. case_bool_decide as Hk.
  - split; [|naive_solver]. intros Hl. split; [done|]. intros [-> ->].
    apply Hok in Hl as [Hk' (r' & Hr' & <-)]. by simplify_eq.
  - rewrite get2_del2. case_decide as Hd.
    + destruct Hd as [-> <-]. split; [done|]. intros [Hl Hn]. exfalso. apply Hn.
      assert (Hl' : get2 links a' (key r) = Some o) by (apply Hok; split; eauto).
      naive_solver.
    + split; [|naive_solver]. intros Hl. split; [done|]. intros [-> ->].
      apply Hd. apply Hok in Hl as [_ (r' & Hr' & <-)]. simplify_eq. done.
Qed.

Lemma remove_indexed L c a o r :
  indexed L c -> L a o = Some r -> indexed (without a o L) (removeOrderIndexes c r).
Proof.
  intros [Hkeys Hc Hv Hs Hp Hl He] Hr.
  destruct (Hkeys a o r Hr) as (<- & <- & _).
  split; fields; try (by eapply index_remove); try (by eapply links_remove);
    try (by apply (index_remove L strategy)); try (by apply (index_remove L spawn)).
  unfold without. intros a' o' r'. case_decide; [done|]. apply Hkeys.
Qed.

(** ** Entering an order *)

Definition entered order (L : lookup2) : lookup2 :=
  fun a o => if decide (or_AccountID order = a /\ or_OrderID order = o) then Some order else L a o.

Lemma has_key_entered L key order a k o :
  L (or_AccountID order) (or_OrderID order) = None ->
  has_key (entered order L) key a k o <->
  has_key L key a k o \/ (key order <> "" /\ or_AccountID order = a /\ key order = k /\ or_OrderID order = o).
Proof. unfold has_key, entered. intros Hn. case_decide; naive_solver. Qed.

Lemma index_add L key index order :
  L (or_AccountID order) (or_OrderID order) = None -> index_ok L key index ->
  index_ok (entered order L) key
    (addOrderIndex index (or_AccountID order) (key order) (or_OrderID order)).
Proof. intros Hn Hok a k o. rewrite members_add, has_key_entered by done. by rewrite (Hok a k o). Qed.

(** No order of the account shares the key. *)
Definition free (L : lookup2) (key : OrderStatusReport -> string) order : Prop :=
  forall o, ~ has_key L key (or_AccountID order) (key order) o.

Lemma links_add L key links order :
  L (or_AccountID order) (or_OrderID order) = None -> links_ok L key links -> free L key order ->
  links_ok (entered order L) key
    (link links (or_AccountID order) (key order) (or_OrderID order)).
Proof.
  intros Hn Hok Hfree a k o. rewrite has_key_entered by done. rewrite <- (Hok a k o).
  unfold link. case_bool_decide as Hk; simpl; [naive_solver|].
  rewrite get2_put2. case_decide as Hd; [|naive_solver].
  destruct Hd as [<- <-]. split; [naive_solver|].
  intros [Hl|]; [|naive_solver]. exfalso. eapply Hfree, Hok, Hl.
Qed.

Lemma add_indexed L c order :
  indexed L c -> L (or_AccountID order) (or_OrderID order) = None -> or_OrderID order <> "" ->
  free L client order -> free L venue order ->
  indexed (entered order L)
    (addOrderIndexes
       (c <| c_orders := put2 (c_orders c) (or_AccountID order) (or_OrderID order) order |>
          <| c_orderClients := link (c_orderClients c) (or_AccountID order) (client order) (or_OrderID order) |>
          <| c_orderVenues := link (c_orderVenues c) (or_AccountID order) (venue order) (or_OrderID order) |>)
       order).
Proof.
  intros [Hkeys Hc Hv Hs Hp Hl He] Hn Hne Hfc Hfv.
  split; fields; try (by apply index_add); try (by apply links_add);
    try (by apply (index_add L strategy)); try (by apply (index_add L spawn)).
  unfold entered. intros a' o' r'. case_decide; [naive_solver|]. apply Hkeys.
Qed.

(** ** Evicting the order that holds a key *)

(** The lookup function without the orders of the account that share the key. *)
Definition drop_key (key : OrderStatusReport -> string) a k (L : lookup2) : lookup2 :=
  fun a' o => match L a' o with
              | Some r => if decide (k <> "" /\ a = a' /\ key r = k) then None else Some r
              | None => None
              end.

(** [c] holds the orders of [L] and maybe one more at [(a, o)], out of the secondary maps. *)
Definition pending a o (L : lookup2) c : Prop :=
  indexed L c /\ L a o = None /\
  forall a' o', ~ (a = a' /\ o = o') -> cache_Order c a' o' = L a' o'.

Lemma indexed_ext L L' c : (forall a o, L a o = L' a o) -> indexed L c -> indexed L' c.
Proof.
  intros He [Hkeys Hc Hv Hs Hp Hl Hx].
  assert (Hh : forall key a k o, has_key L key a k o <-> has_key L' key a k o)
    by (intros; unfold has_key; by setoid_rewrite He).
  split; try (intros a k o; rewrite <- Hh; auto). intros a o r. rewrite <- He. apply Hkeys.
Qed.

Lemma evict_pending L c a o links key k :
  pending a o L c -> links_ok L key links ->
  pending a o (drop_key key a k L) (evict c links a k o).
Proof.
  intros (Hix & Hn & Hsame) Hl.
  assert (Hdrop : (forall o', ~ has_key L key a k o') -> forall a' o', L a' o' = drop_key key a k L a' o').
  { unfold drop_key, has_key. intros Hno a' o'. destruct (L a' o') as [r|] eqn:E; [|done].
    case_decide as Hd; [|done]. destruct Hd as (Hk & -> & Hr). exfalso. naive_solver. }
  assert (Hnone : (forall o', ~ has_key L key a k o') -> pending a o (drop_key key a k L) c).
  { intros Hno. specialize (Hdrop Hno). split; [by eapply indexed_ext|].
    split; [by rewrite <- Hdrop|]. intros. rewrite <- Hdrop. by apply Hsame. }
  unfold evict. case_bool_decide as Hk; cbn [negb].
  { apply Hnone. by intros o' [? _]. }
  destruct (get2 links a k) as [e|] eqn:E; simpl; cycle 1.
  { apply Hnone. intros o' Ho. apply Hl in Ho. congruence. }
  assert (He := E). apply Hl in He as [_ (r & Hr & Hkr)].
  destruct (ix_keys _ _ Hix _ _ _ Hr) as (Ha & Ho & Hne).
  rewrite !bool_decide_false by congruence. simpl.
  assert (Hget : cache_Order c a e = Some r) by (rewrite Hsame; [done|naive_solver]).
  unfold cache_Order in Hget. rewrite Hget.
  assert (Heq : forall a' o', without a e L a' o' = drop_key key a k L a' o').
  { intros a' o'. unfold without, drop_key. destruct (L a' o') as [r'|] eqn:E'; [|by case_decide].
    repeat case_decide; try done.
    - exfalso. destruct H as [-> ->]. naive_solver.
    - exfalso. destruct H0 as (_ & -> & Hk'). assert (get2 links a' k = Some o') by (apply Hl; split; eauto).
      naive_solver. }
  split; [|split].
  - eapply indexed_ext; [exact Heq|]. destruct (remove_indexed _ _ a e r Hix Hr). by split; fields.
  - rewrite <- Heq. unfold without. by case_decide.
  - intros a' o' Hd. rewrite <- Heq. unfold cache_Order, without. fields.
    rewrite get2_del2. case_decide; [done|]. by apply Hsame.
Qed.

Lemma free_drop (L : lookup2) key order : free (drop_key key (or_AccountID order) (key order) L) key order.
Proof.
  intros o [Hk (r & Hr & Hkr)]. unfold drop_key in Hr.
  destruct (L _ o); [|done]. case_decide; naive_solver.
Qed.

Lemma free_drop_other (L : lookup2) key key' a k order : free L key order -> free (drop_key key' a k L) key order.
Proof.
  intros Hf o [Hk (r & Hr & Hkr)]. apply (Hf o). split; [done|]. unfold drop_key in Hr.
  destruct (L _ o); [|done]. case_decide; naive_solver.
Qed.

(** ** [PutOrder] *)

(** [r], stored under [a], holds a non-empty client or venue id of [order]. *)
Definition displaced order a r : Prop :=
  or_AccountID order = a /\
  (client order <> "" /\ client r = client order \/ venue order <> "" /\ venue r = venue order).
#[global] Instance displaced_dec order a r : Decision (displaced order a r).
Proof. unfold displaced. apply _. Defined.

(** The abstract update: [order] is stored, and no other order of its account keeps its
    client id or its venue id. *)
Definition put_spec order (L : lookup2) : lookup2 :=
  fun a o => if decide (or_AccountID order = a /\ or_OrderID order = o) then Some order
             else match L a o with
                  | Some r => if decide (displaced order a r) then None else Some r
                  | None => None
                  end.

Lemma normalizeOrder_keys r :
  or_AccountID (normalizeOrder r) = or_AccountID r /\ or_OrderID (normalizeOrder r) = or_OrderID r /\
  client (normalizeOrder r) = client r /\ venue (normalizeOrder r) = venue r.
Proof. unfold normalizeOrder, client, venue. by repeat case_match. Qed.

(** The first guard of [OrderStatusReport.Validate]. *)
Lemma valid_order_ids r :
  OrderStatusReport_Validate r = Ok tt ->
  or_AccountID r <> "" /\ or_OrderID r <> "" /\ or_Status r <> OrderStatusNone.
Proof.
  unfold OrderStatusReport_Validate. intros H.
  destruct (_ || _ || _) eqn:E; [discriminate H|].
  by apply orb_false_iff in E as [[?%bool_decide_eq_false ?%bool_decide_eq_false]%orb_false_iff
    ?%bool_decide_eq_false].
Qed.

(** The order, once the two evictions are done, is entered. *)
Lemma enter_pending L c order :
  pending (or_AccountID order) (or_OrderID order) L c -> or_OrderID order <> "" ->
  free L client order -> free L venue order ->
  let c' := addOrderIndexes
       (c <| c_orders := put2 (c_orders c) (or_AccountID order) (or_OrderID order) order |>
          <| c_orderClients := link (c_orderClients c) (or_AccountID order) (client order) (or_OrderID order) |>
          <| c_orderVenues := link (c_orderVenues c) (or_AccountID order) (venue order) (or_OrderID order) |>)
       order in
  orders_ok c' /\ forall a o, cache_Order c' a o = entered order L a o.
Proof.
  intros (Hix & Hn & Hsame) Hne Hc Hv c'.
  assert (Heq : forall a o, cache_Order c' a o = entered order L a o).
  { intros a o. unfold c', cache_Order, entered. fields. rewrite get2_put2.
    case_decide; [done|]. by apply Hsame. }
  split; [|done]. eapply indexed_ext; [intros a o; symmetry; apply Heq|].
  by apply add_indexed.
Qed.

Lemma take_out c order :
  orders_ok c -> or_OrderID order <> "" ->
  pending (or_AccountID order) (or_OrderID order)
    (without (or_AccountID order) (or_OrderID order) (cache_Order c))
    (match get2 (c_orders c) (or_AccountID order) (or_OrderID order) with
     | Some existing => removeOrderIndexes c existing
     | None => c
     end).
Proof.
  intros Hok Hne. set (a := or_AccountID order). set (o := or_OrderID order).
  destruct (get2 (c_orders c) a o) as [e|] eqn:E.
  - split; [by apply remove_indexed|]. unfold without. split; [by rewrite decide_True|].
    intros a' o' Hd. by rewrite decide_False.
  - assert (Heq : forall a' o', cache_Order c a' o' = without a o (cache_Order c) a' o').
    { intros a' o'. unfold without. case_decide as Hd; [|done]. by destruct Hd as [<- <-]. }
    split; [by eapply indexed_ext|]. split; [by rewrite <- Heq|]. intros. apply Heq.
Qed.

Lemma put_spec_steps order (L : lookup2) a o :
  entered order
    (drop_key venue (or_AccountID order) (venue order)
       (drop_key client (or_AccountID order) (client order)
          (without (or_AccountID order) (or_OrderID order) L))) a o = put_spec order L a o.
Proof.
  unfold entered, put_spec, drop_key, without. case_decide; [done|].
  destruct (L a o) as [r|]; [|done]. unfold displaced.
  repeat (case_decide; try done); naive_solver.
Qed.

Lemma PutOrder_refines c order c' :
  orders_ok c -> PutOrder c order = Ok c' ->
  orders_ok c' /\ forall a o, cache_Order c' a o = put_spec (normalizeOrder order) (cache_Order c) a o.
Proof.
  intros Hok. unfold PutOrder.
  destruct (OrderStatusReport_Validate (normalizeOrder order)) as [[]|] eqn:Hval; [|done].
  apply valid_order_ids in Hval as (_ & Hval & _). intros <-%Ok_inj. set (ord := normalizeOrder order) in *.
  pose proof (take_out c ord Hok Hval) as H1. set (c1 := match get2 _ _ _ with Some _ => _ | None => _ end) in *.
  pose proof (evict_pending _ _ _ _ _ _ (client ord) H1 (ix_clients _ _ (proj1 H1))) as H2.
  set (c2 := evict c1 _ _ _ _) in *.
  pose proof (evict_pending _ _ _ _ _ _ (venue ord) H2 (ix_venues _ _ (proj1 H2))) as H3.
  destruct (enter_pending _ _ _ H3 Hval) as [Hok' Heq].
  - apply free_drop_other, free_drop.
  - apply free_drop.
  - split; [exact Hok'|]. intros a o. rewrite <- put_spec_steps. apply Heq.
Qed.

(** ** Storing fills *)

Lemma get3_put3 m a o t f a' o' t' :
  get3 (put3 m a o t f) a' o' t' = if decide (a = a' /\ o = o' /\ t = t') then Some f else get3 m a' o' t'.
Proof.
  unfold get3, put3. rewrite get2_put2. destruct (decide (a = a' /\ o = o')) as [[-> ->]|].
  - simpl. rewrite lookup_insert. repeat case_decide; naive_solver.
  - rewrite decide_False; [done|naive_solver].
Qed.

Lemma elem_of_fills m a o f :
  f ∈ map_values (default ∅ (get2 m a o)) <-> exists t, get3 m a o t = Some f.
Proof. by rewrite elem_of_map_values. Qed.

Lemma PutFill_inv c f c' stored :
  PutFill c f = Ok (c', stored) ->
  FillReport_Validate f = Ok tt /\
  match get3 (c_fills c) (fr_AccountID f) (fr_OrderID f) (fr_TradeID f) with
  | Some _ => c' = c /\ stored = false
  | None =>
      stored = true /\ c_fills c' = put3 (c_fills c) (fr_AccountID f) (fr_OrderID f) (fr_TradeID f) f /\
      c_fillTrades c' = put2 (c_fillTrades c) (fr_AccountID f) (fr_TradeID f) f /\
      c_fillVenues c' = (if fr_VenueOrderID f ≠? ""
                         then put3 (c_fillVenues c) (fr_AccountID f) (fr_VenueOrderID f) (fr_TradeID f) f
                         else c_fillVenues c)
  end.
Proof.
  unfold PutFill. destruct (FillReport_Validate f) as [[]|]; [|done].
  case_match; intros [= <- <-]; [done|]. by case_match.
Qed.

(** ** The other operations *)

(** The order store of two caches is the same. *)
Definition same_orders c c' : Prop :=
  c_orders c' = c_orders c /\ c_orderClients c' = c_orderClients c /\ c_orderVenues c' = c_orderVenues c /\
  c_orderStrategies c' = c_orderStrategies c /\ c_orderPositions c' = c_orderPositions c /\
  c_orderLists c' = c_orderLists c /\ c_orderExecSpawns c' = c_orderExecSpawns c.

#[global] Instance same_orders_po : PreOrder same_orders.
Proof. split; [by intros c|]. unfold same_orders. intros c1 c2 c3. naive_solver congruence. Qed.

(** The fill store of two caches is the same. *)
Definition same_fills c c' : Prop :=
  c_fills c' = c_fills c /\ c_fillTrades c' = c_fillTrades c /\ c_fillVenues c' = c_fillVenues c.

#[global] Instance same_fills_po : PreOrder same_fills.
Proof. split; [by intros c|]. unfold same_fills. intros c1 c2 c3. naive_solver congruence. Qed.

(** The position store of two caches is the same. *)
Definition same_positions c c' : Prop :=
  c_positions c' = c_positions c /\ c_positionInst c' = c_positionInst c /\
  c_positionVenues c' = c_positionVenues c /\ c_positionStrategies c' = c_positionStrategies c.

#[global] Instance same_positions_po : PreOrder same_positions.
Proof. split; [by intros c|]. unfold same_positions. intros c1 c2 c3. naive_solver congruence. Qed.

(** Neither fills nor positions differ. *)
Definition same_rest c c' : Prop := same_fills c c' /\ same_positions c c'.
#[global] Instance same_rest_po : PreOrder same_rest.
Proof. split; [by intros c|]. intros c1 c2 c3 [] []. split; etrans; eassumption. Qed.

Lemma same_orders_ok c c' : same_orders c c' -> orders_ok c -> orders_ok c'.
Proof.
  intros (Ho & Hc & Hv & Hs & Hp & Hl & He) [].
  assert (Hlk : cache_Order c' = cache_Order c) by (unfold cache_Order; by rewrite Ho).
  unfold orders_ok. rewrite Hlk. split; first [assumption | by rewrite ?Hc, ?Hv, ?Hs, ?Hp, ?Hl, ?He].
Qed.

Lemma removeOrder_ok c r :
  orders_ok c -> cache_Order c (or_AccountID r) (or_OrderID r) = Some r ->
  orders_ok (removeOrder c r) /\
  forall a o, cache_Order (removeOrder c r) a o = without (or_AccountID r) (or_OrderID r) (cache_Order c) a o.
Proof.
  intros Hok Hr.
  assert (Heq : forall a o, cache_Order (removeOrder c r) a o =
                            without (or_AccountID r) (or_OrderID r) (cache_Order c) a o).
  { intros a o. unfold cache_Order, without, removeOrder. fields. by rewrite get2_del2. }
  split; [|done]. apply (indexed_ext (without (or_AccountID r) (or_OrderID r) (cache_Order c))); [by intros|].
  destruct (remove_indexed _ _ _ _ _ Hok Hr). by split; fields.
Qed.

Lemma removeOrders_ok (rs : list OrderStatusReport) : forall c a,
  orders_ok c -> Forall (fun r => or_AccountID r = a /\ cache_Order c a (or_OrderID r) = Some r) rs ->
  NoDup (or_OrderID <$> rs) ->
  let c' := foldl removeOrder c rs in
  orders_ok c' /\
  forall a' o, cache_Order c' a' o =
    if decide (a = a' /\ o ∈ or_OrderID <$> rs) then None else cache_Order c a' o.
Proof.
  induction rs as [|r rs IH]; intros c a Hok Hrs Hnd; simpl.
  { split; [done|]. intros. rewrite decide_False; [done|]. set_solver. }
  apply Forall_cons in Hrs as [[<- Hr] Hrs]. simpl in Hnd. apply NoDup_cons in Hnd as [Hni Hnd].
  destruct (removeOrder_ok c r Hok Hr) as [Hok' Heq].
  destruct (IH (removeOrder c r) (or_AccountID r) Hok') as [Hok2 Heq2]; [|done|].
  { apply Forall_forall. intros r' Hin. rewrite Forall_forall in Hrs.
    destruct (Hrs r' Hin) as [Ha Hr']. split; [done|]. rewrite Heq. unfold without.
    rewrite decide_False; [done|]. intros [_ Hid]. apply Hni. rewrite Hid. by apply list_elem_of_fmap_2. }
  split; [done|]. intros a' o. rewrite Heq2, Heq. unfold without.
  repeat case_decide; set_solver.
Qed.

Lemma removePosition_same c p : same_orders c (removePosition c p) /\ same_fills c (removePosition c p).
Proof. unfold removePosition. cbv zeta. split; walk. Qed.

Lemma removePositions_same ps c : same_orders c (foldl removePosition c ps) /\ same_fills c (foldl removePosition c ps).
Proof.
  revert c. induction ps as [|p ps IH]; intros c; [done|]. simpl.
  destruct (removePosition_same c p), (IH (removePosition c p)). split; etrans; eassumption.
Qed.

Lemma purgeAccounts_same c a n :
  same_orders c (purgeAccounts c a n).1 /\ same_rest c (purgeAccounts c a n).1.
Proof. unfold purgeAccounts. cbv zeta. repeat case_match; simpl fst; split; walk. Qed.

(** *** The orders a purge removes *)

Lemma all_but_last_split {A} (l : list A) keep :
  (0 <= keep)%Z ->
  exists kept, l = all_but_last l keep ++ kept /\ Z.of_nat (List.length kept) = Z.min keep (Z.of_nat (List.length l)).
Proof.
  intros Hk. unfold all_but_last. rewrite (proj2 (Z.ltb_ge keep 0)) by lia.
  destruct (Z.leb_spec (Z.of_nat (List.length l)) keep).
  - exists l. split; [done|lia].
  - exists (drop (List.length l - Z.to_nat keep) l). split; [by rewrite take_drop|].
    rewrite length_drop. lia.
Qed.

Definition closed r : bool := (or_Status r ≠? OrderStatusNone) && negb (OrderStatus_IsOpen (or_Status r)).

Lemma purged_orders c a keep :
  orders_ok c ->
  Forall (fun r => or_AccountID r = a /\ cache_Order c a (or_OrderID r) = Some r /\ closed r = true)
    (closedOrdersToPurge (inner (c_orders c) a) keep) /\
  NoDup (or_OrderID <$> closedOrdersToPurge (inner (c_orders c) a) keep).
Proof.
  intros Hok. unfold closedOrdersToPurge.
  set (R := lex_le Z.le String.le or_LastUpdatedTime or_OrderID).
  set (l := List.filter closed (map_values (inner (c_orders c) a))).
  change (List.filter _ _) with l.
  assert (Hpre : exists k, l ≡ₚ all_but_last (merge_sort R l) keep ++ k).
  { assert (Hp : merge_sort R l ≡ₚ l) by apply merge_sort_Permutation.
    destruct (decide (0 <= keep)%Z) as [Hk|Hk].
    - destruct (all_but_last_split (merge_sort R l) keep Hk) as (kept & Heq & _).
      exists kept. by rewrite <- Heq.
    - exists l. unfold all_but_last. by rewrite (proj2 (Z.ltb_lt keep 0)) by lia. }
  destruct Hpre as [k Hpre].
  assert (Hl : Forall (fun r => or_AccountID r = a /\ cache_Order c a (or_OrderID r) = Some r /\ closed r = true) l).
  { apply Forall_forall. intros r Hin. apply list_elem_of_In, filter_In in Hin as [Hin Hcl].
    apply list_elem_of_In, elem_of_map_values in Hin as [o Ho].
    destruct (ix_keys _ _ Hok a o r Ho) as (Ha & <- & _). done. }
  assert (Hnd : NoDup (or_OrderID <$> l)).
  { unfold l. assert (Hm : NoDup (or_OrderID <$> map_values (inner (c_orders c) a))).
    - unfold map_values. rewrite <- list_fmap_compose.
      rewrite (list_fmap_ext _ fst); [apply NoDup_fst_map_to_list|].
      intros i [o r] Hin. apply list_elem_of_lookup_2, elem_of_map_to_list in Hin.
      by destruct (ix_keys _ _ Hok a o r Hin) as (_ & <- & _).
    - clear -Hm. induction (map_values _) as [|r l IH]; [done|]. simpl in *.
      apply NoDup_cons in Hm as [Hni Hm]. specialize (IH Hm). destruct (closed r); [|done].
      simpl. apply NoDup_cons. split; [|done]. intros Hin. apply Hni.
      apply list_elem_of_fmap in Hin as (r' & -> & Hin).
      apply list_elem_of_fmap_2. apply list_elem_of_In, filter_In in Hin as [Hin _]. by apply list_elem_of_In. }
  rewrite Hpre in Hl, Hnd. rewrite fmap_app in Hnd.
  split; [by apply Forall_app in Hl as [? _] | by apply NoDup_app in Hnd as [? _]].
Qed.

Lemma Purge_orders c a policy :
  orders_ok c ->
  let c' := (Purge c a policy).1 in
  let gone := closedOrdersToPurge (inner (c_orders c) a) (pp_ClosedOrdersLimit policy) in
  orders_ok c' /\
  forall a' o, cache_Order c' a' o =
    if decide (a = a' /\ o ∈ or_OrderID <$> gone) then None else cache_Order c a' o.
Proof.
  intros Hok. unfold Purge.
  destruct (purged_orders c a (pp_ClosedOrdersLimit policy) Hok) as [Hgone Hnd].
  set (gone := closedOrdersToPurge _ _) in *.
  destruct (removeOrders_ok gone c a Hok) as [Hok' Heq]; [|done|].
  { eapply Forall_impl; [exact Hgone|]. naive_solver. }
  set (c1 := foldl removeOrder c gone) in *. set (c2 := foldl removePosition c1 _).
  pose proof (proj1 (purgeAccounts_same c2 a (pp_AccountSnapshotsLimit policy))) as Hs3.
  destruct (purgeAccounts c2 a (pp_AccountSnapshotsLimit policy)) as [c3 n]. simpl in *.
  assert (Hs : same_orders c1 c3) by (etrans; [eapply removePositions_same | exact Hs3]).
  split; [by eapply same_orders_ok|]. intros a' o. rewrite <- Heq.
  unfold cache_Order. by destruct Hs as [-> _].
Qed.

(** ** Every sequence of operations *)

Inductive CacheOp :=
  | OpInstrument (i : Instrument) | OpSynthetic (i : SyntheticInstrument)
  | OpAccount (s : AccountSnapshot) | OpOrder (r : OrderStatusReport)
  | OpFill (f : FillReport) | OpDeferred (f : FillReport) | OpClearDeferred (a : AccountID) (o : OrderID)
  | OpPosition (p : PositionStatusReport) | OpMarket (e : MarketEvent)
  | OpPurge (a : AccountID) (policy : PurgePolicy).

(** An operation that fails leaves the cache as it is. *)
Definition or_same c (m : res Cache) : Cache := match m with Ok c' => c' | Fail _ => c end.

Definition run_op c (op : CacheOp) : Cache :=
  match op with
  | OpInstrument i => or_same c (PutInstrument c i)
  | OpSynthetic i => or_same c (PutSyntheticInstrument c i)
  | OpAccount s => PutAccount c s
  | OpOrder r => or_same c (PutOrder c r)
  | OpFill f => or_same c (fst <$> PutFill c f)
  | OpDeferred f => or_same c (fst <$> PutDeferredFill c f)
  | OpClearDeferred a o => ClearDeferredFillsForOrder c a o
  | OpPosition p => or_same c (PutPosition c p)
  | OpMarket e => or_same c (PutMarketEvent c e)
  | OpPurge a policy => (Purge c a policy).1
  end.

Definition run_ops c (ops : list CacheOp) : Cache := foldl run_op c ops.

(** The invariant of reachable caches: indexed, and every stored order is valid. *)
Definition cache_ok c : Prop :=
  orders_ok c /\ forall a o r, cache_Order c a o = Some r -> OrderStatusReport_Validate r = Ok tt.

Lemma New_order a o : cache_Order New a o = None.
Proof. apply get2_empty. Qed.

Lemma New_ok : cache_ok New.
Proof.
  assert (Hk : forall key a k o, has_key (cache_Order New) key a k o <-> False)
    by (intros; unfold has_key; setoid_rewrite New_order; naive_solver).
  split; [|intros a o r; by rewrite New_order].
  split; [intros a o r; by rewrite New_order|..];
    intros a k o; rewrite Hk; unfold members; simpl; rewrite get2_empty; set_solver.
Qed.

Lemma put_opt_walk {A} (R : relation Cache) `{!PreOrder R} (x : option A) (f : A -> Cache -> Cache) c c1 :
  R c c1 -> (forall v d, R d (f v d)) -> R c (put_opt x f c1).
Proof. intros Hc Hf. destruct x; [|exact Hc]. etrans; [exact Hc|apply Hf]. Qed.

Lemma PutMarketEvent_same c e :
  same_orders c (or_same c (PutMarketEvent c e)) /\ same_rest c (or_same c (PutMarketEvent c e)).
Proof.
  unfold PutMarketEvent. destruct (MarketEvent_Validate e); [|done]. cbn [or_same].
  split; repeat (apply put_opt_walk; [apply _|..]); try reflexivity;
    intros v d; unfold put_bar; cbv zeta; walk.
Qed.

Lemma PutPosition_same c p :
  same_orders c (or_same c (PutPosition c p)) /\ same_fills c (or_same c (PutPosition c p)).
Proof.
  unfold PutPosition. destruct (PositionStatusReport_Validate p); [|done].
  cbn [or_same]. cbv zeta. split; walk.
Qed.

(** The operations that leave the order store alone. *)
Lemma run_op_same c op :
  match op with OpOrder _ | OpPurge _ _ => True | _ => same_orders c (run_op c op) end.
Proof.
  destruct op; try exact I; cbn [run_op];
    unfold PutInstrument, PutSyntheticInstrument, PutAccount, PutFill, PutDeferredFill,
      ClearDeferredFillsForOrder; cbv zeta; try apply (proj1 (PutPosition_same _ _));
    try apply (proj1 (PutMarketEvent_same _ _));
    repeat case_match; cbn [or_same fmap res_fmap fst]; walk.
Qed.

Lemma cache_ok_same c c' : same_orders c c' -> cache_ok c -> cache_ok c'.
Proof.
  intros Hs [Hok Hv]. split; [by eapply same_orders_ok|].
  intros a o r. unfold cache_Order. destruct Hs as [-> _]. apply Hv.
Qed.

Lemma run_op_ok c op : cache_ok c -> cache_ok (run_op c op).
Proof.
  intros Hok. pose proof (run_op_same c op) as Hs.
  destruct op; try (by eapply cache_ok_same); clear Hs; simpl; destruct Hok as [Hok Hv].
  - destruct (PutOrder c r) as [c'|] eqn:E; [|done]. simpl.
    destruct (PutOrder_refines c r c' Hok E) as [Hok' Heq]. split; [done|].
    intros a o r'. rewrite Heq. unfold put_spec. case_decide as Hd.
    + intros [= <-]. unfold PutOrder in E. by destruct (OrderStatusReport_Validate _) as [[]|].
    + destruct (cache_Order c a o) eqn:Eo; [|done]. case_decide; [done|]. intros [= <-]. by eapply Hv.
  - destruct (Purge_orders c a policy Hok) as [Hok' Heq]. split; [done|].
    intros a' o r. rewrite Heq. case_decide; [done|]. apply Hv.
Qed.

Lemma run_ops_ok ops c : cache_ok c -> cache_ok (run_ops c ops).
Proof. revert c. induction ops as [|op ops IH]; intros c Hok; [done|]. by apply IH, run_op_ok. Qed.

Lemma reachable_ok ops : cache_ok (run_ops New ops).
Proof. apply run_ops_ok, New_ok. Qed.

(** *** The fill and position stores *)

Lemma evict_same_rest c links a k o : same_rest c (evict c links a k o).
Proof. unfold evict, removeOrderIndexes. cbv zeta. walk. Qed.

Lemma removeOrderIndexes_same_rest c r : same_rest c (removeOrderIndexes c r).
Proof. unfold removeOrderIndexes. cbv zeta. walk. Qed.

Lemma addOrderIndexes_same_rest c r : same_rest c (addOrderIndexes c r).
Proof. unfold addOrderIndexes. cbv zeta. walk. Qed.

Lemma PutOrder_same_rest c order c' : PutOrder c order = Ok c' -> same_rest c c'.
Proof.
  unfold PutOrder. destruct (OrderStatusReport_Validate _); [|done]. intros <-%Ok_inj.
  set (ord := normalizeOrder order).
  assert (H1 : same_rest c (match get2 (c_orders c) (or_AccountID ord) (or_OrderID ord) with
                             | Some existing => removeOrderIndexes c existing | None => c end))
    by (destruct (get2 _ _ _); [apply removeOrderIndexes_same_rest|done]).
  set (c1 := match get2 _ _ _ with Some _ => _ | None => _ end) in *.
  assert (H2 := evict_same_rest c1 (c_orderClients c1) (or_AccountID ord) (or_ClientOrderID ord) (or_OrderID ord)).
  set (c2 := evict c1 _ _ _ _) in *.
  assert (H3 := evict_same_rest c2 (c_orderVenues c2) (or_AccountID ord) (or_VenueOrderID ord) (or_OrderID ord)).
  set (c3 := evict c2 _ _ _ _) in *.
  transitivity c3; [etrans; [|exact H3]; by etrans|]. clear. generalize c3. clear c3. intros d.
  etrans; [|apply addOrderIndexes_same_rest]. walk.
Qed.

Lemma removeOrders_same_rest rs c : same_rest c (foldl removeOrder c rs).
Proof.
  revert c. induction rs as [|r rs IH]; intros c; [done|]. simpl. etrans; [|apply IH].
  unfold removeOrder. cbv zeta. transitivity (removeOrderIndexes c r); [apply removeOrderIndexes_same_rest|].
  generalize (removeOrderIndexes c r). intros d. walk.
Qed.

Lemma Purge_same_fills c a policy : same_fills c (Purge c a policy).1.
Proof.
  unfold Purge. set (c1 := foldl removeOrder c _). set (c2 := foldl removePosition c1 _).
  pose proof (proj2 (purgeAccounts_same c2 a (pp_AccountSnapshotsLimit policy))) as [H _].
  destruct (purgeAccounts _ _ _) as [c3 n]. simpl in *. etrans; [eapply removeOrders_same_rest|].
  etrans; [eapply removePositions_same|exact H].
Qed.

Lemma run_op_same_rest c op :
  match op with
  | OpPosition _ => same_fills c (run_op c op)
  | OpFill _ => same_positions c (run_op c op)
  | OpPurge _ _ => same_fills c (run_op c op)
  | _ => same_rest c (run_op c op)
  end.
Proof.
  destruct op; cbn [run_op];
    try apply (proj2 (PutPosition_same _ _)); try apply (proj2 (PutMarketEvent_same _ _)); try apply Purge_same_fills;
    unfold PutInstrument, PutSyntheticInstrument, PutAccount, PutFill, PutDeferredFill, ClearDeferredFillsForOrder; cbv zeta.
  4: { destruct (PutOrder c r) eqn:E; [|done]. by eapply PutOrder_same_rest. }
  all: repeat case_match; cbn [or_same fmap res_fmap fst]; walk.
Qed.

(** Every stored fill is valid and filed under its own ids. *)
Definition fills_ok c : Prop := forall a o t f, get3 (c_fills c) a o t = Some f ->
  FillReport_Validate f = Ok tt /\ fr_AccountID f = a /\ fr_OrderID f = o /\ fr_TradeID f = t.

Lemma PutFill_fills_ok c f c' stored : PutFill c f = Ok (c', stored) -> fills_ok c -> fills_ok c'.
Proof.
  intros H Hok. apply PutFill_inv in H as [Hv H]. destruct (get3 _ _ _ _); [by destruct H as [-> _]|].
  destruct H as (_ & Hf & _). intros a o t g. rewrite Hf, get3_put3. case_decide; [|apply Hok].
  destruct_and!. by intros [= <-].
Qed.

Lemma same_fills_ok c c' : same_fills c c' -> fills_ok c -> fills_ok c'.
Proof. intros (Hf & _) Hok a o t g. rewrite Hf. apply Hok. Qed.

Lemma reachable_fills_ok ops : fills_ok (run_ops New ops).
Proof.
  assert (H : fills_ok New) by (intros a o t f; unfold get3; simpl; by rewrite get2_empty).
  revert H. generalize New. unfold run_ops. induction ops as [|op ops IH]; intros c Hok; [done|].
  apply IH. pose proof (run_op_same_rest c op) as Hs.
  destruct op; try (by eapply same_fills_ok; [apply Hs|done]). simpl.
  destruct (PutFill c f) as [[c' stored]|] eqn:E; [|done]. by eapply PutFill_fills_ok.
Qed.

(** Every stored position is valid and filed under its own ids. *)
Definition positions_ok c : Prop := forall a p x, get2 (c_positions c) a p = Some x ->
  PositionStatusReport_Validate x = Ok tt /\ pr_AccountID x = a /\ pr_PositionID x = p.

Lemma PutPosition_positions c p c' :
  PutPosition c p = Ok c' -> c_positions c' = put2 (c_positions c) (pr_AccountID p) (pr_PositionID p) p.
Proof.
  unfold PutPosition. destruct (PositionStatusReport_Validate p); [|done]. intros <-%Ok_inj.
  destruct (get2 _ _ _) as [e|]; [|by destruct (pr_VenuePositionID p ≠? "")].
  destruct ((pr_VenuePositionID e ≠? "") && _); by destruct (pr_VenuePositionID p ≠? "").
Qed.

Lemma PutPosition_ok c p c' : PutPosition c p = Ok c' -> positions_ok c -> positions_ok c'.
Proof.
  intros H Hok a q x. rewrite (PutPosition_positions c p c' H), get2_put2.
  case_decide as Hd; [|apply Hok]. destruct Hd as [<- <-]. intros [= <-].
  unfold PutPosition in H. by destruct (PositionStatusReport_Validate _) as [[]|].
Qed.

Lemma removePosition_positions c p :
  c_positions (removePosition c p) = del2 (c_positions c) (pr_AccountID p) (pr_PositionID p).
Proof. unfold removePosition. cbv zeta. by repeat case_match. Qed.

Lemma removePositions_ok ps c : positions_ok c -> positions_ok (foldl removePosition c ps).
Proof.
  revert c. induction ps as [|p ps IH]; intros c Hok; [done|]. apply IH. intros a q x.
  rewrite removePosition_positions, get2_del2. case_decide; [done|]. apply Hok.
Qed.

Lemma same_positions_ok c c' : same_positions c c' -> positions_ok c -> positions_ok c'.
Proof. intros (Hp & _) Hok a p x. rewrite Hp. apply Hok. Qed.

Lemma Purge_positions_ok c a policy : positions_ok c -> positions_ok (Purge c a policy).1.
Proof.
  intros Hok. unfold Purge. set (c1 := foldl removeOrder c _). set (c2 := foldl removePosition c1 _).
  pose proof (proj2 (purgeAccounts_same c2 a (pp_AccountSnapshotsLimit policy))) as [_ H].
  destruct (purgeAccounts _ _ _) as [c3 n]. simpl in *. eapply same_positions_ok; [exact H|].
  apply removePositions_ok. eapply same_positions_ok; [eapply removeOrders_same_rest|done].
Qed.

Lemma reachable_positions_ok ops : positions_ok (run_ops New ops).
Proof.
  assert (H : positions_ok New) by (intros a p x; simpl; by rewrite get2_empty).
  revert H. generalize New. unfold run_ops. induction ops as [|op ops IH]; intros c Hok; [done|].
  apply IH. pose proof (run_op_same_rest c op) as Hs.
  destruct op; try (by eapply same_positions_ok; [apply Hs|done]); clear Hs; simpl.
  - destruct (PutPosition c p) eqn:E; [|done]. by eapply PutPosition_ok.
  - by apply Purge_positions_ok.
Qed.

(** ** Reading through the secondary maps *)

Lemma by_link c key links a k r :
  orders_ok c -> links_ok (cache_Order c) key links ->
  (o ← get2 links a k; cache_Order c a o) = Some r <->
  k <> "" /\ key r = k /\ or_AccountID r = a /\ cache_Order c a (or_OrderID r) = Some r.
Proof.
  intros Hok Hl. split.
  - destruct (get2 links a k) as [o|] eqn:E; [|done]. simpl. intros Hr.
    apply Hl in E as [Hk (r' & Hr' & <-)].
    destruct (ix_keys _ _ Hok a o r Hr) as (-> & <- & _). by simplify_eq.
  - intros (Hk & <- & Ha & Hr).
    assert (get2 links a (key r) = Some (or_OrderID r)) as -> by (apply Hl; split; eauto). done.
Qed.

Lemma by_index c key index a k r :
  orders_ok c -> index_ok (cache_Order c) key index ->
  r ∈ ordersByIDSet c a (members index a k) <->
  k <> "" /\ key r = k /\ or_AccountID r = a /\ cache_Order c a (or_OrderID r) = Some r.
Proof.
  intros Hok Hi. unfold ordersByIDSet, sortOrders. rewrite elem_of_merge_sort, list_elem_of_omap. split.
  - intros (o & Ho & Hr). apply elem_of_elements, Hi in Ho as [Hk (r' & Hr' & <-)].
    unfold cache_Order in Hr'.
    destruct (ix_keys _ _ Hok a o r Hr) as (-> & <- & _). by simplify_eq.
  - intros (Hk & <- & Ha & Hr). exists (or_OrderID r). split; [|done].
    apply elem_of_elements, Hi. split; eauto.
Qed.

Lemma count_zero {A} (f : A -> bool) l : (forall x, x ∈ l -> f x = false) -> count f l = 0%nat.
Proof.
  unfold count. induction l as [|x l IH]; intros H; [done|]. simpl.
  rewrite H by set_solver. apply IH. set_solver.
Qed.

Lemma no_dangling c key links a :
  links_ok (cache_Order c) key links -> count (dangling_order c a) (map_values (inner links a)) = 0%nat.
Proof.
  intros Hl. apply count_zero. intros o Ho. apply elem_of_map_values in Ho as [k Hk].
  apply Hl in Hk as [_ (r & Hr & _)]. unfold dangling_order. unfold cache_Order in Hr. by rewrite Hr.
Qed.

(** ** Listings *)

Lemma order_values_inj c a r r' :
  orders_ok c -> r ∈ map_values (inner (c_orders c) a) -> r' ∈ map_values (inner (c_orders c) a) ->
  or_OrderID r = or_OrderID r' -> r = r'.
Proof.
  intros Hok Hr Hr' Hid. apply elem_of_map_values in Hr as [o Ho], Hr' as [o' Ho'].
  destruct (ix_keys _ _ Hok a o r Ho) as (_ & <- & _), (ix_keys _ _ Hok a o' r' Ho') as (_ & <- & _).
  rewrite Hid in Ho. by simplify_eq.
Qed.

Lemma In_filter {A} (f : A -> bool) l x : x ∈ List.filter f l <-> x ∈ l /\ f x = true.
Proof. rewrite !list_elem_of_In. apply filter_In. Qed.

(** Any sorted arrangement of a selection of an account's orders is the listing. *)
Lemma listing_unique c a (f : OrderStatusReport -> bool) l' :
  orders_ok c -> l' ≡ₚ List.filter f (map_values (inner (c_orders c) a)) ->
  Sorted (by_key or_OrderID) l' ->
  l' = sortOrders (List.filter f (map_values (inner (c_orders c) a))).
Proof.
  intros Hok Hp Hs. unfold sortOrders. eapply (sort_unique (by_key or_OrderID)); [|exact Hs|exact Hp].
  intros x y Hx Hy Hxy Hyx. apply In_filter in Hx as [Hx _], Hy as [Hy _].
  eapply order_values_inj; eauto. by apply (anti_symm String.le).
Qed.

Lemma open_or_closed {f g : OrderStatusReport -> bool} (l : list OrderStatusReport) :
  (forall r, r ∈ l -> g r = negb (f r)) -> List.filter f l ++ List.filter g l ≡ₚ l.
Proof.
  induction l as [|r l IH]; intros H; [done|]. simpl. rewrite (H r) by set_solver.
  assert (IH' := IH (fun r Hr => H r (list_elem_of_further _ _ _ Hr))).
  destruct (f r); simpl; [by rewrite IH'|]. by rewrite <- Permutation_middle, IH'.
Qed.

Lemma elem_of_orders c a r :
  orders_ok c ->
  r ∈ map_values (inner (c_orders c) a) <-> or_AccountID r = a /\ cache_Order c a (or_OrderID r) = Some r.
Proof.
  intros Hok. rewrite elem_of_map_values. split.
  - intros [o Ho]. destruct (ix_keys _ _ Hok a o r Ho) as (? & <- & _). done.
  - intros [_ Hr]. by exists (or_OrderID r).
Qed.

Lemma NoDup_filter {A} (f : A -> bool) (l : list A) : NoDup l -> NoDup (List.filter f l).
Proof. rewrite !NoDup_ListNoDup. apply List.NoDup_filter. Qed.

Lemma NoDup_orders c a : orders_ok c -> NoDup (map_values (inner (c_orders c) a)).
Proof.
  intros Hok. apply (NoDup_fmap_1 or_OrderID). unfold map_values. rewrite <- list_fmap_compose.
  rewrite (list_fmap_ext _ fst); [apply NoDup_fst_map_to_list|].
  intros i [o r] Hin. apply list_elem_of_lookup_2, elem_of_map_to_list in Hin.
  by destruct (ix_keys _ _ Hok a o r Hin) as (_ & <- & _).
Qed.

Lemma elem_of_listing c a (f : OrderStatusReport -> bool) r :
  orders_ok c ->
  r ∈ sortOrders (List.filter f (map_values (inner (c_orders c) a))) <->
  f r = true /\ or_AccountID r = a /\ cache_Order c a (or_OrderID r) = Some r.
Proof.
  intros Hok. unfold sortOrders. rewrite elem_of_merge_sort, In_filter, elem_of_orders by done. tauto.
Qed.

Lemma NoDup_listing c a (f : OrderStatusReport -> bool) :
  orders_ok c -> NoDup (sortOrders (List.filter f (map_values (inner (c_orders c) a)))).
Proof.
  intros Hok. unfold sortOrders. rewrite merge_sort_Permutation. by apply NoDup_filter, NoDup_orders.
Qed.

Lemma listing_ext c c' a (f : OrderStatusReport -> bool) :
  orders_ok c -> orders_ok c' ->
  (forall r, f r = true -> cache_Order c' a (or_OrderID r) = Some r <-> cache_Order c a (or_OrderID r) = Some r) ->
  sortOrders (List.filter f (map_values (inner (c_orders c') a))) =
  sortOrders (List.filter f (map_values (inner (c_orders c) a))).
Proof.
  intros Hok Hok' Hf. apply listing_unique; [done| |apply Sorted_merge_sort; apply _].
  etrans; [|apply (merge_sort_Permutation (by_key or_OrderID))].
  change (merge_sort _ ?l) with (sortOrders l).
  apply NoDup_Permutation; [by apply NoDup_listing|by apply NoDup_listing|].
  intros r. rewrite !elem_of_listing by done. naive_solver.
Qed.

(** ** What a purge leaves of the closed orders *)

Lemma sorted_app_le {A} (R : relation A) `{!Transitive R} l1 l2 x y :
  Sorted R (l1 ++ l2) -> x ∈ l1 -> y ∈ l2 -> R x y.
Proof.
  intros Hs Hx Hy. apply Sorted_StronglySorted in Hs; [|done].
  induction l1 as [|z l1 IH]; simpl in *; [by apply elem_of_nil in Hx|].
  apply StronglySorted_inv in Hs as [Hs Hz]. apply elem_of_cons in Hx as [->|Hx]; [|by apply IH].
  rewrite Forall_forall in Hz. apply Hz. set_solver.
Qed.

Lemma Purge_closed c a policy :
  orders_ok c -> (0 <= pp_ClosedOrdersLimit policy)%Z ->
  exists kept,
    let gone := closedOrdersToPurge (inner (c_orders c) a) (pp_ClosedOrdersLimit policy) in
    ClosedOrders c a ≡ₚ gone ++ kept /\ ClosedOrders (Purge c a policy).1 a ≡ₚ kept /\
    Z.of_nat (List.length kept) =
      Z.min (pp_ClosedOrdersLimit policy) (Z.of_nat (List.length (ClosedOrders c a))) /\
    (forall r r', r ∈ gone -> r' ∈ kept -> lex_le Z.le String.le or_LastUpdatedTime or_OrderID r r').
Proof.
  intros Hok Hk. destruct (Purge_orders c a policy Hok) as [Hok' Heq].
  unfold closedOrdersToPurge in *. unfold ClosedOrders.
  change (fun r => _ && _) with closed in *.
  set (R := lex_le Z.le String.le or_LastUpdatedTime or_OrderID) in *.
  set (l := List.filter closed (map_values (inner (c_orders c) a))) in *.
  destruct (all_but_last_split (merge_sort R l) _ Hk) as (kept & Hsplit & Hlen).
  set (gone := all_but_last _ _) in *. exists kept.
  assert (Hp : gone ++ kept ≡ₚ l) by (rewrite <- Hsplit; apply merge_sort_Permutation).
  assert (Hnd : NoDup (gone ++ kept)) by (rewrite Hp; by apply NoDup_filter, NoDup_orders).
  apply NoDup_app in Hnd as (Hndg & Hdisj & Hndk).
  assert (Hl : forall r, r ∈ l <-> closed r = true /\ or_AccountID r = a /\ cache_Order c a (or_OrderID r) = Some r)
    by (intros r; unfold l; rewrite In_filter, elem_of_orders by done; tauto).
  split; [|split; [|split]].
  - unfold sortOrders. by rewrite merge_sort_Permutation, Hp.
  - apply NoDup_Permutation; [by apply NoDup_listing|done|]. intros r. rewrite elem_of_listing by done.
    rewrite Heq. split.
    + intros (Hc & Ha & Hr). case_decide as Hd; [done|].
      assert (Hin : r ∈ gone ++ kept) by (rewrite Hp, Hl; done).
      apply elem_of_app in Hin as [Hin|]; [|done]. exfalso. apply Hd. split; [done|]. by apply list_elem_of_fmap_2.
    + intros Hin. assert (Hin' : r ∈ l) by (rewrite <- Hp; set_solver).
      apply Hl in Hin' as (Hc & Ha & Hr). split; [done|]. split; [done|].
      rewrite decide_False; [done|]. intros [_ (r' & Hid & Hg)%list_elem_of_fmap].
      assert (Hg' : r' ∈ l) by (rewrite <- Hp; set_solver). apply Hl in Hg' as (_ & _ & Hr').
      rewrite <- Hid in Hr'. assert (r' = r) as -> by congruence. by apply (Hdisj r).
  - unfold sortOrders. rewrite Hlen. by rewrite !merge_sort_Permutation.
  - intros r r' Hr Hr'. apply (sorted_app_le R gone kept); [|done|done]. rewrite <- Hsplit.
    apply Sorted_merge_sort; apply _.
Qed.

(** ** The properties *)

(** C28: the abstract contract of [PutOrder] on every reachable cache.  A valid order
    (after [normalizeOrder]) is stored and removes the account's other orders that hold its
    client id or its venue id, and nothing else changes; an invalid one is refused. *)
Theorem PutOrder_contract (ops : list CacheOp) order :
  let c := run_ops New ops in
  match PutOrder c order with
  | Ok c' => OrderStatusReport_Validate (normalizeOrder order) = Ok tt /\
             forall a o, cache_Order c' a o = put_spec (normalizeOrder order) (cache_Order c) a o
  | Fail e => OrderStatusReport_Validate (normalizeOrder order) = Fail e
  end.
Proof.
  intros c. destruct (PutOrder c order) as [c'|e] eqn:E.
  - split; [|by apply (PutOrder_refines c order c' (proj1 (reachable_ok ops)))].
    unfold PutOrder in E. by destruct (OrderStatusReport_Validate _) as [[]|].
  - unfold PutOrder in E. destruct (OrderStatusReport_Validate _) as [[]|]; [discriminate E|congruence].
Qed.

(** C15: after any sequence of cache operations the six ways of finding an order agree with
    the order map: by client id, by venue id, by strategy, position, list and execution
    spawn one finds exactly the stored orders that carry the (non-empty) id, and the
    [Residuals] report counts no dangling order mapping. *)
Theorem order_indexes_agree (ops : list CacheOp) :
  let c := run_ops New ops in
  let stored key a k r := k <> "" /\ key r = k /\ or_AccountID r = a /\ cache_Order c a (or_OrderID r) = Some r in
  forall a k r,
    (OrderByClientID c a k = Some r <-> stored or_ClientOrderID a k r) /\
    (OrderByVenueID c a k = Some r <-> stored or_VenueOrderID a k r) /\
    (r ∈ OrdersByStrategy c a k <-> stored (fun r => md_StrategyID (or_Metadata r)) a k r) /\
    (r ∈ OrdersByPositionID c a k <-> stored or_PositionID a k r) /\
    (r ∈ OrdersByOrderListID c a k <-> stored or_OrderListID a k r) /\
    (r ∈ OrdersByExecSpawnID c a k <-> stored (fun r => md_ExecSpawnID (or_Metadata r)) a k r) /\
    rs_InconsistentOrderMappings (cache_Residuals c a) = 0%nat.
Proof.
  intros c stored a k r. destruct (reachable_ok ops) as [Hok _]. fold c in Hok.
  pose proof Hok as [_ Hc Hv Hs Hp Hl He].
  split; [by apply (by_link c client)|]. split; [by apply (by_link c venue)|].
  split; [by apply (by_index c strategy)|]. split; [by apply by_index|]. split; [by apply by_index|].
  split; [by apply (by_index c spawn)|].
  simpl. by rewrite (no_dangling _ _ _ _ Hc), (no_dangling _ _ _ _ Hv).
Qed.

(** The listings of a reachable cache do not depend on the order in which Go ranges
    over the map: the sorted arrangement is unique.  Each stored order appears once, and is
    either open or closed. *)
Theorem order_listings (ops : list CacheOp) a :
  let c := run_ops New ops in
  (forall l, l ≡ₚ map_values (inner (c_orders c) a) -> Sorted (by_key or_OrderID) l -> l = cache_Orders c a) /\
  NoDup (cache_Orders c a) /\
  (forall r, r ∈ cache_Orders c a <-> or_AccountID r = a /\ cache_Order c a (or_OrderID r) = Some r) /\
  OpenOrders c a ++ ClosedOrders c a ≡ₚ cache_Orders c a.
Proof.
  intros c. destruct (reachable_ok ops) as [Hok Hval]. fold c in Hok, Hval.
  assert (Hall : List.filter (fun _ => true) (map_values (inner (c_orders c) a)) = map_values (inner (c_orders c) a))
    by (induction (map_values _) as [|x l IH]; [done|]; simpl; by rewrite IH).
  unfold cache_Orders. split; [|split; [|split]].
  - intros l Hp Hs. rewrite <- Hall. apply listing_unique; [done| |done]. by rewrite Hall.
  - rewrite <- Hall. by apply NoDup_listing.
  - intros r. unfold sortOrders. by rewrite elem_of_merge_sort, elem_of_orders.
  - unfold OpenOrders, ClosedOrders, sortOrders. rewrite !merge_sort_Permutation.
    apply open_or_closed. intros r Hr. rewrite elem_of_orders in Hr by done. destruct Hr as [_ Hr].
    apply Hval, valid_order_ids in Hr as (_ & _ & Hn).
    by rewrite bool_decide_false.
Qed.

(** [Purge] with a limit on closed orders leaves every open order and every other
    account alone, keeps that many closed orders (all, if there are fewer), and the ones it
    keeps were updated no earlier than the ones it removes; the report counts them. *)
Theorem Purge_keeps_newest (ops : list CacheOp) a policy :
  (0 <= pp_ClosedOrdersLimit policy)%Z ->
  let c := run_ops New ops in
  let '(c', result) := Purge c a policy in
  OpenOrders c' a = OpenOrders c a /\
  (forall a' o, a' <> a -> cache_Order c' a' o = cache_Order c a' o) /\
  Z.of_nat (List.length (ClosedOrders c' a)) =
    Z.min (pp_ClosedOrdersLimit policy) (Z.of_nat (List.length (ClosedOrders c a))) /\
  List.length (ClosedOrders c a) = (List.length (ClosedOrders c' a) + pg_ClosedOrders result)%nat /\
  (forall r r', r ∈ ClosedOrders c a -> r ∉ ClosedOrders c' a -> r' ∈ ClosedOrders c' a ->
     (or_LastUpdatedTime r <= or_LastUpdatedTime r')%Z).
Proof.
  intros Hk c. destruct (reachable_ok ops) as [Hok _]. fold c in Hok.
  destruct (Purge_orders c a policy Hok) as [Hok' Heq].
  destruct (Purge_closed c a policy Hok Hk) as (kept & Hp & Hp' & Hlen & Hle).
  destruct (purged_orders c a (pp_ClosedOrdersLimit policy) Hok) as [Hg _].
  assert (Hn : pg_ClosedOrders (Purge c a policy).2 =
               List.length (closedOrdersToPurge (inner (c_orders c) a) (pp_ClosedOrdersLimit policy)))
    by (unfold Purge; by destruct (purgeAccounts _ _ _)).
  destruct (Purge c a policy) as [c' result]. simpl in *.
  split; [|split; [|split; [|split]]].
  - apply listing_ext; [done|done|]. intros r Ho. rewrite Heq. case_decide as Hd; [|done].
    split; [done|]. intros Hr. exfalso. destruct Hd as [_ (r' & Hid & Hin)%list_elem_of_fmap].
    rewrite Forall_forall in Hg. destruct (Hg r' Hin) as (_ & Hr' & Hcl).
    rewrite <- Hid in Hr'. assert (r' = r) as -> by congruence.
    unfold closed in Hcl. rewrite Ho in Hcl. by rewrite andb_false_r in Hcl.
  - intros a' o Ha. rewrite Heq. rewrite decide_False; [done|naive_solver].
  - by rewrite Hp'.
  - rewrite Hp, Hp', Hn. rewrite length_app. lia.
  - intros r r' Hr Hn' Hr'. rewrite Hp in Hr. rewrite Hp' in Hn', Hr'.
    apply elem_of_app in Hr as [Hr|]; [|done]. by destruct (Hle r r' Hr Hr').
Qed.

(** A fill is stored once.  [PutFill] of a valid fill whose account, order and trade id
    are new stores it under the order, the trade and (if present) the venue order; any fill
    with the same ids is then, and stays, a no-op reported as not stored, so the first
    report wins. *)
Theorem PutFill_once c f c' stored :
  PutFill c f = Ok (c', stored) ->
  let known := get3 (c_fills c) (fr_AccountID f) (fr_OrderID f) (fr_TradeID f) in
  stored = (if known then false else true) /\
  (if stored then f ∈ FillsForOrder c' (fr_AccountID f) (fr_OrderID f) /\
                  FillByTradeID c' (fr_AccountID f) (fr_TradeID f) = Some f /\
                  (fr_VenueOrderID f <> "" ->
                   f ∈ FillsByVenueOrderID c' (fr_AccountID f) (fr_VenueOrderID f))
   else c' = c) /\
  (forall a o t, ~ (a = fr_AccountID f /\ o = fr_OrderID f /\ t = fr_TradeID f) ->
     get3 (c_fills c') a o t = get3 (c_fills c) a o t) /\
  (forall g, FillReport_Validate g = Ok tt -> fr_AccountID g = fr_AccountID f ->
     fr_OrderID g = fr_OrderID f -> fr_TradeID g = fr_TradeID f -> PutFill c' g = Ok (c', false)).
Proof.
  intros H known. apply PutFill_inv in H as [Hv H]. subst known.
  destruct (get3 (c_fills c) _ _ _) as [old|] eqn:E.
  { destruct H as [-> ->]. split; [done|]. split; [done|]. split; [done|].
    intros g Hg Ha Ho Ht. unfold PutFill. by rewrite Hg, Ha, Ho, Ht, E. }
  destruct H as (-> & Hf & Ht & Hvn). split; [done|]. split; [|split].
  - unfold FillsForOrder, FillByTradeID, FillsByVenueOrderID, sortFills. rewrite Hf, Ht, Hvn.
    split; [|split].
    + rewrite elem_of_merge_sort, elem_of_fills. exists (fr_TradeID f). rewrite get3_put3. by rewrite decide_True.
    + rewrite get2_put2. by rewrite decide_True.
    + intros Hne. rewrite (bool_decide_false _ Hne). simpl. rewrite elem_of_merge_sort, elem_of_fills.
      exists (fr_TradeID f). rewrite get3_put3. by rewrite decide_True.
  - intros a o t Hn. rewrite Hf, get3_put3. rewrite decide_False; [done|naive_solver].
  - intros g Hg Ha Ho Htr. unfold PutFill. rewrite Hg, Ha, Ho, Htr, Hf, get3_put3. by rewrite decide_True.
Qed.
End facts.
