(* ===== verification/Samples.v ===== *)
(** * Concrete values

    Small concrete inputs over the rational decimals [QDecimal], at which the theorems of the
    development are instantiated. *)
From stdpp Require Import base gmap list strings.
From Stdlib Require Import QArith.
From S2P Require Import Prelude Decimals Enums Identifiers Orders Market Accounts.

Open Scope go_scope.
Open Scope string_scope.

Definition btc : InstrumentID := mkInstrumentID "BTC-USDT" "SIM".

(** An open limit order to buy 10 at 100. *)
Definition q_order : OrderStatusReport :=
  OrderStatusReport_zero
    <| or_AccountID := "acc" |> <| or_InstrumentID := btc |> <| or_OrderID := "o1" |>
    <| or_ClientOrderID := "c1" |> <| or_VenueOrderID := "v1" |>
    <| or_Status := OrderStatusAccepted |> <| or_Side := OrderSideBuy |> <| or_Type := OrderTypeLimit |>
    <| or_Quantity := (10 # 1)%Q |> <| or_LeavesQuantity := (10 # 1)%Q |> <| or_Price := (100 # 1)%Q |>
    <| or_TimeInForce := TimeInForceGTC |>.

(** The same order, canceled. *)
Definition q_canceled : OrderStatusReport := q_order <| or_Status := OrderStatusCanceled |>.

(** A fill of 4 of it at 100. *)
Definition q_fill : FillReport :=
  mkFillReport "acc" btc "o1" "v1" "c1" "t1" "p1" false OrderSideBuy (100 # 1)%Q (4 # 1)%Q 0%Q "USDT" 5%Z.

Definition q_position : PositionStatusReport :=
  mkPositionStatusReport CommandMetadata_zero "acc" btc "p1" "" PositionSideLong (4 # 1)%Q (100 # 1)%Q 5%Z.

Definition q_submit : SubmitOrder :=
  mkSubmitOrder CommandMetadata_zero "acc" btc InstrumentID_zero "" "" "c1" OrderSideBuy OrderTypeLimit
    ContingencyTypeNone TimeInForceGTC (10 # 1)%Q (100 # 1)%Q 0%Q 0%Q 0%Q TrailingOffsetTypeNone TriggerTypeNone
    false false 0%Z.

Definition q_modify : ModifyOrder :=
  mkModifyOrder CommandMetadata_zero "acc" btc "o1" "v1" "c1" (12 # 1)%Q (101 # 1)%Q 0%Q 0%Q 0%Q
    TrailingOffsetTypeNone TimeInForceNone.

Definition q_instrument : Instrument :=
  mkInstrument btc "BTCUSDT" InstrumentTypeSpot "BTC" "USDT" "USDT" (1 # 100)%Q (1 # 10)%Q 0%Q 0%Q 0%Q 0%Q
    InstrumentStatusTrading.

Example q_values_valid :
  OrderStatusReport_Validate q_order = Ok tt /\ FillReport_Validate q_fill = Ok tt /\
  PositionStatusReport_Validate q_position = Ok tt /\ SubmitOrder_Validate q_submit = Ok tt /\
  is_ok (ApplyOrderModification q_order q_modify) = true /\ Instrument_Validate q_instrument = Ok tt.
Proof. vm_compute. repeat split. Qed.
