(* ===== verification/Reconciler.v ===== *)
(** * The account reconciler (account/reconciler.go)

    [Reconciler] keeps the cache in step with the venue: it applies execution events, closes
    open orders the venue no longer reports and proposes repairs for positions that differ.
    The cache pointer is shared with its other users; here it is threaded as state. *)
From stdpp Require Import base gmap list strings sorting.
From S2P Require Import Prelude Decimals Enums Identifiers Orders OrderState Market Accounts Cache.

Open Scope go_scope.

Section reconciler.
Context {DD : Decimal}.

(** [positionRepairKey] *)
Definition positionRepairKey : Type := AccountID * InstrumentID * PositionID.

Record Reconciler := mkReconciler {
  rc_cache : Cache;
  rc_positionRepairAttempts : gmap positionRepairKey Z;
}.

#[global] Instance set_rc_cache : Setter rc_cache :=
  fun f r => mkReconciler (f (rc_cache r)) (rc_positionRepairAttempts r).
#[global] Instance set_rc_positionRepairAttempts : Setter rc_positionRepairAttempts :=
  fun f r => mkReconciler (rc_cache r) (f (rc_positionRepairAttempts r)).

Record MissingOpenOrderRepairPolicy := mkMissingOpenOrderRepairPolicy {
  mp_MissingStatus : OrderStatus;
  mp_RecentActivityWindow : duration;
  mp_Now : time;
}.

Record PositionRepairPolicy := mkPositionRepairPolicy {
  rp_MaxAttempts : Z;
  rp_Now : time;
}.

Record PositionRepairDiscrepancy := mkPositionRepairDiscrepancy {
  pd_Kind : string;
  pd_AccountID : AccountID;
  pd_InstrumentID : InstrumentID;
  pd_PositionID : PositionID;
  pd_Attempts : Z;
}.

Record PositionRepairResult := mkPositionRepairResult {
  rr_Generated : list PositionStatusReport;
  rr_Unresolved : list PositionRepairDiscrepancy;
}.

(** [NewReconciler]; the nil cache of Go is a new one. *)
Definition NewReconciler (c : option Cache) : Reconciler := mkReconciler (default New c) ∅.

(** ** Fills *)

Definition averageFillPrice (previousAvg previousQty fillPrice fillQty : D) : D :=
  let nextQty := dadd previousQty fillQty in
  if IsZero nextQty then dzero
  else if IsZero previousAvg || IsZero previousQty then fillPrice
  else
    let previousNotional := dmul previousAvg previousQty in
    let fillNotional := dmul fillPrice fillQty in
    ddiv (dadd previousNotional fillNotional) nextQty.

Definition applyFillToOrder (order : OrderStatusReport) (fill : FillReport) : OrderStatusReport :=
  let previousFilled := or_FilledQuantity order in
  let nextFilled := dadd previousFilled (fr_Quantity fill) in
  let nextFilled := if IsPositive (or_Quantity order) && GreaterThan nextFilled (or_Quantity order)
                    then or_Quantity order else nextFilled in
  let order := order <| or_FilledQuantity := nextFilled |> in
  let order := order <| or_AveragePrice :=
    averageFillPrice (or_AveragePrice order) previousFilled (fr_Price fill) (fr_Quantity fill) |> in
  let order :=
    if IsPositive (or_Quantity order) then
      let order := order <| or_LeavesQuantity := dsub (or_Quantity order) nextFilled |> in
      let order := if IsNegative (or_LeavesQuantity order)
                   then order <| or_LeavesQuantity := dzero |> else order in
      if GreaterThanOrEqual nextFilled (or_Quantity order)
      then order <| or_Status := OrderStatusFilled |> <| or_LeavesQuantity := dzero |>
      else if IsPositive nextFilled then order <| or_Status := OrderStatusPartiallyFilled |>
      else order
    else if IsPositive nextFilled then order <| or_Status := OrderStatusPartiallyFilled |>
    else order in
  if After (fr_Timestamp fill) (or_LastUpdatedTime order)
  then order <| or_LastUpdatedTime := fr_Timestamp fill |> else order.

(** The loop of [replayFills]; the order is read again for each fill. *)
Fixpoint replay (c : Cache) (a : AccountID) (o : OrderID) (fills : list FillReport) : outcome Cache unit :=
  match fills with
  | [] => (c, Ok tt)
  | fill :: fills =>
      match cache_Order c a o with
      | None => (c, Ok tt)
      | Some order =>
          match PutOrder c (applyFillToOrder order fill) with
          | Fail e => (c, Fail e)
          | Ok c => replay c a o fills
          end
      end
  end.

Definition replayFills (c : Cache) (a : AccountID) (o : OrderID) : outcome Cache unit :=
  replay c a o (FillsForOrder c a o).

Definition applyOrder (c : Cache) (report : OrderStatusReport) : outcome Cache unit :=
  let checked :=
    match cache_Order c (or_AccountID report) (or_OrderID report) with
    | None => Ok report
    | Some existing =>
        match NextOrderStatus (or_Status existing) (or_Status report) with
        | None => Fail (mkErr ErrInvalidOrder "invalid order transition")
        | Some nextStatus =>
            let report := report <| or_Status := nextStatus |> in
            fail_if LessThan (or_FilledQuantity report) (or_FilledQuantity existing)
              with mkErr ErrInvalidOrder "filled quantity moved backwards" ;;
            Ok report
        end
    end in
  match checked with
  | Fail e => (c, Fail e)
  | Ok report =>
      match PutOrder c report with
      | Fail e => (c, Fail e)
      | Ok c => if IsZero (or_FilledQuantity report)
                then replayFills c (or_AccountID report) (or_OrderID report)
                else (c, Ok tt)
      end
  end.

Definition applyFill (c : Cache) (fill : FillReport) : outcome Cache unit :=
  match PutFill c fill with
  | Fail e => (c, Fail e)
  | Ok (c, false) => (c, Ok tt)
  | Ok (c, true) =>
      match cache_Order c (fr_AccountID fill) (fr_OrderID fill) with
      | None => (c, Ok tt)
      | Some order =>
          match PutOrder c (applyFillToOrder order fill) with
          | Fail e => (c, Fail e)
          | Ok c => (c, Ok tt)
          end
      end
  end.

(** [Reconciler.Apply], as its effect on the cache. *)
Definition Apply (c : Cache) (event : ExecutionEvent) : outcome Cache unit :=
  match ExecutionEvent_Validate event with
  | Fail e => (c, Fail e)
  | Ok _ =>
      match ee_Account event, ee_Order event, ee_Fill event, ee_Position event with
      | Some account, _, _, _ => (PutAccount c account, Ok tt)
      | None, Some order, _, _ => applyOrder c order
      | None, None, Some fill, _ => applyFill c fill
      | None, None, None, Some position =>
          match PutPosition c position with
          | Ok c => (c, Ok tt)
          | Fail e => (c, Fail e)
          end
      | None, None, None, None => (c, Ok tt)
      end
  end.

(** ** Orders missing from the venue's report *)

Record orderSnapshotIndex := mkOrderSnapshotIndex {
  si_orderIDs : gset OrderID;
  si_clientOrderIDs : gset ClientOrderID;
  si_venueOrderIDs : gset VenueOrderID;
}.

Definition add_id (id : string) (s : gset string) : gset string := if id ≠? "" then {[id]} ∪ s else s.

Definition index_order (a : AccountID) (i : InstrumentID) (idx : orderSnapshotIndex)
    (report : OrderStatusReport) : orderSnapshotIndex :=
  if (or_AccountID report ≠? a) || (or_InstrumentID report ≠? i) then idx
  else mkOrderSnapshotIndex
         (add_id (or_OrderID report) (si_orderIDs idx))
         (add_id (or_ClientOrderID report) (si_clientOrderIDs idx))
         (add_id (or_VenueOrderID report) (si_venueOrderIDs idx)).

Definition newOrderSnapshotIndex (reports : list OrderStatusReport) (a : AccountID) (i : InstrumentID)
    : orderSnapshotIndex :=
  foldl (index_order a i) (mkOrderSnapshotIndex ∅ ∅ ∅) reports.

Definition has_id (id : string) (s : gset string) : bool := (id ≠? "") && bool_decide (id ∈ s).

Definition orderSnapshot_contains (idx : orderSnapshotIndex) (order : OrderStatusReport) : bool :=
  has_id (or_OrderID order) (si_orderIDs idx) ||
  has_id (or_ClientOrderID order) (si_clientOrderIDs idx) ||
  has_id (or_VenueOrderID order) (si_venueOrderIDs idx).

Definition orderHasRecentActivity (order : OrderStatusReport) (now : time) (window : duration) : bool :=
  if (window <=? 0)%Z then false
  else
    let last := or_LastUpdatedTime order in
    let last := if After (md_TsInit (or_Metadata order)) last then md_TsInit (or_Metadata order) else last in
    if time_IsZero last then false
    else (time_Sub now last <? window)%Z.

(** The loop of [ReconcileMissingOpenOrdersWithPolicy] over the open orders. *)
Fixpoint closeMissing (c : Cache) (i : InstrumentID) (observed : orderSnapshotIndex) (now : time)
    (policy : MissingOpenOrderRepairPolicy) (orders generated : list OrderStatusReport)
    : Cache * list OrderStatusReport * res unit :=
  match orders with
  | [] => (c, generated, Ok tt)
  | order :: orders =>
      if (or_InstrumentID order ≠? i) || orderSnapshot_contains observed order then
        closeMissing c i observed now policy orders generated
      else if orderHasRecentActivity order now (mp_RecentActivityWindow policy) then
        closeMissing c i observed now policy orders generated
      else
        let order := order <| or_Status := mp_MissingStatus policy |> <| or_LastUpdatedTime := now |> in
        match applyOrder c order with
        | (c, Fail e) => (c, generated, Fail e)
        | (c, Ok _) => closeMissing c i observed now policy orders (generated ++ [order])
        end
  end.

(** [clock] is the value [time.Now] would return. *)
Definition ReconcileMissingOpenOrdersWithPolicy (clock : time) (c : Cache) (a : AccountID) (i : InstrumentID)
    (reports : list OrderStatusReport) (policy : MissingOpenOrderRepairPolicy)
    : Cache * list OrderStatusReport * res unit :=
  if a ≟ "" then (c, [], Fail (mkErr ErrInvalidOrder "account id is required"))
  else match InstrumentID_Validate i with
  | Fail e => (c, [], Fail e)
  | Ok _ =>
      if negb (OrderStatus_IsTerminal (mp_MissingStatus policy))
      then (c, [], Fail (mkErr ErrInvalidOrder "missing order status must be terminal"))
      else
        let now := if time_IsZero (mp_Now policy) then clock else mp_Now policy in
        closeMissing c i (newOrderSnapshotIndex reports a i) now policy (OpenOrders c a) []
  end.

Definition ReconcileMissingOpenOrders (clock : time) (c : Cache) (a : AccountID) (i : InstrumentID)
    (reports : list OrderStatusReport) (missingStatus : OrderStatus) :=
  ReconcileMissingOpenOrdersWithPolicy clock c a i reports (mkMissingOpenOrderRepairPolicy missingStatus 0%Z 0%Z).

(** ** Positions that differ from the venue's report *)

Record positionSnapshotIndex := mkPositionSnapshotIndex {
  sp_positionIDs : gmap PositionID PositionStatusReport;
  sp_venuePositionIDs : gmap VenuePositionID PositionStatusReport;
}.

Definition index_position (a : AccountID) (i : InstrumentID) (idx : positionSnapshotIndex)
    (report : PositionStatusReport) : positionSnapshotIndex :=
  if (pr_AccountID report ≠? a) || (pr_InstrumentID report ≠? i) then idx
  else mkPositionSnapshotIndex
         (if pr_PositionID report ≠? "" then <[pr_PositionID report := report]> (sp_positionIDs idx)
          else sp_positionIDs idx)
         (if pr_VenuePositionID report ≠? "" then <[pr_VenuePositionID report := report]> (sp_venuePositionIDs idx)
          else sp_venuePositionIDs idx).

Definition newPositionSnapshotIndex (reports : list PositionStatusReport) (a : AccountID) (i : InstrumentID)
    : positionSnapshotIndex :=
  foldl (index_position a i) (mkPositionSnapshotIndex ∅ ∅) reports.

Definition positionSnapshot_match (idx : positionSnapshotIndex) (position : PositionStatusReport)
    : option PositionStatusReport :=
  let by_id := if pr_PositionID position ≠? "" then sp_positionIDs idx !! pr_PositionID position else None in
  match by_id with
  | Some report => Some report
  | None => if pr_VenuePositionID position ≠? "" then sp_venuePositionIDs idx !! pr_VenuePositionID position
            else None
  end.

Definition positionsMatch (local venue : PositionStatusReport) : bool :=
  (pr_Side local ≟ pr_Side venue) && Equal (pr_Quantity local) (pr_Quantity venue).

Definition positionDiscrepancyKind (local venue : PositionStatusReport) : string :=
  if pr_Side local ≠? pr_Side venue then "position_side_mismatch"
  else if negb (Equal (pr_Quantity local) (pr_Quantity venue)) then "position_quantity_mismatch"
  else "position_report_mismatch".

Definition positionRepairKeyFor (p : PositionStatusReport) : positionRepairKey :=
  (pr_AccountID p, pr_InstrumentID p, pr_PositionID p).

Definition attemptsFor (attempts : gmap positionRepairKey Z) (key : positionRepairKey) : Z :=
  default 0%Z (attempts !! key).

Definition appendPositionRepair (attempts : gmap positionRepairKey Z) (local repair : PositionStatusReport)
    (kind : string) (maxAttempts : Z) (result : PositionRepairResult)
    : gmap positionRepairKey Z * PositionRepairResult :=
  let key := positionRepairKeyFor local in
  let n := attemptsFor attempts key in
  if (0 <? maxAttempts)%Z && (maxAttempts <=? n)%Z then
    (attempts, mkPositionRepairResult (rr_Generated result)
       (rr_Unresolved result ++
        [mkPositionRepairDiscrepancy kind (pr_AccountID local) (pr_InstrumentID local) (pr_PositionID local) n]))
  else
    (<[key := (n + 1)%Z]> attempts,
     mkPositionRepairResult (rr_Generated result ++ [repair]) (rr_Unresolved result)).

(** One round of the loop of [RepairPositionReports]. *)
Definition repairPosition (a : AccountID) (observed : positionSnapshotIndex) (now : time) (maxAttempts : Z)
    (acc : gmap positionRepairKey Z * PositionRepairResult) (position : PositionStatusReport)
    : gmap positionRepairKey Z * PositionRepairResult :=
  let '(attempts, result) := acc in
  if pr_AccountID position ≠? a then acc
  else match positionSnapshot_match observed position with
  | Some report =>
      if positionsMatch position report
      then (delete (positionRepairKeyFor position) attempts, result)
      else appendPositionRepair attempts position report (positionDiscrepancyKind position report)
             maxAttempts result
  | None =>
      if (pr_Side position ≟ PositionSideFlat) || IsZero (pr_Quantity position)
      then (delete (positionRepairKeyFor position) attempts, result)
      else
        let flat := position <| pr_Side := PositionSideFlat |> <| pr_Quantity := dzero |>
                             <| pr_Timestamp := now |> in
        appendPositionRepair attempts position flat "position_missing_from_venue" maxAttempts result
  end.

Definition RepairPositionReports (clock : time) (r : Reconciler) (a : AccountID) (i : InstrumentID)
    (reports : list PositionStatusReport) (policy : PositionRepairPolicy)
    : outcome Reconciler PositionRepairResult :=
  if a ≟ "" then (r, Fail (mkErr ErrInvalidOrder "account id is required"))
  else match InstrumentID_Validate i with
  | Fail e => (r, Fail e)
  | Ok _ =>
      let now := if time_IsZero (rp_Now policy) then clock else rp_Now policy in
      let '(attempts, result) :=
        foldl (repairPosition a (newPositionSnapshotIndex reports a i) now (rp_MaxAttempts policy))
          (rc_positionRepairAttempts r, mkPositionRepairResult [] [])
          (PositionsForInstrument (rc_cache r) i) in
      (r <| rc_positionRepairAttempts := attempts |>, Ok result)
  end.

Definition MissingPositionReports (clock : time) (r : Reconciler) (a : AccountID) (i : InstrumentID)
    (reports : list PositionStatusReport) : outcome Reconciler (list PositionStatusReport) :=
  let '(r, result) := RepairPositionReports clock r a i reports (mkPositionRepairPolicy 0%Z 0%Z) in
  (r, rr_Generated <$> result).
End reconciler.
