(* ===== verification/ReconcilerFacts.v ===== *)
(** * Correctness of the account reconciler

    What one fill does to an order, how order reports and fills meet in either order, and
    what the repair passes promise. *)
From stdpp Require Import base gmap list strings sorting relations.
From Stdlib Require Import QArith Qabs Qminmax Lqa.
From S2P Require Import Prelude Decimals Enums Identifiers Orders OrderState Market Accounts Cache CacheFacts Reconciler.

Open Scope go_scope.

Section facts.
Context {DD : Decimal} {DL : DecimalLaws DD}.
Implicit Types (c : Cache) (order report r u : OrderStatusReport) (f fill : FillReport)
  (a : AccountID) (o : OrderID).
Open Scope Q_scope.

(** ** One fill *)

(** The filled quantity a fill leads to: never beyond the order's quantity, when that is known. *)
Definition capped (quantity filled : Q) : Q := if Qlt_le_dec 0 quantity then Qmin quantity filled else filled.

Lemma capped_pos q x : 0 < q -> capped q x == Qmin q x.
Proof. intros. unfold capped. destruct (Qlt_le_dec 0 q); [done|lra]. Qed.

Lemma capped_other q x : q <= 0 -> capped q x == x.
Proof. intros. unfold capped. destruct (Qlt_le_dec 0 q); [lra|done]. Qed.

(** A fill's only effect is on the quantities, the average price, the status and the time. *)
Definition strip_fill r : OrderStatusReport :=
  r <| or_FilledQuantity := dzero |> <| or_LeavesQuantity := dzero |> <| or_AveragePrice := dzero |>
    <| or_Status := OrderStatusNone |> <| or_LastUpdatedTime := 0%Z |>.

Definition fill_quantity order fill : D :=
  if IsPositive (or_Quantity order) && GreaterThan (dadd (or_FilledQuantity order) (fr_Quantity fill)) (or_Quantity order)
  then or_Quantity order else dadd (or_FilledQuantity order) (fr_Quantity fill).

Lemma applyFillToOrder_strip order fill : strip_fill (applyFillToOrder order fill) = strip_fill order.
Proof.
  unfold applyFillToOrder, strip_fill. 
  repeat case_match; reflexivity.
Qed.

Lemma applyFillToOrder_filled order fill :
  or_FilledQuantity (applyFillToOrder order fill) = fill_quantity order fill.
Proof. unfold applyFillToOrder, fill_quantity. by repeat case_match. Qed.

Lemma fill_quantity_val order fill :
  dval (fill_quantity order fill) == capped (dval (or_Quantity order)) (dval (or_FilledQuantity order) + dval (fr_Quantity fill)).
Proof.
  unfold fill_quantity, capped. destruct (IsPositive (or_Quantity order)) eqn:Hp; simpl.
  - destruct (Qlt_le_dec _ _) as [_|Hn]; [|dec]. destruct (GreaterThan _ _) eqn:Hg.
    + dec_hyps. dec_rew. rewrite Q.min_l; [reflexivity|]. lra.
    + dec_hyps. dec_rew. rewrite Q.min_r; [reflexivity|]. lra.
  - destruct (Qlt_le_dec _ _) as [Hn|_]; [dec|]. dec.
Qed.

(** The fields a fill keeps. *)
Lemma strip_fill_keeps r u :
  strip_fill u = strip_fill r ->
  or_AccountID u = or_AccountID r /\ or_OrderID u = or_OrderID r /\ or_ClientOrderID u = or_ClientOrderID r /\
  or_VenueOrderID u = or_VenueOrderID r /\ or_InstrumentID u = or_InstrumentID r /\ or_Quantity u = or_Quantity r /\
  OrderStatusReport_TriggerInstrument u = OrderStatusReport_TriggerInstrument r /\
  or_Contingency u = or_Contingency r /\ or_TrailingOffsetType u = or_TrailingOffsetType r /\
  or_Metadata u = or_Metadata r.
Proof.
  unfold OrderStatusReport_TriggerInstrument, strip_fill, set. destruct r, u. simpl. intros [=]. by subst.
Qed.

(** The status a fill leads to. *)
Definition fill_status order fill : OrderStatus :=
  if IsPositive (or_Quantity order) && GreaterThanOrEqual (fill_quantity order fill) (or_Quantity order)
  then OrderStatusFilled else OrderStatusPartiallyFilled.

Lemma fill_positive order fill :
  0 <= dval (or_FilledQuantity order) -> 0 < dval (fr_Quantity fill) -> 0 < dval (fill_quantity order fill).
Proof.
  intros Hf Hq. rewrite fill_quantity_val. unfold capped.
  destruct (Qlt_le_dec _ _); [|lra]. apply Q.min_glb_lt; lra.
Qed.

Lemma applyFillToOrder_status order fill :
  0 <= dval (or_FilledQuantity order) -> 0 < dval (fr_Quantity fill) ->
  or_Status (applyFillToOrder order fill) = fill_status order fill.
Proof.
  intros Hf Hq. pose proof (fill_positive order fill Hf Hq) as Hpos. apply IsPositive_spec in Hpos.
  unfold applyFillToOrder, fill_status, fill_quantity in *. cbv zeta.
  destruct (IsPositive (or_Quantity order)) eqn:Hp; simpl in *; rewrite ?Hp; simpl; [|by rewrite Hpos; case_match].
  rewrite Hpos. destruct (GreaterThan _ _); repeat case_match; simpl in *; congruence.
Qed.

Lemma applyFillToOrder_leaves order fill :
  0 < dval (or_Quantity order) ->
  dval (or_LeavesQuantity (applyFillToOrder order fill)) == dval (or_Quantity order) - dval (fill_quantity order fill).
Proof.
  intros Hq. assert (Hle : dval (fill_quantity order fill) <= dval (or_Quantity order)).
  { rewrite fill_quantity_val, capped_pos by done. apply Q.le_min_l. }
  apply IsPositive_spec in Hq as Hp. unfold applyFillToOrder. change (if _ && _ then _ else _) with (fill_quantity order fill).
  cbv zeta. simpl. rewrite Hp. simpl.
  destruct (IsNegative _) eqn:Hn; [dec|]. simpl.
  destruct (GreaterThanOrEqual _ _) eqn:Hg; [case_match; simpl; dec|].
  repeat case_match; simpl; dec.
Qed.

Lemma applyFillToOrder_no_leaves order fill :
  dval (or_Quantity order) <= 0 ->
  or_LeavesQuantity (applyFillToOrder order fill) = or_LeavesQuantity order.
Proof.
  intros Hq. apply IsPositive_false in Hq. unfold applyFillToOrder. cbv zeta. simpl. rewrite Hq. simpl.
  by repeat case_match.
Qed.

Lemma applyFillToOrder_average order fill :
  or_AveragePrice (applyFillToOrder order fill) =
  averageFillPrice (or_AveragePrice order) (or_FilledQuantity order) (fr_Price fill) (fr_Quantity fill).
Proof. unfold applyFillToOrder. by repeat case_match. Qed.

Lemma averageFillPrice_first avg filled price qty :
  0 <= dval filled -> 0 < dval qty -> dval avg == 0 \/ dval filled == 0 ->
  averageFillPrice avg filled price qty = price.
Proof.
  intros Hf Hq Hz. unfold averageFillPrice. destruct (IsZero (dadd filled qty)) eqn:E; [dec|].
  destruct (IsZero avg) eqn:Ea; [done|]. destruct (IsZero filled) eqn:Ef; [done|]. dec.
Qed.

Lemma averageFillPrice_weighted avg filled price qty :
  0 <= dval filled -> 0 < dval qty -> ~ dval avg == 0 -> ~ dval filled == 0 ->
  Qabs (dval (averageFillPrice avg filled price qty) -
        (dval avg * dval filled + dval price * dval qty) / (dval filled + dval qty)) <= 1 # (2 * ulp16).
Proof.
  intros Hf Hq Ha Hnf. unfold averageFillPrice.
  destruct (IsZero (dadd filled qty)) eqn:E; [dec|].
  destruct (IsZero avg) eqn:Ea; [dec|]. destruct (IsZero filled) eqn:Ef; [dec|]. cbn [orb].
  apply IsZero_false in E. pose proof (dval_div (dadd (dmul avg filled) (dmul price qty)) _ E) as Hd.
  rewrite Hd, !dval_add, !dval_mul. apply round16_error.
Qed.

(** ** Validity *)

Lemma applyFillToOrder_valid order fill :
  valid_report order -> valid_fill fill -> valid_report (applyFillToOrder order fill).
Proof.
  intros V F. pose proof (strip_fill_keeps _ _ (applyFillToOrder_strip order fill))
    as (Ha & Ho & _ & _ & Hi & Hq & Ht & Hc & Htr & _).
  pose proof (fill_positive order fill (vr_filled _ V) (vf_quantity _ F)) as Hpos.
  assert (Hst := applyFillToOrder_status order fill (vr_filled _ V) (vf_quantity _ F)).
  constructor; rewrite ?Ha, ?Ho, ?Hi, ?Hq, ?Ht, ?Hc, ?Htr, ?applyFillToOrder_filled; try apply V.
  - rewrite Hst. unfold fill_status. by case_match.
  - lra.
  - destruct (Qlt_le_dec 0 (dval (or_Quantity order))) as [Hp|Hp].
    + rewrite applyFillToOrder_leaves by done. rewrite fill_quantity_val, capped_pos by done.
      pose proof (Q.le_min_l (dval (or_Quantity order)) (dval (or_FilledQuantity order) + dval (fr_Quantity fill))). lra.
    + rewrite applyFillToOrder_no_leaves by done. apply V.
  - intros Hp. rewrite fill_quantity_val, capped_pos by done. apply Q.le_min_l.
Qed.

(** [normalizeOrder] changes quantities only. *)
Definition strip_normal r : OrderStatusReport := r <| or_FilledQuantity := dzero |> <| or_LeavesQuantity := dzero |>.

Lemma normalizeOrder_strip r : strip_normal (normalizeOrder r) = strip_normal r.
Proof. unfold normalizeOrder, strip_normal. by repeat case_match. Qed.

Lemma strip_normal_keeps r u :
  strip_normal u = strip_normal r ->
  strip_fill u = strip_fill r /\ or_Status u = or_Status r /\ or_AveragePrice u = or_AveragePrice r /\
  or_LastUpdatedTime u = or_LastUpdatedTime r.
Proof. unfold strip_normal, strip_fill, set. destruct r, u. simpl. intros [=]. by subst. Qed.

Definition normal_filled r : D :=
  if (or_Status r ≟ OrderStatusFilled) && IsPositive (or_Quantity r) && IsZero (or_FilledQuantity r)
  then or_Quantity r else or_FilledQuantity r.

Lemma normalizeOrder_filled r : or_FilledQuantity (normalizeOrder r) = normal_filled r.
Proof.
  unfold normalizeOrder, normal_filled.
  destruct (IsPositive (or_Quantity r) && IsZero (or_LeavesQuantity r) && OrderStatus_IsOpen (or_Status r));
    cbn [or_Status or_Quantity or_FilledQuantity set set_or_LeavesQuantity];
    by repeat case_match.
Qed.

Lemma normalizeOrder_leaves r :
  valid_report r -> 0 <= dval (or_LeavesQuantity (normalizeOrder r)).
Proof.
  intros V. unfold normalizeOrder.
  destruct (IsPositive (or_Quantity r) && IsZero (or_LeavesQuantity r) && OrderStatus_IsOpen (or_Status r)) eqn:E.
  - apply andb_true_iff in E as [[Hp _]%andb_true_iff _]. apply IsPositive_spec in Hp.
    pose proof (vr_bound _ V Hp). repeat case_match; simpl; dec.
  - repeat case_match; simpl; try apply V; dec.
Qed.

Lemma normalizeOrder_valid r : valid_report r -> valid_report (normalizeOrder r).
Proof.
  intros V. pose proof (strip_normal_keeps _ _ (normalizeOrder_strip r)) as (Hs & Hst & _).
  pose proof (strip_fill_keeps _ _ Hs) as (Ha & Ho & _ & _ & Hi & Hq & Ht & Hc & Htr & _).
  constructor; rewrite ?Ha, ?Ho, ?Hi, ?Hq, ?Ht, ?Hc, ?Htr, ?Hst, ?normalizeOrder_filled; try apply V;
    try (by apply normalizeOrder_leaves);
    unfold normal_filled; case_match; try apply V; try lra.
Qed.

Lemma PutOrder_valid c r : valid_report r -> exists c', PutOrder c r = Ok c'.
Proof.
  intros V. unfold PutOrder.
  rewrite (proj2 (OrderStatusReport_Validate_ok _) (normalizeOrder_valid r V)). eauto.
Qed.

(** ** Writing back a stored order *)

Lemma put_stored c a o r u c' :
  orders_ok c -> cache_Order c a o = Some r -> strip_fill u = strip_fill r -> PutOrder c u = Ok c' ->
  orders_ok c' /\ forall a' o', cache_Order c' a' o' =
    if decide (a = a' /\ o = o') then Some (normalizeOrder u) else cache_Order c a' o'.
Proof.
  intros Hok Hr Hs Hput. destruct (PutOrder_refines c u c' Hok Hput) as [Hok' Heq]. split; [done|].
  destruct (ix_keys _ _ Hok a o r Hr) as (Ha & Ho & _).
  pose proof (strip_normal_keeps _ _ (normalizeOrder_strip u)) as (Hn & _). rewrite Hs in Hn.
  apply strip_fill_keeps in Hn as (Hua & Huo & Huc & Huv & _).
  intros a' o'. rewrite Heq. unfold put_spec. rewrite Hua, Huo, Ha, Ho. case_decide as Hd; [done|].
  destruct (cache_Order c a' o') as [r'|] eqn:Hr'; [|done]. case_decide as Hdis; [|done].
  exfalso. destruct Hdis as [Ha' Hkey]. rewrite Hua, Ha in Ha'. subst a'. apply Hd. split; [done|].
  unfold client, venue in Hkey. rewrite Huc, Huv in Hkey.
  assert (Huniq : forall key links, links_ok (cache_Order c) key links -> key r <> "" -> key r' = key r -> o = o').
  { intros key links Hl Hne Hk.
    assert (get2 links (or_AccountID r) (key r) = Some o) by (apply Hl; split; [done|]; exists r; by rewrite Ha).
    assert (get2 links (or_AccountID r) (key r) = Some o') by (apply Hl; split; [done|]; exists r'; by rewrite Ha).
    congruence. }
  destruct Hkey as [[Hne Hk]|[Hne Hk]];
    [by apply (Huniq client _ (ix_clients _ _ Hok)) | by apply (Huniq venue _ (ix_venues _ _ Hok))].
Qed.

(** What a stored order becomes when one fill is applied and the result stored. *)
Definition filled_once r f : OrderStatusReport := normalizeOrder (applyFillToOrder r f).

Lemma filled_once_strip r f : strip_fill (filled_once r f) = strip_fill r.
Proof.
  unfold filled_once. destruct (strip_normal_keeps _ _ (normalizeOrder_strip (applyFillToOrder r f))) as [-> _].
  apply applyFillToOrder_strip.
Qed.

Lemma filled_once_valid r f : valid_report r -> valid_fill f -> valid_report (filled_once r f).
Proof. intros. by apply normalizeOrder_valid, applyFillToOrder_valid. Qed.

Lemma filled_once_filled r f : valid_report r -> valid_fill f ->
  or_FilledQuantity (filled_once r f) = fill_quantity r f.
Proof.
  intros V F. unfold filled_once. rewrite normalizeOrder_filled. unfold normal_filled.
  rewrite applyFillToOrder_filled.
  pose proof (fill_positive r f (vr_filled _ V) (vf_quantity _ F)).
  destruct (IsZero (fill_quantity r f)) eqn:E; [dec|]. by rewrite andb_false_r.
Qed.

Definition total (fs : list FillReport) : Q := foldr (fun f q => dval (fr_Quantity f) + q) 0 fs.

Lemma total_nonneg fs : Forall valid_fill fs -> 0 <= total fs.
Proof.
  induction 1 as [|f fs F _ IH]; simpl; [lra|]. pose proof (vf_quantity _ F). lra.
Qed.

#[local] Instance capped_proper : Proper (Qeq ==> Qeq ==> Qeq) capped.
Proof.
  intros q q' Hq x x' Hx. unfold capped.
  destruct (Qlt_le_dec 0 q), (Qlt_le_dec 0 q'); try (by rewrite Hq, Hx); try lra; done.
Qed.

Lemma capped_twice q x y : 0 <= y -> capped q (capped q x + y) == capped q (x + y).
Proof.
  intros Hy. unfold capped. destruct (Qlt_le_dec 0 q); [|reflexivity].
  destruct (Q.min_spec q x) as [[? ->]|[? ->]]; [|reflexivity].
  rewrite !Q.min_l by lra. reflexivity.
Qed.

Lemma capped_valid r : valid_report r ->
  capped (dval (or_Quantity r)) (dval (or_FilledQuantity r)) == dval (or_FilledQuantity r).
Proof.
  intros V. unfold capped. destruct (Qlt_le_dec _ _) as [Hq|]; [|reflexivity].
  apply Q.min_r, (vr_bound _ V Hq).
Qed.

Lemma fills_filled fs : forall r, valid_report r -> Forall valid_fill fs ->
  dval (or_FilledQuantity (foldl filled_once r fs)) ==
  capped (dval (or_Quantity r)) (dval (or_FilledQuantity r) + total fs).
Proof.
  induction fs as [|f fs IH]; intros r V F; simpl.
  - rewrite Qplus_0_r. by rewrite capped_valid.
  - apply Forall_cons in F as [F Fs]. rewrite IH by (done || by apply filled_once_valid).
    pose proof (strip_fill_keeps _ _ (filled_once_strip r f)) as (_ & _ & _ & _ & _ & -> & _).
    rewrite filled_once_filled by done. rewrite fill_quantity_val.
    rewrite capped_twice by (by apply total_nonneg). by rewrite Qplus_assoc.
Qed.

(** ** Replaying fills *)

Lemma PutOrder_fills c r c' : PutOrder c r = Ok c' -> c_fills c' = c_fills c.
Proof. intros H. by destruct (PutOrder_same_rest _ _ _ H) as [[] _]. Qed.

Lemma replay_ok a o fs : forall c r,
  orders_ok c -> cache_Order c a o = Some r -> valid_report r -> Forall valid_fill fs ->
  exists c', replay c a o fs = (c', Ok tt) /\ orders_ok c' /\ c_fills c' = c_fills c /\
    forall a' o', cache_Order c' a' o' =
      if decide (a = a' /\ o = o') then Some (foldl filled_once r fs) else cache_Order c a' o'.
Proof.
  induction fs as [|f fs IH]; intros c r Hok Hr V F; simpl.
  - exists c. split; [done|]. split; [done|]. split; [done|]. intros. case_decide; [|done]. by destruct_and!; subst.
  - rewrite Hr. apply Forall_cons in F as [F Fs].
    destruct (PutOrder_valid c _ (applyFillToOrder_valid r f V F)) as [c1 Hput]. rewrite Hput.
    destruct (put_stored c a o r _ c1 Hok Hr (applyFillToOrder_strip r f) Hput) as [Hok1 Heq1].
    assert (Hr1 : cache_Order c1 a o = Some (filled_once r f)) by (rewrite Heq1; by rewrite decide_True).
    destruct (IH c1 _ Hok1 Hr1 (filled_once_valid r f V F) Fs) as (c' & Hrep & Hok' & Hf' & Heq').
    exists c'. split; [done|]. split; [done|]. split; [by rewrite Hf', (PutOrder_fills _ _ _ Hput)|].
    intros a' o'. rewrite Heq', Heq1. by case_decide.
Qed.

Lemma fills_valid c a o : fills_ok c -> Forall valid_fill (FillsForOrder c a o).
Proof.
  intros Hf. apply Forall_forall. intros f Hin. unfold FillsForOrder, sortFills in Hin.
  rewrite elem_of_merge_sort, elem_of_fills in Hin. destruct Hin as [t Ht].
  by apply FillReport_Validate_ok, (Hf a o t f Ht).
Qed.

(** ** Order reports *)

(** No fill of an order with zero filled quantity is in the cache: each one is counted. *)
Definition counted c : Prop := forall a o r, cache_Order c a o = Some r ->
  dval (or_FilledQuantity r) == 0 -> FillsForOrder c a o = [].

(** The invariant of the caches a reconciler maintains. *)
Definition rec_ok c : Prop := cache_ok c /\ fills_ok c /\ counted c.

Lemma FillsForOrder_eq c c' a o : c_fills c' = c_fills c -> FillsForOrder c' a o = FillsForOrder c a o.
Proof. intros H. unfold FillsForOrder. by rewrite H. Qed.

Lemma stored_valid c a o r : cache_ok c -> cache_Order c a o = Some r -> valid_report r.
Proof. intros [_ Hv] Hr. by apply OrderStatusReport_Validate_ok, (Hv a o r Hr). Qed.

Lemma PutOrder_stored c r c' :
  orders_ok c -> PutOrder c r = Ok c' ->
  cache_Order c' (or_AccountID r) (or_OrderID r) = Some (normalizeOrder r) /\ valid_report (normalizeOrder r).
Proof.
  intros Hok Hput. destruct (PutOrder_refines c r c' Hok Hput) as [_ Heq]. rewrite Heq.
  destruct (normalizeOrder_keys r) as (Ha & Ho & _). unfold put_spec. rewrite Ha, Ho, decide_True by done.
  split; [done|]. apply OrderStatusReport_Validate_ok. unfold PutOrder in Hput.
  by destruct (OrderStatusReport_Validate (normalizeOrder r)) as [[]|].
Qed.

(** What an accepted report leaves in the cache. *)
Definition after_report c r : OrderStatusReport :=
  if IsZero (or_FilledQuantity r)
  then foldl filled_once (normalizeOrder r) (FillsForOrder c (or_AccountID r) (or_OrderID r))
  else normalizeOrder r.

(** The part of [applyOrder] after its checks. *)
Definition store_report c r : outcome Cache unit :=
  match PutOrder c r with
  | Fail e => (c, Fail e)
  | Ok c => if IsZero (or_FilledQuantity r) then replayFills c (or_AccountID r) (or_OrderID r) else (c, Ok tt)
  end.

(** The orders after [PutOrder] and the replay of the order's fills. *)
Lemma store_report_ok c r c1 :
  cache_ok c -> fills_ok c -> PutOrder c r = Ok c1 ->
  exists c', store_report c r = (c', Ok tt) /\ orders_ok c' /\ c_fills c' = c_fills c /\
    (forall a o, cache_Order c' a o =
      if decide (or_AccountID r = a /\ or_OrderID r = o) then Some (after_report c r) else cache_Order c1 a o) /\
    valid_report (after_report c r).
Proof.
  intros [Hok Hv] Hf Hput. unfold store_report, after_report. rewrite Hput.
  destruct (PutOrder_refines c r c1 Hok Hput) as [Hok1 _].
  destruct (PutOrder_stored c r c1 Hok Hput) as [Hr1 V1].
  pose proof (PutOrder_fills _ _ _ Hput) as Hf1.
  destruct (IsZero (or_FilledQuantity r)).
  - unfold replayFills. rewrite (FillsForOrder_eq c c1) by done.
    assert (Hfs := fills_valid c (or_AccountID r) (or_OrderID r) Hf).
    destruct (replay_ok _ _ _ c1 _ Hok1 Hr1 V1 Hfs) as (c' & Hrep & Hok' & Hf' & Heq').
    exists c'. split; [done|]. split; [done|]. split; [congruence|]. split; [done|].
    clear -V1 Hfs DL. revert V1. generalize (normalizeOrder r).
    induction Hfs as [|f fs F _ IH]; intros u V; [done|]. by apply IH, filled_once_valid.
  - exists c1. split; [done|]. split; [done|]. split; [done|]. split; [|done].
    intros a o. case_decide; [|done]. destruct_and!; by subst.
Qed.

(** An order that counts no fill after a report has none in the cache. *)
Lemma after_report_counted c r :
  fills_ok c -> valid_report (normalizeOrder r) -> 0 <= dval (or_FilledQuantity r) ->
  dval (or_FilledQuantity (after_report c r)) == 0 ->
  FillsForOrder c (or_AccountID r) (or_OrderID r) = [].
Proof.
  intros Hf V H0. unfold after_report. destruct (IsZero (or_FilledQuantity r)) eqn:Hz.
  - rewrite fills_filled by (done || by apply fills_valid).
    assert (Hfs := fills_valid c (or_AccountID r) (or_OrderID r) Hf).
    destruct (FillsForOrder _ _ _) as [|f fs]; [done|]. apply Forall_cons in Hfs as [F Fs].
    simpl. pose proof (vf_quantity _ F). pose proof (total_nonneg fs Fs). pose proof (vr_filled _ V).
    unfold capped. destruct (Qlt_le_dec _ _); [|lra].
    destruct (Q.min_spec (dval (or_Quantity (normalizeOrder r)))
      (dval (or_FilledQuantity (normalizeOrder r)) + (dval (fr_Quantity f) + total fs))) as [[? ->]|[? ->]]; lra.
  - rewrite normalizeOrder_filled. unfold normal_filled. rewrite Hz, andb_false_r. dec.
Qed.

(** Writing an order keeps the reconciler's invariant. *)
Lemma store_report_rec c r c1 :
  rec_ok c -> 0 <= dval (or_FilledQuantity r) -> PutOrder c r = Ok c1 -> rec_ok (store_report c r).1.
Proof.
  intros (Hok & Hf & Hc) H0 Hput. destruct (store_report_ok c r c1 Hok Hf Hput) as (c' & Hst & Hok' & Hf' & Heq & V').
  rewrite Hst. simpl. destruct (PutOrder_refines c r c1 (proj1 Hok) Hput) as [_ Hput'].
  destruct (PutOrder_stored c r c1 (proj1 Hok) Hput) as [_ V1].
  assert (Hold : forall a o u, cache_Order c' a o = Some u ->
     (or_AccountID r = a /\ or_OrderID r = o /\ u = after_report c r) \/ cache_Order c a o = Some u).
  { intros a o u. rewrite Heq. case_decide as Hd; [intros [= <-]; left; naive_solver|].
    rewrite Hput'. unfold put_spec. destruct (normalizeOrder_keys r) as (-> & -> & _).
    rewrite decide_False by done. destruct (cache_Order c a o); [|done]. case_decide; [done|]. auto. }
  split; [|split].
  - split; [done|]. intros a o u Hu. destruct (Hold a o u Hu) as [(_ & _ & ->)|Hu'].
    + by apply OrderStatusReport_Validate_ok.
    + by eapply (proj2 Hok).
  - intros a o t f. rewrite Hf'. apply Hf.
  - intros a o u Hu Hz. rewrite (FillsForOrder_eq c c') by done.
    destruct (Hold a o u Hu) as [(<- & <- & ->)|Hu']; [by apply after_report_counted|by eapply Hc].
Qed.

Lemma PutOrder_filled_nonneg c r c' : PutOrder c r = Ok c' -> 0 <= dval (or_FilledQuantity r).
Proof.
  intros H. unfold PutOrder in H. destruct (OrderStatusReport_Validate (normalizeOrder r)) as [[]|] eqn:E; [|done].
  apply OrderStatusReport_Validate_ok in E. pose proof (vr_filled _ E) as Hf.
  rewrite normalizeOrder_filled in Hf. unfold normal_filled in Hf.
  destruct (_ && IsZero (or_FilledQuantity r)) eqn:Hz; [|done]. bools. dec.
Qed.

(** The checks of [applyOrder], against the order already stored. *)
Definition checked_report c report : res OrderStatusReport :=
  match cache_Order c (or_AccountID report) (or_OrderID report) with
  | None => Ok report
  | Some existing =>
      match NextOrderStatus (or_Status existing) (or_Status report) with
      | None => Fail (mkErr ErrInvalidOrder "invalid order transition")
      | Some nextStatus =>
          fail_if LessThan (or_FilledQuantity report) (or_FilledQuantity existing)
            with mkErr ErrInvalidOrder "filled quantity moved backwards" ;;
          Ok (report <| or_Status := nextStatus |>)
      end
  end.

Lemma applyOrder_steps c report :
  applyOrder c report = match checked_report c report with Fail e => (c, Fail e) | Ok r => store_report c r end.
Proof. reflexivity. Qed.

Lemma checked_same_keys c report r :
  checked_report c report = Ok r ->
  or_AccountID r = or_AccountID report /\ or_OrderID r = or_OrderID report /\
  or_FilledQuantity r = or_FilledQuantity report.
Proof. unfold checked_report. intros H. by repeat case_match; simplify_eq. Qed.

Lemma applyOrder_rec c report : rec_ok c -> rec_ok (applyOrder c report).1.
Proof.
  intros Hok. rewrite applyOrder_steps. destruct (checked_report c report) as [r|]; [|done].
  destruct (PutOrder c r) as [c1|] eqn:E.
  - eapply store_report_rec; [done| |done]. by eapply PutOrder_filled_nonneg.
  - unfold store_report. by rewrite E.
Qed.

Lemma same_rec c c' : same_orders c c' -> same_fills c c' -> rec_ok c -> rec_ok c'.
Proof.
  intros Ho Hf (Hok & Hfo & Hc). split; [by eapply cache_ok_same|]. split; [by eapply same_fills_ok|].
  intros a o r Hr. destruct Hf as [Hf _]. rewrite (FillsForOrder_eq c c') by done. apply Hc.
  unfold cache_Order in *. by destruct Ho as [<- _].
Qed.

Lemma PutFill_same_orders c f c' stored : PutFill c f = Ok (c', stored) -> same_orders c c'.
Proof.
  intros H. pose proof (run_op_same c (OpFill f)) as Hs. simpl in Hs. rewrite H in Hs. exact Hs.
Qed.

Lemma FillsForOrder_nil c a o : (forall t, get3 (c_fills c) a o t = None) <-> FillsForOrder c a o = [].
Proof.
  unfold FillsForOrder, sortFills. split.
  - intros H. destruct (merge_sort _ _) as [|f l] eqn:E; [done|].
    assert (Hin : f ∈ f :: l) by set_solver. rewrite <- E, elem_of_merge_sort, elem_of_fills in Hin.
    destruct Hin as [t Ht]. by rewrite H in Ht.
  - intros H t. destruct (get3 _ a o t) as [f|] eqn:E; [|done].
    assert (Hin : f ∈ map_values (default ∅ (get2 (c_fills c) a o))) by (apply elem_of_fills; eauto).
    rewrite <- (elem_of_merge_sort (lex_le Z.le String.le fr_Timestamp fr_TradeID)), H in Hin. set_solver.
Qed.

(** The cache after a stored fill, without its order's update. *)
Lemma PutFill_counts c f c1 a o :
  PutFill c f = Ok (c1, true) -> ~ (a = fr_AccountID f /\ o = fr_OrderID f) ->
  FillsForOrder c a o = [] -> FillsForOrder c1 a o = [].
Proof.
  intros H Hn. rewrite <- !FillsForOrder_nil. intros Hnil t. apply PutFill_inv in H as [_ H].
  destruct (get3 _ _ _ _); [by destruct H as [_ [=]]|]. destruct H as (_ & -> & _).
  rewrite get3_put3. rewrite decide_False; [apply Hnil|naive_solver].
Qed.

Lemma applyFill_ok c f : rec_ok c ->
  match PutFill c f with
  | Fail e => applyFill c f = (c, Fail e)
  | Ok (c1, false) => applyFill c f = (c, Ok tt)
  | Ok (c1, true) =>
      exists c', applyFill c f = (c', Ok tt) /\ rec_ok c' /\ c_fills c' = c_fills c1 /\
        forall a o, cache_Order c' a o =
          if decide (fr_AccountID f = a /\ fr_OrderID f = o)
          then (fun r => filled_once r f) <$> cache_Order c a o else cache_Order c a o
  end.
Proof.
  intros (Hok & Hf & Hc). unfold applyFill. destruct (PutFill c f) as [[c1 stored]|] eqn:E; [|done].
  pose proof (PutFill_same_orders _ _ _ _ E) as Hs.
  pose proof (PutFill_fills_ok _ _ _ _ E Hf) as Hf1.
  pose proof (cache_ok_same _ _ Hs Hok) as Hok1.
  assert (Hlk : forall a o, cache_Order c1 a o = cache_Order c a o)
    by (intros a o; unfold cache_Order; by destruct Hs as [-> _]).
  pose proof (PutFill_inv _ _ _ _ E) as [Hval Hinv]. apply FillReport_Validate_ok in Hval.
  destruct stored; cycle 1.
  { destruct (get3 _ _ _ _); [|by destruct Hinv]. by destruct Hinv as [-> _]. }
  clear Hinv. destruct (cache_Order c1 (fr_AccountID f) (fr_OrderID f)) as [r|] eqn:Hr.
  - assert (V := stored_valid _ _ _ _ Hok1 Hr).
    destruct (PutOrder_valid c1 _ (applyFillToOrder_valid r f V Hval)) as [c' Hput]. rewrite Hput.
    destruct (put_stored c1 _ _ r _ c' (proj1 Hok1) Hr (applyFillToOrder_strip r f) Hput) as [Hok' Heq].
    exists c'. split; [done|]. pose proof (PutOrder_fills _ _ _ Hput) as Hf'.
    assert (Hlk' : forall a o, cache_Order c' a o =
      if decide (fr_AccountID f = a /\ fr_OrderID f = o)
      then (fun r => filled_once r f) <$> cache_Order c a o else cache_Order c a o).
    { intros a o. rewrite Heq, Hlk. destruct (decide _) as [[<- <-]|]; [|reflexivity].
      rewrite <- Hlk, Hr. reflexivity. }
    split; [|done]. split; [|split].
    + split; [done|]. intros a o u. rewrite Heq. case_decide; [|apply (proj2 Hok1)].
      intros [= <-]. by apply OrderStatusReport_Validate_ok, filled_once_valid.
    + intros a o t g. rewrite Hf'. apply Hf1.
    + intros a o u. rewrite Heq. rewrite (FillsForOrder_eq c1 c') by done. case_decide as Hd.
      * intros [= <-] Hz. change (normalizeOrder _) with (filled_once r f) in Hz.
        rewrite filled_once_filled in Hz by done.
        pose proof (fill_positive r f (vr_filled _ V) (vf_quantity _ Hval)). lra.
      * rewrite Hlk. intros Hu Hz. eapply PutFill_counts; [done|naive_solver|by eapply Hc].
  - exists c1. split; [done|]. split; [|split; [done|]].
    + split; [done|]. split; [done|]. intros a o u Hu Hz. rewrite Hlk in Hu.
      eapply PutFill_counts; [done| |by eapply Hc]. intros [-> ->]. by rewrite Hlk, Hu in Hr.
    + intros a o. rewrite Hlk. case_decide as Hd; [|done]. destruct Hd as [<- <-]. by rewrite <- Hlk, Hr.
Qed.

(** ** Every sequence of events *)

Definition apply_events c (events : list ExecutionEvent) : Cache := foldl (fun c e => (Apply c e).1) c events.

Lemma Apply_rec c e : rec_ok c -> rec_ok (Apply c e).1.
Proof.
  intros Hok. unfold Apply. destruct (ExecutionEvent_Validate e); [|done].
  destruct (ee_Account e) as [x|]; [|destruct (ee_Order e) as [r|]; [|destruct (ee_Fill e) as [f|];
    [|destruct (ee_Position e) as [p|]; [|done]]]].
  - eapply same_rec; [| |done]; unfold PutAccount; simpl fst; cbv zeta; walk.
  - by apply applyOrder_rec.
  - pose proof (applyFill_ok c f Hok) as H. destruct (PutFill c f) as [[c1 []]|]; [|by rewrite H..].
    by destruct H as (c' & -> & ? & _).
  - destruct (PutPosition_same c p) as [Ho Hf]. destruct (PutPosition c p); [|done]. by eapply same_rec.
Qed.

Lemma New_rec : rec_ok New.
Proof.
  split; [apply New_ok|]. split; [apply (reachable_fills_ok [])|]. intros a o r. by rewrite New_order.
Qed.

Lemma apply_events_rec events c : rec_ok c -> rec_ok (apply_events c events).
Proof. revert c. induction events as [|e es IH]; intros c Hok; [done|]. by apply IH, Apply_rec. Qed.

(** ** Orders missing from the venue's report *)

(** An order changed only in its status and time passes the checks when its transition
    exists, and then only it changes. *)
Lemma applyOrder_stored c a o r status now :
  rec_ok c -> cache_Order c a o = Some r -> status <> OrderStatusNone ->
  let u := r <| or_Status := status |> <| or_LastUpdatedTime := now |> in
  match NextOrderStatus (or_Status r) status with
  | None => exists e, applyOrder c u = (c, Fail e)
  | Some s => exists c', applyOrder c u = (c', Ok tt) /\ rec_ok c' /\
      forall a' o', cache_Order c' a' o' =
        if decide (a = a' /\ o = o') then Some (normalizeOrder (u <| or_Status := s |>)) else cache_Order c a' o'
  end.
Proof.
  intros Hok Hr Hne u. destruct Hok as (Hok & Hf & Hc).
  destruct (ix_keys _ _ (proj1 Hok) a o r Hr) as (Ha & Ho & _).
  assert (Hrec := applyOrder_rec c u (conj Hok (conj Hf Hc))).
  rewrite applyOrder_steps in Hrec |- *. unfold checked_report in *.
  change (or_AccountID u) with (or_AccountID r) in *. change (or_OrderID u) with (or_OrderID r) in *.
  rewrite Ha, Ho, Hr in *. change (or_Status u) with status in *.
  destruct (NextOrderStatus (or_Status r) status) as [s|] eqn:Hn; [|eauto].
  change (or_FilledQuantity u) with (or_FilledQuantity r) in *.
  destruct (LessThan _ _) eqn:Hl; [dec|].
  set (w := u <| or_Status := s |>) in *.
  assert (V := stored_valid _ _ _ _ Hok Hr).
  assert (Vw : valid_report w) by (destruct V; constructor; try assumption; by apply (next_not_none _ _ _ Hn)).
  destruct (PutOrder_valid c w Vw) as [c1 Hput].
  destruct (put_stored c a o r w c1 (proj1 Hok) Hr eq_refl Hput) as [_ Heq].
  destruct (store_report_ok c w c1 Hok Hf Hput) as (c' & Hst & _ & _ & Hlk & _).
  rewrite Hst in *. exists c'. split; [done|]. split; [done|].
  assert (Hafter : after_report c w = normalizeOrder w).
  { unfold after_report. destruct (IsZero (or_FilledQuantity w)) eqn:Hz; [|done].
    change (or_AccountID w) with (or_AccountID r). change (or_OrderID w) with (or_OrderID r).
    rewrite Ha, Ho. rewrite (Hc a o r Hr); [done|]. change (or_FilledQuantity w) with (or_FilledQuantity r) in Hz. dec. }
  intros a' o'. rewrite Hlk, Hafter. change (or_AccountID w) with (or_AccountID r).
  change (or_OrderID w) with (or_OrderID r). rewrite Ha, Ho, Heq.
  by destruct (decide (a = a' /\ o = o')).
Qed.

Section missing.
Context (i : InstrumentID) (observed : orderSnapshotIndex) (now : time) (policy : MissingOpenOrderRepairPolicy).
Hypothesis terminal : OrderStatus_IsTerminal (mp_MissingStatus policy) = true.

(** An order the pass closes. *)
Definition missing r : bool :=
  (or_InstrumentID r ≟ i) && negb (orderSnapshot_contains observed r) &&
  negb (orderHasRecentActivity r now (mp_RecentActivityWindow policy)).

Definition closing r : OrderStatusReport :=
  r <| or_Status := mp_MissingStatus policy |> <| or_LastUpdatedTime := now |>.

Lemma closing_step c a o r :
  rec_ok c -> cache_Order c a o = Some r ->
  (exists e, applyOrder c (closing r) = (c, Fail e)) \/
  (exists c', applyOrder c (closing r) = (c', Ok tt) /\ rec_ok c' /\
    forall a' o', cache_Order c' a' o' =
      if decide (a = a' /\ o = o') then Some (normalizeOrder (closing r)) else cache_Order c a' o').
Proof.
  intros Hok Hr. assert (Hne : mp_MissingStatus policy <> OrderStatusNone) by (by intros E; rewrite E in terminal).
  pose proof (applyOrder_stored c a o r (mp_MissingStatus policy) now Hok Hr Hne) as H. simpl in H.
  destruct (NextOrderStatus _ _) as [s|] eqn:Hn; [right|by left].
  apply next_terminal in Hn; [|done]. by subst s.
Qed.

Lemma closeMissing_step c r orders gen :
  closeMissing c i observed now policy (r :: orders) gen =
  if missing r then
    match applyOrder c (closing r) with
    | (c, Fail e) => (c, gen, Fail e)
    | (c, Ok _) => closeMissing c i observed now policy orders (gen ++ [closing r])
    end
  else closeMissing c i observed now policy orders gen.
Proof.
  unfold missing. cbn [closeMissing]. fold (closing r).
  destruct (or_InstrumentID r ≟ i); [|done]. simpl. destruct (orderSnapshot_contains observed r); [done|]. simpl.
  by destruct (orderHasRecentActivity r now _).
Qed.

(** The pass closes a prefix of the missing orders, all of them unless it fails. *)
Lemma closeMissing_ok a orders : forall c gen,
  rec_ok c -> Forall (fun r => cache_Order c a (or_OrderID r) = Some r) orders -> NoDup (or_OrderID <$> orders) ->
  exists c' done rest out, closeMissing c i observed now policy orders gen = (c', gen ++ (closing <$> done), out) /\
    List.filter missing orders = done ++ rest /\ (out = Ok tt -> rest = []) /\ rec_ok c' /\
    (forall r, r ∈ done -> cache_Order c' a (or_OrderID r) = Some (normalizeOrder (closing r))) /\
    (forall a' o, ~ (a = a' /\ o ∈ or_OrderID <$> done) -> cache_Order c' a' o = cache_Order c a' o).
Proof.
  induction orders as [|r orders IH]; intros c gen Hok Hin Hnd.
  { exists c, [], [], (Ok tt). rewrite app_nil_r. split_and!; try done. by intros r ?%elem_of_nil. }
  apply Forall_cons in Hin as [Hr Hin]. simpl in Hnd. apply NoDup_cons in Hnd as [Hni Hnd].
  rewrite closeMissing_step. simpl. destruct (missing r) eqn:Hm; [|by apply IH].
  destruct (closing_step c a (or_OrderID r) r Hok Hr) as [[e He]|(c1 & H1 & Hok1 & Hlk1)].
  { rewrite He. exists c, [], (r :: List.filter missing orders), (Fail e). rewrite app_nil_r.
    split_and!; try done. by intros r' ?%elem_of_nil. }
  rewrite H1. destruct (IH c1 (gen ++ [closing r]) Hok1) as (c' & dn & rest & out & Hc & Hf & Ho & Hok' & Hd & Hs); [|done|].
  { apply Forall_forall. intros r' Hr'. rewrite Hlk1. rewrite Forall_forall in Hin. rewrite decide_False; [by apply Hin|].
    intros [_ Hid]. apply Hni. rewrite Hid. by apply list_elem_of_fmap_2. }
  exists c', (r :: dn), rest, out. rewrite Hc. simpl. rewrite <- app_assoc.
  split; [done|]. split; [by rewrite Hf|]. split; [done|]. split; [done|].
  assert (Hsub : or_OrderID r ∉ or_OrderID <$> dn).
  { intros (r' & Hid & Hr')%list_elem_of_fmap. apply Hni. rewrite Hid. apply list_elem_of_fmap_2.
    assert (H : r' ∈ List.filter missing orders) by (rewrite Hf; set_solver). by apply In_filter in H as [? _]. }
  split.
  - intros r' [->|Hr']%elem_of_cons; [|by apply Hd]. rewrite Hs by tauto. rewrite Hlk1. by rewrite decide_True.
  - intros a' o Hn. rewrite Hs by set_solver. rewrite Hlk1. rewrite decide_False; [done|set_solver].
Qed.
End missing.

(** ** Positions that differ from the venue's report *)

Definition position_key (p : PositionStatusReport) : AccountID * PositionID := (pr_AccountID p, pr_PositionID p).

Lemma NoDup_joined (l : list (AccountID * gmap PositionID PositionStatusReport)) :
  NoDup l.*1 ->
  (forall a m p x, (a, m) ∈ l -> m !! p = Some x -> position_key x = (a, p)) ->
  NoDup (position_key <$> mjoin (map_values <$> l.*2)).
Proof.
  induction l as [|[a m] l IH]; intros Hnd Hkey; simpl; [constructor|].
  simpl in Hnd. apply NoDup_cons in Hnd as [Hni Hnd]. rewrite fmap_app. apply NoDup_app. split; [|split].
  - unfold map_values. rewrite <- list_fmap_compose. apply NoDup_fmap_2_strong; [|apply NoDup_map_to_list].
    intros [p x] [q y] Hx Hy. simpl. apply elem_of_map_to_list in Hx, Hy.
    rewrite (Hkey a m p x), (Hkey a m q y) by (done || set_solver). intros [= ->]. f_equal. congruence.
  - intros k (x & -> & Hx)%list_elem_of_fmap Hin. apply elem_of_map_values in Hx as [p Hp].
    rewrite (Hkey a m p x) in Hin by (done || set_solver).
    apply list_elem_of_fmap in Hin as (y & Hy & Hin). apply list_elem_of_join in Hin as (ys & Hin & Hys).
    apply list_elem_of_fmap in Hys as (m' & -> & Hm'). apply list_elem_of_fmap in Hm' as ([a' m''] & -> & Hm').
    apply elem_of_map_values in Hin as [q Hq]. simpl in Hq.
    rewrite (Hkey a' m'' q y) in Hy by (done || set_solver). injection Hy as -> _. apply Hni.
    apply list_elem_of_fmap. by exists (a', m'').
  - apply IH; [done|]. intros a' m' p x Hin. apply Hkey. set_solver.
Qed.

Lemma NoDup_fmap_filter {A B} (k : A -> B) (f : A -> bool) (l : list A) :
  NoDup (k <$> l) -> NoDup (k <$> List.filter f l).
Proof.
  induction l as [|x l IH]; [done|]. simpl. intros [Hni Hnd]%NoDup_cons. specialize (IH Hnd).
  destruct (f x); [|done]. simpl. apply NoDup_cons. split; [|done].
  intros (y & Hy & Hin)%list_elem_of_fmap. apply Hni. rewrite Hy. apply list_elem_of_fmap_2.
  by apply In_filter in Hin as [? _].
Qed.

Lemma PositionsForInstrument_keys c i : positions_ok c -> NoDup (position_key <$> PositionsForInstrument c i).
Proof.
  intros Hok. unfold PositionsForInstrument. rewrite merge_sort_Permutation. apply NoDup_fmap_filter.
  unfold map_values at 2. apply NoDup_joined; [apply NoDup_fst_map_to_list|].
  intros a m p x Hin Hx. apply elem_of_map_to_list in Hin.
  assert (Hg : get2 (c_positions c) a p = Some x) by (unfold get2, inner; by rewrite Hin).
  apply Hok in Hg as (_ & <- & <-). done.
Qed.

Section repair.
Context (a : AccountID) (observed : positionSnapshotIndex) (now : time) (maxAttempts : Z).

(** The repair a position needs, if any: the venue's report of it, or a flat one. *)
Definition repair_for p : option (string * PositionStatusReport) :=
  match positionSnapshot_match observed p with
  | Some report => if positionsMatch p report then None else Some (positionDiscrepancyKind p report, report)
  | None =>
      if (pr_Side p ≟ PositionSideFlat) || IsZero (pr_Quantity p) then None
      else Some ("position_missing_from_venue"%string,
             p <| pr_Side := PositionSideFlat |> <| pr_Quantity := dzero |> <| pr_Timestamp := now |>)
  end.

Definition exhausted (attempts : gmap positionRepairKey Z) p : bool :=
  (0 <? maxAttempts)%Z && (maxAttempts <=? attemptsFor attempts (positionRepairKeyFor p))%Z.

(** What one call proposes, gives up on and counts, from the counters it starts with. *)
Definition proposed attempts p : option PositionStatusReport :=
  if (pr_AccountID p ≟ a) && negb (exhausted attempts p) then snd <$> repair_for p else None.
Definition given_up attempts p : option PositionRepairDiscrepancy :=
  if (pr_AccountID p ≟ a) && exhausted attempts p
  then (fun '(kind, _) => mkPositionRepairDiscrepancy kind (pr_AccountID p) (pr_InstrumentID p) (pr_PositionID p)
          (attemptsFor attempts (positionRepairKeyFor p))) <$> repair_for p
  else None.
Definition counted_attempts attempts p : Z :=
  let n := attemptsFor attempts (positionRepairKeyFor p) in
  match repair_for p with None => 0 | Some _ => if exhausted attempts p then n else n + 1 end%Z.

(** One round touches the counter of its own position only. *)
Lemma repairPosition_round attempts result p :
  pr_AccountID p = a ->
  exists attempts', repairPosition a observed now maxAttempts (attempts, result) p =
    (attempts', mkPositionRepairResult (rr_Generated result ++ option_list (proposed attempts p))
                  (rr_Unresolved result ++ option_list (given_up attempts p))) /\
    attemptsFor attempts' (positionRepairKeyFor p) = counted_attempts attempts p /\
    (forall k, k <> positionRepairKeyFor p -> attemptsFor attempts' k = attemptsFor attempts k).
Proof.
  intros Ha. unfold repairPosition, proposed, given_up, counted_attempts, repair_for, appendPositionRepair.
  rewrite (bool_decide_true _ Ha). simpl. fold (exhausted attempts p).
  assert (Hins : forall n, attemptsFor (<[positionRepairKeyFor p := n]> attempts) (positionRepairKeyFor p) = n /\
    forall k, k <> positionRepairKeyFor p -> attemptsFor (<[positionRepairKeyFor p := n]> attempts) k = attemptsFor attempts k).
  { intros n. unfold attemptsFor. rewrite lookup_insert_eq. split; [done|]. intros k Hk. by rewrite lookup_insert_ne. }
  assert (Hdel : attemptsFor (delete (positionRepairKeyFor p) attempts) (positionRepairKeyFor p) = 0%Z /\
    forall k, k <> positionRepairKeyFor p -> attemptsFor (delete (positionRepairKeyFor p) attempts) k = attemptsFor attempts k).
  { unfold attemptsFor. rewrite lookup_delete_eq. split; [done|]. intros k Hk. by rewrite lookup_delete_ne. }
  destruct result as [gen unres].
  destruct (positionSnapshot_match observed p) as [v|]; [destruct (positionsMatch p v)|destruct (_ || _)];
    destruct (exhausted attempts p) eqn:He; unfold exhausted in He; rewrite ?He; simpl; rewrite ?app_nil_r;
    eauto using Hdel, Hins.
Qed.

Lemma repairPosition_other acc p : pr_AccountID p <> a -> repairPosition a observed now maxAttempts acc p = acc.
Proof using. intros H. unfold repairPosition. destruct acc. by rewrite (bool_decide_false _ H). Qed.

Lemma attempts_local attempts attempts' p :
  attemptsFor attempts' (positionRepairKeyFor p) = attemptsFor attempts (positionRepairKeyFor p) ->
  proposed attempts' p = proposed attempts p /\ given_up attempts' p = given_up attempts p /\
  counted_attempts attempts' p = counted_attempts attempts p.
Proof using. intros H. unfold proposed, given_up, counted_attempts, exhausted. by rewrite H. Qed.

Lemma repairPositions_ok ps : forall attempts result,
  NoDup (position_key <$> ps) ->
  exists attempts', foldl (repairPosition a observed now maxAttempts) (attempts, result) ps =
    (attempts', mkPositionRepairResult (rr_Generated result ++ omap (proposed attempts) ps)
                  (rr_Unresolved result ++ omap (given_up attempts) ps)) /\
    (forall p, p ∈ ps -> pr_AccountID p = a -> attemptsFor attempts' (positionRepairKeyFor p) = counted_attempts attempts p) /\
    (forall k, (forall p, p ∈ ps -> pr_AccountID p = a -> k <> positionRepairKeyFor p) ->
       attemptsFor attempts' k = attemptsFor attempts k).
Proof.
  induction ps as [|p ps IH]; intros attempts result Hnd.
  { exists attempts. destruct result. simpl. rewrite !app_nil_r. split; [done|]. split; [set_solver|done]. }
  simpl in Hnd. apply NoDup_cons in Hnd as [Hni Hnd]. cbn [foldl].
  assert (Hother : forall q, q ∈ ps -> position_key q <> position_key p).
  { intros q Hq Hk. apply Hni. rewrite <- Hk. by apply list_elem_of_fmap_2. }
  destruct (decide (pr_AccountID p = a)) as [Ha|Ha].
  - destruct (repairPosition_round attempts result p Ha) as (at1 & -> & Hp & Hrest).
    destruct (IH at1 (mkPositionRepairResult (rr_Generated result ++ option_list (proposed attempts p))
                  (rr_Unresolved result ++ option_list (given_up attempts p))) Hnd) as (at' & -> & Hin & Hout).
    assert (Hsame : forall q, q ∈ ps -> attemptsFor at1 (positionRepairKeyFor q) = attemptsFor attempts (positionRepairKeyFor q)).
    { intros q Hq. apply Hrest. intros Hk. apply (Hother q Hq). unfold position_key. by injection Hk as -> _ ->. }
    exists at'. split; [|split].
    + f_equal. simpl. rewrite <- !app_assoc. f_equal; f_equal.
      * rewrite (list_omap_ext (proposed at1) (proposed attempts) ps ps).
        -- by destruct (proposed attempts p).
        -- apply Forall2_same_length_lookup_2; [done|]. intros j x y Hx Hy. simplify_eq.
           by apply attempts_local, Hsame, (list_elem_of_lookup_2 ps j).
      * rewrite (list_omap_ext (given_up at1) (given_up attempts) ps ps).
        -- by destruct (given_up attempts p).
        -- apply Forall2_same_length_lookup_2; [done|]. intros j x y Hx Hy. simplify_eq.
           by apply attempts_local, Hsame, (list_elem_of_lookup_2 ps j).
    + intros q [->|Hq]%elem_of_cons Hqa.
      * rewrite Hout; [done|]. intros q Hq _ Hk. apply (Hother q Hq). unfold position_key. by injection Hk as -> _ ->.
      * rewrite (Hin q Hq Hqa). by apply attempts_local, Hsame.
    + intros k Hk. rewrite Hout by (intros; apply Hk; set_solver). apply Hrest, Hk; set_solver.
  - rewrite repairPosition_other by done. destruct (IH attempts result Hnd) as (at' & -> & Hin & Hout).
    exists at'. assert (Hn1 : proposed attempts p = None) by (unfold proposed; by rewrite (bool_decide_false _ Ha)).
    assert (Hn2 : given_up attempts p = None) by (unfold given_up; by rewrite (bool_decide_false _ Ha)).
    simpl. rewrite Hn1, Hn2. split; [done|]. split.
    + intros q [->|Hq]%elem_of_cons Hqa; [done|by apply Hin].
    + intros k Hk. apply Hout. intros; apply Hk; set_solver.
Qed.
End repair.

(** ** The properties *)

(** The effect of one fill on an order.  For a valid order and a valid fill, the
    filled quantity grows by the fill, capped at the order's quantity when that is known;
    leaves are the rest; the status is filled exactly when nothing is left; the first fill
    sets the average price and a later one yields the quantity-weighted mean up to the
    rounding of one division; the result is valid and nothing else changes. *)
Theorem applyFillToOrder_effect order fill :
  valid_report order -> valid_fill fill ->
  let u := applyFillToOrder order fill in
  let filled := dval (or_FilledQuantity order) in
  let qty := dval (fr_Quantity fill) in
  valid_report u /\ strip_fill u = strip_fill order /\
  dval (or_FilledQuantity u) == capped (dval (or_Quantity order)) (filled + qty) /\
  (0 < dval (or_Quantity order) ->
     dval (or_LeavesQuantity u) == dval (or_Quantity order) - dval (or_FilledQuantity u)) /\
  (or_Status u = OrderStatusFilled <-> 0 < dval (or_Quantity order) <= dval (or_FilledQuantity u)) /\
  (or_Status u = OrderStatusFilled \/ or_Status u = OrderStatusPartiallyFilled) /\
  (dval (or_AveragePrice order) == 0 \/ filled == 0 -> or_AveragePrice u = fr_Price fill) /\
  (~ dval (or_AveragePrice order) == 0 -> ~ filled == 0 ->
     Qabs (dval (or_AveragePrice u) -
           (dval (or_AveragePrice order) * filled + dval (fr_Price fill) * qty) / (filled + qty)) <= 1 # (2 * ulp16)).
Proof.
  intros V F u filled qty. subst u filled qty.
  rewrite (applyFillToOrder_status order fill (vr_filled _ V) (vf_quantity _ F)), applyFillToOrder_filled,
    applyFillToOrder_average.
  split; [by apply applyFillToOrder_valid|]. split; [apply applyFillToOrder_strip|].
  split; [apply fill_quantity_val|]. split; [apply applyFillToOrder_leaves|].
  split; [|split; [unfold fill_status; case_match; tauto|split]].
  - unfold fill_status. split.
    + destruct (_ && _) eqn:E; [|done]. intros _. bools. dec_hyps. tauto.
    + intros [Hp Hq]. apply IsPositive_spec in Hp. apply GreaterThanOrEqual_spec in Hq. by rewrite Hp, Hq.
  - apply averageFillPrice_first; [apply V|apply F].
  - apply averageFillPrice_weighted; [apply V|apply F].
Qed.

(** Fills that arrive before their order are not lost.  When an order report with no
    filled quantity arrives for an unknown order (and is not itself reported as filled), the
    fills already stored for it are replayed: the stored order's filled quantity is the sum
    of those fills, capped at its quantity, in whatever order they came. *)
Theorem early_fills_replayed events report c' :
  let c := apply_events New events in
  let id := (or_AccountID report, or_OrderID report) in
  cache_Order c (or_AccountID report) (or_OrderID report) = None ->
  IsZero (or_FilledQuantity report) = true -> or_Status report <> OrderStatusFilled ->
  Apply c (order_event report) = (c', Ok tt) ->
  exists u, cache_Order c' (or_AccountID report) (or_OrderID report) = Some u /\
    strip_fill u = strip_fill report /\
    dval (or_FilledQuantity u) ==
      capped (dval (or_Quantity report)) (total (FillsForOrder c (or_AccountID report) (or_OrderID report))).
Proof.
  intros c id Hnone Hz Hst Happ. destruct (apply_events_rec events New New_rec) as (Hok & Hf & _). fold c in Hok, Hf.
  unfold Apply in Happ. destruct (ExecutionEvent_Validate _); [|done]. simpl in Happ.
  rewrite applyOrder_steps in Happ. unfold checked_report in Happ. rewrite Hnone in Happ.
  destruct (PutOrder c report) as [c1|] eqn:Hput; [|by unfold store_report in Happ; rewrite Hput in Happ].
  destruct (store_report_ok c report c1 Hok Hf Hput) as (c2 & Hs & _ & _ & Hlk & _).
  rewrite Hs in Happ. injection Happ as <-. exists (after_report c report).
  rewrite Hlk, decide_True by done. split; [done|]. unfold after_report. rewrite Hz.
  destruct (PutOrder_stored c report c1 (proj1 Hok) Hput) as [_ V].
  destruct (strip_normal_keeps _ _ (normalizeOrder_strip report)) as [Hn _].
  pose proof (strip_fill_keeps _ _ Hn) as (_ & _ & _ & _ & _ & Hq & _).
  split.
  - rewrite <- Hn. clear. generalize (normalizeOrder report). induction (FillsForOrder _ _ _) as [|f fs IH]; intros r; [done|].
    simpl. by rewrite IH, filled_once_strip.
  - rewrite fills_filled by (done || by apply fills_valid). rewrite Hq, normalizeOrder_filled.
    unfold normal_filled. rewrite (bool_decide_false _ Hst). simpl. apply IsZero_spec in Hz.
    unfold capped. destruct (Qlt_le_dec _ _); rewrite Hz, Qplus_0_l; reflexivity.
Qed.

(** An order report obeys the state machine.  Whatever events came before, a report
    about a stored order either fails and leaves the cache as it was, or moves the order
    along one transition of the table to the reported status and never moves its filled
    quantity backwards. *)
Theorem order_report_step events report r :
  let c := apply_events New events in
  cache_Order c (or_AccountID report) (or_OrderID report) = Some r ->
  let '(c', out) := Apply c (order_event report) in
  match out with
  | Fail _ => c' = c
  | Ok _ => exists u, cache_Order c' (or_AccountID report) (or_OrderID report) = Some u /\
      NextOrderStatus (or_Status r) (or_Status report) = Some (or_Status u) /\
      dval (or_FilledQuantity r) <= dval (or_FilledQuantity u)
  end.
Proof.
  intros c Hr. destruct (apply_events_rec events New New_rec) as (Hok & Hf & Hc). fold c in Hok, Hf, Hc.
  unfold Apply. destruct (ExecutionEvent_Validate _); [|done]. simpl. rewrite applyOrder_steps.
  unfold checked_report. rewrite Hr. destruct (NextOrderStatus _ _) as [s|] eqn:Hs; [|done].
  destruct (LessThan _ _) eqn:Hl; [done|]. set (w := report <| or_Status := s |>).
  destruct (PutOrder c w) as [c1|] eqn:Hput; [|unfold store_report; by rewrite Hput].
  destruct (store_report_ok c w c1 Hok Hf Hput) as (c' & -> & _ & _ & Hlk & _).
  exists (after_report c w). rewrite Hlk, decide_True by done. split; [done|].
  assert (V := stored_valid _ _ _ _ Hok Hr).
  assert (Ha : after_report c w = normalizeOrder w).
  { unfold after_report. destruct (IsZero (or_FilledQuantity w)) eqn:Hz; [|done].
    change (or_AccountID w) with (or_AccountID report). change (or_OrderID w) with (or_OrderID report).
    rewrite (Hc _ _ r Hr); [done|]. change (or_FilledQuantity w) with (or_FilledQuantity report) in Hz.
    pose proof (vr_filled _ V). dec. }
  destruct (strip_normal_keeps _ _ (normalizeOrder_strip w)) as (_ & Hst & _). rewrite Ha, Hst.
  split; [done|]. rewrite normalizeOrder_filled. unfold normal_filled.
  change (or_FilledQuantity w) with (or_FilledQuantity report). destruct (_ && IsZero _) eqn:Hz; [|dec].
  bools. dec_hyps. lra.
Qed.



(** Repairing positions.  For each position of the account and instrument one call
    decides from the venue's reports and the position's counter alone: a position that
    agrees (or is flat and unreported) has its counter reset; otherwise the call proposes
    the venue's report of it, or a flat one if it is missing, and counts an attempt, until
    [MaxAttempts] attempts are spent, when it is listed as unresolved instead.  The result
    lists are exactly those, in the order of the positions, the cache is not touched, and
    the counters of other positions are kept. *)
Theorem RepairPositionReports_plan clock rc a i reports policy rc' result :
  positions_ok (rc_cache rc) ->
  RepairPositionReports clock rc a i reports policy = (rc', Ok result) ->
  let observed := newPositionSnapshotIndex reports a i in
  let now := if time_IsZero (rp_Now policy) then clock else rp_Now policy in
  let positions := PositionsForInstrument (rc_cache rc) i in
  let before := rc_positionRepairAttempts rc in
  let after := rc_positionRepairAttempts rc' in
  rc_cache rc' = rc_cache rc /\
  rr_Generated result = omap (proposed a observed now (rp_MaxAttempts policy) before) positions /\
  rr_Unresolved result = omap (given_up a observed now (rp_MaxAttempts policy) before) positions /\
  (forall p, p ∈ positions -> pr_AccountID p = a ->
     attemptsFor after (positionRepairKeyFor p) = counted_attempts observed now (rp_MaxAttempts policy) before p) /\
  (forall k, (forall p, p ∈ positions -> pr_AccountID p = a -> k <> positionRepairKeyFor p) ->
     attemptsFor after k = attemptsFor before k).
Proof.
  intros Hok H observed now positions before after. unfold RepairPositionReports in H.
  destruct (a ≟ ""); [done|]. destruct (InstrumentID_Validate i); [|done]. cbv zeta in H. fold now observed in H.
  destruct (repairPositions_ok a observed now (rp_MaxAttempts policy) positions before (mkPositionRepairResult [] [])
    (PositionsForInstrument_keys _ i Hok)) as (at' & Hfold & Hin & Hout).
  fold positions before in H. rewrite Hfold in H. injection H as <- <-. done.
Qed.
End facts.
