(* ===== verification/Kernel.v ===== *)
(** * The kernel: component life cycle and test clock (package kernel)

    [Component.Start], [Stop] and [Kill] call a hook between two critical sections, so each is
    a first and a last atomic step with the hook's outcome in between; [Degrade] and [Fault]
    are one step.  The sequential methods compose the steps; the interleaving relation [kstep]
    lets other calls run while a hook does. *)
From stdpp Require Import base list strings sorting relations.
From S2P Require Import Prelude Enums.

Open Scope go_scope.

(** [kernel.Component]; the hooks are code outside the component. *)
Record Component := mkComponent {
  kc_id : string;
  kc_state : ComponentState;
  kc_lastErr : option error;
}.

#[global] Instance set_kc_state : Setter kc_state := fun f c => mkComponent (kc_id c) (f (kc_state c)) (kc_lastErr c).
#[global] Instance set_kc_lastErr : Setter kc_lastErr := fun f c => mkComponent (kc_id c) (kc_state c) (f (kc_lastErr c)).

Definition NewComponent (id : string) : Component := mkComponent id ComponentStateInitialized None.

(** [kernel.Health] *)
Record Health := mkHealth {
  kh_ID : string;
  kh_State : ComponentState;
  kh_LastError : string;
}.

Definition Component_Health (c : Component) : Health :=
  mkHealth (kc_id c) (kc_state c) (match kc_lastErr c with Some e => err_msg e | None => "" end).

Definition faulted : error := mkErr ErrComponentFaulted "component faulted".

Definition Fault (c : Component) (err : error) : Component :=
  c <| kc_lastErr := Some err |> <| kc_state := ComponentStateFaulted |>.

Definition Degrade (c : Component) (err : error) : Component :=
  let c := c <| kc_lastErr := Some err |> in
  if kc_state c ≠? ComponentStateFaulted then c <| kc_state := ComponentStateDegraded |> else c.

(** The first critical section of [Start] and of [Stop]. *)
Definition start_begin (c : Component) : res Component :=
  fail_if kc_state c ≟ ComponentStateFaulted with faulted ;;
  Ok (c <| kc_state := ComponentStateStarting |> <| kc_lastErr := None |>).
Definition stop_begin (c : Component) : res Component :=
  fail_if kc_state c ≟ ComponentStateFaulted with faulted ;;
  Ok (c <| kc_state := ComponentStateStopping |>).

(** The last one: the hook's error faults the component, success sets the final state. *)
Definition hook_end (c : Component) (final : ComponentState) (hook : res unit) : outcome Component unit :=
  match hook with
  | Fail err => (Fault c err, Fail err)
  | Ok _ => (c <| kc_state := final |>, Ok tt)
  end.

(** The methods when no other call runs during the hook; [hook] is the hook's result ([Ok] when
    there is none). *)
Definition Start (c : Component) (hook : res unit) : outcome Component unit :=
  match start_begin c with
  | Fail err => (c, Fail err)
  | Ok c => hook_end c ComponentStateRunning hook
  end.
Definition Stop (c : Component) (hook : res unit) : outcome Component unit :=
  match stop_begin c with
  | Fail err => (c, Fail err)
  | Ok c => hook_end c ComponentStateStopped hook
  end.
Definition Kill (c : Component) (hook : res unit) : outcome Component unit :=
  hook_end c ComponentStateStopped hook.

(** ** Interleaving *)

(** The component and the final states of the calls whose hooks are running. *)
Definition kstate : Type := Component * list ComponentState.

Inductive kstep : kstate -> kstate -> Prop :=
  | k_start c c' l : start_begin c = Ok c' -> kstep (c, l) (c', ComponentStateRunning :: l)
  | k_stop c c' l : stop_begin c = Ok c' -> kstep (c, l) (c', ComponentStateStopped :: l)
  | k_kill c l : kstep (c, l) (c, ComponentStateStopped :: l)
  | k_end c l1 final l2 hook : kstep (c, l1 ++ final :: l2) ((hook_end c final hook).1, l1 ++ l2)
  | k_degrade c l err : kstep (c, l) (Degrade c err, l)
  | k_fault c l err : kstep (c, l) (Fault c err, l).

(** ** The test clock (clock.go) *)

(** [kernel.TestClock]; a timer is its due time and the channel it will send on. *)
Record TestClock := mkTestClock {
  tc_now : time;
  tc_timers : list (time * nat);
  tc_channels : nat;
}.

Definition NewTestClock (start : time) : TestClock := mkTestClock start [] 0.

Definition by_due : relation (time * nat) := fun x y => (x.1 <= y.1)%Z.
#[global] Instance by_due_dec : RelDecision by_due.
Proof. intros x y. unfold by_due. apply _. Defined.

(** [TestClock.After]: the new clock and the channel. *)
Definition TestClock_After (c : TestClock) (d : duration) : TestClock * nat :=
  (mkTestClock (tc_now c)
     (merge_sort by_due (tc_timers c ++ [(time_Add (tc_now c) d, tc_channels c)])) (S (tc_channels c)),
   tc_channels c).

(** [TestClock.Advance]: the new clock and what is sent, in order. *)
Definition TestClock_Advance (c : TestClock) (d : duration) : TestClock * list (time * nat) :=
  let now := time_Add (tc_now c) d in
  let due := List.filter (fun t => negb (After t.1 now)) (tc_timers c) in
  let pending := List.filter (fun t => After t.1 now) (tc_timers c) in
  (mkTestClock now pending (tc_channels c), due).

(** ** Facts *)

Lemma k_end_state c final hook :
  kc_state (hook_end c final hook).1 = match hook with Ok _ => final | Fail _ => ComponentStateFaulted end.
Proof. by destruct hook. Qed.

(** The life cycle, one call at a time.  [Start] and [Stop] refuse a faulted component and
    leave it alone; otherwise they, and [Kill] always, end in their final state when the hook
    succeeds, and fault the component with the hook's error when it fails.  So only [Kill]
    takes a component out of [faulted]. *)
Theorem lifecycle_calls c hook :
  let final_of out final := match hook with
    | Ok _ => kc_state out.1 = final /\ out.2 = Ok tt
    | Fail err => kc_state out.1 = ComponentStateFaulted /\ kc_lastErr out.1 = Some err /\ out.2 = Fail err
    end in
  (kc_state c = ComponentStateFaulted ->
     Start c hook = (c, Fail faulted) /\ Stop c hook = (c, Fail faulted)) /\
  (kc_state c <> ComponentStateFaulted ->
     final_of (Start c hook) ComponentStateRunning /\ final_of (Stop c hook) ComponentStateStopped) /\
  final_of (Kill c hook) ComponentStateStopped /\
  (kc_state c = ComponentStateFaulted -> forall err, kc_state (Degrade c err) = ComponentStateFaulted).
Proof.
  intros final_of. unfold Start, Stop, Kill, start_begin, stop_begin, Degrade. split; [|split; [|split]].
  - intros ->. done.
  - intros Hn. rewrite !(bool_decide_false _ Hn). by destruct hook.
  - by destruct hook.
  - intros H err. fields. by rewrite H.
Qed.

(** Whatever calls interleave, a component that is faulted or degraded reports an error. *)
Theorem failure_has_error id c l :
  rtc kstep (NewComponent id, []) (c, l) ->
  kc_state c = ComponentStateFaulted \/ kc_state c = ComponentStateDegraded -> is_Some (kc_lastErr c).
Proof.
  intros H. assert (Hinv : forall s, rtc kstep (NewComponent id, []) s ->
    (Forall (fun f => f = ComponentStateRunning \/ f = ComponentStateStopped) s.2) /\
    (kc_state s.1 = ComponentStateFaulted \/ kc_state s.1 = ComponentStateDegraded -> is_Some (kc_lastErr s.1))).
  { clear. apply rtc_ind_r; [split; [constructor|by intros [|]]|].
    intros s s' Hs Hstep IH. destruct IH as [Hl IH]. destruct Hstep as [c c' l E|c c' l E|c l|c l1 final l2 hook|c l err|c l err]; simpl in *.
    - unfold start_begin in E. peel E. apply Ok_inj in E as <-. split; [by constructor; [left|]|]. by intros [|].
    - unfold stop_begin in E. peel E. apply Ok_inj in E as <-. split; [by constructor; [right|]|]. by intros [|].
    - split; [by constructor; [right|]|done].
    - apply Forall_app in Hl as [Hl1 [Hf Hl2]%Forall_cons]. split; [by apply Forall_app|].
      destruct hook; simpl; [|eauto]. intros [E|E]; destruct Hf; congruence.
    - split; [done|]. intros _. unfold Degrade. by case_match; simpl.
    - split; [done|]. eauto. }
  apply (Hinv (c, l) H).
Qed.


#[global] Instance by_due_trans : Transitive by_due.
Proof. intros x y z. unfold by_due. lia. Qed.
#[global] Instance by_due_total : Total by_due.
Proof. intros x y. unfold by_due. lia. Qed.

Lemma filter_partition {A} (f : A -> bool) (l : list A) :
  List.filter (fun x => negb (f x)) l ++ List.filter f l ≡ₚ l.
Proof.
  induction l as [|x l IH]; [done|]. simpl. destruct (f x); simpl; [|by rewrite IH].
  by rewrite <- Permutation_middle, IH.
Qed.

Lemma Sorted_filter {A} (R : relation A) `{!Transitive R} (f : A -> bool) (l : list A) :
  Sorted R l -> Sorted R (List.filter f l).
Proof.
  intros H. apply StronglySorted_Sorted. apply Sorted_StronglySorted in H; [|done].
  induction H as [|x l H IH Hx]; simpl; [constructor|]. destruct (f x); [|done].
  constructor; [done|]. rewrite Forall_forall in *. intros y Hy. apply Hx.
  apply list_elem_of_In, filter_In in Hy as [Hy _]. by apply list_elem_of_In.
Qed.

(** Advancing the test clock fires each timer once, when it is due: what is sent and what
    stays pending are together the timers, everything sent is due, everything pending is
    not, and sending follows due times, whatever sequence of [After] and [Advance] came
    before. *)
Theorem Advance_fires_due start (calls : list (duration * bool)) d :
  let c := foldl (fun c '(d, after) => if (after : bool) then (TestClock_After c d).1 else (TestClock_Advance c d).1)
             (NewTestClock start) calls in
  let '(c', fired) := TestClock_Advance c d in
  fired ++ tc_timers c' ≡ₚ tc_timers c /\ tc_now c' = (tc_now c + d)%Z /\
  Forall (fun t => (t.1 <= tc_now c')%Z) fired /\ Forall (fun t => (tc_now c' < t.1)%Z) (tc_timers c') /\
  Sorted by_due fired /\ Sorted by_due (tc_timers c').
Proof.
  intros c. assert (Hs : Sorted by_due (tc_timers c)).
  { unfold c. assert (H0 : Sorted by_due (tc_timers (NewTestClock start))) by constructor.
    revert H0. generalize (NewTestClock start). clear. induction calls as [|[d []] calls IH]; intros c H; [done|..];
      simpl; apply IH; simpl; [apply Sorted_merge_sort; apply _|by apply Sorted_filter; [apply _|]]. }
  unfold TestClock_Advance. simpl. split; [apply filter_partition|]. split; [done|].
  split; [|split; [|split; by apply Sorted_filter; [apply _|]]].
  - apply Forall_forall. intros t Ht. apply list_elem_of_In, filter_In in Ht as [_ Ht]. unfold time_Add in *. by bools.
  - apply Forall_forall. intros t Ht. apply list_elem_of_In, filter_In in Ht as [_ Ht]. unfold time_Add in *. by bools.
Qed.
