(* ===== verification/Risk.v ===== *)
(** * The risk engine (risk/risk.go)

    Pre-trade checks, their limits and projections, the command-rate window and the two
    queues.  The engine reads the cache under one lock per call; [check] is modelled as one
    step between cache writes.

    [Cache.Instruments] returns the instruments in Go's map order, which may differ from
    call to call: [Instruments] gives the enumeration each call site sees. *)
From stdpp Require Import base gmap list strings.
From S2P Require Import Prelude Decimals Enums Identifiers Orders Market Accounts Cache Kernel.

Open Scope go_scope.

Section risk.
Context {DD : Decimal}.

(** ** State *)

Record Limits := mkLimits {
  li_MaxOrderNotional : D;
  li_MaxPositionNotional : D;
  li_MaxAccountExposure : D;
}.

(** [risk.Config]; the clock is an argument of the operations that read it. *)
Record Config := mkConfig {
  cf_MaxOrderNotional : D;
  cf_MaxPositionNotional : D;
  cf_MaxAccountExposure : D;
  cf_ExposureCurrency : Currency;
  cf_TradingState : TradingState;
  cf_QueueSize : Z;
  cf_MaxCommandsPerWindow : Z;
  cf_CommandRateWindow : duration;
  cf_MaxOpenOrders : Z;
  cf_AccountLimits : gmap AccountID Limits;
  cf_StrategyLimits : gmap StrategyID Limits;
  cf_InstrumentLimits : gmap InstrumentID Limits;
}.

#[global] Instance set_cf_TradingState : Setter cf_TradingState := fun f r => mkConfig
  (cf_MaxOrderNotional r) (cf_MaxPositionNotional r) (cf_MaxAccountExposure r) (cf_ExposureCurrency
  r) (f (cf_TradingState r)) (cf_QueueSize r) (cf_MaxCommandsPerWindow r) (cf_CommandRateWindow r)
  (cf_MaxOpenOrders r) (cf_AccountLimits r) (cf_StrategyLimits r) (cf_InstrumentLimits r).


(** [risk.resolvedLimits]: the limits and where each comes from. *)
Record resolvedLimits := mkResolvedLimits {
  rl_MaxOrderNotional : D;
  rl_orderSource : string;
  rl_MaxPositionNotional : D;
  rl_positionSource : string;
  rl_MaxAccountExposure : D;
  rl_exposureSource : string;
}.

(** [risk.Decision] *)
Record Decision := mkDecision {
  de_Order : SubmitOrder;
  de_Error : option error;
  de_Event : option ExecutionEvent;
}.

Definition Accepted (d : Decision) : bool := match de_Error d with None => true | Some _ => false end.

(** [risk.Engine]; a queue is a bounded channel with its waiting values, oldest first. *)
Record Engine := mkEngine {
  rk_cache : Cache;
  rk_cfg : Config;
  rk_stateNote : string;
  rk_component : Component;
  rk_cmdQueue : list SubmitOrder;
  rk_evtQueue : list ExecutionEvent;
  rk_cmdWindow : list time;
  rk_processedCommands : Z;
  rk_rejectedCommands : Z;
  rk_processedEvents : Z;
  rk_droppedCommands : Z;
  rk_droppedEvents : Z;
  rk_throttledCommands : Z;
}.

#[global] Instance set_rk_cache : Setter rk_cache := fun f r => mkEngine (f (rk_cache r)) (rk_cfg r)
  (rk_stateNote r) (rk_component r) (rk_cmdQueue r) (rk_evtQueue r) (rk_cmdWindow r)
  (rk_processedCommands r) (rk_rejectedCommands r) (rk_processedEvents r) (rk_droppedCommands r)
  (rk_droppedEvents r) (rk_throttledCommands r).
#[global] Instance set_rk_cfg : Setter rk_cfg := fun f r => mkEngine (rk_cache r) (f (rk_cfg r))
  (rk_stateNote r) (rk_component r) (rk_cmdQueue r) (rk_evtQueue r) (rk_cmdWindow r)
  (rk_processedCommands r) (rk_rejectedCommands r) (rk_processedEvents r) (rk_droppedCommands r)
  (rk_droppedEvents r) (rk_throttledCommands r).
#[global] Instance set_rk_stateNote : Setter rk_stateNote := fun f r => mkEngine (rk_cache r)
  (rk_cfg r) (f (rk_stateNote r)) (rk_component r) (rk_cmdQueue r) (rk_evtQueue r) (rk_cmdWindow r)
  (rk_processedCommands r) (rk_rejectedCommands r) (rk_processedEvents r) (rk_droppedCommands r)
  (rk_droppedEvents r) (rk_throttledCommands r).
#[global] Instance set_rk_component : Setter rk_component := fun f r => mkEngine (rk_cache r)
  (rk_cfg r) (rk_stateNote r) (f (rk_component r)) (rk_cmdQueue r) (rk_evtQueue r) (rk_cmdWindow r)
  (rk_processedCommands r) (rk_rejectedCommands r) (rk_processedEvents r) (rk_droppedCommands r)
  (rk_droppedEvents r) (rk_throttledCommands r).
#[global] Instance set_rk_cmdQueue : Setter rk_cmdQueue := fun f r => mkEngine (rk_cache r) (rk_cfg
  r) (rk_stateNote r) (rk_component r) (f (rk_cmdQueue r)) (rk_evtQueue r) (rk_cmdWindow r)
  (rk_processedCommands r) (rk_rejectedCommands r) (rk_processedEvents r) (rk_droppedCommands r)
  (rk_droppedEvents r) (rk_throttledCommands r).
#[global] Instance set_rk_evtQueue : Setter rk_evtQueue := fun f r => mkEngine (rk_cache r) (rk_cfg
  r) (rk_stateNote r) (rk_component r) (rk_cmdQueue r) (f (rk_evtQueue r)) (rk_cmdWindow r)
  (rk_processedCommands r) (rk_rejectedCommands r) (rk_processedEvents r) (rk_droppedCommands r)
  (rk_droppedEvents r) (rk_throttledCommands r).
#[global] Instance set_rk_cmdWindow : Setter rk_cmdWindow := fun f r => mkEngine (rk_cache r)
  (rk_cfg r) (rk_stateNote r) (rk_component r) (rk_cmdQueue r) (rk_evtQueue r) (f (rk_cmdWindow r))
  (rk_processedCommands r) (rk_rejectedCommands r) (rk_processedEvents r) (rk_droppedCommands r)
  (rk_droppedEvents r) (rk_throttledCommands r).
#[global] Instance set_rk_processedCommands : Setter rk_processedCommands := fun f r => mkEngine
  (rk_cache r) (rk_cfg r) (rk_stateNote r) (rk_component r) (rk_cmdQueue r) (rk_evtQueue r)
  (rk_cmdWindow r) (f (rk_processedCommands r)) (rk_rejectedCommands r) (rk_processedEvents r)
  (rk_droppedCommands r) (rk_droppedEvents r) (rk_throttledCommands r).
#[global] Instance set_rk_rejectedCommands : Setter rk_rejectedCommands := fun f r => mkEngine
  (rk_cache r) (rk_cfg r) (rk_stateNote r) (rk_component r) (rk_cmdQueue r) (rk_evtQueue r)
  (rk_cmdWindow r) (rk_processedCommands r) (f (rk_rejectedCommands r)) (rk_processedEvents r)
  (rk_droppedCommands r) (rk_droppedEvents r) (rk_throttledCommands r).
#[global] Instance set_rk_processedEvents : Setter rk_processedEvents := fun f r => mkEngine
  (rk_cache r) (rk_cfg r) (rk_stateNote r) (rk_component r) (rk_cmdQueue r) (rk_evtQueue r)
  (rk_cmdWindow r) (rk_processedCommands r) (rk_rejectedCommands r) (f (rk_processedEvents r))
  (rk_droppedCommands r) (rk_droppedEvents r) (rk_throttledCommands r).
#[global] Instance set_rk_droppedCommands : Setter rk_droppedCommands := fun f r => mkEngine
  (rk_cache r) (rk_cfg r) (rk_stateNote r) (rk_component r) (rk_cmdQueue r) (rk_evtQueue r)
  (rk_cmdWindow r) (rk_processedCommands r) (rk_rejectedCommands r) (rk_processedEvents r) (f
  (rk_droppedCommands r)) (rk_droppedEvents r) (rk_throttledCommands r).
#[global] Instance set_rk_droppedEvents : Setter rk_droppedEvents := fun f r => mkEngine (rk_cache
  r) (rk_cfg r) (rk_stateNote r) (rk_component r) (rk_cmdQueue r) (rk_evtQueue r) (rk_cmdWindow r)
  (rk_processedCommands r) (rk_rejectedCommands r) (rk_processedEvents r) (rk_droppedCommands r) (f
  (rk_droppedEvents r)) (rk_throttledCommands r).
#[global] Instance set_rk_throttledCommands : Setter rk_throttledCommands := fun f r => mkEngine
  (rk_cache r) (rk_cfg r) (rk_stateNote r) (rk_component r) (rk_cmdQueue r) (rk_evtQueue r)
  (rk_cmdWindow r) (rk_processedCommands r) (rk_rejectedCommands r) (rk_processedEvents r)
  (rk_droppedCommands r) (rk_droppedEvents r) (f (rk_throttledCommands r)).


(** The call sites of [Cache.Instruments]; the exchange rate is looked up once per amount. *)
Inductive Site :=
  | SiteExposure
  | SiteMargin
  | SiteReservation
  | SiteRate (converted : InstrumentID).

Definition defaultQueueSize : Z := 1024.

Definition risk_rejected (msg : string) : error := mkErr ErrRiskRejected msg.

Definition NewEngine (c : option Cache) (cfg : Config) : Engine :=
  mkEngine (default New c) cfg "" (NewComponent "risk.engine") [] [] [] 0 0 0 0 0 0.

(** The capacity [ensureQueues] gives both queues. *)
Definition queue_size (cfg : Config) : Z := if (cf_QueueSize cfg <=? 0)%Z then defaultQueueSize else cf_QueueSize cfg.

(** ** Trading state *)

Definition normalizedTradingState (state : TradingState) : TradingState :=
  if state ≟ TradingStateNone then TradingStateActive else state.

Definition SetTradingState (e : Engine) (state : TradingState) (reason : string) : outcome Engine unit :=
  let state := normalizedTradingState state in
  match state with
  | TradingStateActive | TradingStateHalted | TradingStateReducing =>
      let e := e <| rk_cfg := rk_cfg e <| cf_TradingState := state |> |> in
      (e <| rk_stateNote := if state ≟ TradingStateActive then "" else reason |>, Ok tt)
  | _ => (e, Fail (risk_rejected "invalid trading state"))
  end.

Definition EngageKillSwitch (e : Engine) (reason : string) := SetTradingState e TradingStateHalted reason.
Definition SetReducingOnly (e : Engine) (reason : string) := SetTradingState e TradingStateReducing reason.
Definition ResumeTrading (e : Engine) := SetTradingState e TradingStateActive "".

(** ** Limits *)

Definition tighterLimit (current : D) (currentSource : string) (candidate : D) (candidateSource : string) : D * string :=
  if negb (IsPositive candidate) then (current, currentSource)
  else if negb (IsPositive current) || LessThan candidate current then (candidate, candidateSource)
  else (current, currentSource).

(** [resolvedLimits.apply] *)
Definition apply_limit (l : resolvedLimits) (source : string) (limit : Limits) : resolvedLimits :=
  let '(o, os) := tighterLimit (rl_MaxOrderNotional l) (rl_orderSource l) (li_MaxOrderNotional limit) source in
  let '(p, ps) := tighterLimit (rl_MaxPositionNotional l) (rl_positionSource l) (li_MaxPositionNotional limit) source in
  let '(x, xs) := tighterLimit (rl_MaxAccountExposure l) (rl_exposureSource l) (li_MaxAccountExposure limit) source in
  mkResolvedLimits o os p ps x xs.

Definition apply_limit_opt (l : resolvedLimits) (source : string) (limit : option Limits) : resolvedLimits :=
  match limit with Some limit => apply_limit l source limit | None => l end.

Definition resolveLimits (order : SubmitOrder) (cfg : Config) : resolvedLimits :=
  let resolved := mkResolvedLimits (cf_MaxOrderNotional cfg) "" (cf_MaxPositionNotional cfg) "" (cf_MaxAccountExposure cfg) "" in
  let resolved := apply_limit_opt resolved ("account " +:+ so_AccountID order) (cf_AccountLimits cfg !! so_AccountID order) in
  let strategy := md_StrategyID (so_Metadata order) in
  let resolved := if strategy ≠? ""
                  then apply_limit_opt resolved ("strategy " +:+ strategy) (cf_StrategyLimits cfg !! strategy)
                  else resolved in
  apply_limit_opt resolved ("instrument " +:+ InstrumentID_String (so_InstrumentID order))
    (cf_InstrumentLimits cfg !! so_InstrumentID order).

Definition limitExceededError (source message : string) : error :=
  if source ≟ "" then risk_rejected message else risk_rejected (source +:+ " " +:+ message).

Definition stateRejectedError (message note : string) : error :=
  if note ≟ "" then risk_rejected message else risk_rejected (message +:+ ": " +:+ note).

(** ** Signed quantities *)

Definition signedPosition (position : PositionStatusReport) : D :=
  if pr_Side position ≟ PositionSideShort then dneg (pr_Quantity position) else pr_Quantity position.

Definition openOrderLeaves (order : OrderStatusReport) : D :=
  if IsPositive (or_LeavesQuantity order) then or_LeavesQuantity order
  else if IsPositive (or_Quantity order) then
    let leaves := dsub (or_Quantity order) (or_FilledQuantity order) in
    if IsPositive leaves then leaves else dzero
  else dzero.

Definition applySignedOrder (current : D) (side : OrderSide) (quantity : D) : D :=
  if side ≟ OrderSideSell then dsub current quantity else dadd current quantity.

Definition exposureIncreased (current projected : D) : bool :=
  if IsZero current then negb (IsZero projected)
  else if IsZero projected then false
  else if (Sign current * Sign projected <? 0)%Z then true
  else GreaterThan (dabs projected) (dabs current).

Definition currentSigned (c : Cache) (a : AccountID) (i : InstrumentID) : D :=
  match PositionByInstrument c a i with Some position => signedPosition position | None => dzero end.

Definition increasesCurrentExposure (c : Cache) (order : SubmitOrder) : bool :=
  let current := currentSigned c (so_AccountID order) (so_InstrumentID order) in
  exposureIncreased current (applySignedOrder current (so_Side order) (so_Quantity order)).

(** One open order of the loop of [signedPositionWithOpenOrders]. *)
Definition addOpenOrder (i : InstrumentID) (current : D) (order : OrderStatusReport) : D :=
  if (or_InstrumentID order ≠? i) || or_ReduceOnly order then current
  else
    let leaves := openOrderLeaves order in
    if negb (IsPositive leaves) then current else applySignedOrder current (or_Side order) leaves.

Definition signedPositionWithOpenOrders (c : Cache) (a : AccountID) (i : InstrumentID) : D :=
  foldl (addOpenOrder i) (currentSigned c a i) (OpenOrders c a).

Definition projectedSignedPosition (c : Cache) (order : SubmitOrder) : D :=
  applySignedOrder (signedPositionWithOpenOrders c (so_AccountID order) (so_InstrumentID order))
    (so_Side order) (so_Quantity order).

Definition increasesProjectedExposure (c : Cache) (order : SubmitOrder) : bool :=
  let current := signedPositionWithOpenOrders c (so_AccountID order) (so_InstrumentID order) in
  exposureIncreased current (applySignedOrder current (so_Side order) (so_Quantity order)).

(** ** Prices *)

(** The first source that has a price; [k] runs when [o] gives none. *)
Definition or_else (o : option D) (k : D) : D := match o with Some p => p | None => k end.
Definition positive (p : D) : option D := if IsPositive p then Some p else None.

Definition tradeOrBar (c : Cache) (i : InstrumentID) : option D :=
  match (trade ← cache_TradeTick c i; positive (tt_Price trade)) with
  | Some p => Some p
  | None => bar ← LatestBar c i; positive (br_Close bar)
  end.

Definition estimatedPrice (c : Cache) (order : SubmitOrder) : D :=
  let i := so_InstrumentID order in
  let buy := so_Side order ≟ OrderSideBuy in
  let sell := so_Side order ≟ OrderSideSell in
  if IsPositive (so_Price order) then so_Price order
  else or_else (quote ← cache_QuoteTick c i;
                if buy && IsPositive (qt_AskPrice quote) then Some (qt_AskPrice quote)
                else if sell && IsPositive (qt_BidPrice quote) then Some (qt_BidPrice quote) else None)
      (or_else (ticker ← cache_Ticker c i;
                if buy && IsPositive (tk_Ask ticker) then Some (tk_Ask ticker)
                else if sell && IsPositive (tk_Bid ticker) then Some (tk_Bid ticker)
                else positive (tk_Last ticker))
      (or_else (book ← cache_OrderBook c i;
                match buy, ob_Asks book, sell, ob_Bids book with
                | true, ask :: _, _, _ => Some (lv_Price ask)
                | _, _, true, bid :: _ => Some (lv_Price bid)
                | _, _, _, _ => None
                end)
      (or_else (tradeOrBar c i) dzero))).

Definition markPriceForSide (c : Cache) (i : InstrumentID) (side : PositionSide) : D :=
  let long := side ≟ PositionSideLong in
  let short := side ≟ PositionSideShort in
  or_else (quote ← cache_QuoteTick c i;
           if long && IsPositive (qt_BidPrice quote) then Some (qt_BidPrice quote)
           else if short && IsPositive (qt_AskPrice quote) then Some (qt_AskPrice quote) else None)
  (or_else (ticker ← cache_Ticker c i; positive (tk_Last ticker))
  (or_else (book ← cache_OrderBook c i;
            match long, ob_Bids book, short, ob_Asks book with
            | true, bid :: _, _, _ => Some (lv_Price bid)
            | _, _, true, ask :: _ => Some (lv_Price ask)
            | _, _, _, _ => None
            end)
  (or_else (tradeOrBar c i) dzero))).

Definition markPrice (c : Cache) (position : PositionStatusReport) : D :=
  markPriceForSide c (pr_InstrumentID position) (pr_Side position).

Definition positionMark (c : Cache) (position : PositionStatusReport) : D :=
  let mark := markPrice c position in
  if IsPositive mark then mark else pr_EntryPrice position.

Definition unrealizedPnL (position : PositionStatusReport) (mark : D) : D :=
  if negb (IsPositive mark) || (pr_Side position ≟ PositionSideFlat) || IsZero (pr_Quantity position) then dzero
  else if pr_Side position ≟ PositionSideShort
  then dmul (dsub (pr_EntryPrice position) mark) (pr_Quantity position)
  else dmul (dsub mark (pr_EntryPrice position)) (pr_Quantity position).

Definition exposurePrice (c : Cache) (a : AccountID) (i : InstrumentID) (signed : D) : D :=
  let side := if IsNegative signed then PositionSideShort else PositionSideLong in
  let mark := markPriceForSide c i side in
  if IsPositive mark then mark
  else or_else (position ← PositionByInstrument c a i; positive (pr_EntryPrice position))
      (or_else (order ← List.find (fun r => (or_InstrumentID r ≟ i) && IsPositive (or_Price r)) (OpenOrders c a);
                Some (or_Price order)) dzero).

Definition marginCurrency (inst : Instrument) : Currency :=
  if in_Settle inst ≠? "" then in_Settle inst else in_Quote inst.

Definition requiresLimitPrice (t : OrderType) : bool :=
  (t ≟ OrderTypeLimit) || (t ≟ OrderTypeStopLimit) || (t ≟ OrderTypeLimitIfTouched) ||
  (t ≟ OrderTypeTrailingStopLimit).

(** ** Conversion *)

Definition xratePrice (c : Cache) (i : InstrumentID) : option D :=
  let from_quote :=
    quote ← cache_QuoteTick c i;
    if IsPositive (qt_BidPrice quote) && IsPositive (qt_AskPrice quote)
    then Some (ddiv (dadd (qt_BidPrice quote) (qt_AskPrice quote)) (dint 2))
    else if IsPositive (qt_BidPrice quote) then Some (qt_BidPrice quote)
    else if IsPositive (qt_AskPrice quote) then Some (qt_AskPrice quote) else None in
  let from_ticker :=
    ticker ← cache_Ticker c i;
    if IsPositive (tk_Bid ticker) && IsPositive (tk_Ask ticker)
    then Some (ddiv (dadd (tk_Bid ticker) (tk_Ask ticker)) (dint 2))
    else positive (tk_Last ticker) in
  match from_quote, from_ticker with
  | Some p, _ => Some p
  | None, Some p => Some p
  | None, None => tradeOrBar c i
  end.

Fixpoint exchangeRate (c : Cache) (insts : list Instrument) (from to : Currency) : option D :=
  match insts with
  | [] => None
  | inst :: insts =>
      match xratePrice c (in_ID inst) with
      | None => exchangeRate c insts from to
      | Some price =>
          if negb (IsPositive price) then exchangeRate c insts from to
          else if (in_Base inst ≟ from) && (in_Quote inst ≟ to) then Some price
          else if (in_Base inst ≟ to) && (in_Quote inst ≟ from) then Some (ddiv (dint 1) price)
          else exchangeRate c insts from to
      end
  end.

Definition convertAmount (c : Cache) (insts : list Instrument) (amount : D) (from to : Currency) : option D :=
  if (from ≟ "") || (to ≟ "") then None
  else if from ≟ to then Some amount
  else rate ← exchangeRate c insts from to; Some (dmul amount rate).

(** ** Exposure and margin *)

Section enumeration.
(** What [Cache.Instruments] returns at each call site. *)
Context (Instruments : Site -> list Instrument).

Definition projectedPositionNotional (c : Cache) (order : SubmitOrder) (price : D) : D :=
  dmul (dabs (projectedSignedPosition c order)) price.

Definition accountExposureCurrency (c : Cache) (a : AccountID) (cfg : Config) : Currency :=
  if cf_ExposureCurrency cfg ≠? "" then cf_ExposureCurrency cfg
  else match cache_Account c a with None => "" | Some account => as_BaseCurrency account end.

(** One instrument of the loop of [projectedAccountExposure]. *)
Definition addExposure (c : Cache) (order : SubmitOrder) (orderPrice : D) (target : Currency)
    (total : option D) (inst : Instrument) : option D :=
  total ← total;
  let own := in_ID inst ≟ so_InstrumentID order in
  let projected := signedPositionWithOpenOrders c (so_AccountID order) (in_ID inst) in
  let projected := if own then applySignedOrder projected (so_Side order) (so_Quantity order) else projected in
  if IsZero projected then Some total
  else
    let price := if own then orderPrice else exposurePrice c (so_AccountID order) (in_ID inst) projected in
    if IsPositive price then
      let value := dmul (dabs projected) price in
      value ← (if target ≠? ""
               then convertAmount c (Instruments (SiteRate (in_ID inst))) value (marginCurrency inst) target
               else Some value);
      Some (dadd total value)
    else Some total.

Definition projectedAccountExposure (c : Cache) (order : SubmitOrder) (orderPrice : D) (cfg : Config) : option D :=
  let target := accountExposureCurrency c (so_AccountID order) cfg in
  foldl (addExposure c order orderPrice target) (Some dzero) (Instruments SiteExposure).

(** The sums over the account's balances and margins in one currency; [None] on a bad amount. *)
Definition sumBalances (balances : list Balance) (currency : Currency) : option (D * D * bool) :=
  foldl (fun acc balance =>
    '(equity, locked, found) ← acc;
    if bl_Currency balance ≠? currency then Some (equity, locked, found)
    else match Balance_Amounts balance with
         | Fail _ => None
         | Ok (total, balanceLocked, _) => Some (dadd equity total, dadd locked balanceLocked, true)
         end) (Some (dzero, dzero, false)) balances.

Definition sumMargins (margins : list MarginBalance) (currency : Currency) : option D :=
  foldl (fun acc margin =>
    initialMargin ← acc;
    if mb_Currency margin ≠? currency then Some initialMargin
    else match MarginBalance_Amounts margin with
         | Fail _ => None
         | Ok (initial, _) => Some (dadd initialMargin initial)
         end) (Some dzero) margins.

(** One instrument's unrealized profit in the loop of [availableMargin]. *)
Definition addUnrealized (c : Cache) (a : AccountID) (currency : Currency) (equity : D) (inst : Instrument) : D :=
  if marginCurrency inst ≠? currency then equity
  else match PositionByInstrument c a (in_ID inst) with
       | None => equity
       | Some position =>
           if (pr_Side position ≟ PositionSideFlat) || IsZero (pr_Quantity position) then equity
           else dadd equity (unrealizedPnL position (positionMark c position))
       end.

Definition availableMargin (c : Cache) (account : AccountSnapshot) (currency : Currency) : option D :=
  '(equity, locked, foundBalance) ← sumBalances (as_Balances account) currency;
  if negb foundBalance then None
  else
    let equity := foldl (addUnrealized c (as_AccountID account) currency) equity (Instruments SiteMargin) in
    initialMargin ← sumMargins (as_Margins account) currency;
    let available := dsub (dsub equity locked) initialMargin in
    if IsNegative available then Some dzero else Some available.

(** The positions from which [openOrderInitialMarginReservation] starts. *)
Definition reservationStart (c : Cache) (a : AccountID) (currency : Currency) : gmap InstrumentID D :=
  foldl (fun signed inst =>
    if (marginCurrency inst ≠? currency) || negb (IsPositive (in_MarginInit inst)) then signed
    else match PositionByInstrument c a (in_ID inst) with
         | Some position => <[in_ID inst := signedPosition position]> signed
         | None => signed
         end) ∅ (Instruments SiteReservation).

(** One open order of its loop. *)
Definition reserve (c : Cache) (a : AccountID) (currency : Currency)
    (acc : D * gmap InstrumentID D) (order : OrderStatusReport) : D * gmap InstrumentID D :=
  let '(reserved, signed) := acc in
  if or_ReduceOnly order then acc
  else match cache_Instrument c (or_InstrumentID order) with
  | None => acc
  | Some inst =>
      if (marginCurrency inst ≠? currency) || negb (IsPositive (in_MarginInit inst)) then acc
      else
        let leaves := openOrderLeaves order in
        if negb (IsPositive leaves) then acc
        else
          let current := default dzero (signed !! or_InstrumentID order) in
          let price := if negb (IsPositive (or_Price order))
                       then exposurePrice c a (or_InstrumentID order) current else or_Price order in
          if negb (IsPositive price) then acc
          else
            let projected := applySignedOrder current (or_Side order) leaves in
            let incremental := dsub (dabs projected) (dabs current) in
            let reserved := if IsPositive incremental
                            then dadd reserved (dmul (dmul incremental price) (in_MarginInit inst)) else reserved in
            (reserved, <[or_InstrumentID order := projected]> signed)
  end.

Definition openOrderInitialMarginReservation (c : Cache) (a : AccountID) (currency : Currency) : D :=
  (foldl (reserve c a currency) (dzero, reservationStart c a currency) (OpenOrders c a)).1.

Definition incrementalInitialMargin (c : Cache) (order : SubmitOrder) (price marginRate : D) : D :=
  let current := signedPositionWithOpenOrders c (so_AccountID order) (so_InstrumentID order) in
  let projected := projectedSignedPosition c order in
  let currentNotional := dmul (dabs current) price in
  let projectedNotional := dmul (dabs projected) price in
  let incremental := dsub projectedNotional currentNotional in
  if IsNegative incremental then dzero else dmul incremental marginRate.

Definition checkAvailableInitialMargin (c : Cache) (order : SubmitOrder) (inst : Instrument) (price : D) : res unit :=
  if negb (IsPositive (in_MarginInit inst)) then Ok tt
  else if negb (increasesProjectedExposure c order) then Ok tt
  else if negb (IsPositive price) then Fail (risk_rejected "cannot estimate initial margin")
  else match cache_Account c (so_AccountID order) with
  | None => Ok tt
  | Some account =>
      if (as_Type account ≠? AccountTypeNone) && (as_Type account ≠? AccountTypeMargin) then Ok tt
      else
        let currency := marginCurrency inst in
        if currency ≟ "" then Ok tt
        else match availableMargin c account currency with
        | None => Fail (risk_rejected "missing margin balance")
        | Some available =>
            let available := dsub available (openOrderInitialMarginReservation c (so_AccountID order) currency) in
            let available := if IsNegative available then dzero else available in
            let required := incrementalInitialMargin c order price (in_MarginInit inst) in
            if GreaterThan required available
            then Fail (risk_rejected "available initial margin exceeded") else Ok tt
        end
  end.

(** ** The check *)

(** [now] is what the engine's clock returns. *)
Definition checkCommandRate (e : Engine) (cfg : Config) (now : time) : outcome Engine unit :=
  if (cf_MaxCommandsPerWindow cfg <=? 0)%Z then (e, Ok tt)
  else
    let window := if (cf_CommandRateWindow cfg <=? 0)%Z then Second else cf_CommandRateWindow cfg in
    let cutoff := time_Add now (- window) in
    let kept := List.filter (fun ts => After ts cutoff) (rk_cmdWindow e) in
    let e := e <| rk_cmdWindow := kept |> in
    if (cf_MaxCommandsPerWindow cfg <=? Z.of_nat (List.length kept))%Z
    then (e <| rk_throttledCommands := (rk_throttledCommands e + 1)%Z |>,
          Fail (risk_rejected "command rate limit exceeded"))
    else (e <| rk_cmdWindow := kept ++ [now] |>, Ok tt).

Definition price_check (needed : bool) (inst : Instrument) (price : D) : res unit :=
  if needed then ValidatePrice inst price else Ok tt.

(** [check] after the command-rate test: it no longer changes the engine. *)
Definition check_order (c : Cache) (cfg : Config) (stateNote : string) (order : SubmitOrder)
    (rejectDuplicateClientID existingOrder : bool) : res unit :=
  fail_if rejectDuplicateClientID && (so_ClientOrderID order ≠? "") &&
      match OrderByClientID c (so_AccountID order) (so_ClientOrderID order) with Some _ => true | None => false end
    with risk_rejected "duplicate client order ID" ;;
  fail_if negb existingOrder && (0 <? cf_MaxOpenOrders cfg)%Z &&
      (cf_MaxOpenOrders cfg <=? Z.of_nat (List.length (OpenOrders c (so_AccountID order))))%Z
    with risk_rejected "max open orders exceeded" ;;
  match cache_Instrument c (so_InstrumentID order) with
  | None => Fail (mkErr ErrInstrumentNotFound (InstrumentID_String (so_InstrumentID order)))
  | Some inst =>
      fail_if in_Status inst ≠? InstrumentStatusTrading with risk_rejected "instrument is not trading" ;;
      ensure (match normalizedTradingState (cf_TradingState cfg) with
              | TradingStateActive => Ok tt
              | TradingStateHalted => Fail (stateRejectedError "trading state halted" stateNote)
              | TradingStateReducing =>
                  if increasesCurrentExposure c order
                  then Fail (stateRejectedError "reducing state rejects exposure increase" stateNote) else Ok tt
              | _ => Fail (risk_rejected "invalid trading state")
              end) ;;
      ensure ValidateSize inst (so_Quantity order) ;;
      ensure price_check (requiresLimitPrice (so_Type order)) inst (so_Price order) ;;
      ensure price_check (IsPositive (so_TriggerPrice order)) inst (so_TriggerPrice order) ;;
      ensure price_check (IsPositive (so_ActivationPrice order)) inst (so_ActivationPrice order) ;;
      let limits := resolveLimits order cfg in
      let price := estimatedPrice c order in
      ensure (if IsPositive (rl_MaxOrderNotional limits) then
                fail_if negb (IsPositive price) with risk_rejected "cannot estimate order notional" ;;
                fail_if GreaterThan (dmul price (so_Quantity order)) (rl_MaxOrderNotional limits)
                  with limitExceededError (rl_orderSource limits) "max order notional exceeded" ;;
                Ok tt
              else Ok tt) ;;
      ensure (if IsPositive (rl_MaxPositionNotional limits) then
                fail_if negb (IsPositive price) with risk_rejected "cannot estimate position notional" ;;
                fail_if GreaterThan (projectedPositionNotional c order price) (rl_MaxPositionNotional limits)
                  with limitExceededError (rl_positionSource limits) "max position notional exceeded" ;;
                Ok tt
              else Ok tt) ;;
      ensure (if IsPositive (rl_MaxAccountExposure limits) then
                fail_if negb (IsPositive price) with risk_rejected "cannot estimate account exposure" ;;
                match projectedAccountExposure c order price cfg with
                | None => Fail (risk_rejected "cannot estimate account exposure")
                | Some exposure =>
                    fail_if GreaterThan exposure (rl_MaxAccountExposure limits)
                      with limitExceededError (rl_exposureSource limits) "max account exposure exceeded" ;;
                    Ok tt
                end
              else Ok tt) ;;
      ensure checkAvailableInitialMargin c order inst price ;;
      fail_if so_ReduceOnly order && increasesCurrentExposure c order
        with risk_rejected "reduce-only would increase exposure" ;;
      Ok tt
  end.

Definition check (e : Engine) (order : SubmitOrder) (rejectDuplicateClientID existingOrder : bool) (now : time)
    : outcome Engine unit :=
  match SubmitOrder_Validate order with
  | Fail err => (e, Fail err)
  | Ok _ =>
      let cfg := rk_cfg e in
      let stateNote := rk_stateNote e in
      match checkCommandRate e cfg now with
      | (e, Fail err) => (e, Fail err)
      | (e, Ok _) => (e, check_order (rk_cache e) cfg stateNote order rejectDuplicateClientID existingOrder)
      end
  end.

Definition Check (e : Engine) (order : SubmitOrder) (now : time) := check e order true false now.
Definition CheckExistingOrder (e : Engine) (order : SubmitOrder) (now : time) := check e order false true now.

(** ** Commands and events *)

(** [OrderDeniedEvent]; the reason is the error's text. *)
Definition OrderDeniedEvent (order : SubmitOrder) (cause : option error) : option ExecutionEvent :=
  let lifecycle := mkOrderLifecycleEvent (so_Metadata order) (so_AccountID order) (so_InstrumentID order) ""
                     (so_ClientOrderID order) "" OrderEventDenied OrderStatusNone OrderStatusDenied
                     (match cause with Some err => err_msg err | None => "" end) None in
  let event := lifecycle_event lifecycle in
  match ExecutionEvent_Validate event with Ok _ => Some event | Fail _ => None end.

Definition handleCommand (e : Engine) (order : SubmitOrder) (now : time) : Engine * Decision :=
  let '(e, result) := Check e order now in
  match result with
  | Ok _ => (e <| rk_processedCommands := (rk_processedCommands e + 1)%Z |>, mkDecision order None None)
  | Fail err =>
      let e := e <| rk_rejectedCommands := (rk_rejectedCommands e + 1)%Z |> in
      (e <| rk_processedCommands := (rk_processedCommands e + 1)%Z |>,
       mkDecision order (Some err) (OrderDeniedEvent order (Some err)))
  end.

(** [Execute] and [Process] when the context is not done: the value is queued, or dropped
    when the queue is full. *)
Definition Execute (e : Engine) (order : SubmitOrder) : outcome Engine unit :=
  if (Z.of_nat (List.length (rk_cmdQueue e)) <? queue_size (rk_cfg e))%Z
  then (e <| rk_cmdQueue := rk_cmdQueue e ++ [order] |>, Ok tt)
  else (e <| rk_droppedCommands := (rk_droppedCommands e + 1)%Z |>, Fail (mkErr ErrRiskQueueFull "risk queue full")).

Definition Process (e : Engine) (event : ExecutionEvent) : outcome Engine unit :=
  match ExecutionEvent_Validate event with
  | Fail err => (e, Fail err)
  | Ok _ =>
      if (Z.of_nat (List.length (rk_evtQueue e)) <? queue_size (rk_cfg e))%Z
      then (e <| rk_evtQueue := rk_evtQueue e ++ [event] |>, Ok tt)
      else (e <| rk_droppedEvents := (rk_droppedEvents e + 1)%Z |>, Fail (mkErr ErrRiskQueueFull "risk queue full"))
  end.

(** One round of [runCommandQueue]; nothing when the queue is empty. *)
Definition runCommandQueue (e : Engine) (now : time) : Engine * option Decision :=
  match rk_cmdQueue e with
  | [] => (e, None)
  | order :: rest =>
      let '(e, d) := handleCommand (e <| rk_cmdQueue := rest |>) order now in (e, Some d)
  end.

Definition applyExecutionEvent (c : Cache) (event : ExecutionEvent) : outcome Cache unit :=
  let put (m : res Cache) := match m with Ok c' => (c', Ok tt) | Fail err => (c, Fail err) end in
  match ee_Account event, ee_Order event, ee_Fill event, ee_Position event, ee_Lifecycle event with
  | Some account, _, _, _, _ => (PutAccount c account, Ok tt)
  | None, Some order, _, _, _ => put (PutOrder c order)
  | None, None, Some fill, _, _ => put (fst <$> PutFill c fill)
  | None, None, None, Some position, _ => put (PutPosition c position)
  | None, None, None, None, Some lifecycle =>
      match oe_Report lifecycle with Some report => put (PutOrder c report) | None => (c, Ok tt) end
  | None, None, None, None, None => (c, Ok tt)
  end.

(** One round of [runEventQueue]. *)
Definition runEventQueue (e : Engine) : Engine :=
  match rk_evtQueue e with
  | [] => e
  | event :: rest =>
      let '(c, out) := applyExecutionEvent (rk_cache e) event in
      let e := e <| rk_evtQueue := rest |> in
      let e := e <| rk_cache := c |> in
      let e := match out with Ok _ => e | Fail err => e <| rk_component := Degrade (rk_component e) err |> end in
      e <| rk_processedEvents := (rk_processedEvents e + 1)%Z |>
  end.
End enumeration.
End risk.
