(* ===== verification/RiskFacts.v ===== *)
(** * Correctness of the risk engine

    What an accepted order satisfies, the limits, the command-rate window, the kill switch
    and the command queue. *)
From stdpp Require Import base gmap list strings sorting.
From Stdlib Require Import QArith Qabs Qminmax Lqa.
From S2P Require Import Prelude Decimals Enums Identifiers Orders Market Accounts Cache Kernel Risk.

Open Scope go_scope.

Section facts.
Context {DD : Decimal} {DL : DecimalLaws DD}.
Implicit Types (e : Engine) (c : Cache) (cfg : Config) (order : SubmitOrder).
Open Scope Q_scope.

(** ** Limits *)

(** The result [r] of combining limits: the least of the positive ones, if any is positive. *)
Definition least_positive (cands : list D) (r : D) : Prop :=
  (forall l, l ∈ cands -> 0 < dval l -> 0 < dval r <= dval l) /\ (0 < dval r -> r ∈ cands).

Lemma tighterLimit_least cands r s cand src :
  least_positive cands r -> least_positive (cands ++ [cand]) (tighterLimit r s cand src).1.
Proof.
  intros [Hle Hin]. unfold tighterLimit.
  destruct (IsPositive cand) eqn:Hc; cbn [negb fst].
  - destruct (IsPositive r) eqn:Hr; cbn [negb orb]; [destruct (LessThan cand r) eqn:Hl|]; cbn [fst]; dec_hyps.
    + split; [|set_solver]. intros l [Hl'|Hl']%elem_of_app Hp.
      * destruct (Hle l Hl' Hp). lra.
      * apply list_elem_of_singleton in Hl' as ->. lra.
    + split; [|set_solver]. intros l [Hl'|Hl']%elem_of_app Hp; [by apply Hle|].
      apply list_elem_of_singleton in Hl' as ->. lra.
    + split; [|set_solver]. intros l [Hl'|Hl']%elem_of_app Hp.
      * destruct (Hle l Hl' Hp). lra.
      * apply list_elem_of_singleton in Hl' as ->. lra.
  - dec_hyps. split; [|set_solver]. intros l [Hl'|Hl']%elem_of_app Hp; [by apply Hle|].
    apply list_elem_of_singleton in Hl' as ->. lra.
Qed.

Lemma least_positive_one r : least_positive [r] r.
Proof. split; [|set_solver]. intros l ->%list_elem_of_singleton. lra. Qed.

(** The limits that apply to an order: the engine's, then those of its account, its
    (non-empty) strategy and its instrument. *)
Definition applicable cfg order : list Limits :=
  mkLimits (cf_MaxOrderNotional cfg) (cf_MaxPositionNotional cfg) (cf_MaxAccountExposure cfg)
  :: option_list (cf_AccountLimits cfg !! so_AccountID order)
  ++ option_list (if md_StrategyID (so_Metadata order) ≠? "" then cf_StrategyLimits cfg !! md_StrategyID (so_Metadata order) else None)
  ++ option_list (cf_InstrumentLimits cfg !! so_InstrumentID order).

Definition resolved_ok (ls : list Limits) (r : resolvedLimits) : Prop :=
  least_positive (li_MaxOrderNotional <$> ls) (rl_MaxOrderNotional r) /\
  least_positive (li_MaxPositionNotional <$> ls) (rl_MaxPositionNotional r) /\
  least_positive (li_MaxAccountExposure <$> ls) (rl_MaxAccountExposure r).

Lemma apply_limit_ok ls r src (o : option Limits) :
  resolved_ok ls r -> resolved_ok (ls ++ option_list o) (apply_limit_opt r src o).
Proof.
  intros (H1 & H2 & H3). destruct o as [l|]; simpl; [|by rewrite app_nil_r].
  unfold resolved_ok, apply_limit. rewrite !fmap_app. simpl.
  pose proof (tighterLimit_least _ _ (rl_orderSource r) (li_MaxOrderNotional l) src H1) as T1.
  pose proof (tighterLimit_least _ _ (rl_positionSource r) (li_MaxPositionNotional l) src H2) as T2.
  pose proof (tighterLimit_least _ _ (rl_exposureSource r) (li_MaxAccountExposure l) src H3) as T3.
  by destruct (tighterLimit (rl_MaxOrderNotional r) _ _ _), (tighterLimit (rl_MaxPositionNotional r) _ _ _),
    (tighterLimit (rl_MaxAccountExposure r) _ _ _).
Qed.

Lemma resolveLimits_ok order cfg : resolved_ok (applicable cfg order) (resolveLimits order cfg).
Proof.
  unfold applicable, resolveLimits. cbv zeta. rewrite app_comm_cons, app_assoc. apply apply_limit_ok.
  destruct (md_StrategyID (so_Metadata order) ≠? ""); simpl option_list; rewrite ?app_nil_r;
    [apply apply_limit_ok|]; apply (apply_limit_ok [_]); split_and!; apply least_positive_one.
Qed.

(** ** Exposure *)

Lemma Sign_val (x : D) : Sign x = match (dval x ?= 0) with Lt => (-1)%Z | Eq => 0%Z | Gt => 1%Z end.
Proof. unfold Sign. by rewrite dcmp_zero. Qed.

(** [exposureIncreased] is false exactly when the position shrinks or stays, on its side. *)
Lemma exposureIncreased_false (cur proj : D) :
  exposureIncreased cur proj = false <->
  Qabs (dval proj) <= Qabs (dval cur) /\ 0 <= dval cur * dval proj.
Proof.
  unfold exposureIncreased. destruct (IsZero cur) eqn:Hc.
  - apply IsZero_spec in Hc. destruct (IsZero proj) eqn:Hp; simpl; dec_hyps; rewrite Hc.
    + rewrite Hp. split; [|done]. intros _. split; [apply Qle_refl|]. rewrite Qmult_0_l. apply Qle_refl.
    + split; [done|]. intros [H _]. exfalso. apply Hp. change (Qabs 0) with 0 in H.
      pose proof (Qabs_nonneg (dval proj)). apply Qabs_Qle_condition in H. lra.
  - destruct (IsZero proj) eqn:Hp.
    + apply IsZero_spec in Hp. split; [|done]. intros _. rewrite Hp. change (Qabs 0) with 0.
      split; [apply Qabs_nonneg|]. rewrite Qmult_0_r. apply Qle_refl.
    + rewrite !Sign_val. apply IsZero_false in Hc, Hp.
      destruct (Qcompare_spec (dval cur) 0) as [E|E|E]; [done|..];
        (destruct (Qcompare_spec (dval proj) 0) as [F|F|F]; [done|..]); cbn [Z.mul Z.ltb Z.compare Pos.mul].
      all: try (split; [done|intros [_ H]; exfalso; nra]).
  all: change (GreaterThan (dabs proj) (dabs cur) = false <-> Qabs (dval proj) <= Qabs (dval cur) /\ 0 <= dval cur * dval proj).
  all: rewrite GreaterThan_false, !dval_abs; split; [intros H; split; [done|nra]|tauto].
Qed.

Lemma applySigned_val cur side (q : D) :
  dval (applySignedOrder cur side q) == dval cur + (if side ≟ OrderSideSell then - dval q else dval q).
Proof. unfold applySignedOrder. destruct (side ≟ OrderSideSell); dec_rew; lra. Qed.

(** An order that does not increase the exposure brings the position strictly towards zero
    and not past it. *)
Lemma reducing_order c order :
  0 < dval (so_Quantity order) -> increasesCurrentExposure c order = false ->
  let cur := currentSigned c (so_AccountID order) (so_InstrumentID order) in
  let proj := applySignedOrder cur (so_Side order) (so_Quantity order) in
  Qabs (dval proj) < Qabs (dval cur) /\ 0 <= dval cur * dval proj.
Proof.
  intros Hq H cur proj. apply exposureIncreased_false in H as [H1 H2]. fold cur proj in H1, H2.
  split; [|done]. apply Qle_lteq in H1 as [|H1]; [done|exfalso].
  assert (Hv : dval proj == dval cur + (if so_Side order ≟ OrderSideSell then - dval (so_Quantity order) else dval (so_Quantity order)))
    by apply applySigned_val.
  revert H1. apply Qabs_case; intros ?; apply Qabs_case; intros ?; destruct (so_Side order ≟ OrderSideSell); intros; nra.
Qed.

(** ** What [check_order] establishes *)

Section accepted.
Context (Instruments : Site -> list Instrument).

(** Within the limits: with the order's estimated price [price]. *)
Definition within c cfg order (price : D) (l : Limits) : Prop :=
  (0 < dval (li_MaxOrderNotional l) ->
     0 < dval price /\ dval price * dval (so_Quantity order) <= dval (li_MaxOrderNotional l)) /\
  (0 < dval (li_MaxPositionNotional l) ->
     0 < dval price /\ Qabs (dval (projectedSignedPosition c order)) * dval price <= dval (li_MaxPositionNotional l)) /\
  (0 < dval (li_MaxAccountExposure l) ->
     0 < dval price /\ exists exposure, projectedAccountExposure Instruments c order price cfg = Some exposure /\
       dval exposure <= dval (li_MaxAccountExposure l)).

(** The tests on the instrument and the trading state. *)
Definition tradable c cfg order : Prop :=
  exists inst, cache_Instrument c (so_InstrumentID order) = Some inst /\
    in_Status inst = InstrumentStatusTrading /\ ValidateSize inst (so_Quantity order) = Ok tt /\
    (requiresLimitPrice (so_Type order) = true -> ValidatePrice inst (so_Price order) = Ok tt) /\
    (0 < dval (so_TriggerPrice order) -> ValidatePrice inst (so_TriggerPrice order) = Ok tt) /\
    (0 < dval (so_ActivationPrice order) -> ValidatePrice inst (so_ActivationPrice order) = Ok tt) /\
    checkAvailableInitialMargin Instruments c order inst (estimatedPrice c order) = Ok tt /\
    (normalizedTradingState (cf_TradingState cfg) = TradingStateActive \/
     normalizedTradingState (cf_TradingState cfg) = TradingStateReducing).

Lemma price_check_ok b inst p : price_check b inst p = Ok tt -> b = true -> ValidatePrice inst p = Ok tt.
Proof. by intros H ->. Qed.

Lemma within_ok c cfg order price ls (r : resolvedLimits) :
  resolved_ok ls r ->
  (0 < dval (rl_MaxOrderNotional r) ->
     0 < dval price /\ dval price * dval (so_Quantity order) <= dval (rl_MaxOrderNotional r)) ->
  (0 < dval (rl_MaxPositionNotional r) ->
     0 < dval price /\ Qabs (dval (projectedSignedPosition c order)) * dval price <= dval (rl_MaxPositionNotional r)) ->
  (0 < dval (rl_MaxAccountExposure r) ->
     0 < dval price /\ exists exposure, projectedAccountExposure Instruments c order price cfg = Some exposure /\
       dval exposure <= dval (rl_MaxAccountExposure r)) ->
  Forall (within c cfg order price) ls.
Proof.
  intros ([H1 _] & [H2 _] & [H3 _]) A1 A2 A3. apply Forall_forall. intros l Hl.
  assert (Hin : forall f : Limits -> D, f l ∈ f <$> ls) by (intros; by apply list_elem_of_fmap_2).
  split; [|split]; intros Hp.
  - destruct (H1 _ (Hin _) Hp) as [Hr Hle]. destruct (A1 Hr). split; [done|]. lra.
  - destruct (H2 _ (Hin _) Hp) as [Hr Hle]. destruct (A2 Hr). split; [done|]. lra.
  - destruct (H3 _ (Hin _) Hp) as [Hr Hle]. destruct (A3 Hr) as (? & x & ? & ?). split; [done|].
    exists x. split; [done|]. lra.
Qed.

Lemma check_order_ok c cfg note order dup existing :
  check_order Instruments c cfg note order dup existing = Ok tt ->
  tradable c cfg order /\ Forall (within c cfg order (estimatedPrice c order)) (applicable cfg order) /\
  (normalizedTradingState (cf_TradingState cfg) = TradingStateReducing \/ so_ReduceOnly order = true ->
     increasesCurrentExposure c order = false) /\
  (dup = true -> so_ClientOrderID order <> ""%string -> OrderByClientID c (so_AccountID order) (so_ClientOrderID order) = None) /\
  (existing = false -> (0 < cf_MaxOpenOrders cfg)%Z ->
     (Z.of_nat (List.length (OpenOrders c (so_AccountID order))) < cf_MaxOpenOrders cfg)%Z).
Proof.
  intros H. unfold check_order in H. cbv zeta in H.
  destruct (dup && _ && _) eqn:Hdup; [discriminate H|].
  destruct (negb existing && _ && _) eqn:Hopen; [discriminate H|].
  destruct (cache_Instrument c (so_InstrumentID order)) as [inst|] eqn:Hinst; [|discriminate H].
  peel H. repeat match goal with u : unit |- _ => destruct u end.
  rename Heqr into Hstate, Heqr0 into Hsize, Heqr1 into Hp, Heqr2 into Ht, Heqr3 into Hact, Heqr4 into L1,
    Heqr5 into L2, Heqr6 into L3, Heqr7 into Hmargin.
  split; [|split; [|split; [|split]]].
  - exists inst. split; [done|]. split; [by bools|]. split; [done|]. split; [by apply price_check_ok|].
    split; [intros Hq; apply IsPositive_spec in Hq; by eapply price_check_ok|].
    split; [intros Hq; apply IsPositive_spec in Hq; by eapply price_check_ok|].
    split; [done|]. destruct (normalizedTradingState _); first [discriminate Hstate | tauto].
  - eapply within_ok; [apply resolveLimits_ok|..]; intros Hq; apply IsPositive_spec in Hq.
    + rewrite Hq in L1. peel L1. bools. dec_hyps. rewrite dval_mul in *. tauto.
    + rewrite Hq in L2. peel L2. bools. dec_hyps. unfold projectedPositionNotional in *.
      rewrite dval_mul, dval_abs in *. tauto.
    + rewrite Hq in L3. destruct (IsPositive (estimatedPrice c order)) eqn:Hpr; [|discriminate L3]. simpl in L3.
      destruct (projectedAccountExposure _ _ _ _ _) as [x|]; [|discriminate L3]. peel L3. dec_hyps.
      split; [done|]. by exists x.
  - intros [Hr|Hr].
    + rewrite Hr in Hstate. by destruct (increasesCurrentExposure c order).
    + match goal with E : so_ReduceOnly order && _ = false |- _ => by rewrite Hr in E end.
  - intros -> Hne. rewrite (bool_decide_false _ Hne) in Hdup. simpl in Hdup. by destruct (OrderByClientID _ _ _).
  - intros -> Hm. simpl in Hopen. apply Z.ltb_lt in Hm. rewrite Hm in Hopen. simpl in Hopen. lia.
Qed.

Lemma checkCommandRate_same e cfg now :
  rk_cache (checkCommandRate e cfg now).1 = rk_cache e /\ rk_cfg (checkCommandRate e cfg now).1 = rk_cfg e /\
  rk_cmdQueue (checkCommandRate e cfg now).1 = rk_cmdQueue e /\
  rk_evtQueue (checkCommandRate e cfg now).1 = rk_evtQueue e /\
  rk_processedCommands (checkCommandRate e cfg now).1 = rk_processedCommands e /\
  rk_rejectedCommands (checkCommandRate e cfg now).1 = rk_rejectedCommands e /\
  rk_droppedCommands (checkCommandRate e cfg now).1 = rk_droppedCommands e.
Proof. unfold checkCommandRate. cbv zeta. by repeat case_match. Qed.

(** A check touches the command-rate window and its counter only. *)
Lemma check_engine e order dup existing now :
  exists e1, (check Instruments e order dup existing now).1 = e1 /\
    rk_cache e1 = rk_cache e /\ rk_cfg e1 = rk_cfg e /\ rk_cmdQueue e1 = rk_cmdQueue e /\
    rk_evtQueue e1 = rk_evtQueue e /\ rk_processedCommands e1 = rk_processedCommands e /\
    rk_rejectedCommands e1 = rk_rejectedCommands e /\ rk_droppedCommands e1 = rk_droppedCommands e.
Proof.
  unfold check. destruct (SubmitOrder_Validate order); [|eauto 10].
  pose proof (checkCommandRate_same e (rk_cfg e) now) as Hs.
  destruct (checkCommandRate e (rk_cfg e) now) as [e1 [u|err]]; simpl in *; eauto.
Qed.

Lemma check_accepts e order dup existing now :
  (check Instruments e order dup existing now).2 = Ok tt ->
  SubmitOrder_Validate order = Ok tt /\
  check_order Instruments (rk_cache e) (rk_cfg e) (rk_stateNote e) order dup existing = Ok tt.
Proof.
  unfold check. destruct (SubmitOrder_Validate order) as [[]|]; [|done]. cbv zeta.
  pose proof (checkCommandRate_same e (rk_cfg e) now) as (Hs & _).
  destruct (checkCommandRate e (rk_cfg e) now) as [e1 [u|err]]; simpl in *; [|done]. by rewrite Hs.
Qed.
End accepted.

(** ** The command-rate window *)

Definition rate_window cfg : Z := if (cf_CommandRateWindow cfg <=? 0)%Z then Second else cf_CommandRateWindow cfg.

(** The times at which a run of checks passes the rate test. *)
Fixpoint admitted_times e cfg (nows : list time) : list time :=
  match nows with
  | [] => []
  | now :: nows =>
      match checkCommandRate e cfg now with
      | (e, Ok _) => now :: admitted_times e cfg nows
      | (e, Fail _) => admitted_times e cfg nows
      end
  end.

(** How many of the times lie in [(t - window, t]]. *)
Definition in_window (w t : Z) (xs : list time) : nat := List.length (List.filter (fun x => (t - w <? x)%Z && (x <=? t)%Z) xs).

Definition later (cut : Z) (xs : list time) : list time := List.filter (fun x => After x cut) xs.

Lemma later_later cut cut' xs : (cut' <= cut)%Z -> later cut (later cut' xs) = later cut xs.
Proof.
  intros H. unfold later. induction xs as [|x xs IH]; [done|]. simpl.
  destruct (After x cut') eqn:E'; simpl; [by rewrite IH|]. rewrite IH.
  destruct (After x cut) eqn:E; [|done]. bools. lia.
Qed.

Lemma later_app cut xs ys : later cut (xs ++ ys) = later cut xs ++ later cut ys.
Proof. apply List.filter_app. Qed.

Record window_ok (w max last : Z) (history window : list time) : Prop := {
  wk_past : forall x, x ∈ history -> (x <= last)%Z;
  wk_same : forall cut, (last - w <= cut)%Z -> later cut window = later cut history;
  wk_count : forall t, (Z.of_nat (in_window w t history) <= max)%Z;
}.

Lemma in_window_app w t xs ys : in_window w t (xs ++ ys) = (in_window w t xs + in_window w t ys)%nat.
Proof. unfold in_window. by rewrite List.filter_app, length_app. Qed.

Lemma in_window_later w t xs cut :
  (cut <= t - w)%Z -> (in_window w t xs <= List.length (later cut xs))%nat.
Proof.
  intros H. unfold in_window, later. induction xs as [|x xs IH]; [done|]. simpl.
  destruct (_ && _) eqn:E; simpl; [|case_match; simpl; lia].
  apply andb_true_iff in E as [E _]. apply Z.ltb_lt in E.
  assert (After x cut = true) as -> by (apply Z.ltb_lt; lia). simpl. lia.
Qed.

Lemma window_ok_later w max last now history window :
  window_ok w max last history window -> (last <= now)%Z -> window_ok w max now history (later (now - w) window).
Proof.
  intros [H1 H2 H3] Hle. split; [|intros cut Hc|done].
  - intros x Hx. specialize (H1 x Hx). lia.
  - rewrite later_later by done. apply H2. lia.
Qed.

Lemma window_ok_admit w max last now history window :
  window_ok w max last history window -> (last <= now)%Z -> (0 < w)%Z ->
  (Z.of_nat (List.length (later (now - w) window)) < max)%Z ->
  window_ok w max now (history ++ [now]) (later (now - w) window ++ [now]).
Proof.
  intros Hok Hle Hw Hlen. destruct Hok as [H1 H2 H3]. split.
  - intros x [Hx| ->%list_elem_of_singleton]%elem_of_app; [|lia]. specialize (H1 x Hx). lia.
  - intros cut Hc. rewrite !later_app, later_later by done. rewrite H2 by lia. done.
  - intros t. rewrite in_window_app. destruct (Z.lt_ge_cases t now) as [Ht|Ht].
    + assert (in_window w t [now] = 0%nat) as ->; [|rewrite Nat.add_0_r; apply H3].
      unfold in_window. simpl. assert ((now <=? t)%Z = false) as -> by (apply Z.leb_gt; lia). by rewrite andb_false_r.
    + assert (in_window w t [now] <= 1)%nat by (unfold in_window; simpl; case_match; simpl; lia).
      pose proof (in_window_later w t history (now - w)). rewrite <- H2 in H0 by lia. lia.
Qed.

Lemma checkCommandRate_step e cfg now :
  (0 < cf_MaxCommandsPerWindow cfg)%Z ->
  let kept := later (now - rate_window cfg) (rk_cmdWindow e) in
  let '(e', out) := checkCommandRate e cfg now in
  if (cf_MaxCommandsPerWindow cfg <=? Z.of_nat (List.length kept))%Z
  then is_ok out = false /\ rk_cmdWindow e' = kept
  else out = Ok tt /\ rk_cmdWindow e' = kept ++ [now].
Proof.
  intros Hm kept. unfold checkCommandRate. rewrite (proj2 (Z.leb_gt _ _) Hm). cbv zeta.
  fold (rate_window cfg). change (List.filter _ (rk_cmdWindow e)) with kept.
  by destruct (_ <=? _)%Z.
Qed.

Lemma admitted_ok cfg nows : forall e last history,
  (0 < cf_MaxCommandsPerWindow cfg)%Z -> Sorted Z.le nows -> (forall now, now ∈ nows -> (last <= now)%Z) ->
  window_ok (rate_window cfg) (cf_MaxCommandsPerWindow cfg) last history (rk_cmdWindow e) ->
  forall t, (Z.of_nat (in_window (rate_window cfg) t (history ++ admitted_times e cfg nows)) <= cf_MaxCommandsPerWindow cfg)%Z.
Proof.
  induction nows as [|now nows IH]; intros e last history Hm Hs Hlast Hok t; simpl.
  { rewrite app_nil_r. apply Hok. }
  assert (Hle : (last <= now)%Z) by (apply Hlast; set_solver).
  assert (Hw : (0 < rate_window cfg)%Z).
  { unfold rate_window, Second. destruct (Z.leb_spec (cf_CommandRateWindow cfg) 0); lia. }
  apply Sorted_StronglySorted in Hs; [|intros ???; lia]. apply StronglySorted_inv in Hs as [Hs Hall].
  rewrite Forall_forall in Hall. apply StronglySorted_Sorted in Hs.
  pose proof (checkCommandRate_step e cfg now Hm) as Hstep. cbv zeta in Hstep.
  destruct (checkCommandRate e cfg now) as [e' out].
  destruct (Z.leb_spec (cf_MaxCommandsPerWindow cfg) (Z.of_nat (List.length (later (now - rate_window cfg) (rk_cmdWindow e))))).
  - destruct Hstep as [Hf Hwin]. destruct out as [u|]; [discriminate Hf|].
    apply (IH e' now); [done|done|done|]. rewrite Hwin. by eapply window_ok_later.
  - destruct Hstep as [-> Hwin]. change (now :: ?l) with ([now] ++ l). rewrite app_assoc.
    apply (IH e' now); [done|done|done|]. rewrite Hwin. by eapply window_ok_admit.
Qed.

(** ** Runs of the command and event loops *)

(** What can happen to a running engine, the trading state apart. *)
Inductive RiskOp :=
  | OpExecute (order : SubmitOrder)
  | OpProcess (event : ExecutionEvent)
  | OpCommand (Instruments : Site -> list Instrument) (now : time)
  | OpEvent.

(** The engine, the orders queued and the decisions made so far. *)
Definition run_risk_op (s : Engine * list SubmitOrder * list Decision) (op : RiskOp) :=
  let '(e, queued, decided) := s in
  match op with
  | OpExecute order =>
      match Execute e order with (e, Ok _) => (e, queued ++ [order], decided) | (e, Fail _) => (e, queued, decided) end
  | OpProcess event => ((Process e event).1, queued, decided)
  | OpCommand Instruments now =>
      match runCommandQueue Instruments e now with
      | (e, Some d) => (e, queued, decided ++ [d]) | (e, None) => (e, queued, decided)
      end
  | OpEvent => (runEventQueue e, queued, decided)
  end.

Definition run_risk e ops := foldl run_risk_op (e, [], []) ops.

Lemma handleCommand_spec Instruments e order now :
  let '(e', d) := handleCommand Instruments e order now in
  let out := (Check Instruments e order now).2 in
  rk_cache e' = rk_cache e /\ rk_cfg e' = rk_cfg e /\ rk_cmdQueue e' = rk_cmdQueue e /\ rk_evtQueue e' = rk_evtQueue e /\
  rk_processedCommands e' = (rk_processedCommands e + 1)%Z /\
  rk_rejectedCommands e' = (rk_rejectedCommands e + if is_ok out then 0 else 1)%Z /\
  rk_droppedCommands e' = rk_droppedCommands e /\
  de_Order d = order /\ Accepted d = is_ok out.
Proof.
  unfold handleCommand. destruct (check_engine Instruments e order true false now) as (e1 & He & H1 & H2 & H3 & H4 & H5 & H6 & H7).
  unfold Check. destruct (check Instruments e order true false now) as [e2 [u|err]]; simpl in He |- *; subst e2;
    split_and!; try done; lia.
Qed.

Lemma runEventQueue_same e :
  rk_cfg (runEventQueue e) = rk_cfg e /\ rk_cmdQueue (runEventQueue e) = rk_cmdQueue e /\
  rk_processedCommands (runEventQueue e) = rk_processedCommands e /\
  rk_rejectedCommands (runEventQueue e) = rk_rejectedCommands e /\
  rk_droppedCommands (runEventQueue e) = rk_droppedCommands e.
Proof.
  unfold runEventQueue. destruct (rk_evtQueue e); [done|].
  destruct (applyExecutionEvent (rk_cache e) _) as [c [u|err]]; done.
Qed.

Lemma Process_same e event :
  rk_cfg (Process e event).1 = rk_cfg e /\ rk_cmdQueue (Process e event).1 = rk_cmdQueue e /\
  rk_processedCommands (Process e event).1 = rk_processedCommands e /\
  rk_rejectedCommands (Process e event).1 = rk_rejectedCommands e /\
  rk_droppedCommands (Process e event).1 = rk_droppedCommands e.
Proof. unfold Process. destruct (ExecutionEvent_Validate event); [|done]. by case_match. Qed.

(** ** Exposure does not depend on the enumeration *)

(** One instrument's share of the exposure, when nothing is converted. *)
Definition exposure_share c order (orderPrice : D) (inst : Instrument) : Q :=
  let own := in_ID inst ≟ so_InstrumentID order in
  let projected := signedPositionWithOpenOrders c (so_AccountID order) (in_ID inst) in
  let projected := if own then applySignedOrder projected (so_Side order) (so_Quantity order) else projected in
  let price := if own then orderPrice else exposurePrice c (so_AccountID order) (in_ID inst) projected in
  if IsZero projected then 0
  else if IsPositive price then Qabs (dval projected) * dval price else 0.

Definition sumQ (l : list Q) : Q := foldr Qplus 0 l.

Lemma sumQ_perm l l' : l ≡ₚ l' -> sumQ l == sumQ l'.
Proof. induction 1; simpl; lra. Qed.

Lemma addExposure_share Insts c order price t inst :
  exists x, addExposure Insts c order price "" (Some t) inst = Some x /\
    dval x == dval t + exposure_share c order price inst.
Proof.
  unfold addExposure, exposure_share. cbn [mbind option_bind]. cbv zeta.
  destruct (IsZero _) eqn:Hz; [exists t; split; [done|]; lra|].
  destruct (IsPositive _) eqn:Hp; [|exists t; split; [done|]; lra].
  eexists. split; [done|]. rewrite dval_add, dval_mul, dval_abs. reflexivity.
Qed.

Lemma exposure_sum Insts c order price l : forall t,
  exists x, foldl (addExposure Insts c order price "") (Some t) l = Some x /\
    dval x == dval t + sumQ (exposure_share c order price <$> l).
Proof.
  induction l as [|inst l IH]; intros t; [exists t; split; [done|]; simpl; lra|].
  change (sumQ (exposure_share c order price <$> inst :: l))
    with (exposure_share c order price inst + sumQ (exposure_share c order price <$> l)). cbn [foldl].
  destruct (addExposure_share Insts c order price t inst) as (x & -> & Hx).
  destruct (IH x) as (y & -> & Hy). exists y. split; [done|]. rewrite Hy, Hx. lra.
Qed.

(** ** The properties *)

(** Without a target currency the projected exposure is the sum of the instruments'
    shares, so it does not depend on the order in which Go enumerates them. *)
Theorem exposure_enumeration_independent Insts c cfg order price :
  accountExposureCurrency c (so_AccountID order) cfg = ""%string ->
  Insts SiteExposure ≡ₚ cache_Instruments c ->
  exists exposure, projectedAccountExposure Insts c order price cfg = Some exposure /\
    dval exposure == sumQ (exposure_share c order price <$> cache_Instruments c).
Proof.
  intros Hcur Hperm. unfold projectedAccountExposure. rewrite Hcur.
  destruct (exposure_sum Insts c order price (Insts SiteExposure) dzero) as (x & Hx & Hv).
  exists x. split; [done|]. rewrite Hv, dval_zero, Qplus_0_l. apply sumQ_perm. by apply fmap_Permutation.
Qed.


(** Resolved limits.  Each of the three limits in force is the least of the positive ones
    among the engine's, the account's, the strategy's and the instrument's; it is positive
    exactly when one of them is. *)
Theorem resolveLimits_least order cfg :
  resolved_ok (applicable cfg order) (resolveLimits order cfg).
Proof. apply resolveLimits_ok. Qed.

(** C30: the command-rate limit.  With a positive limit and a clock that does not go back,
    whatever sequence of checks is made, no half-open window of the configured length (one
    second by default) ever holds more admitted commands than the limit. *)
Theorem command_rate_bound e cfg nows t :
  (0 < cf_MaxCommandsPerWindow cfg)%Z -> rk_cmdWindow e = [] -> Sorted Z.le nows ->
  (Z.of_nat (in_window (rate_window cfg) t (admitted_times e cfg nows)) <= cf_MaxCommandsPerWindow cfg)%Z.
Proof.
  intros Hm He Hs. destruct nows as [|now nows]; [simpl; unfold in_window; simpl; lia|].
  apply (admitted_ok cfg (now :: nows) e now []); [done|done| |].
  - intros x Hx. apply Sorted_StronglySorted in Hs; [|intros ???; lia].
    apply StronglySorted_inv in Hs as [_ Hall]. rewrite Forall_forall in Hall.
    apply elem_of_cons in Hx as [->|Hx]; [lia|by apply Hall].
  - rewrite He. split; [set_solver|done|]. intros u. unfold in_window. simpl. lia.
Qed.


(** The command queue is first-in first-out and loses nothing it took: at every moment
    the orders decided on, in order, followed by the orders waiting, are the orders waiting
    at the start followed by those [Execute] took; the queue never exceeds its capacity;
    and the counters of processed and rejected commands count the decisions and the
    rejections among them. *)
Theorem command_queue_fifo e ops :
  (Z.of_nat (List.length (rk_cmdQueue e)) <= queue_size (rk_cfg e))%Z ->
  let '(e', queued, decided) := run_risk e ops in
  (de_Order <$> decided) ++ rk_cmdQueue e' = rk_cmdQueue e ++ queued /\
  (Z.of_nat (List.length (rk_cmdQueue e')) <= queue_size (rk_cfg e'))%Z /\
  rk_processedCommands e' = (rk_processedCommands e + Z.of_nat (List.length decided))%Z /\
  rk_rejectedCommands e' = (rk_rejectedCommands e + Z.of_nat (count (fun d => negb (Accepted d)) decided))%Z.
Proof.
  intros Hcap. unfold run_risk.
  assert (H : forall s : Engine * list SubmitOrder * list Decision,
    let inv (s : Engine * list SubmitOrder * list Decision) :=
      (de_Order <$> s.2) ++ rk_cmdQueue s.1.1 = rk_cmdQueue e ++ s.1.2 /\
      (Z.of_nat (List.length (rk_cmdQueue s.1.1)) <= queue_size (rk_cfg s.1.1))%Z /\
      rk_processedCommands s.1.1 = (rk_processedCommands e + Z.of_nat (List.length s.2))%Z /\
      rk_rejectedCommands s.1.1 = (rk_rejectedCommands e + Z.of_nat (count (fun d => negb (Accepted d)) s.2))%Z in
    inv s -> inv (foldl run_risk_op s ops)).
  { cbv zeta. induction ops as [|op ops IH]; intros [[e1 queued] decided] Hinv; [done|]. apply IH. simpl in Hinv |- *.
    destruct Hinv as (Hq & Hlen & Hp & Hr). destruct op as [order|event|Insts now|]; simpl.
    - unfold Execute. destruct (Z.ltb_spec (Z.of_nat (List.length (rk_cmdQueue e1))) (queue_size (rk_cfg e1))); simpl; [|done].
      split; [by rewrite !app_assoc, Hq|]. split; [|done]. rewrite length_app. simpl. lia.
    - by destruct (Process_same e1 event) as (-> & -> & -> & -> & _).
    - unfold runCommandQueue. destruct (rk_cmdQueue e1) as [|order rest] eqn:Hrest; [simpl; rewrite Hrest; done|].
      pose proof (handleCommand_spec Insts (e1 <| rk_cmdQueue := rest |>) order now) as Hs. cbv zeta in Hs.
      destruct (handleCommand Insts _ order now) as [e2 d].
      destruct Hs as (_ & Hcfg & Hcmd & _ & Hproc & Hrej & _ & Hord & Hacc). simpl in *.
      rewrite Hcfg, Hcmd, Hproc, Hrej, Hp, Hr, fmap_app, length_app. simpl. rewrite Hord, <- app_assoc. simpl.
      split; [done|]. simpl in Hlen. split; [lia|]. split; [lia|].
      unfold count. rewrite List.filter_app, length_app. simpl. rewrite Hacc. destruct (is_ok _); simpl; lia.
    - by destruct (runEventQueue_same e1) as (-> & -> & -> & -> & _). }
  specialize (H (e, [], [])). destruct (foldl run_risk_op (e, [], []) ops) as [[e' queued] decided].
  apply H. simpl. rewrite app_nil_r. split; [done|]. split; [done|]. unfold count. simpl. split; lia.
Qed.
End facts.
