(* ===== verification/Matching.v ===== *)
(** * Matching of the back-test engine
    (backtest/matching_core.go, backtest/fill_model.go, and the price, trigger and quantity functions of backtest/runner.go)

    What an order matches, at what price and for how much, given the last market data.  The
    runtime's maps of market data, consumed liquidity and trailing extremes are records of their own here.
    A [float64] probability is a rational (a NaN, which [validateProbability] lets through, is
    left out), and the random source of math/rand is a state with its next draw. *)
From stdpp Require Import base gmap list strings.
From Stdlib Require Import QArith.
From S2P Require Import Prelude Decimals Enums Identifiers Orders Market Accounts Cache.

Open Scope go_scope.

(** [rand.Rand] of a seed, and its [Float64]. *)
Class Rand := {
  Rng : Type;
  NewSource : Z -> Rng;
  Float64 : Rng -> Rng * Q;
}.

Section matching.
Context {DD : Decimal}.

(** ** Fill models (fill_model.go) *)

Inductive FillSource :=
  | FillSourceTicker | FillSourceOrderBook | FillSourceQuoteTick | FillSourceTradeTick | FillSourceBar
  | FillSourceOther (s : string).

(** [backtest.FillContext] *)
Record FillContext := mkFillContext {
  fx_Order : OrderStatusReport;
  fx_Instrument : Instrument;
  fx_Source : FillSource;
  fx_Price : D;
  fx_Quantity : D;
  fx_Timestamp : time;
  fx_LimitTouch : bool;
  fx_Taker : bool;
}.

(** [backtest.FillModel]: an implementation with its state. *)
Class FillModel := {
  FM : Type;
  ShouldFillLimitTouch : FM -> FillContext -> FM * bool;
  ApplySlippage : FM -> FillContext -> D -> FM * D;
}.

Record FillModelConfig := mkFillModelConfig {
  fc_ProbFillOnLimit : Q;
  fc_ProbFillOnLimitSet : bool;
  fc_ProbSlippage : Q;
  fc_RandomSeed : Z;
}.

Definition validateProbability (value : Q) : res unit :=
  if negb (Qle_bool 0 value) || negb (Qle_bool value 1)
  then Fail (mkErr ErrOther "must be in [0,1]") else Ok tt.

Definition isL1FillSource (source : FillSource) : bool :=
  match source with
  | FillSourceTicker | FillSourceQuoteTick | FillSourceTradeTick | FillSourceBar => true
  | _ => false
  end.

Section probabilistic.
Context {RR : Rand}.

(** [backtest.ProbabilisticFillModel] *)
Record ProbabilisticFillModel := mkProbabilisticFillModel {
  pm_probFillOnLimit : Q;
  pm_probSlippage : Q;
  pm_rng : Rng;
}.

Definition NewFillModel (cfg : FillModelConfig) : res ProbabilisticFillModel :=
  let probFillOnLimit := if negb (fc_ProbFillOnLimitSet cfg) && Qeq_bool (fc_ProbFillOnLimit cfg) 0
                         then 1%Q else fc_ProbFillOnLimit cfg in
  ensure validateProbability probFillOnLimit ;;
  ensure validateProbability (fc_ProbSlippage cfg) ;;
  Ok (mkProbabilisticFillModel probFillOnLimit (fc_ProbSlippage cfg) (NewSource (fc_RandomSeed cfg))).

(** [draw]: no number is drawn for a probability of zero or one. *)
Definition draw (m : ProbabilisticFillModel) (probability : Q) : ProbabilisticFillModel * bool :=
  if Qle_bool probability 0 then (m, false)
  else if Qle_bool 1 probability then (m, true)
  else
    let '(rng, x) := Float64 (pm_rng m) in
    (mkProbabilisticFillModel (pm_probFillOnLimit m) (pm_probSlippage m) rng, negb (Qle_bool probability x)).

Definition Probabilistic_ShouldFillLimitTouch (m : ProbabilisticFillModel) (ctx : FillContext)
    : ProbabilisticFillModel * bool :=
  if negb (fx_LimitTouch ctx) then (m, true) else draw m (pm_probFillOnLimit m).

Definition Probabilistic_ApplySlippage (m : ProbabilisticFillModel) (ctx : FillContext) (price : D)
    : ProbabilisticFillModel * D :=
  if negb (fx_Taker ctx) || negb (isL1FillSource (fx_Source ctx)) then (m, price)
  else
    let '(m, slips) := draw m (pm_probSlippage m) in
    if negb slips then (m, price)
    else
      let tick := in_PriceTick (fx_Instrument ctx) in
      if negb (IsPositive tick) then (m, price)
      else if or_Side (fx_Order ctx) ≟ OrderSideSell then
        let slipped := dsub price tick in
        if IsPositive slipped then (m, slipped) else (m, price)
      else (m, dadd price tick).

#[global] Instance probabilistic_fill_model : FillModel := {|
  FM := ProbabilisticFillModel;
  ShouldFillLimitTouch := Probabilistic_ShouldFillLimitTouch;
  ApplySlippage := Probabilistic_ApplySlippage;
|}.
End probabilistic.

(** ** Orders and prices *)

Definition openQuantity (order : OrderStatusReport) : D :=
  if IsPositive (or_LeavesQuantity order) then or_LeavesQuantity order
  else dsub (or_Quantity order) (or_FilledQuantity order).

Definition canMatch (order : OrderStatusReport) (price : D) : bool :=
  if (or_Type order ≟ OrderTypeMarket) || (or_Type order ≟ OrderTypeMarketToLimit) ||
     (or_Type order ≟ OrderTypeStopMarket) || (or_Type order ≟ OrderTypeMarketIfTouched) ||
     (or_Type order ≟ OrderTypeTrailingStopMarket) then true
  else if or_Side order ≟ OrderSideBuy then LessThanOrEqual price (or_Price order)
  else GreaterThanOrEqual price (or_Price order).

Definition backtestOrderTypeCanRest (t : OrderType) : bool :=
  match t with
  | OrderTypeLimit | OrderTypeStopLimit | OrderTypeLimitIfTouched | OrderTypeTrailingStopLimit => true
  | _ => false
  end.

Definition isLimitTouch (order : OrderStatusReport) (price : D) : bool :=
  if negb (IsPositive (or_Price order)) then false
  else match or_Type order with
       | OrderTypeLimit | OrderTypeStopLimit | OrderTypeLimitIfTouched | OrderTypeTrailingStopLimit =>
           Equal price (or_Price order)
       | _ => false
       end.

Definition backtestFillIsMaker (order : OrderStatusReport) (fillTime : time) : bool :=
  if negb (backtestOrderTypeCanRest (or_Type order)) then false
  else if time_IsZero (or_LastUpdatedTime order) || time_IsZero fillTime then false
  else After fillTime (or_LastUpdatedTime order).

Definition backtestPostOnlyCanFill (order : OrderStatusReport) (fillTime : time) : bool :=
  negb (or_PostOnly order) || backtestFillIsMaker order fillTime.

Definition backtestFillFeeRate (order : OrderStatusReport) (fillTime : time) (inst : Instrument) : D :=
  if backtestFillIsMaker order fillTime then in_MakerFee inst else in_TakerFee inst.

Definition backtestFillFeeCurrency (inst : Instrument) : Currency :=
  if in_Settle inst ≠? "" then in_Settle inst else in_Quote inst.

Definition stopTrigger (order : OrderStatusReport) (price : D) : bool :=
  if or_Side order ≟ OrderSideBuy then GreaterThanOrEqual price (or_TriggerPrice order)
  else LessThanOrEqual price (or_TriggerPrice order).

Definition touchedTrigger (order : OrderStatusReport) (price : D) : bool :=
  if or_Side order ≟ OrderSideBuy then LessThanOrEqual price (or_TriggerPrice order)
  else GreaterThanOrEqual price (or_TriggerPrice order).

Definition barMatchPrice (order : OrderStatusReport) (bar : Bar) : option D :=
  let at_close := if negb (IsPositive (br_Close bar)) || negb (canMatch order (br_Close bar)) then None
                  else Some (br_Close bar) in
  match or_Type order with
  | OrderTypeLimit | OrderTypeStopLimit | OrderTypeLimitIfTouched | OrderTypeTrailingStopLimit =>
      if negb (IsPositive (or_Price order)) then None
      else if (or_Side order ≟ OrderSideBuy) && IsPositive (br_Low bar) && LessThanOrEqual (br_Low bar) (or_Price order)
      then Some (or_Price order)
      else if (or_Side order ≟ OrderSideSell) && IsPositive (br_High bar) && GreaterThanOrEqual (br_High bar) (or_Price order)
      then Some (or_Price order)
      else None
  | OrderTypeStopMarket | OrderTypeMarketIfTouched | OrderTypeTrailingStopMarket =>
      if (or_Status order ≟ OrderStatusTriggered) && IsPositive (or_TriggerPrice order) then Some (or_TriggerPrice order)
      else at_close
  | _ => at_close
  end.

Definition shouldExpire (order : OrderStatusReport) (until : time) : bool :=
  (or_TimeInForce order ≟ TimeInForceGTD) && OrderStatus_IsOpen (or_Status order) &&
  negb (time_IsZero (or_ExpireTime order)) && negb (After (or_ExpireTime order) until).

(** ** The matching core (matching_core.go) *)

(** [backtest.MatchingCore]; its fill model may be nil. *)
Record MatchingCore `{FillModel} := mkMatchingCore {
  mc_instrument : Instrument;
  mc_fillModel : option FM;
}.

Record OrderBookMatchRequest := mkOrderBookMatchRequest {
  mr_Order : OrderStatusReport;
  mr_Book : OrderBook;
  mr_Consumed : gmap string D;
  mr_MaxQuantity : D;
}.

Record Match := mkMatch {
  mx_Source : FillSource;
  mx_Price : D;
  mx_Quantity : D;
  mx_Timestamp : time;
}.

(** [shouldFillLimitTouch] of the core and of the runtime: the fill model after the call, and its answer. *)
Definition shouldFillLimitTouch `{FillModel} (fm : option FM) (inst : Instrument) (order : OrderStatusReport)
    (price quantity : D) (ts : time) (source : FillSource) : option FM * bool :=
  if negb (backtestPostOnlyCanFill order ts) then (fm, false)
  else match fm with
  | None => (fm, true)
  | Some m =>
      let '(m, answer) := ShouldFillLimitTouch m
        (mkFillContext order inst source price quantity ts (isLimitTouch order price)
           (negb (backtestFillIsMaker order ts))) in
      (Some m, answer)
  end.

(** The sizes consumed at a price; a missing entry of a map of decimals is zero. *)
Definition consumed_at (consumed : gmap string D) (price : D) : D := default dzero (consumed !! dstring price).

(** The loop of [MatchOrderBook] over the levels. *)
Fixpoint match_levels `{FillModel} (fm : option FM) (inst : Instrument) (order : OrderStatusReport)
    (consumed : gmap string D) (ts : time) (quantity : D) (levels : list OrderBookLevel) : option FM * list Match :=
  match levels with
  | [] => (fm, [])
  | level :: levels =>
      if negb (IsPositive quantity) then (fm, [])
      else if negb (canMatch order (lv_Price level)) then (fm, [])
      else
        let available := dsub (lv_Size level) (consumed_at consumed (lv_Price level)) in
        let fillQty := dmin quantity available in
        if negb (IsPositive fillQty) then match_levels fm inst order consumed ts quantity levels
        else
          let '(fm, fills) := shouldFillLimitTouch fm inst order (lv_Price level) fillQty ts FillSourceOrderBook in
          if negb fills then match_levels fm inst order consumed ts quantity levels
          else
            let '(fm, matches) := match_levels fm inst order consumed ts (dsub quantity fillQty) levels in
            (fm, mkMatch FillSourceOrderBook (lv_Price level) fillQty ts :: matches)
  end.

(** The side of the book an order takes from. *)
Definition book_levels (order : OrderStatusReport) (book : OrderBook) : list OrderBookLevel :=
  if or_Side order ≟ OrderSideSell then ob_Bids book else ob_Asks book.

(** The quantity a request asks for. *)
Definition request_quantity (req : OrderBookMatchRequest) : D :=
  let quantity := openQuantity (mr_Order req) in
  if IsPositive (mr_MaxQuantity req) && LessThan (mr_MaxQuantity req) quantity then mr_MaxQuantity req else quantity.

Definition MatchOrderBook `{FillModel} (c : MatchingCore) (req : OrderBookMatchRequest) : option FM * list Match :=
  let quantity := request_quantity req in
  if negb (IsPositive quantity) then (mc_fillModel c, [])
  else match_levels (mc_fillModel c) (mc_instrument c) (mr_Order req) (mr_Consumed req) (ob_Timestamp (mr_Book req))
         quantity (book_levels (mr_Order req) (mr_Book req)).

(** ** The last market data *)

(** The runtime's [lastTicker] to [lastFundingRates]. *)
Record LastMarket := mkLastMarket {
  lm_lastTicker : gmap InstrumentID Ticker;
  lm_lastBooks : gmap InstrumentID OrderBook;
  lm_lastTrades : gmap InstrumentID TradeTick;
  lm_lastQuotes : gmap InstrumentID QuoteTick;
  lm_lastBars : gmap InstrumentID Bar;
  lm_lastFundingRates : gmap InstrumentID FundingRate;
}.

Definition book_best (order : OrderStatusReport) (book : OrderBook) : option D :=
  if or_Side order ≟ OrderSideBuy then lv_Price <$> head (ob_Asks book)
  else if or_Side order ≟ OrderSideSell then lv_Price <$> head (ob_Bids book)
  else None.

(** The prices [latestTriggerPrices] considers, in its order, with their times. *)
Definition trigger_candidates (l : LastMarket) (order : OrderStatusReport) : list (D * time) :=
  let id := OrderStatusReport_TriggerInstrument order in
  match lm_lastTicker l !! id with Some x => [(tk_Last x, tk_Timestamp x)] | None => [] end ++
  match lm_lastQuotes l !! id with
  | Some x => [(if or_Side order ≟ OrderSideBuy then qt_AskPrice x else qt_BidPrice x, qt_Timestamp x)]
  | None => [] end ++
  match lm_lastBooks l !! id with
  | Some x => match book_best order x with Some price => [(price, ob_Timestamp x)] | None => [] end
  | None => [] end ++
  match lm_lastTrades l !! id with Some x => [(tt_Price x, tt_Timestamp x)] | None => [] end ++
  match lm_lastBars l !! id with
  | Some x => [(br_High x, br_Timestamp x); (br_Low x, br_Timestamp x)] | None => [] end.

(** The closure [consider] of [latestTriggerPrices]: the prices so far, and their time once one is seen. *)
Definition consider_trigger (acc : list D * option time) (candidate : D * time) : list D * option time :=
  let '(prices, ts) := acc in let '(price, t) := candidate in
  if negb (IsPositive price) then acc
  else match ts with
  | None => ([price], Some t)
  | Some ts' => if After t ts' then ([price], Some t)
                else if time_Equal t ts' then (prices ++ [price], Some ts') else acc
  end.

Definition latestTriggerPrices (l : LastMarket) (order : OrderStatusReport) : list D :=
  (foldl consider_trigger ([], None) (trigger_candidates l order)).1.

Definition isTriggered (l : LastMarket) (order : OrderStatusReport) (policy : OrderStatusReport -> D -> bool) : bool :=
  if or_Status order ≟ OrderStatusTriggered then true
  else if negb (IsPositive (or_TriggerPrice order)) then false
  else existsb (policy order) (latestTriggerPrices l order).

(** The prices [latestOrderPrice] considers. *)
Definition price_candidates (l : LastMarket) (order : OrderStatusReport) : list (D * time) :=
  let id := or_InstrumentID order in
  match lm_lastTicker l !! id with Some x => [(tk_Last x, tk_Timestamp x)] | None => [] end ++
  match lm_lastQuotes l !! id with
  | Some x => [(if or_Side order ≟ OrderSideBuy then qt_AskPrice x else qt_BidPrice x, qt_Timestamp x)]
  | None => [] end ++
  match lm_lastTrades l !! id with Some x => [(tt_Price x, tt_Timestamp x)] | None => [] end ++
  match lm_lastBars l !! id with Some x => [(br_Close x, br_Timestamp x)] | None => [] end.

Definition consider_price (acc : D * option time) (candidate : D * time) : D * option time :=
  let '(price, t) := candidate in
  if negb (IsPositive price) then acc
  else match acc.2 with
  | None => (price, Some t)
  | Some ts => if After t ts || time_Equal t ts then (price, Some t) else acc
  end.

Definition latestOrderPrice (l : LastMarket) (order : OrderStatusReport) : D :=
  (foldl consider_price (dzero, None) (price_candidates l order)).1.

Definition firstBookPrice (l : LastMarket) (order : OrderStatusReport) : D :=
  match lm_lastBooks l !! or_InstrumentID order with
  | None => dzero
  | Some book => default dzero (book_best order book)
  end.

Definition currentPrice (l : LastMarket) (order : OrderStatusReport) : D :=
  if IsPositive (latestOrderPrice l order) then latestOrderPrice l order else firstBookPrice l order.

(** ** Trailing stops *)

(** The ranges [latestTrailingRange] considers: favorable price, adverse price and time. *)
Definition trailing_candidates (l : LastMarket) (order : OrderStatusReport) : list (D * D * time) :=
  let id := OrderStatusReport_TriggerInstrument order in
  let single price t := (price, price, t) in
  match lm_lastTicker l !! id with Some x => [single (tk_Last x) (tk_Timestamp x)] | None => [] end ++
  match lm_lastQuotes l !! id with
  | Some x => [single (if or_Side order ≟ OrderSideBuy then qt_AskPrice x else qt_BidPrice x) (qt_Timestamp x)]
  | None => [] end ++
  match lm_lastBooks l !! id with
  | Some x => match book_best order x with Some price => [single price (ob_Timestamp x)] | None => [] end
  | None => [] end ++
  match lm_lastTrades l !! id with Some x => [single (tt_Price x) (tt_Timestamp x)] | None => [] end ++
  match lm_lastBars l !! id with
  | Some x => [if or_Side order ≟ OrderSideSell then (br_High x, br_Low x, br_Timestamp x)
               else (br_Low x, br_High x, br_Timestamp x)]
  | None => [] end.

Definition consider_range (sell : bool) (acc : option (D * D * time)) (candidate : D * D * time) : option (D * D * time) :=
  let '(favorable, adverse, t) := candidate in
  if negb (IsPositive favorable) || negb (IsPositive adverse) then acc
  else match acc with
  | None => Some candidate
  | Some (f, a, ts) =>
      if After t ts then Some candidate
      else if negb (time_Equal t ts) then acc
      else if sell then Some (dmax f favorable, dmin a adverse, ts)
      else Some (dmin f favorable, dmax a adverse, ts)
  end.

(** The favorable and the adverse price, when there is any. *)
Definition latestTrailingRange (l : LastMarket) (order : OrderStatusReport) : option (D * D) :=
  fst <$> foldl (consider_range (or_Side order ≟ OrderSideSell)) None (trailing_candidates l order).

Definition trailingKey (order : OrderStatusReport) : string := or_AccountID order +:+ "/" +:+ or_OrderID order.

Definition trailingOffsetPrice (c : Cache) (order : OrderStatusReport) (reference : D) : option D :=
  match TrailingOffsetType_Canonical (or_TrailingOffsetType order) with
  | TrailingOffsetTypePrice => Some (or_TrailingOffset order)
  | TrailingOffsetTypeBasisPoints => Some (ddiv (dmul reference (or_TrailingOffset order)) (dint 10000))
  | TrailingOffsetTypeTicks =>
      match cache_Instrument c (or_InstrumentID order) with
      | None => None
      | Some inst => if negb (IsPositive (in_PriceTick inst)) then None
                     else Some (dmul (or_TrailingOffset order) (in_PriceTick inst))
      end
  | _ => None
  end.

(** The runtime's [trailing] and [trailingTriggers]. *)
Record TrailingState := mkTrailingState {
  tr_trailing : gmap string D;
  tr_trailingTriggers : gmap string D;
}.

Definition isTrailingTriggered (c : Cache) (l : LastMarket) (s : TrailingState) (order : OrderStatusReport)
    : TrailingState * bool :=
  if or_Status order ≟ OrderStatusTriggered then (s, true)
  else if negb (IsPositive (or_TrailingOffset order)) then (s, false)
  else match latestTrailingRange l order with
  | None => (s, false)
  | Some (favorable, adverse) =>
      let key := trailingKey order in
      let triggers := delete key (tr_trailingTriggers s) in
      let active := tr_trailing s !! key in
      if match active with Some _ => false | None => true end && IsPositive (or_ActivationPrice order) &&
         ((or_Side order ≟ OrderSideSell) && LessThan favorable (or_ActivationPrice order) ||
          (or_Side order ≟ OrderSideBuy) && GreaterThan favorable (or_ActivationPrice order))
      then (mkTrailingState (tr_trailing s) triggers, false)
      else
        let extreme := default favorable active in
        let extreme := if or_Side order ≟ OrderSideSell
                       then (if GreaterThan favorable extreme then favorable else extreme)
                       else (if LessThan favorable extreme then favorable else extreme) in
        let trailing := <[key := extreme]> (tr_trailing s) in
        match trailingOffsetPrice c order extreme with
        | None => (mkTrailingState trailing triggers, false)
        | Some offset =>
            if or_Side order ≟ OrderSideSell then
              let triggerPrice := dsub extreme offset in
              if LessThanOrEqual adverse triggerPrice
              then (mkTrailingState trailing (<[key := triggerPrice]> triggers), true)
              else (mkTrailingState trailing triggers, false)
            else
              let triggerPrice := dadd extreme offset in
              if GreaterThanOrEqual adverse triggerPrice
              then (mkTrailingState trailing (<[key := triggerPrice]> triggers), true)
              else (mkTrailingState trailing triggers, false)
        end
  end.

(** ** Quantities *)

Definition reduceOnlyQuantity (c : Cache) (order : OrderStatusReport) : D :=
  match PositionByInstrument c (or_AccountID order) (or_InstrumentID order) with
  | None => dzero
  | Some position =>
      if negb (IsPositive (pr_Quantity position)) || (pr_Side position ≟ PositionSideFlat) then dzero
      else if (or_Side order ≟ OrderSideSell) && (pr_Side position ≟ PositionSideLong) then pr_Quantity position
      else if (or_Side order ≟ OrderSideBuy) && (pr_Side position ≟ PositionSideShort) then pr_Quantity position
      else dzero
  end.

Definition matchQuantity (c : Cache) (order : OrderStatusReport) : D :=
  let quantity := openQuantity order in
  if negb (IsPositive quantity) || negb (or_ReduceOnly order) then quantity
  else
    let reducible := reduceOnlyQuantity c order in
    if negb (IsPositive reducible) then dzero else dmin quantity reducible.

(** The runtime's [consumed], by instrument and price. *)
Definition Consumed : Type := gmap InstrumentID (gmap string D).

Definition consumedAt (consumed : Consumed) (i : InstrumentID) (price : D) : D := consumed_at (inner consumed i) price.

Definition recordConsumption (consumed : Consumed) (i : InstrumentID) (price quantity : D) : Consumed :=
  put2 consumed i (dstring price) (dadd (consumedAt consumed i price) quantity).

(** The closure [add] of [availableImmediateQuantity]. *)
Definition add_available (cap total quantity : D) : D :=
  if negb (IsPositive quantity) || GreaterThanOrEqual total cap then total
  else dadd total (dmin quantity (dsub cap total)).

(** The part of the book within the order's limit. *)
Fixpoint matching_levels (order : OrderStatusReport) (levels : list OrderBookLevel) : list OrderBookLevel :=
  match levels with
  | [] => []
  | level :: levels => if negb (canMatch order (lv_Price level)) then [] else level :: matching_levels order levels
  end.

(** The quantities [availableImmediateQuantity] adds up, in its order. *)
Definition immediate_sources (l : LastMarket) (consumed : Consumed) (order : OrderStatusReport) (cap : D) : list D :=
  let id := or_InstrumentID order in
  match lm_lastBooks l !! id with
  | Some book => (fun level => dsub (lv_Size level) (consumedAt consumed id (lv_Price level)))
                   <$> matching_levels order (book_levels order book)
  | None => [] end ++
  match lm_lastQuotes l !! id with
  | Some quote =>
      let '(price, available) := if or_Side order ≟ OrderSideSell then (qt_BidPrice quote, qt_BidSize quote)
                                 else (qt_AskPrice quote, qt_AskSize quote) in
      if IsPositive price && canMatch order price then [dsub available (consumedAt consumed id price)] else []
  | None => [] end ++
  match lm_lastTrades l !! id with
  | Some trade => if IsPositive (tt_Price trade) && canMatch order (tt_Price trade) then [cap] else []
  | None => [] end ++
  match lm_lastBars l !! id with
  | Some bar => match barMatchPrice order bar with Some _ => [cap] | None => [] end
  | None => [] end ++
  match lm_lastTicker l !! id with
  | Some ticker => if IsPositive (tk_Last ticker) && canMatch order (tk_Last ticker) then [cap] else []
  | None => [] end.

Definition availableImmediateQuantity (l : LastMarket) (consumed : Consumed) (order : OrderStatusReport) (cap : D) : D :=
  foldl (add_available cap) dzero (immediate_sources l consumed order cap).

Definition canFullyFillImmediate (l : LastMarket) (consumed : Consumed) (order : OrderStatusReport) : bool :=
  let quantity := openQuantity order in
  if negb (IsPositive quantity) then true
  else GreaterThanOrEqual (availableImmediateQuantity l consumed order quantity) quantity.

(** ** Positions *)

Definition dsign (a : D) : Z := match dcmp a dzero with Lt => -1 | Eq => 0 | Gt => 1 end.

Definition signedPosition (position : PositionStatusReport) : D :=
  if pr_Side position ≟ PositionSideShort then dneg (pr_Quantity position) else pr_Quantity position.

Definition signedFill (fill : FillReport) : D :=
  if fr_Side fill ≟ OrderSideSell then dneg (fr_Quantity fill) else fr_Quantity fill.

Definition sideFromSigned (value : D) : PositionSide :=
  if IsPositive value then PositionSideLong
  else if IsNegative value then PositionSideShort else PositionSideFlat.

Definition nextPosition (c : Cache) (fill : FillReport) : PositionStatusReport :=
  let positionID := InstrumentID_String (fr_InstrumentID fill) in
  match cache_Position c (fr_AccountID fill) positionID with
  | None =>
      let side := if fr_Side fill ≟ OrderSideSell then PositionSideShort else PositionSideLong in
      mkPositionStatusReport CommandMetadata_zero (fr_AccountID fill) (fr_InstrumentID fill) positionID "" side
        (fr_Quantity fill) (fr_Price fill) (fr_Timestamp fill)
  | Some existing =>
      let currentSigned := signedPosition existing in
      let fillSigned := signedFill fill in
      let nextSigned := dadd currentSigned fillSigned in
      let nextQty := dabs nextSigned in
      let entry :=
        if (0 <? dsign currentSigned * dsign fillSigned)%Z && IsPositive nextQty then
          ddiv (dadd (dmul (pr_EntryPrice existing) (pr_Quantity existing)) (dmul (fr_Price fill) (fr_Quantity fill))) nextQty
        else if GreaterThan (dabs currentSigned) (dabs fillSigned) then pr_EntryPrice existing
        else fr_Price fill in
      mkPositionStatusReport CommandMetadata_zero (fr_AccountID fill) (fr_InstrumentID fill) positionID ""
        (sideFromSigned nextSigned) nextQty entry (fr_Timestamp fill)
  end.
End matching.
