(* ===== verification/ExecManager.v ===== *)
(** * The execution manager (execution/manager.go)

    [Manager] applies order reports and fills to the cache, defers fills that precede their
    order, keeps the submit commands, and turns the progress of an order of a list into the
    commands its contingency calls for.  A method that holds the lock of the manager for a
    part of its work only is one step here: the engine calls the manager from one goroutine. *)
From stdpp Require Import base gmap list strings sorting.
From S2P Require Import Prelude Decimals Enums Identifiers Orders OrderLists Cache.

Open Scope go_scope.

Section manager.
Context {DD : Decimal}.

(** [parentOrderKey], [orderListKey], [orderProgressKey] and [positionKey]. *)
Definition parentOrderKey : Type := AccountID * ClientOrderID.
Definition orderListKey : Type := AccountID * OrderListID.
Definition orderProgressKey : Type := AccountID * OrderID.
Definition positionKey : Type := AccountID * InstrumentID * StrategyID.

(** [execution.Manager] *)
Record Manager := mkManager {
  em_cache : Cache;
  em_allowOverfills : bool;
  em_positionIDMode : PositionIDMode;
  em_submits : gmap ClientOrderID SubmitOrder;
  em_heldChildren : gmap parentOrderKey (list SubmitOrder);
  em_orderListMembers : gmap orderListKey (list ClientOrderID);
  em_orderListKinds : gmap orderListKey OrderListKind;
  em_orderListFills : gmap orderProgressKey D;
  em_positionIDs : gmap positionKey PositionID;
}.

#[global] Instance set_em_cache : Setter em_cache := fun f r =>
  mkManager (f (em_cache r)) (em_allowOverfills r) (em_positionIDMode r) (em_submits r) (em_heldChildren r)
    (em_orderListMembers r) (em_orderListKinds r) (em_orderListFills r) (em_positionIDs r).
#[global] Instance set_em_submits : Setter em_submits := fun f r =>
  mkManager (em_cache r) (em_allowOverfills r) (em_positionIDMode r) (f (em_submits r)) (em_heldChildren r)
    (em_orderListMembers r) (em_orderListKinds r) (em_orderListFills r) (em_positionIDs r).
#[global] Instance set_em_heldChildren : Setter em_heldChildren := fun f r =>
  mkManager (em_cache r) (em_allowOverfills r) (em_positionIDMode r) (em_submits r) (f (em_heldChildren r))
    (em_orderListMembers r) (em_orderListKinds r) (em_orderListFills r) (em_positionIDs r).
#[global] Instance set_em_orderListMembers : Setter em_orderListMembers := fun f r =>
  mkManager (em_cache r) (em_allowOverfills r) (em_positionIDMode r) (em_submits r) (em_heldChildren r)
    (f (em_orderListMembers r)) (em_orderListKinds r) (em_orderListFills r) (em_positionIDs r).
#[global] Instance set_em_orderListKinds : Setter em_orderListKinds := fun f r =>
  mkManager (em_cache r) (em_allowOverfills r) (em_positionIDMode r) (em_submits r) (em_heldChildren r)
    (em_orderListMembers r) (f (em_orderListKinds r)) (em_orderListFills r) (em_positionIDs r).
#[global] Instance set_em_orderListFills : Setter em_orderListFills := fun f r =>
  mkManager (em_cache r) (em_allowOverfills r) (em_positionIDMode r) (em_submits r) (em_heldChildren r)
    (em_orderListMembers r) (em_orderListKinds r) (f (em_orderListFills r)) (em_positionIDs r).
#[global] Instance set_em_positionIDs : Setter em_positionIDs := fun f r =>
  mkManager (em_cache r) (em_allowOverfills r) (em_positionIDMode r) (em_submits r) (em_heldChildren r)
    (em_orderListMembers r) (em_orderListKinds r) (em_orderListFills r) (f (em_positionIDs r)).

Record OrderListActions := mkOrderListActions {
  la_Submit : list SubmitOrder;
  la_Modify : list ModifyOrder;
  la_Cancel : list CancelOrder;
}.
Definition no_actions : OrderListActions := mkOrderListActions [] [] [].

Record HeldOrderListChildren := mkHeldOrderListChildren {
  hc_ParentClientOrderID : ClientOrderID;
  hc_Orders : list SubmitOrder;
}.

Record OrderListFillProgress := mkOrderListFillProgress {
  fp_OrderID : OrderID;
  fp_FilledQuantity : D;
}.

(** [OrderListSnapshot]; the counts are lengths, so they are natural numbers. *)
Record OrderListSnapshot := mkOrderListSnapshot {
  ls_AccountID : AccountID;
  ls_OrderListID : OrderListID;
  ls_Kind : OrderListKind;
  ls_Status : OrderListStatus;
  ls_MemberCount : nat;
  ls_OpenCount : nat;
  ls_TerminalCount : nat;
  ls_HeldCount : nat;
  ls_Members : list ClientOrderID;
  ls_HeldChildren : list HeldOrderListChildren;
  ls_FillProgress : list OrderListFillProgress;
  ls_Orders : list OrderStatusReport;
}.

(** [NewManager], of the fields of [Config]; the nil cache of Go is a new one. *)
Definition NewManager (c : option Cache) (allowOverfills : bool) (mode : PositionIDMode) : Manager :=
  mkManager (default New c) allowOverfills
    (if mode ≟ PositionIDModeNone then PositionIDModeNetting else mode) ∅ ∅ ∅ ∅ ∅ ∅.

(** ** Submit commands *)

Definition CacheSubmitCommand (m : Manager) (order : SubmitOrder) : outcome Manager unit :=
  match SubmitOrder_Validate order with
  | Fail e => (m, Fail e)
  | Ok _ => (m <| em_submits := <[so_ClientOrderID order := order]> (em_submits m) |>, Ok tt)
  end.

Definition SubmitCommand (m : Manager) (id : ClientOrderID) : option SubmitOrder := em_submits m !! id.

Definition PopSubmitCommand (m : Manager) (id : ClientOrderID) : Manager * option SubmitOrder :=
  match em_submits m !! id with
  | Some order => (m <| em_submits := delete id (em_submits m) |>, Some order)
  | None => (m, None)
  end.

(** ** Fills and reports *)

Definition validateOrderTransition (existing next : OrderStatusReport) : res unit :=
  if OrderStatus_IsTerminal (or_Status existing) && (or_Status existing ≠? or_Status next)
  then Fail (mkErr ErrInvalidTransition "cannot transition order") else Ok tt.

Definition averageFillPrice (order : OrderStatusReport) (fill : FillReport) (nextFilled : D) : D :=
  if IsZero nextFilled then dzero
  else if IsZero (or_FilledQuantity order) || IsZero (or_AveragePrice order) then fr_Price fill
  else
    let previousNotional := dmul (or_AveragePrice order) (or_FilledQuantity order) in
    let fillNotional := dmul (fr_Price fill) (fr_Quantity fill) in
    ddiv (dadd previousNotional fillNotional) nextFilled.

Definition determineLegPositionID (fill : FillReport) : PositionID :=
  if fr_ClientOrderID fill ≠? "" then InstrumentID_String (fr_InstrumentID fill) +:+ ":" +:+ fr_ClientOrderID fill
  else if fr_VenueOrderID fill ≠? "" then InstrumentID_String (fr_InstrumentID fill) +:+ ":" +:+ fr_VenueOrderID fill
  else InstrumentID_String (fr_InstrumentID fill) +:+ ":" +:+ fr_TradeID fill.

(** The order a fill is for: by its order id, or else by its client order id. *)
Definition fill_order (c : Cache) (fill : FillReport) : option OrderStatusReport :=
  match cache_Order c (fr_AccountID fill) (fr_OrderID fill) with
  | Some order => Some order
  | None => if fr_ClientOrderID fill ≠? ""
            then OrderByClientID c (fr_AccountID fill) (fr_ClientOrderID fill) else None
  end.

(** The order after the fill. *)
Definition updated_order (order : OrderStatusReport) (fill : FillReport) (nextFilled : D) : OrderStatusReport :=
  let updated := order <| or_FilledQuantity := nextFilled |> in
  let updated :=
    if IsPositive (or_Quantity order) then
      let updated := updated <| or_LeavesQuantity := dsub (or_Quantity order) nextFilled |> in
      if IsNegative (or_LeavesQuantity updated) then updated <| or_LeavesQuantity := dzero |> else updated
    else updated in
  let updated := updated <| or_AveragePrice := averageFillPrice order fill nextFilled |> in
  let updated := if IsZero (or_LeavesQuantity updated)
                 then updated <| or_Status := OrderStatusFilled |>
                 else updated <| or_Status := OrderStatusPartiallyFilled |> in
  updated <| or_LastUpdatedTime := fr_Timestamp fill |>.

(** [ApplyFill]: the manager, whether the fill was applied, and the error. *)
Definition ApplyFill (m : Manager) (fill : FillReport) : Manager * bool * res unit :=
  let c := em_cache m in
  match FillReport_Validate fill with
  | Fail e => (m, false, Fail e)
  | Ok _ =>
  match FillByTradeID c (fr_AccountID fill) (fr_TradeID fill) with
  | Some _ => (m, false, Ok tt)
  | None =>
  match fill_order c fill with
  | None =>
      if FillReport_IsLegFill fill then
        let fill := if fr_PositionID fill ≟ "" then fill <| fr_PositionID := determineLegPositionID fill |> else fill in
        match PutFill c fill with
        | Fail e => (m, false, Fail e)
        | Ok (c, applied) => (m <| em_cache := c |>, applied, Ok tt)
        end
      else match PutDeferredFill c fill with
      | Fail e => (m, false, Fail e)
      | Ok (c, _) => (m <| em_cache := c |>, false, Ok tt)
      end
  | Some order =>
      let nextFilled := dadd (or_FilledQuantity order) (fr_Quantity fill) in
      if IsPositive (or_Quantity order) && GreaterThan nextFilled (or_Quantity order) &&
         negb (em_allowOverfills m)
      then (m, false, Fail (mkErr ErrOverfill "filled exceeds quantity"))
      else match PutFill c fill with
      | Fail e => (m, false, Fail e)
      | Ok (c, false) => (m <| em_cache := c |>, false, Ok tt)
      | Ok (c, true) =>
          match PutOrder c (updated_order order fill nextFilled) with
          | Fail e => (m <| em_cache := c |>, true, Fail e)
          | Ok c => (m <| em_cache := c |>, true, Ok tt)
          end
      end
  end end end.

(** The loop of [replayDeferredFills]. *)
Fixpoint replay_fills (m : Manager) (fills : list FillReport) : outcome Manager unit :=
  match fills with
  | [] => (m, Ok tt)
  | fill :: fills =>
      match ApplyFill m fill with
      | (m, _, Fail e) => (m, Fail e)
      | (m, _, Ok _) => replay_fills m fills
      end
  end.

Definition replayDeferredFills (m : Manager) (a : AccountID) (o : OrderID) : outcome Manager unit :=
  match DeferredFillsForOrder (em_cache m) a o with
  | [] => (m, Ok tt)
  | fills =>
      match replay_fills m fills with
      | (m, Fail e) => (m, Fail e)
      | (m, Ok _) => (m <| em_cache := ClearDeferredFillsForOrder (em_cache m) a o |>, Ok tt)
      end
  end.

Definition ApplyOrderReport (m : Manager) (report : OrderStatusReport) : outcome Manager unit :=
  match OrderStatusReport_Validate report with
  | Fail e => (m, Fail e)
  | Ok _ =>
  match (match cache_Order (em_cache m) (or_AccountID report) (or_OrderID report) with
         | Some existing => validateOrderTransition existing report
         | None => Ok tt end) with
  | Fail e => (m, Fail e)
  | Ok _ =>
  match PutOrder (em_cache m) report with
  | Fail e => (m, Fail e)
  | Ok c => replayDeferredFills (m <| em_cache := c |>) (or_AccountID report) (or_OrderID report)
  end end end.

(** ** Position ids *)

Definition DeterminePositionID (m : Manager) (a : AccountID) (i : InstrumentID) (s : StrategyID)
    : Manager * PositionID :=
  if em_positionIDMode m ≠? PositionIDModeHedging then (m, InstrumentID_String i)
  else match em_positionIDs m !! (a, i, s) with
  | Some id => (m, id)
  | None =>
      let id := InstrumentID_String i +:+ ":" +:+ s in
      (m <| em_positionIDs := <[(a, i, s) := id]> (em_positionIDs m) |>, id)
  end.

(** ** Order lists *)

Definition held (m : Manager) (key : parentOrderKey) : list SubmitOrder := default [] (em_heldChildren m !! key).
Definition members (m : Manager) (key : orderListKey) : list ClientOrderID := default [] (em_orderListMembers m !! key).

(** One round of the loop of [IndexOrderList]. *)
Definition index_list_order (kind : OrderListKind) (m : Manager) (order : SubmitOrder) : Manager :=
  let key := (so_AccountID order, so_OrderListID order) in
  let m := m <| em_orderListMembers := <[key := members m key ++ [so_ClientOrderID order]]> (em_orderListMembers m) |>
             <| em_orderListKinds := <[key := kind]> (em_orderListKinds m) |> in
  if so_ParentClientOrderID order ≟ "" then m
  else
    let parent := (so_AccountID order, so_ParentClientOrderID order) in
    m <| em_heldChildren := <[parent := held m parent ++ [order]]> (em_heldChildren m) |>.

Definition IndexOrderList (m : Manager) (l : OrderList) : outcome Manager unit :=
  match OrderList_Validate l with
  | Fail e => (m, Fail e)
  | Ok _ => (foldl (index_list_order (Kind l)) m (ol_Orders l), Ok tt)
  end.

Definition deriveOrderListStatus (openCount terminalCount heldCount : nat) : OrderListStatus :=
  if (0 <? openCount)%nat || (0 <? heldCount)%nat then OrderListStatusOpen
  else if (0 <? terminalCount)%nat then OrderListStatusClosed
  else OrderListStatusInitialized.

(** The held children of a list, by parent: the account's entries of the map, their children
    of the list, without the parents that have none. *)
Definition heldByParent (m : Manager) (a : AccountID) (l : OrderListID) : list (ClientOrderID * list SubmitOrder) :=
  omap (fun '((account, parent), children) =>
    if account ≠? a then None
    else match List.filter (fun child => so_OrderListID child ≟ l) children with
         | [] => None
         | children => Some (parent, children)
         end) (map_to_list (em_heldChildren m)).

Definition fillProgress (m : Manager) (a : AccountID) : list (OrderID * D) :=
  omap (fun '((account, o), filled) => if account ≟ a then Some (o, filled) else None)
    (map_to_list (em_orderListFills m)).

(** The method of the same name; [sort.Slice] is a stable sort here, which matters only for
    children of one parent with the same client order id. *)
Definition Manager_OrderListSnapshot (m : Manager) (a : AccountID) (l : OrderListID) : option OrderListSnapshot :=
  match em_orderListMembers m !! (a, l) with
  | None => None
  | Some members =>
      let kind := default OrderListKindNone (em_orderListKinds m !! (a, l)) in
      let heldBy := heldByParent m a l in
      let heldCount := sum_list (List.length <$> heldBy.*2) in
      let orders := OrdersByOrderListID (em_cache m) a l in
      let orderIDs := or_OrderID <$> orders in
      let terminalCount := count (fun order => OrderStatus_IsTerminal (or_Status order)) orders in
      let openCount := count (fun order => negb (OrderStatus_IsTerminal (or_Status order)) &&
                                           OrderStatus_IsOpen (or_Status order)) orders in
      Some (mkOrderListSnapshot a l kind (deriveOrderListStatus openCount terminalCount heldCount)
        (List.length members) openCount terminalCount heldCount members
        (merge_sort (by_key hc_ParentClientOrderID)
           ((fun '(parent, children) =>
               mkHeldOrderListChildren parent (merge_sort (by_key so_ClientOrderID) children)) <$> heldBy))
        (merge_sort (by_key fp_OrderID)
           (omap (fun '(o, filled) => if bool_decide (o ∈ orderIDs)
                                      then Some (mkOrderListFillProgress o filled) else None) (fillProgress m a)))
        orders)
  end.

Definition OrderListSnapshots (m : Manager) (a : AccountID) : list OrderListSnapshot :=
  let listIDs := omap (fun '((account, l), _) => if account ≟ a then Some l else None)
                   (map_to_list (em_orderListMembers m)) in
  omap (Manager_OrderListSnapshot m a) (merge_sort (by_key id) listIDs).

Definition cleanupClosedOrderList (m : Manager) (a : AccountID) (l : OrderListID) : Manager :=
  if l ≟ "" then m
  else match Manager_OrderListSnapshot m a l with
  | None => m
  | Some snapshot =>
      if ls_Status snapshot ≠? OrderListStatusClosed then m
      else
        let orderIDs := or_OrderID <$> ls_Orders snapshot in
        m <| em_heldChildren := map_imap (fun '(account, _) children =>
               if account ≠? a then Some children
               else match List.filter (fun child => so_OrderListID child ≠? l) children with
                    | [] => None
                    | kept => Some kept
                    end) (em_heldChildren m) |>
          <| em_orderListFills := map_imap (fun '(account, o) filled =>
               if account ≠? a then Some filled
               else if bool_decide (o ∈ orderIDs) then None else Some filled) (em_orderListFills m) |>
  end.

(** The command that cancels a sibling. *)
Definition cancel_of (sibling : OrderStatusReport) : CancelOrder :=
  mkCancelOrder CommandMetadata_zero (or_AccountID sibling) (or_InstrumentID sibling) (or_OrderID sibling)
    (or_ClientOrderID sibling).

(** The command that reduces a sibling; the fields a [ModifyOrder] literal leaves out are zero. *)
Definition reduce_to (sibling : OrderStatusReport) (quantity : D) : ModifyOrder :=
  mkModifyOrder CommandMetadata_zero (or_AccountID sibling) (or_InstrumentID sibling) (or_OrderID sibling) ""
    (or_ClientOrderID sibling) quantity dzero dzero dzero dzero TrailingOffsetTypeNone TimeInForceNone.

(** The open sibling that a client order id names. *)
Definition open_sibling (m : Manager) (a : AccountID) (id : ClientOrderID) : option OrderStatusReport :=
  match OrderByClientID (em_cache m) a id with
  | Some sibling => if negb (OrderStatus_IsOpen (or_Status sibling)) then None else Some sibling
  | None => None
  end.

(** One round of the loop of [handleOuoProgress]. *)
Definition ouo_sibling (m : Manager) (order : OrderStatusReport) (fillDelta : D) (actions : OrderListActions)
    (id : ClientOrderID) : OrderListActions :=
  if (id ≟ "") || (id ≟ or_ClientOrderID order) then actions
  else match open_sibling m (or_AccountID order) id with
  | None => actions
  | Some sibling =>
      let nextQuantity := dsub (or_Quantity sibling) fillDelta in
      if negb (IsPositive nextQuantity) || LessThanOrEqual nextQuantity (or_FilledQuantity sibling)
      then mkOrderListActions (la_Submit actions) (la_Modify actions) (la_Cancel actions ++ [cancel_of sibling])
      else if Equal nextQuantity (or_Quantity sibling) then actions
      else mkOrderListActions (la_Submit actions) (la_Modify actions ++ [reduce_to sibling nextQuantity]) (la_Cancel actions)
  end.

Definition handleOuoProgress (m : Manager) (order : OrderStatusReport) (members : list ClientOrderID)
    : Manager * OrderListActions :=
  if negb (IsPositive (or_FilledQuantity order)) then (m, no_actions)
  else
    let key := (or_AccountID order, or_OrderID order) in
    let previous := default dzero (em_orderListFills m !! key) in
    if LessThanOrEqual (or_FilledQuantity order) previous then (m, no_actions)
    else
      let fillDelta := dsub (or_FilledQuantity order) previous in
      let m := m <| em_orderListFills := <[key := or_FilledQuantity order]> (em_orderListFills m) |> in
      (m, foldl (ouo_sibling m order fillDelta) no_actions members).

(** The cancels of the last loop of [HandleOrderListProgress]. *)
Definition oco_cancels (m : Manager) (order : OrderStatusReport) (members : list ClientOrderID) : list CancelOrder :=
  omap (fun id => if id ≟ or_ClientOrderID order then None
                  else cancel_of <$> open_sibling m (or_AccountID order) id) members.

Definition drop_held (m : Manager) (order : OrderStatusReport) : Manager :=
  m <| em_heldChildren := delete (or_AccountID order, or_ClientOrderID order) (em_heldChildren m) |>.

(** The body of [HandleOrderListProgress], up to the deferred clean-up. *)
Definition progress_actions (m : Manager) (order : OrderStatusReport) : Manager * OrderListActions :=
  let listMembers := members m (or_AccountID order, or_OrderListID order) in
  let m := if OrderStatus_IsTerminal (or_Status order) && (or_Status order ≠? OrderStatusFilled)
           then drop_held m order else m in
  let '(m, actions) := if (or_OrderListID order ≠? "") && (or_Contingency order ≟ ContingencyTypeOUO)
                       then handleOuoProgress m order listMembers else (m, no_actions) in
  if or_Status order ≠? OrderStatusFilled then (m, actions)
  else
    let children := held m (or_AccountID order, or_ClientOrderID order) in
    let m := drop_held m order in
    let actions := mkOrderListActions (la_Submit actions ++ children) (la_Modify actions) (la_Cancel actions) in
    if (or_OrderListID order ≟ "") || (or_Contingency order ≠? ContingencyTypeOCO) then (m, actions)
    else (m, mkOrderListActions (la_Submit actions) (la_Modify actions)
               (la_Cancel actions ++ oco_cancels m order listMembers)).

Definition HandleOrderListProgress (m : Manager) (order : OrderStatusReport) : outcome Manager OrderListActions :=
  match OrderStatusReport_Validate order with
  | Fail e => (m, Fail e)
  | Ok _ =>
      let '(m, actions) := progress_actions m order in
      (if or_OrderListID order ≠? "" then cleanupClosedOrderList m (or_AccountID order) (or_OrderListID order) else m,
       Ok actions)
  end.
End manager.
