(* ===== verification/ExecManagerFacts.v ===== *)
(** * Correctness of the execution manager

    What a fill does to the order it is for, that every fill is booked once whatever the
    order of reports and fills, and what the progress of an order of a list calls for. *)
From stdpp Require Import base gmap list strings sorting relations.
From Stdlib Require Import QArith Qabs Qminmax Lqa.
From S2P Require Import Prelude Decimals Enums Identifiers Orders Market Accounts OrderLists Cache CacheFacts.
From S2P Require Import Reconciler ReconcilerFacts ExecManager.

Open Scope go_scope.

#[local] Arguments Qplus : simpl never.
#[local] Arguments Qminus : simpl never.
#[local] Arguments Qmult : simpl never.

Section facts.
Context {DD : Decimal} {DL : DecimalLaws DD}.
Implicit Types (c : Cache) (m : Manager) (order report r u : OrderStatusReport) (f fill : FillReport)
  (a : AccountID) (o : OrderID) (t : TradeID).
Open Scope Q_scope.

(** ** The invariant of the cache *)

(** A stored fill is found by its trade id; a deferred fill is valid and under its own keys. *)
Definition trades_ok c : Prop := forall a o t f,
  get3 (c_fills c) a o t = Some f -> is_Some (FillByTradeID c a t).
Definition deferred_ok c : Prop := forall a o t f, get3 (c_deferredFills c) a o t = Some f ->
  FillReport_Validate f = Ok tt /\ fr_AccountID f = a /\ fr_OrderID f = o /\ fr_TradeID f = t.

Record cok c : Prop := {
  cok_orders : cache_ok c;
  cok_fills : fills_ok c;
  cok_trades : trades_ok c;
  cok_deferred : deferred_ok c;
}.

(** The deferred fills of two caches are the same. *)
Definition same_deferred c c' : Prop := c_deferredFills c' = c_deferredFills c.
#[local] Instance same_deferred_po : PreOrder same_deferred.
Proof. split; [by intros c|]. unfold same_deferred. intros c1 c2 c3. congruence. Qed.

Lemma PutOrder_same_deferred c r c' : PutOrder c r = Ok c' -> same_deferred c c'.
Proof.
  unfold PutOrder. destruct (OrderStatusReport_Validate _); [|done]. intros <-%Ok_inj.
  unfold addOrderIndexes. cbv zeta. repeat (etrans; [|reflexivity]).
  set (c1 := match get2 (c_orders c) _ _ with Some _ => _ | None => c end).
  assert (same_deferred c c1) as H1 by (unfold c1, removeOrderIndexes; cbv zeta; by case_match).
  assert (He : forall d links a k o, same_deferred d (evict d links a k o)).
  { intros. unfold evict, removeOrderIndexes. cbv zeta. walk. }
  etrans; [exact H1|]. etrans; [apply He|]. etrans; [apply He|]. reflexivity.
Qed.

Lemma foldl_same_deferred {A} (g : Cache -> A -> Cache) l c :
  (forall d x, same_deferred d (g d x)) -> same_deferred c (foldl g c l).
Proof. intros Hg. revert c. induction l as [|x l IH]; intros c; [done|]. simpl. etrans; [apply Hg|apply IH]. Qed.

Lemma Purge_same_deferred c a policy : same_deferred c (Purge c a policy).1.
Proof.
  unfold Purge. set (c1 := foldl removeOrder c _). set (c2 := foldl removePosition c1 _).
  assert (same_deferred c c1) by (apply foldl_same_deferred; intros; unfold removeOrder, removeOrderIndexes; done).
  assert (same_deferred c1 c2).
  { apply foldl_same_deferred. intros d p. unfold removePosition. cbv zeta. by repeat case_match. }
  assert (same_deferred c2 (purgeAccounts c2 a (pp_AccountSnapshotsLimit policy)).1).
  { unfold purgeAccounts. cbv zeta. by repeat case_match. }
  destruct (purgeAccounts _ _ _) as [c3 n]. simpl in *. by do 2 (etrans; [eassumption|]).
Qed.

Lemma run_op_same_deferred c op :
  match op with OpDeferred _ | OpClearDeferred _ _ => True | _ => same_deferred c (run_op c op) end.
Proof.
  destruct op; try exact I; cbn [run_op].
  - unfold PutInstrument. by destruct (Instrument_Validate i).
  - unfold PutSyntheticInstrument. by destruct (SyntheticInstrument_Validate i).
  - done.
  - destruct (PutOrder c r) eqn:E; [|done]. simpl. by eapply PutOrder_same_deferred.
  - unfold PutFill. destruct (FillReport_Validate f); [|done]. case_match; [done|]. simpl. by case_match.
  - unfold PutPosition. destruct (PositionStatusReport_Validate p); [|done]. simpl. cbv zeta. by repeat case_match.
  - unfold PutMarketEvent. destruct (MarketEvent_Validate e); [|done]. simpl.
    repeat (apply put_opt_walk; [apply _|..]); try reflexivity; intros; try done.
    unfold put_bar. cbv zeta. by case_match.
  - apply Purge_same_deferred.
Qed.

Lemma get3_del2 (g : gmap AccountID (gmap string (gmap TradeID FillReport))) a o a' o' t :
  get3 (del2 g a o) a' o' t = if decide (a = a' /\ o = o') then None else get3 g a' o' t.
Proof. unfold get3. rewrite get2_del2. by case_decide. Qed.

Lemma run_op_cok c op : cok c -> cok (run_op c op).
Proof.
  intros [Ho Hf Ht Hd]. pose proof (run_op_same_rest c op) as Hs. pose proof (run_op_same_deferred c op) as Hdef.
  constructor.
  - by apply run_op_ok.
  - destruct op; cbn iota in Hs; try (eapply same_fills_ok; [first [exact Hs | exact (proj1 Hs)] | exact Hf]).
    cbn [run_op]. destruct (PutFill c f) as [[c' b]|] eqn:E; [|done]. by eapply PutFill_fills_ok.
  - destruct op; cbn iota in Hs;
      try (intros a' o' t' f'; unfold FillByTradeID; destruct Hs as [(-> & -> & _) _] || destruct Hs as (-> & -> & _); apply Ht).
    cbn [run_op]. destruct (PutFill c f) as [[c' b]|] eqn:E; [|done]. simpl.
    apply PutFill_inv in E as [_ E]. destruct (get3 _ _ _ _); [by destruct E as [-> _]|].
    destruct E as (_ & Ef & Et & _). intros a o t g. unfold FillByTradeID. rewrite Ef, Et, get3_put3, get2_put2.
    intros H. destruct (decide (fr_AccountID f = a /\ fr_TradeID f = t)) as [|Hk]; [by eexists|].
    rewrite decide_False in H by naive_solver. by eapply Ht.
  - destruct op; cbn iota in Hdef; try (intros a' o' t' f'; rewrite Hdef; apply Hd); cbn [run_op].
    + unfold PutDeferredFill. destruct (FillReport_Validate f) as [[]|] eqn:V; [|done].
      destruct (get3 _ _ _ _) eqn:E; [done|]. simpl. intros a' o' t' g. simpl. rewrite get3_put3.
      case_decide; [|apply Hd]. destruct_and!. by intros [= <-].
    + intros a' o' t' g. simpl. rewrite get3_del2. case_decide; [done|]. apply Hd.
Qed.

Lemma New_cok : cok New.
Proof.
  assert (H : forall a o t, get3 (∅ : gmap AccountID (gmap string (gmap TradeID FillReport))) a o t = None)
    by (intros; unfold get3; by rewrite get2_empty).
  constructor; [apply New_ok | ..]; intros a o t f E; simpl in E; by rewrite H in E.
Qed.

(** ** One fill of a known order *)

Definition next_filled r f : D := dadd (or_FilledQuantity r) (fr_Quantity f).
Definition overfills r f : bool := IsPositive (or_Quantity r) && GreaterThan (next_filled r f) (or_Quantity r).

(** What a stored order becomes when one fill is booked on it. *)
Definition booked r f : OrderStatusReport := normalizeOrder (updated_order r f (next_filled r f)).

Lemma updated_strip r f q : strip_fill (updated_order r f q) = strip_fill r.
Proof. unfold updated_order, strip_fill. cbv zeta. by repeat case_match. Qed.

Lemma updated_filled r f q : or_FilledQuantity (updated_order r f q) = q.
Proof. unfold updated_order. cbv zeta. by repeat case_match. Qed.

Lemma updated_average r f q : or_AveragePrice (updated_order r f q) = averageFillPrice r f q.
Proof. unfold updated_order. cbv zeta. by repeat case_match. Qed.

(** The leaves the fill leads to. *)
Definition next_leaves r f : D :=
  if IsPositive (or_Quantity r) then
    let leaves := dsub (or_Quantity r) (next_filled r f) in if IsNegative leaves then dzero else leaves
  else or_LeavesQuantity r.

Lemma updated_leaves r f : or_LeavesQuantity (updated_order r f (next_filled r f)) = next_leaves r f.
Proof. unfold updated_order, next_leaves. cbv zeta. simpl. by repeat case_match. Qed.

Lemma updated_status r f :
  or_Status (updated_order r f (next_filled r f)) =
  if IsZero (next_leaves r f) then OrderStatusFilled else OrderStatusPartiallyFilled.
Proof.
  unfold updated_order, next_leaves. cbv zeta. simpl.
  destruct (IsPositive (or_Quantity r)); simpl; [destruct (IsNegative _); simpl|]; by case_match.
Qed.

Lemma next_leaves_nonneg r f : valid_report r -> 0 <= dval (next_leaves r f).
Proof. intros V. unfold next_leaves. cbv zeta. repeat case_match; [dec|dec|apply V]. Qed.

Lemma overfills_false r f : overfills r f = false <->
  (0 < dval (or_Quantity r) -> dval (or_FilledQuantity r) + dval (fr_Quantity f) <= dval (or_Quantity r)).
Proof.
  unfold overfills, next_filled. destruct (IsPositive (or_Quantity r)) eqn:Hp; simpl.
  - dec_hyps. rewrite GreaterThan_false. dec_rew. tauto.
  - split; [intros _ H|done]. dec.
Qed.

Lemma updated_valid r f :
  valid_report r -> valid_fill f -> overfills r f = false -> valid_report (updated_order r f (next_filled r f)).
Proof.
  intros V F Hno. rewrite overfills_false in Hno.
  pose proof (strip_fill_keeps _ _ (updated_strip r f (next_filled r f))) as (Ha & Ho & _ & _ & Hi & Hq & Ht & Hc & Htr & _).
  constructor; rewrite ?Ha, ?Ho, ?Hi, ?Hq, ?Ht, ?Hc, ?Htr, ?updated_filled, ?updated_leaves; try apply V.
  - rewrite updated_status. by case_match.
  - unfold next_filled. pose proof (vr_filled _ V). pose proof (vf_quantity _ F). dec.
  - by apply next_leaves_nonneg.
  - intros Hp. unfold next_filled. specialize (Hno Hp). dec.
Qed.

Lemma normalizeOrder_filled_status u :
  or_Status u = OrderStatusFilled -> IsZero (or_FilledQuantity u) = false ->
  normalizeOrder u = u <| or_LeavesQuantity := dzero |>.
Proof. 
  intros Hs Hz. unfold normalizeOrder. rewrite Hs. change (OrderStatus_IsOpen OrderStatusFilled) with false.
  rewrite andb_false_r, Hs, Hz, andb_false_r. simpl. by rewrite Hs.
Qed.

Lemma normalizeOrder_partial u :
  or_Status u = OrderStatusPartiallyFilled -> IsZero (or_LeavesQuantity u) = false -> normalizeOrder u = u.
Proof. intros Hs Hz. unfold normalizeOrder. rewrite Hz, andb_false_r. simpl. rewrite Hs. simpl. by rewrite Hs. Qed.

(** The order after the fill: the quantity is added once, the leaves are the rest. *)
Record books r f u : Prop := {
  bk_same : strip_fill u = strip_fill r;
  bk_valid : valid_report u;
  bk_filled : dval (or_FilledQuantity u) == dval (or_FilledQuantity r) + dval (fr_Quantity f);
  bk_leaves : 0 < dval (or_Quantity r) ->
    dval (or_LeavesQuantity u) == dval (or_Quantity r) - dval (or_FilledQuantity u);
  bk_status : or_Status u = if Qeq_bool (dval (or_LeavesQuantity u)) 0 then OrderStatusFilled else OrderStatusPartiallyFilled;
  bk_average : or_AveragePrice u = averageFillPrice r f (next_filled r f);
  bk_time : or_LastUpdatedTime u = fr_Timestamp f;
}.

Lemma booked_books r f : valid_report r -> valid_fill f -> overfills r f = false -> books r f (booked r f).
Proof.
  intros V F Hno. pose proof (updated_valid r f V F Hno) as Vu. rewrite overfills_false in Hno.
  pose proof (vr_filled _ V). pose proof (vf_quantity _ F). pose proof (next_leaves_nonneg r f V) as Hl.
  assert (Hz : IsZero (next_filled r f) = false) by (unfold next_filled; dec).
  unfold booked. set (u := updated_order r f (next_filled r f)) in *.
  pose proof (strip_normal_keeps _ _ (normalizeOrder_strip u)) as (Hs & Hst & Hav & Hti).
  assert (Hfil : or_FilledQuantity (normalizeOrder u) = next_filled r f).
  { rewrite normalizeOrder_filled. unfold normal_filled. unfold u. rewrite updated_filled, Hz. by rewrite andb_false_r. }
  assert (Hlv : dval (or_LeavesQuantity (normalizeOrder u)) == dval (next_leaves r f)).
  { assert (or_LeavesQuantity u = next_leaves r f) as Hul by apply updated_leaves.
    assert (or_Status u = if IsZero (next_leaves r f) then OrderStatusFilled else OrderStatusPartiallyFilled) as Hus
      by apply updated_status.
    assert (or_FilledQuantity u = next_filled r f) as Huf by apply updated_filled.
    destruct (IsZero (next_leaves r f)) eqn:Ez.
    - rewrite normalizeOrder_filled_status by (done || by rewrite Huf). simpl. dec.
    - by rewrite normalizeOrder_partial, Hul by (by rewrite ?Hul). }
  constructor.
  - rewrite Hs. apply updated_strip.
  - by apply normalizeOrder_valid.
  - rewrite Hfil. unfold next_filled. dec.
  - intros Hp. rewrite Hlv, Hfil. specialize (Hno Hp). unfold next_leaves, next_filled. apply IsPositive_spec in Hp.
    rewrite Hp. cbv zeta. case_match; dec.
  - assert (Hus : or_Status u = if IsZero (next_leaves r f) then OrderStatusFilled else OrderStatusPartiallyFilled)
      by apply updated_status.
    rewrite Hst, Hus.
    destruct (IsZero (next_leaves r f)) eqn:Ez.
    + apply IsZero_spec in Ez. assert (Qeq_bool (dval (or_LeavesQuantity (normalizeOrder u))) 0 = true) as -> by (apply Qeq_bool_iff; lra). done.
    + apply IsZero_false in Ez. destruct (Qeq_bool _ _) eqn:E; [|done]. apply Qeq_bool_iff in E. destruct Ez. lra.
  - rewrite Hav. apply updated_average.
  - rewrite Hti. unfold u, updated_order. cbv zeta. by repeat case_match.
Qed.

(** ** One call of [ApplyFill] *)

Definition known c f : bool := bool_decide (is_Some (FillByTradeID c (fr_AccountID f) (fr_TradeID f))).

Lemma known_spec c f : known c f = if FillByTradeID c (fr_AccountID f) (fr_TradeID f) then true else false.
Proof. unfold known. destruct (FillByTradeID _ _ _); [by rewrite bool_decide_true by eauto|]. by rewrite bool_decide_false by (intros [? [=]]). Qed.

(** What stays the same when only orders and fills of known orders change. *)
Definition only_order c a o r u c' : Prop :=
  (forall a' o', cache_Order c' a' o' = if decide (a = a' /\ o = o') then Some u else cache_Order c a' o') /\
  c_deferredFills c' = c_deferredFills c.

Lemma ApplyFill_known m f a o r :
  cok (em_cache m) -> cache_Order (em_cache m) a o = Some r -> fill_order (em_cache m) f = Some r ->
  fr_AccountID f = a -> FillReport_Validate f = Ok tt -> overfills r f && negb (em_allowOverfills m) = false ->
  known (em_cache m) f = false ->
  exists c1, PutFill (em_cache m) f = Ok (c1, true) /\ cok c1 /\
    (forall a' o', cache_Order c1 a' o' = cache_Order (em_cache m) a' o') /\
    c_deferredFills c1 = c_deferredFills (em_cache m) /\
    ApplyFill m f = match PutOrder c1 (updated_order r f (next_filled r f)) with
                    | Fail e => (m <| em_cache := c1 |>, true, Fail e)
                    | Ok c => (m <| em_cache := c |>, true, Ok tt)
                    end.
Proof.
  intros Hc Hr Hfo Ha V Hov Hk. rewrite known_spec in Hk.
  destruct (FillByTradeID (em_cache m) _ _) eqn:Ht; [done|].
  destruct (PutFill (em_cache m) f) as [[c1 b]|] eqn:Ep.
  2: { unfold PutFill in Ep. rewrite V in Ep. by case_match. }
  pose proof (PutFill_same_orders _ _ _ _ Ep) as Hs. pose proof (run_op_cok _ (OpFill f) Hc) as Hc1.
  pose proof (run_op_same_deferred (em_cache m) (OpFill f)) as Hd. simpl in Hc1, Hd. rewrite Ep in Hc1, Hd. simpl in Hc1, Hd.
  assert (b = true) as ->.
  { apply PutFill_inv in Ep as [_ Ep]. destruct (get3 _ _ _ _) eqn:Eg; [|by destruct Ep].
    apply (cok_trades _ Hc) in Eg. rewrite Ht in Eg. by destruct Eg. }
  exists c1. split; [done|]. split; [done|]. split.
  { intros. unfold cache_Order. by destruct Hs as [-> _]. }
  split; [exact Hd|]. unfold ApplyFill. cbv zeta. rewrite V, Ht, Hfo. fold (next_filled r f). fold (overfills r f).
  by rewrite Hov, Ep.
Qed.

Lemma fill_order_stored c f r :
  orders_ok c -> fill_order c f = Some r ->
  or_AccountID r = fr_AccountID f /\ cache_Order c (or_AccountID r) (or_OrderID r) = Some r.
Proof.
  intros Hok. unfold fill_order. destruct (cache_Order c (fr_AccountID f) (fr_OrderID f)) as [r'|] eqn:E.
  - intros [= ->]. destruct (ix_keys _ _ Hok _ _ _ E) as (-> & -> & _). done.
  - case_bool_decide; [done|]. simpl. intros Hc.
    apply (by_link c client _ _ _ _ Hok (ix_clients _ _ Hok)) in Hc as (_ & _ & <- & Hs). done.
Qed.

Lemma fill_order_id c f r : cache_Order c (fr_AccountID f) (fr_OrderID f) = Some r -> fill_order c f = Some r.
Proof. intros H. unfold fill_order. by rewrite H. Qed.

Lemma PutFill_trade c f c1 a t :
  PutFill c f = Ok (c1, true) ->
  FillByTradeID c1 a t = if decide (fr_AccountID f = a /\ fr_TradeID f = t) then Some f else FillByTradeID c a t.
Proof.
  intros H. apply PutFill_inv in H as [_ H]. destruct (get3 _ _ _ _); [by destruct H|]. destruct H as (_ & _ & Ht & _).
  unfold FillByTradeID. by rewrite Ht, get2_put2.
Qed.

Lemma PutOrder_trade c r c' a t : PutOrder c r = Ok c' -> FillByTradeID c' a t = FillByTradeID c a t.
Proof. intros H. destruct (PutOrder_same_rest _ _ _ H) as [(_ & Ht & _) _]. unfold FillByTradeID. by rewrite Ht. Qed.

(** What one booked fill changes: its order, and the trade id that is now known. *)
Record booking c f r c' : Prop := {
  bg_ok : cok c';
  bg_order : forall a o, cache_Order c' a o =
    if decide (or_AccountID r = a /\ or_OrderID r = o) then Some (booked r f) else cache_Order c a o;
  bg_trade : forall a t, FillByTradeID c' a t =
    if decide (fr_AccountID f = a /\ fr_TradeID f = t) then Some f else FillByTradeID c a t;
  bg_deferred : c_deferredFills c' = c_deferredFills c;
}.

Lemma ApplyFill_booked m f r :
  cok (em_cache m) -> fill_order (em_cache m) f = Some r -> FillReport_Validate f = Ok tt ->
  overfills r f = false -> known (em_cache m) f = false ->
  exists c', ApplyFill m f = (m <| em_cache := c' |>, true, Ok tt) /\ booking (em_cache m) f r c'.
Proof.
  intros Hc Hfo V Hov Hk. destruct (fill_order_stored _ _ _ (proj1 (cok_orders _ Hc)) Hfo) as [Ha Hr].
  destruct (ApplyFill_known m f _ _ r Hc Hr Hfo (eq_sym Ha) V) as (c1 & Hp & Hc1 & Heq1 & Hd1 & ->); [by rewrite Hov|done|].
  pose proof (stored_valid _ _ _ _ (cok_orders _ Hc) Hr) as Vr. apply FillReport_Validate_ok in V as F.
  destruct (PutOrder_valid c1 _ (updated_valid r f Vr F Hov)) as [c' Hput]. rewrite Hput. exists c'. split; [done|].
  assert (Hr1 := Hr). rewrite <- Heq1 in Hr1.
  destruct (put_stored c1 _ _ r _ c' (proj1 (cok_orders _ Hc1)) Hr1 (updated_strip r f _) Hput) as [_ Heq].
  constructor.
  - pose proof (run_op_cok c1 (OpOrder (updated_order r f (next_filled r f))) Hc1) as H. simpl in H. by rewrite Hput in H.
  - intros a o. by rewrite Heq, Heq1.
  - intros a t. by rewrite (PutOrder_trade _ _ _ _ _ Hput), (PutFill_trade _ _ _ _ _ Hp).
  - by rewrite (PutOrder_same_deferred _ _ _ Hput).
Qed.

Lemma ApplyFill_duplicate m f :
  FillReport_Validate f = Ok tt -> known (em_cache m) f = true -> ApplyFill m f = (m, false, Ok tt).
Proof.
  intros V Hk. rewrite known_spec in Hk. unfold ApplyFill. cbv zeta. rewrite V. by destruct (FillByTradeID _ _ _).
Qed.

Lemma ApplyFill_overfill m f r :
  FillReport_Validate f = Ok tt -> known (em_cache m) f = false -> fill_order (em_cache m) f = Some r ->
  overfills r f = true -> em_allowOverfills m = false ->
  ApplyFill m f = (m, false, Fail (mkErr ErrOverfill "filled exceeds quantity")).
Proof.
  intros V Hk Hfo Hov Hal. rewrite known_spec in Hk. unfold ApplyFill. cbv zeta. rewrite V.
  destruct (FillByTradeID _ _ _); [done|]. rewrite Hfo. fold (next_filled r f). fold (overfills r f). by rewrite Hov, Hal.
Qed.

(** ** Every sequence of operations *)

(** The operations of the manager, and those of the other users of its cache. *)
Inductive ManagerOp :=
  | MReport (r : OrderStatusReport) | MFill (f : FillReport) | MCache (op : CacheOp)
  | MSubmit (order : SubmitOrder) | MPop (id : ClientOrderID) | MList (l : OrderList)
  | MPosition (a : AccountID) (i : InstrumentID) (s : StrategyID) | MProgress (r : OrderStatusReport).

Definition run_mop m (op : ManagerOp) : Manager :=
  match op with
  | MReport r => (ApplyOrderReport m r).1
  | MFill f => (ApplyFill m f).1.1
  | MCache op => m <| em_cache := run_op (em_cache m) op |>
  | MSubmit order => (CacheSubmitCommand m order).1
  | MPop id => (PopSubmitCommand m id).1
  | MList l => (IndexOrderList m l).1
  | MPosition a i s => (DeterminePositionID m a i s).1
  | MProgress r => (HandleOrderListProgress m r).1
  end.

Definition run_mops m (ops : list ManagerOp) : Manager := foldl run_mop m ops.

Lemma put_cok {A} c (x : res A) (g : A -> Cache) op :
  cok c -> run_op c op = or_same c (g <$> x) -> forall v, x = Ok v -> cok (g v).
Proof. intros Hc Hop v ->. pose proof (run_op_cok c op Hc) as H. by rewrite Hop in H. Qed.

Lemma PutOrder_cok c r c' : cok c -> PutOrder c r = Ok c' -> cok c'.
Proof. intros Hc E. apply (put_cok c (PutOrder c r) id (OpOrder r) Hc); [simpl; by destruct (PutOrder c r)|done]. Qed.
Lemma PutFill_cok c f c' b : cok c -> PutFill c f = Ok (c', b) -> cok c'.
Proof. intros Hc E. by apply (put_cok c (PutFill c f) fst (OpFill f) Hc eq_refl (c', b)). Qed.
Lemma PutDeferredFill_cok c f c' b : cok c -> PutDeferredFill c f = Ok (c', b) -> cok c'.
Proof. intros Hc E. by apply (put_cok c (PutDeferredFill c f) fst (OpDeferred f) Hc eq_refl (c', b)). Qed.

Lemma ApplyFill_cok m f : cok (em_cache m) -> cok (em_cache (ApplyFill m f).1.1).
Proof.
  intros Hc. unfold ApplyFill. cbv zeta.
  destruct (FillReport_Validate f); [|done]. destruct (FillByTradeID _ _ _); [done|].
  destruct (fill_order _ _) as [r|].
  - case_match; [done|]. destruct (PutFill _ _) as [[c1 []]|] eqn:E1; [|by eapply PutFill_cok|done].
    pose proof (PutFill_cok _ _ _ _ Hc E1) as Hc1.
    destruct (PutOrder _ _) eqn:E2; [|done]. by eapply PutOrder_cok.
  - destruct (FillReport_IsLegFill f).
    + destruct (PutFill _ _) as [[c1 b]|] eqn:E1; [|done]. by eapply PutFill_cok.
    + destruct (PutDeferredFill _ _) as [[c1 b]|] eqn:E1; [|done]. by eapply PutDeferredFill_cok.
Qed.

Lemma replay_fills_cok fs m : cok (em_cache m) -> cok (em_cache (replay_fills m fs).1).
Proof.
  revert m. induction fs as [|f fs IH]; intros m Hc; [done|]. simpl. apply (ApplyFill_cok m f) in Hc.
  destruct (ApplyFill m f) as [[m1 b] [[]|e]]; [by apply IH|done].
Qed.

Lemma ApplyOrderReport_cok m r : cok (em_cache m) -> cok (em_cache (ApplyOrderReport m r).1).
Proof.
  intros Hc. unfold ApplyOrderReport. destruct (OrderStatusReport_Validate r); [|done].
  destruct (match cache_Order _ _ _ with Some _ => _ | None => _ end); [|done].
  destruct (PutOrder (em_cache m) r) as [c1|] eqn:E; [|done].
  assert (Hc1 : cok (em_cache (m <| em_cache := c1 |>))) by (by eapply PutOrder_cok).
  revert Hc1. generalize (m <| em_cache := c1 |>). intros m1 Hc1. unfold replayDeferredFills.
  destruct (DeferredFillsForOrder _ _ _) as [|f fs]; [done|]. apply (replay_fills_cok (f :: fs)) in Hc1.
  destruct (replay_fills m1 (f :: fs)) as [m2 [[]|e]]; [|done].
  exact (run_op_cok _ (OpClearDeferred (or_AccountID r) (or_OrderID r)) Hc1).
Qed.

Lemma index_list_cache kind l m : em_cache (foldl (index_list_order kind) m l) = em_cache m.
Proof. revert m. induction l as [|o l IH]; intros m; [done|]. simpl. rewrite IH. unfold index_list_order. cbv zeta. by case_match. Qed.

Lemma handleOuo_cache m r ms : em_cache (handleOuoProgress m r ms).1 = em_cache m.
Proof. unfold handleOuoProgress. cbv zeta. by repeat case_match. Qed.

Lemma progress_cache m r : em_cache (progress_actions m r).1 = em_cache m.
Proof.
  unfold progress_actions. cbv zeta. set (ms := members m _).
  assert (forall b : bool, em_cache (if b then drop_held m r else m) = em_cache m) as H1 by by intros [].
  rewrite <- (H1 (OrderStatus_IsTerminal (or_Status r) && (or_Status r ≠? OrderStatusFilled))).
  generalize (if OrderStatus_IsTerminal (or_Status r) && (or_Status r ≠? OrderStatusFilled) then drop_held m r else m).
  intros m1. pose proof (handleOuo_cache m1 r ms) as H2.
  destruct (_ && _); [destruct (handleOuoProgress m1 r ms) as [m2 acts]|]; repeat case_match; simpl in *; congruence.
Qed.

Lemma HandleOrderListProgress_cache m r : em_cache (HandleOrderListProgress m r).1 = em_cache m.
Proof.
  unfold HandleOrderListProgress. destruct (OrderStatusReport_Validate r); [|done].
  pose proof (progress_cache m r) as H. destruct (progress_actions m r) as [m1 acts]. simpl in *. rewrite <- H.
  case_match; [|done]. unfold cleanupClosedOrderList. by repeat case_match.
Qed.

Lemma run_mop_cok m op : cok (em_cache m) -> cok (em_cache (run_mop m op)).
Proof.
  intros Hc. destruct op; cbn [run_mop].
  - by apply ApplyOrderReport_cok.
  - by apply ApplyFill_cok.
  - by apply run_op_cok.
  - unfold CacheSubmitCommand. by case_match.
  - unfold PopSubmitCommand. by case_match.
  - unfold IndexOrderList. case_match; [|done]. cbn [fst]. by rewrite index_list_cache.
  - unfold DeterminePositionID. by repeat case_match.
  - by rewrite HandleOrderListProgress_cache.
Qed.

Lemma run_mops_cok ops m : cok (em_cache m) -> cok (em_cache (run_mops m ops)).
Proof. revert m. induction ops as [|op ops IH]; intros m Hc; [done|]. by apply IH, run_mop_cok. Qed.

Lemma reachable_cok allow mode ops : cok (em_cache (run_mops (NewManager None allow mode) ops)).
Proof. apply run_mops_cok, New_cok. Qed.

(** ** Runs of fills *)

Fixpoint apply_fills m (fs : list FillReport) : Manager * list (bool * res unit) :=
  match fs with
  | [] => (m, [])
  | f :: fs =>
      let '(m, b, out) := ApplyFill m f in
      let '(m, outs) := apply_fills m fs in (m, (b, out) :: outs)
  end.

(** The fills the manager reports as applied. *)
Definition taken (fs : list FillReport) (outs : list (bool * res unit)) : list FillReport :=
  omap (fun '(f, (b, out)) => if (b : bool) then Some f else None) (zip fs outs).

Lemma taken_cons f fs out outs : taken (f :: fs) ((true, out) :: outs) = f :: taken fs outs.
Proof. done. Qed.

Definition for_order a o f : Prop := fr_AccountID f = a /\ fr_OrderID f = o /\ FillReport_Validate f = Ok tt.

(** What one call answers, given the order [u] and the manager [m'] in the end. *)
Definition answered m' u f (out : bool * res unit) : Prop :=
  match out with
  | (true, Ok _) => FillByTradeID (em_cache m') (fr_AccountID f) (fr_TradeID f) = Some f
  | (false, Ok _) => known (em_cache m') f = true
  | (false, Fail e) => err_kind e = ErrOverfill /\ 0 < dval (or_Quantity u) /\
                       dval (or_Quantity u) < dval (or_FilledQuantity u) + dval (fr_Quantity f)
  | (true, Fail _) => False
  end.

(** A run from [m], where the order is [r], to [m'], where it is [u]. *)
Record booked_run a o m r fs m' u (outs : list (bool * res unit)) : Prop := {
  br_ok : cok (em_cache m');
  br_stored : cache_Order (em_cache m') a o = Some u;
  br_same : strip_fill u = strip_fill r;
  br_total : dval (or_FilledQuantity u) == dval (or_FilledQuantity r) + total (taken fs outs);
  br_once : NoDup (fr_TradeID <$> taken fs outs);
  br_new : Forall (fun f => known (em_cache m) f = false) (taken fs outs);
  br_others : forall a' o', ~ (a = a' /\ o = o') -> cache_Order (em_cache m') a' o' = cache_Order (em_cache m) a' o';
  br_keeps : forall a' t g, FillByTradeID (em_cache m) a' t = Some g -> FillByTradeID (em_cache m') a' t = Some g;
  br_deferred : c_deferredFills (em_cache m') = c_deferredFills (em_cache m);
  br_answers : Forall2 (answered m' u) fs outs;
}.

Lemma known_mono c c' f :
  (forall a t g, FillByTradeID c a t = Some g -> FillByTradeID c' a t = Some g) ->
  known c f = true -> known c' f = true.
Proof. rewrite !known_spec. intros H. destruct (FillByTradeID c _ _) eqn:E; [|done]. by rewrite (H _ _ _ E). Qed.

Lemma taken_valid a o fs outs : Forall (for_order a o) fs -> Forall valid_fill (taken fs outs).
Proof.
  revert outs. unfold taken. induction fs as [|f fs IH]; intros [|[b out] outs] H; simpl; try constructor.
  apply Forall_cons in H as [(_ & _ & V) H]. destruct b; [constructor; [by apply FillReport_Validate_ok|]|]; by apply IH.
Qed.

(** The first call of a run changes nothing. *)
Lemma booked_run_skip a o m r fs m' u outs f out :
  booked_run a o m r fs m' u outs -> answered m' u f (false, out) ->
  booked_run a o m r (f :: fs) m' u ((false, out) :: outs).
Proof. intros [] Ha. constructor; try done. by constructor. Qed.

(** The first call of a run books its fill. *)
Lemma booked_run_book a o m r fs m' u outs f c1 :
  or_AccountID r = a -> or_OrderID r = o -> for_order a o f -> valid_report r -> overfills r f = false ->
  known (em_cache m) f = false -> booking (em_cache m) f r c1 -> Forall (for_order a o) fs ->
  booked_run a o (m <| em_cache := c1 |>) (booked r f) fs m' u outs ->
  booked_run a o m r (f :: fs) m' u ((true, Ok tt) :: outs).
Proof.
  intros Ha Ho (Hfa & Hfo & Vf) V Hov Hk [Hok1 Hord Htr Hd1] Hfs [].
  destruct (booked_books r f V (FillReport_Validate_ok f Vf) Hov).
  assert (Hkeep : forall a' t g, FillByTradeID (em_cache m) a' t = Some g -> FillByTradeID c1 a' t = Some g).
  { intros a' t g Hg. rewrite Htr. case_decide as Hd; [|done]. destruct Hd as [<- <-].
    rewrite known_spec, Hg in Hk. done. }
  assert (Hf1 : FillByTradeID c1 (fr_AccountID f) (fr_TradeID f) = Some f) by (by rewrite Htr, decide_True).
  constructor; try done.
  - congruence.
  - rewrite taken_cons, br_total0. simpl. lra.
  - rewrite taken_cons. simpl. constructor; [|done]. intros Hin. apply list_elem_of_fmap in Hin as (g & Hg & Hin).
    rewrite Forall_forall in br_new0. specialize (br_new0 g Hin). rewrite known_spec in br_new0. simpl in br_new0.
    assert (fr_AccountID g = fr_AccountID f) as Hga.
    { apply list_elem_of_omap in Hin as ([g' [b out]] & Hz & Hb). destruct b; [|done]. injection Hb as ->.
      apply elem_of_zip_l in Hz. rewrite Forall_forall in Hfs. destruct (Hfs _ Hz) as [-> _]. done. }
    by rewrite Hga, <- Hg, Hf1 in br_new0.
  - rewrite taken_cons. constructor; [done|]. eapply Forall_impl; [exact br_new0|]. simpl. intros g Hg.
    rewrite known_spec in Hg |- *. destruct (FillByTradeID (em_cache m) _ _) eqn:E; [|done]. by rewrite (Hkeep _ _ _ E) in Hg.
  - intros a' o' Hne. rewrite br_others0 by done. simpl. rewrite Hord, decide_False; [done|]. by rewrite Ha, Ho.
  - intros a' t g Hg. by apply br_keeps0, Hkeep.
  - rewrite br_deferred0. exact Hd1.
  - constructor; [|done]. simpl. by apply br_keeps0.
Qed.

Lemma apply_fills_run a o fs : forall m r m' outs,
  cok (em_cache m) -> em_allowOverfills m = false -> cache_Order (em_cache m) a o = Some r ->
  Forall (for_order a o) fs -> apply_fills m fs = (m', outs) ->
  exists u, booked_run a o m r fs m' u outs.
Proof.
  induction fs as [|f fs IH]; intros m r m' outs Hc Hal Hr Hfs H.
  { injection H as <- <-. exists r. constructor; try done; try constructor. simpl. unfold taken. simpl. lra. }
  apply Forall_cons in Hfs as [Hf Hfs]. pose proof Hf as (Hfa & Hfo & V). simpl in H.
  assert (Hfind : fill_order (em_cache m) f = Some r) by (apply fill_order_id; by rewrite Hfa, Hfo).
  destruct (ix_keys _ _ (proj1 (cok_orders _ Hc)) _ _ _ Hr) as (Ha & Ho & _).
  pose proof (stored_valid _ _ _ _ (cok_orders _ Hc) Hr) as Vr.
  destruct (known (em_cache m) f) eqn:Hk.
  { rewrite ApplyFill_duplicate in H by done. destruct (apply_fills m fs) as [m1 outs1] eqn:E. injection H as <- <-.
    destruct (IH _ _ _ _ Hc Hal Hr Hfs E) as [u Hu]. exists u. apply booked_run_skip; [done|].
    eapply known_mono; [apply (br_keeps _ _ _ _ _ _ _ _ Hu)|done]. }
  destruct (overfills r f) eqn:Hov.
  { rewrite (ApplyFill_overfill m f r) in H by done. destruct (apply_fills m fs) as [m1 outs1] eqn:E. injection H as <- <-.
    destruct (IH _ _ _ _ Hc Hal Hr Hfs E) as [u Hu]. exists u. apply booked_run_skip; [done|]. simpl. split; [done|].
    pose proof (total_nonneg _ (taken_valid a o fs outs1 Hfs)) as Ht. destruct Hu.
    pose proof (strip_fill_keeps _ _ br_same0) as (_ & _ & _ & _ & _ & Hq & _). rewrite Hq, br_total0.
    unfold overfills, next_filled in Hov. bools. dec_hyps. dec_rew. split; [done|lra]. }
  destruct (ApplyFill_booked m f r Hc Hfind V Hov Hk) as (c1 & HA & Hbg). rewrite HA in H.
  destruct (apply_fills (m <| em_cache := c1 |>) fs) as [m1 outs1] eqn:E. injection H as <- <-.
  assert (Hr1 : cache_Order c1 a o = Some (booked r f)) by (by rewrite (bg_order _ _ _ _ Hbg), decide_True).
  assert (Hc1 : cok (em_cache (m <| em_cache := c1 |>))) by exact (bg_ok _ _ _ _ Hbg).
  destruct (IH _ (booked r f) _ _ Hc1 Hal Hr1 Hfs E) as [u Hu]. exists u.
  by eapply booked_run_book.
Qed.

(** C16: fills are booked exactly once.  Whatever happened before, feeding the manager any
    list of valid fills of a stored order (overfills not allowed) books on it exactly the fills
    reported as applied: the filled quantity grows by their total and stays within the
    order's quantity, no trade id is applied twice or had been seen before, an
    unapplied fill is a duplicate or would have exceeded the quantity, and no
    other order changes. *)
Theorem fills_booked_once allow mode (ops : list ManagerOp) a o r fs m' outs :
  let m := run_mops (NewManager None allow mode) ops in
  em_allowOverfills m = false -> cache_Order (em_cache m) a o = Some r -> Forall (for_order a o) fs ->
  apply_fills m fs = (m', outs) ->
  exists u, booked_run a o m r fs m' u outs /\ valid_report u /\
    (0 < dval (or_Quantity r) -> dval (or_FilledQuantity u) <= dval (or_Quantity r)).
Proof.
  intros m Hal Hr Hfs H. destruct (apply_fills_run a o fs m r m' outs (reachable_cok _ _ _) Hal Hr Hfs H) as [u Hu].
  exists u. split; [done|]. pose proof (stored_valid _ _ _ _ (cok_orders _ (br_ok _ _ _ _ _ _ _ _ Hu)) (br_stored _ _ _ _ _ _ _ _ Hu)) as V.
  split; [done|]. pose proof (strip_fill_keeps _ _ (br_same _ _ _ _ _ _ _ _ Hu)) as (_ & _ & _ & _ & _ & <- & _). apply V.
Qed.

(** ** Fills that precede their order *)

Lemma deferred_list c a o : cok c ->
  Forall (for_order a o) (DeferredFillsForOrder c a o) /\ NoDup (fr_TradeID <$> DeferredFillsForOrder c a o).
Proof.
  intros Hc. unfold DeferredFillsForOrder, sortFills. rewrite merge_sort_Permutation. split.
  - apply Forall_forall. intros f Hin. apply elem_of_fills in Hin as [t Ht].
    apply (cok_deferred _ Hc) in Ht as (? & ? & ? & _). done.
  - unfold map_values. rewrite <- list_fmap_compose.
    rewrite (list_fmap_ext _ fst); [apply NoDup_fst_map_to_list|].
    intros i [t f] Hin. apply list_elem_of_lookup_2, elem_of_map_to_list in Hin. simpl.
    by apply (cok_deferred _ Hc a o t f).
Qed.

Lemma apply_fills_taken a o fs : forall m r m' outs,
  cok (em_cache m) -> em_allowOverfills m = false -> cache_Order (em_cache m) a o = Some r ->
  Forall (for_order a o) fs -> NoDup (fr_TradeID <$> fs) -> apply_fills m fs = (m', outs) ->
  Forall (fun out => out.2 = Ok tt) outs ->
  taken fs outs = List.filter (fun f => negb (known (em_cache m) f)) fs.
Proof.
  induction fs as [|f fs IH]; intros m r m' outs Hc Hal Hr Hfs Hnd H Hok; [done|].
  apply Forall_cons in Hfs as [Hf Hfs]. pose proof Hf as (Hfa & Hfo & V). simpl in H, Hnd |- *.
  apply NoDup_cons in Hnd as [Hni Hnd].
  assert (Hfind : fill_order (em_cache m) f = Some r) by (apply fill_order_id; by rewrite Hfa, Hfo).
  destruct (known (em_cache m) f) eqn:Hk; simpl.
  { rewrite ApplyFill_duplicate in H by done. destruct (apply_fills m fs) as [m1 outs1] eqn:E. injection H as <- <-.
    apply Forall_cons in Hok as [_ Hok]. by apply (IH m r m1 outs1). }
  destruct (overfills r f) eqn:Hov.
  { rewrite (ApplyFill_overfill m f r) in H by done. destruct (apply_fills m fs) as [m1 outs1]. injection H as <- <-.
    by apply Forall_cons in Hok as [[=] _]. }
  destruct (ApplyFill_booked m f r Hc Hfind V Hov Hk) as (c1 & HA & Hbg). rewrite HA in H.
  destruct (apply_fills (m <| em_cache := c1 |>) fs) as [m1 outs1] eqn:E. injection H as <- <-.
  apply Forall_cons in Hok as [_ Hok]. destruct (ix_keys _ _ (proj1 (cok_orders _ Hc)) _ _ _ Hr) as (Ha & Ho & _).
  assert (Hr1 : cache_Order c1 a o = Some (booked r f)) by (by rewrite (bg_order _ _ _ _ Hbg), decide_True).
  assert (Hc1 : cok (em_cache (m <| em_cache := c1 |>))) by exact (bg_ok _ _ _ _ Hbg).
  rewrite taken_cons. f_equal. rewrite (IH _ _ _ _ Hc1 Hal Hr1 Hfs Hnd E Hok).
  apply filter_ext_in. intros g Hg%list_elem_of_In. f_equal. rewrite !known_spec. simpl. rewrite (bg_trade _ _ _ _ Hbg).
  rewrite decide_False; [done|]. intros [_ Ht]. apply Hni. apply list_elem_of_fmap. exists g. by rewrite Ht.
Qed.

Lemma replay_fills_run fs : forall m m' out, replay_fills m fs = (m', out) ->
  exists k outs, apply_fills m (take k fs) = (m', outs) /\
    match out with
    | Ok _ => k = List.length fs /\ Forall (fun out => out.2 = Ok tt) outs
    | Fail e => exists b, (b, Fail e) ∈ outs
    end.
Proof.
  induction fs as [|f fs IH]; intros m m' out H; simpl in H.
  { injection H as <- <-. exists 0%nat, []. split; [done|]. split; [done|constructor]. }
  destruct (ApplyFill m f) as [[m1 b] [[]|e]] eqn:E.
  - apply IH in H as (k & outs & H & Ho). exists (S k), ((b, Ok tt) :: outs). simpl. rewrite E, H. split; [done|].
    destruct out as [[]|e]; [|destruct Ho as [b' Ho]; exists b'; set_solver].
    destruct Ho as [-> Ho]. split; [done|]. by constructor.
  - injection H as <- <-. exists 1%nat, [(b, Fail e)]. simpl. rewrite E. split; [done|]. exists b. set_solver.
Qed.

Lemma DeferredFills_eq c c' a o : c_deferredFills c' = c_deferredFills c -> DeferredFillsForOrder c' a o = DeferredFillsForOrder c a o.
Proof. intros H. unfold DeferredFillsForOrder. by rewrite H. Qed.

Lemma Clear_deferred c a o : DeferredFillsForOrder (ClearDeferredFillsForOrder c a o) a o = [].
Proof.
  unfold DeferredFillsForOrder, ClearDeferredFillsForOrder. simpl. rewrite get2_del2, decide_True by done.
  unfold map_values. simpl. by rewrite map_to_list_empty.
Qed.

(** What the cache holds for an order after its report, the deferred fills having been [early]. *)
Record replayed c c' report (early : list FillReport) u : Prop := {
  rd_stored : cache_Order c' (or_AccountID report) (or_OrderID report) = Some u;
  rd_cleared : DeferredFillsForOrder c' (or_AccountID report) (or_OrderID report) = [];
  rd_known : Forall (fun f => known c' f = true) early;
  rd_same : strip_fill u = strip_fill report;
  rd_filled : dval (or_FilledQuantity u) ==
    dval (or_FilledQuantity (normalizeOrder report)) + total (List.filter (fun f => negb (known c f)) early);
}.

Lemma replayDeferred_spec m c1 report m' out :
  cok (em_cache m) -> em_allowOverfills m = false -> PutOrder (em_cache m) report = Ok c1 ->
  let a := or_AccountID report in let o := or_OrderID report in
  let early := DeferredFillsForOrder (em_cache m) a o in
  replayDeferredFills (m <| em_cache := c1 |>) a o = (m', out) ->
  match out with
  | Ok _ => exists u, replayed (em_cache m) (em_cache m') report early u
  | Fail e => err_kind e = ErrOverfill /\ DeferredFillsForOrder (em_cache m') a o = early
  end.
Proof.
  intros Hc Hal Hput a o early H. pose proof (PutOrder_cok _ _ _ Hc Hput) as Hc1.
  destruct (PutOrder_stored _ _ _ (proj1 (cok_orders _ Hc)) Hput) as [Hst V].
  pose proof (strip_normal_keeps _ _ (normalizeOrder_strip report)) as (Hs & _).
  assert (Hkn : forall f, known c1 f = known (em_cache m) f) by (intros; by rewrite !known_spec, (PutOrder_trade _ _ _ _ _ Hput)).
  assert (He : DeferredFillsForOrder c1 a o = early) by apply DeferredFills_eq, (PutOrder_same_deferred _ _ _ Hput).
  destruct (deferred_list (em_cache m) a o Hc) as [Hfor Hnd]. fold early in Hfor, Hnd.
  unfold replayDeferredFills in H.
  assert (Hm : exists m1, m1 = m <| em_cache := c1 |>) by eauto. destruct Hm as [m1 Hm]. rewrite <- Hm in H.
  assert (em_cache m1 = c1) as Hmc by by rewrite Hm. assert (em_allowOverfills m1 = false) as Hal1 by by rewrite Hm.
  clear Hm. rewrite <- Hmc in *. rewrite He in H.
  destruct early as [|f0 fs0] eqn:Ee.
  { injection H as <- <-. exists (normalizeOrder report). constructor; try done. simpl. lra. }
  rewrite <- Ee in *. clear f0 fs0 Ee.
  destruct (replay_fills _ early) as [m2 out2] eqn:E.
  destruct (replay_fills_run _ _ _ _ E) as (k & outs & Hrun & Hout).
  destruct (apply_fills_run a o (take k early) m1 (normalizeOrder report) m2 outs Hc1 Hal1 Hst) as [u Hu];
    [by apply Forall_take|exact Hrun|].
  pose proof Hu as []. destruct out2 as [[]|e].
  - destruct Hout as [-> Hout]. rewrite firstn_all in Hrun, Hu, br_answers0, br_total0. injection H as <- <-. exists u.
    assert (Htk := apply_fills_taken a o early _ _ _ _ Hc1 Hal1 Hst Hfor Hnd Hrun Hout).
    constructor.
    + exact br_stored0.
    + apply Clear_deferred.
    + apply Forall_forall. intros f Hf. apply list_elem_of_lookup in Hf as [i Hi].
      destruct (Forall2_lookup_l _ _ _ _ _ br_answers0 Hi) as ([b res] & Hj & Ha).
      assert (res = Ok tt) as -> by exact (proj1 (Forall_lookup _ _) Hout i _ Hj).
      destruct b; simpl in Ha; [|exact Ha]. rewrite known_spec. unfold FillByTradeID in *. simpl. by rewrite Ha.
    + by rewrite br_same0, Hs.
    + rewrite br_total0, Htk. rewrite (filter_ext _ (fun f => negb (known (em_cache m) f))); [done|].
      intros f. by rewrite Hkn.
  - injection H as <- <-. split.
    + destruct Hout as [b Hb]. apply list_elem_of_lookup in Hb as [i Hi].
      destruct (Forall2_lookup_r _ _ _ _ _ br_answers0 Hi) as (f & _ & Ha). destruct b; [done|]. by destruct Ha.
    + rewrite (DeferredFills_eq _ _ _ _ br_deferred0). exact He.
Qed.

(** Fills that arrive before their order are neither lost nor booked twice.  When the
    manager accepts an order report, every fill deferred for the order becomes known and
    leaves the deferred store, and the order's filled quantity is the reported one
    plus the deferred fills that were not known yet.  When it fails, the deferred fills
    are still there: it refused the report and changed nothing, or one of them would overfill. *)
Theorem deferred_fills_replayed allow mode (ops : list ManagerOp) report m' out :
  let m := run_mops (NewManager None allow mode) ops in
  let early := DeferredFillsForOrder (em_cache m) (or_AccountID report) (or_OrderID report) in
  em_allowOverfills m = false -> ApplyOrderReport m report = (m', out) ->
  match out with
  | Ok _ => exists u, replayed (em_cache m) (em_cache m') report early u
  | Fail e =>
      DeferredFillsForOrder (em_cache m') (or_AccountID report) (or_OrderID report) = early /\
      (m' = m \/ err_kind e = ErrOverfill)
  end.
Proof.
  intros m early Hal H. pose proof (reachable_cok allow mode ops) as Hc. fold m in Hc. unfold ApplyOrderReport in H.
  destruct (OrderStatusReport_Validate report) as [|e]; [|injection H as <- <-; auto].
  destruct (match cache_Order _ _ _ with Some _ => _ | None => _ end) as [|e]; [|injection H as <- <-; auto].
  destruct (PutOrder (em_cache m) report) as [c1|e] eqn:E; [|injection H as <- <-; auto].
  pose proof (replayDeferred_spec m c1 report m' out Hc Hal E H) as Hs.
  destruct out; [exact Hs|]. destruct Hs. auto.
Qed.

(** ** Orders that are done *)

(** A closed order.  The manager refuses every report that would give a terminal
    order another status, but a late fill reopens it: the order becomes partially filled,
    which is an open status, when the fill leaves a part of the quantity. *)
Theorem late_fill_reopens allow mode (ops : list ManagerOp) a o r f :
  let m := run_mops (NewManager None allow mode) ops in
  cache_Order (em_cache m) a o = Some r -> OrderStatus_IsTerminal (or_Status r) = true ->
  for_order a o f -> known (em_cache m) f = false ->
  dval (or_FilledQuantity r) + dval (fr_Quantity f) < dval (or_Quantity r) ->
  (forall report, OrderStatusReport_Validate report = Ok tt -> or_AccountID report = a -> or_OrderID report = o ->
     or_Status report <> or_Status r ->
     ApplyOrderReport m report = (m, Fail (mkErr ErrInvalidTransition "cannot transition order"))) /\
  exists m' u, ApplyFill m f = (m', true, Ok tt) /\ cache_Order (em_cache m') a o = Some u /\
    or_Status u = OrderStatusPartiallyFilled /\ OrderStatus_IsOpen (or_Status u) = true.
Proof.
  intros m Hr Hterm (Ha & Ho & V) Hk Hlt. pose proof (reachable_cok allow mode ops) as Hc. fold m in Hc. split.
  - intros report Vr <- <- Hne. unfold ApplyOrderReport. rewrite Vr, Hr. unfold validateOrderTransition.
    rewrite Hterm, bool_decide_eq_false_2 by done. done.
  - pose proof (stored_valid _ _ _ _ (cok_orders _ Hc) Hr) as Vr. pose proof (FillReport_Validate_ok _ V) as F.
    assert (Hov : overfills r f = false) by (apply overfills_false; lra).
    destruct (ApplyFill_booked m f r Hc (fill_order_id _ _ _ ltac:(by rewrite Ha, Ho)) V Hov Hk) as (c' & -> & Hbg).
    destruct (booked_books r f Vr F Hov). destruct (ix_keys _ _ (proj1 (cok_orders _ Hc)) _ _ _ Hr) as (Hra & Hro & _).
    pose proof (vr_filled _ Vr). pose proof (vf_quantity _ F).
    assert (Hst : or_Status (booked r f) = OrderStatusPartiallyFilled).
    { rewrite bk_status0. destruct (Qeq_bool _ _) eqn:E; [|done]. apply Qeq_bool_iff in E. rewrite bk_leaves0 in E by lra. lra. }
    exists (m <| em_cache := c' |>), (booked r f). simpl. rewrite (bg_order _ _ _ _ Hbg), decide_True by done. by rewrite Hst.
Qed.

(** Allowed overfills are lost.  With overfills allowed, a fill that exceeds the quantity of its
    order is stored and reported as applied together with an error, the order stays as it was, and
    the same fill is a duplicate from then on. *)
Theorem allowed_overfill_lost allow mode (ops : list ManagerOp) a o r f :
  let m := run_mops (NewManager None allow mode) ops in
  cache_Order (em_cache m) a o = Some r -> for_order a o f -> known (em_cache m) f = false ->
  em_allowOverfills m = true -> 0 < dval (or_Quantity r) ->
  dval (or_Quantity r) < dval (or_FilledQuantity r) + dval (fr_Quantity f) ->
  exists m' e, ApplyFill m f = (m', true, Fail e) /\ known (em_cache m') f = true /\
    (forall a o, cache_Order (em_cache m') a o = cache_Order (em_cache m) a o) /\
    ApplyFill m' f = (m', false, Ok tt).
Proof.
  intros m Hr (Ha & Ho & V) Hk Hal Hq Hlt. pose proof (reachable_cok allow mode ops) as Hc. fold m in Hc.
  destruct (ix_keys _ _ (proj1 (cok_orders _ Hc)) _ _ _ Hr) as (Hra & Hro & _).
  destruct (ApplyFill_known m f a o r Hc Hr (fill_order_id _ _ _ ltac:(by rewrite Ha, Ho)) Ha V)
    as (c1 & Hp & _ & Hsame & _ & ->); [by rewrite Hal, andb_false_r|done|].
  pose proof (FillReport_Validate_ok _ V) as F. pose proof (stored_valid _ _ _ _ (cok_orders _ Hc) Hr) as Vr.
  assert (Hk1 : known c1 f = true) by (by rewrite known_spec, (PutFill_trade _ _ _ _ _ Hp), decide_True).
  destruct (PutOrder c1 _) as [c'|e] eqn:Hput; cycle 1.
  { exists (m <| em_cache := c1 |>), e. split; [done|]. split; [done|]. split; [done|]. by apply ApplyFill_duplicate. }
  exfalso. unfold PutOrder in Hput. set (u := updated_order r f (next_filled r f)) in *.
  destruct (OrderStatusReport_Validate (normalizeOrder u)) as [[]|] eqn:Vu; [|done].
  apply OrderStatusReport_Validate_ok in Vu. pose proof (vr_filled _ Vr). pose proof (vf_quantity _ F).
  pose proof (strip_normal_keeps _ _ (normalizeOrder_strip u)) as (Hs & _).
  apply strip_fill_keeps in Hs as (_ & _ & _ & _ & _ & Hqu & _).
  pose proof (strip_fill_keeps _ _ (updated_strip r f (next_filled r f))) as (_ & _ & _ & _ & _ & Hqr & _). fold u in Hqr.
  pose proof (vr_bound _ Vu) as Hb. rewrite Hqu, Hqr, normalizeOrder_filled in Hb. unfold normal_filled in Hb.
  assert (or_FilledQuantity u = next_filled r f) as Huf by apply updated_filled. rewrite Huf in Hb.
  assert (Hz : IsZero (next_filled r f) = false) by (unfold next_filled; dec). rewrite Hz, andb_false_r in Hb.
  specialize (Hb Hq). unfold next_filled in Hb. dec.
Qed.
End facts.
