(* ===== verification/Emulator.v ===== *)
(** * The order emulator (execution/emulator.go)

    [Emulator] holds orders with an emulation trigger, follows market data for them, and
    releases them as plain orders.  It reads the cache of the manager it reports to, as
    [bind] leaves it.  Each method is one step: the part under the emulator's lock and the
    reports it then makes to the manager. *)
From stdpp Require Import base gmap list strings sorting.
From S2P Require Import Prelude Decimals Enums Identifiers Orders Market OrderLists Cache ExecManager.

Open Scope go_scope.

Section emulator.
Context {DD : Decimal}.

(** [emulatedOrderKey] *)
Definition emulatedOrderKey : Type := AccountID * ClientOrderID.

(** [execution.Emulator]; its cache is the one of the manager. *)
Record Emulator := mkEmulator {
  el_manager : Manager;
  el_orders : gmap emulatedOrderKey SubmitOrder;
  el_trailing : gmap emulatedOrderKey D;
}.

#[global] Instance set_el_manager : Setter el_manager := fun f r =>
  mkEmulator (f (el_manager r)) (el_orders r) (el_trailing r).
#[global] Instance set_el_orders : Setter el_orders := fun f r =>
  mkEmulator (el_manager r) (f (el_orders r)) (el_trailing r).
#[global] Instance set_el_trailing : Setter el_trailing := fun f r =>
  mkEmulator (el_manager r) (el_orders r) (f (el_trailing r)).

Definition el_cache (e : Emulator) : Cache := em_cache (el_manager e).

Record EmulatedRelease := mkEmulatedRelease {
  rl_Order : SubmitOrder;
  rl_Triggered : OrderStatusReport;
  rl_Released : OrderStatusReport;
}.

(** [NewEmulator] over a manager, and over the cache that [NewManager] is given without one. *)
Definition NewEmulator (c : option Cache) (manager : option Manager) : Emulator :=
  mkEmulator (match manager with
              | Some m => m | None => NewManager c false PositionIDModeNone end) ∅ ∅.

Definition bind (e : Emulator) (manager : Manager) : Emulator := e <| el_manager := manager |>.

(** ** Reports and releases *)

Definition orderStatusReportFromSubmit (order : SubmitOrder) (status : OrderStatus) : OrderStatusReport :=
  OrderStatusReport_zero
    <| or_Metadata := so_Metadata order |> <| or_AccountID := so_AccountID order |>
    <| or_InstrumentID := so_InstrumentID order |> <| or_TriggerInstrumentID := so_TriggerInstrumentID order |>
    <| or_OrderListID := so_OrderListID order |> <| or_ParentClientOrderID := so_ParentClientOrderID order |>
    <| or_ClientOrderID := so_ClientOrderID order |> <| or_OrderID := "emulated-" +:+ so_ClientOrderID order |>
    <| or_Status := status |> <| or_Side := so_Side order |> <| or_Type := so_Type order |>
    <| or_Contingency := so_Contingency order |> <| or_Quantity := so_Quantity order |>
    <| or_LeavesQuantity := so_Quantity order |> <| or_Price := so_Price order |>
    <| or_TriggerPrice := so_TriggerPrice order |> <| or_ActivationPrice := so_ActivationPrice order |>
    <| or_TrailingOffset := so_TrailingOffset order |> <| or_TrailingOffsetType := so_TrailingOffsetType order |>
    <| or_PostOnly := so_PostOnly order |> <| or_ReduceOnly := so_ReduceOnly order |>
    <| or_TimeInForce := so_TimeInForce order |> <| or_ExpireTime := so_ExpireTime order |>.

(** The type an order is released as. *)
Definition transformReleasedOrder (order : SubmitOrder) : SubmitOrder :=
  let order := order <| so_EmulationTrigger := TriggerTypeNoTrigger |>
                     <| so_TriggerInstrumentID := InstrumentID_zero |> in
  match so_Type order with
  | OrderTypeStopMarket | OrderTypeMarketIfTouched | OrderTypeTrailingStopMarket =>
      order <| so_Type := OrderTypeMarket |> <| so_Price := dzero |> <| so_TriggerPrice := dzero |>
            <| so_ActivationPrice := dzero |> <| so_TrailingOffset := dzero |>
            <| so_TrailingOffsetType := TrailingOffsetTypeNone |>
  | OrderTypeStopLimit | OrderTypeLimitIfTouched | OrderTypeTrailingStopLimit =>
      order <| so_Type := OrderTypeLimit |> <| so_TriggerPrice := dzero |>
            <| so_ActivationPrice := dzero |> <| so_TrailingOffset := dzero |>
            <| so_TrailingOffsetType := TrailingOffsetTypeNone |>
  | _ => order
  end.

Definition emulatedReleaseFromSubmit (order : SubmitOrder) : EmulatedRelease :=
  mkEmulatedRelease (transformReleasedOrder order)
    (orderStatusReportFromSubmit order OrderStatusTriggered) (orderStatusReportFromSubmit order OrderStatusReleased).

(** ** Triggers *)

Definition bidAskTriggerPrice (order : SubmitOrder) (event : MarketEvent) : option D :=
  match ev_Quote event with
  | Some quote => Some (if so_Side order ≟ OrderSideBuy then qt_AskPrice quote else qt_BidPrice quote)
  | None =>
      match ev_OrderBook event with
      | None => None
      | Some book =>
          if so_Side order ≟ OrderSideBuy then lv_Price <$> head (ob_Asks book)
          else if so_Side order ≟ OrderSideSell then lv_Price <$> head (ob_Bids book)
          else None
      end
  end.

Definition emulationPrice (order : SubmitOrder) (event : MarketEvent) : option D :=
  match so_EmulationTrigger order with
  | TriggerTypeBidAsk => bidAskTriggerPrice order event
  | TriggerTypeLastPrice => tt_Price <$> ev_Trade event
  | TriggerTypeDefault => bidAskTriggerPrice order event
  | _ => None
  end.

Definition isTrailingStop (t : OrderType) : bool :=
  (t ≟ OrderTypeTrailingStopMarket) || (t ≟ OrderTypeTrailingStopLimit).

Definition emulatedLimitOrderMarketable (order : SubmitOrder) (event : MarketEvent) : bool :=
  if negb (IsPositive (so_Price order)) then false
  else match emulationPrice order event with
  | None => false
  | Some price =>
      if negb (IsPositive price) then false
      else if so_Side order ≟ OrderSideBuy then LessThanOrEqual price (so_Price order)
      else if so_Side order ≟ OrderSideSell then GreaterThanOrEqual price (so_Price order)
      else false
  end.

Definition emulatedOrderTriggered (order : SubmitOrder) (event : MarketEvent) : bool :=
  if (so_Type order ≟ OrderTypeLimit) || (so_Type order ≟ OrderTypeMarketToLimit)
  then emulatedLimitOrderMarketable order event
  else match emulationPrice order event with
  | None => false
  | Some price =>
      if negb (IsPositive price) || negb (IsPositive (so_TriggerPrice order)) then false
      else match so_Type order with
      | OrderTypeMarketIfTouched | OrderTypeLimitIfTouched =>
          if so_Side order ≟ OrderSideBuy then LessThanOrEqual price (so_TriggerPrice order)
          else GreaterThanOrEqual price (so_TriggerPrice order)
      | _ =>
          if so_Side order ≟ OrderSideBuy then GreaterThanOrEqual price (so_TriggerPrice order)
          else LessThanOrEqual price (so_TriggerPrice order)
      end
  end.

(** [trailingRange], with [bidAskTrailingRange] and [tradeTrailingRange]: the favorable and the adverse price. *)
Definition trailingRange (order : SubmitOrder) (event : MarketEvent) : option (D * D) :=
  (fun price => (price, price)) <$> emulationPrice order event.

Definition emulator_trailingOffsetPrice (c : Cache) (order : SubmitOrder) (reference : D) : option D :=
  match TrailingOffsetType_Canonical (so_TrailingOffsetType order) with
  | TrailingOffsetTypePrice => Some (so_TrailingOffset order)
  | TrailingOffsetTypeBasisPoints => Some (ddiv (dmul reference (so_TrailingOffset order)) (dint 10000))
  | TrailingOffsetTypeTicks =>
      let id := SubmitOrder_TriggerInstrument order in
      let synthetic :=
        match cache_SyntheticInstrument c id with
        | Some synth => if IsPositive (sy_PriceTick synth)
                        then Some (dmul (so_TrailingOffset order) (sy_PriceTick synth)) else None
        | None => None
        end in
      match cache_Instrument c id with
      | Some inst => if IsPositive (in_PriceTick inst)
                     then Some (dmul (so_TrailingOffset order) (in_PriceTick inst)) else synthetic
      | None => synthetic
      end
  | _ => None
  end.

(** The result of an evaluation: the stored extremes, the order, whether it is triggered, and
    whether it changed. *)
Record Evaluation := mkEvaluation {
  vl_trailing : gmap emulatedOrderKey D;
  vl_order : SubmitOrder;
  vl_triggered : bool;
  vl_updated : bool;
}.

(** The last part of [evaluateTrailingOrder], once the order is active with an extreme. *)
Definition trail_order (c : Cache) (trailing : gmap emulatedOrderKey D) (key : emulatedOrderKey)
    (order : SubmitOrder) (favorable adverse extreme : D) : Evaluation :=
  if so_Side order ≟ OrderSideSell then
    let '(trailing, extreme) := if GreaterThan favorable extreme then (<[key := favorable]> trailing, favorable)
                                else (trailing, extreme) in
    match emulator_trailingOffsetPrice c order extreme with
    | None => mkEvaluation trailing order false false
    | Some offset =>
        let triggerPrice := dsub extreme offset in
        mkEvaluation trailing (order <| so_TriggerPrice := triggerPrice |>)
          (LessThanOrEqual adverse triggerPrice) (negb (Equal (so_TriggerPrice order) triggerPrice))
    end
  else if so_Side order ≟ OrderSideBuy then
    let '(trailing, extreme) := if LessThan favorable extreme then (<[key := favorable]> trailing, favorable)
                                else (trailing, extreme) in
    match emulator_trailingOffsetPrice c order extreme with
    | None => mkEvaluation trailing order false false
    | Some offset =>
        let triggerPrice := dadd extreme offset in
        mkEvaluation trailing (order <| so_TriggerPrice := triggerPrice |>)
          (GreaterThanOrEqual adverse triggerPrice) (negb (Equal (so_TriggerPrice order) triggerPrice))
    end
  else mkEvaluation trailing order false false.

Definition evaluateTrailingOrder (c : Cache) (trailing : gmap emulatedOrderKey D) (key : emulatedOrderKey)
    (order : SubmitOrder) (event : MarketEvent) : Evaluation :=
  if negb (IsPositive (so_TrailingOffset order)) then mkEvaluation trailing order false false
  else match trailingRange order event with
  | None => mkEvaluation trailing order false false
  | Some (favorable, adverse) =>
      match trailing !! key with
      | Some extreme => trail_order c trailing key order favorable adverse extreme
      | None =>
          if IsPositive (so_ActivationPrice order) &&
             ((so_Side order ≟ OrderSideSell) && LessThan favorable (so_ActivationPrice order) ||
              (so_Side order ≟ OrderSideBuy) && GreaterThan favorable (so_ActivationPrice order))
          then mkEvaluation trailing order false false
          else trail_order c (<[key := favorable]> trailing) key order favorable adverse favorable
      end
  end.

Definition evaluateOrder (c : Cache) (trailing : gmap emulatedOrderKey D) (key : emulatedOrderKey)
    (order : SubmitOrder) (event : MarketEvent) : Evaluation :=
  if isTrailingStop (so_Type order) then evaluateTrailingOrder c trailing key order event
  else mkEvaluation trailing order (emulatedOrderTriggered order event) false.

(** ** The latest market data *)

Definition no_event : MarketEvent := mkMarketEvent None None None None None None None.
Definition quote_event (quote : QuoteTick) : MarketEvent := mkMarketEvent None None None (Some quote) None None None.
Definition book_event (book : OrderBook) : MarketEvent := mkMarketEvent None (Some book) None None None None None.
Definition trade_event (trade : TradeTick) : MarketEvent := mkMarketEvent None None (Some trade) None None None None.

Definition latestBidAskMarketEvent (c : Cache) (id : InstrumentID) : option MarketEvent :=
  match cache_QuoteTick c id, cache_OrderBook c id with
  | None, None => None
  | Some quote, None => Some (quote_event quote)
  | None, Some book => Some (book_event book)
  | Some quote, Some book =>
      if After (ob_Timestamp book) (qt_Timestamp quote) then Some (book_event book) else Some (quote_event quote)
  end.

Definition latestMarketEvent (c : Cache) (order : SubmitOrder) : option MarketEvent :=
  let id := SubmitOrder_TriggerInstrument order in
  match so_EmulationTrigger order with
  | TriggerTypeBidAsk | TriggerTypeDefault => latestBidAskMarketEvent c id
  | TriggerTypeLastPrice => trade_event <$> cache_TradeTick c id
  | _ => None
  end.

(** ** Operations *)

(** Reports to the manager, up to the first error. *)
Fixpoint apply_reports (m : Manager) (reports : list OrderStatusReport) : outcome Manager unit :=
  match reports with
  | [] => (m, Ok tt)
  | report :: reports =>
      match ApplyOrderReport m report with
      | (m, Fail err) => (m, Fail err)
      | (m, Ok _) => apply_reports m reports
      end
  end.

Definition release_reports (releases : list EmulatedRelease) : list OrderStatusReport :=
  flat_map (fun r => [rl_Triggered r; rl_Released r]) releases.

Definition report_all (e : Emulator) (reports : list OrderStatusReport) : Emulator * res unit :=
  let '(m, result) := apply_reports (el_manager e) reports in (e <| el_manager := m |>, result).

(** An order that is triggered: it leaves the emulator. *)
Definition released (order : SubmitOrder) : EmulatedRelease :=
  emulatedReleaseFromSubmit (order <| so_EmulationTrigger := TriggerTypeNoTrigger |>).

(** [SubmitOrder]: the emulator, the release, and the report or the error. *)
Definition Emulator_SubmitOrder (e : Emulator) (order : SubmitOrder)
    : Emulator * option EmulatedRelease * res OrderStatusReport :=
  if negb (TriggerType_IsActive (so_EmulationTrigger order))
  then (e, None, Fail (mkErr ErrInvalidOrder "order has no emulation trigger"))
  else match SubmitOrder_Validate order with
  | Fail err => (e, None, Fail err)
  | Ok _ =>
  match CacheSubmitCommand (el_manager e) order with
  | (m, Fail err) => (e <| el_manager := m |>, None, Fail err)
  | (m, Ok _) =>
      let e := e <| el_manager := m |> in
      let report := orderStatusReportFromSubmit order OrderStatusEmulated in
      let key : emulatedOrderKey := (so_AccountID order, so_ClientOrderID order) in
      let '(e, release, report) :=
        match latestMarketEvent (el_cache e) order with
        | None => (e <| el_orders := <[key := order]> (el_orders e) |>, None, report)
        | Some event =>
            let v := evaluateOrder (el_cache e) (el_trailing e) key order event in
            if vl_triggered v then (e <| el_trailing := delete key (vl_trailing v) |>, Some (released (vl_order v)), report)
            else (e <| el_trailing := vl_trailing v |> <| el_orders := <[key := vl_order v]> (el_orders e) |>, None,
                  if vl_updated v then orderStatusReportFromSubmit (vl_order v) OrderStatusEmulated else report)
        end in
      match release with
      | Some r =>
          match report_all e [rl_Triggered r; rl_Released r] with
          | (e, Fail err) => (e, release, Fail err)
          | (e, Ok _) => (e, release, Ok (rl_Released r))
          end
      | None =>
          match report_all e [report] with
          | (e, Fail err) => (e, None, Fail err)
          | (e, Ok _) => (e, None, Ok report)
          end
      end
  end end.

(** The keys of the orders an instrument triggers, in the order [ProcessMarketEvent] visits them. *)
Definition key_le : relation emulatedOrderKey := lex_le String.le String.le fst snd.
#[global] Instance key_le_dec : RelDecision key_le.
Proof. unfold key_le. apply _. Defined.

Definition keys_for (orders : gmap emulatedOrderKey SubmitOrder) (id : InstrumentID) : list emulatedOrderKey :=
  merge_sort key_le (omap (fun '(key, order) => if SubmitOrder_TriggerInstrument order ≟ id then Some key else None)
    (map_to_list orders)).

(** The loop of [ProcessMarketEvent]: the emulator, the releases and the updates. *)
Fixpoint process_keys (e : Emulator) (event : MarketEvent) (keys : list emulatedOrderKey)
    : Emulator * list EmulatedRelease * list OrderStatusReport :=
  match keys with
  | [] => (e, [], [])
  | key :: keys =>
      match el_orders e !! key with
      | None => process_keys e event keys
      | Some order =>
          let v := evaluateOrder (el_cache e) (el_trailing e) key order event in
          if negb (vl_triggered v) then
            if vl_updated v then
              let e := e <| el_trailing := vl_trailing v |> <| el_orders := <[key := vl_order v]> (el_orders e) |> in
              let '(e, releases, updates) := process_keys e event keys in
              (e, releases, orderStatusReportFromSubmit (vl_order v) OrderStatusEmulated :: updates)
            else process_keys (e <| el_trailing := vl_trailing v |>) event keys
          else
            let e := e <| el_orders := delete key (el_orders e) |> <| el_trailing := delete key (vl_trailing v) |> in
            let '(e, releases, updates) := process_keys e event keys in
            (e, released (vl_order v) :: releases, updates)
      end
  end.

Definition ProcessMarketEvent (e : Emulator) (event : MarketEvent) : Emulator * list EmulatedRelease * res unit :=
  match MarketEvent_Validate event with
  | Fail err => (e, [], Fail err)
  | Ok _ =>
      let '(e, releases, updates) := process_keys e event (keys_for (el_orders e) (MarketEvent_InstrumentID event)) in
      let '(e, result) := report_all e (updates ++ release_reports releases) in
      (e, releases, result)
  end.

(** [emulatedOrderReport] and [emulatedOrderReportForModify]: the emulated order that the ids name. *)
Definition emulated_report (c : Cache) (a : AccountID) (o : OrderID) (client : ClientOrderID) : option OrderStatusReport :=
  let emulated report := if or_Status report ≟ OrderStatusEmulated then Some report else None in
  let by_client := if client ≠? "" then OrderByClientID c a client ≫= emulated else None in
  match (if o ≠? "" then cache_Order c a o ≫= emulated else None) with
  | Some report => Some report
  | None => by_client
  end.
Definition emulatedOrderReport (e : Emulator) (cancel : CancelOrder) : option OrderStatusReport :=
  emulated_report (el_cache e) (co_AccountID cancel) (co_OrderID cancel) (co_ClientOrderID cancel).
Definition emulatedOrderReportForModify (e : Emulator) (modify : ModifyOrder) : option OrderStatusReport :=
  emulated_report (el_cache e) (mo_AccountID modify) (mo_OrderID modify) (mo_ClientOrderID modify).

Definition applyEmulatedOrderModification (order : SubmitOrder) (report : OrderStatusReport) (modify : ModifyOrder)
    : res (SubmitOrder * OrderStatusReport) :=
  updatedReport ← ApplyOrderModification report modify;
  let updatedReport := updatedReport <| or_Status := OrderStatusEmulated |>
                         <| or_Metadata := CommandMetadata_WithDefaults (mo_Metadata modify) (or_Metadata report) |> in
  let updatedOrder := order <| so_Metadata := CommandMetadata_WithDefaults (mo_Metadata modify) (so_Metadata order) |>
    <| so_Quantity := or_Quantity updatedReport |> <| so_Price := or_Price updatedReport |>
    <| so_TriggerPrice := or_TriggerPrice updatedReport |> <| so_ActivationPrice := or_ActivationPrice updatedReport |>
    <| so_TrailingOffset := or_TrailingOffset updatedReport |>
    <| so_TrailingOffsetType := or_TrailingOffsetType updatedReport |>
    <| so_TimeInForce := or_TimeInForce updatedReport |> in
  Ok (updatedOrder, updatedReport).

(** What the emulator's lock protects in [ModifyOrder], once the modification is accepted. *)
Definition modify_emulated (e : Emulator) (key : emulatedOrderKey) (report : OrderStatusReport) (modify : ModifyOrder)
    (nextOrder : SubmitOrder) (nextReport : OrderStatusReport)
    : Emulator * option EmulatedRelease * OrderStatusReport :=
  let e := if IsPositive (mo_TriggerPrice modify) || IsPositive (mo_ActivationPrice modify) ||
              IsPositive (mo_TrailingOffset modify) || (mo_TrailingOffsetType modify ≠? TrailingOffsetTypeNone)
           then e <| el_trailing := delete key (el_trailing e) |> else e in
  let e := e <| el_orders := <[key := nextOrder]> (el_orders e) |> in
  match latestMarketEvent (el_cache e) nextOrder with
  | None => (e, None, nextReport)
  | Some event =>
      let v := evaluateOrder (el_cache e) (el_trailing e) key nextOrder event in
      if vl_triggered v
      then (e <| el_orders := delete key (el_orders e) |> <| el_trailing := delete key (vl_trailing v) |>,
            Some (released (vl_order v)), nextReport)
      else if vl_updated v
      then (e <| el_trailing := vl_trailing v |> <| el_orders := <[key := vl_order v]> (el_orders e) |>, None,
            orderStatusReportFromSubmit (vl_order v) OrderStatusEmulated
              <| or_Metadata := CommandMetadata_WithDefaults (mo_Metadata modify) (or_Metadata report) |>)
      else (e <| el_trailing := vl_trailing v |>, None, nextReport)
  end.

(** [ModifyOrder]: the emulator, the release, whether the order is an emulated one, and the
    report or the error. *)
Definition Emulator_ModifyOrder (e : Emulator) (modify : ModifyOrder)
    : Emulator * option EmulatedRelease * bool * res OrderStatusReport :=
  match ModifyOrder_Validate modify with
  | Fail err => (e, None, false, Fail err)
  | Ok _ =>
  match emulatedOrderReportForModify e modify with
  | None => (e, None, false, Ok OrderStatusReport_zero)
  | Some report =>
  let key : emulatedOrderKey := (or_AccountID report, or_ClientOrderID report) in
  match el_orders e !! key with
  | None => (e, None, false, Ok OrderStatusReport_zero)
  | Some order =>
  match applyEmulatedOrderModification order report modify with
  | Fail err => (e, None, true, Fail err)
  | Ok (nextOrder, nextReport) =>
      let '(e, release, nextReport) := modify_emulated e key report modify nextOrder nextReport in
      let reports := nextReport :: release_reports (match release with Some r => [r] | None => [] end) in
      match report_all e reports with
      | (e, Fail err) => (e, release, true, Fail err)
      | (e, Ok _) => (e, release, true, Ok nextReport)
      end
  end end end end.

(** [CancelOrder]: the emulator, whether the order is an emulated one, and the report or the error. *)
Definition Emulator_CancelOrder (e : Emulator) (cancel : CancelOrder) : Emulator * bool * res OrderStatusReport :=
  match CancelOrder_Validate cancel with
  | Fail err => (e, false, Fail err)
  | Ok _ =>
  match emulatedOrderReport e cancel with
  | None => (e, false, Ok OrderStatusReport_zero)
  | Some report =>
  let key : emulatedOrderKey := (or_AccountID report, or_ClientOrderID report) in
  match el_orders e !! key with
  | None => (e, false, Ok OrderStatusReport_zero)
  | Some _ =>
      let e := e <| el_orders := delete key (el_orders e) |> <| el_trailing := delete key (el_trailing e) |> in
      let e := e <| el_manager := (PopSubmitCommand (el_manager e) (or_ClientOrderID report)).1 |> in
      let report := report <| or_Metadata := CommandMetadata_WithDefaults (co_Metadata cancel) (or_Metadata report) |>
                           <| or_Status := OrderStatusCanceled |> <| or_LeavesQuantity := dzero |> in
      match report_all e [report] with
      | (e, Fail err) => (e, true, Fail err)
      | (e, Ok _) => (e, true, Ok report)
      end
  end end end.
End emulator.
