(* ===== verification/EmulatorFacts.v ===== *)
(** * Correctness of the order emulator

    Which orders a market event releases and what becomes of the others, that no order is
    released twice or after its cancelation, that a triggered order does leave, and when
    a released order is a valid one. *)
From stdpp Require Import base gmap sets list strings sorting.
From Stdlib Require Import QArith Lqa.
From S2P Require Import Prelude Decimals Enums Identifiers Orders Market Cache ExecManager Emulator.

Open Scope go_scope.

Section facts.
Context {DD : Decimal}.
Implicit Types (e : Emulator) (c : Cache) (order : SubmitOrder) (event : MarketEvent) (key k : emulatedOrderKey)
  (trailing t : gmap emulatedOrderKey D) (keys : list emulatedOrderKey) (r : EmulatedRelease).

(** ** One evaluation *)

Definition key_of order : emulatedOrderKey := (so_AccountID order, so_ClientOrderID order).

(** An evaluation touches the extreme of its own key only, and reads no other. *)
Definition local_evaluation (f : gmap emulatedOrderKey D -> Evaluation) key : Prop :=
  (forall t k, k ≠ key -> vl_trailing (f t) !! k = t !! k) /\
  (forall t t', t !! key = t' !! key ->
     vl_trailing (f t) !! key = vl_trailing (f t') !! key /\ vl_order (f t) = vl_order (f t') /\
     vl_triggered (f t) = vl_triggered (f t') /\ vl_updated (f t) = vl_updated (f t')).

Lemma local_same key (order : SubmitOrder) b1 b2 : local_evaluation (fun t => mkEvaluation t order b1 b2) key.
Proof. split; simpl; auto. Qed.

Lemma trail_order_local c key order favorable adverse extreme :
  local_evaluation (fun t => trail_order c t key order favorable adverse extreme) key.
Proof.
  unfold trail_order. split.
  - intros t k Hk. repeat case_match; simplify_eq; simpl; by rewrite ?lookup_insert_ne.
  - intros t t' Ht. destruct (so_Side order ≟ OrderSideSell); [destruct (GreaterThan favorable extreme)|
      destruct (so_Side order ≟ OrderSideBuy); [destruct (LessThan favorable extreme)|]];
      try destruct (emulator_trailingOffsetPrice _ _ _); simpl; by rewrite ?lookup_insert_eq.
Qed.

Lemma evaluate_local c key order event : local_evaluation (fun t => evaluateOrder c t key order event) key.
Proof.
  unfold evaluateOrder. destruct (isTrailingStop _); [|apply local_same].
  unfold evaluateTrailingOrder. destruct (IsPositive _); simpl; [|apply local_same].
  destruct (trailingRange order event) as [[f a]|]; [|apply local_same].
  split.
  - intros t k Hk. destruct (t !! key) as [x|]; [by apply trail_order_local|].
    destruct (_ && _); [done|].
    etrans; [by apply trail_order_local|]. by apply lookup_insert_ne.
  - intros t t' Ht. rewrite <- Ht. destruct (t !! key) as [x|] eqn:E; [by apply (proj2 (trail_order_local c key order f a x)); rewrite E|].
    destruct (_ && _); [simpl; by rewrite E, <- Ht|]. apply (proj2 (trail_order_local c key order f a f)). by rewrite !lookup_insert_eq.
Qed.

Lemma evaluate_key c t key order event : key_of (vl_order (evaluateOrder c t key order event)) = key_of order /\
  SubmitOrder_TriggerInstrument (vl_order (evaluateOrder c t key order event)) = SubmitOrder_TriggerInstrument order.
Proof.
  unfold evaluateOrder, evaluateTrailingOrder, trail_order.
  destruct (isTrailingStop _); [|done]. destruct (IsPositive _); [simpl|done].
  destruct (trailingRange order event) as [[f a]|]; [|done].
  destruct (t !! key); [|destruct (_ && _); [done|]].
  all: destruct (so_Side order ≟ OrderSideSell); [destruct (GreaterThan _ _)|
      destruct (so_Side order ≟ OrderSideBuy); [destruct (LessThan _ _)|]];
      try destruct (emulator_trailingOffsetPrice _ _ _); done.
Qed.

(** ** One market event *)

(** What an event makes of one order, judged on its own. *)
Definition judged e event key : option Evaluation :=
  (fun order => evaluateOrder (el_cache e) (el_trailing e) key order event) <$> el_orders e !! key.

Definition release_of (v : Evaluation) : option EmulatedRelease :=
  if vl_triggered v then Some (released (vl_order v)) else None.
Definition update_of (v : Evaluation) : option OrderStatusReport :=
  if negb (vl_triggered v) && vl_updated v then Some (orderStatusReportFromSubmit (vl_order v) OrderStatusEmulated) else None.

(** The order that stays, and the extreme. *)
Definition kept e event key : option SubmitOrder :=
  order ← el_orders e !! key; v ← judged e event key;
  if vl_triggered v then None else if vl_updated v then Some (vl_order v) else Some order.
Definition kept_extreme e event key : option D :=
  match judged e event key with
  | None => el_trailing e !! key
  | Some v => if vl_triggered v then None else vl_trailing v !! key
  end.

(** Emulators that agree on everything an event needs about some keys. *)
Definition agree e e' (P : emulatedOrderKey -> Prop) : Prop :=
  el_manager e' = el_manager e /\
  forall k, P k -> el_orders e' !! k = el_orders e !! k /\ el_trailing e' !! k = el_trailing e !! k.

Lemma agree_judged e e' P event k : agree e e' P -> P k ->
  match judged e event k, judged e' event k with
  | None, None => True
  | Some v, Some v' => vl_order v = vl_order v' /\ vl_triggered v = vl_triggered v' /\ vl_updated v = vl_updated v' /\
                       vl_trailing v !! k = vl_trailing v' !! k
  | _, _ => False
  end.
Proof.
  intros [Hm H] Hk. destruct (H k Hk) as [Ho Ht]. unfold judged. rewrite Ho. destruct (el_orders e !! k) as [order|]; [|done].
  simpl. unfold el_cache. rewrite Hm. destruct (proj2 (evaluate_local (em_cache (el_manager e)) k order event) _ _ (eq_sym Ht)) as (?&?&?&?).
  done.
Qed.

Lemma agree_results e e' P event k : agree e e' P -> P k ->
  (judged e' event k ≫= release_of) = (judged e event k ≫= release_of) /\
  (judged e' event k ≫= update_of) = (judged e event k ≫= update_of) /\
  kept e' event k = kept e event k /\ kept_extreme e' event k = kept_extreme e event k.
Proof.
  intros Ha Hk. pose proof (agree_judged e e' P event k Ha Hk) as Hj. destruct (proj2 Ha k Hk) as [Ho Ht].
  unfold kept, kept_extreme. rewrite Ho, Ht.
  destruct (judged e event k) as [v|], (judged e' event k) as [v'|]; try done.
  destruct Hj as (H1 & H2 & H3 & H4). simpl. unfold release_of, update_of. by rewrite H1, H2, H3, H4.
Qed.

Lemma omap_cons_list {A B} (f : A -> option B) x (l : list A) : omap f (x :: l) = option_list (f x) ++ omap f l.
Proof. simpl. by destruct (f x). Qed.

Lemma omap_ext_in {A B} (f g : A -> option B) (l : list A) : (forall x, x ∈ l -> f x = g x) -> omap f l = omap g l.
Proof.
  induction l as [|x l IH]; intros H; [done|]. rewrite !omap_cons_list, (H x) by by left.
  f_equal. apply IH. intros y Hy. apply H. by right.
Qed.

Lemma process_keys_spec event keys : forall e, NoDup keys ->
  let '(e', releases, updates) := process_keys e event keys in
  releases = omap (fun k => judged e event k ≫= release_of) keys /\
  updates = omap (fun k => judged e event k ≫= update_of) keys /\
  el_manager e' = el_manager e /\
  (forall k, el_orders e' !! k = if decide (k ∈ keys) then kept e event k else el_orders e !! k) /\
  (forall k, el_trailing e' !! k = if decide (k ∈ keys) then kept_extreme e event k else el_trailing e !! k).
Proof.
  induction keys as [|key keys IH]; intros e Hnd.
  { simpl. split_and!; try done. }
  apply NoDup_cons in Hnd as [Hn Hnd]. cbn [process_keys].
  assert (Hstep : forall e1 (rel : option EmulatedRelease) (upd : option OrderStatusReport),
    agree e e1 (fun k => k ≠ key) ->
    el_orders e1 !! key = kept e event key -> el_trailing e1 !! key = kept_extreme e event key ->
    rel = judged e event key ≫= release_of -> upd = judged e event key ≫= update_of ->
    let '(e', releases, updates) := process_keys e1 event keys in
    option_list rel ++ releases = omap (fun k => judged e event k ≫= release_of) (key :: keys) /\
    option_list upd ++ updates = omap (fun k => judged e event k ≫= update_of) (key :: keys) /\
    el_manager e' = el_manager e /\
    (forall k, el_orders e' !! k = if decide (k ∈ key :: keys) then kept e event k else el_orders e !! k) /\
    (forall k, el_trailing e' !! k = if decide (k ∈ key :: keys) then kept_extreme e event k else el_trailing e !! k)).
  { intros e1 rel upd Ha Ho Ht -> ->. specialize (IH e1 Hnd).
    assert (Hr : forall k, k ∈ keys -> _) by (intros k Hk; apply (agree_results e e1 _ event k Ha); congruence).
    destruct (process_keys e1 event keys) as [[e' releases] updates]. destruct IH as (-> & -> & Hm & Ho' & Ht').
    split_and!.
    - rewrite omap_cons_list. f_equal. apply omap_ext_in. intros k Hk. apply (Hr k Hk).
    - rewrite omap_cons_list. f_equal. apply omap_ext_in. intros k Hk. apply (Hr k Hk).
    - rewrite Hm. apply Ha.
    - intros k. rewrite Ho'. destruct (decide (k = key)) as [->|Hne].
      + rewrite decide_False by done. rewrite decide_True by by left. done.
      + destruct (decide (k ∈ keys)) as [Hk|Hk].
        * rewrite decide_True by by right. apply (Hr k Hk).
        * rewrite decide_False by (by rewrite not_elem_of_cons). by apply Ha.
    - intros k. rewrite Ht'. destruct (decide (k = key)) as [->|Hne].
      + rewrite decide_False by done. rewrite decide_True by by left. done.
      + destruct (decide (k ∈ keys)) as [Hk|Hk].
        * rewrite decide_True by by right. apply (Hr k Hk).
        * rewrite decide_False by (by rewrite not_elem_of_cons). by apply Ha. }
  destruct (el_orders e !! key) as [order|] eqn:Eo.
  2:{ assert (judged e event key = None) as Ej by (unfold judged; by rewrite Eo).
      specialize (Hstep e None None). rewrite Ej in Hstep. apply Hstep; try done.
      - unfold kept. by rewrite Eo.
      - unfold kept_extreme. by rewrite Ej. }
  pose proof (proj1 (evaluate_local (el_cache e) key order event) (el_trailing e)) as Hl.
  set (v := evaluateOrder (el_cache e) (el_trailing e) key order event) in *.
  assert (judged e event key = Some v) as Ej by (unfold judged; by rewrite Eo).
  assert (Ek : kept e event key = if vl_triggered v then None else if vl_updated v then Some (vl_order v) else Some order)
    by (unfold kept; by rewrite Eo, Ej).
  assert (Ex : kept_extreme e event key = if vl_triggered v then None else vl_trailing v !! key)
    by (unfold kept_extreme; by rewrite Ej).
  rewrite Ej in Hstep. simpl in Hstep. unfold release_of at 1, update_of at 1 in Hstep.
  destruct (vl_triggered v) eqn:Et; simpl in *; [|destruct (vl_updated v) eqn:Eu]; simpl in *.
  - specialize (Hstep (e <| el_orders := delete key (el_orders e) |> <| el_trailing := delete key (vl_trailing v) |>)
                  (Some (released (vl_order v))) None).
    destruct (process_keys _ event keys) as [[e' releases] updates]. apply Hstep; try done.
    + split; [done|]. intros k Hk. simpl. by rewrite !lookup_delete_ne, Hl by done.
    + simpl. by rewrite lookup_delete_eq.
    + simpl. by rewrite lookup_delete_eq.
  - specialize (Hstep (e <| el_trailing := vl_trailing v |> <| el_orders := <[key := vl_order v]> (el_orders e) |>)
                  None (Some (orderStatusReportFromSubmit (vl_order v) OrderStatusEmulated))).
    destruct (process_keys _ event keys) as [[e' releases] updates]. apply Hstep; try done.
    + split; [done|]. intros k Hk. simpl. by rewrite lookup_insert_ne, Hl by done.
    + simpl. by rewrite lookup_insert_eq.
  - specialize (Hstep (e <| el_trailing := vl_trailing v |>) None None).
    destruct (process_keys _ event keys) as [[e' releases] updates]. apply Hstep; try done.
    + split; [done|]. intros k Hk. simpl. by rewrite Hl by done.
    + by rewrite ?Ek, ?Ex, ?Eo.
Qed.

Lemma elem_of_keys_for orders id k :
  k ∈ keys_for orders id <-> exists order, orders !! k = Some order /\ SubmitOrder_TriggerInstrument order = id.
Proof.
  unfold keys_for. rewrite elem_of_merge_sort, list_elem_of_omap. split.
  - intros ([k' order] & Hin & Hk). apply elem_of_map_to_list in Hin. case_bool_decide; [|done]. simplify_eq. eauto.
  - intros (order & Hin & Hid). exists (k, order). rewrite bool_decide_eq_true_2 by done.
    split; [by apply elem_of_map_to_list|done].
Qed.

Lemma NoDup_keys_for orders id : NoDup (keys_for orders id).
Proof.
  unfold keys_for. rewrite merge_sort_Permutation.
  pose proof (NoDup_fst_map_to_list orders) as Hn. revert Hn.
  induction (map_to_list orders) as [|[k order] l IH]; intros Hn; [constructor|].
  rewrite fmap_cons in Hn. apply NoDup_cons in Hn as [Hk Hn]. rewrite omap_cons_list.
  case_bool_decide; simpl; [|by apply IH]. constructor; [|by apply IH].
  rewrite list_elem_of_omap. intros ([k' order'] & Hin & Hx). case_bool_decide; [|done]. simplify_eq.
  apply Hk. apply list_elem_of_fmap. by exists (k, order').
Qed.

#[local] Instance key_le_trans : Transitive key_le.
Proof. unfold key_le. apply _. Qed.
#[local] Instance key_le_total : Total key_le.
Proof. unfold key_le. apply _. Qed.

(** A market event is judged by every emulated order it concerns, and by no other, each on its
    own trigger, price and extreme: it releases exactly the triggered ones, ordered by account and client
    order id, which leave the emulator with their extremes; a trailing stop that is not triggered keeps
    its new trigger price; all others stay as they are; and the manager gets the new prices, then the two
    reports of each release. *)
Theorem event_releases e event e' releases result :
  ProcessMarketEvent e event = (e', releases, result) -> MarketEvent_Validate event = Ok tt ->
  let concerned := fun k => exists order, el_orders e !! k = Some order /\
    SubmitOrder_TriggerInstrument order = MarketEvent_InstrumentID event in
  exists keys,
    (forall k, k ∈ keys <-> concerned k) /\ NoDup keys /\ Sorted key_le keys /\
    releases = omap (fun k => judged e event k ≫= release_of) keys /\
    (forall k, k ∈ keys -> el_orders e' !! k = kept e event k /\ el_trailing e' !! k = kept_extreme e event k) /\
    (forall k, ~ concerned k -> el_orders e' !! k = el_orders e !! k /\ el_trailing e' !! k = el_trailing e !! k) /\
    (el_manager e', result) =
      apply_reports (el_manager e) (omap (fun k => judged e event k ≫= update_of) keys ++ release_reports releases).
Proof.
  intros H V. cbv zeta. unfold ProcessMarketEvent in H. rewrite V in H.
  exists (keys_for (el_orders e) (MarketEvent_InstrumentID event)).
  pose proof (elem_of_keys_for (el_orders e) (MarketEvent_InstrumentID event)) as Hk.
  pose proof (NoDup_keys_for (el_orders e) (MarketEvent_InstrumentID event)) as Hn.
  pose proof (process_keys_spec event _ e Hn) as Hs.
  destruct (process_keys _ _ _) as [[e1 rs] us]. destruct Hs as (Hr & Hu & Hm & Ho & Ht).
  unfold report_all in H. destruct (apply_reports _ _) as [m res] eqn:Ea. simplify_eq.
  split_and!; try done.
  - apply (Sorted_merge_sort key_le).
  - intros k Hin. simpl. by rewrite Ho, Ht, !decide_True.
  - intros k Hin. simpl. rewrite Ho, Ht, !decide_False; [done| |]; by rewrite Hk.
  - by rewrite <- Hm, Ea.
Qed.

(** ** Runs of the emulator *)

(** The operations, and any change of the manager that the emulator shares with the engine. *)
Inductive EmulatorOp :=
  | OpEmSubmit (order : SubmitOrder)
  | OpEmEvent (event : MarketEvent)
  | OpEmModify (modify : ModifyOrder)
  | OpEmCancel (cancel : CancelOrder)
  | OpEmManager (m : Manager).

Definition em_step e (op : EmulatorOp) : Emulator * list EmulatedRelease :=
  match op with
  | OpEmSubmit order => let '(e, release, _) := Emulator_SubmitOrder e order in (e, option_list release)
  | OpEmEvent event => let '(e, releases, _) := ProcessMarketEvent e event in (e, releases)
  | OpEmModify modify => let '(e, release, _, _) := Emulator_ModifyOrder e modify in (e, option_list release)
  | OpEmCancel cancel => let '(e, _, _) := Emulator_CancelOrder e cancel in (e, [])
  | OpEmManager m => (bind e m, [])
  end.

Fixpoint em_run e (ops : list EmulatorOp) : Emulator * list EmulatedRelease :=
  match ops with
  | [] => (e, [])
  | op :: ops => let '(e, releases) := em_step e op in let '(e, more) := em_run e ops in (e, releases ++ more)
  end.

Definition submit_keys (ops : list EmulatorOp) : list emulatedOrderKey :=
  flat_map (fun op => match op with OpEmSubmit order => [key_of order] | _ => [] end) ops.
Definition release_key r : emulatedOrderKey := key_of (rl_Order r).

(** Every order is under its own key. *)
Definition keyed e : Prop := forall k order, el_orders e !! k = Some order -> key_of order = k.

Lemma released_key order : release_key (released order) = key_of order.
Proof. unfold release_key, released, emulatedReleaseFromSubmit, transformReleasedOrder. simpl. by case_match. Qed.

Lemma report_all_orders e reports : let e' := (report_all e reports).1 in
  el_orders e' = el_orders e /\ el_trailing e' = el_trailing e.
Proof. unfold report_all. by destruct (apply_reports _ _). Qed.

(** One step: an order present after it was there before or is submitted by it, a released one is gone. *)
Definition step_ok e e' (releases : list EmulatedRelease) (submitted : list emulatedOrderKey) : Prop :=
  keyed e' /\
  (forall k, is_Some (el_orders e' !! k) -> is_Some (el_orders e !! k) \/ k ∈ submitted) /\
  (forall r, r ∈ releases -> is_Some (el_orders e !! release_key r) \/ release_key r ∈ submitted) /\
  NoDup (release_key <$> releases) /\
  (forall r, r ∈ releases -> (forall k, k ∈ submitted -> el_orders e !! k = None) ->
     el_orders e' !! release_key r = None).

Lemma submit_step e order : keyed e -> let '(e', release, _) := Emulator_SubmitOrder e order in
  step_ok e e' (option_list release) [key_of order].
Proof.
  intros Hk. unfold Emulator_SubmitOrder.
  assert (Hid : forall m, step_ok e (e <| el_manager := m |>) [] [key_of order]).
  { intros m. split_and!; [done | by left | by intros r ?%elem_of_nil | constructor | by intros r ?%elem_of_nil]. }
  assert (Hid' : step_ok e e [] [key_of order]) by (destruct e as [m o t]; exact (Hid m)).
  destruct (TriggerType_IsActive _); simpl; [|done]. destruct (SubmitOrder_Validate order); [|done].
  destruct (CacheSubmitCommand _ _) as [m [[]|err]]; [|by apply Hid].
  assert (Hput : forall t order', key_of order' = key_of order ->
    step_ok e (mkEmulator m (<[key_of order := order']> (el_orders e)) t) [] [key_of order]).
  { intros t order' Ho. split_and!; [| | by intros r ?%elem_of_nil | constructor | by intros r ?%elem_of_nil].
    - intros k x. simpl. rewrite lookup_insert. case_decide; [intros [= <-]; congruence|apply Hk].
    - intros k. simpl. rewrite lookup_insert. case_decide; [right; by subst; left|auto]. }
  assert (Hmany : forall e1 reports, el_orders (report_all e1 reports).1 = el_orders e1 /\ el_trailing (report_all e1 reports).1 = el_trailing e1)
    by (intros; apply report_all_orders).
  assert (Hsame : forall x e2 rel, el_orders e2 = x -> step_ok e (mkEmulator m x ∅) rel [key_of order] ->
    step_ok e e2 rel [key_of order]).
  { intros x e2 rel He. unfold step_ok, keyed. by rewrite He. }
  assert (Hrel : forall t v, key_of (vl_order v) = key_of order ->
    step_ok e (mkEmulator m (el_orders e) t) [released (vl_order v)] [key_of order]).
  { intros t v Hv. split_and!; [done | by left | | apply NoDup_singleton |].
    - intros r ->%list_elem_of_singleton. right. rewrite released_key, Hv. by left.
    - intros r ->%list_elem_of_singleton Hf. simpl. rewrite released_key, Hv. apply Hf. by left. }
  destruct (latestMarketEvent _ order) as [event|].
  2:{ pose proof (Hmany (mkEmulator m (<[key_of order := order]> (el_orders e)) (el_trailing e))
                    [orderStatusReportFromSubmit order OrderStatusEmulated]) as [Ho _].
      unfold set. simpl. fold (key_of order).
      destruct (report_all _ _) as [e1 [[]|]]; simpl in *; (eapply Hsame; [exact Ho|]); by apply Hput. }
  unfold set, el_cache. simpl. fold (key_of order).
  pose proof (proj1 (evaluate_key (em_cache m) (el_trailing e) (key_of order) order event)) as Hv.
  set (v := evaluateOrder (em_cache m) (el_trailing e) (key_of order) order event) in *.
  destruct (vl_triggered v).
  - pose proof (Hmany (mkEmulator m (el_orders e) (delete (key_of order) (vl_trailing v)))
                  [rl_Triggered (released (vl_order v)); rl_Released (released (vl_order v))]) as [Ho _].
    destruct (report_all _ _) as [e1 [[]|]]; simpl in *; (eapply Hsame; [exact Ho|]); by apply Hrel.
  - match goal with |- context [report_all ?x ?y] => pose proof (Hmany x y) as [Ho _]; destruct (report_all x y) as [e1 [[]|]] end;
      simpl in *; (eapply Hsame; [exact Ho|]); by apply Hput.
Qed.

(** Without market data for its trigger, a valid order rests. *)
Lemma submit_rests e order :
  TriggerType_IsActive (so_EmulationTrigger order) = true -> SubmitOrder_Validate order = Ok tt ->
  latestMarketEvent (el_cache e) order = None ->
  el_orders (Emulator_SubmitOrder e order).1.1 = <[key_of order := order]> (el_orders e).
Proof.
  intros Ha V Hn. unfold Emulator_SubmitOrder. rewrite Ha. unfold CacheSubmitCommand. rewrite V. simpl.
  unfold el_cache in *. simpl. rewrite Hn.
  match goal with |- context [report_all ?x ?y] => pose proof (report_all_orders x y) as [Ho _]; destruct (report_all x y) as [e1 [[]|]] end;
    exact Ho.
Qed.

Lemma step_same e e' : keyed e -> el_orders e' = el_orders e -> step_ok e e' [] [].
Proof.
  intros Hk Ho. unfold step_ok, keyed. rewrite Ho.
  split_and!; [done | by left | by intros r ?%elem_of_nil | constructor | by intros r ?%elem_of_nil].
Qed.

(** An order of the emulator is replaced by one of the same key, or leaves. *)
Lemma step_replace e e' k order order' :
  keyed e -> el_orders e !! k = Some order -> key_of order' = k -> el_orders e' = <[k := order']> (el_orders e) ->
  step_ok e e' [] [].
Proof.
  intros Hk Hin Ho He. unfold step_ok, keyed. rewrite He.
  split_and!; [| | by intros r ?%elem_of_nil | constructor | by intros r ?%elem_of_nil].
  - intros k' x. rewrite lookup_insert. case_decide; [intros [= <-]; congruence|apply Hk].
  - intros k'. rewrite lookup_insert. case_decide; [subst; left; by eexists|by left].
Qed.

Lemma step_leave e e' k order (rel : option SubmitOrder) :
  keyed e -> el_orders e !! k = Some order -> (forall o, rel = Some o -> key_of o = k) ->
  (forall k', el_orders e' !! k' = if decide (k = k') then None else el_orders e !! k') ->
  step_ok e e' (option_list (released <$> rel)) [].
Proof.
  intros Hk Hin Ho He. unfold step_ok, keyed.
  split_and!.
  - intros k' x. rewrite He. case_decide; [done|apply Hk].
  - intros k'. rewrite He. case_decide; [by intros [? [=]]|by left].
  - destruct rel as [o|]; simpl; [|by intros r ?%elem_of_nil].
    intros r ->%list_elem_of_singleton. left. rewrite released_key, (Ho o) by done. by eexists.
  - destruct rel; simpl; [apply NoDup_singleton|constructor].
  - destruct rel as [o|]; simpl; [|by intros r ?%elem_of_nil].
    intros r ->%list_elem_of_singleton _. rewrite He, released_key, (Ho o) by done. by rewrite decide_True.
Qed.

Lemma kept_key e event k order : keyed e -> kept e event k = Some order -> key_of order = k /\ is_Some (el_orders e !! k).
Proof.
  intros Hk. unfold kept, judged. destruct (el_orders e !! k) as [o|] eqn:E; [|done]. simpl. apply Hk in E as Ho.
  repeat case_match; intros [= <-]; split; try done; try (by eexists).
  by rewrite (proj1 (evaluate_key _ _ _ _ _)).
Qed.

Lemma omap_release_keys e event keys : keyed e ->
  (forall r, r ∈ omap (fun k => judged e event k ≫= release_of) keys ->
     release_key r ∈ keys /\ is_Some (el_orders e !! release_key r) /\ kept e event (release_key r) = None) /\
  (NoDup keys -> NoDup (release_key <$> omap (fun k => judged e event k ≫= release_of) keys)).
Proof.
  intros Hk.
  assert (Hone : forall k r, judged e event k ≫= release_of = Some r ->
    release_key r = k /\ is_Some (el_orders e !! k) /\ kept e event k = None).
  { intros k r. unfold kept, judged. destruct (el_orders e !! k) as [o|] eqn:E; [|done]. simpl. unfold release_of.
    destruct (vl_triggered _) eqn:Et; [|done]. intros [= <-]. rewrite released_key, (proj1 (evaluate_key _ _ _ _ _)).
    split_and!; [by apply Hk | by eexists | done]. }
  split.
  - intros r. rewrite list_elem_of_omap. intros (k & Hin & Hr). destruct (Hone k r Hr) as (-> & ? & ?). done.
  - induction keys as [|k keys IH]; intros Hn; [constructor|]. apply NoDup_cons in Hn as [Hnk Hn].
    rewrite omap_cons_list. destruct (judged e event k ≫= release_of) as [r|] eqn:Er; simpl; [|by apply IH].
    constructor; [|by apply IH]. destruct (Hone k r Er) as (-> & _ & _).
    rewrite list_elem_of_fmap. intros (r' & Hr' & Hin). rewrite list_elem_of_omap in Hin.
    destruct Hin as (k' & Hk' & Hr''). destruct (Hone k' r' Hr'') as (Hkk & _ & _). congruence.
Qed.

Lemma event_step e event : keyed e -> let '(e', releases, _) := ProcessMarketEvent e event in step_ok e e' releases [].
Proof.
  intros Hk. unfold ProcessMarketEvent. destruct (MarketEvent_Validate event); [|by apply step_same].
  pose proof (NoDup_keys_for (el_orders e) (MarketEvent_InstrumentID event)) as Hn.
  set (keys := keys_for _ _) in *. pose proof (process_keys_spec event keys e Hn) as Hs.
  destruct (process_keys _ _ _) as [[e1 rs] us]. destruct Hs as (-> & _ & _ & Ho & _).
  destruct (omap_release_keys e event keys Hk) as [Hr Hnd].
  pose proof (report_all_orders e1 (us ++ release_reports (omap (fun k => judged e event k ≫= release_of) keys))) as [He _].
  destruct (report_all e1 _) as [e2 res]. simpl in He. unfold step_ok, keyed. rewrite He. split_and!.
  - intros k o. rewrite Ho. case_decide; [|apply Hk]. intros Hkept. by apply kept_key in Hkept as [? _].
  - intros k. rewrite Ho. case_decide; [|by left]. intros [o Hkept]. left. by apply kept_key in Hkept as [_ ?].
  - intros r Hin. left. by apply Hr.
  - by apply Hnd.
  - intros r Hin _. destruct (Hr r Hin) as (Hin' & _ & Hkept). rewrite Ho. by rewrite decide_True.
Qed.

Lemma cancel_step e cancel : keyed e -> let '(e', handled, _) := Emulator_CancelOrder e cancel in step_ok e e' [] [].
Proof.
  intros Hk. unfold Emulator_CancelOrder. destruct (CancelOrder_Validate cancel); [|by apply step_same].
  destruct (emulatedOrderReport e cancel) as [report|]; [|by apply step_same].
  destruct (el_orders e !! _) as [order|] eqn:E; [|by apply step_same].
  match goal with |- context [report_all ?x ?y] => pose proof (report_all_orders x y) as [Ho _]; destruct (report_all x y) as [e1 [[]|]] end;
    simpl in *; apply (step_leave e e1 _ order None Hk E); try done; intros k'; rewrite Ho, lookup_delete; done.
Qed.

Lemma modification_key order report modify order' report' :
  applyEmulatedOrderModification order report modify = Ok (order', report') -> key_of order' = key_of order.
Proof.
  unfold applyEmulatedOrderModification. destruct (ApplyOrderModification report modify) as [r|]; [|done].
  intros [= <- _]. done.
Qed.

Lemma modify_step e modify : keyed e -> let '(e', release, _, _) := Emulator_ModifyOrder e modify in
  step_ok e e' (option_list release) [].
Proof.
  intros Hk. unfold Emulator_ModifyOrder. destruct (ModifyOrder_Validate modify); [|by apply step_same].
  destruct (emulatedOrderReportForModify e modify) as [report|]; [|by apply step_same].
  cbv zeta. destruct (el_orders e !! _) as [order|] eqn:E; [|by apply step_same].
  match type of E with el_orders e !! ?k = _ => remember (k : emulatedOrderKey) as key eqn:Ekey in E |- * end.
  destruct (applyEmulatedOrderModification order report modify) as [[next nextReport]|] eqn:Em; [|by apply step_same].
  apply modification_key in Em. rewrite (Hk key order E) in Em.
  assert (Hm : let '(e1, release, _) := modify_emulated e key report modify next nextReport in
    forall e2, el_orders e2 = el_orders e1 -> step_ok e e2 (option_list release) []).
  { unfold modify_emulated. set (e0 := if _ || _ || _ || _ then _ else e).
    assert (H0 : el_orders e0 = el_orders e) by (unfold e0; by case_match). clearbody e0. cbv zeta.
    destruct (latestMarketEvent _ next) as [event|].
    2:{ intros e2 He2. eapply step_replace; [done|done|exact Em|]. rewrite He2. simpl. by rewrite H0. }
    match goal with |- context [evaluateOrder ?c ?t ?k ?o ?ev] => pose proof (proj1 (evaluate_key c t k o ev)) as Hv;
      set (v := evaluateOrder c t k o ev) in * end.
    rewrite Em in Hv. destruct (vl_triggered v); [|destruct (vl_updated v)]; intros e2 He2.
    - apply (step_leave e e2 key order (Some (vl_order v)) Hk E); [by intros o [= <-]|].
      intros k'. rewrite He2. simpl. rewrite H0, lookup_delete. case_decide; [done|]. by apply lookup_insert_ne.
    - eapply step_replace; [done|done|exact Hv|]. rewrite He2. simpl. rewrite H0. apply insert_insert_eq.
    - eapply step_replace; [done|done|exact Em|]. rewrite He2. simpl. by rewrite H0. }
  destruct (modify_emulated e key report modify next nextReport) as [[e1 release] nextReport'].
  match goal with |- context [report_all ?x ?y] => pose proof (report_all_orders x y) as [Ho _]; destruct (report_all x y) as [e2 [[]|]] end;
    by apply Hm.
Qed.

Lemma em_step_ok e op : keyed e -> let '(e', releases) := em_step e op in
  step_ok e e' releases (submit_keys [op]).
Proof.
  intros Hk. destruct op; cbn [em_step submit_keys flat_map app].
  - pose proof (submit_step e order Hk) as H. by destruct (Emulator_SubmitOrder e order) as [[e' rel] res].
  - pose proof (event_step e event Hk) as H. by destruct (ProcessMarketEvent e event) as [[e' rel] res].
  - pose proof (modify_step e modify Hk) as H. by destruct (Emulator_ModifyOrder e modify) as [[[e' rel] b] res].
  - pose proof (cancel_step e cancel Hk) as H. by destruct (Emulator_CancelOrder e cancel) as [[e' b] res].
  - by apply step_same.
Qed.

Lemma submit_keys_cons op ops : submit_keys (op :: ops) = submit_keys [op] ++ submit_keys ops.
Proof. unfold submit_keys. simpl. by rewrite app_nil_r. Qed.

Lemma em_run_keys ops : forall e, keyed e ->
  let '(e', releases) := em_run e ops in
  keyed e' /\
  (forall k, is_Some (el_orders e' !! k) -> is_Some (el_orders e !! k) \/ k ∈ submit_keys ops) /\
  (forall r, r ∈ releases -> is_Some (el_orders e !! release_key r) \/ release_key r ∈ submit_keys ops) /\
  (NoDup (submit_keys ops) -> (forall k, k ∈ submit_keys ops -> el_orders e !! k = None) ->
   NoDup (release_key <$> releases) /\ forall r, r ∈ releases -> el_orders e' !! release_key r = None).
Proof.
  induction ops as [|op ops IH]; intros e Hk; cbn [em_run].
  { split_and!; [done | by left | by intros r ?%elem_of_nil | intros; split; [constructor | by intros r ?%elem_of_nil]]. }
  pose proof (em_step_ok e op Hk) as Hs. destruct (em_step e op) as [e1 rel]. destruct Hs as (Hk1 & Hin1 & Hr1 & Hn1 & Hgone).
  specialize (IH e1 Hk1). destruct (em_run e1 ops) as [e2 more]. destruct IH as (Hk2 & Hin2 & Hr2 & Hnd2).
  rewrite submit_keys_cons. split_and!; [done| | |].
  - intros k Hk'. rewrite elem_of_app. destruct (Hin2 k Hk') as [Hs|Hs]; [|auto]. destruct (Hin1 _ Hs); auto.
  - intros r [Hr|Hr]%elem_of_app; rewrite elem_of_app; [destruct (Hr1 r Hr); auto|].
    destruct (Hr2 r Hr) as [Hs|Hs]; [|auto]. destruct (Hin1 _ Hs); auto.
  - intros Hnd Hfresh. apply NoDup_app in Hnd as (Hnd1 & Hdisj & Hnds).
    assert (Hf1 : forall k, k ∈ submit_keys [op] -> el_orders e !! k = None) by (intros k Hin; apply Hfresh, elem_of_app; by left).
    assert (Hf2 : forall k, k ∈ submit_keys ops -> el_orders e1 !! k = None).
    { intros k Hin. destruct (el_orders e1 !! k) as [o|] eqn:E; [|done].
      destruct (Hin1 k) as [[o' Ho]|Hs]; [by eexists | | by destruct (Hdisj k)].
      rewrite (Hfresh k) in Ho; [done|]. apply elem_of_app; by right. }
    destruct (Hnd2 Hnds Hf2) as [Hn2 Hgone2].
    assert (Hsep : forall r, r ∈ rel -> forall r', r' ∈ more -> release_key r ≠ release_key r').
    { intros r Hr r' Hr' Heq. pose proof (Hgone r Hr Hf1) as Hg. destruct (Hr2 r' Hr') as [[o Ho]|Hs].
      - rewrite <- Heq, Hg in Ho. done.
      - rewrite <- Heq in Hs. destruct (Hr1 r Hr) as [[o Ho]|Hs1]; [|by destruct (Hdisj (release_key r))].
        rewrite (Hfresh (release_key r)) in Ho; [done|]. apply elem_of_app; by right. }
    split.
    + rewrite fmap_app. apply NoDup_app. split_and!; [done| |done]. intros k Hin Hin'.
      apply list_elem_of_fmap in Hin as (r & -> & Hr), Hin' as (r' & Heq & Hr'). by apply (Hsep r Hr r' Hr').
    + intros r [Hr|Hr]%elem_of_app; [|by apply Hgone2].
      destruct (el_orders e2 !! release_key r) as [o|] eqn:E; [|done].
      destruct (Hin2 (release_key r)) as [[o' Ho]|Hs]; [by eexists| |].
      * by rewrite (Hgone r Hr Hf1) in Ho.
      * destruct (Hr1 r Hr) as [[o' Ho]|Hs1]; [|by destruct (Hdisj (release_key r))].
        rewrite (Hfresh (release_key r)) in Ho; [done|]. apply elem_of_app; by right.
Qed.

Lemma em_run_app ops ops' e :
  em_run e (ops ++ ops') =
  let '(e1, before) := em_run e ops in let '(e2, after) := em_run e1 ops' in (e2, before ++ after).
Proof.
  revert e. induction ops as [|op ops IH]; intros e; simpl; [by destruct (em_run e ops')|].
  destruct (em_step e op) as [e1 rel]. rewrite IH. destruct (em_run e1 ops) as [e2 more].
  destruct (em_run e2 ops') as [e3 rest]. by rewrite <- app_assoc.
Qed.

Lemma submit_keys_app ops ops' : submit_keys (ops ++ ops') = submit_keys ops ++ submit_keys ops'.
Proof. unfold submit_keys. apply flat_map_app. Qed.

Lemma NewEmulator_keyed m : keyed (NewEmulator None (Some m)).
Proof. intros k order. simpl. by rewrite lookup_empty. Qed.

Lemma cancel_leaves e cancel e' handled report :
  keyed e -> Emulator_CancelOrder e cancel = (e', handled, Ok report) -> handled = true ->
  let key : emulatedOrderKey := (or_AccountID report, or_ClientOrderID report) in
  is_Some (el_orders e !! key) /\ el_orders e' !! key = None.
Proof.
  intros Hk H ->. cbv zeta. unfold Emulator_CancelOrder in H. destruct (CancelOrder_Validate cancel); [|done].
  destruct (emulatedOrderReport e cancel) as [r|]; [|done].
  destruct (el_orders e !! _) as [order|] eqn:E; [|done].
  match type of H with context [report_all ?x ?y] => pose proof (report_all_orders x y) as [Ho _]; destruct (report_all x y) as [e1 [[]|]] end;
    simplify_eq; simpl in *. rewrite E, Ho, lookup_delete_eq. by split; [eexists|].
Qed.

(** C18: No emulated order is released twice.  In any run of submissions, market events,
    modifications and cancelations, whatever the shared manager and cache do in between, when no account and client
    order id is submitted twice, the released orders are distinct, each was submitted, and none is left in the
    emulator; and an order the emulator canceled was not released before and is not released afterwards. *)
Theorem released_once (m : Manager) (ops : list EmulatorOp) (cancel : CancelOrder) (later : list EmulatorOp) :
  NoDup (submit_keys (ops ++ later)) ->
  let '(e1, before) := em_run (NewEmulator None (Some m)) ops in
  let '(e2, handled, result) := Emulator_CancelOrder e1 cancel in
  let '(e3, after) := em_run e2 later in
  NoDup (release_key <$> before ++ after) /\
  (forall r, r ∈ before ++ after -> release_key r ∈ submit_keys (ops ++ later) /\ el_orders e3 !! release_key r = None) /\
  (forall report, handled = true -> result = Ok report ->
     (or_AccountID report, or_ClientOrderID report) ∉ release_key <$> before ++ after).
Proof.
  intros Hnd. pose proof (NewEmulator_keyed m) as Hk0. set (e0 := NewEmulator None (Some m)) in *.
  assert (Hfresh : forall ks k, k ∈ submit_keys ks -> el_orders e0 !! k = None) by (intros; apply lookup_empty).
  pose proof (em_run_keys (ops ++ OpEmCancel cancel :: later) e0 Hk0) as Hall.
  pose proof (em_run_keys ops e0 Hk0) as Hops.
  rewrite submit_keys_app in Hall. change (submit_keys (OpEmCancel cancel :: later)) with (submit_keys later) in Hall.
  rewrite <- submit_keys_app in Hall. rewrite em_run_app in Hall. rewrite submit_keys_app in Hnd.
  destruct (em_run e0 ops) as [e1 before]. destruct Hops as (Hk1 & Hin1 & Hr1 & Hg1).
  simpl in Hall. pose proof (cancel_step e1 cancel Hk1) as Hc.
  destruct (Emulator_CancelOrder e1 cancel) as [[e2 handled] result] eqn:Ec. destruct Hc as (Hk2 & Hin2 & _).
  pose proof (em_run_keys later e2 Hk2) as Hlater.
  destruct (em_run e2 later) as [e3 after]. destruct Hlater as (_ & Hin3 & Hr3 & _).
  destruct Hall as (_ & _ & Hr & Hg). destruct (Hg ltac:(by rewrite submit_keys_app) ltac:(by intros; eapply Hfresh)) as [Hn Hgone].
  apply NoDup_app in Hnd as (Hnd1 & Hdisj & _).
  split_and!; [done| |].
  - intros r Hin. split; [|by apply Hgone]. destruct (Hr r Hin) as [[o Ho]|]; [|done]. by pose proof (eq_trans (eq_sym Ho) (lookup_empty _)).
  - intros report Hh ->. destruct (cancel_leaves e1 cancel e2 handled report Hk1 Ec Hh) as [Hin Hout].
    rewrite fmap_app. intros [H|H]%elem_of_app; apply list_elem_of_fmap in H as (r & Heq & Hrin).
    + destruct (Hg1 Hnd1 ltac:(by intros; eapply Hfresh)) as [_ Hg1']. specialize (Hg1' r Hrin).
      rewrite <- Heq in Hg1'. destruct Hin as [o Ho]. by rewrite Ho in Hg1'.
    + destruct (Hr3 r Hrin) as [[o Ho]|Hs].
      * rewrite <- Heq in Ho. by rewrite Hout in Ho.
      * rewrite <- Heq in Hs. destruct (Hin1 _ Hin) as [[o Ho]|Hs1]; [by pose proof (eq_trans (eq_sym Ho) (lookup_empty _))|].
        by apply (Hdisj _ Hs1).
Qed.

(** ** Progress *)

Definition reaches order event : bool :=
  is_ok (MarketEvent_Validate event) && (MarketEvent_InstrumentID event ≟ SubmitOrder_TriggerInstrument order) &&
  emulatedOrderTriggered order event.

Lemma event_reaches e event k order : keyed e ->
  el_orders e !! k = Some order -> isTrailingStop (so_Type order) = false ->
  let '(e', releases, _) := ProcessMarketEvent e event in
  if reaches order event then released order ∈ releases /\ el_orders e' !! k = None
  else el_orders e' !! k = Some order /\ k ∉ release_key <$> releases.
Proof.
  intros Hk Ho Ht. unfold ProcessMarketEvent, reaches. destruct (MarketEvent_Validate event) as [|err]; simpl.
  2:{ split; [done | apply not_elem_of_nil]. }
  pose proof (NoDup_keys_for (el_orders e) (MarketEvent_InstrumentID event)) as Hn.
  pose proof (elem_of_keys_for (el_orders e) (MarketEvent_InstrumentID event) k) as Hin.
  set (keys := keys_for _ _) in *. pose proof (process_keys_spec event keys e Hn) as Hs.
  destruct (process_keys _ _ _) as [[e1 rs] us]. destruct Hs as (-> & _ & _ & Ho1 & _).
  destruct (omap_release_keys e event keys Hk) as [Hr _].
  set (rs := omap _ keys) in *.
  pose proof (report_all_orders e1 (us ++ release_reports rs)) as [He _].
  destruct (report_all e1 _) as [e2 res]. simpl in He. rewrite He, Ho1.
  assert (Hj : judged e event k = Some (mkEvaluation (el_trailing e) order (emulatedOrderTriggered order event) false)).
  { unfold judged. rewrite Ho. simpl. unfold evaluateOrder. by rewrite Ht. }
  assert (Hkept : kept e event k = if emulatedOrderTriggered order event then None else Some order).
  { unfold kept. by rewrite Ho, Hj. }
  case_bool_decide as Hid; simpl.
  - assert (Hmem : k ∈ keys) by (apply Hin; eauto). rewrite decide_True, Hkept by done.
    destruct (emulatedOrderTriggered order event) eqn:Et.
    + split; [|done]. apply list_elem_of_omap. exists k. split; [done|]. by rewrite Hj.
    + split; [done|]. intros Hx. apply list_elem_of_fmap in Hx as (r & -> & Hrin).
      destruct (Hr r Hrin) as (_ & _ & Hnone). by rewrite Hkept in Hnone.
  - assert (Hmem : k ∉ keys) by (rewrite Hin; naive_solver). rewrite decide_False by done. split; [done|].
    intros Hx. apply list_elem_of_fmap in Hx as (r & -> & Hrin). by destruct (Hr r Hrin) as (? & _).
Qed.

(** Operations that leave the order of a key to the market: events, changes of the manager and submissions of others. *)
Definition leaves_alone k (op : EmulatorOp) : bool :=
  match op with
  | OpEmEvent _ | OpEmManager _ => true
  | OpEmSubmit order => negb (bool_decide (key_of order = k))
  | _ => false
  end.
Definition op_reaches order (op : EmulatorOp) : bool :=
  match op with OpEmEvent event => reaches order event | _ => false end.

Lemma submit_other e order k : keyed e -> key_of order ≠ k ->
  let '(e', release, _) := Emulator_SubmitOrder e order in
  el_orders e' !! k = el_orders e !! k /\ k ∉ release_key <$> option_list release.
Proof.
  intros Hk Hne. unfold Emulator_SubmitOrder.
  destruct (TriggerType_IsActive _); simpl; [|split; [done|apply not_elem_of_nil]].
  destruct (SubmitOrder_Validate order); [|split; [done|apply not_elem_of_nil]].
  destruct (CacheSubmitCommand _ _) as [m [[]|err]]; [|split; [done|apply not_elem_of_nil]].
  destruct (latestMarketEvent _ order) as [event|].
  - match goal with |- context [evaluateOrder ?c ?t ?k ?o ?ev] => pose proof (proj1 (evaluate_key c t k o ev)) as Hv;
      set (v := evaluateOrder c t k o ev) in * end.
    cbv zeta. destruct (vl_triggered v).
    all: match goal with |- context [report_all ?x ?y] => pose proof (report_all_orders x y) as [Ho _]; destruct (report_all x y) as [e1 [[]|]] end;
      simpl in *; rewrite Ho, ?lookup_insert_ne by done; split; try done; try apply not_elem_of_nil.
    all: rewrite list_elem_of_singleton, released_key, Hv; congruence.
  - cbv zeta. match goal with |- context [report_all ?x ?y] => pose proof (report_all_orders x y) as [Ho _]; destruct (report_all x y) as [e1 [[]|]] end;
      simpl in *; rewrite Ho, lookup_insert_ne by done; split; try done; apply not_elem_of_nil.
Qed.

End facts.

(** ** What is released *)
Section release.
Context {DD : Decimal} {DL : DecimalLaws DD}.
Implicit Types (order : SubmitOrder).

(** Released as a market order. *)
Definition becomes_market order : bool :=
  match so_Type order with
  | OrderTypeMarket | OrderTypeStopMarket | OrderTypeMarketIfTouched | OrderTypeTrailingStopMarket => true
  | _ => false
  end.

(** A valid emulated order is released as a plain order that keeps its account, instrument, client order id,
    side, quantity, time in force and flags, and its price when it becomes a limit order, with neither trigger nor
    trailing offset of its type left; that order is valid except in one case: a stop, if-touched or trailing market
    order with an expiry becomes a market order that is good till date, which no validation accepts. *)
Theorem release_valid order :
  SubmitOrder_Validate order = Ok tt ->
  let plain := rl_Order (released order) in
  (SubmitOrder_Validate plain = Ok tt <-> ~ (becomes_market order = true /\ so_TimeInForce order = TimeInForceGTD)) /\
  so_EmulationTrigger plain = TriggerTypeNoTrigger /\ orderTypeAllowsTriggerPrice (so_Type plain) = false /\
  orderTypeAllowsTrailing (so_Type plain) = false /\ key_of plain = key_of order /\
  so_InstrumentID plain = so_InstrumentID order /\ so_Side plain = so_Side order /\
  so_Quantity plain = so_Quantity order /\ so_TimeInForce plain = so_TimeInForce order /\
  so_ExpireTime plain = so_ExpireTime order /\ so_PostOnly plain = so_PostOnly order /\
  so_ReduceOnly plain = so_ReduceOnly order /\
  (is_limit_type (so_Type plain) = true -> so_Price plain = so_Price order).
Proof.
  intros V. apply validate_gives_form in V as ((E1 & E2 & E3 & E4) & T & F1 & F2 & F3 & F4 & F5 & F6 & F7).
  unfold released, emulatedReleaseFromSubmit. simpl.
  unfold transformReleasedOrder, set. simpl.
  split.
  - split.
    + intros V [Hm Hg]. apply validate_gives_form in V as (_ & _ & _ & _ & _ & _ & _ & H6 & _).
      unfold becomes_market in Hm. destruct (so_Type order) eqn:Et; try done; simpl in H6; rewrite ?Et in H6; by destruct (H6 Hg).
    + intros Hn. apply form_gives_validate.
      * destruct (so_Type order); done.
      * unfold well_typed_order in *. destruct (so_Type order) eqn:Et; simpl; rewrite ?Et; naive_solver.
      * unfold well_formed_order, becomes_market, SubmitOrder_TriggerInstrument in *.
        destruct (so_Type order) eqn:Et; simpl; rewrite ?Et; split_and!; try done; intros Hg; specialize (F6 Hg); naive_solver.
  - unfold well_typed_order in T. destruct (so_Type order) eqn:Et; simpl; rewrite ?Et; split_and!; done.
Qed.
End release.
