(* ===== verification/ExecEngine.v ===== *)
(** * The execution engine (execution/engine.go)

    [Engine] routes commands to the emulator, to an execution algorithm or to the client of
    the account, and books what they report with the manager.  The clients and algorithms are
    code outside: a [Client] is a record of operations on the state [W] of the venues, with
    an option for each interface of Go that a client may also implement.  Engine, manager and
    emulator share one manager and one cache, as [NewEngine] wires them.  A method runs
    without interleaving with others.  The channel of events is the list of what was sent on
    it: a send that would block on the full channel of 256 is not modelled. *)
From stdpp Require Import base gmap list strings sorting.
From S2P Require Import Prelude Decimals Enums Identifiers Orders Market Accounts OrderLists Cache Kernel.
From S2P Require Import ExecManager Emulator.

Open Scope go_scope.

(** [errors.Join]: the errors in order; no error is nil. *)
Definition join_error (errs : list error) : option error :=
  match errs with
  | [] => None
  | e :: _ => Some (mkErr (err_kind e) (String.concat (String (Ascii.ascii_of_nat 10) "") (err_msg <$> errs)))
  end.
Definition error_list {A} (r : res A) : list error := match r with Ok _ => [] | Fail e => [e] end.

Section engine.
Context {DD : Decimal} {W : Type}.

(** ** Commands that only the engine reads (model/account.go, model/command.go) *)

Record QueryAccount := mkQueryAccount { qa_Metadata : CommandMetadata; qa_AccountID : AccountID }.
Definition QueryAccount_Validate (q : QueryAccount) : res unit :=
  fail_if qa_AccountID q ≟ "" with mkErr ErrInvalidAccount "invalid account" ;; Ok tt.

Record GenerateOrderStatusReports := mkGenerateOrderStatusReports {
  go_Metadata : CommandMetadata;
  go_AccountID : AccountID;
  go_InstrumentID : InstrumentID;
  go_OrderID : OrderID;
  go_VenueOrderID : VenueOrderID;
  go_ClientOrderID : ClientOrderID;
}.
Definition GenerateOrderStatusReports_Validate (c : GenerateOrderStatusReports) : res unit :=
  validateReportCommandScope (go_AccountID c) (go_InstrumentID c).

Record GenerateFillReports := mkGenerateFillReports {
  gf_Metadata : CommandMetadata;
  gf_AccountID : AccountID;
  gf_InstrumentID : InstrumentID;
  gf_OrderID : OrderID;
  gf_VenueOrderID : VenueOrderID;
  gf_ClientOrderID : ClientOrderID;
  gf_StartTradeID : TradeID;
}.
Definition GenerateFillReports_Validate (c : GenerateFillReports) : res unit :=
  validateReportCommandScope (gf_AccountID c) (gf_InstrumentID c).

Record GeneratePositionStatusReports := mkGeneratePositionStatusReports {
  gp_Metadata : CommandMetadata;
  gp_AccountID : AccountID;
  gp_InstrumentID : InstrumentID;
  gp_PositionID : PositionID;
  gp_VenuePositionID : VenuePositionID;
}.
Definition GeneratePositionStatusReports_Validate (c : GeneratePositionStatusReports) : res unit :=
  validateReportCommandScope (gp_AccountID c) (gp_InstrumentID c).

Record GenerateExecutionMassStatus := mkGenerateExecutionMassStatus {
  gm_Metadata : CommandMetadata;
  gm_AccountID : AccountID;
  gm_InstrumentID : InstrumentID;
  gm_OrderID : OrderID;
  gm_VenueOrderID : VenueOrderID;
  gm_ClientOrderID : ClientOrderID;
  gm_PositionID : PositionID;
  gm_VenuePositionID : VenuePositionID;
}.
Definition GenerateExecutionMassStatus_Validate (c : GenerateExecutionMassStatus) : res unit :=
  validateReportCommandScope (gm_AccountID c) (gm_InstrumentID c).

(** ** Clients and algorithms *)

(** A Go call that returns a slice and an error, both of which the engine may use. *)
Definition reports_and_error : Type := list OrderStatusReport * option error.

Record Client := mkClient {
  cl_AccountID : AccountID;
  cl_Venue : Venue;
  cl_Connect : W -> W * res unit;
  cl_Disconnect : W -> W * res unit;
  cl_QueryAccount : W -> W * res AccountSnapshot;
  cl_SubmitOrder : W -> SubmitOrder -> W * res OrderStatusReport;
  cl_CancelOrder : W -> CancelOrder -> W * res OrderStatusReport;
  cl_GenerateOrderStatusReports : W -> InstrumentID -> W * res (list OrderStatusReport);
  cl_OrderListSubmitter : option (W -> SubmitOrderList -> W * reports_and_error);
  cl_BatchCanceler : option (W -> BatchCancelOrders -> W * reports_and_error);
  cl_CancelAllCanceler : option (W -> CancelAllOrders -> W * reports_and_error);
  cl_OrderModifier : option (W -> ModifyOrder -> W * res OrderStatusReport);
  cl_OrderQuerier : option (W -> QueryOrder -> W * res OrderStatusReport);
  cl_FillReportGenerator : option (W -> InstrumentID -> W * res (list FillReport));
  cl_PositionStatusReportGenerator : option (W -> InstrumentID -> W * res (list PositionStatusReport));
}.

Record ExecutionAlgorithm := mkExecutionAlgorithm {
  al_ID : string;
  al_SubmitOrder : W -> SubmitOrder -> W * res OrderStatusReport;
  al_OrderListAlgorithm : option (W -> SubmitOrderList -> W * reports_and_error);
}.

(** ** The engine *)

(** [execution.Engine]; an emulator is its orders and its trailing extremes. *)
Record Engine := mkEngine {
  en_manager : Manager;
  en_emulator : option (gmap emulatedOrderKey SubmitOrder * gmap emulatedOrderKey D);
  en_component : Component;
  en_events : list ExecutionEvent;
  en_clients : gmap AccountID Client;
  en_algorithms : gmap string ExecutionAlgorithm;
  en_externalClaims : gmap InstrumentID StrategyID;
  en_starts : Z;
  en_stops : Z;
  en_submits : Z;
  en_cancels : Z;
  en_modifies : Z;
  en_queries : Z;
}.

#[global] Instance set_en_manager : Setter en_manager := fun f r =>
  mkEngine (f (en_manager r)) (en_emulator r) (en_component r) (en_events r) (en_clients r) (en_algorithms r)
    (en_externalClaims r) (en_starts r) (en_stops r) (en_submits r) (en_cancels r) (en_modifies r) (en_queries r).
#[global] Instance set_en_emulator : Setter en_emulator := fun f r =>
  mkEngine (en_manager r) (f (en_emulator r)) (en_component r) (en_events r) (en_clients r) (en_algorithms r)
    (en_externalClaims r) (en_starts r) (en_stops r) (en_submits r) (en_cancels r) (en_modifies r) (en_queries r).
#[global] Instance set_en_component : Setter en_component := fun f r =>
  mkEngine (en_manager r) (en_emulator r) (f (en_component r)) (en_events r) (en_clients r) (en_algorithms r)
    (en_externalClaims r) (en_starts r) (en_stops r) (en_submits r) (en_cancels r) (en_modifies r) (en_queries r).
#[global] Instance set_en_events : Setter en_events := fun f r =>
  mkEngine (en_manager r) (en_emulator r) (en_component r) (f (en_events r)) (en_clients r) (en_algorithms r)
    (en_externalClaims r) (en_starts r) (en_stops r) (en_submits r) (en_cancels r) (en_modifies r) (en_queries r).
#[global] Instance set_en_clients : Setter en_clients := fun f r =>
  mkEngine (en_manager r) (en_emulator r) (en_component r) (en_events r) (f (en_clients r)) (en_algorithms r)
    (en_externalClaims r) (en_starts r) (en_stops r) (en_submits r) (en_cancels r) (en_modifies r) (en_queries r).
#[global] Instance set_en_algorithms : Setter en_algorithms := fun f r =>
  mkEngine (en_manager r) (en_emulator r) (en_component r) (en_events r) (en_clients r) (f (en_algorithms r))
    (en_externalClaims r) (en_starts r) (en_stops r) (en_submits r) (en_cancels r) (en_modifies r) (en_queries r).
#[global] Instance set_en_externalClaims : Setter en_externalClaims := fun f r =>
  mkEngine (en_manager r) (en_emulator r) (en_component r) (en_events r) (en_clients r) (en_algorithms r)
    (f (en_externalClaims r)) (en_starts r) (en_stops r) (en_submits r) (en_cancels r) (en_modifies r) (en_queries r).
#[global] Instance set_en_starts : Setter en_starts := fun f r =>
  mkEngine (en_manager r) (en_emulator r) (en_component r) (en_events r) (en_clients r) (en_algorithms r)
    (en_externalClaims r) (f (en_starts r)) (en_stops r) (en_submits r) (en_cancels r) (en_modifies r) (en_queries r).
#[global] Instance set_en_stops : Setter en_stops := fun f r =>
  mkEngine (en_manager r) (en_emulator r) (en_component r) (en_events r) (en_clients r) (en_algorithms r)
    (en_externalClaims r) (en_starts r) (f (en_stops r)) (en_submits r) (en_cancels r) (en_modifies r) (en_queries r).
#[global] Instance set_en_submits : Setter en_submits := fun f r =>
  mkEngine (en_manager r) (en_emulator r) (en_component r) (en_events r) (en_clients r) (en_algorithms r)
    (en_externalClaims r) (en_starts r) (en_stops r) (f (en_submits r)) (en_cancels r) (en_modifies r) (en_queries r).
#[global] Instance set_en_cancels : Setter en_cancels := fun f r =>
  mkEngine (en_manager r) (en_emulator r) (en_component r) (en_events r) (en_clients r) (en_algorithms r)
    (en_externalClaims r) (en_starts r) (en_stops r) (en_submits r) (f (en_cancels r)) (en_modifies r) (en_queries r).
#[global] Instance set_en_modifies : Setter en_modifies := fun f r =>
  mkEngine (en_manager r) (en_emulator r) (en_component r) (en_events r) (en_clients r) (en_algorithms r)
    (en_externalClaims r) (en_starts r) (en_stops r) (en_submits r) (en_cancels r) (f (en_modifies r)) (en_queries r).
#[global] Instance set_en_queries : Setter en_queries := fun f r =>
  mkEngine (en_manager r) (en_emulator r) (en_component r) (en_events r) (en_clients r) (en_algorithms r)
    (en_externalClaims r) (en_starts r) (en_stops r) (en_submits r) (en_cancels r) (en_modifies r) (f (en_queries r)).

Definition en_cache (e : Engine) : Cache := em_cache (en_manager e).
Definition put_cache (e : Engine) (c : Cache) : Engine := e <| en_manager := en_manager e <| em_cache := c |> |>.

(** [NewEngine]; an emulator is bound to the engine's manager. *)
Definition NewEngine (c : option Cache) (manager : option Manager) (emulator : option Emulator) : Engine :=
  mkEngine (match manager with Some m => m | None => NewManager c false PositionIDModeNone end)
    ((fun em => (el_orders em, el_trailing em)) <$> emulator) (NewComponent "execution.engine") [] ∅ ∅ ∅ 0 0 0 0 0 0.

(** The emulator with the engine's manager, and the engine after the emulator has run. *)
Definition emulator_of (e : Engine) : option Emulator :=
  (fun '(orders, trailing) => mkEmulator (en_manager e) orders trailing) <$> en_emulator e.
Definition with_emulator (e : Engine) (em : Emulator) : Engine :=
  e <| en_manager := el_manager em |> <| en_emulator := Some (el_orders em, el_trailing em) |>.

(** ** State passing over engine and venues *)

Definition M : Type -> Type := St (Engine * W).

Definition get : M Engine := fun s => (s, s.1).
Definition modify_engine (f : Engine -> Engine) : M unit := fun s => ((f s.1, s.2), tt).
Definition call {A} (f : W -> W * A) : M A := fun s => let '(w, a) := f s.2 in ((s.1, w), a).

Definition applyOrderReport (report : OrderStatusReport) : M (res unit) := fun '(e, w) =>
  let '(m, result) := ApplyOrderReport (en_manager e) report in ((e <| en_manager := m |>, w), result).
End engine.

Section operations.
Context {DD : Decimal} {W : Type}.

Definition publishOrderLifecycle (report : OrderStatusReport) (kind : OrderEventKind) (previous : OrderStatus)
    (reason : string) : M (W := W) unit :=
  let lifecycle := mkOrderLifecycleEvent (or_Metadata report) (or_AccountID report) (or_InstrumentID report)
    (or_OrderID report) (or_ClientOrderID report) (or_VenueOrderID report) kind previous (or_Status report) reason
    (Some report) in
  modify_engine (fun e => e <| en_events := en_events e ++ [lifecycle_event lifecycle] |>).

(** ** Registration *)

Definition AddClient (client : Client (W := W)) : M (res unit) := fun '(e, w) =>
  if cl_AccountID client ≟ "" then ((e, w), Fail (mkErr ErrInvalidOrder "execution client account id is required"))
  else ((e <| en_clients := <[cl_AccountID client := client]> (en_clients e) |>, w), Ok tt).

Definition AddAlgorithm (algorithm : ExecutionAlgorithm (W := W)) : M (res unit) := fun '(e, w) =>
  if al_ID algorithm ≟ "" then ((e, w), Fail (mkErr ErrAlgorithmIDMissing "execution algorithm id missing"))
  else ((e <| en_algorithms := <[al_ID algorithm := algorithm]> (en_algorithms e) |>, w), Ok tt).

Definition RegisterExternalOrderClaim (i : InstrumentID) (s : StrategyID) : M (W := W) (res unit) := fun '(e, w) =>
  match InstrumentID_Validate i with
  | Fail err => ((e, w), Fail err)
  | Ok _ =>
      if s ≟ "" then ((e, w), Fail (mkErr ErrInvalidOrder "external order claim strategy id is required"))
      else if default "" (en_externalClaims e !! i) ≠? ""
      then ((e, w), Fail (mkErr ErrInvalidOrder "external order claim already exists"))
      else ((e <| en_externalClaims := <[i := s]> (en_externalClaims e) |>, w), Ok tt)
  end.

Definition ExternalOrderClaim (e : Engine (W := W)) (i : InstrumentID) : option StrategyID := en_externalClaims e !! i.

Definition ExternalOrderClaimInstruments (e : Engine (W := W)) : list InstrumentID :=
  merge_sort (by_key InstrumentID_String) (map_to_list (en_externalClaims e)).*1.

Definition Engine_Snapshot (e : Engine (W := W)) (a : AccountID) : Snapshot := cache_Snapshot (en_cache e) a.

Definition Engine_Purge (e : Engine (W := W)) (a : AccountID) (policy : PurgePolicy) : Engine * PurgeResult :=
  let '(c, result) := Purge (en_cache e) a policy in (put_cache e c, result).

(** [execution.Health] *)
Record EngineHealth := mkEngineHealth {
  eh_Health : Health;
  eh_Clients : nat;
  eh_Algorithms : nat;
  eh_Starts : Z;
  eh_Stops : Z;
  eh_Submits : Z;
  eh_Cancels : Z;
  eh_Modifies : Z;
  eh_Queries : Z;
}.
Definition Engine_Health (e : Engine (W := W)) : EngineHealth :=
  mkEngineHealth (Component_Health (en_component e)) (size (en_clients e)) (size (en_algorithms e)) (en_starts e)
    (en_stops e) (en_submits e) (en_cancels e) (en_modifies e) (en_queries e).

(** [e.client] and [e.algorithm] *)
Definition client_for (a : AccountID) : M (res Client) := fun '(e, w) =>
  ((e, w), match en_clients (W := W) e !! a with
           | Some c => Ok c | None => Fail (mkErr ErrClientNotFound "account") end).
Definition algorithm_for (id : string) : M (res ExecutionAlgorithm) := fun '(e, w) =>
  ((e, w), match en_algorithms (W := W) e !! id with
           | Some a => Ok a | None => Fail (mkErr ErrAlgorithmNotFound "") end).

(** ** Life cycle: the hooks visit the clients in some order of the map *)

Fixpoint each_client (f : Client (W := W) -> W -> W * res unit) (clients : list Client) : M (list error) :=
  match clients with
  | [] => mret []
  | client :: clients =>
      r ← call (f client);
      errs ← each_client f clients;
      mret (error_list r ++ errs)
  end.

Definition startClients (clients : list Client) : M (res unit) :=
  errs ← each_client cl_Connect clients;
  match join_error errs with
  | Some e => mret (Fail e)
  | None => _ ← modify_engine (fun e => e <| en_starts := (en_starts e + 1)%Z |>); mret (Ok tt)
  end.
Definition stopClients (clients : list Client) : M (res unit) :=
  errs ← each_client cl_Disconnect clients;
  match join_error errs with
  | Some e => mret (Fail e)
  | None => _ ← modify_engine (fun e => e <| en_stops := (en_stops e + 1)%Z |>); mret (Ok tt)
  end.

Definition with_hook (begin : Component -> res Component) (final : ComponentState) (hook : M (W := W) (res unit))
    : M (res unit) :=
  e ← get;
  match begin (en_component e) with
  | Fail err => mret (Fail err)
  | Ok c =>
      _ ← modify_engine (fun e => e <| en_component := c |>);
      r ← hook;
      e ← get;
      let '(c, result) := hook_end (en_component e) final r in
      _ ← modify_engine (fun e => e <| en_component := c |>);
      mret result
  end.

Definition Engine_Start (clients : list Client) : M (res unit) :=
  e ← get;
  if kc_state (en_component e) ≟ ComponentStateRunning then mret (Ok tt)
  else with_hook start_begin ComponentStateRunning (startClients clients).
Definition Engine_Stop (clients : list Client) : M (res unit) :=
  e ← get;
  if kc_state (en_component e) ≟ ComponentStateStopped then mret (Ok tt)
  else with_hook stop_begin ComponentStateStopped (stopClients clients).

(** ** Submitting *)

Definition addSubmits (count : Z) : M (W := W) unit := modify_engine (fun e => e <| en_submits := (en_submits e + count)%Z |>).
Definition addCancels (count : Z) : M (W := W) unit := modify_engine (fun e => e <| en_cancels := (en_cancels e + count)%Z |>).
Definition addModifies (count : Z) : M (W := W) unit := modify_engine (fun e => e <| en_modifies := (en_modifies e + count)%Z |>).
Definition addQueries (count : Z) : M (W := W) unit := modify_engine (fun e => e <| en_queries := (en_queries e + count)%Z |>).

(** The end of most operations: book the report, count, return it. *)
Definition book (report : OrderStatusReport) (count : M (W := W) unit) : M (res OrderStatusReport) :=
  let! _ := applyOrderReport report in
  _ ← count;
  pass (Ok report).

Definition submitOrderToAlgorithm (order : SubmitOrder) (id : string) : M (W := W) (res OrderStatusReport) :=
  let! algorithm := algorithm_for id in
  let! report := call (fun w => al_SubmitOrder algorithm w order) in
  book report (addSubmits 1).

Definition cacheSubmit (order : SubmitOrder) : M (W := W) (res unit) := fun '(e, w) =>
  let '(m, result) := CacheSubmitCommand (en_manager e) order in ((e <| en_manager := m |>, w), result).

(** [SubmitOrder] of an order without emulation trigger. *)
Definition submit_plain (order : SubmitOrder) : M (W := W) (res OrderStatusReport) :=
  if md_ExecAlgorithmID (so_Metadata order) ≠? ""
  then submitOrderToAlgorithm order (md_ExecAlgorithmID (so_Metadata order))
  else
    let! _ := cacheSubmit order in
    let! client := client_for (so_AccountID order) in
    let! report := call (fun w => cl_SubmitOrder client w order) in
    book report (addSubmits 1).

(** A step of the emulator. *)
Definition emulate {A} (em : Emulator -> Emulator * A) (otherwise : A) : M (W := W) A := fun '(e, w) =>
  match emulator_of e with
  | None => ((e, w), otherwise)
  | Some m => let '(m, a) := em m in ((with_emulator e m, w), a)
  end.

(** The two events of a release. *)
Definition publish_release (release : EmulatedRelease) (previous : OrderStatus) : M (W := W) unit :=
  _ ← publishOrderLifecycle (rl_Triggered release) OrderEventTriggered previous "";
  publishOrderLifecycle (rl_Released release) OrderEventReleased OrderStatusTriggered "".

(** The engine calls [SubmitOrder] with the released order; that order has no emulation
    trigger, so it goes the way of [submit_plain]. *)
Definition submitOrderToEmulator (order : SubmitOrder) : M (W := W) (res OrderStatusReport) :=
  e ← get;
  match en_emulator e with
  | None => mret (Fail (mkErr ErrNotSupported "execution emulator is not configured"))
  | Some _ =>
      r ← emulate (fun m => let '(m, release, result) := Emulator_SubmitOrder m order in (m, (release, result)))
                  (None, Ok OrderStatusReport_zero);
      let '(release, result) := r in
      let! report := pass result in
      match release with
      | Some release =>
          _ ← publish_release release OrderStatusInitialized;
          let! accepted := submit_plain (rl_Order release) in
          _ ← addSubmits 1;
          mret (Ok accepted)
      | None =>
          _ ← publishOrderLifecycle report OrderEventEmulated OrderStatusInitialized "";
          _ ← addSubmits 1;
          mret (Ok report)
      end
  end.

Definition Engine_SubmitOrder (order : SubmitOrder) : M (W := W) (res OrderStatusReport) :=
  if TriggerType_IsActive (so_EmulationTrigger order) then submitOrderToEmulator order else submit_plain order.

(** ** Order lists *)

Fixpoint applyOrderReports (reports : list OrderStatusReport) : M (W := W) (res unit) :=
  match reports with
  | [] => mret (Ok tt)
  | report :: reports => let! _ := applyOrderReport report in applyOrderReports reports
  end.

(** What follows a call that returned reports and an error. *)
Definition book_reports (r : reports_and_error) (count : Z -> M (W := W) unit) : M reports_and_error :=
  let '(reports, err) := r in
  match err with
  | Some e => mret (reports, Some e)
  | None =>
      a ← applyOrderReports reports;
      match a with
      | Fail e => mret (reports, Some e)
      | Ok _ => _ ← count (Z.of_nat (length reports)); mret (reports, None)
      end
  end.

(** A loop of calls that stops at the first error and keeps the reports so far. *)
Fixpoint submit_each (f : SubmitOrder -> M (W := W) (res OrderStatusReport)) (orders : list SubmitOrder)
    : M reports_and_error :=
  match orders with
  | [] => mret ([], None)
  | order :: orders =>
      r ← f order;
      match r with
      | Fail e => mret ([], Some e)
      | Ok report => rest ← submit_each f orders; mret (report :: rest.1, rest.2)
      end
  end.

Definition submitOrderListToAlgorithm (command : SubmitOrderList) (id : string) : M (W := W) reports_and_error :=
  a ← algorithm_for id;
  match a with
  | Fail e => mret ([], Some e)
  | Ok algorithm =>
      match al_OrderListAlgorithm algorithm with
      | Some submit => r ← call (fun w => submit w command); book_reports r addSubmits
      | None =>
          r ← submit_each (fun order =>
                 let! report := call (fun w => al_SubmitOrder algorithm w order) in
                 book report (mret tt)) (ol_Orders (sl_List command));
          match r.2 with
          | Some _ => mret r
          | None => _ ← addSubmits (Z.of_nat (length r.1)); mret r
          end
      end
  end.

Definition indexOrderList (l : OrderList) : M (W := W) (res unit) := fun '(e, w) =>
  let '(m, result) := IndexOrderList (en_manager e) l in ((e <| en_manager := m |>, w), result).

Definition Engine_SubmitOrderList (command : SubmitOrderList) : M (W := W) reports_and_error :=
  let command := SubmitOrderList_WithCommandMetadataDefaults command in
  match SubmitOrderList_Validate command with
  | Fail e => mret ([], Some e)
  | Ok _ =>
  indexed ← indexOrderList (sl_List command);
  match indexed with
  | Fail e => mret ([], Some e)
  | Ok _ =>
  if md_ExecAlgorithmID (sl_Metadata command) ≠? ""
  then submitOrderListToAlgorithm command (md_ExecAlgorithmID (sl_Metadata command))
  else
  found ← client_for (sl_AccountID command);
  match found with
  | Fail e => mret ([], Some e)
  | Ok client =>
      match cl_OrderListSubmitter client with
      | Some submit => r ← call (fun w => submit w command); book_reports r addSubmits
      | None => submit_each Engine_SubmitOrder
                  (List.filter (fun order => so_ParentClientOrderID order ≟ "") (ol_Orders (sl_List command)))
      end
  end end end.

(** ** Market events *)

(** The loop over the releases. *)
Fixpoint submit_releases (releases : list EmulatedRelease) : M (W := W) reports_and_error :=
  match releases with
  | [] => mret ([], None)
  | release :: releases =>
      _ ← publish_release release OrderStatusEmulated;
      r ← submit_plain (rl_Order release);
      match r with
      | Fail e => mret ([], Some e)
      | Ok report => rest ← submit_releases releases; mret (report :: rest.1, rest.2)
      end
  end.

Definition Engine_ProcessMarketEvent (event : MarketEvent) : M (W := W) reports_and_error :=
  e ← get;
  match en_emulator e with
  | None => mret ([], match MarketEvent_Validate event with Fail err => Some err | Ok _ => None end)
  | Some _ =>
      r ← emulate (fun m => let '(m, releases, result) := ProcessMarketEvent m event in (m, (releases, result))) ([], Ok tt);
      let '(releases, result) := r in
      match result with
      | Fail err => mret ([], Some err)
      | Ok _ => submit_releases releases
      end
  end.

(** ** Canceling *)

Definition cancelEmulatedOrder (cancel : CancelOrder) : M (W := W) (bool * res OrderStatusReport) :=
  r ← emulate (fun m => let '(m, handled, result) := Emulator_CancelOrder m cancel in (m, (handled, result)))
              (false, Ok OrderStatusReport_zero);
  match r with
  | (true, Ok report) =>
      _ ← publishOrderLifecycle report OrderEventCanceled OrderStatusEmulated "";
      _ ← addCancels 1;
      mret (true, Ok report)
  | _ => mret r
  end.

Definition Engine_CancelOrder (cancel : CancelOrder) : M (W := W) (res OrderStatusReport) :=
  let! _ := pass (CancelOrder_Validate cancel) in
  r ← cancelEmulatedOrder cancel;
  match r with
  | (_, Fail e) => mret (Fail e)
  | (true, Ok report) => mret (Ok report)
  | (false, Ok _) =>
      let! client := client_for (co_AccountID cancel) in
      let! report := call (fun w => cl_CancelOrder client w cancel) in
      book report (addCancels 1)
  end.

(** A cancel of a batch with what it leaves out taken from the batch. *)
Definition batch_cancel (batch : BatchCancelOrders) (cancel : CancelOrder) : CancelOrder :=
  mkCancelOrder (CommandMetadata_WithDefaults (co_Metadata cancel) (bc_Metadata batch))
    (if co_AccountID cancel ≟ "" then bc_AccountID batch else co_AccountID cancel)
    (if co_InstrumentID cancel ≟ InstrumentID_zero then bc_InstrumentID batch else co_InstrumentID cancel)
    (co_OrderID cancel) (co_ClientOrderID cancel).

(** The first loop of [BatchCancelOrders]: the reports and errors of the emulated orders, and
    the cancels that are left for the venue. *)
Fixpoint cancel_emulated_each (cancels : list CancelOrder)
    : M (W := W) (list OrderStatusReport * list error * list CancelOrder) :=
  match cancels with
  | [] => mret ([], [], [])
  | cancel :: cancels =>
      r ← cancelEmulatedOrder cancel;
      rest ← cancel_emulated_each cancels;
      let '(reports, errs, remaining) := rest in
      match r with
      | (_, Fail e) => mret (reports, e :: errs, remaining)
      | (true, Ok report) => mret (report :: reports, errs, remaining)
      | (false, Ok _) => mret (reports, errs, cancel :: remaining)
      end
  end.

Fixpoint cancel_each (cancels : list CancelOrder) : M (W := W) (list OrderStatusReport * list error) :=
  match cancels with
  | [] => mret ([], [])
  | cancel :: cancels =>
      r ← Engine_CancelOrder cancel;
      rest ← cancel_each cancels;
      mret (match r with Fail e => (rest.1, e :: rest.2) | Ok report => (report :: rest.1, rest.2) end)
  end.

(** The venue's answer to a batch: its reports, and the errors joined. *)
Definition venue_batch (r : reports_and_error) (reports : list OrderStatusReport) (errs : list error)
    : M (W := W) (list OrderStatusReport * list error) :=
  b ← book_reports r addCancels;
  mret (reports ++ b.1, errs ++ option_list b.2).

Definition Engine_BatchCancelOrders (batch : BatchCancelOrders) : M (W := W) (list OrderStatusReport * list error) :=
  match BatchCancelOrders_Validate batch with
  | Fail e => mret ([], [e])
  | Ok _ =>
      r ← cancel_emulated_each (batch_cancel batch <$> bc_Cancels batch);
      let '(reports, errs, remaining) := r in
      match remaining with
      | [] => mret (reports, errs)
      | _ =>
          let batch := mkBatchCancelOrders (bc_Metadata batch) (bc_AccountID batch) (bc_InstrumentID batch) remaining in
          found ← client_for (bc_AccountID batch);
          match found with
          | Fail e => mret (reports, errs ++ [e])
          | Ok client =>
              match cl_BatchCanceler client with
              | Some cancel => b ← call (fun w => cancel w batch); venue_batch b reports errs
              | None =>
                  rest ← cancel_each remaining;
                  mret (reports ++ rest.1, errs ++ rest.2)
              end
          end
      end
  end.

(** The cancel of an open order, and the batch of those that match. *)
Definition cancel_all_of (cancelAll : CancelAllOrders) (order : OrderStatusReport) : CancelOrder :=
  mkCancelOrder (ca_Metadata cancelAll) (or_AccountID order) (or_InstrumentID order) (or_OrderID order)
    (or_ClientOrderID order).
Definition cancel_all_batch (cancelAll : CancelAllOrders) (orders : list OrderStatusReport) : BatchCancelOrders :=
  mkBatchCancelOrders (ca_Metadata cancelAll) (ca_AccountID cancelAll) (ca_InstrumentID cancelAll)
    (cancel_all_of cancelAll <$> orders).
Definition matching_orders (e : Engine (W := W)) (cancelAll : CancelAllOrders) : list OrderStatusReport :=
  List.filter (CancelAllOrders_MatchesOrder cancelAll) (OpenOrders (en_cache e) (ca_AccountID cancelAll)).

Definition Engine_CancelAllOrders (cancelAll : CancelAllOrders) : M (W := W) (list OrderStatusReport * list error) :=
  match CancelAllOrders_Validate cancelAll with
  | Fail e => mret ([], [e])
  | Ok _ =>
  e ← get;
  let matches := matching_orders e cancelAll in
  let emulated := List.filter (fun order => or_Status order ≟ OrderStatusEmulated) matches in
  let nonEmulated := count (fun order => or_Status order ≠? OrderStatusEmulated) matches in
  local ← (if (0 <? length emulated)%nat then Engine_BatchCancelOrders (cancel_all_batch cancelAll emulated)
           else mret ([], []));
  if (0 <? length emulated)%nat && (nonEmulated =? 0)%nat then mret local
  else
    found ← client_for (ca_AccountID cancelAll);
    match found with
    | Fail err => mret (local.1, local.2 ++ [err])
    | Ok client =>
        match cl_CancelAllCanceler client with
        | Some cancel => b ← call (fun w => cancel w cancelAll); venue_batch b local.1 local.2
        | None =>
            e ← get;
            let matches := matching_orders e cancelAll in
            if (length matches =? 0)%nat then mret ([], [])
            else Engine_BatchCancelOrders (cancel_all_batch cancelAll matches)
        end
    end
  end.

(** ** Modifying *)

Definition Engine_ModifyOrder (modify : ModifyOrder) : M (W := W) (res OrderStatusReport) :=
  let! _ := pass (ModifyOrder_Validate modify) in
  r ← emulate (fun m => let '(m, release, handled, result) := Emulator_ModifyOrder m modify in (m, (release, handled, result)))
              (None, false, Ok OrderStatusReport_zero);
  match r with
  | (_, _, Fail e) => mret (Fail e)
  | (release, true, Ok report) =>
      _ ← publishOrderLifecycle report OrderEventUpdated OrderStatusEmulated "";
      _ ← addModifies 1;
      match release with
      | Some release =>
          _ ← publish_release release OrderStatusEmulated;
          submit_plain (rl_Order release)
      | None => mret (Ok report)
      end
  | (_, false, Ok _) =>
      let! client := client_for (mo_AccountID modify) in
      match cl_OrderModifier client with
      | None => mret (Fail (mkErr ErrNotSupported "execution client does not support modify"))
      | Some modifier =>
          let! report := call (fun w => modifier w modify) in
          book report (addModifies 1)
      end
  end.

(** ** Queries and reports *)

Definition Engine_QueryAccount (query : QueryAccount) : M (W := W) (res AccountSnapshot) :=
  let! _ := pass (QueryAccount_Validate query) in
  let! client := client_for (qa_AccountID query) in
  let! snapshot := call (fun w => cl_QueryAccount client w) in
  let snapshot := mkAccountSnapshot
    (if as_AccountID snapshot ≟ "" then qa_AccountID query else as_AccountID snapshot)
    (if as_Venue snapshot ≟ "" then cl_Venue client else as_Venue snapshot)
    (as_Type snapshot) (as_BaseCurrency snapshot) (as_Balances snapshot) (as_Margins snapshot) (as_Timestamp snapshot) in
  let! _ := pass (AccountSnapshot_Validate snapshot) in
  _ ← modify_engine (fun e => put_cache e (PutAccount (en_cache e) snapshot));
  pass (Ok snapshot).

Definition claimExternalOrderReport (e : Engine (W := W)) (report : OrderStatusReport) : OrderStatusReport :=
  if (md_StrategyID (or_Metadata report) ≠? "") || (or_ClientOrderID report ≠? "") then report
  else
    let strategyID := default "" (en_externalClaims e !! or_InstrumentID report) in
    let strategyID := if strategyID ≟ "" then "EXTERNAL" else strategyID in
    report <| or_Metadata := or_Metadata report <| md_StrategyID := strategyID |> |>.

(** Empty in the command, or equal. *)
Definition asked (wanted actual : string) : bool := (wanted ≟ "") || (actual ≟ wanted).

Definition matchesOrderReportCommand (report : OrderStatusReport) (command : GenerateOrderStatusReports) : bool :=
  (or_AccountID report ≟ go_AccountID command) && (or_InstrumentID report ≟ go_InstrumentID command) &&
  asked (go_OrderID command) (or_OrderID report) && asked (go_VenueOrderID command) (or_VenueOrderID report) &&
  asked (go_ClientOrderID command) (or_ClientOrderID report).
Definition matchesFillReportCommand (fill : FillReport) (command : GenerateFillReports) : bool :=
  (fr_AccountID fill ≟ gf_AccountID command) && (fr_InstrumentID fill ≟ gf_InstrumentID command) &&
  asked (gf_OrderID command) (fr_OrderID fill) && asked (gf_VenueOrderID command) (fr_VenueOrderID fill) &&
  asked (gf_ClientOrderID command) (fr_ClientOrderID fill) &&
  ((gf_StartTradeID command ≟ "") || negb (String.ltb (fr_TradeID fill) (gf_StartTradeID command))).
Definition matchesPositionReportCommand (position : PositionStatusReport) (command : GeneratePositionStatusReports) : bool :=
  (pr_AccountID position ≟ gp_AccountID command) && (pr_InstrumentID position ≟ gp_InstrumentID command) &&
  asked (gp_PositionID command) (pr_PositionID position) && asked (gp_VenuePositionID command) (pr_VenuePositionID position).

(** The loops over what the venue reported: those kept, up to the first that cannot be booked. *)
Fixpoint keep_reports {A} (wanted : A -> bool) (put : A -> M (W := W) (res unit)) (reports : list A)
    : M (list A * option error) :=
  match reports with
  | [] => mret ([], None)
  | report :: reports =>
      if negb (wanted report) then keep_reports wanted put reports
      else
        r ← put report;
        match r with
        | Fail e => mret ([], Some e)
        | Ok _ => rest ← keep_reports wanted put reports; mret (report :: rest.1, rest.2)
        end
  end.

Definition apply_fill (fill : FillReport) : M (W := W) (res unit) := fun '(e, w) =>
  let '(m, _, result) := ApplyFill (en_manager e) fill in ((e <| en_manager := m |>, w), result).
Definition put_position (position : PositionStatusReport) : M (W := W) (res unit) := fun '(e, w) =>
  match PutPosition (en_cache e) position with
  | Fail err => ((e, w), Fail err)
  | Ok c => ((put_cache e c, w), Ok tt)
  end.

Definition Engine_GenerateOrderStatusReports (command : GenerateOrderStatusReports) : M (W := W) reports_and_error :=
  match GenerateOrderStatusReports_Validate command with
  | Fail e => mret ([], Some e)
  | Ok _ =>
  found ← client_for (go_AccountID command);
  match found with
  | Fail e => mret ([], Some e)
  | Ok client =>
  r ← call (fun w => cl_GenerateOrderStatusReports client w (go_InstrumentID command));
  match r with
  | Fail e => mret ([], Some e)
  | Ok reports =>
      e ← get;
      keep_reports (fun report => matchesOrderReportCommand report command) applyOrderReport
        (claimExternalOrderReport e <$> reports)
  end end end.

Definition Engine_GenerateFillReports (command : GenerateFillReports) : M (W := W) (list FillReport * option error) :=
  match GenerateFillReports_Validate command with
  | Fail e => mret ([], Some e)
  | Ok _ =>
  found ← client_for (gf_AccountID command);
  match found with
  | Fail e => mret ([], Some e)
  | Ok client =>
  match cl_FillReportGenerator client with
  | None => mret ([], Some (mkErr ErrNotSupported "execution client does not support fill reports"))
  | Some generate =>
  r ← call (fun w => generate w (gf_InstrumentID command));
  match r with
  | Fail e => mret ([], Some e)
  | Ok fills => keep_reports (fun fill => matchesFillReportCommand fill command) apply_fill fills
  end end end end.

Definition Engine_GeneratePositionStatusReports (command : GeneratePositionStatusReports)
    : M (W := W) (list PositionStatusReport * option error) :=
  match GeneratePositionStatusReports_Validate command with
  | Fail e => mret ([], Some e)
  | Ok _ =>
  found ← client_for (gp_AccountID command);
  match found with
  | Fail e => mret ([], Some e)
  | Ok client =>
  match cl_PositionStatusReportGenerator client with
  | None => mret ([], Some (mkErr ErrNotSupported "execution client does not support position reports"))
  | Some generate =>
  r ← call (fun w => generate w (gp_InstrumentID command));
  match r with
  | Fail e => mret ([], Some e)
  | Ok positions => keep_reports (fun position => matchesPositionReportCommand position command) put_position positions
  end end end end.

(** An error that [GenerateExecutionMassStatus] passes on. *)
Definition fatal (err : option error) : option error :=
  match err with Some e => if err_kind e ≟ ErrNotSupported then None else Some e | None => None end.

Definition Engine_GenerateExecutionMassStatus (command : GenerateExecutionMassStatus) : M (W := W) (res ExecutionMassStatus) :=
  let! _ := pass (GenerateExecutionMassStatus_Validate command) in
  let! account := Engine_QueryAccount (mkQueryAccount CommandMetadata_zero (gm_AccountID command)) in
  orders ← Engine_GenerateOrderStatusReports (mkGenerateOrderStatusReports (gm_Metadata command) (gm_AccountID command)
    (gm_InstrumentID command) (gm_OrderID command) (gm_VenueOrderID command) (gm_ClientOrderID command));
  match orders.2 with
  | Some e => mret (Fail e)
  | None =>
  fills ← Engine_GenerateFillReports (mkGenerateFillReports (gm_Metadata command) (gm_AccountID command)
    (gm_InstrumentID command) (gm_OrderID command) (gm_VenueOrderID command) (gm_ClientOrderID command) "");
  match fatal fills.2 with
  | Some e => mret (Fail e)
  | None =>
  positions ← Engine_GeneratePositionStatusReports (mkGeneratePositionStatusReports (gm_Metadata command)
    (gm_AccountID command) (gm_InstrumentID command) (gm_PositionID command) (gm_VenuePositionID command));
  match fatal positions.2 with
  | Some e => mret (Fail e)
  | None =>
      let status := mkExecutionMassStatus (gm_Metadata command) (gm_AccountID command) (as_Venue account) [account]
        orders.1 fills.1 positions.1 0 in
      let! _ := pass (ExecutionMassStatus_Validate status) in
      mret (Ok status)
  end end end.

Definition isVenueOrderIDOnlyQuery (query : QueryOrder) : bool :=
  (qo_VenueOrderID query ≠? "") && (qo_OrderID query ≟ "") && (qo_ClientOrderID query ≟ "").

Definition cachedOrder (c : Cache) (query : QueryOrder) : option OrderStatusReport :=
  let a := qo_AccountID query in
  match (if qo_OrderID query ≠? "" then cache_Order c a (qo_OrderID query) else None) with
  | Some report => Some report
  | None =>
  match (if qo_ClientOrderID query ≠? "" then OrderByClientID c a (qo_ClientOrderID query) else None) with
  | Some report => Some report
  | None => if qo_VenueOrderID query ≠? "" then OrderByVenueID c a (qo_VenueOrderID query) else None
  end end.

Definition queryOrderFromReports (query : QueryOrder) : M (W := W) (res OrderStatusReport) :=
  r ← Engine_GenerateOrderStatusReports (mkGenerateOrderStatusReports (qo_Metadata query) (qo_AccountID query)
    (qo_InstrumentID query) (qo_OrderID query) (qo_VenueOrderID query) (qo_ClientOrderID query));
  match r with
  | (_, Some e) => mret (Fail e)
  | ([], None) => mret (Fail (mkErr ErrInvalidOrder "order report not found"))
  | (report :: _, None) => _ ← addQueries 1; mret (Ok report)
  end.

Definition Engine_QueryOrder (query : QueryOrder) : M (W := W) (res OrderStatusReport) :=
  let! _ := pass (QueryOrder_Validate query) in
  e ← get;
  match (if isVenueOrderIDOnlyQuery query then cachedOrder (en_cache e) query else None) with
  | Some report => mret (Ok report)
  | None =>
      let! client := client_for (qo_AccountID query) in
      match cl_OrderQuerier client with
      | None => queryOrderFromReports query
      | Some querier =>
          r ← call (fun w => querier w query);
          match r with
          | Fail err => if err_kind err ≟ ErrNotSupported then queryOrderFromReports query else mret (Fail err)
          | Ok report => book report (addQueries 1)
          end
      end
  end.
End operations.
