(* ===== verification/ExecEngineFacts.v ===== *)
(** * Correctness of the execution engine

    What reaches the venue: at most one valid plain order per submission, at the client of its
    account; what becomes of the orders a market event releases; which reports of a venue are
    booked, and under which strategy. *)
From stdpp Require Import base gmap sets list strings sorting.
From Stdlib Require Import QArith Lqa.
From S2P Require Import Prelude Decimals Enums Identifiers Orders Market Accounts OrderLists Cache Kernel.
From S2P Require Import ExecManager Emulator EmulatorFacts ExecEngine.

Open Scope go_scope.

Section facts.
Context {DD : Decimal} {W : Type}.
Implicit Types (e : Engine (W := W)) (w : W) (order : SubmitOrder) (report : OrderStatusReport) (event : MarketEvent)
  (r : EmulatedRelease) (client : Client (W := W)).

(** ** What the steps of an operation leave alone *)

(** The clients, the algorithms and the claims. *)
Definition same_routes e e' : Prop :=
  en_clients e' = en_clients e /\ en_algorithms e' = en_algorithms e /\ en_externalClaims e' = en_externalClaims e.
#[local] Instance same_routes_po : PreOrder same_routes.
Proof. unfold same_routes. split; [done|]. intros x y z (-> & -> & ->) (-> & -> & ->). done. Qed.

(** A computation that keeps the routes, the emulator's orders and the venues. *)
Definition quiet {A} (m : M (W := W) A) : Prop := forall e w, let '((e', w'), _) := m (e, w) in
  same_routes e e' /\ en_emulator e' = en_emulator e /\ w' = w.

Lemma quiet_ret {A} (a : A) : quiet (mret a).
Proof. by intros e w. Qed.
Lemma quiet_bind {A B} (m : M A) (f : A -> M B) : quiet m -> (forall a, quiet (f a)) -> quiet (mbind f m).
Proof.
  intros Hm Hf e w. unfold mbind, St_bind. specialize (Hm e w). destruct (m (e, w)) as [[e1 w1] a].
  destruct Hm as (H1 & H2 & ->). specialize (Hf a e1 w). destruct (f a (e1, w)) as [[e2 w2] b].
  destruct Hf as (H3 & H4 & ->). split_and!; [by etrans | by rewrite H4 | done].
Qed.
Lemma quiet_attempt {A B} (m : M (res A)) (f : A -> M (res B)) : quiet m -> (forall a, quiet (f a)) -> quiet (attempt m f).
Proof. intros Hm Hf. apply quiet_bind; [done|]. intros [a|err]; [apply Hf|apply quiet_ret]. Qed.
Lemma quiet_report report : quiet (applyOrderReport report).
Proof. intros e w. unfold applyOrderReport. by destruct (ApplyOrderReport _ _). Qed.
Lemma quiet_publish report kind previous reason : quiet (publishOrderLifecycle report kind previous reason).
Proof. by intros e w. Qed.
Lemma quiet_count n : quiet (addSubmits n) /\ quiet (addCancels n) /\ quiet (addModifies n) /\ quiet (addQueries n).
Proof. split_and!; by intros e w. Qed.
Lemma quiet_book report (count : M unit) : quiet count -> quiet (book report count).
Proof.
  intros Hc. apply quiet_attempt; [apply quiet_report|]. intros _. apply quiet_bind; [done|]. intros _. apply quiet_ret.
Qed.
Lemma book_result report (count : M (W := W) unit) s s' report' : book report count s = (s', Ok report') -> report' = report.
Proof.
  unfold book, attempt, mbind, St_bind, pass. destruct (applyOrderReport report s) as [s1 [[]|]]; [|done].
  destruct (count s1) as [s2 []]. by intros [= _ <-].
Qed.
Lemma quiet_release r previous : quiet (publish_release r previous).
Proof. apply quiet_bind; [apply quiet_publish|]. intros _. apply quiet_publish. Qed.
Lemma quiet_cache order : quiet (cacheSubmit order).
Proof. intros e w. unfold cacheSubmit. by destruct (CacheSubmitCommand _ _). Qed.
#[local] Hint Resolve quiet_ret quiet_bind quiet_attempt quiet_report quiet_publish quiet_book quiet_release quiet_cache : go.

(** ** One submission *)

(** The venues after at most one order was sent: none, or a valid one to the client of its account. *)
Definition sent e w order w' : Prop :=
  w' = w \/ exists client, en_clients e !! so_AccountID order = Some client /\ SubmitOrder_Validate order = Ok tt /\
    w' = (cl_SubmitOrder client w order).1.

Lemma submit_plain_spec e w order :
  md_ExecAlgorithmID (so_Metadata order) = "" ->
  let '((e', w'), result) := submit_plain order (e, w) in
  sent e w order w' /\ same_routes e e' /\ en_emulator e' = en_emulator e /\
  (SubmitOrder_Validate order ≠ Ok tt \/ en_clients e !! so_AccountID order = None -> w' = w /\ is_ok result = false) /\
  (forall report, result = Ok report -> exists client, en_clients e !! so_AccountID order = Some client /\
     cl_SubmitOrder client w order = (w', Ok report)).
Proof.
  intros Ha. unfold submit_plain. rewrite Ha. simpl. unfold attempt at 1. unfold mbind at 1, St_bind at 1, cacheSubmit, CacheSubmitCommand.
  destruct (SubmitOrder_Validate order) as [[]|err] eqn:V.
  2:{ simpl. split_and!; try done; by left. }
  set (e1 := e <| en_manager := _ |>).
  assert (H1 : same_routes e e1 /\ en_emulator e1 = en_emulator e) by done. clearbody e1. destruct H1 as [Hr1 He1].
  unfold attempt at 1, mbind at 1, St_bind at 1, client_for. destruct Hr1 as (Hc & Hal & Hcl). rewrite Hc.
  destruct (en_clients e !! so_AccountID order) as [client|] eqn:Ec.
  2:{ simpl. split_and!; try done; by left. }
  unfold attempt at 1, mbind at 1, St_bind at 1, call. simpl. destruct (cl_SubmitOrder client w order) as [w1 [report|err]] eqn:Es.
  - pose proof (quiet_book report (addSubmits 1) (proj1 (quiet_count 1)) e1 w1) as Hq.
    destruct (book report (addSubmits 1) (e1, w1)) as [[e2 w2] result] eqn:Eb. destruct Hq as (Hr2 & He2 & ->). split_and!.
    + right. exists client. by rewrite Es.
    + etrans; [|exact Hr2]. by split_and!.
    + by rewrite He2.
    + intros [?|?]; done.
    + intros report' ->. exists client. split; [done|]. by rewrite Es, (book_result _ _ _ _ _ Eb).
  - simpl. split; [right; exists client; by rewrite Es|]. split; [by split_and!|]. split; [done|].
    split; [by intros [?|?] | by intros ? [=]].
Qed.

Lemma emulate_world {A} (f : Emulator -> Emulator * A) (a : A) e w :
  let '((e', w'), _) := emulate f a (e, w) in same_routes e e' /\ w' = w.
Proof.
  unfold emulate. destruct (emulator_of e) as [em|]; [|done]. by destruct (f em) as [em' x].
Qed.

Lemma submit_release_order em order em' release result :
  Emulator_SubmitOrder em order = (em', Some release, result) ->
  exists order', release = released order' /\ key_of order' = key_of order /\ so_Metadata order' = so_Metadata order /\
    so_InstrumentID order' = so_InstrumentID order /\ so_Side order' = so_Side order /\
    so_Quantity order' = so_Quantity order.
Proof.
  unfold Emulator_SubmitOrder. destruct (TriggerType_IsActive _); simpl; [|done].
  destruct (SubmitOrder_Validate order); [|done]. destruct (CacheSubmitCommand _ _) as [m [[]|]]; [|done].
  destruct (latestMarketEvent _ order) as [event|].
  2:{ cbv zeta. by destruct (report_all _ _) as [? [[]|]]. }
  cbv zeta. match goal with |- context [evaluateOrder ?c ?t ?k ?o ?ev] => set (v := evaluateOrder c t k o ev) end.
  assert (Hv : key_of (vl_order v) = key_of order /\ so_Metadata (vl_order v) = so_Metadata order /\
    so_InstrumentID (vl_order v) = so_InstrumentID order /\ so_Side (vl_order v) = so_Side order /\
    so_Quantity (vl_order v) = so_Quantity order).
  { unfold v, evaluateOrder, evaluateTrailingOrder, trail_order.
    destruct (isTrailingStop _); [|done]. destruct (IsPositive _); simpl; [|done].
    destruct (trailingRange order event) as [[fav adv]|]; [|done].
    destruct (el_trailing em !! _); [|destruct (_ && _); [done|]].
    all: destruct (so_Side order ≟ OrderSideSell); [destruct (GreaterThan _ _)|
        destruct (so_Side order ≟ OrderSideBuy); [destruct (LessThan _ _)|]];
        try destruct (emulator_trailingOffsetPrice _ _ _); done. }
  destruct (vl_triggered v).
  - destruct (report_all _ _) as [? [[]|]]; intros [= _ <- _]; exists (vl_order v); by destruct_and!.
  - by destruct (report_all _ _) as [? [[]|]].
Qed.

Lemma released_plain order : let plain := rl_Order (released order) in
  TriggerType_IsActive (so_EmulationTrigger plain) = false /\ key_of plain = key_of order /\
  so_Metadata plain = so_Metadata order /\ so_InstrumentID plain = so_InstrumentID order /\
  so_Side plain = so_Side order /\ so_Quantity plain = so_Quantity order.
Proof. unfold released, emulatedReleaseFromSubmit, transformReleasedOrder, set. simpl. by destruct (so_Type order). Qed.


(** ** The releases of a market event *)

Lemma submit_releases_spec releases : forall e w,
  Forall (fun r => md_ExecAlgorithmID (so_Metadata (rl_Order r)) = "") releases ->
  let '((e', w'), (reports, err)) := submit_releases releases (e, w) in
  same_routes e e' /\ en_emulator e' = en_emulator e /\
  (err = None -> length reports = length releases) /\
  (err ≠ None -> exists done failed dropped e1 w1,
     releases = done ++ failed :: dropped /\ length reports = length done /\ same_routes e e1 /\
     is_ok (submit_plain (rl_Order failed) (e1, w1)).2 = false /\
     w' = (submit_plain (rl_Order failed) (e1, w1)).1.2).
Proof.
  induction releases as [|r releases IH]; intros e w Hall; [done|].
  apply Forall_cons in Hall as [Hr Hall]. cbn [submit_releases].
  unfold mbind at 1, St_bind at 1. pose proof (quiet_release r OrderStatusEmulated e w) as Hq.
  destruct (publish_release r OrderStatusEmulated (e, w)) as [[e1 w1] []]. destruct Hq as (Hr1 & He1 & ->).
  unfold mbind at 1, St_bind at 1. pose proof (submit_plain_spec e1 w (rl_Order r) Hr) as Hs.
  destruct (submit_plain (rl_Order r) (e1, w)) as [[e2 w2] [report|err]] eqn:Es; destruct Hs as (_ & Hr2 & He2 & _).
  - unfold mbind at 1, St_bind at 1. specialize (IH e2 w2 Hall).
    destruct (submit_releases releases (e2, w2)) as [[e3 w3] [reports err]]. destruct IH as (Hr3 & He3 & Hn & Hf). simpl.
    split_and!; [by do 2 (etrans; [eassumption|]) | by rewrite He3, He2, He1 | intros E; simpl; by rewrite Hn |].
    intros E. destruct (Hf E) as (dn & failed & dropped & e4 & w4 & -> & Hl & Hr4 & Hfail & Hw).
    exists (r :: dn), failed, dropped, e4, w4. split_and!; try done; [simpl; by rewrite Hl | by do 2 (etrans; [eassumption|])].
  - simpl. split_and!; [by etrans | by rewrite He2 | done |]. intros _. exists [], r, releases, e1, w. rewrite Es. done.
Qed.


Lemma market_gtd_invalid order :
  so_Type order = OrderTypeMarket -> so_TimeInForce order = TimeInForceGTD -> SubmitOrder_Validate order ≠ Ok tt.
Proof.
  intros Ht Hg H. unfold SubmitOrder_Validate in H. rewrite Ht, Hg in H. peel H.
  match goal with E : _ && _ = false |- _ => discriminate E end.
Qed.


(** ** Reports of a venue *)

Lemma keep_reports_spec {A} (wanted : A -> bool) (put : A -> M (W := W) (res unit)) reports : forall s,
  let '(_, (kept, err)) := keep_reports wanted put reports s in
  kept `prefix_of` List.filter wanted reports /\ (err = None -> kept = List.filter wanted reports).
Proof.
  induction reports as [|x reports IH]; intros s; simpl; [done|]. destruct (wanted x); simpl; [|apply IH].
  unfold mbind at 1, St_bind at 1. destruct (put x s) as [s1 [[]|err]].
  - unfold mbind at 1, St_bind at 1. specialize (IH s1). destruct (keep_reports wanted put reports s1) as [s2 [kept err]].
    destruct IH as [Hp He]. simpl. split; [by apply prefix_cons|]. intros E. by rewrite He.
  - simpl. split; [apply prefix_nil|done].
Qed.

Lemma filter_fmap_same {A} (f : A -> A) (g : A -> bool) (l : list A) :
  (forall x, g (f x) = g x) -> List.filter g (f <$> l) = f <$> List.filter g l.
Proof.
  intros Hg. induction l as [|x l IH]; [done|]. rewrite fmap_cons. cbn [List.filter]. rewrite Hg, IH. by destruct (g x).
Qed.

(** The strategy an order of the venue is booked under. *)
Definition claimed_strategy e report : StrategyID :=
  if (md_StrategyID (or_Metadata report) ≠? "") || (or_ClientOrderID report ≠? "") then md_StrategyID (or_Metadata report)
  else if default "" (en_externalClaims e !! or_InstrumentID report) ≟ "" then "EXTERNAL"
       else default "" (en_externalClaims e !! or_InstrumentID report).

(** The order reports a venue generates are returned, and booked, in the venue's order: those of the account
    and instrument asked for that have the order ids asked for, all of them unless one cannot be booked, then those
    before it.  An order without strategy and client order id, which is not one of ours, is booked under the
    strategy that claimed its instrument, or as external; every other report is as the venue sent it. *)
Theorem reports_claimed e w (command : GenerateOrderStatusReports) client reports :
  GenerateOrderStatusReports_Validate command = Ok tt -> en_clients e !! go_AccountID command = Some client ->
  (cl_GenerateOrderStatusReports client w (go_InstrumentID command)).2 = Ok reports ->
  let '(_, (kept, err)) := Engine_GenerateOrderStatusReports command (e, w) in
  let wanted := List.filter (fun report => matchesOrderReportCommand report command) reports in
  let claimed := claimExternalOrderReport e <$> wanted in
  kept `prefix_of` claimed /\ (err = None -> kept = claimed) /\
  (forall report, report ∈ kept ->
     or_AccountID report = go_AccountID command /\ or_InstrumentID report = go_InstrumentID command /\
     (md_StrategyID (or_Metadata report) ≠ "" \/ or_ClientOrderID report ≠ "")) /\
  (forall report, md_StrategyID (or_Metadata (claimExternalOrderReport e report)) = claimed_strategy e report /\
     claimExternalOrderReport e report =
       report <| or_Metadata := or_Metadata (claimExternalOrderReport e report) |>).
Proof.
  intros V Hc Hg. unfold Engine_GenerateOrderStatusReports. rewrite V.
  unfold mbind at 1, St_bind at 1, client_for. rewrite Hc. unfold mbind at 1, St_bind at 1, call. simpl.
  destruct (cl_GenerateOrderStatusReports client w (go_InstrumentID command)) as [w1 r]. simpl in Hg. subst r.
  unfold mbind at 1, St_bind at 1, get. simpl.
  assert (Hf : List.filter (fun report => matchesOrderReportCommand report command) (claimExternalOrderReport e <$> reports) =
    claimExternalOrderReport e <$> List.filter (fun report => matchesOrderReportCommand report command) reports).
  { assert (Hone : forall x : OrderStatusReport, matchesOrderReportCommand (claimExternalOrderReport e x) command = matchesOrderReportCommand x command).
    { intros x. unfold claimExternalOrderReport. by destruct (_ || _). }
    by apply filter_fmap_same. }
  pose proof (keep_reports_spec (fun report => matchesOrderReportCommand report command) applyOrderReport
    (claimExternalOrderReport e <$> reports) (e, w1)) as Hk.
  destruct (keep_reports _ _ _ _) as [s [kept err]]. rewrite Hf in Hk. destruct Hk as [Hp He].
  split_and!; [done | done | |].
  - intros report Hin. destruct Hp as [rest Hrest].
    assert (Hin' : report ∈ claimExternalOrderReport e <$> List.filter (fun report => matchesOrderReportCommand report command) reports)
      by (rewrite Hrest; apply elem_of_app; by left).
    apply list_elem_of_fmap in Hin' as (r & -> & Hr). apply list_elem_of_In, filter_In in Hr as [_ Hm].
    unfold matchesOrderReportCommand in Hm. apply andb_true_iff in Hm as [Hm _]. do 2 apply andb_true_iff in Hm as [Hm _].
    apply andb_true_iff in Hm as [Ha Hi]. bools. unfold claimExternalOrderReport.
    destruct (md_StrategyID (or_Metadata r) ≠? "") eqn:E1; simpl; [bools; auto|].
    destruct (or_ClientOrderID r ≠? "") eqn:E2; simpl; [bools; auto|]. split_and!; try done. left.
    destruct (default "" _ ≟ "") eqn:E3; bools; done.
  - intros report. unfold claimExternalOrderReport, claimed_strategy. destruct (_ || _); [by destruct report|].
    split; [|done]. simpl. by case_match.
Qed.
End facts.
