(* ===== verification/ExecEngineCache.v ===== *)
(** * What the execution engine does to the cache

    Without an emulator and without deferred fills the operations on orders put orders into the
    cache and nothing else: neither fills nor positions. *)
From stdpp Require Import base gmap sets list strings.
From S2P Require Import Prelude Decimals Enums Identifiers Orders Market Accounts OrderLists Cache CacheFacts Reconciler.
From S2P Require Import ExecManager ExecManagerFacts Emulator ExecEngine.

Open Scope go_scope.

(** ** Caches that differ by reference data, accounts, market data and orders *)

Section touched.
Context {DD : Decimal}.
Implicit Types (c : Cache).

Definition order_op (op : CacheOp) : Prop :=
  match op with
  | OpInstrument _ | OpSynthetic _ | OpAccount _ | OpOrder _ | OpMarket _ => True
  | _ => False
  end.
Definition touched c c' : Prop := exists ops, Forall order_op ops /\ c' = run_ops c ops.

#[global] Instance touched_po : PreOrder touched.
Proof.
  split; [intros c; by exists []|]. intros c1 c2 c3 (ops & H & ->) (ops' & H' & ->).
  exists (ops ++ ops'). split; [by apply Forall_app|]. unfold run_ops. by rewrite foldl_app.
Qed.
Lemma touched_op c op : order_op op -> touched c (run_op c op).
Proof. intros H. exists [op]. split; [by constructor | done]. Qed.
Lemma touched_PutOrder c r c' : PutOrder c r = Ok c' -> touched c c'.
Proof. intros H. pose proof (touched_op c (OpOrder r) I) as Ht. simpl in Ht. by rewrite H in Ht. Qed.

Lemma touched_keeps {P : Cache -> Prop} : (forall c op, order_op op -> P c -> P (run_op c op)) ->
  forall c c', touched c c' -> P c -> P c'.
Proof.
  intros Hop c c' (ops & H & ->). revert c. induction H as [|op ops Ho H IH]; intros c Hc; [done|].
  apply (IH (run_op c op)). by apply Hop.
Qed.
Lemma touched_cok c c' : touched c c' -> cok c -> cok c'.
Proof. apply touched_keeps. intros. by apply run_op_cok. Qed.
Lemma touched_rest c c' : touched c c' -> same_rest c c'.
Proof.
  intros H. apply (touched_keeps (P := same_rest c) ltac:(intros d op Ho Hd; etrans; [exact Hd|];
    pose proof (run_op_same_rest d op); by destruct op) c c' H). reflexivity.
Qed.
Lemma touched_deferred c c' : touched c c' -> c_deferredFills c' = c_deferredFills c.
Proof.
  intros H. apply (touched_keeps (P := fun d => c_deferredFills d = c_deferredFills c)) with (c := c) (c' := c'); [|done..].
  intros d op Ho Hd. rewrite <- Hd. pose proof (run_op_same_deferred d op). by destruct op.
Qed.

Lemma touched_replay a o fills : forall c, touched c (replay c a o fills).1.
Proof.
  induction fills as [|f fills IH]; intros c; simpl; [reflexivity|]. destruct (cache_Order c a o); [|reflexivity].
  destruct (PutOrder _ _) as [c1|] eqn:E; [|reflexivity]. etrans; [by eapply touched_PutOrder | apply IH].
Qed.
Lemma touched_applyOrder c r : touched c (applyOrder c r).1.
Proof.
  unfold applyOrder. cbv zeta. destruct (match cache_Order c _ _ with Some _ => _ | None => _ end); [|reflexivity].
  destruct (PutOrder _ _) as [c1|] eqn:E; [|reflexivity]. apply touched_PutOrder in E.
  destruct (IsZero _); [|done]. etrans; [exact E | apply touched_replay].
Qed.
(** An event that brings neither a fill nor a position. *)
Lemma touched_Apply c e : ee_Fill e = None -> ee_Position e = None -> touched c (Apply c e).1.
Proof.
  intros Hf Hp. unfold Apply. rewrite Hf, Hp. destruct (ExecutionEvent_Validate e); [|reflexivity].
  destruct (ee_Account e) as [x|]; [exact (touched_op c (OpAccount x) I)|].
  destruct (ee_Order e); [apply touched_applyOrder | reflexivity].
Qed.
End touched.

(** ** The operations of the engine *)

Section engine.
Context {DD : Decimal} {W : Type}.
Implicit Types (e : Engine (W := W)) (w : W).

Definition plain e : Prop := en_emulator e = None /\ c_deferredFills (en_cache e) = ∅.
Definition steady e e' : Prop := plain e -> plain e' /\ touched (en_cache e) (en_cache e').
#[global] Instance steady_po : PreOrder steady.
Proof.
  split; [by intros e|]. intros e1 e2 e3 H1 H2 H. destruct (H1 H) as [Ha Hb], (H2 Ha) as [Hc Hd].
  split; [done | by etrans].
Qed.
Lemma steady_same e e' : en_emulator e' = en_emulator e -> en_cache e' = en_cache e -> steady e e'.
Proof. intros E1 E2 [H1 H2]. unfold plain. by rewrite E1, E2. Qed.

Definition settles {A} (m : M (W := W) A) : Prop := forall e w, steady e (m (e, w)).1.1.

Lemma settles_ret {A} (a : A) : settles (mret a).
Proof. intros e w. reflexivity. Qed.
Lemma settles_bind {A B} (m : M A) (f : A -> M B) : settles m -> (forall a, settles (f a)) -> settles (mbind f m).
Proof.
  intros Hm Hf e w. unfold mbind, St_bind. specialize (Hm e w). destruct (m (e, w)) as [[e1 w1] a].
  etrans; [exact Hm | apply Hf].
Qed.
Lemma settles_attempt {A B} (m : M (res A)) (f : A -> M (res B)) :
  settles m -> (forall a, settles (f a)) -> settles (attempt m f).
Proof. intros Hm Hf. apply settles_bind; [done|]. intros [a|err]; [apply Hf | apply settles_ret]. Qed.
Lemma settles_pass {A} (r : res A) : settles (pass r).
Proof. apply settles_ret. Qed.
Lemma settles_get : settles get.
Proof. intros e w. reflexivity. Qed.
Lemma settles_call {A} (f : W -> W * A) : settles (call f).
Proof. intros e w. unfold call. simpl. destruct (f w). reflexivity. Qed.
Lemma settles_modify f : (forall e, steady e (f e)) -> settles (modify_engine f).
Proof. intros H e w. apply H. Qed.
Lemma settles_count n : settles (addSubmits n) /\ settles (addCancels n) /\ settles (addModifies n) /\ settles (addQueries n).
Proof. split_and!; apply settles_modify; intros e; by apply steady_same. Qed.
Lemma settles_publish report kind previous reason : settles (publishOrderLifecycle report kind previous reason).
Proof. apply settles_modify. intros e. by apply steady_same. Qed.
Lemma settles_client a : settles (client_for a).
Proof. intros e w. reflexivity. Qed.
Lemma settles_algorithm id : settles (algorithm_for id).
Proof. intros e w. reflexivity. Qed.

Lemma settles_report report : settles (applyOrderReport report).
Proof.
  intros e w [He Hd]. unfold applyOrderReport, ApplyOrderReport, plain.
  destruct (OrderStatusReport_Validate _); [|done].
  destruct (match cache_Order _ _ _ with Some _ => _ | None => _ end); [|done].
  change (em_cache (en_manager e)) with (en_cache e).
  destruct (PutOrder _ _) as [c1|] eqn:E; [|done]. apply touched_PutOrder in E.
  pose proof (touched_deferred _ _ E) as Hd1. rewrite Hd in Hd1. unfold replayDeferredFills, DeferredFillsForOrder. simpl.
  rewrite Hd1, get2_empty. simpl. split; [|exact E]. split; [exact He | exact Hd1].
Qed.
Lemma settles_book report (count : M unit) : settles count -> settles (book report count).
Proof.
  intros Hc. apply settles_attempt; [apply settles_report|]. intros _. apply settles_bind; [done|]. intros _. apply settles_ret.
Qed.
Lemma settles_cache order : settles (cacheSubmit order).
Proof.
  intros e w. unfold cacheSubmit, CacheSubmitCommand. destruct (SubmitOrder_Validate _); by apply steady_same.
Qed.
(** There is no emulator to run. *)
Lemma settles_emulate {A} (em : Emulator -> Emulator * A) (otherwise : A) : settles (emulate em otherwise).
Proof. intros e w [He Hd]. unfold emulate, emulator_of. rewrite He. simpl. by split. Qed.
#[local] Hint Resolve settles_ret settles_pass settles_get settles_call settles_publish settles_client settles_algorithm
  settles_report settles_cache settles_emulate : settles.
#[local] Hint Extern 1 (settles (addSubmits _)) => apply settles_count : settles.
#[local] Hint Extern 1 (settles (addCancels _)) => apply settles_count : settles.
#[local] Hint Extern 1 (settles (addModifies _)) => apply settles_count : settles.
#[local] Hint Extern 1 (settles (addQueries _)) => apply settles_count : settles.

Ltac settles :=
  repeat match goal with
  | |- settles (attempt _ _) => apply settles_attempt; [|intros ?]
  | |- settles (mbind _ _) => apply settles_bind; [|intros ?]
  | |- settles (book _ _) => apply settles_book
  | |- settles (match ?x with _ => _ end) => destruct x
  end; auto with settles.

Lemma settles_AddClient client : settles (AddClient client).
Proof. intros e w. unfold AddClient. case_match; by apply steady_same. Qed.
Lemma settles_submit_plain order : settles (submit_plain order).
Proof. unfold submit_plain, submitOrderToAlgorithm. settles. Qed.
Lemma settles_SubmitOrder order : settles (Engine_SubmitOrder order).
Proof.
  unfold Engine_SubmitOrder. destruct (TriggerType_IsActive _); [|apply settles_submit_plain].
  unfold submitOrderToEmulator. intros e w [He Hd]. unfold mbind, St_bind, get. cbn [fst snd]. rewrite He. by split.
Qed.
Lemma settles_CancelOrder cancel : settles (Engine_CancelOrder cancel).
Proof. unfold Engine_CancelOrder, cancelEmulatedOrder. settles. Qed.
Lemma settles_publish_release r previous : settles (publish_release r previous).
Proof. unfold publish_release. settles. Qed.
#[local] Hint Resolve settles_submit_plain settles_publish_release : settles.
Lemma settles_ModifyOrder modify : settles (Engine_ModifyOrder modify).
Proof. unfold Engine_ModifyOrder. settles. Qed.
Lemma settles_keep {A} (wanted : A -> bool) (put : A -> M (res unit)) reports :
  (forall x, settles (put x)) -> settles (keep_reports wanted put reports).
Proof. intros H. induction reports as [|x l IH]; simpl; settles. Qed.
Lemma settles_QueryOrder query : settles (Engine_QueryOrder query).
Proof.
  unfold Engine_QueryOrder, queryOrderFromReports, Engine_GenerateOrderStatusReports. settles.
  all: apply settles_keep; intros ?; apply settles_report.
Qed.
End engine.
