(* ===== verification/OrderListProgress.v ===== *)
(** * Correctness of order-list progress

    The execution manager holds the children of an order back until it is filled, cancels
    the siblings of a filled one-cancels-other order, and reduces those of a one-updates-other
    order by what it fills. *)
From stdpp Require Import base gmap list strings sorting relations.
From Stdlib Require Import QArith Qabs Qminmax Lqa.
From S2P Require Import Prelude Decimals Enums Identifiers Orders OrderLists Cache CacheFacts ExecManager ExecManagerFacts.

Open Scope go_scope.

#[local] Arguments Qplus : simpl never.
#[local] Arguments Qminus : simpl never.

Section facts.
Context {DD : Decimal} {DL : DecimalLaws DD}.
Implicit Types (m : Manager) (order r sibling : OrderStatusReport) (l : OrderList).

(** ** All held children *)

Definition join_values {K A} `{Countable K} (g : gmap K (list A)) : list A := mjoin (map_values g).

Section join_values.
Context {K A : Type} `{Countable K}.
Implicit Types (g : gmap K (list A)) (k : K).

Lemma join_delete g k : join_values g ≡ₚ default [] (g !! k) ++ join_values (delete k g).
Proof.
  destruct (g !! k) as [x|] eqn:E; simpl.
  - unfold join_values, map_values. by rewrite <- (map_to_list_delete g k x E).
  - by rewrite delete_id.
Qed.

Lemma join_insert g k x : join_values (<[k := x]> g) ≡ₚ x ++ join_values (delete k g).
Proof.
  rewrite <- insert_delete_eq. unfold join_values, map_values.
  by rewrite map_to_list_insert by by rewrite lookup_delete_eq.
Qed.

Lemma join_imap (f : K -> list A -> option (list A)) g :
  (forall k x y, f k x = Some y -> y ⊆+ x) -> join_values (map_imap f g) ⊆+ join_values g.
Proof.
  intros Hf. induction g as [|k x g Hk IH] using map_ind.
  { by rewrite map_imap_empty. }
  rewrite map_imap_insert, join_insert. rewrite (delete_id g k Hk).
  assert (Hn : map_imap f g !! k = None) by (by rewrite map_lookup_imap, Hk).
  destruct (f k x) as [y|] eqn:E.
  - rewrite join_insert, delete_id by done. by apply submseteq_app; [eapply Hf|].
  - rewrite delete_id by done. etrans; [exact IH|]. apply submseteq_inserts_l. done.
Qed.
End join_values.

Definition all_held m : list SubmitOrder := join_values (em_heldChildren m).

Lemma drop_held_join m r : all_held m ≡ₚ held m (or_AccountID r, or_ClientOrderID r) ++ all_held (drop_held m r).
Proof. unfold all_held, held. rewrite (join_delete _ (or_AccountID r, or_ClientOrderID r)). done. Qed.

Lemma filter_submseteq {A} (f : A -> bool) (x : list A) : List.filter f x ⊆+ x.
Proof.
  induction x as [|y x IH]; simpl; [done|]. destruct (f y); [by apply submseteq_skip|]. by apply submseteq_cons.
Qed.

Lemma cleanup_held m a id : all_held (cleanupClosedOrderList m a id) ⊆+ all_held m.
Proof.
  unfold cleanupClosedOrderList. case_match; [done|]. case_match; [|done]. case_match; [done|].
  unfold all_held. simpl. apply join_imap. intros [k1 k2] x y. destruct (k1 ≠? a); [by intros [= <-]|].
  destruct (List.filter _ x) eqn:E; [done|]. intros [= <-]. rewrite <- E. apply filter_submseteq.
Qed.

(** ** One report of progress *)

(** The manager after the children of a closed order are dropped. *)
Definition after_drop m r : Manager :=
  if OrderStatus_IsTerminal (or_Status r) && (or_Status r ≠? OrderStatusFilled) then drop_held m r else m.

Definition is_ouo r : bool := (or_OrderListID r ≠? "") && (or_Contingency r ≟ ContingencyTypeOUO).
Definition is_oco r : bool := (or_OrderListID r ≠? "") && (or_Contingency r ≟ ContingencyTypeOCO).
Definition list_members m r : list ClientOrderID := members m (or_AccountID r, or_OrderListID r).

Definition ouo_part m r : Manager * OrderListActions :=
  if is_ouo r then handleOuoProgress (after_drop m r) r (list_members m r) else (after_drop m r, no_actions).

Lemma handleOuo_held m r ms : em_heldChildren (handleOuoProgress m r ms).1 = em_heldChildren m.
Proof. unfold handleOuoProgress. cbv zeta. by repeat case_match. Qed.

Lemma ouo_step_submit m r d acts id : la_Submit (ouo_sibling m r d acts id) = la_Submit acts.
Proof. unfold ouo_sibling. cbv zeta. by repeat case_match. Qed.

Lemma ouo_submit m r ms : la_Submit (handleOuoProgress m r ms).2 = [].
Proof.
  unfold handleOuoProgress. cbv zeta. case_match; [done|]. case_match; [done|]. simpl.
  assert (Hs : forall m' d acts, la_Submit (foldl (ouo_sibling m' r d) acts ms) = la_Submit acts).
  { intros m' d. induction ms as [|id ms IH]; intros acts; [done|]. simpl. by rewrite IH, ouo_step_submit. }
  by rewrite Hs.
Qed.

Lemma ouo_part_held m r : em_heldChildren (ouo_part m r).1 = em_heldChildren (after_drop m r).
Proof. unfold ouo_part. case_match; [apply handleOuo_held|done]. Qed.

Lemma ouo_part_submit m r : la_Submit (ouo_part m r).2 = [].
Proof. unfold ouo_part. case_match; [apply ouo_submit|done]. Qed.

(** [progress_actions], with its parts named. *)
Lemma progress_eq m r :
  let '(m1, acts) := ouo_part m r in
  progress_actions m r =
    if or_Status r ≠? OrderStatusFilled then (m1, acts)
    else (drop_held m1 r,
          mkOrderListActions (held m1 (or_AccountID r, or_ClientOrderID r)) (la_Modify acts)
            (la_Cancel acts ++ if is_oco r then oco_cancels (drop_held m1 r) r (list_members m r) else [])).
Proof.
  pose proof (ouo_part_submit m r) as Hs. destruct (ouo_part m r) as [m1 acts] eqn:E. simpl in Hs.
  unfold progress_actions. fold (after_drop m r) (list_members m r) (is_ouo r) (ouo_part m r). cbv zeta.
  change (if is_ouo r then handleOuoProgress (after_drop m r) r (list_members m r) else (after_drop m r, no_actions))
    with (ouo_part m r). rewrite E. case_match; [done|]. rewrite Hs. simpl. unfold is_oco.
  destruct (or_OrderListID r ≟ ""); simpl; [by rewrite app_nil_r|].
  destruct (or_Contingency r ≟ ContingencyTypeOCO); simpl; [done|]. by rewrite app_nil_r.
Qed.

Lemma progress_held m r :
  la_Submit (progress_actions m r).2 ++ all_held (progress_actions m r).1 ⊆+ all_held m.
Proof.
  pose proof (progress_eq m r) as H. pose proof (ouo_part_held m r) as Hh. pose proof (ouo_part_submit m r) as Hs.
  destruct (ouo_part m r) as [m1 acts]. rewrite H. simpl in Hh, Hs.
  assert (Hm1 : all_held m1 ⊆+ all_held m).
  { unfold all_held at 1. rewrite Hh. unfold after_drop. destruct (OrderStatus_IsTerminal _ && _); [|reflexivity].
    change (join_values _) with (all_held (drop_held m r)). rewrite (drop_held_join m r). by apply submseteq_inserts_l. }
  case_match; simpl; [by rewrite Hs|]. etrans; [|exact Hm1]. by rewrite (drop_held_join m1 r).
Qed.

Lemma progress_submits_held m r :
  OrderStatusReport_Validate r = Ok tt ->
  exists acts, (HandleOrderListProgress m r).2 = Ok acts /\
    la_Submit acts ++ all_held (HandleOrderListProgress m r).1 ⊆+ all_held m.
Proof.
  intros V. unfold HandleOrderListProgress. rewrite V. pose proof (progress_held m r) as H.
  destruct (progress_actions m r) as [m1 acts]. simpl in *. exists acts. split; [done|]. etrans; [|exact H].
  apply submseteq_app; [done|]. case_match; [apply cleanup_held|done].
Qed.

(** ** Every sequence of operations *)

(** The orders a list holds back. *)
Definition children l : list SubmitOrder := List.filter (fun o => so_ParentClientOrderID o ≠? "") (ol_Orders l).

(** What an operation adds to the held children, and what it asks to submit. *)
Definition indexes m (op : ManagerOp) : list SubmitOrder :=
  match op with MList l => if is_ok (OrderList_Validate l) then children l else [] | _ => [] end.
Definition submits m (op : ManagerOp) : list SubmitOrder :=
  match op with
  | MProgress r => match (HandleOrderListProgress m r).2 with Ok acts => la_Submit acts | Fail _ => [] end
  | _ => []
  end.

Fixpoint collect (g : Manager -> ManagerOp -> list SubmitOrder) m (ops : list ManagerOp) : list SubmitOrder :=
  match ops with [] => [] | op :: ops => g m op ++ collect g (run_mop m op) ops end.

Lemma index_list_held kind orders : forall m,
  all_held (foldl (index_list_order kind) m orders) ≡ₚ
  all_held m ++ List.filter (fun o => so_ParentClientOrderID o ≠? "") orders.
Proof.
  induction orders as [|o orders IH]; intros m; simpl; [by rewrite app_nil_r|]. rewrite IH.
  unfold index_list_order. cbv zeta. case_bool_decide; simpl; [done|].
  unfold all_held at 1. simpl. rewrite join_insert. unfold held. simpl.
  unfold all_held. rewrite (join_delete (em_heldChildren m) (so_AccountID o, so_ParentClientOrderID o)).
  set (x := default [] _). set (y := join_values (delete _ _)). set (z := List.filter _ orders). 
  rewrite <- !app_assoc. f_equiv. simpl. rewrite (Permutation_app_comm y). rewrite (Permutation_middle z y o).
  solve_Permutation.
Qed.

Lemma replay_fills_keeps_held fs m : em_heldChildren (replay_fills m fs).1 = em_heldChildren m.
Proof.
  revert m. induction fs as [|f fs IH]; intros m; [done|]. simpl.
  assert (H : em_heldChildren (ApplyFill m f).1.1 = em_heldChildren m).
  { unfold ApplyFill. cbv zeta. by repeat case_match. }
  destruct (ApplyFill m f) as [[m1 b] [[]|e]]; [by rewrite IH|done].
Qed.

Lemma run_mop_held m op : submits m op ++ all_held (run_mop m op) ⊆+ all_held m ++ indexes m op.
Proof.
  assert (Hsame : forall m', em_heldChildren m' = em_heldChildren m -> all_held m' ⊆+ all_held m ++ []).
  { intros m' E. rewrite app_nil_r. unfold all_held. by rewrite E. }
  destruct op; simpl; try apply Hsame.
  - unfold ApplyOrderReport. destruct (OrderStatusReport_Validate r); [|done].
    destruct (match cache_Order _ _ _ with Some _ => _ | None => _ end); [|done].
    destruct (PutOrder (em_cache m) r) as [c1|]; [|done]. unfold replayDeferredFills. destruct (DeferredFillsForOrder _ _ _) as [|f fs]; [done|].
    pose proof (replay_fills_keeps_held (f :: fs) (m <| em_cache := c1 |>)) as H2.
    by destruct (replay_fills _ (f :: fs)) as [m2 [[]|e]].
  - unfold ApplyFill. cbv zeta. by repeat case_match.
  - done.
  - unfold CacheSubmitCommand. by case_match.
  - unfold PopSubmitCommand. by case_match.
  - unfold IndexOrderList. destruct (OrderList_Validate l); simpl; [by rewrite index_list_held|by rewrite app_nil_r].
  - unfold DeterminePositionID. by repeat case_match.
  - rewrite app_nil_r. destruct (OrderStatusReport_Validate r) as [[]|e] eqn:V.
    + destruct (progress_submits_held m r V) as (acts & -> & H). exact H.
    + unfold HandleOrderListProgress. by rewrite V.
Qed.

Lemma collect_held ops m :
  collect submits m ops ++ all_held (run_mops m ops) ⊆+ all_held m ++ collect indexes m ops.
Proof.
  revert m. induction ops as [|op ops IH]; intros m; simpl; [by rewrite app_nil_r|].
  rewrite <- app_assoc. etrans; [apply submseteq_app; [done|apply IH]|]. rewrite app_assoc.
  etrans; [apply submseteq_app; [apply run_mop_held|done]|]. by rewrite app_assoc.
Qed.

(** C23: a held child is submitted at most once.  Over any sequence of operations of a new
    manager, the orders its actions ask to submit, together with those still held, are among the
    children of the lists that were indexed, each as often at most as it was indexed. *)
Theorem children_submitted_once c allow mode (ops : list ManagerOp) :
  let m := NewManager c allow mode in
  collect submits m ops ++ all_held (run_mops m ops) ⊆+ collect indexes m ops.
Proof. intros m. apply (collect_held ops m). Qed.

(** ** What the contingencies call for *)

(** The open orders of the list other than [r], in the order of its members. *)
Definition open_siblings m r : list OrderStatusReport :=
  omap (fun id => if (id ≟ "") || (id ≟ or_ClientOrderID r) then None else open_sibling m (or_AccountID r) id)
    (list_members m r).

(** The filled quantity the manager has seen of the order. *)
Definition recorded m r : D := default dzero (em_orderListFills m !! (or_AccountID r, or_OrderID r)).

(** What the report adds to it. *)
Definition fill_delta m r : D := dsub (or_FilledQuantity r) (recorded m r).

(** A sibling still has an unfilled quantity after giving up [delta]. *)
Definition reducible (delta : D) sibling : bool :=
  let next := dsub (or_Quantity sibling) delta in IsPositive next && LessThan (or_FilledQuantity sibling) next.

Lemma negb_LessThanOrEqual (x y : D) : LessThanOrEqual x y = negb (LessThan y x).
Proof.
  destruct (LessThan y x) eqn:E; simpl; [|dec].
  destruct (LessThanOrEqual x y) eqn:E'; [|done]. dec.
Qed.

Lemma ouo_fold m r delta ids : 0 < dval delta -> forall acts,
  let sibs := omap (fun id => if (id ≟ "") || (id ≟ or_ClientOrderID r) then None
                              else open_sibling m (or_AccountID r) id) ids in
  foldl (ouo_sibling m r delta) acts ids =
  mkOrderListActions (la_Submit acts)
    (la_Modify acts ++ ((fun s => reduce_to s (dsub (or_Quantity s) delta)) <$> List.filter (reducible delta) sibs))
    (la_Cancel acts ++ (cancel_of <$> List.filter (fun s => negb (reducible delta s)) sibs)).
Proof.
  intros Hd. induction ids as [|id ids IH]; intros acts sibs; subst sibs; simpl.
  { rewrite !app_nil_r. by destruct acts. }
  rewrite IH. unfold ouo_sibling. destruct ((id ≟ "") || (id ≟ or_ClientOrderID r)); [done|].
  destruct (open_sibling m (or_AccountID r) id) as [s|]; [|done]. simpl.
  rewrite negb_LessThanOrEqual. fold (reducible delta s). unfold reducible at 1. cbv zeta.
  destruct (IsPositive (dsub (or_Quantity s) delta)) eqn:E1; simpl.
  2: { assert (reducible delta s = false) as -> by (unfold reducible; cbv zeta; by rewrite E1). simpl. by rewrite <- app_assoc. }
  destruct (LessThan (or_FilledQuantity s) (dsub (or_Quantity s) delta)) eqn:E2; simpl.
  2: { assert (reducible delta s = false) as -> by (unfold reducible; cbv zeta; by rewrite E1, E2). simpl. by rewrite <- app_assoc. }
  assert (reducible delta s = true) as -> by (unfold reducible; cbv zeta; by rewrite E1, E2).
  assert (Equal (dsub (or_Quantity s) delta) (or_Quantity s) = false) as ->.
  { apply Equal_false. rewrite dval_sub. lra. }
  simpl. by rewrite <- app_assoc.
Qed.

Lemma after_drop_same m r :
  em_cache (after_drop m r) = em_cache m /\ em_orderListFills (after_drop m r) = em_orderListFills m.
Proof. unfold after_drop. by case_match. Qed.

Lemma open_sibling_eq m m' a id : em_cache m' = em_cache m -> open_sibling m' a id = open_sibling m a id.
Proof. intros H. unfold open_sibling. by rewrite H. Qed.

Lemma ouo_not_oco r : is_ouo r = true -> is_oco r = false.
Proof. unfold is_ouo, is_oco. intros [_ ->%bool_decide_eq_true]%andb_true_iff. by rewrite andb_false_r. Qed.

(** The actions of a one-updates-other order, and what is recorded of it. *)
Lemma handleOuo_spec m r m1 acts :
  handleOuoProgress (after_drop m r) r (list_members m r) = (m1, acts) ->
  if LessThan dzero (or_FilledQuantity r) && LessThan (recorded m r) (or_FilledQuantity r) then
    recorded m1 r = or_FilledQuantity r /\
    la_Modify acts = (fun s => reduce_to s (dsub (or_Quantity s) (fill_delta m r)))
                       <$> List.filter (reducible (fill_delta m r)) (open_siblings m r) /\
    la_Cancel acts = cancel_of <$> List.filter (fun s => negb (reducible (fill_delta m r) s)) (open_siblings m r)
  else recorded m1 r = recorded m r /\ la_Modify acts = [] /\ la_Cancel acts = [].
Proof.
  destruct (after_drop_same m r) as [Hc Hf]. unfold handleOuoProgress. cbv zeta. rewrite Hf. fold (recorded m r).
  assert (IsPositive (or_FilledQuantity r) = LessThan dzero (or_FilledQuantity r)) as ->.
  { destruct (LessThan _ _) eqn:E; dec. }
  destruct (LessThan dzero (or_FilledQuantity r)); simpl;
    [|intros [= <- <-]; unfold recorded; by rewrite Hf].
  rewrite negb_LessThanOrEqual. destruct (LessThan (recorded m r) (or_FilledQuantity r)) eqn:E; simpl;
    [|intros [= <- <-]; unfold recorded; by rewrite Hf].
  intros [= <- <-]. split; [unfold recorded; simpl; by rewrite lookup_insert_eq|].
  fold (fill_delta m r). rewrite ouo_fold by (unfold fill_delta; dec). simpl.
  assert (Hs : omap (fun id => if (id ≟ "") || (id ≟ or_ClientOrderID r) then None
      else open_sibling (after_drop m r <| em_orderListFills := <[(or_AccountID r, or_OrderID r):=or_FilledQuantity r]>
        (em_orderListFills m) |>) (or_AccountID r) id) (list_members m r) = open_siblings m r).
  { unfold open_siblings. apply list_omap_ext, Forall_Forall2_diag, Forall_true. intros id. case_match; [done|].
    by rewrite (open_sibling_eq m). }
  by rewrite Hs.
Qed.

(** Contingencies.  When a valid one-cancels-other order of a list is filled, the manager asks to
    cancel exactly its open siblings and to submit exactly its held children.  When a valid
    one-updates-other order reports a larger filled quantity than before, each open sibling
    is reduced by the difference if something of it is left to fill, and canceled
    otherwise; a report that adds nothing calls for nothing. *)
Theorem contingent_progress m r acts :
  OrderStatusReport_Validate r = Ok tt -> (HandleOrderListProgress m r).2 = Ok acts ->
  (is_oco r = true ->
     la_Modify acts = [] /\
     if or_Status r ≟ OrderStatusFilled then
       la_Submit acts = held m (or_AccountID r, or_ClientOrderID r) /\
       forall c, c ∈ la_Cancel acts <-> exists id s, id ∈ list_members m r /\ id <> or_ClientOrderID r /\
         OrderByClientID (em_cache m) (or_AccountID r) id = Some s /\ OrderStatus_IsOpen (or_Status s) = true /\
         c = cancel_of s
     else la_Submit acts = [] /\ la_Cancel acts = []) /\
  (is_ouo r = true ->
     let delta := fill_delta m r in
     if LessThan dzero (or_FilledQuantity r) && LessThan (recorded m r) (or_FilledQuantity r) then
       la_Modify acts = (fun s => reduce_to s (dsub (or_Quantity s) delta))
                          <$> List.filter (reducible delta) (open_siblings m r) /\
       la_Cancel acts = cancel_of <$> List.filter (fun s => negb (reducible delta s)) (open_siblings m r)
     else la_Modify acts = [] /\ la_Cancel acts = []).
Proof.
  intros V. unfold HandleOrderListProgress. rewrite V. pose proof (progress_eq m r) as H.
  pose proof (ouo_part_held m r) as Hh. destruct (ouo_part m r) as [m1 acts1] eqn:E.
  destruct (progress_actions m r) as [m2 acts2] eqn:Ep. simpl. intros [= <-]. split.
  - intros Ho. unfold ouo_part in E. assert (is_ouo r = false) as Hu.
    { destruct (is_ouo r) eqn:Hu; [|done]. by rewrite (ouo_not_oco r Hu) in Ho. }
    rewrite Hu in E. injection E as <- <-. simpl in Hh. rewrite Ho in H.
    destruct (or_Status r ≟ OrderStatusFilled) eqn:Ef; simpl in H; injection H as -> ->; [|done].
    split; [done|]. simpl. assert (after_drop m r = m) as ->.
    { unfold after_drop. rewrite Ef. simpl. by rewrite andb_false_r. }
    split; [done|]. intros c. unfold oco_cancels. rewrite list_elem_of_omap. split.
    + intros (id & Hid & Hc). case_bool_decide as Hne; [done|]. apply fmap_Some in Hc as (s & Hs & ->).
      unfold open_sibling in Hs. cbn [em_cache drop_held set set_em_heldChildren] in Hs.
      destruct (OrderByClientID _ _ _) as [s'|] eqn:Ec; [|done]. destruct (OrderStatus_IsOpen _) eqn:Eo; [|done].
      injection Hs as ->. by exists id, s.
    + intros (id & s & Hid & Hne & Hs & Hopen & ->). exists id. split; [done|]. rewrite bool_decide_eq_false_2 by done.
      unfold open_sibling. cbn [em_cache drop_held set set_em_heldChildren]. by rewrite Hs, Hopen.
  - intros Hu. cbv zeta. unfold ouo_part in E. rewrite Hu in E. pose proof (handleOuo_spec m r m1 acts1 E) as Hs.
    assert (is_oco r = false) as Ho by by apply ouo_not_oco.
    rewrite Ho in H. assert (la_Modify acts2 = la_Modify acts1 /\ la_Cancel acts2 = la_Cancel acts1) as [-> ->].
    { destruct (or_Status r ≠? OrderStatusFilled); injection H as -> ->; [done|]. simpl. by rewrite app_nil_r. }
    case_match; tauto.
Qed.

(** ** How much the siblings give up in all *)

(** What a report makes each open sibling give up. *)
Definition given_up m r : Q :=
  if LessThan dzero (or_FilledQuantity r) && LessThan (recorded m r) (or_FilledQuantity r)
  then dval (fill_delta m r) else 0.

Fixpoint total_given_up m (rs : list OrderStatusReport) : Q :=
  match rs with
  | [] => 0
  | r :: rs => given_up m r + total_given_up (progress_actions m r).1 rs
  end.

Lemma recorded_progress m r r' :
  is_ouo r = true -> or_AccountID r' = or_AccountID r -> or_OrderID r' = or_OrderID r ->
  0 <= dval (recorded m r) ->
  dval (recorded (progress_actions m r).1 r') == Qmax (dval (recorded m r)) (dval (or_FilledQuantity r)) /\
  given_up m r == dval (recorded (progress_actions m r).1 r') - dval (recorded m r).
Proof.
  intros Hu Ha Ho Hn. pose proof (progress_eq m r) as H. destruct (ouo_part m r) as [m1 acts1] eqn:E.
  unfold ouo_part in E. rewrite Hu in E. pose proof (handleOuo_spec m r m1 acts1 E) as Hs.
  assert (recorded (progress_actions m r).1 r' = recorded m1 r) as ->.
  { rewrite H. unfold recorded. rewrite Ha, Ho. by destruct (or_Status r ≠? OrderStatusFilled). }
  unfold given_up, fill_delta. destruct (LessThan dzero (or_FilledQuantity r)) eqn:E1; simpl in *.
  - destruct (LessThan (recorded m r) (or_FilledQuantity r)) eqn:E2; destruct Hs as [-> _]; dec_hyps.
    + rewrite Q.max_r by lra. split; [done|]. rewrite dval_sub. lra.
    + rewrite Q.max_l by lra. split; [done|lra].
  - destruct Hs as [-> _]. dec_hyps. rewrite dval_zero in E1. rewrite Q.max_l by lra. split; [done|lra].
Qed.

(** The largest filled quantity reported, or [start]. *)
Definition largest (start : Q) (rs : list OrderStatusReport) : Q :=
  foldr (fun r q => Qmax (dval (or_FilledQuantity r)) q) start rs.

Lemma largest_max (x y : Q) rs : largest (Qmax x y) rs == Qmax y (largest x rs).
Proof.
  induction rs as [|r rs IH]; simpl; [apply Q.max_comm|]. rewrite IH, !Q.max_assoc. by rewrite (Q.max_comm y).
Qed.

Lemma largest_ext (x y : Q) rs : x == y -> largest x rs == largest y rs.
Proof. intros Hxy. induction rs as [|r rs IH]; simpl; [done|]. by rewrite IH. Qed.

(** Siblings give up each fill once.  Whatever reports of a one-updates-other order
    arrive, repeated or out of order, each open sibling is asked in total to give up the
    largest filled quantity reported, less what was recorded before. *)
Theorem ouo_reduces_once m a o (rs : list OrderStatusReport) :
  let start := dval (default dzero (em_orderListFills m !! (a, o))) in
  0 <= start -> Forall (fun r => is_ouo r = true /\ or_AccountID r = a /\ or_OrderID r = o) rs ->
  total_given_up m rs == largest start rs - start.
Proof.
  cbv zeta. intros Hn Hrs. revert m Hn. induction Hrs as [|r rs (Hu & Ha & Ho) Hrs IH]; intros m Hn; simpl; [lra|].
  subst a o. fold (recorded m r) in *. destruct (recorded_progress m r r Hu eq_refl eq_refl Hn) as [H1 H2].
  set (m1 := (progress_actions m r).1) in *. pose proof (Q.le_max_l (dval (recorded m r)) (dval (or_FilledQuantity r))).
  rewrite (IH m1) by (fold (recorded m1 r); lra). fold (recorded m1 r). rewrite H2.
  rewrite (largest_ext _ _ rs H1), largest_max. lra.
Qed.
End facts.
