(* ===== verification/ExecReconciliation.v ===== *)
(** * Execution reconciliation (execution/reconciliation.go)

    [Reconciler] feeds the reports of a venue to the execution manager, reports what differs, and
    keeps an audit of its runs.  [time.Now] is an argument: the times a run starts and ends. *)
From stdpp Require Import base gmap list strings sorting.
From S2P Require Import Prelude Decimals Enums Identifiers Orders Accounts OrderLists Cache ExecManager.

Open Scope go_scope.

Section reconciliation.
Context {DD : Decimal}.

Definition ReconciliationCaseMassStatus : string := "TC-REC01".
Definition ReconciliationCaseMissingFills : string := "TC-REC02".
Definition ReconciliationCaseOrderDiscrepancy : string := "TC-REC03".
Definition ReconciliationCaseExternalOrders : string := "TC-REC08".

(** [execution.ReconciliationDiscrepancy] *)
Record ReconciliationDiscrepancy := mkReconciliationDiscrepancy {
  dc_Kind : string;
  dc_AccountID : AccountID;
  dc_InstrumentID : InstrumentID;
  dc_OrderID : OrderID;
  dc_PositionID : PositionID;
  dc_TradeID : TradeID;
  dc_Reason : string;
}.

(** [execution.ReconciliationResult]; the counters only count reports. *)
Record ReconciliationResult := mkReconciliationResult {
  rn_CaseID : string;
  rn_AccountID : AccountID;
  rn_InstrumentID : InstrumentID;
  rn_StartedAt : time;
  rn_CompletedAt : time;
  rn_AccountsApplied : nat;
  rn_OrdersApplied : nat;
  rn_FillsApplied : nat;
  rn_FillsDeferred : nat;
  rn_PositionsApplied : nat;
  rn_ReportsScanned : nat;
  rn_DuplicatesSkipped : nat;
  rn_LookbackSkipped : nat;
  rn_Unresolved : list ReconciliationDiscrepancy;
}.

#[global] Instance set_rn_CaseID : Setter rn_CaseID := fun f r => mkReconciliationResult (f
  (rn_CaseID r)) (rn_AccountID r) (rn_InstrumentID r) (rn_StartedAt r) (rn_CompletedAt r)
  (rn_AccountsApplied r) (rn_OrdersApplied r) (rn_FillsApplied r) (rn_FillsDeferred r)
  (rn_PositionsApplied r) (rn_ReportsScanned r) (rn_DuplicatesSkipped r) (rn_LookbackSkipped r)
  (rn_Unresolved r).
#[global] Instance set_rn_AccountID : Setter rn_AccountID := fun f r => mkReconciliationResult
  (rn_CaseID r) (f (rn_AccountID r)) (rn_InstrumentID r) (rn_StartedAt r) (rn_CompletedAt r)
  (rn_AccountsApplied r) (rn_OrdersApplied r) (rn_FillsApplied r) (rn_FillsDeferred r)
  (rn_PositionsApplied r) (rn_ReportsScanned r) (rn_DuplicatesSkipped r) (rn_LookbackSkipped r)
  (rn_Unresolved r).
#[global] Instance set_rn_InstrumentID : Setter rn_InstrumentID := fun f r => mkReconciliationResult
  (rn_CaseID r) (rn_AccountID r) (f (rn_InstrumentID r)) (rn_StartedAt r) (rn_CompletedAt r)
  (rn_AccountsApplied r) (rn_OrdersApplied r) (rn_FillsApplied r) (rn_FillsDeferred r)
  (rn_PositionsApplied r) (rn_ReportsScanned r) (rn_DuplicatesSkipped r) (rn_LookbackSkipped r)
  (rn_Unresolved r).
#[global] Instance set_rn_StartedAt : Setter rn_StartedAt := fun f r => mkReconciliationResult
  (rn_CaseID r) (rn_AccountID r) (rn_InstrumentID r) (f (rn_StartedAt r)) (rn_CompletedAt r)
  (rn_AccountsApplied r) (rn_OrdersApplied r) (rn_FillsApplied r) (rn_FillsDeferred r)
  (rn_PositionsApplied r) (rn_ReportsScanned r) (rn_DuplicatesSkipped r) (rn_LookbackSkipped r)
  (rn_Unresolved r).
#[global] Instance set_rn_CompletedAt : Setter rn_CompletedAt := fun f r => mkReconciliationResult
  (rn_CaseID r) (rn_AccountID r) (rn_InstrumentID r) (rn_StartedAt r) (f (rn_CompletedAt r))
  (rn_AccountsApplied r) (rn_OrdersApplied r) (rn_FillsApplied r) (rn_FillsDeferred r)
  (rn_PositionsApplied r) (rn_ReportsScanned r) (rn_DuplicatesSkipped r) (rn_LookbackSkipped r)
  (rn_Unresolved r).
#[global] Instance set_rn_AccountsApplied : Setter rn_AccountsApplied := fun f r =>
  mkReconciliationResult (rn_CaseID r) (rn_AccountID r) (rn_InstrumentID r) (rn_StartedAt r)
  (rn_CompletedAt r) (f (rn_AccountsApplied r)) (rn_OrdersApplied r) (rn_FillsApplied r)
  (rn_FillsDeferred r) (rn_PositionsApplied r) (rn_ReportsScanned r) (rn_DuplicatesSkipped r)
  (rn_LookbackSkipped r) (rn_Unresolved r).
#[global] Instance set_rn_OrdersApplied : Setter rn_OrdersApplied := fun f r =>
  mkReconciliationResult (rn_CaseID r) (rn_AccountID r) (rn_InstrumentID r) (rn_StartedAt r)
  (rn_CompletedAt r) (rn_AccountsApplied r) (f (rn_OrdersApplied r)) (rn_FillsApplied r)
  (rn_FillsDeferred r) (rn_PositionsApplied r) (rn_ReportsScanned r) (rn_DuplicatesSkipped r)
  (rn_LookbackSkipped r) (rn_Unresolved r).
#[global] Instance set_rn_FillsApplied : Setter rn_FillsApplied := fun f r => mkReconciliationResult
  (rn_CaseID r) (rn_AccountID r) (rn_InstrumentID r) (rn_StartedAt r) (rn_CompletedAt r)
  (rn_AccountsApplied r) (rn_OrdersApplied r) (f (rn_FillsApplied r)) (rn_FillsDeferred r)
  (rn_PositionsApplied r) (rn_ReportsScanned r) (rn_DuplicatesSkipped r) (rn_LookbackSkipped r)
  (rn_Unresolved r).
#[global] Instance set_rn_FillsDeferred : Setter rn_FillsDeferred := fun f r =>
  mkReconciliationResult (rn_CaseID r) (rn_AccountID r) (rn_InstrumentID r) (rn_StartedAt r)
  (rn_CompletedAt r) (rn_AccountsApplied r) (rn_OrdersApplied r) (rn_FillsApplied r) (f
  (rn_FillsDeferred r)) (rn_PositionsApplied r) (rn_ReportsScanned r) (rn_DuplicatesSkipped r)
  (rn_LookbackSkipped r) (rn_Unresolved r).
#[global] Instance set_rn_PositionsApplied : Setter rn_PositionsApplied := fun f r =>
  mkReconciliationResult (rn_CaseID r) (rn_AccountID r) (rn_InstrumentID r) (rn_StartedAt r)
  (rn_CompletedAt r) (rn_AccountsApplied r) (rn_OrdersApplied r) (rn_FillsApplied r)
  (rn_FillsDeferred r) (f (rn_PositionsApplied r)) (rn_ReportsScanned r) (rn_DuplicatesSkipped r)
  (rn_LookbackSkipped r) (rn_Unresolved r).
#[global] Instance set_rn_ReportsScanned : Setter rn_ReportsScanned := fun f r =>
  mkReconciliationResult (rn_CaseID r) (rn_AccountID r) (rn_InstrumentID r) (rn_StartedAt r)
  (rn_CompletedAt r) (rn_AccountsApplied r) (rn_OrdersApplied r) (rn_FillsApplied r)
  (rn_FillsDeferred r) (rn_PositionsApplied r) (f (rn_ReportsScanned r)) (rn_DuplicatesSkipped r)
  (rn_LookbackSkipped r) (rn_Unresolved r).
#[global] Instance set_rn_DuplicatesSkipped : Setter rn_DuplicatesSkipped := fun f r =>
  mkReconciliationResult (rn_CaseID r) (rn_AccountID r) (rn_InstrumentID r) (rn_StartedAt r)
  (rn_CompletedAt r) (rn_AccountsApplied r) (rn_OrdersApplied r) (rn_FillsApplied r)
  (rn_FillsDeferred r) (rn_PositionsApplied r) (rn_ReportsScanned r) (f (rn_DuplicatesSkipped r))
  (rn_LookbackSkipped r) (rn_Unresolved r).
#[global] Instance set_rn_LookbackSkipped : Setter rn_LookbackSkipped := fun f r =>
  mkReconciliationResult (rn_CaseID r) (rn_AccountID r) (rn_InstrumentID r) (rn_StartedAt r)
  (rn_CompletedAt r) (rn_AccountsApplied r) (rn_OrdersApplied r) (rn_FillsApplied r)
  (rn_FillsDeferred r) (rn_PositionsApplied r) (rn_ReportsScanned r) (rn_DuplicatesSkipped r) (f
  (rn_LookbackSkipped r)) (rn_Unresolved r).
#[global] Instance set_rn_Unresolved : Setter rn_Unresolved := fun f r => mkReconciliationResult
  (rn_CaseID r) (rn_AccountID r) (rn_InstrumentID r) (rn_StartedAt r) (rn_CompletedAt r)
  (rn_AccountsApplied r) (rn_OrdersApplied r) (rn_FillsApplied r) (rn_FillsDeferred r)
  (rn_PositionsApplied r) (rn_ReportsScanned r) (rn_DuplicatesSkipped r) (rn_LookbackSkipped r) (f
  (rn_Unresolved r)).

Definition ReconciliationResult_zero : ReconciliationResult :=
  mkReconciliationResult "" "" InstrumentID_zero 0%Z 0%Z 0 0 0 0 0 0 0 0 [].

(** A new result of a case. *)
Definition result_of (caseID : string) (started : time) : ReconciliationResult :=
  ReconciliationResult_zero <| rn_CaseID := caseID |> <| rn_StartedAt := started |>.

Record ExternalOrderPolicy := mkExternalOrderPolicy {
  xp_AllowImport : bool;
  xp_StrategyID : StrategyID;
}.

(** [execution.Reconciler].  Its cache is the one of its manager, shared by pointer ([None]), unless it was given another; the empty [lastError] is [None]. *)
Record Reconciler := mkReconciler {
  er_cache : option Cache;
  er_manager : Manager;
  er_last : ReconciliationResult;
  er_lastSuccess : ReconciliationResult;
  er_lastError : option error;
  er_lastErrorResult : ReconciliationResult;
  er_unresolved : list ReconciliationDiscrepancy;
  er_history : list ReconciliationResult;
}.

#[global] Instance set_er_cache : Setter er_cache := fun f r => mkReconciler (f (er_cache r))
  (er_manager r) (er_last r) (er_lastSuccess r) (er_lastError r) (er_lastErrorResult r)
  (er_unresolved r) (er_history r).
#[global] Instance set_er_manager : Setter er_manager := fun f r => mkReconciler (er_cache r) (f
  (er_manager r)) (er_last r) (er_lastSuccess r) (er_lastError r) (er_lastErrorResult r)
  (er_unresolved r) (er_history r).
#[global] Instance set_er_last : Setter er_last := fun f r => mkReconciler (er_cache r) (er_manager
  r) (f (er_last r)) (er_lastSuccess r) (er_lastError r) (er_lastErrorResult r) (er_unresolved r)
  (er_history r).
#[global] Instance set_er_lastSuccess : Setter er_lastSuccess := fun f r => mkReconciler (er_cache
  r) (er_manager r) (er_last r) (f (er_lastSuccess r)) (er_lastError r) (er_lastErrorResult r)
  (er_unresolved r) (er_history r).
#[global] Instance set_er_lastError : Setter er_lastError := fun f r => mkReconciler (er_cache r)
  (er_manager r) (er_last r) (er_lastSuccess r) (f (er_lastError r)) (er_lastErrorResult r)
  (er_unresolved r) (er_history r).
#[global] Instance set_er_lastErrorResult : Setter er_lastErrorResult := fun f r => mkReconciler
  (er_cache r) (er_manager r) (er_last r) (er_lastSuccess r) (er_lastError r) (f (er_lastErrorResult
  r)) (er_unresolved r) (er_history r).
#[global] Instance set_er_unresolved : Setter er_unresolved := fun f r => mkReconciler (er_cache r)
  (er_manager r) (er_last r) (er_lastSuccess r) (er_lastError r) (er_lastErrorResult r) (f
  (er_unresolved r)) (er_history r).
#[global] Instance set_er_history : Setter er_history := fun f r => mkReconciler (er_cache r)
  (er_manager r) (er_last r) (er_lastSuccess r) (er_lastError r) (er_lastErrorResult r)
  (er_unresolved r) (f (er_history r)).

(** [ReconciliationConfig]: no manager and perhaps a cache, a manager (with its cache or none
    besides), or a manager and another cache. *)
Inductive ReconciliationConfig :=
  | ConfigCache (c : option Cache)
  | ConfigManager (m : Manager)
  | ConfigBoth (c : Cache) (m : Manager).

Definition NewReconciler (cfg : ReconciliationConfig) : Reconciler :=
  let '(c, m) := match cfg with
                 | ConfigCache c => (None, NewManager (Some (default New c)) false PositionIDModeNone)
                 | ConfigManager m => (None, m)
                 | ConfigBoth c m => (Some c, m)
                 end in
  mkReconciler c m ReconciliationResult_zero ReconciliationResult_zero None ReconciliationResult_zero [] [].

(** The cache it reads and writes. *)
Definition rcache (r : Reconciler) : Cache := default (em_cache (er_manager r)) (er_cache r).
Definition put_rcache (r : Reconciler) (c : Cache) : Reconciler :=
  match er_cache r with
  | None => r <| er_manager := er_manager r <| em_cache := c |> |>
  | Some _ => r <| er_cache := Some c |>
  end.

Definition remember (r : Reconciler) (result : ReconciliationResult) (err : res unit) : Reconciler :=
  let r := r <| er_last := result |> <| er_history := er_history r ++ [result] |> in
  let r := if (0 <? List.length (rn_Unresolved result))%nat then r <| er_unresolved := rn_Unresolved result |> else r in
  match err with
  | Fail e => r <| er_lastError := Some e |> <| er_lastErrorResult := result |>
  | Ok _ => r <| er_lastSuccess := result |>
  end.

(** How a run ends, with or without an error: the result is completed and remembered. *)
Definition finish (completed : time) (run : Reconciler * ReconciliationResult * res unit)
    : Reconciler * ReconciliationResult * res unit :=
  let '(r, result, err) := run in
  let result := result <| rn_CompletedAt := completed |> in
  (remember r result err, result, err).

Definition deferredFillExists (r : Reconciler) (fill : FillReport) : bool :=
  existsb (fun deferred => fr_TradeID deferred ≟ fr_TradeID fill)
    (DeferredFillsForOrder (rcache r) (fr_AccountID fill) (fr_OrderID fill)).

Definition isExternalOrderReport (report : OrderStatusReport) : bool :=
  (or_ClientOrderID report ≟ "") && (md_StrategyID (or_Metadata report) ≟ "").

Definition firstMassStatusInstrument (status : ExecutionMassStatus) : InstrumentID :=
  match ms_Orders status, ms_Fills status, ms_Positions status with
  | order :: _, _, _ => or_InstrumentID order
  | [], fill :: _, _ => fr_InstrumentID fill
  | [], [], position :: _ => pr_InstrumentID position
  | [], [], [] => InstrumentID_zero
  end.

Definition localOrder (r : Reconciler) (report : OrderStatusReport) : option OrderStatusReport :=
  let by_id := if or_OrderID report ≠? "" then cache_Order (rcache r) (or_AccountID report) (or_OrderID report) else None in
  let by_client := if or_ClientOrderID report ≠? ""
                   then OrderByClientID (rcache r) (or_AccountID report) (or_ClientOrderID report) else None in
  let by_venue := if or_VenueOrderID report ≠? ""
                  then OrderByVenueID (rcache r) (or_AccountID report) (or_VenueOrderID report) else None in
  match by_id, by_client with
  | Some order, _ => Some order
  | None, Some order => Some order
  | None, None => by_venue
  end.

(** The account and the instrument of a result are those of the first report. *)
Definition scanned (a : AccountID) (i : InstrumentID) (result : ReconciliationResult) : ReconciliationResult :=
  let result := if rn_AccountID result ≟ "" then result <| rn_AccountID := a |> else result in
  let result := if rn_InstrumentID result ≟ InstrumentID_zero then result <| rn_InstrumentID := i |> else result in
  result <| rn_ReportsScanned := S (rn_ReportsScanned result) |>.

(** ** Mass status *)

(** The loop of [ReconcileMassStatus] over the accounts. *)
Definition put_accounts (r : Reconciler) (accounts : list AccountSnapshot) : Reconciler :=
  foldl (fun r account => put_rcache r (PutAccount (rcache r) account)) r accounts.

(** The loop over the orders. *)
Fixpoint apply_orders (r : Reconciler) (result : ReconciliationResult) (orders : list OrderStatusReport)
    : Reconciler * ReconciliationResult * res unit :=
  match orders with
  | [] => (r, result, Ok tt)
  | order :: orders =>
      match ApplyOrderReport (er_manager r) order with
      | (m, Fail e) => (r <| er_manager := m |>, result, Fail e)
      | (m, Ok _) => apply_orders (r <| er_manager := m |>)
                       (result <| rn_OrdersApplied := S (rn_OrdersApplied result) |>) orders
      end
  end.

(** The end of a round of the loops over fills: the fill is given to the manager. *)
Definition give_fill (r : Reconciler) (result : ReconciliationResult) (fill : FillReport)
    : Reconciler * ReconciliationResult * res unit :=
  match ApplyFill (er_manager r) fill with
  | (m, _, Fail e) => (r <| er_manager := m |>, result, Fail e)
  | (m, stored, Ok _) =>
      let r := r <| er_manager := m |> in
      (r, if stored then result <| rn_FillsApplied := S (rn_FillsApplied result) |>
          else if deferredFillExists r fill then result <| rn_FillsDeferred := S (rn_FillsDeferred result) |>
          else result, Ok tt)
  end.

(** The loop over the fills. *)
Fixpoint apply_fill_reports (r : Reconciler) (result : ReconciliationResult) (fills : list FillReport)
    : Reconciler * ReconciliationResult * res unit :=
  match fills with
  | [] => (r, result, Ok tt)
  | fill :: fills =>
      if deferredFillExists r fill
      then apply_fill_reports r (result <| rn_DuplicatesSkipped := S (rn_DuplicatesSkipped result) |>) fills
      else match give_fill r result fill with
      | (r, result, Fail e) => (r, result, Fail e)
      | (r, result, Ok _) => apply_fill_reports r result fills
      end
  end.

(** The loop over the positions. *)
Fixpoint apply_positions (r : Reconciler) (result : ReconciliationResult) (positions : list PositionStatusReport)
    : Reconciler * ReconciliationResult * res unit :=
  match positions with
  | [] => (r, result, Ok tt)
  | position :: positions =>
      match PutPosition (rcache r) position with
      | Fail e => (r, result, Fail e)
      | Ok c => apply_positions (put_rcache r c)
                  (result <| rn_PositionsApplied := S (rn_PositionsApplied result) |>) positions
      end
  end.

Definition ReconcileMassStatus (started completed : time) (r : Reconciler) (status : ExecutionMassStatus)
    : Reconciler * ReconciliationResult * res unit :=
  match ExecutionMassStatus_Validate status with
  | Fail e => (r, ReconciliationResult_zero, Fail e)
  | Ok _ =>
      let result := result_of ReconciliationCaseMassStatus started
                      <| rn_AccountID := ms_AccountID status |>
                      <| rn_InstrumentID := firstMassStatusInstrument status |> in
      let r := put_accounts r (ms_Accounts status) in
      let result := result <| rn_AccountsApplied := List.length (ms_Accounts status) |> in
      finish completed
        match apply_orders r result (ms_Orders status) with
        | (r, result, Fail e) => (r, result, Fail e)
        | (r, result, Ok _) =>
            match apply_fill_reports r result (ms_Fills status) with
            | (r, result, Fail e) => (r, result, Fail e)
            | (r, result, Ok _) => apply_positions r result (ms_Positions status)
            end
        end
  end.

(** ** Missing fills *)

(** The loop of [ReconcileMissingFills]. *)
Fixpoint scan_fills (lookbackStart : time) (r : Reconciler) (result : ReconciliationResult) (reports : list FillReport)
    : Reconciler * ReconciliationResult * res unit :=
  match reports with
  | [] => (r, result, Ok tt)
  | fill :: reports =>
      match FillReport_Validate fill with
      | Fail e => (r, result, Fail e)
      | Ok _ =>
          let result := scanned (fr_AccountID fill) (fr_InstrumentID fill) result in
          if negb (time_IsZero lookbackStart) && Before (fr_Timestamp fill) lookbackStart then
            scan_fills lookbackStart r (result <| rn_LookbackSkipped := S (rn_LookbackSkipped result) |>) reports
          else if match FillByTradeID (rcache r) (fr_AccountID fill) (fr_TradeID fill) with Some _ => true | None => false end then
            scan_fills lookbackStart r (result <| rn_DuplicatesSkipped := S (rn_DuplicatesSkipped result) |>) reports
          else if deferredFillExists r fill then
            scan_fills lookbackStart r (result <| rn_DuplicatesSkipped := S (rn_DuplicatesSkipped result) |>) reports
          else match give_fill r result fill with
          | (r, result, Fail e) => (r, result, Fail e)
          | (r, result, Ok _) => scan_fills lookbackStart r result reports
          end
      end
  end.

Definition ReconcileMissingFills (started completed : time) (r : Reconciler) (reports : list FillReport)
    (lookbackStart : time) : Reconciler * ReconciliationResult * res unit :=
  finish completed (scan_fills lookbackStart r (result_of ReconciliationCaseMissingFills started) reports).

(** ** Order discrepancies *)

Definition order_discrepancy (kind : string) (report : OrderStatusReport) (reason : string) : ReconciliationDiscrepancy :=
  mkReconciliationDiscrepancy kind (or_AccountID report) (or_InstrumentID report) (or_OrderID report) "" "" reason.

(** The discrepancies one report adds, given the local order. *)
Definition order_discrepancies (local report : OrderStatusReport) : list ReconciliationDiscrepancy :=
  (if Bool.eqb (OrderStatus_IsOpen (or_Status local)) (OrderStatus_IsOpen (or_Status report)) then []
   else [order_discrepancy "order_open_state_mismatch" report
           (OrderStatus_string (or_Status local) +:+ " != " +:+ OrderStatus_string (or_Status report))]) ++
  (if Equal (or_FilledQuantity local) (or_FilledQuantity report) then []
   else [order_discrepancy "order_filled_quantity_mismatch" report
           (dstring (or_FilledQuantity local) +:+ " != " +:+ dstring (or_FilledQuantity report))]).

(** The loop of [DetectOrderDiscrepancies]. *)
Fixpoint detect (r : Reconciler) (result : ReconciliationResult) (reports : list OrderStatusReport)
    : ReconciliationResult * res unit :=
  match reports with
  | [] => (result, Ok tt)
  | report :: reports =>
      match OrderStatusReport_Validate report with
      | Fail e => (result, Fail e)
      | Ok _ =>
          let result := scanned (or_AccountID report) (or_InstrumentID report) result in
          match localOrder r report with
          | None => detect r result reports
          | Some local =>
              detect r (result <| rn_Unresolved := rn_Unresolved result ++ order_discrepancies local report |>) reports
          end
      end
  end.

Definition DetectOrderDiscrepancies (started completed : time) (r : Reconciler) (reports : list OrderStatusReport)
    : Reconciler * ReconciliationResult * res unit :=
  let '(result, err) := detect r (result_of ReconciliationCaseOrderDiscrepancy started) reports in
  finish completed (r, result, err).

(** ** External orders *)

(** The loop of [ReconcileExternalOrders]. *)
Fixpoint import_orders (allow : bool) (strategyID : StrategyID) (r : Reconciler) (result : ReconciliationResult)
    (reports : list OrderStatusReport) : Reconciler * ReconciliationResult * res unit :=
  match reports with
  | [] => (r, result, Ok tt)
  | report :: reports =>
      match OrderStatusReport_Validate report with
      | Fail e => (r, result, Fail e)
      | Ok _ =>
          let result := scanned (or_AccountID report) (or_InstrumentID report) result in
          if isExternalOrderReport report && negb allow then
            import_orders allow strategyID r
              (result <| rn_Unresolved := rn_Unresolved result ++
                 [order_discrepancy "external_order_rejected" report "external order import disabled"] |>) reports
          else
            let report := if isExternalOrderReport report
                          then report <| or_Metadata := or_Metadata report <| md_StrategyID := strategyID |> |>
                          else report in
            match ApplyOrderReport (er_manager r) report with
            | (m, Fail e) => (r <| er_manager := m |>, result, Fail e)
            | (m, Ok _) => import_orders allow strategyID (r <| er_manager := m |>)
                             (result <| rn_OrdersApplied := S (rn_OrdersApplied result) |>) reports
            end
      end
  end.

Definition ReconcileExternalOrders (started completed : time) (r : Reconciler) (reports : list OrderStatusReport)
    (policy : ExternalOrderPolicy) : Reconciler * ReconciliationResult * res unit :=
  let strategyID := if xp_StrategyID policy ≟ "" then "EXTERNAL" else xp_StrategyID policy in
  finish completed
    (import_orders (xp_AllowImport policy) strategyID r (result_of ReconciliationCaseExternalOrders started) reports).

(** ** The audit *)

Record ReconciliationAudit := mkReconciliationAudit {
  au_LastResult : ReconciliationResult;
  au_LastSuccess : ReconciliationResult;
  au_LastError : option error;
  au_LastErrorResult : ReconciliationResult;
  au_Unresolved : list ReconciliationDiscrepancy;
  au_History : list ReconciliationResult;
}.

Definition LastResult (r : Reconciler) : ReconciliationResult := er_last r.
Definition AuditTrail (r : Reconciler) : ReconciliationAudit :=
  mkReconciliationAudit (er_last r) (er_lastSuccess r) (er_lastError r) (er_lastErrorResult r) (er_unresolved r)
    (er_history r).
End reconciliation.
