(* ===== verification/ExecReconciliationFacts.v ===== *)
(** * Correctness of execution reconciliation

    What a run counts, that it leaves no reported fill out, and what it does with the orders and
    fills of one report. *)
From stdpp Require Import base gmap list strings sorting relations.
From Stdlib Require Import QArith Qabs Qminmax Lqa.
From S2P Require Import Prelude Decimals Enums Identifiers Orders Market Accounts OrderLists Cache CacheFacts.
From S2P Require Import Reconciler ReconcilerFacts ExecManager ExecManagerFacts ExecReconciliation.

Open Scope go_scope.

#[local] Arguments Qplus : simpl never.
#[local] Arguments Qminus : simpl never.

Section facts.
Context {DD : Decimal} {DL : DecimalLaws DD}.
Implicit Types (c : Cache) (m : Manager) (r : Reconciler) (report u : OrderStatusReport) (f : FillReport)
  (a : AccountID) (o : OrderID) (result : ReconciliationResult).

(** ** Fills that are accounted for *)

(** The fill is deferred for its order. *)
Definition deferred_in c f : bool :=
  existsb (fun g => fr_TradeID g ≟ fr_TradeID f) (DeferredFillsForOrder c (fr_AccountID f) (fr_OrderID f)).

Definition present c f : Prop := known c f = true \/ deferred_in c f = true.

Lemma deferred_in_spec c f : cok c ->
  deferred_in c f = true <-> is_Some (get3 (c_deferredFills c) (fr_AccountID f) (fr_OrderID f) (fr_TradeID f)).
Proof.
  intros Hc. unfold deferred_in. rewrite existsb_exists. unfold DeferredFillsForOrder, sortFills. split.
  - intros (g & Hg%list_elem_of_In & Ht%bool_decide_eq_true). rewrite elem_of_merge_sort, elem_of_fills in Hg.
    destruct Hg as [t Hg]. destruct (cok_deferred _ Hc _ _ _ _ Hg) as (_ & _ & _ & Htg). exists g. by rewrite <- Ht, Htg.
  - intros [g Hg]. exists g. split.
    + apply list_elem_of_In. rewrite elem_of_merge_sort, elem_of_fills. by exists (fr_TradeID f).
    + apply bool_decide_eq_true. by destruct (cok_deferred _ Hc _ _ _ _ Hg) as (_ & _ & _ & ->).
Qed.

(** Nothing that was stored or deferred is forgotten. *)
Definition grows c c' : Prop :=
  (forall a t g, FillByTradeID c a t = Some g -> FillByTradeID c' a t = Some g) /\
  (forall a o t, is_Some (get3 (c_deferredFills c) a o t) -> is_Some (get3 (c_deferredFills c') a o t)).

#[local] Instance grows_po : PreOrder grows.
Proof. split; [by intros c; split|]. intros c1 c2 c3 [] []. split; eauto. Qed.

Lemma present_grows c c' f : cok c -> cok c' -> grows c c' -> present c f -> present c' f.
Proof.
  intros Hc Hc' [Ht Hd] [H|H]; [left; by eapply known_mono|right].
  rewrite deferred_in_spec in * by done. by apply Hd.
Qed.

Lemma PutFill_new c f c' b : cok c -> PutFill c f = Ok (c', b) -> known c f = false ->
  b = true /\ grows c c' /\ FillByTradeID c' (fr_AccountID f) (fr_TradeID f) = Some f.
Proof.
  intros Hc H Hk. rewrite known_spec in Hk. pose proof (PutFill_inv _ _ _ _ H) as [_ Hi].
  destruct (get3 _ _ _ _) eqn:E.
  { apply (cok_trades _ Hc) in E as [g E]. by rewrite E in Hk. }
  destruct Hi as [-> _]. split; [done|]. pose proof (PutFill_trade c f c') as Ht. split; [split|].
  - intros a t g Hg. rewrite Ht by done. case_decide as Hd; [|done]. destruct Hd as [<- <-]. by rewrite Hg in Hk.
  - pose proof (run_op_same_deferred c (OpFill f)) as Hd. simpl in Hd. rewrite H in Hd. simpl in Hd.
    intros a o t. by rewrite Hd.
  - by rewrite Ht, decide_True.
Qed.

Lemma PutOrder_grows c u c' : PutOrder c u = Ok c' -> grows c c'.
Proof.
  intros H. split; [intros a t g; by rewrite (PutOrder_trade _ _ _ _ _ H)|].
  intros a o t. by rewrite (PutOrder_same_deferred _ _ _ H).
Qed.

Lemma known_Some c f g : FillByTradeID c (fr_AccountID f) (fr_TradeID f) = Some g -> known c f = true.
Proof. intros H. by rewrite known_spec, H. Qed.

(** A call that succeeds accounts for its fill, and its answer tells how. *)
Lemma ApplyFill_present m f m' b :
  cok (em_cache m) -> known (em_cache m) f = false -> ApplyFill m f = (m', b, Ok tt) ->
  grows (em_cache m) (em_cache m') /\
  if b then known (em_cache m') f = true else deferred_in (em_cache m') f = true.
Proof.
  intros Hc Hk H. assert (Hc' := ApplyFill_cok m f Hc). rewrite H in Hc'. simpl in Hc'.
  unfold ApplyFill in H. cbv zeta in H. destruct (FillReport_Validate f) as [[]|] eqn:V; [|done].
  assert (Hn := Hk). rewrite known_spec in Hn. destruct (FillByTradeID (em_cache m) _ _) eqn:Et; [done|]. clear Hn.
  destruct (fill_order _ _) as [u|].
  - destruct (_ && negb (em_allowOverfills m)); [done|].
    destruct (PutFill (em_cache m) f) as [[c1 b1]|] eqn:E1; [|done].
    destruct (PutFill_new _ _ _ _ Hc E1 Hk) as (-> & Hg & Hf). destruct (PutOrder c1 _) as [c2|] eqn:E2; [|done].
    injection H as <- <-. simpl. pose proof (PutOrder_grows _ _ _ E2) as Hg2. split; [by etrans|].
    eapply known_Some. by apply Hg2.
  - destruct (FillReport_IsLegFill f).
    + set (g := if fr_PositionID f ≟ "" then _ else f) in H.
      assert (fr_AccountID g = fr_AccountID f /\ fr_TradeID g = fr_TradeID f) as [Ha Ht] by (unfold g; by destruct (fr_PositionID f ≟ "")).
      destruct (PutFill (em_cache m) g) as [[c1 b1]|] eqn:E1; [|done].
      destruct (PutFill_new _ _ _ _ Hc E1) as (-> & Hg & Hf); [by rewrite known_spec, Ha, Ht, Et|].
      injection H as <- <-. split; [done|]. rewrite Ha, Ht in Hf. by eapply known_Some.
    + destruct (PutDeferredFill (em_cache m) f) as [[c1 b1]|] eqn:E1; [|done]. injection H as <- <-. simpl in *.
      unfold PutDeferredFill in E1. rewrite V in E1. rewrite (deferred_in_spec c1 f Hc').
      destruct (get3 (c_deferredFills (em_cache m)) _ _ _) eqn:Eg; injection E1 as <- <-.
      * split; [reflexivity|]. by rewrite Eg.
      * simpl. rewrite get3_put3, decide_True by done. split; [|done]. split; [done|].
        intros a o t Hs. simpl. rewrite get3_put3. by case_decide.
Qed.

(** ** The reconciler on its manager's cache *)

(** It shares the cache of its manager, which keeps its invariant. *)
Definition shared_ok r : Prop := er_cache r = None /\ cok (em_cache (er_manager r)).

Lemma rcache_shared r : er_cache r = None -> rcache r = em_cache (er_manager r).
Proof. intros H. unfold rcache. by rewrite H. Qed.

(** The fills a result has counted, one way or another. *)
Definition counted_fills result : nat :=
  (rn_FillsApplied result + rn_FillsDeferred result + rn_DuplicatesSkipped result + rn_LookbackSkipped result)%nat.

Lemma give_fill_ok r result f r' result' :
  shared_ok r -> known (rcache r) f = false -> give_fill r result f = (r', result', Ok tt) ->
  shared_ok r' /\ grows (rcache r) (rcache r') /\ present (rcache r') f /\
  counted_fills result' = S (counted_fills result) /\ rn_ReportsScanned result' = rn_ReportsScanned result.
Proof.
  intros [Hs Hc] Hk H. rewrite rcache_shared in * by done. unfold give_fill in H.
  pose proof (ApplyFill_cok (er_manager r) f Hc) as Hc'.
  destruct (ApplyFill (er_manager r) f) as [[m b] [[]|e]] eqn:E; [|done]. simpl in Hc'.
  destruct (ApplyFill_present _ _ _ _ Hc Hk E) as [Hg Hp]. injection H as <- <-.
  rewrite rcache_shared by done. simpl.
  split; [by split|]. split; [done|]. destruct b.
  - split; [by left|]. unfold counted_fills. simpl. split; [lia|done].
  - split; [by right|]. unfold deferredFillExists. rewrite rcache_shared by done. simpl.
    change (existsb _ _) with (deferred_in (em_cache m) f). rewrite Hp. unfold counted_fills. simpl. split; [lia|done].
Qed.

Lemma deferredFillExists_eq r f : deferredFillExists r f = deferred_in (rcache r) f.
Proof. done. Qed.

Definition in_lookback (start : time) f : bool := negb (negb (time_IsZero start) && Before (fr_Timestamp f) start).

Lemma scanned_counts a i result :
  counted_fills (scanned a i result) = counted_fills result /\
  rn_ReportsScanned (scanned a i result) = S (rn_ReportsScanned result).
Proof. unfold scanned, counted_fills. cbv zeta. split; repeat case_match; done. Qed.

Lemma scan_fills_ok start reports : forall r result r' result',
  shared_ok r -> scan_fills start r result reports = (r', result', Ok tt) ->
  shared_ok r' /\ grows (rcache r) (rcache r') /\
  Forall (fun f => in_lookback start f = true -> present (rcache r') f) reports /\
  counted_fills result' = (counted_fills result + List.length reports)%nat /\
  rn_ReportsScanned result' = (rn_ReportsScanned result + List.length reports)%nat.
Proof.
  induction reports as [|f reports IH]; intros r result r' result' Hr H; cbn [scan_fills] in H; cbv zeta in H.
  { injection H as <- <-. split; [done|]. split; [reflexivity|]. split; [constructor|]. simpl. lia. }
  destruct (FillReport_Validate f); [|done].
  destruct (scanned_counts (fr_AccountID f) (fr_InstrumentID f) result) as [Hcnt Hsc].
  set (result1 := scanned _ _ result) in *. clearbody result1.
  assert (Hskip : forall result2, counted_fills result2 = S (counted_fills result1) ->
    rn_ReportsScanned result2 = rn_ReportsScanned result1 ->
    (in_lookback start f = true -> present (rcache r) f) -> scan_fills start r result2 reports = (r', result', Ok tt) ->
    shared_ok r' /\ grows (rcache r) (rcache r') /\
    Forall (fun f => in_lookback start f = true -> present (rcache r') f) (f :: reports) /\
    counted_fills result' = (counted_fills result + List.length (f :: reports))%nat /\
    rn_ReportsScanned result' = (rn_ReportsScanned result + List.length (f :: reports))%nat).
  { intros result2 H1 H2 Hp H3. destruct (IH _ _ _ _ Hr H3) as (Hr' & Hg & Hall & Hn & Hm).
    split; [done|]. split; [done|]. split; [|simpl; lia]. constructor; [|done]. intros Hl.
    destruct Hr as [Hs Hc], Hr' as [Hs' Hc']. eapply present_grows; [..|by apply Hp]; rewrite ?rcache_shared by done; try done.
    by rewrite <- !rcache_shared. }
  destruct (negb (time_IsZero start) && Before (fr_Timestamp f) start) eqn:El.
  { refine (Hskip _ _ _ _ H); [unfold counted_fills; simpl; lia|done|]. unfold in_lookback. by rewrite El. }
  destruct (FillByTradeID (rcache r) _ _) eqn:Et.
  { refine (Hskip _ _ _ _ H); [unfold counted_fills; simpl; lia|done|]. intros _. left. by eapply known_Some. }
  destruct (deferredFillExists r f) eqn:Ed.
  { refine (Hskip _ _ _ _ H); [unfold counted_fills; simpl; lia|done|]. intros _. by right. }
  destruct (give_fill r result1 f) as [[r1 result2] [[]|e]] eqn:E; [|done].
  assert (Hkf : known (rcache r) f = false) by by rewrite known_spec, Et.
  destruct (give_fill_ok _ _ _ _ _ Hr Hkf E) as (Hr1 & Hg1 & Hp1 & Hc1 & Hs1).
  destruct (IH _ _ _ _ Hr1 H) as (Hr' & Hg & Hall & Hn & Hm). split; [done|]. split; [by etrans|]. split; [|simpl; lia].
  constructor; [|done]. intros _. destruct Hr1 as [Hs2 Hc2], Hr' as [Hs' Hc'].
  eapply present_grows; [..|exact Hp1]; rewrite ?rcache_shared by done; try done. by rewrite <- !rcache_shared.
Qed.

(** With every report accounted for or too old, a scan changes nothing but the counts. *)
Lemma scan_fills_done start reports : forall r result,
  Forall (fun f => FillReport_Validate f = Ok tt) reports ->
  Forall (fun f => in_lookback start f = true -> present (rcache r) f) reports ->
  exists result', scan_fills start r result reports = (r, result', Ok tt) /\
    rn_FillsApplied result' = rn_FillsApplied result /\ rn_FillsDeferred result' = rn_FillsDeferred result.
Proof.
  induction reports as [|f reports IH]; intros r result Hv Hp; [by exists result|].
  apply Forall_cons in Hv as [Hf Hv]. apply Forall_cons in Hp as [Hpf Hp]. cbn [scan_fills]. cbv zeta. rewrite Hf.
  assert (Hsc : rn_FillsApplied (scanned (fr_AccountID f) (fr_InstrumentID f) result) = rn_FillsApplied result /\
                rn_FillsDeferred (scanned (fr_AccountID f) (fr_InstrumentID f) result) = rn_FillsDeferred result)
    by (unfold scanned; cbv zeta; repeat case_match; done).
  set (result1 := scanned _ _ result) in *. clearbody result1. destruct Hsc as [<- <-].
  destruct (negb (time_IsZero start) && Before (fr_Timestamp f) start) eqn:El.
  { destruct (IH r (result1 <| rn_LookbackSkipped := S (rn_LookbackSkipped result1) |>) Hv Hp) as (x & -> & ? & ?). by exists x. }
  set (result2 := result1 <| rn_DuplicatesSkipped := S (rn_DuplicatesSkipped result1) |>).
  assert (Hx := IH r result2 Hv Hp). unfold in_lookback in Hpf. rewrite El in Hpf. specialize (Hpf eq_refl).
  unfold present in Hpf. rewrite known_spec in Hpf. destruct (FillByTradeID _ _ _); [exact Hx|].
  destruct Hpf as [[=]|Hd]. rewrite deferredFillExists_eq, Hd. exact Hx.
Qed.

Lemma scan_fills_valid start reports : forall r result r' result',
  scan_fills start r result reports = (r', result', Ok tt) -> Forall (fun f => FillReport_Validate f = Ok tt) reports.
Proof.
  induction reports as [|f reports IH]; intros r result r' result' H; simpl in H; [constructor|].
  destruct (FillReport_Validate f) as [[]|] eqn:V; [|done]. constructor; [done|].
  repeat (case_match; try done); by eapply IH.
Qed.

(** Reconciling missing fills is complete, counts each report once, and is idempotent.
    When a run succeeds, every report is counted exactly once, as too old, duplicate, applied
    or deferred; every report that is not too old is stored or deferred; and a second run
    over the same reports applies and defers nothing and leaves the manager as it is. *)
Theorem missing_fills_reconciled allow mode (ops : list ManagerOp) s1 e1 s2 e2 reports start r' result :
  let r := NewReconciler (ConfigManager (run_mops (NewManager None allow mode) ops)) in
  ReconcileMissingFills s1 e1 r reports start = (r', result, Ok tt) ->
  rn_ReportsScanned result = List.length reports /\
  (rn_FillsApplied result + rn_FillsDeferred result + rn_DuplicatesSkipped result + rn_LookbackSkipped result)%nat
    = List.length reports /\
  Forall (fun f => in_lookback start f = true -> present (em_cache (er_manager r')) f) reports /\
  let '(r'', result2, out2) := ReconcileMissingFills s2 e2 r' reports start in
  out2 = Ok tt /\ er_manager r'' = er_manager r' /\ rn_FillsApplied result2 = 0%nat /\ rn_FillsDeferred result2 = 0%nat.
Proof.
  intros r H. unfold ReconcileMissingFills, finish in H.
  destruct (scan_fills _ _ _ _) as [[r1 result1] out] eqn:E. injection H as <- <- ->.
  assert (Hr : shared_ok r) by (split; [done|apply reachable_cok]).
  destruct (scan_fills_ok _ _ _ _ _ _ Hr E) as ([Hs Hc] & _ & Hall & Hn & Hm).
  pose proof (scan_fills_valid _ _ _ _ _ _ E) as Hv.
  set (r2 := remember r1 _ _). assert (Hman : er_manager r2 = er_manager r1 /\ er_cache r2 = er_cache r1).
  { unfold r2, remember. cbv zeta. by case_match. }
  destruct Hman as [Hman Hca]. assert (Hrc : rcache r2 = rcache r1) by (unfold rcache; by rewrite Hman, Hca).
  split; [exact Hm|]. split; [exact Hn|]. split; [by rewrite Hman, <- rcache_shared|].
  unfold ReconcileMissingFills, finish. rewrite <- Hrc in Hall.
  destruct (scan_fills_done start reports r2 (result_of ReconciliationCaseMissingFills s2) Hv Hall) as (x & -> & Hx1 & Hx2).
  split; [done|]. split; [unfold remember; cbv zeta; by case_match|]. done.
Qed.

(** The end of a run only completes the result and the audit. *)
Lemma finish_same e r result out r' result' out' :
  finish e (r, result, out) = (r', result', out') ->
  er_manager r' = er_manager r /\ rcache r' = rcache r /\ result' = result <| rn_CompletedAt := e |> /\ out' = out.
Proof.
  unfold finish. intros [= <- <- <-].
  assert (H : forall x, er_manager (remember r x out) = er_manager r /\ er_cache (remember r x out) = er_cache r)
    by (intros; unfold remember; cbv zeta; by repeat case_match).
  destruct (H (result <| rn_CompletedAt := e |>)) as [H1 H2]. unfold rcache. by rewrite H1, H2.
Qed.

(** ** The orders and fills of a mass status *)

Lemma ApplyFill_keeps_allow m f : em_allowOverfills (ApplyFill m f).1.1 = em_allowOverfills m.
Proof. unfold ApplyFill. cbv zeta. by repeat case_match. Qed.

Lemma deferred_nil c a o f : DeferredFillsForOrder c a o = [] -> for_order a o f -> deferred_in c f = false.
Proof. intros H (Ha & Ho & _). unfold deferred_in. by rewrite Ha, Ho, H. Qed.

(** While no fill of the order is deferred, the loop over fills is a run of the manager. *)
Lemma apply_fill_reports_run a o fs : forall r result r' result' u,
  shared_ok r -> em_allowOverfills (er_manager r) = false -> cache_Order (rcache r) a o = Some u ->
  DeferredFillsForOrder (rcache r) a o = [] -> Forall (for_order a o) fs ->
  apply_fill_reports r result fs = (r', result', Ok tt) ->
  exists outs, apply_fills (er_manager r) fs = (er_manager r', outs) /\ Forall (fun out => out.2 = Ok tt) outs /\
    er_cache r' = None /\
    rn_FillsApplied result' = (rn_FillsApplied result + List.length (taken fs outs))%nat.
Proof.
  induction fs as [|f fs IH]; intros r result r' result' u [Hs Hc] Hal Hu Hd Hfs H.
  { injection H as <- <-. exists []. split; [done|]. split; [constructor|]. split; [done|]. simpl. lia. }
  apply Forall_cons in Hfs as [Hf Hfs]. cbn [apply_fill_reports] in H.
  rewrite deferredFillExists_eq, (deferred_nil _ a o f Hd Hf) in H. unfold give_fill in H.
  destruct (ApplyFill (er_manager r) f) as [[m b] [[]|e]] eqn:E; [|done].
  set (r1 := r <| er_manager := m |>) in *. rewrite rcache_shared in * by done.
  destruct (apply_fills_run a o [f] (er_manager r) u m [(b, Ok tt)] Hc Hal Hu) as [u1 Hrun];
    [by constructor|simpl; by rewrite E|].
  assert (Hc1 : rcache r1 = em_cache m) by (by rewrite rcache_shared).
  assert (Hd1 : DeferredFillsForOrder (rcache r1) a o = []).
  { rewrite Hc1. rewrite (DeferredFills_eq _ _ a o (br_deferred _ _ _ _ _ _ _ _ Hrun)). exact Hd. }
  assert (Hal1 : em_allowOverfills m = false).
  { pose proof (ApplyFill_keeps_allow (er_manager r) f) as Hk. rewrite E in Hk. simpl in Hk. congruence. }
  assert (Hr1 : shared_ok r1) by (split; [done|]; exact (br_ok _ _ _ _ _ _ _ _ Hrun)).
  assert (Hu1 : cache_Order (rcache r1) a o = Some u1) by (rewrite Hc1; apply (br_stored _ _ _ _ _ _ _ _ Hrun)).
  rewrite deferredFillExists_eq, (deferred_nil _ a o f Hd1 Hf) in H.
  destruct (IH r1 _ r' result' u1 Hr1 Hal1 Hu1 Hd1 Hfs H) as (outs & Hrun' & Hok & Hs' & Hn).
  exists ((b, Ok tt) :: outs). simpl. rewrite E. simpl in Hrun'. rewrite Hrun'. split; [done|].
  split; [by constructor|]. split; [done|]. rewrite Hn. destruct b; [rewrite taken_cons; simpl; lia|done].
Qed.

Lemma filter_all {A} (p : A -> bool) (l : list A) : Forall (fun x => p x = true) l -> List.filter p l = l.
Proof. induction 1 as [|x l Hx _ IH]; simpl; [done|]. by rewrite Hx, IH. Qed.

(** A mass status adds its fills to its orders.  When the reconciliation of an order
    report and of new fills of that order succeeds, the filled quantity of the order is the
    reported one plus the total of the fills, although the venue reports quantities that
    already include them. *)
Theorem mass_status_adds_fills allow mode (ops : list ManagerOp) s e md venue report fs ts r' result :
  let m := run_mops (NewManager None allow mode) ops in
  let a := or_AccountID report in let o := or_OrderID report in
  em_allowOverfills m = false -> DeferredFillsForOrder (em_cache m) a o = [] ->
  Forall (for_order a o) fs -> NoDup (fr_TradeID <$> fs) -> Forall (fun f => known (em_cache m) f = false) fs ->
  ReconcileMassStatus s e (NewReconciler (ConfigManager m)) (mkExecutionMassStatus md a venue [] [report] fs [] ts)
    = (r', result, Ok tt) ->
  rn_FillsApplied result = List.length fs /\
  exists u, cache_Order (rcache r') a o = Some u /\
    dval (or_FilledQuantity u) == dval (or_FilledQuantity (normalizeOrder report)) + total fs.
Proof.
  intros m a o Hal Hd Hfs Hnd Hnew H. pose proof (reachable_cok allow mode ops) as Hc. fold m in Hc.
  unfold ReconcileMassStatus in H. destruct (ExecutionMassStatus_Validate _); [|done].
  cbn [ms_Orders ms_Fills ms_Positions ms_Accounts put_accounts foldl apply_orders apply_positions] in H.
  set (result0 := _ <| rn_AccountsApplied := _ |>) in H. cbn [NewReconciler er_manager] in H.
  destruct (ApplyOrderReport m report) as [m1 [[]|]] eqn:E; [|done].
  set (r1 := _ <| er_manager := m1 |>) in H. set (result1 := result0 <| rn_OrdersApplied := _ |>) in H.
  destruct (apply_fill_reports r1 result1 fs) as [[r2 result2] [[]|]] eqn:E2; [|done].
  apply finish_same in H as (_ & Hrc2 & -> & _).
  pose proof (ApplyOrderReport_cok m report Hc) as Hc1. rewrite E in Hc1. simpl in Hc1.
  unfold ApplyOrderReport in E. destruct (OrderStatusReport_Validate report); [|done].
  destruct (match cache_Order _ _ _ with Some _ => _ | None => _ end); [|done].
  destruct (PutOrder (em_cache m) report) as [c1|] eqn:Ep; [|done].
  destruct (PutOrder_stored _ _ _ (proj1 (cok_orders _ Hc)) Ep) as [Hst _].
  assert (Hd1 : DeferredFillsForOrder c1 a o = []).
  { by rewrite (DeferredFills_eq _ _ a o (PutOrder_same_deferred _ _ _ Ep)). }
  unfold replayDeferredFills in E. cbn [em_cache set set_em_cache] in E. fold a o in E. rewrite Hd1 in E. injection E as <-.
  assert (Hr1 : shared_ok r1) by (split; [done|exact Hc1]).
  assert (Hrc : rcache r1 = c1) by done.
  destruct (apply_fill_reports_run a o fs r1 result1 r2 result2 (normalizeOrder report) Hr1 Hal) as (outs & Hrun & Hok & Hs2 & Hn);
    [exact Hst|exact Hd1|done|exact E2|].
  assert (Hkn : forall f, known c1 f = known (em_cache m) f) by (intros; by rewrite !known_spec, (PutOrder_trade _ _ _ _ _ Ep)).
  assert (Htk : taken fs outs = fs).
  { rewrite (apply_fills_taken a o fs _ _ _ _ (proj2 Hr1) Hal Hst Hfs Hnd Hrun Hok).
    apply filter_all. eapply Forall_impl; [exact Hnew|]. intros f Hf. apply negb_true_iff. by rewrite <- Hf, <- Hkn. }
  destruct (apply_fills_run a o fs _ _ _ _ (proj2 Hr1) Hal Hst Hfs Hrun) as [u Hu]. rewrite Htk in *.
  split; [exact Hn|]. exists u. rewrite Hrc2, rcache_shared by done. split; [apply (br_stored _ _ _ _ _ _ _ _ Hu)|].
  rewrite (br_total _ _ _ _ _ _ _ _ Hu), Htk. done.
Qed.

(** ** Orders of others *)

(** The manager after the reports that are applied. *)
Definition apply_reports m (reports : list OrderStatusReport) : Manager :=
  foldl (fun m report => (ApplyOrderReport m report).1) m reports.

Definition external := isExternalOrderReport.

Lemma import_refused strategyID reports : forall r result r' result',
  import_orders false strategyID r result reports = (r', result', Ok tt) ->
  er_manager r' = apply_reports (er_manager r) (List.filter (fun x => negb (external x)) reports) /\
  er_cache r' = er_cache r /\
  rn_Unresolved result' = rn_Unresolved result ++
    ((fun x => order_discrepancy "external_order_rejected" x "external order import disabled") <$> List.filter external reports) /\
  (rn_OrdersApplied result' + List.length (rn_Unresolved result') =
     rn_OrdersApplied result + List.length (rn_Unresolved result) + List.length reports)%nat.
Proof.
  induction reports as [|x reports IH]; intros r result r' result' H; cbn [import_orders] in H.
  { injection H as <- <-. simpl. rewrite app_nil_r. split_and!; [done..|lia]. }
  destruct (OrderStatusReport_Validate x); [|done]. cbv zeta in H.
  assert (Hsc : rn_OrdersApplied (scanned (or_AccountID x) (or_InstrumentID x) result) = rn_OrdersApplied result /\
                rn_Unresolved (scanned (or_AccountID x) (or_InstrumentID x) result) = rn_Unresolved result)
    by (unfold scanned; cbv zeta; repeat case_match; done).
  set (result1 := scanned _ _ result) in *. clearbody result1. destruct Hsc as [<- <-].
  unfold external in *. simpl List.filter. destruct (isExternalOrderReport x) eqn:Ex; simpl in H; simpl negb; cbv iota.
  - apply IH in H as (H1 & H2 & H3 & H4). simpl in H3, H4. split_and!; [done|done| |].
    + rewrite H3. simpl. by rewrite <- app_assoc.
    + rewrite length_app in H4. simpl in *. lia.
  - destruct (ApplyOrderReport (er_manager r) x) as [m [[]|]] eqn:E; [|done].
    apply IH in H as (H1 & H2 & H3 & H4). simpl in H1, H3, H4. split_and!; [|done..|].
    + rewrite H1. unfold apply_reports. simpl. by rewrite E.
    + rewrite H4. simpl. lia.
Qed.

(** Orders of others stay out unless imported.  When the import of external orders is
    disabled and a run succeeds, the manager is as if only the reports with a client order
    id or a strategy had been applied, in order; each of the others is reported once as
    unresolved; and every report is one or the other. *)
Theorem external_orders_refused s e r reports strategyID r' result :
  ReconcileExternalOrders s e r reports (mkExternalOrderPolicy false strategyID) = (r', result, Ok tt) ->
  er_manager r' = apply_reports (er_manager r) (List.filter (fun x => negb (external x)) reports) /\
  rn_Unresolved result = (fun x => order_discrepancy "external_order_rejected" x "external order import disabled")
                           <$> List.filter external reports /\
  (rn_OrdersApplied result + List.length (rn_Unresolved result) = List.length reports)%nat.
Proof.
  unfold ReconcileExternalOrders, finish. simpl.
  destruct (import_orders _ _ _ _ _) as [[r1 result1] out] eqn:E. intros [= <- <- ->].
  apply import_refused in E as (H1 & _ & H3 & H4). simpl in *. split; [|by split].
  unfold remember. cbv zeta. by case_match.
Qed.

(** ** Discrepancies *)

Lemma detect_ok r reports : forall result result',
  detect r result reports = (result', Ok tt) ->
  rn_Unresolved result' = rn_Unresolved result ++
    mjoin ((fun x => match localOrder r x with Some local => order_discrepancies local x | None => [] end) <$> reports).
Proof.
  induction reports as [|x reports IH]; intros result result' H; cbn [detect] in H.
  { injection H as <-. simpl. by rewrite app_nil_r. }
  destruct (OrderStatusReport_Validate x); [|done]. cbv zeta in H.
  assert (Hsc : rn_Unresolved (scanned (or_AccountID x) (or_InstrumentID x) result) = rn_Unresolved result)
    by (unfold scanned; cbv zeta; repeat case_match; done).
  set (result1 := scanned _ _ result) in *. clearbody result1. rewrite <- Hsc. simpl.
  destruct (localOrder r x); apply IH in H; rewrite H; simpl; [by rewrite <- app_assoc|done].
Qed.

Lemma order_discrepancies_nil local x :
  order_discrepancies local x = [] <->
  OrderStatus_IsOpen (or_Status local) = OrderStatus_IsOpen (or_Status x) /\
  dval (or_FilledQuantity local) == dval (or_FilledQuantity x).
Proof.
  unfold order_discrepancies. rewrite app_nil, <- Equal_spec.
  destruct (Bool.eqb _ _) eqn:E1; [apply eqb_prop in E1|apply eqb_false_iff in E1];
    destruct (Equal _ _); naive_solver.
Qed.

(** Discrepancies.  A run that succeeds changes neither the orders nor the manager, and
    finds nothing exactly when every reported order the cache knows is open or closed as reported and
    filled as much as reported. *)
Theorem discrepancies_found s e r reports r' result :
  DetectOrderDiscrepancies s e r reports = (r', result, Ok tt) ->
  er_manager r' = er_manager r /\ rcache r' = rcache r /\
  (rn_Unresolved result = [] <->
   forall x local, x ∈ reports -> localOrder r x = Some local ->
     OrderStatus_IsOpen (or_Status local) = OrderStatus_IsOpen (or_Status x) /\
     dval (or_FilledQuantity local) == dval (or_FilledQuantity x)).
Proof.
  unfold DetectOrderDiscrepancies, finish. destruct (detect _ _ _) as [result1 out] eqn:E. intros [= <- <- ->].
  apply detect_ok in E. simpl in *. split; [unfold remember; cbv zeta; by case_match|].
  split; [unfold remember, rcache; cbv zeta; by repeat case_match|]. rewrite E. clear E.
  induction reports as [|x reports IH]; simpl; [split; [intros _ ? ? []%elem_of_nil|done]|].
  rewrite app_nil, IH. setoid_rewrite elem_of_cons.
  destruct (localOrder r x) as [local|] eqn:El; [rewrite order_discrepancies_nil|]; naive_solver.
Qed.
End facts.
