(* ===== verification/Portfolio.v ===== *)
(** * The portfolio (portfolio/portfolio.go)

    Positions, realized and unrealized profit, commissions, marks, currency conversion and
    account balances, updated by fills and market events.  Each method holds the portfolio's
    lock, so it is one step; the methods that fill the cache of unrealized profits return the
    new portfolio with their value, though they hold the lock for reading only.

    Loops that range over a Go map or over [Cache.Instruments] and only add amounts use one
    enumeration, since decimal addition is exact and commutative; the exchange-rate search, which
    takes the first match, gets its enumeration as the argument [Instruments]. *)
From stdpp Require Import base gmap list strings.
From S2P Require Import Prelude Decimals Enums Identifiers Orders Market Accounts Cache.

Open Scope go_scope.

Section portfolio.
Context {DD : Decimal}.

(** [portfolio.TradeRecord] *)
Record TradeRecord := mkTradeRecord {
  tr_AccountID : AccountID;
  tr_InstrumentID : InstrumentID;
  tr_PositionID : PositionID;
  tr_Currency : Currency;
  tr_RealizedPnL : D;
  tr_AccountCurrency : Currency;
  tr_AccountCurrencyPnL : D;
}.

(** [portfolio.Portfolio]; [pf_analyzer] tells whether an analyzer is set and [pf_recorded] is what it was sent. *)
Record Portfolio := mkPortfolio {
  pf_cache : Cache;
  pf_marks : gmap AccountID (gmap InstrumentID D);
  pf_realized : gmap AccountID (gmap InstrumentID D);
  pf_commissions : gmap AccountID (gmap Currency D);
  pf_conversions : gmap Currency (gmap Currency D);
  pf_unrealizedCache : gmap AccountID (gmap InstrumentID D);
  pf_appliedFills : gmap AccountID (gmap OrderID (gset TradeID));
  pf_analyzer : bool;
  pf_recorded : list TradeRecord;
}.

#[global] Instance set_pf_cache : Setter pf_cache := fun f r => mkPortfolio (f (pf_cache r))
  (pf_marks r) (pf_realized r) (pf_commissions r) (pf_conversions r) (pf_unrealizedCache r)
  (pf_appliedFills r) (pf_analyzer r) (pf_recorded r).
#[global] Instance set_pf_marks : Setter pf_marks := fun f r => mkPortfolio (pf_cache r) (f
  (pf_marks r)) (pf_realized r) (pf_commissions r) (pf_conversions r) (pf_unrealizedCache r)
  (pf_appliedFills r) (pf_analyzer r) (pf_recorded r).
#[global] Instance set_pf_realized : Setter pf_realized := fun f r => mkPortfolio (pf_cache r)
  (pf_marks r) (f (pf_realized r)) (pf_commissions r) (pf_conversions r) (pf_unrealizedCache r)
  (pf_appliedFills r) (pf_analyzer r) (pf_recorded r).
#[global] Instance set_pf_commissions : Setter pf_commissions := fun f r => mkPortfolio (pf_cache r)
  (pf_marks r) (pf_realized r) (f (pf_commissions r)) (pf_conversions r) (pf_unrealizedCache r)
  (pf_appliedFills r) (pf_analyzer r) (pf_recorded r).
#[global] Instance set_pf_conversions : Setter pf_conversions := fun f r => mkPortfolio (pf_cache r)
  (pf_marks r) (pf_realized r) (pf_commissions r) (f (pf_conversions r)) (pf_unrealizedCache r)
  (pf_appliedFills r) (pf_analyzer r) (pf_recorded r).
#[global] Instance set_pf_unrealizedCache : Setter pf_unrealizedCache := fun f r => mkPortfolio
  (pf_cache r) (pf_marks r) (pf_realized r) (pf_commissions r) (pf_conversions r) (f
  (pf_unrealizedCache r)) (pf_appliedFills r) (pf_analyzer r) (pf_recorded r).
#[global] Instance set_pf_appliedFills : Setter pf_appliedFills := fun f r => mkPortfolio (pf_cache
  r) (pf_marks r) (pf_realized r) (pf_commissions r) (pf_conversions r) (pf_unrealizedCache r) (f
  (pf_appliedFills r)) (pf_analyzer r) (pf_recorded r).
#[global] Instance set_pf_analyzer : Setter pf_analyzer := fun f r => mkPortfolio (pf_cache r)
  (pf_marks r) (pf_realized r) (pf_commissions r) (pf_conversions r) (pf_unrealizedCache r)
  (pf_appliedFills r) (f (pf_analyzer r)) (pf_recorded r).
#[global] Instance set_pf_recorded : Setter pf_recorded := fun f r => mkPortfolio (pf_cache r)
  (pf_marks r) (pf_realized r) (pf_commissions r) (pf_conversions r) (pf_unrealizedCache r)
  (pf_appliedFills r) (pf_analyzer r) (f (pf_recorded r)).

(** [portfolio.New] *)
Definition NewPortfolio (c : option Cache) : Portfolio := mkPortfolio (default New c) ∅ ∅ ∅ ∅ ∅ ∅ false [].

Definition SetAnalyzer (p : Portfolio) (analyzer : bool) : Portfolio := p <| pf_analyzer := analyzer |>.

(** Reading a map of amounts gives zero for a missing entry. *)
Definition amount {A K} `{Countable A} `{Countable K} (m : gmap A (gmap K D)) (a : A) (k : K) : D :=
  default dzero (get2 m a k).
Definition add_amount {A K} `{Countable A} `{Countable K} (m : gmap A (gmap K D)) (a : A) (k : K) (x : D) :=
  put2 m a k (dadd (amount m a k) x).
Definition add_to {K} `{Countable K} (m : gmap K D) (k : K) (x : D) : gmap K D :=
  <[k := dadd (default dzero (m !! k)) x]> m.

(** ** Small helpers *)

Definition sameDirection (position : PositionStatusReport) (fill : FillReport) : bool :=
  (pr_Side position ≟ PositionSideLong) && (fr_Side fill ≟ OrderSideBuy) ||
  (pr_Side position ≟ PositionSideShort) && (fr_Side fill ≟ OrderSideSell).

Definition signedPosition (position : PositionStatusReport) : D :=
  if pr_Side position ≟ PositionSideShort then dneg (pr_Quantity position) else pr_Quantity position.

Definition fillSignedQuantity (fill : FillReport) : D :=
  if fr_Side fill ≟ OrderSideSell then dneg (fr_Quantity fill) else fr_Quantity fill.

Definition sideFromSigned (qty : D) : PositionSide :=
  if IsPositive qty then PositionSideLong
  else if IsNegative qty then PositionSideShort else PositionSideFlat.

Definition settlementCurrency (inst : Instrument) : Currency :=
  if in_Settle inst ≠? "" then in_Settle inst else in_Quote inst.

Definition pnlCurrency (p : Portfolio) (i : InstrumentID) : Currency :=
  match cache_Instrument (pf_cache p) i with None => "" | Some inst => settlementCurrency inst end.

Definition flat (position : PositionStatusReport) : bool :=
  (pr_Side position ≟ PositionSideFlat) || IsZero (pr_Quantity position).

(** ** Marks and the cache of unrealized profits *)

Definition invalidatePnL (p : Portfolio) (a : AccountID) (i : InstrumentID) : Portfolio :=
  let m := del2 (pf_unrealizedCache p) a i in
  p <| pf_unrealizedCache := if bool_decide (inner m a = ∅) then delete a m else m |>.

Definition invalidateAccountPnL (p : Portfolio) (a : AccountID) : Portfolio :=
  p <| pf_unrealizedCache := delete a (pf_unrealizedCache p) |>.

(** [setMarkLocked], behind [SetMark]. *)
Definition SetMark (p : Portfolio) (a : AccountID) (i : InstrumentID) (price : D) : Portfolio :=
  invalidatePnL (p <| pf_marks := put2 (pf_marks p) a i price |>) a i.

Definition SetConversionRate (p : Portfolio) (from to : Currency) (rate : D) : outcome Portfolio unit :=
  if (from ≟ "") || (to ≟ "") || negb (IsPositive rate)
  then (p, Fail (mkErr ErrInvalidAccount "invalid conversion rate"))
  else (p <| pf_conversions := put2 (pf_conversions p) from to rate |>, Ok tt).

Definition computeUnrealizedPnL (p : Portfolio) (a : AccountID) (i : InstrumentID) : D :=
  match PositionByInstrument (pf_cache p) a i with
  | None => dzero
  | Some position =>
      if flat position then dzero
      else
        let mark := amount (pf_marks p) a i in
        if negb (IsPositive mark) then dzero
        else if pr_Side position ≟ PositionSideShort
        then dmul (dsub (pr_EntryPrice position) mark) (pr_Quantity position)
        else dmul (dsub mark (pr_EntryPrice position)) (pr_Quantity position)
  end.

(** [unrealizedPnLLocked], behind [UnrealizedPnL]. *)
Definition UnrealizedPnL (p : Portfolio) (a : AccountID) (i : InstrumentID) : Portfolio * D :=
  match get2 (pf_unrealizedCache p) a i with
  | Some value => (p, value)
  | None =>
      let value := computeUnrealizedPnL p a i in
      (p <| pf_unrealizedCache := put2 (pf_unrealizedCache p) a i value |>, value)
  end.

(** ** Positions *)

(** The [nextPosition] of the portfolio: the position after a fill. *)
Definition nextPosition (p : Portfolio) (fill : FillReport) : PositionStatusReport :=
  let positionID := if fr_PositionID fill ≠? "" then fr_PositionID fill
                    else InstrumentID_String (fr_InstrumentID fill) in
  match cache_Position (pf_cache p) (fr_AccountID fill) positionID with
  | None =>
      mkPositionStatusReport CommandMetadata_zero (fr_AccountID fill) (fr_InstrumentID fill) positionID ""
        (sideFromSigned (fillSignedQuantity fill)) (fr_Quantity fill) (fr_Price fill) (fr_Timestamp fill)
  | Some existing =>
      let signed := dadd (signedPosition existing) (fillSignedQuantity fill) in
      let side := sideFromSigned signed in
      let absQty := dabs signed in
      let entry := fr_Price fill in
      let entry :=
        if sameDirection existing fill then
          let totalQty := dadd (pr_Quantity existing) (fr_Quantity fill) in
          if IsPositive totalQty
          then ddiv (dadd (dmul (pr_EntryPrice existing) (pr_Quantity existing))
                          (dmul (fr_Price fill) (fr_Quantity fill))) totalQty
          else entry
        else if GreaterThan (pr_Quantity existing) (fr_Quantity fill) then pr_EntryPrice existing
        else entry in
      let entry := if side ≟ PositionSideFlat then dzero else entry in
      mkPositionStatusReport CommandMetadata_zero (fr_AccountID fill) (fr_InstrumentID fill) positionID ""
        side absQty entry (fr_Timestamp fill)
  end.

Definition applyCommission (p : Portfolio) (fill : FillReport) : Portfolio :=
  if negb (IsPositive (fr_Fee fill)) || (fr_FeeCurrency fill ≟ "") then p
  else p <| pf_commissions := add_amount (pf_commissions p) (fr_AccountID fill) (fr_FeeCurrency fill) (fr_Fee fill) |>.

(** [applyRealizedPnLFromPosition]: the new portfolio and the profit realized. *)
Definition applyRealizedPnLFromPosition (p : Portfolio) (fill : FillReport) (position : option PositionStatusReport)
    : Portfolio * D :=
  match position with
  | None => (p, dzero)
  | Some position =>
      if flat position then (p, dzero)
      else if sameDirection position fill then (p, dzero)
      else
        let closeQty := dmin (pr_Quantity position) (fr_Quantity fill) in
        if negb (IsPositive closeQty) then (p, dzero)
        else
          let pnl := dmul (dsub (fr_Price fill) (pr_EntryPrice position)) closeQty in
          let pnl := if pr_Side position ≟ PositionSideShort
                     then dmul (dsub (pr_EntryPrice position) (fr_Price fill)) closeQty else pnl in
          (p <| pf_realized := add_amount (pf_realized p) (fr_AccountID fill) (fr_InstrumentID fill) pnl |>, pnl)
  end.

(** ** Currency conversion *)

Section conversion.
(** What [Cache.Instruments] returns to the search for a rate between two currencies. *)
Context (Instruments : Currency -> Currency -> list Instrument).

Definition tradeOrBar (c : Cache) (i : InstrumentID) : option D :=
  match cache_TradeTick c i with
  | Some trade => if IsPositive (tt_Price trade) then Some (tt_Price trade)
                  else bar ← LatestBar c i; (if IsPositive (br_Close bar) then Some (br_Close bar) else None)
  | None => bar ← LatestBar c i; (if IsPositive (br_Close bar) then Some (br_Close bar) else None)
  end.

Definition xratePrice (c : Cache) (i : InstrumentID) : option D :=
  let from_quote :=
    quote ← cache_QuoteTick c i;
    if IsPositive (qt_BidPrice quote) && IsPositive (qt_AskPrice quote)
    then Some (ddiv (dadd (qt_BidPrice quote) (qt_AskPrice quote)) (dint 2))
    else if IsPositive (qt_BidPrice quote) then Some (qt_BidPrice quote)
    else if IsPositive (qt_AskPrice quote) then Some (qt_AskPrice quote) else None in
  let from_ticker :=
    ticker ← cache_Ticker c i;
    if IsPositive (tk_Bid ticker) && IsPositive (tk_Ask ticker)
    then Some (ddiv (dadd (tk_Bid ticker) (tk_Ask ticker)) (dint 2))
    else if IsPositive (tk_Last ticker) then Some (tk_Last ticker) else None in
  match from_quote, from_ticker with
  | Some x, _ => Some x
  | None, Some x => Some x
  | None, None => tradeOrBar c i
  end.

(** The search of [exchangeRateLocked] through the instruments. *)
Fixpoint marketRate (c : Cache) (insts : list Instrument) (from to : Currency) : option D :=
  match insts with
  | [] => None
  | inst :: insts =>
      match xratePrice c (in_ID inst) with
      | None => marketRate c insts from to
      | Some price =>
          if negb (IsPositive price) then marketRate c insts from to
          else if (in_Base inst ≟ from) && (in_Quote inst ≟ to) then Some price
          else if (in_Base inst ≟ to) && (in_Quote inst ≟ from) then Some (ddiv (dint 1) price)
          else marketRate c insts from to
      end
  end.

Definition positive_rate (o : option D) : option D := rate ← o; (if IsPositive rate then Some rate else None).

Definition exchangeRate (p : Portfolio) (from to : Currency) : option D :=
  match positive_rate (get2 (pf_conversions p) from to), positive_rate (get2 (pf_conversions p) to from) with
  | Some rate, _ => Some rate
  | None, Some rate => Some (ddiv (dint 1) rate)
  | None, None => marketRate (pf_cache p) (Instruments from to) from to
  end.

Definition convertAmount (p : Portfolio) (x : D) (from to : Currency) : option D :=
  if (from ≟ "") || (to ≟ "") then None
  else if from ≟ to then Some x
  else rate ← exchangeRate p from to; Some (dmul x rate).

Definition convertValues (p : Portfolio) (values : gmap Currency D) (target : Currency) : gmap Currency D :=
  foldl (fun converted '(currency, x) =>
    match convertAmount p x currency target with
    | None => converted
    | Some value => add_to converted target value
    end) ∅ (map_to_list values).

Definition convertForAccount (p : Portfolio) (account : AccountSnapshot) (values : gmap Currency D) : gmap Currency D :=
  if as_BaseCurrency account ≟ "" then values else convertValues p values (as_BaseCurrency account).

Definition convertForAccountBase (p : Portfolio) (a : AccountID) (values : gmap Currency D) : gmap Currency D :=
  match cache_Account (pf_cache p) a with None => values | Some account => convertForAccount p account values end.

(** ** Balances *)

(** Adds a delta to the first balance of the currency; [range deltas] visits the map in any order. *)
Fixpoint find_balance (balances : list Balance) (currency : Currency) : option (list Balance * Balance * list Balance) :=
  match balances with
  | [] => None
  | b :: rest =>
      if bl_Currency b ≟ currency then Some ([], b, rest)
      else '(before, x, after) ← find_balance rest currency; Some (b :: before, x, after)
  end.

Definition apply_delta (balances : list Balance) (currency : Currency) (delta : D) : res (list Balance) :=
  if IsZero delta then Ok balances
  else match find_balance balances currency with
  | None =>
      if IsNegative delta then Fail (mkErr ErrInvalidAccount "missing balance")
      else Ok (balances ++ [mkBalance currency (dstring delta) "" (dstring delta)])
  | Some (before, b, after) =>
      '(total, locked, free) ← Balance_Amounts b;
      let total := dadd total delta in
      let free := dadd free delta in
      fail_if IsNegative total || IsNegative free with mkErr ErrInvalidAccount "balance delta makes balance negative" ;;
      Ok (before ++ mkBalance currency (dstring free) (dstring locked) (dstring total) :: after)
  end.

Fixpoint apply_deltas (balances : list Balance) (deltas : list (Currency * D)) : res (list Balance) :=
  match deltas with
  | [] => Ok balances
  | (currency, delta) :: deltas => balances ← apply_delta balances currency delta; apply_deltas balances deltas
  end.

Definition accountWithBalanceDeltas (account : AccountSnapshot) (deltas : list (Currency * D)) : res AccountSnapshot :=
  balances ← apply_deltas (as_Balances account) deltas;
  let updated := account <| as_Balances := balances |> in
  ensure AccountSnapshot_Validate updated ;;
  Ok updated.

Definition fill_deltas (p : Portfolio) (fill : FillReport) (realizedDelta : D) : gmap Currency D :=
  let deltas : gmap Currency D :=
    if negb (IsZero realizedDelta) && (pnlCurrency p (fr_InstrumentID fill) ≠? "")
    then add_to ∅ (pnlCurrency p (fr_InstrumentID fill)) realizedDelta else ∅ in
  if IsPositive (fr_Fee fill) && (fr_FeeCurrency fill ≠? "")
  then <[fr_FeeCurrency fill := dsub (default dzero (deltas !! fr_FeeCurrency fill)) (fr_Fee fill)]> deltas
  else deltas.

(** [order] arranges the deltas as Go ranges over them. *)
Definition applyFillBalanceDeltas (order : list (Currency * D) -> list (Currency * D)) (p : Portfolio)
    (fill : FillReport) (realizedDelta : D) : outcome Portfolio unit :=
  let deltas := fill_deltas p fill realizedDelta in
  if bool_decide (deltas = ∅) then (p, Ok tt)
  else match cache_Account (pf_cache p) (fr_AccountID fill) with
  | None => (p, Ok tt)
  | Some account =>
      match accountWithBalanceDeltas account (order (map_to_list deltas)) with
      | Fail err => (p, Fail err)
      | Ok updated => (p <| pf_cache := PutAccount (pf_cache p) updated |>, Ok tt)
      end
  end.

Definition recordClosedTrade (p : Portfolio) (fill : FillReport) (previous : option PositionStatusReport)
    (position : PositionStatusReport) (realizedDelta : D) : Portfolio :=
  match previous with
  | None => p
  | Some previous =>
      if negb (pf_analyzer p) || IsZero realizedDelta then p
      else if flat previous then p
      else if negb ((pr_Side position ≟ PositionSideFlat) || (pr_Side position ≠? pr_Side previous)) then p
      else
        let currency := pnlCurrency p (fr_InstrumentID fill) in
        if currency ≟ "" then p
        else
          let converted :=
            account ← cache_Account (pf_cache p) (fr_AccountID fill);
            if as_BaseCurrency account ≠? ""
            then x ← convertAmount p realizedDelta currency (as_BaseCurrency account);
                 Some (as_BaseCurrency account, x)
            else None in
          let '(accountCurrency, accountCurrencyPnL) := default (currency, realizedDelta) converted in
          p <| pf_recorded := pf_recorded p ++
                 [mkTradeRecord (fr_AccountID fill) (fr_InstrumentID fill) (pr_PositionID previous) currency
                    realizedDelta accountCurrency accountCurrencyPnL] |>
  end.

(** ** Fills *)

Definition hasAppliedFill (p : Portfolio) (fill : FillReport) : bool :=
  bool_decide (fr_TradeID fill ∈ (default ∅ (get2 (pf_appliedFills p) (fr_AccountID fill) (fr_OrderID fill)) : gset TradeID)).

Definition markAppliedFill (p : Portfolio) (fill : FillReport) : Portfolio :=
  p <| pf_appliedFills :=
         put2 (pf_appliedFills p) (fr_AccountID fill) (fr_OrderID fill)
           ({[fr_TradeID fill]} ∪ default ∅ (get2 (pf_appliedFills p) (fr_AccountID fill) (fr_OrderID fill))) |>.

Definition applyFillAccounting (order : list (Currency * D) -> list (Currency * D)) (p : Portfolio) (fill : FillReport)
    (previous : option PositionStatusReport) (position : PositionStatusReport) : outcome Portfolio unit :=
  if hasAppliedFill p fill then (p, Ok tt)
  else match PutFill (pf_cache p) fill with
  | Fail err => (p, Fail err)
  | Ok (c, _) =>
      let p := p <| pf_cache := c |> in
      let p := markAppliedFill p fill in
      let p := applyCommission p fill in
      let '(p, realizedDelta) := applyRealizedPnLFromPosition p fill previous in
      match PutPosition (pf_cache p) position with
      | Fail err => (p, Fail err)
      | Ok c =>
          let p := p <| pf_cache := c |> in
          match applyFillBalanceDeltas order p fill realizedDelta with
          | (p, Fail err) => (p, Fail err)
          | (p, Ok _) =>
              let p := recordClosedTrade p fill previous position realizedDelta in
              (SetMark p (fr_AccountID fill) (fr_InstrumentID fill) (fr_Price fill), Ok tt)
          end
      end
  end.

Definition default_side (fill : FillReport) : FillReport :=
  if fr_Side fill ≟ OrderSideNone then fill <| fr_Side := OrderSideBuy |> else fill.

Definition ApplyFill (order : list (Currency * D) -> list (Currency * D)) (p : Portfolio) (fill : FillReport)
    : outcome Portfolio unit :=
  match FillReport_Validate fill with
  | Fail err => (p, Fail err)
  | Ok _ =>
      let fill := default_side fill in
      let previous := PositionByInstrument (pf_cache p) (fr_AccountID fill) (fr_InstrumentID fill) in
      let position := nextPosition p fill in
      applyFillAccounting order p fill previous position
  end.

Definition ApplyFillWithPosition (order : list (Currency * D) -> list (Currency * D)) (p : Portfolio)
    (fill : FillReport) (previous : option PositionStatusReport) (position : PositionStatusReport)
    : outcome Portfolio unit :=
  match FillReport_Validate fill with
  | Fail err => (p, Fail err)
  | Ok _ => applyFillAccounting order p (default_side fill) previous position
  end.

(** ** Events *)

Definition putOrder (p : Portfolio) (report : OrderStatusReport) : outcome Portfolio unit :=
  match PutOrder (pf_cache p) report with
  | Fail err => (p, Fail err)
  | Ok c => (invalidatePnL (p <| pf_cache := c |>) (or_AccountID report) (or_InstrumentID report), Ok tt)
  end.

Definition putPosition (p : Portfolio) (position : PositionStatusReport) : outcome Portfolio unit :=
  match PutPosition (pf_cache p) position with
  | Fail err => (p, Fail err)
  | Ok c =>
      let a := pr_AccountID position in
      let i := pr_InstrumentID position in
      let p := invalidatePnL (p <| pf_cache := c |>) a i in
      if IsPositive (pr_EntryPrice position) && negb (IsPositive (amount (pf_marks p) a i))
      then (SetMark p a i (pr_EntryPrice position), Ok tt)
      else (p, Ok tt)
  end.

Definition UpdateAccount (p : Portfolio) (account : AccountSnapshot) : outcome Portfolio unit :=
  match AccountSnapshot_Validate account with
  | Fail err => (p, Fail err)
  | Ok _ => (invalidateAccountPnL (p <| pf_cache := PutAccount (pf_cache p) account |>) (as_AccountID account), Ok tt)
  end.

Definition handleOrderLifecycleEvent (p : Portfolio) (event : OrderLifecycleEvent) : outcome Portfolio unit :=
  match oe_Report event with
  | Some report => putOrder p report
  | None =>
      if oe_OrderID event ≟ "" then (p, Ok tt)
      else putOrder p (OrderStatusReport_zero
        <| or_Metadata := oe_Metadata event |> <| or_AccountID := oe_AccountID event |>
        <| or_InstrumentID := oe_InstrumentID event |> <| or_OrderID := oe_OrderID event |>
        <| or_ClientOrderID := oe_ClientOrderID event |> <| or_VenueOrderID := oe_VenueOrderID event |>
        <| or_Status := oe_Status event |>)
  end.

Definition handlePositionLifecycleEvent (p : Portfolio) (event : PositionLifecycleEvent) : outcome Portfolio unit :=
  match pe_Report event with
  | Some report => putPosition p report
  | None => putPosition p (mkPositionStatusReport CommandMetadata_zero (pe_AccountID event) (pe_InstrumentID event)
              (pe_PositionID event) "" (pe_Side event) (pe_Quantity event) dzero 0%Z)
  end.

Definition HandleExecutionEvent (order : list (Currency * D) -> list (Currency * D)) (p : Portfolio)
    (event : ExecutionEvent) : outcome Portfolio unit :=
  match ExecutionEvent_Validate event with
  | Fail err => (p, Fail err)
  | Ok _ =>
      match ee_Account event, ee_Order event, ee_Lifecycle event, ee_Fill event, ee_Position event,
            ee_PositionLifecycle event with
      | Some account, _, _, _, _, _ => UpdateAccount p account
      | None, Some report, _, _, _, _ => putOrder p report
      | None, None, Some lifecycle, _, _, _ => handleOrderLifecycleEvent p lifecycle
      | None, None, None, Some fill, _, _ => ApplyFill order p fill
      | None, None, None, None, Some position, _ => putPosition p position
      | None, None, None, None, None, Some lifecycle => handlePositionLifecycleEvent p lifecycle
      | None, None, None, None, None, None => (p, Fail (mkErr ErrInvalidExecutionEvent ""))
      end
  end.

Definition marketEventMark (event : MarketEvent) (side : PositionSide) : D :=
  let short := side ≟ PositionSideShort in
  let long := side ≟ PositionSideLong in
  match ev_Quote event, ev_OrderBook event, ev_Ticker event, ev_Trade event, ev_Bar event with
  | Some quote, _, _, _, _ => if short then qt_AskPrice quote else qt_BidPrice quote
  | None, Some book, _, _, _ =>
      match short, ob_Asks book, long, ob_Bids book with
      | true, ask :: _, _, _ => lv_Price ask
      | _, _, true, bid :: _ => lv_Price bid
      | _, _, _, _ => dzero
      end
  | None, None, Some ticker, _, _ =>
      if IsPositive (tk_Last ticker) then tk_Last ticker else if short then tk_Ask ticker else tk_Bid ticker
  | None, None, None, Some trade, _ => tt_Price trade
  | None, None, None, None, Some bar => br_Close bar
  | None, None, None, None, None => dzero
  end.

Definition ApplyMarketEvent (p : Portfolio) (event : MarketEvent) : outcome Portfolio unit :=
  match MarketEvent_Validate event with
  | Fail err => (p, Fail err)
  | Ok _ =>
      match PutMarketEvent (pf_cache p) event with
      | Fail err => (p, Fail err)
      | Ok c =>
          let p := p <| pf_cache := c |> in
          let i := MarketEvent_InstrumentID event in
          (foldl (fun p position =>
             if flat position then p
             else
               let mark := marketEventMark event (pr_Side position) in
               if IsPositive mark then SetMark p (pr_AccountID position) i mark else p)
             p (PositionsForInstrument (pf_cache p) i), Ok tt)
      end
  end.

(** ** Reports *)

Definition RealizedPnL (p : Portfolio) (a : AccountID) (i : InstrumentID) : D := amount (pf_realized p) a i.
Definition Commission (p : Portfolio) (a : AccountID) (currency : Currency) : D := amount (pf_commissions p) a currency.

Definition balancesLocked (account : AccountSnapshot) : gmap Currency D :=
  foldl (fun locked b =>
    match Balance_LockedAmount b with Fail _ => locked | Ok x => add_to locked (bl_Currency b) x end)
    ∅ (as_Balances account).
Definition BalancesLocked (p : Portfolio) (a : AccountID) : gmap Currency D :=
  match cache_Account (pf_cache p) a with None => ∅ | Some account => balancesLocked account end.

Definition balanceTotals (account : AccountSnapshot) : gmap Currency D :=
  foldl (fun values b =>
    match Balance_TotalAmount b with Fail _ => values | Ok x => add_to values (bl_Currency b) x end)
    ∅ (as_Balances account).

Definition marginsByInstrument (p : Portfolio) (a : AccountID) (initial : bool) : gmap InstrumentID D :=
  match cache_Account (pf_cache p) a with
  | None => ∅
  | Some account =>
      foldl (fun values margin =>
        if mb_InstrumentID margin ≟ InstrumentID_zero then values
        else match MarginBalance_Amounts margin with
             | Fail _ => values
             | Ok (init, maint) => add_to values (mb_InstrumentID margin) (if initial then init else maint)
             end) ∅ (as_Margins account)
  end.
Definition MarginsInit (p : Portfolio) (a : AccountID) := marginsByInstrument p a true.
Definition MarginsMaint (p : Portfolio) (a : AccountID) := marginsByInstrument p a false.

Definition marginTotalsFromAccount (account : AccountSnapshot) (initial : bool) : gmap Currency D :=
  foldl (fun values margin =>
    match MarginBalance_Amounts margin with
    | Fail _ => values
    | Ok (init, maint) => add_to values (mb_Currency margin) (if initial then init else maint)
    end) ∅ (as_Margins account).

Definition add_all (values extra : gmap Currency D) : gmap Currency D :=
  foldl (fun values '(currency, x) => add_to values currency x) values (map_to_list extra).
Definition sub_all (values extra : gmap Currency D) : gmap Currency D :=
  foldl (fun values '(currency, x) => <[currency := dsub (default dzero (values !! currency)) x]> values)
    values (map_to_list extra).

Definition RealizedPnLs (p : Portfolio) (a : AccountID) : gmap Currency D :=
  let values := foldl (fun values '(i, x) =>
                  let currency := pnlCurrency p i in
                  if currency ≟ "" then values else add_to values currency x)
                  ∅ (map_to_list (inner (pf_realized p) a)) in
  convertForAccountBase p a values.

Definition unrealizedPnLs (p : Portfolio) (a : AccountID) : Portfolio * gmap Currency D :=
  foldl (fun '(p, values) inst =>
    let '(p, x) := UnrealizedPnL p a (in_ID inst) in
    if IsZero x then (p, values)
    else let currency := settlementCurrency inst in
         if currency ≟ "" then (p, values) else (p, add_to values currency x))
    (p, ∅) (cache_Instruments (pf_cache p)).

Definition UnrealizedPnLs (p : Portfolio) (a : AccountID) : Portfolio * gmap Currency D :=
  let '(p, values) := unrealizedPnLs p a in (p, convertForAccountBase p a values).

Definition TotalPnLs (p : Portfolio) (a : AccountID) : Portfolio * gmap Currency D :=
  let values := RealizedPnLs p a in
  let '(p, unrealized) := UnrealizedPnLs p a in
  (p, add_all values unrealized).

Definition markValue (p : Portfolio) (a : AccountID) (i : InstrumentID) : D :=
  match PositionByInstrument (pf_cache p) a i with
  | None => dzero
  | Some position =>
      if flat position then dzero
      else
        let price := if IsPositive (amount (pf_marks p) a i) then amount (pf_marks p) a i else pr_EntryPrice position in
        let value := dmul (dabs (pr_Quantity position)) price in
        if pr_Side position ≟ PositionSideShort then dneg value else value
  end.
Definition MarkValue := markValue.

Definition markValues (p : Portfolio) (a : AccountID) : gmap Currency D :=
  foldl (fun values inst =>
    let value := markValue p a (in_ID inst) in
    if IsZero value then values
    else let currency := settlementCurrency inst in
         if currency ≟ "" then values else add_to values currency value)
    ∅ (cache_Instruments (pf_cache p)).
Definition MarkValues (p : Portfolio) (a : AccountID) : gmap Currency D := convertForAccountBase p a (markValues p a).

Definition equityNative (p : Portfolio) (account : AccountSnapshot) : Portfolio * gmap Currency D :=
  let values := balanceTotals account in
  if as_Type account ≟ AccountTypeCash
  then (p, add_all values (markValues p (as_AccountID account)))
  else let '(p, unrealized) := unrealizedPnLs p (as_AccountID account) in (p, add_all values unrealized).

Definition Equity (p : Portfolio) (a : AccountID) : Portfolio * gmap Currency D :=
  match cache_Account (pf_cache p) a with
  | None => (p, ∅)
  | Some account => let '(p, values) := equityNative p account in (p, convertForAccount p account values)
  end.

Definition AvailableEquity (p : Portfolio) (a : AccountID) : Portfolio * gmap Currency D :=
  match cache_Account (pf_cache p) a with
  | None => (p, ∅)
  | Some account =>
      let '(p, values) := equityNative p account in
      let values := sub_all values (balancesLocked account) in
      let values := sub_all values (marginTotalsFromAccount account true) in
      (p, convertForAccount p account values)
  end.

Definition Exposure (p : Portfolio) (a : AccountID) (quote : Currency) : D :=
  foldl (fun total inst =>
    match PositionByInstrument (pf_cache p) a (in_ID inst) with
    | None => total
    | Some position =>
        if flat position then total
        else
          let mark := amount (pf_marks p) a (in_ID inst) in
          let price := if IsPositive mark then mark else pr_EntryPrice position in
          let value := dmul (dabs (pr_Quantity position)) price in
          let currency := settlementCurrency inst in
          if currency ≠? quote
          then match convertAmount p value currency quote with None => total | Some value => dadd total value end
          else dadd total value
    end) dzero (cache_Instruments (pf_cache p)).

Definition sumSigned (positions : list PositionStatusReport) : D :=
  foldl (fun total position => if flat position then total else dadd total (signedPosition position)) dzero positions.

Definition NetPosition (p : Portfolio) (a : AccountID) (i : InstrumentID) : D :=
  if a ≠? "" then
    match PositionByInstrument (pf_cache p) a i with
    | None => dzero
    | Some position => if flat position then dzero else signedPosition position
    end
  else sumSigned (PositionsForInstrument (pf_cache p) i).

Definition NetPositionsByInstrument (p : Portfolio) (a : AccountID) : gmap InstrumentID D :=
  foldl (fun values inst =>
    let total := NetPosition p a (in_ID inst) in
    if IsZero total then values else <[in_ID inst := total]> values) ∅ (cache_Instruments (pf_cache p)).

Definition positionsForInstrument (p : Portfolio) (a : AccountID) (i : InstrumentID) : list PositionStatusReport :=
  if a ≠? "" then option_list (PositionByInstrument (pf_cache p) a i) else PositionsForInstrument (pf_cache p) i.

Definition signedExposure (p : Portfolio) (position : PositionStatusReport) (inst : Instrument) (target : Currency) : option D :=
  if flat position then None
  else
    let mark := amount (pf_marks p) (pr_AccountID position) (pr_InstrumentID position) in
    let price := if IsPositive mark then mark else pr_EntryPrice position in
    if negb (IsPositive price) then None
    else
      let value := dmul (signedPosition position) price in
      let currency := settlementCurrency inst in
      if (target ≟ "") || (currency ≟ target) then Some value
      else convertAmount p value currency target.

Definition NetExposuresByInstrument (p : Portfolio) (a : AccountID) (target : Currency) : gmap InstrumentID D :=
  foldl (fun values inst =>
    let total := foldl (fun total position =>
                   match signedExposure p position inst target with None => total | Some x => dadd total x end)
                   dzero (positionsForInstrument p a (in_ID inst)) in
    if IsZero total then values else <[in_ID inst := total]> values) ∅ (cache_Instruments (pf_cache p)).

Definition netExposures {K} `{Countable K} (key : Instrument -> PositionStatusReport -> K) (p : Portfolio)
    (target : Currency) : gmap K D :=
  foldl (fun values inst =>
    foldl (fun values position =>
      match signedExposure p position inst target with
      | None => values
      | Some x => add_to values (key inst position) x
      end) values (positionsForInstrument p "" (in_ID inst))) ∅ (cache_Instruments (pf_cache p)).
Definition NetExposuresByAccount (p : Portfolio) (target : Currency) : gmap AccountID D :=
  netExposures (fun _ position => pr_AccountID position) p target.
Definition NetExposuresByVenue (p : Portfolio) (target : Currency) : gmap Venue D :=
  netExposures (fun inst _ => id_Venue (in_ID inst)) p target.
End conversion.
End portfolio.
