(* ===== verification/PortfolioFacts.v ===== *)
(** * Correctness of the portfolio's accounting

    The position a fill leads to, the profit it realizes, and the identity that ties them
    to the cash the fills exchanged; and the balances of an account:
    [accountWithBalanceDeltas] succeeds exactly when every currency can pay, and then
    moves totals and free amounts by the deltas and nothing else. *)
From stdpp Require Import base gmap list strings.
From Stdlib Require Import QArith Qabs Qminmax Lqa.
From S2P Require Import Prelude Decimals Enums Identifiers Orders Market Accounts Cache CacheFacts Portfolio.

Open Scope go_scope.

Section facts.
Context {DD : Decimal} {DL : DecimalLaws DD}.
Implicit Types (p : Portfolio) (x y : PositionStatusReport) (f fill : FillReport) (a : AccountID) (i : InstrumentID).
Open Scope Q_scope.

(** Keeps [simpl] away from the arithmetic of [Q]. *)
#[local] Arguments Qplus : simpl never.
#[local] Arguments Qmult : simpl never.
#[local] Arguments Qminus : simpl never.
#[local] Arguments Qdiv : simpl never.
#[local] Arguments Qopp : simpl never.
#[local] Arguments Qabs : simpl never.

(** ** Signed quantities and prices of positions *)

Definition held (o : option PositionStatusReport) : Q := match o with Some x => dval (signedPosition x) | None => 0 end.
Definition cost (o : option PositionStatusReport) : Q := match o with Some x => dval (pr_EntryPrice x) | None => 0 end.

(** A position whose side and quantity agree. *)
Definition sided x : Prop :=
  match pr_Side x with
  | PositionSideLong | PositionSideShort => 0 < dval (pr_Quantity x)
  | PositionSideFlat => dval (pr_Quantity x) == 0
  | _ => False
  end.
Definition sided_opt (o : option PositionStatusReport) : Prop := match o with Some x => sided x | None => True end.

(** The half unit in the sixteenth decimal place that one division may be off. *)
Definition half_ulp : Q := 1 # (2 * ulp16).

(** A fill with one of the two sides of the model. *)
Definition two_sided f : Prop := fr_Side f = OrderSideBuy \/ fr_Side f = OrderSideSell.

Definition delta f : Q := dval (fillSignedQuantity f).

Lemma delta_buy f : fr_Side f = OrderSideBuy -> delta f = dval (fr_Quantity f).
Proof. unfold delta, fillSignedQuantity. by intros ->. Qed.

Lemma delta_sell f : fr_Side f = OrderSideSell -> delta f == - dval (fr_Quantity f).
Proof. unfold delta, fillSignedQuantity. intros ->. simpl. apply dval_neg. Qed.

(** The position a fill leads to, from the position it meets. *)
Definition after_fill (existing : option PositionStatusReport) (pid : PositionID) f : PositionStatusReport :=
  match existing with
  | None =>
      mkPositionStatusReport CommandMetadata_zero (fr_AccountID f) (fr_InstrumentID f) pid ""
        (sideFromSigned (fillSignedQuantity f)) (fr_Quantity f) (fr_Price f) (fr_Timestamp f)
  | Some x =>
      let signed := dadd (signedPosition x) (fillSignedQuantity f) in
      let entry :=
        if sameDirection x f then
          if IsPositive (dadd (pr_Quantity x) (fr_Quantity f))
          then ddiv (dadd (dmul (pr_EntryPrice x) (pr_Quantity x)) (dmul (fr_Price f) (fr_Quantity f)))
                    (dadd (pr_Quantity x) (fr_Quantity f))
          else fr_Price f
        else if GreaterThan (pr_Quantity x) (fr_Quantity f) then pr_EntryPrice x else fr_Price f in
      mkPositionStatusReport CommandMetadata_zero (fr_AccountID f) (fr_InstrumentID f) pid ""
        (sideFromSigned signed) (dabs signed)
        (if sideFromSigned signed ≟ PositionSideFlat then dzero else entry) (fr_Timestamp f)
  end.

Definition position_of f : PositionID :=
  if fr_PositionID f ≠? "" then fr_PositionID f else InstrumentID_String (fr_InstrumentID f).

Lemma nextPosition_after p f :
  nextPosition p f = after_fill (cache_Position (pf_cache p) (fr_AccountID f) (position_of f)) (position_of f) f.
Proof. unfold nextPosition, after_fill, position_of. by destruct (cache_Position _ _ _). Qed.

(** The profit a fill realizes against the position it meets. *)
Definition realized_by (previous : option PositionStatusReport) f : D :=
  match previous with
  | None => dzero
  | Some x =>
      if flat x then dzero else if sameDirection x f then dzero
      else
        let closeQty := dmin (pr_Quantity x) (fr_Quantity f) in
        if negb (IsPositive closeQty) then dzero
        else if pr_Side x ≟ PositionSideShort then dmul (dsub (pr_EntryPrice x) (fr_Price f)) closeQty
        else dmul (dsub (fr_Price f) (pr_EntryPrice x)) closeQty
  end.

Lemma applyRealized_delta p f previous : (applyRealizedPnLFromPosition p f previous).2 = realized_by previous f.
Proof.
  unfold applyRealizedPnLFromPosition, realized_by. destruct previous as [x|]; [|done].
  destruct (flat x); [done|]. destruct (sameDirection x f); [done|]. cbv zeta.
  by destruct (negb _), (pr_Side x ≟ PositionSideShort).
Qed.

Lemma signed_of_sided (s : D) pid f entry :
  let y := mkPositionStatusReport CommandMetadata_zero (fr_AccountID f) (fr_InstrumentID f) pid ""
             (sideFromSigned s) (dabs s) entry (fr_Timestamp f) in
  sided y /\ dval (signedPosition y) == dval s.
Proof.
  unfold sided, signedPosition, sideFromSigned. simpl.
  destruct (IsPositive s) eqn:Hp; simpl; [|destruct (IsNegative s) eqn:Hn; simpl]; dec_hyps; rewrite ?dval_neg, !dval_abs.
  - rewrite Qabs_pos by lra. split; [done|lra].
  - rewrite Qabs_neg by lra. split; lra.
  - assert (dval s == 0) as -> by lra. split; reflexivity.
Qed.

Lemma close_exact (u v eps : Q) : u == v -> 0 <= eps -> Qabs (u - v) <= eps.
Proof. intros -> He. assert (v - v == 0) as -> by lra. exact He. Qed.

Lemma half_ulp_nonneg (q : Q) : 0 <= Qabs q * half_ulp.
Proof. apply Qmult_le_0_compat; [apply Qabs_nonneg|unfold half_ulp, Qle; simpl; lia]. Qed.

(** ** One fill against one position *)

Lemma after_fill_held o pid f :
  sided_opt o -> two_sided f -> 0 < dval (fr_Quantity f) ->
  sided (after_fill o pid f) /\ dval (signedPosition (after_fill o pid f)) == held o + delta f.
Proof.
  intros Ho Hf Hq. destruct o as [x|]; simpl.
  - pose proof (signed_of_sided (dadd (signedPosition x) (fillSignedQuantity f)) pid f) as H.
    destruct (H (if sideFromSigned (dadd (signedPosition x) (fillSignedQuantity f)) ≟ PositionSideFlat then dzero
      else if sameDirection x f then if IsPositive (dadd (pr_Quantity x) (fr_Quantity f))
          then ddiv (dadd (dmul (pr_EntryPrice x) (pr_Quantity x)) (dmul (fr_Price f) (fr_Quantity f)))
                    (dadd (pr_Quantity x) (fr_Quantity f)) else fr_Price f
        else if GreaterThan (pr_Quantity x) (fr_Quantity f) then pr_EntryPrice x else fr_Price f)) as [H1 H2].
    split; [exact H1|]. etrans; [exact H2|]. apply dval_add.
  - unfold sided, signedPosition, sideFromSigned, delta, fillSignedQuantity. simpl.
    destruct Hf as [-> | ->]; simpl.
    + apply IsPositive_spec in Hq as Hp. rewrite Hp. simpl. split; [done|lra].
    + assert (IsPositive (dneg (fr_Quantity f)) = false) as -> by dec.
      assert (IsNegative (dneg (fr_Quantity f)) = true) as -> by dec. simpl. split; [done|lra].
Qed.

(** How the fill meets the position: it opens one, adds to it, reduces it, or closes it and
    perhaps opens one on the other side. *)
Inductive Meeting := Opens | Adds | Reduces | Closes.
Definition meeting (o : option PositionStatusReport) f : Meeting :=
  match o with
  | None => Opens
  | Some x =>
      if flat x then Opens else if sameDirection x f then Adds
      else if GreaterThan (pr_Quantity x) (fr_Quantity f) then Reduces else Closes
  end.

Lemma flat_sided x : sided x -> flat x = (pr_Side x ≟ PositionSideFlat).
Proof.
  unfold sided, flat. intros H. destruct (pr_Side x); try done; simpl; apply IsZero_false; lra.
Qed.

(** The entry price after a fill, in each case. *)
Lemma after_fill_entry o pid f :
  sided_opt o -> two_sided f -> 0 < dval (fr_Quantity f) ->
  let entry := dval (pr_EntryPrice (after_fill o pid f)) in
  let qty := dval (fr_Quantity f) in
  match meeting o f, o with
  | Opens, _ => entry == dval (fr_Price f)
  | Adds, Some x =>
      Qabs (entry - (cost o * dval (pr_Quantity x) + dval (fr_Price f) * qty) / (dval (pr_Quantity x) + qty)) <= half_ulp
  | Reduces, Some x => entry == cost o
  | Closes, Some x => entry == (if Qeq_bool (dval (pr_Quantity x)) qty then 0 else dval (fr_Price f))
  | _, None => False
  end.
Proof.
  intros Ho Hf Hq. destruct o as [x|]; simpl; [|reflexivity].
  assert (Hfl := flat_sided x Ho). unfold sided_opt, sided in Ho. rewrite Hfl.
  unfold sideFromSigned, signedPosition, sameDirection, fillSignedQuantity.
  destruct (pr_Side x) eqn:Hx; try done; destruct Hf as [Hs|Hs]; rewrite !Hs; simpl; rewrite ?Hs; simpl.
  - (* long, buy *)
    assert (IsPositive (dadd (pr_Quantity x) (fr_Quantity f)) = true) as -> by dec. simpl.
    assert (Hn : ~ dval (dadd (pr_Quantity x) (fr_Quantity f)) == 0) by (rewrite dval_add; lra).
    pose proof (dval_div (dadd (dmul (pr_EntryPrice x) (pr_Quantity x)) (dmul (fr_Price f) (fr_Quantity f))) _ Hn) as Hd.
    rewrite Hd, !dval_add, !dval_mul. apply round16_error.
  - (* long, sell *)
    destruct (GreaterThan (pr_Quantity x) (fr_Quantity f)) eqn:Hg; simpl; dec_hyps.
    + assert (IsPositive (dadd (pr_Quantity x) (dneg (fr_Quantity f))) = true) as -> by dec. reflexivity.
    + assert (IsPositive (dadd (pr_Quantity x) (dneg (fr_Quantity f))) = false) as -> by dec.
      destruct (Qeq_bool (dval (pr_Quantity x)) (dval (fr_Quantity f))) eqn:He.
      * apply Qeq_bool_iff in He.
        assert (IsNegative (dadd (pr_Quantity x) (dneg (fr_Quantity f))) = false) as -> by dec. simpl. apply dval_zero.
      * apply Qeq_bool_neq in He.
        assert (IsNegative (dadd (pr_Quantity x) (dneg (fr_Quantity f))) = true) as ->; [|reflexivity].
        apply IsNegative_spec. rewrite dval_add, dval_neg. destruct (Qle_lt_or_eq _ _ Hg); [lra|done].
  - (* short, buy *)
    destruct (GreaterThan (pr_Quantity x) (fr_Quantity f)) eqn:Hg; simpl; dec_hyps.
    + assert (IsPositive (dadd (dneg (pr_Quantity x)) (fr_Quantity f)) = false) as -> by dec.
      assert (IsNegative (dadd (dneg (pr_Quantity x)) (fr_Quantity f)) = true) as -> by dec. reflexivity.
    + destruct (Qeq_bool (dval (pr_Quantity x)) (dval (fr_Quantity f))) eqn:He.
      * apply Qeq_bool_iff in He.
        assert (IsPositive (dadd (dneg (pr_Quantity x)) (fr_Quantity f)) = false) as -> by dec.
        assert (IsNegative (dadd (dneg (pr_Quantity x)) (fr_Quantity f)) = false) as -> by dec. simpl. apply dval_zero.
      * apply Qeq_bool_neq in He.
        assert (IsPositive (dadd (dneg (pr_Quantity x)) (fr_Quantity f)) = true) as ->; [|reflexivity].
        apply IsPositive_spec. rewrite dval_add, dval_neg. destruct (Qle_lt_or_eq _ _ Hg); [lra|done].
  - (* short, sell *)
    assert (IsPositive (dadd (pr_Quantity x) (fr_Quantity f)) = true) as -> by dec.
    assert (IsPositive (dadd (dneg (pr_Quantity x)) (dneg (fr_Quantity f))) = false) as -> by dec.
    assert (IsNegative (dadd (dneg (pr_Quantity x)) (dneg (fr_Quantity f))) = true) as -> by dec. simpl.
    assert (Hn : ~ dval (dadd (pr_Quantity x) (fr_Quantity f)) == 0) by (rewrite dval_add; lra).
    pose proof (dval_div (dadd (dmul (pr_EntryPrice x) (pr_Quantity x)) (dmul (fr_Price f) (fr_Quantity f))) _ Hn) as Hd.
    rewrite Hd, !dval_add, !dval_mul. apply round16_error.
  - (* flat, buy *)
    assert (GreaterThan (pr_Quantity x) (fr_Quantity f) = false) as -> by dec.
    assert (IsPositive (dadd (pr_Quantity x) (fr_Quantity f)) = true) as -> by dec. reflexivity.
  - (* flat, sell *)
    assert (GreaterThan (pr_Quantity x) (fr_Quantity f) = false) as -> by dec.
    assert (IsPositive (dadd (pr_Quantity x) (dneg (fr_Quantity f))) = false) as -> by dec.
    assert (IsNegative (dadd (pr_Quantity x) (dneg (fr_Quantity f))) = true) as -> by dec. reflexivity.
Qed.

(** The profit a fill realizes, in each case. *)
Lemma realized_by_val o f :
  sided_opt o -> two_sided f -> 0 < dval (fr_Quantity f) ->
  dval (realized_by o f) ==
    match meeting o f with
    | Opens | Adds => 0
    | Reduces => (cost o - dval (fr_Price f)) * delta f
    | Closes => (dval (fr_Price f) - cost o) * held o
    end.
Proof.
  intros Ho Hf Hq. destruct o as [x|]; simpl; [|apply dval_zero].
  assert (Hfl := flat_sided x Ho). unfold sided_opt, sided in Ho. rewrite Hfl.
  unfold signedPosition, sameDirection, delta, fillSignedQuantity.
  destruct (pr_Side x) eqn:Hx; try done; destruct Hf as [Hs|Hs]; rewrite !Hs; simpl; try apply dval_zero.
  - destruct (GreaterThan (pr_Quantity x) (fr_Quantity f)) eqn:Hg; dec_hyps.
    all: assert (Hm := dval_min (pr_Quantity x) (fr_Quantity f)).
    + rewrite Q.min_r in Hm by lra. assert (IsPositive (dmin (pr_Quantity x) (fr_Quantity f)) = true) as -> by dec.
      simpl. rewrite dval_mul, dval_sub, Hm, dval_neg. ring.
    + rewrite Q.min_l in Hm by lra. assert (IsPositive (dmin (pr_Quantity x) (fr_Quantity f)) = true) as -> by dec.
      simpl. rewrite dval_mul, dval_sub, Hm. ring.
  - destruct (GreaterThan (pr_Quantity x) (fr_Quantity f)) eqn:Hg; dec_hyps.
    all: assert (Hm := dval_min (pr_Quantity x) (fr_Quantity f)).
    + rewrite Q.min_r in Hm by lra. assert (IsPositive (dmin (pr_Quantity x) (fr_Quantity f)) = true) as -> by dec.
      simpl. rewrite dval_mul, dval_sub, Hm. ring.
    + rewrite Q.min_l in Hm by lra. assert (IsPositive (dmin (pr_Quantity x) (fr_Quantity f)) = true) as -> by dec.
      simpl. rewrite dval_mul, dval_sub, Hm, dval_neg. ring.
Qed.

(** ** The accounting identity, for one fill *)

(** The signs of what is held and of the fill, in each case. *)
Lemma meeting_signs o f :
  sided_opt o -> two_sided f -> 0 < dval (fr_Quantity f) ->
  match meeting o f, o with
  | Opens, _ => held o == 0
  | Adds, Some x => 0 < dval (pr_Quantity x) /\
      (held o == dval (pr_Quantity x) /\ delta f == dval (fr_Quantity f) \/
       held o == - dval (pr_Quantity x) /\ delta f == - dval (fr_Quantity f))
  | _, Some x => 
      held o == dval (pr_Quantity x) /\ delta f == - dval (fr_Quantity f) \/
      held o == - dval (pr_Quantity x) /\ delta f == dval (fr_Quantity f)
  | _, None => False
  end.
Proof.
  intros Ho Hf Hq. destruct o as [x|]; simpl; [|reflexivity].
  assert (Hfl := flat_sided x Ho). unfold sided_opt, sided in Ho. rewrite Hfl.
  unfold signedPosition, sameDirection, delta, fillSignedQuantity.
  destruct (pr_Side x) eqn:Hx; try done; destruct Hf as [Hs|Hs]; rewrite !Hs; simpl;
    try (destruct (GreaterThan _ _)); rewrite ?dval_neg;
    first [exact Ho | split; [exact Ho|left; split; reflexivity] | split; [exact Ho|right; split; reflexivity]
          | left; split; reflexivity | right; split; reflexivity].
Qed.

(** What the account is worth in cash terms: profit realized less the cost of what is held. *)
Lemma fill_identity o pid f :
  sided_opt o -> two_sided f -> 0 < dval (fr_Quantity f) ->
  let y := Some (after_fill o pid f) in
  Qabs ((dval (realized_by o f) - held y * cost y) - (- (held o * cost o) - delta f * dval (fr_Price f)))
    <= Qabs (held y) * half_ulp.
Proof.
  intros Ho Hf Hq y. pose proof (after_fill_held o pid f Ho Hf Hq) as [_ Hh].
  pose proof (after_fill_entry o pid f Ho Hf Hq) as He. pose proof (realized_by_val o f Ho Hf Hq) as Hr.
  pose proof (meeting_signs o f Ho Hf Hq) as Hs. cbv zeta in He.
  change (held y) with (dval (signedPosition (after_fill o pid f))).
  change (cost y) with (dval (pr_EntryPrice (after_fill o pid f))).
  set (e := dval (pr_EntryPrice (after_fill o pid f))) in *. set (h := dval (signedPosition (after_fill o pid f))) in *.
  rewrite Hr. destruct (meeting o f), o as [x|]; try done.
  - apply close_exact; [|apply half_ulp_nonneg]. rewrite He, Hh, Hs. ring.
  - apply close_exact; [|apply half_ulp_nonneg]. rewrite He, Hh, Hs. ring.
  - set (avg := (cost (Some x) * dval (pr_Quantity x) + dval (fr_Price f) * dval (fr_Quantity f)) / (dval (pr_Quantity x) + dval (fr_Quantity f))) in *.
    destruct Hs as [HQ Hs].
    assert (Havg : h * avg == held (Some x) * cost (Some x) + delta f * dval (fr_Price f)).
    { unfold avg. rewrite Hh. destruct Hs as [[-> ->]|[-> ->]]; field; lra. }
    assert (Hdiff : 0 - h * e - (- (held (Some x) * cost (Some x)) - delta f * dval (fr_Price f)) == - (h * (e - avg))).
    { assert (h * e == h * avg + h * (e - avg)) as -> by ring. rewrite Havg. ring. }
    rewrite Hdiff, Qabs_opp, Qabs_Qmult. rewrite (Qmult_comm (Qabs h)), (Qmult_comm (Qabs h)).
    apply Qmult_le_compat_r; [exact He|apply Qabs_nonneg].
  - apply close_exact; [|apply half_ulp_nonneg]. rewrite He, Hh. ring.
  - apply close_exact; [|apply half_ulp_nonneg].
    assert (Hhe : h * e == h * dval (fr_Price f)).
    { destruct (Qeq_bool _ _) eqn:Hb; [|by rewrite He]. apply Qeq_bool_iff in Hb.
      assert (h == 0) as ->; [|ring]. rewrite Hh. destruct Hs as [[-> ->]|[-> ->]]; lra. }
    rewrite Hhe, Hh. ring.
Qed.

(** The entry price stays non-negative. *)
Lemma after_fill_entry_nonneg o pid f :
  sided_opt o -> two_sided f -> valid_fill f -> 0 <= cost o -> 0 <= dval (pr_EntryPrice (after_fill o pid f)).
Proof.
  intros Ho Hf F Hc. assert (Hq := vf_quantity _ F). assert (Hp := vf_price _ F).
  pose proof (after_fill_entry o pid f Ho Hf Hq) as He. cbv zeta in He.
  destruct (meeting o f) eqn:Hm, o as [x|]; try done; try (rewrite He; lra).
  - clear He Hm. simpl in *. unfold sided in Ho.
    assert (HQ : 0 <= dval (pr_Quantity x)) by (destruct (pr_Side x); try done; lra).
    assert (Hn : ~ dval (dadd (pr_Quantity x) (fr_Quantity f)) == 0) by (rewrite dval_add; lra).
    pose proof (dval_div (dadd (dmul (pr_EntryPrice x) (pr_Quantity x)) (dmul (fr_Price f) (fr_Quantity f))) _ Hn) as Hd.
    assert (Hw : 0 <= dval (ddiv (dadd (dmul (pr_EntryPrice x) (pr_Quantity x)) (dmul (fr_Price f) (fr_Quantity f)))
                                 (dadd (pr_Quantity x) (fr_Quantity f)))).
    { rewrite Hd. apply round16_nonneg. rewrite !dval_add, !dval_mul. apply Qle_shift_div_l; [lra|]. nra. }
    repeat case_match; first [exact Hw | rewrite dval_zero; lra | lra].
  - rewrite He. case_match; [lra|]. lra.
Qed.
End facts.

(** ** Balances *)

Section balances.
Context {DD : Decimal} {DL : DecimalLaws DD}.
Implicit Types (b : Balance) (l : list Balance) (c : Currency) (d : D).
Open Scope Q_scope.
#[local] Arguments Qplus : simpl never.
#[local] Arguments Qminus : simpl never.

(** ** The amounts of a currency *)

Definition amounts b : Q * Q * Q :=
  match Balance_Amounts b with Ok (total, locked, free) => (dval total, dval locked, dval free) | Fail _ => (0, 0, 0) end.
Definition total_of b : Q := (amounts b).1.1.
Definition locked_of b : Q := (amounts b).1.2.
Definition free_of b : Q := (amounts b).2.

(** The sum of an amount over the balances in a currency. *)
Fixpoint in_currency (am : Balance -> Q) (c : Currency) l : Q :=
  match l with
  | [] => 0
  | b :: l => (if bl_Currency b ≟ c then am b else 0) + in_currency am c l
  end.

Lemma in_currency_app am c l k : in_currency am c (l ++ k) == in_currency am c l + in_currency am c k.
Proof. induction l as [|b l IH]; simpl; [lra|]. rewrite IH. ring. Qed.

Lemma in_currency_absent am c l : c ∉ bl_Currency <$> l -> in_currency am c l == 0.
Proof.
  induction l as [|b l IH]; simpl; [done|]. intros [Hc Hl]%not_elem_of_cons.
  rewrite bool_decide_eq_false_2 by congruence. rewrite (IH Hl). lra.
Qed.

Record valid_balance b : Prop := {
  vb_currency : bl_Currency b <> "";
  vb_ok : exists amts, Balance_Amounts b = Ok amts;
  vb_total : 0 <= total_of b;
  vb_locked : 0 <= locked_of b;
  vb_free : 0 <= free_of b;
  vb_sum : total_of b - locked_of b == free_of b;
}.

Lemma Balance_Validate_spec b : Balance_Validate b = Ok tt <-> valid_balance b.
Proof.
  unfold Balance_Validate. split.
  - intros H. peel H. match goal with H : Balance_Amounts _ = Ok ?a |- _ => destruct a as [[t lk] fr]; rename H into E end.
    peel H. bools. constructor; unfold total_of, locked_of, free_of, amounts; rewrite ?E; simpl; eauto; dec.
  - intros [Hc [[[t lk] fr] E] H1 H2 H3 H4]. unfold total_of, locked_of, free_of, amounts in *. rewrite E in *. simpl in *.
    rewrite bool_decide_eq_false_2 by done.
    assert (IsNegative t = false) as -> by dec. assert (IsNegative lk = false) as -> by dec.
    assert (IsNegative fr = false) as -> by dec. assert (Equal (dsub t lk) fr = true) as -> by dec. done.
Qed.

Lemma parse_string d : exists d', parseOptionalDecimal (dstring d) = Ok d' /\ dval d' == dval d.
Proof.
  unfold parseOptionalDecimal. rewrite bool_decide_eq_false_2 by apply dstring_nonempty.
  destruct (dparse_string d) as (d' & -> & H). eauto.
Qed.

(** A balance written with all three amounts reads back as them. *)
Lemma written c (free locked total : D) :
  let b := mkBalance c (dstring free) (dstring locked) (dstring total) in
  (exists amts, Balance_Amounts b = Ok amts) /\
  total_of b == dval total /\ locked_of b == dval locked /\ free_of b == dval free.
Proof.
  cbv zeta. unfold total_of, locked_of, free_of, amounts, Balance_Amounts. simpl.
  destruct (parse_string total) as (t & -> & Ht), (parse_string locked) as (lk & -> & Hl),
    (parse_string free) as (fr & -> & Hf). simpl.
  rewrite !(bool_decide_eq_false_2 (dstring _ = "")) by apply dstring_nonempty. simpl. eauto.
Qed.

(** A balance written without its locked amount has none locked when total and free agree. *)
Lemma written_new c d :
  let b := mkBalance c (dstring d) "" (dstring d) in
  (exists amts, Balance_Amounts b = Ok amts) /\
  total_of b == dval d /\ locked_of b == 0 /\ free_of b == dval d.
Proof.
  cbv zeta. unfold total_of, locked_of, free_of, amounts, Balance_Amounts. simpl.
  destruct (parse_string d) as (t & E & Ht). rewrite E. simpl.
  rewrite !(bool_decide_eq_false_2 (dstring _ = "")) by apply dstring_nonempty. simpl.
  rewrite dval_sub. split_and!; [eauto|done|lra|done].
Qed.

(** ** One delta *)

Lemma find_balance_Some l c before b after : find_balance l c = Some (before, b, after) ->
  l = before ++ b :: after /\ bl_Currency b = c.
Proof.
  revert before. induction l as [|x l IH]; intros before; simpl; [done|].
  destruct (bl_Currency x ≟ c) eqn:E; [intros [= <- <- <-]; by bools|].
  destruct (find_balance l c) as [[[bf y] af]|] eqn:F; [|done]. intros [= <- <- <-].
  by destruct (IH bf eq_refl) as [-> <-].
Qed.

Lemma find_balance_None l c : find_balance l c = None -> c ∉ bl_Currency <$> l.
Proof.
  induction l as [|x l IH]; simpl; [intros _ ?%elem_of_nil; done|].
  destruct (bl_Currency x ≟ c) eqn:E; [done|]. destruct (find_balance l c) as [[[? ?] ?]|]; [done|].
  intros _ [->|H]%elem_of_cons; [by bools|by apply IH].
Qed.

Lemma in_currency_at am c l b k :
  NoDup (bl_Currency <$> l ++ b :: k) ->
  in_currency am c (l ++ b :: k) ==
    if bl_Currency b ≟ c then am b else in_currency am c l + in_currency am c k.
Proof.
  rewrite fmap_app, fmap_cons. intros Hnd. rewrite in_currency_app. simpl.
  destruct (bl_Currency b ≟ c) eqn:E; bools; [|lra]. subst c.
  apply NoDup_app in Hnd as (_ & Hb & [Hk _]%NoDup_cons).
  rewrite !in_currency_absent; [lra|done|]. intros Hin. by apply (Hb _ Hin), elem_of_cons; left.
Qed.

Lemma in_currency_nonneg c l : Forall valid_balance l -> 0 <= in_currency free_of c l.
Proof.
  induction 1 as [|b l Hb _ IH]; simpl; [lra|]. pose proof (vb_free b Hb). destruct (_ ≟ _); lra.
Qed.

(** What a delta in [c] adds to the amounts of [c']. *)
Definition moved c d (c' : Currency) : Q := if c ≟ c' then dval d else 0.

Definition moved_by (d : Currency -> Q) l l' : Prop := forall c,
  in_currency total_of c l' == in_currency total_of c l + d c /\
  in_currency free_of c l' == in_currency free_of c l + d c /\
  in_currency locked_of c l' == in_currency locked_of c l.

Lemma apply_delta_spec l c d : Forall valid_balance l -> NoDup (bl_Currency <$> l) -> c <> "" ->
  match apply_delta l c d with
  | Ok l' => 0 <= in_currency free_of c l + dval d /\
             Forall valid_balance l' /\ NoDup (bl_Currency <$> l') /\ moved_by (moved c d) l l'
  | Fail _ => in_currency free_of c l + dval d < 0
  end.
Proof.
  intros Hl Hnd Hc. unfold apply_delta, moved_by, moved. pose proof (in_currency_nonneg c l Hl) as Hn.
  destruct (IsZero d) eqn:Hz; dec_hyps.
  { split_and!; [lra|done|done|]. intros c'. destruct (c ≟ c'); split_and!; lra. }
  destruct (find_balance l c) as [[[before b] after]|] eqn:F.
  - apply find_balance_Some in F as [-> Hb]. pose proof Hl as Hl'.
    apply Forall_app in Hl' as [Hbf [[_ [[[t lk] fr] E] V1 V2 V3 V4] Haf]%Forall_cons].
    pose proof (in_currency_at free_of c before b after Hnd) as Hfree. rewrite bool_decide_eq_true_2 in Hfree by done.
    unfold total_of, locked_of, free_of, amounts in V1, V2, V3, V4. rewrite E in V1, V2, V3, V4. cbn [fst snd] in *.
    assert (Hfr : free_of b = dval fr) by (unfold free_of, amounts; by rewrite E).
    assert (Hto : total_of b = dval t) by (unfold total_of, amounts; by rewrite E).
    assert (Hlk : locked_of b = dval lk) by (unfold locked_of, amounts; by rewrite E).
    rewrite E. simpl. rewrite Hfr in Hfree.
    destruct (IsNegative (dadd t d) || IsNegative (dadd fr d)) eqn:Hneg; simpl.
    { rewrite Hfree. apply orb_prop in Hneg as [H|H]; apply IsNegative_spec in H; rewrite dval_add in H; lra. }
    bools. dec_hyps. rewrite ?dval_add in *. destruct (written c (dadd fr d) lk (dadd t d)) as (W0 & W1 & W2 & W3).
    set (b' := mkBalance c (dstring (dadd fr d)) (dstring lk) (dstring (dadd t d))) in *.
    assert (Hnd' : NoDup (bl_Currency <$> before ++ b' :: after)) by (rewrite fmap_app, fmap_cons in *; simpl; by rewrite Hb in Hnd).
    split_and!; [lra| |done|].
    + apply Forall_app. split; [done|]. apply Forall_cons. split; [|done].
      constructor; rewrite ?W1, ?W2, ?W3, ?dval_add; try done; lra.
    + intros c'. rewrite !in_currency_at by done. simpl. rewrite Hb.
      destruct (c ≟ c'); rewrite ?Hto, ?Hfr, ?Hlk, ?W1, ?W2, ?W3, ?dval_add; split_and!; lra.
  - apply find_balance_None in F. pose proof (in_currency_absent free_of c l F) as H0.
    destruct (IsNegative d) eqn:Hneg; simpl; dec_hyps; [lra|].
    destruct (written_new c d) as (W0 & W1 & W2 & W3). set (b' := mkBalance c (dstring d) "" (dstring d)) in *.
    split_and!; [lra| | |].
    + apply Forall_app. split; [done|]. apply Forall_cons. split; [|done].
      constructor; rewrite ?W1, ?W2, ?W3; try done; lra.
    + rewrite fmap_app. apply NoDup_app. split_and!; [done| |apply NoDup_singleton].
      intros x Hx ->%list_elem_of_singleton. done.
    + intros c'. rewrite !in_currency_app. simpl.
      destruct (c ≟ c'); rewrite ?W1, ?W2, ?W3; split_and!; lra.
Qed.

(** ** Several deltas *)

(** What a list of deltas adds to the amounts of a currency. *)
Fixpoint moved_all (deltas : list (Currency * D)) (c : Currency) : Q :=
  match deltas with [] => 0 | (k, d) :: deltas => moved k d c + moved_all deltas c end.

Definition payable l (deltas : list (Currency * D)) : Prop :=
  forall c d, (c, d) ∈ deltas -> 0 <= in_currency free_of c l + dval d.

Lemma payable_after c d deltas l l' :
  moved_by (moved c d) l l' -> c ∉ deltas.*1 -> payable l' deltas <-> payable l deltas.
Proof.
  intros Hm Hc. apply forall_proper; intros k. apply forall_proper; intros e. split; intros H Hin.
  all: assert (c <> k) as Hk by (intros ->; apply Hc; by apply (list_elem_of_fmap_2' fst _ _ _ Hin)).
  all: destruct (Hm k) as (_ & Hf & _); unfold moved in Hf; rewrite bool_decide_eq_false_2 in Hf by done.
  all: specialize (H Hin); lra.
Qed.

Lemma apply_deltas_spec deltas l :
  Forall valid_balance l -> NoDup (bl_Currency <$> l) -> NoDup deltas.*1 -> "" ∉ deltas.*1 ->
  match apply_deltas l deltas with
  | Ok l' => payable l deltas /\ Forall valid_balance l' /\ NoDup (bl_Currency <$> l') /\ moved_by (moved_all deltas) l l'
  | Fail _ => ~ payable l deltas
  end.
Proof.
  revert l. induction deltas as [|[c d] deltas IH]; intros l Hl Hnd Hds Hne; simpl.
  { split_and!; [by intros ? ? ?%elem_of_nil|done|done|]. intros c. split_and!; lra. }
  apply NoDup_cons in Hds as [Hc Hds]. apply not_elem_of_cons in Hne as [Hc0 Hne].
  pose proof (apply_delta_spec l c d Hl Hnd) as H1. destruct (apply_delta l c d) as [l1|e]; simpl.
  - destruct H1 as (Hp & Hl1 & Hnd1 & Hm); [done|]. specialize (IH l1 Hl1 Hnd1 Hds Hne).
    pose proof (payable_after c d deltas l l1 Hm Hc) as Hpay. destruct (apply_deltas l1 deltas) as [l2|e].
    + destruct IH as (Hp2 & Hl2 & Hnd2 & Hm2). split_and!; [|done|done|].
      * intros k x [[= -> ->]|Hin]%elem_of_cons; [done|]. by apply Hpay in Hp2; apply Hp2.
      * intros k. destruct (Hm k) as (A1 & A2 & A3), (Hm2 k) as (B1 & B2 & B3). simpl. split_and!; lra.
    + intros Hall. apply IH, Hpay. intros k x Hin. apply Hall, elem_of_cons. by right.
  - intros Hall. specialize (H1 (not_eq_sym Hc0)). specialize (Hall c d ltac:(apply elem_of_cons; by left)). lra.
Qed.

Lemma valid_balances l : check_all Balance_Validate l = Ok tt <-> Forall valid_balance l.
Proof.
  rewrite check_all_ok. apply Forall_iff. exact Balance_Validate_spec.
Qed.

(** A fill's deltas reach the balances exactly.  For an account that validates, with one
    balance per currency, and deltas for different currencies, the update succeeds if and
    only if every currency can pay: what it has free, or nothing if it is absent, plus its
    delta is not negative.  Hence the order in which the deltas are visited does not matter for
    success.  When it succeeds the account still validates with one balance per currency,
    every currency's total and free amounts moved by exactly its delta, the locked amounts
    and the other fields stayed. *)
Theorem balance_deltas account (deltas : list (Currency * D)) :
  AccountSnapshot_Validate account = Ok tt -> NoDup (bl_Currency <$> as_Balances account) ->
  NoDup deltas.*1 -> "" ∉ deltas.*1 ->
  match accountWithBalanceDeltas account deltas with
  | Ok updated =>
      payable (as_Balances account) deltas /\
      AccountSnapshot_Validate updated = Ok tt /\ NoDup (bl_Currency <$> as_Balances updated) /\
      moved_by (moved_all deltas) (as_Balances account) (as_Balances updated) /\
      updated = account <| as_Balances := as_Balances updated |>
  | Fail _ => ~ payable (as_Balances account) deltas
  end.
Proof.
  intros Hv Hnd Hds Hne. unfold AccountSnapshot_Validate in Hv. peel Hv.
  match goal with H : check_all Balance_Validate _ = Ok ?u |- _ => destruct u; rename H into Hb end.
  apply valid_balances in Hb. pose proof (apply_deltas_spec deltas _ Hb Hnd Hds Hne) as H.
  unfold accountWithBalanceDeltas. destruct (apply_deltas _ _) as [l'|e]; simpl; [|done].
  destruct H as (Hp & Hl' & Hnd' & Hm).
  assert (AccountSnapshot_Validate (account <| as_Balances := l' |>) = Ok tt) as Hv'.
  { unfold AccountSnapshot_Validate. simpl. apply valid_balances in Hl'. rewrite Hl'.
    repeat match goal with H : ?x = _ |- context [?x] => rewrite H end. done. }
  rewrite Hv'. split_and!; done.
Qed.
End balances.
