(* ===== verification/PortfolioLedger.v ===== *)
(** * The portfolio's ledger over a sequence of fills

    What [ApplyFill] does to positions, profits, commissions and balances, from one fill to
    a run of fills: every fill counts once, the profit and the positions account for all the
    cash the fills exchanged, and the balances move by the amounts the fills cost. *)
From stdpp Require Import base gmap list strings.
From Stdlib Require Import QArith Qabs Qminmax Lqa.
From S2P Require Import Prelude Decimals Enums Identifiers Orders Market Accounts Cache CacheFacts Portfolio PortfolioFacts.

Open Scope go_scope.

Section ledger.
Context {DD : Decimal}.
Implicit Types (p q : Portfolio) (x y : PositionStatusReport) (f : FillReport) (fs : list FillReport)
  (a : AccountID) (i : InstrumentID) (order : list (Currency * D) -> list (Currency * D))
  (Instruments : Currency -> Currency -> list Instrument).

(** ** The parts of the books that only a fill changes *)

Record same_books p q : Prop := {
  sb_positions : c_positions (pf_cache q) = c_positions (pf_cache p);
  sb_positionInst : c_positionInst (pf_cache q) = c_positionInst (pf_cache p);
  sb_realized : pf_realized q = pf_realized p;
  sb_commissions : pf_commissions q = pf_commissions p;
  sb_applied : pf_appliedFills q = pf_appliedFills p;
}.

#[local] Instance same_books_preorder : PreOrder same_books.
Proof.
  split; [by constructor|]. intros p q r [] []. constructor; congruence.
Qed.

Lemma SetMark_same p a i price : same_books p (SetMark p a i price).
Proof. unfold SetMark, invalidatePnL. by destruct (bool_decide _). Qed.

Lemma applyFillBalanceDeltas_same order p f (d : D) : same_books p (applyFillBalanceDeltas order p f d).1.
Proof.
  unfold applyFillBalanceDeltas. cbv zeta. destruct (bool_decide _); [done|].
  destruct (cache_Account _ _) as [acc|]; [|done]. by destruct (accountWithBalanceDeltas _ _).
Qed.

Lemma recordClosedTrade_same Instruments p f previous y (d : D) : same_books p (recordClosedTrade Instruments p f previous y d).
Proof.
  unfold recordClosedTrade. destruct previous; [|done]. cbv zeta.
  do 4 (case_match; [done|]). by destruct (default _ _) as [? ?].
Qed.

Lemma PutPosition_inst c y c' :
  PutPosition c y = Ok c' -> c_positionInst c' = put2 (c_positionInst c) (pr_AccountID y) (pr_InstrumentID y) (pr_PositionID y).
Proof.
  unfold PutPosition. destruct (PositionStatusReport_Validate y); [|done]. intros <-%Ok_inj.
  destruct (get2 _ _ _) as [e|]; [|by destruct (pr_VenuePositionID y ≠? "")].
  destruct ((pr_VenuePositionID e ≠? "") && _); by destruct (pr_VenuePositionID y ≠? "").
Qed.

Lemma PutFill_books c f c' stored :
  PutFill c f = Ok (c', stored) -> c_positions c' = c_positions c /\ c_positionInst c' = c_positionInst c.
Proof.
  unfold PutFill. destruct (FillReport_Validate f); [|done]. cbv zeta.
  destruct (get3 _ _ _ _); [by intros [= <- <-]|]. destruct (fr_VenueOrderID f ≠? ""); by intros [= <- <-].
Qed.

(** What a fill that has not been applied does to the books, whether or not the balances allow it. *)
Lemma applyFillAccounting_books Instruments order p f previous y :
  hasAppliedFill p f = false -> FillReport_Validate f = Ok tt -> PositionStatusReport_Validate y = Ok tt ->
  let q := (applyFillAccounting Instruments order p f previous y).1 in
  c_positions (pf_cache q) = put2 (c_positions (pf_cache p)) (pr_AccountID y) (pr_PositionID y) y /\
  c_positionInst (pf_cache q) = put2 (c_positionInst (pf_cache p)) (pr_AccountID y) (pr_InstrumentID y) (pr_PositionID y) /\
  pf_realized q = pf_realized (applyRealizedPnLFromPosition p f previous).1 /\
  pf_commissions q = pf_commissions (applyCommission p f) /\
  pf_appliedFills q = pf_appliedFills (markAppliedFill p f).
Proof.
  intros Happ Hf Hy. unfold applyFillAccounting. rewrite Happ.
  destruct (PutFill (pf_cache p) f) as [[c b]|] eqn:HF.
  2: { exfalso. unfold PutFill in HF. rewrite Hf in HF. simpl in HF. by destruct (get3 _ _ _ _). }
  apply PutFill_books in HF as [HF1 HF2].
  destruct (applyRealizedPnLFromPosition _ f previous) as [p1 d] eqn:HR.
  assert (H1 : c_positions (pf_cache p1) = c_positions (pf_cache p) /\
    c_positionInst (pf_cache p1) = c_positionInst (pf_cache p) /\
    pf_realized p1 = pf_realized (applyRealizedPnLFromPosition p f previous).1 /\
    pf_commissions p1 = pf_commissions (applyCommission p f) /\
    pf_appliedFills p1 = pf_appliedFills (markAppliedFill p f)).
  { unfold applyRealizedPnLFromPosition, applyCommission in *.
    destruct (negb (IsPositive (fr_Fee f)) || (fr_FeeCurrency f ≟ "")); destruct previous as [x|];
      try (by injection HR as <- <-); cbv zeta in HR;
      repeat (case_match; try (by injection HR as <- <-)). }
  destruct H1 as (H1 & H2 & H3 & H4 & H5).
  destruct (PutPosition (pf_cache p1) y) as [c1|] eqn:HP.
  2: { exfalso. unfold PutPosition in HP. by rewrite Hy in HP. }
  pose proof (PutPosition_positions _ _ _ HP) as P1. pose proof (PutPosition_inst _ _ _ HP) as P2.
  cbv zeta. pose proof (applyFillBalanceDeltas_same order (p1 <| pf_cache := c1 |>) f d) as [B1 B2 B3 B4 B5].
  destruct (applyFillBalanceDeltas _ _ f d) as [p2 [[]|]]; simpl in *.
  - pose proof (recordClosedTrade_same Instruments p2 f previous y d) as [R1 R2 R3 R4 R5].
    pose proof (SetMark_same (recordClosedTrade Instruments p2 f previous y d) (fr_AccountID f) (fr_InstrumentID f) (fr_Price f)) as [S1 S2 S3 S4 S5].
    split_and!; congruence.
  - split_and!; congruence.
Qed.

(** ** Runs of fills *)

(** [ApplyFill] counts a fill when it is valid and has not been counted before. *)
Definition taken p f : bool := is_ok (FillReport_Validate f) && negb (hasAppliedFill p f).

Fixpoint apply_fills Instruments order p fs : Portfolio :=
  match fs with [] => p | f :: fs => apply_fills Instruments order (ApplyFill Instruments order p f).1 fs end.

(** The fills of a run that count, with the side the portfolio gives to a fill without one. *)
Fixpoint taken_fills Instruments order p fs : list FillReport :=
  match fs with
  | [] => []
  | f :: fs => (if taken p f then [default_side f] else [])
               ++ taken_fills Instruments order (ApplyFill Instruments order p f).1 fs
  end.

Lemma default_side_same f :
  fr_AccountID (default_side f) = fr_AccountID f /\ fr_InstrumentID (default_side f) = fr_InstrumentID f /\
  fr_PositionID (default_side f) = fr_PositionID f /\ fr_OrderID (default_side f) = fr_OrderID f /\
  fr_TradeID (default_side f) = fr_TradeID f /\ FillReport_Validate (default_side f) = FillReport_Validate f.
Proof. unfold default_side. by destruct (fr_Side f ≟ OrderSideNone). Qed.

Lemma hasApplied_default p f : hasAppliedFill p (default_side f) = hasAppliedFill p f.
Proof. unfold hasAppliedFill. by destruct (default_side_same f) as (-> & _ & _ & -> & -> & _). Qed.

Lemma not_taken Instruments order p f : taken p f = false -> (ApplyFill Instruments order p f).1 = p.
Proof.
  unfold taken, ApplyFill. destruct (FillReport_Validate f); [|done]. simpl. intros H%negb_false_iff.
  unfold applyFillAccounting. by rewrite hasApplied_default, H.
Qed.

Lemma taken_inv p f : taken p f = true ->
  FillReport_Validate f = Ok tt /\ FillReport_Validate (default_side f) = Ok tt /\ hasAppliedFill p (default_side f) = false.
Proof.
  unfold taken. destruct (default_side_same f) as (_ & _ & _ & _ & _ & ->). rewrite hasApplied_default.
  intros [H1 H2%negb_true_iff]%andb_prop. by destruct (FillReport_Validate f) as [[]|].
Qed.

(** Induction over a run, one fill at a time. *)
Lemma run_ind Instruments order (P : Portfolio -> list FillReport -> Portfolio -> list FillReport -> Prop) :
  (forall p, P p [] p []) ->
  (forall p f fs q own, P p fs q own -> taken p f = false -> P p (f :: fs) q own) ->
  (forall p f fs q own, P (ApplyFill Instruments order p f).1 fs q own -> taken p f = true ->
     P p (f :: fs) q (default_side f :: own)) ->
  forall fs p, P p fs (apply_fills Instruments order p fs) (taken_fills Instruments order p fs).
Proof.
  intros H0 Hno Hyes fs. induction fs as [|f fs IH]; intros p; simpl; [apply H0|].
  destruct (taken p f) eqn:E; simpl; [by apply Hyes|].
  rewrite (not_taken Instruments order p f E). by apply Hno.
Qed.

(** ** Every fill counts once *)

(** The account, order and trade that identify a fill. *)
Definition fill_key f : AccountID * OrderID * TradeID := (fr_AccountID f, fr_OrderID f, fr_TradeID f).
Definition counted p (k : AccountID * OrderID * TradeID) : Prop :=
  let '(a, o, t) := k in t ∈ (default ∅ (get2 (pf_appliedFills p) a o) : gset TradeID).

Lemma hasApplied_counted p f : hasAppliedFill p f = bool_decide (counted p (fill_key f)).
Proof. done. Qed.

Lemma markApplied_counted p f k : counted (markAppliedFill p f) k <-> k = fill_key f \/ counted p k.
Proof.
  destruct k as [[a o] t]. unfold counted, markAppliedFill, fill_key. simpl. rewrite get2_put2.
  case_decide as Hd; simpl.
  - destruct Hd as [<- <-]. rewrite elem_of_union, elem_of_singleton. naive_solver.
  - split; [by right|]. intros [[= -> -> ->]|H]; [by destruct Hd|done].
Qed.

(** Commissions and the record of counted fills change with every fill taken, even when the
    position or the balances are refused afterwards. *)
Lemma applyFillAccounting_counted Instruments order p f previous y :
  hasAppliedFill p f = false -> FillReport_Validate f = Ok tt ->
  let q := (applyFillAccounting Instruments order p f previous y).1 in
  pf_commissions q = pf_commissions (applyCommission p f) /\
  pf_appliedFills q = pf_appliedFills (markAppliedFill p f).
Proof.
  intros Happ Hf. destruct (PositionStatusReport_Validate y) as [[]|] eqn:Hy.
  { by destruct (applyFillAccounting_books Instruments order p f previous y Happ Hf Hy) as (_ & _ & _ & H4 & H5). }
  unfold applyFillAccounting. rewrite Happ.
  destruct (PutFill (pf_cache p) f) as [[c b]|] eqn:HF.
  2: { exfalso. unfold PutFill in HF. rewrite Hf in HF. simpl in HF. by destruct (get3 _ _ _ _). }
  destruct (applyRealizedPnLFromPosition _ f previous) as [p1 d] eqn:HR.
  assert (PutPosition (pf_cache p1) y = Fail e) as -> by (unfold PutPosition; by rewrite Hy). simpl.
  unfold applyRealizedPnLFromPosition, applyCommission in *.
  destruct (negb (IsPositive (fr_Fee f)) || (fr_FeeCurrency f ≟ "")); destruct previous as [x|];
    try (by injection HR as <- <-); cbv zeta in HR; repeat (case_match; try (by injection HR as <- <-)).
Qed.

Lemma taken_step Instruments order p f : taken p f = true ->
  let q := (ApplyFill Instruments order p f).1 in
  pf_commissions q = pf_commissions (applyCommission p (default_side f)) /\
  pf_appliedFills q = pf_appliedFills (markAppliedFill p (default_side f)).
Proof.
  intros (Hv & Hv' & Happ)%taken_inv. unfold ApplyFill. rewrite Hv. by apply applyFillAccounting_counted.
Qed.

Lemma taken_counted Instruments order p f k : taken p f = true ->
  counted (ApplyFill Instruments order p f).1 k <-> k = fill_key f \/ counted p k.
Proof.
  intros Ht. destruct (taken_step Instruments order p f Ht) as [_ H].
  assert (fill_key f = fill_key (default_side f)) as -> by
    (unfold fill_key; by destruct (default_side_same f) as (-> & _ & _ & -> & -> & _)).
  rewrite <- markApplied_counted. unfold counted. by rewrite H.
Qed.

(** ** Netting portfolios *)

Definition pos p a i : option PositionStatusReport := PositionByInstrument (pf_cache p) a i.

(** The fills of an account that holds one position per instrument: no position id, a side of
    the model or none. *)
Definition netting_fill f : Prop :=
  fr_PositionID f = "" /\ (fr_Side f = OrderSideNone \/ two_sided f).

Lemma String_inj i j :
  InstrumentID_Validate i = Ok tt -> InstrumentID_Validate j = Ok tt ->
  InstrumentID_String i = InstrumentID_String j -> i = j.
Proof.
  intros Hi Hj. pose proof (valid_nonzero i Hi). pose proof (valid_nonzero j Hj).
  apply Validate_ok in Hi as (Hi1 & Hi2 & Hi3), Hj as (Hj1 & Hj2 & Hj3).
  assert (forall k, TrimSpace (id_Symbol k) <> "" -> InstrumentID_String k = String.append (id_Symbol k) (String dot (id_Venue k))) as HS.
  { intros k Hk. unfold InstrumentID_String. rewrite bool_decide_eq_false_2; [done|]. intros E. by rewrite E in Hk. }
  rewrite !HS by done. intros E.
  pose proof (cut_append _ (id_Venue i) Hi3) as C1. rewrite E, cut_append in C1 by done.
  injection C1 as C1 C2. destruct i, j; simpl in *; by subst.
Qed.

Lemma String_nonempty i : InstrumentID_Validate i = Ok tt -> InstrumentID_String i <> "".
Proof.
  intros (H1 & H2 & _)%Validate_ok. unfold InstrumentID_String. rewrite bool_decide_eq_false_2.
  - simpl. by destruct (id_Symbol i).
  - intros E. by rewrite E in H1.
Qed.

Section netting.
Context {DL : DecimalLaws DD}.
Open Scope Q_scope.
#[local] Arguments Qplus : simpl never.
#[local] Arguments Qmult : simpl never.
#[local] Arguments Qminus : simpl never.
#[local] Arguments Qopp : simpl never.
#[local] Arguments Qabs : simpl never.

Record netting p : Prop := {
  net_inst a i (n : PositionID) : get2 (c_positionInst (pf_cache p)) a i = Some n ->
    n = InstrumentID_String i /\ InstrumentID_Validate i = Ok tt;
  net_pos a i x : InstrumentID_Validate i = Ok tt -> cache_Position (pf_cache p) a (InstrumentID_String i) = Some x ->
    get2 (c_positionInst (pf_cache p)) a i = Some (InstrumentID_String i) /\ sided x /\ 0 <= dval (pr_EntryPrice x);
}.

Lemma netting_new c : c_positions (default New c) = ∅ -> c_positionInst (default New c) = ∅ -> netting (NewPortfolio c).
Proof.
  intros E1 E2. split; [intros a i n|intros a i x]; unfold cache_Position; simpl;
    rewrite ?E1, ?E2, get2_empty; done.
Qed.

Lemma pos_by_id p a i : netting p -> InstrumentID_Validate i = Ok tt ->
  pos p a i = cache_Position (pf_cache p) a (InstrumentID_String i).
Proof.
  intros [H1 H2] Hi. unfold pos, PositionByInstrument, cache_Position.
  destruct (get2 (c_positions _) a (InstrumentID_String i)) as [x|] eqn:E.
  - destruct (H2 a i x Hi E) as [-> _]. simpl. done.
  - destruct (get2 (c_positionInst _) a i) as [n|] eqn:En; [|done]. destruct (H1 _ _ _ En) as [-> _]. exact E.
Qed.

Lemma pos_sided p a i : netting p -> InstrumentID_Validate i = Ok tt -> sided_opt (pos p a i) /\ 0 <= cost (pos p a i).
Proof.
  intros Hp Hi. rewrite pos_by_id by done. destruct (cache_Position _ _ _) as [x|] eqn:E; [|split; [done|simpl; lra]].
  by destruct (net_pos p Hp a i x Hi E) as (_ & ? & ?).
Qed.

Lemma netting_side f : netting_fill f -> two_sided (default_side f).
Proof.
  intros [_ H]. unfold default_side, two_sided in *. destruct (fr_Side f ≟ OrderSideNone) eqn:E; [left; done|].
  destruct H as [H|H]; [by rewrite H in E|done].
Qed.

Lemma position_of_netting f : netting_fill f -> position_of (default_side f) = InstrumentID_String (fr_InstrumentID f).
Proof.
  intros [H _]. unfold position_of. destruct (default_side_same f) as (_ & -> & -> & _). by rewrite H.
Qed.

(** The position a fill leads to validates. *)
Lemma after_fill_valid o f : valid_fill f -> sided_opt o -> two_sided f -> 0 <= cost o -> position_of f <> "" ->
  PositionStatusReport_Validate (after_fill o (position_of f) f) = Ok tt.
Proof.
  intros F Ho Hs Hc Hid. pose proof (after_fill_entry_nonneg o (position_of f) f Ho Hs F Hc) as He.
  destruct (after_fill_held o (position_of f) f Ho Hs (vf_quantity f F)) as [Hsd _].
  assert (pr_AccountID (after_fill o (position_of f) f) = fr_AccountID f /\
    pr_InstrumentID (after_fill o (position_of f) f) = fr_InstrumentID f /\
    pr_PositionID (after_fill o (position_of f) f) = position_of f) as (E1 & E2 & E3) by by destruct o.
  unfold PositionStatusReport_Validate. rewrite E1, E2, E3, (vf_instrument f F).
  rewrite !bool_decide_eq_false_2 by (done || apply F). simpl.
  assert (IsNegative (pr_EntryPrice (after_fill o (position_of f) f)) = false) as -> by dec. simpl.
  unfold sided in Hsd. by destruct (pr_Side _).
Qed.

(** The fill is one of the account's in the instrument. *)
Definition concerns a i f : Prop := fr_AccountID f = a /\ fr_InstrumentID f = i.
#[global] Instance concerns_dec a i f : Decision (concerns a i f) := _.

Lemma RealizedPnL_step p f o a i :
  dval (RealizedPnL (applyRealizedPnLFromPosition p f o).1 a i) ==
  dval (RealizedPnL p a i) + (if decide (concerns a i f) then dval (realized_by o f) else 0).
Proof.
  assert (Hz : forall c : bool, 0 == (if c then dval (dzero : D) else 0)) by (intros []; [by rewrite dval_zero|done]).
  unfold RealizedPnL, applyRealizedPnLFromPosition, realized_by. cbv zeta.
  assert (Hid : dval (amount (pf_realized p) a i) == dval (amount (pf_realized p) a i) + (if decide (concerns a i f) then dval (dzero : D) else 0)).
  { case_decide; rewrite ?dval_zero; lra. }
  destruct o as [x|]; [|exact Hid]. destruct (flat x); [exact Hid|]. destruct (sameDirection x f); [exact Hid|].
  destruct (negb _); [exact Hid|]. simpl. unfold add_amount, concerns. unfold amount at 1. rewrite get2_put2.
  clear Hid Hz. case_decide as Hd; case_decide as Hd'; try tauto; simpl; [|fold (amount (pf_realized p) a i); lra].
  destruct Hd as [<- <-]. rewrite dval_add. by destruct (pr_Side x ≟ PositionSideShort).
Qed.

(** One counted fill of a netting portfolio. *)
Lemma netting_step Instruments order p f :
  netting p -> netting_fill f -> taken p f = true ->
  let q := (ApplyFill Instruments order p f).1 in
  let g := default_side f in
  netting q /\
  forall a i, InstrumentID_Validate i = Ok tt ->
    pos q a i = (if decide (concerns a i g) then Some (after_fill (pos p a i) (position_of g) g) else pos p a i) /\
    dval (RealizedPnL q a i) ==
      dval (RealizedPnL p a i) + (if decide (concerns a i g) then dval (realized_by (pos p a i) g) else 0).
Proof.
  intros Hp Hf Ht q g. apply taken_inv in Ht as (Hv & Hv' & Happ). fold g in Hv', Happ.
  assert (F := FillReport_Validate_ok g Hv'). assert (Hi := vf_instrument g F).
  pose proof (netting_side f Hf : two_sided g) as Hs. pose proof (position_of_netting f Hf : position_of g = _) as Hid.
  assert (fr_InstrumentID f = fr_InstrumentID g) as Ei by (unfold g; by destruct (default_side_same f) as (_ & -> & _)).
  rewrite Ei in Hid.
  destruct (pos_sided p (fr_AccountID g) _ Hp Hi) as [Ho Hc].
  assert (Hny : nextPosition p g = after_fill (pos p (fr_AccountID g) (fr_InstrumentID g)) (position_of g) g).
  { by rewrite nextPosition_after, Hid, <- pos_by_id. }
  set (y := after_fill (pos p (fr_AccountID g) (fr_InstrumentID g)) (position_of g) g) in *.
  assert (PositionStatusReport_Validate y = Ok tt) as Hy.
  { apply after_fill_valid; try done. rewrite Hid. by apply String_nonempty. }
  assert (pr_AccountID y = fr_AccountID g /\ pr_InstrumentID y = fr_InstrumentID g /\ pr_PositionID y = InstrumentID_String (fr_InstrumentID g)) as (Y1 & Y2 & Y3).
  { rewrite <- Hid. unfold y. by destruct (pos p _ _). }
  destruct (applyFillAccounting_books Instruments order p g (pos p (fr_AccountID g) (fr_InstrumentID g)) y Happ Hv' Hy)
    as (B1 & B2 & B3 & _).
  assert (Hq : q = (applyFillAccounting Instruments order p g (pos p (fr_AccountID g) (fr_InstrumentID g)) y).1).
  { unfold q, ApplyFill. rewrite Hv. cbv zeta. fold g. by rewrite Hny. }
  rewrite <- Hq in B1, B2, B3. clear Hq. rewrite Y1, Y2, Y3 in *.
  destruct (after_fill_held (pos p (fr_AccountID g) (fr_InstrumentID g)) (position_of g) g Ho Hs (vf_quantity g F)) as [Hsd _].
  pose proof (after_fill_entry_nonneg _ (position_of g) g Ho Hs F Hc) as He.
  assert (Hq : netting q).
  { split.
    - intros a i n. rewrite B2, get2_put2. case_decide as Hd; [|apply Hp]. destruct Hd as [<- <-]. by intros [= <-].
    - intros a i x Hi'. unfold cache_Position. rewrite B1, B2, !get2_put2. case_decide as Hd.
      + destruct Hd as [<- Hd]. apply String_inj in Hd as <-; [|done..]. rewrite decide_True by done. intros [= <-]. done.
      + rewrite decide_False; [apply Hp; done|]. intros [<- <-]. by apply Hd. }
  split; [done|]. intros a i Hi'. split.
  - rewrite !pos_by_id by done. unfold cache_Position at 1. rewrite B1, get2_put2. unfold concerns.
    case_decide as Hd.
    + destruct Hd as [<- Hd]. apply String_inj in Hd as <-; [|done..]. rewrite decide_True by done.
      unfold y. by rewrite <- pos_by_id.
    + rewrite decide_False; [done|]. intros [<- <-]. by apply Hd.
  - unfold RealizedPnL. rewrite B3. etrans; [apply RealizedPnL_step|]. unfold concerns. case_decide as Hd; [|done].
    destruct Hd as [<- <-]. reflexivity.
Qed.

(** ** The accounting identity *)

Definition qsum (g : FillReport -> Q) fs : Q := foldr (fun f total => g f + total) 0 fs.

(** The most the divisions of a run may round: half a unit in the sixteenth decimal place for
    every unit held after each fill. *)
Fixpoint slack (h : Q) fs : Q :=
  match fs with [] => 0 | f :: fs => Qabs (h + delta f) * half_ulp + slack (h + delta f) fs end.

#[local] Instance slack_proper : Proper (Qeq ==> eq ==> Qeq) slack.
Proof.
  intros h h' Hh fs ? <-. revert h h' Hh. induction fs as [|f fs IH]; intros h h' Hh; simpl; [done|].
  assert (E : h + delta f == h' + delta f) by lra. apply Qplus_comp; [|exact (IH _ _ E)].
  apply Qmult_comp; [by apply Qabs_wd|reflexivity].
Qed.

(** What an account's dealings in an instrument come to: profit taken less the cost of what is held. *)
Definition book_value p a i : Q := dval (RealizedPnL p a i) - held (pos p a i) * cost (pos p a i).

Lemma book_value_step Instruments order p f a i :
  netting p -> netting_fill f -> taken p f = true -> InstrumentID_Validate i = Ok tt ->
  concerns a i (default_side f) ->
  let q := (ApplyFill Instruments order p f).1 in
  let g := default_side f in
  held (pos q a i) == held (pos p a i) + delta g /\
  Qabs ((book_value q a i - book_value p a i) + delta g * dval (fr_Price g))
    <= Qabs (held (pos p a i) + delta g) * half_ulp.
Proof.
  intros Hp Hf Ht Hi Hc q g. destruct (netting_step Instruments order p f Hp Hf Ht) as [_ H].
  destruct (H a i Hi) as [H1 H2]. fold q g in H1, H2. rewrite decide_True in H1 by done. rewrite decide_True in H2 by done. clear H.
  apply taken_inv in Ht as (_ & Hv & _). fold g in Hv. pose proof (vf_quantity g (FillReport_Validate_ok g Hv)) as Hq.
  pose proof (netting_side f Hf : two_sided g) as Hs. destruct (pos_sided p a i Hp Hi) as [Ho _].
  pose proof (fill_identity (pos p a i) (position_of g) g Ho Hs Hq) as Hid. cbv zeta in Hid.
  destruct (after_fill_held (pos p a i) (position_of g) g Ho Hs Hq) as [_ Hh].
  change (dval (signedPosition ?y)) with (held (Some y)) in Hh. rewrite <- H1 in Hid, Hh.
  split; [exact Hh|]. rewrite <- Hh. eapply Qle_trans; [|exact Hid].
  unfold book_value. apply Qle_lteq. right. apply Qabs_wd. rewrite H2. ring.
Qed.

Lemma book_value_other Instruments order p f a i :
  netting p -> netting_fill f -> taken p f = true -> InstrumentID_Validate i = Ok tt ->
  ~ concerns a i (default_side f) ->
  let q := (ApplyFill Instruments order p f).1 in
  pos q a i = pos p a i /\ book_value q a i == book_value p a i.
Proof.
  intros Hp Hf Ht Hi Hc q. destruct (netting_step Instruments order p f Hp Hf Ht) as [_ H].
  destruct (H a i Hi) as [H1 H2]. fold q in H1, H2. rewrite decide_False in H1 by done. rewrite decide_False in H2 by done.
  split; [exact H1|]. unfold book_value. rewrite H1, H2. ring.
Qed.


(** ** Commissions *)

(** What a fill adds to the account's commissions in a currency. *)
Definition fee_in a (c : Currency) f : Q :=
  if (fr_AccountID f ≟ a) && (fr_FeeCurrency f ≟ c) && (c ≠? "") then dval (fr_Fee f) else 0.

Lemma applyCommission_val p f a c : FillReport_Validate f = Ok tt ->
  dval (Commission (applyCommission p f) a c) == dval (Commission p a c) + fee_in a c f.
Proof.
  intros Hv. pose proof (vf_fee f (FillReport_Validate_ok f Hv)) as Hfee.
  unfold Commission, applyCommission, fee_in. destruct (IsPositive (fr_Fee f)) eqn:Hp; simpl.
  - destruct (fr_FeeCurrency f ≟ "") eqn:He; simpl.
    + bools. rewrite He. destruct (fr_AccountID f ≟ a); simpl; [|lra].
      case_bool_decide as Hc; simpl; [|lra]. subst c. rewrite bool_decide_eq_true_2 by done. simpl. lra.
    + apply bool_decide_eq_false in He. unfold add_amount, amount. rewrite get2_put2.
      destruct (decide (fr_AccountID f = a /\ fr_FeeCurrency f = c)) as [Hd|Hd].
      * destruct Hd as [<- <-]. rewrite !bool_decide_eq_true_2, bool_decide_eq_false_2 by done. simpl. apply dval_add.
      * assert ((fr_AccountID f ≟ a) && (fr_FeeCurrency f ≟ c) = false) as ->; [|simpl; lra].
        destruct (fr_AccountID f ≟ a) eqn:E1; [|done]. destruct (fr_FeeCurrency f ≟ c) eqn:E2; [|done].
        bools. by destruct Hd.
  - assert (dval (fr_Fee f) == 0) as Hz by dec. destruct (_ && _ && _); rewrite ?Hz; lra.
Qed.

(** Every fill counts exactly once.  Over any run of fills, the ones that count have
    different keys (account, order and trade), none of them counted before; the commissions
    of every account and currency grow by exactly the sum of their fees; and once the run is
    over, delivering any valid fill of it again changes nothing and reports no error.  This
    holds whatever happens to the position and the balances on the way. *)
Theorem fills_count_once Instruments order p fs :
  let q := apply_fills Instruments order p fs in
  let own := taken_fills Instruments order p fs in
  NoDup (fill_key <$> own) /\
  (forall f, f ∈ own -> ~ counted p (fill_key f)) /\
  (forall a c, dval (Commission q a c) == dval (Commission p a c) + qsum (fee_in a c) own) /\
  (forall f, f ∈ fs -> FillReport_Validate f = Ok tt -> ApplyFill Instruments order q f = (q, Ok tt)).
Proof.
  cbv zeta. assert (H : forall P Q R S : Prop, P /\ Q /\ R /\ S /\ (forall k, counted p k -> counted (apply_fills Instruments order p fs) k) ->
    P /\ Q /\ R /\ S) by tauto. apply H; clear H.
  apply (run_ind Instruments order (fun p fs q own => NoDup (fill_key <$> own) /\
    (forall f, f ∈ own -> ~ counted p (fill_key f)) /\
    (forall a c, dval (Commission q a c) == dval (Commission p a c) + qsum (fee_in a c) own) /\
    (forall f, f ∈ fs -> FillReport_Validate f = Ok tt -> ApplyFill Instruments order q f = (q, Ok tt)) /\
    (forall k, counted p k -> counted q k))).
  - intros p'. split_and!; try done.
    + constructor.
    + by intros f ?%elem_of_nil.
    + intros a c. simpl. lra.
    + by intros f ?%elem_of_nil.
  - intros p' f fs' q own (H1 & H2 & H3 & H4 & H5) Ht. split_and!; try done.
    intros g [->|Hg]%elem_of_cons Hv; [|by apply H4]. unfold taken in Ht. rewrite Hv in Ht. simpl in Ht.
    apply negb_false_iff in Ht. rewrite hasApplied_counted in Ht. bools. apply H5 in Ht.
    unfold ApplyFill, applyFillAccounting. rewrite Hv, hasApplied_default, hasApplied_counted.
    by rewrite bool_decide_eq_true_2.
  - intros p' f fs' q own (H1 & H2 & H3 & H4 & H5) Ht.
    pose proof (taken_inv p' f Ht) as (Hv & Hv' & Happ). rewrite hasApplied_counted in Happ. bools.
    assert (fill_key f = fill_key (default_side f)) as Hk by
      (unfold fill_key; by destruct (default_side_same f) as (-> & _ & _ & -> & -> & _)).
    assert (Hq : counted q (fill_key f)) by (apply H5, taken_counted; [done|by left]).
    split_and!.
    + simpl. constructor; [|done]. intros (g & E & Hg)%list_elem_of_fmap. apply (H2 g Hg), taken_counted; [done|].
      left. congruence.
    + intros g [->|Hg]%elem_of_cons; [done|]. intros Hc. apply (H2 g Hg), taken_counted; [done|by right].
    + intros a c. rewrite H3. destruct (taken_step Instruments order p' f Ht) as [Hc _].
      unfold Commission. rewrite Hc. simpl. etrans; [apply Qplus_comp; [by apply applyCommission_val|reflexivity]|].
      unfold Commission. ring.
    + intros g [->|Hg]%elem_of_cons Hvg; [|by apply H4]. unfold ApplyFill, applyFillAccounting.
      rewrite Hvg, hasApplied_default, hasApplied_counted. by rewrite bool_decide_eq_true_2.
    + intros k Hk'. apply H5, taken_counted; [done|by right].
Qed.

(** ** The position a fill leaves *)

(** What one counted fill does in a portfolio with one position per instrument.  The
    position held afterwards agrees with its side and its signed quantity is the old one
    plus the fill's.  Opening takes the fill's price for entry; adding takes the average
    weighted by quantity, rounded to sixteen places; reducing keeps the entry price;
    closing exactly clears it and closing through zero takes the fill's price.  Profit is
    realized on the part that closes, against the old entry price, and only there. *)
Theorem fill_position Instruments order p f a i :
  netting p -> netting_fill f -> taken p f = true -> fr_AccountID f = a -> fr_InstrumentID f = i ->
  let q := (ApplyFill Instruments order p f).1 in
  let g := default_side f in
  let price := dval (fr_Price g) in
  let old := pos p a i in
  let gain := dval (RealizedPnL q a i) - dval (RealizedPnL p a i) in
  exists y, pos q a i = Some y /\ sided y /\
    held (Some y) == held old + delta g /\
    match meeting old g with
    | Opens => dval (pr_EntryPrice y) == price /\ gain == 0
    | Adds => Qabs (dval (pr_EntryPrice y) -
                    (cost old * Qabs (held old) + price * Qabs (delta g)) / (Qabs (held old) + Qabs (delta g))) <= half_ulp
              /\ gain == 0
    | Reduces => dval (pr_EntryPrice y) == cost old /\ gain == (cost old - price) * delta g
    | Closes => dval (pr_EntryPrice y) == (if Qeq_bool (held (Some y)) 0 then 0 else price)
                /\ gain == (price - cost old) * held old
    end.
Proof.
  intros Hp Hf Ht <- <- q g price old gain. destruct (netting_step Instruments order p f Hp Hf Ht) as [_ H].
  apply taken_inv in Ht as (Hv & Hv' & _). fold g in Hv'. pose proof (vf_quantity g (FillReport_Validate_ok g Hv')) as Hq.
  assert (Hi : InstrumentID_Validate (fr_InstrumentID f) = Ok tt) by apply (FillReport_Validate_ok f Hv).
  destruct (H (fr_AccountID f) (fr_InstrumentID f) Hi) as [H1 H2]. fold q g in H1, H2. clear H.
  assert (concerns (fr_AccountID f) (fr_InstrumentID f) g) as Hc by
    (unfold concerns, g; by destruct (default_side_same f) as (-> & -> & _)).
  rewrite decide_True in H1 by done. rewrite decide_True in H2 by done. fold old in H1, H2.
  pose proof (netting_side f Hf : two_sided g) as Hs. destruct (pos_sided p (fr_AccountID f) _ Hp Hi) as [Ho _]. fold old in Ho.
  eexists. split; [exact H1|]. destruct (after_fill_held old (position_of g) g Ho Hs Hq) as [Hsd Hh].
  split; [exact Hsd|]. change (dval (signedPosition ?y)) with (held (Some y)) in Hh. split; [exact Hh|].
  assert (Hg : gain == dval (realized_by old g)) by (unfold gain; rewrite H2; ring).
  pose proof (after_fill_entry old (position_of g) g Ho Hs Hq) as He. cbv zeta in He.
  pose proof (realized_by_val old g Ho Hs Hq) as Hr. pose proof (meeting_signs old g Ho Hs Hq) as Hm.
  rewrite <- Hg in Hr. fold price in He, Hr.
  destruct (meeting old g), old as [x|]; try done.
  - destruct Hm as [HQ Hm]. split; [|done]. eapply Qle_trans; [|exact He].
    apply Qle_lteq. right. apply Qabs_wd.
    assert (Qabs (held (Some x)) == dval (pr_Quantity x)) as ->.
    { destruct Hm as [[-> _]|[-> _]]; rewrite ?Qabs_opp; apply Qabs_pos; lra. }
    assert (Qabs (delta g) == dval (fr_Quantity g)) as ->; [|reflexivity].
    destruct Hm as [[_ ->]|[_ ->]]; rewrite ?Qabs_opp; apply Qabs_pos; lra.
  - split; [|done]. rewrite He.
    assert (Qeq_bool (dval (pr_Quantity x)) (dval (fr_Quantity g)) =
            Qeq_bool (held (Some (after_fill (Some x) (position_of g) g))) 0) as ->; [|reflexivity].
    apply eq_true_iff_eq. rewrite !Qeq_bool_iff, Hh. destruct Hm as [[-> ->]|[-> ->]]; split; lra.
Qed.
End netting.
End ledger.
