(* ===== verification/MatchingFacts.v ===== *)
(** * Correctness of the back-test matching

    What the matching core takes from a book, which market data counts as the latest, the
    ratchet of a trailing stop, the liquidity an immediate order finds, and that the back-test
    computes the same positions as the live portfolio. *)
From stdpp Require Import base gmap list strings.
From Stdlib Require Import QArith Qabs Qminmax Lqa.
From S2P Require Import Prelude Decimals Enums Identifiers Orders Market Accounts Cache Matching Portfolio PortfolioFacts.

Open Scope go_scope.

Section facts.
Context {DD : Decimal} {DL : DecimalLaws DD}.
Open Scope Q_scope.

#[local] Arguments Qplus : simpl never.
#[local] Arguments Qmult : simpl never.
#[local] Arguments Qminus : simpl never.
#[local] Arguments Qdiv : simpl never.
#[local] Arguments Qopp : simpl never.
#[local] Arguments Qabs : simpl never.
#[local] Arguments Qmin : simpl never.
#[local] Arguments Qmax : simpl never.

Lemma dval_max a b : dval (dmax a b) == Qmax (dval a) (dval b).
Proof.
  unfold dmax. destruct (GreaterThan b a) eqn:E; dec_hyps.
  - by rewrite Q.max_r by lra.
  - by rewrite Q.max_l by lra.
Qed.

(** The sum of a list of rationals. *)
Definition Qsum (l : list Q) : Q := foldr Qplus 0 l.

Lemma Qsum_cons x l : Qsum (x :: l) = x + Qsum l.
Proof. done. Qed.

Lemma Qsum_nonneg l : Forall (fun x => 0 <= x) l -> 0 <= Qsum l.
Proof. induction 1; simpl; lra. Qed.

(** ** The matching core *)
Section book.
Context {model : FillModel}.
Implicit Types (order : OrderStatusReport) (level : OrderBookLevel) (levels : list OrderBookLevel) (m : Match)
  (consumed : gmap string D) (quantity : D).

(** What is left of a level, and of the levels within the order's limit. *)
Definition available consumed level : D := dsub (lv_Size level) (consumed_at consumed (lv_Price level)).
Definition offered consumed order levels : Q :=
  Qsum ((fun level => Qmax 0 (dval (available consumed level))) <$> matching_levels order levels).
Definition matched (ms : list Match) : Q := Qsum ((fun m => dval (mx_Quantity m)) <$> ms).

(** A match takes a positive quantity, at the level's price, of what is left of the level. *)
Definition taken_from consumed m level : Prop :=
  mx_Price m = lv_Price level /\ 0 < dval (mx_Quantity m) <= dval (available consumed level).

(** The fill model answers every context with yes. *)
Definition accepts : Prop := forall (state : FM) ctx, (ShouldFillLimitTouch state ctx).2 = true.

Lemma offered_nonneg consumed order levels : 0 <= offered consumed order levels.
Proof. apply Qsum_nonneg, Forall_fmap, Forall_true. intros; simpl. apply Q.le_max_l. Qed.

Lemma offered_cons consumed order level levels :
  canMatch order (lv_Price level) = true ->
  offered consumed order (level :: levels) = Qmax 0 (dval (available consumed level)) + offered consumed order levels.
Proof. intros E. unfold offered. simpl. by rewrite E. Qed.

Lemma matched_cons m ms : matched (m :: ms) = dval (mx_Quantity m) + matched ms.
Proof. done. Qed.

Lemma match_levels_taken fm inst order consumed ts quantity levels :
  exists from, from `sublist_of` matching_levels order levels /\
    Forall2 (taken_from consumed) (match_levels fm inst order consumed ts quantity levels).2 from.
Proof.
  revert fm quantity. induction levels as [|level levels IH]; intros fm quantity; simpl; [by exists []|].
  destruct (IsPositive quantity); simpl; [|exists []; split; [apply sublist_nil_l|constructor]].
  destruct (canMatch order (lv_Price level)); simpl; [|by exists []].
  assert (Hskip : forall fm, exists from, from `sublist_of` level :: matching_levels order levels /\
            Forall2 (taken_from consumed) (match_levels fm inst order consumed ts quantity levels).2 from).
  { intros fm'. destruct (IH fm' quantity) as (from & Hs & Hf). exists from. split; [by constructor|done]. }
  fold (available consumed level).
  destruct (IsPositive (dmin quantity (available consumed level))) eqn:Eq; simpl; [|apply Hskip].
  destruct (shouldFillLimitTouch _ _ _ _ _ _ _) as [fm' []]; simpl; [|apply Hskip].
  destruct (IH fm' (dsub quantity (dmin quantity (available consumed level)))) as (from & Hs & Hf).
  destruct (match_levels _ _ _ _ _ _ levels) as [fm'' ms]. simpl in *.
  exists (level :: from). split; [by constructor|]. constructor; [|done]. split; [done|].
  simpl. dec_hyps. split; [done|]. rewrite dval_min. apply Q.le_min_r.
Qed.

Lemma match_levels_total fm inst order consumed ts quantity levels :
  matched (match_levels fm inst order consumed ts quantity levels).2 <= Qmax 0 (dval quantity).
Proof.
  revert fm quantity. induction levels as [|level levels IH]; intros fm quantity; cbn [match_levels];
    [apply Q.le_max_l|].
  destruct (IsPositive quantity) eqn:Eq; simpl; [|apply Q.le_max_l].
  destruct (canMatch order (lv_Price level)); simpl; [|apply Q.le_max_l].
  fold (available consumed level). set (q := dmin quantity (available consumed level)).
  destruct (IsPositive q); simpl; [|apply IH].
  destruct (shouldFillLimitTouch _ _ _ _ _ _ _) as [fm' []]; simpl; [|apply IH].
  specialize (IH fm' (dsub quantity q)).
  destruct (match_levels _ _ _ _ _ _ levels) as [fm'' ms]. simpl in IH |- *.
  rewrite matched_cons. simpl. assert (dval q <= dval quantity) by (unfold q; rewrite dval_min; apply Q.le_min_l).
  dec_hyps. rewrite dval_sub in IH. rewrite Q.max_r in IH by lra. rewrite Q.max_r by lra. lra.
Qed.

Lemma shouldFill_accepts fm inst order price quantity ts source :
  accepts -> backtestPostOnlyCanFill order ts = true ->
  (shouldFillLimitTouch fm inst order price quantity ts source).2 = true.
Proof.
  intros Ha Hp. unfold shouldFillLimitTouch. rewrite Hp. simpl. destruct fm as [m|]; [|done].
  specialize (Ha m (mkFillContext order inst source price quantity ts (isLimitTouch order price)
                      (negb (backtestFillIsMaker order ts)))).
  by destruct (ShouldFillLimitTouch _ _) as [? []].
Qed.

(** A fill model that accepts takes all that is offered, up to the quantity asked for. *)
Lemma match_levels_greedy fm inst order consumed ts quantity levels :
  accepts -> backtestPostOnlyCanFill order ts = true ->
  matched (match_levels fm inst order consumed ts quantity levels).2 ==
  Qmin (Qmax 0 (dval quantity)) (offered consumed order levels).
Proof.
  intros Ha Hp. revert fm quantity. induction levels as [|level levels IH]; intros fm quantity.
  { simpl. unfold offered. simpl. rewrite Q.min_r by apply Q.le_max_l. done. }
  cbn [match_levels]. pose proof (offered_nonneg consumed order (level :: levels)) as Hn.
  destruct (IsPositive quantity) eqn:Eq; simpl; dec_hyps.
  2:{ rewrite (Q.max_l 0) by lra. by rewrite Q.min_l by lra. }
  rewrite (Q.max_r 0) by lra.
  destruct (canMatch order (lv_Price level)) eqn:Ec; simpl.
  2:{ unfold offered. simpl. rewrite Ec. simpl. by rewrite Q.min_r by lra. }
  rewrite offered_cons by done. pose proof (offered_nonneg consumed order levels) as Hn'.
  fold (available consumed level). set (q := dmin quantity (available consumed level)).
  assert (Hq : dval q == Qmin (dval quantity) (dval (available consumed level))) by apply dval_min.
  destruct (IsPositive q) eqn:Ep; simpl; dec_hyps.
  - pose proof (shouldFill_accepts fm inst order (lv_Price level) q ts FillSourceOrderBook Ha Hp) as Ht.
    destruct (shouldFillLimitTouch _ _ _ _ _ _ _) as [fm' []]; [simpl|done].
    specialize (IH fm' (dsub quantity q)).
    destruct (match_levels _ _ _ _ _ _ levels) as [fm'' ms]. simpl in IH |- *.
    rewrite matched_cons. simpl. rewrite IH, dval_sub.
    pose proof (Q.le_min_r (dval quantity) (dval (available consumed level))).
    rewrite (Q.max_r 0 (dval (available consumed level))) by lra.
    destruct (Q.min_spec (dval quantity) (dval (available consumed level))) as [[? E]|[? E]]; rewrite E in Hq.
    + rewrite (Q.max_l 0) by lra. rewrite (Q.min_l 0) by lra. rewrite Q.min_l by lra. lra.
    + rewrite (Q.max_r 0) by lra. destruct (Q.min_spec (dval quantity - dval q) (offered consumed order levels)) as [[? ->]|[? ->]],
        (Q.min_spec (dval quantity) (dval (available consumed level) + offered consumed order levels)) as [[? ->]|[? ->]]; lra.
  - rewrite IH, (Q.max_r 0 (dval quantity)) by lra.
    destruct (Q.min_spec (dval quantity) (dval (available consumed level))) as [[? E]|[? E]]; rewrite E in Hq; [lra|].
    rewrite (Q.max_l 0) by lra. apply Q.min_compat; lra.
Qed.

Lemma match_levels_post_only fm inst order consumed ts quantity levels :
  backtestPostOnlyCanFill order ts = false -> match_levels fm inst order consumed ts quantity levels = (fm, []).
Proof.
  intros Hp. revert quantity. induction levels as [|level levels IH]; intros quantity; [done|]. cbn [match_levels].
  unfold shouldFillLimitTouch. rewrite Hp. simpl. repeat case_match; done.
Qed.

End book.

(** ** The latest market data

    The prices, the price and the range of an order fold over candidates, keeping those of the
    latest time. *)
Section latest.
Context {A B : Type} (positive : A -> bool) (when : A -> time) (first : A -> B) (more : B -> A -> B).
Implicit Types (c : A) (cs : list A).

Definition consider (acc : option (B * time)) c : option (B * time) :=
  if negb (positive c) then acc
  else match acc with
  | None => Some (first c, when c)
  | Some (b, t) => if After (when c) t then Some (first c, when c)
                   else if time_Equal (when c) t then Some (more b c, t) else acc
  end.

(** [t] is the time of the latest positive candidates, which [at_time] lists. *)
Definition latest_time cs (t : time) : Prop :=
  (exists c, c ∈ cs /\ positive c = true /\ when c = t) /\
  (forall c, c ∈ cs -> positive c = true -> (when c <= t)%Z).
Definition at_time cs (t : time) : list A := filter (fun c => positive c = true /\ when c = t) cs.
Definition fold_candidates cs : option B :=
  match cs with [] => None | c :: cs => Some (foldl more (first c) cs) end.

Lemma fold_candidates_snoc cs c b :
  fold_candidates cs = Some b -> fold_candidates (cs ++ [c]) = Some (more b c).
Proof. destruct cs as [|c' cs]; [done|]. intros [= <-]. simpl. by rewrite foldl_app. Qed.

Lemma at_time_snoc cs c t :
  at_time (cs ++ [c]) t = at_time cs t ++ (if decide (positive c = true /\ when c = t) then [c] else []).
Proof. unfold at_time. rewrite filter_app, filter_cons, filter_nil. done. Qed.

Lemma at_time_none cs t :
  (forall c, c ∈ cs -> positive c = true -> (when c < t)%Z) -> at_time cs t = [].
Proof.
  intros Hlt. unfold at_time. destruct (filter _ cs) as [|c l] eqn:E; [done|].
  assert (Hin : c ∈ filter (fun c => positive c = true /\ when c = t) cs) by (rewrite E; by left).
  apply list_elem_of_filter in Hin as [[Hp Ht] Hin]. specialize (Hlt c Hin Hp). lia.
Qed.

Lemma fold_latest cs :
  match foldl consider None cs with
  | None => Forall (fun c => positive c = false) cs
  | Some (b, t) => latest_time cs t /\ fold_candidates (at_time cs t) = Some b
  end.
Proof.
  induction cs as [|c cs IH] using rev_ind; [constructor|]. rewrite foldl_app. simpl.
  unfold consider at 1. destruct (positive c) eqn:Ep; simpl.
  2:{ destruct (foldl consider None cs) as [[b t]|].
      - destruct IH as [[(c' & Hc' & Hp' & Ht') Hmax] Hf]. split; [split|].
        + exists c'. split; [by apply elem_of_app; left|done].
        + intros c'' [?| ->%list_elem_of_singleton]%elem_of_app Hp; [by apply Hmax | congruence].
        + rewrite at_time_snoc, decide_False, app_nil_r by naive_solver congruence. done.
      - apply Forall_app. split; [done|]. by constructor. }
  destruct (foldl consider None cs) as [[b t]|].
  2:{ split; [split|].
      - exists c. split; [by apply elem_of_app; right; left|done].
      - intros c' [Hin| ->%list_elem_of_singleton]%elem_of_app Hp; [|lia].
        rewrite Forall_forall in IH. rewrite (IH c' Hin) in Hp. done.
      - rewrite at_time_snoc, decide_True by done. rewrite at_time_none; [done|].
        intros c' Hin Hp. rewrite Forall_forall in IH. rewrite (IH c' Hin) in Hp. done. }
  destruct IH as [[(c' & Hc' & Hp' & Ht') Hmax] Hf].
  destruct (After (when c) t) eqn:Ea; [|destruct (time_Equal (when c) t) eqn:Ee]; bools.
  - split; [split|].
    + exists c. split; [by apply elem_of_app; right; left|done].
    + intros c'' [Hin| ->%list_elem_of_singleton]%elem_of_app Hp; [|lia]. specialize (Hmax c'' Hin Hp). lia.
    + rewrite at_time_snoc, decide_True by done. rewrite at_time_none; [done|].
      intros c'' Hin Hp. specialize (Hmax c'' Hin Hp). lia.
  - split; [split|].
    + exists c'. split; [by apply elem_of_app; left|done].
    + intros c'' [Hin| ->%list_elem_of_singleton]%elem_of_app Hp; [by apply Hmax | lia].
    + rewrite at_time_snoc, decide_True by done. by apply fold_candidates_snoc.
  - split; [split|].
    + exists c'. split; [by apply elem_of_app; left|done].
    + intros c'' [Hin| ->%list_elem_of_singleton]%elem_of_app Hp; [by apply Hmax | lia].
    + rewrite at_time_snoc, decide_False, app_nil_r by naive_solver lia. done.
Qed.
End latest.

Section prices.
Implicit Types (l : LastMarket) (order : OrderStatusReport) (candidate : D * time).

Definition price_positive candidate : bool := IsPositive candidate.1.

Lemma trigger_fold candidates :
  foldl consider_trigger ([], None) candidates =
  match foldl (consider price_positive snd (fun c => [c.1]) (fun b c => b ++ [c.1])) None candidates with
  | None => ([], None) | Some (b, t) => (b, Some t) end.
Proof.
  induction candidates as [|c cs IH] using rev_ind; [done|]. rewrite !foldl_app. simpl. rewrite IH.
  destruct c as [price t], (foldl (consider _ _ _ _) None cs) as [[b t']|]; unfold consider, price_positive; simpl;
    destruct (IsPositive price); simpl; try done.
  destruct (After t t'); [done|]. by destruct (time_Equal t t').
Qed.

Lemma price_fold candidates :
  foldl consider_price (dzero, None) candidates =
  match foldl (consider price_positive snd fst (fun _ c => c.1)) None candidates with
  | None => (dzero, None) | Some (b, t) => (b, Some t) end.
Proof.
  induction candidates as [|c cs IH] using rev_ind; [done|]. rewrite !foldl_app. simpl. rewrite IH.
  destruct c as [price t], (foldl (consider _ _ _ _) None cs) as [[b t']|]; unfold consider, price_positive; simpl;
    destruct (IsPositive price); simpl; try done.
  destruct (After t t'); simpl; [done|]. destruct (time_Equal t t') eqn:E; [|done]. bools. by subst.
Qed.
End prices.

(** The prices a trigger is tested against are exactly the positive ones among those with the
    latest time, in the order the engine looks the data up; the price an order is
    valued at is the last of them; there is none only when no price is positive.  An order
    that was not triggered before is triggered when one of these prices satisfies its policy. *)
Theorem latest_prices (l : LastMarket) (order : OrderStatusReport) (policy : OrderStatusReport -> D -> bool) :
  let triggers := trigger_candidates l order in
  let prices := price_candidates l order in
  (latestTriggerPrices l order = [] /\ (forall c, c ∈ triggers -> IsPositive c.1 = false) \/
   exists t, latest_time price_positive snd triggers t /\
     latestTriggerPrices l order = (at_time price_positive snd triggers t).*1) /\
  (latestOrderPrice l order = dzero /\ (forall c, c ∈ prices -> IsPositive c.1 = false) \/
   exists t, latest_time price_positive snd prices t /\
     last (at_time price_positive snd prices t).*1 = Some (latestOrderPrice l order)) /\
  (or_Status order ≠ OrderStatusTriggered ->
   isTriggered l order policy = true <->
   IsPositive (or_TriggerPrice order) = true /\
   exists price, price ∈ latestTriggerPrices l order /\ policy order price = true).
Proof.
  cbv zeta. split_and!.
  - unfold latestTriggerPrices. rewrite trigger_fold.
    pose proof (fold_latest price_positive snd (fun c => [c.1]) (fun b c => b ++ [c.1]) (trigger_candidates l order)) as Hl.
    destruct (foldl (consider _ _ _ _) None _) as [[b t]|]; simpl.
    + right. exists t. destruct Hl as [Ht Hf]. split; [done|].
      destruct (at_time _ _ _ _) as [|c cs]; [done|]. injection Hf as <-. simpl.
      enough (forall b, foldl (fun b c => b ++ [c.1]) b cs = b ++ cs.*1) as ->; [done|].
      clear. induction cs as [|c cs IH]; intros b; simpl; [by rewrite app_nil_r|]. by rewrite IH, <- app_assoc.
    + left. split; [done|]. intros c Hc. rewrite Forall_forall in Hl. by apply Hl in Hc.
  - unfold latestOrderPrice. rewrite price_fold.
    pose proof (fold_latest price_positive snd fst (fun _ c => c.1) (price_candidates l order)) as Hl.
    destruct (foldl (consider _ _ _ _) None _) as [[b t]|]; simpl.
    + right. exists t. destruct Hl as [Ht Hf]. split; [done|].
      destruct (at_time _ _ _ _) as [|c cs]; [done|]. injection Hf as <-. simpl.
      revert c. induction cs as [|c cs IH]; intros c'; simpl; [done|]. by rewrite <- IH.
    + left. split; [done|]. intros c Hc. rewrite Forall_forall in Hl. by apply Hl in Hc.
  - intros Hs. unfold isTriggered. rewrite bool_decide_eq_false_2 by done.
    destruct (IsPositive (or_TriggerPrice order)); simpl; [|naive_solver].
    rewrite existsb_exists. setoid_rewrite list_elem_of_In. naive_solver.
Qed.

(** ** Trailing stops *)
Section trailing.
Variables (c : Cache) (order : OrderStatusReport).
Implicit Types (l : LastMarket) (ls : list LastMarket) (s : TrailingState) (range : D * D).

Let sell : bool := or_Side order ≟ OrderSideSell.

(** The more favorable of two prices, and the most favorable of a list. *)
Definition better (a b : D) : D := if sell then dmax a b else dmin a b.
Definition best (prices : list D) : option D :=
  match prices with [] => None | p :: prices => Some (foldl better p prices) end.

(** A favorable price that activates the trailing stop. *)
Definition activates (favorable : D) : bool :=
  negb (IsPositive (or_ActivationPrice order) &&
        ((or_Side order ≟ OrderSideSell) && LessThan favorable (or_ActivationPrice order) ||
         (or_Side order ≟ OrderSideBuy) && GreaterThan favorable (or_ActivationPrice order))).

(** The ranges of a run of market data, from the activation on. *)
Fixpoint active (ranges : list (D * D)) : list (D * D) :=
  match ranges with
  | [] => []
  | range :: ranges => if activates range.1 then range :: ranges else active ranges
  end.
Definition ranges ls : list (D * D) := omap (fun l => latestTrailingRange l order) ls.

(** The price the stop trails at, and whether the adverse price crosses it. *)
Definition trail (extreme offset : D) : D := if sell then dsub extreme offset else dadd extreme offset.
Definition crosses (adverse price : D) : bool :=
  if sell then LessThanOrEqual adverse price else GreaterThanOrEqual adverse price.

Definition run_trailing s ls : TrailingState := foldl (fun s l => (isTrailingTriggered c l s order).1) s ls.

Lemma active_snoc rs range :
  active (rs ++ [range]) =
  match active rs with [] => if activates range.1 then [range] else [] | rs => rs ++ [range] end.
Proof. induction rs as [|r rs IH]; simpl; [done|]. by destruct (activates r.1). Qed.

Lemma best_snoc prices p :
  best (prices ++ [p]) = Some (match best prices with Some e => better e p | None => p end).
Proof. destruct prices as [|p' prices]; [done|]. simpl. by rewrite foldl_app. Qed.

Lemma ranges_snoc ls l :
  ranges (ls ++ [l]) = ranges ls ++ match latestTrailingRange l order with Some r => [r] | None => [] end.
Proof. unfold ranges. rewrite omap_app. simpl. by destruct (latestTrailingRange l order). Qed.

Lemma better_same a : better a a = a.
Proof. unfold better, dmax, dmin. by repeat case_match. Qed.

(** One evaluation, from the stored extreme. *)
Lemma trailing_step s l :
  or_Status order ≠ OrderStatusTriggered -> IsPositive (or_TrailingOffset order) = true ->
  let '(s', triggered) := isTrailingTriggered c l s order in
  match latestTrailingRange l order with
  | None => s' = s /\ triggered = false
  | Some (favorable, adverse) =>
      let extreme := match tr_trailing s !! trailingKey order with
                     | Some e => Some (better e favorable)
                     | None => if activates favorable then Some favorable else None end in
      tr_trailing s' !! trailingKey order = extreme /\
      triggered = match extreme with
                  | None => false
                  | Some e => match trailingOffsetPrice c order e with
                              | Some offset => crosses adverse (trail e offset) | None => false end end /\
      tr_trailingTriggers s' !! trailingKey order =
        if triggered then extreme ≫= (fun e => trail e <$> trailingOffsetPrice c order e) else None
  end.
Proof.
  intros Hs Ho. unfold isTrailingTriggered. rewrite bool_decide_eq_false_2 by done. rewrite Ho. simpl.
  destruct (latestTrailingRange l order) as [[favorable adverse]|]; [|done].
  fold (activates favorable). set (x := default favorable (tr_trailing s !! trailingKey order)).
  change (if or_Side order ≟ OrderSideSell then if GreaterThan favorable x then favorable else x
          else if LessThan favorable x then favorable else x) with (better x favorable).
  set (waits := match tr_trailing s !! trailingKey order with Some _ => false | None => true end && negb (activates favorable)).
  assert (Hx : match tr_trailing s !! trailingKey order with
               | Some e => Some (better e favorable)
               | None => if activates favorable then Some favorable else None end =
    if waits then None else Some (better x favorable)).
  { unfold x, waits. destruct (tr_trailing s !! trailingKey order); [done|]. simpl. rewrite better_same.
    by destruct (activates favorable). }
  assert (Hn : waits = true -> tr_trailing s !! trailingKey order = None)
    by (unfold waits; by destruct (tr_trailing s !! trailingKey order)).
  rewrite Hx. clear Hx.
  match goal with |- context [if ?b && ?c && ?d then _ else _] => replace (b && c && d) with waits end.
  2:{ unfold waits, activates. by rewrite negb_involutive, andb_assoc. }
  destruct waits; [simpl; rewrite lookup_delete_eq; auto|].
  destruct (trailingOffsetPrice c order (better x favorable)) as [off|] eqn:Eo;
    [|by simpl; rewrite lookup_insert_eq, lookup_delete_eq].
  unfold trail, crosses. fold sell. destruct sell;
    [destruct (LessThanOrEqual adverse (dsub _ _)) | destruct (GreaterThanOrEqual adverse (dadd _ _))]; simpl;
    rewrite lookup_insert_eq, ?lookup_insert_eq, ?lookup_delete_eq, ?Eo; done.
Qed.

Lemma run_trailing_extreme s ls :
  or_Status order ≠ OrderStatusTriggered -> IsPositive (or_TrailingOffset order) = true ->
  tr_trailing s !! trailingKey order = None ->
  tr_trailing (run_trailing s ls) !! trailingKey order = best (active (ranges ls)).*1.
Proof.
  intros Hs Ho Hn. induction ls as [|l ls IH] using rev_ind; [done|].
  unfold run_trailing. rewrite foldl_app, ranges_snoc. fold (run_trailing s ls). simpl.
  pose proof (trailing_step (run_trailing s ls) l Hs Ho) as Hstep.
  destruct (isTrailingTriggered _ _ _ _) as [s' b]. simpl.
  destruct (latestTrailingRange l order) as [[f a]|]; [|rewrite app_nil_r; by destruct Hstep as [-> _]].
  destruct Hstep as (-> & _). rewrite active_snoc, IH.
  destruct (active (ranges ls)) as [|r rs]; simpl; [by destruct (activates f)|].
  by rewrite fmap_app, foldl_app.
Qed.

Lemma best_spec prices e :
  best prices = Some e ->
  (exists p, p ∈ prices /\ e = p) /\
  forall p, p ∈ prices -> if sell then dval p <= dval e else dval e <= dval p.
Proof.
  revert e. induction prices as [|p prices IH] using rev_ind; intros e; [done|]. rewrite best_snoc. intros [= <-].
  destruct (best prices) as [e|] eqn:Eb.
  2:{ destruct prices; [|done]. simpl. split; [exists p; split; [by left|done]|].
      intros p' ->%list_elem_of_singleton. destruct sell; lra. }
  destruct (IH e eq_refl) as [(p' & Hin & ->) Hall]. unfold better. split.
  - destruct sell; unfold dmax, dmin; case_match; [exists p|exists p'|exists p|exists p'];
      (split; [apply elem_of_app; rewrite ?list_elem_of_singleton; auto | done]).
  - intros q Hq. apply elem_of_app in Hq as [Hq| ->%list_elem_of_singleton]; [specialize (Hall q Hq)|];
      destruct sell; unfold dmax, dmin; case_match; dec_hyps; lra.
Qed.

(** C24: A trailing stop ratchets.  Whatever market data passed, the extreme the engine keeps is the
    most favorable price since the stop was activated (for a sell the highest, for a buy the
    lowest), and there is none before a price activates it.  The stop triggers on the next market data exactly when its
    adverse price crosses the extreme, that price included, less (for a buy, plus) the offset, and the
    trigger price stored is that one. *)
Theorem trailing_ratchet s ls l :
  or_Status order ≠ OrderStatusTriggered -> IsPositive (or_TrailingOffset order) = true ->
  tr_trailing s !! trailingKey order = None ->
  let s1 := run_trailing s ls in
  let seen := (active (ranges (ls ++ [l]))).*1 in
  let '(s2, triggered) := isTrailingTriggered c l s1 order in
  tr_trailing s2 !! trailingKey order = best seen /\
  (forall e, best seen = Some e ->
     (exists p, p ∈ seen /\ e = p) /\ forall p, p ∈ seen -> if sell then dval p <= dval e else dval e <= dval p) /\
  (triggered = true <->
   exists favorable adverse e offset,
     latestTrailingRange l order = Some (favorable, adverse) /\ best seen = Some e /\
     trailingOffsetPrice c order e = Some offset /\ crosses adverse (trail e offset) = true /\
     tr_trailingTriggers s2 !! trailingKey order = Some (trail e offset)).
Proof.
  intros Hs Ho Hn. cbv zeta.
  pose proof (run_trailing_extreme s (ls ++ [l]) Hs Ho Hn) as He.
  unfold run_trailing in He. rewrite foldl_app in He. fold (run_trailing s ls) in He. simpl in He.
  pose proof (trailing_step (run_trailing s ls) l Hs Ho) as Hstep.
  destruct (isTrailingTriggered c l (run_trailing s ls) order) as [s2 triggered]. simpl in He.
  split_and!; [done | intros e; apply best_spec |]. rewrite <- He.
  destruct (latestTrailingRange l order) as [[f a]|].
  2:{ destruct Hstep as [_ ->]. naive_solver. }
  cbv zeta in Hstep. destruct Hstep as (Hx & Ht & Hp). rewrite Ht in Hp |- *. clear Ht. rewrite <- Hx in Hp |- *.
  destruct (tr_trailing s2 !! trailingKey order) as [e|]; simpl in *; [|naive_solver].
  destruct (trailingOffsetPrice c order e) as [off|] eqn:Eo; simpl in *; [|naive_solver].
  split; [|naive_solver]. intros Hc. rewrite Hc in Hp. naive_solver.
Qed.
End trailing.

(** ** Quantities *)

Lemma add_available_sum (cap total q : D) :
  dval total <= dval cap ->
  dval (add_available cap total q) == Qmin (dval cap) (dval total + Qmax 0 (dval q)).
Proof.
  intros Hle. unfold add_available.
  destruct (IsPositive q) eqn:Eq; simpl; dec_hyps.
  2:{ rewrite (Q.max_l 0) by lra. rewrite Q.min_r by lra. lra. }
  rewrite (Q.max_r 0) by lra. destruct (GreaterThanOrEqual total cap) eqn:Ec; dec_hyps.
  - rewrite Q.min_l by lra. lra.
  - rewrite dval_add, dval_min, dval_sub.
    destruct (Q.min_spec (dval q) (dval cap - dval total)) as [[? ->]|[? ->]];
      [rewrite Q.min_r by lra | rewrite Q.min_l by lra]; lra.
Qed.

Lemma add_available_all cap total qs :
  dval total <= dval cap ->
  dval (foldl (add_available cap) total qs) == Qmin (dval cap) (dval total + Qsum ((fun q => Qmax 0 (dval q)) <$> qs)).
Proof.
  revert total. induction qs as [|q qs IH]; intros total Hle.
  { simpl. rewrite Q.min_r by lra. lra. }
  cbn [foldl]. rewrite fmap_cons, Qsum_cons.
  pose proof (add_available_sum cap total q Hle) as Ha.
  assert (0 <= Qsum ((fun q => Qmax 0 (dval q)) <$> qs)).
  { apply Qsum_nonneg, Forall_fmap, Forall_true. intros; simpl. apply Q.le_max_l. }
  rewrite IH by (rewrite Ha; apply Q.le_min_l). rewrite Ha. clear Ha.
  destruct (Q.min_spec (dval cap) (dval total + Qmax 0 (dval q))) as [[? ->]|[? ->]].
  - rewrite !Q.min_l by lra. done.
  - apply Q.min_compat; lra.
Qed.

(** The liquidity an immediate-or-cancel or fill-or-kill order finds is the sum of what is left
    on the matching levels of the book and in the quote, plus its whole size for every
    matching trade, bar or ticker price, capped at the order's size; and the order counts as
    fillable at once exactly when that sum covers what it leaves open. *)
Theorem immediate_quantity (l : LastMarket) (consumed : Consumed) (order : OrderStatusReport) (cap : D) :
  0 <= dval cap ->
  let found := Qsum ((fun q => Qmax 0 (dval q)) <$> immediate_sources l consumed order cap) in
  dval (availableImmediateQuantity l consumed order cap) == Qmin (dval cap) found /\
  (cap = openQuantity order -> canFullyFillImmediate l consumed order = true <-> dval cap <= found).
Proof.
  intros Hc. cbv zeta.
  assert (H0 : dval dzero <= dval cap) by (rewrite dval_zero; lra).
  pose proof (add_available_all cap dzero (immediate_sources l consumed order cap) H0) as Ha.
  fold (availableImmediateQuantity l consumed order cap) in Ha.
  rewrite dval_zero, Qplus_0_l in Ha. split; [done|]. intros ->. unfold canFullyFillImmediate.
  destruct (IsPositive (openQuantity order)) eqn:Ep; simpl; dec_hyps.
  - rewrite GreaterThanOrEqual_spec, Ha. rewrite Q.min_glb_iff. split; [tauto | intros; split; [lra | done]].
  - split; [|done]. intros _.
    pose proof (Qsum_nonneg ((fun q => Qmax 0 (dval q)) <$> immediate_sources l consumed order (openQuantity order))) as Hn.
    eapply Qle_trans; [exact Ep|]. apply Hn, Forall_fmap, Forall_true. intros; simpl. apply Q.le_max_l.
Qed.

(** ** Positions *)

Lemma round16_same a b c d : a == b -> c == d -> round16 (a / c) == round16 (b / d).
Proof. intros -> ->. done. Qed.

Lemma sameDirection_signs x f :
  sided x -> two_sided f -> 0 < dval (fr_Quantity f) ->
  sameDirection x f = (0 <? dsign (Matching.signedPosition x) * dsign (signedFill f))%Z.
Proof.
  intros Hx [Hf|Hf] Hq; unfold sided, sameDirection, Matching.signedPosition, signedFill, dsign in *; rewrite Hf.
  all: destruct (pr_Side x); try done; simpl; rewrite ?dcmp_zero, ?dval_neg.
  all: repeat match goal with |- context [(?a ?= 0)%Q] => destruct (Qcompare_spec a 0) end; try done; try lra.
Qed.

End facts.
