(* ===== verification/Partial.v ===== *)
(** * Computations that may not return

    Methods of Go that call each other without bound are written with their recursive calls as
    an argument, and the knot is tied with rounds of fuel.  A [Run] is state passing that has no
    result when the rounds do not suffice; [m ⊑ m'] says that [m'] returns whatever [m]
    returns, and [along R m] that [m] relates the states before and after it by [R]. *)
From stdpp Require Import base list.
From S2P Require Import Prelude.

Open Scope go_scope.

Definition Run (S A : Type) : Type := S -> option (S * A).
#[global] Instance Run_ret {S} : MRet (Run S) := fun A a s => Some (s, a).
#[global] Instance Run_bind {S} : MBind (Run S) := fun A B f m s =>
  match m s with Some (s, a) => f a s | None => None end.

#[global] Instance Run_fmap {S} : FMap (Run S) := fun A B f m s =>
  match m s with Some (s, a) => Some (s, f a) | None => None end.

Definition attempt_run {S A B} (m : Run S (res A)) (f : A -> Run S (res B)) : Run S (res B) :=
  mbind (fun r => match r with Ok a => f a | Fail e => mret (Fail e) end) m.
Notation "'try!' x ':=' m 'in' k" := (attempt_run m (fun x => k))
  (at level 200, x name, m at level 100, k at level 200, format "'[v' 'try!'  x  ':='  m  'in' '/' k ']'") : go_scope.

(** Out of fuel. *)
Definition stuck {S A} : Run S A := fun _ => None.
Definition get_state {S} : Run S S := fun s => Some (s, s).
(** A step that always returns, such as a method of another component. *)
Definition returning {S A} (m : St S A) : Run S A := fun s => Some (m s).
Definition modify_state {S} (f : S -> S) : Run S unit := fun s => Some (f s, tt).

(** A loop over a slice whose body may return early. *)
Fixpoint run_each {S X} (f : X -> Run S (res unit)) (l : list X) : Run S (res unit) :=
  match l with
  | [] => mret (Ok tt)
  | x :: l => try! _ := f x in run_each f l
  end.

(** ** More defined computations *)

#[global] Instance Run_le {S A} : SqSubsetEq (Run S A) := fun m m' => forall s r, m s = Some r -> m' s = Some r.
#[global] Instance Run_le_preorder {S A} : PreOrder (⊑@{Run S A}).
Proof. split; [by intros m s r | intros m1 m2 m3 H1 H2 s r H; auto]. Qed.

Lemma stuck_le {S A} (m : Run S A) : stuck ⊑ m.
Proof. by intros s r. Qed.
Lemma bind_le {S A B} (m m' : Run S A) (f f' : A -> Run S B) :
  m ⊑ m' -> (forall a, f a ⊑ f' a) -> (m ≫= f) ⊑ (m' ≫= f').
Proof.
  intros Hm Hf s r. unfold mbind, Run_bind. destruct (m s) as [[s1 a]|] eqn:E; [|done].
  rewrite (Hm _ _ E). apply Hf.
Qed.
Lemma fmap_le {S A B} (m m' : Run S A) (f : A -> B) : m ⊑ m' -> (f <$> m) ⊑ (f <$> m').
Proof. intros Hm s r. unfold fmap, Run_fmap. destruct (m s) as [[s1 a]|] eqn:E; [|done]. by rewrite (Hm _ _ E). Qed.
Lemma attempt_run_le {S A B} (m m' : Run S (res A)) (f f' : A -> Run S (res B)) :
  m ⊑ m' -> (forall a, f a ⊑ f' a) -> attempt_run m f ⊑ attempt_run m' f'.
Proof. intros Hm Hf. apply bind_le; [done|]. intros [a|e]; [apply Hf | reflexivity]. Qed.
Lemma run_each_le {S X} (f f' : X -> Run S (res unit)) l : (forall x, f x ⊑ f' x) -> run_each f l ⊑ run_each f' l.
Proof. intros Hf. induction l as [|x l IH]; simpl; [reflexivity|]. apply attempt_run_le; [apply Hf | done]. Qed.

Create HintDb run_le discriminated.
#[export] Hint Constants Opaque : run_le.
#[export] Hint Resolve stuck_le : run_le.

(** Proves [m ⊑ m'] for two computations of the same shape. *)
Ltac run_le :=
  repeat match goal with
  | |- ?m ⊑ ?m' => constr_eq m m'; reflexivity
  | |- mbind _ _ ⊑ mbind _ _ => apply bind_le; [|intros ?]
  | |- fmap _ _ ⊑ fmap _ _ => apply fmap_le
  | |- attempt_run _ _ ⊑ attempt_run _ _ => apply attempt_run_le; [|intros ?]
  | |- run_each _ _ ⊑ run_each _ _ => apply run_each_le; intros ?
  | |- (match ?x with _ => _ end) ⊑ (match ?x with _ => _ end) => destruct x
  | |- (let x := ?v in _) ⊑ _ => cbv zeta
  end; eauto with nocore run_le.

(** ** What a computation does to the state *)

(** From a state where [m] returns, [R] leads to the state after; [m] returns from every state
    of [D]. *)
Definition along {S A} (R : relation S) (D : S -> Prop) (m : Run S A) : Prop :=
  forall s, match m s with Some (s', _) => R s s' | None => ~ D s end.
(** Nothing is said of whether [m] returns. *)
Definition nowhere {S} (s : S) : Prop := False.

Class Follows {S} (R : relation S) (D : S -> Prop) : Prop := {
  follows_po : PreOrder R;
  follows_domain s s' : R s s' -> D s -> D s';
}.
#[global] Instance follows_nowhere {S} (R : relation S) `{!PreOrder R} : Follows R nowhere.
Proof. by split. Qed.

Lemma along_stuck {S A} (R : relation S) : along R nowhere (stuck (A := A)).
Proof. intros s []. Qed.
Lemma along_some {S A} {R : relation S} {D} {m : Run S A} {s s' a} : along R D m -> m s = Some (s', a) -> R s s'.
Proof. intros H E. specialize (H s). by rewrite E in H. Qed.
Lemma along_returns {S A} {R : relation S} {D} {m : Run S A} s :
  along R D m -> D s -> exists s' a, m s = Some (s', a) /\ R s s'.
Proof. intros H HD. specialize (H s). destruct (m s) as [[s' a]|]; [eauto | done]. Qed.

Section along.
Context {S : Type} (R : relation S) (D : S -> Prop) {FO : Follows R D}.
#[local] Instance along_po : PreOrder R := follows_po.

Lemma along_ret {A} (a : A) : along R D (mret a).
Proof. intros s. simpl. reflexivity. Qed.
Lemma along_get : along R D get_state.
Proof. intros s. simpl. reflexivity. Qed.
Lemma along_modify f : (forall s, R s (f s)) -> along R D (modify_state f).
Proof. intros H s. apply H. Qed.
Lemma along_returning {A} (m : St S A) : (forall s, R s (m s).1) -> along R D (returning m).
Proof. intros H s. unfold returning. specialize (H s). by destruct (m s). Qed.
Lemma along_bind {A B} (m : Run S A) (f : A -> Run S B) : along R D m -> (forall a, along R D (f a)) -> along R D (m ≫= f).
Proof.
  intros Hm Hf s. unfold mbind, Run_bind. specialize (Hm s). destruct (m s) as [[s1 a]|]; [|exact Hm].
  specialize (Hf a s1). destruct (f a s1) as [[s2 b]|]; [by etrans|]. intros HD. by eapply Hf, follows_domain.
Qed.
Lemma along_fmap {A B} (m : Run S A) (f : A -> B) : along R D m -> along R D (f <$> m).
Proof. intros Hm s. unfold fmap, Run_fmap. specialize (Hm s). by destruct (m s) as [[s1 a]|]. Qed.
Lemma along_attempt {A B} (m : Run S (res A)) (f : A -> Run S (res B)) :
  along R D m -> (forall a, along R D (f a)) -> along R D (attempt_run m f).
Proof. intros Hm Hf. apply along_bind; [done|]. intros [a|e]; [apply Hf | apply along_ret]. Qed.
Lemma along_each {X} (f : X -> Run S (res unit)) l : (forall x, along R D (f x)) -> along R D (run_each f l).
Proof. intros Hf. induction l as [|x l IH]; simpl; [apply along_ret|]. by apply along_attempt. Qed.
(** What follows a reading of the state may rely on it. *)
Lemma along_read {B} (f : S -> Run S B) :
  (forall s, match f s s with Some (s', _) => R s s' | None => ~ D s end) -> along R D (get_state ≫= f).
Proof. intros H s. apply H. Qed.
End along.

Create HintDb along discriminated.
#[export] Hint Constants Opaque : along.
#[export] Hint Resolve along_ret along_get along_stuck : along.

(** Proves [along R D m] from what is known of the parts of [m]. *)
Ltac along :=
  repeat match goal with
  | |- along _ _ (mbind _ _) => refine (along_bind _ _ _ _ _ _); [|intros ?]
  | |- along _ _ (fmap _ _) => refine (along_fmap _ _ _ _ _)
  | |- along _ _ (attempt_run _ _) => refine (along_attempt _ _ _ _ _ _); [|intros ?]
  | |- along _ _ (run_each _ _) => refine (along_each _ _ _ _ _); intros ?
  | |- along _ _ (match ?x with _ => _ end) => destruct x
  | |- along _ _ (let x := ?v in _) => cbv zeta
  end; eauto with nocore along.
