(* ===== verification/Channels.v ===== *)
(** * Channels of Go

    A buffered or unbuffered channel with the receivers blocked on it, as the buses and the
    order trackers use it: sends that do not wait, receives, and closing. *)
From stdpp Require Import base list.
From S2P Require Import Prelude.

Open Scope go_scope.

Section chan.
Context {A : Type}.

(** [ch_waiting] receivers are blocked on the channel; [ch_received] is what receivers took. *)
Record chan := mkChan {
  ch_cap : nat;
  ch_buf : list A;
  ch_waiting : nat;
  ch_received : list A;
  ch_closed : bool;
}.
#[global] Instance set_ch_buf : Setter ch_buf := fun f c => mkChan (ch_cap c) (f (ch_buf c)) (ch_waiting c) (ch_received c) (ch_closed c).
#[global] Instance set_ch_waiting : Setter ch_waiting := fun f c => mkChan (ch_cap c) (ch_buf c) (f (ch_waiting c)) (ch_received c) (ch_closed c).
#[global] Instance set_ch_received : Setter ch_received := fun f c => mkChan (ch_cap c) (ch_buf c) (ch_waiting c) (f (ch_received c)) (ch_closed c).
#[global] Instance set_ch_closed : Setter ch_closed := fun f c => mkChan (ch_cap c) (ch_buf c) (ch_waiting c) (ch_received c) (f (ch_closed c)).

Definition make_chan (cap : nat) : chan := mkChan cap [] 0 [] false.

(** A send on an open channel does not wait. *)
Definition ready (c : chan) : bool := Nat.ltb 0 (ch_waiting c) || Nat.ltb (length (ch_buf c)) (ch_cap c).

Definition push (c : chan) (v : A) : chan :=
  if Nat.ltb 0 (ch_waiting c) then c <| ch_waiting := pred (ch_waiting c) |> <| ch_received := ch_received c ++ [v] |>
  else c <| ch_buf := ch_buf c ++ [v] |>.

(** [select { case c <- v: ... default: ... }] on an open channel. *)
Definition try_send (c : chan) (v : A) : option chan := if ready c then Some (push c v) else None.

Definition receive (c : chan) : chan :=
  match ch_buf c with
  | v :: buf => c <| ch_buf := buf |> <| ch_received := ch_received c ++ [v] |>
  | [] => if ch_closed c then c else c <| ch_waiting := S (ch_waiting c) |>
  end.

Definition close (c : chan) : chan := c <| ch_waiting := 0 |> <| ch_closed := true |>.

(** Everything the channel has accepted, in order. *)
Definition sent (c : chan) : list A := ch_received c ++ ch_buf c.

Definition chan_ok (c : chan) : Prop := length (ch_buf c) <= ch_cap c /\ (ch_waiting c = 0 \/ ch_buf c = []).

Lemma make_chan_ok n : chan_ok (make_chan n).
Proof. split; simpl; [lia | by left]. Qed.
Lemma sent_push c v : chan_ok c -> sent (push c v) = sent c ++ [v].
Proof.
  intros [_ Hw]. unfold push, sent. destruct (Nat.ltb_spec 0 (ch_waiting c)); fields.
  - destruct Hw as [Hw | ->]; [lia|]. by rewrite !app_nil_r.
  - by rewrite app_assoc.
Qed.
Lemma push_ok c v : chan_ok c -> ready c = true -> chan_ok (push c v).
Proof.
  intros [Hc Hw] Hr. unfold ready in Hr. unfold push. destruct (Nat.ltb_spec 0 (ch_waiting c)) as [H|H]; fields.
  - split; fields; [done|]. destruct Hw as [Hw|]; [lia | by right].
  - apply Nat.ltb_lt in Hr. split; fields; [rewrite length_app; simpl; lia | left; lia].
Qed.
Lemma receive_ok c : chan_ok c -> chan_ok (receive c) /\ sent (receive c) = sent c.
Proof.
  intros [Hc Hw]. unfold receive, sent, chan_ok. destruct (ch_buf c) as [|v buf] eqn:E; [destruct (ch_closed c)|]; fields.
  - rewrite E. simpl. auto with lia.
  - rewrite E. simpl. auto with lia.
  - rewrite <- app_assoc. split; [|done]. destruct Hw as [|]; [|done]. auto with lia.
Qed.
Lemma close_ok c : chan_ok c -> chan_ok (close c) /\ sent (close c) = sent c.
Proof. intros [Hc Hw]. unfold close, sent, chan_ok. fields. auto. Qed.
Lemma ch_closed_push c v : ch_closed (push c v) = ch_closed c.
Proof. unfold push. by destruct (Nat.ltb _ _). Qed.
Lemma ch_closed_receive c : ch_closed (receive c) = ch_closed c.
Proof. unfold receive. destruct (ch_buf c); [|done]. by destruct (ch_closed c) eqn:E. Qed.
End chan.
Arguments chan A : clear implicits.
#[global] Hint Resolve make_chan_ok push_ok : go.

