(* ===== verification/MsgBus.v ===== *)
(** * The message bus (kernel/msgbus.go)

    [Publish] takes the list of the subscribers under the lock of the bus and then offers the
    message to each without waiting.  Subscriptions are objects: a pointer is a position in a
    heap.  [step] interleaves the calls in progress. *)
From stdpp Require Import base strings pretty relations gmap list.
From S2P Require Import Prelude Channels.

Open Scope go_scope.

Section msgbus.
Context {A P R : Type}.

Record Envelope := mkEnvelope {
  ev_Topic : string;
  ev_Message : A;
  ev_Timestamp : time;
  ev_CorrelationID : string;
}.
Record Request := mkRequest {
  rq_Endpoint : string;
  rq_Payload : P;
  rq_CorrelationID : string;
  rq_Timestamp : time;
}.
Record Response := mkResponse { rs_CorrelationID : string; rs_Payload : R }.
(** A handler is code outside, a function of the request. *)
Definition EndpointHandler : Type := Request -> res Response.

Record msgSubscription := mkMsgSubscription { ms_topic : string; ms_ch : chan Envelope; ms_once : bool }.
#[global] Instance set_ms_ch : Setter ms_ch := fun f s => mkMsgSubscription (ms_topic s) (f (ms_ch s)) (ms_once s).
#[global] Instance set_ms_once : Setter ms_once := fun f s => mkMsgSubscription (ms_topic s) (ms_ch s) (f (ms_once s)).

(** The bus, with every subscription ever made: a pointer is a position of [mb_heap]. *)
Record MsgBus := mkMsgBus {
  mb_defaultBuffer : Z;
  mb_subs : gmap string (gset nat);
  mb_endpoints : gmap string EndpointHandler;
  mb_published : Z;
  mb_dropped : Z;
  mb_nextID : Z;
  mb_heap : list msgSubscription;
}.
#[global] Instance set_mb_subs : Setter mb_subs := fun f b =>
  mkMsgBus (mb_defaultBuffer b) (f (mb_subs b)) (mb_endpoints b) (mb_published b) (mb_dropped b) (mb_nextID b) (mb_heap b).
#[global] Instance set_mb_endpoints : Setter mb_endpoints := fun f b =>
  mkMsgBus (mb_defaultBuffer b) (mb_subs b) (f (mb_endpoints b)) (mb_published b) (mb_dropped b) (mb_nextID b) (mb_heap b).
#[global] Instance set_mb_published : Setter mb_published := fun f b =>
  mkMsgBus (mb_defaultBuffer b) (mb_subs b) (mb_endpoints b) (f (mb_published b)) (mb_dropped b) (mb_nextID b) (mb_heap b).
#[global] Instance set_mb_dropped : Setter mb_dropped := fun f b =>
  mkMsgBus (mb_defaultBuffer b) (mb_subs b) (mb_endpoints b) (mb_published b) (f (mb_dropped b)) (mb_nextID b) (mb_heap b).
#[global] Instance set_mb_nextID : Setter mb_nextID := fun f b =>
  mkMsgBus (mb_defaultBuffer b) (mb_subs b) (mb_endpoints b) (mb_published b) (mb_dropped b) (f (mb_nextID b)) (mb_heap b).
#[global] Instance set_mb_heap : Setter mb_heap := fun f b =>
  mkMsgBus (mb_defaultBuffer b) (mb_subs b) (mb_endpoints b) (mb_published b) (mb_dropped b) (mb_nextID b) (f (mb_heap b)).

Definition NewMsgBus (defaultBuffer : Z) : MsgBus :=
  mkMsgBus (if Z.ltb defaultBuffer 0 then 0 else defaultBuffer)%Z ∅ ∅ 0 0 0 [].

Definition subscribers (b : MsgBus) (topic : string) : gset nat := default ∅ (mb_subs b !! topic).

Definition Subscribe (b : MsgBus) (topic : string) (buffer : Z) : MsgBus * nat :=
  let buffer := if Z.ltb buffer 0 then mb_defaultBuffer b else buffer in
  let sub := length (mb_heap b) in
  (b <| mb_heap := mb_heap b ++ [mkMsgSubscription topic (make_chan (Z.to_nat buffer)) false] |>
     <| mb_subs := <[topic := {[sub]} ∪ subscribers b topic]> (mb_subs b) |>, sub).

Definition backpressure : error := mkErr ErrBackpressure "msgbus backpressure".
Definition ctx_err : error := mkErr ErrCanceled "context canceled".

(** One round of the loop of [Publish] on an open channel, the context not done. *)
Definition offer (env : Envelope) (b : MsgBus) (s : nat) : MsgBus * option error :=
  match mb_heap b !! s with
  | None => (b, None)
  | Some sub =>
      match try_send (ms_ch sub) env with
      | Some ch => (b <| mb_heap := <[s := sub <| ms_ch := ch |>]> (mb_heap b) |> <| mb_published := (mb_published b + 1)%Z |>, None)
      | None => (b <| mb_dropped := (mb_dropped b + 1)%Z |>, Some backpressure)
      end
  end.

Definition offer_all (env : Envelope) : MsgBus -> list nat -> MsgBus * option error :=
  foldl (fun '(b, err) s => let '(b, e) := offer env b s in (b, match e with Some _ => e | None => err end)) ∘ (., None).

(** [Publish] without interleaving, visiting the subscribers in [order]. *)
Definition Publish (b : MsgBus) (order : list nat) (now : time) (topic : string) (message : A) : MsgBus * option error :=
  offer_all (mkEnvelope topic message now "") b order.

Definition RegisterEndpoint (b : MsgBus) (endpoint : string) (handler : EndpointHandler) : MsgBus :=
  b <| mb_endpoints := <[endpoint := handler]> (mb_endpoints b) |>.

Definition MsgBus_Request (b : MsgBus) (now : time) (endpoint : string) (payload : P) : outcome MsgBus Response :=
  match mb_endpoints b !! endpoint with
  | None => (b, Fail (mkErr ErrEndpointNotFound "endpoint not found"))
  | Some handler =>
      let id := (mb_nextID b + 1)%Z in
      let correlationID := ("req-" +:+ pretty id)%string in
      (b <| mb_nextID := id |>,
       match handler (mkRequest endpoint payload correlationID now) with
       | Fail e => Fail e
       | Ok response =>
           Ok (if rs_CorrelationID response ≟ "" then mkResponse correlationID (rs_Payload response) else response)
       end)
  end.

Record MsgBusStats := mkMsgBusStats { st_Published : Z; st_Dropped : Z }.
Definition Stats (b : MsgBus) : MsgBusStats := mkMsgBusStats (mb_published b) (mb_dropped b).

Definition remove (b : MsgBus) (s : nat) : MsgBus :=
  match mb_heap b !! s with
  | None => b
  | Some sub =>
      let rest := subscribers b (ms_topic sub) ∖ {[s]} in
      b <| mb_subs := (if rest ≟ ∅ then delete (ms_topic sub) (mb_subs b) else <[ms_topic sub := rest]> (mb_subs b)) |>
  end.

Definition update (b : MsgBus) (s : nat) (f : msgSubscription -> msgSubscription) : MsgBus :=
  b <| mb_heap := alter f s (mb_heap b) |>.

(** [Close]: the body of [once.Do] up to the removal, and the closing of the channel. *)
Definition close_begin (b : MsgBus) (s : nat) : MsgBus := remove (update b s (fun sub => sub <| ms_once := true |>)) s.
Definition close_end (b : MsgBus) (s : nat) : MsgBus := update b s (fun sub => sub <| ms_ch := close (ms_ch sub) |>).
Definition Close (b : MsgBus) (s : nat) : MsgBus :=
  match mb_heap b !! s with
  | Some sub => if ms_once sub then b else close_end (close_begin b s) s
  | None => b
  end.

(** *** Interleavings

    A call in progress: a [Publish] with the subscribers still to visit and whether its
    context is done, or a [Close] between removal and closing. *)
Inductive call :=
  | Publishing (done : bool) (env : Envelope) (pending : list nat) (err : option error)
  | Closing (s : nat)
  | Returned (err : option error).

Inductive config :=
  | Running (b : MsgBus) (calls : list call)
  | Panicked.

Definition open_sub (b : MsgBus) (s : nat) : option msgSubscription :=
  match mb_heap b !! s with Some sub => if ch_closed (ms_ch sub) then None else Some sub | None => None end.

Inductive step : config -> config -> Prop :=
  | step_subscribe b cs topic buffer : step (Running b cs) (Running (Subscribe b topic buffer).1 cs)
  | step_register b cs endpoint handler : step (Running b cs) (Running (RegisterEndpoint b endpoint handler) cs)
  | step_publish b cs topic message now order :
      order ≡ₚ elements (subscribers b topic) ->
      step (Running b cs) (Running b (cs ++ [Publishing false (mkEnvelope topic message now "") order None]))
  | step_done b cs i env pending err :
      cs !! i = Some (Publishing false env pending err) ->
      step (Running b cs) (Running b (<[i := Publishing true env pending err]> cs))
  | step_offer b cs i done env s pending err sub :
      cs !! i = Some (Publishing done env (s :: pending) err) ->
      open_sub b s = Some sub -> done = false \/ ready (ms_ch sub) = true ->
      step (Running b cs)
        (Running (offer env b s).1
           (<[i := Publishing done env pending (match (offer env b s).2 with Some e => Some e | None => err end)]> cs))
  | step_cancel b cs i env s pending err :
      cs !! i = Some (Publishing true env (s :: pending) err) ->
      step (Running b cs) (Running b (<[i := Returned (Some ctx_err)]> cs))
  | step_panic b cs i done env s pending err :
      cs !! i = Some (Publishing done env (s :: pending) err) -> open_sub b s = None -> step (Running b cs) Panicked
  | step_return b cs i done env err :
      cs !! i = Some (Publishing done env [] err) -> step (Running b cs) (Running b (<[i := Returned err]> cs))
  | step_close b cs s sub :
      mb_heap b !! s = Some sub -> ms_once sub = false ->
      step (Running b cs) (Running (close_begin b s) (cs ++ [Closing s]))
  | step_closed b cs i s :
      cs !! i = Some (Closing s) -> step (Running b cs) (Running (close_end b s) (<[i := Returned None]> cs))
  | step_receive b cs s :
      s < length (mb_heap b) ->
      step (Running b cs) (Running (update b s (fun sub => sub <| ms_ch := receive (ms_ch sub) |>)) cs).

Definition reachable (cf : config) : Prop := exists n, rtc step (Running (NewMsgBus n) []) cf.
End msgbus.
