(* ===== verification/MsgBusFacts.v ===== *)
(** * Properties of the message bus

    What a publication delivers and counts, what holds of every reachable bus, and the panic
    of a publication that meets a closed subscription. *)
From stdpp Require Import base strings pretty relations gmap list.
From S2P Require Import Prelude Channels MsgBus.

Open Scope go_scope.

Section facts.
Context {A P R : Type}.
Notation MsgBus := (@MsgBus.MsgBus A P R).
Notation call := (@call A).
Notation config := (@config A P R).
Implicit Types (b : MsgBus) (s : nat) (topic : string) (env : @Envelope A).

Definition accepted (h : list msgSubscription) : Z := Z.of_nat (sum_list_with (fun sub => length (sent (ms_ch (A := A) sub))) h).

Record Inv b : Prop := {
  inv_ok : Forall (fun sub => chan_ok (ms_ch sub)) (mb_heap b);
  inv_registered : forall topic s, s ∈ subscribers b topic -> exists sub, mb_heap b !! s = Some sub /\ ms_topic sub = topic /\ ms_once sub = false;
  inv_closed : Forall (fun sub => ch_closed (ms_ch sub) = true -> ms_once sub = true) (mb_heap b);
  inv_published : mb_published b = accepted (mb_heap b);
}.

Lemma accepted_alter h s (f : msgSubscription -> msgSubscription) :
  accepted (alter f s h) = match h !! s with
    | Some sub => (accepted h - Z.of_nat (length (sent (ms_ch sub))) + Z.of_nat (length (sent (ms_ch (f sub)))))%Z
    | None => accepted h
    end.
Proof.
  unfold accepted. revert s. induction h as [|x h IH]; intros [|s]; simpl; try lia.
  specialize (IH s). destruct (h !! s); unfold alter in IH; simpl in *; lia.
Qed.

(** ** Publication *)

Definition deliver env (order : list nat) (s : nat) (sub : msgSubscription) : msgSubscription :=
  if bool_decide (s ∈ order) && ready (ms_ch sub) then sub <| ms_ch := push (ms_ch sub) env |> else sub.
Definition is_ready b s : bool := match mb_heap b !! s with Some sub => ready (ms_ch sub) | None => false end.
Definition readies b (order : list nat) : nat := sum_list_with (fun s => if is_ready b s then 1 else 0) order.
Lemma readies_ext b b' order :
  (forall s, s ∈ order -> is_ready b' s = is_ready b s) ->
  readies b' order = readies b order /\ forallb (is_ready b') order = forallb (is_ready b) order.
Proof.
  unfold readies. induction order as [|s order IH]; intros He; [done|]. simpl. rewrite (He s) by set_solver.
  destruct IH as [-> ->]; [|done]. intros s' Hs'. apply He. set_solver.
Qed.

Definition offered env : MsgBus * option error -> list nat -> MsgBus * option error :=
  foldl (fun '(b, err) s => let '(b, e) := offer env b s in (b, match e with Some _ => e | None => err end)).

Lemma offer_heap env b s s' : mb_heap (offer env b s).1 !! s' = deliver env [s] s' <$> mb_heap b !! s'.
Proof.
  unfold offer, deliver, try_send. destruct (mb_heap b !! s) as [sub|] eqn:E.
  - destruct (ready (ms_ch sub)) eqn:Hr; fields.
    + destruct (decide (s' = s)) as [->|Hne].
      * rewrite list_lookup_insert_eq by (by eapply lookup_lt_Some). rewrite E. simpl. rewrite bool_decide_eq_true_2, Hr by set_solver. done.
      * rewrite list_lookup_insert_ne by done. destruct (mb_heap b !! s'); [|done]. simpl. by rewrite bool_decide_eq_false_2 by set_solver.
    + destruct (mb_heap b !! s') as [sub'|] eqn:E'; [|done]. simpl. case_bool_decide as Hs; [|done].
      apply list_elem_of_singleton in Hs as ->. rewrite E in E'. simplify_eq. by rewrite Hr.
  - simpl. destruct (mb_heap b !! s') as [sub'|] eqn:E'; [|done]. simpl. rewrite bool_decide_eq_false_2; [done|].
    rewrite list_elem_of_singleton. naive_solver.
Qed.

Lemma offer_rest env b s : is_Some (mb_heap b !! s) ->
  let b' := (offer env b s).1 in
  mb_subs b' = mb_subs b /\ mb_endpoints b' = mb_endpoints b /\ mb_nextID b' = mb_nextID b /\
  mb_published b' = (mb_published b + Z.b2z (is_ready b s))%Z /\ mb_dropped b' = (mb_dropped b + Z.b2z (negb (is_ready b s)))%Z /\
  (offer env b s).2 = if is_ready b s then None else Some backpressure.
Proof.
  intros [sub E]. unfold offer, is_ready, try_send. rewrite E. destruct (ready (ms_ch sub)); simpl; repeat split; lia.
Qed.

Lemma offered_spec env order : forall b err, NoDup order -> (forall s, s ∈ order -> is_Some (mb_heap b !! s)) ->
  let r := offered env (b, err) order in
  (forall s, mb_heap r.1 !! s = deliver env order s <$> mb_heap b !! s) /\
  mb_subs r.1 = mb_subs b /\ mb_endpoints r.1 = mb_endpoints b /\ mb_nextID r.1 = mb_nextID b /\
  mb_published r.1 = (mb_published b + Z.of_nat (readies b order))%Z /\
  mb_dropped r.1 = (mb_dropped b + Z.of_nat (length order) - Z.of_nat (readies b order))%Z /\
  r.2 = if forallb (is_ready b) order then err else Some backpressure.
Proof.
  induction order as [|s order IH]; intros b err Hnd Hin; simpl.
  - split; [|repeat split; lia]. intros s. destruct (mb_heap b !! s); done.
  - apply NoDup_cons in Hnd as [Hs Hnd].
    pose proof (offer_heap env b s) as Hh. destruct (offer_rest env b s ltac:(apply Hin; set_solver)) as (H1 & H2 & H3 & H4 & H5 & H6).
    destruct (offer env b s) as [b1 e] eqn:E. simpl in *.
    assert (forall s', s' ∈ order -> is_ready b1 s' = is_ready b s') as Hr.
    { intros s' Hs'. unfold is_ready. rewrite Hh. destruct (mb_heap b !! s'); [|done]. simpl. unfold deliver.
      by rewrite bool_decide_eq_false_2 by (rewrite list_elem_of_singleton; naive_solver). }
    destruct (IH b1 (match e with Some _ => e | None => err end) Hnd) as (G1 & G2 & G3 & G4 & G5 & G6 & G7).
    { intros s' Hs'. rewrite Hh. apply fmap_is_Some, Hin. set_solver. }
    split.
    + intros s'. rewrite G1, Hh, <- option_fmap_compose. apply option_fmap_ext. intros sub. unfold deliver, compose.
      destruct (decide (s' = s)) as [->|Hne].
      * rewrite (bool_decide_eq_false_2 (s ∈ order)) by done.
        rewrite (bool_decide_eq_true_2 (s ∈ [s])), (bool_decide_eq_true_2 (s ∈ s :: order)) by set_solver. simpl. by destruct (ready (ms_ch sub)).
      * rewrite (bool_decide_eq_false_2 (s' ∈ [s])) by (by rewrite list_elem_of_singleton). simpl.
        rewrite (bool_decide_ext (s' ∈ s :: order) (s' ∈ order)) by (rewrite elem_of_cons; naive_solver). done.
    + destruct (readies_ext _ _ _ Hr) as [R1 R2]. rewrite G2, G3, G4, G5, G6, G7, R1, R2, H1, H2, H3, H4, H5, H6.
      unfold readies. simpl. destruct (is_ready b s); simpl; repeat split; try lia. destruct (forallb (is_ready b) order); reflexivity.
Qed.

(** ** Reachable buses *)

Lemma subscribers_Subscribe b topic n topic' :
  subscribers (Subscribe b topic n).1 topic' =
  if decide (topic = topic') then {[length (mb_heap b)]} ∪ subscribers b topic' else subscribers b topic'.
Proof.
  unfold subscribers at 1, Subscribe. fields. destruct (decide (topic = topic')) as [<-|Hne]; [by rewrite lookup_insert_eq | by rewrite lookup_insert_ne].
Qed.

Lemma subscribers_remove b s topic :
  subscribers (remove b s) topic = if decide (ms_topic <$> mb_heap b !! s = Some topic) then subscribers b topic ∖ {[s]} else subscribers b topic.
Proof.
  unfold remove. destruct (mb_heap b !! s) as [sub|] eqn:E; simpl; [|done].
  unfold subscribers at 1. fields. case_bool_decide as Hr.
  - rewrite lookup_delete. repeat case_decide; simplify_eq; [by rewrite Hr | done].
  - rewrite lookup_insert. repeat case_decide; simplify_eq; done.
Qed.
Lemma mb_heap_remove b s : mb_heap (remove b s) = mb_heap b.
Proof. unfold remove. by destruct (mb_heap b !! s). Qed.

Lemma Inv_New n : Inv (NewMsgBus n).
Proof. split; simpl; [constructor | | constructor | done]. intros topic s. unfold subscribers. fields. rewrite lookup_empty. set_solver. Qed.

Lemma Inv_Subscribe b topic n : Inv b -> Inv (Subscribe b topic n).1.
Proof.
  intros [I1 I2 I3 I4]. split; [| intros topic' s; rewrite subscribers_Subscribe | | ]; fields.
  - apply Forall_app_2; [done|]. constructor; [apply make_chan_ok | constructor].
  - intros Hs. assert (s ∈ subscribers b topic' \/ topic = topic' /\ s = length (mb_heap b)) as [H | [<- ->]] by (case_decide; set_solver).
    + destruct (I2 _ _ H) as (sub & Hl & ?). exists sub. rewrite lookup_app_l by (by eapply lookup_lt_Some). done.
    + eexists. rewrite lookup_app_r, Nat.sub_diag by lia. done.
  - apply Forall_app_2; [done|]. by repeat constructor.
  - rewrite I4. unfold accepted. rewrite sum_list_with_app. simpl. lia.
Qed.

(** A change of one subscription that keeps its topic, does not reopen it and only closes it
    when nothing is registered for it. *)
Lemma Inv_update b s (f : msgSubscription -> msgSubscription) (d : Z) :
  Inv b ->
  (forall sub, mb_heap b !! s = Some sub ->
    chan_ok (ms_ch (f sub)) /\ ms_topic (f sub) = ms_topic sub /\
    (ch_closed (ms_ch (f sub)) = true -> ms_once (f sub) = true) /\
    (ms_once sub = false -> ms_once (f sub) = true -> s ∉ subscribers b (ms_topic sub)) /\
    Z.of_nat (length (sent (ms_ch (f sub)))) = (Z.of_nat (length (sent (ms_ch sub))) + d)%Z) ->
  (mb_heap b !! s = None -> d = 0%Z) ->
  Inv (update b s f <| mb_published := (mb_published b + d)%Z |>).
Proof.
  intros [I1 I2 I3 I4] Hf Hd. rewrite Forall_lookup in I1, I3. split; fields.
  - apply Forall_alter; [by apply Forall_lookup|]. intros sub Hs _. by apply Hf.
  - intros topic s' Hs'. destruct (I2 _ _ Hs') as (sub & Hl & Ht & Ho). destruct (decide (s = s')) as [<-|Hne].
    + rewrite list_lookup_alter_eq, Hl. destruct (Hf _ Hl) as (_ & Ht' & _ & Hr & _). eexists. split; [done|]. split; [congruence|].
      destruct (ms_once (f sub)) eqn:E; [|done]. subst topic. by destruct (Hr Ho eq_refl).
    + rewrite list_lookup_alter_ne by done. eauto.
  - apply Forall_alter; [by apply Forall_lookup|]. intros sub Hs _. by apply Hf.
  - rewrite accepted_alter, I4. destruct (mb_heap b !! s) as [sub|] eqn:E; [|by rewrite Hd; [lia|]].
    destruct (Hf _ eq_refl) as (_ & _ & _ & _ & ->). lia.
Qed.

Lemma Inv_remove b s : Inv b -> Inv (remove b s).
Proof.
  intros [I1 I2 I3 I4]. split; rewrite ?mb_heap_remove; [done | | done |].
  - intros topic s'. rewrite subscribers_remove. intros Hs. apply I2. case_decide; set_solver.
  - rewrite <- I4. unfold remove. by destruct (mb_heap b !! s).
Qed.

Lemma remove_update b s (f : msgSubscription -> msgSubscription) :
  (forall sub, ms_topic (f sub) = ms_topic sub) -> remove (update b s f) s = update (remove b s) s f.
Proof.
  intros Hf. unfold remove, update. fields. rewrite list_lookup_alter_eq. destruct (mb_heap b !! s) as [sub|]; simpl; [|done].
  by rewrite Hf.
Qed.

Lemma published_0 b : b <| mb_published := (mb_published b + 0)%Z |> = b.
Proof. destruct b. unfold set, set_mb_published. simpl. f_equal. lia. Qed.

Lemma Inv_close_begin b s : Inv b -> Inv (close_begin b s).
Proof.
  intros I. unfold close_begin. rewrite remove_update by done. rewrite <- published_0.
  change (mb_published (update (remove b s) s _)) with (mb_published (remove b s)).
  apply Inv_update; [by apply Inv_remove | | done]. rewrite mb_heap_remove. intros sub Hs. simpl.
  destruct I as [I1 _ _ _]. rewrite Forall_lookup in I1. repeat split; try done; try (by apply (I1 s)); [|lia].
  intros _ _. rewrite subscribers_remove, Hs. simpl. case_decide; set_solver.
Qed.

Lemma Inv_close_end b s : Inv b -> (forall sub, mb_heap b !! s = Some sub -> ms_once sub = true) -> Inv (close_end b s).
Proof.
  intros I Ho. unfold close_end. rewrite <- published_0. change (mb_published (update b s _)) with (mb_published b).
  apply Inv_update; [done | | done]. intros sub Hs. destruct I as [I1 _ _ _]. rewrite Forall_lookup in I1.
  destruct (close_ok _ (I1 _ _ Hs)) as [Hc Hl]. simpl. rewrite Hl, (Ho _ Hs). repeat split; try done; try apply Hc. lia.
Qed.

Lemma Inv_receive b s : Inv b -> Inv (update b s (fun sub => sub <| ms_ch := receive (ms_ch sub) |>)).
Proof.
  intros I. rewrite <- published_0. change (mb_published (update b s _)) with (mb_published b).
  apply Inv_update; [done | | done]. intros sub Hs. destruct I as [I1 _ I3 _]. rewrite Forall_lookup in I1, I3.
  destruct (receive_ok _ (I1 _ _ Hs)) as [Hc Hl]. simpl. rewrite Hl, ch_closed_receive.
  repeat split; try apply Hc; try by apply (I3 s). { by intros ->. } lia.
Qed.

Lemma Inv_offer b s env sub : Inv b -> open_sub b s = Some sub -> Inv (offer env b s).1.
Proof.
  intros I Hs. unfold open_sub in Hs. unfold offer, try_send. destruct (mb_heap b !! s) as [sub'|] eqn:E; [|done].
  destruct (ch_closed (ms_ch sub')) eqn:Hc; [done|]. simplify_eq. destruct (ready (ms_ch sub)) eqn:Hr; simpl.
  - replace (<[s := sub <| ms_ch := push (ms_ch sub) env |>]> (mb_heap b))
      with (mb_heap (update b s (fun _ => sub <| ms_ch := push (ms_ch sub) env |>))) by (symmetry; apply list_insert_alter).
    refine (Inv_update b s _ 1 I _ _); [|congruence]. rewrite E. intros sub' [= <-]. simpl.
    destruct I as [I1 _ I3 _]. rewrite Forall_lookup in I1, I3. pose proof (I1 _ _ E) as Hok.
    rewrite ch_closed_push, Hc, sent_push, length_app by done. destruct (push_ok _ env Hok Hr) as [P1 P2]. simpl.
    repeat split; try done; [congruence | lia].
  - destruct I as [I1 I2 I3 I4]. by split.
Qed.

(** What holds of the calls in progress: the subscriptions they are about exist, and one that
    is being closed has been removed for good. *)
Definition call_ok b (c : call) : Prop :=
  match c with
  | Publishing _ _ pending _ => forall s, s ∈ pending -> s < length (mb_heap b)
  | Closing s => exists sub, mb_heap b !! s = Some sub /\ ms_once sub = true
  | Returned _ => True
  end.
Definition CInv (cf : config) : Prop :=
  match cf with Running b cs => Inv b /\ Forall (call_ok b) cs | Panicked => True end.

(** The heap grows and a subscription closed once stays so. *)
Definition grows b b' : Prop :=
  forall s sub, mb_heap b !! s = Some sub -> exists sub', mb_heap b' !! s = Some sub' /\ (ms_once sub = true -> ms_once sub' = true).
Lemma call_ok_grows b b' c : grows b b' -> call_ok b c -> call_ok b' c.
Proof.
  intros Hg. destruct c as [fin env pending err|s|err]; simpl; [| |done].
  - intros Hp s Hs. apply Hp in Hs. apply lookup_lt_is_Some in Hs as [sub Hs]. destruct (Hg _ _ Hs) as (sub' & Hl & _).
    by eapply lookup_lt_Some.
  - intros (sub & Hl & Ho). destruct (Hg _ _ Hl) as (sub' & ? & ?). eauto.
Qed.
Lemma grows_refl b : grows b b.
Proof. intros s sub ?. eauto. Qed.
Lemma grows_update b s (f : msgSubscription -> msgSubscription) :
  (forall sub, ms_once sub = true -> ms_once (f sub) = true) -> grows b (update b s f).
Proof.
  intros Hf s' sub Hs. unfold update. fields. destruct (decide (s = s')) as [<-|].
  - rewrite list_lookup_alter_eq, Hs. simpl. eauto.
  - rewrite list_lookup_alter_ne by done. eauto.
Qed.
Lemma grows_offer env b s : grows b (offer env b s).1.
Proof.
  intros s' sub Hs. rewrite offer_heap, Hs. simpl. eexists. split; [done|]. unfold deliver. by destruct (bool_decide (s' ∈ [s]) && ready (ms_ch sub)).
Qed.
Lemma Forall_calls b b' i c cs : grows b b' -> call_ok b' c -> Forall (call_ok b) cs -> Forall (call_ok b') (<[i := c]> cs).
Proof. intros Hg Hc Hcs. apply Forall_insert; [|done]. eapply Forall_impl; [done|]. intros c'. by apply call_ok_grows. Qed.

Lemma CInv_step cf cf' : step cf cf' -> CInv cf -> CInv cf'.
Proof.
  destruct 1 as [b cs topic n|b cs e h|b cs topic m now order Ho|b cs i env p err Hi|b cs i d env s p err sub Hi Hs Hr|b cs i env s p err Hi
    |b cs i d env s p err Hi Hs|b cs i d env err Hi|b cs s sub Hs Ho|b cs i s Hi|b cs s Hs]; simpl; try done; intros [I C];
    try (pose proof (proj1 (Forall_lookup _ _) C _ _ Hi) as Hc; simpl in Hc).
  - split; [by apply Inv_Subscribe|]. eapply Forall_impl; [done|]. intros c. apply call_ok_grows. intros s sub Hs. fields.
    exists sub. by rewrite lookup_app_l by (by eapply lookup_lt_Some).
  - split; [destruct I; by split|]. eapply Forall_impl; [done|]. intros c. by apply call_ok_grows; intros s sub ?; exists sub.
  - split; [done|]. apply Forall_app_2; [done|]. constructor; [|constructor]. simpl. intros s. rewrite Ho, elem_of_elements.
    intros Hs. destruct (inv_registered b I _ _ Hs) as (sub & Hl & _). by eapply lookup_lt_Some.
  - split; [done|]. by eapply Forall_calls; [apply grows_refl|..].
  - split; [by eapply Inv_offer|]. eapply Forall_calls; [apply grows_offer | | done].
    eapply (call_ok_grows b); [apply grows_offer|]. simpl. intros s' Hs'. apply Hc. set_solver.
  - split; [done|]. by eapply Forall_calls; [apply grows_refl|..].
  - split; [done|]. by eapply Forall_calls; [apply grows_refl|..].
  - assert (grows b (close_begin b s)) as Hg.
    { unfold close_begin. intros s' sub' Hs'. rewrite mb_heap_remove. by apply (grows_update b s). }
    split; [by apply Inv_close_begin|]. apply Forall_app_2; [eapply Forall_impl; [done|]; intros c; by apply call_ok_grows|].
    constructor; [|constructor]. simpl. unfold close_begin. rewrite mb_heap_remove. unfold update. fields.
    rewrite list_lookup_alter_eq, Hs. simpl. eauto.
  - destruct Hc as (sub & Hl & Ho). split; [apply Inv_close_end; [done|]; intros sub' ?; by simplify_eq|].
    eapply Forall_calls; [by apply grows_update | done | done].
  - split; [by apply Inv_receive|]. eapply Forall_impl; [done|]. intros c. by apply call_ok_grows, grows_update.
Qed.

Lemma reachable_CInv cf : reachable cf -> CInv cf.
Proof.
  intros [n Hr]. assert (CInv (Running (NewMsgBus n) [])) as H0 by (split; [apply Inv_New | constructor]).
  revert H0. induction Hr; [done|]. intros. eauto using CInv_step.
Qed.

(** ** Properties *)

(** [Publish] on a reachable bus, with no other call in progress, offers the message to
    the subscribers of its topic alone: a subscriber with a waiting receiver or room in its
    buffer gets exactly one copy, after all it was sent before, and nobody else is touched;
    what was delivered and what was dropped add up to the number of subscribers, and the
    error is the backpressure error exactly when something was dropped. *)
Theorem Publish_spec b cs order now topic (message : A) :
  reachable (Running b cs) -> order ≡ₚ elements (subscribers b topic) ->
  let env := mkEnvelope topic message now "" in
  let '(b', err) := Publish b order now topic message in
  (forall s sub, mb_heap b !! s = Some sub -> exists sub', mb_heap b' !! s = Some sub' /\
     sent (ms_ch sub') = sent (ms_ch sub) ++ (if bool_decide (s ∈ subscribers b topic) && ready (ms_ch sub) then [env] else [])) /\
  mb_subs b' = mb_subs b /\
  (mb_published b' - mb_published b + (mb_dropped b' - mb_dropped b) = Z.of_nat (size (subscribers b topic)))%Z /\
  (err = None <-> mb_dropped b' = mb_dropped b).
Proof.
  intros [I _]%reachable_CInv Ho env.
  assert (NoDup order) as Hnd by (rewrite Ho; apply NoDup_elements).
  assert (forall s, s ∈ order <-> s ∈ subscribers b topic) as Hin by (intros s; by rewrite Ho, elem_of_elements).
  destruct (offered_spec env order b None Hnd) as (H1 & H2 & _ & _ & H5 & H6 & H7).
  { intros s Hs. apply Hin in Hs. destruct (inv_registered b I _ _ Hs) as (sub & ? & _). eauto. }
  unfold Publish, offer_all, compose. change (foldl _ (b, None) order) with (offered env (b, None) order).
  destruct (offered env (b, None) order) as [b' err]. simpl in *. split; [|split; [done|split]].
  - intros s sub Hs. rewrite H1, Hs. simpl. eexists. split; [done|]. unfold deliver.
    rewrite (bool_decide_ext _ _ (Hin s)). destruct (bool_decide _ && ready _) eqn:E; [|by rewrite app_nil_r].
    simpl. apply sent_push. pose proof (inv_ok b I) as I1. rewrite Forall_lookup in I1. by apply (I1 s).
  - rewrite H5, H6. unfold size, set_size. simpl. rewrite <- (Permutation_length Ho). lia.
  - rewrite H7, H6.
    assert (forallb (is_ready b) order = true <-> readies b order = length order) as Hall; [|assert (readies b order <= length order) as Hle].
    + unfold readies. clear. induction order as [|s order IH]; simpl; [done|].
      assert (sum_list_with (fun s => if is_ready b s then 1 else 0) order <= length order) by (clear IH; induction order as [|? ? IH]; simpl; [lia|]; destruct (is_ready _ _); lia).
      destruct (is_ready b s); simpl; [rewrite IH; lia | split; [done | lia]].
    + unfold readies. clear. induction order as [|? ? IH]; simpl; [lia|]; destruct (is_ready _ _); lia.
    + destruct (forallb (is_ready b) order); [destruct Hall as [Hall _]; rewrite Hall by done; split; [lia | done]|].
      split; [done|]. intros. destruct Hall as [_ Hall]. discriminate Hall. lia.
Qed.

(** In every interleaving of the calls, a registered subscription is open and not being
    closed, and the counter of published messages is the number of messages the channels
    have accepted: none is lost, and none is counted twice. *)
Theorem published_accepted b cs :
  reachable (Running b cs) ->
  mb_published b = accepted (mb_heap b) /\
  (forall topic s, s ∈ subscribers b topic -> exists sub, open_sub b s = Some sub /\ ms_topic sub = topic /\ ms_once sub = false).
Proof.
  intros [[I1 I2 I3 I4] _]%reachable_CInv. split; [done|]. intros topic s Hs. destruct (I2 _ _ Hs) as (sub & Hl & Ht & Ho).
  exists sub. unfold open_sub. rewrite Hl. rewrite Forall_lookup in I3. specialize (I3 _ _ Hl).
  destruct (ch_closed (ms_ch sub)); [|done]. by rewrite I3 in Ho.
Qed.

(** C39: from every reachable bus with a subscriber, a run leads to a panic: the subscriber
    closes its subscription after a [Publish] has listed it and before the message is
    offered to it, and the send on the closed channel panics. *)
Theorem close_during_publish_panics b cs topic s (message : A) :
  reachable (Running b cs) -> s ∈ subscribers b topic -> rtc step (Running b cs) Panicked.
Proof.
  intros [I _]%reachable_CInv Hs. destruct (inv_registered b I _ _ Hs) as (sub & Hl & Ht & Ho).
  assert (exists order, s :: order ≡ₚ elements (subscribers b topic)) as [order Horder].
  { apply elem_of_elements, elem_of_Permutation in Hs as [order Hp]. exists order. by symmetry. }
  set (publish := Publishing false (mkEnvelope topic message 0%Z "") (s :: order) None).
  eapply rtc_l; [by apply (step_publish b cs topic message 0%Z (s :: order))|].
  eapply rtc_l; [by eapply (step_close _ _ s)|].
  eapply rtc_l; [eapply (step_closed _ _ (S (length cs)) s)|].
  { rewrite lookup_app_r; rewrite length_app; simpl; [|lia]. by replace (S (length cs) - (length cs + 1)) with 0 by lia. }
  eapply rtc_l; [|apply rtc_refl]. eapply (step_panic _ _ (length cs)).
  - rewrite list_lookup_insert_ne by lia. rewrite <- app_assoc, lookup_app_r, Nat.sub_diag by lia. done.
  - unfold open_sub, close_end, close_begin. unfold update at 1. fields. rewrite mb_heap_remove. unfold update. fields.
    by rewrite !list_lookup_alter_eq, Hl.
Qed.
End facts.
