(* ===== verification/Bus.v ===== *)
(** * The bus of market data (bus/bus.go)

    [Publish] keeps the read lock of the bus while it waits for each subscriber.
    Subscriptions are objects: a pointer is a position in a heap.  [step] interleaves the
    calls in progress, with the rules of the read-write lock. *)
From stdpp Require Import base strings relations gmap list.
From S2P Require Import Prelude Channels.

Open Scope go_scope.

Section bus.
Context {A : Type}.

Record Envelope := mkEnvelope { ev_Topic : string; ev_Message : A; ev_Timestamp : time }.
Record subscription := mkSubscription { sb_topic : string; sb_ch : chan Envelope; sb_once : bool }.
#[global] Instance set_sb_ch : Setter sb_ch := fun f s => mkSubscription (sb_topic s) (f (sb_ch s)) (sb_once s).
#[global] Instance set_sb_once : Setter sb_once := fun f s => mkSubscription (sb_topic s) (sb_ch s) (f (sb_once s)).

Record Bus := mkBus { bs_subs : gmap string (gset nat); bs_heap : list subscription }.
#[global] Instance set_bs_subs : Setter bs_subs := fun f b => mkBus (f (bs_subs b)) (bs_heap b).
#[global] Instance set_bs_heap : Setter bs_heap := fun f b => mkBus (bs_subs b) (f (bs_heap b)).

Definition New : Bus := mkBus ∅ [].

Definition subscribers (b : Bus) (topic : string) : gset nat := default ∅ (bs_subs b !! topic).

(** [Subscribe] once it holds the lock. *)
Definition Subscribe (b : Bus) (topic : string) (buffer : nat) : Bus :=
  let sub := length (bs_heap b) in
  b <| bs_heap := bs_heap b ++ [mkSubscription topic (make_chan buffer) false] |>
    <| bs_subs := <[topic := {[sub]} ∪ subscribers b topic]> (bs_subs b) |>.

Definition update (b : Bus) (s : nat) (f : subscription -> subscription) : Bus := b <| bs_heap := alter f s (bs_heap b) |>.

(** [remove] once it holds the lock. *)
Definition remove (b : Bus) (s : nat) : Bus :=
  match bs_heap b !! s with
  | None => b
  | Some sub =>
      let rest := subscribers b (sb_topic sub) ∖ {[s]} in
      b <| bs_subs := (if rest ≟ ∅ then delete (sb_topic sub) (bs_subs b) else <[sb_topic sub := rest]> (bs_subs b)) |>
  end.

Definition send (b : Bus) (s : nat) (env : Envelope) : Bus := update b s (fun sub => sub <| sb_ch := push (sb_ch sub) env |>).
Definition ctx_err : error := mkErr ErrCanceled "context canceled".

(** *** Interleavings

    The lock is a read-write mutex: a call that holds it for reading is a [Publishing], one
    that waits for it to write is a [Subscribing] or a [Removing], and no call obtains it
    for reading while one waits to write.  A context that is never done is [None]. *)
Inductive call :=
  | Publishing (done : option bool) (env : Envelope) (pending : list nat)
  | Subscribing (topic : string) (buffer : nat)
  | Removing (s : nat)
  | Closing (s : nat)
  | Returned (err : option error).

Record config := mkConfig { cf_bus : Bus; cf_calls : list call }.

Definition is_reader (c : call) : bool := match c with Publishing _ _ _ => true | _ => false end.
Definition is_writer (c : call) : bool := match c with Subscribing _ _ | Removing _ => true | _ => false end.
Definition no_reader (cs : list call) : Prop := Forall (fun c => is_reader c = false) cs.
Definition no_writer (cs : list call) : Prop := Forall (fun c => is_writer c = false) cs.

(** A subscription is read by the goroutine that closes it: [step_receive] asks that it has
    not called [Close]. *)
Inductive step : config -> config -> Prop :=
  | step_subscribe b cs topic buffer : step (mkConfig b cs) (mkConfig b (cs ++ [Subscribing topic buffer]))
  | step_subscribed b cs i topic buffer :
      cs !! i = Some (Subscribing topic buffer) -> no_reader cs ->
      step (mkConfig b cs) (mkConfig (Subscribe b topic buffer) (<[i := Returned None]> cs))
  | step_publish b cs done topic message now order :
      no_writer cs -> order ≡ₚ elements (subscribers b topic) ->
      step (mkConfig b cs) (mkConfig b (cs ++ [Publishing done (mkEnvelope topic message now) order]))
  | step_done b cs i env pending :
      cs !! i = Some (Publishing (Some false) env pending) ->
      step (mkConfig b cs) (mkConfig b (<[i := Publishing (Some true) env pending]> cs))
  | step_send b cs i done env s pending sub :
      cs !! i = Some (Publishing done env (s :: pending)) -> bs_heap b !! s = Some sub -> ready (sb_ch sub) = true ->
      step (mkConfig b cs) (mkConfig (send b s env) (<[i := Publishing done env pending]> cs))
  | step_cancel b cs i env s pending :
      cs !! i = Some (Publishing (Some true) env (s :: pending)) ->
      step (mkConfig b cs) (mkConfig b (<[i := Returned (Some ctx_err)]> cs))
  | step_return b cs i done env :
      cs !! i = Some (Publishing done env []) -> step (mkConfig b cs) (mkConfig b (<[i := Returned None]> cs))
  | step_close b cs s sub :
      bs_heap b !! s = Some sub -> sb_once sub = false ->
      step (mkConfig b cs) (mkConfig (update b s (fun sub => sub <| sb_once := true |>)) (cs ++ [Removing s]))
  | step_removed b cs i s :
      cs !! i = Some (Removing s) -> no_reader cs ->
      step (mkConfig b cs) (mkConfig (remove b s) (<[i := Closing s]> cs))
  | step_closed b cs i s :
      cs !! i = Some (Closing s) ->
      step (mkConfig b cs) (mkConfig (update b s (fun sub => sub <| sb_ch := close (sb_ch sub) |>)) (<[i := Returned None]> cs))
  | step_receive b cs s sub :
      bs_heap b !! s = Some sub -> sb_once sub = false ->
      step (mkConfig b cs) (mkConfig (update b s (fun sub => sub <| sb_ch := receive (sb_ch sub) |>)) cs).

Definition reachable (cf : config) : Prop := rtc step (mkConfig New []) cf.

(** A publisher waits on a full subscription whose reader waits, in [Close], for the publisher. *)
Definition deadlocked (s i j : nat) (cf : config) : Prop :=
  (exists env pending, cf_calls cf !! i = Some (Publishing None env (s :: pending))) /\
  cf_calls cf !! j = Some (Removing s) /\
  exists sub, bs_heap (cf_bus cf) !! s = Some sub /\ sb_once sub = true /\ ready (sb_ch sub) = false.
End bus.
