(* ===== verification/BusFacts.v ===== *)
(** * Properties of the bus of market data

    A publication never meets a closed subscription, but it can wait forever for a reader
    that waits for it. *)
From stdpp Require Import base strings pretty relations gmap list.
From S2P Require Import Prelude Channels Bus.

Open Scope go_scope.

Section facts.
Context {A : Type}.
Notation Bus := (@Bus.Bus A).
Notation call := (@call A).
Implicit Types (b : Bus) (s : nat) (topic : string).

Lemma bus_subscribers_Subscribe b topic n topic' :
  subscribers (Subscribe b topic n) topic' =
  if decide (topic = topic') then {[length (bs_heap b)]} ∪ subscribers b topic' else subscribers b topic'.
Proof.
  unfold subscribers at 1, Subscribe. fields.
  destruct (decide (topic = topic')) as [<-|Hne]; [by rewrite lookup_insert_eq | by rewrite lookup_insert_ne].
Qed.

Lemma bus_subscribers_remove b s sub topic : bs_heap b !! s = Some sub ->
  subscribers (remove b s) topic = if decide (sb_topic sub = topic) then subscribers b topic ∖ {[s]} else subscribers b topic.
Proof.
  intros E. unfold remove. rewrite E. unfold subscribers at 1. fields. case_bool_decide as Hr.
  - rewrite lookup_delete. repeat case_decide; simplify_eq; [by rewrite Hr | done].
  - rewrite lookup_insert. repeat case_decide; simplify_eq; done.
Qed.
Lemma bs_heap_remove b s : bs_heap (remove b s) = bs_heap b.
Proof. unfold remove. by destruct (bs_heap b !! s). Qed.

(** ** No publication meets a closed subscription *)

Definition registered_open b : Prop := forall topic s, s ∈ subscribers b topic ->
  exists sub, bs_heap b !! s = Some sub /\ sb_topic sub = topic /\ ch_closed (sb_ch sub) = false.
Definition call_ok b (c : call) : Prop :=
  match c with
  | Publishing _ env pending => forall s, s ∈ pending -> s ∈ subscribers b (ev_Topic env)
  | Removing s => s < length (bs_heap b)
  | Closing s => s < length (bs_heap b) /\ forall topic, s ∉ subscribers b topic
  | Subscribing _ _ | Returned _ => True
  end.
Definition BInv (cf : config) : Prop := registered_open (cf_bus cf) /\ Forall (call_ok (cf_bus cf)) (cf_calls cf).

Lemma call_ok_update b s (f : subscription -> subscription) c : call_ok b c -> call_ok (update b s f) c.
Proof. destruct c; simpl; try done; by rewrite length_alter. Qed.
Lemma registered_open_update b s (f : subscription -> subscription) :
  (forall sub, sb_topic (f sub) = sb_topic sub) ->
  (forall sub, ch_closed (sb_ch (f sub)) = ch_closed (sb_ch sub)) \/ (forall topic, s ∉ subscribers b topic) ->
  registered_open b -> registered_open (update b s f).
Proof.
  intros Ht Hf H topic s' Hs'. destruct (H topic s' Hs') as (sub & Hl & ? & Hc). unfold update. fields.
  destruct (decide (s = s')) as [<-|Hne].
  - rewrite list_lookup_alter_eq, Hl. simpl. eexists. split; [done|]. rewrite Ht. split; [done|].
    destruct Hf as [-> | Hf]; [done|]. by destruct (Hf topic).
  - rewrite list_lookup_alter_ne by done. eauto.
Qed.

(** A change of the registrations while no call reads them. *)
Lemma calls_after b b' i c cs :
  no_reader cs -> call_ok b' c -> (forall c', is_reader c' = false -> call_ok b c' -> call_ok b' c') ->
  Forall (call_ok b) cs -> Forall (call_ok b') (<[i := c]> cs).
Proof.
  intros Hn Hc Hk Hcs. apply Forall_insert; [|done]. unfold no_reader in Hn. rewrite Forall_forall in Hn, Hcs |- *. eauto.
Qed.

Lemma BInv_subscribed b cs i topic n : no_reader cs -> BInv (mkConfig b cs) ->
  BInv (mkConfig (Subscribe b topic n) (<[i := Returned None]> cs)).
Proof.
  intros Hn [H C]. simpl in *. split; simpl.
  - intros topic' s. rewrite bus_subscribers_Subscribe. intros Hs.
    assert (s ∈ subscribers b topic' \/ topic = topic' /\ s = length (bs_heap b)) as [Hin | [<- ->]] by (case_decide; set_solver).
    + destruct (H _ _ Hin) as (sub & Hl & ?). exists sub. fields. by rewrite lookup_app_l by (by eapply lookup_lt_Some).
    + fields. eexists. rewrite lookup_app_r, Nat.sub_diag by lia. done.
  - apply (calls_after b); [done | done | | done]. intros c' Hr Hc. destruct c'; simpl in *; try done.
    + rewrite length_app. simpl. lia.
    + destruct Hc as [Hl Hc]. split; [rewrite length_app; simpl; lia|]. intros topic'. rewrite bus_subscribers_Subscribe.
      specialize (Hc topic'). case_decide; [|done]. rewrite elem_of_union, elem_of_singleton. intros [->|]; [lia | done].
Qed.

Lemma BInv_removed b cs i s : cs !! i = Some (Removing s) -> no_reader cs -> BInv (mkConfig b cs) ->
  BInv (mkConfig (remove b s) (<[i := Closing s]> cs)).
Proof.
  intros Hi Hn [H C]. simpl in *. pose proof (proj1 (Forall_lookup _ _) C _ _ Hi) as Hs. simpl in Hs.
  apply lookup_lt_is_Some in Hs as [sub Hs].
  assert (forall topic s', s' ∈ subscribers (remove b s) topic -> s' ∈ subscribers b topic /\ s' <> s) as Hsub.
  { intros topic s'. rewrite (bus_subscribers_remove _ _ _ _ Hs). case_decide as Ht; [set_solver|]. intros Hs'. split; [done|]. intros ->.
    destruct (H _ _ Hs') as (? & ? & ? & _). congruence. }
  split; simpl.
  - intros topic s' [Hs' _]%Hsub. rewrite bs_heap_remove. by apply H.
  - apply (calls_after b); [done | | | done].
    + simpl. rewrite bs_heap_remove. split; [by eapply lookup_lt_Some|]. intros topic Hs'. by apply Hsub in Hs' as [_ []].
    + intros c' Hr Hc. destruct c'; simpl in *; rewrite ?bs_heap_remove; try done. destruct Hc as [Hl Hc]. split; [done|].
      intros topic Hs'. apply Hsub in Hs' as [Hs' _]. by eapply Hc.
Qed.

Lemma BInv_step cf cf' : step cf cf' -> BInv cf -> BInv cf'.
Proof.
  destruct 1 as [b cs topic n|b cs i topic n Hi Hn|b cs fin topic m now order Hn Ho|b cs i env p Hi|b cs i fin env s p sub Hi Hs Hr
    |b cs i env s p Hi|b cs i fin env Hi|b cs s sub Hs Ho|b cs i s Hi Hn|b cs i s Hi|b cs s sub Hs Ho]; intros I;
    try (by apply BInv_subscribed); try (by apply BInv_removed); destruct I as [H C]; simpl in *;
    try (pose proof (proj1 (Forall_lookup _ _) C _ _ Hi) as Hc; simpl in Hc); split; simpl; try done.
  - apply Forall_app_2; [done | by repeat constructor].
  - apply Forall_app_2; [done|]. constructor; [|constructor]. intros s. simpl. by rewrite Ho, elem_of_elements.
  - by apply Forall_insert.
  - apply registered_open_update; [done | left; intros; apply ch_closed_push | done].
  - apply Forall_insert; [eapply Forall_impl; [done|]; intros; by apply call_ok_update|]. simpl. intros s' Hs'. apply Hc. set_solver.
  - by apply Forall_insert.
  - by apply Forall_insert.
  - apply registered_open_update; [done | by left | done].
  - apply Forall_app_2; [eapply Forall_impl; [done|]; intros; by apply call_ok_update|]. constructor; [|constructor]. simpl.
    rewrite length_alter. by eapply lookup_lt_Some.
  - apply registered_open_update; [done | right; apply Hc | done].
  - apply Forall_insert; [eapply Forall_impl; [done|]; intros; by apply call_ok_update | done].
  - apply registered_open_update; [done | left; intros; apply ch_closed_receive | done].
  - eapply Forall_impl; [done|]; intros; by apply call_ok_update.
Qed.

(** In every interleaving, the subscriptions a publication still has to visit are
    registered for its topic and open: no send meets a closed channel. *)
Theorem pending_open b cs i fin env pending s :
  reachable (mkConfig b cs) -> cs !! i = Some (Publishing fin env pending) -> s ∈ pending ->
  exists sub, bs_heap b !! s = Some sub /\ sb_topic sub = ev_Topic env /\ ch_closed (sb_ch sub) = false.
Proof.
  intros Hr Hi Hs. assert (BInv (mkConfig b cs)) as [H C].
  { assert (BInv (mkConfig New [])) as H0 by (split; [intros topic s'; unfold subscribers; simpl; rewrite lookup_empty; set_solver | constructor]).
    revert H0. unfold reachable in Hr. induction Hr; [done|]. eauto using BInv_step. }
  apply H. rewrite Forall_lookup in C. by apply (C i (Publishing fin env pending)).
Qed.

(** ** A publication that waits for a reader that waits for it *)

Lemma not_ready_full (c : chan (@Envelope A)) : ready c = false <-> ch_waiting c = 0 /\ ch_cap c <= length (ch_buf c).
Proof.
  unfold ready. rewrite orb_false_iff, !Nat.ltb_ge. lia.
Qed.

Lemma deadlocked_step s i j (cf cf' : @config A) : step cf cf' -> deadlocked s i j cf ->
  deadlocked s i j cf' /\ bs_subs (cf_bus cf') = bs_subs (cf_bus cf) /\ length (bs_heap (cf_bus cf')) = length (bs_heap (cf_bus cf)).
Proof.
  intros Hst (Hi & Hj & Hs). destruct Hi as (env0 & p0 & Hi). destruct Hs as (sub0 & Hs0 & Ho0 & Hr0).
  assert (~ no_reader (cf_calls cf)) as Hnr.
  { intros Hn. unfold no_reader in Hn. rewrite Forall_lookup in Hn. by apply Hn in Hi. }
  assert (forall k c c', cf_calls cf !! k = Some c -> c <> Publishing None env0 (s :: p0) -> c <> Removing s ->
    <[k := c']> (cf_calls cf) !! i = Some (Publishing None env0 (s :: p0)) /\ <[k := c']> (cf_calls cf) !! j = Some (Removing s)) as Hother.
  { intros k c c' Hk H1 H2. by rewrite !list_lookup_insert_ne by congruence. }
  assert (forall (h : list subscription) s' f, h !! s = Some sub0 -> s' <> s -> alter f s' h !! s = Some sub0) as Hheap.
  { intros h s' f Hh Hne. by rewrite list_lookup_alter_ne. }
  destruct Hst as [b cs topic n|b cs k topic n Hk Hn|b cs fin topic m now order Hn Ho|b cs k env p Hk|b cs k fin env s' p sub Hk Hs Hr
    |b cs k env s' p Hk|b cs k fin env Hk|b cs s' sub Hs Ho|b cs k s' Hk Hn|b cs k s' Hk|b cs s' sub Hs Ho]; simpl in *;
    try (by destruct Hnr); unfold deadlocked; simpl; rewrite ?length_alter; (split; [|done]).
  1,2: rewrite !lookup_app_l by (by eapply lookup_lt_Some); eauto 10.
  - edestruct Hother as [-> ->]; [exact Hk | congruence | done |]. eauto 10.
  - assert (s' <> s) by (intros ->; congruence).
    edestruct Hother as [-> ->]; [exact Hk | congruence | done |]. rewrite Hheap by done. eauto 10.
  - edestruct Hother as [-> ->]; [exact Hk | congruence | done |]. eauto 10.
  - edestruct Hother as [-> ->]; [exact Hk | congruence | done |]. eauto 10.
  - assert (s' <> s) by (intros ->; congruence). rewrite Hheap by done.
    rewrite !lookup_app_l by (by eapply lookup_lt_Some). eauto 10.
  - edestruct Hother as [-> ->]; [exact Hk | congruence | done |].
    destruct (decide (s' = s)) as [->|Hne]; [|rewrite Hheap by done; eauto 10].
    rewrite list_lookup_alter_eq, Hs0. simpl. split; [eauto|]. split; [done|]. eexists. split; [done|]. split; [done|].
    apply not_ready_full in Hr0 as [_ Hf]. by apply not_ready_full.
  - assert (s' <> s) by (intros ->; congruence). rewrite Hheap by done. eauto 10.
Qed.

(** C40: once a publication whose context is never done waits on a subscription that is full and
    whose reader is in [Close], both wait forever, whatever else happens; from then on no
    subscription is made or removed on the whole bus. *)
Theorem close_deadlocks s i j (cf cf' : @config A) : deadlocked s i j cf -> rtc step cf cf' ->
  deadlocked s i j cf' /\ bs_subs (cf_bus cf') = bs_subs (cf_bus cf) /\ length (bs_heap (cf_bus cf')) = length (bs_heap (cf_bus cf)).
Proof.
  intros Hd Hr. induction Hr as [|cf cf1 cf' Hst _ IH]; [done|].
  destruct (deadlocked_step _ _ _ _ _ Hst Hd) as (Hd1 & Hs & Hl). destruct (IH Hd1) as (? & -> & ->). done.
Qed.
End facts.
