(* ===== verification/TradingAccount.v ===== *)
(** * The trading account and its order trackers (account/trading_account.go, account/order_tracker.go)

    A [TradingAccount] connects the client of one account to a cache through the account
    reconciler, and passes the reports of an order to the [OrderTracker] that submitted it.
    The client is code outside: a record of operations on the state [W] of the venue, where
    [now] reads the clock.  A channel of events is a number; what it delivers, and the ticks
    of the periodic reconciliation, are arguments of the definitions. *)
From stdpp Require Import base strings gmap list.
From S2P Require Import Prelude Decimals Enums Identifiers Orders OrderState Market Accounts OrderLists Cache Reconciler.
From S2P Require Import Kernel ExecManager Emulator ExecEngine Channels.

Open Scope go_scope.

Definition defaultTrackerBufferSize : Z := 16.
Definition unsupported (e : error) : bool := err_kind e ≟ ErrNotSupported.

Section trackers.
Context {DD : Decimal}.

(** ** account/order_tracker.go *)

(** An [OrderTracker]; its account is the one it is registered with. *)
Record OrderTracker := mkOrderTracker {
  tk_orderID : OrderID;
  tk_clientOrderID : ClientOrderID;
  tk_orders : chan OrderStatusReport;
  tk_fills : chan FillReport;
  tk_latest : OrderStatusReport;
  tk_closed : bool;
}.

#[global] Instance set_tk_orderID : Setter tk_orderID := fun f r => mkOrderTracker (f (tk_orderID
  r)) (tk_clientOrderID r) (tk_orders r) (tk_fills r) (tk_latest r) (tk_closed r).
#[global] Instance set_tk_clientOrderID : Setter tk_clientOrderID := fun f r => mkOrderTracker
  (tk_orderID r) (f (tk_clientOrderID r)) (tk_orders r) (tk_fills r) (tk_latest r) (tk_closed r).
#[global] Instance set_tk_orders : Setter tk_orders := fun f r => mkOrderTracker (tk_orderID r)
  (tk_clientOrderID r) (f (tk_orders r)) (tk_fills r) (tk_latest r) (tk_closed r).
#[global] Instance set_tk_fills : Setter tk_fills := fun f r => mkOrderTracker (tk_orderID r)
  (tk_clientOrderID r) (tk_orders r) (f (tk_fills r)) (tk_latest r) (tk_closed r).
#[global] Instance set_tk_latest : Setter tk_latest := fun f r => mkOrderTracker (tk_orderID r)
  (tk_clientOrderID r) (tk_orders r) (tk_fills r) (f (tk_latest r)) (tk_closed r).
#[global] Instance set_tk_closed : Setter tk_closed := fun f r => mkOrderTracker (tk_orderID r)
  (tk_clientOrderID r) (tk_orders r) (tk_fills r) (tk_latest r) (f (tk_closed r)).

Definition newOrderTracker (report : OrderStatusReport) (bufferSize : Z) : OrderTracker :=
  let bufferSize := Z.to_nat (if Z.leb bufferSize 0 then defaultTrackerBufferSize else bufferSize) in
  mkOrderTracker (or_OrderID report) (or_ClientOrderID report) (make_chan bufferSize) (make_chan bufferSize)
    OrderStatusReport_zero false.

Definition Latest (t : OrderTracker) : OrderStatusReport * bool := (tk_latest t, or_OrderID (tk_latest t) ≠? "").

(** [Close] under the tracker's lock. *)
Definition tracker_close (t : OrderTracker) : OrderTracker :=
  if tk_closed t then t
  else t <| tk_closed := true |> <| tk_orders := close (tk_orders t) |> <| tk_fills := close (tk_fills t) |>.

Definition matches_ids (o : OrderID) (cl : ClientOrderID) (t : OrderTracker) : bool :=
  (o ≠? "") && (tk_orderID t ≠? "") && (o ≟ tk_orderID t)
  || (cl ≠? "") && (tk_clientOrderID t ≠? "") && (cl ≟ tk_clientOrderID t).
Definition matchesOrder (order : OrderStatusReport) (t : OrderTracker) : bool :=
  matches_ids (or_OrderID order) (or_ClientOrderID order) t.
Definition matchesFill (fill : FillReport) (t : OrderTracker) : bool :=
  matches_ids (fr_OrderID fill) (fr_ClientOrderID fill) t.

(** The boolean tells that nothing was dropped. *)
Definition sendOrder (report : OrderStatusReport) (t : OrderTracker) : OrderTracker * bool :=
  if tk_closed t then (t, true)
  else
    let t := if tk_orderID t ≟ "" then t <| tk_orderID := or_OrderID report |> else t in
    let t := if tk_clientOrderID t ≟ "" then t <| tk_clientOrderID := or_ClientOrderID report |> else t in
    let t := t <| tk_latest := report |> in
    match try_send (tk_orders t) report with
    | Some ch => (t <| tk_orders := ch |>, true)
    | None => (t, false)
    end.
Definition sendFill (fill : FillReport) (t : OrderTracker) : OrderTracker * bool :=
  if tk_closed t then (t, true)
  else match try_send (tk_fills t) fill with
       | Some ch => (t <| tk_fills := ch |>, true)
       | None => (t, false)
       end.

(** ** Reports completed from the command (account/trading_account.go) *)

Definition or_instrument (i d : InstrumentID) : InstrumentID := if i ≟ InstrumentID_zero then d else i.
Definition or_status (s d : OrderStatus) : OrderStatus := if s ≟ OrderStatusNone then d else s.

Definition fillCancelReport (report : OrderStatusReport) (cancel : CancelOrder) : OrderStatusReport :=
  report <| or_Metadata := CommandMetadata_WithDefaults (co_Metadata cancel) (or_Metadata report) |>
         <| or_AccountID := or_default (or_AccountID report) (co_AccountID cancel) |>
         <| or_InstrumentID := or_instrument (or_InstrumentID report) (co_InstrumentID cancel) |>
         <| or_OrderID := or_default (or_OrderID report) (co_OrderID cancel) |>
         <| or_ClientOrderID := or_default (or_ClientOrderID report) (co_ClientOrderID cancel) |>
         <| or_Status := or_status (or_Status report) OrderStatusCanceled |>.
Definition fillModifyReport (report : OrderStatusReport) (modify : ModifyOrder) : OrderStatusReport :=
  report <| or_Metadata := CommandMetadata_WithDefaults (mo_Metadata modify) (or_Metadata report) |>
         <| or_AccountID := or_default (or_AccountID report) (mo_AccountID modify) |>
         <| or_InstrumentID := or_instrument (or_InstrumentID report) (mo_InstrumentID modify) |>
         <| or_OrderID := or_default (or_OrderID report) (mo_OrderID modify) |>
         <| or_ClientOrderID := or_default (or_ClientOrderID report) (mo_ClientOrderID modify) |>
         <| or_VenueOrderID := or_default (or_VenueOrderID report) (mo_VenueOrderID modify) |>
         <| or_Status := or_status (or_Status report) OrderStatusAccepted |>.
Definition fillQueryReport (report : OrderStatusReport) (query : QueryOrder) : OrderStatusReport :=
  report <| or_Metadata := CommandMetadata_WithDefaults (qo_Metadata query) (or_Metadata report) |>
         <| or_AccountID := or_default (or_AccountID report) (qo_AccountID query) |>
         <| or_InstrumentID := or_instrument (or_InstrumentID report) (qo_InstrumentID query) |>.

Definition queryMatchesReport (query : QueryOrder) (report : OrderStatusReport) : bool :=
  if (or_AccountID report ≠? "") && (or_AccountID report ≠? qo_AccountID query) then false
  else if or_InstrumentID report ≠? qo_InstrumentID query then false
  else if (qo_OrderID query ≠? "") && (or_OrderID report ≟ qo_OrderID query) then true
  else if (qo_ClientOrderID query ≠? "") && (or_ClientOrderID report ≟ qo_ClientOrderID query) then true
  else (qo_VenueOrderID query ≠? "") && (or_VenueOrderID report ≟ qo_VenueOrderID query).

Definition findOrder (c : Cache) (query : QueryOrder) : option OrderStatusReport :=
  let found (id : string) (r : option OrderStatusReport) := if id ≠? "" then r else None in
  match found (qo_OrderID query) (cache_Order c (qo_AccountID query) (qo_OrderID query)) with
  | Some report => Some report
  | None =>
      match found (qo_ClientOrderID query) (OrderByClientID c (qo_AccountID query) (qo_ClientOrderID query)) with
      | Some report => Some report
      | None => found (qo_VenueOrderID query) (OrderByVenueID c (qo_AccountID query) (qo_VenueOrderID query))
      end
  end.

(** [TradingAccountHealth] *)
Record TradingAccountHealth := mkTradingAccountHealth {
  th_Ready : bool;
  th_AccountReady : bool;
  th_OrderStreamReady : bool;
  th_FillsUnsupported : bool;
  th_PositionsUnsupported : bool;
  th_Reconnects : Z;
  th_Reconciliations : Z;
  th_AccountEvents : Z;
  th_OrderEvents : Z;
  th_FillEvents : Z;
  th_PositionEvents : Z;
  th_SlowSubscriberDrops : Z;
  th_LastEventTime : time;
  th_LastReconcileTime : time;
  th_LastError : option error;
}.

#[global] Instance set_th_Ready : Setter th_Ready := fun f r => mkTradingAccountHealth (f (th_Ready
  r)) (th_AccountReady r) (th_OrderStreamReady r) (th_FillsUnsupported r) (th_PositionsUnsupported
  r) (th_Reconnects r) (th_Reconciliations r) (th_AccountEvents r) (th_OrderEvents r) (th_FillEvents
  r) (th_PositionEvents r) (th_SlowSubscriberDrops r) (th_LastEventTime r) (th_LastReconcileTime r)
  (th_LastError r).
#[global] Instance set_th_AccountReady : Setter th_AccountReady := fun f r => mkTradingAccountHealth
  (th_Ready r) (f (th_AccountReady r)) (th_OrderStreamReady r) (th_FillsUnsupported r)
  (th_PositionsUnsupported r) (th_Reconnects r) (th_Reconciliations r) (th_AccountEvents r)
  (th_OrderEvents r) (th_FillEvents r) (th_PositionEvents r) (th_SlowSubscriberDrops r)
  (th_LastEventTime r) (th_LastReconcileTime r) (th_LastError r).
#[global] Instance set_th_OrderStreamReady : Setter th_OrderStreamReady := fun f r =>
  mkTradingAccountHealth (th_Ready r) (th_AccountReady r) (f (th_OrderStreamReady r))
  (th_FillsUnsupported r) (th_PositionsUnsupported r) (th_Reconnects r) (th_Reconciliations r)
  (th_AccountEvents r) (th_OrderEvents r) (th_FillEvents r) (th_PositionEvents r)
  (th_SlowSubscriberDrops r) (th_LastEventTime r) (th_LastReconcileTime r) (th_LastError r).
#[global] Instance set_th_FillsUnsupported : Setter th_FillsUnsupported := fun f r =>
  mkTradingAccountHealth (th_Ready r) (th_AccountReady r) (th_OrderStreamReady r) (f
  (th_FillsUnsupported r)) (th_PositionsUnsupported r) (th_Reconnects r) (th_Reconciliations r)
  (th_AccountEvents r) (th_OrderEvents r) (th_FillEvents r) (th_PositionEvents r)
  (th_SlowSubscriberDrops r) (th_LastEventTime r) (th_LastReconcileTime r) (th_LastError r).
#[global] Instance set_th_PositionsUnsupported : Setter th_PositionsUnsupported := fun f r =>
  mkTradingAccountHealth (th_Ready r) (th_AccountReady r) (th_OrderStreamReady r)
  (th_FillsUnsupported r) (f (th_PositionsUnsupported r)) (th_Reconnects r) (th_Reconciliations r)
  (th_AccountEvents r) (th_OrderEvents r) (th_FillEvents r) (th_PositionEvents r)
  (th_SlowSubscriberDrops r) (th_LastEventTime r) (th_LastReconcileTime r) (th_LastError r).
#[global] Instance set_th_Reconnects : Setter th_Reconnects := fun f r => mkTradingAccountHealth
  (th_Ready r) (th_AccountReady r) (th_OrderStreamReady r) (th_FillsUnsupported r)
  (th_PositionsUnsupported r) (f (th_Reconnects r)) (th_Reconciliations r) (th_AccountEvents r)
  (th_OrderEvents r) (th_FillEvents r) (th_PositionEvents r) (th_SlowSubscriberDrops r)
  (th_LastEventTime r) (th_LastReconcileTime r) (th_LastError r).
#[global] Instance set_th_Reconciliations : Setter th_Reconciliations := fun f r =>
  mkTradingAccountHealth (th_Ready r) (th_AccountReady r) (th_OrderStreamReady r)
  (th_FillsUnsupported r) (th_PositionsUnsupported r) (th_Reconnects r) (f (th_Reconciliations r))
  (th_AccountEvents r) (th_OrderEvents r) (th_FillEvents r) (th_PositionEvents r)
  (th_SlowSubscriberDrops r) (th_LastEventTime r) (th_LastReconcileTime r) (th_LastError r).
#[global] Instance set_th_AccountEvents : Setter th_AccountEvents := fun f r =>
  mkTradingAccountHealth (th_Ready r) (th_AccountReady r) (th_OrderStreamReady r)
  (th_FillsUnsupported r) (th_PositionsUnsupported r) (th_Reconnects r) (th_Reconciliations r) (f
  (th_AccountEvents r)) (th_OrderEvents r) (th_FillEvents r) (th_PositionEvents r)
  (th_SlowSubscriberDrops r) (th_LastEventTime r) (th_LastReconcileTime r) (th_LastError r).
#[global] Instance set_th_OrderEvents : Setter th_OrderEvents := fun f r => mkTradingAccountHealth
  (th_Ready r) (th_AccountReady r) (th_OrderStreamReady r) (th_FillsUnsupported r)
  (th_PositionsUnsupported r) (th_Reconnects r) (th_Reconciliations r) (th_AccountEvents r) (f
  (th_OrderEvents r)) (th_FillEvents r) (th_PositionEvents r) (th_SlowSubscriberDrops r)
  (th_LastEventTime r) (th_LastReconcileTime r) (th_LastError r).
#[global] Instance set_th_FillEvents : Setter th_FillEvents := fun f r => mkTradingAccountHealth
  (th_Ready r) (th_AccountReady r) (th_OrderStreamReady r) (th_FillsUnsupported r)
  (th_PositionsUnsupported r) (th_Reconnects r) (th_Reconciliations r) (th_AccountEvents r)
  (th_OrderEvents r) (f (th_FillEvents r)) (th_PositionEvents r) (th_SlowSubscriberDrops r)
  (th_LastEventTime r) (th_LastReconcileTime r) (th_LastError r).
#[global] Instance set_th_PositionEvents : Setter th_PositionEvents := fun f r =>
  mkTradingAccountHealth (th_Ready r) (th_AccountReady r) (th_OrderStreamReady r)
  (th_FillsUnsupported r) (th_PositionsUnsupported r) (th_Reconnects r) (th_Reconciliations r)
  (th_AccountEvents r) (th_OrderEvents r) (th_FillEvents r) (f (th_PositionEvents r))
  (th_SlowSubscriberDrops r) (th_LastEventTime r) (th_LastReconcileTime r) (th_LastError r).
#[global] Instance set_th_SlowSubscriberDrops : Setter th_SlowSubscriberDrops := fun f r =>
  mkTradingAccountHealth (th_Ready r) (th_AccountReady r) (th_OrderStreamReady r)
  (th_FillsUnsupported r) (th_PositionsUnsupported r) (th_Reconnects r) (th_Reconciliations r)
  (th_AccountEvents r) (th_OrderEvents r) (th_FillEvents r) (th_PositionEvents r) (f
  (th_SlowSubscriberDrops r)) (th_LastEventTime r) (th_LastReconcileTime r) (th_LastError r).
#[global] Instance set_th_LastEventTime : Setter th_LastEventTime := fun f r =>
  mkTradingAccountHealth (th_Ready r) (th_AccountReady r) (th_OrderStreamReady r)
  (th_FillsUnsupported r) (th_PositionsUnsupported r) (th_Reconnects r) (th_Reconciliations r)
  (th_AccountEvents r) (th_OrderEvents r) (th_FillEvents r) (th_PositionEvents r)
  (th_SlowSubscriberDrops r) (f (th_LastEventTime r)) (th_LastReconcileTime r) (th_LastError r).
#[global] Instance set_th_LastReconcileTime : Setter th_LastReconcileTime := fun f r =>
  mkTradingAccountHealth (th_Ready r) (th_AccountReady r) (th_OrderStreamReady r)
  (th_FillsUnsupported r) (th_PositionsUnsupported r) (th_Reconnects r) (th_Reconciliations r)
  (th_AccountEvents r) (th_OrderEvents r) (th_FillEvents r) (th_PositionEvents r)
  (th_SlowSubscriberDrops r) (th_LastEventTime r) (f (th_LastReconcileTime r)) (th_LastError r).
#[global] Instance set_th_LastError : Setter th_LastError := fun f r => mkTradingAccountHealth
  (th_Ready r) (th_AccountReady r) (th_OrderStreamReady r) (th_FillsUnsupported r)
  (th_PositionsUnsupported r) (th_Reconnects r) (th_Reconciliations r) (th_AccountEvents r)
  (th_OrderEvents r) (th_FillEvents r) (th_PositionEvents r) (th_SlowSubscriberDrops r)
  (th_LastEventTime r) (th_LastReconcileTime r) (f (th_LastError r)).

Definition TradingAccountHealth_zero : TradingAccountHealth :=
  mkTradingAccountHealth false false false false false 0 0 0 0 0 0 0 0 0 None.
End trackers.

Section account.
Context {DD : Decimal} {W : Type} (now : W -> time).

(** A [venue.ExecutionClient] with the interfaces the account looks for. *)
Record TradingClient := mkTradingClient {
  tc_Client : Client (W := W);
  tc_Events : W -> option nat;
  tc_Resubscriber : option (W -> W * res unit);
}.

(** [TradingAccount]; the cache is the one of its reconciler, and a tracker is a position of [ta_heap], which keeps
    the closed ones too. *)
Record TradingAccount := mkTradingAccount {
  ta_client : TradingClient;
  ta_reconciler : Reconciler;
  ta_instruments : list InstrumentID;
  ta_bufferSize : Z;
  ta_reconcileInterval : duration;
  ta_missingRepairDelay : duration;
  ta_heap : list OrderTracker;
  ta_trackers : gset nat;
  ta_health : TradingAccountHealth;
  ta_started : bool;
}.

#[global] Instance set_ta_reconciler : Setter ta_reconciler := fun f r => mkTradingAccount
  (ta_client r) (f (ta_reconciler r)) (ta_instruments r) (ta_bufferSize r) (ta_reconcileInterval r)
  (ta_missingRepairDelay r) (ta_heap r) (ta_trackers r) (ta_health r) (ta_started r).
#[global] Instance set_ta_heap : Setter ta_heap := fun f r => mkTradingAccount (ta_client r)
  (ta_reconciler r) (ta_instruments r) (ta_bufferSize r) (ta_reconcileInterval r)
  (ta_missingRepairDelay r) (f (ta_heap r)) (ta_trackers r) (ta_health r) (ta_started r).
#[global] Instance set_ta_trackers : Setter ta_trackers := fun f r => mkTradingAccount (ta_client r)
  (ta_reconciler r) (ta_instruments r) (ta_bufferSize r) (ta_reconcileInterval r)
  (ta_missingRepairDelay r) (ta_heap r) (f (ta_trackers r)) (ta_health r) (ta_started r).
#[global] Instance set_ta_health : Setter ta_health := fun f r => mkTradingAccount (ta_client r)
  (ta_reconciler r) (ta_instruments r) (ta_bufferSize r) (ta_reconcileInterval r)
  (ta_missingRepairDelay r) (ta_heap r) (ta_trackers r) (f (ta_health r)) (ta_started r).
#[global] Instance set_ta_started : Setter ta_started := fun f r => mkTradingAccount (ta_client r)
  (ta_reconciler r) (ta_instruments r) (ta_bufferSize r) (ta_reconcileInterval r)
  (ta_missingRepairDelay r) (ta_heap r) (ta_trackers r) (ta_health r) (f (ta_started r)).

Record TradingAccountConfig := mkTradingAccountConfig {
  tcf_Cache : option Cache;
  tcf_Instruments : list InstrumentID;
  tcf_BufferSize : Z;
  tcf_ReconcileInterval : duration;
  tcf_MissingOrderRepairDelay : duration;
}.

Definition NewTradingAccount (client : option TradingClient) (cfg : TradingAccountConfig) : res TradingAccount :=
  match client with
  | None => Fail (mkErr ErrNotSupported "execution client is required")
  | Some client =>
      ensure check_all InstrumentID_Validate (tcf_Instruments cfg) ;;
      let bufferSize := if Z.leb (tcf_BufferSize cfg) 0 then defaultTrackerBufferSize else tcf_BufferSize cfg in
      Ok (mkTradingAccount client (NewReconciler (tcf_Cache cfg)) (tcf_Instruments cfg) bufferSize
            (tcf_ReconcileInterval cfg) (tcf_MissingOrderRepairDelay cfg) [] ∅ TradingAccountHealth_zero false)
  end.

Definition ta_cache (a : TradingAccount) : Cache := rc_cache (ta_reconciler a).

(** ** State passing over account and venue *)

Definition TA : Type -> Type := St (TradingAccount * W).
Definition account : TA TradingAccount := fun s => (s, s.1).
Definition client : TA (Client (W := W)) := fun s => (s, tc_Client (ta_client s.1)).
Definition clock : TA time := fun s => (s, now s.2).
Definition call {A} (f : W -> W * A) : TA A := fun s => let '(w, a) := f s.2 in ((s.1, w), a).
Definition change (f : TradingAccount -> TradingAccount) : TA unit := fun s => ((f s.1, s.2), tt).
Definition set_health (f : TradingAccountHealth -> TradingAccountHealth) : TA unit :=
  change (fun a => a <| ta_health := f (ta_health a) |>).

Definition recordError (err : error) : TA unit := set_health (fun h => h <| th_LastError := Some err |>).
Definition incrementDrops (a : TradingAccount) : TradingAccount :=
  a <| ta_health := ta_health a <| th_SlowSubscriberDrops := (th_SlowSubscriberDrops (ta_health a) + 1)%Z |> |>.
Definition markStopped : TA unit :=
  change (fun a => a <| ta_started := false |> <| ta_health := ta_health a <| th_Ready := false |> |>).

(** [if err != nil { a.recordError(err); return err }] *)
Definition recorded {A} (m : TA (res A)) : TA (res A) :=
  r ← m;
  match r with
  | Ok a => pass (Ok a)
  | Fail e => _ ← recordError e; pass (Fail e)
  end.

(** ** Trackers *)

Definition registerTracker (t : OrderTracker) (a : TradingAccount) : TradingAccount * nat :=
  (a <| ta_heap := ta_heap a ++ [t] |> <| ta_trackers := {[length (ta_heap a)]} ∪ ta_trackers a |>, length (ta_heap a)).

(** [tracker.Close()] *)
Definition closeTracker (a : TradingAccount) (i : nat) : TradingAccount :=
  a <| ta_trackers := ta_trackers a ∖ {[i]} |> <| ta_heap := alter tracker_close i (ta_heap a) |>.

Definition matchingTrackers (a : TradingAccount) (match_ : OrderTracker -> bool) : list nat :=
  filter (fun i => match_ <$> ta_heap a !! i = Some true) (elements (ta_trackers a)).

(** One round of the loop of [publishOrder] and [publishFill]. *)
Definition send_to (send : OrderTracker -> OrderTracker * bool) (a : TradingAccount) (i : nat) : TradingAccount :=
  match ta_heap a !! i with
  | None => a
  | Some t =>
      let '(t, sent) := send t in
      let a := a <| ta_heap := <[i := t]> (ta_heap a) |> in
      if (sent : bool) then a else incrementDrops a
  end.
Definition publishOrder (report : OrderStatusReport) (a : TradingAccount) : TradingAccount :=
  foldl (send_to (sendOrder report)) a (matchingTrackers a (matchesOrder report)).
Definition publishFill (fill : FillReport) (a : TradingAccount) : TradingAccount :=
  foldl (send_to (sendFill fill)) a (matchingTrackers a (matchesFill fill)).
Definition closeTrackers (a : TradingAccount) : TradingAccount := foldl closeTracker a (elements (ta_trackers a)).

(** ** Applying events *)

(** [a.reconciler.Apply] *)
Definition reconciler_Apply (event : ExecutionEvent) : TA (res unit) := fun '(a, w) =>
  let '(c, result) := Apply (ta_cache a) event in
  ((a <| ta_reconciler := ta_reconciler a <| rc_cache := c |> |>, w), result).

Definition count_opt_Z {A} (o : option A) : Z := match o with Some _ => 1 | None => 0 end.
Definition count_event (event : ExecutionEvent) (t : time) (h : TradingAccountHealth) : TradingAccountHealth :=
  h <| th_LastEventTime := t |>
    <| th_AccountEvents := (th_AccountEvents h + count_opt_Z (ee_Account event))%Z |>
    <| th_OrderEvents := (th_OrderEvents h + count_opt_Z (ee_Order event))%Z |>
    <| th_FillEvents := (th_FillEvents h + count_opt_Z (ee_Fill event))%Z |>
    <| th_PositionEvents := (th_PositionEvents h + count_opt_Z (ee_Position event))%Z |>.
Definition publish_event (event : ExecutionEvent) (a : TradingAccount) : TradingAccount :=
  let a := match ee_Order event with Some report => publishOrder report a | None => a end in
  match ee_Fill event with Some fill => publishFill fill a | None => a end.

Definition applyAndPublish (event : ExecutionEvent) : TA (res unit) :=
  let! _ := reconciler_Apply event in
  t ← clock;
  _ ← set_health (count_event event t);
  _ ← change (publish_event event);
  pass (Ok tt).
End account.

Section operations.
Context {DD : Decimal} {W : Type} (now : W -> time).
Notation TradingAccount := (TradingAccount (W := W)).
Notation TA := (TA (W := W)).
Notation applyAndPublish := (applyAndPublish now).

(** ** Commands *)

(** The end of a command: the report completed from it is applied and returned. *)
Definition apply_report (report : OrderStatusReport) : TA (res OrderStatusReport) :=
  let! _ := recorded (applyAndPublish (order_event report)) in pass (Ok report).

(** [SubmitOrder] is its request to the venue and what it does with the answer; the event
    stream may be processed in between. *)
Definition submit_send (order : SubmitOrder) : TA (res OrderStatusReport) :=
  c ← client;
  let order := if so_AccountID order ≟ "" then order <| so_AccountID := cl_AccountID c |> else order in
  let! _ := recorded (pass (SubmitOrder_Validate order)) in
  recorded (call (fun w => cl_SubmitOrder c w order)).

Definition track (report : OrderStatusReport) : TA nat := fun '(a, w) =>
  let '(a, tracker) := registerTracker (newOrderTracker report (ta_bufferSize a)) a in ((a, w), tracker).
Definition submit_track (report : OrderStatusReport) : TA (res nat) :=
  tracker ← track report;
  r ← applyAndPublish (order_event report);
  match r with
  | Ok _ => pass (Ok tracker)
  | Fail e => _ ← change (fun a => closeTracker a tracker); pass (Fail e)
  end.

Definition account_SubmitOrder (order : SubmitOrder) : TA (res nat) :=
  let! report := submit_send order in submit_track report.

Definition account_CancelOrder (cancel : CancelOrder) : TA (res OrderStatusReport) :=
  c ← client;
  let cancel := if co_AccountID cancel ≟ "" then cancel <| co_AccountID := cl_AccountID c |> else cancel in
  let! _ := recorded (pass (CancelOrder_Validate cancel)) in
  let! report := recorded (call (fun w => cl_CancelOrder c w cancel)) in
  apply_report (fillCancelReport report cancel).

Definition account_ModifyOrder (modify : ModifyOrder) : TA (res OrderStatusReport) :=
  c ← client;
  let modify := if mo_AccountID modify ≟ "" then modify <| mo_AccountID := cl_AccountID c |> else modify in
  let! _ := recorded (pass (ModifyOrder_Validate modify)) in
  let! modifier := recorded (pass (match cl_OrderModifier c with
                                   | Some modifier => Ok modifier
                                   | None => Fail (mkErr ErrNotSupported "execution client does not support order modification")
                                   end)) in
  let! report := recorded (call (fun w => modifier w modify)) in
  apply_report (fillModifyReport report modify).

(** The part of [QueryOrder] that looks for the order in the reports of the venue. *)
Definition query_reports (query : QueryOrder) : TA (res OrderStatusReport) :=
  c ← client;
  let! reports := recorded (call (fun w => cl_GenerateOrderStatusReports c w (qo_InstrumentID query))) in
  match List.find (queryMatchesReport query) reports with
  | Some report => apply_report (fillQueryReport report query)
  | None => recorded (pass (Fail (mkErr ErrInvalidOrder "order not found")))
  end.

Definition account_QueryOrder (query : QueryOrder) : TA (res OrderStatusReport) :=
  c ← client;
  let query := if qo_AccountID query ≟ "" then query <| qo_AccountID := cl_AccountID c |> else query in
  let! _ := recorded (pass (QueryOrder_Validate query)) in
  a ← account;
  match findOrder (ta_cache a) query with
  | Some report => pass (Ok (fillQueryReport report query))
  | None =>
      match cl_OrderQuerier c with
      | None => query_reports query
      | Some querier =>
          r ← call (fun w => querier w query);
          match r with
          | Ok report => apply_report (fillQueryReport report query)
          | Fail e =>
              if (err_kind e ≠? ErrNotSupported) && (err_kind e ≠? ErrInvalidOrder) then recorded (pass (Fail e))
              else query_reports query
          end
      end
  end.

Definition account_QueryAccount : TA (res AccountSnapshot) :=
  c ← client;
  let! snapshot := recorded (call (cl_QueryAccount c)) in
  let! _ := recorded (applyAndPublish (account_event snapshot)) in
  pass (Ok snapshot).

(** ** Reconciliation with the venue *)

Section reconcile.
Variable repairMissing : bool.

Definition apply_event (event : ExecutionEvent) : TA (res unit) :=
  if repairMissing then applyAndPublish event else reconciler_Apply event.

Definition MissingPositions (i : InstrumentID) (positions : list PositionStatusReport) : TA (res (list PositionStatusReport)) :=
  fun '(a, w) =>
    let '(r, result) := MissingPositionReports (now w) (ta_reconciler a) (cl_AccountID (tc_Client (ta_client a))) i positions in
    ((a <| ta_reconciler := r |>, w), result).

Definition MissingOrders (i : InstrumentID) (reports : list OrderStatusReport) : TA (res (list OrderStatusReport)) :=
  fun '(a, w) =>
    let policy := mkMissingOpenOrderRepairPolicy OrderStatusCanceled (ta_missingRepairDelay a) 0%Z in
    let '(c, missing, result) :=
      ReconcileMissingOpenOrdersWithPolicy (now w) (ta_cache a) (cl_AccountID (tc_Client (ta_client a))) i reports policy in
    ((a <| ta_reconciler := ta_reconciler a <| rc_cache := c |> |>, w),
     match result with Ok _ => Ok missing | Fail e => Fail e end).

(** The fills of an instrument; the result tells that the client supports them. *)
Definition reconcile_fills (c : Client (W := W)) (i : InstrumentID) : TA (res bool) :=
  match cl_FillReportGenerator c with
  | None => pass (Ok false)
  | Some generate =>
      r ← call (fun w => generate w i);
      match r with
      | Fail e => if unsupported e then pass (Ok false) else pass (Fail e)
      | Ok fills => let! _ := for_each (fun fill => apply_event (fill_event fill)) fills in pass (Ok true)
      end
  end.

Definition reconcile_positions (c : Client (W := W)) (i : InstrumentID) : TA (res bool) :=
  match cl_PositionStatusReportGenerator c with
  | None => pass (Ok false)
  | Some generate =>
      r ← call (fun w => generate w i);
      match r with
      | Fail e => if unsupported e then pass (Ok false) else pass (Fail e)
      | Ok positions =>
          let! _ := for_each (fun position => apply_event (position_event position)) positions in
          if repairMissing then
            let! missing := MissingPositions i positions in
            let! _ := for_each (fun position => apply_event (position_event position)) missing in
            pass (Ok true)
          else pass (Ok true)
      end
  end.

(** One round of the loop over the instruments. *)
Definition reconcile_instrument (c : Client (W := W)) (i : InstrumentID) : TA (res (bool * bool)) :=
  let! reports := call (fun w => cl_GenerateOrderStatusReports c w i) in
  let! _ := for_each (fun report => apply_event (order_event report)) reports in
  let! fills := reconcile_fills c i in
  let! positions := reconcile_positions c i in
  if repairMissing then
    let! missing := MissingOrders i reports in
    _ ← change (fun a => foldl (fun a report => publishOrder report a) a missing);
    pass (Ok (fills, positions))
  else pass (Ok (fills, positions)).

Fixpoint reconcile_instruments (c : Client (W := W)) (fills positions : bool) (instruments : list InstrumentID)
    : TA (res (bool * bool)) :=
  match instruments with
  | [] => pass (Ok (fills, positions))
  | i :: instruments =>
      let! supported := reconcile_instrument c i in
      reconcile_instruments c (fills || supported.1) (positions || supported.2) instruments
  end.

Definition has {A} (o : option A) : bool := match o with Some _ => true | None => false end.

Definition reconcileExecution : TA (res unit) :=
  c ← client;
  let! snapshot := call (cl_QueryAccount c) in
  let! _ := apply_event (account_event snapshot) in
  a ← account;
  let! supported := reconcile_instruments c false false (ta_instruments a) in
  let some := Nat.ltb 0 (length (ta_instruments a)) in
  _ ← set_health (fun h =>
        h <| th_FillsUnsupported := negb (has (cl_FillReportGenerator c)) || negb supported.1 && some |>
          <| th_PositionsUnsupported := negb (has (cl_PositionStatusReportGenerator c)) || negb supported.2 && some |>);
  pass (Ok tt).
End reconcile.

(** ** The event stream *)

Definition recoverExecutionStream (closed : nat) : TA (res nat) :=
  c ← client;
  let! _ := call (cl_Connect c) in
  a ← account;
  let! _ := match tc_Resubscriber (ta_client a) with Some resubscribe => call resubscribe | None => pass (Ok tt) end in
  let! _ := reconcileExecution true in
  next ← (fun s => (s, tc_Events (ta_client s.1) s.2));
  match next with
  | Some next =>
      if next ≟ closed then pass (Fail (mkErr ErrNotSupported "execution client did not expose a fresh event stream"))
      else
        _ ← set_health (fun h => h <| th_OrderStreamReady := true |> <| th_Reconnects := (th_Reconnects h + 1)%Z |>);
        pass (Ok next)
  | None => pass (Fail (mkErr ErrNotSupported "execution client did not expose a fresh event stream"))
  end.

(** What [forwardEvents] receives: an event, or the end of the stream. *)
Inductive stream_input := StreamEvent (event : ExecutionEvent) | StreamClosed.

(** One round of [forwardEvents]: the stream it reads next, or none when it returns. *)
Definition forward_step (events : nat) (input : stream_input) : TA (option nat) :=
  match input with
  | StreamEvent event => _ ← recorded (applyAndPublish event); mret (Some events)
  | StreamClosed =>
      _ ← set_health (fun h => h <| th_OrderStreamReady := false |>);
      r ← recorded (recoverExecutionStream events);
      mret (match r with Ok next => Some next | Fail _ => None end)
  end.

Fixpoint forwardEvents (events : nat) (inputs : list stream_input) : TA (option nat) :=
  match inputs with
  | [] => mret (Some events)
  | input :: inputs =>
      next ← forward_step events input;
      match next with Some events => forwardEvents events inputs | None => mret None end
  end.

(** One tick of [reconcilePeriodically]. *)
Definition reconcile_tick : TA unit :=
  r ← recorded (reconcileExecution true);
  match r with
  | Fail _ => mret tt
  | Ok _ =>
      t ← clock now;
      set_health (fun h => h <| th_Reconciliations := (th_Reconciliations h + 1)%Z |> <| th_LastReconcileTime := t |>)
  end.

(** ** Life cycle

    [Start] returns whether the goroutines of the stream and of the periodic
    reconciliation run. *)
Definition account_Start : TA (res (option nat * bool)) :=
  a ← account;
  if ta_started a then pass (Ok (None, false))
  else
    c ← client;
    _ ← change (fun a => a <| ta_health := TradingAccountHealth_zero |> <| ta_started := true |>);
    connected ← recorded (call (cl_Connect c));
    match connected with
    | Fail e => _ ← markStopped; pass (Fail e)
    | Ok _ =>
        reconciled ← recorded (reconcileExecution false);
        match reconciled with
        | Fail e => _ ← call (cl_Disconnect c); _ ← markStopped; pass (Fail e)
        | Ok _ =>
            events ← (fun s => (s, tc_Events (ta_client s.1) s.2));
            _ ← set_health (fun h => h <| th_Ready := true |> <| th_AccountReady := true |> <| th_OrderStreamReady := has events |>);
            pass (Ok (events, Z.ltb 0 (ta_reconcileInterval a)))
        end
    end.

Definition account_Stop : TA (res unit) :=
  a ← account;
  if negb (ta_started a) then pass (Ok tt)
  else
    c ← client;
    _ ← markStopped;
    _ ← change closeTrackers;
    call (cl_Disconnect c).
End operations.
