(* ===== verification/TradingAccountFacts.v ===== *)
(** * Properties of the trading account and its trackers

    What a publication sends to the trackers, that a tracker only ever receives the reports
    of its own order, and what happens to a submission the event stream has overtaken. *)
From stdpp Require Import base strings gmap list.
From S2P Require Import Prelude Decimals Enums Identifiers Orders OrderState Market Accounts OrderLists Cache Reconciler.
From S2P Require Import Kernel ExecManager Emulator ExecEngine Channels TradingAccount.

Open Scope go_scope.

Section facts.
Context {DD : Decimal} {W : Type} (now : W -> time).
Notation TradingAccount := (TradingAccount (W := W)).
Notation TA := (TA (W := W)).
Implicit Types (a : TradingAccount) (t : OrderTracker) (w : W).

(** ** What a tracker holds *)

Definition of_order (t : OrderTracker) (o : OrderID) (cl : ClientOrderID) : Prop :=
  (o <> "" /\ o = tk_orderID t) \/ (cl <> "" /\ cl = tk_clientOrderID t).

(** Its channels are sound and open as long as it is, and hold reports of its order alone. *)
Record tracker_ok (t : OrderTracker) : Prop := {
  tok_orders : chan_ok (tk_orders t);
  tok_fills : chan_ok (tk_fills t);
  tok_closed : ch_closed (tk_orders t) = tk_closed t /\ ch_closed (tk_fills t) = tk_closed t;
  tok_reports : Forall (fun r => of_order t (or_OrderID r) (or_ClientOrderID r)) (sent (tk_orders t));
  tok_fill_reports : Forall (fun f => of_order t (fr_OrderID f) (fr_ClientOrderID f)) (sent (tk_fills t));
}.

Lemma matches_ids_of_order o cl t : matches_ids o cl t = true -> of_order t o cl.
Proof.
  unfold matches_ids, of_order. intros H. apply orb_true_iff in H as [H|H];
    apply andb_true_iff in H as [[Ha _]%andb_true_iff Hb]; bools; auto.
Qed.

Lemma of_order_adopt t t' o cl :
  (tk_orderID t <> "" -> tk_orderID t' = tk_orderID t) -> (tk_clientOrderID t <> "" -> tk_clientOrderID t' = tk_clientOrderID t) ->
  of_order t o cl -> of_order t' o cl.
Proof. unfold of_order. intros H1 H2 [[Hn ->]|[Hn ->]]; [left | right]; rewrite ?H1, ?H2 by done; done. Qed.

Lemma newOrderTracker_ok report n : tracker_ok (newOrderTracker report n).
Proof. split; simpl; auto with go; constructor. Qed.

Lemma tracker_close_ok t : tracker_ok t -> tracker_ok (tracker_close t).
Proof.
  intros [H1 H2 H3 H4 H5]. unfold tracker_close. destruct (tk_closed t) eqn:E; [by split; rewrite ?E|].
  destruct (close_ok _ H1) as [C1 S1]. destruct (close_ok _ H2) as [C2 S2]. split; fields; rewrite ?S1, ?S2; auto.
Qed.

(** The tracker after the ids of a report are adopted. *)
Definition adopt (report : OrderStatusReport) (t : OrderTracker) : OrderTracker :=
  let t := if tk_orderID t ≟ "" then t <| tk_orderID := or_OrderID report |> else t in
  let t := if tk_clientOrderID t ≟ "" then t <| tk_clientOrderID := or_ClientOrderID report |> else t in
  t <| tk_latest := report |>.

Lemma sendOrder_eq report t : tk_closed t = false ->
  sendOrder report t =
  (adopt report t <| tk_orders := if ready (tk_orders t) then push (tk_orders t) report else tk_orders t |>, ready (tk_orders t)).
Proof.
  intros Hc. unfold sendOrder, adopt, try_send. rewrite Hc. destruct t as [o cl ch f l c]. fields.
  repeat case_bool_decide; fields; by destruct (ready ch).
Qed.
Lemma sendFill_eq fill t : tk_closed t = false ->
  sendFill fill t = (t <| tk_fills := if ready (tk_fills t) then push (tk_fills t) fill else tk_fills t |>, ready (tk_fills t)).
Proof.
  intros Hc. unfold sendFill, try_send. rewrite Hc. destruct t as [o cl ch f l c]. fields. by destruct (ready f).
Qed.

Lemma adopt_of_order report t o cl : of_order t o cl -> of_order (adopt report t) o cl.
Proof.
  apply of_order_adopt; unfold adopt; intros H; repeat case_bool_decide; fields; congruence.
Qed.
Lemma adopt_same report t :
  tk_orders (adopt report t) = tk_orders t /\ tk_fills (adopt report t) = tk_fills t /\ tk_closed (adopt report t) = tk_closed t.
Proof. unfold adopt. repeat case_bool_decide; fields; done. Qed.

Lemma sendOrder_ok report t : matchesOrder report t = true -> tracker_ok t -> tracker_ok (sendOrder report t).1.
Proof.
  intros Hm Ht. destruct (tk_closed t) eqn:Hc; [unfold sendOrder; by rewrite Hc|]. rewrite sendOrder_eq by done.
  apply matches_ids_of_order in Hm. destruct (adopt_same report t) as (E1 & E2 & E3). destruct Ht as [H1 H2 H3 H4 H5].
  pose proof (adopt_of_order report t) as Ha. set (t' := adopt report t) in *. clearbody t'.
  split; simpl; rewrite ?E2, ?E3; try done.
  - destruct (ready (tk_orders t)) eqn:Hr; auto with go.
  - destruct (ready (tk_orders t)); [by rewrite ch_closed_push | done].
  - assert (Forall (fun r => of_order t' (or_OrderID r) (or_ClientOrderID r)) (sent (tk_orders t))) as Hold.
    { eapply Forall_impl; [done|]. intros r. apply Ha. }
    destruct (ready (tk_orders t)); [|done]. rewrite sent_push by done. apply Forall_app_2; [done|].
    constructor; [|constructor]. by apply Ha.
  - eapply Forall_impl; [done|]. intros f. apply Ha.
Qed.

Lemma sendFill_ok fill t : matchesFill fill t = true -> tracker_ok t -> tracker_ok (sendFill fill t).1.
Proof.
  intros Hm Ht. destruct (tk_closed t) eqn:Hc; [unfold sendFill; by rewrite Hc|]. rewrite sendFill_eq by done.
  apply matches_ids_of_order in Hm. destruct Ht as [H1 H2 H3 H4 H5].
  split; simpl; try done; destruct (ready (tk_fills t)) eqn:Hr; auto with go.
  - rewrite ch_closed_push. done.
  - rewrite sent_push by done. apply Forall_app_2; [done|]. constructor; [done | constructor].
Qed.

(** ** Publications *)

(** What holds of the trackers of an account: a registered one exists and is open. *)
Record trackers_ok a : Prop := {
  trk_ok : Forall tracker_ok (ta_heap a);
  trk_open : forall i, i ∈ ta_trackers a -> exists t, ta_heap a !! i = Some t /\ tk_closed t = false;
}.

Lemma trackers_ok_same a a' : ta_heap a' = ta_heap a -> ta_trackers a' = ta_trackers a -> trackers_ok a -> trackers_ok a'.
Proof. intros Hh Ht [H1 H2]. split; rewrite ?Hh, ?Ht; done. Qed.

(** A send loop visits distinct trackers: each gets its send, the others stay, and the sends
    that found no room are counted. *)
Definition drops a : Z := th_SlowSubscriberDrops (ta_health a).
Definition refused (send : OrderTracker -> OrderTracker * bool) a (i : nat) : Z :=
  match ta_heap a !! i with Some t => Z.b2z (negb (send t).2) | None => 0 end.
Lemma sends_spec send (l : list nat) : forall a, NoDup l ->
  let a' := foldl (send_to send) a l in
  (forall i, ta_heap a' !! i = (if decide (i ∈ l) then (fun t => (send t).1) <$> ta_heap a !! i else ta_heap a !! i)) /\
  ta_trackers a' = ta_trackers a /\ ta_reconciler a' = ta_reconciler a /\ ta_started a' = ta_started a /\
  ta_client a' = ta_client a /\ ta_instruments a' = ta_instruments a /\
  drops a' = (drops a + foldr (fun i n => refused send a i + n) 0 l)%Z.
Proof.
  induction l as [|i l IH]; intros a Hnd; simpl; [rewrite Z.add_0_r; done|].
  apply NoDup_cons in Hnd as [Hi Hnd].
  assert (forall j, ta_heap (send_to send a i) !! j = if decide (j = i) then (fun t => (send t).1) <$> ta_heap a !! j else ta_heap a !! j) as Hh.
  { intros j. unfold send_to. destruct (ta_heap a !! i) as [t|] eqn:E; [|case_decide; [by subst; rewrite E|done]].
    destruct (send t) as [t' sent] eqn:Es. destruct sent; fields; (destruct (decide (j = i)) as [->|];
      [by rewrite list_lookup_insert_eq, E by (by eapply lookup_lt_Some); simpl; rewrite Es | by rewrite list_lookup_insert_ne]). }
  assert (drops (send_to send a i) = (drops a + refused send a i)%Z /\ ta_trackers (send_to send a i) = ta_trackers a /\
    ta_reconciler (send_to send a i) = ta_reconciler a /\ ta_started (send_to send a i) = ta_started a /\
    ta_client (send_to send a i) = ta_client a /\ ta_instruments (send_to send a i) = ta_instruments a) as (Hd & Ht & Hr & Hs & Hc & Hn).
  { unfold send_to, refused, drops. destruct (ta_heap a !! i) as [t|]; [|repeat split; lia].
    destruct (send t) as [t' [|]]; simpl; repeat split; lia. }
  destruct (IH (send_to send a i) Hnd) as (G1 & G2 & G3 & G4 & G5 & G6 & G7). split; [|rewrite G2, G3, G4, G5, G6, G7, Hd, Ht, Hr, Hs, Hc, Hn; repeat split].
  - intros j. rewrite G1, Hh. destruct (decide (j = i)) as [->|Hne].
    + rewrite decide_False by done. by rewrite decide_True by set_solver.
    + destruct (decide (j ∈ l)); [rewrite decide_True by set_solver | rewrite decide_False by (rewrite elem_of_cons; intros [?|?]; done)]; done.
  - rewrite <- Z.add_assoc. do 2 f_equal. clear IH G1 G2 G3 G4 G5 G6 G7 Hnd. induction l as [|j l IH]; [done|]. simpl. f_equal.
    + unfold refused. rewrite Hh. by rewrite decide_False by set_solver.
    + apply IH. set_solver.
Qed.

Lemma elem_of_matching a f i : i ∈ matchingTrackers a f <-> i ∈ ta_trackers a /\ exists t, ta_heap a !! i = Some t /\ f t = true.
Proof.
  unfold matchingTrackers. rewrite list_elem_of_filter, elem_of_elements. destruct (ta_heap a !! i) as [t|]; simpl.
  - split; [intros [[= ?] ?]; eauto | intros (? & ? & [= <-] & ->); done].
  - split; [by intros [? ?] | by intros (_ & ? & ? & _)].
Qed.
Lemma NoDup_matching a f : NoDup (matchingTrackers a f).
Proof. apply NoDup_filter, NoDup_elements. Qed.

Lemma sends_ok send f a :
  (forall t, f t = true -> tracker_ok t -> tracker_ok (send t).1) -> (forall t, tk_closed (send t).1 = tk_closed t) ->
  trackers_ok a -> trackers_ok (foldl (send_to send) a (matchingTrackers a f)).
Proof.
  intros Hs Hc [H1 H2]. destruct (sends_spec send _ a (NoDup_matching a f)) as (Hh & Ht & _). rewrite Forall_lookup in H1.
  assert (forall i t', ta_heap (foldl (send_to send) a (matchingTrackers a f)) !! i = Some t' ->
    exists t, ta_heap a !! i = Some t /\ (t' = t \/ t' = (send t).1 /\ f t = true)) as Hinv.
  { intros i t' Hi. rewrite Hh in Hi. case_decide as Hm; [|eauto]. apply elem_of_matching in Hm as (_ & t & E & Hf).
    rewrite E in Hi. simpl in Hi. simplify_eq. eauto. }
  split.
  - apply Forall_lookup. intros i t' Hi. destruct (Hinv _ _ Hi) as (t & E & [->|[-> Hf]]); eauto.
  - rewrite Ht. intros i Hi. destruct (H2 i Hi) as (t & E & Ho). rewrite Hh, E. simpl. case_decide; eauto.
Qed.

Lemma sendOrder_closed report t : tk_closed (sendOrder report t).1 = tk_closed t.
Proof.
  destruct (tk_closed t) eqn:E; [unfold sendOrder; by rewrite E|]. rewrite sendOrder_eq by done.
  change (tk_closed (adopt report t) = false). destruct (adopt_same report t) as (_ & _ & ->). done.
Qed.
Lemma sendFill_closed fill t : tk_closed (sendFill fill t).1 = tk_closed t.
Proof. destruct (tk_closed t) eqn:E; [unfold sendFill; by rewrite E|]. by rewrite sendFill_eq. Qed.

Lemma publishOrder_ok report a : trackers_ok a -> trackers_ok (publishOrder report a).
Proof. apply sends_ok; [apply sendOrder_ok | apply sendOrder_closed]. Qed.
Lemma publishFill_ok fill a : trackers_ok a -> trackers_ok (publishFill fill a).
Proof. apply sends_ok; [apply sendFill_ok | apply sendFill_closed]. Qed.

Lemma registerTracker_ok report n a : trackers_ok a -> trackers_ok (registerTracker (newOrderTracker report n) a).1.
Proof.
  intros [H1 H2]. unfold registerTracker. split; fields.
  - apply Forall_app_2; [done|]. constructor; [apply newOrderTracker_ok | constructor].
  - intros i [->%elem_of_singleton|Hi]%elem_of_union.
    + eexists. by rewrite lookup_app_r, Nat.sub_diag by lia.
    + destruct (H2 i Hi) as (t & E & Ho). exists t. by rewrite lookup_app_l by (by eapply lookup_lt_Some).
Qed.

(** A change of one tracker that unregisters it, or leaves it open. *)
Lemma alter_ok a i (f : OrderTracker -> OrderTracker) :
  (forall t, tracker_ok t -> tracker_ok (f t)) -> (i ∉ ta_trackers a \/ forall t, tk_closed (f t) = tk_closed t) ->
  trackers_ok a -> trackers_ok (a <| ta_heap := alter f i (ta_heap a) |>).
Proof.
  intros Hf Hc [H1 H2]. split; fields; [apply Forall_alter; [done | eauto; intros t E _; rewrite Forall_lookup in H1; eauto]|].
  intros j Hj. destruct (H2 j Hj) as (t & E & Ho). destruct (decide (i = j)) as [<-|Hne].
  - rewrite list_lookup_alter_eq, E. simpl. eexists. split; [done|]. destruct Hc as [Hc|Hc]; [done | by rewrite Hc].
  - rewrite list_lookup_alter_ne by done. eauto.
Qed.
Lemma closeTracker_ok a i : trackers_ok a -> trackers_ok (closeTracker a i).
Proof.
  intros H. unfold closeTracker. set (a1 := a <| ta_trackers := ta_trackers a ∖ {[i]} |>).
  change (trackers_ok (a1 <| ta_heap := alter tracker_close i (ta_heap a1) |>)). apply alter_ok.
  - apply tracker_close_ok.
  - left. unfold a1. fields. set_solver.
  - destruct H as [H1 H2]. unfold a1. split; fields; [done|]. set_solver.
Qed.
Lemma closeTrackers_ok a : trackers_ok a -> trackers_ok (closeTrackers a).
Proof.
  unfold closeTrackers. generalize (elements (ta_trackers a)). intros l. revert a. induction l as [|i l IH]; intros a H; [done|].
  simpl. apply IH, closeTracker_ok, H.
Qed.

(** ** Operations keep the trackers sound *)

Definition keeps {A} (m : TA A) : Prop := forall a w, trackers_ok a -> trackers_ok (m (a, w)).1.1.

Lemma keeps_ret {A} (x : A) : keeps (mret x).
Proof. by intros a w H. Qed.
Lemma keeps_bind {A B} (m : TA A) (f : A -> TA B) : keeps m -> (forall x, keeps (f x)) -> keeps (mbind f m).
Proof.
  intros Hm Hf a w H. unfold mbind, St_bind. specialize (Hm a w H). destruct (m (a, w)) as [[a1 w1] x]. by apply Hf.
Qed.
Lemma keeps_attempt {A B} (m : TA (res A)) (f : A -> TA (res B)) : keeps m -> (forall x, keeps (f x)) -> keeps (attempt m f).
Proof. intros Hm Hf. apply keeps_bind; [done|]. intros [x|e]; [apply Hf | apply keeps_ret]. Qed.
Lemma keeps_read {A} (f : TradingAccount * W -> A) : keeps (fun s => (s, f s)).
Proof. by intros a w H. Qed.
Lemma keeps_call {A} (f : W -> W * A) : keeps (call f).
Proof. intros a w H. unfold call. simpl. by destruct (f w). Qed.
Lemma keeps_change f : (forall a, trackers_ok a -> trackers_ok (f a)) -> keeps (change f).
Proof. intros Hf a w H. by apply Hf. Qed.
Lemma keeps_health f : keeps (set_health f).
Proof. apply keeps_change. intros a. by apply trackers_ok_same. Qed.
Lemma keeps_stopped : keeps markStopped.
Proof. apply keeps_change. intros a. by apply trackers_ok_same. Qed.
Lemma keeps_recorded {A} (m : TA (res A)) : keeps m -> keeps (recorded m).
Proof. intros Hm. apply keeps_bind; [done|]. intros [x|e]; [apply keeps_ret|]. apply keeps_bind; [apply keeps_health | intros; apply keeps_ret]. Qed.
Lemma keeps_each {X} (f : X -> TA (res unit)) l : (forall x, keeps (f x)) -> keeps (for_each f l).
Proof. intros Hf. induction l as [|x l IH]; simpl; [apply keeps_ret|]. by apply keeps_attempt. Qed.

Create HintDb keeps.
#[local] Hint Resolve keeps_call keeps_health keeps_stopped : keeps.
#[local] Hint Extern 1 (keeps (mret _)) => apply keeps_ret : keeps.
#[local] Hint Extern 1 (keeps (pass _)) => apply keeps_ret : keeps.
#[local] Hint Extern 1 (keeps (fun s => (s, _))) => apply keeps_read : keeps.
#[local] Hint Extern 1 (keeps account) => apply keeps_read : keeps.
#[local] Hint Extern 1 (keeps client) => apply keeps_read : keeps.
#[local] Hint Extern 1 (keeps (clock _)) => apply keeps_read : keeps.

(** Walks through an operation: binds, loops, and the matches on what was read or returned. *)
Ltac keeps :=
  repeat (intros; first
    [ assumption | solve [auto 1 with keeps]
    | simple apply keeps_attempt | simple apply keeps_recorded | simple apply keeps_bind | simple apply keeps_each
    | match goal with |- keeps (match ?x with _ => _ end) => destruct x end ]).

Lemma keeps_Apply event : keeps (reconciler_Apply event).
Proof. intros a w H. unfold reconciler_Apply. destruct (Apply (ta_cache a) event). by apply (trackers_ok_same a). Qed.
#[local] Hint Resolve keeps_Apply : keeps.
Lemma keeps_applyAndPublish event : keeps (applyAndPublish now event).
Proof.
  unfold applyAndPublish. keeps. apply keeps_change. intros a H. unfold publish_event.
  destruct (ee_Order event), (ee_Fill event); auto using publishOrder_ok, publishFill_ok.
Qed.
#[local] Hint Resolve keeps_applyAndPublish : keeps.
Lemma keeps_apply_report report : keeps (apply_report now report).
Proof. unfold apply_report. keeps. Qed.
#[local] Hint Resolve keeps_apply_report : keeps.
Lemma keeps_track report : keeps (track report).
Proof. intros a w H. exact (registerTracker_ok report (ta_bufferSize a) a H). Qed.
#[local] Hint Resolve keeps_track : keeps.
Lemma keeps_submit_track report : keeps (submit_track now report).
Proof. unfold submit_track. keeps. apply keeps_change. intros a. apply closeTracker_ok. Qed.
Lemma keeps_query_reports query : keeps (query_reports now query).
Proof. unfold query_reports. keeps. Qed.
#[local] Hint Resolve keeps_query_reports : keeps.
Lemma keeps_apply_event repair event : keeps (apply_event now repair event).
Proof. unfold apply_event. keeps. Qed.
#[local] Hint Resolve keeps_apply_event : keeps.
Lemma keeps_fills repair c i : keeps (reconcile_fills now repair c i).
Proof. unfold reconcile_fills. keeps. Qed.
Lemma keeps_MissingPositions i positions : keeps (MissingPositions now i positions).
Proof. intros a w H. unfold MissingPositions. destruct (MissingPositionReports _ _ _ _ _). by apply (trackers_ok_same a). Qed.
#[local] Hint Resolve keeps_fills keeps_MissingPositions : keeps.
Lemma keeps_positions repair c i : keeps (reconcile_positions now repair c i).
Proof. unfold reconcile_positions. keeps. Qed.
Lemma keeps_MissingOrders i reports : keeps (MissingOrders now i reports).
Proof.
  intros a w H. unfold MissingOrders. destruct (ReconcileMissingOpenOrdersWithPolicy _ _ _ _ _ _) as [[c missing] r].
  by apply (trackers_ok_same a).
Qed.
Lemma keeps_publish_all missing : keeps (change (fun a => foldl (fun a report => publishOrder report a) a missing)).
Proof.
  apply keeps_change. intros a. revert a. induction missing as [|r missing IH]; intros a H; [done|]. simpl. apply IH, publishOrder_ok, H.
Qed.
#[local] Hint Resolve keeps_positions keeps_MissingOrders keeps_publish_all : keeps.
Lemma keeps_instrument repair c i : keeps (reconcile_instrument now repair c i).
Proof. unfold reconcile_instrument. keeps. Qed.
#[local] Hint Resolve keeps_instrument : keeps.
Lemma keeps_instruments repair c l : forall fills positions, keeps (reconcile_instruments now repair c fills positions l).
Proof. induction l as [|i l IH]; intros; simpl; keeps. Qed.
#[local] Hint Resolve keeps_instruments : keeps.
Lemma keeps_reconcile repair : keeps (reconcileExecution now repair).
Proof. unfold reconcileExecution. keeps. Qed.
#[local] Hint Resolve keeps_reconcile : keeps.
Lemma keeps_recover closed : keeps (recoverExecutionStream now closed).
Proof. unfold recoverExecutionStream. keeps. Qed.
#[local] Hint Resolve keeps_recover : keeps.

(** ** Reachable accounts *)

(** What callers and the goroutines of the account do; between two operations the venue
    may change in any way. *)
Inductive op :=
  | OpSend (order : SubmitOrder) | OpTrack (report : OrderStatusReport)
  | OpCancel (cancel : CancelOrder) | OpModify (modify : ModifyOrder) | OpQuery (query : QueryOrder) | OpQueryAccount
  | OpForward (events : nat) (input : stream_input) | OpTick | OpStart | OpStop
  | OpClose (tracker : nat) | OpReceiveOrder (tracker : nat) | OpReceiveFill (tracker : nat).

Definition discard {A} (m : TA A) : TA unit := _ ← m; mret tt.
Definition run (o : op) : TA unit :=
  match o with
  | OpSend order => discard (submit_send order)
  | OpTrack report => discard (submit_track now report)
  | OpCancel cancel => discard (account_CancelOrder now cancel)
  | OpModify modify => discard (account_ModifyOrder now modify)
  | OpQuery query => discard (account_QueryOrder now query)
  | OpQueryAccount => discard (account_QueryAccount now)
  | OpForward events input => discard (forward_step now events input)
  | OpTick => reconcile_tick now
  | OpStart => discard (account_Start now)
  | OpStop => discard account_Stop
  | OpClose i => change (fun a => closeTracker a i)
  | OpReceiveOrder i => change (fun a => a <| ta_heap := alter (fun t => t <| tk_orders := receive (tk_orders t) |>) i (ta_heap a) |>)
  | OpReceiveFill i => change (fun a => a <| ta_heap := alter (fun t => t <| tk_fills := receive (tk_fills t) |>) i (ta_heap a) |>)
  end.

Inductive reachable : TradingAccount * W -> Prop :=
  | reach_new client cfg a w : NewTradingAccount client cfg = Ok a -> reachable (a, w)
  | reach_op s o : reachable s -> reachable (run o s).1
  | reach_venue a w w' : reachable (a, w) -> reachable (a, w').

Lemma keeps_run o : keeps (run o).
Proof.
  destruct o; simpl; unfold discard, submit_send, account_CancelOrder, account_ModifyOrder, account_QueryOrder, account_QueryAccount,
    forward_step, reconcile_tick, account_Start, account_Stop; keeps; try (by apply keeps_submit_track); apply keeps_change; intros a H.
  - by apply (trackers_ok_same a).
  - by apply closeTrackers_ok.
  - by apply closeTracker_ok.
  - apply alter_ok; [|by right|done]. intros t [H1 H2 H3 H4 H5]. destruct (receive_ok _ H1) as [R1 R2].
    split; fields; rewrite ?R2, ?ch_closed_receive; done.
  - apply alter_ok; [|by right|done]. intros t [H1 H2 H3 H4 H5]. destruct (receive_ok _ H2) as [R1 R2].
    split; fields; rewrite ?R2, ?ch_closed_receive; done.
Qed.

Lemma account_trackers_ok s : reachable s -> trackers_ok s.1.
Proof.
  induction 1 as [client cfg a w Hn|[a w] o _ IH|a w w' _ IH]; [|by apply keeps_run | done].
  unfold NewTradingAccount in Hn. destruct client; [|done]. destruct (check_all _ _); [|done]. injection Hn as <-.
  split; simpl; [constructor | set_solver].
Qed.

(** ** Properties *)


Lemma applyAndPublish_ok event a w s' :
  applyAndPublish now event (a, w) = (s', Ok tt) ->
  exists c, Apply (ta_cache a) event = (c, Ok tt) /\
    s' = (publish_event event
            (a <| ta_reconciler := ta_reconciler a <| rc_cache := c |> |>
               <| ta_health := count_event event (now w) (ta_health a) |>), w).
Proof.
  unfold applyAndPublish, attempt, reconciler_Apply, mbind, St_bind. simpl.
  destruct (Apply (ta_cache a) event) as [c [[]|e]] eqn:E; simpl; [|done]. intros [= <-]. by exists c.
Qed.

(** The trackers that match a report and have no room for it. *)
Definition crowded a (report : OrderStatusReport) : list nat :=
  filter (fun i => (fun t => ready (tk_orders t)) <$> ta_heap a !! i = Some false) (matchingTrackers a (matchesOrder report)).

(** An order report that is applied reaches exactly the registered trackers of its order:
    each has it as its latest report, and gets one copy on its channel, after all earlier
    ones, unless the channel is full; the drops are counted, and no other tracker changes. *)
Theorem report_published report a w a' w' :
  reachable (a, w) -> applyAndPublish now (order_event report) (a, w) = ((a', w'), Ok tt) ->
  (forall i t, ta_heap a !! i = Some t ->
     if bool_decide (i ∈ ta_trackers a) && matchesOrder report t
     then exists t', ta_heap a' !! i = Some t' /\ tk_latest t' = report /\ tk_closed t' = false /\ tk_fills t' = tk_fills t /\
            sent (tk_orders t') = sent (tk_orders t) ++ (if ready (tk_orders t) then [report] else [])
     else ta_heap a' !! i = Some t) /\
  ta_trackers a' = ta_trackers a /\
  drops a' = (drops a + Z.of_nat (length (crowded a report)))%Z /\
  th_OrderEvents (ta_health a') = (th_OrderEvents (ta_health a) + 1)%Z.
Proof.
  intros Hr Hp. destruct (account_trackers_ok _ Hr) as [H1 H2]. simpl in *. rewrite Forall_lookup in H1.
  destruct (applyAndPublish_ok _ _ _ _ Hp) as (c & _ & Hs'). unfold publish_event in Hs'. simpl in Hs'.
  set (a1 := a <| ta_reconciler := _ |> <| ta_health := _ |>) in Hs'.
  destruct (sends_spec (sendOrder report) (matchingTrackers a1 (matchesOrder report)) a1 (NoDup_matching _ _)) as (Hh & Ht & _ & _ & _ & _ & Hd).
  injection Hs' as -> ->. fold (publishOrder report a1) in Hh, Ht, Hd.
  assert (forall send l a2, th_OrderEvents (ta_health (foldl (send_to (W := W) send) a2 l)) = th_OrderEvents (ta_health a2)) as Hcount.
  { intros send l. induction l as [|i l IH]; intros a2; [done|]. simpl. rewrite IH. unfold send_to.
    destruct (ta_heap a2 !! i); [|done]. by destruct (send o) as [? [|]]. }
  split; [|split; [done|split; [|apply Hcount]]].
  - intros i t Hi. rewrite Hh. change (ta_heap a1) with (ta_heap a). rewrite Hi.
    assert (i ∈ matchingTrackers a1 (matchesOrder report) <-> i ∈ ta_trackers a /\ matchesOrder report t = true) as Hm.
    { rewrite elem_of_matching. change (ta_heap a1) with (ta_heap a). rewrite Hi. change (ta_trackers a1) with (ta_trackers a). naive_solver. }
    destruct (bool_decide (i ∈ ta_trackers a) && matchesOrder report t) eqn:E.
    + bools. rewrite decide_True by (apply Hm; done). simpl. destruct (H2 i) as (t' & Hi' & Hc); [done|]. simplify_eq.
      eexists. split; [done|]. rewrite sendOrder_closed. rewrite sendOrder_eq by done. destruct (adopt_same report t) as (_ & E2 & _). simpl.
      split; [unfold adopt; by repeat case_bool_decide|]. split; [done|]. split; [exact E2|].
      destruct (H1 _ _ Hi) as [K _ _ _ _]. destruct (ready (tk_orders t)); [by apply sent_push | by rewrite app_nil_r].
    + rewrite decide_False; [done|]. rewrite Hm. intros [Hin Hmt]. rewrite bool_decide_eq_true_2, Hmt in E; done.
  - rewrite Hd. change (drops a1) with (drops a). f_equal. unfold crowded.
    assert (matchingTrackers a1 (matchesOrder report) = matchingTrackers a (matchesOrder report)) as -> by done.
    assert (forall i, i ∈ matchingTrackers a (matchesOrder report) -> exists t, ta_heap a !! i = Some t /\ tk_closed t = false) as Hex.
    { intros i [Hin _]%elem_of_matching. by apply H2. }
    induction (matchingTrackers a (matchesOrder report)) as [|i l IH]; [done|]. simpl.
    destruct (Hex i ltac:(set_solver)) as (t & Hi & Hc). unfold refused at 1. change (ta_heap a1) with (ta_heap a). rewrite Hi.
    rewrite filter_cons, Hi. simpl. rewrite (sendOrder_eq report t Hc). simpl. rewrite IH by set_solver.
    destruct (ready (tk_orders t)); simpl; lia.
Qed.

(** A submission whose answer is older than what the event stream has already reported
    of the order, as when the fill or even the acceptance arrives first, returns an error and
    a closed tracker that no later event reaches, although the order is alive at the venue
    and stays in the cache. *)
Theorem submit_overtaken report existing a w :
  cache_Order (ta_cache a) (or_AccountID report) (or_OrderID report) = Some existing ->
  NextOrderStatus (or_Status existing) (or_Status report) = None \/
    LessThan (or_FilledQuantity report) (or_FilledQuantity existing) = true ->
  exists a' t e, submit_track now report (a, w) = ((a', w), Fail e) /\
    ta_cache a' = ta_cache a /\ length (ta_heap a) ∉ ta_trackers a' /\
    ta_heap a' !! length (ta_heap a) = Some t /\ tk_closed t = true /\ sent (tk_orders t) = [].
Proof.
  intros Hex Hold. assert (exists e, Apply (ta_cache a) (order_event report) = (ta_cache a, Fail e)) as [e He].
  { unfold Apply. destruct (ExecutionEvent_Validate (order_event report)); [|eauto]. simpl. unfold applyOrder. rewrite Hex.
    destruct (NextOrderStatus _ _) as [s|] eqn:En; [|eauto]. destruct Hold as [?|Hl]; [done|].
    change (or_FilledQuantity (report <| or_Status := s |>)) with (or_FilledQuantity report). rewrite Hl. eauto. }
  unfold submit_track, track, registerTracker, applyAndPublish, attempt, reconciler_Apply, change, mbind, St_bind. simpl.
  unfold ta_cache in *. fields. rewrite He. simpl. do 3 eexists. split; [reflexivity|]. unfold closeTracker. fields.
  split; [done|]. split; [set_solver|]. rewrite list_lookup_alter_eq, lookup_app_r, Nat.sub_diag by lia. done.
Qed.
End facts.
