(* ===== verification/Aggregation.v ===== *)
(** * Bar aggregation and the memory catalog (data/aggregation.go, data/catalog.go)

    [BarAggregator] folds trades, tickers and quotes into time bars; [MemoryCatalog] keeps
    market events in the order of their times and answers data requests from them. *)
From stdpp Require Import base strings list sorting.
From S2P Require Import Prelude Decimals Enums Identifiers Orders Market.

Open Scope go_scope.

Section data.
Context {DD : Decimal}.

(** ** data/aggregation.go *)

Record BarAggregator := mkBarAggregator { ba_barType : BarType; ba_current : option Bar }.
#[global] Instance set_ba_current : Setter ba_current := fun f a => mkBarAggregator (ba_barType a) (f (ba_current a)).

Definition NewBarAggregator (barType : BarType) : res BarAggregator :=
  let barType := BarType_Canonical barType in
  ensure BarType_Validate barType ;;
  Ok (mkBarAggregator barType None).

(** [t.Truncate(d)]: down to a multiple of [d] since the zero time. *)
Definition Truncate (t : time) (d : duration) : time := if Z.leb d 0 then t else (t - t mod d)%Z.

(** The price, the volume and the time an event contributes. *)
Definition aggregationInput (event : MarketEvent) : option (D * D * time) :=
  match ev_Trade event with
  | Some trade => Some (tt_Price trade, tt_Size trade, tt_Timestamp trade)
  | None =>
      match ev_Ticker event with
      | Some ticker =>
          if IsPositive (tk_Last ticker) then Some (tk_Last ticker, dzero, tk_Timestamp ticker)
          else (fun quote => (ddiv (dadd (qt_BidPrice quote) (qt_AskPrice quote)) (dint 2), dzero, qt_Timestamp quote)) <$> ev_Quote event
      | None => (fun quote => (ddiv (dadd (qt_BidPrice quote) (qt_AskPrice quote)) (dint 2), dzero, qt_Timestamp quote)) <$> ev_Quote event
      end
  end.

Definition first_bar (barType : BarType) (price volume : D) (ts : time) : Bar :=
  mkBar barType price price price price volume (Truncate ts (bt_Step barType)) ts false.

Definition extend_bar (bar : Bar) (price volume : D) : Bar :=
  mkBar (br_BarType bar) (br_Open bar)
    (if GreaterThan price (br_High bar) then price else br_High bar)
    (if LessThan price (br_Low bar) then price else br_Low bar)
    price (dadd (br_Volume bar) volume) (br_Timestamp bar) (br_InitTime bar) (br_IsRevision bar).

(** [Update]: the bar that was completed, with the outcome of its validation. *)
Definition Update (a : BarAggregator) (event : MarketEvent) : BarAggregator * option (Bar * res unit) :=
  match aggregationInput event with
  | None => (a, None)
  | Some (price, volume, ts) =>
      if MarketEvent_InstrumentID event ≠? bt_InstrumentID (ba_barType a) then (a, None)
      else
        let first := first_bar (ba_barType a) price volume ts in
        match ba_current a with
        | None => (a <| ba_current := Some first |>, None)
        | Some current =>
            if negb (time_Equal (br_Timestamp current) (br_Timestamp first))
            then (a <| ba_current := Some first |>, Some (current, Bar_Validate current))
            else (a <| ba_current := Some (extend_bar current price volume) |>, None)
        end
  end.

Definition Flush (a : BarAggregator) : BarAggregator * option (Bar * res unit) :=
  match ba_current a with
  | None => (a, None)
  | Some bar => (a <| ba_current := None |>, Some (bar, Bar_Validate bar))
  end.

(** ** data/catalog.go *)

Definition marketEventTime (event : MarketEvent) : time :=
  match ev_Ticker event, ev_OrderBook event, ev_Trade event, ev_Quote event, ev_Bar event, ev_FundingRate event, ev_Custom event with
  | Some t, _, _, _, _, _, _ => tk_Timestamp t
  | None, Some b, _, _, _, _, _ => ob_Timestamp b
  | None, None, Some t, _, _, _, _ => tt_Timestamp t
  | None, None, None, Some q, _, _, _ => qt_Timestamp q
  | None, None, None, None, Some b, _, _ => br_Timestamp b
  | None, None, None, None, None, Some f, _ => fd_Timestamp f
  | None, None, None, None, None, None, Some c => cd_Timestamp c
  | None, None, None, None, None, None, None => 0%Z
  end.

(** [sort.SliceStable] on the times: each event goes after those that are not later. *)
Fixpoint insert_event (event : MarketEvent) (l : list MarketEvent) : list MarketEvent :=
  match l with
  | [] => [event]
  | x :: l => if Before (marketEventTime event) (marketEventTime x) then event :: x :: l else x :: insert_event event l
  end.
Definition sort_events (l : list MarketEvent) : list MarketEvent := foldl (fun sorted event => insert_event event sorted) [] l.

Definition MemoryCatalog : Type := list MarketEvent.

Definition Write (c : MemoryCatalog) (events : list MarketEvent) : outcome MemoryCatalog unit :=
  match check_all MarketEvent_Validate events with
  | Fail e => (c, Fail e)
  | Ok _ => (sort_events (c ++ events), Ok tt)
  end.
Definition NewMemoryCatalog (events : list MarketEvent) : MemoryCatalog := (Write [] events).1.
Definition Events (c : MemoryCatalog) : list MarketEvent := c.

Definition marketEventMatchesRequestType (request : DataRequest) (event : MarketEvent) : bool :=
  match dr_Type request with
  | MarketDataTypeTicker => bool_decide (is_Some (ev_Ticker event))
  | MarketDataTypeOrderBook => bool_decide (is_Some (ev_OrderBook event))
  | MarketDataTypeTradeTick => bool_decide (is_Some (ev_Trade event))
  | MarketDataTypeQuoteTick => bool_decide (is_Some (ev_Quote event))
  | MarketDataTypeBar => bool_decide (is_Some (ev_Bar event))
  | MarketDataTypeFundingRate => bool_decide (is_Some (ev_FundingRate event))
  | MarketDataTypeCustom => bool_decide (is_Some (ev_Custom event))
  | MarketDataTypeNone | MarketDataTypeOther _ => false
  end.

Definition catalogEventMatches (request : DataRequest) (event : MarketEvent) : bool :=
  let ts := marketEventTime event in
  if MarketEvent_InstrumentID event ≠? dr_InstrumentID request then false
  else if negb (marketEventMatchesRequestType request event) then false
  else if negb (time_IsZero (dr_Start request)) && Before ts (dr_Start request) then false
  else if negb (time_IsZero (dr_End request)) && negb (Before ts (dr_End request)) then false
  else
    let custom :=
      if dr_Type request ≟ MarketDataTypeCustom then
        match ev_Custom event with Some custom => cd_Type custom ≟ dr_CustomType request | None => true end
      else true in
    if dr_Type request ≟ MarketDataTypeBar then
      match ev_Bar event with
      | Some bar => BarType_Canonical (br_BarType bar) ≟ BarType_Canonical (dr_BarType request)
      | None => custom
      end
    else custom.

#[global] Instance set_md_CorrelationID : Setter md_CorrelationID := fun f r =>
  mkCommandMetadata (md_TraderID r) (md_StrategyID r) (md_CommandID r) (f (md_CorrelationID r)) (md_ClientID r)
    (md_ComponentID r) (md_ExecAlgorithmID r) (md_ExecSpawnID r) (md_TsInit r) (md_Params r).

Definition responseMetadata (request : DataRequest) : CommandMetadata :=
  let metadata := CommandMetadata_Clone (dr_Metadata request) in
  if md_CorrelationID metadata ≟ "" then metadata <| md_CorrelationID := dr_RequestID request |> else metadata.

(** The loop of [Query]: a positive limit stops it. *)
Fixpoint select (request : DataRequest) (found : list MarketEvent) (events : list MarketEvent) : list MarketEvent :=
  match events with
  | [] => found
  | event :: events =>
      if catalogEventMatches request event then
        let found := found ++ [event] in
        if Z.ltb 0 (dr_Limit request) && Z.leb (dr_Limit request) (Z.of_nat (length found)) then found
        else select request found events
      else select request found events
  end.

Definition Query (c : MemoryCatalog) (request : DataRequest) : res DataResponse :=
  ensure DataRequest_Validate request ;;
  let events := select request [] c in
  fail_if Nat.eqb (length events) 0 with mkErr ErrInvalidMarketData "no catalog data for request" ;;
  let response := mkDataResponse (responseMetadata request) (dr_RequestID request) (dr_InstrumentID request) (dr_Type request)
                    (BarType_Canonical (dr_BarType request)) events true in
  ensure DataResponse_Validate response ;;
  Ok response.
End data.
