(* ===== verification/AggregationFacts.v ===== *)
(** * Properties of bar aggregation and of the memory catalog *)
From stdpp Require Import base strings sets list sorting.
From Stdlib Require Import QArith Qabs Qminmax Lqa.
From S2P Require Import Prelude Decimals Enums Identifiers Orders Market Aggregation.

Open Scope go_scope.

Section bars.
Context {DD : Decimal}.
Implicit Types (a : BarAggregator) (bar : Bar).

(** ** Inputs and groups of inputs *)

Definition input : Type := D * D * time.
Definition in_price (i : input) : D := i.1.1.
Definition in_volume (i : input) : D := i.1.2.
Definition in_time (i : input) : time := i.2.

(** What a list of events contributes to the bars of a type. *)
Definition input_of (barType : BarType) (event : MarketEvent) : option input :=
  if MarketEvent_InstrumentID event ≟ bt_InstrumentID barType then aggregationInput event else None.
Definition bucket (barType : BarType) (i : input) : time := Truncate (in_time i) (bt_Step barType).

(** The maximal runs of consecutive inputs in one bucket. *)
Definition group : Type := input * list input.
Definition join (barType : BarType) (g : group) (gs : list group) : list group :=
  match gs with
  | (y, ys) :: gs' => if Z.eqb (bucket barType g.1) (bucket barType y) then (g.1, g.2 ++ y :: ys) :: gs' else g :: gs
  | [] => [g]
  end.
Fixpoint groups (barType : BarType) (l : list input) : list group :=
  match l with [] => [] | x :: l => join barType (x, []) (groups barType l) end.

Definition group_list (g : group) : list input := g.1 :: g.2.

(** The bars that come out of a list of events, the current one flushed at the end. *)
Fixpoint updates a (events : list MarketEvent) : BarAggregator * list (Bar * res unit) :=
  match events with
  | [] => (a, [])
  | event :: events =>
      let '(a, out) := Update a event in
      let '(a, rest) := updates a events in
      (a, option_list out ++ rest)
  end.
Definition aggregated a (events : list MarketEvent) : list (Bar * res unit) :=
  let '(a, out) := updates a events in out ++ option_list (Flush a).2.

Definition group_bar (barType : BarType) (g : group) : Bar :=
  foldl (fun bar i => extend_bar bar (in_price i) (in_volume i))
    (first_bar barType (in_price g.1) (in_volume g.1) (in_time g.1)) g.2.

Lemma group_bar_time barType g : br_Timestamp (group_bar barType g) = bucket barType g.1.
Proof.
  unfold group_bar. destruct g as [x xs]. simpl. induction xs as [|y xs IH] using rev_ind; [done|]. rewrite foldl_app. simpl. by rewrite IH.
Qed.

Definition checked bar : Bar * res unit := (bar, Bar_Validate bar).

(** [Update] in terms of the contribution of the event. *)
Definition take_input a (i : input) : BarAggregator * option (Bar * res unit) :=
  let first := first_bar (ba_barType a) (in_price i) (in_volume i) (in_time i) in
  match ba_current a with
  | None => (a <| ba_current := Some first |>, None)
  | Some current =>
      if Z.eqb (br_Timestamp current) (bucket (ba_barType a) i)
      then (a <| ba_current := Some (extend_bar current (in_price i) (in_volume i)) |>, None)
      else (a <| ba_current := Some first |>, Some (checked current))
  end.
Lemma Update_input a event :
  Update a event = match input_of (ba_barType a) event with Some i => take_input a i | None => (a, None) end.
Proof.
  unfold Update, input_of, take_input. destruct (aggregationInput event) as [[[p v] ts]|]; [|by case_bool_decide].
  case_bool_decide; simpl; [|done]. destruct (ba_current a) as [bar|]; [|done]. unfold time_Equal, bucket. simpl.
  by destruct (Z.eqb _ _).
Qed.

(** A run of inputs absorbed one by one. *)
Lemma join_snoc barType g x gs :
  bucket barType g.1 = bucket barType x -> join barType (g.1, g.2 ++ [x]) gs = join barType g (join barType (x, []) gs).
Proof.
  intros Hb. unfold join at 3. destruct gs as [|[y ys] gs]; simpl.
  - by rewrite Hb, Z.eqb_refl.
  - rewrite Hb. destruct (Z.eqb_spec (bucket barType x) (bucket barType y)) as [E|E]; simpl.
    + rewrite Hb, Z.eqb_refl. by rewrite <- app_assoc.
    + by rewrite Hb, Z.eqb_refl.
Qed.
Lemma join_other barType g x gs :
  bucket barType g.1 <> bucket barType x -> join barType g (join barType (x, []) gs) = g :: join barType (x, []) gs.
Proof.
  intros Hb. unfold join at 2. destruct gs as [|[y ys] gs]; simpl; [by rewrite (proj2 (Z.eqb_neq _ _))|].
  destruct (Z.eqb _ _); simpl; by rewrite (proj2 (Z.eqb_neq _ _)).
Qed.

Lemma updates_groups events : forall a,
  match ba_current a with
  | None => aggregated a events = checked ∘ group_bar (ba_barType a) <$> groups (ba_barType a) (omap (input_of (ba_barType a)) events)
  | Some bar => forall g, bar = group_bar (ba_barType a) g ->
      aggregated a events = checked ∘ group_bar (ba_barType a) <$> join (ba_barType a) g (groups (ba_barType a) (omap (input_of (ba_barType a)) events))
  end.
Proof.
  induction events as [|event events IH]; intros a.
  - unfold aggregated. simpl. unfold Flush. destruct (ba_current a); [|done]. by intros g ->.
  - assert (aggregated a (event :: events) = option_list (Update a event).2 ++ aggregated (Update a event).1 events) as ->.
    { unfold aggregated. simpl. destruct (Update a event) as [a1 out]. simpl. destruct (updates a1 events). by rewrite app_assoc. }
    rewrite Update_input.
    assert (omap (input_of (ba_barType a)) (event :: events) = option_list (input_of (ba_barType a) event) ++ omap (input_of (ba_barType a)) events) as ->.
    { simpl. by destruct (input_of _ _). }
    destruct (input_of (ba_barType a) event) as [i|]; [|apply IH]. unfold take_input.
    destruct (ba_current a) as [bar|] eqn:Ec.
    + intros g ->. rewrite group_bar_time. simpl. destruct (Z.eqb_spec (bucket (ba_barType a) g.1) (bucket (ba_barType a) i)) as [E|E]; simpl.
      * specialize (IH (a <| ba_current := Some (extend_bar (group_bar (ba_barType a) g) (in_price i) (in_volume i)) |>)). simpl in IH.
        rewrite (IH (g.1, g.2 ++ [i])); [by rewrite join_snoc|]. unfold group_bar. simpl. by rewrite foldl_app.
      * specialize (IH (a <| ba_current := Some (first_bar (ba_barType a) (in_price i) (in_volume i) (in_time i)) |>)). simpl in IH.
        rewrite (IH (i, [])) by done. by rewrite join_other.
    + simpl. specialize (IH (a <| ba_current := Some (first_bar (ba_barType a) (in_price i) (in_volume i) (in_time i)) |>)). simpl in IH.
      by rewrite (IH (i, [])).
Qed.

(** ** The groups *)

Lemma join_lists barType g gs : mjoin (group_list <$> join barType g gs) = group_list g ++ mjoin (group_list <$> gs).
Proof.
  destruct gs as [|[y ys] gs]; simpl; [done|]. destruct (Z.eqb _ _); simpl; [by rewrite <- app_assoc | done].
Qed.
Lemma groups_concat barType l : mjoin (group_list <$> groups barType l) = l.
Proof. induction l as [|x l IH]; [done|]. simpl. rewrite join_lists, IH. done. Qed.

(** Every input of a group is in the bucket of its first, and neighbours differ. *)
Definition one_bucket barType (g : group) : Prop := Forall (fun i => bucket barType i = bucket barType g.1) g.2.
Definition neighbours_differ barType (gs : list group) : Prop :=
  forall k g h, gs !! k = Some g -> gs !! S k = Some h -> bucket barType g.1 <> bucket barType h.1.
Lemma join_buckets barType g gs :
  one_bucket barType g -> Forall (one_bucket barType) gs -> neighbours_differ barType gs ->
  Forall (one_bucket barType) (join barType g gs) /\ neighbours_differ barType (join barType g gs).
Proof.
  intros Hg Hgs Hn. destruct gs as [|[y ys] gs]; simpl; [split; [by repeat constructor | by intros [|k] ?]|].
  apply Forall_cons in Hgs as [Hy Hgs]. destruct (Z.eqb_spec (bucket barType g.1) (bucket barType y)) as [E|E]; split.
  - constructor; [|done]. unfold one_bucket in *. simpl in *. apply Forall_app_2; [done|]. constructor; [done|].
    eapply Forall_impl; [done|]. intros i. simpl. congruence.
  - intros [|k] g' h Hk Hk'; simpl in *; [|by apply (Hn (S k))]. injection Hk as <-. simpl. rewrite E. by apply (Hn 0%nat (y, ys)).
  - by constructor; [|constructor].
  - intros [|k] g' h Hk Hk'; simpl in *; [by simplify_eq|]. by apply (Hn k).
Qed.
Lemma groups_buckets barType l : Forall (one_bucket barType) (groups barType l) /\ neighbours_differ barType (groups barType l).
Proof. induction l as [|x l [IH1 IH2]]; simpl; [split; [constructor | by intros [|k] ?]|]. apply join_buckets; [constructor | done | done]. Qed.

(** ** What a bar says of its group *)
Context {DL : DecimalLaws DD}.
Open Scope Q_scope.

Definition volume (l : list input) : Q := foldr (fun i v => dval (in_volume i) + v) 0 l.

(** [bar] is the bar of the inputs [l], which are not none. *)
Definition summarises barType (l : list input) bar : Prop :=
  br_BarType bar = barType /\
  (exists x, head l = Some x /\ br_Open bar = in_price x /\ br_Timestamp bar = bucket barType x /\ br_InitTime bar = in_time x) /\
  (exists x, last l = Some x /\ br_Close bar = in_price x) /\
  (exists x, x ∈ l /\ br_High bar = in_price x) /\ (forall i, i ∈ l -> dval (in_price i) <= dval (br_High bar)) /\
  (exists x, x ∈ l /\ br_Low bar = in_price x) /\ (forall i, i ∈ l -> dval (br_Low bar) <= dval (in_price i)) /\
  dval (br_Volume bar) == volume l.

Lemma volume_snoc l x : volume (l ++ [x]) == volume l + dval (in_volume x).
Proof. unfold volume. induction l as [|y l IH]; simpl; [lra|]. rewrite IH. lra. Qed.

Lemma group_bar_summary barType g : summarises barType (group_list g) (group_bar barType g).
Proof.
  destruct g as [x xs]. unfold group_list. simpl. induction xs as [|y xs IH] using rev_ind.
  - unfold summarises, group_bar. simpl. split; [done|]. split; [eauto|]. split; [eauto|].
    assert (forall i, i ∈ [x] -> dval (in_price i) == dval (in_price x)) as Hs by (intros i ->%list_elem_of_singleton; reflexivity).
    split; [exists x; split; [set_solver | done]|]. split; [intros i Hi; specialize (Hs i Hi); lra|].
    split; [exists x; split; [set_solver | done]|]. split; [intros i Hi; specialize (Hs i Hi); lra|]. lra.
  - destruct IH as (H1 & H2 & H3 & (h & Hh & E4) & H5 & (w & Hw & E6) & H7 & H8).
    unfold group_bar in *. simpl in *. rewrite foldl_app. simpl. set (bar := foldl _ _ xs) in *. clearbody bar.
    rewrite app_comm_cons. set (l := x :: xs) in *.
    assert (head (l ++ [y]) = Some x) as Hhd by done. change (dval (br_Volume bar) == volume l) in H8. clearbody l.
    assert (forall i, i ∈ l ++ [y] <-> i ∈ l \/ i = y) as Hin by (intros i; rewrite elem_of_app, list_elem_of_singleton; done).
    unfold summarises, extend_bar. simpl. rewrite Hhd. split; [done|]. split; [exact H2|]. split; [exists y; split; [exact (last_snoc y l) | done]|].
    split; [|split; [|split; [|split]]].
    + destruct (GreaterThan _ _); [exists y | exists h]; rewrite Hin; auto.
    + intros i [Hi| ->]%Hin; destruct (GreaterThan _ _) eqn:E; dec_hyps; try lra; specialize (H5 _ Hi); lra.
    + destruct (LessThan _ _); [exists y | exists w]; rewrite Hin; auto.
    + intros i [Hi| ->]%Hin; destruct (LessThan _ _) eqn:E; dec_hyps; try lra; specialize (H7 _ Hi); lra.
    + rewrite dval_add, volume_snoc, H8. reflexivity.
Qed.

(** ** Properties of the aggregator *)

(** C38: the bars that come out of a new aggregator, with the last one flushed, are the bars of
    the maximal runs of events in one time bucket, in order: the events of the instrument
    that carry a price are partitioned among them, none lost and none counted twice, and
    each bar has the first and the last price of its run, their extremes and their volume. *)
Theorem aggregation_spec barType a events :
  NewBarAggregator barType = Ok a ->
  let barType := BarType_Canonical barType in
  exists gs : list (list input),
    mjoin gs = omap (input_of barType) events /\
    Forall2 (summarises barType) gs (aggregated a events).*1 /\
    Forall (fun g => forall i j, i ∈ g -> j ∈ g -> bucket barType i = bucket barType j) gs /\
    (forall k g h i j, gs !! k = Some g -> gs !! S k = Some h -> i ∈ g -> j ∈ h -> bucket barType i <> bucket barType j).
Proof.
  intros Ha bt. unfold NewBarAggregator in Ha. destruct (BarType_Validate _); [|done]. injection Ha as <-. fold bt.
  pose proof (updates_groups events (mkBarAggregator bt None)) as Hu. simpl in Hu. rewrite Hu. clear Hu.
  set (l := omap (input_of bt) events). exists (group_list <$> groups bt l).
  destruct (groups_buckets bt l) as [H1 H2].
  assert (forall g i, one_bucket bt g -> i ∈ group_list g -> bucket bt i = bucket bt g.1) as Hb.
  { intros g i Hg [-> | Hi]%elem_of_cons; [done|]. unfold one_bucket in Hg. rewrite Forall_forall in Hg. by apply Hg. }
  split; [apply groups_concat|]. split; [|split].
  - rewrite <- list_fmap_compose. apply Forall2_fmap_2. apply Forall_Forall2_diag, Forall_true. intros g. apply group_bar_summary.
  - apply Forall_fmap. eapply Forall_impl; [exact H1|]. intros g Hg i j Hi Hj. simpl in *. by rewrite (Hb g i), (Hb g j).
  - intros k g h i j Hk Hk' Hi Hj. rewrite list_lookup_fmap in Hk, Hk'. rewrite Forall_lookup in H1.
    destruct (groups bt l !! k) as [g'|] eqn:Eg; [|done]. destruct (groups bt l !! S k) as [h'|] eqn:Eh; [|done].
    simplify_eq/=. rewrite (Hb g' i), (Hb h' j) by eauto. by eapply H2.
Qed.

Lemma Truncate_mono t u d : (t <= u)%Z -> (Truncate t d <= Truncate u d)%Z.
Proof.
  unfold Truncate. destruct (Z.leb_spec d 0); [done|]. intros H'.
  pose proof (Z.div_mod t d). pose proof (Z.div_mod u d). pose proof (Z.div_le_mono t u d ltac:(lia) H'). nia.
Qed.

Lemma groups_head barType x l : exists ys gs, groups barType (x :: l) = (x, ys) :: gs.
Proof.
  simpl. destruct (groups barType l) as [|[y ys] gs]; simpl; [eauto|]. destruct (Z.eqb _ _); eauto.
Qed.
Lemma buckets_sorted barType l :
  Sorted Z.le (in_time <$> l) -> Sorted Z.lt ((fun g : group => bucket barType g.1) <$> groups barType l).
Proof.
  induction l as [|x l IH]; intros Hs; [constructor|]. apply Sorted_inv in Hs as [Hs Hh]. specialize (IH Hs).
  destruct l as [|y l]; [simpl; repeat constructor|].
  destruct (groups_head barType y l) as (ys & gs & Eg).
  change (groups barType (x :: y :: l)) with (join barType (x, []) (groups barType (y :: l))). rewrite Eg in *. simpl.
  apply HdRel_inv in Hh.
  assert (bucket barType x <= bucket barType y)%Z by (apply Truncate_mono; exact Hh).
  destruct (Z.eqb_spec (bucket barType x) (bucket barType y)) as [E|E]; simpl in *.
  - by rewrite E.
  - constructor; [done|]. constructor. lia.
Qed.

(** No bar is lost to an error: as long as the prices are positive and the volumes are not
    negative, every bar passes validation; and when the events come in the order of their
    times, the bars have strictly increasing timestamps, so that each time bucket has at
    most one bar. *)
Theorem aggregation_sound barType a events :
  NewBarAggregator barType = Ok a ->
  let inputs := omap (input_of (BarType_Canonical barType)) events in
  Forall (fun i => 0 < dval (in_price i) /\ 0 <= dval (in_volume i)) inputs ->
  Forall (fun '(bar, checked) => checked = Ok tt) (aggregated a events) /\
  (Sorted Z.le (in_time <$> inputs) -> Sorted Z.lt (br_Timestamp <$> (aggregated a events).*1)).
Proof.
  intros Ha inputs Hp. unfold inputs in *. unfold NewBarAggregator in Ha.
  destruct (BarType_Validate (BarType_Canonical barType)) as [[]|] eqn:Hv; [|done]. injection Ha as <-.
  set (bt := BarType_Canonical barType) in *.
  pose proof (updates_groups events (mkBarAggregator bt None)) as Hu. simpl in Hu. rewrite Hu. clear Hu.
  set (l := omap (input_of bt) events) in *. split.
  - apply Forall_fmap, Forall_forall. intros g Hg. unfold compose, checked.
    assert (forall i, i ∈ group_list g -> 0 < dval (in_price i) /\ 0 <= dval (in_volume i)) as Hgp.
    { intros i Hi. rewrite Forall_forall in Hp. apply Hp. rewrite <- (groups_concat bt l). apply list_elem_of_join.
      exists (group_list g). split; [done|]. by apply list_elem_of_fmap_2. }
    destruct (group_bar_summary bt g) as (E1 & (x & Hx & E2 & _) & (y & Hy & E3) & (h & Hh & E4) & H5 & (w & Hw & E6) & H7 & H8).
    apply head_Some_elem_of in Hx. apply last_Some_elem_of in Hy.
    pose proof (Hgp _ Hx) as [? _]. pose proof (Hgp _ Hy) as [? _]. pose proof (Hgp _ Hh) as [? _]. pose proof (Hgp _ Hw) as [? _].
    pose proof (H5 _ Hx). pose proof (H5 _ Hy). pose proof (H5 _ Hw). pose proof (H7 _ Hx). pose proof (H7 _ Hy).
    assert (0 <= volume (group_list g)) as Hvol.
    { clear -Hgp. induction (group_list g) as [|i k IH]; simpl; [lra|]. destruct (Hgp i) as [_ ?]; [set_solver|].
      specialize (IH ltac:(set_solver)). unfold volume in *. lra. }
    unfold Bar_Validate. rewrite E1. assert (BarType_Canonical bt = bt) as -> by (unfold bt, BarType_Canonical; simpl; repeat case_bool_decide; done).
    rewrite Hv, E2, E3. rewrite <- E6 in *. rewrite <- E4 in *.
    rewrite (proj2 (IsPositive_spec _)) by done. rewrite (proj2 (IsPositive_spec (br_High _))) by done.
    rewrite (proj2 (IsPositive_spec (br_Low _))) by done. rewrite (proj2 (IsPositive_spec (in_price y))) by done. simpl.
    rewrite (proj2 (IsNegative_false _)) by lra. rewrite !(proj2 (LessThan_false _ _)) by lra.
    by rewrite !(proj2 (GreaterThan_false _ _)) by lra.
  - intros Hs. apply (buckets_sorted bt) in Hs. rewrite <- !list_fmap_compose.
    erewrite list_fmap_ext; [exact Hs|]. intros k g _. unfold compose, checked. simpl. apply group_bar_time.
Qed.
End bars.

#[local] Arguments Z.ltb : simpl never.
#[local] Arguments Z.leb : simpl never.

Section catalog.
Context {DD : Decimal}.
Implicit Types (event : MarketEvent) (c : MemoryCatalog) (request : DataRequest).

(** ** Events in the order of their times *)

Definition event_le : relation MarketEvent := fun x y => (marketEventTime x <= marketEventTime y)%Z.

Lemma insert_event_perm event l : insert_event event l ≡ₚ event :: l.
Proof.
  induction l as [|x l IH]; simpl; [done|]. destruct (Before _ _); [done|]. rewrite IH. apply Permutation_swap.
Qed.
Lemma insert_event_sorted event l : Sorted event_le l -> Sorted event_le (insert_event event l).
Proof.
  induction l as [|x l IH]; intros Hs; simpl; [repeat constructor|]. destruct (Before _ _) eqn:E; bools.
  - constructor; [done|]. constructor. unfold event_le. lia.
  - apply Sorted_inv in Hs as [Hs Hh]. constructor; [auto|].
    destruct l as [|y l]; simpl; [by constructor|]. apply HdRel_inv in Hh. destruct (Before _ _); constructor; [done | done].
Qed.
(** Events of one time stay in the order they came in. *)
Definition at_time (t : time) (l : list MarketEvent) : list MarketEvent := filter (fun event => marketEventTime event = t) l.
Lemma insert_event_stable event l t : Sorted event_le l -> at_time t (insert_event event l) = at_time t (l ++ [event]).
Proof.
  unfold at_time. induction l as [|x l IH]; intros Hs; simpl; [done|]. destruct (Before _ _) eqn:E; bools.
  - rewrite app_comm_cons, filter_app, !filter_cons, filter_nil. destruct (decide (marketEventTime event = t)) as [<-|]; [|by rewrite app_nil_r].
    rewrite decide_False by lia. assert (filter (fun y => marketEventTime y = marketEventTime event) l = []) as ->; [|done].
    apply Sorted_StronglySorted in Hs; [|intros ? ? ?; unfold event_le; lia]. apply StronglySorted_inv in Hs as [_ Hs].
    clear IH. induction Hs as [|y l Hy _ IHl]; [done|]. rewrite filter_cons, decide_False, IHl; [done|]. unfold event_le in Hy. lia.
  - apply Sorted_inv in Hs as [Hs _]. rewrite !filter_cons, IH by done. done.
Qed.

Lemma sort_events_spec l :
  Sorted event_le (sort_events l) /\ sort_events l ≡ₚ l /\ forall t, at_time t (sort_events l) = at_time t l.
Proof.
  unfold sort_events. induction l as [|x l (IH1 & IH2 & IH3)] using rev_ind; [repeat constructor|]. rewrite foldl_app. simpl. split; [|split].
  - by apply insert_event_sorted.
  - rewrite insert_event_perm, IH2. apply Permutation_cons_append.
  - intros t. rewrite insert_event_stable by done. unfold at_time in *. by rewrite !filter_app, IH3.
Qed.

(** ** Queries *)

Lemma select_filter request l : forall found,
  select request found l =
  found ++ (if Z.ltb 0 (dr_Limit request) && negb (Z.leb (dr_Limit request) (Z.of_nat (length found)))
            then take (Z.to_nat (dr_Limit request) - length found) (filter (fun event => catalogEventMatches request event = true) l)
            else if Z.ltb 0 (dr_Limit request) then take 1 (filter (fun event => catalogEventMatches request event = true) l)
            else filter (fun event => catalogEventMatches request event = true) l).
Proof.
  induction l as [|x l IH]; intros found; simpl.
  - rewrite filter_nil. repeat case_match; rewrite ?take_nil, app_nil_r; done.
  - rewrite filter_cons. destruct (catalogEventMatches request x) eqn:E; [|rewrite decide_False by congruence; apply IH].
    rewrite decide_True by done. destruct (Z.ltb_spec 0 (dr_Limit request)) as [Hl|Hl]; simpl; [|by rewrite IH, <- app_assoc].
    rewrite length_app. simpl. destruct (Z.leb_spec (dr_Limit request) (Z.of_nat (length found + 1))) as [H1|H1].
    + destruct (Z.leb_spec (dr_Limit request) (Z.of_nat (length found))) as [H2|H2]; simpl; [by rewrite take_0|].
      replace (Z.to_nat (dr_Limit request) - length found)%nat with 1%nat by lia. simpl. by rewrite take_0.
    + rewrite (proj2 (Z.leb_gt _ _)) by lia. simpl. rewrite IH, length_app. simpl.
      rewrite (proj2 (Z.leb_gt _ _)) by lia. simpl. rewrite <- app_assoc. f_equal.
      replace (Z.to_nat (dr_Limit request) - length found)%nat with (S (Z.to_nat (dr_Limit request) - (length found + 1)))%nat by lia. done.
Qed.

Definition limited (limit : Z) (l : list MarketEvent) : list MarketEvent := if Z.ltb 0 limit then take (Z.to_nat limit) l else l.
Lemma select_spec request l :
  select request [] l = limited (dr_Limit request) (filter (fun event => catalogEventMatches request event = true) l).
Proof.
  rewrite select_filter. unfold limited. simpl. destruct (Z.ltb_spec 0 (dr_Limit request)); simpl; [|done].
  rewrite (proj2 (Z.leb_gt _ _)) by lia. simpl. by rewrite Nat.sub_0_r.
Qed.

(** The catalogs that writes lead to. *)
Inductive written : list (list MarketEvent) -> MemoryCatalog -> Prop :=
  | written_new : written [] []
  | written_more batches c events c' r : written batches c -> Write c events = (c', r) ->
      written (batches ++ (if is_ok r then [events] else [])) c'.

Lemma written_spec batches c : written batches c ->
  Sorted event_le c /\ Forall (fun event => MarketEvent_Validate event = Ok tt) c /\
  c ≡ₚ mjoin batches /\ forall t, at_time t c = at_time t (mjoin batches).
Proof.
  induction 1 as [|batches c events c' r _ (I1 & I2 & I3 & I4) Hw]; [repeat constructor|]. unfold Write in Hw.
  destruct (check_all _ _) as [[]|e] eqn:E; injection Hw as <- <-; simpl; [|by rewrite app_nil_r].
  apply check_all_ok in E. destruct (sort_events_spec (c ++ events)) as (S1 & S2 & S3). split; [done|]. split; [|split].
  - rewrite S2. by apply Forall_app_2.
  - rewrite S2, I3. rewrite join_app. simpl. by rewrite app_nil_r.
  - intros t. rewrite S3, join_app. simpl. rewrite app_nil_r. unfold at_time in *. by rewrite !filter_app, I4.
Qed.

Lemma matches_valid request event :
  MarketEvent_Validate event = Ok tt -> catalogEventMatches request event = true ->
  MarketEvent_InstrumentID event = dr_InstrumentID request /\ marketEventMatchesType event (dr_Type request) = true.
Proof.
  intros _. unfold catalogEventMatches. case_bool_decide as Hi; simpl; [|done].
  destruct (marketEventMatchesRequestType request event) eqn:E; simpl; [|done]. intros _. split; [done|].
  revert E. unfold marketEventMatchesRequestType, marketEventMatchesType. by destruct (dr_Type request).
Qed.

Lemma response_valid request events :
  DataRequest_Validate request = Ok tt ->
  Forall (fun event => MarketEvent_Validate event = Ok tt /\ catalogEventMatches request event = true) events ->
  DataResponse_Validate (mkDataResponse (responseMetadata request) (dr_RequestID request) (dr_InstrumentID request) (dr_Type request)
    (BarType_Canonical (dr_BarType request)) events true) = Ok tt.
Proof.
  intros Hr He. unfold DataResponse_Validate. cbn [ds_RequestID ds_InstrumentID ds_Type ds_BarType ds_Events].
  match goal with |- context [check_all ?f events] => assert (check_all f events = Ok tt) as -> end.
  { apply check_all_ok. eapply Forall_impl; [exact He|]. intros event [Hv Hm]. simpl.
    destruct (matches_valid _ _ Hv Hm) as [-> ->]. by rewrite Hv, bool_decide_eq_true_2. }
  assert (BarType_Canonical (BarType_Canonical (dr_BarType request)) = BarType_Canonical (dr_BarType request)) as ->.
  { unfold BarType_Canonical. simpl. repeat case_bool_decide; done. }
  unfold DataRequest_Validate in Hr. peel Hr; try done. destruct (dr_Type request); try done.
  peel Hr. done.
Qed.

(** A catalog holds, in the order of their times and otherwise in the order they were
    written, exactly the events of the writes that succeeded; a valid request is answered
    with the events that match it, the first ones when it has a limit, and fails exactly
    when nothing matches. *)
Theorem Query_spec batches c request :
  written batches c -> DataRequest_Validate request = Ok tt ->
  let matching := filter (fun event => catalogEventMatches request event = true) c in
  (Sorted event_le c /\ c ≡ₚ mjoin batches /\ forall t, at_time t c = at_time t (mjoin batches)) /\
  match Query c request with
  | Ok response => ds_Events response = limited (dr_Limit request) matching /\ matching <> [] /\ ds_RequestID response = dr_RequestID request
  | Fail e => matching = [] /\ err_kind e = ErrInvalidMarketData
  end.
Proof.
  intros Hw Hr matching. destruct (written_spec _ _ Hw) as (S1 & S2 & S3 & S4). split; [done|].
  unfold Query. rewrite Hr, select_spec. cbv zeta.
  match goal with |- context [limited _ ?m] => change m with matching end.
  assert (limited (dr_Limit request) matching = [] <-> matching = []) as Hl.
  { unfold limited. destruct (Z.ltb_spec 0 (dr_Limit request)); [|done]. destruct matching; [by rewrite take_nil|].
    replace (Z.to_nat (dr_Limit request)) with (S (pred (Z.to_nat (dr_Limit request)))) by lia. done. }
  destruct (Nat.eqb_spec (length (limited (dr_Limit request) matching)) 0) as [E|E].
  - simpl. split; [|done]. apply Hl. by apply nil_length_inv.
  - rewrite response_valid; [|done|].
    + simpl. split; [done|]. split; [|done]. intros Hm. apply E. by rewrite (proj2 Hl Hm).
    + assert (Forall (fun event => MarketEvent_Validate event = Ok tt /\ catalogEventMatches request event = true) matching) as Hall.
      { apply Forall_forall. intros event [Hm Hin]%list_elem_of_filter. rewrite Forall_forall in S2. auto. }
      unfold limited. destruct (Z.ltb _ _); [apply Forall_take; exact Hall | exact Hall].
Qed.
End catalog.
