(* ===== verification/DataEngine.v ===== *)
(** * The data engine (data/engine.go)

    [DataEngine] connects the data clients of the venues, keeps their subscriptions, stores
    what they stream in the cache, publishes it, and aggregates it into bars.  The clients
    are code outside: records of operations on the state [W] of the venues, in which [now]
    reads the clock and [ctx_done] tells that the context of a call is done.  The engine
    publishes on a bus whose subscribers read in time; a map that the code ranges over is
    visited in the order an argument gives. *)
From stdpp Require Import base strings gmap list.
From S2P Require Import Prelude Decimals Enums Identifiers Orders Market Accounts Cache Channels Aggregation ExecEngine.

Open Scope go_scope.

Section engine.
Context {DD : Decimal} {W : Type} (now : W -> time) (ctx_done : W -> bool).

(** ** Clients *)

Record DataHealth := mkDataHealth {
  dh_Connected : bool;
  dh_InstrumentReady : bool;
  dh_LastEventTime : time;
  dh_LastError : option error;
}.

Record StreamingDataClient := mkStreamingDataClient {
  sc_SubscribeMarketData : W -> SubscribeMarketData -> W * res unit;
  sc_UnsubscribeMarketData : W -> SubscribeMarketData -> W * res unit;
  sc_Events : W -> nat;
  sc_Connect : W -> W * res unit;
}.

(** The instruments of a client are its [LoadAll] followed by its [List]. *)
Record DataClient := mkDataClient {
  dc_Venue : Venue;
  dc_ClientID : string;
  dc_Instruments : option (W -> W * res (list Instrument));
  dc_Connect : W -> W * res unit;
  dc_Disconnect : W -> W * res unit;
  dc_Health : W -> DataHealth;
  dc_FetchTicker : W -> InstrumentID -> W * res Ticker;
  dc_FetchOrderBook : W -> InstrumentID -> Z -> W * res OrderBook;
  dc_FundingRateProvider : option (W -> InstrumentID -> W * res FundingRate);
  dc_Streaming : option StreamingDataClient;
}.

Record RetryPolicy := mkRetryPolicy { ry_MaxAttempts : Z; ry_Backoff : duration }.
Definition attempts (p : RetryPolicy) : nat := if Z.leb (ry_MaxAttempts p) 0 then 1 else Z.to_nat (ry_MaxAttempts p).

(** [SubscribeMarketData.Key]: the type with the canonical bar type or the instrument; the text
    of [Key] is that of the pair. *)
Definition subscriptionKey : Type := string * (BarType + InstrumentID).
Definition Key (sub : SubscribeMarketData) : subscriptionKey :=
  (MarketDataType_string (sm_Type sub), if sm_Type sub ≟ MarketDataTypeBar then inl (BarType_Canonical (sm_BarType sub)) else inr (sm_InstrumentID sub)).

(** [data.Engine]; [de_bus] is what was published on the topic of market data. *)
Record DataEngine := mkDataEngine {
  de_cache : Cache;
  de_bus : list MarketEvent;
  de_catalog : option (DataRequest -> W -> W * res DataResponse);
  de_clients : gmap Venue DataClient;
  de_streaming : gmap Venue StreamingDataClient;
  de_subscriptions : gmap subscriptionKey SubscribeMarketData;
  de_aggregators : gmap BarType BarAggregator;
  de_events : chan MarketEvent;
  de_reconnect : RetryPolicy;
  de_staleAfter : duration;
  de_running : bool;
  de_eventCount : Z;
  de_requestCount : Z;
  de_barCount : Z;
  de_lastEventTime : time;
  de_lastError : option error;
}.

#[global] Instance set_de_cache : Setter de_cache := fun f r => mkDataEngine (f (de_cache r))
  (de_bus r) (de_catalog r) (de_clients r) (de_streaming r) (de_subscriptions r) (de_aggregators r)
  (de_events r) (de_reconnect r) (de_staleAfter r) (de_running r) (de_eventCount r) (de_requestCount
  r) (de_barCount r) (de_lastEventTime r) (de_lastError r).
#[global] Instance set_de_bus : Setter de_bus := fun f r => mkDataEngine (de_cache r) (f (de_bus r))
  (de_catalog r) (de_clients r) (de_streaming r) (de_subscriptions r) (de_aggregators r) (de_events
  r) (de_reconnect r) (de_staleAfter r) (de_running r) (de_eventCount r) (de_requestCount r)
  (de_barCount r) (de_lastEventTime r) (de_lastError r).
#[global] Instance set_de_clients : Setter de_clients := fun f r => mkDataEngine (de_cache r)
  (de_bus r) (de_catalog r) (f (de_clients r)) (de_streaming r) (de_subscriptions r) (de_aggregators
  r) (de_events r) (de_reconnect r) (de_staleAfter r) (de_running r) (de_eventCount r)
  (de_requestCount r) (de_barCount r) (de_lastEventTime r) (de_lastError r).
#[global] Instance set_de_streaming : Setter de_streaming := fun f r => mkDataEngine (de_cache r)
  (de_bus r) (de_catalog r) (de_clients r) (f (de_streaming r)) (de_subscriptions r) (de_aggregators
  r) (de_events r) (de_reconnect r) (de_staleAfter r) (de_running r) (de_eventCount r)
  (de_requestCount r) (de_barCount r) (de_lastEventTime r) (de_lastError r).
#[global] Instance set_de_subscriptions : Setter de_subscriptions := fun f r => mkDataEngine
  (de_cache r) (de_bus r) (de_catalog r) (de_clients r) (de_streaming r) (f (de_subscriptions r))
  (de_aggregators r) (de_events r) (de_reconnect r) (de_staleAfter r) (de_running r) (de_eventCount
  r) (de_requestCount r) (de_barCount r) (de_lastEventTime r) (de_lastError r).
#[global] Instance set_de_aggregators : Setter de_aggregators := fun f r => mkDataEngine (de_cache
  r) (de_bus r) (de_catalog r) (de_clients r) (de_streaming r) (de_subscriptions r) (f
  (de_aggregators r)) (de_events r) (de_reconnect r) (de_staleAfter r) (de_running r) (de_eventCount
  r) (de_requestCount r) (de_barCount r) (de_lastEventTime r) (de_lastError r).
#[global] Instance set_de_events : Setter de_events := fun f r => mkDataEngine (de_cache r) (de_bus
  r) (de_catalog r) (de_clients r) (de_streaming r) (de_subscriptions r) (de_aggregators r) (f
  (de_events r)) (de_reconnect r) (de_staleAfter r) (de_running r) (de_eventCount r)
  (de_requestCount r) (de_barCount r) (de_lastEventTime r) (de_lastError r).
#[global] Instance set_de_running : Setter de_running := fun f r => mkDataEngine (de_cache r)
  (de_bus r) (de_catalog r) (de_clients r) (de_streaming r) (de_subscriptions r) (de_aggregators r)
  (de_events r) (de_reconnect r) (de_staleAfter r) (f (de_running r)) (de_eventCount r)
  (de_requestCount r) (de_barCount r) (de_lastEventTime r) (de_lastError r).
#[global] Instance set_de_eventCount : Setter de_eventCount := fun f r => mkDataEngine (de_cache r)
  (de_bus r) (de_catalog r) (de_clients r) (de_streaming r) (de_subscriptions r) (de_aggregators r)
  (de_events r) (de_reconnect r) (de_staleAfter r) (de_running r) (f (de_eventCount r))
  (de_requestCount r) (de_barCount r) (de_lastEventTime r) (de_lastError r).
#[global] Instance set_de_requestCount : Setter de_requestCount := fun f r => mkDataEngine (de_cache
  r) (de_bus r) (de_catalog r) (de_clients r) (de_streaming r) (de_subscriptions r) (de_aggregators
  r) (de_events r) (de_reconnect r) (de_staleAfter r) (de_running r) (de_eventCount r) (f
  (de_requestCount r)) (de_barCount r) (de_lastEventTime r) (de_lastError r).
#[global] Instance set_de_barCount : Setter de_barCount := fun f r => mkDataEngine (de_cache r)
  (de_bus r) (de_catalog r) (de_clients r) (de_streaming r) (de_subscriptions r) (de_aggregators r)
  (de_events r) (de_reconnect r) (de_staleAfter r) (de_running r) (de_eventCount r) (de_requestCount
  r) (f (de_barCount r)) (de_lastEventTime r) (de_lastError r).
#[global] Instance set_de_lastEventTime : Setter de_lastEventTime := fun f r => mkDataEngine
  (de_cache r) (de_bus r) (de_catalog r) (de_clients r) (de_streaming r) (de_subscriptions r)
  (de_aggregators r) (de_events r) (de_reconnect r) (de_staleAfter r) (de_running r) (de_eventCount
  r) (de_requestCount r) (de_barCount r) (f (de_lastEventTime r)) (de_lastError r).
#[global] Instance set_de_lastError : Setter de_lastError := fun f r => mkDataEngine (de_cache r)
  (de_bus r) (de_catalog r) (de_clients r) (de_streaming r) (de_subscriptions r) (de_aggregators r)
  (de_events r) (de_reconnect r) (de_staleAfter r) (de_running r) (de_eventCount r) (de_requestCount
  r) (de_barCount r) (de_lastEventTime r) (f (de_lastError r)).

Definition NewEngine (c : option Cache) (catalog : option (DataRequest -> W -> W * res DataResponse)) (reconnect : RetryPolicy)
    (staleAfter : duration) : DataEngine :=
  mkDataEngine (default New c) [] catalog ∅ ∅ ∅ ∅ (make_chan 256) reconnect staleAfter false 0 0 0 0 None.

Definition AddClient (e : DataEngine) (client : option DataClient) : DataEngine * res unit :=
  match client with
  | None => (e, Fail (mkErr ErrInvalidMarketData "data client is required"))
  | Some client =>
      let e := e <| de_clients := <[dc_Venue client := client]> (de_clients e) |> in
      (match dc_Streaming client with
       | Some streaming => e <| de_streaming := <[dc_Venue client := streaming]> (de_streaming e) |>
       | None => e
       end, Ok tt)
  end.

Definition AddBarAggregation (e : DataEngine) (barType : BarType) : DataEngine * res unit :=
  match NewBarAggregator barType with
  | Fail err => (e, Fail err)
  | Ok aggregator => (e <| de_aggregators := <[BarType_Canonical barType := aggregator]> (de_aggregators e) |>, Ok tt)
  end.

(** ** State passing over engine and venues *)

Definition DE : Type -> Type := St (DataEngine * W).
Definition engine : DE DataEngine := fun s => (s, s.1).
Definition call {A} (f : W -> W * A) : DE A := fun s => let '(w, a) := f s.2 in ((s.1, w), a).
Definition change (f : DataEngine -> DataEngine) : DE unit := fun s => ((f s.1, s.2), tt).
Definition recordError (err : error) : DE unit := change (fun e => e <| de_lastError := Some err |>).
(** [if err != nil { e.recordError(err); return err }] *)
Definition recorded {A} (m : DE (res A)) : DE (res A) :=
  r ← m;
  match r with
  | Ok a => pass (Ok a)
  | Fail err => _ ← recordError err; pass (Fail err)
  end.

(** ** Events *)

Definition recordEvent (event : MarketEvent) (e : DataEngine) : DataEngine :=
  e <| de_eventCount := (de_eventCount e + 1)%Z |> <| de_lastEventTime := marketEventTime event |>.
Definition recordBar (bar : Bar) (e : DataEngine) : DataEngine :=
  e <| de_barCount := (de_barCount e + 1)%Z |> <| de_lastEventTime := br_Timestamp bar |>.

Definition publish (event : MarketEvent) (e : DataEngine) : DataEngine :=
  e <| de_bus := de_bus e ++ [event] |>
    <| de_events := match try_send (de_events e) event with Some ch => ch | None => de_events e end |>.

(** One round of the loop of [aggregate], and the loop with the aggregators visited in [order]. *)
Definition aggregate_one (event : MarketEvent) (e : DataEngine) (barType : BarType) : DataEngine * list Bar :=
  match de_aggregators e !! barType with
  | None => (e, [])
  | Some aggregator =>
      let '(aggregator, out) := Update aggregator event in
      let e := e <| de_aggregators := <[barType := aggregator]> (de_aggregators e) |> in
      match out with
      | Some (bar, Ok _) => (e, [bar])
      | Some (_, Fail err) => (e <| de_lastError := Some err |>, [])
      | None => (e, [])
      end
  end.
Fixpoint aggregate (order : list BarType) (event : MarketEvent) (e : DataEngine) : DataEngine * list Bar :=
  match order with
  | [] => (e, [])
  | barType :: order =>
      let '(e, out) := aggregate_one event e barType in
      let '(e, bars) := aggregate order event e in
      (e, out ++ bars)
  end.

Definition bar_event (bar : Bar) : MarketEvent := mkMarketEvent None None None None (Some bar) None None.

Fixpoint store_bars (bars : list Bar) (e : DataEngine) : DataEngine * res unit :=
  match bars with
  | [] => (e, Ok tt)
  | bar :: bars =>
      match PutMarketEvent (de_cache e) (bar_event bar) with
      | Fail err => (e, Fail err)
      | Ok c => store_bars bars (publish (bar_event bar) (recordBar bar (e <| de_cache := c |>)))
      end
  end.

Definition processEvent (order : list BarType) (event : MarketEvent) (e : DataEngine) : DataEngine * res unit :=
  match MarketEvent_Validate event with
  | Fail err => (e, Fail err)
  | Ok _ =>
      match PutMarketEvent (de_cache e) event with
      | Fail err => (e, Fail err)
      | Ok c =>
          let e := publish event (recordEvent event (e <| de_cache := c |>)) in
          let '(e, bars) := aggregate order event e in
          store_bars bars e
      end
  end.
Definition process (order : list BarType) (event : MarketEvent) : DE (res unit) := fun '(e, w) =>
  let '(e, r) := processEvent order event e in ((e, w), r).

(** ** Subscriptions *)

Definition Subscribe (sub : SubscribeMarketData) : DE (res unit) :=
  let! _ := recorded (pass (SubscribeMarketData_Validate sub)) in
  e ← engine;
  match de_subscriptions e !! Key sub with
  | Some _ => pass (Ok tt)
  | None =>
      match de_streaming e !! id_Venue (sm_InstrumentID sub) with
      | None => recorded (pass (Fail (mkErr ErrNotSupported "no streaming data client for venue")))
      | Some streaming =>
          _ ← change (fun e => e <| de_subscriptions := <[Key sub := sub]> (de_subscriptions e) |>);
          if de_running e then
            r ← call (fun w => sc_SubscribeMarketData streaming w sub);
            match r with
            | Ok _ => pass (Ok tt)
            | Fail err =>
                _ ← change (fun e => e <| de_subscriptions := delete (Key sub) (de_subscriptions e) |>);
                recorded (pass (Fail err))
            end
          else pass (Ok tt)
      end
  end.

Definition Unsubscribe (sub : SubscribeMarketData) : DE (res unit) :=
  let! _ := recorded (pass (SubscribeMarketData_Validate sub)) in
  e ← engine;
  match de_subscriptions e !! Key sub with
  | None => pass (Ok tt)
  | Some _ =>
      _ ← change (fun e => e <| de_subscriptions := delete (Key sub) (de_subscriptions e) |>);
      match de_running e, de_streaming e !! id_Venue (sm_InstrumentID sub) with
      | true, Some streaming => recorded (call (fun w => sc_UnsubscribeMarketData streaming w sub))
      | _, _ => pass (Ok tt)
      end
  end.

(** [applySubscriptions], with the subscriptions visited in [order]. *)
Definition applySubscriptions (order : list SubscribeMarketData) (venue : Venue) (streaming : StreamingDataClient) : DE (res unit) :=
  for_each (fun sub => call (fun w => sc_SubscribeMarketData streaming w sub))
    (filter (fun sub => id_Venue (sm_InstrumentID sub) = venue) order).

(** ** Life cycle: [clients] and [subs] are enumerations of the maps *)

Definition load_instruments (client : DataClient) : DE (res unit) :=
  match dc_Instruments client with
  | None => pass (Ok tt)
  | Some load =>
      let! instruments := call load in
      for_each (fun instrument '(e, w) =>
        match PutInstrument (de_cache e) instrument with
        | Fail err => ((e, w), Fail err)
        | Ok c => ((e <| de_cache := c |>, w), Ok tt)
        end) instruments
  end.

(** One round of the loop of [Start], and whether its client counts as connected. *)
Definition start_client (subs : list SubscribeMarketData) (client : DataClient) : DE (bool * res unit) :=
  loaded ← load_instruments client;
  match loaded with
  | Fail err => mret (false, Fail err)
  | Ok _ =>
      connected ← call (dc_Connect client);
      match connected with
      | Fail err => mret (false, Fail err)
      | Ok _ =>
          match dc_Streaming client with
          | None => mret (true, Ok tt)
          | Some streaming => r ← applySubscriptions subs (dc_Venue client) streaming; mret (true, r)
          end
      end
  end.

Fixpoint disconnect_all (clients : list DataClient) : DE (list error) :=
  match clients with
  | [] => mret []
  | client :: clients => r ← call (dc_Disconnect client); errs ← disconnect_all clients; mret (error_list r ++ errs)
  end.

Definition abortStart (connected : list DataClient) (cause : error) : DE (res unit) :=
  errs ← disconnect_all (reverse connected);
  let err := default cause (join_error (cause :: errs)) in
  _ ← change (fun e => e <| de_running := false |> <| de_lastError := Some err |>);
  pass (Fail err).

Fixpoint start_clients (subs : list SubscribeMarketData) (connected clients : list DataClient) : DE (res unit) :=
  match clients with
  | [] => pass (Ok tt)
  | client :: clients =>
      started ← start_client subs client;
      let '(reached, r) := (started : bool * res unit) in
      let connected := if reached then connected ++ [client] else connected in
      match r with
      | Fail err => abortStart connected err
      | Ok _ => start_clients subs connected clients
      end
  end.

Definition Start (clients : list DataClient) (subs : list SubscribeMarketData) : DE (res unit) :=
  e ← engine;
  if de_running e then pass (Ok tt)
  else
    _ ← change (fun e => e <| de_running := true |>);
    start_clients subs [] clients.

Definition Stop (clients : list DataClient) : DE (res unit) :=
  e ← engine;
  if negb (de_running e) then pass (Ok tt)
  else
    _ ← change (fun e => e <| de_running := false |>);
    errs ← disconnect_all clients;
    match join_error errs with
    | None => pass (Ok tt)
    | Some err => recorded (pass (Fail err))
    end.

(** ** Streams *)

Definition reconnectStreamOnce (subs : list SubscribeMarketData) (venue : Venue) (streaming : StreamingDataClient) : DE (res unit) :=
  let! _ := call (sc_Connect streaming) in
  applySubscriptions subs venue streaming.

Definition waitReconnectBackoff : DE (res unit) := fun '(e, w) =>
  ((e, w), if Z.leb (ry_Backoff (de_reconnect e)) 0 then Ok tt
           else if ctx_done w then Fail (mkErr ErrCanceled "context canceled") else Ok tt).

(** The loop of [recoverStream] with [n] attempts left. *)
Fixpoint recover_attempts (n : nat) (subs : list SubscribeMarketData) (venue : Venue) (streaming : StreamingDataClient) : DE (res unit) :=
  match n with
  | 0 => pass (Ok tt)
  | S n =>
      r ← reconnectStreamOnce subs venue streaming;
      match r, n with
      | Ok _, _ => pass (Ok tt)
      | Fail err, 0 => pass (Fail err)
      | Fail _, S _ => let! _ := waitReconnectBackoff in recover_attempts n subs venue streaming
      end
  end.
Definition recoverStream (subs : list SubscribeMarketData) (venue : Venue) (streaming : StreamingDataClient) : DE (res unit) :=
  e ← engine; recover_attempts (attempts (de_reconnect e)) subs venue streaming.

Inductive data_input := DataEvent (event : MarketEvent) | DataClosed.

(** One round of [forward]: the stream it reads next, or none when it returns. *)
Definition forward_step (order : list BarType) (subs : list SubscribeMarketData) (venue : Venue) (streaming : StreamingDataClient)
    (events : nat) (input : data_input) : DE (option nat) :=
  match input with
  | DataEvent event => _ ← recorded (process order event); mret (Some events)
  | DataClosed =>
      done ← (fun s => (s, ctx_done s.2));
      if (done : bool) then mret None
      else
        r ← recorded (recoverStream subs venue streaming);
        match r with
        | Fail _ => mret None
        | Ok _ =>
            next ← (fun s => (s, sc_Events streaming s.2));
            if next ≟ events
            then _ ← recordError (mkErr ErrNotSupported "data client reused closed event channel"); mret None
            else mret (Some next)
        end
  end.

(** ** Requests *)

Definition cacheResponse (response : DataResponse) (e : DataEngine) : DataEngine :=
  foldl (fun e event => match PutMarketEvent (de_cache e) event with Ok c => e <| de_cache := c |> | Fail _ => e end)
    e (ds_Events response).

Definition live_response (request : DataRequest) (event : MarketEvent) : res DataResponse :=
  let response := mkDataResponse (responseMetadata request) (dr_RequestID request) (dr_InstrumentID request) (dr_Type request)
                    (BarType_Canonical (dr_BarType request)) [event] true in
  ensure DataResponse_Validate response ;; Ok response.

Definition requestLive (client : DataClient) (request : DataRequest) : DE (res DataResponse) :=
  match dr_Type request with
  | MarketDataTypeTicker =>
      let! ticker := call (fun w => dc_FetchTicker client w (dr_InstrumentID request)) in
      pass (live_response request (mkMarketEvent (Some ticker) None None None None None None))
  | MarketDataTypeOrderBook =>
      let! book := call (fun w => dc_FetchOrderBook client w (dr_InstrumentID request) (dr_Depth request)) in
      pass (live_response request (mkMarketEvent None (Some book) None None None None None))
  | MarketDataTypeFundingRate =>
      match dc_FundingRateProvider client with
      | None => pass (Fail (mkErr ErrNotSupported "funding rate requests are not supported by venue.DataClient"))
      | Some fetch =>
          let! funding := call (fun w => fetch w (dr_InstrumentID request)) in
          pass (live_response request (mkMarketEvent None None None None None (Some funding) None))
      end
  | _ => pass (Fail (mkErr ErrNotSupported "request type is not supported by venue.DataClient"))
  end.

(** The part of [Request] that asks the client of the venue. *)
Definition request_client (client : option DataClient) (request : DataRequest) : DE (res DataResponse) :=
  match client with
  | None => recorded (pass (Fail (mkErr ErrNotSupported "no data client for venue")))
  | Some client =>
      let! response := recorded (requestLive client request) in
      _ ← change (cacheResponse response);
      pass (Ok response)
  end.

Definition Request (request : DataRequest) : DE (res DataResponse) :=
  let! _ := recorded (pass (DataRequest_Validate request)) in
  _ ← change (fun e => e <| de_requestCount := (de_requestCount e + 1)%Z |>);
  e ← engine;
  let client := de_clients e !! id_Venue (dr_InstrumentID request) in
  match de_catalog e with
  | None => request_client client request
  | Some query =>
      r ← call (query request);
      match r, client with
      | Ok response, _ => _ ← change (cacheResponse response); pass (Ok response)
      | Fail err, None => recorded (pass (Fail err))
      | Fail _, Some _ => request_client client request
      end
  end.

(** ** Health *)

Record ClientHealth := mkClientHealth { ch_Venue : Venue; ch_ClientID : string; ch_Health : DataHealth; ch_Stale : bool }.
Record Health := mkDataEngineHealth {
  hl_Running : bool;
  hl_Clients : nat;
  hl_Subscriptions : nat;
  hl_Events : Z;
  hl_Requests : Z;
  hl_AggregatedBars : Z;
  hl_StaleClients : nat;
  hl_LastEventTime : time;
  hl_LastError : option error;
  hl_ClientsHealth : list ClientHealth;
}.

Definition isStale (e : DataEngine) (t : time) (health : DataHealth) : bool :=
  if Z.leb (de_staleAfter e) 0 || time_IsZero (dh_LastEventTime health) then false
  else Z.ltb (de_staleAfter e) (time_Sub t (dh_LastEventTime health)).

Definition engine_Health (clients : list DataClient) (e : DataEngine) (w : W) : Health :=
  let healths := (fun client => let health := dc_Health client w in
                    mkClientHealth (dc_Venue client) (dc_ClientID client) health (isStale e (now w) health)) <$> clients in
  mkDataEngineHealth (de_running e) (size (de_clients e)) (size (de_subscriptions e)) (de_eventCount e) (de_requestCount e)
    (de_barCount e) (length (filter (fun h => ch_Stale h = true) healths)) (de_lastEventTime e) (de_lastError e) healths.
End engine.
