(* ===== verification/DataEngineFacts.v ===== *)
(** * Properties of the data engine

    What a run of streamed events leaves on the bus and in the counters, and the bars that
    come out of the engine. *)
From stdpp Require Import base strings sets gmap list.
From S2P Require Import Prelude Decimals Enums Identifiers Orders Market Accounts Cache Channels Aggregation AggregationFacts.
From S2P Require Import ExecEngine DataEngine.

Open Scope go_scope.

Section facts.
Context {DD : Decimal} {W : Type}.
Notation DataEngine := (DataEngine (W := W)).
Implicit Types (e : DataEngine) (event : MarketEvent) (b : BarType).

(** ** Aggregation *)

(** The bars of a bar type that passed validation. *)
Definition sound_bars (out : list (Bar * res unit)) : list Bar :=
  omap (fun '(bar, r) => match r with Ok _ => Some bar | Fail _ => None end) out.

(** Each aggregator is kept under the bar type of its bars. *)
Definition keyed e : Prop := forall b agg, de_aggregators e !! b = Some agg -> ba_barType agg = b /\ (forall bar, ba_current agg = Some bar -> br_BarType bar = b).

Lemma Update_keyed agg event b :
  ba_barType agg = b -> (forall bar, ba_current agg = Some bar -> br_BarType bar = b) ->
  ba_barType (Update agg event).1 = b /\ (forall bar, ba_current (Update agg event).1 = Some bar -> br_BarType bar = b) /\
  (forall bar r, (Update agg event).2 = Some (bar, r) -> br_BarType bar = b /\ r = Bar_Validate bar).
Proof.
  intros Hb Hc. unfold Update. destruct (aggregationInput event) as [[[p v] ts]|]; [|by split].
  destruct (bool_decide_reflect (MarketEvent_InstrumentID event = bt_InstrumentID (ba_barType agg))); simpl; [|by split].
  destruct (ba_current agg) as [cur|] eqn:E; simpl.
  - specialize (Hc cur eq_refl). destruct (time_Equal _ _); simpl; (split; [done|]).
    + split; [|done]. by intros bar [= <-].
    + split; [by intros bar [= <-]|]. intros bar r [= <- <-]. done.
  - split; [done|]. split; [by intros bar [= <-] | done].
Qed.

(** What the aggregators make of an event, and what stays the same. *)
Definition aggregators_after (visited : BarType -> Prop) `{!forall b, Decision (visited b)} event e e' : Prop :=
  (forall b, de_aggregators e' !! b =
     if decide (visited b) then (fun agg => (Update agg event).1) <$> de_aggregators e !! b else de_aggregators e !! b) /\
  de_cache e' = de_cache e /\ de_bus e' = de_bus e /\ de_eventCount e' = de_eventCount e /\ de_barCount e' = de_barCount e.
Definition bars_for b event e : list Bar :=
  match de_aggregators e !! b with Some agg => sound_bars (option_list (Update agg event).2) | None => [] end.

Lemma aggregate_one_spec event e b0 : keyed e ->
  aggregators_after (fun b => b = b0) event e (aggregate_one event e b0).1 /\
  Forall (fun bar => Bar_Validate bar = Ok tt /\ br_BarType bar = b0) (aggregate_one event e b0).2 /\
  (aggregate_one event e b0).2 = bars_for b0 event e.
Proof.
  intros Hk. unfold aggregate_one, bars_for, aggregators_after.
  destruct (de_aggregators e !! b0) as [agg|] eqn:E; simpl.
  - destruct (Hk _ _ E) as [Hb Hc]. destruct (Update_keyed agg event b0 Hb Hc) as (_ & _ & H3).
    destruct (Update agg event) as [agg' out] eqn:Eu. simpl in *.
    assert (forall b, <[b0 := agg']> (de_aggregators e) !! b = if decide (b = b0) then (fun agg => (Update agg event).1) <$> de_aggregators e !! b else de_aggregators e !! b) as Hl.
    { intros b. case_decide as Hd; [subst; by rewrite lookup_insert_eq, E; simpl; rewrite Eu | by rewrite lookup_insert_ne]. }
    destruct out as [[bar [[]|err]]|]; simpl; (split; [done|]); (split; [|done]); try constructor; [|constructor].
    destruct (H3 bar (Ok tt) eq_refl). done.
  - split; [|done]. split; [|done]. intros b. case_decide as Hd; [subst; by rewrite E | done].
Qed.

Lemma keyed_after (visited : BarType -> Prop) `{!forall b, Decision (visited b)} event e e' :
  keyed e -> aggregators_after visited event e e' -> keyed e'.
Proof.
  intros Hk (Ha & _) b agg. rewrite Ha. case_decide; [|apply Hk]. destruct (de_aggregators e !! b) as [agg0|] eqn:E; [|done].
  intros [= <-]. destruct (Hk _ _ E) as [Hb Hc]. destruct (Update_keyed agg0 event b Hb Hc) as (? & ? & _). done.
Qed.

Lemma filter_type b (bars : list Bar) b0 : Forall (fun bar => br_BarType bar = b0) bars ->
  filter (fun bar => br_BarType bar = b) bars = if decide (b = b0) then bars else [].
Proof.
  induction 1 as [|bar bars Hb _ IH]; [by case_decide|]. rewrite filter_cons, IH. repeat case_decide; congruence.
Qed.

Lemma aggregate_spec order event : forall e, keyed e -> NoDup order ->
  aggregators_after (fun b => b ∈ order) event e (aggregate order event e).1 /\
  Forall (fun bar => Bar_Validate bar = Ok tt /\ br_BarType bar ∈ order) (aggregate order event e).2 /\
  (forall b, filter (fun bar => br_BarType bar = b) (aggregate order event e).2 = if decide (b ∈ order) then bars_for b event e else []).
Proof.
  induction order as [|b0 order IH]; intros e Hk Hnd; simpl.
  - by repeat split.
  - apply NoDup_cons in Hnd as [Hb0 Hnd]. destruct (aggregate_one_spec event e b0 Hk) as (A1 & A2 & A3).
    destruct (aggregate_one event e b0) as [e1 out]. simpl in *. specialize (IH e1 (keyed_after _ _ _ _ Hk A1) Hnd).
    destruct (aggregate order event e1) as [e2 bars]. simpl in *. destruct IH as ((B1 & B2 & B3 & B4 & B5) & B6 & B7).
    destruct A1 as (A1 & C2 & C3 & C4 & C5).
    assert (forall b, b ∈ b0 :: order <-> b = b0 \/ b ∈ order) as Hin by (intros; apply elem_of_cons).
    split; [split; [|repeat split; congruence]|split].
    + intros b. rewrite B1, A1. destruct (decide (b = b0)) as [->|Hne].
      * rewrite decide_False by done. by rewrite decide_True by (apply Hin; auto).
      * destruct (decide (b ∈ order)); [rewrite decide_True by (apply Hin; auto) | rewrite decide_False by (rewrite Hin; tauto)]; done.
    + apply Forall_app_2; [eapply Forall_impl; [exact A2|]; intros bar [? ->]; split; [done|]; apply Hin; auto|].
      eapply Forall_impl; [exact B6|]. intros bar [? ?]. split; [done|]. apply Hin. auto.
    + intros b. rewrite filter_app, B7, (filter_type b out b0) by (eapply Forall_impl; [exact A2|]; by intros ? [_ ?]).
      unfold bars_for at 1. rewrite A1. fold (bars_for b event e). destruct (decide (b = b0)) as [->|Hne].
      * rewrite decide_False by done. rewrite app_nil_r, A3. by rewrite decide_True by (apply Hin; auto).
      * simpl. destruct (decide (b ∈ order)); [rewrite decide_True by (apply Hin; auto) | rewrite decide_False by (rewrite Hin; tauto)]; done.
Qed.

(** ** Runs of events *)

Lemma store_bars_spec bars : forall e, Forall (fun bar => Bar_Validate bar = Ok tt) bars ->
  let '(e', r) := store_bars bars e in
  r = Ok tt /\ de_bus e' = de_bus e ++ (bar_event <$> bars) /\ de_aggregators e' = de_aggregators e /\
  de_eventCount e' = de_eventCount e /\ de_barCount e' = (de_barCount e + Z.of_nat (length bars))%Z.
Proof.
  induction bars as [|bar bars IH]; intros e Hv; simpl; [rewrite app_nil_r; repeat split; lia|].
  apply Forall_cons in Hv as [Hb Hv]. unfold PutMarketEvent, MarketEvent_Validate, MarketEvent_count. simpl. rewrite Hb. simpl.
  match goal with |- let '(_, _) := store_bars bars ?x in _ => specialize (IH x Hv); destruct (store_bars bars x) as [e' r] end.
  destruct IH as (-> & H1 & H2 & H3 & H4). simpl in *. rewrite H1, H2, H3, H4. repeat split; [by rewrite <- app_assoc | lia].
Qed.

Fixpoint process_all (order : list BarType) (events : list MarketEvent) e : DataEngine * list (res unit) :=
  match events with
  | [] => (e, [])
  | event :: events =>
      let '(e, r) := processEvent order event e in
      let '(e, rs) := process_all order events e in
      (e, r :: rs)
  end.

Definition valid event : bool := is_ok (MarketEvent_Validate event).
Definition is_bar event : bool := match ev_Bar event with Some _ => true | None => false end.
Definition bus_bars b (events : list MarketEvent) : list Bar :=
  filter (fun bar => br_BarType bar = b) (omap ev_Bar events).

Lemma processEvent_spec order event e : keyed e -> NoDup order ->
  if valid event then
    exists bars, (processEvent order event e).2 = Ok tt /\
      de_bus (processEvent order event e).1 = de_bus e ++ event :: (bar_event <$> bars) /\
      (forall b, filter (fun bar => br_BarType bar = b) bars = if decide (b ∈ order) then bars_for b event e else []) /\
      (forall b, de_aggregators (processEvent order event e).1 !! b =
         if decide (b ∈ order) then (fun agg => (Update agg event).1) <$> de_aggregators e !! b else de_aggregators e !! b) /\
      de_eventCount (processEvent order event e).1 = (de_eventCount e + 1)%Z /\
      de_barCount (processEvent order event e).1 = (de_barCount e + Z.of_nat (length bars))%Z /\
      keyed (processEvent order event e).1
  else exists err, processEvent order event e = (e, Fail err).
Proof.
  intros Hk Hnd. unfold valid, processEvent. destruct (MarketEvent_Validate event) as [[]|err] eqn:Ev; simpl; [|eauto].
  destruct (PutMarketEvent (de_cache e) event) as [c'|err] eqn:Ep; [clear Ep | by unfold PutMarketEvent in Ep; rewrite Ev in Ep].
  set (e1 := publish event _). assert (keyed e1) as Hk1 by exact Hk.
  destruct (aggregate_spec order event e1 Hk1 Hnd) as (A1 & A2 & A3). pose proof (keyed_after _ _ _ _ Hk1 A1) as Hk2.
  destruct A1 as (A1 & _ & A4 & A5 & A6).
  destruct (aggregate order event e1) as [e2 bars]. simpl in *. exists bars.
  pose proof (store_bars_spec bars e2 ltac:(eapply Forall_impl; [exact A2|]; by intros ? [? _])) as Hs.
  destruct (store_bars bars e2) as [e3 r]. destruct Hs as (-> & S1 & S2 & S3 & S4). simpl.
  split; [done|]. split; [rewrite S1, A4; unfold e1, publish; simpl; by rewrite <- app_assoc|]. split; [exact A3|].
  split; [intros b; rewrite S2; apply A1|]. split; [by rewrite S3, A5|]. split; [by rewrite S4, A6|].
  intros b agg. rewrite S2. apply Hk2.
Qed.

(** An engine that processes a stream of events, none of them a bar of its own, publishes
    exactly the valid ones, in order, with the bars among them; an invalid event is refused
    and changes nothing.  The bars of each bar type are the sound ones that its aggregator
    makes of the valid events, in order, and both counters are exact. *)
Theorem stream_published order events e :
  keyed e -> NoDup order -> (forall b, b ∈ order <-> is_Some (de_aggregators e !! b)) ->
  Forall (fun event => is_bar event = false) events ->
  let '(e', rs) := process_all order events e in
  let accepted := filter (fun event => valid event = true) events in
  exists out, de_bus e' = de_bus e ++ out /\
    filter (fun event => is_bar event = false) out = accepted /\
    (forall b agg, de_aggregators e !! b = Some agg -> bus_bars b out = sound_bars (updates agg accepted).2) /\
    is_ok <$> rs = valid <$> events /\
    de_eventCount e' = (de_eventCount e + Z.of_nat (length accepted))%Z /\
    de_barCount e' = (de_barCount e + Z.of_nat (length (omap ev_Bar out)))%Z.
Proof.
  intros Hk Hnd Hord Hb. revert e Hk Hord. induction events as [|event events IH]; intros e Hk Hord; simpl.
  - exists []. rewrite app_nil_r. repeat split; simpl; lia.
  - apply Forall_cons in Hb as [Hev Hb]. specialize (IH Hb). pose proof (processEvent_spec order event e Hk Hnd) as Hp.
    rewrite filter_cons. destruct (valid event) eqn:Ev.
    + destruct Hp as (bars & P1 & P2 & P3 & P4 & P5 & P6 & P7). destruct (processEvent order event e) as [e1 r]. simpl in *. subst r.
      assert (forall b, b ∈ order <-> is_Some (de_aggregators e1 !! b)) as Hord1.
      { intros b. rewrite P4. case_decide; [|apply Hord]. rewrite fmap_is_Some. apply Hord. }
      specialize (IH e1 P7 Hord1). destruct (process_all order events e1) as [e2 rs].
      destruct IH as (out & I1 & I2 & I3 & I4 & I5 & I6). exists (event :: (bar_event <$> bars) ++ out).
      assert (omap ev_Bar (bar_event <$> bars) = bars) as Hbars by (clear; induction bars as [|bar bars IH]; simpl; [done | by f_equal]).
      assert (ev_Bar event = None) as Hnb by (unfold is_bar in Hev; by destruct (ev_Bar event)).
      rewrite ?decide_True by done. split; [rewrite I1, P2, <- app_assoc; done|]. split; [|split; [|split; [|split]]].
      * rewrite filter_cons, decide_True, filter_app, I2 by done.
        assert (filter (fun event => is_bar event = false) (bar_event <$> bars) = []) as ->; [|done].
        clear. induction bars as [|bar bars IH]; simpl; [done|]. rewrite filter_cons, decide_False by done. exact IH.
      * intros b agg Ha. assert (b ∈ order) as Hin by (apply Hord; eauto).
        unfold bus_bars. simpl. rewrite Hnb, omap_app, Hbars, filter_app, P3, decide_True by done.
        fold (bus_bars b out). rewrite (I3 b (Update agg event).1) by (by rewrite P4, decide_True, Ha).
        unfold bars_for. rewrite Ha. simpl. destruct (Update agg event) as [agg1 o]. simpl. destruct (updates agg1 _) as [agg2 rest]. simpl.
        unfold sound_bars. by rewrite omap_app.
      * by rewrite !fmap_cons, I4, ?Ev.
      * rewrite I5, P5. simpl. lia.
      * rewrite I6, P6. simpl. rewrite Hnb, omap_app, Hbars, length_app. lia.
    + destruct Hp as [err Hp]. rewrite Hp. specialize (IH e Hk Hord). destruct (process_all order events e) as [e2 rs].
      destruct IH as (out & I1 & I2 & I3 & I4 & I5 & I6). exists out. rewrite ?decide_False by done. by rewrite !fmap_cons, I4, ?Ev.
Qed.
End facts.
