(* ===== verification/Indicators.v ===== *)
(** * Indicators and timers of strategies (strategy/indicator.go, strategy/timer.go)

    The exponential moving average and the average true range, whose nil receiver is [None],
    and the validation of timers. *)
From stdpp Require Import base strings pretty list.
From Stdlib Require Import QArith Qabs Qminmax Qround Lqa.
From S2P Require Import Prelude Decimals Enums Identifiers Orders Market.

Open Scope go_scope.

Definition ErrInvalidIndicator_error : error := mkErr ErrInvalidIndicator "invalid indicator".

Section indicators.
Context {DD : Decimal}.

(** ** strategy/timer.go *)

Definition ValidateTimer (name : string) (interval : duration) : res unit :=
  fail_if name ≟ "" with mkErr ErrInvalidTimer "name is required" ;;
  fail_if Z.leb interval 0 with mkErr ErrInvalidTimer "interval must be positive" ;;
  Ok tt.

(** ** ExponentialMovingAverage *)

Record ExponentialMovingAverage := mkEMA {
  em_period : Z;
  em_count : Z;
  em_multiplier : D;
  em_value : D;
  em_initialized : bool;
}.

Definition NewExponentialMovingAverage (period : Z) : res ExponentialMovingAverage :=
  fail_if Z.leb period 0 with mkErr ErrInvalidIndicator "period must be positive" ;;
  Ok (mkEMA period 0 (ddiv (dint 2) (dint (period + 1))) dzero false).

Definition EMA_Name (e : option ExponentialMovingAverage) : string :=
  match e with None => "EMA(0)" | Some e => ("EMA(" +:+ pretty (em_period e) +:+ ")")%string end.
Definition EMA_Initialized (e : option ExponentialMovingAverage) : bool :=
  match e with None => false | Some e => em_initialized e end.
Definition EMA_Count (e : option ExponentialMovingAverage) : Z := match e with None => 0 | Some e => em_count e end.
Definition EMA_Value (e : option ExponentialMovingAverage) : D := match e with None => dzero | Some e => em_value e end.
Definition EMA_Reset (e : option ExponentialMovingAverage) : option ExponentialMovingAverage :=
  (fun e => mkEMA (em_period e) 0 (em_multiplier e) dzero false) <$> e.

Definition EMA_Update (e : option ExponentialMovingAverage) (value : D) : outcome (option ExponentialMovingAverage) unit :=
  match e with
  | None => (e, Fail ErrInvalidIndicator_error)
  | Some ema =>
      if Z.leb (em_period ema) 0 then (e, Fail ErrInvalidIndicator_error)
      else
        let count := (em_count ema + 1)%Z in
        let value := if Z.eqb count 1 then value
                     else dadd (dmul (dsub value (em_value ema)) (em_multiplier ema)) (em_value ema) in
        (Some (mkEMA (em_period ema) count (em_multiplier ema) value (Z.leb (em_period ema) count)), Ok tt)
  end.

(** ** AverageTrueRange *)

Record AverageTrueRange := mkATR {
  at_period : Z;
  at_count : Z;
  at_value : D;
  at_trSum : D;
  at_prevClose : D;
  at_hasPrevious : bool;
  at_initialized : bool;
}.

Definition NewAverageTrueRange (period : Z) : res AverageTrueRange :=
  fail_if Z.leb period 0 with mkErr ErrInvalidIndicator "period must be positive" ;;
  Ok (mkATR period 0 dzero dzero dzero false false).

Definition ATR_Name (a : option AverageTrueRange) : string :=
  match a with None => "ATR(0)" | Some a => ("ATR(" +:+ pretty (at_period a) +:+ ")")%string end.
Definition ATR_Initialized (a : option AverageTrueRange) : bool := match a with None => false | Some a => at_initialized a end.
Definition ATR_Count (a : option AverageTrueRange) : Z := match a with None => 0 | Some a => at_count a end.
Definition ATR_Value (a : option AverageTrueRange) : D := match a with None => dzero | Some a => at_value a end.
Definition ATR_Reset (a : option AverageTrueRange) : option AverageTrueRange :=
  (fun a => mkATR (at_period a) 0 dzero dzero dzero false false) <$> a.

Definition trueRange (a : AverageTrueRange) (bar : Bar) : D :=
  let highLow := dabs (dsub (br_High bar) (br_Low bar)) in
  if negb (at_hasPrevious a) then highLow
  else
    let highPrevClose := dabs (dsub (br_High bar) (at_prevClose a)) in
    let lowPrevClose := dabs (dsub (br_Low bar) (at_prevClose a)) in
    let tr := if GreaterThan highPrevClose highLow then highPrevClose else highLow in
    if GreaterThan lowPrevClose tr then lowPrevClose else tr.

Definition ATR_UpdateBar (a : option AverageTrueRange) (bar : Bar) : outcome (option AverageTrueRange) unit :=
  match a with
  | None => (a, Fail ErrInvalidIndicator_error)
  | Some atr =>
      if Z.leb (at_period atr) 0 then (a, Fail ErrInvalidIndicator_error)
      else match Bar_Validate bar with
      | Fail e => (a, Fail e)
      | Ok _ =>
          let tr := trueRange atr bar in
          let count := (at_count atr + 1)%Z in
          let '(sum, value, initialized) :=
            match Z.compare count (at_period atr) with
            | Lt => (dadd (at_trSum atr) tr, at_value atr, at_initialized atr)
            | Eq => let sum := dadd (at_trSum atr) tr in (sum, ddiv sum (dint (at_period atr)), true)
            | Gt => let period := dint (at_period atr) in
                    (at_trSum atr, ddiv (dadd (dmul (at_value atr) (dsub period (dint 1))) tr) period, at_initialized atr)
            end in
          (Some (mkATR (at_period atr) count value sum (br_Close bar) true initialized), Ok tt)
      end
  end.
End indicators.

(** ** Properties *)
Section facts.
Context {DD : Decimal} {DL : DecimalLaws DD}.
Open Scope Q_scope.

Fixpoint EMA_updates (e : option ExponentialMovingAverage) (values : list D) : option ExponentialMovingAverage :=
  match values with [] => e | value :: values => EMA_updates (EMA_Update e value).1 values end.

(** The multiplier of a new average is a proper fraction. *)
Lemma round16_between q : 0 <= q -> q <= 1 -> 0 <= round16 q <= 1.
Proof.
  intros H0 H1. split; [by apply round16_nonneg|].
  assert (round16 q = (Qfloor (q * (Zpos ulp16 # 1) + (1 # 2)) # ulp16)) as E by (unfold round16; by rewrite (proj2 (Qle_bool_iff 0 q) H0)).
  rewrite E. assert (Qfloor (q * (Zpos ulp16 # 1) + (1 # 2)) <= Zpos ulp16)%Z as Hf.
  { assert (Qfloor (q * (Zpos ulp16 # 1) + (1 # 2)) <= Qfloor (inject_Z (Zpos ulp16) + (1 # 2)))%Z as Hm.
    { apply Qfloor_resp_le. apply Qplus_le_l. apply (Qle_trans _ (1 * (Zpos ulp16 # 1))); [by apply Qmult_le_compat_r | done]. }
    etransitivity; [exact Hm|]. vm_compute. done. }
  unfold Qle. cbn [Qnum Qden]. lia.
Qed.

Lemma EMA_step period count m value init v : (0 < period)%Z ->
  (EMA_Update (Some (mkEMA period count m value init)) v).1 =
  Some (mkEMA period (count + 1) m (if Z.eqb (count + 1) 1 then v else dadd (dmul (dsub v value) m) value) (Z.leb period (count + 1))).
Proof. intros Hp. unfold EMA_Update. cbn [em_period]. by rewrite (proj2 (Z.leb_gt _ _)). Qed.

(** After any positive number of values, the exponential moving average lies between the
    least and the greatest of them, whatever its period, and it is initialized exactly when
    it has seen as many values as its period. *)
Theorem EMA_bounded period ema values lo hi :
  NewExponentialMovingAverage period = Ok ema -> values <> [] ->
  Forall (fun v => lo <= dval v <= hi) values ->
  let e := EMA_updates (Some ema) values in
  lo <= dval (EMA_Value e) <= hi /\ EMA_Count e = Z.of_nat (length values) /\
  EMA_Initialized e = Z.leb period (Z.of_nat (length values)).
Proof.
  unfold NewExponentialMovingAverage. destruct (Z.leb_spec period 0) as [|Hp]; [done|]. intros [= <-] Hne Hv.
  set (m := ddiv (dint 2) (dint (period + 1))).
  assert (0 <= dval m <= 1) as Hm.
  { unfold m. assert (1 <= inject_Z period) as Hq by (change 1 with (inject_Z 1); rewrite <- Zle_Qle; lia).
    rewrite dval_div, !dval_int by (rewrite dval_int, inject_Z_plus; change (inject_Z 1) with 1; lra).
    rewrite inject_Z_plus. change (inject_Z 1) with 1. change (inject_Z 2) with 2.
    apply round16_between; [apply Qle_shift_div_l | apply Qle_shift_div_r]; lra. }
  clearbody m.
  assert (forall values count value init, (0 < count)%Z -> lo <= dval value <= hi -> init = Z.leb period count -> Forall (fun v => lo <= dval v <= hi) values ->
    let e := EMA_updates (Some (mkEMA period count m value init)) values in
    lo <= dval (EMA_Value e) <= hi /\ EMA_Count e = (count + Z.of_nat (length values))%Z /\
    EMA_Initialized e = Z.leb period (count + Z.of_nat (length values))) as Hrun.
  { clear values Hne Hv. induction values as [|v values IH]; intros count value init Hc Hb -> Hv; [simpl; by rewrite Z.add_0_r|].
    apply Forall_cons in Hv as [Hv1 Hv]. cbn [EMA_updates length]. rewrite EMA_step, (proj2 (Z.eqb_neq _ _)) by lia.
    rewrite Nat2Z.inj_succ. replace (count + Z.succ (Z.of_nat (length values)))%Z with (count + 1 + Z.of_nat (length values))%Z by lia.
    apply IH; [lia | | done | done]. rewrite dval_add, dval_mul, dval_sub. split; nra. }
  destruct values as [|v values]; [done|]. apply Forall_cons in Hv as [Hv1 Hv]. cbn [EMA_updates length]. rewrite EMA_step by done.
  rewrite Nat2Z.inj_succ. replace (Z.succ (Z.of_nat (length values))) with (1 + Z.of_nat (length values))%Z by lia. by apply Hrun.
Qed.

(** ** The average true range *)

Fixpoint ATR_updates (a : option AverageTrueRange) (bars : list Bar) : option AverageTrueRange :=
  match bars with [] => a | bar :: bars => ATR_updates (ATR_UpdateBar a bar).1 bars end.

(** The distance a price may have covered since the previous close. *)
Definition true_range (previous : option D) (bar : Bar) : Q :=
  match previous with
  | None => Qabs (dval (br_High bar) - dval (br_Low bar))
  | Some close => Qmax (Qmax (Qabs (dval (br_High bar) - dval (br_Low bar))) (Qabs (dval (br_High bar) - dval close)))
                    (Qabs (dval (br_Low bar) - dval close))
  end.
Fixpoint true_ranges (previous : option D) (bars : list Bar) : list Q :=
  match bars with [] => [] | bar :: bars => true_range previous bar :: true_ranges (Some (br_Close bar)) bars end.
(** The mean of the first ranges, and Wilder's smoothing of the later ones. *)
Definition qsum (l : list Q) : Q := foldr Qplus 0 l.
Definition wilder (period : Z) (value range : Q) : Q := round16 ((value * (inject_Z period - 1) + range) / inject_Z period).

Definition previous (a : AverageTrueRange) : option D := if at_hasPrevious a then Some (at_prevClose a) else None.
Lemma trueRange_val a bar : dval (trueRange a bar) == true_range (previous a) bar.
Proof.
  unfold trueRange, true_range, previous. destruct (at_hasPrevious a); simpl; [|by dec_rew].
  assert (forall x y : D, dval (if GreaterThan y x then y else x) == Qmax (dval x) (dval y)) as Hmax.
  { intros x y. destruct (GreaterThan y x) eqn:E; dec_hyps; [rewrite Q.max_r | rewrite Q.max_l]; lra. }
  rewrite !Hmax. by dec_rew.
Qed.

#[local] Instance wilder_proper period : Proper (Qeq ==> Qeq ==> Qeq) (wilder period).
Proof. intros x y E x' y' E'. unfold wilder. by rewrite E, E'. Qed.

Definition ranges (bars : list Bar) : list Q := true_ranges None bars.
Lemma true_ranges_app bars bar : forall prev,
  true_ranges prev (bars ++ [bar]) =
  true_ranges prev bars ++ [true_range (match last bars with Some b => Some (br_Close b) | None => prev end) bar].
Proof.
  induction bars as [|b bars IH]; intros prev; [done|]. rewrite last_cons. simpl. rewrite IH. by destruct (last bars).
Qed.
Lemma length_true_ranges bars : forall prev, length (true_ranges prev bars) = length bars.
Proof. induction bars as [|b bars IH]; intros prev; simpl; [done|]. by rewrite IH. Qed.
Lemma ATR_updates_app a bars bar : ATR_updates a (bars ++ [bar]) = (ATR_UpdateBar (ATR_updates a bars) bar).1.
Proof. revert a. induction bars as [|b bars IH]; intros a; simpl; [done|]. apply IH. Qed.
Lemma qsum_app l x : qsum (l ++ [x]) == qsum l + x.
Proof. unfold qsum. induction l as [|y l IH]; simpl; [lra|]. rewrite IH. lra. Qed.

(** The value after the ranges [rs]. *)
Definition smoothed (period : nat) (rs : list Q) : Q :=
  if Nat.ltb (length rs) period then 0
  else foldl (wilder (Z.of_nat period)) (round16 (qsum (take period rs) / inject_Z (Z.of_nat period))) (drop period rs).

Record atr_is (period : nat) (bars : list Bar) (a : AverageTrueRange) : Prop := {
  ati_period : at_period a = Z.of_nat period;
  ati_count : at_count a = Z.of_nat (length bars);
  ati_previous : previous a = br_Close <$> last bars;
  ati_sum : (length bars <= period)%nat -> dval (at_trSum a) == qsum (ranges bars);
  ati_value : dval (at_value a) == smoothed period (ranges bars);
  ati_initialized : at_initialized a = Nat.leb period (length bars);
}.

Lemma ATR_step period bars a bar : (0 < period)%nat -> Bar_Validate bar = Ok tt -> atr_is period bars a ->
  exists a', (ATR_UpdateBar (Some a) bar).1 = Some a' /\ atr_is period (bars ++ [bar]) a'.
Proof.
  intros Hp Hv [Ip Ic Ir Is Iv Ii]. unfold ATR_UpdateBar. rewrite Ip, (proj2 (Z.leb_gt _ _)), Hv by lia. cbv zeta.
  pose proof (trueRange_val a bar) as Htr. rewrite Ir in Htr.
  assert (ranges (bars ++ [bar]) = ranges bars ++ [true_range (br_Close <$> last bars) bar]) as Hrs.
  { unfold ranges. rewrite true_ranges_app. by destruct (last bars). }
  set (r := true_range _ bar) in *. set (n := length bars) in *.
  assert (length (ranges bars) = n) as Hlen by apply length_true_ranges.
  assert (length (bars ++ [bar]) = S n) as Hn by (rewrite length_app; simpl; lia).
  assert (previous (mkATR (Z.of_nat period) 0 dzero dzero (br_Close bar) true true) = br_Close <$> last (bars ++ [bar])) as Hprev by (by rewrite last_snoc).
  destruct (Z.compare_spec (at_count a + 1) (Z.of_nat period)) as [E|E|E]; rewrite Ic in E; fold n in E;
    eexists; (split; [reflexivity|]); split; simpl; rewrite ?Ic; fold n; rewrite ?Hn, ?Hrs; try lia; try done.
  - intros _. rewrite dval_add, Is, Htr, qsum_app by lia. reflexivity.
  - unfold smoothed. rewrite length_app, Hlen. simpl. rewrite (proj2 (Nat.ltb_ge _ _)) by lia.
    rewrite take_ge, drop_ge by (rewrite length_app, Hlen; simpl; lia). simpl.
    rewrite dval_div, dval_int, dval_add, Is, Htr, qsum_app by (try lia; rewrite dval_int; intros Hz; unfold Qeq in Hz; simpl in Hz; lia).
    reflexivity.
  - symmetry. apply Nat.leb_le. lia.
  - intros _. rewrite dval_add, Is, Htr, qsum_app by lia. reflexivity.
  - rewrite Iv. unfold smoothed. rewrite length_app, Hlen. simpl. rewrite !(proj2 (Nat.ltb_lt _ _)) by lia. reflexivity.
  - rewrite Ii. rewrite !(proj2 (Nat.leb_gt _ _)) by lia. done.
  - unfold smoothed in *. rewrite length_app, Hlen in *. simpl. rewrite (proj2 (Nat.ltb_ge _ _)) in Iv by lia. rewrite (proj2 (Nat.ltb_ge _ _)) by lia.
    rewrite take_app_le, drop_app_le, foldl_app by lia. simpl. unfold wilder at 1.
    rewrite dval_div, dval_int, dval_add, dval_mul, dval_sub, !dval_int, Htr, Iv by (rewrite dval_int; intros Hz; unfold Qeq in Hz; simpl in Hz; lia).
    reflexivity.
  - rewrite Ii, !(proj2 (Nat.leb_le _ _)) by lia. done.
Qed.

(** The average true range after valid bars: zero before it has seen as many bars as its
    period, then the mean of the first true ranges, and from then on Wilder's smoothing, each
    division rounded to 16 places; it is initialized exactly from the period on. *)
Theorem ATR_smoothed (period : nat) atr bars :
  NewAverageTrueRange (Z.of_nat period) = Ok atr -> Forall (fun bar => Bar_Validate bar = Ok tt) bars ->
  let a := ATR_updates (Some atr) bars in
  dval (ATR_Value a) == smoothed period (ranges bars) /\ ATR_Count a = Z.of_nat (length bars) /\
  ATR_Initialized a = Nat.leb period (length bars).
Proof.
  unfold NewAverageTrueRange. destruct (Z.leb_spec (Z.of_nat period) 0) as [|Hp]; [done|]. intros [= <-] Hv.
  assert (exists a, ATR_updates (Some (mkATR (Z.of_nat period) 0 dzero dzero dzero false false)) bars = Some a /\ atr_is period bars a) as (a & -> & Ha).
  { induction bars as [|bar bars IH] using rev_ind.
    - eexists. split; [reflexivity|]. split; try done; simpl; [intros; apply dval_zero | | by rewrite (proj2 (Nat.leb_gt _ _)) by lia].
      unfold smoothed. simpl. rewrite (proj2 (Nat.ltb_lt _ _)) by lia. apply dval_zero.
    - apply Forall_app in Hv as [Hv [Hb _]%Forall_cons]. destruct (IH Hv) as (a & Ea & Ha). rewrite ATR_updates_app, Ea.
      apply ATR_step; [lia | done | done]. }
  destruct Ha as [_ Ic _ _ Iv Ii]. done.
Qed.
End facts.
