(* ===== verification/BacktestRuntime.v ===== *)
(** * The runtime of the back-test (backtest/runner.go, strategy/engine.go)

    State of the runner's [runtime], the execution client it registers for every account,
    strategies as programs over the commands of [strategy.Runtime], and the dispatch of events to
    them.  A strategy may call the runtime from inside an event, so everything that dispatches
    takes the commands as an argument [self] ([Calls]); the knot is tied in [BacktestOrders].

    Contexts are never done.  The bus is the list of what was published: a [Publish] that waits
    for a subscriber is in [Bus].  The strategy engine is the list of its strategies with
    synchronous dispatch, as [NewRunner] builds it. *)
From stdpp Require Import base gmap sets list strings sorting.
From S2P Require Import Prelude Partial Bus Decimals Enums Identifiers Orders Market Accounts OrderLists Indicators DataEngine.
From S2P Require Import Cache Kernel Reconciler ExecManager Emulator ExecEngine Portfolio Matching.

Open Scope go_scope.

Section runtime.
Context {DD : Decimal} {FF : FillModel} {W : Type}.

(** ** Data *)

(** [strategy.TimerEvent], and what an envelope of the run carries; a message of another type is
    passed on only. *)
Record TimerEvent := mkTimerEvent { te_Name : string; te_Timestamp : time }.
Inductive Message :=
  | MarketMessage (event : MarketEvent)
  | ExecutionMessage (event : ExecutionEvent)
  | TimerMessage (event : TimerEvent)
  | OtherMessage (name : string).

Definition TopicExecution : string := "execution".
Definition TopicMarketData : string := "market.data".
Definition TopicTimer : string := "timer".

Record timerState := mkTimerState { ti_name : string; ti_interval : duration; ti_next : time }.
Definition parentOrderKey : Type := AccountID * ClientOrderID.
Definition orderListKey : Type := AccountID * OrderListID.
Definition latencyOrderKey : Type := AccountID * OrderID.

(** What a [backtestExecutionClient] reads and writes of the runtime it points to. *)
Record client_view := mkClientView { cv_cache : Cache; cv_now : time; cv_nextOrder : Z }.

(** ** Strategies

    A method of a strategy is a program: steps on the state of the code outside, and calls of
    [strategy.Runtime] with their responses. *)
Inductive Command :=
  | DoSubscribeMarketData (sub : SubscribeMarketData)
  | DoUnsubscribeMarketData (sub : SubscribeMarketData)
  | DoSetTimer (name : string) (interval : duration)
  | DoCancelTimer (name : string)
  | DoOrderFactory (accountID : AccountID) (use : OrderFactory -> OrderFactory)
  | DoRequestData (request : DataRequest)
  | DoSubmitOrder (order : SubmitOrder)
  | DoSubmitOrderList (l : OrderList)
  | DoModifyOrder (modify : ModifyOrder)
  | DoCancelOrder (cancel : CancelOrder)
  | DoBatchCancelOrders (batch : BatchCancelOrders)
  | DoCancelAllOrders (cancelAll : CancelAllOrders)
  | DoQueryOrder (query : QueryOrder)
  | DoQueryAccount (query : QueryAccount)
  | DoRead.

Inductive Response :=
  | Returned (r : res unit)
  | ReturnedFactory (f : OrderFactory)
  | ReturnedData (r : res DataResponse)
  | ReturnedReport (r : res OrderStatusReport)
  | ReturnedReports (reports : list OrderStatusReport) (err : option error)
  | ReturnedAccount (r : res AccountSnapshot)
  | ReturnedRead (c : Cache) (p : option Portfolio) (now : time).

Inductive Program :=
  | Done (result : res unit)
  | Local (f : W -> W) (k : W -> Program)
  | Invoke (command : Command) (k : Response -> Program).

(** [strategy.Strategy] *)
Record Strategy := mkStrategy {
  sg_ID : StrategyID;
  sg_OnStart : Program;
  sg_OnEvent : Envelope (A := Message) -> Program;
  sg_OnStop : Program;
}.

(** [commandMetadataRuntime]: the commands of a strategy carry its identity. *)
Definition commandMetadata (strategyID : StrategyID) (now : time) (metadata : CommandMetadata) : CommandMetadata :=
  CommandMetadata_WithDefaults metadata (mkCommandMetadata "" strategyID "" "" "" "" "" "" now ∅).

Definition with_metadata (strategyID : StrategyID) (now : time) (command : Command) : Command :=
  let defaults := commandMetadata strategyID now in
  match command with
  | DoRequestData q => DoRequestData (mkDataRequest (defaults (dr_Metadata q)) (dr_RequestID q) (dr_InstrumentID q)
      (dr_Type q) (dr_BarType q) (dr_Start q) (dr_End q) (dr_Limit q) (dr_Depth q) (dr_CustomType q))
  | DoSubmitOrder o => DoSubmitOrder (o <| so_Metadata := defaults (so_Metadata o) |>)
  | DoSubmitOrderList l =>
      DoSubmitOrderList (OrderList_WithCommandMetadataDefaults (l <| ol_Metadata := defaults (ol_Metadata l) |>))
  | DoModifyOrder m => DoModifyOrder (mkModifyOrder (defaults (mo_Metadata m)) (mo_AccountID m) (mo_InstrumentID m)
      (mo_OrderID m) (mo_VenueOrderID m) (mo_ClientOrderID m) (mo_Quantity m) (mo_Price m) (mo_TriggerPrice m)
      (mo_ActivationPrice m) (mo_TrailingOffset m) (mo_TrailingOffsetType m) (mo_TimeInForce m))
  | DoCancelOrder x => DoCancelOrder (mkCancelOrder (defaults (co_Metadata x)) (co_AccountID x) (co_InstrumentID x)
      (co_OrderID x) (co_ClientOrderID x))
  | DoBatchCancelOrders b =>
      let metadata := defaults (bc_Metadata b) in
      DoBatchCancelOrders (mkBatchCancelOrders metadata (bc_AccountID b) (bc_InstrumentID b)
        ((fun x => mkCancelOrder (CommandMetadata_WithDefaults (co_Metadata x) metadata) (co_AccountID x)
                     (co_InstrumentID x) (co_OrderID x) (co_ClientOrderID x)) <$> bc_Cancels b))
  | DoCancelAllOrders a => DoCancelAllOrders (mkCancelAllOrders (defaults (ca_Metadata a)) (ca_AccountID a)
      (ca_InstrumentID a) (ca_OrderSide a))
  | DoQueryOrder q => DoQueryOrder (mkQueryOrder (defaults (qo_Metadata q)) (qo_AccountID q) (qo_InstrumentID q)
      (qo_OrderID q) (qo_VenueOrderID q) (qo_ClientOrderID q))
  | DoQueryAccount q => DoQueryAccount (mkQueryAccount (defaults (qa_Metadata q)) (qa_AccountID q))
  | _ => command
  end.

(** [backtest.runtime]; its cache is that of its execution engine, [rt_engine] the strategies of
    its strategy engine, [rt_bus] what it published, [rt_world] the state of the code outside.
    [rt_cache_shared] tells whether the portfolio was built on the same cache. *)
Record Runtime := mkRuntime {
  rt_cache_shared : bool;
  rt_pf : option Portfolio;
  rt_dataCatalog : option (DataRequest -> W -> W * res DataResponse);
  rt_execEngine : Engine (W := client_view);
  rt_last : LastMarket;
  rt_consumed : Consumed;
  rt_trailing : TrailingState;
  rt_accounts : gset AccountID;
  rt_subs : gmap subscriptionKey SubscribeMarketData;
  rt_factories : gmap AccountID OrderFactory;
  rt_heldChildren : gmap parentOrderKey (list SubmitOrder);
  rt_orderListMembers : gmap orderListKey (list ClientOrderID);
  rt_eligibleAt : gmap latencyOrderKey time;
  rt_executionAccounts : gset AccountID;
  rt_fillModel : option FM;
  rt_orderLatency : duration;
  rt_currentTime : time;
  rt_timers : gmap string timerState;
  rt_nextOrder : Z;
  rt_nextTrade : Z;
  rt_engine : list Strategy;
  rt_bus : list (string * Message);
  rt_world : W;
}.

#[global] Instance set_rt_pf : Setter rt_pf := fun f r => mkRuntime (rt_cache_shared r) (f (rt_pf
  r)) (rt_dataCatalog r) (rt_execEngine r) (rt_last r) (rt_consumed r) (rt_trailing r) (rt_accounts
  r) (rt_subs r) (rt_factories r) (rt_heldChildren r) (rt_orderListMembers r) (rt_eligibleAt r)
  (rt_executionAccounts r) (rt_fillModel r) (rt_orderLatency r) (rt_currentTime r) (rt_timers r)
  (rt_nextOrder r) (rt_nextTrade r) (rt_engine r) (rt_bus r) (rt_world r).
#[global] Instance set_rt_execEngine : Setter rt_execEngine := fun f r => mkRuntime (rt_cache_shared
  r) (rt_pf r) (rt_dataCatalog r) (f (rt_execEngine r)) (rt_last r) (rt_consumed r) (rt_trailing r)
  (rt_accounts r) (rt_subs r) (rt_factories r) (rt_heldChildren r) (rt_orderListMembers r)
  (rt_eligibleAt r) (rt_executionAccounts r) (rt_fillModel r) (rt_orderLatency r) (rt_currentTime r)
  (rt_timers r) (rt_nextOrder r) (rt_nextTrade r) (rt_engine r) (rt_bus r) (rt_world r).
#[global] Instance set_rt_last : Setter rt_last := fun f r => mkRuntime (rt_cache_shared r) (rt_pf
  r) (rt_dataCatalog r) (rt_execEngine r) (f (rt_last r)) (rt_consumed r) (rt_trailing r)
  (rt_accounts r) (rt_subs r) (rt_factories r) (rt_heldChildren r) (rt_orderListMembers r)
  (rt_eligibleAt r) (rt_executionAccounts r) (rt_fillModel r) (rt_orderLatency r) (rt_currentTime r)
  (rt_timers r) (rt_nextOrder r) (rt_nextTrade r) (rt_engine r) (rt_bus r) (rt_world r).
#[global] Instance set_rt_consumed : Setter rt_consumed := fun f r => mkRuntime (rt_cache_shared r)
  (rt_pf r) (rt_dataCatalog r) (rt_execEngine r) (rt_last r) (f (rt_consumed r)) (rt_trailing r)
  (rt_accounts r) (rt_subs r) (rt_factories r) (rt_heldChildren r) (rt_orderListMembers r)
  (rt_eligibleAt r) (rt_executionAccounts r) (rt_fillModel r) (rt_orderLatency r) (rt_currentTime r)
  (rt_timers r) (rt_nextOrder r) (rt_nextTrade r) (rt_engine r) (rt_bus r) (rt_world r).
#[global] Instance set_rt_trailing : Setter rt_trailing := fun f r => mkRuntime (rt_cache_shared r)
  (rt_pf r) (rt_dataCatalog r) (rt_execEngine r) (rt_last r) (rt_consumed r) (f (rt_trailing r))
  (rt_accounts r) (rt_subs r) (rt_factories r) (rt_heldChildren r) (rt_orderListMembers r)
  (rt_eligibleAt r) (rt_executionAccounts r) (rt_fillModel r) (rt_orderLatency r) (rt_currentTime r)
  (rt_timers r) (rt_nextOrder r) (rt_nextTrade r) (rt_engine r) (rt_bus r) (rt_world r).
#[global] Instance set_rt_accounts : Setter rt_accounts := fun f r => mkRuntime (rt_cache_shared r)
  (rt_pf r) (rt_dataCatalog r) (rt_execEngine r) (rt_last r) (rt_consumed r) (rt_trailing r) (f
  (rt_accounts r)) (rt_subs r) (rt_factories r) (rt_heldChildren r) (rt_orderListMembers r)
  (rt_eligibleAt r) (rt_executionAccounts r) (rt_fillModel r) (rt_orderLatency r) (rt_currentTime r)
  (rt_timers r) (rt_nextOrder r) (rt_nextTrade r) (rt_engine r) (rt_bus r) (rt_world r).
#[global] Instance set_rt_subs : Setter rt_subs := fun f r => mkRuntime (rt_cache_shared r) (rt_pf
  r) (rt_dataCatalog r) (rt_execEngine r) (rt_last r) (rt_consumed r) (rt_trailing r) (rt_accounts
  r) (f (rt_subs r)) (rt_factories r) (rt_heldChildren r) (rt_orderListMembers r) (rt_eligibleAt r)
  (rt_executionAccounts r) (rt_fillModel r) (rt_orderLatency r) (rt_currentTime r) (rt_timers r)
  (rt_nextOrder r) (rt_nextTrade r) (rt_engine r) (rt_bus r) (rt_world r).
#[global] Instance set_rt_factories : Setter rt_factories := fun f r => mkRuntime (rt_cache_shared
  r) (rt_pf r) (rt_dataCatalog r) (rt_execEngine r) (rt_last r) (rt_consumed r) (rt_trailing r)
  (rt_accounts r) (rt_subs r) (f (rt_factories r)) (rt_heldChildren r) (rt_orderListMembers r)
  (rt_eligibleAt r) (rt_executionAccounts r) (rt_fillModel r) (rt_orderLatency r) (rt_currentTime r)
  (rt_timers r) (rt_nextOrder r) (rt_nextTrade r) (rt_engine r) (rt_bus r) (rt_world r).
#[global] Instance set_rt_heldChildren : Setter rt_heldChildren := fun f r => mkRuntime
  (rt_cache_shared r) (rt_pf r) (rt_dataCatalog r) (rt_execEngine r) (rt_last r) (rt_consumed r)
  (rt_trailing r) (rt_accounts r) (rt_subs r) (rt_factories r) (f (rt_heldChildren r))
  (rt_orderListMembers r) (rt_eligibleAt r) (rt_executionAccounts r) (rt_fillModel r)
  (rt_orderLatency r) (rt_currentTime r) (rt_timers r) (rt_nextOrder r) (rt_nextTrade r) (rt_engine
  r) (rt_bus r) (rt_world r).
#[global] Instance set_rt_orderListMembers : Setter rt_orderListMembers := fun f r => mkRuntime
  (rt_cache_shared r) (rt_pf r) (rt_dataCatalog r) (rt_execEngine r) (rt_last r) (rt_consumed r)
  (rt_trailing r) (rt_accounts r) (rt_subs r) (rt_factories r) (rt_heldChildren r) (f
  (rt_orderListMembers r)) (rt_eligibleAt r) (rt_executionAccounts r) (rt_fillModel r)
  (rt_orderLatency r) (rt_currentTime r) (rt_timers r) (rt_nextOrder r) (rt_nextTrade r) (rt_engine
  r) (rt_bus r) (rt_world r).
#[global] Instance set_rt_eligibleAt : Setter rt_eligibleAt := fun f r => mkRuntime (rt_cache_shared
  r) (rt_pf r) (rt_dataCatalog r) (rt_execEngine r) (rt_last r) (rt_consumed r) (rt_trailing r)
  (rt_accounts r) (rt_subs r) (rt_factories r) (rt_heldChildren r) (rt_orderListMembers r) (f
  (rt_eligibleAt r)) (rt_executionAccounts r) (rt_fillModel r) (rt_orderLatency r) (rt_currentTime
  r) (rt_timers r) (rt_nextOrder r) (rt_nextTrade r) (rt_engine r) (rt_bus r) (rt_world r).
#[global] Instance set_rt_executionAccounts : Setter rt_executionAccounts := fun f r => mkRuntime
  (rt_cache_shared r) (rt_pf r) (rt_dataCatalog r) (rt_execEngine r) (rt_last r) (rt_consumed r)
  (rt_trailing r) (rt_accounts r) (rt_subs r) (rt_factories r) (rt_heldChildren r)
  (rt_orderListMembers r) (rt_eligibleAt r) (f (rt_executionAccounts r)) (rt_fillModel r)
  (rt_orderLatency r) (rt_currentTime r) (rt_timers r) (rt_nextOrder r) (rt_nextTrade r) (rt_engine
  r) (rt_bus r) (rt_world r).
#[global] Instance set_rt_fillModel : Setter rt_fillModel := fun f r => mkRuntime (rt_cache_shared
  r) (rt_pf r) (rt_dataCatalog r) (rt_execEngine r) (rt_last r) (rt_consumed r) (rt_trailing r)
  (rt_accounts r) (rt_subs r) (rt_factories r) (rt_heldChildren r) (rt_orderListMembers r)
  (rt_eligibleAt r) (rt_executionAccounts r) (f (rt_fillModel r)) (rt_orderLatency r)
  (rt_currentTime r) (rt_timers r) (rt_nextOrder r) (rt_nextTrade r) (rt_engine r) (rt_bus r)
  (rt_world r).
#[global] Instance set_rt_currentTime : Setter rt_currentTime := fun f r => mkRuntime
  (rt_cache_shared r) (rt_pf r) (rt_dataCatalog r) (rt_execEngine r) (rt_last r) (rt_consumed r)
  (rt_trailing r) (rt_accounts r) (rt_subs r) (rt_factories r) (rt_heldChildren r)
  (rt_orderListMembers r) (rt_eligibleAt r) (rt_executionAccounts r) (rt_fillModel r)
  (rt_orderLatency r) (f (rt_currentTime r)) (rt_timers r) (rt_nextOrder r) (rt_nextTrade r)
  (rt_engine r) (rt_bus r) (rt_world r).
#[global] Instance set_rt_timers : Setter rt_timers := fun f r => mkRuntime (rt_cache_shared r)
  (rt_pf r) (rt_dataCatalog r) (rt_execEngine r) (rt_last r) (rt_consumed r) (rt_trailing r)
  (rt_accounts r) (rt_subs r) (rt_factories r) (rt_heldChildren r) (rt_orderListMembers r)
  (rt_eligibleAt r) (rt_executionAccounts r) (rt_fillModel r) (rt_orderLatency r) (rt_currentTime r)
  (f (rt_timers r)) (rt_nextOrder r) (rt_nextTrade r) (rt_engine r) (rt_bus r) (rt_world r).
#[global] Instance set_rt_nextOrder : Setter rt_nextOrder := fun f r => mkRuntime (rt_cache_shared
  r) (rt_pf r) (rt_dataCatalog r) (rt_execEngine r) (rt_last r) (rt_consumed r) (rt_trailing r)
  (rt_accounts r) (rt_subs r) (rt_factories r) (rt_heldChildren r) (rt_orderListMembers r)
  (rt_eligibleAt r) (rt_executionAccounts r) (rt_fillModel r) (rt_orderLatency r) (rt_currentTime r)
  (rt_timers r) (f (rt_nextOrder r)) (rt_nextTrade r) (rt_engine r) (rt_bus r) (rt_world r).
#[global] Instance set_rt_nextTrade : Setter rt_nextTrade := fun f r => mkRuntime (rt_cache_shared
  r) (rt_pf r) (rt_dataCatalog r) (rt_execEngine r) (rt_last r) (rt_consumed r) (rt_trailing r)
  (rt_accounts r) (rt_subs r) (rt_factories r) (rt_heldChildren r) (rt_orderListMembers r)
  (rt_eligibleAt r) (rt_executionAccounts r) (rt_fillModel r) (rt_orderLatency r) (rt_currentTime r)
  (rt_timers r) (rt_nextOrder r) (f (rt_nextTrade r)) (rt_engine r) (rt_bus r) (rt_world r).
#[global] Instance set_rt_bus : Setter rt_bus := fun f r => mkRuntime (rt_cache_shared r) (rt_pf r)
  (rt_dataCatalog r) (rt_execEngine r) (rt_last r) (rt_consumed r) (rt_trailing r) (rt_accounts r)
  (rt_subs r) (rt_factories r) (rt_heldChildren r) (rt_orderListMembers r) (rt_eligibleAt r)
  (rt_executionAccounts r) (rt_fillModel r) (rt_orderLatency r) (rt_currentTime r) (rt_timers r)
  (rt_nextOrder r) (rt_nextTrade r) (rt_engine r) (f (rt_bus r)) (rt_world r).
#[global] Instance set_rt_world : Setter rt_world := fun f r => mkRuntime (rt_cache_shared r) (rt_pf
  r) (rt_dataCatalog r) (rt_execEngine r) (rt_last r) (rt_consumed r) (rt_trailing r) (rt_accounts
  r) (rt_subs r) (rt_factories r) (rt_heldChildren r) (rt_orderListMembers r) (rt_eligibleAt r)
  (rt_executionAccounts r) (rt_fillModel r) (rt_orderLatency r) (rt_currentTime r) (rt_timers r)
  (rt_nextOrder r) (rt_nextTrade r) (rt_engine r) (rt_bus r) (f (rt_world r)).

Definition RT : Type -> Type := Run Runtime.

(** The calls that a method of the runtime may make while it runs: those of a strategy it
    dispatches to, and its own recursive ones. *)
Record Calls := mkCalls {
  call_command : Command -> RT Response;
  call_ModifyOrder : ModifyOrder -> RT (res OrderStatusReport);
  call_matchOrder : OrderStatusReport -> RT (res unit);
}.

(** [strategy.Engine.Add]; strategies are pointers, never nil here. *)
Definition AddStrategy (strategies : list Strategy) (s : Strategy) : list Strategy * res unit :=
  if sg_ID s ≟ "" then (strategies, Fail (mkErr ErrOther "strategy id is required"))
  else if existsb (fun t => sg_ID t ≟ sg_ID s) strategies
  then (strategies, Fail (mkErr ErrOther "duplicate strategy id"))
  else (strategies ++ [s], Ok tt).

(** ** Components the runtime shares its cache with *)

Definition rt_cache (r : Runtime) : Cache := en_cache (rt_execEngine r).
Definition with_cache (r : Runtime) (c : Cache) : Runtime := r <| rt_execEngine := put_cache (rt_execEngine r) c |>.

(** The portfolio, and the runtime after the portfolio has changed. *)
Definition portfolio_of (r : Runtime) : option Portfolio :=
  (fun p => if rt_cache_shared r then p <| pf_cache := rt_cache r |> else p) <$> rt_pf r.
Definition with_portfolio (r : Runtime) (p : Portfolio) : Runtime :=
  let r := r <| rt_pf := Some p |> in
  if rt_cache_shared r then with_cache r (pf_cache p) else r.

(** [r.reconciler.Apply(event)] *)
Definition reconcile (event : ExecutionEvent) : RT (res unit) := fun r =>
  let '(c, result) := Apply (rt_cache r) event in Some (with_cache r c, result).

(** A method of the execution engine.  Its clients read the runtime as it is when the method
    begins: no method changes what they read before it calls them. *)
Definition run_engine {A} (m : ExecEngine.M (W := client_view) A) : RT A := fun r =>
  let '((e, v), a) := m (rt_execEngine r, mkClientView (rt_cache r) (rt_currentTime r) (rt_nextOrder r)) in
  Some (r <| rt_execEngine := e |> <| rt_nextOrder := cv_nextOrder v |>, a).

(** [bus.Publish] *)
Definition publish (topic : string) (message : Message) : RT (res unit) := fun r =>
  Some (r <| rt_bus := rt_bus r ++ [(topic, message)] |>, Ok tt).

(** ** Dispatch *)

Fixpoint run_program (self : Calls) (strategyID : StrategyID) (p : Program) : RT (res unit) :=
  match p with
  | Done result => mret result
  | Local f k =>
      w ← (fun r => let w := f (rt_world r) in Some (r <| rt_world := w |>, w));
      run_program self strategyID (k w)
  | Invoke command k =>
      r ← get_state;
      response ← call_command self (with_metadata strategyID (rt_currentTime r) command);
      run_program self strategyID (k response)
  end.

(** The loops of [strategy.Engine.Process] and [Stop]: every strategy runs, the errors are joined. *)
Fixpoint run_strategies (self : Calls) (method : Strategy -> Program) (strategies : list Strategy) : RT (list error) :=
  match strategies with
  | [] => mret []
  | s :: strategies =>
      r ← run_program self (sg_ID s) (method s);
      errs ← run_strategies self method strategies;
      mret (error_list r ++ errs)
  end.
Definition joined (errs : list error) : res unit := match join_error errs with Some e => Fail e | None => Ok tt end.
Definition Process (self : Calls) (env : Envelope (A := Message)) : RT (res unit) :=
  r ← get_state;
  errs ← run_strategies self (fun s => sg_OnEvent s env) (rt_engine r);
  mret (joined errs).
Definition StopStrategies (self : Calls) : RT (list error) :=
  r ← get_state;
  run_strategies self sg_OnStop (rt_engine r).
(** [strategy.Engine.Start]: up to the first strategy that fails. *)
Definition StartStrategies (self : Calls) : RT (res unit) :=
  r ← get_state;
  run_each (fun s => run_program self (sg_ID s) (sg_OnStart s)) (rt_engine r).

Definition dispatchExecution (self : Calls) (event : ExecutionEvent) : RT (res unit) :=
  r ← get_state;
  try! _ := Process self (mkEnvelope TopicExecution (ExecutionMessage event) (rt_currentTime r)) in
  publish TopicExecution (ExecutionMessage event).

Definition position_lifecycle_event (e : PositionLifecycleEvent) : ExecutionEvent :=
  mkExecutionEvent None None None None None (Some e).

Definition derivePositionLifecycle (c : Cache) (event : ExecutionEvent) : option PositionLifecycleEvent :=
  match ee_Position event with
  | None => None
  | Some position => NewPositionLifecycleEvent (cache_Position c (pr_AccountID position) (pr_PositionID position)) position
  end.

(** [runtime.apply] *)
Definition apply (self : Calls) (event : ExecutionEvent) : RT (res unit) :=
  r ← get_state;
  let positionLifecycle := derivePositionLifecycle (rt_cache r) event in
  try! _ := reconcile event in
  try! _ := dispatchExecution self event in
  match positionLifecycle with
  | Some lifecycle => dispatchExecution self (position_lifecycle_event lifecycle)
  | None => mret (Ok tt)
  end.

(** ** Timers, subscriptions, factories *)

Definition SetTimer (name : string) (interval : duration) : RT (res unit) :=
  match ValidateTimer name interval with
  | Fail e => mret (Fail e)
  | Ok _ =>
      _ ← modify_state (fun r => r <| rt_timers :=
            <[name := mkTimerState name interval (time_Add (rt_currentTime r) interval)]> (rt_timers r) |>);
      mret (Ok tt)
  end.

Definition CancelTimer (name : string) : RT (res unit) :=
  _ ← modify_state (fun r => r <| rt_timers := delete name (rt_timers r) |>);
  mret (Ok tt).

(** The loop of [nextDueTimer] over the timers; [None] stands for the zero timer. *)
Definition consider_timer (until : time) (next : option timerState) (timer : timerState) : option timerState :=
  if After (ti_next timer) until then next
  else match next with
  | None => Some timer
  | Some n =>
      if (ti_name n ≟ "") || Before (ti_next timer) (ti_next n) ||
         time_Equal (ti_next timer) (ti_next n) && String.ltb (ti_name timer) (ti_name n)
      then Some timer else next
  end.
Definition nextDueTimer (timers : list timerState) (until : time) : option timerState :=
  match foldl (consider_timer until) None timers with
  | Some next => if ti_name next ≟ "" then None else Some next
  | None => None
  end.

Definition setTime (t : time) : RT unit := modify_state (fun r => r <| rt_currentTime := t |>).

(** A round of the loop of [DispatchTimersDue], and whether there was a timer. *)
Definition dispatch_timer (self : Calls) (until : time) : RT (bool * res unit) :=
  r ← get_state;
  match nextDueTimer (map_values (rt_timers r)) until with
  | None => mret (false, Ok tt)
  | Some timer =>
      _ ← setTime (ti_next timer);
      let event := TimerMessage (mkTimerEvent (ti_name timer) (ti_next timer)) in
      result ← (try! _ := Process self (mkEnvelope TopicTimer event (ti_next timer)) in
                try! _ := publish TopicTimer event in
                _ ← modify_state (fun r =>
                      match rt_timers r !! ti_name timer with
                      | Some current =>
                          if time_Equal (ti_next current) (ti_next timer)
                          then r <| rt_timers := <[ti_name timer :=
                                 mkTimerState (ti_name current) (ti_interval current)
                                   (time_Add (ti_next current) (ti_interval current))]> (rt_timers r) |>
                          else r
                      | None => r
                      end);
                mret (Ok tt));
      mret (true, result)
  end.

(** The loop itself, with the rounds it may take. *)
Fixpoint DispatchTimersDue (rounds : nat) (self : Calls) (until : time) : RT (res unit) :=
  match rounds with
  | 0 => stuck
  | S rounds =>
      round ← dispatch_timer self until;
      match (round : bool * res unit) with
      | (false, _) => mret (Ok tt)
      | (true, Fail e) => mret (Fail e)
      | (true, Ok _) => DispatchTimersDue rounds self until
      end
  end.

Definition Runtime_SubscribeMarketData (sub : SubscribeMarketData) : RT (res unit) :=
  match SubscribeMarketData_Validate sub with
  | Fail e => mret (Fail e)
  | Ok _ => _ ← modify_state (fun r => r <| rt_subs := <[Key sub := sub]> (rt_subs r) |>); mret (Ok tt)
  end.
Definition Runtime_UnsubscribeMarketData (sub : SubscribeMarketData) : RT (res unit) :=
  match SubscribeMarketData_Validate sub with
  | Fail e => mret (Fail e)
  | Ok _ => _ ← modify_state (fun r => r <| rt_subs := delete (Key sub) (rt_subs r) |>); mret (Ok tt)
  end.

(** The subscriptions that the shorthands [SubscribeTicker] to [SubscribeOrderBookDepth] build. *)
Definition no_bar_type : BarType := mkBarType InstrumentID_zero 0 BarAggregationNone BarPriceTypeNone AggregationSourceNone.
Definition subscription (i : InstrumentID) (typ : MarketDataType) (depth : Z) : SubscribeMarketData :=
  mkSubscribeMarketData i typ depth no_bar_type.
Definition bar_subscription (barType : BarType) : SubscribeMarketData :=
  let barType := BarType_Canonical barType in
  mkSubscribeMarketData (bt_InstrumentID barType) MarketDataTypeBar 0 barType.

(** [OrderFactory]: a strategy uses the factory it gets through the pointer, which is [use]. *)
Definition Runtime_OrderFactory (a : AccountID) (use : OrderFactory -> OrderFactory) : RT OrderFactory := fun r =>
  let f := default (NewOrderFactory a []) (rt_factories r !! a) in
  Some (r <| rt_factories := <[a := use f]> (rt_factories r) |>, f).

(** ** Data *)

(** What [RequestData] reads from the cache for each type. *)
Definition cached_event (c : Cache) (request : DataRequest) : res MarketEvent :=
  let id := dr_InstrumentID request in
  let missing := Fail (mkErr ErrInvalidMarketData "not found") in
  match dr_Type request with
  | MarketDataTypeTicker => match cache_Ticker c id with
      | Some x => Ok (mkMarketEvent (Some x) None None None None None None) | None => missing end
  | MarketDataTypeOrderBook => match cache_OrderBook c id with
      | Some x => Ok (mkMarketEvent None (Some x) None None None None None) | None => missing end
  | MarketDataTypeTradeTick => match cache_TradeTick c id with
      | Some x => Ok (mkMarketEvent None None (Some x) None None None None) | None => missing end
  | MarketDataTypeQuoteTick => match cache_QuoteTick c id with
      | Some x => Ok (mkMarketEvent None None None (Some x) None None None) | None => missing end
  | MarketDataTypeBar => match cache_Bar c (dr_BarType request) with
      | Some x => Ok (mkMarketEvent None None None None (Some x) None None) | None => missing end
  | MarketDataTypeFundingRate => match cache_FundingRate c id with
      | Some x => Ok (mkMarketEvent None None None None None (Some x) None) | None => missing end
  | MarketDataTypeCustom => match cache_CustomData c id (dr_CustomType request) with
      | Some x => Ok (mkMarketEvent None None None None None None (Some x)) | None => missing end
  | _ => Fail (mkErr ErrNotSupported "unsupported data request type")
  end.

Definition put_event (r : Runtime) (event : MarketEvent) : Runtime :=
  match PutMarketEvent (rt_cache r) event with Ok c => with_cache r c | Fail _ => r end.

(** The query of the catalog, when there is one. *)
Definition query_catalog (request : DataRequest) : RT (res DataResponse) := fun r =>
  match rt_dataCatalog r with
  | None => Some (r, Fail (mkErr ErrOther "no catalog"))
  | Some query => let '(w, result) := query request (rt_world r) in Some (r <| rt_world := w |>, result)
  end.

Definition Runtime_RequestData (request : DataRequest) : RT (res DataResponse) :=
  match DataRequest_Validate request with
  | Fail e => mret (Fail e)
  | Ok _ =>
      answer ← query_catalog request;
      match answer with
      | Ok response =>
          _ ← modify_state (fun r => foldl put_event r (ds_Events response));
          mret (Ok response)
      | Fail _ =>
          r ← get_state;
          match cached_event (rt_cache r) request with
          | Fail e => mret (Fail e)
          | Ok event =>
              let response := mkDataResponse (dr_Metadata request) (dr_RequestID request) (dr_InstrumentID request)
                (dr_Type request) (BarType_Canonical (dr_BarType request)) [event] true in
              match DataResponse_Validate response with
              | Fail e => mret (Fail e)
              | Ok _ => mret (Ok response)
              end
          end
      end
  end.

(** The stores of [RecordMarket] for the data of an event: the last value, and liquidity anew. *)
Definition refresh (i : InstrumentID) (last : LastMarket) (r : Runtime) : Runtime :=
  r <| rt_last := last |> <| rt_consumed := <[i := ∅]> (rt_consumed r) |>.
Definition record_ticker (x : Ticker) (r : Runtime) : Runtime := let l := rt_last r in
  refresh (tk_InstrumentID x) (mkLastMarket (<[tk_InstrumentID x := x]> (lm_lastTicker l)) (lm_lastBooks l)
    (lm_lastTrades l) (lm_lastQuotes l) (lm_lastBars l) (lm_lastFundingRates l)) r.
Definition record_book (x : OrderBook) (r : Runtime) : Runtime := let l := rt_last r in
  refresh (ob_InstrumentID x) (mkLastMarket (lm_lastTicker l) (<[ob_InstrumentID x := x]> (lm_lastBooks l))
    (lm_lastTrades l) (lm_lastQuotes l) (lm_lastBars l) (lm_lastFundingRates l)) r.
Definition record_trade (x : TradeTick) (r : Runtime) : Runtime := let l := rt_last r in
  refresh (tt_InstrumentID x) (mkLastMarket (lm_lastTicker l) (lm_lastBooks l)
    (<[tt_InstrumentID x := x]> (lm_lastTrades l)) (lm_lastQuotes l) (lm_lastBars l) (lm_lastFundingRates l)) r.
Definition record_quote (x : QuoteTick) (r : Runtime) : Runtime := let l := rt_last r in
  refresh (qt_InstrumentID x) (mkLastMarket (lm_lastTicker l) (lm_lastBooks l) (lm_lastTrades l)
    (<[qt_InstrumentID x := x]> (lm_lastQuotes l)) (lm_lastBars l) (lm_lastFundingRates l)) r.
Definition record_bar (x : Bar) (r : Runtime) : Runtime := let l := rt_last r in
  let i := bt_InstrumentID (BarType_Canonical (br_BarType x)) in
  refresh i (mkLastMarket (lm_lastTicker l) (lm_lastBooks l) (lm_lastTrades l) (lm_lastQuotes l)
    (<[i := x]> (lm_lastBars l)) (lm_lastFundingRates l)) r.
Definition record_funding (x : FundingRate) (r : Runtime) : Runtime := let l := rt_last r in
  r <| rt_last := mkLastMarket (lm_lastTicker l) (lm_lastBooks l) (lm_lastTrades l) (lm_lastQuotes l) (lm_lastBars l)
    (<[fd_InstrumentID x := x]> (lm_lastFundingRates l)) |>.

Definition record_opt {A} (record : A -> Runtime -> Runtime) (o : option A) (r : Runtime) : Runtime :=
  match o with Some x => record x r | None => r end.

Definition mark_portfolio (event : MarketEvent) (r : Runtime) : Runtime :=
  match portfolio_of r with
  | None => r
  | Some p => with_portfolio r (ApplyMarketEvent p event).1
  end.

Definition RecordMarket (message : Message) : RT unit :=
  match message with
  | MarketMessage event =>
      modify_state (fun r =>
        let r := mark_portfolio event (put_event r event) in
        let r := record_opt record_ticker (ev_Ticker event) r in
        let r := record_opt record_book (ev_OrderBook event) r in
        let r := record_opt record_trade (ev_Trade event) r in
        let r := record_opt record_quote (ev_Quote event) r in
        let r := record_opt record_bar (ev_Bar event) r in
        record_opt record_funding (ev_FundingRate event) r)
  | _ => mret tt
  end.

(** ** The execution client of an account *)

Definition validateAccount (own a : AccountID) : res unit :=
  fail_if a ≠? own with mkErr ErrInvalidOrder "execution client account mismatch" ;; Ok tt.

Definition accepted_report (v : client_view) (order : SubmitOrder) : OrderStatusReport :=
  mkOrderStatusReport (so_Metadata order) (so_AccountID order) (so_InstrumentID order) (so_TriggerInstrumentID order)
    (so_OrderListID order) "" ("bt-order-" +:+ itoa (cv_nextOrder v)) "" (so_ParentClientOrderID order)
    (so_ClientOrderID order) OrderStatusAccepted (so_Side order) (so_Type order) (so_Contingency order)
    (so_Quantity order) dzero (so_Quantity order) (so_Price order) (so_TriggerPrice order) (so_ActivationPrice order)
    (so_TrailingOffset order) (so_TrailingOffsetType order) (so_PostOnly order) (so_ReduceOnly order)
    (so_TimeInForce order) (so_ExpireTime order) dzero (cv_now v).

Definition client_SubmitOrder (own : AccountID) (v : client_view) (order : SubmitOrder)
    : client_view * res OrderStatusReport :=
  match validateAccount own (so_AccountID order), SubmitOrder_Validate order with
  | Fail e, _ | _, Fail e => (v, Fail e)
  | _, _ =>
      let v := mkClientView (cv_cache v) (cv_now v) (cv_nextOrder v + 1) in
      (v, Ok (accepted_report v order))
  end.

(** [r.cache.Order] or, when the command names the client's id, [r.cache.OrderByClientID]. *)
Definition find_cancel (c : Cache) (cancel : CancelOrder) : option OrderStatusReport :=
  match cache_Order c (co_AccountID cancel) (co_OrderID cancel) with
  | Some order => Some order
  | None => if co_ClientOrderID cancel ≠? "" then OrderByClientID c (co_AccountID cancel) (co_ClientOrderID cancel)
            else None
  end.
(** [findOrder] and [findQueriedOrder] *)
Definition find_by_ids (c : Cache) (a : AccountID) (o : OrderID) (cl : ClientOrderID) (v : VenueOrderID)
    : option OrderStatusReport :=
  match (if o ≠? "" then cache_Order c a o else None) with
  | Some order => Some order
  | None =>
      match (if cl ≠? "" then OrderByClientID c a cl else None) with
      | Some order => Some order
      | None => if v ≠? "" then OrderByVenueID c a v else None
      end
  end.
Definition findOrder (c : Cache) (m : ModifyOrder) : option OrderStatusReport :=
  find_by_ids c (mo_AccountID m) (mo_OrderID m) (mo_ClientOrderID m) (mo_VenueOrderID m).
Definition findQueriedOrder (c : Cache) (q : QueryOrder) : option OrderStatusReport :=
  find_by_ids c (qo_AccountID q) (qo_OrderID q) (qo_ClientOrderID q) (qo_VenueOrderID q).

Definition fillBacktestModifyIdentity (m : ModifyOrder) (existing : OrderStatusReport) : ModifyOrder :=
  mkModifyOrder (mo_Metadata m) (mo_AccountID m)
    (if mo_InstrumentID m ≟ InstrumentID_zero then or_InstrumentID existing else mo_InstrumentID m)
    (or_default (mo_OrderID m) (or_OrderID existing)) (or_default (mo_VenueOrderID m) (or_VenueOrderID existing))
    (or_default (mo_ClientOrderID m) (or_ClientOrderID existing)) (mo_Quantity m) (mo_Price m) (mo_TriggerPrice m)
    (mo_ActivationPrice m) (mo_TrailingOffset m) (mo_TrailingOffsetType m) (mo_TimeInForce m).
Definition fillBacktestCancelIdentity (x : CancelOrder) (existing : OrderStatusReport) : CancelOrder :=
  mkCancelOrder (co_Metadata x) (co_AccountID x)
    (if co_InstrumentID x ≟ InstrumentID_zero then or_InstrumentID existing else co_InstrumentID x)
    (or_default (co_OrderID x) (or_OrderID existing)) (or_default (co_ClientOrderID x) (or_ClientOrderID existing)).
Definition fillBacktestBatchCancelIdentity (x : CancelOrder) (a : AccountID) (i : InstrumentID) : CancelOrder :=
  mkCancelOrder (co_Metadata x) (or_default (co_AccountID x) a)
    (if co_InstrumentID x ≟ InstrumentID_zero then i else co_InstrumentID x) (co_OrderID x) (co_ClientOrderID x).

Definition not_found : error := mkErr ErrInvalidOrder "order not found".

Definition client_CancelOrder (own : AccountID) (v : client_view) (cancel : CancelOrder)
    : client_view * res OrderStatusReport :=
  (v,
   ensure validateAccount own (co_AccountID cancel) ;;
   ensure CancelOrder_Validate cancel ;;
   match find_cancel (cv_cache v) cancel with
   | None => Fail not_found
   | Some order =>
       fail_if negb (OrderStatus_IsOpen (or_Status order)) with mkErr ErrInvalidOrder "order is not cancelable" ;;
       let cancel := fillBacktestCancelIdentity cancel order in
       Ok (order <| or_Status := OrderStatusCanceled |>
                 <| or_Metadata := CommandMetadata_WithDefaults (co_Metadata cancel) (or_Metadata order) |>
                 <| or_LeavesQuantity := dzero |> <| or_LastUpdatedTime := cv_now v |>)
   end).

Definition client_ModifyOrder (own : AccountID) (v : client_view) (m : ModifyOrder)
    : client_view * res OrderStatusReport :=
  (v,
   ensure validateAccount own (mo_AccountID m) ;;
   ensure ModifyOrder_Validate m ;;
   match findOrder (cv_cache v) m with
   | None => Fail not_found
   | Some existing =>
       let m := fillBacktestModifyIdentity m existing in
       updated ← ApplyOrderModification existing m;
       Ok (updated <| or_Metadata := CommandMetadata_WithDefaults (mo_Metadata m) (or_Metadata updated) |>
                   <| or_LastUpdatedTime := cv_now v |>)
   end).

Definition client_QueryOrder (own : AccountID) (v : client_view) (q : QueryOrder) : client_view * res OrderStatusReport :=
  (v,
   ensure validateAccount own (qo_AccountID q) ;;
   ensure QueryOrder_Validate q ;;
   match findQueriedOrder (cv_cache v) q with
   | None => Fail not_found
   | Some order => Ok (order <| or_Metadata := CommandMetadata_WithDefaults (qo_Metadata q) (or_Metadata order) |>)
   end).

Definition client_QueryAccount (own : AccountID) (v : client_view) : client_view * res AccountSnapshot :=
  (v, Ok (match cache_Account (cv_cache v) own with
          | Some snapshot => snapshot
          | None => mkAccountSnapshot own "BACKTEST" (as_Type AccountSnapshot_zero) "" [] [] 0
          end)).

Definition client_GenerateOrderStatusReports (own : AccountID) (v : client_view) (i : InstrumentID)
    : client_view * res (list OrderStatusReport) :=
  (v, ensure InstrumentID_Validate i ;;
      Ok (List.filter (fun order => or_InstrumentID order ≟ i) (cache_Orders (cv_cache v) own))).

(** [backtestExecutionClient] *)
Definition backtestExecutionClient (own : AccountID) : Client (W := client_view) :=
  mkClient own "BACKTEST" (fun v => (v, Ok tt)) (fun v => (v, Ok tt)) (client_QueryAccount own)
    (client_SubmitOrder own) (client_CancelOrder own) (client_GenerateOrderStatusReports own) None None None
    (Some (client_ModifyOrder own)) (Some (client_QueryOrder own)) None None.

Definition ensureExecutionClient (a : AccountID) : RT (res unit) :=
  if a ≟ "" then mret (Fail (mkErr ErrInvalidOrder "execution account id is required"))
  else
    r ← get_state;
    if bool_decide (a ∈ rt_executionAccounts r) then mret (Ok tt)
    else
      try! _ := run_engine (AddClient (backtestExecutionClient a)) in
      _ ← modify_state (fun r => r <| rt_executionAccounts := {[a]} ∪ rt_executionAccounts r |>);
      mret (Ok tt).

(** ** Queries *)

Definition Runtime_QueryOrder (query : QueryOrder) : RT (res OrderStatusReport) :=
  match QueryOrder_Validate query with
  | Fail e => mret (Fail e)
  | Ok _ =>
      let with_query (order : OrderStatusReport) :=
        order <| or_Metadata := CommandMetadata_WithDefaults (qo_Metadata query) (or_Metadata order) |> in
      try! _ := ensureExecutionClient (qo_AccountID query) in
      answer ← run_engine (Engine_QueryOrder query);
      r ← get_state;
      mret (match answer, findQueriedOrder (rt_cache r) query with
            | Ok report, _ | Fail _, Some report => Ok (with_query report)
            | Fail e, None => Fail e
            end)
  end.

Definition Runtime_QueryAccount (self : Calls) (query : QueryAccount) : RT (res AccountSnapshot) :=
  match QueryAccount_Validate query with
  | Fail e => mret (Fail e)
  | Ok _ =>
      r ← get_state;
      match cache_Account (rt_cache r) (qa_AccountID query) with
      | Some snapshot =>
          try! _ := dispatchExecution self (account_event snapshot) in
          mret (Ok snapshot)
      | None =>
          let snapshot := mkAccountSnapshot (qa_AccountID query) "BACKTEST" (as_Type AccountSnapshot_zero) "" [] [] 0 in
          try! _ := apply self (account_event snapshot) in
          mret (Ok snapshot)
      end
  end.
End runtime.
#[export] Hint Transparent RT : run_le along.
