(* ===== verification/BacktestOrders.v ===== *)
(** * Orders of the back-test (backtest/runner.go)

    Fills and what they cause, matching against the last market data, and the commands on
    orders.  A fill reaches strategies and sibling orders, which may submit, modify and match again:
    those calls go through [self]; [calls] ties the knot with rounds of fuel. *)
From stdpp Require Import base gmap sets list strings sorting.
From S2P Require Import Prelude Partial Bus Decimals Enums Identifiers Orders Market Accounts OrderLists DataEngine.
From S2P Require Import Cache Kernel Reconciler ExecManager Emulator ExecEngine Portfolio Matching BacktestRuntime.

Open Scope go_scope.

(** The orders in which Go ranges over the runtime's accounts, over the balance changes of a fill
    and over the portfolio's instruments; they may differ each time. *)
Class Ranges `{DD : Decimal} `{FF : FillModel} {W : Type} := {
  range_accounts : Runtime (W := W) -> list AccountID;
  range_deltas : Runtime (W := W) -> list (Currency * D) -> list (Currency * D);
  range_instruments : Runtime (W := W) -> Currency -> Currency -> list Instrument;
}.

Section orders.
Context {DD : Decimal} {FF : FillModel} {W : Type} {RG : Ranges (W := W)}.
Notation RT := (RT (W := W)).
Notation Calls := (Calls (W := W)).
Notation Runtime := (Runtime (W := W)).
Implicit Types (order : OrderStatusReport) (fill : FillReport) (price quantity : D) (ts : time) (source : FillSource)
  (self : Calls) (r : Runtime).

(** ** Lifecycle events *)

Definition backtestOrderLifecycleFromReport (report : OrderStatusReport) (kind : OrderEventKind) (previous : OrderStatus)
    (reason : string) : OrderLifecycleEvent :=
  mkOrderLifecycleEvent (or_Metadata report) (or_AccountID report) (or_InstrumentID report) (or_OrderID report)
    (or_ClientOrderID report) (or_VenueOrderID report) kind previous (or_Status report) reason (Some report).

Definition backtestOrderSubmittedLifecycle (order : SubmitOrder) : OrderLifecycleEvent :=
  mkOrderLifecycleEvent (so_Metadata order) (so_AccountID order) (so_InstrumentID order) "" (so_ClientOrderID order) ""
    OrderEventSubmitted OrderStatusInitialized OrderStatusSubmitted "" None.

Definition apply_lifecycle self (report : OrderStatusReport) (kind : OrderEventKind) (previous : OrderStatus)
    : RT (res unit) :=
  apply self (lifecycle_event (backtestOrderLifecycleFromReport report kind previous "")).

(** The event of a rejection is dropped when it does not validate. *)
Definition dispatch_rejected self (lifecycle : OrderLifecycleEvent) : RT (res unit) :=
  match ExecutionEvent_Validate (lifecycle_event lifecycle) with
  | Fail _ => mret (Ok tt)
  | Ok _ => apply self (lifecycle_event lifecycle)
  end.
Definition dispatchOrderModifyRejected self (m : ModifyOrder) (previous : OrderStatus)
    (report : option OrderStatusReport) (cause : error) : RT (res unit) :=
  dispatch_rejected self (mkOrderLifecycleEvent (mo_Metadata m) (mo_AccountID m) (mo_InstrumentID m) (mo_OrderID m)
    (mo_ClientOrderID m) (mo_VenueOrderID m) OrderEventModifyRejected previous OrderStatusAccepted (err_msg cause) report).
Definition dispatchOrderCancelRejected self (x : CancelOrder) (previous : OrderStatus)
    (report : option OrderStatusReport) (cause : error) : RT (res unit) :=
  dispatch_rejected self (mkOrderLifecycleEvent (co_Metadata x) (co_AccountID x) (co_InstrumentID x) (co_OrderID x)
    (co_ClientOrderID x) "" OrderEventCancelRejected previous OrderStatusAccepted (err_msg cause) report).

(** ** Accepting *)

Definition registerOrderLatency order : RT unit := modify_state (fun r =>
  if Z.leb (rt_orderLatency r) 0 then r
  else r <| rt_eligibleAt := <[(or_AccountID order, or_OrderID order) :=
                               time_Add (rt_currentTime r) (rt_orderLatency r)]> (rt_eligibleAt r) |>).

Definition orderEligible r order : bool :=
  match rt_eligibleAt r !! (or_AccountID order, or_OrderID order) with
  | None => true
  | Some eligibleAt => negb (Before (rt_currentTime r) eligibleAt)
  end.

Definition acceptOrder self (order : SubmitOrder) : RT (res OrderStatusReport) :=
  match SubmitOrder_Validate order with
  | Fail e => mret (Fail e)
  | Ok _ =>
      try! _ := apply self (lifecycle_event (backtestOrderSubmittedLifecycle order)) in
      try! _ := ensureExecutionClient (so_AccountID order) in
      try! report := run_engine (Engine_SubmitOrder order) in
      try! _ := apply self (order_event report) in
      try! _ := apply_lifecycle self report OrderEventAccepted OrderStatusSubmitted in
      _ ← registerOrderLatency report;
      _ ← modify_state (fun r => r <| rt_accounts := {[so_AccountID order]} ∪ rt_accounts r |>);
      mret (Ok report)
  end.

(** ** Canceling *)

Definition Runtime_CancelOrder self (cancel : CancelOrder) : RT (res OrderStatusReport) :=
  let reject (cancel : CancelOrder) previous report (e : error) : RT (res OrderStatusReport) :=
    _ ← dispatchOrderCancelRejected self cancel previous report e; mret (Fail e) in
  match CancelOrder_Validate cancel with
  | Fail e => reject cancel OrderStatusAccepted None e
  | Ok _ =>
  r ← get_state;
  match find_cancel (rt_cache r) cancel with
  | None => reject cancel OrderStatusAccepted None not_found
  | Some order =>
      let cancel' := fillBacktestCancelIdentity cancel order in
      if negb (OrderStatus_IsOpen (or_Status order)) || (or_Status order ≟ OrderStatusPendingCancel)
      then reject cancel' OrderStatusAccepted (Some order) (mkErr ErrInvalidOrder "order is not cancelable")
      else
        let pending := order <| or_Metadata := CommandMetadata_WithDefaults (co_Metadata cancel') (or_Metadata order) |>
                             <| or_Status := OrderStatusPendingCancel |> <| or_LastUpdatedTime := rt_currentTime r |> in
        try! _ := apply self (order_event pending) in
        try! _ := apply_lifecycle self pending OrderEventPendingCancel (or_Status order) in
        try! _ := ensureExecutionClient (co_AccountID cancel') in
        answer ← run_engine (Engine_CancelOrder cancel');
        match answer with
        | Fail e => reject cancel' OrderStatusPendingCancel (Some pending) e
        | Ok canceled =>
            try! _ := apply self (order_event canceled) in
            try! _ := apply_lifecycle self canceled OrderEventCanceled OrderStatusPendingCancel in
            mret (Ok canceled)
        end
  end end.

(** The loop of [BatchCancelOrders]: reports and errors. *)
Fixpoint cancel_batch self (batch : BatchCancelOrders) (cancels : list CancelOrder)
    : RT (list OrderStatusReport * list error) :=
  match cancels with
  | [] => mret ([], [])
  | cancel :: cancels =>
      let cancel := mkCancelOrder (CommandMetadata_WithDefaults (co_Metadata cancel) (bc_Metadata batch))
        (co_AccountID cancel) (co_InstrumentID cancel) (co_OrderID cancel) (co_ClientOrderID cancel) in
      answer ← Runtime_CancelOrder self
                 (fillBacktestBatchCancelIdentity cancel (bc_AccountID batch) (bc_InstrumentID batch));
      rest ← cancel_batch self batch cancels;
      mret (match answer with Fail e => (rest.1, e :: rest.2) | Ok report => (report :: rest.1, rest.2) end)
  end.

Definition Runtime_BatchCancelOrders self (batch : BatchCancelOrders) : RT reports_and_error :=
  match BatchCancelOrders_Validate batch with
  | Fail e => mret ([], Some e)
  | Ok _ => answer ← cancel_batch self batch (bc_Cancels batch); mret (answer.1, join_error answer.2)
  end.

Definition Runtime_CancelAllOrders self (cancelAll : CancelAllOrders) : RT reports_and_error :=
  match CancelAllOrders_Validate cancelAll with
  | Fail e => mret ([], Some e)
  | Ok _ =>
      r ← get_state;
      let orders := List.filter (CancelAllOrders_MatchesOrder cancelAll) (OpenOrders (rt_cache r) (ca_AccountID cancelAll)) in
      match orders with
      | [] => mret ([], None)
      | _ => Runtime_BatchCancelOrders self (cancel_all_batch cancelAll orders)
      end
  end.

(** An order that closes without the venue: the end of [expireOrder] and [cancelUnfilledRemainder]. *)
Definition close_order self order (status : OrderStatus) (kind : OrderEventKind) : RT (res unit) :=
  r ← get_state;
  let closed := order <| or_Status := status |> <| or_LeavesQuantity := dzero |>
                      <| or_LastUpdatedTime := rt_currentTime r |> in
  try! _ := apply self (order_event closed) in
  apply_lifecycle self closed kind (or_Status order).

Definition expireOrder self order : RT (res unit) :=
  _ ← setTime (or_ExpireTime order);
  close_order self order OrderStatusExpired OrderEventExpired.

Definition cancelUnfilledRemainder self (a : AccountID) (o : OrderID) : RT (res unit) :=
  r ← get_state;
  match cache_Order (rt_cache r) a o with
  | Some order =>
      if negb (OrderStatus_IsOpen (or_Status order)) || IsZero (or_LeavesQuantity order) then mret (Ok tt)
      else close_order self order OrderStatusCanceled OrderEventCanceled
  | None => mret (Ok tt)
  end.

Definition cancelImmediateRemainder self order : RT (res unit) :=
  if (or_TimeInForce order ≠? TimeInForceIOC) && (or_TimeInForce order ≠? TimeInForceFOK) then mret (Ok tt)
  else cancelUnfilledRemainder self (or_AccountID order) (or_OrderID order).

(** [ExpireOpenOrders]: the open orders of each account, as they are when the loop reaches it. *)
Definition ExpireOpenOrders self (until : time) : RT (res unit) :=
  r ← get_state;
  run_each (fun a =>
    r ← get_state;
    run_each (fun order => if shouldExpire order until then expireOrder self order else mret (Ok tt))
      (OpenOrders (rt_cache r) a)) (range_accounts r).

(** ** Order lists *)

Definition appendUniqueClientOrderID (ids : list ClientOrderID) (id : ClientOrderID) : list ClientOrderID :=
  if bool_decide (id ∈ ids) then ids else ids ++ [id].

Definition index_list_order (l : OrderList) r (order : SubmitOrder) : Runtime :=
  let listKey := (so_AccountID order, ol_ID l) in
  let r := r <| rt_orderListMembers :=
    <[listKey := appendUniqueClientOrderID (default [] (rt_orderListMembers r !! listKey)) (so_ClientOrderID order)]>
      (rt_orderListMembers r) |> in
  if so_ParentClientOrderID order ≟ "" then r
  else
    let parentKey := (so_AccountID order, so_ParentClientOrderID order) in
    r <| rt_heldChildren := <[parentKey := default [] (rt_heldChildren r !! parentKey) ++ [order]]> (rt_heldChildren r) |>.
Definition Runtime_indexOrderList (l : OrderList) r : Runtime := foldl (index_list_order l) r (ol_Orders l).

Definition members_of r order : list ClientOrderID :=
  default [] (rt_orderListMembers r !! (or_AccountID order, or_OrderListID order)).

(** The open sibling of a filled order under a member's id. *)
Definition open_sibling r (filled : OrderStatusReport) (id : ClientOrderID) : option OrderStatusReport :=
  if (id ≟ "") || (id ≟ or_ClientOrderID filled) then None
  else match OrderByClientID (rt_cache r) (or_AccountID filled) id with
       | Some sibling => if OrderStatus_IsOpen (or_Status sibling) then Some sibling else None
       | None => None
       end.

Definition resize (order : OrderStatusReport) (quantity : D) : ModifyOrder :=
  mkModifyOrder CommandMetadata_zero (or_AccountID order) (or_InstrumentID order) (or_OrderID order) ""
    (or_ClientOrderID order) quantity dzero dzero dzero dzero TrailingOffsetTypeNone TimeInForceNone.

Definition updateOuoSiblings self (filled : OrderStatusReport) (fillQuantity : D) : RT (res unit) :=
  if (or_OrderListID filled ≟ "") || (or_Contingency filled ≠? ContingencyTypeOUO) || negb (IsPositive fillQuantity)
  then mret (Ok tt)
  else
    r ← get_state;
    run_each (fun id =>
      r ← get_state;
      match open_sibling r filled id with
      | None => mret (Ok tt)
      | Some sibling =>
          let nextQuantity := dsub (or_Quantity sibling) fillQuantity in
          if negb (IsPositive nextQuantity) || LessThanOrEqual nextQuantity (or_FilledQuantity sibling)
          then cancelUnfilledRemainder self (or_AccountID sibling) (or_OrderID sibling)
          else if Equal nextQuantity (or_Quantity sibling) then mret (Ok tt)
          else try! _ := call_ModifyOrder self (resize sibling nextQuantity) in mret (Ok tt)
      end) (members_of r filled).

Definition cancelOcoSiblings self (filled : OrderStatusReport) : RT (res unit) :=
  if (or_OrderListID filled ≟ "") || (or_Contingency filled ≠? ContingencyTypeOCO) then mret (Ok tt)
  else
    r ← get_state;
    run_each (fun id =>
      r ← get_state;
      match open_sibling r filled id with
      | None => mret (Ok tt)
      | Some sibling =>
          try! _ := Runtime_CancelOrder self (mkCancelOrder CommandMetadata_zero (or_AccountID sibling)
                      (or_InstrumentID sibling) (or_OrderID sibling) (or_ClientOrderID sibling)) in
          mret (Ok tt)
      end) (members_of r filled).

(** The first loop of [updateHeldChildren]: resizes the children that are out, accepts the others. *)
Fixpoint release_children self (parent : OrderStatusReport) (children : list SubmitOrder)
    : RT (res (list OrderStatusReport)) :=
  match children with
  | [] => mret (Ok [])
  | child :: children =>
      let targetQuantity := dmin (or_FilledQuantity parent) (so_Quantity child) in
      if negb (IsPositive targetQuantity) then release_children self parent children
      else
        r ← get_state;
        match OrderByClientID (rt_cache r) (so_AccountID child) (so_ClientOrderID child) with
        | Some existing =>
            if OrderStatus_IsOpen (or_Status existing) && GreaterThan targetQuantity (or_Quantity existing)
            then try! _ := call_ModifyOrder self (resize existing targetQuantity) in release_children self parent children
            else release_children self parent children
        | None =>
            try! report := acceptOrder self (child <| so_Quantity := targetQuantity |>) in
            try! accepted := release_children self parent children in
            mret (Ok (report :: accepted))
        end
  end.

Definition updateHeldChildren self (parent : OrderStatusReport) : RT (res unit) :=
  let key := (or_AccountID parent, or_ClientOrderID parent) in
  r ← get_state;
  let children := default [] (rt_heldChildren r !! key) in
  if (length children =? 0)%nat || negb (IsPositive (or_FilledQuantity parent)) then mret (Ok tt)
  else
    try! accepted := release_children self parent children in
    _ ← modify_state (fun r => if or_Status parent ≟ OrderStatusFilled
                               then r <| rt_heldChildren := delete key (rt_heldChildren r) |> else r);
    run_each (fun report =>
      r ← get_state;
      match cache_Order (rt_cache r) (or_AccountID report) (or_OrderID report) with
      | Some current => if OrderStatus_IsOpen (or_Status current) then call_matchOrder self current else mret (Ok tt)
      | None => mret (Ok tt)
      end) accepted.

(** ** Fills *)

(** The zero [Instrument] that a missing key reads as. *)
Definition no_instrument : Instrument :=
  mkInstrument InstrumentID_zero "" InstrumentTypeNone "" "" "" dzero dzero dzero dzero dzero dzero InstrumentStatusNone.
Definition instrument_of r (i : InstrumentID) : Instrument := default no_instrument (cache_Instrument (rt_cache r) i).

Definition Runtime_shouldFillLimitTouch order price quantity ts source : RT bool := fun r =>
  let '(fm, answer) := shouldFillLimitTouch (rt_fillModel r) (instrument_of r (or_InstrumentID order)) order price
                         quantity ts source in
  Some (r <| rt_fillModel := fm |>, answer).

Definition fillPrice order price quantity ts source : RT D := fun r =>
  match rt_fillModel r with
  | None => Some (r, price)
  | Some m =>
      let '(m, slipped) := ApplySlippage m
        (mkFillContext order (instrument_of r (or_InstrumentID order)) source price quantity ts (isLimitTouch order price)
           (negb (backtestFillIsMaker order ts))) price in
      Some (r <| rt_fillModel := Some m |>, slipped)
  end.

Definition applyFillFee r order fill : FillReport :=
  match cache_Instrument (rt_cache r) (OrderStatusReport_TriggerInstrument order) with
  | None => fill
  | Some inst =>
      let rate := backtestFillFeeRate order (fr_Timestamp fill) inst in
      if negb (IsPositive rate) then fill
      else mkFillReport (fr_AccountID fill) (fr_InstrumentID fill) (fr_OrderID fill) (fr_VenueOrderID fill)
             (fr_ClientOrderID fill) (fr_TradeID fill) (fr_PositionID fill) (fr_IsLeg fill) (fr_Side fill) (fr_Price fill)
             (fr_Quantity fill) (dmul (dmul (fr_Price fill) (fr_Quantity fill)) rate) (backtestFillFeeCurrency inst)
             (fr_Timestamp fill)
  end.

Definition newFillReportWithSource order price quantity ts source : RT FillReport :=
  price ← fillPrice order price quantity ts source;
  _ ← modify_state (fun r => r <| rt_nextTrade := (rt_nextTrade r + 1)%Z |>);
  r ← get_state;
  mret (applyFillFee r order
    (mkFillReport (or_AccountID order) (or_InstrumentID order) (or_OrderID order) "" (or_ClientOrderID order)
       ("bt-trade-" +:+ itoa (rt_nextTrade r)) "" false (or_Side order) price quantity dzero "" ts)).

Definition apply_to_portfolio fill (previous : option PositionStatusReport) (position : PositionStatusReport)
    : RT (res unit) := fun r =>
  match portfolio_of r with
  | None => Some (r, Ok tt)
  | Some p =>
      let '(p, result) := ApplyFillWithPosition (range_instruments r) (range_deltas r) p fill previous position in
      Some (with_portfolio r p, result)
  end.

(** What [applyFillAndPosition] books before it tells anyone: the fill, the position it leads to
    and the portfolio's accounts.  It returns that position and the lifecycle event due. *)
Definition record_fill fill : RT (res (PositionStatusReport * option PositionLifecycleEvent)) :=
  r ← get_state;
  let previous := PositionByInstrument (rt_cache r) (fr_AccountID fill) (fr_InstrumentID fill) in
  let position := Matching.nextPosition (rt_cache r) fill in
  try! _ := reconcile (fill_event fill) in
  try! _ := reconcile (position_event position) in
  try! _ := apply_to_portfolio fill previous position in
  mret (Ok (position, NewPositionLifecycleEvent previous position)).

Definition announce_fill self fill (position : PositionStatusReport) (lifecycle : option PositionLifecycleEvent)
    : RT (res unit) :=
  try! _ := dispatchExecution self (fill_event fill) in
  try! _ := dispatchExecution self (position_event position) in
  match lifecycle with
  | None => mret (Ok tt)
  | Some lifecycle =>
      try! _ := reconcile (position_lifecycle_event lifecycle) in
      dispatchExecution self (position_lifecycle_event lifecycle)
  end.

(** What to do with the order of a fill, as it is now, if the cache has it. *)
Definition with_order fill (f : Runtime -> OrderStatusReport -> RT (res unit)) : RT (res unit) :=
  r ← get_state;
  match cache_Order (rt_cache r) (fr_AccountID fill) (fr_OrderID fill) with
  | Some order => f r order
  | None => mret (Ok tt)
  end.

(** What a fill means for its order, its siblings and its children. *)
Definition fill_consequences self fill : RT (res unit) :=
  try! _ := with_order fill (fun r order =>
    if or_ReduceOnly order && OrderStatus_IsOpen (or_Status order) &&
       negb (IsPositive (matchQuantity (rt_cache r) order))
    then cancelUnfilledRemainder self (or_AccountID order) (or_OrderID order)
    else mret (Ok tt)) in
  try! _ := with_order fill (fun _ order => updateOuoSiblings self order (fr_Quantity fill)) in
  try! _ := with_order fill (fun _ order => updateHeldChildren self order) in
  with_order fill (fun _ order =>
    if or_Status order ≠? OrderStatusFilled then mret (Ok tt) else cancelOcoSiblings self order).

Definition applyFillAndPosition self fill : RT (res unit) :=
  booked ← record_fill fill;
  match booked with
  | Fail e => mret (Fail e)
  | Ok (position, lifecycle) =>
      try! _ := announce_fill self fill position lifecycle in
      fill_consequences self fill
  end.

(** A fill of an order, made and applied. *)
Definition execute self order price quantity ts source : RT (res unit) :=
  fill ← newFillReportWithSource order price quantity ts source;
  applyFillAndPosition self fill.

(** ** Matching against each source: whether the order was filled *)

Definition Runtime_recordConsumption (i : InstrumentID) price quantity : RT unit := modify_state (fun r =>
  r <| rt_consumed := recordConsumption (rt_consumed r) i price quantity |>).

Definition Runtime_MatchOrderBook order (book : OrderBook) quantity : RT (list Match) := fun r =>
  let core := mkMatchingCore _ (instrument_of r (or_InstrumentID order)) (rt_fillModel r) in
  let '(fm, matches) := MatchOrderBook core
    (mkOrderBookMatchRequest order book (inner (rt_consumed r) (or_InstrumentID order)) quantity) in
  Some (r <| rt_fillModel := fm |>, matches).

(** The loop over the matches. *)
Fixpoint fill_matches self order (matches : list Match) : RT (res bool) :=
  match matches with
  | [] => mret (Ok false)
  | m :: matches =>
      try! _ := execute self order (mx_Price m) (mx_Quantity m) (mx_Timestamp m) (mx_Source m) in
      _ ← Runtime_recordConsumption (or_InstrumentID order) (mx_Price m) (mx_Quantity m);
      try! _ := fill_matches self order matches in
      mret (Ok true)
  end.

Definition matchAgainstBook self order : RT (res bool) :=
  r ← get_state;
  match lm_lastBooks (rt_last r) !! or_InstrumentID order with
  | None => mret (Ok false)
  | Some book =>
      let quantity := matchQuantity (rt_cache r) order in
      if negb (IsPositive quantity) then mret (Ok false)
      else
        matches ← Runtime_MatchOrderBook order book quantity;
        fill_matches self order matches
  end.

(** The common end of the other sources: the fill model decides, then one fill. *)
Definition fill_at self order price quantity ts source : RT (res bool) :=
  fills ← Runtime_shouldFillLimitTouch order price quantity ts source;
  if negb fills then mret (Ok false)
  else
    try! _ := execute self order price quantity ts source in
    mret (Ok true).

Definition matchAgainstQuote self order : RT (res bool) :=
  r ← get_state;
  match lm_lastQuotes (rt_last r) !! or_InstrumentID order with
  | None => mret (Ok false)
  | Some quote =>
      let '(price, available) := if or_Side order ≟ OrderSideSell then (qt_BidPrice quote, qt_BidSize quote)
                                 else (qt_AskPrice quote, qt_AskSize quote) in
      if negb (IsPositive price) || negb (IsPositive available) || negb (canMatch order price) then mret (Ok false)
      else
        let quantity := matchQuantity (rt_cache r) order in
        if negb (IsPositive quantity) then mret (Ok false)
        else
          let fillQty := dmin quantity (dsub available (consumedAt (rt_consumed r) (or_InstrumentID order) price)) in
          if negb (IsPositive fillQty) then mret (Ok false)
          else
            try! filled := fill_at self order price fillQty (qt_Timestamp quote) FillSourceQuoteTick in
            if negb filled then mret (Ok false)
            else _ ← Runtime_recordConsumption (or_InstrumentID order) price fillQty; mret (Ok true)
  end.

Definition matchAgainstTrade self order : RT (res bool) :=
  r ← get_state;
  match lm_lastTrades (rt_last r) !! or_InstrumentID order with
  | None => mret (Ok false)
  | Some trade =>
      if negb (IsPositive (tt_Price trade)) || negb (canMatch order (tt_Price trade)) then mret (Ok false)
      else
        let quantity := matchQuantity (rt_cache r) order in
        if negb (IsPositive quantity) then mret (Ok false)
        else fill_at self order (tt_Price trade) quantity (tt_Timestamp trade) FillSourceTradeTick
  end.

Definition matchAgainstBar self order : RT (res bool) :=
  r ← get_state;
  match lm_lastBars (rt_last r) !! or_InstrumentID order with
  | None => mret (Ok false)
  | Some bar =>
      match barMatchPrice order bar with
      | None => mret (Ok false)
      | Some price =>
          let quantity := matchQuantity (rt_cache r) order in
          if negb (IsPositive quantity) then mret (Ok false)
          else fill_at self order price quantity (br_Timestamp bar) FillSourceBar
      end
  end.

Definition matchMarketOrderAgainstTicker self order : RT (res unit) :=
  r ← get_state;
  match lm_lastTicker (rt_last r) !! or_InstrumentID order with
  | None => mret (Ok tt)
  | Some ticker =>
      if negb (IsPositive (tk_Last ticker)) then mret (Ok tt)
      else
        let quantity := matchQuantity (rt_cache r) order in
        if negb (IsPositive quantity) then mret (Ok tt)
        else execute self order (tk_Last ticker) quantity (tk_Timestamp ticker) FillSourceTicker
  end.

(** ** Matching by order type *)

(** One source after the other until one fills; what is left of the order is canceled then. *)
Fixpoint first_source self order (sources : list (Calls -> OrderStatusReport -> RT (res bool))) : RT (res unit) :=
  match sources with
  | [] => matchMarketOrderAgainstTicker self order
  | source :: sources =>
      try! matched := source self order in
      if matched then cancelUnfilledRemainder self (or_AccountID order) (or_OrderID order)
      else first_source self order sources
  end.
Definition match_market self order : RT (res unit) :=
  first_source self order [matchAgainstBook; matchAgainstQuote; matchAgainstTrade; matchAgainstBar].

(** Every source in turn, with the order as it was when the matching began. *)
Definition match_limit self order : RT (res unit) :=
  try! _ := matchAgainstBook self order in
  try! _ := matchAgainstQuote self order in
  try! _ := matchAgainstTrade self order in
  try! _ := matchAgainstBar self order in
  mret (Ok tt).

Definition matchMarketToLimit self order : RT (res unit) :=
  r ← get_state;
  let firstPrice := if IsPositive (firstBookPrice (rt_last r) order) then firstBookPrice (rt_last r) order
                    else currentPrice (rt_last r) order in
  book ← matchAgainstBook self order;
  try! matched := (match book with Ok true => mret (Ok true) | _ => matchAgainstQuote self order end) in
  try! matched := (if matched then mret (Ok true) else matchAgainstTrade self order) in
  try! matched := (if matched then mret (Ok true) else matchAgainstBar self order) in
  try! _ := (if matched then mret (Ok tt) else matchMarketOrderAgainstTicker self order) in
  r ← get_state;
  match cache_Order (rt_cache r) (or_AccountID order) (or_OrderID order) with
  | None => mret (Ok tt)
  | Some resting =>
      if negb (OrderStatus_IsOpen (or_Status resting)) || negb (IsZero (or_Price resting)) || negb (IsPositive firstPrice)
      then mret (Ok tt)
      else apply self (order_event (resting <| or_Price := firstPrice |>))
  end.

Definition markTriggered self order : RT (res OrderStatusReport) :=
  if or_Status order ≟ OrderStatusTriggered then mret (Ok order)
  else
    let order := order <| or_Status := OrderStatusTriggered |> in
    try! _ := apply self (order_event order) in
    mret (Ok order).

Definition matchTriggered self order (policy : OrderStatusReport -> D -> bool)
    (match_order : Calls -> OrderStatusReport -> RT (res unit)) : RT (res unit) :=
  r ← get_state;
  if negb (isTriggered (rt_last r) order policy) then mret (Ok tt)
  else try! triggered := markTriggered self order in match_order self triggered.
Definition matchTriggeredMarket self order policy : RT (res unit) := matchTriggered self order policy match_market.
Definition matchTriggeredLimit self order policy : RT (res unit) := matchTriggered self order policy match_limit.

Definition Runtime_isTrailingTriggered order : RT bool := fun r =>
  let '(trailing, answer) := isTrailingTriggered (rt_cache r) (rt_last r) (rt_trailing r) order in
  Some (r <| rt_trailing := trailing |>, answer).

Definition matchTrailing self order (match_order : Calls -> OrderStatusReport -> RT (res unit)) : RT (res unit) :=
  triggered ← Runtime_isTrailingTriggered order;
  if negb triggered then mret (Ok tt)
  else
    r ← get_state;
    let order := match tr_trailingTriggers (rt_trailing r) !! trailingKey order with
                 | Some triggerPrice => order <| or_TriggerPrice := triggerPrice |>
                 | None => order
                 end in
    try! triggered := markTriggered self order in
    match_order self triggered.
Definition matchTrailingMarket self order : RT (res unit) := matchTrailing self order match_market.
Definition matchTrailingLimit self order : RT (res unit) := matchTrailing self order match_limit.

Definition match_by_type self order : RT (res unit) :=
  match or_Type order with
  | OrderTypeMarket => match_market self order
  | OrderTypeMarketToLimit => matchMarketToLimit self order
  | OrderTypeLimit => try! _ := match_limit self order in cancelImmediateRemainder self order
  | OrderTypeStopMarket => matchTriggeredMarket self order stopTrigger
  | OrderTypeMarketIfTouched => matchTriggeredMarket self order touchedTrigger
  | OrderTypeStopLimit => matchTriggeredLimit self order stopTrigger
  | OrderTypeLimitIfTouched => matchTriggeredLimit self order touchedTrigger
  | OrderTypeTrailingStopMarket => matchTrailingMarket self order
  | OrderTypeTrailingStopLimit => matchTrailingLimit self order
  | _ => mret (Ok tt)
  end.

Definition matchOrder self order : RT (res unit) :=
  r ← get_state;
  if negb (OrderStatus_IsOpen (or_Status order)) then mret (Ok tt)
  else if negb (orderEligible r order) then mret (Ok tt)
  else if or_ReduceOnly order && negb (IsPositive (matchQuantity (rt_cache r) order))
  then cancelUnfilledRemainder self (or_AccountID order) (or_OrderID order)
  else if (or_Type order ≟ OrderTypeLimit) && (or_TimeInForce order ≟ TimeInForceFOK) &&
          negb (canFullyFillImmediate (rt_last r) (rt_consumed r) order)
  then cancelUnfilledRemainder self (or_AccountID order) (or_OrderID order)
  else match_by_type self order.

Definition MatchOpenOrders self : RT (res unit) :=
  r ← get_state;
  run_each (fun a => r ← get_state; run_each (matchOrder self) (OpenOrders (rt_cache r) a)) (range_accounts r).

(** ** Submitting and modifying *)

Definition Runtime_SubmitOrder self (order : SubmitOrder) : RT (res OrderStatusReport) :=
  try! report := acceptOrder self order in
  try! _ := matchOrder self report in
  mret (Ok report).

(** The loop of [SubmitOrderList]: the reports so far, and an error. *)
Fixpoint submit_parents self (orders : list SubmitOrder) : RT reports_and_error :=
  match orders with
  | [] => mret ([], None)
  | order :: orders =>
      if so_ParentClientOrderID order ≠? "" then submit_parents self orders
      else
        answer ← Runtime_SubmitOrder self order;
        match answer with
        | Fail e => mret ([], Some e)
        | Ok report => rest ← submit_parents self orders; mret (report :: rest.1, rest.2)
        end
  end.
Definition Runtime_SubmitOrderList self (l : OrderList) : RT reports_and_error :=
  let l := OrderList_WithCommandMetadataDefaults l in
  match OrderList_Validate l with
  | Fail e => mret ([], Some e)
  | Ok _ =>
      _ ← modify_state (Runtime_indexOrderList l);
      submit_parents self (ol_Orders l)
  end.

Definition Runtime_ModifyOrder self (modify : ModifyOrder) : RT (res OrderStatusReport) :=
  let reject (modify : ModifyOrder) previous report (e : error) : RT (res OrderStatusReport) :=
    _ ← dispatchOrderModifyRejected self modify previous report e; mret (Fail e) in
  match ModifyOrder_Validate modify with
  | Fail e => reject modify OrderStatusAccepted None e
  | Ok _ =>
  r ← get_state;
  match findOrder (rt_cache r) modify with
  | None => reject modify OrderStatusAccepted None not_found
  | Some existing =>
  let modify := fillBacktestModifyIdentity modify existing in
  match ApplyOrderModification existing modify with
  | Fail e => reject modify OrderStatusAccepted (Some existing) e
  | Ok _ =>
      let pending := existing <| or_Metadata := CommandMetadata_WithDefaults (mo_Metadata modify) (or_Metadata existing) |>
                              <| or_Status := OrderStatusPendingUpdate |> <| or_LastUpdatedTime := rt_currentTime r |> in
      try! _ := apply self (order_event pending) in
      try! _ := apply_lifecycle self pending OrderEventPendingUpdate (or_Status existing) in
      try! _ := ensureExecutionClient (mo_AccountID modify) in
      answer ← run_engine (Engine_ModifyOrder modify);
      match answer with
      | Fail e => reject modify OrderStatusPendingUpdate (Some pending) e
      | Ok updated =>
          try! _ := apply self (order_event updated) in
          try! _ := apply_lifecycle self updated OrderEventUpdated OrderStatusPendingUpdate in
          try! _ := matchOrder self updated in
          r ← get_state;
          mret (Ok (default updated (cache_Order (rt_cache r) (or_AccountID updated) (or_OrderID updated))))
      end
  end end end.

(** ** Commands, and the knot *)

Definition reports_response (answer : reports_and_error) : Response := ReturnedReports answer.1 answer.2.

Definition run_command self (command : Command) : RT Response :=
  match command with
  | DoSubscribeMarketData sub => Returned <$> Runtime_SubscribeMarketData sub
  | DoUnsubscribeMarketData sub => Returned <$> Runtime_UnsubscribeMarketData sub
  | DoSetTimer name interval => Returned <$> SetTimer name interval
  | DoCancelTimer name => Returned <$> CancelTimer name
  | DoOrderFactory a use => ReturnedFactory <$> Runtime_OrderFactory a use
  | DoRequestData request => ReturnedData <$> Runtime_RequestData request
  | DoSubmitOrder order => ReturnedReport <$> Runtime_SubmitOrder self order
  | DoSubmitOrderList l => reports_response <$> Runtime_SubmitOrderList self l
  | DoModifyOrder modify => ReturnedReport <$> Runtime_ModifyOrder self modify
  | DoCancelOrder cancel => ReturnedReport <$> Runtime_CancelOrder self cancel
  | DoBatchCancelOrders batch => reports_response <$> Runtime_BatchCancelOrders self batch
  | DoCancelAllOrders cancelAll => reports_response <$> Runtime_CancelAllOrders self cancelAll
  | DoQueryOrder query => ReturnedReport <$> Runtime_QueryOrder query
  | DoQueryAccount query => ReturnedAccount <$> Runtime_QueryAccount self query
  | DoRead => r ← get_state; mret (ReturnedRead (rt_cache r) (portfolio_of r) (rt_currentTime r))
  end.

(** [n] bounds how deep the calls may nest. *)
Fixpoint calls (n : nat) : Calls :=
  match n with
  | 0 => mkCalls (fun _ => stuck) (fun _ => stuck) (fun _ => stuck)
  | S n => mkCalls (run_command (calls n)) (Runtime_ModifyOrder (calls n)) (matchOrder (calls n))
  end.
End orders.
