(* ===== verification/BacktestRunner.v ===== *)
(** * Running a back-test (backtest/runner.go, backtest/engine.go, backtest/catalog.go, backtest/results.go)

    The runner replays its events in time order: timers and expiries up to the event, the
    market data, matching, the strategies, matching again.  [n] bounds how deep calls nest
    ([calls]) and [rounds] how many timers fire before one event; without result when they do
    not suffice.  The JSON text of a result is not modelled. *)
From stdpp Require Import base gmap sets list strings sorting.
From Stdlib Require Import QArith.
From S2P Require Import Prelude Partial Bus Decimals Enums Identifiers Orders Market Accounts OrderLists DataEngine Aggregation.
From S2P Require Import Cache Kernel Reconciler ExecManager Emulator ExecEngine Portfolio Matching BacktestRuntime BacktestOrders.

Open Scope go_scope.

(** [DefaultFillModel]; the zero configuration is valid. *)
Definition DefaultFillModel {RR : Rand} : ProbabilisticFillModel :=
  match NewFillModel (mkFillModelConfig 0 false 0 0) with
  | Ok m => m
  | Fail _ => mkProbabilisticFillModel 0 0 (NewSource 0)
  end.

Section runner.
Context {DD : Decimal} {FF : FillModel} {W : Type} {RG : Ranges (W := W)}.
Notation RT := (RT (W := W)).
Notation Calls := (Calls (W := W)).
Notation Runtime := (Runtime (W := W)).
Notation Strategy := (Strategy (W := W)).

(** [backtest.Event] *)
Record Event := mkEvent { bv_At : time; bv_Topic : string; bv_Message : Message }.

(** [backtest.Config]; [cg_SharedCache] tells whether the portfolio was built on the cache. *)
Record Config := mkConfig {
  cg_Cache : option Cache;
  cg_Portfolio : option Portfolio;
  cg_SharedCache : bool;
  cg_DataCatalog : option (DataRequest -> W -> W * res DataResponse);
  cg_ExecutionEngine : option (Engine (W := client_view));
  cg_FillModel : option FM;
  cg_OrderLatency : duration;
  cg_Events : list Event;
  cg_Strategies : list Strategy;
}.

(** [backtest.Runner]; its bus and its engine are parts of the runtime. *)
Record Runner := mkRunner { rn_events : list Event; rn_runtime : Runtime }.

(** [newRuntime] *)
Definition newRuntime (c : Cache) (pf : Portfolio) (shared : bool)
    (dataCatalog : option (DataRequest -> W -> W * res DataResponse)) (execEngine : Engine (W := client_view))
    (fillModel : FM) (orderLatency : duration) (strategies : list Strategy) (w : W) : Runtime :=
  mkRuntime shared (Some pf) dataCatalog (put_cache execEngine c) (mkLastMarket ∅ ∅ ∅ ∅ ∅ ∅) ∅ (mkTrailingState ∅ ∅)
    ∅ ∅ ∅ ∅ ∅ ∅ ∅ (Some fillModel) orderLatency 0 ∅ 0 0 strategies [] w.

(** [NewRunner]: the errors of [Add] are dropped, and with them the strategies it refuses. *)
Definition NewRunner (fallback : FM) (cfg : Config) (w : W) : Runner :=
  let c := default New (cg_Cache cfg) in
  let portfolioCache := foldl (fun pc inst => match PutInstrument pc inst with Ok pc => pc | Fail _ => pc end) New
                          (cache_Instruments c) in
  let pf := default (NewPortfolio (Some portfolioCache)) (cg_Portfolio cfg) in
  let execEngine := default (ExecEngine.NewEngine (Some c) None None) (cg_ExecutionEngine cfg) in
  let strategies := foldl (fun l s => (AddStrategy l s).1) [] (cg_Strategies cfg) in
  mkRunner (cg_Events cfg)
    (newRuntime c pf (cg_SharedCache cfg) (cg_DataCatalog cfg) execEngine (default fallback (cg_FillModel cfg))
       (cg_OrderLatency cfg) strategies w).

(** [sort.SliceStable] by time. *)
Fixpoint insert_event (event : Event) (l : list Event) : list Event :=
  match l with
  | [] => [event]
  | x :: l' => if Before (bv_At event) (bv_At x) then event :: l else x :: insert_event event l'
  end.
Definition sort_events (l : list Event) : list Event := foldl (fun sorted event => insert_event event sorted) [] l.

(** One round of the loop of [Run]: its timers, then the rest. *)
Definition after_timers (self : Calls) (event : Event) : RT (res unit) :=
  let market := bv_Topic event ≟ TopicMarketData in
  try! _ := ExpireOpenOrders self (bv_At event) in
  _ ← setTime (bv_At event);
  _ ← RecordMarket (bv_Message event);
  try! _ := (if market then MatchOpenOrders self else mret (Ok tt)) in
  try! _ := Process self (mkEnvelope (bv_Topic event) (bv_Message event) (bv_At event)) in
  if market then MatchOpenOrders self else mret (Ok tt).
Definition run_event (rounds : nat) (self : Calls) (event : Event) : RT (res unit) :=
  try! _ := DispatchTimersDue rounds self (bv_At event) in
  after_timers self event.

(** The loop: the events processed, and the error that ended it. *)
Fixpoint run_events (rounds : nat) (self : Calls) (events : list Event) (processed : nat) : RT (nat * list error) :=
  match events with
  | [] => mret (processed, [])
  | event :: events =>
      result ← run_event rounds self event;
      match result with
      | Fail e => mret (processed, [e])
      | Ok _ => run_events rounds self events (S processed)
      end
  end.

(** [backtest.Result]; the zero value where [Run] fails before its first event. *)
Record Result := mkResult {
  rs_EventsProcessed : nat;
  rs_Cache : option Cache;
  rs_Portfolio : option Portfolio;
  rs_AccountIDs : list AccountID;
  rs_Execution : option EngineHealth;
}.

Definition accountIDs (r : Runtime) : list AccountID := merge_sort String.le (elements (rt_accounts r)).

(** [Runner.Run] on the runtime of the runner. *)
Definition Runner_Run (n rounds : nat) (events : list Event) : RT (Result * option error) :=
  let self := calls n in
  let events := sort_events events in
  _ ← (match events with [] => mret tt | event :: _ => setTime (bv_At event) end);
  started ← StartStrategies self;
  match started with
  | Fail e => mret (mkResult 0 None None [] None, Some e)
  | Ok _ =>
      outcome ← run_events rounds self events 0;
      stopped ← StopStrategies self;
      r ← get_state;
      mret (mkResult outcome.1 (Some (rt_cache r)) (portfolio_of r) (accountIDs r) (Some (Engine_Health (rt_execEngine r))),
            join_error (outcome.2 ++ option_list (join_error stopped)))
  end.

(** ** The summary of a result (results.go) *)

Record AccountResultSummary := mkAccountResultSummary {
  su_AccountID : AccountID;
  su_Orders : list OrderStatusReport;
  su_Fills : list FillReport;
  su_Positions : list PositionStatusReport;
}.
Record ResultSummary := mkResultSummary {
  ru_EventsProcessed : nat;
  ru_Accounts : list AccountResultSummary;
}.

(** By time, order and trade. *)
Definition summary_le : relation FillReport :=
  lex_le Z.le (lex_le String.le String.le fst snd) fr_Timestamp (fun fill => (fr_OrderID fill, fr_TradeID fill)).

Definition account_summary (c : Cache) (a : AccountID) : AccountResultSummary :=
  let orders := cache_Orders c a in
  let fills := mjoin ((fun order => FillsForOrder c a (or_OrderID order)) <$> orders) in
  mkAccountResultSummary a orders (merge_sort summary_le fills) (cache_Positions c a).

Definition Summary (result : Result) (ids : list AccountID) : ResultSummary :=
  match rs_Cache result with
  | None => mkResultSummary (rs_EventsProcessed result) []
  | Some c =>
      let ids := match ids with [] => rs_AccountIDs result | _ => ids end in
      mkResultSummary (rs_EventsProcessed result) (account_summary c <$> merge_sort String.le ids)
  end.

(** ** The back-test engine and its catalogs (engine.go, catalog.go) *)

(** [backtest.MemoryCatalog] *)
Definition EventCatalog : Type := list Event.
Definition catalog_Add (c : EventCatalog) (event : Event) : EventCatalog := c ++ [event].
Definition catalog_Events (c : EventCatalog) : list Event := c.

(** [data.ReplayCatalog], an implementation of code outside. *)
Record ReplayCatalog := mkReplayCatalog {
  rp_Events : W -> W * res (list MarketEvent);
  rp_Query : DataRequest -> W -> W * res DataResponse;
}.

(** [backtest.Engine]; the interfaces may be nil. *)
Record BacktestEngine := mkBacktestEngine {
  be_catalog : option (W -> W * res (list Event));
  be_dataCatalog : option ReplayCatalog;
  be_events : list Event;
  be_strategies : list Strategy;
}.
Definition NewBacktestEngine (catalog : option (W -> W * res (list Event))) (dataCatalog : option ReplayCatalog)
    : BacktestEngine := mkBacktestEngine catalog dataCatalog [] [].
Definition AddData (e : BacktestEngine) (event : Event) : BacktestEngine :=
  mkBacktestEngine (be_catalog e) (be_dataCatalog e) (be_events e ++ [event]) (be_strategies e).
Definition AddBacktestStrategy (e : BacktestEngine) (s : Strategy) : BacktestEngine :=
  mkBacktestEngine (be_catalog e) (be_dataCatalog e) (be_events e) (be_strategies e ++ [s]).

(** A catalog that may be nil: what it holds, as events. *)
Definition read_catalog {A} (catalog : option (W -> W * res (list A))) (event : A -> Event) (w : W)
    : W * res (list Event) :=
  match catalog with
  | None => (w, Ok [])
  | Some read => let '(w, r) := read w in (w, List.map event <$> r)
  end.
Definition replayed (event : MarketEvent) : Event := mkEvent (marketEventTime event) TopicMarketData (MarketMessage event).

(** The events of [Engine.Run]. *)
Definition engine_events (e : BacktestEngine) (w : W) : W * res (list Event) :=
  let '(w, stored) := read_catalog (be_catalog e) id w in
  match stored with
  | Fail err => (w, Fail err)
  | Ok stored =>
      let '(w, market) := read_catalog (rp_Events <$> be_dataCatalog e) replayed w in
      (w, (fun market => be_events e ++ stored ++ market) <$> market)
  end.

(** [Engine.Run]: the outside after it, the result and the error. *)
Definition BacktestEngine_Run (n rounds : nat) (fallback : FM) (e : BacktestEngine) (w : W)
    : option (W * (Result * option error)) :=
  let '(w, events) := engine_events e w in
  match events with
  | Fail err => Some (w, (mkResult 0 None None [] None, Some err))
  | Ok events =>
      let runner := NewRunner fallback
        (mkConfig None None false (rp_Query <$> be_dataCatalog e) None None 0 events (be_strategies e)) w in
      '(r, result) ← Runner_Run n rounds (rn_events runner) (rn_runtime runner);
      Some (rt_world r, result)
  end.
End runner.
