(* ===== verification/BacktestInvariants.v ===== *)
(** * What holds along every back-test

    A relation between states of the runtime that the primitive steps establish ([Preserved])
    holds along every command and every run.  Two uses: invariants of every run, whatever the
    strategies do (the domain is [nowhere]), and termination (a domain from which every step returns). *)
From stdpp Require Import base gmap sets list strings.
From S2P Require Import Prelude Partial Bus Decimals Enums Identifiers Orders Market Accounts OrderLists DataEngine.
From S2P Require Import Cache Reconciler ExecManager Emulator ExecEngine Portfolio Matching BacktestRuntime BacktestOrders BacktestRunner.

Open Scope go_scope.

Section invariants.
Context {DD : Decimal} {FF : FillModel} {W : Type} {RG : Ranges (W := W)}.
Implicit Types (self : Calls (W := W)) (order : OrderStatusReport) (fill : FillReport) (r : Runtime (W := W)).

(** What the step leaves as it is; the rest is market data, liquidity, accounts, latencies,
    subscriptions, factories, the bus and the outside. *)
Record unrelated r r' : Prop := {
  un_engine : rt_execEngine r' = rt_execEngine r;
  un_pf : rt_pf r' = rt_pf r;
  un_shared : rt_cache_shared r' = rt_cache_shared r;
  un_nextTrade : rt_nextTrade r' = rt_nextTrade r;
  un_time : rt_currentTime r' = rt_currentTime r;
  un_timers : rt_timers r' = rt_timers r;
  un_held : rt_heldChildren r' = rt_heldChildren r;
  un_members : rt_orderListMembers r' = rt_orderListMembers r;
  un_strategies : rt_engine r' = rt_engine r;
}.

Ltac unrelated := intros; lazymatch goal with |- unrelated _ _ => idtac | _ => hnf end; constructor; reflexivity.

(** The primitive steps of the runtime establish [R], and return from [D]. *)
Class Preserved (R : relation (Runtime (W := W))) (D : Runtime (W := W) -> Prop) := {
  pv_frame r r' : unrelated r r' -> R r r';
  pv_reconcile e : ee_Fill e = None -> ee_Position e = None -> along R D (reconcile e);
  pv_client a : along R D (run_engine (AddClient (backtestExecutionClient a)));
  pv_submit o : along R D (run_engine (Engine_SubmitOrder o));
  pv_cancel x : along R D (run_engine (Engine_CancelOrder x));
  pv_modify m : along R D (run_engine (Engine_ModifyOrder m));
  pv_query q : along R D (run_engine (Engine_QueryOrder q));
  pv_event e r : R r (put_event r e);
  pv_mark e r : R r (mark_portfolio e r);
  pv_SetTimer name interval : along R D (SetTimer name interval);
  pv_CancelTimer name : along R D (CancelTimer name);
  pv_fill order price quantity ts source :
    along R D (fill ← newFillReportWithSource order price quantity ts source; booked ← record_fill fill; mret (fill, booked));
}.
(** It does not matter what time it is. *)
Class Timeless (R : relation (Runtime (W := W))) := pv_time t r : R r (r <| rt_currentTime := t |>).
(** Nor which orders belong to lists and which timers are set. *)
Class Listless (R : relation (Runtime (W := W))) := {
  pv_timers f r : R r (r <| rt_timers := f |>);
  pv_children f r : R r (r <| rt_heldChildren := f |>);
  pv_members f r : R r (r <| rt_orderListMembers := f |>);
}.

Section along.
Context (R : relation (Runtime (W := W))) (D : Runtime (W := W) -> Prop) {FO : Follows R D} {PV : Preserved R D}.
#[local] Instance along_order : PreOrder R := follows_po.
Hint Resolve pv_client pv_submit pv_cancel pv_modify pv_query pv_SetTimer pv_CancelTimer : along.

Lemma along_frame (f : Runtime (W := W) -> Runtime (W := W)) : (forall r, unrelated r (f r)) -> along R D (modify_state f).
Proof. intros H. apply along_modify. intros r. apply pv_frame, H. Qed.
(** A step that always returns and touches nothing of interest. *)
Lemma along_step {A} (m : Run (Runtime (W := W)) A) :
  (forall r, match m r with Some (r', _) => unrelated r r' | None => False end) -> along R D m.
Proof. intros H r. specialize (H r). destruct (m r) as [[r' a]|]; [by apply pv_frame | done]. Qed.

(** [reconcile] of the events that [apply] is given. *)
Definition plain_event (e : ExecutionEvent) : Prop := ee_Fill e = None /\ ee_Position e = None.
Lemma along_reconcile e : plain_event e -> along R D (reconcile e).
Proof. intros []. by apply pv_reconcile. Qed.

Lemma along_publish topic m : along R D (publish topic m).
Proof. apply along_step; unrelated. Qed.
Lemma along_ensure a : along R D (ensureExecutionClient a).
Proof. unfold ensureExecutionClient. along. apply along_frame; unrelated. Qed.
Hint Resolve along_publish along_ensure : along.

(** ** Programs, when the commands they may call are known *)

Fixpoint program_all (P : Command -> Prop) (p : Program (W := W)) : Prop :=
  match p with
  | Done _ => True
  | Local f k => forall w, program_all P (k w)
  | Invoke c k => P c /\ forall response, program_all P (k response)
  end.
Lemma along_program self id (P : Command -> Prop) p :
  (forall c now, P c -> along R D (call_command self (with_metadata id now c))) -> program_all P p ->
  along R D (run_program self id p).
Proof.
  intros Hc. induction p as [|f k IH|c k IH]; simpl; intros Hp; along; [apply along_step; unrelated | apply Hc, Hp | by apply IH, Hp].
Qed.
Lemma along_strategies self method l (P : Command -> Prop) :
  (forall id c now, P c -> along R D (call_command self (with_metadata id now c))) ->
  Forall (fun s => program_all P (method s)) l -> along R D (run_strategies self method l).
Proof. intros Hc. induction 1; simpl; along. apply (along_program self _ P); auto. Qed.

(** ** Data and queries *)

Lemma along_put_events l : along R D (modify_state (fun r => foldl put_event r l)).
Proof.
  apply along_modify. intros r. revert r. induction l as [|e l IH]; intros r; simpl; [reflexivity|].
  etrans; [apply pv_event | apply IH].
Qed.
Hint Resolve along_put_events : along.
Lemma along_catalog q : along R D (query_catalog q).
Proof. apply along_step. unfold query_catalog. intros r. destruct (rt_dataCatalog r) as [query|]; [destruct (query _ _)|]; unrelated. Qed.
Hint Resolve along_catalog : along.
Lemma along_RequestData q : along R D (Runtime_RequestData q).
Proof. unfold Runtime_RequestData. along. Qed.
Lemma along_RecordMarket m : along R D (RecordMarket m).
Proof.
  unfold RecordMarket. along. apply along_modify. intros r. etrans; [apply (pv_event event)|]. etrans; [apply (pv_mark event)|].
  apply pv_frame. unfold record_opt. repeat case_match; unrelated.
Qed.
Lemma along_QueryOrder q : along R D (Runtime_QueryOrder q).
Proof. unfold Runtime_QueryOrder. along. Qed.
Lemma along_factory a use : along R D (Runtime_OrderFactory a use).
Proof. apply along_step; unrelated. Qed.
Lemma along_subscribe sub : along R D (Runtime_SubscribeMarketData sub).
Proof. unfold Runtime_SubscribeMarketData. along. apply along_frame; unrelated. Qed.
Lemma along_unsubscribe sub : along R D (Runtime_UnsubscribeMarketData sub).
Proof. unfold Runtime_UnsubscribeMarketData. along. apply along_frame; unrelated. Qed.
Hint Resolve along_RequestData along_RecordMarket along_QueryOrder along_factory along_subscribe along_unsubscribe : along.

(** The commands that dispatch nothing. *)
Definition passive (c : Command) : Prop :=
  match c with
  | DoSubscribeMarketData _ | DoUnsubscribeMarketData _ | DoSetTimer _ _ | DoCancelTimer _ | DoOrderFactory _ _
  | DoRequestData _ | DoQueryOrder _ | DoRead => True
  | _ => False
  end.
Lemma along_passive self c : passive c -> along R D (run_command self c).
Proof. destruct c; intros []; simpl; along. Qed.

(** ** Commands, when events are dispatched along [R] *)

Section calls.
Context (self : Calls (W := W)) (Hdispatch : forall e, along R D (dispatchExecution self e)).
Hint Resolve Hdispatch : along.

Lemma along_apply e : plain_event e -> along R D (apply self e).
Proof. intros He. unfold apply. along. by apply along_reconcile. Qed.
Lemma along_apply_order o : along R D (apply self (order_event o)).
Proof. by apply along_apply. Qed.
Lemma along_apply_lifecycle_event l : along R D (apply self (lifecycle_event l)).
Proof. by apply along_apply. Qed.
Lemma along_apply_account x : along R D (apply self (account_event x)).
Proof. by apply along_apply. Qed.
Hint Resolve along_apply_order along_apply_lifecycle_event along_apply_account : along.
Lemma along_lifecycle report kind previous : along R D (apply_lifecycle self report kind previous).
Proof. unfold apply_lifecycle. along. Qed.
Hint Resolve along_lifecycle : along.

Lemma along_QueryAccount q : along R D (Runtime_QueryAccount self q).
Proof. unfold Runtime_QueryAccount. along. Qed.
Hint Resolve along_QueryAccount : along.

Lemma along_rejected l : along R D (dispatch_rejected self l).
Proof. unfold dispatch_rejected. along. Qed.
Lemma along_modify_rejected m p o e : along R D (dispatchOrderModifyRejected self m p o e).
Proof. apply along_rejected. Qed.
Lemma along_cancel_rejected m p o e : along R D (dispatchOrderCancelRejected self m p o e).
Proof. apply along_rejected. Qed.
Hint Resolve along_modify_rejected along_cancel_rejected : along.
Lemma along_latency o : along R D (registerOrderLatency o).
Proof. apply along_frame. intros r. case_match; unrelated. Qed.
Hint Resolve along_latency : along.
Lemma along_accept o : along R D (acceptOrder self o).
Proof. unfold acceptOrder. along. apply along_frame; unrelated. Qed.
Hint Resolve along_accept : along.
Lemma along_CancelOrder x : along R D (Runtime_CancelOrder self x).
Proof. unfold Runtime_CancelOrder. along. Qed.
Hint Resolve along_CancelOrder : along.
Lemma along_cancel_batch b l : along R D (cancel_batch self b l).
Proof. induction l; simpl; along. Qed.
Hint Resolve along_cancel_batch : along.
Lemma along_BatchCancel b : along R D (Runtime_BatchCancelOrders self b).
Proof. unfold Runtime_BatchCancelOrders. along. Qed.
Hint Resolve along_BatchCancel : along.
Lemma along_CancelAll b : along R D (Runtime_CancelAllOrders self b).
Proof. unfold Runtime_CancelAllOrders. along. Qed.
Hint Resolve along_CancelAll : along.
Lemma along_close o s k : along R D (close_order self o s k).
Proof. unfold close_order. along. Qed.
Hint Resolve along_close : along.
Lemma along_cancelUnfilled a o : along R D (cancelUnfilledRemainder self a o).
Proof. unfold cancelUnfilledRemainder. along. Qed.
Hint Resolve along_cancelUnfilled : along.
Lemma along_oco o : along R D (cancelOcoSiblings self o).
Proof. unfold cancelOcoSiblings. along. Qed.
Hint Resolve along_oco : along.

Section fills.
Context (Houo : forall o q, along R D (updateOuoSiblings self o q)) (Hchildren : forall o, along R D (updateHeldChildren self o)).
Hint Resolve Houo Hchildren : along.

Lemma along_with_order f (g : Runtime (W := W) -> OrderStatusReport -> Run (Runtime (W := W)) (res unit)) :
  (forall r o, along R D (g r o)) -> along R D (with_order f g).
Proof. intros H. unfold with_order. along. Qed.
Lemma along_consequences f : along R D (fill_consequences self f).
Proof. unfold fill_consequences. along; apply along_with_order; intros; along. Qed.
Hint Resolve along_consequences : along.
Lemma along_announce f p l : along R D (announce_fill self f p l).
Proof. unfold announce_fill. along. by apply along_reconcile. Qed.
Hint Resolve along_announce : along.

(** The making of a fill and its booking are one step. *)
Lemma along_execute o p q t s : along R D (execute self o p q t s).
Proof.
  assert (along R D (fb ← (fill ← newFillReportWithSource o p q t s; booked ← record_fill fill; mret (fill, booked));
    match fb.2 with
    | Fail e => mret (Fail e)
    | Ok (position, lifecycle) => try! _ := announce_fill self fb.1 position lifecycle in fill_consequences self fb.1
    end)) as H.
  { apply along_bind; [exact FO | apply pv_fill|]. intros [fill [[position lifecycle]|e]]; simpl; along. }
  intros r. specialize (H r). revert H. unfold execute, applyFillAndPosition, mbind, Run_bind.
  destruct (newFillReportWithSource o p q t s r) as [[r1 fill]|]; [|done].
  destruct (record_fill fill r1) as [[r2 [[position lifecycle]|e]]|]; done.
Qed.
Hint Resolve along_execute : along.

Lemma along_consumption i p q : along R D (Runtime_recordConsumption i p q).
Proof. apply along_frame; unrelated. Qed.
Lemma along_shouldFill o p q t s : along R D (Runtime_shouldFillLimitTouch o p q t s).
Proof. apply along_step. unfold Runtime_shouldFillLimitTouch. intros r. destruct (shouldFillLimitTouch _ _ _ _ _ _ _); unrelated. Qed.
Lemma along_MatchOrderBook o b q : along R D (Runtime_MatchOrderBook o b q).
Proof. apply along_step. unfold Runtime_MatchOrderBook. intros r. cbv zeta. destruct (MatchOrderBook _ _); unrelated. Qed.
Hint Resolve along_consumption along_shouldFill along_MatchOrderBook : along.
Lemma along_fill_matches o l : along R D (fill_matches self o l).
Proof. induction l; simpl; along. Qed.
Hint Resolve along_fill_matches : along.
Lemma along_fill_at o p q t s : along R D (fill_at self o p q t s).
Proof. unfold fill_at. along. Qed.
Hint Resolve along_fill_at : along.
Lemma along_book o : along R D (matchAgainstBook self o).
Proof. unfold matchAgainstBook. along. Qed.
Lemma along_quote o : along R D (matchAgainstQuote self o).
Proof. unfold matchAgainstQuote. along. Qed.
Lemma along_trade o : along R D (matchAgainstTrade self o).
Proof. unfold matchAgainstTrade. along. Qed.
Lemma along_bar o : along R D (matchAgainstBar self o).
Proof. unfold matchAgainstBar. along. Qed.
Lemma along_ticker o : along R D (matchMarketOrderAgainstTicker self o).
Proof. unfold matchMarketOrderAgainstTicker. along. Qed.
Hint Resolve along_book along_quote along_trade along_bar along_ticker : along.
Lemma along_match_market o : along R D (match_market self o).
Proof. unfold match_market. cbn [first_source]. along. Qed.
Lemma along_match_limit o : along R D (match_limit self o).
Proof. unfold match_limit. along. Qed.
Lemma along_to_limit o : along R D (matchMarketToLimit self o).
Proof. unfold matchMarketToLimit. along. Qed.
Lemma along_markTriggered o : along R D (markTriggered self o).
Proof. unfold markTriggered. along. Qed.
Lemma along_isTrailing o : along R D (Runtime_isTrailingTriggered (W := W) o).
Proof. apply along_step. unfold Runtime_isTrailingTriggered. intros r. destruct (isTrailingTriggered _ _ _ _); unrelated. Qed.
Hint Resolve along_match_market along_match_limit along_to_limit along_markTriggered along_isTrailing : along.
Lemma along_matchOrder o : along R D (matchOrder self o).
Proof.
  unfold matchOrder, match_by_type, cancelImmediateRemainder, matchTriggeredMarket, matchTriggeredLimit, matchTriggered,
    matchTrailingMarket, matchTrailingLimit, matchTrailing. along.
Qed.
Hint Resolve along_matchOrder : along.
Lemma along_MatchOpen : along R D (MatchOpenOrders self).
Proof. unfold MatchOpenOrders. along. Qed.
Hint Resolve along_MatchOpen : along.
Lemma along_SubmitOrder o : along R D (Runtime_SubmitOrder self o).
Proof. unfold Runtime_SubmitOrder. along. Qed.
Hint Resolve along_SubmitOrder : along.
Lemma along_parents l : along R D (submit_parents self l).
Proof. induction l; simpl; along. Qed.
Hint Resolve along_parents : along.
Lemma along_ModifyOrder m : along R D (Runtime_ModifyOrder self m).
Proof. unfold Runtime_ModifyOrder. along. Qed.
Hint Resolve along_ModifyOrder : along.
Lemma along_command c : (forall l, c = DoSubmitOrderList l -> along R D (Runtime_SubmitOrderList self l)) ->
  along R D (run_command self c).
Proof. intros Hl. destruct c; simpl; along. by apply Hl. Qed.

(** ** One event of a run *)

Context (Hprocess : forall env, along R D (Process self env)) {TL : Timeless R}.
Hint Resolve Hprocess : along.
Lemma along_setTime t : along R D (setTime t).
Proof. apply along_modify. intros r. apply pv_time. Qed.
Hint Resolve along_setTime : along.
Lemma along_Expire until : along R D (ExpireOpenOrders self until).
Proof. unfold ExpireOpenOrders, expireOrder. along. Qed.
Hint Resolve along_Expire : along.
Lemma along_after_timers event : along R D (after_timers self event).
Proof. unfold after_timers. along. Qed.
End fills.
End calls.
End along.

(** ** Every run *)

Section runs.
Context (R : relation (Runtime (W := W))) {FO : Follows R nowhere} {PV : Preserved R nowhere} {TL : Timeless R} {LL : Listless R}.
#[local] Instance runs_order : PreOrder R := follows_po.
Notation always := (along R nowhere).
#[local] Hint Resolve along_publish along_passive along_setTime : along.

Section calls.
Context (self : Calls (W := W)) (Hcommand : forall c, always (call_command self c))
  (Hmodify : forall m, always (call_ModifyOrder self m)) (Hmatch : forall o, always (call_matchOrder self o)).
Hint Resolve Hcommand Hmodify Hmatch : along.

Lemma always_program id p : always (run_program self id p).
Proof. apply (along_program R nowhere self id (fun _ => True)); [auto|]. induction p; simpl; auto. Qed.
Hint Resolve always_program : along.
Lemma always_strategies method l : always (run_strategies self method l).
Proof. induction l; simpl; along. Qed.
Hint Resolve always_strategies : along.
Lemma always_Process env : always (Process self env).
Proof. unfold Process. along. Qed.
Hint Resolve always_Process : along.
Lemma always_Stop : always (StopStrategies self).
Proof. unfold StopStrategies. along. Qed.
Lemma always_Start : always (StartStrategies self).
Proof. unfold StartStrategies. along. Qed.
Lemma always_dispatch e : always (dispatchExecution self e).
Proof. unfold dispatchExecution. along. Qed.
Hint Resolve always_dispatch : along.
#[local] Hint Extern 1 (along _ _ (acceptOrder _ _)) => apply along_accept : along.
#[local] Hint Extern 1 (along _ _ (cancelUnfilledRemainder _ _ _)) => apply along_cancelUnfilled : along.

Lemma always_ouo o q : always (updateOuoSiblings self o q).
Proof. unfold updateOuoSiblings. along. Qed.
Lemma always_release p l : always (release_children self p l).
Proof. induction l; simpl; along. Qed.
Hint Resolve always_release : along.
Lemma always_children p : always (updateHeldChildren self p).
Proof. unfold updateHeldChildren. along. apply along_modify. intros r. case_match; [apply pv_children | reflexivity]. Qed.
Hint Resolve always_ouo always_children : along.

Lemma always_parents l : always (submit_parents self l).
Proof. induction l; simpl; along. apply along_SubmitOrder; auto using always_dispatch, always_ouo, always_children. Qed.
Lemma index_related l r : R r (Runtime_indexOrderList l r).
Proof.
  unfold Runtime_indexOrderList. generalize (ol_Orders l) as os. intros os. revert r.
  induction os as [|o os IH]; intros r; simpl; [reflexivity|]. etrans; [|apply IH]. unfold BacktestOrders.index_list_order.
  cbv zeta. case_bool_decide; [apply pv_members|]. etrans; [apply pv_members | apply pv_children].
Qed.
Lemma always_SubmitOrderList l : always (Runtime_SubmitOrderList self l).
Proof. unfold Runtime_SubmitOrderList. along; [apply along_modify, index_related | apply always_parents]. Qed.
Lemma always_command c : always (run_command self c).
Proof. apply along_command; auto using always_dispatch, always_ouo, always_children, always_SubmitOrderList. Qed.

Lemma always_dispatch_timer until : always (dispatch_timer self until).
Proof.
  unfold dispatch_timer. along. apply along_modify. intros r. repeat case_match; try reflexivity. apply pv_timers.
Qed.
Hint Resolve always_dispatch_timer : along.
Lemma always_DispatchTimersDue rounds until : always (DispatchTimersDue rounds self until).
Proof. induction rounds; simpl; along. Qed.
Lemma always_run_events rounds events k : always (run_events rounds self events k).
Proof.
  revert k. induction events as [|event events IH]; intros; simpl; along. unfold run_event.
  along; [apply always_DispatchTimersDue|]. apply along_after_timers; auto using always_dispatch, always_ouo, always_children with along.
Qed.
End calls.

Lemma always_calls n :
  (forall c, always (call_command (calls n) c)) /\ (forall m, always (call_ModifyOrder (calls n) m)) /\
  (forall o, always (call_matchOrder (calls n) o)).
Proof.
  induction n as [|n (IH1 & IH2 & IH3)]; simpl; split_and!; intros; auto with along.
  - by apply always_command.
  - apply along_ModifyOrder; auto using always_dispatch, always_ouo, always_children.
  - apply along_matchOrder; auto using always_dispatch, always_ouo, always_children.
Qed.

Lemma always_run n rounds events : always (Runner_Run n rounds events).
Proof.
  destruct (always_calls n) as (H1 & H2 & H3). unfold Runner_Run. along.
  - by apply always_Start.
  - by apply always_run_events.
  - by apply always_Stop.
Qed.
End runs.
End invariants.
