(* ===== verification/BacktestLedger.v ===== *)
(** * The positions of a back-test are the sums of its fills

    The books of a run ([Ledger]): the stored fills, each numbered once, and positions that add
    them up.  Recording a fill keeps the books, nothing else touches them, so they hold in every
    state of every run, whatever the strategies do. *)
From Stdlib Require Import QArith Qabs Lqa.
From stdpp Require Import base gmap sets list strings.
From S2P Require Import Prelude Partial Decimals Enums Identifiers Orders Market Accounts OrderLists Cache CacheFacts Reconciler.
From S2P Require Import ReconcilerFacts ExecManager ExecManagerFacts Emulator ExecEngine ExecEngineCache Portfolio PortfolioFacts PortfolioLedger.
From S2P Require Import Matching BacktestRuntime BacktestOrders BacktestRunner BacktestInvariants.

Open Scope go_scope.

Section ledger.
Context {DD : Decimal} {DL : DecimalLaws DD}.
Implicit Types (c : Cache) (fill f : FillReport) (a : AccountID) (s : PositionID).
#[local] Arguments Qplus : simpl never.
Open Scope Q_scope.

Definition held_in c a s : Q :=
  match cache_Position c a s with Some x => dval (Matching.signedPosition x) | None => 0 end.
Definition books_in a s f : Prop := fr_AccountID f = a /\ InstrumentID_String (fr_InstrumentID f) = s.
Definition booked a s f : Q := if decide (books_in a s f) then dval (signedFill f) else 0.
Definition trade_name (k : Z) : TradeID := "bt-trade-" +:+ itoa k.
Definition stored c f : Prop := get3 (c_fills c) (fr_AccountID f) (fr_OrderID f) (fr_TradeID f) = Some f.

(** The books after [k] trades. *)
Record Ledger c (k : Z) (fills : list FillReport) : Prop := {
  lg_NoDup : NoDup fills;
  lg_stored f : f ∈ fills <-> stored c f;
  lg_trade f : f ∈ fills -> exists j, (j <= k)%Z /\ fr_TradeID f = trade_name j;
  lg_held a s : held_in c a s == qsum (booked a s) fills;
  lg_sound a s x : cache_Position c a s = Some x -> 0 <= dval (pr_Quantity x) /\ 0 <= dval (pr_EntryPrice x);
}.

Lemma Ledger_same c c' k k' fills : same_rest c c' -> (k <= k')%Z -> Ledger c k fills -> Ledger c' k' fills.
Proof.
  intros [(Hf & _) (Hp & _)] Hk [H1 H2 H3 H4 H5]. unfold held_in, stored, cache_Position in *.
  constructor; unfold held_in, stored, cache_Position in *; rewrite ?Hf, ?Hp; try done.
  intros f (j & Hj & Ht)%H3. exists j. split; [lia | done].
Qed.
Lemma Ledger_empty c : c_fills c = ∅ -> c_positions c = ∅ -> Ledger c 0 [].
Proof.
  intros Hf Hp. constructor; unfold held_in, stored, get3, cache_Position; rewrite ?Hf, ?Hp.
  - constructor.
  - intros f. rewrite get2_empty. simpl. set_solver.
  - set_solver.
  - intros. by rewrite get2_empty.
  - intros a s x. by rewrite get2_empty.
Qed.

(** ** The next position *)

Lemma nextPosition_keys c f :
  pr_AccountID (nextPosition c f) = fr_AccountID f /\ pr_InstrumentID (nextPosition c f) = fr_InstrumentID f /\
  pr_PositionID (nextPosition c f) = InstrumentID_String (fr_InstrumentID f).
Proof. unfold nextPosition. by case_match. Qed.

Lemma nextPosition_held c f :
  dval (Matching.signedPosition (nextPosition c f)) ==
  held_in c (fr_AccountID f) (InstrumentID_String (fr_InstrumentID f)) + dval (signedFill f).
Proof.
  unfold nextPosition, held_in. destruct (cache_Position _ _ _) as [x|].
  - cbv zeta. unfold Matching.signedPosition at 1. simpl. unfold sideFromSigned.
    rewrite <- dval_add. set (n := dadd _ _).
    destruct (IsPositive n) eqn:Hp; simpl; [|destruct (IsNegative n) eqn:Hn; simpl]; dec_hyps; rewrite ?dval_neg, dval_abs.
    + rewrite Qabs_pos by lra. lra.
    + rewrite Qabs_neg by lra. lra.
    + assert (dval n == 0) as -> by lra. reflexivity.
  - unfold Matching.signedPosition, signedFill. simpl. destruct (fr_Side f ≟ OrderSideSell); simpl; lra.
Qed.

Lemma nextPosition_sound c k fills f : Ledger c k fills -> valid_fill f ->
  0 <= dval (pr_Quantity (nextPosition c f)) /\ 0 <= dval (pr_EntryPrice (nextPosition c f)).
Proof.
  intros HL F. assert (Hq := vf_quantity _ F). assert (Hp := vf_price _ F).
  unfold nextPosition. destruct (cache_Position _ _ _) as [x|] eqn:Ex; simpl; [|split; lra].
  destruct (lg_sound _ _ _ HL _ _ _ Ex) as [Hxq Hxe]. split; [rewrite dval_abs; apply Qabs_nonneg|].
  destruct (_ && IsPositive _) eqn:E; [|destruct (GreaterThan _ _); lra].
  apply andb_true_iff in E as [_ E]. dec_hyps. rewrite dval_div by (intros E'; rewrite E' in E; lra).
  apply round16_nonneg. rewrite dval_add, !dval_mul. apply Qle_shift_div_l; [exact E|]. nra.
Qed.

Lemma nextPosition_valid c k fills f : Ledger c k fills -> valid_fill f ->
  PositionStatusReport_Validate (nextPosition c f) = Ok tt.
Proof.
  intros HL F. destruct (nextPosition_keys c f) as (E1 & E2 & E3). destruct (nextPosition_sound c k fills f HL F) as [_ He].
  unfold PositionStatusReport_Validate. rewrite E1, E2, E3, (vf_instrument f F).
  pose proof (String_nonempty _ (vf_instrument f F)) as H.
  rewrite (bool_decide_eq_false_2 _ (vf_account f F)), (bool_decide_eq_false_2 _ H). simpl.
  assert (IsNegative (pr_EntryPrice (nextPosition c f)) = false) as -> by dec. simpl.
  unfold nextPosition, sideFromSigned. destruct (cache_Position _ _ _); simpl; [|by destruct (fr_Side f)].
  by repeat case_match.
Qed.

(** ** Booking a fill *)

Lemma qsum_cons (g : FillReport -> Q) f fs : qsum g (f :: fs) = g f + qsum g fs.
Proof. done. Qed.

(** The fill with the next number is new to the cache. *)
Lemma next_trade_fresh c k fills f : Ledger c k fills -> cok c -> fr_TradeID f = trade_name (k + 1) ->
  get3 (c_fills c) (fr_AccountID f) (fr_OrderID f) (fr_TradeID f) = None.
Proof.
  intros HL Hc Ht. destruct (get3 _ _ _ _) as [g|] eqn:E; [|done].
  destruct (cok_fills _ Hc _ _ _ _ E) as (_ & E1 & E2 & E3).
  assert (g ∈ fills) as (j & Hj & Hg)%(lg_trade _ _ _ HL) by (apply (lg_stored _ _ _ HL); unfold stored; congruence).
  rewrite E3, Ht in Hg. apply append_inj_l, itoa_inj in Hg. lia.
Qed.

(** The fill store after the fill, on the same positions. *)
Lemma applyFill_books c k fills f : Ledger c k fills -> cok c -> fr_TradeID f = trade_name (k + 1) ->
  FillReport_Validate f = Ok tt ->
  exists c1, applyFill c f = (c1, Ok tt) /\ cok c1 /\ same_positions c c1 /\ c_deferredFills c1 = c_deferredFills c /\
    forall g, stored c1 g <-> g = f \/ stored c g.
Proof.
  intros HL Hc Ht V. pose proof (next_trade_fresh c k fills f HL Hc Ht) as Hn.
  assert (exists c0, PutFill c f = Ok (c0, true)) as [c0 E0].
  { unfold PutFill. rewrite V. simpl. rewrite Hn. eauto. }
  pose proof (PutFill_cok _ _ _ _ Hc E0) as Hc0. pose proof (run_op_same_rest c (OpFill f)) as Hp0.
  pose proof (run_op_same_deferred c (OpFill f)) as Hd0. cbn [run_op] in Hp0, Hd0. rewrite E0 in Hp0, Hd0. simpl in Hp0, Hd0.
  assert (Hs0 : forall g, stored c0 g <-> g = f \/ stored c g).
  { intros g. apply PutFill_inv in E0 as [_ E0]. rewrite Hn in E0. destruct E0 as (_ & Ef & _).
    unfold stored. rewrite Ef, get3_put3. case_decide as Hk.
    - destruct Hk as (<- & <- & <-). rewrite Hn. naive_solver.
    - split; [by right|]. intros [->|H]; [by destruct Hk | done]. }
  unfold applyFill. rewrite E0. destruct (cache_Order c0 _ _) as [r|] eqn:Er; [|by exists c0].
  pose proof (stored_valid _ _ _ _ (cok_orders _ Hc0) Er) as Vr.
  destruct (PutOrder_valid c0 _ (applyFillToOrder_valid r f Vr (FillReport_Validate_ok _ V))) as [c1 E1]. rewrite E1.
  exists c1. apply touched_PutOrder in E1. destruct (touched_rest _ _ E1) as [(Hf1 & _) Hp1].
  split; [done|]. split; [by eapply touched_cok|]. split; [by etrans|]. split.
  - by rewrite (touched_deferred _ _ E1).
  - intros g. rewrite <- Hs0. unfold stored. by rewrite Hf1.
Qed.

Lemma Ledger_fill c k fills f : Ledger c k fills -> cok c -> fr_TradeID f = trade_name (k + 1) ->
  FillReport_Validate f = Ok tt ->
  exists c1 c2, applyFill c f = (c1, Ok tt) /\ PutPosition c1 (nextPosition c f) = Ok c2 /\
    cok c2 /\ c_deferredFills c2 = c_deferredFills c /\ Ledger c2 (k + 1) (f :: fills).
Proof.
  intros HL Hc Ht V. destruct (applyFill_books c k fills f HL Hc Ht V) as (c1 & E1 & Hc1 & Hp1 & Hd1 & Hs1).
  apply FillReport_Validate_ok in V as F. pose proof (nextPosition_valid c k fills f HL F) as Vp.
  destruct (nextPosition_keys c f) as (K1 & K2 & K3). set (p := nextPosition c f) in *.
  assert (exists c2, PutPosition c1 p = Ok c2) as [c2 E2] by (unfold PutPosition; rewrite Vp; simpl; eauto).
  exists c1, c2. split; [done|]. split; [done|].
  pose proof (run_op_same_rest c1 (OpPosition p)) as Hf2. pose proof (run_op_cok c1 (OpPosition p) Hc1) as Hc2.
  pose proof (run_op_same_deferred c1 (OpPosition p)) as Hd2. cbn [run_op] in Hf2, Hc2, Hd2. rewrite E2 in Hf2, Hc2, Hd2.
  simpl in Hf2, Hc2, Hd2. split; [done|]. split; [by rewrite Hd2|].
  assert (Hpos : forall a s, cache_Position c2 a s = if decide (fr_AccountID f = a /\ InstrumentID_String (fr_InstrumentID f) = s)
    then Some p else cache_Position c a s).
  { intros a s. unfold cache_Position. rewrite (PutPosition_positions _ _ _ E2), get2_put2, K1, K3.
    by destruct Hp1 as [-> _]. }
  assert (Hst : forall g, stored c2 g <-> g = f \/ stored c g).
  { intros g. rewrite <- Hs1. unfold stored. by destruct Hf2 as [-> _]. }
  constructor.
  - constructor; [|apply HL]. intros Hin%(lg_stored _ _ _ HL). unfold stored in Hin.
    by rewrite (next_trade_fresh c k fills f HL Hc Ht) in Hin.
  - intros g. rewrite Hst, elem_of_cons, <- (lg_stored _ _ _ HL). done.
  - intros g [->|Hg]%elem_of_cons; [exists (k + 1)%Z; split; [lia | done]|].
    destruct (lg_trade _ _ _ HL g Hg) as (j & Hj & E). exists j. split; [lia | done].
  - intros a s. rewrite qsum_cons, <- (lg_held _ _ _ HL). unfold booked, books_in, held_in at 1. rewrite Hpos.
    destruct (decide _) as [[<- <-]|]; [|unfold held_in; lra]. unfold p. rewrite nextPosition_held. lra.
  - intros a s x. rewrite Hpos. case_decide; [intros [= <-] | apply (lg_sound _ _ _ HL)].
    by apply (nextPosition_sound c k fills f HL).
Qed.
End ledger.

(** ** The books along a run *)

Section run.
Context {DD : Decimal} {DL : DecimalLaws DD} {FF : FillModel} {W : Type} {RG : Ranges (W := W)}.
Implicit Types (r : Runtime (W := W)).
Open Scope Q_scope.

Record Books r : Prop := {
  bk_shared : rt_cache_shared r = false;
  bk_plain : plain (rt_execEngine r);
  bk_cok : cok (rt_cache r);
  bk_ledger : exists fills, Ledger (rt_cache r) (rt_nextTrade r) fills;
}.
Definition keeps_books r r' : Prop := Books r -> Books r'.
#[local] Instance keeps_books_po : PreOrder keeps_books.
Proof. split; [intros r H; exact H|]. intros r1 r2 r3 H1 H2 H. auto. Qed.

(** The runtime after steps that leave fills and positions alone. *)
Lemma Books_touched r r' : rt_cache_shared r' = rt_cache_shared r -> steady (rt_execEngine r) (rt_execEngine r') ->
  (rt_nextTrade r <= rt_nextTrade r')%Z -> keeps_books r r'.
Proof.
  intros Hs He Hk [H1 H2 H3 [fills H4]]. destruct (He H2) as [Hp Ht]. constructor; [congruence | done | by eapply touched_cok|].
  exists fills. eapply Ledger_same; [by apply touched_rest | exact Hk | done].
Qed.
Lemma Books_cache r c : touched (rt_cache r) c -> keeps_books r (with_cache r c).
Proof.
  intros Ht. apply Books_touched; [done | | reflexivity]. intros [He Hd]. split; [|exact Ht].
  split; [exact He|]. etrans; [exact (touched_deferred _ _ Ht) | exact Hd].
Qed.
Lemma Books_portfolio r p : keeps_books r (with_portfolio r p).
Proof.
  intros H. assert (with_portfolio r p = r <| rt_pf := Some p |>) as ->.
  { unfold with_portfolio. simpl. by rewrite (bk_shared _ H). }
  revert H. apply Books_touched; [done | by apply steady_same | reflexivity].
Qed.
Lemma along_settles {A} (m : M (W := client_view) A) : settles m -> along keeps_books nowhere (run_engine m).
Proof.
  intros Hm r. unfold run_engine. specialize (Hm (rt_execEngine r) (mkClientView (rt_cache r) (rt_currentTime r) (rt_nextOrder r))).
  destruct (m _) as [[e v] b]. by apply Books_touched.
Qed.

Lemma portfolio_books fill previous position : along keeps_books nowhere (apply_to_portfolio (W := W) fill previous position).
Proof.
  intros r. unfold apply_to_portfolio. destruct (portfolio_of r); [|reflexivity].
  destruct (ApplyFillWithPosition _ _ _ _ _ _). apply Books_portfolio.
Qed.

(** The validation of an event with a fill, or with a position. *)
Lemma fill_event_validate f : ExecutionEvent_Validate (fill_event f) = FillReport_Validate f.
Proof. unfold ExecutionEvent_Validate. simpl. by destruct (FillReport_Validate f) as [[]|]. Qed.
Lemma position_event_validate p : ExecutionEvent_Validate (position_event p) = PositionStatusReport_Validate p.
Proof. unfold ExecutionEvent_Validate. simpl. by destruct (PositionStatusReport_Validate p) as [[]|]. Qed.

Lemma record_fill_books r r' f answer : Books r -> fr_TradeID f = trade_name (rt_nextTrade r + 1) ->
  record_fill f (r <| rt_nextTrade := (rt_nextTrade r + 1)%Z |>) = Some (r', answer) -> Books r'.
Proof.
  intros HB Ht. destruct (bk_ledger _ HB) as [fills HL]. set (r0 := r <| rt_nextTrade := _ |>).
  assert (H0 : Books r0) by (revert HB; apply Books_touched; [done | by apply steady_same | simpl; lia]).
  unfold record_fill, mbind at 1, Run_bind, get_state, attempt_run, mbind at 1, Run_bind, reconcile at 1, Apply at 1.
  rewrite fill_event_validate. destruct (FillReport_Validate f) as [[]|e] eqn:V.
  2: { intros [= <- _]. by apply (Books_cache r0). }
  destruct (Ledger_fill _ _ _ f HL (bk_cok _ HB) Ht V) as (c1 & c2 & E1 & E2 & Hc2 & Hd2 & HL2).
  change (rt_cache r0) with (rt_cache r). cbn [ee_Account ee_Order ee_Fill fill_event]. rewrite E1.
  unfold mbind at 1, Run_bind, reconcile at 1, Apply at 1. rewrite position_event_validate.
  change (rt_cache (with_cache r0 c1)) with c1.
  destruct (PositionStatusReport_Validate (nextPosition (rt_cache r) f)) as [[]|] eqn:Vp;
    [|by unfold PutPosition in E2; rewrite Vp in E2].
  cbn [ee_Account ee_Order ee_Fill ee_Position position_event]. rewrite E2.
  assert (H2 : Books (with_cache (with_cache r0 c1) c2)).
  { destruct HB as [B1 [B2 B3] _ _]. constructor; [done | split; [exact B2|] | exact Hc2 | by exists (f :: fills)].
    etrans; [exact Hd2 | exact B3]. }
  intros E. refine (along_some (along_attempt keeps_books nowhere _ _ (portfolio_books _ _ _) _) E H2).
  intros ?. apply along_ret, _.
Qed.

(** A new fill has the next number. *)
Lemma newFill_number order (price quantity : D) ts source r r' f :
  newFillReportWithSource order price quantity ts source r = Some (r', f) ->
  exists m, let r1 := r <| rt_fillModel := m |> in
    r' = r1 <| rt_nextTrade := (rt_nextTrade r1 + 1)%Z |> /\ fr_TradeID f = trade_name (rt_nextTrade r1 + 1).
Proof.
  assert (Hfee : forall q o g, fr_TradeID (applyFillFee (W := W) q o g) = fr_TradeID g).
  { intros q o g. unfold applyFillFee. by repeat case_match. }
  unfold newFillReportWithSource, fillPrice, mbind, Run_bind. destruct (rt_fillModel r) as [m|] eqn:Em.
  - destruct (ApplySlippage _ _ _) as [m' slipped]. intros [= <- <-]. exists (Some m'). split; [done | apply Hfee].
  - intros [= <- <-]. exists None. split; [|apply Hfee]. cbn. rewrite <- Em. by destruct r.
Qed.

#[local] Instance books_follows : Follows keeps_books nowhere := _.
#[local] Hint Resolve books_follows : along.

#[local] Instance books_preserved : Preserved keeps_books nowhere.
Proof.
  constructor.
  - intros r r' []. apply Books_touched; [congruence | | rewrite un_nextTrade; reflexivity]. rewrite un_engine. reflexivity.
  - intros e Hf Hp r. unfold reconcile. pose proof (touched_Apply (rt_cache r) e Hf Hp) as Ht.
    destruct (Apply _ _). by apply Books_cache.
  - intros a. apply along_settles, settles_AddClient.
  - intros o. apply along_settles, settles_SubmitOrder.
  - intros x. apply along_settles, settles_CancelOrder.
  - intros m. apply along_settles, settles_ModifyOrder.
  - intros q. apply along_settles, settles_QueryOrder.
  - intros e r. unfold put_event. destruct (PutMarketEvent _ _) as [c|] eqn:E; [|reflexivity].
    apply Books_cache. pose proof (touched_op (rt_cache r) (OpMarket e) I) as Ht. cbn [run_op] in Ht. by rewrite E in Ht.
  - intros e r. unfold mark_portfolio. destruct (portfolio_of r); [apply Books_portfolio | reflexivity].
  - intros name interval. unfold SetTimer. along. apply along_modify. intros r. by apply Books_touched.
  - intros name. unfold CancelTimer. along. apply along_modify. intros r. by apply Books_touched.
  - intros order price quantity ts source r. unfold mbind, Run_bind. destruct (newFillReportWithSource _ _ _ _ _ _) as [[r0 g]|] eqn:Ef; [|by intros []].
    destruct (newFill_number _ _ _ _ _ _ _ _ Ef) as (m & -> & Ht). cbv zeta in *.
    set (r1 := r <| rt_fillModel := m |>) in *. destruct (record_fill g _) as [[r2 b]|] eqn:Er; [|by intros []].
    intros HB. eapply (record_fill_books r1); [|exact Ht | exact Er].
    revert HB. by apply Books_touched.
Qed.

#[local] Instance books_timeless : Timeless keeps_books.
Proof. intros t r. by apply Books_touched. Qed.
#[local] Instance books_listless : Listless keeps_books.
Proof. constructor; intros f r; by apply Books_touched. Qed.

Lemma Runner_books n rounds events : along keeps_books nowhere (Runner_Run n rounds events).
Proof. apply always_run; apply _. Qed.

(** ** The theorem *)

Lemma elem_of_FillsForOrder c a o f : f ∈ FillsForOrder c a o <-> exists t, get3 (c_fills c) a o t = Some f.
Proof. unfold FillsForOrder, sortFills. by rewrite elem_of_merge_sort, elem_of_fills. Qed.

Lemma qsum_ext (g h : FillReport -> Q) fs : (forall f, f ∈ fs -> g f == h f) -> qsum g fs == qsum h fs.
Proof.
  induction fs as [|f fs IH]; intros H; [reflexivity|]. rewrite !qsum_cons, IH by set_solver.
  by rewrite (H f) by set_solver.
Qed.
Lemma qsum_filter (P : FillReport -> Prop) `{forall f, Decision (P f)} (g : FillReport -> Q) fs :
  qsum g (filter P fs) == qsum (fun f => if decide (P f) then g f else 0) fs.
Proof.
  induction fs as [|f fs IH]; [reflexivity|]. rewrite filter_cons, qsum_cons. destruct (decide (P f)).
  - by rewrite qsum_cons, IH.
  - rewrite IH. ring.
Qed.

(** A cache without fills and positions: reference data, accounts, market data and orders. *)
Definition untraded : Cache -> Prop := touched New.

Lemma NewRunner_books fallback (cfg : Config (W := W)) w :
  untraded (default New (cg_Cache cfg)) -> cg_ExecutionEngine cfg = None -> cg_SharedCache cfg = false ->
  Books (rn_runtime (NewRunner fallback cfg w)).
Proof.
  intros Hc He Hs. unfold NewRunner. rewrite He. cbn [default rn_runtime]. set (c := default New (cg_Cache cfg)) in *.
  pose proof (touched_deferred _ _ Hc) as Hd. destruct (touched_rest _ _ Hc) as [(Hf & _) (Hp & _)].
  constructor; [exact Hs | by split | exact (touched_cok _ _ Hc New_cok)|].
  exists []. by apply Ledger_empty.
Qed.

End run.
