(* ===== verification/BacktestTermination.v ===== *)
(** * Back-tests that return

    Every method of the back-test is monotone in the calls it is given, so a run that returns
    returns the same for any larger amounts of fuel.  A strategy is [tame] when it submits no order
    lists and, told of an execution, calls nothing that dispatches events again.  A back-test of
    tame strategies returns: two levels of calls are enough, and the timers due before an event are
    finitely many, though the strategies may set and cancel timers while they fire. *)
From stdpp Require Import base gmap sets list strings.
From S2P Require Import Prelude Decimals Enums Identifiers Orders Market Accounts OrderLists Cache Reconciler Matching ExecManager Emulator ExecEngine.
From S2P Require Import Portfolio Partial Bus DataEngine Indicators BacktestRuntime BacktestOrders BacktestRunner BacktestInvariants.

Open Scope go_scope.

Section fuel.
Context {DD : Decimal} {FF : FillModel} {W : Type} {RG : Ranges (W := W)}.
Implicit Types (self : Calls (W := W)) (order : OrderStatusReport) (fill : FillReport).

Record calls_le self self' : Prop := {
  le_command c : call_command self c ⊑ call_command self' c;
  le_ModifyOrder m : call_ModifyOrder self m ⊑ call_ModifyOrder self' m;
  le_matchOrder o : call_matchOrder self o ⊑ call_matchOrder self' o;
}.
#[local] Hint Resolve le_command le_ModifyOrder le_matchOrder : run_le.

Section monotone.
Context (self self' : Calls (W := W)) (Hle : calls_le self self').

Lemma run_program_le id p : run_program self id p ⊑ run_program self' id p.
Proof. induction p as [|f k IH|c k IH]; simpl; run_le. Qed.
#[local] Hint Resolve run_program_le : run_le.
Lemma run_strategies_le method l : run_strategies self method l ⊑ run_strategies self' method l.
Proof. induction l; simpl; run_le. Qed.
#[local] Hint Resolve run_strategies_le : run_le.
Lemma Process_le env : Process self env ⊑ Process self' env.
Proof. unfold Process. run_le. Qed.
#[local] Hint Resolve Process_le : run_le.
Lemma StopStrategies_le : StopStrategies self ⊑ StopStrategies self'.
Proof. unfold StopStrategies. run_le. Qed.
Lemma StartStrategies_le : StartStrategies self ⊑ StartStrategies self'.
Proof. unfold StartStrategies. run_le. Qed.
Lemma dispatchExecution_le e : dispatchExecution self e ⊑ dispatchExecution self' e.
Proof. unfold dispatchExecution. run_le. Qed.
#[local] Hint Resolve dispatchExecution_le : run_le.
Lemma apply_le e : apply self e ⊑ apply self' e.
Proof. unfold apply. run_le. Qed.
#[local] Hint Resolve apply_le : run_le.
Lemma apply_lifecycle_le report kind previous : apply_lifecycle self report kind previous ⊑ apply_lifecycle self' report kind previous.
Proof. apply apply_le. Qed.
#[local] Hint Resolve apply_lifecycle_le : run_le.
Lemma dispatch_timer_le until : dispatch_timer self until ⊑ dispatch_timer self' until.
Proof. unfold dispatch_timer. run_le. Qed.
#[local] Hint Resolve dispatch_timer_le : run_le.
Lemma DispatchTimersDue_le rounds rounds' until :
  rounds <= rounds' -> DispatchTimersDue rounds self until ⊑ DispatchTimersDue rounds' self' until.
Proof.
  revert rounds'. induction rounds as [|rounds IH]; intros rounds' H; [apply stuck_le|].
  destruct rounds' as [|rounds']; [lia|]. simpl. apply bind_le; [apply dispatch_timer_le|].
  intros [[] []]; try reflexivity. apply IH. lia.
Qed.
#[local] Hint Resolve DispatchTimersDue_le : run_le.
Lemma QueryAccount_le q : Runtime_QueryAccount self q ⊑ Runtime_QueryAccount self' q.
Proof. unfold Runtime_QueryAccount. run_le. Qed.
#[local] Hint Resolve QueryAccount_le : run_le.

Lemma dispatch_rejected_le l : dispatch_rejected self l ⊑ dispatch_rejected self' l.
Proof. unfold dispatch_rejected. run_le. Qed.
Lemma dispatchOrderModifyRejected_le m p r e : dispatchOrderModifyRejected self m p r e ⊑ dispatchOrderModifyRejected self' m p r e.
Proof. apply dispatch_rejected_le. Qed.
Lemma dispatchOrderCancelRejected_le m p r e : dispatchOrderCancelRejected self m p r e ⊑ dispatchOrderCancelRejected self' m p r e.
Proof. apply dispatch_rejected_le. Qed.
#[local] Hint Resolve dispatchOrderModifyRejected_le dispatchOrderCancelRejected_le : run_le.
Lemma acceptOrder_le o : acceptOrder self o ⊑ acceptOrder self' o.
Proof. unfold acceptOrder. run_le. Qed.
#[local] Hint Resolve acceptOrder_le : run_le.
Lemma CancelOrder_le x : Runtime_CancelOrder self x ⊑ Runtime_CancelOrder self' x.
Proof. unfold Runtime_CancelOrder. run_le. Qed.
#[local] Hint Resolve CancelOrder_le : run_le.
Lemma cancel_batch_le b l : cancel_batch self b l ⊑ cancel_batch self' b l.
Proof. induction l; simpl; run_le. Qed.
#[local] Hint Resolve cancel_batch_le : run_le.
Lemma BatchCancelOrders_le b : Runtime_BatchCancelOrders self b ⊑ Runtime_BatchCancelOrders self' b.
Proof. unfold Runtime_BatchCancelOrders. run_le. Qed.
#[local] Hint Resolve BatchCancelOrders_le : run_le.
Lemma CancelAllOrders_le b : Runtime_CancelAllOrders self b ⊑ Runtime_CancelAllOrders self' b.
Proof. unfold Runtime_CancelAllOrders. run_le. Qed.
#[local] Hint Resolve CancelAllOrders_le : run_le.
Lemma close_order_le o s k : close_order self o s k ⊑ close_order self' o s k.
Proof. unfold close_order. run_le. Qed.
#[local] Hint Resolve close_order_le : run_le.
Lemma cancelUnfilledRemainder_le a o : cancelUnfilledRemainder self a o ⊑ cancelUnfilledRemainder self' a o.
Proof. unfold cancelUnfilledRemainder. run_le. Qed.
#[local] Hint Resolve cancelUnfilledRemainder_le : run_le.
Lemma ExpireOpenOrders_le until : ExpireOpenOrders self until ⊑ ExpireOpenOrders self' until.
Proof. unfold ExpireOpenOrders, expireOrder. run_le. Qed.
#[local] Hint Resolve ExpireOpenOrders_le : run_le.
Lemma updateOuoSiblings_le o q : updateOuoSiblings self o q ⊑ updateOuoSiblings self' o q.
Proof. unfold updateOuoSiblings. run_le. Qed.
Lemma cancelOcoSiblings_le o : cancelOcoSiblings self o ⊑ cancelOcoSiblings self' o.
Proof. unfold cancelOcoSiblings. run_le. Qed.
Lemma release_children_le p l : release_children self p l ⊑ release_children self' p l.
Proof. induction l; simpl; run_le. Qed.
#[local] Hint Resolve release_children_le : run_le.
Lemma updateHeldChildren_le p : updateHeldChildren self p ⊑ updateHeldChildren self' p.
Proof. unfold updateHeldChildren. run_le. Qed.
#[local] Hint Resolve updateOuoSiblings_le cancelOcoSiblings_le updateHeldChildren_le : run_le.

Lemma announce_fill_le f p l : announce_fill self f p l ⊑ announce_fill self' f p l.
Proof. unfold announce_fill. run_le. Qed.
Lemma with_order_le f (g g' : Runtime (W := W) -> OrderStatusReport -> Run (Runtime (W := W)) (res unit)) : (forall r o, g r o ⊑ g' r o) -> with_order f g ⊑ with_order f g'.
Proof. intros H. unfold with_order. run_le. Qed.
Lemma fill_consequences_le f : fill_consequences self f ⊑ fill_consequences self' f.
Proof. unfold fill_consequences. run_le; apply with_order_le; intros; run_le. Qed.
#[local] Hint Resolve announce_fill_le fill_consequences_le : run_le.
Lemma execute_le o p q t s : execute self o p q t s ⊑ execute self' o p q t s.
Proof. unfold execute, applyFillAndPosition. run_le. Qed.
#[local] Hint Resolve execute_le : run_le.
Lemma fill_matches_le o l : fill_matches self o l ⊑ fill_matches self' o l.
Proof. induction l; simpl; run_le. Qed.
#[local] Hint Resolve fill_matches_le : run_le.
Lemma matchAgainstBook_le o : matchAgainstBook self o ⊑ matchAgainstBook self' o.
Proof. unfold matchAgainstBook. run_le. Qed.
Lemma matchAgainstQuote_le o : matchAgainstQuote self o ⊑ matchAgainstQuote self' o.
Proof. unfold matchAgainstQuote, fill_at. run_le. Qed.
Lemma matchAgainstTrade_le o : matchAgainstTrade self o ⊑ matchAgainstTrade self' o.
Proof. unfold matchAgainstTrade, fill_at. run_le. Qed.
Lemma matchAgainstBar_le o : matchAgainstBar self o ⊑ matchAgainstBar self' o.
Proof. unfold matchAgainstBar, fill_at. run_le. Qed.
Lemma matchTicker_le o : matchMarketOrderAgainstTicker self o ⊑ matchMarketOrderAgainstTicker self' o.
Proof. unfold matchMarketOrderAgainstTicker. run_le. Qed.
#[local] Hint Resolve matchAgainstBook_le matchAgainstQuote_le matchAgainstTrade_le matchAgainstBar_le matchTicker_le : run_le.
Lemma match_market_le o : match_market self o ⊑ match_market self' o.
Proof. unfold match_market. cbn [first_source]. run_le. Qed.
Lemma match_limit_le o : match_limit self o ⊑ match_limit self' o.
Proof. unfold match_limit. run_le. Qed.
Lemma matchMarketToLimit_le o : matchMarketToLimit self o ⊑ matchMarketToLimit self' o.
Proof. unfold matchMarketToLimit. run_le. Qed.
#[local] Hint Resolve match_market_le match_limit_le matchMarketToLimit_le : run_le.
Lemma matchOrder_le o : matchOrder self o ⊑ matchOrder self' o.
Proof.
  unfold matchOrder, match_by_type, cancelImmediateRemainder, matchTriggeredMarket, matchTriggeredLimit, matchTriggered,
    matchTrailingMarket, matchTrailingLimit, matchTrailing, markTriggered. run_le.
Qed.
#[local] Hint Resolve matchOrder_le : run_le.
Lemma MatchOpenOrders_le : MatchOpenOrders self ⊑ MatchOpenOrders self'.
Proof. unfold MatchOpenOrders. run_le. Qed.
#[local] Hint Resolve MatchOpenOrders_le : run_le.
Lemma SubmitOrder_le o : Runtime_SubmitOrder self o ⊑ Runtime_SubmitOrder self' o.
Proof. unfold Runtime_SubmitOrder. run_le. Qed.
#[local] Hint Resolve SubmitOrder_le : run_le.
Lemma submit_parents_le l : submit_parents self l ⊑ submit_parents self' l.
Proof. induction l; simpl; run_le. Qed.
#[local] Hint Resolve submit_parents_le : run_le.
Lemma ModifyOrder_le m : Runtime_ModifyOrder self m ⊑ Runtime_ModifyOrder self' m.
Proof. unfold Runtime_ModifyOrder. run_le. Qed.
#[local] Hint Resolve ModifyOrder_le : run_le.
Lemma run_command_le c : run_command self c ⊑ run_command self' c.
Proof. destruct c; simpl; unfold Runtime_SubmitOrderList; run_le. Qed.

Lemma run_event_le rounds rounds' event : rounds <= rounds' -> run_event rounds self event ⊑ run_event rounds' self' event.
Proof. intros H. unfold run_event, after_timers. run_le. Qed.
Lemma run_events_le rounds rounds' events k :
  rounds <= rounds' -> run_events rounds self events k ⊑ run_events rounds' self' events k.
Proof. intros H. revert k. induction events; intros k; simpl; [reflexivity|]. apply bind_le; [by apply run_event_le|]. intros []; [done|reflexivity]. Qed.
End monotone.

Lemma calls_mono n n' : n <= n' -> calls_le (calls n) (calls n').
Proof.
  revert n'. induction n as [|n IH]; intros n' H; simpl.
  - split; intros; apply stuck_le.
  - destruct n' as [|n']; [lia|]. specialize (IH n' ltac:(lia)). simpl.
    split; intros; simpl; [by apply run_command_le | by apply ModifyOrder_le | by apply matchOrder_le].
Qed.

Lemma Runner_Run_le n n' rounds rounds' events : n <= n' -> rounds <= rounds' ->
  Runner_Run n rounds events ⊑ Runner_Run n' rounds' events.
Proof.
  intros Hn Hr. pose proof (calls_mono n n' Hn) as Hle. unfold Runner_Run. cbv zeta.
  apply bind_le; [reflexivity|]. intros _.
  apply bind_le; [by apply StartStrategies_le|]. intros [[]|e]; [|reflexivity].
  apply bind_le; [by apply run_events_le|]. intros outcome.
  apply bind_le; [by apply StopStrategies_le|]. intros stopped. reflexivity.
Qed.

(** The amounts of fuel do not matter.  A back-test that returns, with whatever strategies,
    returns the same state and the same result for any larger bounds on the nesting of calls
    and on the timers before one event. *)
Theorem fuel_irrelevant n n' rounds rounds' events r answer :
  n <= n' -> rounds <= rounds' ->
  Runner_Run n rounds events r = Some answer -> Runner_Run n' rounds' events r = Some answer.
Proof. intros Hn Hr. by apply Runner_Run_le. Qed.
End fuel.

Section termination.
Context {DD : Decimal} {FF : FillModel} {W : Type} {RG : Ranges (W := W)}.
Implicit Types (self : Calls (W := W)) (r : Runtime (W := W)).

(** ** Tame strategies, calm states *)

Definition listless (c : Command) : Prop := match c with DoSubmitOrderList _ => False | _ => True end.
Definition on_event (env : Envelope (A := Message)) : Command -> Prop :=
  match ev_Message env with ExecutionMessage _ => passive | _ => listless end.
Record tame (s : Strategy (W := W)) : Prop := {
  tm_OnStart : program_all listless (sg_OnStart s);
  tm_OnEvent env : program_all (on_event env) (sg_OnEvent s env);
  tm_OnStop : program_all listless (sg_OnStop s);
}.

Record calm r : Prop := {
  cm_strategies : Forall tame (rt_engine r);
  cm_held : rt_heldChildren r = ∅;
  cm_members : rt_orderListMembers r = ∅;
  cm_timers name timer : rt_timers r !! name = Some timer -> ti_name timer = name /\ name ≠ "" /\ (0 < ti_interval timer)%Z;
}.

(** Calm states stay calm; where [fixed], time stands still and new timers are in the future. *)
Definition onward (fixed : Prop) r r' : Prop := calm r -> calm r' /\
  (fixed -> rt_currentTime r' = rt_currentTime r /\
    forall name timer, rt_timers r' !! name = Some timer ->
      rt_timers r !! name = Some timer \/ (rt_currentTime r < ti_next timer)%Z).
#[local] Instance onward_po fixed : PreOrder (onward fixed).
Proof.
  split; [intros r H; split; auto|]. intros r1 r2 r3 H12 H23 H. destruct (H12 H) as [H2 F12], (H23 H2) as [H3 F23].
  split; [done|]. intros HF. destruct (F12 HF) as [E12 T12], (F23 HF) as [E23 T23]. split; [congruence|].
  intros name timer [Ht|Ht]%T23; [auto | right; congruence].
Qed.
#[local] Instance onward_follows fixed : Follows (onward fixed) calm.
Proof. split; [apply _|]. intros r r' H Hc. by apply H. Qed.
#[local] Hint Resolve onward_follows : along.

Lemma onward_same fixed r r' : rt_engine r' = rt_engine r -> rt_heldChildren r' = rt_heldChildren r ->
  rt_orderListMembers r' = rt_orderListMembers r -> rt_timers r' = rt_timers r -> rt_currentTime r' = rt_currentTime r ->
  onward fixed r r'.
Proof.
  intros E1 E2 E3 E4 E5 [H1 H2 H3 H4]. split; [constructor; rewrite ?E1, ?E2, ?E3, ?E4; done|]. intros _. split; [done|]. rewrite E4. auto.
Qed.
Ltac onward_same := apply onward_same; reflexivity.
Lemma onward_cache fixed r c : onward fixed r (with_cache r c).
Proof. onward_same. Qed.
Lemma onward_portfolio fixed r p : onward fixed r (with_portfolio r p).
Proof. unfold with_portfolio. destruct (rt_cache_shared _); onward_same. Qed.
Lemma along_engine fixed {A} (m : M (W := client_view) A) : along (onward fixed) calm (run_engine m).
Proof. intros r. unfold run_engine. destruct (m _) as [[e v] a]. onward_same. Qed.
Lemma onward_timers fixed r f : (calm r -> forall name timer, f (rt_timers r) !! name = Some timer ->
    rt_timers r !! name = Some timer \/
    ti_name timer = name /\ name ≠ "" /\ (0 < ti_interval timer)%Z /\ (rt_currentTime r < ti_next timer)%Z) ->
  onward fixed r (r <| rt_timers := f (rt_timers r) |>).
Proof.
  intros Hf Hc. destruct Hc as [H1 H2 H3 H4] eqn:E. clear E. split.
  - constructor; [done..|]. simpl. intros name timer [Ht|Ht]%Hf; [by apply H4 | naive_solver | done].
  - intros _. split; [done|]. simpl. intros name timer [Ht|Ht]%Hf; [auto | naive_solver | done].
Qed.

#[local] Instance onward_preserved fixed : Preserved (onward fixed) calm.
Proof.
  constructor; try (intros; apply along_engine).
  - intros r r' []. by apply onward_same.
  - intros e _ _ r. unfold reconcile. destruct (Apply _ _). apply onward_cache.
  - intros e r. unfold put_event. destruct (PutMarketEvent _ _); [apply onward_cache | reflexivity].
  - intros e r. unfold mark_portfolio. destruct (portfolio_of r); [apply onward_portfolio | reflexivity].
  - intros name interval. unfold SetTimer, ValidateTimer. destruct (name ≟ "") eqn:En; [apply along_ret, _|]. simpl.
    destruct (Z.leb_spec interval 0) as [|Hi]; simpl; [apply along_ret, _|]. along. apply along_modify.
    intros r. apply (onward_timers fixed r (fun ts => <[name := _]> ts)). intros _ n timer.
    destruct (decide (n = name)) as [->|]; [|rewrite lookup_insert_ne by done; auto].
    rewrite lookup_insert_eq. intros [= <-]. right. apply bool_decide_eq_false in En. simpl. unfold time_Add.
    split_and!; [done..|lia].
  - intros name. unfold CancelTimer. along. apply along_modify. intros r.
    apply (onward_timers fixed r (fun ts => delete name ts)). intros _ n timer [_ H]%lookup_delete_Some. auto.
  - intros order price quantity ts source. unfold newFillReportWithSource, record_fill, fillPrice. along.
    all: try (apply along_modify; intros r; onward_same).
    all: try (intros r; unfold reconcile; destruct (Apply _ _); apply onward_cache).
    + intros r. destruct (rt_fillModel r); [|reflexivity]. destruct (ApplySlippage _ _ _). onward_same.
    + intros r. unfold apply_to_portfolio. destruct (portfolio_of r); [|reflexivity].
      destruct (ApplyFillWithPosition _ _ _ _ _ _). apply onward_portfolio.
Qed.
#[local] Instance onward_timeless : Timeless (onward False).
Proof. intros t r [H1 H2 H3 H4]. split; [by constructor | done]. Qed.

(** ** Processing events *)

Section levels.
Context (fixed : Prop).
Notation returns := (along (onward fixed) calm).

(** A step that reads the strategies of a calm state. *)
Lemma returns_read {A} (f : Runtime (W := W) -> Run (Runtime (W := W)) A) :
  (forall r, calm r -> returns (f r)) -> returns (get_state ≫= f).
Proof.
  intros H. apply along_read. intros r. specialize (H r).
  destruct (f r r) as [[r' a]|] eqn:E.
  - intros Hc. pose proof (along_some (H Hc) E) as Hr. by apply Hr.
  - intros Hc. specialize (H Hc r). rewrite E in H. by apply H.
Qed.
Lemma returns_strategies self (P : Command -> Prop) method :
  (forall id c now, P c -> returns (call_command self (with_metadata id now c))) ->
  (forall s, tame s -> program_all P (method s)) -> forall l, Forall tame l -> returns (run_strategies self method l).
Proof. intros Hc Hm l Hl. apply (along_strategies (onward fixed) calm self method l P Hc). by eapply Forall_impl. Qed.

Lemma returns_Process self env : (forall id c now, on_event env c -> returns (call_command self (with_metadata id now c))) ->
  returns (Process self env).
Proof.
  intros Hc. apply returns_read. intros r Hr. along. apply (returns_strategies self (on_event env)); [done | | apply Hr].
  intros s Hs. apply Hs.
Qed.
Lemma returns_Stop self : (forall id c now, listless c -> returns (call_command self (with_metadata id now c))) ->
  returns (StopStrategies self).
Proof.
  intros Hc. apply returns_read. intros r Hr. apply (returns_strategies self listless); [done | | apply Hr].
  intros s Hs. apply Hs.
Qed.
Lemma returns_Start self : (forall id c now, listless c -> returns (call_command self (with_metadata id now c))) ->
  returns (StartStrategies self).
Proof.
  intros Hc. apply returns_read. intros r Hr. induction (cm_strategies _ Hr) as [|s l Hs Hl IH]; simpl; [apply along_ret, _|].
  apply along_attempt; [apply _ | | done]. apply (along_program _ _ self _ listless); [auto | apply Hs].
Qed.

Lemma passive_metadata id now c : passive c -> passive (with_metadata id now c).
Proof. by destruct c. Qed.
Lemma listless_metadata id now c : listless c -> listless (with_metadata id now c).
Proof. by destruct c. Qed.

(** One level of calls carries the events of executions. *)
Lemma returns_dispatch n e : returns (dispatchExecution (calls (S n)) e).
Proof.
  unfold dispatchExecution. along; [|apply along_publish, _]. apply returns_Process. intros id c now Hc.
  apply (along_passive _ _ _ _ (passive_metadata id now c Hc)).
Qed.
(** Without order lists no order has siblings or children. *)
Lemma returns_ouo self o q : returns (updateOuoSiblings self o q).
Proof.
  unfold updateOuoSiblings. case_match; [apply along_ret, _|]. apply returns_read. intros r Hr. unfold members_of.
  rewrite (cm_members _ Hr), lookup_empty. apply along_ret, _.
Qed.
Lemma returns_children self p : returns (updateHeldChildren self p).
Proof.
  unfold updateHeldChildren. apply returns_read. intros r Hr. rewrite (cm_held _ Hr), lookup_empty. apply along_ret, _.
Qed.
Lemma returns_command n id c now : listless c -> returns (call_command (calls (S (S n))) (with_metadata id now c)).
Proof.
  intros Hc%(listless_metadata id now).
  apply (along_command _ _ _ (returns_dispatch n) (returns_ouo _) (returns_children _)).
  intros l E. by rewrite E in Hc.
Qed.
Lemma returns_event n id c now env : on_event env c -> returns (call_command (calls (S (S n))) (with_metadata id now c)).
Proof.
  unfold on_event. destruct (ev_Message env); intros Hc; apply returns_command; try done. by destruct c.
Qed.
End levels.

(** ** The timers due *)

Definition due (until : time) (timer : timerState) : Prop := (ti_next timer <= until)%Z.

(** [nextDueTimer] finds the earliest timer that is due, if there is one. *)
Lemma nextDue_spec l until : (forall timer, timer ∈ l -> ti_name timer ≠ "") ->
  match nextDueTimer l until with
  | None => forall timer, timer ∈ l -> ~ due until timer
  | Some next => next ∈ l /\ due until next /\
      forall timer, timer ∈ l -> due until timer -> (ti_next next <= ti_next timer)%Z
  end.
Proof.
  intros Hn. unfold nextDueTimer.
  assert (forall acc, (forall next, acc = Some next -> due until next /\ ti_name next ≠ "") ->
    match foldl (consider_timer until) acc l with
    | None => acc = None /\ forall timer, timer ∈ l -> ~ due until timer
    | Some next => (acc = Some next \/ next ∈ l) /\ due until next /\ ti_name next ≠ "" /\
        (forall a, acc = Some a -> (ti_next next <= ti_next a)%Z) /\
        forall timer, timer ∈ l -> due until timer -> (ti_next next <= ti_next timer)%Z
    end) as H.
  { induction l as [|x l IH]; intros acc Hacc; simpl.
    - destruct acc as [a|]; [|split; [done | set_solver]]. destruct (Hacc a eq_refl).
      split_and!; auto; [by intros ? [= ->] | set_solver].
    - specialize (IH ltac:(set_solver) (consider_timer until acc x)).
      assert (Hx := Hn x ltac:(set_solver)). unfold due in *.
      assert (Hstep : (acc = consider_timer until acc x /\
                (due until x -> exists a, acc = Some a /\ (ti_next a <= ti_next x)%Z)) \/
              (consider_timer until acc x = Some x /\ due until x /\ forall a, acc = Some a -> (ti_next x <= ti_next a)%Z)).
      { unfold consider_timer, due, After, Before, time_Equal. destruct (Z.ltb_spec until (ti_next x)); [left; split; [done|lia]|].
        destruct acc as [a|]; [|right; by split_and!]. rewrite (bool_decide_eq_false_2 _ (proj2 (Hacc a eq_refl))). simpl.
        destruct (Z.ltb_spec (ti_next x) (ti_next a)); simpl; [right; split_and!; [done..|]; intros ? [= <-]; lia|].
        destruct (Z.eqb_spec (ti_next x) (ti_next a)); simpl.
        - destruct (String.ltb _ _); [right; split_and!; [done..|]; intros ? [= <-]; lia | left; split; [done|]]. exists a. split; [done|lia].
        - left. split; [done|]. exists a. split; [done|lia]. }
      destruct Hstep as [[E Hx']|(E & Hd & Ha)].
      + rewrite <- E in IH |- *. specialize (IH Hacc). destruct (foldl _ acc l) as [next|].
        * destruct IH as (I1 & I2 & I3 & I4 & I5). split_and!; [set_solver | done..|].
          intros timer [->|Ht]%elem_of_cons Hdue; [|auto]. destruct (Hx' Hdue) as (a & -> & ?). specialize (I4 a eq_refl). lia.
        * destruct IH as [-> I2]. split; [done|]. intros timer [->|Ht]%elem_of_cons; [|auto].
          intros Hdue. by destruct (Hx' Hdue) as (a & ? & ?).
      + rewrite E in IH |- *. specialize (IH ltac:(by intros ? [= <-])). destruct (foldl _ (Some x) l) as [next|].
        * destruct IH as (I1 & I2 & I3 & I4 & I5). specialize (I4 x eq_refl). split_and!; [naive_solver set_solver | done.. | |].
          -- intros a Hacc'. specialize (Ha a Hacc'). lia.
          -- intros timer [->|Ht]%elem_of_cons Hdue; auto.
        * by destruct IH. }
  specialize (H None ltac:(done)). destruct (foldl _ None l) as [next|]; [|by destruct H].
  destruct H as (H1 & H2 & H3 & _ & H5). rewrite (bool_decide_eq_false_2 _ H3). split_and!; [naive_solver | done..].
Qed.

(** No timer is before [now]; those at [now] are among [names]. *)
Definition pending (now : time) (names : gset string) r : Prop := forall name timer, rt_timers r !! name = Some timer ->
  (now <= ti_next timer)%Z /\ (ti_next timer = now -> name ∈ names).

Lemma calm_nextDue r until : calm r ->
  match nextDueTimer (map_values (rt_timers r)) until with
  | None => forall name timer, rt_timers r !! name = Some timer -> ~ due until timer
  | Some next => rt_timers r !! ti_name next = Some next /\ due until next /\
      forall name timer, rt_timers r !! name = Some timer -> due until timer -> (ti_next next <= ti_next timer)%Z
  end.
Proof.
  intros Hr. pose proof (nextDue_spec (map_values (rt_timers r)) until) as H.
  assert (forall timer, timer ∈ map_values (rt_timers r) -> ti_name timer ≠ "") as Hn.
  { intros timer [name Ht]%elem_of_map_values. by destruct (cm_timers _ Hr _ _ Ht) as (-> & ? & _). }
  specialize (H Hn). destruct (nextDueTimer _ _) as [next|].
  - destruct H as (H1 & H2 & H3). apply elem_of_map_values in H1 as [name H1].
    split_and!; [by destruct (cm_timers _ Hr _ _ H1) as (-> & _) | done|].
    intros n timer Ht. apply H3, elem_of_map_values. eauto.
  - intros n timer Ht. apply H, elem_of_map_values. eauto.
Qed.

(** A timer fires at [now]: it returns, and one name less is pending. *)
Lemma fire_returns n r until timer names : calm r -> pending (ti_next timer) names r ->
  nextDueTimer (map_values (rt_timers r)) until = Some timer ->
  exists r' result, dispatch_timer (calls (S (S n))) until r = Some (r', (true, result)) /\ calm r' /\
    (result = Ok tt -> pending (ti_next timer) (names ∖ {[ti_name timer]}) r').
Proof.
  intros Hr Hp Hn. pose proof (calm_nextDue r until Hr) as Hs. rewrite Hn in Hs. destruct Hs as (Ht & _ & _).
  unfold dispatch_timer, mbind at 1, Run_bind, get_state. rewrite Hn. unfold mbind at 1, Run_bind, setTime, modify_state.
  set (r0 := r <| rt_currentTime := ti_next timer |>).
  assert (H0 : calm r0) by (destruct Hr; by constructor).
  set (env := mkEnvelope TopicTimer _ _).
  pose proof (returns_Process True (calls (S (S n))) env (fun id c now => returns_event True n id c now env)) as HP.
  destruct (along_returns r0 HP H0) as (r1 & result & E1 & HR). destruct (HR H0) as [H1 HF]. destruct (HF I) as [Et HT].
  unfold attempt_run. unfold mbind at 1 2, Run_bind. rewrite E1. destruct result as [[]|e].
  2: { exists r1, (Fail e). split_and!; [done..|by intros]. }
  unfold publish, mbind, Run_bind, mret, Run_ret. cbn [rt_timers]. set (r2 := r1 <| rt_bus := _ |>).
  change (rt_timers r2) with (rt_timers r1). eexists _, (Ok tt). split; [reflexivity|].
  assert (Hold : forall name t, rt_timers r1 !! name = Some t -> rt_timers r !! name = Some t \/ (ti_next timer < ti_next t)%Z) by exact HT.
  assert (Hpend : forall name t, rt_timers r1 !! name = Some t -> (ti_next timer <= ti_next t)%Z /\
    (ti_next t = ti_next timer -> name ∈ names)).
  { intros name t [H|H]%Hold; [by apply Hp | split; lia]. }
  assert (calm r2) as H2 by (destruct H1; by constructor).
  destruct (rt_timers r1 !! ti_name timer) as [current|] eqn:Ec; [destruct (time_Equal _ _) eqn:Eq|].
  - apply Z.eqb_eq in Eq. destruct (cm_timers _ H1 _ _ Ec) as (E2 & E3 & E4). split.
    + destruct H2 as [A1 A2 A3 A4]. constructor; [done..|]. simpl. intros name t.
      destruct (decide (name = ti_name timer)) as [->|]; [rewrite lookup_insert_eq; by intros [= <-] | rewrite lookup_insert_ne by done; apply A4].
    + intros _ name t. simpl. destruct (decide (name = ti_name timer)) as [->|].
      * rewrite lookup_insert_eq. intros [= <-]. simpl. unfold time_Add. split; lia.
      * rewrite lookup_insert_ne by done. intros [? H]%Hpend. split; [done|]. set_solver.
  - apply Z.eqb_neq in Eq. split; [done|]. intros _ name t H. destruct (Hpend name t H) as [? Hin]. split; [done|].
    intros E. assert (name ≠ ti_name timer) by (intros ->; change (rt_timers r1 !! ti_name timer = Some t) in H; congruence). set_solver.
  - split; [done|]. intros _ name t H. destruct (Hpend name t H) as [? Hin]. split; [done|].
    intros E. assert (name ≠ ti_name timer) by (intros ->; change (rt_timers r1 !! ti_name timer = Some t) in H; congruence). set_solver.
Qed.

Definition dispatches n until r : Prop := exists rounds r' result,
  DispatchTimersDue rounds (calls (S (S n))) until r = Some (r', result) /\ calm r'.

Lemma dispatches_none n until r : calm r -> nextDueTimer (map_values (rt_timers r)) until = None -> dispatches n until r.
Proof.
  intros Hr Hn. exists 1%nat, r, (Ok tt). split; [|done].
  cbn [DispatchTimersDue]. unfold dispatch_timer, mbind, Run_bind, get_state. by rewrite Hn.
Qed.

(** By the time left, and then by the names pending. *)
Lemma timers_return n until distance : forall now names r, calm r -> pending now names r ->
  (until - now < Z.of_nat distance)%Z -> dispatches n until r.
Proof.
  induction distance as [|distance IHd]; intros now names r Hr Hp Hd.
  { apply dispatches_none; [done|]. pose proof (calm_nextDue r until Hr) as H. destruct (nextDueTimer _ _) as [next|]; [|done].
    destruct H as (H1 & H2 & _). apply Hp in H1 as [H1 _]. unfold due in H2. lia. }
  revert r Hr Hp. induction names as [names IHn] using (well_founded_induction set_wf). intros r Hr Hp.
  destruct (nextDueTimer (map_values (rt_timers r)) until) as [timer|] eqn:En; [|by apply dispatches_none].
  pose proof (calm_nextDue r until Hr) as H. rewrite En in H. destruct H as (Ht & Hdue & Hmin).
  destruct (Hp _ _ Ht) as [Hle Hin]. destruct (decide (ti_next timer = now)) as [<-|Hne].
  - destruct (fire_returns n r until timer names Hr Hp En) as (r1 & result & E & Hr1 & Hp1).
    destruct result as [[]|e].
    + destruct (IHn (names ∖ {[ti_name timer]}) ltac:(set_solver) r1 Hr1 (Hp1 eq_refl)) as (rounds & r' & result & E' & Hr').
      exists (S rounds), r', result. split; [|done]. cbn [DispatchTimersDue]. unfold mbind, Run_bind. by rewrite E.
    + exists 1%nat, r1, (Fail e). split; [|done]. cbn [DispatchTimersDue]. unfold mbind, Run_bind. by rewrite E.
  - apply (IHd (now + 1)%Z (dom (rt_timers r)) r Hr); [|lia]. intros name t Hn. split; [|intros _; by apply elem_of_dom_2 in Hn].
    destruct (Z.le_gt_cases (ti_next t) until) as [Hd'|]; [|unfold due in Hdue; lia]. specialize (Hmin _ _ Hn Hd'). lia.
Qed.

Lemma DispatchTimersDue_returns n until r : calm r -> dispatches n until r.
Proof.
  intros Hr.
  assert (exists now names, pending now names r) as (now & names & Hp).
  { exists (foldr Z.min 0%Z (ti_next <$> map_values (rt_timers r))), (dom (rt_timers r)). intros name t Ht.
    split; [|intros _; by apply elem_of_dom_2 in Ht].
    assert (t ∈ map_values (rt_timers r)) as Hin by (apply elem_of_map_values; eauto). revert Hin.
    induction (map_values _) as [|x l IH]; intros Hin; [set_solver|].
    rewrite fmap_cons. cbn [foldr]. apply elem_of_cons in Hin as [->|Hin]; [lia|]. specialize (IH Hin). lia. }
  apply (timers_return n until (Z.to_nat (until - now + 1)) now names); [done..|lia].
Qed.

(** ** The run *)

Notation onwards := (along (onward False) calm).

Lemma after_timers_returns n event : onwards (after_timers (calls (S (S n))) event).
Proof.
  assert (forall env, onwards (Process (calls (S (S n))) env)) as Hp.
  { intros env. apply returns_Process. intros id c now. apply returns_event. }
  apply (along_after_timers _ _ _ (returns_dispatch False (S n)) (returns_ouo False _) (returns_children False _) Hp).
Qed.

Lemma run_event_returns n event r : calm r ->
  exists rounds r' result, run_event rounds (calls (S (S n))) event r = Some (r', result) /\ calm r'.
Proof.
  intros Hr. destruct (DispatchTimersDue_returns n (bv_At event) r Hr) as (rounds & r1 & result & E & Hr1).
  exists rounds. unfold run_event, attempt_run, mbind, Run_bind. rewrite E. destruct result as [[]|e]; [|by exists r1, (Fail e)].
  destruct (along_returns r1 (after_timers_returns n event) Hr1) as (r2 & result & E2 & Hr2). rewrite E2.
  exists r2, result. split; [done|]. by apply Hr2.
Qed.

Lemma run_events_return n events : forall r k, calm r ->
  exists rounds r' outcome, run_events rounds (calls (S (S n))) events k r = Some (r', outcome) /\ calm r'.
Proof.
  induction events as [|event events IH]; intros r k Hr; [by exists 0%nat, r, (k, [])|].
  destruct (run_event_returns n event r Hr) as (rounds1 & r1 & result & E1 & Hr1).
  destruct result as [[]|e].
  - destruct (IH r1 (S k) Hr1) as (rounds2 & r2 & outcome & E2 & Hr2). exists (rounds1 + rounds2), r2, outcome. split; [|done].
    pose proof (calls_mono (W := W) (S (S n)) (S (S n)) ltac:(lia)) as Hle. cbn [run_events]. unfold mbind, Run_bind.
    rewrite (run_event_le _ _ Hle rounds1 (rounds1 + rounds2) event ltac:(lia) _ _ E1).
    exact (run_events_le _ _ Hle rounds2 (rounds1 + rounds2) events (S k) ltac:(lia) _ _ E2).
  - exists rounds1, r1, (k, [e]). split; [|done]. cbn [run_events]. unfold mbind, Run_bind. by rewrite E1.
Qed.

(** What a runner starts with is calm. *)
Lemma AddStrategy_tame l s : Forall tame l -> tame s -> Forall tame (AddStrategy l s).1.
Proof. intros Hl Hs. unfold AddStrategy. repeat case_match; simpl; try done. apply Forall_app. by rewrite Forall_singleton. Qed.
Lemma NewRunner_calm fallback (cfg : Config (W := W)) w :
  Forall tame (cg_Strategies cfg) -> calm (rn_runtime (NewRunner fallback cfg w)).
Proof.
  intros Hs. unfold NewRunner. constructor; simpl; [|done..].
  assert (forall l, Forall tame l -> Forall tame (foldl (fun l s => (AddStrategy l s).1) l (cg_Strategies cfg))) as H.
  { induction Hs as [|s ss Hs _ IH]; intros l Hl; [done|]. simpl. by apply IH, AddStrategy_tame. }
  by apply H.
Qed.

End termination.
