(* ===== verification/NodeReports.v ===== *)
(** * Reports and events of the platform node (platform/node.go)

    What the node derives from a command, a venue's report and the order in the cache, without
    its state: completed reports and commands, lifecycle events, the subscriptions that an
    emulated order needs. *)
From stdpp Require Import base list strings.
From S2P Require Import Prelude Decimals Enums Identifiers Orders Market Accounts ExecManager Emulator ExecEngine.
From S2P Require Import TradingAccount DataEngine.

Open Scope go_scope.

Section reports.
Context {DD : Decimal}.
Implicit Types (report updated existing order : OrderStatusReport) (modify : ModifyOrder) (cancel : CancelOrder)
  (query : QueryOrder).

(** A field of a report that its zero value leaves open. *)
Definition or_value {A} `{EqDecision A} (none x d : A) : A := if x ≟ none then d else x.
Definition or_decimal (x d : D) : D := if IsZero x then d else x.
Definition or_time (x d : time) : time := if time_IsZero x then d else x.

(** The fields that three of the completions treat alike. *)
Definition complete (report source : OrderStatusReport) : OrderStatusReport :=
  report <| or_TriggerInstrumentID := or_instrument (or_TriggerInstrumentID report) (or_TriggerInstrumentID source) |>
         <| or_OrderListID := or_default (or_OrderListID report) (or_OrderListID source) |>
         <| or_ParentClientOrderID := or_default (or_ParentClientOrderID report) (or_ParentClientOrderID source) |>
         <| or_Side := or_value OrderSideNone (or_Side report) (or_Side source) |>
         <| or_Type := or_value OrderTypeNone (or_Type report) (or_Type source) |>
         <| or_Contingency := or_value ContingencyTypeNone (or_Contingency report) (or_Contingency source) |>
         <| or_Quantity := or_decimal (or_Quantity report) (or_Quantity source) |>
         <| or_Price := or_decimal (or_Price report) (or_Price source) |>
         <| or_TriggerPrice := or_decimal (or_TriggerPrice report) (or_TriggerPrice source) |>
         <| or_ActivationPrice := or_decimal (or_ActivationPrice report) (or_ActivationPrice source) |>
         <| or_TrailingOffset := or_decimal (or_TrailingOffset report) (or_TrailingOffset source) |>
         <| or_TrailingOffsetType :=
              or_value TrailingOffsetTypeNone (or_TrailingOffsetType report) (or_TrailingOffsetType source) |>
         <| or_TimeInForce := or_value TimeInForceNone (or_TimeInForce report) (or_TimeInForce source) |>
         <| or_ExpireTime := or_time (or_ExpireTime report) (or_ExpireTime source) |>
         <| or_PostOnly := or_PostOnly report || or_PostOnly source |>
         <| or_ReduceOnly := or_ReduceOnly report || or_ReduceOnly source |>.

(** An order as a report of its terms. *)
Definition terms_of (order : SubmitOrder) : OrderStatusReport :=
  mkOrderStatusReport (so_Metadata order) (so_AccountID order) (so_InstrumentID order) (so_TriggerInstrumentID order)
    (so_OrderListID order) "" "" "" (so_ParentClientOrderID order) (so_ClientOrderID order) OrderStatusNone
    (so_Side order) (so_Type order) (so_Contingency order) (so_Quantity order) dzero dzero (so_Price order)
    (so_TriggerPrice order) (so_ActivationPrice order) (so_TrailingOffset order) (so_TrailingOffsetType order)
    (so_PostOnly order) (so_ReduceOnly order) (so_TimeInForce order) (so_ExpireTime order) dzero 0.

(** Leaves are derived when the report of an open order has none. *)
Definition leaves_missing report : bool :=
  IsZero (or_LeavesQuantity report) && IsPositive (or_Quantity report) && OrderStatus_IsOpen (or_Status report).
Definition leaves_of report : D := dsub (or_Quantity report) (or_FilledQuantity report).

Definition fillSubmittedReport report (order : SubmitOrder) : OrderStatusReport :=
  let report := report
    <| or_Metadata := CommandMetadata_WithDefaults (or_Metadata report) (so_Metadata order) |>
    <| or_AccountID := or_default (or_AccountID report) (so_AccountID order) |>
    <| or_InstrumentID := or_instrument (or_InstrumentID report) (so_InstrumentID order) |>
    <| or_ClientOrderID := or_default (or_ClientOrderID report) (so_ClientOrderID order) |> in
  let report := complete report (terms_of order) in
  if leaves_missing report then report <| or_LeavesQuantity := leaves_of report |> else report.

Definition fillQueriedReport report query : OrderStatusReport :=
  report <| or_Metadata := CommandMetadata_WithDefaults (qo_Metadata query) (or_Metadata report) |>
         <| or_AccountID := or_default (or_AccountID report) (qo_AccountID query) |>
         <| or_InstrumentID := or_instrument (or_InstrumentID report) (qo_InstrumentID query) |>
         <| or_OrderID := or_default (or_OrderID report) (qo_OrderID query) |>
         <| or_ClientOrderID := or_default (or_ClientOrderID report) (qo_ClientOrderID query) |>
         <| or_VenueOrderID := or_default (or_VenueOrderID report) (qo_VenueOrderID query) |>.

Definition matchesOrderQuery report query : bool :=
  asked (qo_OrderID query) (or_OrderID report) && asked (qo_ClientOrderID query) (or_ClientOrderID report) &&
  asked (qo_VenueOrderID query) (or_VenueOrderID report) &&
  (or_AccountID report ≟ qo_AccountID query) && (or_InstrumentID report ≟ qo_InstrumentID query).

Definition fillModifyIdentity modify existing : ModifyOrder :=
  mkModifyOrder (mo_Metadata modify) (mo_AccountID modify)
    (or_instrument (mo_InstrumentID modify) (or_InstrumentID existing))
    (or_default (mo_OrderID modify) (or_OrderID existing)) (or_default (mo_VenueOrderID modify) (or_VenueOrderID existing))
    (or_default (mo_ClientOrderID modify) (or_ClientOrderID existing)) (mo_Quantity modify) (mo_Price modify)
    (mo_TriggerPrice modify) (mo_ActivationPrice modify) (mo_TrailingOffset modify) (mo_TrailingOffsetType modify)
    (mo_TimeInForce modify).
Definition fillCancelIdentity cancel existing : CancelOrder :=
  mkCancelOrder (co_Metadata cancel) (co_AccountID cancel)
    (or_instrument (co_InstrumentID cancel) (or_InstrumentID existing))
    (or_default (co_OrderID cancel) (or_OrderID existing)) (or_default (co_ClientOrderID cancel) (or_ClientOrderID existing)).
Definition fillBatchCancelIdentity cancel (a : AccountID) (i : InstrumentID) : CancelOrder :=
  mkCancelOrder (co_Metadata cancel) (or_default (co_AccountID cancel) a) (or_instrument (co_InstrumentID cancel) i)
    (co_OrderID cancel) (co_ClientOrderID cancel).

Definition submitFromOrderReport report : SubmitOrder :=
  mkSubmitOrder (or_Metadata report) (or_AccountID report) (or_InstrumentID report) (or_TriggerInstrumentID report)
    (or_OrderListID report) (or_ParentClientOrderID report) (or_ClientOrderID report) (or_Side report) (or_Type report)
    (or_Contingency report) (or_TimeInForce report) (or_Quantity report) (or_Price report) (or_TriggerPrice report)
    (or_ActivationPrice report) (or_TrailingOffset report) (or_TrailingOffsetType report) TriggerTypeNone
    (or_PostOnly report) (or_ReduceOnly report) (or_ExpireTime report).

Definition fillModifiedReport report modify updated : OrderStatusReport :=
  let report := report
    <| or_Metadata := CommandMetadata_WithDefaults (CommandMetadata_WithDefaults (mo_Metadata modify) (or_Metadata report))
                        (or_Metadata updated) |>
    <| or_AccountID := or_default (or_AccountID report) (or_AccountID updated) |>
    <| or_InstrumentID := or_instrument (or_InstrumentID report) (or_InstrumentID updated) |>
    <| or_OrderID := or_default (or_OrderID report) (or_OrderID updated) |>
    <| or_VenueOrderID := or_default (or_VenueOrderID report) (or_VenueOrderID updated) |>
    <| or_ClientOrderID := or_default (or_ClientOrderID report) (or_ClientOrderID updated) |>
    <| or_Status := or_status (or_Status report) OrderStatusAccepted |> in
  let report := complete report updated <| or_FilledQuantity := or_decimal (or_FilledQuantity report) (or_FilledQuantity updated) |> in
  if leaves_missing report
  then report <| or_LeavesQuantity := if IsNegative (leaves_of report) then dzero else leaves_of report |>
  else report.

Definition fillCanceledReport report cancel existing : OrderStatusReport :=
  let report := report
    <| or_Metadata := CommandMetadata_WithDefaults (CommandMetadata_WithDefaults (co_Metadata cancel) (or_Metadata report))
                        (or_Metadata existing) |>
    <| or_AccountID := or_default (or_AccountID report) (co_AccountID cancel) |>
    <| or_InstrumentID := or_instrument (or_InstrumentID report) (co_InstrumentID cancel) |>
    <| or_OrderID := or_default (or_OrderID report) (co_OrderID cancel) |>
    <| or_ClientOrderID := or_default (or_ClientOrderID report) (co_ClientOrderID cancel) |>
    <| or_VenueOrderID := or_default (or_VenueOrderID report) (or_VenueOrderID existing) |>
    <| or_Status := or_status (or_Status report) OrderStatusCanceled |> in
  complete report existing
    <| or_FilledQuantity := or_decimal (or_FilledQuantity report) (or_FilledQuantity existing) |>
    <| or_LeavesQuantity := dzero |>.

(** ** Lifecycle events *)

Definition orderLifecycleFromReport report (kind : OrderEventKind) (previous : OrderStatus) (reason : string)
    : OrderLifecycleEvent :=
  mkOrderLifecycleEvent (or_Metadata report) (or_AccountID report) (or_InstrumentID report) (or_OrderID report)
    (or_ClientOrderID report) (or_VenueOrderID report) kind previous (or_Status report) reason (Some report).
Definition orderSubmittedLifecycle (order : SubmitOrder) : OrderLifecycleEvent :=
  mkOrderLifecycleEvent (so_Metadata order) (so_AccountID order) (so_InstrumentID order) "" (so_ClientOrderID order) ""
    OrderEventSubmitted OrderStatusInitialized OrderStatusSubmitted "" None.
Definition orderRejectedLifecycle (order : SubmitOrder) (cause : error) : OrderLifecycleEvent :=
  mkOrderLifecycleEvent (so_Metadata order) (so_AccountID order) (so_InstrumentID order) "" (so_ClientOrderID order) ""
    OrderEventRejected OrderStatusSubmitted OrderStatusRejected (err_msg cause) None.

(** The events that [publishOrderModifyRejected] and [publishOrderCancelRejected] build. *)
Definition modify_rejected modify (previous : OrderStatus) (report : option OrderStatusReport) (cause : error)
    : OrderLifecycleEvent :=
  mkOrderLifecycleEvent (mo_Metadata modify) (mo_AccountID modify) (mo_InstrumentID modify) (mo_OrderID modify)
    (mo_ClientOrderID modify) (mo_VenueOrderID modify) OrderEventModifyRejected previous OrderStatusAccepted
    (err_msg cause) report.
Definition cancel_rejected cancel (previous : OrderStatus) (report : option OrderStatusReport) (cause : error)
    : OrderLifecycleEvent :=
  mkOrderLifecycleEvent (co_Metadata cancel) (co_AccountID cancel) (co_InstrumentID cancel) (co_OrderID cancel)
    (co_ClientOrderID cancel) "" OrderEventCancelRejected previous OrderStatusAccepted (err_msg cause) report.

Definition executionEventAccountID (event : ExecutionEvent) : AccountID :=
  match ee_Account event, ee_Order event, ee_Lifecycle event, ee_Fill event, ee_Position event, ee_PositionLifecycle event with
  | Some x, _, _, _, _, _ => as_AccountID x
  | _, Some x, _, _, _, _ => or_AccountID x
  | _, _, Some x, _, _, _ => oe_AccountID x
  | _, _, _, Some x, _, _ => fr_AccountID x
  | _, _, _, _, Some x, _ => pr_AccountID x
  | _, _, _, _, _, Some x => pe_AccountID x
  | _, _, _, _, _, _ => ""
  end.

(** ** Subscriptions of an emulated order *)

Definition no_bars : BarType := mkBarType InstrumentID_zero 0 BarAggregationNone BarPriceTypeNone AggregationSourceNone.
Definition market_subscription (typ : MarketDataType) (i : InstrumentID) (depth : Z) : SubscribeMarketData :=
  mkSubscribeMarketData i typ depth no_bars.

Definition emulationTriggerSubscriptions (order : SubmitOrder) : list SubscribeMarketData :=
  if negb (TriggerType_IsActive (so_EmulationTrigger order)) then []
  else
    let i := SubmitOrder_TriggerInstrument order in
    let quoteSub := market_subscription MarketDataTypeQuoteTick i 0 in
    let tradeSub := market_subscription MarketDataTypeTradeTick i 0 in
    let bidAskSubs := if IsSynthetic i then [quoteSub]
                      else [market_subscription MarketDataTypeOrderBook i 1; quoteSub] in
    match so_EmulationTrigger order with
    | TriggerTypeBidAsk => bidAskSubs
    | TriggerTypeLastPrice => [tradeSub]
    | TriggerTypeDefault => bidAskSubs
    | _ => []
    end.
End reports.
