(* ===== verification/Node.v ===== *)
(** * The platform node (platform/node.go)

    The node routes the commands of strategies through the risk engine to the execution engine,
    applies and publishes what comes back, keeps the market data of emulated orders subscribed,
    and holds the children of order lists until their parent fills.

    [Node] is its state, [W] the state of the code outside (venues, catalog, clock).  [NewNode]
    gives every component but the risk engine a default, so only that one may be missing; a
    component is on the node's cache or on one of its own ([Wiring]).  A method is a step; a filled
    order makes the node submit and cancel others from inside [applyAndPublish], and those calls go
    through [self], with the knot tied by rounds of fuel ([node_calls]).  A goroutine is the rounds of its
    loop.  The bus is what was published; contexts of commands are not done. *)
From stdpp Require Import base gmap sets list strings.
From S2P Require Import Prelude Partial Decimals Enums Identifiers Orders Market Accounts OrderLists Indicators Cache Kernel.
From S2P Require Import Reconciler Risk ExecManager Emulator ExecEngine Portfolio TradingAccount DataEngine BacktestRuntime NodeReports.

Open Scope go_scope.

Section node.
Context {DD : Decimal} {W : Type} (now : W -> time).

(** ** State *)

(** [venue.ExecutionHealth], and a [venue.ExecutionClient] with all the node looks for. *)
Record ExecutionHealth := mkExecutionHealth {
  xh_Connected : bool;
  xh_AccountReady : bool;
  xh_LastEventTime : time;
  xh_LastError : option error;
}.
Record ExecutionClient := mkExecutionClient {
  xc_Trading : TradingClient (W := W);
  xc_Health : W -> ExecutionHealth;
}.
Definition xc_Client (client : ExecutionClient) : Client := tc_Client (xc_Trading client).
Definition xc_AccountID (client : ExecutionClient) : AccountID := cl_AccountID (xc_Client client).

(** Which components were built on the node's cache. *)
Record Wiring := mkWiring { on_risk_cache : bool; on_pf_cache : bool; on_data_cache : bool; on_exec_cache : bool }.

(** [platform.Node]; the bus of its data engine is that engine's, [nd_bus] the rest.  A reconciler
    is on the node's cache, and its entry holds what it counts; a timer is its interval. *)
Record Node := mkNode {
  nd_wiring : Wiring;
  nd_bus : list (string * Message);
  nd_cache : Cache;
  nd_risk : option Risk.Engine;
  nd_pf : Portfolio;
  nd_dataEngine : DataEngine (W := W);
  nd_execEngine : ExecEngine.Engine (W := W);
  nd_component : Component;
  nd_dataClients : list (DataClient (W := W));
  nd_execClients : list ExecutionClient;
  nd_dataSubs : gmap subscriptionKey (StreamingDataClient (W := W));
  nd_activeDataSubs : gmap subscriptionKey SubscribeMarketData;
  nd_pendingDataSubs : gmap subscriptionKey SubscribeMarketData;
  nd_execByAccount : gmap AccountID ExecutionClient;
  nd_reconcilers : gmap AccountID (gmap positionRepairKey Z);
  nd_factories : gmap AccountID OrderFactory;
  nd_heldChildren : gmap parentOrderKey (list SubmitOrder);
  nd_orderListMembers : gmap orderListKey (list ClientOrderID);
  nd_emulationDataSubs : gmap subscriptionKey Z;
  nd_emulationOrderSubs : gmap parentOrderKey (list SubscribeMarketData);
  nd_timers : gmap string duration;
  nd_reconnectPolicy : RetryPolicy;
  nd_ready : bool;
  nd_lastError : option error;
}.

#[global] Instance set_nd_bus : Setter nd_bus := fun f r => mkNode (nd_wiring r) (f (nd_bus r))
  (nd_cache r) (nd_risk r) (nd_pf r) (nd_dataEngine r) (nd_execEngine r) (nd_component r)
  (nd_dataClients r) (nd_execClients r) (nd_dataSubs r) (nd_activeDataSubs r) (nd_pendingDataSubs r)
  (nd_execByAccount r) (nd_reconcilers r) (nd_factories r) (nd_heldChildren r) (nd_orderListMembers
  r) (nd_emulationDataSubs r) (nd_emulationOrderSubs r) (nd_timers r) (nd_reconnectPolicy r)
  (nd_ready r) (nd_lastError r).
#[global] Instance set_nd_cache : Setter nd_cache := fun f r => mkNode (nd_wiring r) (nd_bus r) (f
  (nd_cache r)) (nd_risk r) (nd_pf r) (nd_dataEngine r) (nd_execEngine r) (nd_component r)
  (nd_dataClients r) (nd_execClients r) (nd_dataSubs r) (nd_activeDataSubs r) (nd_pendingDataSubs r)
  (nd_execByAccount r) (nd_reconcilers r) (nd_factories r) (nd_heldChildren r) (nd_orderListMembers
  r) (nd_emulationDataSubs r) (nd_emulationOrderSubs r) (nd_timers r) (nd_reconnectPolicy r)
  (nd_ready r) (nd_lastError r).
#[global] Instance set_nd_risk : Setter nd_risk := fun f r => mkNode (nd_wiring r) (nd_bus r)
  (nd_cache r) (f (nd_risk r)) (nd_pf r) (nd_dataEngine r) (nd_execEngine r) (nd_component r)
  (nd_dataClients r) (nd_execClients r) (nd_dataSubs r) (nd_activeDataSubs r) (nd_pendingDataSubs r)
  (nd_execByAccount r) (nd_reconcilers r) (nd_factories r) (nd_heldChildren r) (nd_orderListMembers
  r) (nd_emulationDataSubs r) (nd_emulationOrderSubs r) (nd_timers r) (nd_reconnectPolicy r)
  (nd_ready r) (nd_lastError r).
#[global] Instance set_nd_pf : Setter nd_pf := fun f r => mkNode (nd_wiring r) (nd_bus r)
  (nd_cache r) (nd_risk r) (f (nd_pf r)) (nd_dataEngine r) (nd_execEngine r) (nd_component r)
  (nd_dataClients r) (nd_execClients r) (nd_dataSubs r) (nd_activeDataSubs r) (nd_pendingDataSubs r)
  (nd_execByAccount r) (nd_reconcilers r) (nd_factories r) (nd_heldChildren r) (nd_orderListMembers
  r) (nd_emulationDataSubs r) (nd_emulationOrderSubs r) (nd_timers r) (nd_reconnectPolicy r)
  (nd_ready r) (nd_lastError r).
#[global] Instance set_nd_dataEngine : Setter nd_dataEngine := fun f r => mkNode (nd_wiring r)
  (nd_bus r) (nd_cache r) (nd_risk r) (nd_pf r) (f (nd_dataEngine r)) (nd_execEngine r)
  (nd_component r) (nd_dataClients r) (nd_execClients r) (nd_dataSubs r) (nd_activeDataSubs r)
  (nd_pendingDataSubs r) (nd_execByAccount r) (nd_reconcilers r) (nd_factories r) (nd_heldChildren
  r) (nd_orderListMembers r) (nd_emulationDataSubs r) (nd_emulationOrderSubs r) (nd_timers r)
  (nd_reconnectPolicy r) (nd_ready r) (nd_lastError r).
#[global] Instance set_nd_execEngine : Setter nd_execEngine := fun f r => mkNode (nd_wiring r)
  (nd_bus r) (nd_cache r) (nd_risk r) (nd_pf r) (nd_dataEngine r) (f (nd_execEngine r))
  (nd_component r) (nd_dataClients r) (nd_execClients r) (nd_dataSubs r) (nd_activeDataSubs r)
  (nd_pendingDataSubs r) (nd_execByAccount r) (nd_reconcilers r) (nd_factories r) (nd_heldChildren
  r) (nd_orderListMembers r) (nd_emulationDataSubs r) (nd_emulationOrderSubs r) (nd_timers r)
  (nd_reconnectPolicy r) (nd_ready r) (nd_lastError r).
#[global] Instance set_nd_component : Setter nd_component := fun f r => mkNode (nd_wiring r)
  (nd_bus r) (nd_cache r) (nd_risk r) (nd_pf r) (nd_dataEngine r) (nd_execEngine r) (f (nd_component
  r)) (nd_dataClients r) (nd_execClients r) (nd_dataSubs r) (nd_activeDataSubs r)
  (nd_pendingDataSubs r) (nd_execByAccount r) (nd_reconcilers r) (nd_factories r) (nd_heldChildren
  r) (nd_orderListMembers r) (nd_emulationDataSubs r) (nd_emulationOrderSubs r) (nd_timers r)
  (nd_reconnectPolicy r) (nd_ready r) (nd_lastError r).
#[global] Instance set_nd_dataClients : Setter nd_dataClients := fun f r => mkNode (nd_wiring r)
  (nd_bus r) (nd_cache r) (nd_risk r) (nd_pf r) (nd_dataEngine r) (nd_execEngine r) (nd_component r)
  (f (nd_dataClients r)) (nd_execClients r) (nd_dataSubs r) (nd_activeDataSubs r)
  (nd_pendingDataSubs r) (nd_execByAccount r) (nd_reconcilers r) (nd_factories r) (nd_heldChildren
  r) (nd_orderListMembers r) (nd_emulationDataSubs r) (nd_emulationOrderSubs r) (nd_timers r)
  (nd_reconnectPolicy r) (nd_ready r) (nd_lastError r).
#[global] Instance set_nd_execClients : Setter nd_execClients := fun f r => mkNode (nd_wiring r)
  (nd_bus r) (nd_cache r) (nd_risk r) (nd_pf r) (nd_dataEngine r) (nd_execEngine r) (nd_component r)
  (nd_dataClients r) (f (nd_execClients r)) (nd_dataSubs r) (nd_activeDataSubs r)
  (nd_pendingDataSubs r) (nd_execByAccount r) (nd_reconcilers r) (nd_factories r) (nd_heldChildren
  r) (nd_orderListMembers r) (nd_emulationDataSubs r) (nd_emulationOrderSubs r) (nd_timers r)
  (nd_reconnectPolicy r) (nd_ready r) (nd_lastError r).
#[global] Instance set_nd_dataSubs : Setter nd_dataSubs := fun f r => mkNode (nd_wiring r) (nd_bus
  r) (nd_cache r) (nd_risk r) (nd_pf r) (nd_dataEngine r) (nd_execEngine r) (nd_component r)
  (nd_dataClients r) (nd_execClients r) (f (nd_dataSubs r)) (nd_activeDataSubs r)
  (nd_pendingDataSubs r) (nd_execByAccount r) (nd_reconcilers r) (nd_factories r) (nd_heldChildren
  r) (nd_orderListMembers r) (nd_emulationDataSubs r) (nd_emulationOrderSubs r) (nd_timers r)
  (nd_reconnectPolicy r) (nd_ready r) (nd_lastError r).
#[global] Instance set_nd_activeDataSubs : Setter nd_activeDataSubs := fun f r => mkNode
  (nd_wiring r) (nd_bus r) (nd_cache r) (nd_risk r) (nd_pf r) (nd_dataEngine r) (nd_execEngine r)
  (nd_component r) (nd_dataClients r) (nd_execClients r) (nd_dataSubs r) (f (nd_activeDataSubs r))
  (nd_pendingDataSubs r) (nd_execByAccount r) (nd_reconcilers r) (nd_factories r) (nd_heldChildren
  r) (nd_orderListMembers r) (nd_emulationDataSubs r) (nd_emulationOrderSubs r) (nd_timers r)
  (nd_reconnectPolicy r) (nd_ready r) (nd_lastError r).
#[global] Instance set_nd_pendingDataSubs : Setter nd_pendingDataSubs := fun f r => mkNode
  (nd_wiring r) (nd_bus r) (nd_cache r) (nd_risk r) (nd_pf r) (nd_dataEngine r) (nd_execEngine r)
  (nd_component r) (nd_dataClients r) (nd_execClients r) (nd_dataSubs r) (nd_activeDataSubs r) (f
  (nd_pendingDataSubs r)) (nd_execByAccount r) (nd_reconcilers r) (nd_factories r) (nd_heldChildren
  r) (nd_orderListMembers r) (nd_emulationDataSubs r) (nd_emulationOrderSubs r) (nd_timers r)
  (nd_reconnectPolicy r) (nd_ready r) (nd_lastError r).
#[global] Instance set_nd_execByAccount : Setter nd_execByAccount := fun f r => mkNode (nd_wiring
  r) (nd_bus r) (nd_cache r) (nd_risk r) (nd_pf r) (nd_dataEngine r) (nd_execEngine r) (nd_component
  r) (nd_dataClients r) (nd_execClients r) (nd_dataSubs r) (nd_activeDataSubs r) (nd_pendingDataSubs
  r) (f (nd_execByAccount r)) (nd_reconcilers r) (nd_factories r) (nd_heldChildren r)
  (nd_orderListMembers r) (nd_emulationDataSubs r) (nd_emulationOrderSubs r) (nd_timers r)
  (nd_reconnectPolicy r) (nd_ready r) (nd_lastError r).
#[global] Instance set_nd_reconcilers : Setter nd_reconcilers := fun f r => mkNode (nd_wiring r)
  (nd_bus r) (nd_cache r) (nd_risk r) (nd_pf r) (nd_dataEngine r) (nd_execEngine r) (nd_component r)
  (nd_dataClients r) (nd_execClients r) (nd_dataSubs r) (nd_activeDataSubs r) (nd_pendingDataSubs r)
  (nd_execByAccount r) (f (nd_reconcilers r)) (nd_factories r) (nd_heldChildren r)
  (nd_orderListMembers r) (nd_emulationDataSubs r) (nd_emulationOrderSubs r) (nd_timers r)
  (nd_reconnectPolicy r) (nd_ready r) (nd_lastError r).
#[global] Instance set_nd_factories : Setter nd_factories := fun f r => mkNode (nd_wiring r)
  (nd_bus r) (nd_cache r) (nd_risk r) (nd_pf r) (nd_dataEngine r) (nd_execEngine r) (nd_component r)
  (nd_dataClients r) (nd_execClients r) (nd_dataSubs r) (nd_activeDataSubs r) (nd_pendingDataSubs r)
  (nd_execByAccount r) (nd_reconcilers r) (f (nd_factories r)) (nd_heldChildren r)
  (nd_orderListMembers r) (nd_emulationDataSubs r) (nd_emulationOrderSubs r) (nd_timers r)
  (nd_reconnectPolicy r) (nd_ready r) (nd_lastError r).
#[global] Instance set_nd_heldChildren : Setter nd_heldChildren := fun f r => mkNode (nd_wiring r)
  (nd_bus r) (nd_cache r) (nd_risk r) (nd_pf r) (nd_dataEngine r) (nd_execEngine r) (nd_component r)
  (nd_dataClients r) (nd_execClients r) (nd_dataSubs r) (nd_activeDataSubs r) (nd_pendingDataSubs r)
  (nd_execByAccount r) (nd_reconcilers r) (nd_factories r) (f (nd_heldChildren r))
  (nd_orderListMembers r) (nd_emulationDataSubs r) (nd_emulationOrderSubs r) (nd_timers r)
  (nd_reconnectPolicy r) (nd_ready r) (nd_lastError r).
#[global] Instance set_nd_orderListMembers : Setter nd_orderListMembers := fun f r => mkNode
  (nd_wiring r) (nd_bus r) (nd_cache r) (nd_risk r) (nd_pf r) (nd_dataEngine r) (nd_execEngine r)
  (nd_component r) (nd_dataClients r) (nd_execClients r) (nd_dataSubs r) (nd_activeDataSubs r)
  (nd_pendingDataSubs r) (nd_execByAccount r) (nd_reconcilers r) (nd_factories r) (nd_heldChildren
  r) (f (nd_orderListMembers r)) (nd_emulationDataSubs r) (nd_emulationOrderSubs r) (nd_timers r)
  (nd_reconnectPolicy r) (nd_ready r) (nd_lastError r).
#[global] Instance set_nd_emulationDataSubs : Setter nd_emulationDataSubs := fun f r => mkNode
  (nd_wiring r) (nd_bus r) (nd_cache r) (nd_risk r) (nd_pf r) (nd_dataEngine r) (nd_execEngine r)
  (nd_component r) (nd_dataClients r) (nd_execClients r) (nd_dataSubs r) (nd_activeDataSubs r)
  (nd_pendingDataSubs r) (nd_execByAccount r) (nd_reconcilers r) (nd_factories r) (nd_heldChildren
  r) (nd_orderListMembers r) (f (nd_emulationDataSubs r)) (nd_emulationOrderSubs r) (nd_timers r)
  (nd_reconnectPolicy r) (nd_ready r) (nd_lastError r).
#[global] Instance set_nd_emulationOrderSubs : Setter nd_emulationOrderSubs := fun f r => mkNode
  (nd_wiring r) (nd_bus r) (nd_cache r) (nd_risk r) (nd_pf r) (nd_dataEngine r) (nd_execEngine r)
  (nd_component r) (nd_dataClients r) (nd_execClients r) (nd_dataSubs r) (nd_activeDataSubs r)
  (nd_pendingDataSubs r) (nd_execByAccount r) (nd_reconcilers r) (nd_factories r) (nd_heldChildren
  r) (nd_orderListMembers r) (nd_emulationDataSubs r) (f (nd_emulationOrderSubs r)) (nd_timers r)
  (nd_reconnectPolicy r) (nd_ready r) (nd_lastError r).
#[global] Instance set_nd_timers : Setter nd_timers := fun f r => mkNode (nd_wiring r) (nd_bus r)
  (nd_cache r) (nd_risk r) (nd_pf r) (nd_dataEngine r) (nd_execEngine r) (nd_component r)
  (nd_dataClients r) (nd_execClients r) (nd_dataSubs r) (nd_activeDataSubs r) (nd_pendingDataSubs r)
  (nd_execByAccount r) (nd_reconcilers r) (nd_factories r) (nd_heldChildren r) (nd_orderListMembers
  r) (nd_emulationDataSubs r) (nd_emulationOrderSubs r) (f (nd_timers r)) (nd_reconnectPolicy r)
  (nd_ready r) (nd_lastError r).
#[global] Instance set_nd_ready : Setter nd_ready := fun f r => mkNode (nd_wiring r) (nd_bus r)
  (nd_cache r) (nd_risk r) (nd_pf r) (nd_dataEngine r) (nd_execEngine r) (nd_component r)
  (nd_dataClients r) (nd_execClients r) (nd_dataSubs r) (nd_activeDataSubs r) (nd_pendingDataSubs r)
  (nd_execByAccount r) (nd_reconcilers r) (nd_factories r) (nd_heldChildren r) (nd_orderListMembers
  r) (nd_emulationDataSubs r) (nd_emulationOrderSubs r) (nd_timers r) (nd_reconnectPolicy r) (f
  (nd_ready r)) (nd_lastError r).
#[global] Instance set_nd_lastError : Setter nd_lastError := fun f r => mkNode (nd_wiring r)
  (nd_bus r) (nd_cache r) (nd_risk r) (nd_pf r) (nd_dataEngine r) (nd_execEngine r) (nd_component r)
  (nd_dataClients r) (nd_execClients r) (nd_dataSubs r) (nd_activeDataSubs r) (nd_pendingDataSubs r)
  (nd_execByAccount r) (nd_reconcilers r) (nd_factories r) (nd_heldChildren r) (nd_orderListMembers
  r) (nd_emulationDataSubs r) (nd_emulationOrderSubs r) (nd_timers r) (nd_reconnectPolicy r)
  (nd_ready r) (f (nd_lastError r)).

(** The defaults of [NewNode]; the components given are on their own caches, unless [wiring] says
    otherwise. *)
Definition NewNode (c : option Cache) (risk : option Risk.Engine) (pf : option Portfolio)
    (dataEngine : option (DataEngine (W := W))) (execEngine : option (ExecEngine.Engine (W := W)))
    (catalog : option (DataRequest -> W -> W * res DataResponse)) (staleAfter : duration) (policy : RetryPolicy)
    (wiring : Wiring) : Node :=
  let c := default New c in
  let built {A} (o : option A) (shared : bool) := match o with Some _ => shared | None => true end in
  mkNode (mkWiring (on_risk_cache wiring) (built pf (on_pf_cache wiring)) (built dataEngine (on_data_cache wiring))
            (built execEngine (on_exec_cache wiring)))
    [] c risk (default (NewPortfolio (Some c)) pf)
    (default (DataEngine.NewEngine (Some c) catalog policy staleAfter) dataEngine)
    (default (ExecEngine.NewEngine (Some c) None None) execEngine)
    (NewComponent "platform.node") [] [] ∅ ∅ ∅ ∅ ∅ ∅ ∅ ∅ ∅ ∅ ∅ policy false None.

(** Orders in which Go ranges over maps: the instruments of the cache, in the risk engine, the
    portfolio and a reconciliation; the balance changes of a fill; clients and subscriptions of the data
    engine.  They may differ each time. *)
Class NodeRanges := {
  range_risk_instruments : Node -> Site -> list Instrument;
  range_instruments : Node -> list Instrument;
  range_pf_instruments : Node -> Currency -> Currency -> list Instrument;
  range_deltas : Node -> list (Currency * D) -> list (Currency * D);
  range_data_clients : Node -> list (DataClient (W := W));
  range_data_subs : Node -> list SubscribeMarketData;
}.

Definition ND : Type -> Type := Run (Node * W).

Definition node : ND Node := fun s => Some (s, s.1).
Definition change_node (f : Node -> Node) : ND unit := modify_state (fun s => (f s.1, s.2)).
Definition outside {A} (f : W -> W * A) : ND A := fun '(n, w) => let '(w, a) := f w in Some ((n, w), a).
(** [time.Now()] *)
Definition wall_clock : ND time := fun s => Some (s, now s.2).

(** The calls a method makes while another one runs. *)
Record NodeCalls := mkNodeCalls {
  call_SubmitOrder : SubmitOrder -> ND (res OrderStatusReport);
  call_CancelOrder : CancelOrder -> ND (res OrderStatusReport);
  call_drain : ND (res unit);
}.

(** ** Components *)

Definition exec_of (n : Node) : ExecEngine.Engine :=
  if on_exec_cache (nd_wiring n) then put_cache (nd_execEngine n) (nd_cache n) else nd_execEngine n.
Definition with_exec (n : Node) (e : ExecEngine.Engine) : Node :=
  let n := n <| nd_execEngine := e |> in
  if on_exec_cache (nd_wiring n) then n <| nd_cache := en_cache e |> else n.
Definition data_of (n : Node) : DataEngine :=
  if on_data_cache (nd_wiring n) then nd_dataEngine n <| de_cache := nd_cache n |> else nd_dataEngine n.
Definition with_data (n : Node) (e : DataEngine) : Node :=
  let n := n <| nd_dataEngine := e |> in
  if on_data_cache (nd_wiring n) then n <| nd_cache := de_cache e |> else n.
Definition pf_of (n : Node) : Portfolio :=
  if on_pf_cache (nd_wiring n) then nd_pf n <| pf_cache := nd_cache n |> else nd_pf n.
Definition with_pf (n : Node) (p : Portfolio) : Node :=
  let n := n <| nd_pf := p |> in
  if on_pf_cache (nd_wiring n) then n <| nd_cache := pf_cache p |> else n.
(** The risk engine reads its cache only, but for the events of its own queue. *)
Definition risk_of (n : Node) : option Risk.Engine :=
  (fun e => if on_risk_cache (nd_wiring n) then e <| rk_cache := nd_cache n |> else e) <$> nd_risk n.
Definition with_risk (n : Node) (e : Risk.Engine) : Node :=
  let n := n <| nd_risk := Some e |> in
  if on_risk_cache (nd_wiring n) then n <| nd_cache := rk_cache e |> else n.

(** A method of a component. *)
Definition on_exec {A} (m : ExecEngine.M (W := W) A) : ND A := fun '(n, w) =>
  let '((e, w), a) := m (exec_of n, w) in Some ((with_exec n e, w), a).
Definition on_data {A} (m : DE (W := W) A) : ND A := fun '(n, w) =>
  let '((e, w), a) := m (data_of n, w) in Some ((with_data n e, w), a).
Definition on_pf (m : Portfolio -> outcome Portfolio unit) : ND (res unit) := fun '(n, w) =>
  let '(p, r) := m (pf_of n) in Some ((with_pf n p, w), r).
(** [if n.risk != nil { err := ... }] *)
Definition on_risk (m : Risk.Engine -> outcome Risk.Engine unit) : ND (res unit) := fun '(n, w) =>
  match risk_of n with
  | None => Some ((n, w), Ok tt)
  | Some e => let '(e, r) := m e in Some ((with_risk n e, w), r)
  end.

(** [n.bus.Publish] *)
Definition publish (topic : string) (message : Message) : ND (res unit) :=
  _ ← change_node (fun n => n <| nd_bus := nd_bus n ++ [(topic, message)] |>); mret (Ok tt).
Definition publish_execution (event : ExecutionEvent) : ND (res unit) := publish TopicExecution (ExecutionMessage event).

(** [reconcilerFor]: the entry exists afterwards. *)
Definition reconcilerFor (a : AccountID) : ND unit :=
  change_node (fun n => n <| nd_reconcilers := <[a := default ∅ (nd_reconcilers n !! a)]> (nd_reconcilers n) |>).
(** [reconciler.Apply], the same for every reconciler of the node. *)
Definition reconciler_Apply (event : ExecutionEvent) : ND (res unit) := fun '(n, w) =>
  let '(c, r) := Apply (nd_cache n) event in Some ((n <| nd_cache := c |>, w), r).

Definition recordError (err : error) : ND unit :=
  change_node (fun n => n <| nd_lastError := Some err |> <| nd_component := Degrade (nd_component n) err |>).
(** [if err != nil { n.recordError(err) }] *)
Definition recorded (m : ND (res unit)) : ND unit :=
  r ← m; match r with Fail err => recordError err | Ok _ => mret tt end.

(** [if err != nil { handler; return err }] *)
Definition or_else {A B} (m : ND (res A)) (handler : error -> ND unit) (f : A -> ND (res B)) : ND (res B) :=
  r ← m;
  match r with
  | Ok a => f a
  | Fail err => _ ← handler err; mret (Fail err)
  end.
(** [_ = ...] *)
Definition ignore (m : ND (res unit)) : ND unit := _ ← m; mret tt.

(** ** Registration, timers, factories *)

Definition AddDataClient (client : DataClient) : ND (res unit) := fun '(n, w) =>
  let '(e, r) := DataEngine.AddClient (data_of n) (Some client) in
  match r with
  | Fail err => Some ((with_data n e, w), Fail err)
  | Ok _ => Some ((with_data n e <| nd_dataClients := nd_dataClients n ++ [client] |>, w), Ok tt)
  end.

Definition AddExecutionClient (client : ExecutionClient) : ND (res unit) :=
  try! _ := on_exec (ExecEngine.AddClient (xc_Client client)) in
  _ ← change_node (fun n =>
        let n := n <| nd_execClients := nd_execClients n ++ [client] |> in
        if xc_AccountID client ≠? ""
        then n <| nd_execByAccount := <[xc_AccountID client := client]> (nd_execByAccount n) |> else n);
  mret (Ok tt).

Definition Node_SetTimer (name : string) (interval : duration) : ND (res unit) :=
  match ValidateTimer name interval with
  | Fail err => mret (Fail err)
  | Ok _ => _ ← change_node (fun n => n <| nd_timers := <[name := interval]> (nd_timers n) |>); mret (Ok tt)
  end.
Definition Node_CancelTimer (name : string) : ND (res unit) :=
  if name ≟ "" then mret (Fail (mkErr ErrInvalidTimer "name is required"))
  else _ ← change_node (fun n => n <| nd_timers := delete name (nd_timers n) |>); mret (Ok tt).
(** A tick of the ticker in [runTimer]. *)
Definition runTimer_tick (name : string) (tick : time) : ND unit :=
  recorded (publish TopicTimer (TimerMessage (mkTimerEvent name tick))).

(** The factory an account gets through the pointer is used by [use]. *)
Definition Node_OrderFactory (a : AccountID) (use : OrderFactory -> OrderFactory) : ND OrderFactory := fun '(n, w) =>
  let f := default (NewOrderFactory a []) (nd_factories n !! a) in
  Some ((n <| nd_factories := <[a := use f]> (nd_factories n) |>, w), f).

(** ** Market data *)

Definition executionClient (n : Node) (a : AccountID) : option ExecutionClient := nd_execByAccount n !! a.

(** The first client of the venue that streams. *)
Definition streamingDataClient (n : Node) (venue : Venue) : option (StreamingDataClient (W := W)) :=
  head (omap (fun client => if dc_Venue client ≟ venue then dc_Streaming client else None) (nd_dataClients n)).

Definition Node_SubscribeMarketData (sub : SubscribeMarketData) : ND (res unit) :=
  match SubscribeMarketData_Validate sub with
  | Fail err => mret (Fail err)
  | Ok _ =>
      try! _ := on_data (Subscribe sub) in
      _ ← change_node (fun n =>
            let n := match streamingDataClient n (id_Venue (sm_InstrumentID sub)) with
                     | Some client => n <| nd_dataSubs := <[Key sub := client]> (nd_dataSubs n) |>
                     | None => n
                     end in
            n <| nd_activeDataSubs := <[Key sub := sub]> (nd_activeDataSubs n) |>);
      mret (Ok tt)
  end.
Definition Node_UnsubscribeMarketData (sub : SubscribeMarketData) : ND (res unit) :=
  match SubscribeMarketData_Validate sub with
  | Fail err => mret (Fail err)
  | Ok _ =>
      try! _ := on_data (Unsubscribe sub) in
      _ ← change_node (fun n =>
            n <| nd_pendingDataSubs := delete (Key sub) (nd_pendingDataSubs n) |>
              <| nd_dataSubs := delete (Key sub) (nd_dataSubs n) |>
              <| nd_activeDataSubs := delete (Key sub) (nd_activeDataSubs n) |>);
      mret (Ok tt)
  end.

(** The subscriptions that the shorthands build. *)
Definition bars_of (barType : BarType) : SubscribeMarketData :=
  let barType := BarType_Canonical barType in
  mkSubscribeMarketData (bt_InstrumentID barType) MarketDataTypeBar 0 barType.
Definition Node_SubscribeTicker i := Node_SubscribeMarketData (market_subscription MarketDataTypeTicker i 0).
Definition Node_SubscribeTradeTicks i := Node_SubscribeMarketData (market_subscription MarketDataTypeTradeTick i 0).
Definition Node_SubscribeQuoteTicks i := Node_SubscribeMarketData (market_subscription MarketDataTypeQuoteTick i 0).
Definition Node_SubscribeFundingRates i := Node_SubscribeMarketData (market_subscription MarketDataTypeFundingRate i 0).
Definition Node_SubscribeBars barType := Node_SubscribeMarketData (bars_of barType).
Definition Node_SubscribeOrderBookDepth i depth := Node_SubscribeMarketData (market_subscription MarketDataTypeOrderBook i depth).
Definition Node_UnsubscribeTicker i := Node_UnsubscribeMarketData (market_subscription MarketDataTypeTicker i 0).
Definition Node_UnsubscribeTradeTicks i := Node_UnsubscribeMarketData (market_subscription MarketDataTypeTradeTick i 0).
Definition Node_UnsubscribeQuoteTicks i := Node_UnsubscribeMarketData (market_subscription MarketDataTypeQuoteTick i 0).
Definition Node_UnsubscribeFundingRates i := Node_UnsubscribeMarketData (market_subscription MarketDataTypeFundingRate i 0).
Definition Node_UnsubscribeBars barType := Node_UnsubscribeMarketData (bars_of barType).
Definition Node_UnsubscribeOrderBookDepth i depth := Node_UnsubscribeMarketData (market_subscription MarketDataTypeOrderBook i depth).

Definition Node_RequestData (request : DataRequest) : ND (res DataResponse) :=
  match DataRequest_Validate request with
  | Fail err => mret (Fail err)
  | Ok _ => on_data (Request request)
  end.

(** ** Market data of emulated orders *)

Definition retainEmulationSubscription (sub : SubscribeMarketData) : ND (res unit) :=
  n ← node;
  let held := default 0%Z (nd_emulationDataSubs n !! Key sub) in
  let hold (count : Z) := change_node (fun n => n <| nd_emulationDataSubs := <[Key sub := count]> (nd_emulationDataSubs n) |>) in
  if Z.ltb 0 held then _ ← hold (held + 1)%Z; mret (Ok tt)
  else
    _ ← hold 1%Z;
    or_else (on_data (Subscribe sub))
      (fun _ => change_node (fun n => n <| nd_emulationDataSubs := delete (Key sub) (nd_emulationDataSubs n) |>))
      (fun _ => mret (Ok tt)).

Definition releaseEmulationSubscription (sub : SubscribeMarketData) : ND (res unit) :=
  n ← node;
  let count := default 0%Z (nd_emulationDataSubs n !! Key sub) in
  if Z.ltb 1 count then
    _ ← change_node (fun n => n <| nd_emulationDataSubs := <[Key sub := (count - 1)%Z]> (nd_emulationDataSubs n) |>);
    mret (Ok tt)
  else
    _ ← change_node (fun n => n <| nd_emulationDataSubs := delete (Key sub) (nd_emulationDataSubs n) |>);
    match nd_activeDataSubs n !! Key sub with
    | Some _ => mret (Ok tt)
    | None => on_data (Unsubscribe sub)
    end.

(** The loop, with its errors. *)
Fixpoint release_each (subs : list SubscribeMarketData) : ND (list error) :=
  match subs with
  | [] => mret []
  | sub :: subs => r ← releaseEmulationSubscription sub; errs ← release_each subs; mret (error_list r ++ errs)
  end.
Definition releaseEmulationSubscriptions (subs : list SubscribeMarketData) : ND (res unit) :=
  errs ← release_each subs; mret (joined errs).

(** The loop of [retainEmulationSubscriptions]: those held when one fails are released. *)
Fixpoint retain_each (held subs : list SubscribeMarketData) : ND (res unit) :=
  match subs with
  | [] => mret (Ok tt)
  | sub :: subs =>
      or_else (retainEmulationSubscription sub) (fun _ => ignore (releaseEmulationSubscriptions held))
        (fun _ => retain_each (held ++ [sub]) subs)
  end.
Definition retainEmulationSubscriptions (order : SubmitOrder) : ND (res (list SubscribeMarketData)) :=
  let subs := emulationTriggerSubscriptions order in
  try! _ := retain_each [] subs in mret (Ok subs).

Definition trackOrderEmulationSubscriptions (order : SubmitOrder) (subs : list SubscribeMarketData) : ND unit :=
  match subs with
  | [] => mret tt
  | _ => change_node (fun n =>
           n <| nd_emulationOrderSubs := <[(so_AccountID order, so_ClientOrderID order) := subs]> (nd_emulationOrderSubs n) |>)
  end.
Definition releaseOrderEmulationSubscriptions (a : AccountID) (cl : ClientOrderID) : ND (res unit) :=
  n ← node;
  let subs := default [] (nd_emulationOrderSubs n !! (a, cl)) in
  _ ← change_node (fun n => n <| nd_emulationOrderSubs := delete (a, cl) (nd_emulationOrderSubs n) |>);
  releaseEmulationSubscriptions subs.
End node.

(** The types of a method, once the section has closed. *)
#[global] Arguments ND {DD W} _.
