(* ===== verification/NodeOrders.v ===== *)
(** * Orders of the platform node (platform/node.go)

    Applying and publishing events, order lists, and the commands on orders.  What calls
    [SubmitOrder], [CancelOrder] and the drain of the engine's events from inside another method takes
    them from [self]; [node_calls] ties the knot with rounds of fuel. *)
From stdpp Require Import base gmap sets list strings.
From S2P Require Import Prelude Partial Decimals Enums Identifiers Orders Market Accounts OrderLists Cache Kernel.
From S2P Require Import Reconciler Risk ExecManager Emulator ExecEngine Portfolio TradingAccount DataEngine BacktestRuntime NodeReports Node.

Open Scope go_scope.

Section orders.
Context {DD : Decimal} {W : Type} (now : W -> time) {NR : NodeRanges (W := W)}.
Notation Node := (Node (W := W)).
Notation ND := (ND (W := W)).
Notation NodeCalls := (NodeCalls (W := W)).
Implicit Types (self : NodeCalls) (n : Node) (event : ExecutionEvent) (report existing : OrderStatusReport).

(** ** Order lists *)

Definition appendUniqueClientOrderID (ids : list ClientOrderID) (id : ClientOrderID) : list ClientOrderID :=
  if bool_decide (id ∈ ids) then ids else ids ++ [id].

Definition index_order (l : OrderList) n (order : SubmitOrder) : Node :=
  let listKey := (so_AccountID order, ol_ID l) in
  let n := n <| nd_orderListMembers :=
    <[listKey := appendUniqueClientOrderID (default [] (nd_orderListMembers n !! listKey)) (so_ClientOrderID order)]>
      (nd_orderListMembers n) |> in
  if so_ParentClientOrderID order ≟ "" then n
  else
    let parentKey := (so_AccountID order, so_ParentClientOrderID order) in
    n <| nd_heldChildren := <[parentKey := default [] (nd_heldChildren n !! parentKey) ++ [order]]> (nd_heldChildren n) |>.
Definition Node_indexOrderList (l : OrderList) n : Node := foldl (index_order l) n (ol_Orders l).

Definition releaseHeldChildren self (parent : OrderStatusReport) : ND (res unit) :=
  n ← node;
  let key := (or_AccountID parent, or_ClientOrderID parent) in
  let children := default [] (nd_heldChildren n !! key) in
  _ ← change_node (fun n => n <| nd_heldChildren := delete key (nd_heldChildren n) |>);
  run_each (fun child => try! _ := call_SubmitOrder self child in mret (Ok tt)) children.

(** The cancel of a sibling; what else it may carry is empty. *)
Definition cancel_of (order : OrderStatusReport) : CancelOrder :=
  mkCancelOrder CommandMetadata_zero (or_AccountID order) (or_InstrumentID order) (or_OrderID order) (or_ClientOrderID order).

Definition cancel_sibling self (filled : OrderStatusReport) (id : ClientOrderID) : ND (res unit) :=
  if (id ≟ "") || (id ≟ or_ClientOrderID filled) then mret (Ok tt)
  else
    n ← node;
    match OrderByClientID (nd_cache n) (or_AccountID filled) id with
    | Some sibling =>
        if OrderStatus_IsOpen (or_Status sibling)
        then try! _ := call_CancelOrder self (cancel_of sibling) in mret (Ok tt)
        else mret (Ok tt)
    | None => mret (Ok tt)
    end.
Definition Node_cancelOcoSiblings self (filled : OrderStatusReport) : ND (res unit) :=
  if (or_OrderListID filled ≟ "") || (or_Contingency filled ≠? ContingencyTypeOCO) then mret (Ok tt)
  else
    n ← node;
    run_each (cancel_sibling self filled) (default [] (nd_orderListMembers n !! (or_AccountID filled, or_OrderListID filled))).

Definition handleOrderListProgress self (order : OrderStatusReport) : ND (res unit) :=
  if or_Status order ≠? OrderStatusFilled then mret (Ok tt)
  else
    try! _ := releaseHeldChildren self order in
    Node_cancelOcoSiblings self order.

(** ** Applying and publishing *)

Definition Node_derivePositionLifecycle (c : Cache) event : option PositionLifecycleEvent :=
  match ee_Position event with
  | None => None
  | Some position => NewPositionLifecycleEvent (cache_Position c (pr_AccountID position) (pr_PositionID position)) position
  end.

(** The order of a fill, as the cache has it after the fill. *)
Definition fill_progress self (fill : FillReport) : ND (res unit) :=
  n ← node;
  match cache_Order (nd_cache n) (fr_AccountID fill) (fr_OrderID fill) with
  | Some order => handleOrderListProgress self order
  | None => mret (Ok tt)
  end.

Definition applyAndPublish self event : ND (res unit) :=
  n ← node;
  let positionLifecycle := Node_derivePositionLifecycle (nd_cache n) event in
  try! _ := reconciler_Apply event in
  try! _ := (match ee_Fill event with
             | Some fill => on_pf (fun p => Portfolio.ApplyFill (range_pf_instruments n) (range_deltas n) p fill)
             | None => mret (Ok tt)
             end) in
  try! _ := publish_execution event in
  match ee_Order event with
  | Some order => handleOrderListProgress self order
  | None =>
      try! _ := (match ee_Fill event with Some fill => fill_progress self fill | None => mret (Ok tt) end) in
      match positionLifecycle with
      | Some lifecycle =>
          try! _ := reconciler_Apply (position_lifecycle_event lifecycle) in
          publish_execution (position_lifecycle_event lifecycle)
      | None => mret (Ok tt)
      end
  end.

Definition publishOrderLifecycle (lifecycle : OrderLifecycleEvent) : ND (res unit) :=
  try! _ := reconciler_Apply (lifecycle_event lifecycle) in
  publish_execution (lifecycle_event lifecycle).

(** An event that does not validate is dropped. *)
Definition publish_rejected (a : AccountID) (lifecycle : OrderLifecycleEvent) : ND (res unit) :=
  match ExecutionEvent_Validate (lifecycle_event lifecycle) with
  | Fail _ => mret (Ok tt)
  | Ok _ => _ ← reconcilerFor a; publishOrderLifecycle lifecycle
  end.
Definition publishOrderModifyRejected (modify : ModifyOrder) (previous : OrderStatus) (report : option OrderStatusReport)
    (cause : error) : ND (res unit) :=
  publish_rejected (mo_AccountID modify) (modify_rejected modify previous report cause).
Definition publishOrderCancelRejected (cancel : CancelOrder) (previous : OrderStatus) (report : option OrderStatusReport)
    (cause : error) : ND (res unit) :=
  publish_rejected (co_AccountID cancel) (cancel_rejected cancel previous report cause).

Definition publishOrderDenied (order : SubmitOrder) (cause : error) : ND (res unit) :=
  match OrderDeniedEvent order (Some cause) with
  | None => mret (Ok tt)
  | Some event =>
      _ ← reconcilerFor (so_AccountID order);
      try! _ := reconciler_Apply event in
      publish_execution event
  end.

(** The order as it was, but accepted. *)
Definition restored (existing : OrderStatusReport) : OrderStatusReport := existing <| or_Status := OrderStatusAccepted |>.
Definition restoreAndRejectModify self existing (modify : ModifyOrder) (cause : error) : ND (res unit) :=
  try! _ := applyAndPublish self (order_event (restored existing)) in
  publishOrderModifyRejected modify OrderStatusPendingUpdate (Some (restored existing)) cause.
Definition restoreAndRejectCancel self existing (cancel : CancelOrder) (cause : error) : ND (res unit) :=
  try! _ := applyAndPublish self (order_event (restored existing)) in
  publishOrderCancelRejected cancel OrderStatusPendingCancel (Some (restored existing)) cause.

(** ** Events of the execution engine *)

Definition applyExecutionEngineEvent self event : ND (res unit) :=
  let a := executionEventAccountID event in
  if a ≟ "" then
    match ExecutionEvent_Validate event with
    | Fail err => mret (Fail err)
    | Ok _ => publish_execution event
    end
  else _ ← reconcilerFor a; applyAndPublish self event.

(** The loop takes one event; the rest is another call. *)
Definition drainExecutionEngineEvents self : ND (res unit) :=
  n ← node;
  match en_events (nd_execEngine n) with
  | [] => mret (Ok tt)
  | event :: events =>
      _ ← change_node (fun n => n <| nd_execEngine := nd_execEngine n <| en_events := events |> |>);
      try! _ := applyExecutionEngineEvent self event in
      call_drain self
  end.

(** ** Submitting *)

(** What the risk engine says of an order; it accepts when there is none. *)
Definition risk_check (check : (Site -> list Instrument) -> Risk.Engine -> SubmitOrder -> time -> outcome Risk.Engine unit)
    (order : SubmitOrder) : ND (res unit) :=
  n ← node;
  t ← wall_clock now;
  on_risk (fun e => check (range_risk_instruments n) e order t).

Definition Node_SubmitOrder self (order : SubmitOrder) : ND (res OrderStatusReport) :=
  let denied err := ignore (publishOrderDenied order err) in
  or_else (mret (SubmitOrder_Validate order)) denied (fun _ =>
  or_else (risk_check Risk.Check order) denied (fun _ =>
  try! emulationSubs := retainEmulationSubscriptions order in
  let release := ignore (releaseEmulationSubscriptions emulationSubs) in
  _ ← reconcilerFor (so_AccountID order);
  or_else (publishOrderLifecycle (orderSubmittedLifecycle order)) (fun _ => release) (fun _ =>
  or_else (on_exec (Engine_SubmitOrder order))
    (fun err => _ ← release; ignore (publishOrderLifecycle (orderRejectedLifecycle order err))) (fun report =>
  let report := fillSubmittedReport report order in
  or_else (applyAndPublish self (order_event report)) (fun _ => release) (fun _ =>
  or_else (drainExecutionEngineEvents self) (fun _ => release) (fun _ =>
  if or_Status report ≟ OrderStatusEmulated then
    _ ← trackOrderEmulationSubscriptions order emulationSubs;
    mret (Ok report)
  else
    _ ← release;
    try! _ := publishOrderLifecycle (orderLifecycleFromReport report OrderEventAccepted OrderStatusSubmitted "") in
    mret (Ok report))))))).

(** The checks of [SubmitOrderList], one order at a time. *)
Definition check_listed (order : SubmitOrder) : ND (res unit) :=
  if so_ParentClientOrderID order ≠? "" then mret (Ok tt)
  else
    or_else (risk_check Risk.Check order) (fun err => ignore (publishOrderDenied order err)) (fun _ =>
    n ← node;
    match executionClient n (so_AccountID order) with
    | Some _ => mret (Ok tt)
    | None => mret (Fail (mkErr ErrNotSupported "no execution client for account"))
    end).

(** A loop of calls that stops at the first error and keeps the reports so far. *)
Fixpoint submit_listed self (orders : list SubmitOrder) : ND reports_and_error :=
  match orders with
  | [] => mret ([], None)
  | order :: orders =>
      if so_ParentClientOrderID order ≠? "" then submit_listed self orders
      else
        answer ← Node_SubmitOrder self order;
        match answer with
        | Fail err => mret ([], Some err)
        | Ok report => rest ← submit_listed self orders; mret (report :: rest.1, rest.2)
        end
  end.

Definition Node_SubmitOrderList self (l : OrderList) : ND reports_and_error :=
  let l := OrderList_WithCommandMetadataDefaults l in
  match OrderList_Validate l with
  | Fail err => mret ([], Some err)
  | Ok _ =>
      checked ← run_each check_listed (ol_Orders l);
      match checked with
      | Fail err => mret ([], Some err)
      | Ok _ =>
          _ ← change_node (Node_indexOrderList l);
          submit_listed self (ol_Orders l)
      end
  end.

(** ** Finding orders *)

Definition findOrder (c : Cache) (modify : ModifyOrder) : option OrderStatusReport :=
  find_by_ids c (mo_AccountID modify) (mo_OrderID modify) (mo_ClientOrderID modify) (mo_VenueOrderID modify).
Definition findCancelableOrder (c : Cache) (cancel : CancelOrder) : option OrderStatusReport :=
  find_by_ids c (co_AccountID cancel) (co_OrderID cancel) (co_ClientOrderID cancel) "".
Definition findQueriedOrder (c : Cache) (query : QueryOrder) : option OrderStatusReport :=
  find_by_ids c (qo_AccountID query) (qo_OrderID query) (qo_ClientOrderID query) (qo_VenueOrderID query).

(** The order while the venue decides. *)
Definition pending_order existing (metadata : CommandMetadata) (status : OrderStatus) (t : time) : OrderStatusReport :=
  existing <| or_Metadata := CommandMetadata_WithDefaults metadata (or_Metadata existing) |>
           <| or_Status := status |> <| or_LastUpdatedTime := t |>.

(** ** Modifying *)

Definition Node_ModifyOrder self (modify : ModifyOrder) : ND (res OrderStatusReport) :=
  let rejected modify known err := ignore (publishOrderModifyRejected modify OrderStatusAccepted known err) in
  or_else (mret (ModifyOrder_Validate modify)) (rejected modify None) (fun _ =>
  n ← node;
  match findOrder (nd_cache n) modify with
  | None => _ ← rejected modify None not_found; mret (Fail not_found)
  | Some existing =>
      let modify := fillModifyIdentity modify existing in
      or_else (mret (ApplyOrderModification existing modify)) (rejected modify (Some existing)) (fun updated =>
      let updated := updated <| or_Metadata := CommandMetadata_WithDefaults (mo_Metadata modify) (or_Metadata updated) |> in
      let restore err := ignore (restoreAndRejectModify self existing modify err) in
      _ ← reconcilerFor (mo_AccountID modify);
      t ← wall_clock now;
      let pending := pending_order existing (mo_Metadata modify) OrderStatusPendingUpdate t in
      try! _ := applyAndPublish self (order_event pending) in
      try! _ := publishOrderLifecycle (orderLifecycleFromReport pending OrderEventPendingUpdate (or_Status existing) "") in
      or_else (risk_check Risk.CheckExistingOrder (submitFromOrderReport updated)) restore (fun _ =>
      or_else (on_exec (Engine_ModifyOrder modify)) restore (fun report =>
      let report := fillModifiedReport report modify updated in
      try! _ := applyAndPublish self (order_event report) in
      try! _ := publishOrderLifecycle (orderLifecycleFromReport report OrderEventUpdated OrderStatusPendingUpdate "") in
      mret (Ok report))))
  end).

(** ** Canceling *)

Definition not_cancelable : error := mkErr ErrInvalidOrder "order is not cancelable".

Definition Node_CancelOrder self (cancel : CancelOrder) : ND (res OrderStatusReport) :=
  let rejected known err := ignore (publishOrderCancelRejected cancel OrderStatusAccepted known err) in
  or_else (mret (CancelOrder_Validate cancel)) (rejected None) (fun _ =>
  n ← node;
  match findCancelableOrder (nd_cache n) cancel with
  | None => _ ← rejected None not_found; mret (Fail not_found)
  | Some existing =>
      if negb (OrderStatus_IsOpen (or_Status existing)) || (or_Status existing ≟ OrderStatusPendingCancel)
      then _ ← rejected (Some existing) not_cancelable; mret (Fail not_cancelable)
      else
        let cancel := fillCancelIdentity cancel existing in
        _ ← reconcilerFor (co_AccountID cancel);
        t ← wall_clock now;
        let pending := pending_order existing (co_Metadata cancel) OrderStatusPendingCancel t in
        try! _ := applyAndPublish self (order_event pending) in
        try! _ := publishOrderLifecycle (orderLifecycleFromReport pending OrderEventPendingCancel (or_Status existing) "") in
        or_else (on_exec (Engine_CancelOrder cancel))
          (fun err => ignore (restoreAndRejectCancel self existing cancel err)) (fun report =>
        let report := fillCanceledReport report cancel existing in
        try! _ := applyAndPublish self (order_event report) in
        try! _ := publishOrderLifecycle (orderLifecycleFromReport report OrderEventCanceled OrderStatusPendingCancel "") in
        mret (Ok report))
  end).

(** A cancel of a batch with what it leaves out taken from the batch. *)
Definition batched (batch : BatchCancelOrders) (cancel : CancelOrder) : CancelOrder :=
  fillBatchCancelIdentity
    (mkCancelOrder (CommandMetadata_WithDefaults (co_Metadata cancel) (bc_Metadata batch)) (co_AccountID cancel)
       (co_InstrumentID cancel) (co_OrderID cancel) (co_ClientOrderID cancel))
    (bc_AccountID batch) (bc_InstrumentID batch).
Fixpoint cancel_batched self (cancels : list CancelOrder) : ND (list OrderStatusReport * list error) :=
  match cancels with
  | [] => mret ([], [])
  | cancel :: cancels =>
      answer ← Node_CancelOrder self cancel;
      rest ← cancel_batched self cancels;
      mret (match answer with Fail err => (rest.1, err :: rest.2) | Ok report => (report :: rest.1, rest.2) end)
  end.
Definition Node_BatchCancelOrders self (batch : BatchCancelOrders) : ND reports_and_error :=
  match BatchCancelOrders_Validate batch with
  | Fail err => mret ([], Some err)
  | Ok _ =>
      answer ← cancel_batched self (batched batch <$> bc_Cancels batch);
      mret (answer.1, join_error answer.2)
  end.

Definition Node_CancelAllOrders self (cancelAll : CancelAllOrders) : ND reports_and_error :=
  match CancelAllOrders_Validate cancelAll with
  | Fail err => mret ([], Some err)
  | Ok _ =>
      n ← node;
      match List.filter (CancelAllOrders_MatchesOrder cancelAll) (OpenOrders (nd_cache n) (ca_AccountID cancelAll)) with
      | [] => mret ([], None)
      | orders => Node_BatchCancelOrders self (cancel_all_batch cancelAll orders)
      end
  end.

(** ** Queries *)

(** The end of [QueryOrder]: the order among the reports of the client. *)
Definition query_venue self (query : QueryOrder) : ND (res OrderStatusReport) :=
  n ← node;
  match executionClient n (qo_AccountID query) with
  | None => mret (Fail (mkErr ErrNotSupported "no execution client for account"))
  | Some client =>
      try! reports := outside (fun w => cl_GenerateOrderStatusReports (xc_Client client) w (qo_InstrumentID query)) in
      match List.find (fun report => matchesOrderQuery report query) ((fun report => fillQueriedReport report query) <$> reports) with
      | None => mret (Fail not_found)
      | Some report =>
          _ ← reconcilerFor (qo_AccountID query);
          try! _ := applyAndPublish self (order_event report) in
          mret (Ok report)
      end
  end.

Definition Node_QueryOrder self (query : QueryOrder) : ND (res OrderStatusReport) :=
  match QueryOrder_Validate query with
  | Fail err => mret (Fail err)
  | Ok _ =>
      n ← node;
      match findQueriedOrder (nd_cache n) query with
      | Some order => mret (Ok (fillQueriedReport order query))
      | None =>
          answer ← on_exec (Engine_QueryOrder query);
          match answer with
          | Ok report =>
              let report := fillQueriedReport report query in
              _ ← reconcilerFor (qo_AccountID query);
              try! _ := applyAndPublish self (order_event report) in
              mret (Ok report)
          | Fail err => if err_kind err ≠? ErrNotSupported then mret (Fail err) else query_venue self query
          end
      end
  end.

Definition Node_QueryAccount self (query : QueryAccount) : ND (res AccountSnapshot) :=
  match QueryAccount_Validate query with
  | Fail err => mret (Fail err)
  | Ok _ =>
      n ← node;
      match executionClient n (qa_AccountID query) with
      | None => mret (Fail (mkErr ErrNotSupported "no execution client for account"))
      | Some client =>
          try! snapshot := outside (cl_QueryAccount (xc_Client client)) in
          let snapshot := mkAccountSnapshot (or_default (as_AccountID snapshot) (qa_AccountID query)) (as_Venue snapshot)
            (as_Type snapshot) (as_BaseCurrency snapshot) (as_Balances snapshot) (as_Margins snapshot) (as_Timestamp snapshot) in
          _ ← reconcilerFor (as_AccountID snapshot);
          try! _ := applyAndPublish self (account_event snapshot) in
          mret (Ok snapshot)
      end
  end.

(** ** The knot *)

Fixpoint node_calls (depth : nat) : NodeCalls :=
  match depth with
  | 0 => mkNodeCalls (fun _ => stuck) (fun _ => stuck) stuck
  | S depth =>
      let self := node_calls depth in
      mkNodeCalls (Node_SubmitOrder self) (Node_CancelOrder self) (drainExecutionEngineEvents self)
  end.
End orders.
