(* ===== verification/NodeLife.v ===== *)
(** * The life of the platform node (platform/node.go, platform/retry.go)

    Starting and stopping, the reconciliation with a venue, the rounds of the goroutines that forward
    events, reconnects and health.  [ctx_done] tells that the context of the run is done. *)
From stdpp Require Import base gmap sets list strings.
From S2P Require Import Prelude Partial Decimals Enums Identifiers Orders Market Accounts OrderLists Cache Kernel.
From S2P Require Import Reconciler Risk ExecManager Emulator ExecEngine Portfolio TradingAccount DataEngine BacktestRuntime NodeReports Node NodeOrders.

Open Scope go_scope.

(** [risk.Engine.Start] and [Stop], but for the goroutines that run its queues. *)
Definition risk_Start {DD : Decimal} (e : Risk.Engine) : outcome Risk.Engine unit :=
  if kc_state (rk_component e) ≟ ComponentStateRunning then (e, Ok tt)
  else let '(c, r) := Kernel.Start (rk_component e) (Ok tt) in (e <| rk_component := c |>, r).
Definition risk_Stop {DD : Decimal} (e : Risk.Engine) : outcome Risk.Engine unit :=
  let '(c, r) := Kernel.Stop (rk_component e) (Ok tt) in (e <| rk_component := c |>, r).

Section life.
Context {DD : Decimal} {W : Type} (now : W -> time) (ctx_done : W -> bool) {NR : NodeRanges (W := W)}.
Notation Node := (Node (W := W)).
Notation ND := (ND (W := W)).
Notation NodeCalls := (NodeCalls (W := W)).
Notation ExecutionClient := (ExecutionClient (W := W)).
Implicit Types (self : NodeCalls) (n : Node) (client : ExecutionClient).

(** ** Reconciliation *)

(** A report that the venue may not support: nothing is reported then. *)
Definition supported {A} (r : res (list A)) : res (list A) :=
  match r with
  | Fail err => if unsupported err then Ok [] else Fail err
  | Ok l => Ok l
  end.

Definition apply_each {A} self (event : A -> ExecutionEvent) (l : list A) : ND (res unit) :=
  run_each (fun x => applyAndPublish self (event x)) l.

(** [reconciler.MissingPositionReports] and [reconciler.ReconcileMissingOpenOrders] *)
Definition missing_positions (a : AccountID) (i : InstrumentID) (positions : list PositionStatusReport)
    : ND (res (list PositionStatusReport)) := fun '(n, w) =>
    let '(r, result) := MissingPositionReports (now w) (mkReconciler (nd_cache n) (default ∅ (nd_reconcilers n !! a))) a i positions in
    Some ((n <| nd_cache := rc_cache r |> <| nd_reconcilers := <[a := rc_positionRepairAttempts r]> (nd_reconcilers n) |>, w),
          result).
Definition missing_orders (a : AccountID) (i : InstrumentID) (reports : list OrderStatusReport)
    : ND (res (list OrderStatusReport)) := fun '(n, w) =>
    let '(c, missing, result) := ReconcileMissingOpenOrders (now w) (nd_cache n) a i reports OrderStatusCanceled in
    Some ((n <| nd_cache := c |>, w), (fun _ => missing) <$> result).

(** The fills, the positions and the positions the venue no longer has. *)
Definition reconcile_fills self client (i : InstrumentID) : ND (res unit) :=
  match cl_FillReportGenerator (xc_Client client) with
  | None => mret (Ok tt)
  | Some generate =>
      r ← outside (fun w => generate w i);
      try! fills := mret (supported r) in
      apply_each self fill_event fills
  end.
Definition reconcile_positions self client (i : InstrumentID) : ND (res unit) :=
  match cl_PositionStatusReportGenerator (xc_Client client) with
  | None => mret (Ok tt)
  | Some generate =>
      r ← outside (fun w => generate w i);
      try! positions := mret (supported r) in
      try! _ := apply_each self position_event positions in
      match r with
      | Fail _ => mret (Ok tt)
      | Ok positions =>
          try! missing := missing_positions (xc_AccountID client) i positions in
          apply_each self position_event missing
      end
  end.

Definition reconcileInstrument self client (i : InstrumentID) : ND (res unit) :=
  r ← outside (fun w => cl_GenerateOrderStatusReports (xc_Client client) w i);
  try! reports := mret (supported r) in
  try! _ := apply_each self order_event reports in
  try! _ := reconcile_fills self client i in
  try! _ := reconcile_positions self client i in
  try! missing := missing_orders (xc_AccountID client) i reports in
  run_each (fun report =>
    try! _ := publish_execution (order_event report) in
    handleOrderListProgress self report) missing.

Definition reconcileExecution self client : ND (res unit) :=
  try! snapshot := outside (cl_QueryAccount (xc_Client client)) in
  try! _ := applyAndPublish self (account_event snapshot) in
  n ← node;
  run_each (fun inst => reconcileInstrument self client (in_ID inst)) (range_instruments n).

(** ** Reconnecting *)

Definition recoverExecutionStream self client : ND (res unit) :=
  try! _ := outside (cl_Connect (xc_Client client)) in
  try! _ := (match tc_Resubscriber (xc_Trading client) with
             | Some resubscribe => outside resubscribe
             | None => mret (Ok tt)
             end) in
  reconcileExecution self client.

(** A wait that the context does not end passes. *)
Definition Node_waitReconnectBackoff : ND (res unit) := fun '(n, w) =>
  Some ((n, w), if Z.leb (ry_Backoff (nd_reconnectPolicy n)) 0 then Ok tt
                else if ctx_done w then Fail (mkErr ErrCanceled "context canceled") else Ok tt).

(** The loop of [retryReconnect] with [k] attempts left. *)
Fixpoint retry_attempts (k : nat) (operation : ND (res unit)) : ND (res unit) :=
  match k with
  | 0 => mret (Ok tt)
  | S k =>
      r ← operation;
      match r, k with
      | Ok _, _ => mret (Ok tt)
      | Fail err, 0 => mret (Fail err)
      | Fail _, S _ => try! _ := Node_waitReconnectBackoff in retry_attempts k operation
      end
  end.
Definition retryReconnect (operation : ND (res unit)) : ND (res unit) :=
  n ← node; retry_attempts (attempts (nd_reconnectPolicy n)) operation.

(** ** Forwarding *)

Inductive execution_input := StreamEvent (event : ExecutionEvent) | StreamClosed.

(** One round of [forwardEvents]: the channel it reads next, or none when it returns. *)
Definition forwardEvents_step self client (events : option nat) (input : execution_input) : ND (option (option nat)) :=
  match input with
  | StreamEvent event => _ ← recorded (applyAndPublish self event); mret (Some events)
  | StreamClosed =>
      done ← (fun s => Some (s, ctx_done s.2));
      if (done : bool) then mret None
      else
        r ← retryReconnect (recoverExecutionStream self client);
        match r with
        | Fail err => _ ← recordError err; mret None
        | Ok _ =>
            next ← (fun s => Some (s, tc_Events (xc_Trading client) s.2));
            if next ≟ events
            then _ ← recordError (mkErr ErrNotSupported "execution client reused closed event channel"); mret None
            else mret (Some next)
        end
  end.

(** The loop of [processMarketEventForExecution] over the reports. *)
Definition released_report self (report : OrderStatusReport) : ND (res unit) :=
  _ ← reconcilerFor (or_AccountID report);
  try! _ := applyAndPublish self (order_event report) in
  try! _ := (if or_Status report ≟ OrderStatusAccepted
             then publishOrderLifecycle (orderLifecycleFromReport report OrderEventAccepted OrderStatusReleased "")
             else mret (Ok tt)) in
  releaseOrderEmulationSubscriptions (or_AccountID report) (or_ClientOrderID report).

Definition processMarketEventForExecution self (event : MarketEvent) : ND (res unit) :=
  answer ← on_exec (Engine_ProcessMarketEvent event);
  match answer with
  | (_, Some err) => mret (Fail err)
  | (reports, None) =>
      try! _ := drainExecutionEngineEvents self in
      run_each (released_report self) reports
  end.
(** One round of [forwardMarketDataToExecution]. *)
Definition forwardMarketDataToExecution_step self (message : Message) : ND unit :=
  match message with
  | MarketMessage event => recorded (processMarketEventForExecution self event)
  | _ => mret tt
  end.

(** ** Start and stop *)

Definition node_start_data : ND (res unit) :=
  n ← node; on_data (DataEngine.Start (range_data_clients n) (range_data_subs n)).
Definition node_stop_data : ND (res unit) :=
  n ← node; on_data (DataEngine.Stop (range_data_clients n)).

Definition start_execution self client : ND (res unit) :=
  _ ← reconcilerFor (xc_AccountID client);
  try! _ := outside (cl_Connect (xc_Client client)) in
  reconcileExecution self client.

Definition start_component : ND (res unit) := fun '(n, w) =>
  let '(c, r) := Kernel.Start (nd_component n) (Ok tt) in Some ((n <| nd_component := c |>, w), r).
Definition stop_component : ND (res unit) := fun '(n, w) =>
  let '(c, r) := Kernel.Stop (nd_component n) (Ok tt) in Some ((n <| nd_component := c |>, w), r).
Definition fault_component (err : error) : ND unit :=
  change_node (fun n => n <| nd_component := Fault (nd_component n) err |>).
Definition set_ready (ready : bool) : ND unit := change_node (fun n => n <| nd_ready := ready |>).

(** The deferred function of [Start], for an error. *)
Definition abort_start (riskStarted dataStarted : bool) (err : error) : ND (res unit) :=
  stopped_data ← (if dataStarted then node_stop_data else mret (Ok tt));
  stopped_risk ← (if riskStarted then on_risk risk_Stop else mret (Ok tt));
  let err := default err (join_error (err :: error_list stopped_data ++ error_list stopped_risk)) in
  _ ← recordError err;
  _ ← fault_component err;
  _ ← set_ready false;
  mret (Fail err).

(** [if err := m; err != nil { return err }] in [Start]. *)
Definition or_abort (riskStarted dataStarted : bool) (m : ND (res unit)) (k : ND (res unit)) : ND (res unit) :=
  r ← m;
  match r with
  | Fail err => abort_start riskStarted dataStarted err
  | Ok _ => k
  end.

Definition Node_Start self : ND (res unit) :=
  _ ← change_node (fun n => n <| nd_ready := false |> <| nd_lastError := None |>);
  n ← node;
  let has_risk := bool_decide (is_Some (nd_risk n)) in
  or_abort false false (on_risk risk_Start) (
  or_abort has_risk false node_start_data (
  or_abort has_risk true (run_each (start_execution self) (nd_execClients n)) (
  _ ← set_ready true;
  or_abort has_risk true start_component (mret (Ok tt))))).

Definition componentStateRequiresStop (state : ComponentState) : bool :=
  (state ≟ ComponentStateStarting) || (state ≟ ComponentStateRunning) || (state ≟ ComponentStateDegraded).

Fixpoint disconnect_each (clients : list ExecutionClient) : ND (list error) :=
  match clients with
  | [] => mret []
  | client :: clients =>
      r ← outside (cl_Disconnect (xc_Client client));
      errs ← disconnect_each clients;
      mret (error_list r ++ errs)
  end.

Definition stop_risk : ND (res unit) :=
  n ← node;
  match nd_risk n with
  | Some e => if componentStateRequiresStop (kc_state (rk_component e)) then on_risk risk_Stop else mret (Ok tt)
  | None => mret (Ok tt)
  end.

Definition Node_Stop : ND (res unit) :=
  _ ← change_node (fun n => n <| nd_timers := ∅ |>);
  n ← node;
  errs ← disconnect_each (nd_execClients n);
  stopped_data ← node_stop_data;
  stopped_risk ← stop_risk;
  _ ← set_ready false;
  match join_error (errs ++ error_list stopped_data ++ error_list stopped_risk) with
  | Some err =>
      _ ← recordError err;
      _ ← fault_component err;
      mret (Fail err)
  | None => stop_component
  end.

(** ** Health *)

Record DataClientHealth := mkDataClientHealth { dx_Venue : Venue; dx_ClientID : string; dx_Health : DataHealth }.
Record ExecutionClientHealth := mkExecutionClientHealth { ex_Venue : Venue; ex_AccountID : AccountID; ex_Health : ExecutionHealth }.
(** [platform.Health]; of the risk engine it has the component's. *)
Record NodeHealth := mkNodeHealth {
  nh_Ready : bool;
  nh_State : ComponentState;
  nh_Risk : option Kernel.Health;
  nh_DataEngine : DataEngine.Health;
  nh_Data : list DataClientHealth;
  nh_Execution : list ExecutionClientHealth;
  nh_LastError : option error;
}.

Definition Node_Health n (w : W) : NodeHealth :=
  let data := engine_Health now (range_data_clients n) (data_of n) w in
  mkNodeHealth (nd_ready n) (kc_state (nd_component n)) ((fun e => Component_Health (rk_component e)) <$> nd_risk n) data
    (match hl_ClientsHealth data with
     | [] => (fun source => mkDataClientHealth (dc_Venue source) (dc_ClientID source) (dc_Health source w)) <$> nd_dataClients n
     | healths => (fun h => mkDataClientHealth (ch_Venue h) (ch_ClientID h) (ch_Health h)) <$> healths
     end)
    ((fun client => mkExecutionClientHealth (cl_Venue (xc_Client client)) (xc_AccountID client) (xc_Health client w)) <$>
       nd_execClients n)
    (match nd_lastError n with Some err => Some err | None => hl_LastError data end).

(** ** Runs

    What may happen to a node, one method or one round of a goroutine at a time.  The state outside
    changes by itself in between. *)
Inductive NodeOp :=
  | OpAddDataClient (source : DataClient (W := W))
  | OpAddExecutionClient (client : ExecutionClient)
  | OpSetTimer (name : string) (interval : duration)
  | OpCancelTimer (name : string)
  | OpTimerTick (name : string) (tick : time)
  | OpOrderFactory (a : AccountID) (use : OrderFactory -> OrderFactory)
  | OpSubscribe (sub : SubscribeMarketData)
  | OpUnsubscribe (sub : SubscribeMarketData)
  | OpRequest (request : DataRequest)
  | OpSubmit (order : SubmitOrder)
  | OpSubmitList (l : OrderList)
  | OpModify (modify : ModifyOrder)
  | OpCancel (cancel : CancelOrder)
  | OpBatchCancel (batch : BatchCancelOrders)
  | OpCancelAll (cancelAll : CancelAllOrders)
  | OpQueryOrder (query : QueryOrder)
  | OpQueryAccount (query : QueryAccount)
  | OpStart
  | OpStop
  | OpForward (client : ExecutionClient) (events : option nat) (input : execution_input)
  | OpForwardMarket (message : Message)
  | OpForwardData (order : list BarType) (subs : list SubscribeMarketData) (venue : Venue)
      (streaming : StreamingDataClient (W := W)) (events : nat) (input : data_input).

Definition dropped {A} (m : ND A) : ND unit := _ ← m; mret tt.

Definition run_op (depth : nat) (op : NodeOp) : ND unit :=
  let self := node_calls now depth in
  match op with
  | OpAddDataClient source => dropped (AddDataClient source)
  | OpAddExecutionClient client => dropped (AddExecutionClient client)
  | OpSetTimer name interval => dropped (Node_SetTimer name interval)
  | OpCancelTimer name => dropped (Node_CancelTimer name)
  | OpTimerTick name tick => runTimer_tick name tick
  | OpOrderFactory a use => dropped (Node_OrderFactory a use)
  | OpSubscribe sub => dropped (Node_SubscribeMarketData sub)
  | OpUnsubscribe sub => dropped (Node_UnsubscribeMarketData sub)
  | OpRequest request => dropped (Node_RequestData request)
  | OpSubmit order => dropped (Node_SubmitOrder now self order)
  | OpSubmitList l => dropped (Node_SubmitOrderList now self l)
  | OpModify modify => dropped (Node_ModifyOrder now self modify)
  | OpCancel cancel => dropped (Node_CancelOrder now self cancel)
  | OpBatchCancel batch => dropped (Node_BatchCancelOrders now self batch)
  | OpCancelAll cancelAll => dropped (Node_CancelAllOrders now self cancelAll)
  | OpQueryOrder query => dropped (Node_QueryOrder self query)
  | OpQueryAccount query => dropped (Node_QueryAccount self query)
  | OpStart => dropped (Node_Start self)
  | OpStop => dropped Node_Stop
  | OpForward client events input => dropped (forwardEvents_step self client events input)
  | OpForwardMarket message => forwardMarketDataToExecution_step self message
  | OpForwardData order subs venue streaming events input =>
      dropped (on_data (forward_step ctx_done order subs venue streaming events input))
  end.

(** One step: an operation that [allowed] admits and that returns, or a change outside. *)
Inductive node_step (allowed : NodeOp -> bool) : relation (Node * W) :=
  | step_op depth op s s' : allowed op = true -> run_op depth op s = Some (s', tt) -> node_step allowed s s'
  | step_outside n w w' : node_step allowed (n, w) (n, w').
End life.
