(* ===== verification/NodeFacts.v ===== *)
(** * Facts about the platform node

    What a refused order leaves untouched, and orders that the node cannot move. *)
From stdpp Require Import base gmap sets list strings.
From S2P Require Import Prelude Partial Decimals Enums Identifiers Orders OrderState Market Accounts OrderLists Cache CacheFacts Kernel.
From S2P Require Import Reconciler Risk RiskFacts ExecManager Emulator ExecEngine Portfolio TradingAccount DataEngine BacktestRuntime.
From S2P Require Import NodeReports Node NodeOrders NodeLife.

Open Scope go_scope.

Section facts.
Context {DD : Decimal} {W : Type} (now : W -> time) {NR : NodeRanges (W := W)}.
Notation Node := (Node (W := W)).
Notation ND := (ND (W := W)).
Notation NodeCalls := (NodeCalls (W := W)).
Implicit Types (self : NodeCalls) (n : Node) (w : W) (event : ExecutionEvent) (report existing : OrderStatusReport).

(** ** Lifecycle events leave the cache alone *)

Lemma Apply_lifecycle c lifecycle : (Apply c (lifecycle_event lifecycle)).1 = c.
Proof. unfold Apply. by destruct (ExecutionEvent_Validate _). Qed.

(** [n'] is [n] but for what has been published and the reconcilers at hand. *)
Definition only_published n n' : Prop :=
  nd_cache n' = nd_cache n /\ nd_risk n' = nd_risk n /\ nd_pf n' = nd_pf n /\ nd_dataEngine n' = nd_dataEngine n /\
  nd_execEngine n' = nd_execEngine n /\ nd_wiring n' = nd_wiring n /\ nd_heldChildren n' = nd_heldChildren n /\
  nd_orderListMembers n' = nd_orderListMembers n /\ nd_emulationDataSubs n' = nd_emulationDataSubs n /\
  nd_emulationOrderSubs n' = nd_emulationOrderSubs n /\ nd_component n' = nd_component n /\ nd_ready n' = nd_ready n.
#[global] Instance only_published_po : PreOrder only_published.
Proof.
  split; [by intros n|]. intros n1 n2 n3 H12 H23. unfold only_published in *. destruct_and!. split_and!; congruence.
Qed.

(** A computation that does not change the code outside, and the node only so. *)
Definition quiet {A} (m : ND A) : Prop := forall n w, exists n' a, m (n, w) = Some ((n', w), a) /\ only_published n n'.

Lemma node_quiet_ret {A} (a : A) : quiet (mret a).
Proof. intros n w. by exists n, a. Qed.
Lemma node_quiet_bind {A B} (m : ND A) (f : A -> ND B) : quiet m -> (forall a, quiet (f a)) -> quiet (m ≫= f).
Proof.
  intros Hm Hf n w. destruct (Hm n w) as (n1 & a & E & H1). destruct (Hf a n1 w) as (n2 & b & E2 & H2).
  exists n2, b. split; [|by etrans]. unfold mbind, Run_bind. by rewrite E.
Qed.
Lemma node_quiet_attempt {A B} (m : ND (res A)) (f : A -> ND (res B)) :
  quiet m -> (forall a, quiet (f a)) -> quiet (attempt_run m f).
Proof. intros Hm Hf. apply node_quiet_bind; [done|]. intros [a|e]; [apply Hf | apply node_quiet_ret]. Qed.
Lemma quiet_change f : (forall n, only_published n (f n)) -> quiet (change_node f).
Proof. intros H n w. by exists (f n), tt. Qed.
Lemma node_quiet_publish topic message : quiet (publish topic message).
Proof. apply node_quiet_bind; [by apply quiet_change|]. intros _. apply node_quiet_ret. Qed.
Lemma quiet_reconcilerFor a : quiet (reconcilerFor a).
Proof. by apply quiet_change. Qed.
Lemma quiet_Apply lifecycle : quiet (reconciler_Apply (lifecycle_event lifecycle)).
Proof.
  intros n w. unfold reconciler_Apply. pose proof (Apply_lifecycle (nd_cache n) lifecycle) as H.
  destruct (Apply _ _) as [c r]. simpl in H. subst c. eexists _, r. split; [reflexivity|]. by repeat split.
Qed.
Lemma quiet_lifecycle lifecycle : quiet (publishOrderLifecycle lifecycle).
Proof. apply node_quiet_attempt; [apply quiet_Apply|]. intros _. apply node_quiet_publish. Qed.
Lemma quiet_rejected a lifecycle : quiet (publish_rejected a lifecycle).
Proof.
  unfold publish_rejected. destruct (ExecutionEvent_Validate _); [|apply node_quiet_ret].
  apply node_quiet_bind; [apply quiet_reconcilerFor|]. intros _. apply quiet_lifecycle.
Qed.
Lemma quiet_denied order cause : quiet (publishOrderDenied order cause).
Proof.
  unfold publishOrderDenied, OrderDeniedEvent. cbv zeta. destruct (ExecutionEvent_Validate _); [|apply node_quiet_ret].
  apply node_quiet_bind; [apply quiet_reconcilerFor|]. intros _. apply quiet_lifecycle.
Qed.
Lemma quiet_ignore (m : ND (res unit)) : quiet m -> quiet (ignore m).
Proof. intros H. apply node_quiet_bind; [done|]. intros _. apply node_quiet_ret. Qed.

(** A refusal: the handler runs, and the error is returned. *)
Lemma refused {A B} err (h : error -> ND unit) (f : A -> ND (res B)) n w :
  quiet (h err) -> exists n', or_else (mret (Fail err)) h f (n, w) = Some ((n', w), Fail err) /\ only_published n n'.
Proof.
  intros H. destruct (H n w) as (n' & [] & E & Hn). exists n'. split; [|done]. unfold or_else, mbind, Run_bind, mret, Run_ret. by rewrite E.
Qed.

Lemma or_else_step {A B} (m : ND (res A)) h (f : A -> ND (res B)) s s1 r : m s = Some (s1, r) ->
  or_else m h f s = match r with Ok a => f a s1 | Fail err => (_ ← h err; mret (Fail err)) s1 end.
Proof. intros E. unfold or_else. unfold mbind at 1, Run_bind at 1. rewrite E. by destruct r. Qed.

(** ** Orders whose status admits no pending state *)

Lemma Apply_refused c report existing :
  cache_Order c (or_AccountID report) (or_OrderID report) = Some existing ->
  NextOrderStatus (or_Status existing) (or_Status report) = None ->
  exists err, Apply c (order_event report) = (c, Fail err).
Proof.
  intros Hc Hs. unfold Apply. destruct (ExecutionEvent_Validate _) as [|err]; [|by exists err].
  cbn [ee_Account ee_Order order_event]. unfold applyOrder. rewrite Hc, Hs. eauto.
Qed.

Lemma applyAndPublish_refused self report n w err :
  Apply (nd_cache n) (order_event report) = (nd_cache n, Fail err) ->
  exists n', applyAndPublish self (order_event report) (n, w) = Some ((n', w), Fail err) /\ only_published n n'.
Proof.
  intros H. unfold applyAndPublish, node, attempt_run, mbind, Run_bind, reconciler_Apply. rewrite H. eexists. split; [reflexivity|]. by repeat split.
Qed.

Lemma find_by_ids_stored c a o cl v r : orders_ok c -> find_by_ids c a o cl v = Some r ->
  cache_Order c (or_AccountID r) (or_OrderID r) = Some r.
Proof.
  intros H. assert (Hk : forall a' o', cache_Order c a' o' = Some r -> cache_Order c (or_AccountID r) (or_OrderID r) = Some r).
  { intros a' o' E. by destruct (ix_keys _ _ H _ _ _ E) as (-> & -> & _). }
  assert (Hl : forall (m : gmap AccountID (gmap string OrderID)) k,
    (o' ← get2 m a k; get2 (c_orders c) a o') = Some r -> cache_Order c (or_AccountID r) (or_OrderID r) = Some r).
  { intros m k E. destruct (get2 m a k) as [o'|]; [by eapply Hk|discriminate E]. }
  unfold find_by_ids. destruct (negb (bool_decide (o = ""))); [destruct (cache_Order c a o) eqn:E1; [intros [= <-]; eauto|]|];
  (destruct (negb (bool_decide (cl = ""))); [destruct (OrderByClientID c a cl) eqn:E2; [intros [= <-]; eauto|]|];
  (destruct (negb (bool_decide (v = ""))); [eauto|done])).
Qed.

(** A command that would make an order pending fails when the state machine has no such
    transition: the venue and the execution engine never hear of it. *)
Definition unmoved {A} (m : ND (res A)) n w : Prop :=
  exists err n', m (n, w) = Some ((n', w), Fail err) /\
    nd_execEngine n' = nd_execEngine n /\ nd_cache n' = nd_cache n.

Lemma unmoved_bind {A B} (m : ND A) (f : A -> ND (res B)) n w :
  quiet m -> (forall a n', only_published n n' -> unmoved (f a) n' w) -> unmoved (m ≫= f) n w.
Proof.
  intros Hm Hf. destruct (Hm n w) as (n1 & a & E & H1). destruct (Hf a n1 H1) as (err & n2 & E2 & He & Hc).
  exists err, n2. split; [unfold mbind, Run_bind; by rewrite E|]. unfold only_published in H1. destruct_and! H1. split; congruence.
Qed.
Lemma unmoved_refused {A B} err (h : error -> ND unit) (f : A -> ND (res B)) n w :
  quiet (h err) -> unmoved (or_else (mret (Fail err)) h f) n w.
Proof.
  intros H. destruct (refused err h f n w H) as (n' & E & Hn). exists err, n'. split; [exact E|].
  unfold only_published in Hn. by destruct_and! Hn.
Qed.
Lemma unmoved_pending {B} self report existing (f : unit -> ND (res B)) n w :
  cache_Order (nd_cache n) (or_AccountID report) (or_OrderID report) = Some existing ->
  NextOrderStatus (or_Status existing) (or_Status report) = None ->
  unmoved (attempt_run (applyAndPublish self (order_event report)) f) n w.
Proof.
  intros Hc Hs. destruct (Apply_refused _ _ _ Hc Hs) as [err E].
  destruct (applyAndPublish_refused self _ _ w _ E) as (n' & Er & Hn). exists err, n'.
  split; [unfold attempt_run, mbind, Run_bind; by rewrite Er|]. unfold only_published in Hn. by destruct_and! Hn.
Qed.

Lemma quiet_clock : quiet (wall_clock now).
Proof. intros n w. by exists n, (now w). Qed.

Lemma unmoved_ok {A B} (a : A) h (f : A -> ND (res B)) n w :
  unmoved (f a) n w -> unmoved (or_else (mret (Ok a)) h f) n w.
Proof. done. Qed.
Lemma unmoved_node {B} (f : Node -> ND (res B)) n w : unmoved (f n) n w -> unmoved (node ≫= f) n w.
Proof. done. Qed.
Lemma unmoved_fail {A} (h : ND unit) err n w : quiet h -> unmoved (A := A) (_ ← h; mret (Fail err)) n w.
Proof. intros H. by apply (unmoved_refused err (fun _ => h) (fun _ : A => mret (Fail err))). Qed.

(** The steps up to the pending report, when the state machine refuses it. *)
Lemma unmoved_at_pending {B} self a existing metadata status (f : time -> unit -> ND (res B)) n w :
  cache_Order (nd_cache n) (or_AccountID existing) (or_OrderID existing) = Some existing ->
  NextOrderStatus (or_Status existing) status = None ->
  unmoved (_ ← reconcilerFor a; t ← wall_clock now;
           attempt_run (applyAndPublish self (order_event (pending_order existing metadata status t))) (f t)) n w.
Proof.
  intros Hc Hs. apply unmoved_bind; [apply quiet_reconcilerFor|]. intros _ n1 H1.
  apply unmoved_bind; [apply quiet_clock|]. intros t n2 H2.
  apply (unmoved_pending _ _ existing); [|done]. simpl. by rewrite (proj1 H2), (proj1 H1).
Qed.

Lemma cancel_unmoved self n w existing cancel :
  orders_ok (nd_cache n) -> NextOrderStatus (or_Status existing) OrderStatusPendingCancel = None ->
  findCancelableOrder (nd_cache n) cancel = Some existing -> unmoved (Node_CancelOrder now self cancel) n w.
Proof.
  intros Hok Hs Hf. pose proof (find_by_ids_stored _ _ _ _ _ _ Hok Hf) as Hc. unfold Node_CancelOrder. cbv zeta.
  destruct (CancelOrder_Validate cancel) as [[]|err]; [|by apply unmoved_refused, quiet_ignore, quiet_rejected].
  apply unmoved_ok, unmoved_node. rewrite Hf. destruct (_ || _).
  - by apply unmoved_fail, quiet_ignore, quiet_rejected.
  - refine (unmoved_at_pending _ _ existing _ _ _ _ _ Hc Hs).
Qed.

Lemma modify_unmoved self n w existing modify :
  orders_ok (nd_cache n) -> NextOrderStatus (or_Status existing) OrderStatusPendingUpdate = None ->
  findOrder (nd_cache n) modify = Some existing -> unmoved (Node_ModifyOrder now self modify) n w.
Proof.
  intros Hok Hs Hf. pose proof (find_by_ids_stored _ _ _ _ _ _ Hok Hf) as Hc. unfold Node_ModifyOrder. cbv zeta.
  destruct (ModifyOrder_Validate modify) as [[]|err]; [|by apply unmoved_refused, quiet_ignore, quiet_rejected].
  apply unmoved_ok, unmoved_node. rewrite Hf.
  destruct (ApplyOrderModification _ _) as [updated|err]; [|by apply unmoved_refused, quiet_ignore, quiet_rejected].
  apply unmoved_ok. refine (unmoved_at_pending _ _ existing _ _ _ _ _ Hc Hs).
Qed.

(** C8: an emulated order can be neither canceled nor modified through the node: whatever the
    command, when it names an order that the cache has as emulated (or released) the call fails, the
    execution engine with the emulator that holds the order is not called, nothing outside is, and
    the cache keeps the order as it is.  The node first books the order as pending, and the state
    machine has no such transition. *)
Theorem emulated_order_immovable self n w existing :
  orders_ok (nd_cache n) ->
  or_Status existing = OrderStatusEmulated \/ or_Status existing = OrderStatusReleased ->
  let untouched {A} (m : ND (res A)) := exists err n', m (n, w) = Some ((n', w), Fail err) /\
    nd_execEngine n' = nd_execEngine n /\ nd_cache n' = nd_cache n in
  (forall cancel, findCancelableOrder (nd_cache n) cancel = Some existing -> untouched (Node_CancelOrder now self cancel)) /\
  (forall modify, findOrder (nd_cache n) modify = Some existing -> untouched (Node_ModifyOrder now self modify)).
Proof.
  intros Hok Hs. split; intros command Hf; [eapply cancel_unmoved|eapply modify_unmoved]; try done; by destruct Hs as [-> | ->].
Qed.

(** ** The gate of the risk engine *)

Lemma risk_check_spec check order n w :
  risk_check now check order (n, w) =
  match risk_of n with
  | None => Some ((n, w), Ok tt)
  | Some e => let '(e', r) := check (range_risk_instruments n) e order (now w) in Some ((with_risk n e', w), r)
  end.
Proof. unfold risk_check, mbind, Run_bind, node, wall_clock, on_risk. simpl. by destruct (risk_of n). Qed.

(** What a denial publishes. *)
Definition denial (order : SubmitOrder) (err : error) : list (string * Message) :=
  (fun event => (TopicExecution, ExecutionMessage event)) <$> option_list (OrderDeniedEvent order (Some err)).

Lemma publishOrderDenied_spec order err n w :
  exists n', publishOrderDenied order err (n, w) = Some ((n', w), Ok tt) /\ only_published n n' /\
    nd_bus n' = nd_bus n ++ denial order err.
Proof.
  unfold publishOrderDenied, denial, OrderDeniedEvent. cbv zeta. set (event := lifecycle_event _).
  destruct (ExecutionEvent_Validate event) eqn:V; [|exists n; by rewrite app_nil_r].
  eexists. split.
  - unfold attempt_run, mbind, Run_bind, reconcilerFor, change_node, modify_state, reconciler_Apply, Apply. rewrite V. reflexivity.
  - by repeat split.
Qed.

(** The node after a refusal of the risk engine, whose window of commands may have moved. *)
Definition turned_away order err n w (r : option (Node * W * res OrderStatusReport)) : Prop :=
  exists n', r = Some ((n', w), Fail err) /\ nd_execEngine n' = nd_execEngine n /\ nd_cache n' = nd_cache n /\
    nd_dataEngine n' = nd_dataEngine n /\ nd_emulationDataSubs n' = nd_emulationDataSubs n /\
    nd_bus n' = nd_bus n ++ denial order err.

Lemma turned_away_from order err n0 n w :
  nd_execEngine n = nd_execEngine n0 -> nd_cache n = nd_cache n0 -> nd_dataEngine n = nd_dataEngine n0 ->
  nd_emulationDataSubs n = nd_emulationDataSubs n0 -> nd_bus n = nd_bus n0 ->
  forall r, (_ ← ignore (publishOrderDenied order err); mret (Fail err)) (n, w) = r -> turned_away order err n0 w r.
Proof.
  intros H1 H2 H3 H4 H5 r <-. destruct (publishOrderDenied_spec order err n w) as (n' & E & Hn & Hb).
  exists n'. unfold ignore, mbind, Run_bind. rewrite E. unfold only_published in Hn. destruct_and! Hn.
  split_and!; try done; congruence.
Qed.

Lemma with_risk_same n e e' : risk_of n = Some e -> rk_cache e' = rk_cache e ->
  nd_execEngine (with_risk n e') = nd_execEngine n /\ nd_cache (with_risk n e') = nd_cache n /\
  nd_dataEngine (with_risk n e') = nd_dataEngine n /\ nd_emulationDataSubs (with_risk n e') = nd_emulationDataSubs n /\
  nd_bus (with_risk n e') = nd_bus n.
Proof.
  unfold risk_of, with_risk. cbv zeta. fields. destruct (nd_risk n); intros [= <-]; destruct (on_risk_cache _); simpl; intros H; by rewrite ?H.
Qed.

(** C6: no order passes a risk engine that refuses it.  An order that does not validate, or that
    the risk engine's check refuses at the time of the call, gets that error back; the execution
    engine, the data engine, the cache and everything outside stay as they are, no market data is
    subscribed for it, and exactly the denial of the order is published. *)
Theorem risk_gate self n w order :
  match SubmitOrder_Validate order with
  | Fail err => turned_away order err n w (Node_SubmitOrder now self order (n, w))
  | Ok _ =>
      match risk_of n with
      | None => True
      | Some e =>
          match (Check (range_risk_instruments n) e order (now w)).2 with
          | Fail err => turned_away order err n w (Node_SubmitOrder now self order (n, w))
          | Ok _ => True
          end
      end
  end.
Proof.
  destruct (SubmitOrder_Validate order) as [[]|err] eqn:V.
  - destruct (risk_of n) as [e|] eqn:E; [|done].
    destruct (Check _ e order (now w)) as [e' [[]|err]] eqn:C; [done|]. cbn [snd].
    assert (Hc : rk_cache e' = rk_cache e).
    { destruct (RiskFacts.check_engine (range_risk_instruments n) e order true false (now w)) as (e1 & He & Hc & _).
      unfold Check in C. rewrite C in He. simpl in He. by subst. }
    destruct (with_risk_same n e e' E Hc) as (H1 & H2 & H3 & H4 & H5).
    refine (turned_away_from _ _ _ _ _ H1 H2 H3 H4 H5 _ _).
    unfold Node_SubmitOrder. rewrite V. cbv zeta.
    assert (R : risk_check now Check order (n, w) = Some ((with_risk n e', w), Fail err))
      by (rewrite risk_check_spec, E, C; reflexivity).
    rewrite (or_else_step _ _ _ _ _ (Ok tt) eq_refl). by rewrite (or_else_step _ _ _ _ _ _ R).
  - refine (turned_away_from order err n n w _ _ _ _ _ _ _); try reflexivity.
    unfold Node_SubmitOrder. rewrite V. reflexivity.
Qed.
End facts.
