(* ===== verification/NodeInvariants.v ===== *)
(** * What the methods of the platform node do to its state

    A [NodeRelation] holds along every step that only works with the components, publishes or
    hands held children out.  It then holds along the methods of the node, given the calls they make
    through [self], and along [node_calls] of any depth. *)
From stdpp Require Import base gmap sets list strings.
From S2P Require Import Prelude Partial Decimals Enums Identifiers Orders Market Accounts OrderLists Indicators Cache Kernel.
From S2P Require Import Reconciler Risk ExecManager Emulator ExecEngine Portfolio TradingAccount Aggregation DataEngine BacktestRuntime.
From S2P Require Import NodeReports Node NodeOrders NodeLife.

Open Scope go_scope.

(** ** Methods of the data engine that leave its subscriptions *)

Section data.
Context {DD : Decimal} {W : Type}.
Implicit Types (e : DataEngine (W := W)) (w : W) (sub : SubscribeMarketData).

(** A method that leaves the subscriptions as they are. *)
Definition leaves {A} (m : DE (W := W) A) : Prop := forall s, de_subscriptions (m s).1.1 = de_subscriptions s.1.

Lemma leaves_ret {A} (a : A) : leaves (mret a).
Proof. done. Qed.
Lemma leaves_bind {A B} (m : DE A) (f : A -> DE B) : leaves m -> (forall a, leaves (f a)) -> leaves (m ≫= f).
Proof. intros Hm Hf s. unfold mbind, St_bind. specialize (Hm s). destruct (m s) as [s1 a]. by rewrite (Hf a s1). Qed.
Lemma leaves_attempt {A B} (m : DE (res A)) (f : A -> DE (res B)) : leaves m -> (forall a, leaves (f a)) -> leaves (attempt m f).
Proof. intros Hm Hf. apply leaves_bind; [done|]. intros [a|err]; [apply Hf | apply leaves_ret]. Qed.
Lemma leaves_engine : leaves engine.
Proof. done. Qed.
Lemma leaves_change f : (forall e, de_subscriptions (f e) = de_subscriptions e) -> leaves (change f).
Proof. intros H s. apply H. Qed.
Lemma leaves_call {A} (f : W -> W * A) : leaves (DataEngine.call f).
Proof. intros s. unfold DataEngine.call. by destruct (f s.2). Qed.
Lemma leaves_recorded {A} (m : DE (res A)) : leaves m -> leaves (DataEngine.recorded m).
Proof.
  intros H. apply leaves_bind; [done|]. intros [a|err]; [apply leaves_ret|].
  apply leaves_bind; [by apply leaves_change|]. intros _. apply leaves_ret.
Qed.
Lemma leaves_each {X} (f : X -> DE (res unit)) l : (forall x, leaves (f x)) -> leaves (for_each f l).
Proof. intros Hf. induction l as [|x l IH]; simpl; [apply leaves_ret|]. by apply leaves_attempt. Qed.

Ltac leaves :=
  repeat match goal with
  | |- leaves (mbind _ _) => apply leaves_bind; [|intros ?]
  | |- leaves (attempt _ _) => apply leaves_attempt; [|intros ?]
  | |- leaves (DataEngine.recorded _) => apply leaves_recorded
  | |- leaves (for_each _ _) => apply leaves_each; intros ?
  | |- leaves (mret _) => apply leaves_ret
  | |- leaves (pass _) => apply leaves_ret
  | |- leaves engine => apply leaves_engine
  | |- leaves (DataEngine.call _) => apply leaves_call
  | |- leaves (change _) => apply leaves_change; intros ?
  | |- leaves (match ?x with _ => _ end) => destruct x
  | |- leaves (let x := ?v in _) => cbv zeta
  end; try done.

Lemma leaves_load client : leaves (load_instruments client).
Proof.
  unfold load_instruments. leaves. intros [e w]. by destruct (PutInstrument _ _).
Qed.
Lemma leaves_disconnect clients : leaves (disconnect_all clients).
Proof. induction clients as [|client clients IH]; simpl; leaves. Qed.
Lemma leaves_start_client subs client : leaves (start_client subs client).
Proof. unfold start_client, applySubscriptions. leaves. apply leaves_load. Qed.
Lemma leaves_abort connected cause : leaves (abortStart connected cause).
Proof. unfold abortStart. leaves. apply leaves_disconnect. Qed.
Lemma leaves_start clients subs : leaves (DataEngine.Start clients subs).
Proof.
  unfold DataEngine.Start. leaves. clear. generalize (@nil (DataClient (W := W))).
  induction clients as [|client clients IH]; intros connected; simpl; [apply leaves_ret|].
  apply leaves_bind; [apply leaves_start_client|]. intros [reached [[]|err]]; [apply IH | apply leaves_abort].
Qed.
Lemma leaves_stop clients : leaves (DataEngine.Stop clients).
Proof. unfold DataEngine.Stop. leaves. apply leaves_disconnect. Qed.

Lemma leaves_cacheResponse response e : de_subscriptions (cacheResponse response e) = de_subscriptions e.
Proof.
  unfold cacheResponse. revert e. induction (ds_Events response) as [|event events IH]; intros e; [done|]. simpl.
  rewrite IH. by destruct (PutMarketEvent _ _).
Qed.
Lemma leaves_request_client client request : leaves (request_client client request).
Proof.
  unfold request_client, requestLive. leaves. apply leaves_cacheResponse.
Qed.
Lemma leaves_request request : leaves (Request request).
Proof. unfold Request. leaves; first [apply leaves_cacheResponse | apply leaves_request_client]. Qed.
Lemma leaves_apply order venue streaming : leaves (applySubscriptions order venue streaming).
Proof. unfold applySubscriptions. leaves. Qed.
Lemma leaves_recover k subs venue streaming : forall cd, leaves (recover_attempts cd k subs venue streaming).
Proof.
  induction k as [|k IH]; intros cd; simpl; leaves; try apply leaves_apply; try apply IH.
  - unfold reconnectStreamOnce. leaves. apply leaves_apply.
  - by intros [? ?].
Qed.
Lemma leaves_process order event : leaves (process order event).
Proof.
  intros [e w]. unfold process. assert (H : de_subscriptions (processEvent order event e).1 = de_subscriptions e); [|by destruct (processEvent order event e)].
  unfold processEvent. destruct (MarketEvent_Validate event); [|done]. destruct (PutMarketEvent _ _) as [c|]; [|done].
  set (e1 := DataEngine.publish event _). change (de_subscriptions e) with (de_subscriptions e1). clearbody e1. clear e c a w.
  assert (Ha : de_subscriptions (aggregate order event e1).1 = de_subscriptions e1).
  { revert e1. induction order as [|b order IH]; intros e; [done|]. simpl.
    assert (H1 : de_subscriptions (aggregate_one event e b).1 = de_subscriptions e).
    { unfold aggregate_one. destruct (de_aggregators e !! b); [|done]. destruct (Update _ _) as [g [[bar [|]]|]]; done. }
    destruct (aggregate_one event e b) as [e2 out]. specialize (IH e2). destruct (aggregate order event e2). simpl in *. congruence. }
  destruct (aggregate order event e1) as [e2 bars]. simpl in Ha. rewrite <- Ha. clear.
  revert e2. induction bars as [|bar bars IH]; intros e; [done|]. simpl. destruct (PutMarketEvent _ _); [|done]. by rewrite IH.
Qed.
Lemma leaves_forward cd order subs venue streaming events input : leaves (forward_step cd order subs venue streaming events input).
Proof.
  unfold forward_step, recoverStream. leaves; first [apply leaves_process | apply leaves_recover | done].
Qed.

End data.

(** ** Steps beside the node's own books *)

Section relations.
Context {DD : Decimal} {W : Type} (now : W -> time) (ctx_done : W -> bool) {NR : NodeRanges (W := W)}.
Notation Node := (Node (W := W)).
Notation ND := (ND (W := W)).
Notation NodeCalls := (NodeCalls (W := W)).
Notation state := (Node * W)%type.
Implicit Types (self : NodeCalls) (n : Node) (w : W) (s : state).

(** The books of the node: held children, list members, the data of emulated orders, and its own
    component. *)
Definition same_books n n' : Prop :=
  nd_heldChildren n' = nd_heldChildren n /\ nd_orderListMembers n' = nd_orderListMembers n /\
  nd_emulationDataSubs n' = nd_emulationDataSubs n /\ nd_emulationOrderSubs n' = nd_emulationOrderSubs n /\
  de_subscriptions (nd_dataEngine n') = de_subscriptions (nd_dataEngine n) /\
  nd_component n' = nd_component n /\ nd_ready n' = nd_ready n.

Class NodeRelation (R : relation state) : Prop := {
  nr_po : PreOrder R;
  nr_books n w n' w' : same_books n n' -> R (n, w) (n', w');
  nr_release n w key : R (n, w) (n <| nd_heldChildren := delete key (nd_heldChildren n) |>, w);
}.

Section steps.
Context (R : relation state) {HR : NodeRelation R}.
#[local] Instance steps_po : PreOrder R := nr_po.
#[local] Instance steps_follows : Follows R nowhere := follows_nowhere R.
Notation holds := (along R nowhere).

Lemma holds_books f : (forall n, same_books n (f n)) -> holds (change_node f).
Proof. intros H [n w]. by apply nr_books. Qed.
Lemma holds_node : holds node.
Proof. intros [n w]. simpl. reflexivity. Qed.
Lemma holds_clock : holds (wall_clock now).
Proof. intros [n w]. simpl. reflexivity. Qed.
Lemma holds_outside {A} (f : W -> W * A) : holds (outside f).
Proof. intros [n w]. unfold outside. destruct (f w). by apply nr_books. Qed.
Lemma holds_exec {A} (m : ExecEngine.M A) : holds (on_exec m).
Proof.
  intros [n w]. unfold on_exec. destruct (m _) as [[e w'] a]. apply nr_books. unfold with_exec, same_books. cbv zeta. fields.
  by destruct (on_exec_cache _).
Qed.
Lemma holds_pf m : holds (on_pf m).
Proof.
  intros [n w]. unfold on_pf. destruct (m _) as [p r]. apply nr_books. unfold with_pf, same_books. cbv zeta. fields.
  by destruct (on_pf_cache _).
Qed.
Lemma holds_risk m : holds (on_risk m).
Proof.
  intros [n w]. unfold on_risk. destruct (risk_of n) as [e|]; [|reflexivity]. destruct (m e) as [e' r].
  apply nr_books. unfold with_risk, same_books. cbv zeta. fields. by destruct (on_risk_cache _).
Qed.
Lemma holds_Apply event : holds (reconciler_Apply event).
Proof. intros [n w]. unfold reconciler_Apply. destruct (Apply _ _). by apply nr_books. Qed.
Lemma holds_data {A} (m : DE A) : leaves m -> holds (on_data m).
Proof.
  intros H [n w]. unfold on_data. specialize (H (data_of n, w)). destruct (m _) as [[e w'] a]. apply nr_books.
  unfold with_data, data_of, same_books in *. cbv zeta. fields. by destruct (on_data_cache _).
Qed.
Lemma holds_missing_positions a i positions : holds (missing_positions now a i positions).
Proof. intros [n w]. unfold missing_positions. destruct (MissingPositionReports _ _ _ _ _). by apply nr_books. Qed.
Lemma holds_missing_orders a i reports : holds (missing_orders now a i reports).
Proof. intros [n w]. unfold missing_orders. destruct (ReconcileMissingOpenOrders _ _ _ _ _ _) as [[c l] r]. by apply nr_books. Qed.
Lemma holds_release key : holds (change_node (fun n => n <| nd_heldChildren := delete key (nd_heldChildren n) |>)).
Proof. intros [n w]. apply nr_release. Qed.
Lemma holds_or_else {A B} (m : ND (res A)) h (f : A -> ND (res B)) :
  holds m -> (forall e, holds (h e)) -> (forall a, holds (f a)) -> holds (or_else m h f).
Proof.
  intros Hm Hh Hf. refine (along_bind _ _ _ _ Hm _). intros [a|e]; [apply Hf|].
  refine (along_bind _ _ _ _ (Hh e) _). intros ?. apply along_ret, _.
Qed.
End steps.
End relations.

(** Proves that a relation holds along a computation from what is known of its parts. *)
Create HintDb holds discriminated.
#[export] Hint Constants Opaque : holds.
#[export] Hint Resolve holds_node holds_clock holds_outside holds_exec holds_pf holds_risk holds_Apply holds_data
  holds_missing_positions holds_missing_orders : holds.
#[export] Hint Extern 0 (NodeRelation _) => apply _ : holds.
#[export] Hint Extern 1 (along _ _ (mret _)) => apply along_ret; apply _ : holds.
#[export] Hint Extern 1 (along _ _ (change_node _)) => apply holds_books; [apply _ | by intros] : holds.
#[export] Hint Extern 2 (along _ _ (change_node _)) => refine (holds_release _ _) : holds.
#[export] Hint Extern 1 (along _ _ (reconcilerFor _)) => apply holds_books; [apply _ | by intros] : holds.
Ltac holds :=
  repeat match goal with
  | |- along _ _ (mbind _ _) => refine (along_bind _ _ _ _ _ _); [|intros ?]
  | |- along _ _ (attempt_run _ _) => refine (along_attempt _ _ _ _ _ _); [|intros ?]
  | |- along _ _ (or_else _ _ _) => refine (holds_or_else _ _ _ _ _ _ _); [|intros ?|intros ?]
  | |- along _ _ (run_each _ _) => refine (along_each _ _ _ _ _); intros ?
  | |- along _ _ (ignore _) => unfold ignore
  | |- along _ _ (match ?x with _ => _ end) => destruct x
  | |- along _ _ (let x := ?v in _) => cbv zeta
  end; eauto with nocore holds.

Section node.
Context {DD : Decimal} {W : Type} (now : W -> time) (ctx_done : W -> bool) {NR : NodeRanges (W := W)}.
Notation Node := (Node (W := W)).
Notation ND := (ND (W := W)).
Notation NodeCalls := (NodeCalls (W := W)).
Notation state := (Node * W)%type.
Implicit Types (self : NodeCalls) (n : Node) (w : W) (s : state).

(** ** The methods *)

Section methods.
Context (R : relation state) {HR : NodeRelation R} self.
#[local] Instance methods_po : PreOrder R := nr_po.
#[local] Instance methods_follows : Follows R nowhere := follows_nowhere R.
Notation holds := (along R nowhere).
Context (HS : forall order, holds (call_SubmitOrder self order)) (HC : forall cancel, holds (call_CancelOrder self cancel))
  (HD : holds (call_drain self)).
#[local] Hint Resolve HS HC HD : holds.

Lemma holds_publish topic message : holds (publish topic message).
Proof. unfold publish. holds. Qed.
#[local] Hint Resolve holds_publish : holds.
Lemma holds_publish_execution event : holds (publish_execution event).
Proof. unfold publish_execution. holds. Qed.
#[local] Hint Resolve holds_publish_execution : holds.
Lemma holds_children parent : holds (releaseHeldChildren self parent).
Proof. unfold releaseHeldChildren. holds. Qed.
Lemma holds_sibling filled id : holds (cancel_sibling self filled id).
Proof. unfold cancel_sibling. holds. Qed.
#[local] Hint Resolve holds_children holds_sibling : holds.
Lemma holds_siblings filled : holds (Node_cancelOcoSiblings self filled).
Proof. unfold Node_cancelOcoSiblings. holds. Qed.
#[local] Hint Resolve holds_siblings : holds.
Lemma holds_progress order : holds (handleOrderListProgress self order).
Proof. unfold handleOrderListProgress. holds. Qed.
#[local] Hint Resolve holds_progress : holds.
Lemma holds_fill_progress fill : holds (fill_progress self fill).
Proof. unfold fill_progress. holds. Qed.
#[local] Hint Resolve holds_fill_progress : holds.
Lemma holds_apply event : holds (applyAndPublish self event).
Proof. unfold applyAndPublish. holds. Qed.
Lemma holds_lifecycle lifecycle : holds (publishOrderLifecycle lifecycle).
Proof. unfold publishOrderLifecycle. holds. Qed.
#[local] Hint Resolve holds_apply holds_lifecycle : holds.
Lemma holds_rejected a lifecycle : holds (publish_rejected a lifecycle).
Proof. unfold publish_rejected. holds. Qed.
#[local] Hint Resolve holds_rejected : holds.
Lemma holds_denied order cause : holds (publishOrderDenied order cause).
Proof. unfold publishOrderDenied. holds. Qed.
Lemma holds_modify_rejected modify previous report cause : holds (publishOrderModifyRejected modify previous report cause).
Proof. unfold publishOrderModifyRejected. holds. Qed.
Lemma holds_cancel_rejected cancel previous report cause : holds (publishOrderCancelRejected cancel previous report cause).
Proof. unfold publishOrderCancelRejected. holds. Qed.
#[local] Hint Resolve holds_denied holds_modify_rejected holds_cancel_rejected : holds.
Lemma holds_restore_modify existing modify cause : holds (restoreAndRejectModify self existing modify cause).
Proof. unfold restoreAndRejectModify. holds. Qed.
Lemma holds_restore_cancel existing cancel cause : holds (restoreAndRejectCancel self existing cancel cause).
Proof. unfold restoreAndRejectCancel. holds. Qed.
Lemma holds_engine_event event : holds (applyExecutionEngineEvent self event).
Proof. unfold applyExecutionEngineEvent. holds. Qed.
#[local] Hint Resolve holds_restore_modify holds_restore_cancel holds_engine_event : holds.
Lemma holds_drain : holds (drainExecutionEngineEvents self).
Proof. unfold drainExecutionEngineEvents. holds. Qed.
Lemma holds_risk_check check order : holds (risk_check now check order).
Proof. unfold risk_check. holds. Qed.
#[local] Hint Resolve holds_drain holds_risk_check : holds.
Lemma holds_ModifyOrder modify : holds (Node_ModifyOrder now self modify).
Proof. unfold Node_ModifyOrder. cbv zeta. holds. Qed.
Lemma holds_CancelOrder cancel : holds (Node_CancelOrder now self cancel).
Proof. unfold Node_CancelOrder. cbv zeta. holds. Qed.
#[local] Hint Resolve holds_CancelOrder : holds.
Lemma holds_cancel_batched cancels : holds (cancel_batched now self cancels).
Proof. induction cancels; simpl; holds. Qed.
#[local] Hint Resolve holds_cancel_batched : holds.
Lemma holds_BatchCancelOrders batch : holds (Node_BatchCancelOrders now self batch).
Proof. unfold Node_BatchCancelOrders. holds. Qed.
#[local] Hint Resolve holds_BatchCancelOrders : holds.
Lemma holds_CancelAllOrders cancelAll : holds (Node_CancelAllOrders now self cancelAll).
Proof. unfold Node_CancelAllOrders. holds. Qed.
Lemma holds_query_venue query : holds (query_venue self query).
Proof. unfold query_venue. holds. Qed.
#[local] Hint Resolve holds_query_venue : holds.
Lemma holds_QueryOrder query : holds (Node_QueryOrder self query).
Proof. unfold Node_QueryOrder. holds. Qed.
Lemma holds_QueryAccount query : holds (Node_QueryAccount self query).
Proof. unfold Node_QueryAccount. holds. Qed.
Lemma holds_RequestData request : holds (Node_RequestData request).
Proof. unfold Node_RequestData. holds. apply holds_data; [apply _|]. apply leaves_request. Qed.
Lemma holds_reconcileInstrument client i : holds (reconcileInstrument now self client i).
Proof.
  unfold reconcileInstrument, reconcile_fills, reconcile_positions, apply_each. holds.
Qed.
#[local] Hint Resolve holds_reconcileInstrument : holds.
Lemma holds_reconcile client : holds (reconcileExecution now self client).
Proof. unfold reconcileExecution. holds. Qed.
#[local] Hint Resolve holds_reconcile : holds.
Lemma holds_recover client : holds (recoverExecutionStream now self client).
Proof. unfold recoverExecutionStream. holds. Qed.
#[local] Hint Resolve holds_recover : holds.
Lemma holds_retry operation : holds operation -> holds (retryReconnect ctx_done operation).
Proof.
  intros H. unfold retryReconnect. holds. generalize (attempts (nd_reconnectPolicy a)). intros k.
  induction k as [|k IH]; simpl; holds; intros [n w]; unfold Node_waitReconnectBackoff; by apply nr_books.
Qed.
Lemma holds_start_execution client : holds (start_execution now self client).
Proof. unfold start_execution. holds. Qed.
End methods.

(** ** Runs *)

Section runs.
Context (R : relation state) {HR : NodeRelation R}.
#[local] Instance runs_po : PreOrder R := nr_po.
#[local] Instance runs_follows : Follows R nowhere := follows_nowhere R.
Notation holds := (along R nowhere).
Definition calls_hold self : Prop :=
  (forall order, holds (call_SubmitOrder self order)) /\ (forall cancel, holds (call_CancelOrder self cancel)) /\ holds (call_drain self).

Context (Hsubmit : forall self, calls_hold self -> forall order, holds (Node_SubmitOrder now self order))
  (Hrelease : forall a cl, holds (releaseOrderEmulationSubscriptions a cl)) (Hrecord : forall err, holds (recordError err)).

Lemma holds_calls depth : calls_hold (node_calls now depth).
Proof.
  induction depth as [|depth IH]; [by split_and!; intros; apply along_stuck|]. pose proof IH as (HS & HC & HD).
  split_and!; intros; [by apply Hsubmit|by apply holds_CancelOrder|by apply holds_drain].
Qed.

Lemma holds_submit_listed self orders : calls_hold self -> holds (submit_listed now self orders).
Proof. intros H. pose proof (Hsubmit _ H). induction orders; simpl; holds. Qed.
Lemma holds_recorded (m : ND (res unit)) : holds m -> holds (recorded m).
Proof. intros H. unfold recorded. holds. Qed.

(** The operations whose methods only take the steps of a [NodeRelation]. *)
Definition plain_op (op : NodeOp (W := W)) : bool :=
  match op with OpSubmitList _ | OpStart | OpStop | OpSubscribe _ | OpUnsubscribe _ => false | _ => true end.

Lemma holds_market self message : calls_hold self -> holds (forwardMarketDataToExecution_step self message).
Proof.
  intros (HS & HC & HD). unfold forwardMarketDataToExecution_step. destruct message; holds. apply holds_recorded.
  unfold processMarketEventForExecution, released_report. holds;
    first [by apply holds_drain | by apply holds_apply | by apply holds_lifecycle].
Qed.
Lemma holds_forward self client events input : calls_hold self -> holds (forwardEvents_step now ctx_done self client events input).
Proof.
  intros (HS & HC & HD). unfold forwardEvents_step. holds;
    first [apply holds_recorded; by apply holds_apply | apply holds_retry; [done|by apply holds_recover] | intros [? ?]; by apply nr_books].
Qed.

Lemma holds_AddDataClient source : holds (AddDataClient source).
Proof.
  intros [n w]. unfold AddDataClient, DataEngine.AddClient. apply nr_books. unfold with_data, data_of, same_books. cbv zeta. fields.
  by destruct (on_data_cache _), (dc_Streaming source).
Qed.
Lemma holds_AddExecutionClient client : holds (AddExecutionClient client).
Proof.
  unfold AddExecutionClient. holds. apply holds_books; [done|]. intros n. cbv zeta. by destruct (negb _).
Qed.
Lemma holds_plain depth op : plain_op op = true -> holds (run_op now ctx_done depth op).
Proof.
  pose proof (holds_calls depth) as Hc. pose proof Hc as (HS & HC & HD).
  destruct op; intros Hop; try discriminate Hop; unfold run_op, dropped; cbv zeta; holds;
    first [apply holds_AddDataClient | apply holds_AddExecutionClient | by apply holds_RequestData | by apply holds_ModifyOrder
      | by apply holds_CancelOrder | by apply holds_BatchCancelOrders | by apply holds_CancelAllOrders | by apply holds_QueryOrder
      | by apply holds_QueryAccount | by apply holds_forward | by apply holds_market
      | apply holds_data; [done|apply leaves_forward]
      | solve [unfold Node_SetTimer, Node_CancelTimer; holds]
      | apply holds_recorded; by apply holds_publish
      | intros [? ?]; by apply nr_books].
Qed.
End runs.

(** ** Relations that do not look at the data of emulated orders *)

Definition same_core n n' : Prop :=
  nd_heldChildren n' = nd_heldChildren n /\ nd_orderListMembers n' = nd_orderListMembers n /\
  nd_component n' = nd_component n /\ nd_ready n' = nd_ready n.

Section core.
Context (R : relation state) {HR : NodeRelation R} (Hcore : forall n w n' w', same_core n n' -> R (n, w) (n', w')).
#[local] Instance core_po : PreOrder R := nr_po.
#[local] Instance core_follows : Follows R nowhere := follows_nowhere R.
Notation holds := (along R nowhere).

Lemma holds_core f : (forall n, same_core n (f n)) -> holds (change_node f).
Proof. intros H [n w]. by apply Hcore. Qed.
Lemma holds_any_data {A} (m : DE A) : holds (on_data m).
Proof.
  intros [n w]. unfold on_data. destruct (m _) as [[e w'] a]. apply Hcore. unfold with_data, same_core. cbv zeta. fields.
  by destruct (on_data_cache _).
Qed.
#[local] Hint Resolve holds_any_data : holds.
#[local] Hint Extern 2 (along _ _ (change_node _)) => apply holds_core; by intros : holds.

Lemma holds_retain sub : holds (retainEmulationSubscription sub).
Proof. unfold retainEmulationSubscription. holds. Qed.
Lemma holds_release_sub sub : holds (releaseEmulationSubscription sub).
Proof. unfold releaseEmulationSubscription. holds. Qed.
#[local] Hint Resolve holds_retain holds_release_sub : holds.
Lemma holds_release_subs subs : holds (releaseEmulationSubscriptions subs).
Proof. unfold releaseEmulationSubscriptions. holds. induction subs; simpl; holds. Qed.
#[local] Hint Resolve holds_release_subs : holds.
Lemma holds_retain_subs order : holds (retainEmulationSubscriptions order).
Proof.
  unfold retainEmulationSubscriptions. holds. generalize (@nil SubscribeMarketData).
  induction (emulationTriggerSubscriptions order) as [|sub subs IH]; intros l; simpl; holds.
Qed.
Lemma holds_track order subs : holds (trackOrderEmulationSubscriptions order subs).
Proof. unfold trackOrderEmulationSubscriptions. holds. Qed.
Lemma holds_release_order a cl : holds (releaseOrderEmulationSubscriptions a cl).
Proof. unfold releaseOrderEmulationSubscriptions. holds. Qed.
#[local] Hint Resolve holds_retain_subs holds_track : holds.

Lemma holds_SubmitOrder self : calls_hold R self -> forall order, holds (Node_SubmitOrder now self order).
Proof.
  intros (HS & HC & HD) order. pose proof (holds_risk_check R) as Hr. pose proof (holds_denied R) as Hn.
  pose proof (holds_lifecycle R) as Hl. pose proof (holds_apply R self HS HC) as Ha. pose proof (holds_drain R self HS HC HD) as Hd.
  unfold Node_SubmitOrder. cbv zeta. holds.
Qed.
End core.
End node.
