(* ===== verification/NodeEmulation.v ===== *)
(** * Market data of emulated orders (platform/node.go)

    The node counts what holds each subscription of its data engine for emulated orders.  Whatever
    it does, an order that it tracks keeps its share of the counts, and what is counted is
    subscribed, as long as the user does not unsubscribe it. *)
From stdpp Require Import base gmap sets list strings.
From S2P Require Import Prelude Partial Decimals Enums Identifiers Orders Market Accounts OrderLists Indicators Cache Kernel.
From S2P Require Import Reconciler Risk ExecManager Emulator ExecEngine Portfolio TradingAccount DataEngine BacktestRuntime.
From S2P Require Import NodeReports Node NodeOrders NodeLife NodeInvariants.

Open Scope go_scope.

(** ** Subscriptions of the data engine *)

Section data.
Context {DD : Decimal} {W : Type}.
Implicit Types (e : DataEngine (W := W)) (w : W) (sub : SubscribeMarketData).

(** Subscribing adds one; unsubscribing removes no other. *)
Lemma Subscribe_subs sub e w k e' w' r :
  Subscribe sub (e, w) = ((e', w'), r) ->
  (is_Some (de_subscriptions e !! k) -> is_Some (de_subscriptions e' !! k)) /\
  (r = Ok tt -> is_Some (de_subscriptions e' !! Key sub)).
Proof.
  unfold Subscribe, attempt, DataEngine.recorded, DataEngine.recordError, DataEngine.call, change, engine, pass, mbind, St_bind, mret, St_ret.
  destruct (SubscribeMarketData_Validate sub) as [[]|err]; [|simpl; by intros [= <- <- <-]].
  simpl. destruct (de_subscriptions e !! Key sub) eqn:E; [simpl; intros [= <- <- <-]; by rewrite E|].
  destruct (de_streaming e !! _) as [streaming|]; [|cbn; by intros [= <- <- <-]].
  simpl. destruct (de_running e); simpl.
  - destruct (sc_SubscribeMarketData streaming w sub) as [w1 [[]|err]]; simpl; intros [= <- <- <-]; simpl.
    + split; [|intros _; by rewrite lookup_insert_eq]. intros [x Hx]. rewrite lookup_insert. case_decide; eauto.
    + split; [|done]. intros [x Hx]. rewrite lookup_delete_ne, lookup_insert_ne by congruence. by exists x.
  - intros [= <- <- <-]. simpl. split; [|intros _; by rewrite lookup_insert_eq].
    intros [x Hx]. rewrite lookup_insert. case_decide; eauto.
Qed.
Lemma Unsubscribe_subs sub e w k :
  k <> Key sub -> de_subscriptions (Unsubscribe sub (e, w)).1.1 !! k = de_subscriptions e !! k.
Proof.
  intros Hk. unfold Unsubscribe, attempt, DataEngine.recorded, DataEngine.recordError, DataEngine.call, change, engine, pass, mbind, St_bind, mret, St_ret.
  destruct (SubscribeMarketData_Validate sub) as [[]|err]; [|done].
  simpl. destruct (de_subscriptions e !! Key sub) eqn:E; [|done]. simpl.
  destruct (de_running e); simpl; [|by rewrite lookup_delete_ne].
  destruct (de_streaming e !! id_Venue (sm_InstrumentID sub)) as [streaming|]; simpl; [|by rewrite lookup_delete_ne].
  destruct (sc_UnsubscribeMarketData streaming w sub) as [w' [[]|err]]; simpl; by rewrite lookup_delete_ne.
Qed.
End data.

(** ** Shares and counts *)

(** How often a subscription is among some, and among those tracked for the orders. *)
Definition occ (k : subscriptionKey) (subs : list SubscribeMarketData) : Z :=
  Z.of_nat (length (filter (fun sub => Key sub = k) subs)).
Definition need (m : gmap parentOrderKey (list SubscribeMarketData)) (k : subscriptionKey) : Z :=
  map_fold (fun _ subs z => (occ k subs + z)%Z) 0%Z m.

Lemma occ_app k l1 l2 : occ k (l1 ++ l2) = (occ k l1 + occ k l2)%Z.
Proof. unfold occ. rewrite filter_app, length_app. lia. Qed.
Lemma occ_cons k sub subs : occ k (sub :: subs) = ((if decide (Key sub = k) then 1 else 0) + occ k subs)%Z.
Proof. unfold occ. rewrite filter_cons. destruct (decide _); simpl; lia. Qed.
Lemma occ_pos k subs : (0 <= occ k subs)%Z.
Proof. unfold occ. lia. Qed.

Lemma need_delete m i k : need m k = (occ k (default [] (m !! i)) + need (delete i m) k)%Z.
Proof.
  destruct (m !! i) as [subs|] eqn:E; simpl; [|by rewrite delete_id].
  unfold need. rewrite (map_fold_delete_L _ _ i subs m); [done| |done]. intros. lia.
Qed.
Lemma need_insert m i subs k : need (<[i:=subs]> m) k = (occ k subs + need (delete i m) k)%Z.
Proof. by rewrite (need_delete _ i), lookup_insert_eq, delete_insert_eq. Qed.
Lemma occ_elem sub subs : sub ∈ subs -> (1 <= occ (Key sub) subs)%Z.
Proof.
  intros (l1 & l2 & ->)%list_elem_of_split. rewrite occ_app, occ_cons, decide_True by done.
  pose proof (occ_pos (Key sub) l1). pose proof (occ_pos (Key sub) l2). lia.
Qed.
Lemma need_pos m k : (0 <= need m k)%Z.
Proof.
  unfold need. apply (map_fold_weak_ind (fun z _ => (0 <= z)%Z)); [done|]. intros i subs rest z _ H. pose proof (occ_pos k subs). lia.
Qed.
Lemma need_empty k : need ∅ k = 0%Z.
Proof. done. Qed.

Section emulation.
Context {DD : Decimal} {W : Type} (now : W -> time) (ctx_done : W -> bool) {NR : NodeRanges (W := W)}.
Notation Node := (Node (W := W)).
Notation ND := (ND (W := W)).
Notation NodeCalls := (NodeCalls (W := W)).
Notation state := (Node * W)%type.
Implicit Types (self : NodeCalls) (n : Node) (w : W) (k : subscriptionKey) (sub : SubscribeMarketData) (s : state).

Definition held n k : Z := default 0%Z (nd_emulationDataSubs n !! k).
Definition slack n k : Z := (held n k - need (nd_emulationOrderSubs n) k)%Z.
(** What is counted is subscribed. *)
Definition fed n : Prop := forall k, (0 < held n k)%Z -> is_Some (de_subscriptions (nd_dataEngine n) !! k).

(** The slack of each subscription grows by at least [d]. *)
Definition gain (d : subscriptionKey -> Z) : relation state := fun s s' =>
  (forall k, (slack s.1 k + d k <= slack s'.1 k)%Z) /\ (fed s.1 -> fed s'.1).
Definition steady : relation state := gain (fun _ => 0%Z).
#[global] Instance steady_po : PreOrder steady.
Proof.
  split; [split; [intros k; lia|done]|]. intros s1 s2 s3 [H12 F12] [H23 F23].
  split; [|auto]. intros k. specialize (H12 k). specialize (H23 k). lia.
Qed.

#[global] Instance steady_relation : NodeRelation steady.
Proof.
  split; [apply _| |].
  - intros n w n' w' (_ & _ & H1 & H2 & H3 & _). unfold steady, gain, slack, fed, held. simpl. rewrite H1, H2, H3.
    split; [intros; lia|done].
  - intros n w key. split; [intros; simpl; unfold slack, held; simpl; lia|done].
Qed.
Notation steadily := (along steady nowhere).

(** ** Holding and releasing *)

Definition one sub k : Z := if decide (Key sub = k) then 1%Z else 0%Z.
Definition gains {A} (m : ND A) (d : A -> subscriptionKey -> Z) : Prop :=
  forall s s' a, m s = Some (s', a) -> gain (d a) s s'.

Lemma steadily_gains {A} (m : ND A) : steadily m <-> gains m (fun _ _ => 0%Z).
Proof.
  split.
  - intros H s s' a E. exact (along_some H E).
  - intros H s. destruct (m s) as [[s' a]|] eqn:E; [exact (H _ _ _ E) | by intros []].
Qed.
Lemma gain_trans d1 d2 s1 s2 s3 : gain d1 s1 s2 -> gain d2 s2 s3 -> gain (fun k => (d1 k + d2 k)%Z) s1 s3.
Proof.
  intros [H12 F12] [H23 F23]. split; [|auto]. intros k. specialize (H12 k). specialize (H23 k). lia.
Qed.
Lemma gain_weaken d d' s s' : (forall k, (d' k <= d k)%Z) -> gain d s s' -> gain d' s s'.
Proof. intros Hd [H F]. split; [|done]. intros k. specialize (H k). specialize (Hd k). lia. Qed.
Lemma gains_bind {A B} (m : ND A) (f : A -> ND B) d (d' : B -> subscriptionKey -> Z) :
  gains m d -> (forall a, gains (f a) (fun b k => (d' b k - d a k)%Z)) -> gains (m ≫= f) d'.
Proof.
  intros Hm Hf s s' b. unfold mbind, Run_bind. destruct (m s) as [[s1 a]|] eqn:E; [|done]. intros E2.
  eapply gain_weaken; [|exact (gain_trans _ _ _ _ _ (Hm _ _ _ E) (Hf _ _ _ _ E2))]. intros k. simpl. lia.
Qed.

Lemma with_data_fields n e : nd_emulationDataSubs (with_data n e) = nd_emulationDataSubs n /\
  nd_emulationOrderSubs (with_data n e) = nd_emulationOrderSubs n /\
  de_subscriptions (nd_dataEngine (with_data n e)) = de_subscriptions e.
Proof. unfold with_data. cbv zeta. fields. by destruct (on_data_cache _). Qed.
Lemma data_of_subscriptions n : de_subscriptions (data_of n) = de_subscriptions (nd_dataEngine n).
Proof. unfold data_of. fields. by destruct (on_data_cache _). Qed.

(** What a step does to the counts, read off its counts and subscriptions. *)
Lemma gain_intro d n w n' w' :
  nd_emulationOrderSubs n' = nd_emulationOrderSubs n ->
  (forall k, (held n k + d k <= held n' k)%Z) ->
  (forall k, (0 < held n' k)%Z -> is_Some (de_subscriptions (nd_dataEngine n') !! k) \/
     (0 < held n k)%Z /\ (is_Some (de_subscriptions (nd_dataEngine n) !! k) -> is_Some (de_subscriptions (nd_dataEngine n') !! k))) ->
  gain d (n, w) (n', w').
Proof.
  intros Ho Hh Hs. split; unfold slack; simpl.
  - intros k. rewrite Ho. specialize (Hh k). lia.
  - intros F k Hk. destruct (Hs k Hk) as [H|[H1 H2]]; auto.
Qed.

Lemma gains_retain sub :
  gains (retainEmulationSubscription sub) (fun r k => match r with Ok _ => one sub k | Fail _ => 0%Z end).
Proof.
  intros [n w] [n' w'] r. unfold retainEmulationSubscription, node, change_node, modify_state, or_else, mbind, Run_bind, mret, Run_ret.
  cbn [fst snd]. fold (held n (Key sub)). destruct (Z.ltb_spec 0 (held n (Key sub))) as [Hp|Hp].
  - intros [= <- <- <-]. apply gain_intro; [done|..]; intros k; unfold held, one in *; simpl.
    + rewrite lookup_insert. repeat case_decide; simplify_eq; simpl; lia.
    + rewrite lookup_insert. case_decide; simplify_eq; simpl; intros Hk; by right.
  - unfold on_data. set (n1 := set _ _ _). destruct (Subscribe sub _) as [[e w1] r1] eqn:E.
    destruct (with_data_fields n1 e) as (D1 & D2 & D3).
    pose proof (fun k => Subscribe_subs sub _ _ k _ _ _ E) as H. rewrite data_of_subscriptions in H.
    destruct r1 as [[]|err]; intros [= <- <- <-].
    + apply gain_intro; [by rewrite D2|..]; intros k; unfold held, one in *; rewrite ?D1, ?D3; simpl.
      * rewrite lookup_insert. repeat case_decide; simplify_eq; simpl; lia.
      * rewrite lookup_insert. case_decide as Ek; simpl; intros Hk.
        -- left. subst k. by apply (H (Key sub)).
        -- right. split; [done|apply (H k)].
    + apply gain_intro; unfold held; simpl; [by rewrite D2|..]; intros k; rewrite D1; simpl;
        rewrite delete_insert_eq, lookup_delete; case_decide; simplify_eq; simpl; [unfold held in Hp; lia|lia|lia|].
      intros Hk. right. rewrite D3. split; [done|apply (H k)].
Qed.

Lemma gains_release sub : gains (releaseEmulationSubscription sub) (fun _ k => (- one sub k)%Z).
Proof.
  intros [n w] [n' w'] r. unfold releaseEmulationSubscription, node, change_node, modify_state, mbind, Run_bind, mret, Run_ret.
  cbn [fst snd]. fold (held n (Key sub)). destruct (Z.ltb_spec 1 (held n (Key sub))) as [Hp|Hp].
  - intros [= <- <- <-]. apply gain_intro; [done|..]; intros k; unfold held, one in *; simpl;
      rewrite lookup_insert; repeat case_decide; simplify_eq; simpl; try lia; intros Hk; right; split; auto; lia.
  - set (n1 := set _ _ _). assert (Hone : gain (fun k => (- one sub k)%Z) (n, w) (n1, w)).
    { apply gain_intro; [done|..]; intros k; unfold n1, held, one in *; simpl; rewrite lookup_delete;
        repeat case_decide; simplify_eq; simpl; try lia; intros Hk; right; split; auto; lia. }
    destruct (nd_activeDataSubs n !! Key sub); [by intros [= <- <- <-]|]. unfold on_data.
    pose proof (fun k => Unsubscribe_subs sub (data_of n1) w k) as H.
    destruct (Unsubscribe sub _) as [[e w1] r1]. intros [= <- <- <-]. simpl in H. rewrite data_of_subscriptions in H.
    destruct (with_data_fields n1 e) as (D1 & D2 & D3).
    eapply gain_weaken; [|refine (gain_trans _ (fun _ => 0%Z) _ _ _ Hone _)]; [intros; simpl; lia|].
    apply gain_intro; [by rewrite D2|..]; intros k; unfold held; rewrite ?D1, ?D3; [lia|].
    intros Hk. right. split; [done|]. rewrite H; [done|]. intros ->. unfold n1 in Hk. simpl in Hk. rewrite lookup_delete_eq in Hk. simpl in Hk. lia.
Qed.

(** A computation that gives back at most [subs]. *)
Definition owes {A} (subs : list SubscribeMarketData) (m : ND A) : Prop := gains m (fun _ k => (- occ k subs)%Z).

Lemma gains_ret {A} (a : A) d : (forall k, (d a k <= 0)%Z) -> gains (mret a) d.
Proof. intros H s s' b [= <- <-]. split; [|done]. intros k. specialize (H k). lia. Qed.
Lemma gains_weaken {A} (m : ND A) d d' : (forall a k, (d' a k <= d a k)%Z) -> gains m d -> gains m d'.
Proof. intros H Hm s s' a E. by eapply gain_weaken, Hm. Qed.
Lemma steadily_weaken {A} (m : ND A) d : (forall a k, (d a k <= 0)%Z) -> steadily m -> gains m d.
Proof. intros H Hm. apply (gains_weaken m (fun _ _ => 0%Z)); [done|]. by apply steadily_gains. Qed.

Lemma owes_steadily {A} subs (m : ND A) : steadily m -> owes subs m.
Proof. apply steadily_weaken. intros _ k. pose proof (occ_pos k subs). lia. Qed.
(** First a steady step, or the payment and then steady steps. *)
Lemma owes_later {A B} subs (m : ND A) (f : A -> ND B) : steadily m -> (forall a, owes subs (f a)) -> owes subs (m ≫= f).
Proof.
  intros Hm Hf. eapply gains_bind; [by apply steadily_gains, Hm|]. intros a. eapply gains_weaken; [|apply Hf].
  intros b k. simpl. lia.
Qed.
Lemma owes_now {A B} subs (m : ND A) (f : A -> ND B) : owes subs m -> (forall a, steadily (f a)) -> owes subs (m ≫= f).
Proof.
  intros Hm Hf. eapply gains_bind; [apply Hm|]. intros a. apply steadily_weaken; [|apply Hf]. intros b k. simpl. lia.
Qed.
Lemma owes_or_else {A B} subs (m : ND (res A)) h (f : A -> ND (res B)) :
  steadily m -> (forall e, owes subs (h e)) -> (forall a, owes subs (f a)) -> owes subs (or_else m h f).
Proof.
  intros Hm Hh Hf. apply owes_later; [done|]. intros [a|e]; [apply Hf|]. apply owes_now; [apply Hh|]. intros ?. apply along_ret, _.
Qed.

Lemma owes_release_each subs : owes subs (release_each subs).
Proof.
  induction subs as [|sub subs IH]; simpl.
  - apply gains_ret. intros k. pose proof (occ_pos k []). lia.
  - eapply gains_bind; [apply gains_release|]. intros r. eapply gains_bind; [apply IH|]. intros errs. apply gains_ret.
    intros k. simpl. rewrite occ_cons. unfold one. destruct (decide _); lia.
Qed.
Lemma owes_release subs : owes subs (releaseEmulationSubscriptions subs).
Proof. apply owes_now; [apply owes_release_each|]. intros ?. apply along_ret, _. Qed.
Lemma owes_ignore_release subs : owes subs (ignore (releaseEmulationSubscriptions subs)).
Proof. apply owes_now; [apply owes_release|]. intros ?. apply along_ret, _. Qed.

Lemma gains_retain_each subs : forall held,
  gains (retain_each held subs) (fun r k => match r with Ok _ => occ k subs | Fail _ => (- occ k held)%Z end).
Proof.
  induction subs as [|sub subs IH]; intros held; simpl; [apply gains_ret; intros k; unfold occ; simpl; lia|].
  eapply gains_bind; [apply gains_retain|]. intros [[]|err].
  - eapply gains_weaken; [|apply IH]. intros [[]|err] k; simpl; unfold one; rewrite ?occ_app, occ_cons.
    + destruct (decide _); lia.
    + destruct (decide _); unfold occ; simpl; lia.
  - eapply gains_bind; [apply owes_ignore_release|]. intros ?. apply gains_ret. intros k. simpl. lia.
Qed.
Lemma gains_retain_all order :
  gains (retainEmulationSubscriptions order) (fun r k => match r with Ok subs => occ k subs | Fail _ => 0%Z end).
Proof.
  unfold retainEmulationSubscriptions. eapply gains_bind; [apply gains_retain_each|].
  intros [[]|err]; apply gains_ret; intros k; simpl; unfold occ; simpl; lia.
Qed.

Lemma owes_track order subs : owes subs (trackOrderEmulationSubscriptions order subs).
Proof.
  assert (H : owes subs (change_node (fun n => n <| nd_emulationOrderSubs :=
      <[(so_AccountID order, so_ClientOrderID order) := subs]> (nd_emulationOrderSubs n) |>))).
  { intros [n w] s' a [= <- <-]. split; [|done]. intros k. unfold slack, held. simpl.
    set (i := (_, _)). rewrite need_insert, (need_delete (nd_emulationOrderSubs n) i k).
    match goal with |- context [occ k (default [] ?x)] => pose proof (occ_pos k (default [] x)) end. lia. }
  destruct subs; [|exact H]. apply owes_steadily, along_ret, _.
Qed.

Lemma steadily_release_order a cl : steadily (releaseOrderEmulationSubscriptions a cl).
Proof.
  apply steadily_gains. intros [n w] s' r E. unfold releaseOrderEmulationSubscriptions, node, change_node, modify_state, mbind, Run_bind in E.
  cbn [fst snd] in E. set (subs := default [] (nd_emulationOrderSubs n !! (a, cl))) in E. set (n1 := set _ _ n) in E.
  eapply gain_weaken; [|refine (gain_trans (fun k => occ k subs) (fun k => (- occ k subs)%Z) _ (n1, w) _ _ _)]; [intros k; simpl; lia| |exact (owes_release subs _ _ _ E)].
  split; [|done]. intros k. unfold n1, slack, held. simpl.
  assert (need (nd_emulationOrderSubs n) k = (occ k subs + need (delete (a, cl) (nd_emulationOrderSubs n)) k)%Z) by apply need_delete.
  lia.
Qed.

(** ** The methods *)

Lemma steadily_SubmitOrder self : calls_hold steady self -> forall order, steadily (Node_SubmitOrder now self order).
Proof.
  intros (HS & HC & HD) order. pose proof (holds_risk_check now steady) as Hr. pose proof (holds_denied steady) as Hn.
  pose proof (holds_lifecycle steady) as Hl. pose proof (holds_apply steady self HS HC) as Ha.
  pose proof (holds_drain steady self HS HC HD) as Hd.
  unfold Node_SubmitOrder. cbv zeta.
  do 2 (refine (holds_or_else _ _ _ _ _ _ _); [holds|intros ?; holds|intros _]). apply steadily_gains.
  eapply gains_bind; [apply gains_retain_all|]. intros [subs|err]; [|apply gains_ret; intros; lia].
  apply (gains_weaken _ (fun _ k => (- occ k subs)%Z)); [intros; lia|].
  apply owes_later; [holds|]. intros _.
  apply owes_or_else; [apply Hl|intros _; apply owes_ignore_release|]. intros _.
  apply owes_or_else; [holds| |].
  { intros err. apply owes_now; [apply owes_ignore_release|]. intros _. holds. }
  intros report. apply owes_or_else; [apply Ha|intros _; apply owes_ignore_release|]. intros _.
  apply owes_or_else; [done|intros _; apply owes_ignore_release|]. intros _.
  destruct (bool_decide _).
  - apply owes_now; [apply owes_track|]. intros _. holds.
  - apply owes_now; [apply owes_ignore_release|]. intros _. holds.
Qed.

(** The node's own books but for those of emulated orders. *)
Lemma steadily_other f :
  (forall n, nd_emulationDataSubs (f n) = nd_emulationDataSubs n /\ nd_emulationOrderSubs (f n) = nd_emulationOrderSubs n /\
     de_subscriptions (nd_dataEngine (f n)) = de_subscriptions (nd_dataEngine n)) -> steadily (change_node f).
Proof.
  intros H [n w]. destruct (H n) as (H1 & H2 & H3). unfold steady, gain, slack, fed, held. simpl. rewrite H1, H2, H3.
  split; [intros; lia|done].
Qed.
Lemma steadily_record err : steadily (recordError err).
Proof. by apply steadily_other. Qed.
Lemma steadily_Subscribe sub : steadily (on_data (Subscribe sub)).
Proof.
  apply steadily_gains. intros [n w] s' r. unfold on_data.
  destruct (Subscribe sub _) as [[e w1] r1] eqn:E. intros [= <- <-]. destruct (with_data_fields n e) as (D1 & D2 & D3).
  pose proof (fun k => proj1 (Subscribe_subs sub _ _ k _ _ _ E)) as H. rewrite data_of_subscriptions in H.
  apply gain_intro; [done|..]; intros k; unfold held; rewrite ?D1, ?D3; [lia|]. intros Hk. right. auto.
Qed.
Lemma steadily_SubscribeMarketData sub : steadily (Node_SubscribeMarketData sub).
Proof.
  unfold Node_SubscribeMarketData. destruct (SubscribeMarketData_Validate sub); holds; [apply steadily_Subscribe|].
  apply steadily_other. intros n. cbv zeta. by destruct (streamingDataClient _ _).
Qed.
Lemma steadily_index l : steadily (change_node (Node_indexOrderList l)).
Proof.
  apply steadily_other. intros n. unfold Node_indexOrderList. revert n.
  induction (ol_Orders l) as [|order orders IH]; intros n; [done|]. simpl.
  destruct (IH (index_order l n order)) as (-> & -> & ->). unfold index_order. cbv zeta. by destruct (bool_decide _).
Qed.

Lemma steadily_SubmitOrderList self l : calls_hold steady self -> steadily (Node_SubmitOrderList now self l).
Proof.
  intros H. pose proof (holds_risk_check now steady) as Hr. pose proof (holds_denied steady) as Hn.
  unfold Node_SubmitOrderList, check_listed. cbv zeta. holds; [apply steadily_index|].
  exact (holds_submit_listed now steady steadily_SubmitOrder self _ H).
Qed.

Lemma steadily_start_data : steadily node_start_data.
Proof. unfold node_start_data. holds. apply holds_data; [apply _|apply leaves_start]. Qed.
Lemma steadily_stop_data : steadily node_stop_data.
Proof. unfold node_stop_data. holds. apply holds_data; [apply _|apply leaves_stop]. Qed.
Lemma steadily_component (f : Component -> Component) : steadily (change_node (fun n => n <| nd_component := f (nd_component n) |>)).
Proof. by apply steadily_other. Qed.
Lemma steadily_start_component : steadily start_component.
Proof. intros [n w]. unfold start_component. destruct (Kernel.Start _ _) as [c r]. apply (steadily_component (fun _ => c) (n, w)). Qed.
Lemma steadily_stop_component : steadily stop_component.
Proof. intros [n w]. unfold stop_component. destruct (Kernel.Stop _ _) as [c r]. apply (steadily_component (fun _ => c) (n, w)). Qed.
Lemma steadily_ready ready : steadily (set_ready ready).
Proof. by apply steadily_other. Qed.
Lemma steadily_fault err : steadily (fault_component err).
Proof. by apply steadily_other. Qed.

Lemma steadily_abort r d err : steadily (abort_start r d err).
Proof.
  unfold abort_start. holds; first [apply steadily_stop_data | apply steadily_record | apply steadily_fault | apply steadily_ready].
Qed.
Lemma steadily_or_abort r d m rest : steadily m -> steadily rest -> steadily (or_abort r d m rest).
Proof. intros Hm Hk. unfold or_abort. holds. apply steadily_abort. Qed.
Lemma steadily_Start self : calls_hold steady self -> steadily (Node_Start now self).
Proof.
  intros (HS & HC & HD). unfold Node_Start. refine (along_bind _ _ _ _ _ _); [by apply steadily_other|]. intros _.
  refine (along_bind _ _ _ _ _ _); [holds|]. intros n. cbv zeta.
  apply steadily_or_abort; [holds|]. apply steadily_or_abort; [apply steadily_start_data|].
  apply steadily_or_abort; [holds; exact (holds_start_execution now steady self HS HC x)|].
  refine (along_bind _ _ _ _ _ _); [apply steadily_ready|]. intros _. apply steadily_or_abort; [apply steadily_start_component|holds].
Qed.
Lemma steadily_disconnect clients : steadily (disconnect_each clients).
Proof. induction clients; simpl; holds. Qed.
Lemma steadily_Stop : steadily Node_Stop.
Proof.
  unfold Node_Stop, stop_risk. holds; first [apply steadily_disconnect | apply steadily_stop_data | apply steadily_ready
    | apply steadily_record | apply steadily_fault | apply steadily_stop_component].
Qed.

(** ** Every run *)

Definition keeps_data (op : NodeOp (W := W)) : bool := match op with OpUnsubscribe _ => false | _ => true end.

Lemma steady_step s s' : node_step now ctx_done keeps_data s s' -> steady s s'.
Proof.
  intros [depth op s1 s2 Hop E|n w w']; [|split; [intros; simpl; unfold slack, held; lia|done]].
  refine (along_some _ E). clear E.
  pose proof (holds_calls now steady steadily_SubmitOrder depth) as Hc.
  destruct (plain_op op) eqn:P.
  { exact (holds_plain now ctx_done steady steadily_SubmitOrder steadily_release_order steadily_record depth op P). }
  destruct op; try discriminate Hop; try discriminate P; unfold run_op, dropped; cbv zeta; holds;
    first [exact (steadily_SubmitOrderList _ _ Hc) | exact (steadily_Start _ Hc) | apply steadily_Stop | apply steadily_SubscribeMarketData].
Qed.

End emulation.
