(* ===== verification/NodeLifeFacts.v ===== *)
(** * The life cycle of the platform node

    What [Start] and [Stop] leave behind, and what no run undoes. *)
From stdpp Require Import base gmap sets list strings relations.
From S2P Require Import Prelude Partial Decimals Enums Identifiers Orders Market Accounts OrderLists Indicators Cache Kernel.
From S2P Require Import Reconciler Risk ExecManager Emulator ExecEngine Portfolio TradingAccount DataEngine BacktestRuntime.
From S2P Require Import NodeReports Node NodeOrders NodeLife NodeInvariants.

Open Scope go_scope.

Section life.
Context {DD : Decimal} {W : Type} (now : W -> time) (ctx_done : W -> bool) {NR : NodeRanges (W := W)}.
Notation Node := (Node (W := W)).
Notation ND := (ND (W := W)).
Notation NodeCalls := (NodeCalls (W := W)).
Notation state := (Node * W)%type.
Implicit Types (self : NodeCalls) (n : Node) (w : W) (s : state).

Definition node_state n : ComponentState := kc_state (nd_component n).
Definition faulty n : Prop := node_state n = ComponentStateFaulted.
(** A ready node runs. *)
Definition sound n : Prop := nd_ready n = true -> node_state n = ComponentStateRunning \/ node_state n = ComponentStateDegraded.

(** ** Commands do not touch the component *)

Definition same_life : relation state := fun s s' =>
  nd_component s'.1 = nd_component s.1 /\ nd_ready s'.1 = nd_ready s.1.
#[global] Instance same_life_relation : NodeRelation same_life.
Proof.
  split; [|by intros n w n' w' (_ & _ & _ & _ & _ & H1 & H2)|done].
  split; [done|]. intros s1 s2 s3 [H1 H2] [H3 H4]. split; congruence.
Qed.
#[global] Instance same_life_po : PreOrder same_life := nr_po.
Lemma same_life_core n w n' w' : same_core n n' -> same_life (n, w) (n', w').
Proof. by intros (_ & _ & H1 & H2). Qed.
Lemma calls_same_life depth : calls_hold same_life (node_calls now depth).
Proof. exact (holds_calls now same_life (holds_SubmitOrder now same_life same_life_core) depth). Qed.

(** Steps of the life cycle keep a faulty node faulty and a sound one sound. *)
Definition ages : relation state := fun s s' => (faulty s.1 -> faulty s'.1) /\ (sound s.1 -> sound s'.1).
#[global] Instance ages_po : PreOrder ages.
Proof. split; [by intros s|]. intros s1 s2 s3 [H1 H2] [H3 H4]. split; auto. Qed.
Lemma same_life_ages s s' : same_life s s' -> ages s s'.
Proof. intros [H1 H2]. unfold ages, faulty, sound, node_state. by rewrite H1, H2. Qed.
#[global] Instance ages_relation : NodeRelation ages.
Proof.
  split; [apply _| |].
  - intros n w n' w' H. apply same_life_ages. by apply (nr_books (R := same_life)).
  - intros n w key. by apply same_life_ages.
Qed.
Lemma ages_core n w n' w' : same_core n n' -> ages (n, w) (n', w').
Proof. intros H. by apply same_life_ages, same_life_core. Qed.
Lemma ages_record err : along ages nowhere (recordError err).
Proof.
  intros [n w]. unfold ages, faulty, sound, node_state. simpl. unfold Degrade. fields.
  destruct (decide (kc_state (nd_component n) = ComponentStateFaulted)) as [E|E]; simpl.
  - rewrite E, bool_decide_true by done. simpl. rewrite E. by split.
  - rewrite bool_decide_false by done. simpl. split; [by intros ?|by intros _ _; right].
Qed.

(** ** The end of [Start] and of [Stop] *)

(** What a failure leaves. *)
Definition broken err s : Prop := nd_ready s.1 = false /\ faulty s.1 /\ nd_lastError s.1 = Some err.

Lemma abort_breaks r d err s s' a : abort_start r d err s = Some (s', a) -> exists err', a = Fail err' /\ broken err' s'.
Proof.
  unfold abort_start, mbind, Run_bind.
  do 2 (match goal with |- match ?x with _ => _ end = _ -> _ => destruct x as [[? ?]|]; [|done] end). intros [= <- <-]. eexists. split; [done|]. by split_and!.
Qed.
Lemma or_abort_spec r d m rest s s' a : or_abort r d m rest s = Some (s', a) ->
  (exists s1, m s = Some (s1, Ok tt) /\ rest s1 = Some (s', a)) \/ (exists err, a = Fail err /\ broken err s').
Proof.
  unfold or_abort, mbind, Run_bind. destruct (m s) as [[s1 [[]|err]]|] eqn:E; [eauto| |done].
  intros H. right. by eapply abort_breaks.
Qed.

Lemma start_data_life : along same_life nowhere node_start_data.
Proof. unfold node_start_data. holds. apply (holds_any_data same_life same_life_core). Qed.

Lemma Start_outcome depth n w s' r : Node_Start now (node_calls now depth) (n, w) = Some (s', r) ->
  match r with
  | Ok _ => nd_ready s'.1 = true /\ node_state s'.1 = ComponentStateRunning /\ ~ faulty n
  | Fail err => broken err s'
  end.
Proof.
  destruct (calls_same_life depth) as (HS & HC & HD).
  unfold Node_Start, change_node, modify_state, node, mbind, Run_bind. cbn [fst snd]. set (n1 := set _ _ _).
  intros [(s1 & E1 & E)|(err & -> & H)]%or_abort_spec; [|done].
  revert E. intros [(s2 & E2 & E)|(err & -> & H)]%or_abort_spec; [|done].
  revert E. intros [(s3 & E3 & E)|(err & -> & H)]%or_abort_spec; [|done].
  assert (H1 : same_life (n1, w) s1) by (refine (along_some _ E1); holds).
  assert (H2 : same_life s1 s2) by exact (along_some start_data_life E2).
  assert (H3 : same_life s2 s3).
  { refine (along_some _ E3). holds. exact (holds_start_execution now same_life _ HS HC x). }
  assert (Hc : nd_component s3.1 = nd_component n) by (etrans; [exact (proj1 H3)|]; etrans; [exact (proj1 H2)|]; exact (proj1 H1)).
  destruct s3 as [n3 w3]. unfold set_ready, change_node, modify_state, mbind, Run_bind in E. cbn [fst snd] in E. simpl in Hc.
  revert E. intros [(s4 & E4 & E)|(err & -> & H)]%or_abort_spec; [|done]. injection E as <- <-.
  unfold start_component in E4. fields. rewrite Hc in E4. unfold Kernel.Start, start_begin in E4.
  destruct (decide (kc_state (nd_component n) = ComponentStateFaulted)) as [Ef|Ef].
  - rewrite bool_decide_true in E4 by done. discriminate E4.
  - rewrite bool_decide_false in E4 by done. injection E4 as <-. by split_and!.
Qed.

Lemma Stop_outcome n w s' r : Node_Stop (n, w) = Some (s', r) ->
  nd_ready s'.1 = false /\ match r with Ok _ => node_state s'.1 = ComponentStateStopped /\ ~ faulty n | Fail _ => faulty s'.1 end.
Proof.
  unfold Node_Stop, change_node, modify_state, node. unfold mbind at 1 2 3, Run_bind at 1 2 3. cbn [fst snd]. set (n1 := set _ _ _).
  assert (Hd : forall clients, along same_life nowhere (disconnect_each clients)) by (induction clients; simpl; holds).
  unfold mbind at 1, Run_bind at 1. destruct (disconnect_each _ _) as [[s1 errs]|] eqn:E1; [|done].
  unfold mbind at 1, Run_bind at 1. destruct (node_stop_data s1) as [[s2 rd]|] eqn:E2; [|done].
  unfold mbind at 1, Run_bind at 1. destruct (stop_risk s2) as [[s3 rr]|] eqn:E3; [|done].
  assert (H1 : same_life (n1, w) s1) by exact (along_some (Hd _) E1).
  assert (H2 : same_life s1 s2).
  { refine (along_some _ E2). unfold node_stop_data. holds. apply (holds_any_data same_life same_life_core). }
  assert (H3 : same_life s2 s3) by (refine (along_some _ E3); unfold stop_risk; holds).
  assert (Hc : nd_component s3.1 = nd_component n) by (etrans; [exact (proj1 H3)|]; etrans; [exact (proj1 H2)|]; exact (proj1 H1)).
  destruct s3 as [n3 w3]. simpl in Hc. unfold set_ready, change_node, modify_state, mbind, Run_bind. cbn [fst snd].
  destruct (join_error _) as [err|].
  - intros [= <- <-]. by split.
  - unfold stop_component. fields. rewrite Hc. unfold Kernel.Stop, stop_begin, faulty, node_state.
    destruct (decide (kc_state (nd_component n) = ComponentStateFaulted)) as [Ef|Ef].
    + rewrite bool_decide_true by done. intros [= <- <-]. by simpl.
    + rewrite bool_decide_false by done. intros [= <- <-]. by simpl.
Qed.

(** ** Runs *)

Lemma index_life l n w : same_life (n, w) (Node_indexOrderList l n, w).
Proof.
  unfold Node_indexOrderList. revert n. induction (ol_Orders l) as [|order orders IH]; intros n; [done|].
  cbn [foldl]. etrans; [|apply IH]. unfold index_order. cbv zeta.
  destruct (bool_decide (so_ParentClientOrderID order = "")); by split.
Qed.

Definition any_op (op : NodeOp (W := W)) : bool := true.

Lemma ages_SubmitOrder self : calls_hold ages self -> forall order, along ages nowhere (Node_SubmitOrder now self order).
Proof. apply (holds_SubmitOrder now ages ages_core). Qed.

Lemma ages_step s s' : node_step now ctx_done any_op s s' -> ages s s'.
Proof.
  intros [depth op s1 s2 _ E|n w w']; [|done].
  pose proof (holds_calls now ages ages_SubmitOrder depth) as Hc.
  destruct (plain_op op) eqn:P.
  { refine (along_some _ E).
    exact (holds_plain now ctx_done ages ages_SubmitOrder (holds_release_order ages ages_core) ages_record depth op P). }
  assert (Hcore : forall f, (forall n, same_core n (f n)) -> along ages nowhere (change_node f)) by apply (holds_core ages ages_core).
  destruct op; try discriminate P; cbn [run_op] in E; unfold dropped in E.
  - refine (along_some _ E). unfold Node_SubscribeMarketData. holds; [apply (holds_any_data ages ages_core)|].
    apply Hcore. intros n. cbv zeta. by destruct (streamingDataClient _ _).
  - refine (along_some _ E). unfold Node_UnsubscribeMarketData. holds. apply (holds_any_data ages ages_core).
  - refine (along_some _ E). unfold Node_SubmitOrderList, check_listed. cbv zeta.
    pose proof (holds_risk_check now ages) as Hr. pose proof (holds_denied ages) as Hn. holds.
    + intros [n w]. apply same_life_ages, index_life.
    + exact (holds_submit_listed now ages ages_SubmitOrder _ _ Hc).
  - unfold mbind, Run_bind in E. destruct (Node_Start _ _ _) as [[s3 r]|] eqn:Es; [|done]. injection E as <-.
    destruct s1 as [n w]. apply Start_outcome in Es. unfold ages, sound, faulty. destruct r.
    + destruct Es as (H1 & H2 & H3). split; [done|]. intros _ _. by left.
    + destruct Es as (H1 & H2 & _). split; [done|]. by rewrite H1.
  - unfold mbind, Run_bind in E. destruct (Node_Stop _) as [[s3 r]|] eqn:Es; [|done]. injection E as <-.
    destruct s1 as [n w]. apply Stop_outcome in Es as [H1 H2]. unfold ages, sound. rewrite H1. split; [|done].
    destruct r; [by intros ?; destruct H2|done].
Qed.

(** C7: the life cycle of a node.  A node reports itself ready only while it runs or is degraded,
    whatever happened to it.  [Start] either makes it ready and running, or leaves it not ready, faulted
    and with the error it returns; and a fault is final: nothing that happens later ends it, so that every
    later [Start] and every later [Stop] fails. *)
Theorem node_life c risk pf dataEngine execEngine catalog staleAfter policy wiring w0 s :
  rtc (node_step now ctx_done any_op) (NewNode c risk pf dataEngine execEngine catalog staleAfter policy wiring, w0) s ->
  sound s.1 /\
  (forall depth s' r, Node_Start now (node_calls now depth) s = Some (s', r) ->
     match r with
     | Ok _ => nd_ready s'.1 = true /\ node_state s'.1 = ComponentStateRunning
     | Fail err => nd_ready s'.1 = false /\ faulty s'.1 /\ nd_lastError s'.1 = Some err
     end) /\
  (faulty s.1 -> forall s', rtc (node_step now ctx_done any_op) s s' ->
     faulty s'.1 /\ nd_ready s'.1 = false /\
     (forall depth s2 r, Node_Start now (node_calls now depth) s' = Some (s2, r) -> exists err, r = Fail err) /\
     (forall s2 r, Node_Stop s' = Some (s2, r) -> exists err, r = Fail err)).
Proof.
  assert (Hr : forall s1 s2, rtc (node_step now ctx_done any_op) s1 s2 -> ages s1 s2).
  { intros s1 s2 H. induction H as [|s1 s2 s3 H _ IH]; [done|]. etrans; [by apply ages_step|done]. }
  intros H. assert (Hs : sound s.1) by (apply (Hr _ _ H); by unfold sound). split; [done|]. split.
  - intros depth s' r E. destruct s as [n w]. apply Start_outcome in E. destruct r; [|done]. by destruct E as (? & ? & _).
  - intros Hf s' H'. destruct (Hr _ _ H') as [Hf' Hs']. specialize (Hf' Hf). specialize (Hs' Hs). destruct s' as [n' w'].
    split_and!; [done| | |].
    + destruct (nd_ready n') eqn:Er; [|done]. simpl in *. unfold faulty in Hf'. destruct (Hs' Er) as [E|E]; congruence.
    + intros depth s2 [[]|err] E; [|by eexists]. apply Start_outcome in E. by destruct E as (_ & _ & []).
    + intros s2 [[]|err] E; [|by eexists]. apply Stop_outcome in E. by destruct E as (_ & _ & []).
Qed.
End life.
