(* ===== verification/NodeTermination.v ===== *)
(** * Calls of the platform node return

    Every method of the node is monotone in the calls it is given, so what returns with some depth of
    [node_calls] returns the same with any larger one.  And submitting returns: a filled order
    makes the node submit the children held for it and cancel its siblings, from inside
    the call that brought the fill, and so on.  The chain ends: every link hands held children out
    for good, and a cancel starts no chain unless the venue answers it with a fill. *)
From stdpp Require Import base gmap sets list strings relations.
From S2P Require Import Prelude Decimals Enums Identifiers Orders Market Accounts OrderLists Cache Reconciler Kernel Risk ExecManager Emulator.
From S2P Require Import ExecEngine Portfolio Partial TradingAccount DataEngine Indicators BacktestRuntime NodeReports Node NodeOrders NodeLife NodeFacts.

Open Scope go_scope.

Section fuel.
Context {DD : Decimal} {W : Type} (now : W -> time) (ctx_done : W -> bool) {NR : NodeRanges (W := W)}.
Notation ND := (ND (W := W)).
Notation NodeCalls := (NodeCalls (W := W)).

Lemma or_else_le {A B} (m m' : ND (res A)) (h h' : error -> ND unit) (f f' : A -> ND (res B)) :
  m ⊑ m' -> (forall e, h e ⊑ h' e) -> (forall a, f a ⊑ f' a) -> or_else m h f ⊑ or_else m' h' f'.
Proof. intros Hm Hh Hf. apply bind_le; [done|]. intros [a|e]; [apply Hf|]. apply bind_le; [apply Hh | reflexivity]. Qed.

Record node_calls_le (self self' : NodeCalls) : Prop := {
  le_SubmitOrder order : call_SubmitOrder self order ⊑ call_SubmitOrder self' order;
  le_CancelOrder cancel : call_CancelOrder self cancel ⊑ call_CancelOrder self' cancel;
  le_drain : call_drain self ⊑ call_drain self';
}.
#[local] Hint Resolve le_SubmitOrder le_CancelOrder le_drain : run_le.

#[local] Hint Transparent Node.ND : run_le.

(** [run_le] with the rule for [or_else]. *)
Ltac node_le :=
  repeat match goal with
  | |- ?m ⊑ ?m' => constr_eq m m'; reflexivity
  | |- mbind _ _ ⊑ mbind _ _ => apply bind_le; [|intros ?]
  | |- attempt_run _ _ ⊑ attempt_run _ _ => apply attempt_run_le; [|intros ?]
  | |- or_else _ _ _ ⊑ or_else _ _ _ => apply or_else_le; [|intros ?|intros ?]
  | |- run_each _ _ ⊑ run_each _ _ => apply run_each_le; intros ?
  | |- ignore _ ⊑ ignore _ => apply bind_le; [|intros ?]
  | |- recorded _ ⊑ recorded _ => apply bind_le; [|intros ?]
  | |- (match ?x with _ => _ end) ⊑ (match ?x with _ => _ end) => destruct x
  | |- (let x := ?v in _) ⊑ _ => cbv zeta
  end; eauto with nocore run_le.

Section monotone.
Context (self self' : NodeCalls) (Hle : node_calls_le self self').

Lemma children_le parent : releaseHeldChildren self parent ⊑ releaseHeldChildren self' parent.
Proof. unfold releaseHeldChildren. node_le. Qed.
Lemma siblings_le filled : Node_cancelOcoSiblings self filled ⊑ Node_cancelOcoSiblings self' filled.
Proof. unfold Node_cancelOcoSiblings, cancel_sibling. node_le. Qed.
#[local] Hint Resolve children_le siblings_le : run_le.
Lemma progress_le order : handleOrderListProgress self order ⊑ handleOrderListProgress self' order.
Proof. unfold handleOrderListProgress. node_le. Qed.
#[local] Hint Resolve progress_le : run_le.
Lemma applyAndPublish_le event : applyAndPublish self event ⊑ applyAndPublish self' event.
Proof. unfold applyAndPublish, fill_progress. node_le. Qed.
#[local] Hint Resolve applyAndPublish_le : run_le.
Lemma restore_modify_le existing modify cause :
  restoreAndRejectModify self existing modify cause ⊑ restoreAndRejectModify self' existing modify cause.
Proof. unfold restoreAndRejectModify. node_le. Qed.
Lemma restore_cancel_le existing cancel cause :
  restoreAndRejectCancel self existing cancel cause ⊑ restoreAndRejectCancel self' existing cancel cause.
Proof. unfold restoreAndRejectCancel. node_le. Qed.
Lemma drain_le : drainExecutionEngineEvents self ⊑ drainExecutionEngineEvents self'.
Proof. unfold drainExecutionEngineEvents, applyExecutionEngineEvent. node_le. Qed.
#[local] Hint Resolve restore_modify_le restore_cancel_le drain_le : run_le.
Lemma NodeSubmitOrder_le order : Node_SubmitOrder now self order ⊑ Node_SubmitOrder now self' order.
Proof. unfold Node_SubmitOrder. node_le. Qed.
Lemma NodeModifyOrder_le modify : Node_ModifyOrder now self modify ⊑ Node_ModifyOrder now self' modify.
Proof. unfold Node_ModifyOrder. node_le. Qed.
Lemma NodeCancelOrder_le cancel : Node_CancelOrder now self cancel ⊑ Node_CancelOrder now self' cancel.
Proof. unfold Node_CancelOrder. node_le. Qed.
#[local] Hint Resolve NodeSubmitOrder_le NodeModifyOrder_le NodeCancelOrder_le : run_le.
Lemma submit_listed_le orders : submit_listed now self orders ⊑ submit_listed now self' orders.
Proof. induction orders; simpl; node_le. Qed.
Lemma cancel_batched_le cancels : cancel_batched now self cancels ⊑ cancel_batched now self' cancels.
Proof. induction cancels; simpl; node_le. Qed.
#[local] Hint Resolve submit_listed_le cancel_batched_le : run_le.
Lemma SubmitOrderList_le l : Node_SubmitOrderList now self l ⊑ Node_SubmitOrderList now self' l.
Proof. unfold Node_SubmitOrderList. node_le. Qed.
Lemma NodeBatchCancel_le batch : Node_BatchCancelOrders now self batch ⊑ Node_BatchCancelOrders now self' batch.
Proof. unfold Node_BatchCancelOrders. node_le. Qed.
#[local] Hint Resolve NodeBatchCancel_le : run_le.
Lemma NodeCancelAll_le cancelAll : Node_CancelAllOrders now self cancelAll ⊑ Node_CancelAllOrders now self' cancelAll.
Proof. unfold Node_CancelAllOrders. node_le. Qed.
Lemma NodeQueryOrder_le query : Node_QueryOrder self query ⊑ Node_QueryOrder self' query.
Proof. unfold Node_QueryOrder, query_venue. node_le. Qed.
Lemma NodeQueryAccount_le query : Node_QueryAccount self query ⊑ Node_QueryAccount self' query.
Proof. unfold Node_QueryAccount. node_le. Qed.
Lemma reconcile_le client : reconcileExecution now self client ⊑ reconcileExecution now self' client.
Proof. unfold reconcileExecution, reconcileInstrument, reconcile_fills, reconcile_positions, apply_each. node_le. Qed.
#[local] Hint Resolve reconcile_le : run_le.
Lemma retry_le operation operation' : operation ⊑ operation' -> retryReconnect ctx_done operation ⊑ retryReconnect ctx_done operation'.
Proof. intros H. unfold retryReconnect. node_le. induction (attempts _); simpl; node_le. Qed.
Lemma forward_le client events input :
  forwardEvents_step now ctx_done self client events input ⊑ forwardEvents_step now ctx_done self' client events input.
Proof. unfold forwardEvents_step. node_le. apply retry_le. unfold recoverExecutionStream. node_le. Qed.
Lemma market_le message : forwardMarketDataToExecution_step self message ⊑ forwardMarketDataToExecution_step self' message.
Proof. unfold forwardMarketDataToExecution_step, processMarketEventForExecution, released_report. node_le. Qed.
Lemma or_abort_le r d m m' rest rest' : m ⊑ m' -> rest ⊑ rest' -> or_abort r d m rest ⊑ or_abort r d m' rest'.
Proof. intros Hm Hr. unfold or_abort. node_le. Qed.
Lemma NodeStart_le : Node_Start now self ⊑ Node_Start now self'.
Proof.
  unfold Node_Start. node_le. repeat (apply or_abort_le; node_le). unfold start_execution. node_le.
Qed.
End monotone.

Lemma node_calls_mono depth depth' : depth <= depth' -> node_calls_le (node_calls now depth) (node_calls now depth').
Proof.
  revert depth'. induction depth as [|depth IH]; intros depth' H; [split; intros; apply stuck_le|].
  destruct depth' as [|depth']; [lia|]. assert (Hle := IH depth' ltac:(lia)).
  split; intros; [by apply NodeSubmitOrder_le | by apply NodeCancelOrder_le | by apply drain_le].
Qed.

(** A result does not depend on the fuel: an operation of the node that returns with some depth of nested
    calls leads to the same state with any larger depth. *)
Theorem depth_irrelevant op depth depth' s s' : depth <= depth' ->
  run_op now ctx_done depth op s = Some (s', tt) -> run_op now ctx_done depth' op s = Some (s', tt).
Proof.
  intros H. pose proof (node_calls_mono depth depth' H) as Hle.
  assert (Hop : run_op now ctx_done depth op ⊑ run_op now ctx_done depth' op); [|apply Hop].
  destruct op; unfold run_op, dropped; cbv zeta; node_le;
    first [by apply NodeSubmitOrder_le | by apply SubmitOrderList_le | by apply NodeModifyOrder_le | by apply NodeCancelOrder_le
      | by apply NodeBatchCancel_le | by apply NodeCancelAll_le | by apply NodeQueryOrder_le | by apply NodeQueryAccount_le
      | by apply NodeStart_le | by apply forward_le | by apply market_le].
Qed.
End fuel.

(** ** What the engine sends and answers *)

Section engine.
Context {DD : Decimal} {W : Type}.
Implicit Types (e : ExecEngine.Engine (W := W)) (w : W).

(** A client that does not answer a cancel with a filled order. *)
Definition patient (client : Client (W := W)) : Prop :=
  forall w cancel w' report, cl_CancelOrder client w cancel = (w', Ok report) -> or_Status report <> OrderStatusFilled.
Definition only_lifecycles e : Prop := Forall (fun event => exists l, event = lifecycle_event l) (en_events e).

(** The clients stay, and only lifecycle events are sent. *)
Definition calm e e' : Prop := en_clients e' = en_clients e /\ (only_lifecycles e -> only_lifecycles e').
#[global] Instance calm_po : PreOrder calm.
Proof. split; [by intros e|]. intros e1 e2 e3 [H1 H2] [H3 H4]. split; [congruence|auto]. Qed.
Lemma calm_same e e' : en_clients e' = en_clients e -> en_events e' = en_events e -> calm e e'.
Proof. intros H1 H2. split; [done|]. unfold only_lifecycles. by rewrite H2. Qed.

Definition calmly {A} (m : ExecEngine.M (W := W) A) : Prop := forall e w, calm e (m (e, w)).1.1.

Lemma calmly_ret {A} (a : A) : calmly (mret a).
Proof. intros e w. reflexivity. Qed.
Lemma calmly_bind {A B} (m : ExecEngine.M A) (f : A -> ExecEngine.M B) :
  calmly m -> (forall a, calmly (f a)) -> calmly (mbind f m).
Proof.
  intros Hm Hf e w. unfold mbind, St_bind. specialize (Hm e w). destruct (m (e, w)) as [[e1 w1] a].
  etrans; [exact Hm | apply Hf].
Qed.
Lemma calmly_attempt {A B} (m : ExecEngine.M (res A)) (f : A -> ExecEngine.M (res B)) :
  calmly m -> (forall a, calmly (f a)) -> calmly (attempt m f).
Proof. intros Hm Hf. apply calmly_bind; [done|]. intros [a|err]; [apply Hf | apply calmly_ret]. Qed.
Lemma calmly_get : calmly ExecEngine.get.
Proof. intros e w. reflexivity. Qed.
Lemma calmly_call {A} (f : W -> W * A) : calmly (ExecEngine.call f).
Proof. intros e w. unfold ExecEngine.call. simpl. destruct (f w). reflexivity. Qed.
Lemma calmly_modify f : (forall e, calm e (f e)) -> calmly (modify_engine f).
Proof. intros H e w. apply H. Qed.
Lemma calmly_client a : calmly (client_for a).
Proof. intros e w. reflexivity. Qed.
Lemma calmly_algorithm id : calmly (algorithm_for id).
Proof. intros e w. reflexivity. Qed.
Lemma calmly_publish report kind previous reason : calmly (ExecEngine.publishOrderLifecycle report kind previous reason).
Proof.
  apply calmly_modify. intros e. split; [done|]. unfold only_lifecycles. simpl. intros H. apply Forall_app. split; [done|].
  constructor; [by eexists|constructor].
Qed.
Lemma calmly_report report : calmly (applyOrderReport report).
Proof. intros e w. unfold applyOrderReport. destruct (ApplyOrderReport _ _). by apply calm_same. Qed.
Lemma calmly_cache order : calmly (cacheSubmit order).
Proof. intros e w. unfold cacheSubmit. destruct (CacheSubmitCommand _ _). by apply calm_same. Qed.
Lemma calmly_emulate {A} (em : Emulator -> Emulator * A) (otherwise : A) : calmly (emulate em otherwise).
Proof. intros e w. unfold emulate. destruct (emulator_of e); [|reflexivity]. destruct (em _). by apply calm_same. Qed.
Lemma calmly_counts count : calmly (addSubmits count) /\ calmly (addCancels count).
Proof. split; apply calmly_modify; intros e; by apply calm_same. Qed.

Create HintDb calmly discriminated.
#[local] Hint Resolve calmly_ret calmly_get calmly_call calmly_client calmly_algorithm calmly_publish calmly_report
  calmly_cache calmly_emulate : calmly.
#[local] Hint Extern 1 (calmly (pass _)) => apply calmly_ret : calmly.
#[local] Hint Extern 1 (calmly (addSubmits _)) => apply calmly_counts : calmly.
#[local] Hint Extern 1 (calmly (addCancels _)) => apply calmly_counts : calmly.
Ltac calmly :=
  repeat match goal with
  | |- calmly (attempt _ _) => apply calmly_attempt; [|intros ?]
  | |- calmly (mbind _ _) => apply calmly_bind; [|intros ?]
  | |- calmly (match ?x with _ => _ end) => destruct x
  | |- calmly (book _ _) => unfold book
  end; auto with calmly.

Lemma calmly_submit_plain order : calmly (submit_plain order).
Proof. unfold submit_plain, submitOrderToAlgorithm. calmly. Qed.
Lemma calmly_SubmitOrder order : calmly (Engine_SubmitOrder order).
Proof.
  unfold Engine_SubmitOrder, submitOrderToEmulator, publish_release. pose proof calmly_submit_plain. calmly.
Qed.
Lemma calmly_CancelOrder cancel : calmly (Engine_CancelOrder cancel).
Proof. unfold Engine_CancelOrder, cancelEmulatedOrder. calmly. Qed.

(** What [Engine_CancelOrder] answers. *)
Lemma Emulator_cancel_status em cancel em' report :
  Emulator_CancelOrder em cancel = (em', true, Ok report) -> or_Status report = OrderStatusCanceled.
Proof.
  unfold Emulator_CancelOrder. destruct (CancelOrder_Validate cancel); [|done].
  destruct (emulatedOrderReport em cancel) as [r|]; [|done]. destruct (el_orders em !! _); [|done]. cbv zeta.
  destruct (report_all _ _) as [e1 [|]]; [|done]. by intros [= _ <-].
Qed.
Lemma calmly_cancelEmulated cancel : calmly (cancelEmulatedOrder (W := W) cancel).
Proof. unfold cancelEmulatedOrder. calmly. Qed.
Lemma cancelEmulated_status cancel s s' report :
  cancelEmulatedOrder (W := W) cancel s = (s', (true, Ok report)) -> or_Status report = OrderStatusCanceled.
Proof.
  destruct s as [e w]. unfold cancelEmulatedOrder, emulate, mbind, St_bind. destruct (emulator_of e) as [em|]; [|done].
  destruct (Emulator_CancelOrder em cancel) as [[em' []] [r|err]] eqn:E; simpl; try done.
  intros [= _ <-]. by eapply Emulator_cancel_status.
Qed.
Lemma book_returns report count s s' r : book (W := W) report count s = (s', Ok r) -> r = report.
Proof.
  unfold book, attempt, mbind, St_bind. destruct (applyOrderReport report s) as [s1 [[]|err]]; [|done].
  destruct (count s1) as [s2 []]. by intros [= _ <-].
Qed.

Lemma cancel_not_filled cancel s s' report : map_Forall (fun _ client => patient client) (en_clients s.1) ->
  Engine_CancelOrder cancel s = (s', Ok report) -> or_Status report <> OrderStatusFilled.
Proof.
  intros Hp. unfold Engine_CancelOrder, attempt, mbind, St_bind, pass, mret, St_ret.
  destruct (CancelOrder_Validate cancel); [|done]. destruct s as [e w]. simpl in Hp.
  pose proof (calmly_cancelEmulated cancel e w) as [Hc _].
  destruct (cancelEmulatedOrder cancel (e, w)) as [[e1 w1] [[] [r|err]]] eqn:E; try done; simpl in Hc.
  - intros [= _ <-]. by rewrite (cancelEmulated_status _ _ _ _ E).
  - unfold client_for. rewrite Hc. destruct (en_clients e !! co_AccountID cancel) as [client|] eqn:Ec; [|done].
    unfold ExecEngine.call. simpl. destruct (cl_CancelOrder client w1 cancel) as [w2 [r2|err]] eqn:Ev; [|done].
    intros ->%book_returns. by eapply (Hp _ _ Ec).
Qed.
End engine.

(** ** Convergence *)

Section converges.
Context {DD : Decimal} {W : Type} (now : W -> time) {NR : NodeRanges (W := W)}.
Notation Node := (Node (W := W)).
Notation ND := (ND (W := W)).
Notation NodeCalls := (NodeCalls (W := W)).
Notation state := (Node * W)%type.
Implicit Types (self : NodeCalls) (n : Node) (w : W) (s : state).

(** The children the node holds. *)
Definition children_held (m : gmap parentOrderKey (list SubmitOrder)) : nat :=
  map_fold (fun _ children z => length children + z) 0 m.

(** The venues are patient, nothing but lifecycle events waits, and at most [h] children are held. *)
Definition settled (h : nat) s : Prop :=
  map_Forall (fun _ client => patient client) (en_clients (nd_execEngine s.1)) /\ only_lifecycles (nd_execEngine s.1) /\
  children_held (nd_heldChildren s.1) <= h.

(** With enough fuel [m] returns [a] in [s']; from settled states it returns in settled ones. *)
Definition eventually {A} (m : NodeCalls -> ND A) s s' (a : A) : Prop :=
  exists enough, forall depth, enough <= depth -> m (node_calls now depth) s = Some (s', a).
Definition returns (h : nat) {A} (m : NodeCalls -> ND A) (Q : A -> Prop) : Prop :=
  forall s, settled h s -> exists s' a, eventually m s s' a /\ settled h s' /\ Q a.
Notation any := (fun _ => True).

Lemma returns_bind h {A B} (m : NodeCalls -> ND A) (f : A -> NodeCalls -> ND B) Q P :
  returns h m Q -> (forall a, Q a -> returns h (f a) P) -> returns h (fun self => a ← m self; f a self) P.
Proof.
  intros Hm Hf s Hs. destruct (Hm s Hs) as (s1 & a & [d1 E1] & H1 & Qa). destruct (Hf a Qa s1 H1) as (s2 & b & [d2 E2] & H2 & Pb).
  exists s2, b. split; [|done]. exists (d1 `max` d2). intros d Hd. unfold mbind, Run_bind. rewrite E1 by lia. apply E2. lia.
Qed.
Lemma returns_attempt h {A B} (m : NodeCalls -> ND (res A)) (f : A -> NodeCalls -> ND (res B)) (Q : A -> Prop) :
  returns h m (fun r => match r with Ok a => Q a | Fail _ => True end) -> (forall a, Q a -> returns h (f a) any) ->
  returns h (fun self => attempt_run (m self) (fun a => f a self)) any.
Proof.
  intros Hm Hf. apply (returns_bind h m (fun r self => match r with Ok a => f a self | Fail e => mret (Fail e) end) _ _ Hm).
  intros [a|e] Q'; [by apply Hf|]. intros s Hs. exists s, (Fail e). by split; [exists 0|].
Qed.
Lemma returns_or_else h {A B} (m : NodeCalls -> ND (res A)) (g : error -> NodeCalls -> ND unit) (f : A -> NodeCalls -> ND (res B)) (Q : A -> Prop) :
  returns h m (fun r => match r with Ok a => Q a | Fail _ => True end) -> (forall e, returns h (g e) any) ->
  (forall a, Q a -> returns h (f a) any) -> returns h (fun self => or_else (m self) (fun e => g e self) (fun a => f a self)) any.
Proof.
  intros Hm Hg Hf. apply (returns_bind h m (fun r self => match r with Ok a => f a self | Fail e => _ ← g e self; mret (Fail e) end) _ _ Hm).
  intros [a|e] Q'; [by apply Hf|]. apply (returns_bind h (g e) (fun _ _ => mret (Fail e)) _ _ (Hg e)).
  intros [] _ s Hs. exists s, (Fail e). by split; [exists 0|].
Qed.
Lemma returns_any h {A} (m : NodeCalls -> ND A) Q : returns h m Q -> returns h m any.
Proof. intros H s Hs. destruct (H s Hs) as (s' & a & E & Hs' & _). eauto. Qed.
Lemma returns_result h {A} (m : NodeCalls -> ND (res A)) : returns h m any -> returns h m (fun r => match r with Ok _ => True | Fail _ => True end).
Proof. intros H s Hs. destruct (H s Hs) as (s' & [] & E & Hs' & _); eexists _, _; by split. Qed.

(** ** Steps without calls *)

Definition tame {A} (m : ND A) : Prop := forall n w, exists n' w' a, m (n, w) = Some ((n', w'), a) /\
  calm (nd_execEngine n) (nd_execEngine n') /\ nd_heldChildren n' = nd_heldChildren n.

Lemma returns_tame h {A} (m : ND A) : tame m -> returns h (fun _ => m) any.
Proof.
  intros H [n w] (H1 & H2 & H3). destruct (H n w) as (n' & w' & a & E & [Hc Ho] & Hh). exists (n', w'), a.
  split; [by exists 0|]. split; [|done]. unfold settled. simpl in *. rewrite Hc, Hh. auto.
Qed.
Lemma tame_quiet {A} (m : ND A) : quiet m -> tame m.
Proof.
  intros H n w. destruct (H n w) as (n' & a & E & Hn). unfold only_published in Hn. destruct_and! Hn.
  exists n', w, a. split_and!; [done| |done]. apply calm_same; congruence.
Qed.
Lemma tame_ret {A} (a : A) : tame (mret a).
Proof. intros n w. by exists n, w, a. Qed.
Lemma tame_bind {A B} (m : ND A) (f : A -> ND B) : tame m -> (forall a, tame (f a)) -> tame (m ≫= f).
Proof.
  intros Hm Hf n w. destruct (Hm n w) as (n1 & w1 & a & E1 & C1 & H1). destruct (Hf a n1 w1) as (n2 & w2 & b & E2 & C2 & H2).
  exists n2, w2, b. split_and!; [|by etrans|congruence]. unfold mbind, Run_bind. by rewrite E1.
Qed.
Lemma tame_attempt {A B} (m : ND (res A)) (f : A -> ND (res B)) : tame m -> (forall a, tame (f a)) -> tame (attempt_run m f).
Proof. intros Hm Hf. apply tame_bind; [done|]. intros [a|e]; [apply Hf|apply tame_ret]. Qed.
Lemma tame_or_else {A B} (m : ND (res A)) g (f : A -> ND (res B)) :
  tame m -> (forall e, tame (g e)) -> (forall a, tame (f a)) -> tame (or_else m g f).
Proof.
  intros Hm Hg Hf. apply tame_bind; [done|]. intros [a|e]; [apply Hf|]. apply tame_bind; [apply Hg|]. intros _. apply tame_ret.
Qed.
Lemma tame_change f : (forall n, nd_execEngine (f n) = nd_execEngine n /\ nd_heldChildren (f n) = nd_heldChildren n) -> tame (change_node f).
Proof. intros H n w. destruct (H n) as [H1 H2]. exists (f n), w, tt. split_and!; [done|by rewrite H1|done]. Qed.
Lemma tame_exec {A} (m : ExecEngine.M A) : calmly m -> tame (on_exec m).
Proof.
  intros H n w. unfold on_exec. specialize (H (exec_of n) w). destruct (m _) as [[e w'] a]. exists (with_exec n e), w', a.
  assert (Hc : calm (nd_execEngine n) (exec_of n)) by (unfold exec_of; destruct (on_exec_cache _); [by apply calm_same|done]).
  split_and!; [done| |]; unfold with_exec; cbv zeta; fields; destruct (on_exec_cache _); simpl; try done; by etrans.
Qed.
Lemma tame_risk m : tame (on_risk m).
Proof.
  intros n w. unfold on_risk. destruct (risk_of n) as [e|]; [|by exists n, w, (Ok tt)]. destruct (m e) as [e' r].
  exists (with_risk n e'), w, r. unfold with_risk. cbv zeta. fields. by destruct (on_risk_cache _).
Qed.
Lemma tame_data {A} (m : DE A) : tame (on_data m).
Proof.
  intros n w. unfold on_data. destruct (m _) as [[e w'] a]. exists (with_data n e), w', a.
  unfold with_data. cbv zeta. fields. by destruct (on_data_cache _).
Qed.
Lemma tame_Apply event : tame (reconciler_Apply event).
Proof. intros n w. unfold reconciler_Apply. destruct (Apply _ _) as [c r]. by eexists _, w, r. Qed.

Create HintDb tame discriminated.
#[local] Hint Constants Opaque : tame.
#[local] Hint Resolve tame_ret tame_exec tame_risk tame_data tame_Apply : tame.
#[local] Hint Extern 1 (tame (change_node _)) => apply tame_change; by intros : tame.
#[local] Hint Extern 1 (tame node) => apply tame_quiet; intros ?n ?w; by eexists _, _ : tame.
Ltac tame :=
  repeat match goal with
  | |- tame (mbind _ _) => apply tame_bind; [|intros ?]
  | |- tame (attempt_run _ _) => apply tame_attempt; [|intros ?]
  | |- tame (or_else _ _ _) => apply tame_or_else; [|intros ?|intros ?]
  | |- tame (ignore _) => unfold ignore
  | |- tame (mret _) => apply tame_ret
  | |- tame (match ?x with _ => _ end) => destruct x
  | |- tame (let x := ?v in _) => cbv zeta
  end; eauto with nocore tame.

Lemma tame_lifecycle lifecycle : tame (publishOrderLifecycle lifecycle).
Proof. apply tame_quiet, quiet_lifecycle. Qed.
Lemma tame_denied order cause : tame (publishOrderDenied order cause).
Proof. apply tame_quiet, quiet_denied. Qed.
Lemma tame_publish event : tame (publish_execution event).
Proof. apply tame_quiet, node_quiet_publish. Qed.
Lemma tame_rejected a lifecycle : tame (publish_rejected a lifecycle).
Proof. apply tame_quiet, quiet_rejected. Qed.
Lemma tame_reconcilerFor a : tame (reconcilerFor a).
Proof. apply tame_quiet, quiet_reconcilerFor. Qed.
Lemma tame_clock : tame (wall_clock now).
Proof. apply tame_quiet, quiet_clock. Qed.
#[local] Hint Resolve tame_lifecycle tame_denied tame_publish tame_rejected tame_reconcilerFor tame_clock : tame.

Lemma tame_retain sub : tame (retainEmulationSubscription sub).
Proof. unfold retainEmulationSubscription. tame. Qed.
Lemma tame_release sub : tame (releaseEmulationSubscription sub).
Proof. unfold releaseEmulationSubscription. tame. Qed.
#[local] Hint Resolve tame_retain tame_release : tame.
Lemma tame_release_all subs : tame (releaseEmulationSubscriptions subs).
Proof. unfold releaseEmulationSubscriptions. tame. induction subs; simpl; tame. Qed.
#[local] Hint Resolve tame_release_all : tame.
Lemma tame_retain_all order : tame (retainEmulationSubscriptions order).
Proof.
  unfold retainEmulationSubscriptions. tame. generalize (@nil SubscribeMarketData).
  induction (emulationTriggerSubscriptions order) as [|sub subs IH]; intros l; simpl; tame.
Qed.
Lemma tame_track order subs : tame (trackOrderEmulationSubscriptions order subs).
Proof. unfold trackOrderEmulationSubscriptions. tame. Qed.
Lemma tame_risk_check check order : tame (risk_check now check order).
Proof. unfold risk_check. tame. Qed.

(** ** Applying what is not a fill *)

Lemma returns_ext h {A} (m m' : NodeCalls -> ND A) Q : (forall self s, m' self s = m self s) -> returns h m Q -> returns h m' Q.
Proof.
  intros H Hm s Hs. destruct (Hm s Hs) as (s' & a & [d E] & Hs' & Ha). exists s', a. split; [|done].
  exists d. intros d' Hd. rewrite H. by apply E.
Qed.

(** What the node does with a report or a lifecycle event before it looks at order lists. *)
Definition announce (event : ExecutionEvent) : ND (res unit) := try! _ := reconciler_Apply event in publish_execution event.
Lemma tame_announce event : tame (announce event).
Proof. unfold announce. tame. Qed.

Lemma apply_report_eq self report s : applyAndPublish self (order_event report) s =
  (try! _ := announce (order_event report) in handleOrderListProgress self report) s.
Proof.
  destruct s as [n w]. unfold applyAndPublish, announce, node, attempt_run, mbind, Run_bind, mret, Run_ret. cbn [ee_Fill ee_Order order_event].
  by destruct (reconciler_Apply _ _) as [[s1 [[]|err]]|].
Qed.
Lemma apply_lifecycle_eq self lifecycle s : applyAndPublish self (lifecycle_event lifecycle) s = announce (lifecycle_event lifecycle) s.
Proof.
  destruct s as [n w]. unfold applyAndPublish, announce, node, attempt_run, mbind, Run_bind, mret, Run_ret.
  cbn [ee_Fill ee_Order lifecycle_event]. destruct (reconciler_Apply _ _) as [[s1 [[]|err]]|]; [|done..].
  by destruct (publish_execution _ s1) as [[s2 [[]|err]]|].
Qed.

Lemma returns_unfilled h report : or_Status report <> OrderStatusFilled ->
  returns h (fun self => applyAndPublish self (order_event report)) any.
Proof.
  intros Hs. apply (returns_ext _ (fun _ => try! _ := announce (order_event report) in mret (Ok tt))).
  - intros self s. rewrite apply_report_eq. unfold handleOrderListProgress. by rewrite bool_decide_false.
  - apply returns_tame. pose proof (tame_announce (order_event report)). tame.
Qed.

(** ** Canceling *)

Lemma canceled_status report cancel existing : or_Status report <> OrderStatusFilled ->
  or_Status (fillCanceledReport report cancel existing) <> OrderStatusFilled.
Proof. intros H. unfold fillCanceledReport, complete, or_status. cbv zeta. fields. by destruct (bool_decide _). Qed.

Lemma returns_exec_cancel h cancel :
  returns h (fun _ => on_exec (Engine_CancelOrder cancel))
    (fun r => match r with Ok report => or_Status report <> OrderStatusFilled | Fail _ => True end).
Proof.
  intros s Hs. destruct (returns_tame h _ (tame_exec _ (calmly_CancelOrder cancel)) s Hs) as (s' & r & E & Hs' & _).
  exists s', r. split_and!; [done..|]. destruct r as [report|]; [|done]. destruct E as [d E]. specialize (E d (le_n d)).
  destruct s as [n w], Hs as (Hp & _). unfold on_exec in E.
  destruct (Engine_CancelOrder cancel (exec_of n, w)) as [[e w'] r] eqn:Ec. injection E as _ ->.
  refine (cancel_not_filled _ _ _ _ _ Ec). simpl in *. unfold exec_of. by destruct (on_exec_cache _).
Qed.

Lemma returns_CancelOrder h cancel : returns h (fun self => Node_CancelOrder now self cancel) any.
Proof.
  unfold Node_CancelOrder. cbv zeta.
  apply (returns_or_else h (fun _ => mret (CancelOrder_Validate cancel)) (fun e _ => _) (fun _ self => _) any).
  { apply returns_result, returns_tame. tame. }
  { intros e. apply returns_tame. unfold publishOrderCancelRejected. tame. }
  intros _ _. apply (returns_bind h (fun _ => node) (fun n self => _) any); [apply returns_tame; tame|]. intros n _.
  destruct (findCancelableOrder (nd_cache n) cancel) as [existing|].
  2: { apply returns_tame. unfold publishOrderCancelRejected. tame. }
  destruct (negb (OrderStatus_IsOpen (or_Status existing)) || bool_decide (or_Status existing = OrderStatusPendingCancel)).
  { apply returns_tame. unfold publishOrderCancelRejected. tame. }
  apply (returns_bind h (fun _ => reconcilerFor _) (fun _ self => _) any); [apply returns_tame; tame|]. intros _ _.
  apply (returns_bind h (fun _ => wall_clock now) (fun t self => _) any); [apply returns_tame; tame|]. intros t _.
  apply (returns_attempt h (fun self => applyAndPublish self _) (fun _ self => _) any).
  { by apply returns_result, returns_unfilled. }
  intros _ _. apply (returns_attempt h (fun _ => publishOrderLifecycle _) (fun _ self => _) any).
  { apply returns_result, returns_tame. tame. }
  intros _ _. apply (returns_or_else h (fun _ => on_exec _) (fun e self => _) (fun report self => _) _ (returns_exec_cancel h _)).
  - intros e. unfold ignore, restoreAndRejectCancel.
    apply (returns_bind h (fun self => attempt_run (applyAndPublish self _) (fun _ => _)) (fun _ self => _) any); [|intros; apply returns_tame; tame].
    apply (returns_attempt h (fun self => applyAndPublish self _) (fun _ self => _) any); [by apply returns_result, returns_unfilled|].
    intros _ _. apply returns_tame. unfold publishOrderCancelRejected. tame.
  - intros report Hr. apply (returns_attempt h (fun self => applyAndPublish self _) (fun _ self => _) any).
    { apply returns_result, returns_unfilled. by apply canceled_status. }
    intros _ _. apply returns_tame. tame.
Qed.

(** ** Held children *)

Lemma children_held_delete (m : gmap parentOrderKey (list SubmitOrder)) key :
  children_held m = length (default [] (m !! key)) + children_held (delete key m).
Proof.
  destruct (m !! key) as [children|] eqn:E; simpl; [|by rewrite delete_id].
  unfold children_held. rewrite (map_fold_delete_L _ _ key children m); [done| |done]. intros. lia.
Qed.

(** The fuel of a call is that of the caller less one. *)
Lemma returns_call h {A} (m : NodeCalls -> ND A) (call : NodeCalls -> ND A) Q :
  (forall depth, call (node_calls now (S depth)) = m (node_calls now depth)) -> returns h m Q -> returns h call Q.
Proof.
  intros Hc Hm s Hs. destruct (Hm s Hs) as (s' & a & [d E] & H). exists s', a. split; [|done].
  exists (S d). intros [|d'] Hd; [lia|]. rewrite Hc. apply E. lia.
Qed.
Lemma returns_each h {X} (f : NodeCalls -> X -> ND (res unit)) l :
  (forall x, returns h (fun self => f self x) any) -> returns h (fun self => run_each (f self) l) any.
Proof.
  intros Hf. induction l as [|x l IH]; simpl; [apply returns_tame; tame|].
  apply (returns_attempt h (fun self => f self x) (fun _ self => run_each (f self) l) any); [by apply returns_result|done].
Qed.
Lemma returns_value h {A} (m : NodeCalls -> ND A) : (forall s, settled h s -> exists s' a, eventually m s s' a /\ settled h s') -> returns h m any.
Proof. intros H s Hs. destruct (H s Hs) as (s' & a & E & Hs'). eauto. Qed.
Lemma settled_le h h' s : h' <= h -> settled h' s -> settled h s.
Proof. intros H (H1 & H2 & H3). split_and!; [done..|lia]. Qed.

Section released.
Context (h : nat).
Hypothesis IH : forall h' order, h' < h -> returns h' (fun self => Node_SubmitOrder now self order) any.

Lemma returns_child h' child : h' < h ->
  returns h' (fun self => try! _ := call_SubmitOrder self child in mret (Ok tt)) any.
Proof.
  intros Hh. apply (returns_attempt h' (fun self => call_SubmitOrder self child) (fun _ _ => mret (Ok tt)) any).
  - by apply returns_result, (returns_call h' (fun self => Node_SubmitOrder now self child)), IH.
  - intros _ _. apply returns_tame. tame.
Qed.

Lemma returns_released parent : returns h (fun self => releaseHeldChildren self parent) any.
Proof.
  apply returns_value. intros [n w] Hs. set (key := (or_AccountID parent, or_ClientOrderID parent) : parentOrderKey).
  set (children := default [] (nd_heldChildren n !! key)).
  set (n1 := n <| nd_heldChildren := delete key (nd_heldChildren n) |>).
  assert (Hn : forall self, releaseHeldChildren self parent (n, w) =
    run_each (fun child => try! _ := call_SubmitOrder self child in mret (Ok tt)) children (n1, w)) by done.
  destruct Hs as (Hp & Ho & Hh). simpl in Hh. pose proof (children_held_delete (nd_heldChildren n) key) as Hd. fold children in Hd.
  assert (Hs : settled (children_held (delete key (nd_heldChildren n))) (n1, w)) by by split_and!.
  assert (E : exists s' a, eventually (fun self => run_each (fun child => try! _ := call_SubmitOrder self child in mret (Ok tt)) children)
    (n1, w) s' a /\ settled h s').
  { clearbody children. destruct children as [|child children'].
    - exists (n1, w), (Ok tt). split; [by exists 0|]. eapply settled_le; [|exact Hs]. lia.
    - assert (Hlt : children_held (delete key (nd_heldChildren n)) < h) by (simpl in Hd; lia).
      destruct (returns_each _ (fun self child => try! _ := call_SubmitOrder self child in mret (Ok tt)) (child :: children')
        (fun x => returns_child _ x Hlt) _ Hs) as (s' & a & E & Hs' & _).
      exists s', a. split; [done|]. eapply settled_le; [|exact Hs']. lia. }
  destruct E as (s' & a & [d E] & Hs'). exists s', a. split; [|done]. exists d. intros d' Hd'. rewrite Hn. by apply E.
Qed.

Lemma returns_node h' {A} (f : Node -> NodeCalls -> ND A) :
  (forall n, returns h' (f n) any) -> returns h' (fun self => n ← node; f n self) any.
Proof. intros H. apply (returns_bind h' (fun _ => node) f any); [apply returns_tame; tame|]. intros n _. apply H. Qed.

Lemma returns_sibling filled id : returns h (fun self => cancel_sibling self filled id) any.
Proof.
  unfold cancel_sibling. destruct (_ || _); [apply returns_tame; tame|]. apply returns_node. intros n.
  destruct (OrderByClientID _ _ id) as [sibling|]; [|apply returns_tame; tame].
  destruct (OrderStatus_IsOpen _); [|apply returns_tame; tame].
  apply (returns_attempt h (fun self => call_CancelOrder self (cancel_of sibling)) (fun _ _ => mret (Ok tt)) any).
  - by apply returns_result, (returns_call h (fun self => Node_CancelOrder now self (cancel_of sibling))), returns_CancelOrder.
  - intros _ _. apply returns_tame. tame.
Qed.
Lemma returns_siblings filled : returns h (fun self => Node_cancelOcoSiblings self filled) any.
Proof.
  unfold Node_cancelOcoSiblings. destruct (_ || _); [apply returns_tame; tame|]. apply returns_node. intros n.
  apply (returns_each h (fun self => cancel_sibling self filled)). intros id. apply returns_sibling.
Qed.
Lemma returns_progress report : returns h (fun self => handleOrderListProgress self report) any.
Proof.
  unfold handleOrderListProgress. destruct (negb _); [apply returns_tame; tame|].
  apply (returns_attempt h (fun self => releaseHeldChildren self report) (fun _ self => Node_cancelOcoSiblings self report) any).
  - apply returns_result, returns_released.
  - intros _ _. apply returns_siblings.
Qed.
Lemma returns_report report : returns h (fun self => applyAndPublish self (order_event report)) any.
Proof.
  apply (returns_ext _ (fun self => try! _ := announce (order_event report) in handleOrderListProgress self report)).
  - intros self s. apply apply_report_eq.
  - apply (returns_attempt h (fun _ => announce (order_event report)) (fun _ self => handleOrderListProgress self report) any).
    + apply returns_result, returns_tame, tame_announce.
    + intros _ _. apply returns_progress.
Qed.
End released.

(** ** The engine's events *)

(** An event of the life cycle is announced quietly. *)
Lemma quiet_event lifecycle : exists m : ND (res unit), quiet m /\ forall self s,
  applyExecutionEngineEvent self (lifecycle_event lifecycle) s = m s.
Proof.
  set (m := _ ← reconcilerFor (executionEventAccountID (lifecycle_event lifecycle)); announce (lifecycle_event lifecycle)).
  assert (Hm : quiet m).
  { apply node_quiet_bind; [apply quiet_reconcilerFor|]. intros _. apply quiet_lifecycle. }
  destruct (executionEventAccountID (lifecycle_event lifecycle) ≟ "") eqn:Ea.
  - exists (match ExecutionEvent_Validate (lifecycle_event lifecycle) with
            | Fail err => mret (Fail err) | Ok _ => publish_execution (lifecycle_event lifecycle) end).
    split; [destruct (ExecutionEvent_Validate _); [apply node_quiet_publish|apply node_quiet_ret]|].
    intros self s. unfold applyExecutionEngineEvent. cbv zeta. by rewrite Ea.
  - exists m. split; [done|]. intros self s. unfold applyExecutionEngineEvent. cbv zeta. rewrite Ea.
    destruct s as [n w]. unfold m, mbind, Run_bind. destruct (reconcilerFor _ _) as [[s1 a]|]; [|done]. apply apply_lifecycle_eq.
Qed.

Lemma returns_drain h : returns h drainExecutionEngineEvents any.
Proof.
  apply returns_value. intros [n w] Hs. remember (en_events (nd_execEngine n)) as events eqn:Ee.
  revert n w Hs Ee. induction events as [|event events IH]; intros n w Hs Ee.
  { exists (n, w), (Ok tt). split; [|done]. exists 0. intros d _. unfold drainExecutionEngineEvents, node, mbind, Run_bind. simpl. by rewrite <- Ee. }
  destruct Hs as (Hp & Ho & Hh). unfold only_lifecycles in Ho. simpl in Hp, Ho, Hh. rewrite <- Ee in Ho.
  apply Forall_cons in Ho as [[l ->] Ho]. destruct (quiet_event l) as (m & Hm & Eq).
  set (n1 := n <| nd_execEngine := nd_execEngine n <| en_events := events |> |>).
  destruct (Hm n1 w) as (n2 & r & E & Hn). unfold only_published in Hn. destruct_and! Hn.
  assert (Hs2 : settled h (n2, w)).
  { unfold settled, only_lifecycles. simpl. by repeat match goal with H : _ = _ |- _ => rewrite H; clear H end. }
  assert (Ee2 : events = en_events (nd_execEngine n2)) by by repeat match goal with H : nd_execEngine n2 = _ |- _ => rewrite H; clear H end.
  assert (Hd : forall self, drainExecutionEngineEvents self (n, w) =
    match r with Ok _ => call_drain self (n2, w) | Fail err => Some (n2, w, Fail err) end).
  { intros self. unfold drainExecutionEngineEvents, node, attempt_run, mbind, Run_bind. simpl. rewrite <- Ee. unfold change_node, modify_state.
    rewrite Eq. change (m _) with (m (n1, w)). rewrite E. by destruct r. }
  destruct r as [[]|err]; [|exists (n2, w), (Fail err); split; [exists 0; intros; by rewrite Hd|done]].
  destruct (IH n2 w Hs2 Ee2) as (s' & a & [d E'] & Hs'). exists s', a. split; [|done]. exists (S d). intros [|d'] Hd'; [lia|].
  rewrite Hd. simpl. apply E'. lia.
Qed.

(** ** Submitting *)

Lemma returns_SubmitOrder h : forall order, returns h (fun self => Node_SubmitOrder now self order) any.
Proof.
  induction (lt_wf h) as [h _ IH]. intros order. unfold Node_SubmitOrder. cbv zeta.
  assert (Hdenied : forall e, returns h (fun _ : NodeCalls => ignore (publishOrderDenied order e)) any).
  { intros e. apply returns_tame. tame. }
  assert (Hrelease : forall subs, returns h (fun _ : NodeCalls => ignore (releaseEmulationSubscriptions subs)) any).
  { intros subs. apply returns_tame. tame. }
  apply (returns_or_else h (fun _ => mret _) (fun e _ => _) (fun _ self => _) any); [apply returns_result, returns_tame; tame|done|]. intros _ _.
  apply (returns_or_else h (fun _ => risk_check now _ order) (fun e _ => _) (fun _ self => _) any); [apply returns_result, returns_tame, tame_risk_check|done|]. intros _ _.
  apply (returns_attempt h (fun _ => retainEmulationSubscriptions order) (fun subs self => _) any); [apply returns_result, returns_tame, tame_retain_all|]. intros subs _.
  apply (returns_bind h (fun _ => reconcilerFor _) (fun _ self => _) any); [apply returns_tame; tame|]. intros _ _.
  apply (returns_or_else h (fun _ => publishOrderLifecycle _) (fun e _ => _) (fun _ self => _) any); [apply returns_result, returns_tame; tame|done|]. intros _ _.
  apply (returns_or_else h (fun _ => on_exec _) (fun e _ => _) (fun report self => _) any).
  { pose proof (tame_exec _ (calmly_SubmitOrder order)). apply returns_result, returns_tame. tame. }
  { intros e. apply returns_tame. tame. }
  intros report _. apply (returns_or_else h (fun self => applyAndPublish self _) (fun e _ => _) (fun _ self => _) any).
  { apply returns_result, returns_report. intros h' order' Hh. by apply IH. }
  { done. }
  intros _ _. apply (returns_or_else h drainExecutionEngineEvents (fun e _ => _) (fun _ self => _) any).
  { apply returns_result, returns_drain. }
  { done. }
  intros _ _. apply returns_tame. pose proof (tame_track order subs). tame.
Qed.

End converges.
