(* ===== verification/StarkPrimes.v ===== *)
(** * The two primes of the EdgeX curve

    Pocklington's criterion as a checker that the kernel runs, and the certificates of the order
    of the field and of the order of the base point.  Nothing here depends on the code. *)
From Bignums Require Import BigZ.
From Stdlib Require Import ZArith Znumtheory Zdivisibility Zcong Zmod.Zmod Lia List Bool.
Import ListNotations.
Open Scope Z_scope.

(** ** Prime divisors *)

Lemma Z_divides_dec d n : 0 < d -> {(d | n)} + {~ (d | n)}.
Proof.
  intros H. destruct (Z.eq_dec (n mod d) 0) as [E|E]; [left|right; intros Hd; apply E]; apply Z.mod_divide; trivial; lia.
Defined.

Lemma prime_or_composite n : 1 < n -> Z.prime n \/ exists d, 1 < d < n /\ (d | n).
Proof.
  intros H. destruct (prime_dec n) as [Hp|Hn]; [left; now apply prime_alt|right].
  destruct (not_prime_divide n H Hn) as [d Hd]. now exists d.
Qed.
Lemma prime_divisor n : 1 < n -> exists p, Z.prime p /\ (p | n).
Proof.
  induction n as [n IH] using (well_founded_induction (Z.lt_wf 0)). intros H.
  destruct (prime_or_composite n H) as [Hp|[d [Hd Hdn]]]; [exists n; split; [exact Hp|reflexivity]|].
  destruct (IH d ltac:(lia) ltac:(lia)) as [p [Hp Hpd]].
  exists p. split; [exact Hp|]. now apply Z.divide_trans with d.
Qed.
(** A number none of whose prime divisors is at most its root. *)
Lemma prime_by_root n : 1 < n -> (forall p, Z.prime p -> (p | n) -> n < p * p) -> Z.prime n.
Proof.
  intros H Hp. destruct (prime_or_composite n H) as [|[d [Hd [e He]]]]; [assumption|exfalso].
  assert (He1 : 1 < e < n) by nia.
  assert (S : exists f, 1 < f /\ f * f <= n /\ (f | n)).
  { destruct (Z_le_gt_dec d e); [exists d|exists e]; (split; [lia|split; [nia|]]); [now exists e|exists d; lia]. }
  destruct S as [f [Hf [Hff Hfn]]]. destruct (prime_divisor f Hf) as [p [Pp Hpf]].
  pose proof (Hp p Pp (Z.divide_trans _ _ _ Hpf Hfn)). pose proof (Z.divide_pos_le _ _ (ltac:(lia) : 0 < f) Hpf).
  pose proof (Z.prime_ge_2 _ Pp). nia.
Qed.

(** ** Trial division *)

Fixpoint no_divisor (fuel : nat) (d n : Z) : bool :=
  match fuel with
  | O => false
  | S fuel => (n <? d * d) || (negb (n mod d =? 0) && no_divisor fuel (d + 1) n)
  end.
Definition small_prime (n : Z) : bool := (1 <? n) && no_divisor 40 2 n.

Lemma no_divisor_sound fuel d n p : 1 < d -> no_divisor fuel d n = true -> d <= p -> (p | n) -> n < p * p.
Proof.
  revert d. induction fuel as [|fuel IH]; cbn [no_divisor]; [easy|]. intros d Hd H Hp Hpn.
  apply orb_true_iff in H as [H|H]; [apply Z.ltb_lt in H; nia|]. apply andb_true_iff in H as [H1 H2].
  apply negb_true_iff, Z.eqb_neq in H1. assert (d <> p) by (intros ->; now apply H1, Z.mod_divide; [lia|]).
  apply (IH (d + 1)); trivial; lia.
Qed.
Lemma small_prime_sound n : small_prime n = true -> Z.prime n.
Proof.
  intros H. apply andb_true_iff in H as [H1 H2]. apply Z.ltb_lt in H1. apply prime_by_root; [lia|].
  intros p Hp Hpn. apply (no_divisor_sound 40 2); trivial; [lia|]. now apply Z.prime_ge_2.
Qed.

(** ** Powers that are one *)

Section powers.
Context (b p : Z) (Hp : 1 < p).
Definition one_at (n : Z) : Prop := b ^ n mod p = 1.

Lemma one_at_mul n k : 0 <= n -> 0 <= k -> one_at n -> one_at (n * k).
Proof. unfold one_at. intros Hn Hk H. now rewrite Z.pow_mul_r, <- Z.mod_pow_l, H, Z.pow_1_l, Z.mod_1_l by lia. Qed.
Lemma one_at_rest n k : 0 <= n -> 0 <= k -> one_at n -> one_at (n + k) -> one_at k.
Proof.
  unfold one_at. intros Hn Hk H. rewrite Z.pow_add_r, Z.mul_mod, H, Z.mul_1_l, Z.mod_mod by lia. trivial.
Qed.
Lemma one_at_gcd n k : 0 <= n -> 0 <= k -> one_at n -> one_at k -> one_at (Z.gcd n k).
Proof.
  revert k. induction n as [n IH] using (well_founded_induction (Z.lt_wf 0)). intros k Hn Hk H1 H2.
  destruct (Z.eq_dec n 0) as [->|Nz]; [now rewrite Z.gcd_0_l, Z.abs_eq|].
  rewrite <- Z.gcd_mod by exact Nz. pose proof (Z.mod_pos_bound k n ltac:(lia)). apply IH; try lia; try exact H1.
  apply (one_at_rest (n * (k / n))); [apply Z.mul_nonneg_nonneg; [lia|apply Z.div_pos; lia]|lia| |].
  - apply one_at_mul; [lia|apply Z.div_pos; lia|exact H1].
  - rewrite <- Z.div_mod by exact Nz. exact H2.
Qed.

(** A power that is one at [q^k] but not at [q^(k-1)] makes [q^k] divide every exponent where it is one. *)
Lemma one_at_prime_power q k n : Z.prime q -> 0 < k -> 0 <= n -> one_at (q ^ k) -> ~ one_at (q ^ (k - 1)) -> one_at n -> (q ^ k | n).
Proof.
  intros Hq Hk Hn H1 H2 H3. pose proof (Z.prime_ge_2 _ Hq) as Hq2. pose proof (Z.pow_nonneg q k ltac:(lia)) as Hqk.
  pose proof (one_at_gcd _ _ Hqk Hn H1 H3) as Hg. set (g := Z.gcd (q ^ k) n) in *.
  assert (Hg0 : 0 <= g) by apply Z.gcd_nonneg. destruct (Z.gcd_divide_l (q ^ k) n) as [h Hh]. fold g in Hh.
  destruct (Z_divides_dec q h ltac:(lia)) as [[h' Hh']|Nd].
  - exfalso. apply H2. assert (E : q ^ (k - 1) = g * h').
    { apply (Z.mul_cancel_l _ _ q); [lia|]. rewrite <- Z.pow_succ_r by lia. replace (Z.succ (k - 1)) with k by lia. rewrite Hh, Hh'. ring. }
    rewrite E. apply one_at_mul; [exact Hg0| |exact Hg]. pose proof (Z.pow_pos_nonneg q (k - 1)). nia.
  - replace (q ^ k) with g; [apply Z.gcd_divide_r|]. rewrite Hh.
    assert (Hc : Z.coprime (q ^ k) h) by (apply Z.coprime_pow_l; [lia|now apply Z.coprime_prime_l]).
    assert (Hd : (h | 1)).
    { unfold Z.coprime in Hc. rewrite <- Hc. apply Z.gcd_greatest; [exists g; rewrite Hh; ring|reflexivity]. }
    apply Z.divide_1_r in Hd as [->| ->]; [ring|]. pose proof (Z.pow_pos_nonneg q k). lia.
Qed.
End powers.

(** ** Powers on machine words *)

Fixpoint pow_big (n a : bigZ) (k : positive) : bigZ :=
  match k with
  | xH => BigZ.modulo a n
  | xO k => let c := pow_big n a k in BigZ.modulo (BigZ.mul c c) n
  | xI k => let c := pow_big n a k in BigZ.modulo (BigZ.mul (BigZ.modulo (BigZ.mul c c) n) a) n
  end.
Definition power (n a k : Z) : Z :=
  match k with Zpos k => BigZ.to_Z (pow_big (BigZ.of_Z n) (BigZ.of_Z a) k) | _ => a ^ k mod n end.

Lemma pow_big_mod n a k : BigZ.to_Z (pow_big n a k) = BigZ.to_Z a ^ Zpos k mod BigZ.to_Z n.
Proof.
  assert (S : forall k, BigZ.to_Z (pow_big n a k) = BigZ.to_Z a ^ Zpos k mod BigZ.to_Z n ->
    BigZ.to_Z (BigZ.modulo (BigZ.mul (pow_big n a k) (pow_big n a k)) n) = BigZ.to_Z a ^ (2 * Zpos k) mod BigZ.to_Z n).
  { intros k' E. rewrite BigZ.spec_modulo, BigZ.spec_mul, E, <- Zmult_mod, Z.pow_twice_r. reflexivity. }
  induction k as [k IH|k IH|]; cbn [pow_big]; [| |now rewrite BigZ.spec_modulo, Z.pow_1_r].
  - rewrite BigZ.spec_modulo, BigZ.spec_mul, (S k IH), Zmult_mod_idemp_l, Pos2Z.inj_xI, Z.pow_add_r, Z.pow_1_r by lia. reflexivity.
  - rewrite (S k IH). reflexivity.
Qed.
Lemma power_mod n a k : power n a k = a ^ k mod n.
Proof. unfold power. destruct k; trivial. now rewrite pow_big_mod, !BigZ.spec_of_Z. Qed.

(** ** Pocklington's criterion

    [a] witnesses that [n] is prime when the powers [(q, k)] divide [n - 1] and multiply to more
    than the root of [n]. *)
Definition factored (qs : list (Z * Z)) : Z := fold_right (fun qk f => fst qk ^ snd qk * f) 1 qs.
Fixpoint apart (qs : list (Z * Z)) : bool :=
  match qs with
  | [] => true
  | (q, k) :: qs => (0 <? k) && (Z.gcd (q ^ k) (factored qs) =? 1) && apart qs
  end.
Definition pocklington (n a : Z) (qs : list (Z * Z)) : bool :=
  (1 <? n) && (n <? factored qs * factored qs) && apart qs && ((n - 1) mod factored qs =? 0) &&
  match qs with (q, _) :: _ => power n (power n a ((n - 1) / q)) q =? 1 | [] => false end &&
  forallb (fun '(q, _) => ((n - 1) mod q =? 0) && (Z.gcd (power n a ((n - 1) / q) - 1) n =? 1)) qs.

Lemma factored_divides qs m : apart qs = true -> (forall q k, In (q, k) qs -> (q ^ k | m)) -> (factored qs | m).
Proof.
  induction qs as [|[q k] qs IH]; cbn [apart factored fold_right fst snd]; intros H Hm; [apply Z.divide_1_l|].
  apply andb_true_iff in H as [H1 H]. apply andb_true_iff in H1 as [_ H1]. apply Z.eqb_eq in H1.
  destruct (Hm q k (or_introl eq_refl)) as [c Hc]. assert (Hf : (factored qs | m)) by (apply IH; [exact H|intros; apply Hm; now right]).
  fold (factored qs). rewrite Hc, Z.mul_comm in Hf. apply Z.gauss in Hf; [|now rewrite Z.gcd_comm].
  destruct Hf as [e ->]. exists e. rewrite Hc. ring.
Qed.
Lemma factor_in qs q k : apart qs = true -> In (q, k) qs -> 0 < k /\ (q ^ k | factored qs).
Proof.
  induction qs as [|[q' k'] qs IH]; cbn [apart factored fold_right fst snd]; [easy|]. intros H Hin.
  apply andb_true_iff in H as [H1 H]. apply andb_true_iff in H1 as [H1 _]. destruct Hin as [[= -> ->]|Hin].
  - split; [now apply Z.ltb_lt|apply Z.divide_factor_l].
  - destruct (IH H Hin) as [Hk Hd]. split; [exact Hk|]. now apply Z.divide_mul_r.
Qed.
Lemma mod_of_divisor x n p : 1 < p -> 0 < n -> (p | n) -> x mod n = 1 -> x mod p = 1.
Proof. intros Hp Hn Hd H. rewrite <- (Z.mod_mod_divide x n p) by exact Hd. rewrite H. apply Z.mod_1_l. lia. Qed.

(** Every prime divisor is one more than a multiple of each of the powers. *)
Lemma pocklington_step n a q k p : 1 < n -> Z.prime q -> 0 < k -> (q ^ k | n - 1) -> a ^ (n - 1) mod n = 1 ->
  Z.gcd (a ^ ((n - 1) / q) mod n - 1) n = 1 -> Z.prime p -> (p | n) -> (q ^ k | p - 1).
Proof.
  intros Hn Hq Hk [c Hc] H1 Hg Hp Hpn. pose proof (Z.prime_ge_2 _ Hp) as Hp2. pose proof (Z.prime_ge_2 _ Hq) as Hq2.
  pose proof (Z.pow_pos_nonneg q k ltac:(lia) ltac:(lia)) as Hqk. assert (Hc0 : 0 < c) by nia.
  assert (Hqk' : q * q ^ (k - 1) = q ^ k) by (rewrite <- Z.pow_succ_r by lia; f_equal; lia).
  assert (O1 : one_at (a ^ c) p (q ^ k)).
  { unfold one_at. rewrite <- Z.pow_mul_r, <- Hc by lia. apply (mod_of_divisor _ n); trivial; lia. }
  apply (one_at_prime_power (a ^ c) p ltac:(lia)); trivial; try lia.
  - intros H. unfold one_at in H. rewrite <- Z.pow_mul_r in H by (try apply Z.pow_nonneg; lia).
    replace ((n - 1) / q) with (c * q ^ (k - 1)) in Hg by (rewrite Hc, <- Hqk'; apply Z.div_unique_exact; [lia|ring]).
    enough (Hd : (p | 1)) by (apply Z.divide_1_r in Hd; lia). rewrite <- Hg. apply Z.gcd_greatest; [|exact Hpn].
    apply Z.mod_divide; [lia|]. rewrite Zminus_mod, Z.mod_mod_divide, H by exact Hpn. now rewrite Z.mod_1_l by lia.
  - unfold one_at. apply Z.fermat_nz; [exact Hp|]. intros H. unfold one_at in O1.
    rewrite <- Z.mod_pow_l, H, Z.pow_0_l, Z.mod_0_l in O1 by lia. discriminate.
Qed.
Theorem pocklington_sound n a qs : pocklington n a qs = true -> Forall (fun qk => Z.prime (fst qk)) qs -> Z.prime n.
Proof.
  unfold pocklington. rewrite !andb_true_iff, forallb_forall, Z.ltb_lt, Z.ltb_lt, !Z.eqb_eq.
  intros (((((Hn & Hlt) & Ha) & Hf) & H1) & Hall) Hps. rewrite Forall_forall in Hps.
  assert (Hfd : (factored qs | n - 1)) by (apply Z.mod_divide; [intros E; rewrite E in Hlt; lia|exact Hf]).
  assert (Hg : forall q k, In (q, k) qs -> 2 <= q /\ (q | n - 1) /\ Z.gcd (a ^ ((n - 1) / q) mod n - 1) n = 1).
  { intros q k Hin. pose proof (Z.prime_ge_2 _ (Hps _ Hin)) as Hq. specialize (Hall _ Hin). cbn in Hall, Hq.
    rewrite andb_true_iff, !Z.eqb_eq, power_mod in Hall. destruct Hall as [Hd Hg]. repeat split; trivial. apply Z.mod_divide; trivial; lia. }
  assert (H1' : a ^ (n - 1) mod n = 1).
  { destruct qs as [|[q k] qs]; [discriminate|]. destruct (Hg q k (or_introl eq_refl)) as [Hq [[c Hc] _]].
    apply Z.eqb_eq in H1. rewrite !power_mod, Z.mod_pow_l in H1.
    rewrite Hc, Z.div_mul, <- Z.pow_mul_r in H1 by nia. now rewrite Hc. }
  apply prime_by_root; [exact Hn|]. intros p Hp Hpn. pose proof (Z.prime_ge_2 _ Hp).
  assert (Hd : (factored qs | p - 1)).
  { apply factored_divides; [exact Ha|]. intros q k Hin. destruct (factor_in _ _ _ Ha Hin) as [Hk Hd].
    apply (pocklington_step n a); trivial; [apply (Hps _ Hin)|now apply Z.divide_trans with (factored qs)|apply (Hg _ _ Hin)]. }
  apply Z.absle_divide in Hd; [|lia]. rewrite <- (Z.abs_square (factored qs)) in Hlt. nia.
Qed.

(** ** The certificates *)

(** The order of the field, [2^251 + 17 * 2^192 + 1], and of the base point. *)
Definition field_order : Z := 0x800000000000011000000000000000000000000000000000000000000000001.
Definition point_order : Z := 0x0800000000000010ffffffffffffffffb781126dcae7b2321e66a241adc64d2f.

Ltac by_pocklington a qs :=
  apply (pocklington_sound _ a qs); [vm_cast_no_check (eq_refl true)|repeat match goal with |- Forall _ _ => constructor end; first [assumption|now apply small_prime_sound]].

Lemma prime_565787 : Z.prime 565787.
Proof. by_pocklington 2 [(463, 1); (47, 1)]. Qed.
Lemma prime_28547348873 : Z.prime 28547348873.
Proof. pose proof prime_565787. by_pocklington 2 [(565787, 1)]. Qed.
Lemma prime_1789 : Z.prime 1789.
Proof. by_pocklington 2 [(149, 1)]. Qed.
Lemma prime_74837449 : Z.prime 74837449.
Proof. pose proof prime_1789. by_pocklington 2 [(1789, 1); (83, 1)]. Qed.
Lemma prime_5711 : Z.prime 5711.
Proof. by_pocklington 2 [(571, 1)]. Qed.
Lemma prime_11423 : Z.prime 11423.
Proof. pose proof prime_5711. by_pocklington 2 [(5711, 1)]. Qed.
Lemma prime_22206313 : Z.prime 22206313.
Proof. pose proof prime_11423. by_pocklington 2 [(11423, 1)]. Qed.
Lemma prime_31393 : Z.prime 31393.
Proof. by_pocklington 2 [(109, 1); (3, 1)]. Qed.
Lemma prime_10108547 : Z.prime 10108547.
Proof. pose proof prime_31393. by_pocklington 2 [(31393, 1)]. Qed.
Definition order_factor : Z := 5470365079085120887157193270902448565659295524958143968059153.
Lemma order_factor_prime : Z.prime order_factor.
Proof.
  pose proof prime_28547348873. pose proof prime_74837449. pose proof prime_22206313. pose proof prime_10108547.
  by_pocklington 2 [(28547348873, 1); (74837449, 1); (22206313, 1); (10108547, 1)].
Qed.
Lemma point_order_prime : Z.prime point_order.
Proof. pose proof order_factor_prime. by_pocklington 2 [(order_factor, 1)]. Qed.
Lemma field_order_prime : Z.prime field_order.
Proof. by_pocklington 3 [(2, 192)]. Qed.
