(* ===== verification/CurveGroup.v ===== *)
(** * The group of an elliptic curve

    Chords and tangents on the curve y² = x³ + x + b over a field where no point has y = 0 are a
    group.  The curve of the EdgeX client is one ([StarkField]); nothing here depends on the code. *)
From Stdlib Require Import ZArith Zdivisibility Zcong Lia Ring Field.
From stdpp Require Import base tactics decidable option.

(** What is asked of a field and of the constant [b] of a curve over it. *)
Class CurveOps (F : Type) := {
  zero : F; one : F;
  add : F -> F -> F; mul : F -> F -> F; sub : F -> F -> F; opp : F -> F; div : F -> F -> F; inv : F -> F;
  curve_b : F;
  #[global] F_dec :: EqDecision F;
}.
Definition cubic {F} `{CurveOps F} (x : F) : F := add (add (mul (mul x x) x) x) curve_b.
Class CurveLaws (F : Type) `{CurveOps F} : Prop := {
  curve_field : field_theory zero one add mul sub opp div inv eq;
  domain (x y : F) : mul x y = zero -> x = zero \/ y = zero;
  two_nz : add one one <> zero;
  no_root (x : F) : cubic x <> zero;
}.

Section group.
Context {F : Type} {ops : CurveOps F} {laws : CurveLaws F}.
Add Field field_F : curve_field.
Local Infix "+" := add. Local Infix "*" := mul. Local Infix "-" := sub. Local Infix "/" := div.
Local Notation "0" := zero. Local Notation "1" := one. Local Notation "- x" := (opp x).

(** A point, or none for the point at infinity. *)
Local Notation point := (option (F * F)).
Implicit Types P Q R : point.
Definition on_curve P : Prop := match P with Some (x, y) => y * y = cubic x | None => True end.
Definition neg P : point := match P with Some (x, y) => Some (x, - y) | None => None end.
(** The third point of the line with slope [l] through two, reflected. *)
Definition third (l x1 y1 x2 : F) : F * F := let x3 := l * l - x1 - x2 in (x3, l * (x1 - x3) - y1).
Definition tangent (x y : F) : F := ((1 + 1 + 1) * (x * x) + 1) / ((1 + 1) * y).
Definition plus P Q : point :=
  match P, Q with
  | None, _ => Q
  | _, None => P
  | Some (x1, y1), Some (x2, y2) =>
      if decide (x1 = x2) then if decide (y1 = y2) then Some (third (tangent x1 y1) x1 y1 x1) else None
      else Some (third ((y2 - y1) / (x2 - x1)) x1 y1 x2)
  end.

(** ** The field *)

Lemma sub_0 x y : x - y = 0 -> x = y.
Proof. intros H. transitivity (x - y + y); [ring|]. rewrite H. ring. Qed.
Lemma sub_nz x y : x <> y -> y - x <> 0.
Proof. intros H E. apply H. symmetry. by apply sub_0. Qed.
Lemma cancel x y z : z <> 0 -> z * x = z * y -> x = y.
Proof.
  intros Hz H. destruct (domain z (x - y)) as [E|E]; [|done|by apply sub_0].
  transitivity (z * x - z * y); [ring|]. rewrite H. ring.
Qed.
Lemma mul_nz x y : x <> 0 -> y <> 0 -> x * y <> 0.
Proof. intros Hx Hy [E|E]%domain; done. Qed.

Lemma y_nz x y : on_curve (Some (x, y)) -> y <> 0.
Proof. simpl. intros H ->. apply (no_root x). rewrite <- H. ring. Qed.
Lemma neg_neq x y : on_curve (Some (x, y)) -> y <> - y.
Proof.
  intros H E. apply (mul_nz (1 + 1) y two_nz (y_nz _ _ H)). transitivity (y - - y); [ring|]. rewrite <- E. ring.
Qed.
Lemma same_x x y y' : on_curve (Some (x, y)) -> on_curve (Some (x, y')) -> y = y' \/ y' = - y.
Proof.
  simpl. intros H H'. destruct (domain (y' - y) (y' + y)) as [E|E]; [|left; symmetry; by apply sub_0|right].
  - transitivity (y' * y' - y * y); [ring|]. rewrite H, H'. ring.
  - apply sub_0. rewrite <- E. ring.
Qed.

(** ** Lines

    A line through two points, which touches the curve when they are the same. *)
Definition line (l : F) (x1 y1 x2 y2 : F) : Prop := l * (x2 - x1) = y2 - y1 /\ l * (y1 + y2) = x1 * x1 + x1 * x2 + x2 * x2 + 1.

Lemma chord_line x1 y1 x2 y2 : on_curve (Some (x1, y1)) -> on_curve (Some (x2, y2)) -> x1 <> x2 ->
  line ((y2 - y1) / (x2 - x1)) x1 y1 x2 y2.
Proof.
  simpl. unfold cubic. intros H1 H2 N. pose proof (sub_nz _ _ N) as Hd. split; [by field|].
  apply (cancel _ _ (x2 - x1) Hd).
  transitivity (y2 * y2 - y1 * y1); [by field|]. rewrite H1, H2. ring.
Qed.
Lemma tangent_line x y : on_curve (Some (x, y)) -> line (tangent x y) x y x y.
Proof. intros H. pose proof (y_nz _ _ H). pose proof two_nz. unfold line, tangent. split; field; by split. Qed.
Lemma line_unique l l' x1 y1 x2 y2 : x1 <> x2 \/ y2 <> - y1 -> line l x1 y1 x2 y2 -> line l' x1 y1 x2 y2 -> l = l'.
Proof.
  intros H [A B] [A' B']. destruct H as [H|H].
  - apply (cancel _ _ (x2 - x1)); [by apply sub_nz|]. transitivity (l * (x2 - x1)); [ring|]. rewrite A, <- A'. ring.
  - apply (cancel _ _ (y1 + y2)).
    + intros E. apply H. apply sub_0. rewrite <- E. ring.
    + transitivity (l * (y1 + y2)); [ring|]. rewrite B, <- B'. ring.
Qed.

(** The sum by any line through two points that are not opposite. *)
Lemma plus_line l x1 y1 x2 y2 : on_curve (Some (x1, y1)) -> on_curve (Some (x2, y2)) -> x1 <> x2 \/ y2 <> - y1 ->
  line l x1 y1 x2 y2 -> plus (Some (x1, y1)) (Some (x2, y2)) = Some (third l x1 y1 x2).
Proof.
  intros H1 H2 N Hl. unfold plus. destruct (decide (x1 = x2)) as [->|Nx].
  - destruct (same_x _ _ _ H1 H2) as [->|E]; [|by destruct N]. rewrite decide_True by done.
    by rewrite (line_unique _ _ _ _ _ _ N (tangent_line _ _ H1) Hl).
  - by rewrite (line_unique _ _ _ _ _ _ N (chord_line _ _ _ _ H1 H2 Nx) Hl).
Qed.
Lemma has_line x1 y1 x2 y2 : on_curve (Some (x1, y1)) -> on_curve (Some (x2, y2)) -> x1 <> x2 \/ y2 <> - y1 ->
  exists l, line l x1 y1 x2 y2.
Proof.
  intros H1 H2 N. destruct (decide (x1 = x2)) as [->|Nx].
  - destruct (same_x _ _ _ H1 H2) as [->|E]; [|by destruct N]. eexists. by apply tangent_line.
  - eexists. by apply chord_line.
Qed.
Lemma line_slope l x1 y1 x2 y2 : line l x1 y1 x2 y2 -> (1 + 1) * l * y1 = x1 * x1 + x1 * x2 + x2 * x2 + 1 - l * l * (x2 - x1).
Proof.
  intros [A B]. transitivity (l * (y1 + y2) - l * (y2 - y1)); [ring|]. rewrite B, <- A. ring.
Qed.
Lemma third_on l x1 y1 x2 y2 : on_curve (Some (x1, y1)) -> line l x1 y1 x2 y2 -> on_curve (Some (third l x1 y1 x2)).
Proof.
  simpl. unfold cubic. intros H1 Hl%line_slope. set (x3 := l * l - x1 - x2).
  transitivity (l * l * (x3 - x1) * (x3 - x1) + (1 + 1) * l * y1 * (x3 - x1) + y1 * y1); [ring|].
  rewrite Hl, H1. unfold x3. ring.
Qed.

Lemma plus_on P Q : on_curve P -> on_curve Q -> on_curve (plus P Q).
Proof.
  destruct P as [[x1 y1]|], Q as [[x2 y2]|]; try done. intros H1 H2. unfold plus.
  destruct (decide (x1 = x2)) as [->|Nx]; [destruct (decide (y1 = y2)) as [->|]; [|done]|].
  - exact (third_on _ _ _ _ _ H1 (tangent_line _ _ H1)).
  - exact (third_on _ _ _ _ _ H1 (chord_line _ _ _ _ H1 H2 Nx)).
Qed.
Lemma neg_on P : on_curve P -> on_curve (neg P).
Proof. destruct P as [[x y]|]; [simpl; intros <-; ring|done]. Qed.
Lemma neg_neg P : neg (neg P) = P.
Proof. destruct P as [[x y]|]; [|done]. simpl. do 2 f_equal. ring. Qed.

(** ** The easy laws *)

Lemma plus_0_r P : plus P None = P.
Proof. by destruct P as [[??]|]. Qed.
Lemma line_comm l x1 y1 x2 y2 : line l x1 y1 x2 y2 -> line l x2 y2 x1 y1.
Proof.
  intros [A B]. split.
  - transitivity (- (l * (x2 - x1))); [ring|]. rewrite A. ring.
  - transitivity (l * (y1 + y2)); [ring|]. rewrite B. ring.
Qed.
Lemma third_comm l x1 y1 x2 y2 : line l x1 y1 x2 y2 -> third l x1 y1 x2 = third l x2 y2 x1.
Proof.
  intros [A _]. unfold third. set (x3 := l * l - x1 - x2). replace (l * l - x2 - x1) with x3 by (unfold x3; ring).
  f_equal. apply sub_0. transitivity (y2 - y1 - l * (x2 - x1)); [ring|]. rewrite A. ring.
Qed.
Lemma plus_neg P : plus P (neg P) = None \/ ~ on_curve P.
Proof.
  destruct P as [[x y]|]; [|by left]. destruct (decide (y * y = cubic x)) as [H|H]; [left|by right].
  simpl. rewrite decide_True, decide_False; [done| |done]. by apply (neg_neq x).
Qed.
Lemma plus_none P Q : on_curve P -> on_curve Q -> plus P Q = None -> Q = neg P.
Proof.
  destruct P as [[x1 y1]|], Q as [[x2 y2]|]; try done. intros H1 H2. unfold plus.
  destruct (decide (x1 = x2)) as [->|]; [|done]. destruct (decide (y1 = y2)) as [|Ny]; [done|]. intros _.
  destruct (same_x _ _ _ H1 H2) as [|E]; [done|]. simpl. by rewrite E.
Qed.
Lemma apart x1 y1 x2 y2 : on_curve (Some (x1, y1)) -> on_curve (Some (x2, y2)) ->
  Some (x2, y2) <> neg (Some (x1, y1)) -> x1 <> x2 \/ y2 <> - y1.
Proof. intros H1 H2 N. destruct (decide (x1 = x2)) as [->|]; [right|by left]. intros ->. by apply N. Qed.

Lemma plus_comm P Q : on_curve P -> on_curve Q -> plus P Q = plus Q P.
Proof.
  destruct P as [[x1 y1]|], Q as [[x2 y2]|]; try done. intros H1 H2.
  destruct (decide (x1 = x2)) as [->|Nx].
  - unfold plus. rewrite !(decide_True _ _ (eq_refl x2)). destruct (decide (y1 = y2)) as [->|Ny]; [by rewrite decide_True|].
    by rewrite decide_False.
  - pose proof (chord_line _ _ _ _ H1 H2 Nx) as Hl.
    rewrite (plus_line _ _ _ _ _ H1 H2 (or_introl Nx) Hl), (plus_line _ _ _ _ _ H2 H1 (or_introl (not_eq_sym Nx)) (line_comm _ _ _ _ _ Hl)).
    by rewrite (third_comm _ _ _ _ _ Hl).
Qed.
Lemma plus_opp P : on_curve P -> plus P (neg P) = None.
Proof. intros H. by destruct (plus_neg P). Qed.
Lemma line_neg l x1 y1 x2 y2 : line l x1 y1 x2 y2 -> line (- l) x1 (- y1) x2 (- y2).
Proof.
  intros [A B]. split.
  - transitivity (- (l * (x2 - x1))); [ring|]. rewrite A. ring.
  - transitivity (l * (y1 + y2)); [ring|done].
Qed.
Lemma neg_plus P Q : on_curve P -> on_curve Q -> neg (plus P Q) = plus (neg P) (neg Q).
Proof.
  destruct P as [[x1 y1]|], Q as [[x2 y2]|]; try done. intros H1 H2.
  destruct (decide (Some (x2, y2) = neg (Some (x1, y1)))) as [E|N].
  { rewrite E. rewrite plus_opp by done. symmetry. apply plus_opp. by apply (neg_on (Some (x1, y1))). }
  pose proof (apart _ _ _ _ H1 H2 N) as N'. destruct (has_line _ _ _ _ H1 H2 N') as [l Hl].
  rewrite (plus_line _ _ _ _ _ H1 H2 N' Hl). simpl (neg (Some _)).
  assert (N2 : x1 <> x2 \/ - y2 <> - - y1).
  { destruct N' as [|Ny]; [by left|right]. intros E. apply Ny. transitivity (- - y2); [ring|]. rewrite E. ring. }
  rewrite (plus_line _ _ _ _ _ (neg_on _ H1) (neg_on _ H2) N2 (line_neg _ _ _ _ _ Hl)).
  unfold third. simpl. do 2 f_equal; ring.
Qed.

(** ** Cancellation *)

(** The line through [- P] and [R] meets the curve where the line through [P] and their sum does. *)
Lemma cancel_line l x1 y1 x3 y3 : on_curve (Some (x1, y1)) -> on_curve (Some (x3, y3)) ->
  line l x1 (- y1) x3 y3 -> let '(xu, yu) := third l x1 (- y1) x3 in line (- l) x1 y1 xu yu /\ third (- l) x1 y1 xu = (x3, y3).
Proof.
  intros H1 H3 Hl. pose proof (line_slope _ _ _ _ _ Hl) as K. destruct Hl as [A B]. unfold third, line. set (xu := l * l - x1 - x3).
  split; [split|].
  - ring.
  - transitivity ((1 + 1) * l * - y1 - l * l * (x1 - xu)); [ring|]. rewrite K. unfold xu. ring.
  - f_equal; [unfold xu; ring|]. transitivity (l * (x3 - x1) - y1); [unfold xu; ring|]. rewrite A. ring.
Qed.

Lemma plus_cancel P R : on_curve P -> on_curve R -> plus P (plus (neg P) R) = R.
Proof.
  intros H1 H3. destruct (decide (R = P)) as [->|N].
  { rewrite (plus_comm (neg P) P), plus_opp by (done || by apply neg_on). apply plus_0_r. }
  destruct P as [[x1 y1]|]; [|done]. destruct R as [[x3 y3]|]; [|rewrite plus_0_r; by apply plus_opp].
  pose proof (neg_on _ H1) as H1'. simpl neg in *.
  assert (N' : x1 <> x3 \/ y3 <> - - y1).
  { apply (apart _ _ _ _ H1' H3). change (Some (x1, - y1)) with (neg (Some (x1, y1))). by rewrite neg_neg. }
  destruct (has_line _ _ _ _ H1' H3 N') as [l Hl]. rewrite (plus_line _ _ _ _ _ H1' H3 N' Hl).
  pose proof (third_on _ _ _ _ _ H1' Hl) as Hu. pose proof (cancel_line _ _ _ _ _ H1 H3 Hl) as Hc.
  destruct (third l x1 (- y1) x3) as [xu yu]. destruct Hc as [Hl' E].
  rewrite (plus_line (- l)); [by rewrite E|done|done| |done].
  apply (apart _ _ _ _ H1 Hu). intros [= -> ->]. destruct Hl' as [Hy _].
  apply (mul_nz (1 + 1) y1 two_nz (y_nz _ _ H1)). transitivity (- (- y1 - y1)); [ring|]. rewrite <- Hy. ring.
Qed.

(** ** Associativity where the sums are apart

    A sum as a quotient: [third (n / d)] is [top / (d * d)] and [side / (d * d * d)]. *)
Definition top (n d x1 x2 : F) : F := n * n - (x1 + x2) * (d * d).
Definition side (n d x1 y1 x2 : F) : F := n * (x1 * (d * d) - top n d x1 x2) - y1 * (d * d * d).

Lemma third_quotient n d x1 y1 x2 : d <> 0 -> third (n / d) x1 y1 x2 = (top n d x1 x2 / (d * d), side n d x1 y1 x2 / (d * d * d)).
Proof. intros H. unfold third, side, top. f_equal; by field. Qed.
Lemma quotients x x' z z' : z <> 0 -> z' <> 0 -> x * z' = x' * z -> x / z = x' / z'.
Proof.
  intros Hz Hz' H. apply (cancel _ _ (z * z')); [by apply mul_nz|]. transitivity (x * z'); [by field|]. rewrite H. by field.
Qed.

(** The sum of the quotient [A / d², B / d³] and a point. *)
Lemma third_again A B d x y : d <> 0 -> x * (d * d) - A <> 0 ->
  let n' := y * (d * d * d) - B in let d' := x * (d * d) - A in
  let N := n' * n' - (A + x * (d * d)) * (d' * d') in
  third ((y - B / (d * d * d)) / (x - A / (d * d))) (A / (d * d)) (B / (d * d * d)) x =
    (N / (d * d * (d' * d')), (n' * (A * (d' * d') - N) - B * (d' * d' * d')) / (d * d * d * (d' * d' * d'))).
Proof.
  intros Hd Hc. cbv zeta. assert (E : (y - B / (d * d * d)) / (x - A / (d * d)) = (y * (d * d * d) - B) / (d * (x * (d * d) - A))).
  { field. repeat split; try done; intros H; apply Hc; rewrite <- H; by field. }
  rewrite E. unfold third. f_equal; field; by split.
Qed.
Lemma third_before A B d x y : d <> 0 -> A - x * (d * d) <> 0 ->
  let n' := B - y * (d * d * d) in let d' := A - x * (d * d) in
  let N := n' * n' - (A + x * (d * d)) * (d' * d') in
  third ((B / (d * d * d) - y) / (A / (d * d) - x)) x y (A / (d * d)) =
    (N / (d * d * (d' * d')), (n' * (x * (d * d) * (d' * d') - N) - y * (d * d * d) * (d' * d' * d')) / (d * d * d * (d' * d' * d'))).
Proof.
  intros Hd Hc. cbv zeta. assert (E : (B / (d * d * d) - y) / (A / (d * d) - x) = (B - y * (d * d * d)) / (d * (A - x * (d * d)))).
  { field. repeat split; try done; intros H; apply Hc; rewrite <- H; by field. }
  rewrite E. unfold third. f_equal; field; by split.
Qed.
Lemma apart_quotient x A d : d <> 0 -> x <> A / (d * d) -> x * (d * d) - A <> 0 /\ A - x * (d * d) <> 0.
Proof.
  intros Hd N. split; intros H; apply N.
  - apply (cancel _ _ (d * d)); [by apply mul_nz|]. transitivity (x * (d * d) - A + A); [ring|]. rewrite H. by field.
  - apply (cancel _ _ (d * d)); [by apply mul_nz|]. transitivity (A - (A - x * (d * d))); [ring|]. rewrite H. by field.
Qed.

(** What is to be shown of the slopes [n1 / d1] of the first two points and [n2 / d2] of the last two. *)
Definition associates (n1 d1 n2 d2 x1 y1 x2 y2 x3 y3 : F) : Prop :=
  let A := top n1 d1 x1 x2 in let B := side n1 d1 x1 y1 x2 in
  let A' := top n2 d2 x2 x3 in let B' := side n2 d2 x2 y2 x3 in
  let C := x3 * (d1 * d1) - A in let D := y3 * (d1 * d1 * d1) - B in
  let C' := A' - x1 * (d2 * d2) in let D' := B' - y1 * (d2 * d2 * d2) in
  let N := D * D - (A + x3 * (d1 * d1)) * (C * C) in let N' := D' * D' - (A' + x1 * (d2 * d2)) * (C' * C') in
  N * (d2 * d2 * (C' * C')) = N' * (d1 * d1 * (C * C)) /\
  (D * (A * (C * C) - N) - B * (C * C * C)) * (d2 * d2 * d2 * (C' * C' * C')) =
    (D' * (x1 * (d2 * d2) * (C' * C') - N') - y1 * (d2 * d2 * d2) * (C' * C' * C')) * (d1 * d1 * d1 * (C * C * C)).

Lemma associates_chords x1 y1 x2 y2 x3 y3 :
  y1 * y1 = cubic x1 -> y2 * y2 = cubic x2 -> y3 * y3 = cubic x3 ->
  associates (y2 - y1) (x2 - x1) (y3 - y2) (x3 - x2) x1 y1 x2 y2 x3 y3.
Proof. unfold associates, side, top, cubic. cbv zeta. intros E1 E2 E3. split; ring [E1 E2 E3]. Qed.
Lemma associates_tangent x1 y1 x3 y3 :
  y1 * y1 = cubic x1 -> y3 * y3 = cubic x3 ->
  associates ((1 + 1 + 1) * (x1 * x1) + 1) ((1 + 1) * y1) (y3 - y1) (x3 - x1) x1 y1 x1 y1 x3 y3.
Proof. unfold associates, side, top, cubic. cbv zeta. intros E1 E3. split; ring [E1 E3]. Qed.

Lemma plus_chord x1 y1 x2 y2 : x1 <> x2 -> plus (Some (x1, y1)) (Some (x2, y2)) = Some (third ((y2 - y1) / (x2 - x1)) x1 y1 x2).
Proof. intros H. unfold plus. by rewrite decide_False. Qed.
Lemma plus_tangent x y : plus (Some (x, y)) (Some (x, y)) = Some (third (tangent x y) x y x).
Proof. unfold plus. by rewrite !decide_True. Qed.

(** The slopes are those of the sums, and the sums are apart from the other point. *)
Lemma assoc_apart n1 d1 n2 d2 x1 y1 x2 y2 x3 y3 : d1 <> 0 -> d2 <> 0 -> associates n1 d1 n2 d2 x1 y1 x2 y2 x3 y3 ->
  (third (n1 / d1) x1 y1 x2).1 <> x3 -> x1 <> (third (n2 / d2) x2 y2 x3).1 ->
  plus (Some (third (n1 / d1) x1 y1 x2)) (Some (x3, y3)) = plus (Some (x1, y1)) (Some (third (n2 / d2) x2 y2 x3)).
Proof.
  intros Hd1 Hd2 [HX HY]. rewrite (third_quotient _ _ _ _ _ Hd1), (third_quotient _ _ _ _ _ Hd2). cbn [fst]. intros NS NT.
  destruct (apart_quotient _ _ _ Hd1 (not_eq_sym NS)) as [HC _]. destruct (apart_quotient _ _ _ Hd2 NT) as [_ HC'].
  rewrite (plus_chord _ _ _ _ NS), (plus_chord _ _ _ _ NT). f_equal.
  rewrite (third_again _ _ _ _ _ Hd1 HC), (third_before _ _ _ _ _ Hd2 HC'). f_equal; apply quotients; auto using mul_nz.
Qed.

(** ** Twice a point as a sum *)

Lemma same_quotient x x' z : z <> 0 -> x / z = x' / z -> x = x'.
Proof. intros Hz H. transitivity (x / z * z); [by field|]. rewrite H. by field. Qed.

(** The sum of two quotients over the same [d]. *)
Lemma third_same A B A' B' d : d <> 0 -> A' - A <> 0 ->
  let c := A' - A in let n := B' - B in let N := n * n - (A + A') * (c * c) in
  third ((B' / (d * d * d) - B / (d * d * d)) / (A' / (d * d) - A / (d * d))) (A / (d * d)) (B / (d * d * d)) (A' / (d * d)) =
    (N / (d * d * (c * c)), (n * (A * (c * c) - N) - B * (c * c * c)) / (d * d * d * (c * c * c))).
Proof.
  intros Hd Hc. cbv zeta. assert (E : (B' / (d * d * d) - B / (d * d * d)) / (A' / (d * d) - A / (d * d)) = (B' - B) / (d * (A' - A))).
  { field. repeat split; try done; intros H; apply Hc; rewrite <- H; by field. }
  rewrite E. unfold third. f_equal; field; by split.
Qed.

(** The difference and the sum of two points add up to twice the first. *)
Definition doubles (x y xq yq : F) : Prop :=
  let d := xq - x in let A := top (- yq - y) d x xq in let B := side (- yq - y) d x y xq in
  let A' := top (yq - y) d x xq in let B' := side (yq - y) d x y xq in
  let c := A' - A in let n := B' - B in let N := n * n - (A + A') * (c * c) in
  let t := (1 + 1 + 1) * (x * x) + 1 in let e := (1 + 1) * y in
  N * (e * e) = top t e x x * (d * d * (c * c)) /\
  (n * (A * (c * c) - N) - B * (c * c * c)) * (e * e * e) = side t e x y x * (d * d * d * (c * c * c)).
Lemma doubles_always x y xq yq : y * y = cubic x -> yq * yq = cubic xq -> doubles x y xq yq.
Proof. unfold doubles, side, top, cubic. cbv zeta. intros E1 E2. split; ring [E1 E2]. Qed.

Lemma double_split R Q : on_curve R -> on_curve Q -> Q <> None -> Q <> R -> Q <> neg R ->
  plus (plus R (neg Q)) (plus R Q) = plus R R.
Proof.
  destruct R as [[x y]|]; [|destruct Q as [[xq yq]|]; [|done]; intros _ HQ _ _ _; cbn [plus];
    rewrite (plus_comm _ _ (neg_on _ HQ) HQ); by apply plus_opp].
  destruct Q as [[xq yq]|]; [|done]. intros HR HQ _ N1 N2. cbn [neg] in *.
  assert (Nx : x <> xq). { intros <-. destruct (same_x _ _ _ HR HQ) as [->| ->]; done. }
  pose proof (sub_nz _ _ Nx) as Hd. pose proof (y_nz _ _ HR) as Hy. pose proof (y_nz _ _ HQ) as Hyq. pose proof two_nz as H2.
  assert (Hc : top (yq - y) (xq - x) x xq - top (- yq - y) (xq - x) x xq <> 0).
  { intros E. apply (mul_nz ((1 + 1) * (1 + 1)) (y * yq)); [by apply mul_nz|by apply mul_nz|].
    transitivity (- (top (yq - y) (xq - x) x xq - top (- yq - y) (xq - x) x xq)); [unfold top; ring|]. rewrite E. ring. }
  destruct (doubles_always _ _ _ _ HR HQ) as [HX HY].
  rewrite (plus_chord _ _ _ _ Nx), (plus_chord _ _ _ _ Nx), plus_tangent. unfold tangent.
  rewrite !(third_quotient _ _ _ _ _ Hd), (third_quotient _ ((1 + 1) * y)) by (by apply mul_nz).
  rewrite plus_chord.
  - rewrite third_same by done. do 2 f_equal; apply quotients; auto 6 using mul_nz.
  - intros E%same_quotient; [|by apply mul_nz]. apply Hc. rewrite E. ring.
Qed.

(** ** Associativity *)

Definition assoc P Q R : Prop := plus (plus P Q) R = plus P (plus Q R).
Lemma assoc_sym P Q R : on_curve P -> on_curve Q -> on_curve R -> assoc R Q P -> assoc P Q R.
Proof.
  unfold assoc. intros HP HQ HR H. pose proof (plus_on _ _ HP HQ). pose proof (plus_on _ _ HQ HR).
  rewrite (plus_comm (plus P Q) R), (plus_comm P (plus Q R)), (plus_comm P Q), (plus_comm Q R) by done. by symmetry.
Qed.
Lemma assoc_opp P R : on_curve P -> on_curve R -> assoc P (neg P) R.
Proof. intros HP HR. unfold assoc. rewrite plus_opp by done. cbn [plus]. symmetry. by apply plus_cancel. Qed.
Lemma assoc_neg P Q : on_curve P -> on_curve Q -> assoc P Q (neg Q).
Proof.
  intros HP HQ. pose proof (neg_on _ HQ). apply assoc_sym; [done..|]. rewrite <- (neg_neg Q) at 2. by apply assoc_opp.
Qed.
(** The first two add up to the opposite of the last, or to the last. *)
Lemma assoc_total P Q : on_curve P -> on_curve Q -> assoc P Q (neg (plus P Q)).
Proof.
  intros HP HQ. pose proof (neg_on _ HP). pose proof (neg_on _ HQ). unfold assoc. rewrite plus_opp by by apply plus_on.
  rewrite neg_plus, (plus_comm (neg P) (neg Q)), plus_cancel by done. symmetry. by apply plus_opp.
Qed.
Lemma plus_undo P Q : on_curve P -> on_curve Q -> plus (plus P Q) (neg Q) = P.
Proof.
  intros HP HQ. pose proof (neg_on _ HQ). rewrite (plus_comm P Q), (plus_comm _ (neg Q)) by (done || by apply plus_on).
  rewrite <- (neg_neg Q) at 2. by apply plus_cancel.
Qed.
Lemma neg_inj P Q : neg P = neg Q -> P = Q.
Proof. intros H. by rewrite <- (neg_neg P), H, neg_neg. Qed.
Lemma assoc_same P Q : on_curve P -> on_curve Q -> Q <> None -> assoc P Q (plus P Q).
Proof.
  intros HP HQ NQ. pose proof (plus_on _ _ HP HQ) as HR. pose proof (plus_undo _ _ HP HQ) as E. unfold assoc.
  destruct (decide (Q = plus P Q)) as [EQ|N1].
  { rewrite <- EQ in E |- *. rewrite plus_opp in E by done. by subst P. }
  destruct (decide (Q = neg (plus P Q))) as [EQ|N2].
  { apply (f_equal neg) in EQ. rewrite neg_neg in EQ. pose proof (assoc_neg _ _ HP HQ) as H. unfold assoc in H. by rewrite EQ in H. }
  rewrite <- (double_split (plus P Q) Q), E by done. by rewrite (plus_comm Q).
Qed.

(** No sum that is taken is trivial. *)
Lemma assoc_lines n1 d1 n2 d2 x1 y1 x2 y2 x3 y3 :
  on_curve (Some (x1, y1)) -> on_curve (Some (x2, y2)) -> on_curve (Some (x3, y3)) -> d1 <> 0 -> d2 <> 0 ->
  plus (Some (x1, y1)) (Some (x2, y2)) = Some (third (n1 / d1) x1 y1 x2) ->
  plus (Some (x2, y2)) (Some (x3, y3)) = Some (third (n2 / d2) x2 y2 x3) ->
  associates n1 d1 n2 d2 x1 y1 x2 y2 x3 y3 -> assoc (Some (x1, y1)) (Some (x2, y2)) (Some (x3, y3)).
Proof.
  intros H1 H2 H3 Hd1 Hd2 ES ET Ha.
  pose proof (plus_on _ _ H1 H2) as HS. pose proof (plus_on _ _ H2 H3) as HT.
  destruct (decide ((third (n1 / d1) x1 y1 x2).1 = x3)) as [E|NS].
  { rewrite ES in HS. destruct (third (n1 / d1) x1 y1 x2) as [xs ys]. cbn [fst] in E. subst xs.
    destruct (same_x _ _ _ H3 HS) as [<-|E].
    - rewrite <- ES. by apply assoc_same.
    - replace (Some (x3, y3)) with (neg (plus (Some (x1, y1)) (Some (x2, y2)))); [by apply assoc_total|].
      rewrite ES. cbn [neg]. rewrite E. do 2 f_equal. ring. }
  destruct (decide (x1 = (third (n2 / d2) x2 y2 x3).1)) as [E|NT]; [|unfold assoc; rewrite ES, ET; by apply assoc_apart].
  apply assoc_sym; [done..|]. rewrite (plus_comm (Some (x2, y2))) in ET, HT by done.
  rewrite ET in HT. destruct (third (n2 / d2) x2 y2 x3) as [xt yt]. cbn [fst] in E. subst xt.
  destruct (same_x _ _ _ H1 HT) as [<-|E].
  - rewrite <- ET. by apply assoc_same.
  - replace (Some (x1, y1)) with (neg (plus (Some (x3, y3)) (Some (x2, y2)))); [by apply assoc_total|].
    rewrite ET. cbn [neg]. rewrite E. do 2 f_equal. ring.
Qed.

(** Chords and tangents make the curve a group. *)
Lemma plus_assoc P Q R : on_curve P -> on_curve Q -> on_curve R -> plus (plus P Q) R = plus P (plus Q R).
Proof.
  intros HP HQ HR. change (assoc P Q R).
  destruct P as [[x1 y1]|]; [|done]. destruct Q as [[x2 y2]|]; [|done].
  destruct R as [[x3 y3]|]; [|unfold assoc; by rewrite !plus_0_r].
  destruct (decide (Some (x2, y2) = neg (Some (x1, y1)))) as [->|N12]; [by apply assoc_opp|].
  destruct (decide (Some (x3, y3) = neg (Some (x2, y2)))) as [->|N23]; [by apply assoc_neg|].
  destruct (decide (Some (x1, y1) = Some (x3, y3))) as [->|N13].
  { unfold assoc. rewrite (plus_comm (plus _ _)) by (done || by apply plus_on). by rewrite (plus_comm (Some (x3, y3)) (Some (x2, y2))). }
  assert (Hx : forall x y x' y', on_curve (Some (x, y)) -> on_curve (Some (x', y')) -> Some (x, y) <> Some (x', y') ->
    Some (x', y') <> neg (Some (x, y)) -> x <> x').
  { intros x y x' y' H H' N N' <-. by destruct (same_x _ _ _ H H') as [->| ->]. }
  assert (Hy : forall x y, on_curve (Some (x, y)) -> (1 + 1) * y <> 0) by (intros x y H; apply mul_nz; [apply two_nz|by apply (y_nz x)]).
  destruct (decide (Some (x1, y1) = Some (x2, y2))) as [[= -> ->]|M12].
  { pose proof (Hx _ _ _ _ HQ HR N13 N23) as Nx.
    apply (assoc_lines _ _ _ _ _ _ _ _ _ _ HQ HQ HR (Hy _ _ HQ) (sub_nz _ _ Nx) (plus_tangent _ _) (plus_chord _ _ _ _ Nx)).
    by apply associates_tangent. }
  pose proof (Hx _ _ _ _ HP HQ M12 N12) as Nx.
  destruct (decide (Some (x2, y2) = Some (x3, y3))) as [[= -> ->]|M23].
  { apply assoc_sym; [done..|]. apply not_eq_sym in Nx.
    apply (assoc_lines _ _ _ _ _ _ _ _ _ _ HR HR HP (Hy _ _ HR) (sub_nz _ _ Nx) (plus_tangent _ _) (plus_chord _ _ _ _ Nx)).
    by apply associates_tangent. }
  pose proof (Hx _ _ _ _ HQ HR M23 N23) as Nx'.
  apply (assoc_lines _ _ _ _ _ _ _ _ _ _ HP HQ HR (sub_nz _ _ Nx) (sub_nz _ _ Nx') (plus_chord _ _ _ _ Nx) (plus_chord _ _ _ _ Nx')).
  by apply associates_chords.
Qed.

(** ** Multiples *)

Definition times (k : Z) P : point := N.iter (Z.to_N k) (plus P) None.
Lemma times_0 P : times 0 P = None.
Proof. done. Qed.
Lemma times_1 P : times 1 P = P.
Proof. apply plus_0_r. Qed.
Lemma times_succ k P : (0 <= k)%Z -> times (Z.succ k) P = plus P (times k P).
Proof. intros H. unfold times. by rewrite Z2N.inj_succ, N.iter_succ by done. Qed.
Lemma times_on k P : on_curve P -> on_curve (times k P).
Proof.
  intros HP. unfold times. induction (Z.to_N k) as [|n IH] using N.peano_ind; [done|]. rewrite N.iter_succ. by apply plus_on.
Qed.
Lemma times_add j k P : (0 <= j)%Z -> (0 <= k)%Z -> on_curve P -> times (Z.add j k) P = plus (times j P) (times k P).
Proof.
  intros Hj Hk HP. revert j Hj. apply (natlike_ind (fun j => times (Z.add j k) P = plus (times j P) (times k P))); [done|].
  intros j Hj IH. rewrite Z.add_succ_l, !times_succ by lia. rewrite IH, plus_assoc; auto using times_on.
Qed.
Lemma times_plus k P Q : (0 <= k)%Z -> on_curve P -> on_curve Q -> times k (plus P Q) = plus (times k P) (times k Q).
Proof.
  intros Hk HP HQ. revert k Hk. apply (natlike_ind (fun k => times k (plus P Q) = plus (times k P) (times k Q))); [done|].
  intros k Hk IH. pose proof (times_on k _ HP) as H1. pose proof (times_on k _ HQ) as H2. rewrite !times_succ, IH by lia.
  rewrite !plus_assoc by (done || by apply plus_on). f_equal. rewrite <- !plus_assoc by done. by rewrite (plus_comm Q (times k P)).
Qed.
Lemma times_times j k P : (0 <= j)%Z -> (0 <= k)%Z -> on_curve P -> times j (times k P) = times (Z.mul j k) P.
Proof.
  intros Hj Hk HP. revert j Hj. apply (natlike_ind (fun j => times j (times k P) = times (Z.mul j k) P)); [done|].
  intros j Hj IH. rewrite times_succ, IH, Z.mul_succ_l, Z.add_comm, times_add; auto using times_on; nia.
Qed.
Lemma times_none k : times k None = None.
Proof. unfold times. induction (Z.to_N k) as [|n IH] using N.peano_ind; [done|]. by rewrite N.iter_succ, IH. Qed.

(** Below, [n] is a prime that makes [n] times the point vanish. *)
Lemma times_mod n k P : (0 < n)%Z -> (0 <= k)%Z -> on_curve P -> times n P = None -> times (Z.modulo k n) P = times k P.
Proof.
  intros Hn Hk HP H. rewrite (Z.div_mod k n) at 2 by lia. pose proof (Z.div_pos k n Hk Hn). pose proof (Z.mod_pos_bound k n Hn).
  rewrite times_add, (Z.mul_comm n), <- times_times, H, times_none by (done || nia). done.
Qed.
(** A point whose order is a prime [n] has no smaller multiple that vanishes. *)
Lemma times_finite n k P : Z.prime n -> on_curve P -> times n P = None -> P <> None -> Z.modulo k n <> 0%Z -> (0 <= k)%Z -> times k P <> None.
Proof.
  intros Hn HP Ho HP0 Hk Hk0 E. apply HP0. pose proof (Z.invmod_prime _ _ Hn Hk) as Hi. pose proof (Z.prime_ge_2 _ Hn).
  assert (Hu : (0 <= Z.invmod k n)%Z) by (rewrite <- Z.mod_invmod; by apply Z.mod_pos_bound; lia).
  rewrite <- (times_1 P), <- Hi, times_mod, <- times_times, E, times_none by (done || lia || by apply Z.mul_nonneg_nonneg). done.
Qed.
End group.
