(* ===== verification/StarkCurve.v ===== *)
(** * The Stark curve

    sdk/edgex/starkcurve/starkcurve.go and the table of fast_basemult.go: points as pairs of
    big integers, with (0, 0) for the point at infinity.  A [*big.Int] is a [Z] (no method
    writes to an argument), [None] where Go dereferences nil or indexes out of range, and the
    nil of a scalar multiple is the [None] inside.  Bytes are big-endian, as in math/big. *)
From Stdlib Require Import ZArith Zcong.
From stdpp Require Import base list option.
From S2P Require Import Prelude StarkConstants.

Open Scope Z_scope.

(** ** math/big *)

Definition byte_val (b : Byte.byte) : Z := Z.of_N (Byte.to_N b).
(** A [uint8] from its low eight bits. *)
Definition to_byte (z : Z) : Byte.byte := default Byte.x00 (Byte.of_N (Z.to_N (Z.land z 0xFF))).
Notation bytes := (list Byte.byte).

Definition SetBytes (bs : bytes) : Z := foldl (fun n b => n * 256 + byte_val b) 0 bs.
Definition BitLen (z : Z) : Z := if Z.abs z =? 0 then 0 else Z.log2 (Z.abs z) + 1.
(** The [n] low bytes, the lowest first. *)
Fixpoint low_bytes (n : nat) (z : Z) : bytes :=
  match n with O => [] | S n => to_byte z :: low_bytes n (Z.shiftr z 8) end.
(** The bytes of the absolute value, without leading zeros. *)
Definition Bytes (z : Z) : bytes := rev (low_bytes (Z.to_nat ((BitLen z + 7) / 8)) (Z.abs z)).
(** Nil where [g] has no inverse. *)
Definition ModInverse (g n : Z) : option Z := if Z.gcd g n =? 1 then Some (Z.invmod g n) else None.

(** A loop over a slice whose body may panic. *)
Fixpoint range_loop {X S} (f : S -> X -> option S) (l : list X) (s : S) : option S :=
  match l with [] => Some s | x :: l => s ← f s x; range_loop f l s end.

(** Elements of a slice; an index out of range panics. *)
Definition assign {A} (l : list A) (i : Z) (a : A) : option (list A) :=
  if (0 <=? i) && (i <? Z.of_nat (length l)) then Some (<[Z.to_nat i := a]> l) else None.
Definition element {A} (l : list A) (i : Z) : option A := if 0 <=? i then l !! Z.to_nat i else None.

(** ** The curve *)

Record StarkCurve := mkStarkCurve {
  sc_P : Z; sc_N : Z; sc_B : Z;
  sc_Gx : Z; sc_Gy : Z;
  sc_BitSize : Z;
}.

Definition NewStarkCurve : StarkCurve := {|
  sc_P := 0x800000000000011000000000000000000000000000000000000000000000001;
  sc_N := 0x0800000000000010ffffffffffffffffb781126dcae7b2321e66a241adc64d2f;
  sc_B := 0x06f21413efbe40de150e596d72f7a8c5609ad26c15c915c1f4cdfcb99cee9e89;
  sc_Gx := 0x1ef15c18599971b7beced415a40f0c7deacfd9b0d1819e03d723d8bc943cfca;
  sc_Gy := 0x5668060aa49730b7be4801df46ec62de53ecd11abe43a32873000c36e8dc1f;
  sc_BitSize := 256;
|}.

Section curve.
Context (starkCurve : StarkCurve).
Local Notation P := (sc_P starkCurve).

Definition IsOnCurve (x y : Z) : bool :=
  let y2 := (y * y) mod P in
  let x3 := x * x in
  let x3 := x3 * x in
  let x3 := x3 + x in
  let x3 := x3 + sc_B starkCurve in
  let x3 := x3 mod P in
  x3 =? y2.

(** [ModSqrt] gives a square root where there is one: which is not documented. *)
Definition GetYCoordinate (ModSqrt : Z -> Z -> option Z) (x : Z) : option (Z * Z) :=
  let x3 := x * x in
  let x3 := x3 * x in
  let x3 := x3 + x in
  let x3 := x3 + sc_B starkCurve in
  let x3 := x3 mod P in
  y ← ModSqrt x3 P;
  let minusY := P - y in
  Some (y, minusY).

Definition Double (x1 y1 : Z) : option (Z * Z) :=
  let xx1 := x1 * x1 in
  let threeXX1 := Z.shiftl xx1 1 + xx1 in
  let threeXX1a := threeXX1 + 1 in
  let twoY := Z.shiftl y1 1 in
  twoYInv ← ModInverse twoY P;
  let threeXX1aDivtwoY := threeXX1a * twoYInv in
  let threeXX1aDivtwoYPow2 := threeXX1aDivtwoY * threeXX1aDivtwoY in
  let x3 := threeXX1aDivtwoYPow2 mod P in
  let twoX := Z.shiftl x1 1 in
  let x3 := x3 - twoX in
  let x3 := x3 mod P in
  let threeX := twoX + x1 in
  let y3 := threeX * threeXX1aDivtwoY in
  let suby3 := threeXX1aDivtwoY * threeXX1aDivtwoYPow2 in
  let y3 := y3 - suby3 in
  let y3 := y3 - y1 in
  let y3 := y3 mod P in
  Some (x3, y3).

Definition Double1 (x1 y1 : Z) : option (Z * Z) :=
  let xx1 := x1 * x1 in
  let threeXX1 := Z.shiftl xx1 1 + xx1 in
  let threeXX1a := threeXX1 + 1 in
  let threeXX1a2 := threeXX1a * threeXX1a in
  let twoY := Z.shiftl y1 1 in
  let twoY2 := twoY * twoY in
  zinv ← ModInverse twoY2 P;
  let x3 := threeXX1a2 * zinv in
  let twoX := Z.shiftl x1 1 in
  let x3 := x3 - twoX in
  let x3 := x3 mod P in
  let threeX := twoX + x1 in
  twoYInv ← ModInverse twoY P;
  let y3 := threeX * threeXX1a in
  let y3 := y3 * twoYInv in
  let suby3 := threeXX1a2 * threeXX1a in
  let twoY3 := twoY2 * twoY in
  twoY3Inv ← ModInverse twoY3 P;
  let suby3 := suby3 * twoY3Inv in
  let y3 := y3 - suby3 in
  let y3 := y3 - y1 in
  let y3 := y3 mod P in
  Some (x3, y3).

Definition Add (x1 y1 x2 y2 : Z) : option (Z * Z) :=
  if (x1 =? 0) && (y1 =? 0) then Some (x2, y2)
  else if (x2 =? 0) && (y2 =? 0) then Some (x1, y1)
  else if (x1 =? x2) && negb (y1 =? y2) then Some (0, 0)
  else if (x1 =? x2) && (y1 =? y2) then Double x1 y1
  else
    let y2Sub1 := y2 - y1 in
    let x2Sub1 := x2 - x1 in
    x2Sub1Inv ← ModInverse x2Sub1 P;
    let y2Sub1Divx2Sub1 := y2Sub1 * x2Sub1Inv in
    let y2Sub1Divx2Sub1 := y2Sub1Divx2Sub1 mod P in
    let y2Sub1Divx2Sub1Pow2 := y2Sub1Divx2Sub1 * y2Sub1Divx2Sub1 in
    let x3 := y2Sub1Divx2Sub1Pow2 mod P in
    let x3 := x3 - x1 in
    let x3 := x3 - x2 in
    let x3 := x3 mod P in
    let twoX1 := Z.shiftl x1 1 in
    let twoX1AddX2 := twoX1 + x2 in
    let y3 := twoX1AddX2 * y2Sub1Divx2Sub1 in
    let y2Sub1Divx2Sub1Pow3 := y2Sub1Divx2Sub1Pow2 * y2Sub1Divx2Sub1 in
    let suby3 := y2Sub1Divx2Sub1Pow3 mod P in
    let y3 := y3 - suby3 in
    let y3 := y3 - y1 in
    let y3 := y3 mod P in
    Some (x3, y3).

Definition Add1 (x1 y1 x2 y2 : Z) : option (Z * Z) :=
  if (x1 =? 0) && (y1 =? 0) then Some (x2, y2)
  else if (x2 =? 0) && (y2 =? 0) then Some (x1, y1)
  else if (x1 =? x2) && negb (y1 =? y2) then Some (0, 0)
  else if (x1 =? x2) && (y1 =? y2) then Double x1 y1
  else
    let y2Sub1 := y2 - y1 in
    let x2Sub1 := x2 - x1 in
    let yy2Sub1 := y2Sub1 * y2Sub1 in
    let xx2Sub1 := x2Sub1 * x2Sub1 in
    xx2Sub1Inv ← ModInverse xx2Sub1 P;
    let x3 := yy2Sub1 * xx2Sub1Inv in
    let x3 := x3 - x1 in
    let x3 := x3 - x2 in
    let x3 := x3 mod P in
    let twoX1 := Z.shiftl x1 1 in
    let twoX1AddX2 := twoX1 + x2 in
    let twoX1AddX2y2Sub1 := twoX1AddX2 * y2Sub1 in
    x2Sub1Inv ← ModInverse x2Sub1 P;
    let y3 := twoX1AddX2y2Sub1 * x2Sub1Inv in
    let yyy2Sub1 := yy2Sub1 * y2Sub1 in
    let xxx2Sub1 := xx2Sub1 * x2Sub1 in
    xxx2Sub1Inv ← ModInverse xxx2Sub1 P;
    let suby3 := yyy2Sub1 * xxx2Sub1Inv in
    let y3 := y3 - suby3 in
    let y3 := y3 - y1 in
    let y3 := y3 mod P in
    Some (x3, y3).

(** ** Scalar multiples

    The loop variables are [seenFirstTrue], [x] and [y]. *)
Definition mult_bit (Bx By : Z) (st : bool * (Z * Z)) (byteData : Z) : option (bool * (Z * Z)) :=
  let '(seenFirstTrue, (x, y)) := st in
  '(x, y) ← (if seenFirstTrue then Double x y else Some (x, y));
  if Z.land byteData 0x80 =? 0x80 then
    if seenFirstTrue then xy ← Add Bx By x y; Some (true, xy) else Some (true, (x, y))
  else Some (seenFirstTrue, (x, y)).
(** The bits that are left of a byte, which is shifted to the left after each. *)
Fixpoint mult_bits (bitNum : nat) (Bx By : Z) (st : bool * (Z * Z)) (byteData : Z) : option (bool * (Z * Z)) :=
  match bitNum with
  | O => Some st
  | S bitNum => st ← mult_bit Bx By st byteData; mult_bits bitNum Bx By st (Z.land (Z.shiftl byteData 1) 0xFF)
  end.
Definition ScalarMult (Bx By : Z) (k : bytes) : option (option (Z * Z)) :=
  st ← range_loop (fun st b => mult_bits 8 Bx By st (byte_val b)) k (false, (Bx, By));
  let '(seenFirstTrue, xy) := st : bool * (Z * Z) in
  Some (if seenFirstTrue then Some xy else None).
Definition ScalarBaseMult (k : bytes) : option (option (Z * Z)) := ScalarMult (sc_Gx starkCurve) (sc_Gy starkCurve) k.

(** With the table of doubles of the base point; the loop variables are [firstPos], [x] and [y],
    which are nil until the first bit. *)
Definition mult_bit_V2 (st : Z * option (Z * Z)) (byteData : Z) : option (Z * option (Z * Z)) :=
  let '(firstPos, acc) := st in
  acc ← (if Z.land byteData 0x80 =? 0x80 then
           temp ← element constPoints firstPos; let '(tempx, tempy) := temp in
           match acc with None => Some (Some (tempx, tempy)) | Some (x, y) => xy ← Add tempx tempy x y; Some (Some xy) end
         else Some acc);
  Some (firstPos - 1, acc).
Fixpoint mult_bits_V2 (bitNum : nat) (st : Z * option (Z * Z)) (byteData : Z) : option (Z * option (Z * Z)) :=
  match bitNum with
  | O => Some st
  | S bitNum => st ← mult_bit_V2 st byteData; mult_bits_V2 bitNum st (Z.land (Z.shiftl byteData 1) 0xFF)
  end.
Definition ScalarBaseMultV2 (k : bytes) : option (option (Z * Z)) :=
  snd <$> range_loop (fun st b => mult_bits_V2 8 st (byte_val b)) k (Z.of_nat (length k) * 8 - 1, None).

(** ** The table of byte multiples (fast_basemult.go) *)

Definition compactStarkCurveBits : Z := 8.
Definition starkCurveBits : Z := 256.
Definition compactBits : Z := 8.
(** The X and Y of an entry are nil until it is assigned. *)
Definition CurvePoint : Type := option (Z * Z).

(** Bit size and remainder below the highest bit; [fuel] bounds the bits. *)
Fixpoint bit_size (fuel : nat) (v highestBitIdx : Z) : Z :=
  match fuel with
  | O => highestBitIdx
  | S fuel => if 0 <? v then bit_size fuel (Z.shiftr v 1) (highestBitIdx + 1) else highestBitIdx
  end.
Definition splitInt (x : Z) : Z * Z :=
  if x =? 0 then (0, 0)
  else let highestBitIdx := bit_size 64 x 0 in (highestBitIdx, x - Z.shiftl 1 (highestBitIdx - 1)).


Definition init_point (i j : Z) (starkCurvePoints : list CurvePoint) : option (list CurvePoint) :=
  let '(highestBitIdx, remainder) := splitInt j in
  let idx := i * compactBits in
  '(x, y) ← (if (idx + highestBitIdx - 1 <? 256) && (0 <=? idx + highestBitIdx - 1)
             then element constPoints (idx + highestBitIdx - 1) else Some (0, 0));
  if remainder =? 0 then assign starkCurvePoints (Z.shiftl i compactBits + j) (Some (x, y))
  else
    '(x3, y3) ← mjoin (element starkCurvePoints (Z.shiftl i compactBits + remainder));
    '(x5, y5) ← Add x3 y3 x y;
    assign starkCurvePoints (Z.shiftl i compactBits + j) (Some (x5, y5)).
Definition init_points (js : list Z) (i : Z) (starkCurvePoints : list CurvePoint) : option (list CurvePoint) :=
  range_loop (fun points j => init_point i j points) js starkCurvePoints.
Definition InitStarkCurveParams : option (list CurvePoint) :=
  range_loop (fun points i => init_points (seqZ 0 (Z.shiftl 1 compactBits)) i points)
    (seqZ 0 ((starkCurveBits + compactBits - 1) / compactBits))
    (replicate (Z.to_nat ((starkCurveBits / compactBits + 1) * Z.shiftl 1 compactBits)) None).

Definition mult_byte_V3 (starkCurvePoints : list CurvePoint) (len : Z) (st : Z * option (Z * Z)) (byteData : Byte.byte) :
  option (Z * option (Z * Z)) :=
  let '(i, acc) := st in
  let firstPos := (len - 1 - i) * 256 + byte_val byteData in
  starkCurvePoint ← element starkCurvePoints firstPos;
  acc ← (if negb (Z.land (byte_val byteData) 0xFF =? 0) then
           temp ← starkCurvePoint; let '(tempx, tempy) := temp in
           match acc with None => Some (Some (tempx, tempy)) | Some (x, y) => xy ← Add tempx tempy x y; Some (Some xy) end
         else Some acc);
  Some (i + 1, acc).
Definition ScalarBaseMultV3 (starkCurvePoints : list CurvePoint) (k : bytes) : option (option (Z * Z)) :=
  snd <$> range_loop (mult_byte_V3 starkCurvePoints (Z.of_nat (length k))) k (0, None).

(** ** Keys and encodings *)

(** The first index of [mask] that the bit size selects. *)
Definition mask : list Z := [0xff; 0x1; 0x3; 0x7; 0xf; 0x1f; 0x3f; 0x7f].
Definition mask_key (priv : bytes) : option bytes :=
  m ← element mask (sc_BitSize starkCurve mod 8);
  match priv with
  | b0 :: b1 :: bs => Some (to_byte (Z.land (byte_val b0) m) :: to_byte (Z.lxor (byte_val b1) 0x42) :: bs)
  | _ => None
  end.
(** [reads] are what the reader gives, an error or a full buffer; [None] when they are used up
    before a key is found. *)
Definition generate_key (base : bytes -> option (option (Z * Z))) : list (res bytes) -> option (option (res (bytes * (Z * Z)))) :=
  fix loop reads :=
  match reads with
  | [] => Some None
  | Fail err :: _ => Some (Some (Fail err))
  | Ok priv :: reads =>
      priv ← mask_key priv; xy ← base priv;
      match xy with Some xy => Some (Some (Ok (priv, xy))) | None => loop reads end
  end.
Definition GenerateKey := generate_key ScalarBaseMult.
Definition GenerateKeyV3 (starkCurvePoints : list CurvePoint) := generate_key (ScalarBaseMultV3 starkCurvePoints).

(** [copy] of bytes into a buffer that ends with them; a negative offset panics. *)
Definition pad_left (n : Z) (bs : bytes) : option bytes :=
  if n <? Z.of_nat (length bs) then None else Some (replicate (Z.to_nat n - length bs)%nat Byte.x00 ++ bs).
Definition byteLen : Z := Z.shiftr (sc_BitSize starkCurve + 7) 3.
Definition Marshal (x y : Z) : option bytes :=
  xBytes ← pad_left byteLen (Bytes x);
  yBytes ← pad_left byteLen (Bytes y);
  Some (Byte.x04 :: xBytes ++ yBytes).
Definition Unmarshal (data : bytes) : option (Z * Z) :=
  if negb (Z.of_nat (length data) =? 1 + 2 * byteLen) then None
  else match data with
  | Byte.x04 :: data => Some (SetBytes (take (Z.to_nat byteLen) data), SetBytes (drop (Z.to_nat byteLen) data))
  | _ => None
  end.
End curve.
