(* ===== verification/StarkField.v ===== *)
(** * The curve of the EdgeX client is a group

    The field of [NewStarkCurve] and its curve as an instance of [CurveGroup]: the field has no
    root of x³ + x + b, so that no point has order two.  Polynomials modulo that cubic and
    points run on machine words. *)
From Bignums Require Import BigZ.
From Stdlib Require Import ZArith Zcong Zdivisibility Zmod.Zmod Ring Field.
From stdpp Require Import base tactics decidable option list.
From S2P Require Import Prelude StarkPrimes CurveGroup StarkConstants StarkCurve.

Open Scope Z_scope.

Notation F := (Zmod field_order).
Notation point := (option (F * F)).
Definition elem (z : Z) : F := Zmod.of_Z field_order z.

#[global] Instance stark_ops : CurveOps F := {|
  zero := Zmod.zero; one := Zmod.one; add := Zmod.add; mul := Zmod.mul; sub := Zmod.sub; opp := Zmod.opp;
  div := Zmod.mdiv; inv := Zmod.inv; curve_b := elem (sc_B NewStarkCurve);
  F_dec x y := match decide (Zmod.eqb x y = true) with
    | left H => left (proj1 (Zmod.eqb_eq x y) H) | right H => right (fun E => H (proj2 (Zmod.eqb_eq x y) E)) end;
|}.
Lemma stark_field_theory : field_theory (zero (F:=F)) one add mul sub opp div inv eq.
Proof. exact (Zmod.field_theory field_order field_order_prime). Qed.
Add Field stark_field : stark_field_theory.
#[global] Opaque field_order.

Lemma field_order_pos : 2 < field_order.
Proof. by vm_compute. Qed.

(** ** Numbers as elements *)

Lemma elem_add x y : elem (x + y) = add (elem x) (elem y).
Proof. apply Zmod.of_Z_add. Qed.
Lemma elem_mul x y : elem (x * y) = mul (elem x) (elem y).
Proof. apply Zmod.of_Z_mul. Qed.
Lemma elem_sub x y : elem (x - y) = sub (elem x) (elem y).
Proof. apply Zmod.of_Z_sub. Qed.
Lemma elem_opp x : elem (- x) = opp (elem x).
Proof. apply Zmod.of_Z_opp. Qed.
Lemma elem_mod x : elem (x mod field_order) = elem x.
Proof. apply Zmod.of_Z_mod. Qed.
Lemma elem_double x : elem (Z.shiftl x 1) = add (elem x) (elem x).
Proof. rewrite Z.shiftl_mul_pow2 by done. change (2 ^ 1) with 2. rewrite <- elem_add. f_equal. lia. Qed.
Lemma elem_1 : elem 1 = one.
Proof. done. Qed.
Lemma elem_0 : elem 0 = zero.
Proof. done. Qed.
Lemma elem_to_Z (a : F) : elem (Zmod.to_Z a) = a.
Proof. apply Zmod.of_Z_unsigned. Qed.
Lemma elem_inj x y : elem x = elem y <-> x mod field_order = y mod field_order.
Proof. apply Zmod.of_Z_inj. Qed.
Lemma to_Z_inj (a b : F) : Zmod.to_Z a = Zmod.to_Z b -> a = b.
Proof. intros H. by rewrite <- (elem_to_Z a), H, elem_to_Z. Qed.
Lemma to_Z_bound (a : F) : 0 <= Zmod.to_Z a < field_order.
Proof. apply Zmod.unsigned_pos_bound. pose proof field_order_pos. lia. Qed.
Lemma to_Z_elem x : Zmod.to_Z (elem x) = x mod field_order.
Proof. apply Zmod.unsigned_of_Z. Qed.
Lemma to_Z_of x (a : F) : elem x = a -> x mod field_order = Zmod.to_Z a.
Proof. intros <-. by rewrite to_Z_elem. Qed.

#[export] Hint Rewrite elem_add elem_mul elem_sub elem_opp elem_mod elem_double elem_1 elem_0 elem_to_Z : elem.

(** ** The cubic has no root

    Quadratic polynomials, multiplied modulo the cubic. *)
Definition poly : Type := bigZ * bigZ * bigZ.
Definition poly_mul (b p : bigZ) (u v : poly) : poly :=
  let '(u0, u1, u2) := u in let '(v0, v1, v2) := v in
  let c3 := (u1 * v2 + u2 * v1)%bigZ in let c4 := (u2 * v2)%bigZ in
  (((u0 * v0 - b * c3) mod p)%bigZ, ((u0 * v1 + u1 * v0 - c3 - b * c4) mod p)%bigZ,
   ((u0 * v2 + u1 * v1 + u2 * v0 - c4) mod p)%bigZ).
Fixpoint poly_pow (b p : bigZ) (u : poly) (k : positive) : poly :=
  match k with
  | xH => u
  | xO k => let v := poly_pow b p u k in poly_mul b p v v
  | xI k => let v := poly_pow b p u k in poly_mul b p (poly_mul b p v v) u
  end.
Definition big_b : bigZ := Eval vm_compute in BigZ.of_Z (sc_B NewStarkCurve).
Definition big_p : bigZ := Eval vm_compute in BigZ.of_Z (sc_P NewStarkCurve).
Definition word (a : bigZ) : F := elem (BigZ.to_Z a).
Definition eval (u : poly) (x : F) : F := let '(u0, u1, u2) := u in add (add (word u0) (mul (word u1) x)) (mul (word u2) (mul x x)).

Lemma word_add a b : word (a + b)%bigZ = add (word a) (word b).
Proof. unfold word. by rewrite BigZ.spec_add, elem_add. Qed.
Lemma word_mul a b : word (a * b)%bigZ = mul (word a) (word b).
Proof. unfold word. by rewrite BigZ.spec_mul, elem_mul. Qed.
Lemma word_sub a b : word (a - b)%bigZ = sub (word a) (word b).
Proof. unfold word. by rewrite BigZ.spec_sub, elem_sub. Qed.
Lemma big_p_order : BigZ.to_Z big_p = field_order.
Proof. by vm_compute. Qed.
Lemma word_mod a : word (a mod big_p)%bigZ = word a.
Proof. unfold word. by rewrite BigZ.spec_modulo, big_p_order, elem_mod. Qed.
Lemma word_b : word big_b = curve_b.
Proof. done. Qed.
#[export] Hint Rewrite word_add word_mul word_sub word_mod word_b : elem.

Lemma eval_mul u v x : cubic x = zero -> eval (poly_mul big_b big_p u v) x = mul (eval u x) (eval v x).
Proof.
  destruct u as [[u0 u1] u2], v as [[v0 v1] v2]. intros E.
  assert (E' : mul x (mul x x) = sub (opp x) curve_b).
  { transitivity (sub (cubic x) (add x curve_b)); [unfold cubic; ring|]. rewrite E. ring. }
  unfold eval, poly_mul. autorewrite with elem. ring [E'].
Qed.
Lemma eval_pow u k x : cubic x = zero -> eval (poly_pow big_b big_p u k) x = Zmod.pow (eval u x) (Zpos k).
Proof.
  intros E. assert (S : forall k, eval (poly_pow big_b big_p u k) x = Zmod.pow (eval u x) (Zpos k) ->
    eval (poly_mul big_b big_p (poly_pow big_b big_p u k) (poly_pow big_b big_p u k)) x = Zmod.pow (eval u x) (2 * Zpos k)).
  { intros k' Ek. rewrite eval_mul, Ek by done. replace (2 * Zpos k') with (Zpos k' + Zpos k') by lia. by rewrite Zmod.pow_add_r_nonneg. }
  induction k as [k IH|k IH|]; cbn [poly_pow]; [| |by rewrite Zmod.pow_1_r].
  - rewrite eval_mul, (S k IH) by done. by rewrite Pos2Z.inj_xI, Zmod.pow_add_r_nonneg, Zmod.pow_1_r.
  - by rewrite (S k IH).
Qed.

(** [x] to the order of the field is [x]: modulo the cubic, that is a quadratic, and one that
    [bezout] inverts. *)
Definition bezout : poly :=
  (2043544184193508790506046486867995574328972747364632442021244577644613083411,
   2935106962080035537842611299988581372091173088494006736581926048054027181133,
   376400296575036714941695555522612899315471197531070009220369179516623567761)%bigZ.
Definition no_root_certificate : bool :=
  let '(q0, q1, q2) := poly_pow big_b big_p (0, 1, 0)%bigZ (Z.to_pos field_order) in
  let '(r0, r1, r2) := poly_mul big_b big_p bezout (q0, q1 - 1, q2)%bigZ in
  ((r0 =? 1) && (r1 =? 0) && (r2 =? 0))%bigZ.
Lemma no_root_certified : no_root_certificate = true.
Proof. vm_cast_no_check (eq_refl true). Qed.

Lemma stark_no_root (x : F) : cubic x <> zero.
Proof.
  intros E. pose proof no_root_certified as H. unfold no_root_certificate in H.
  pose proof (eval_pow (0, 1, 0)%bigZ (Z.to_pos field_order) x E) as Hp.
  rewrite Z2Pos.id in Hp by (pose proof field_order_pos; lia).
  destruct (poly_pow big_b big_p (0, 1, 0)%bigZ (Z.to_pos field_order)) as [[q0 q1] q2].
  pose proof (eval_mul bezout (q0, (q1 - 1)%bigZ, q2) x E) as Hb.
  destruct (poly_mul big_b big_p bezout (q0, (q1 - 1)%bigZ, q2)) as [[r0 r1] r2].
  rewrite !andb_true_iff, !BigZ.spec_eqb, !Z.eqb_eq in H. destruct H as [[H0 H1] H2].
  assert (Ex : eval (0, 1, 0)%bigZ x = x).
  { unfold eval. replace (word 0%bigZ) with (zero (F:=F)) by done. replace (word 1%bigZ) with (one (F:=F)) by done. ring. }
  rewrite Ex, Zmod.fermat in Hp by apply field_order_prime.
  assert (Hq : eval (q0, (q1 - 1)%bigZ, q2) x = zero).
  { transitivity (sub (eval (q0, q1, q2) x) x); [|rewrite Hp; ring].
    unfold eval. rewrite word_sub. replace (word 1%bigZ) with (one (F:=F)) by done. ring. }
  rewrite Hq in Hb. unfold eval, word in Hb. rewrite H0, H1, H2 in Hb.
  apply (f_equal Zmod.to_Z) in Hb. revert Hb. generalize bezout as u. intros [[u0 u1] u2] Hb.
  assert (Hb1 : one = zero (F:=F)).
  { apply to_Z_inj. etransitivity; [|etransitivity; [exact Hb|]]; f_equal; change (BigZ.to_Z 1) with 1; change (BigZ.to_Z 0) with 0;
      rewrite ?elem_0, ?elem_1; ring. }
  apply (f_equal Zmod.to_Z) in Hb1. by vm_compute in Hb1.
Qed.

#[global] Instance stark_laws : CurveLaws F.
Proof.
  split.
  - exact stark_field_theory.
  - intros x y. apply (Zmod.mul_0_iff_prime field_order_prime).
  - intros H. apply (f_equal Zmod.to_Z) in H. by vm_compute in H.
  - exact stark_no_root.
Qed.

(** ** Pairs of numbers as points *)

Definition enc (p : point) : Z * Z := match p with Some (x, y) => (Zmod.to_Z x, Zmod.to_Z y) | None => (0, 0) end.
Definition dec (xy : Z * Z) : point := if (xy.1 =? 0) && (xy.2 =? 0) then None else Some (elem xy.1, elem xy.2).

Lemma curve_b_nz : curve_b <> zero (F:=F).
Proof. intros H. apply (f_equal Zmod.to_Z) in H. by vm_compute in H. Qed.
Lemma to_Z_zero (a : F) : Zmod.to_Z a = 0 <-> a = zero.
Proof. split; [intros H; apply to_Z_inj; by rewrite H|by intros ->]. Qed.
(** No point of the curve is taken for the point at infinity. *)
Lemma enc_finite x y : on_curve (Some (x, y)) -> (Zmod.to_Z x =? 0) && (Zmod.to_Z y =? 0) = false.
Proof.
  intros H. destruct (Zmod.to_Z y =? 0) eqn:E; [exfalso|by rewrite andb_false_r].
  apply (y_nz x y H). by apply to_Z_zero, Z.eqb_eq.
Qed.
Lemma dec_enc p : on_curve p -> dec (enc p) = p.
Proof. destruct p as [[x y]|]; [|done]. intros H. unfold dec. cbn [enc fst snd]. by rewrite enc_finite, !elem_to_Z. Qed.
Lemma enc_inj p q : on_curve p -> on_curve q -> enc p = enc q -> p = q.
Proof. intros Hp Hq E. by rewrite <- (dec_enc p), E, dec_enc. Qed.

(** ** Inverses *)

Lemma ModInverse_elem d : elem d <> zero -> exists u, ModInverse d field_order = Some u /\ elem u = inv (elem d).
Proof.
  intros H. pose proof field_order_pos. assert (Hd : d mod field_order <> 0).
  { intros E. apply H. rewrite <- elem_mod, E. done. }
  exists (Z.invmod d field_order). split.
  - unfold ModInverse. rewrite Z.gcd_comm. rewrite (Z.coprime_prime_l field_order d field_order_prime); [done|].
    intros Hdiv. apply Hd. apply Z.mod_divide; [lia|done].
  - assert (E : mul (elem (Z.invmod d field_order)) (elem d) = one).
    { rewrite <- elem_mul, <- elem_mod, (Z.invmod_prime _ _ field_order_prime Hd). done. }
    transitivity (mul (elem (Z.invmod d field_order)) (mul (elem d) (inv (elem d)))); [by field|].
    transitivity (mul (mul (elem (Z.invmod d field_order)) (elem d)) (inv (elem d))); [ring|]. rewrite E. ring.
Qed.
Lemma ModInverse_zero d : elem d = zero -> ModInverse d field_order = None.
Proof.
  intros H. pose proof field_order_pos. assert (E : d mod field_order = 0) by (by rewrite (to_Z_of _ _ H)).
  unfold ModInverse. rewrite Z.gcd_comm. replace (Z.gcd field_order d) with field_order; [by destruct (field_order =? 1) eqn:E'; [apply Z.eqb_eq in E'; lia|]|].
  apply Z.mod_divide in E; [|lia]. symmetry. by apply Z.divide_gcd_iff; [lia|].
Qed.

(** ** The additions are that of the group *)

Lemma order_P : sc_P NewStarkCurve = field_order.
Proof. done. Qed.
Lemma pair_of (z w : Z) (a b : F) : elem z = a -> elem w = b -> Some (z mod field_order, w mod field_order) = Some (enc (Some (a, b))).
Proof. intros <- <-. cbn [enc]. by rewrite !to_Z_elem. Qed.
Lemma elem_double_nz (y : F) : y <> zero -> elem (Z.shiftl (Zmod.to_Z y) 1) <> zero.
Proof.
  intros H E. apply (mul_nz (add one one) y two_nz H). rewrite <- E. autorewrite with elem. ring.
Qed.
Lemma twice_nz (y : F) : y <> zero -> add y y <> zero.
Proof. intros H E. apply (mul_nz (add one one) y two_nz H). rewrite <- E. ring. Qed.
(** Names the inverse of a number that has one, as a number and as an element. *)
Ltac invert d :=
  let u := fresh "u" in let E := fresh "E" in let Eu := fresh "Eu" in
  destruct (ModInverse_elem d) as (u & E & Eu); [|rewrite E; cbn [mbind option_bind]; autorewrite with elem in Eu].

Lemma Double_plus x y : on_curve (Some (x, y)) ->
  Double NewStarkCurve (Zmod.to_Z x) (Zmod.to_Z y) = Some (enc (plus (Some (x, y)) (Some (x, y)))).
Proof.
  intros H. pose proof (y_nz _ _ H) as Hy. pose proof two_nz (F:=F) as H2. unfold Double. cbv zeta. rewrite order_P, plus_tangent.
  invert (Z.shiftl (Zmod.to_Z y) 1); [by apply elem_double_nz|].
  pose proof (twice_nz y Hy). unfold third, tangent. apply pair_of; autorewrite with elem; rewrite Eu; field; by repeat split.
Qed.
Lemma Double1_plus x y : on_curve (Some (x, y)) ->
  Double1 NewStarkCurve (Zmod.to_Z x) (Zmod.to_Z y) = Some (enc (plus (Some (x, y)) (Some (x, y)))).
Proof.
  intros H. pose proof (y_nz _ _ H) as Hy. pose proof two_nz (F:=F) as H2. pose proof (twice_nz y Hy) as Hd.
  unfold Double1. cbv zeta. rewrite order_P, plus_tangent.
  invert (Z.shiftl (Zmod.to_Z y) 1 * Z.shiftl (Zmod.to_Z y) 1); [autorewrite with elem; by apply mul_nz|].
  invert (Z.shiftl (Zmod.to_Z y) 1); [by apply elem_double_nz|].
  invert (Z.shiftl (Zmod.to_Z y) 1 * Z.shiftl (Zmod.to_Z y) 1 * Z.shiftl (Zmod.to_Z y) 1);
    [autorewrite with elem; apply mul_nz; [by apply mul_nz|done]|].
  unfold third, tangent. apply pair_of; autorewrite with elem; rewrite ?Eu, ?Eu0, ?Eu1; field; by repeat split.
Qed.

(** The tests of [Add] on two points. *)
Lemma to_Z_eqb (a b : F) : (Zmod.to_Z a =? Zmod.to_Z b) = bool_decide (a = b).
Proof.
  destruct (Zmod.to_Z a =? Zmod.to_Z b) eqn:E; symmetry; [apply bool_decide_eq_true, to_Z_inj; by apply Z.eqb_eq|].
  apply bool_decide_eq_false. intros ->. by rewrite Z.eqb_refl in E.
Qed.
Lemma chord_nz (a b : F) : a <> b -> elem (Zmod.to_Z b - Zmod.to_Z a) <> zero.
Proof. intros N. autorewrite with elem. by apply sub_nz. Qed.

Lemma Add_plus p q : on_curve p -> on_curve q ->
  Add NewStarkCurve (enc p).1 (enc p).2 (enc q).1 (enc q).2 = Some (enc (plus p q)).
Proof.
  destruct p as [[x1 y1]|]; [|by destruct q as [[??]|]]. intros Hp.
  destruct q as [[x2 y2]|]; intros Hq; unfold Add; cbn [enc fst snd]; rewrite (enc_finite _ _ Hp); [|done].
  rewrite (enc_finite _ _ Hq), !to_Z_eqb. cbv zeta. rewrite order_P. unfold plus.
  destruct (decide (x1 = x2)) as [->|Nx]; [rewrite bool_decide_true by done|rewrite bool_decide_false by done].
  - destruct (decide (y1 = y2)) as [->|Ny]; [rewrite bool_decide_true by done|by rewrite bool_decide_false by done].
    cbn [andb negb]. rewrite (Double_plus _ _ Hq), plus_tangent. done.
  - cbn [andb]. invert (Zmod.to_Z x2 - Zmod.to_Z x1); [by apply chord_nz|].
    apply pair_of; autorewrite with elem; rewrite ?Eu; [|unfold third]; field; by apply sub_nz.
Qed.
Lemma Add1_plus p q : on_curve p -> on_curve q ->
  Add1 NewStarkCurve (enc p).1 (enc p).2 (enc q).1 (enc q).2 = Some (enc (plus p q)).
Proof.
  destruct p as [[x1 y1]|]; [|by destruct q as [[??]|]]. intros Hp.
  destruct q as [[x2 y2]|]; intros Hq; unfold Add1; cbn [enc fst snd]; rewrite (enc_finite _ _ Hp); [|done].
  rewrite (enc_finite _ _ Hq), !to_Z_eqb. cbv zeta. rewrite order_P. unfold plus.
  destruct (decide (x1 = x2)) as [->|Nx]; [rewrite bool_decide_true by done|rewrite bool_decide_false by done].
  - destruct (decide (y1 = y2)) as [->|Ny]; [rewrite bool_decide_true by done|by rewrite bool_decide_false by done].
    cbn [andb negb]. rewrite (Double_plus _ _ Hq), plus_tangent. done.
  - cbn [andb]. pose proof (chord_nz _ _ Nx) as Hd.
    invert ((Zmod.to_Z x2 - Zmod.to_Z x1) * (Zmod.to_Z x2 - Zmod.to_Z x1)); [rewrite elem_mul; by apply mul_nz|].
    invert (Zmod.to_Z x2 - Zmod.to_Z x1); [done|].
    invert ((Zmod.to_Z x2 - Zmod.to_Z x1) * (Zmod.to_Z x2 - Zmod.to_Z x1) * (Zmod.to_Z x2 - Zmod.to_Z x1));
      [rewrite !elem_mul; apply mul_nz; [by apply mul_nz|done]|].
    apply pair_of; autorewrite with elem; rewrite ?Eu, ?Eu0, ?Eu1; [|unfold third]; field; by apply sub_nz.
Qed.

(** What is no point of order two for the group divides by zero in the code. *)
Lemma Double_infinity : Double NewStarkCurve 0 0 = None /\ Double1 NewStarkCurve 0 0 = None.
Proof. split; unfold Double, Double1; cbv zeta; by rewrite order_P, ModInverse_zero. Qed.

Lemma IsOnCurve_spec x y : IsOnCurve NewStarkCurve x y = true <-> on_curve (Some (elem x, elem y)).
Proof.
  unfold IsOnCurve. cbv zeta. rewrite order_P, Z.eqb_eq, <- elem_inj. cbn [on_curve]. unfold cubic. autorewrite with elem. by split.
Qed.

(** ** Points on machine words *)

Notation big_point := (option (bigZ * bigZ)).
Definition point_of (p : big_point) : point := match p with Some (x, y) => Some (word x, word y) | None => None end.
(** The extended Euclidean algorithm; that its result is an inverse is tested where it is used. *)
Fixpoint euclid (fuel : nat) (r0 r1 s0 s1 : bigZ) : bigZ :=
  match fuel with
  | O => s0
  | S fuel => if (r1 =? 0)%bigZ then s0 else let q := (r0 / r1)%bigZ in euclid fuel r1 (r0 - q * r1)%bigZ s1 (s0 - q * s1)%bigZ
  end.
Definition plus_by (n d x1 y1 x2 : bigZ) : option big_point :=
  let u := euclid 400 (d mod big_p)%bigZ big_p 1%bigZ 0%bigZ in
  if ((u * d - 1) mod big_p =? 0)%bigZ then
    let l := (n * u mod big_p)%bigZ in
    let x3 := ((l * l - x1 - x2) mod big_p)%bigZ in
    Some (Some (x3, ((l * (x1 - x3) - y1) mod big_p)%bigZ))
  else None.
Definition plus_big (p q : big_point) : option big_point :=
  match p, q with
  | None, _ => Some q
  | _, None => Some p
  | Some (x1, y1), Some (x2, y2) =>
      if ((x2 - x1) mod big_p =? 0)%bigZ then
        if ((y2 - y1) mod big_p =? 0)%bigZ then plus_by (3 * x1 * x1 + 1)%bigZ (2 * y1)%bigZ x1 y1 x1 else Some None
      else plus_by (y2 - y1)%bigZ (x2 - x1)%bigZ x1 y1 x2
  end.
Fixpoint times_big (k : positive) (p : big_point) : option big_point :=
  match k with
  | xH => Some p
  | xO k => q ← times_big k p; plus_big q q
  | xI k => q ← times_big k p; q ← plus_big q q; plus_big p q
  end.

Lemma word_zero a : (a mod big_p =? 0)%bigZ = bool_decide (word a = zero).
Proof.
  rewrite BigZ.spec_eqb, BigZ.spec_modulo, big_p_order. unfold word. rewrite <- to_Z_elem.
  change (BigZ.to_Z 0) with (Zmod.to_Z (zero (F:=F))). apply to_Z_eqb.
Qed.
Lemma word_1 : word 1%bigZ = one.
Proof. done. Qed.
Lemma word_2 : word 2%bigZ = add one one.
Proof. apply to_Z_inj. by vm_compute. Qed.
Lemma word_3 : word 3%bigZ = add (add one one) one.
Proof. apply to_Z_inj. by vm_compute. Qed.
#[export] Hint Rewrite word_1 word_2 word_3 : elem.

Lemma plus_by_third n d x1 y1 x2 r : plus_by n d x1 y1 x2 = Some r ->
  point_of r = Some (third (div (word n) (word d)) (word x1) (word y1) (word x2)).
Proof.
  unfold plus_by. generalize (euclid 400 (d mod big_p)%bigZ big_p 1%bigZ 0%bigZ) as u. intros u. rewrite word_zero.
  destruct (decide (word (u * d - 1)%bigZ = zero)) as [E|N]; [rewrite bool_decide_true by done|by rewrite bool_decide_false by done].
  intros [= <-]. autorewrite with elem in E. apply sub_0 in E.
  assert (Hd : word d <> zero).
  { intros Ed. rewrite Ed in E. apply (f_equal Zmod.to_Z) in E. assert (E' : mul (word u) zero = zero (F:=F)) by ring.
    rewrite E' in E. by vm_compute in E. }
  assert (Eu : word u = inv (word d)).
  { transitivity (mul (mul (word u) (word d)) (inv (word d))); [by field|]. rewrite E. ring. }
  unfold third. cbn [point_of]. autorewrite with elem. rewrite Eu. do 2 f_equal; by field.
Qed.
Lemma plus_big_plus p q r : plus_big p q = Some r -> point_of r = plus (point_of p) (point_of q).
Proof.
  destruct p as [[x1 y1]|]; [|by intros [= <-]]. destruct q as [[x2 y2]|]; [|by intros [= <-]].
  unfold plus_big. rewrite !word_zero. cbn [point_of]. unfold plus.
  assert (Hs : forall a b, word (b - a)%bigZ = zero <-> word a = word b).
  { intros a b. rewrite word_sub. split; [intros E; symmetry; by apply sub_0|intros ->; ring]. }
  destruct (decide (word x1 = word x2)) as [E|N]; [|rewrite bool_decide_false by (by rewrite Hs)].
  - rewrite bool_decide_true by (by rewrite Hs). destruct (decide (word y1 = word y2)) as [Ey|Ny].
    + rewrite bool_decide_true by (by rewrite Hs). intros Hr%plus_by_third. rewrite Hr. unfold tangent. autorewrite with elem.
      do 3 f_equal. ring.
    + rewrite bool_decide_false by (by rewrite Hs). by intros [= <-].
  - intros Hr%plus_by_third. rewrite Hr. by autorewrite with elem.
Qed.
Lemma times_big_times k p r : on_curve (point_of p) -> times_big k p = Some r -> point_of r = times (Zpos k) (point_of p).
Proof.
  intros Hp. revert r. induction k as [k IH|k IH|]; cbn [times_big]; intros r H.
  - destruct (times_big k p) as [q|]; [|done]. cbn [mbind option_bind] in H. destruct (plus_big q q) as [q2|] eqn:E2; [|done].
    apply plus_big_plus in E2, H. rewrite (IH _ eq_refl) in E2. rewrite H, E2, <- times_add by done.
    rewrite <- times_succ by done. f_equal. lia.
  - destruct (times_big k p) as [q|]; [|done]. apply plus_big_plus in H. rewrite H, (IH _ eq_refl), <- times_add by done. f_equal. lia.
  - injection H as <-. by rewrite times_1.
Qed.

(** ** The base point has the order that the code states *)

Definition base_big : big_point := Eval vm_compute in Some (BigZ.of_Z (sc_Gx NewStarkCurve), BigZ.of_Z (sc_Gy NewStarkCurve)).
Definition G : point := Some (elem (sc_Gx NewStarkCurve), elem (sc_Gy NewStarkCurve)).
Lemma order_N : sc_N NewStarkCurve = point_order.
Proof. done. Qed.
Lemma base_big_G : point_of base_big = G.
Proof. done. Qed.
Lemma G_on : on_curve G.
Proof. apply IsOnCurve_spec. by vm_compute. Qed.
Lemma G_enc : enc G = (sc_Gx NewStarkCurve, sc_Gy NewStarkCurve).
Proof. cbn [G enc]. rewrite !to_Z_elem. by vm_compute. Qed.

Lemma order_certified : times_big (Z.to_pos point_order) base_big = Some None.
Proof. vm_cast_no_check (eq_refl (Some (@None (bigZ * bigZ)))). Qed.
Lemma G_order : times point_order G = None.
Proof.
  pose proof (times_big_times (Z.to_pos point_order) base_big None) as H. rewrite base_big_G in H.
  rewrite Z2Pos.id in H by done. symmetry. apply H; [apply G_on|apply order_certified].
Qed.

(** ** The code's points are a group *)

(** The point at infinity, or reduced coordinates on the curve. *)
Definition valid_point (xy : Z * Z) : bool :=
  ((xy.1 =? 0) && (xy.2 =? 0)) ||
  ((0 <=? xy.1) && (xy.1 <? sc_P NewStarkCurve) && (0 <=? xy.2) && (xy.2 <? sc_P NewStarkCurve) && IsOnCurve NewStarkCurve xy.1 xy.2).
Definition add_points (p q : Z * Z) : option (Z * Z) := Add NewStarkCurve p.1 p.2 q.1 q.2.
Definition add1_points (p q : Z * Z) : option (Z * Z) := Add1 NewStarkCurve p.1 p.2 q.1 q.2.
Lemma valid_point_spec xy : valid_point xy = true <-> exists p, on_curve p /\ xy = enc p.
Proof.
  destruct xy as [x y]. unfold valid_point. cbn [fst snd]. rewrite orb_true_iff, !andb_true_iff, !Z.eqb_eq, !Z.leb_le, !Z.ltb_lt, IsOnCurve_spec, order_P. split.
  - intros [[-> ->]|[[[[??]?]?] Ho]]; [by exists None|]. exists (Some (elem x, elem y)). split; [done|]. cbn [enc].
    by rewrite !to_Z_elem, !Z.mod_small.
  - intros ([[a b]|] & Hp & E); cbn [enc] in E; injection E as -> ->; [right|by left].
    pose proof (to_Z_bound a). pose proof (to_Z_bound b). rewrite !elem_to_Z. repeat split; (lia || exact Hp).
Qed.

(** C12: On the points of the Stark curve the code's two additions agree, never divide by zero, stay on the
    curve, and are commutative, associative, with (0, 0) neutral and an opposite for every point. *)
Theorem Add_group A B C : valid_point A = true -> valid_point B = true -> valid_point C = true ->
  (exists S T, add_points A B = Some S /\ add1_points A B = Some S /\ add_points B A = Some S /\ valid_point S = true /\
     add_points B C = Some T /\ valid_point T = true /\ add_points S C = add_points A T) /\
  add_points A (0, 0) = Some A /\
  (exists A', valid_point A' = true /\ add_points A A' = Some (0, 0)).
Proof.
  intros (p & Hp & ->)%valid_point_spec (q & Hq & ->)%valid_point_spec (r & Hr & ->)%valid_point_spec.
  pose proof (plus_on _ _ Hp Hq) as Hpq. pose proof (plus_on _ _ Hq Hr) as Hqr. pose proof (neg_on _ Hp) as Hn. unfold add_points, add1_points.
  split; [|split].
  - exists (enc (plus p q)), (enc (plus q r)). rewrite !Add_plus, Add1_plus by done. rewrite (plus_comm q p), plus_assoc by done.
    repeat split; apply valid_point_spec; eauto.
  - pose proof (Add_plus p None Hp I) as E. by rewrite plus_0_r in E.
  - exists (enc (neg p)). split; [apply valid_point_spec; eauto|]. by rewrite Add_plus, plus_opp.
Qed.
