(* ===== verification/StarkHash.v ===== *)
(** * The hashes of the EdgeX client

    [CalcHash] of sdk/edgex/starkcurve/hash.go, [FastHash] of fast_hash.go with the tables
    that [InitHashParams] fills, and what the signatures use of the standard library of Go:
    crypto/sha256 and crypto/hmac (FIPS 180-4 and 198-1), with known answers. *)
From Stdlib Require Import ZArith.
From stdpp Require Import base list option numbers strings.
From S2P Require Import Prelude StarkConstants StarkCurve.

Open Scope Z_scope.

(** ** Bit by bit

    The loop variables are what is left of the input and the shift point. *)
Definition hash_bit (i : Z) (st : Z * (Z * Z)) (j : Z) : option (Z * (Z * Z)) :=
  let '(x, (shiftPointx, shiftPointy)) := st in
  let pos := 2 + i * 252 + j in
  pt ← element (cfg_ConstantPoints cfg) pos; let '(ptx, pty) := pt in
  shift ← (if negb (Z.land x 1 =? 0) then Add NewStarkCurve shiftPointx shiftPointy ptx pty
           else Some (shiftPointx, shiftPointy));
  Some (Z.shiftr x 1, shift).
Definition hash_input (st : Z * (Z * Z)) (x : Z) : option (Z * (Z * Z)) :=
  let '(i, shift) := st in
  st ← range_loop (hash_bit i) (seqZ 0 252) (x, shift);
  Some (i + 1, snd st).
Definition CalcHash (input : list Z) : option bytes :=
  shift ← element (cfg_ConstantPoints cfg) 0;
  st ← range_loop hash_input input (0, shift);
  Some (Bytes (fst (snd st))).

(** ** Byte by byte *)

Definition pedersenHashBits : Z := 252.
(** An entry of a table, nil until it is assigned. *)
Definition HashPoint : Type := option (Z * Z).

(** One entry of a table: [offset] is 0 for the first, [pedersenHashBits] for the second. *)
Definition init_hash_entry (offset i j : Z) (hashParams : list HashPoint) : option (list HashPoint) :=
  let '(highestBitIdx, remainder) := splitInt j in
  let idx := i * compactBits in
  points ← (if idx + highestBitIdx + 1 <? 253 then element (cfg_ConstantPoints cfg) (offset + idx + highestBitIdx + 1)
            else Some (0, 0));
  let '(x, y) := points in
  if remainder =? 0 then assign hashParams (Z.shiftl i compactBits + j) (Some (x, y))
  else
    r ← mjoin (element hashParams (Z.shiftl i compactBits + remainder)); let '(x3, y3) := r in
    x5y5 ← Add NewStarkCurve x3 y3 x y;
    assign hashParams (Z.shiftl i compactBits + j) (Some x5y5).
(** The two tables are filled side by side; neither reads the other. *)
Definition init_hash_point (i : Z) (params : list HashPoint * list HashPoint) (j : Z) : option (list HashPoint * list HashPoint) :=
  hashParams1 ← init_hash_entry 0 i j (fst params);
  hashParams2 ← init_hash_entry pedersenHashBits i j (snd params);
  Some (hashParams1, hashParams2).
Definition empty_params : list HashPoint :=
  replicate (Z.to_nat ((pedersenHashBits / compactBits + 1) * Z.shiftl 1 compactBits)) None.
Definition hash_chunks : list Z := seqZ 0 ((pedersenHashBits + compactBits - 1) / compactBits).
Definition InitHashParams : option (list HashPoint * list HashPoint) :=
  range_loop (fun params i => range_loop (init_hash_point i) (seqZ 0 (Z.shiftl 1 compactBits)) params)
    hash_chunks (empty_params, empty_params).

Definition hash_chunk (hashParams : list HashPoint) (st : Z * (Z * Z)) (i : Z) : option (Z * (Z * Z)) :=
  let '(x1, (shiftPointx, shiftPointy)) := st in
  let mask := Z.shiftl 1 compactBits - 1 in
  let maskResult := Z.land x1 mask in
  shift ← (if 0 <? maskResult then
             hashVal ← mjoin (element hashParams (Z.shiftl (i * 1) compactBits + maskResult)); let '(X, Y) := hashVal in
             Add NewStarkCurve shiftPointx shiftPointy X Y
           else Some (shiftPointx, shiftPointy));
  Some (Z.shiftr x1 compactBits, shift).
(** The nil of an input that is no field element is the [None] inside. *)
Definition FastHash (params : list HashPoint * list HashPoint) (x y : Z) : option (option bytes) :=
  if cfg_FieldPrime cfg <=? x then Some None
  else if cfg_FieldPrime cfg <=? y then Some None
  else
    shift ← element (cfg_ConstantPoints cfg) 0;
    st1 ← range_loop (hash_chunk (fst params)) hash_chunks (x, shift);
    st2 ← range_loop (hash_chunk (snd params)) hash_chunks (y, snd st1);
    Some (Some (Bytes (fst (snd st2)))).

(** ** Words of 32 bits *)

Definition word32 (z : Z) : Z := z mod 2 ^ 32.
Definition rotr (n x : Z) : Z := Z.lor (Z.shiftr x n) (word32 (Z.shiftl x (32 - n))).
Definition lxor3 (a b c : Z) : Z := Z.lxor (Z.lxor a b) c.
Definition Ch (x y z : Z) : Z := Z.lxor (Z.land x y) (Z.land (Z.ldiff (Z.ones 32) x) z).
Definition Maj (x y z : Z) : Z := lxor3 (Z.land x y) (Z.land x z) (Z.land y z).
Definition Sigma0 (x : Z) : Z := lxor3 (rotr 2 x) (rotr 13 x) (rotr 22 x).
Definition Sigma1 (x : Z) : Z := lxor3 (rotr 6 x) (rotr 11 x) (rotr 25 x).
Definition sigma0 (x : Z) : Z := lxor3 (rotr 7 x) (rotr 18 x) (Z.shiftr x 3).
Definition sigma1 (x : Z) : Z := lxor3 (rotr 17 x) (rotr 19 x) (Z.shiftr x 10).

(** The constants of the rounds and the initial words: the first 32 bits after the point of the cube and square
    roots of the first primes. *)
Definition is_prime (n : Z) : bool := forallb (fun d => negb (n mod d =? 0)) (seqZ 2 (n - 2)).
Definition first_primes (n : nat) : list Z := take n (List.filter is_prime (seqZ 2 400)).
(** The largest number below [2 ^ bits] whose cube is at most [n]. *)
Fixpoint cube_root (bits : nat) (n r : Z) : Z :=
  match bits with
  | O => r
  | S b => let r' := r + 2 ^ Z.of_nat b in cube_root b n (if r' * r' * r' <=? n then r' else r)
  end.
Definition round_constants : list Z := Eval vm_compute in map (fun p => word32 (cube_root 40 (p * 2 ^ 96) 0)) (first_primes 64).
Definition initial_hash : list Z := Eval vm_compute in map (fun p => word32 (Z.sqrt (p * 2 ^ 64))) (first_primes 8).

(** ** Blocks of 64 bytes *)

(** The words of big-endian bytes, and back. *)
Fixpoint words (bs : bytes) : list Z :=
  match bs with a :: b :: c :: d :: bs => SetBytes [a; b; c; d] :: words bs | _ => [] end.
Definition word_bytes (w : Z) : bytes := rev (low_bytes 4 w).

(** The message schedule, the last word first. *)
Fixpoint extend (n : nat) (w : list Z) : list Z :=
  match n with
  | O => w
  | S n =>
      let at_ i := default 0 (w !! i) in
      extend n (word32 (sigma1 (at_ 1%nat) + at_ 6%nat + sigma0 (at_ 14%nat) + at_ 15%nat) :: w)
  end.
Definition schedule (block : bytes) : list Z := rev (extend 48 (rev (words block))).
Definition hash_round (h : list Z) (kw : Z * Z) : list Z :=
  match h with
  | [a; b; c; d; e; f; g; h] =>
      let t1 := h + Sigma1 e + Ch e f g + kw.1 + kw.2 in
      let t2 := Sigma0 a + Maj a b c in
      [word32 (t1 + t2); a; b; c; word32 (d + t1); e; f; g]
  | _ => h
  end.
Definition compress (h : list Z) (block : bytes) : list Z :=
  zip_with (fun x y => word32 (x + y)) h (foldl hash_round h (zip round_constants (schedule block))).

(** The message with a one bit, zeros and its length in bits. *)
Definition padded (m : bytes) : bytes :=
  let len := Z.of_nat (length m) in
  m ++ Byte.x80 :: replicate (Z.to_nat ((55 - len) mod 64)) Byte.x00 ++ rev (low_bytes 8 (len * 8)).
Fixpoint blocks (n : nat) (m : bytes) : list bytes :=
  match n with O => [] | S n => take 64 m :: blocks n (drop 64 m) end.
Definition sha256 (m : bytes) : bytes :=
  let p := padded m in
  concat (map word_bytes (foldl compress initial_hash (blocks (Nat.div (length p) 64) p))).

(** ** HMAC over a hash with blocks of 64 bytes *)

Definition xor_bytes (c : Z) (bs : bytes) : bytes := map (fun b => to_byte (Z.lxor (byte_val b) c)) bs.
Definition hmac (alg : bytes -> bytes) (key m : bytes) : bytes :=
  let key := if (64 <? length key)%nat then alg key else key in
  let key := key ++ replicate (64 - length key) Byte.x00 in
  alg (xor_bytes 0x5c key ++ alg (xor_bytes 0x36 key ++ m)).

(** ** Known answers *)

Definition ascii_bytes (s : string) : bytes := String.list_byte_of_string s.
Example sha256_abc : SetBytes (sha256 (ascii_bytes "abc")) =
  0xba7816bf8f01cfea414140de5dae2223b00361a396177a9cb410ff61f20015ad.
Proof. by vm_compute. Qed.
Example sha256_two_blocks : SetBytes (sha256 (ascii_bytes "abcdbcdecdefdefgefghfghighijhijkijkljklmklmnlmnomnopnopq")) =
  0x248d6a61d20638b8e5c026930c3e6039a33ce45964ff2167f6ecedd419db06c1.
Proof. by vm_compute. Qed.
Example hmac_jefe : SetBytes (hmac sha256 (ascii_bytes "Jefe") (ascii_bytes "what do ya want for nothing?")) =
  0x5bdcc146bf60754e6a042426089575c75a003f089d2739839dec58b964ec3843.
Proof. by vm_compute. Qed.

Lemma compress_length h block : length h = 8%nat -> length (compress h block) = 8%nat.
Proof.
  intros H. unfold compress. rewrite length_zip_with. generalize (zip round_constants (schedule block)) as l.
  enough (forall l h', length h' = 8%nat -> length (foldl hash_round h' l) = 8%nat) as E by (intros l; rewrite E by done; lia).
  induction l as [|kw l IH]; intros h' H'; [done|]. apply IH. by do 9 (destruct h' as [|? h']; try done).
Qed.
Lemma sha256_length m : length (sha256 m) = 32%nat.
Proof.
  unfold sha256. generalize (blocks (Nat.div (length (padded m)) 64) (padded m)) as l.
  enough (forall l h, length h = 8%nat -> length (foldl compress h l) = 8%nat) as E.
  { intros l. specialize (E l initial_hash eq_refl). revert E. generalize (foldl compress initial_hash l) as h. intros h H.
    by do 9 (destruct h as [|? h]; try done). }
  induction l as [|b l IH]; intros h H; [done|]. apply IH, compress_length, H.
Qed.
