(* ===== verification/StarkBase.v ===== *)
(** * Multiples and sums of points

    The constants are points of the curve and the doubles of the base point; the
    multiplications of starkcurve.go and fast_basemult.go compute multiples; the tables
    filled from the bits of an index hold sums. *)
From Bignums Require Import BigZ.
From Stdlib Require Import ZArith Zdivisibility Zmod.Zmod.
From stdpp Require Import base tactics decidable option list numbers.
From S2P Require Import Prelude StarkPrimes CurveGroup StarkConstants StarkCurve StarkField StarkHash.

Open Scope Z_scope.

(** ** Checks on machine words *)

Definition big_of (xy : Z * Z) : big_point := Some (BigZ.of_Z xy.1, BigZ.of_Z xy.2).
Definition on_curve_big (p : big_point) : bool :=
  match p with Some (x, y) => ((y * y - (x * x * x + x + big_b)) mod big_p =? 0)%bigZ | None => true end.
Definition reduced (xy : Z * Z) : bool := (0 <=? xy.1) && (xy.1 <? field_order) && (0 <=? xy.2) && (xy.2 <? field_order).
Definition is_point (xy : Z * Z) : bool := reduced xy && on_curve_big (big_of xy).
Definition same_point (p q : big_point) : bool :=
  match p, q with
  | Some (x, y), Some (x', y') => ((x - x') mod big_p =? 0)%bigZ && ((y - y') mod big_p =? 0)%bigZ
  | None, None => true
  | _, _ => false
  end.
Definition doubled (p q : Z * Z) : bool := match plus_big (big_of p) (big_of p) with Some r => same_point r (big_of q) | None => false end.
Fixpoint doubles (p : Z * Z) (l : list (Z * Z)) : bool :=
  match l with [] => true | q :: l => doubled p q && doubles q l end.

Lemma word_sub_zero a b : ((a - b) mod big_p =? 0)%bigZ = bool_decide (word a = word b).
Proof.
  rewrite word_zero, word_sub. apply bool_decide_ext. split; [apply sub_0|intros ->; ring].
Qed.
Lemma point_of_big xy : point_of (big_of xy) = Some (elem xy.1, elem xy.2).
Proof. unfold big_of. cbn [point_of]. unfold word. by rewrite !BigZ.spec_of_Z. Qed.
Lemma on_curve_big_spec p : on_curve_big p = true -> on_curve (point_of p).
Proof.
  destruct p as [[x y]|]; [|done]. unfold on_curve_big. rewrite word_sub_zero. autorewrite with elem. intros H%bool_decide_eq_true.
  cbn [point_of on_curve]. rewrite H. unfold cubic. ring.
Qed.
Lemma same_point_spec p q : same_point p q = true -> point_of p = point_of q.
Proof.
  destruct p as [[x y]|], q as [[x' y']|]; try done. unfold same_point. rewrite !word_sub_zero.
  rewrite andb_true_iff, !bool_decide_eq_true. intros [Hx Hy]. cbn [point_of]. by rewrite Hx, Hy.
Qed.
Lemma reduced_enc xy : reduced xy = true -> enc (Some (elem xy.1, elem xy.2)) = xy.
Proof.
  unfold reduced. rewrite !andb_true_iff, !Z.leb_le, !Z.ltb_lt. intros [[[??]?]?]. destruct xy as [x y]. cbn [fst snd enc] in *.
  by rewrite !to_Z_elem, !Z.mod_small.
Qed.
Lemma is_point_spec xy : is_point xy = true -> exists p, on_curve p /\ p <> None /\ xy = enc p.
Proof.
  unfold is_point. rewrite andb_true_iff. intros [Hr Ho]. exists (Some (elem xy.1, elem xy.2)).
  apply on_curve_big_spec in Ho. rewrite point_of_big in Ho. by rewrite reduced_enc.
Qed.

(** ** The tables *)

Definition chained (l : list (Z * Z)) : bool :=
  match l with p :: l => same_point base_big (big_of p) && doubles p l | [] => false end.
Lemma ConstantPoints_certified : forallb is_point (cfg_ConstantPoints cfg) = true.
Proof. vm_cast_no_check (eq_refl true). Qed.
Lemma constPoints_reduced : forallb reduced constPoints = true.
Proof. vm_cast_no_check (eq_refl true). Qed.
Lemma constPoints_chained : chained constPoints = true.
Proof. vm_cast_no_check (eq_refl true). Qed.
Lemma forallb_lookup {A} (f : A -> bool) l i a : forallb f l = true -> l !! i = Some a -> f a = true.
Proof. rewrite forallb_forall. intros H Hi. apply H, list_elem_of_In. by eapply list_elem_of_lookup_2. Qed.
Lemma constPoints_length : length constPoints = 256%nat.
Proof. by vm_compute. Qed.
Lemma cfg_ConstantPoints_length : length (cfg_ConstantPoints cfg) = 506%nat.
Proof. by vm_compute. Qed.

Lemma doubles_spec p l k i xy : 0 <= k -> doubles p l = true -> point_of (big_of p) = times (2 ^ k) G ->
  l !! i = Some xy -> point_of (big_of xy) = times (2 ^ (k + 1 + Z.of_nat i)) G.
Proof.
  intros Hk. revert p k i Hk. induction l as [|q l IH]; intros p k i Hk; [done|]. cbn [doubles]. rewrite andb_true_iff. intros [Hd Hl] Hp.
  assert (Hq : point_of (big_of q) = times (2 ^ (k + 1)) G).
  { unfold doubled in Hd. destruct (plus_big (big_of p) (big_of p)) as [r|] eqn:Er; [|done].
    apply same_point_spec in Hd. apply plus_big_plus in Er. rewrite <- Hd, Er, Hp, <- times_add by (apply G_on || by apply Z.pow_nonneg).
    f_equal. rewrite Z.pow_add_r by lia. lia. }
  destruct i as [|i]; cbn [lookup list_lookup].
  - intros [= ->]. rewrite Hq. do 2 f_equal. lia.
  - intros H. rewrite (IH q (k + 1) i ltac:(lia) Hl Hq H). do 2 f_equal. lia.
Qed.

Lemma chained_times l i xy : chained l = true -> l !! i = Some xy -> point_of (big_of xy) = times (2 ^ Z.of_nat i) G.
Proof.
  destruct l as [|p l]; [done|]. cbn [chained]. rewrite andb_true_iff. intros [Cp Cl].
  apply same_point_spec in Cp. rewrite base_big_G in Cp.
  destruct i as [|i]; cbn [lookup list_lookup]; [intros [= <-]; by rewrite <- Cp, Z.pow_0_r, times_1|].
  intros H. rewrite (doubles_spec p l 0 i xy ltac:(lia) Cl ltac:(by rewrite <- Cp, Z.pow_0_r, times_1) H). do 2 f_equal. lia.
Qed.

(** The points of constant_points.go. *)
Lemma constPoints_times i xy : constPoints !! i = Some xy -> xy = enc (times (2 ^ Z.of_nat i) G).
Proof.
  intros H. rewrite <- (reduced_enc _ (forallb_lookup _ _ _ _ constPoints_reduced H)), <- point_of_big. f_equal.
  exact (chained_times _ _ _ constPoints_chained H).
Qed.
(** The points of the Pedersen hash. *)
Lemma ConstantPoints_on i xy : cfg_ConstantPoints cfg !! i = Some xy -> exists p, on_curve p /\ p <> None /\ xy = enc p.
Proof. intros H. exact (is_point_spec _ (forallb_lookup _ _ _ _ ConstantPoints_certified H)). Qed.

(** ** Bytes *)

Lemma byte_val_bound b : 0 <= byte_val b < 256.
Proof. by destruct b. Qed.
Lemma to_byte_val b : to_byte (byte_val b) = b.
Proof. by destruct b. Qed.
Lemma byte_val_to z : byte_val (to_byte z) = z mod 256.
Proof.
  unfold to_byte, byte_val. change 0xFF with (Z.ones 8). rewrite Z.land_ones by done. change (2 ^ 8) with 256.
  pose proof (Z.mod_pos_bound z 256 ltac:(lia)) as Hb. generalize (z mod 256), Hb. clear. intros n Hn.
  destruct (Byte.of_N (Z.to_N n)) as [b|] eqn:E.
  - apply Byte.to_of_N in E. change (Z.of_N (Byte.to_N b) = n). rewrite E. lia.
  - apply Byte.of_N_None_iff in E. lia.
Qed.
Lemma foldl_bytes n bs : foldl (fun n b => n * 256 + byte_val b) n bs = n * 256 ^ Z.of_nat (length bs) + SetBytes bs.
Proof.
  unfold SetBytes. revert n. induction bs as [|b bs IH]; intros n; cbn [foldl length]; [lia|].
  rewrite IH, (IH (0 * 256 + byte_val b)), Nat2Z.inj_succ, Z.pow_succ_r by lia. lia.
Qed.
Lemma SetBytes_cons b bs : SetBytes (b :: bs) = byte_val b * 256 ^ Z.of_nat (length bs) + SetBytes bs.
Proof. unfold SetBytes at 1. cbn [foldl]. rewrite foldl_bytes. lia. Qed.
Lemma SetBytes_app a b : SetBytes (a ++ b) = SetBytes a * 256 ^ Z.of_nat (length b) + SetBytes b.
Proof. unfold SetBytes at 1. rewrite foldl_app, foldl_bytes. done. Qed.
Lemma SetBytes_snoc a b : SetBytes (a ++ [b]) = SetBytes a * 256 + byte_val b.
Proof. rewrite SetBytes_app. reflexivity || (rewrite SetBytes_cons; cbn [length]; change (SetBytes []) with 0; lia). Qed.
Lemma SetBytes_bound bs : 0 <= SetBytes bs < 256 ^ Z.of_nat (length bs).
Proof.
  induction bs as [|b bs IH]; [done|]. rewrite SetBytes_cons. cbn [length]. rewrite Nat2Z.inj_succ, Z.pow_succ_r by lia.
  pose proof (byte_val_bound b). nia.
Qed.
Lemma SetBytes_zeros n bs : SetBytes (replicate n Byte.x00 ++ bs) = SetBytes bs.
Proof. induction n as [|n IH]; [done|]. cbn [replicate app]. rewrite SetBytes_cons, IH. done. Qed.

Lemma low_bytes_length n z : length (low_bytes n z) = n.
Proof. revert z. induction n as [|n IH]; intros z; cbn; [done|]. by rewrite IH. Qed.
Lemma SetBytes_low n z : SetBytes (rev (low_bytes n z)) = z mod 256 ^ Z.of_nat n.
Proof.
  revert z. induction n as [|n IH]; intros z; cbn [low_bytes rev]; [by rewrite Z.mod_1_r|].
  rewrite SetBytes_app, IH. cbn [length]. rewrite SetBytes_cons, byte_val_to. change (SetBytes []) with 0. cbn [length].
  rewrite Z.shiftr_div_pow2 by done. change (2 ^ 8) with 256. change (Z.of_nat 1) with 1. change (Z.of_nat 0) with 0.
  rewrite Nat2Z.inj_succ, Z.pow_succ_r, Z.pow_1_r, Z.pow_0_r by lia.
  pose proof (Z.pow_pos_nonneg 256 (Z.of_nat n)). rewrite Z.rem_mul_r by lia. lia.
Qed.
Lemma BitLen_bound z : 0 <= BitLen z /\ Z.abs z < 2 ^ BitLen z.
Proof.
  unfold BitLen. destruct (Z.abs z =? 0) eqn:E; [apply Z.eqb_eq in E; rewrite E; done|]. apply Z.eqb_neq in E.
  pose proof (Z.log2_nonneg (Z.abs z)). destruct (Z.log2_spec (Z.abs z)) as [_ Hl]; [lia|]. split; [lia|]. by rewrite Z.add_1_r.
Qed.
Lemma BitLen_least z n : 0 <= n -> Z.abs z < 2 ^ n -> BitLen z <= n.
Proof.
  unfold BitLen. intros Hn H. destruct (Z.abs z =? 0) eqn:E; [lia|]. apply Z.eqb_neq in E.
  enough (Z.log2 (Z.abs z) < n) by lia. apply Z.log2_lt_pow2; lia.
Qed.
(** Reading what was written gives the absolute value. *)
Lemma SetBytes_Bytes z : SetBytes (Bytes z) = Z.abs z.
Proof.
  unfold Bytes. rewrite SetBytes_low. apply Z.mod_small. split; [lia|]. destruct (BitLen_bound z) as [H0 H].
  rewrite Z2Nat.id by (apply Z.div_pos; lia). eapply Z.lt_le_trans; [exact H|]. change 256 with (2 ^ 8).
  rewrite <- Z.pow_mul_r by (try apply Z.div_pos; lia). apply Z.pow_le_mono_r; [lia|]. pose proof (Z.div_mod (BitLen z + 7) 8).
  pose proof (Z.mod_pos_bound (BitLen z + 7) 8). lia.
Qed.
Lemma Bytes_length z n : 0 <= n -> Z.abs z < 256 ^ n -> Z.of_nat (length (Bytes z)) <= n.
Proof.
  intros Hn H. unfold Bytes. rewrite length_rev, low_bytes_length. rewrite Z2Nat.id by (pose proof (BitLen_bound z); apply Z.div_pos; lia).
  change 256 with (2 ^ 8) in H. rewrite <- Z.pow_mul_r in H by lia. apply BitLen_least in H; [|lia].
  enough ((BitLen z + 7) / 8 < n + 1) by lia. apply Z.div_lt_upper_bound; lia.
Qed.

(** ** Loops *)

Lemma range_loop_inv {X S} (f : S -> X -> option S) (I : nat -> S -> Prop) l s :
  I 0%nat s -> (forall k x s, l !! k = Some x -> I k s -> exists s', f s x = Some s' /\ I (Datatypes.S k) s') ->
  exists s', range_loop f l s = Some s' /\ I (length l) s'.
Proof.
  revert I s. induction l as [|x l IH]; intros I s H0 Hs; [by exists s|]. cbn [range_loop].
  destruct (Hs 0%nat x s eq_refl H0) as (s1 & -> & H1). cbn [mbind option_bind length].
  destruct (IH (fun k => I (Datatypes.S k)) s1 H1) as (s' & H & HI); [|by exists s'].
  intros k y t Hk. apply (Hs (Datatypes.S k) y t Hk).
Qed.

Lemma range_loop_ext {X S} (f g : S -> X -> option S) l s : (forall s x, f s x = g s x) -> range_loop f l s = range_loop g l s.
Proof. intros H. revert s. induction l as [|x l IH]; intros s; cbn [range_loop]; [done|]. rewrite H. destruct (g s x); [apply IH|done]. Qed.

(** ** The bits of a byte

    [byteData] holds, from the top, the [n] bits that are left: the next is worth 2^(n-1). *)
Definition left_bits (n : nat) (byteData : Z) : Z := byteData / 2 ^ (8 - Z.of_nat n).
Definition next_bits (byteData : Z) : Z := Z.land (Z.shiftl byteData 1) 0xFF.
Lemma all_bytes (f : Z -> bool) b : forallb f (seqZ 0 256) = true -> 0 <= b < 256 -> f b = true.
Proof. rewrite forallb_forall. intros H Hb. apply H, list_elem_of_In, elem_of_seqZ. lia. Qed.

Lemma top_bit b : 0 <= b < 256 -> (Z.land b 0x80 =? 0x80) = (b / 128 =? 1).
Proof. intros H. apply eqb_prop. by apply (all_bytes (fun b => Bool.eqb (Z.land b 0x80 =? 0x80) (b / 128 =? 1))). Qed.
Lemma next_bits_bound b : 0 <= next_bits b < 256.
Proof. unfold next_bits. change 0xFF with (Z.ones 8). rewrite Z.land_ones by done. by apply Z.mod_pos_bound. Qed.
Lemma left_bits_step n b : (n < 8)%nat -> 0 <= b < 256 ->
  left_bits (S n) b = b / 128 * 2 ^ Z.of_nat n + left_bits n (next_bits b).
Proof.
  intros Hn H. apply Z.eqb_eq. revert b H. intros b. apply (all_bytes (fun b => left_bits (S n) b =? b / 128 * 2 ^ Z.of_nat n + left_bits n (next_bits b))).
  do 8 (destruct n as [|n]; [by vm_compute|]). lia.
Qed.
Lemma left_bits_bound n b : (n <= 8)%nat -> 0 <= b < 256 -> 0 <= left_bits n b < 2 ^ Z.of_nat n.
Proof.
  intros Hn H. unfold left_bits. pose proof (Z.pow_pos_nonneg 2 (8 - Z.of_nat n)). split; [apply Z.div_pos; lia|].
  apply Z.div_lt_upper_bound; [lia|]. rewrite <- Z.pow_add_r by lia. replace (8 - Z.of_nat n + Z.of_nat n) with 8 by lia. apply H.
Qed.
Lemma left_bits_0 b : 0 <= b < 256 -> left_bits 0 b = 0.
Proof. intros H. by apply Z.div_small. Qed.
Lemma left_bits_8 b : left_bits 8 b = b.
Proof. apply Z.div_1_r. Qed.

(** ** Double and add *)

Section multiples.
Context (Q : point) (n : Z) (Hn : Z.prime n) (HQ : on_curve Q) (HQ0 : Q <> None) (Ho : times n Q = None).

Lemma multiple_finite m : 0 < m < n -> exists x y, times m Q = Some (x, y) /\ on_curve (Some (x, y)).
Proof using All.
  intros Hm. pose proof (times_finite n m Q Hn HQ Ho HQ0) as H. rewrite Z.mod_small in H by lia.
  pose proof (times_on m Q HQ) as Hc. destruct (times m Q) as [[x y]|]; [by exists x, y|]. by destruct H; [lia|lia|].
Qed.

(** What the loop variables hold after the bits of [m]. *)
Definition mult_state (m : Z) : bool * (Z * Z) := (0 <? m, enc (if 0 <? m then times m Q else Q)).
Lemma mult_bit_spec m b : 0 <= m -> 2 * m + b / 128 < n -> 0 <= b < 256 ->
  mult_bit NewStarkCurve (enc Q).1 (enc Q).2 (mult_state m) b = Some (mult_state (2 * m + b / 128)).
Proof using All.
  intros Hm Hlt Hb. assert (Hbit : b / 128 = 0 \/ b / 128 = 1).
  { pose proof (Z.div_pos b 128). pose proof (Z.div_lt_upper_bound b 128 2). lia. }
  unfold mult_bit, mult_state. destruct (0 <? m) eqn:E.
  - apply Z.ltb_lt in E. destruct (multiple_finite m) as (x & y & Em & Hxy); [lia|]. rewrite Em. cbn [enc].
    rewrite (Double_plus _ _ Hxy). cbn [mbind option_bind]. rewrite <- Em, <- times_add by done. rewrite (top_bit b Hb).
    replace (0 <? 2 * m + b / 128) with true by (symmetry; apply Z.ltb_lt; lia).
    destruct Hbit as [-> | ->]; cbn [Z.eqb Pos.eqb].
    + rewrite Z.add_0_r, <- Z.add_diag. by destruct (enc (times (m + m) Q)).
    + pose proof (Add_plus Q (times (m + m) Q) HQ (times_on _ _ HQ)) as Ha. destruct (enc (times (m + m) Q)) as [x' y'].
      cbn [fst snd] in Ha. rewrite Ha. cbn [mbind option_bind]. rewrite <- times_succ by lia. do 4 f_equal. lia.
  - apply Z.ltb_ge in E. assert (m = 0) as -> by lia. cbn [mbind option_bind]. rewrite (top_bit b Hb).
    destruct (enc Q) as [x y] eqn:EQ. destruct Hbit as [-> | ->]; cbn [Z.eqb Pos.eqb].
    + change (0 <? 2 * 0 + 0) with false. cbv iota. by rewrite EQ.
    + change (0 <? 2 * 0 + 1) with true. change (2 * 0 + 1) with 1. cbv iota. by rewrite times_1, EQ.
Qed.
Lemma mult_bits_spec k m b : (k <= 8)%nat -> 0 <= m -> m * 2 ^ Z.of_nat k + left_bits k b < n -> 0 <= b < 256 ->
  mult_bits NewStarkCurve k (enc Q).1 (enc Q).2 (mult_state m) b = Some (mult_state (m * 2 ^ Z.of_nat k + left_bits k b)).
Proof using All.
  revert m b. induction k as [|k IH]; intros m b Hk Hm Hlt Hb; cbn [mult_bits].
  - rewrite left_bits_0 by done. do 2 f_equal. lia.
  - pose proof (left_bits_bound k (next_bits b) ltac:(lia) (next_bits_bound b)). pose proof (Z.pow_pos_nonneg 2 (Z.of_nat k)).
    assert (0 <= b / 128) by (apply Z.div_pos; lia).
    assert (E : m * 2 ^ Z.of_nat (S k) + left_bits (S k) b = (2 * m + b / 128) * 2 ^ Z.of_nat k + left_bits k (next_bits b)).
    { rewrite left_bits_step by done || lia. rewrite Nat2Z.inj_succ, Z.pow_succ_r by lia. ring. }
    rewrite E in Hlt |- *. rewrite mult_bit_spec by (done || nia). cbn [mbind option_bind]. fold (next_bits b).
    apply IH; [lia|lia|done|apply next_bits_bound].
Qed.
Lemma ScalarMult_spec k : SetBytes k < n ->
  ScalarMult NewStarkCurve (enc Q).1 (enc Q).2 k = Some (if 0 <? SetBytes k then Some (enc (times (SetBytes k) Q)) else None).
Proof using All.
  intros Hk. unfold ScalarMult.
  destruct (range_loop_inv (fun st b => mult_bits NewStarkCurve 8 (enc Q).1 (enc Q).2 st (byte_val b))
    (fun i st => st = mult_state (SetBytes (take i k))) k (false, enc Q)) as (st & E & ->).
  - done.
  - intros i b st Hi ->. eexists. split; [|reflexivity]. pose proof (byte_val_bound b). pose proof (SetBytes_bound (take i k)).
    assert (Es : SetBytes (take (S i) k) = SetBytes (take i k) * 2 ^ Z.of_nat 8 + left_bits 8 (byte_val b)).
    { rewrite (take_S_r _ _ b), SetBytes_snoc, left_bits_8 by done. lia. }
    rewrite Es. apply mult_bits_spec; [lia|lia| |done]. rewrite <- Es. eapply Z.le_lt_trans; [|exact Hk].
    rewrite <- (take_drop (S i) k) at 2. rewrite SetBytes_app. pose proof (SetBytes_bound (drop (S i) k)).
    pose proof (SetBytes_bound (take (S i) k)). pose proof (Z.pow_pos_nonneg 256 (Z.of_nat (length (drop (S i) k)))). nia.
  - destruct (enc Q) as [x y] eqn:EQ. cbn [fst snd] in E |- *. rewrite E. cbn [mbind option_bind]. rewrite take_ge by done.
    unfold mult_state. by destruct (0 <? SetBytes k).
Qed.
End multiples.

(** ** Sums *)

Section sums.
Context (pt : Z -> point) (pt_on : forall p, on_curve (pt p)).

(** The points at [base] and after, for the first [n] bits of [j]. *)
Fixpoint bit_sum (base j : Z) (n : nat) : point :=
  match n with
  | O => None
  | S n => plus (bit_sum base j n) (if Z.testbit j (Z.of_nat n) then pt (base + Z.of_nat n) else None)
  end.
Lemma bit_sum_on base j n : on_curve (bit_sum base j n).
Proof using pt_on. induction n as [|n IH]; cbn [bit_sum]; [done|]. apply plus_on; [done|]. by destruct (Z.testbit _ _). Qed.
Lemma bit_sum_ext base j j' n : (forall p, 0 <= p < Z.of_nat n -> Z.testbit j p = Z.testbit j' p) -> bit_sum base j n = bit_sum base j' n.
Proof. induction n as [|n IH]; intros H; cbn [bit_sum]; [done|]. rewrite H, IH by (intros; try apply H; lia). done. Qed.
Lemma bit_sum_more base j n m : (n <= m)%nat -> (forall p, Z.of_nat n <= p -> Z.testbit j p = false) -> bit_sum base j m = bit_sum base j n.
Proof.
  intros Hm H. induction m as [|m IH]; [by replace n with 0%nat by lia|]. destruct (decide (n = S m)) as [->|]; [done|].
  cbn [bit_sum]. rewrite H by lia. cbv iota. rewrite plus_0_r. apply IH. lia.
Qed.
Lemma bit_sum_none base j n : (forall p, base <= p -> pt p = None) -> bit_sum base j n = None.
Proof. intros H. induction n as [|n IH]; cbn [bit_sum]; [done|]. rewrite IH, H by lia. by destruct (Z.testbit _ _). Qed.
(** The sum in two parts. *)
Lemma bit_sum_split base j n m : bit_sum base j (n + m) = plus (bit_sum base j n) (bit_sum (base + Z.of_nat n) (Z.shiftr j (Z.of_nat n)) m).
Proof using pt_on.
  induction m as [|m IH]; [rewrite Nat.add_0_r; cbn [bit_sum]; by rewrite plus_0_r|]. rewrite Nat.add_succ_r. cbn [bit_sum].
  rewrite IH, Z.shiftr_spec by lia. rewrite plus_assoc by (apply bit_sum_on || by destruct (Z.testbit _ _)).
  rewrite Nat2Z.inj_add, (Z.add_comm (Z.of_nat m)), Z.add_assoc. done.
Qed.
(** The highest bit is last. *)
Lemma bit_sum_top base j n : 0 < j -> j < 2 ^ Z.of_nat n ->
  bit_sum base j n = plus (bit_sum base (j - 2 ^ Z.log2 j) n) (pt (base + Z.log2 j)).
Proof.
  intros Hj Hn. pose proof (Z.log2_nonneg j) as Hl. destruct (Z.log2_spec j Hj) as [L1 L2]. rewrite Z.pow_succ_r in L2 by done.
  set (h := Z.to_nat (Z.log2 j)). assert (Eh : Z.of_nat h = Z.log2 j) by (unfold h; lia).
  assert (Hh : (h < n)%nat). { enough (Z.log2 j < Z.of_nat n) by lia. apply Z.log2_lt_pow2; lia. }
  assert (Hr : forall p, Z.log2 j <= p -> Z.testbit (j - 2 ^ Z.log2 j) p = false).
  { intros p Hp. destruct (decide (j = 2 ^ Z.log2 j)) as [E|N]; [by rewrite <- E, Z.sub_diag, Z.testbit_0_l|].
    apply Z.bits_above_log2; [lia|]. eapply Z.lt_le_trans; [|exact Hp]. apply Z.log2_lt_pow2; lia. }
  rewrite (bit_sum_more base j (S h) n) by (lia || (intros p Hp; apply Z.bits_above_log2; lia)).
  rewrite (bit_sum_more base (j - 2 ^ Z.log2 j) h n) by (lia || (intros p Hp; apply Hr; lia)).
  cbn [bit_sum]. rewrite Eh, Z.bit_log2 by done. f_equal. apply bit_sum_ext. intros p Hp.
  assert (E : j = 2 ^ Z.log2 j + (j - 2 ^ Z.log2 j)) by lia. rewrite E at 1.
  rewrite Z.add_nocarry_lxor.
  - rewrite Z.lxor_spec, Z.pow2_bits_false by lia. done.
  - apply Z.bits_inj'. intros q Hq. rewrite Z.land_spec, Z.pow2_bits_eqb, Z.bits_0 by done.
    destruct (Z.log2 j =? q) eqn:Eq; [|done]. apply Z.eqb_eq in Eq. rewrite Hr by lia. done.
Qed.
End sums.

Lemma bit_sum_points pt pt' base j n : (forall p, base <= p < base + Z.of_nat n -> pt p = pt' p) -> bit_sum pt base j n = bit_sum pt' base j n.
Proof. induction n as [|n IH]; intros H; cbn [bit_sum]; [done|]. rewrite IH, H by (intros; try apply H; lia). done. Qed.

(** With the doubles of the base point, the sum is a multiple of it. *)
Definition double_G (p : Z) : point := times (2 ^ p) G.
Lemma double_G_on p : on_curve (double_G p).
Proof. apply times_on, G_on. Qed.
Lemma bit_sum_G base j n : 0 <= base -> 0 <= j -> bit_sum double_G base j n = times (j mod 2 ^ Z.of_nat n * 2 ^ base) G.
Proof.
  intros Hb Hj. induction n as [|n IH]; cbn [bit_sum]; [by rewrite Z.mod_1_r|]. rewrite IH.
  pose proof (Z.pow_pos_nonneg 2 (Z.of_nat n) ltac:(lia) ltac:(lia)) as Hp. pose proof (Z.pow_pos_nonneg 2 base ltac:(lia) Hb) as Hp'.
  assert (E : j mod 2 ^ Z.of_nat (S n) = j mod 2 ^ Z.of_nat n + (if Z.testbit j (Z.of_nat n) then 2 ^ Z.of_nat n else 0)).
  { rewrite Nat2Z.inj_succ, Z.pow_succ_r, Z.mul_comm, Z.rem_mul_r by lia. rewrite <- Z.testbit_spec' by lia.
    destruct (Z.testbit j (Z.of_nat n)); cbn [Z.b2z]; lia. }
  rewrite E. pose proof (Z.mod_pos_bound j _ Hp). destruct (Z.testbit j (Z.of_nat n)); [|by rewrite plus_0_r, Z.add_0_r].
  unfold double_G. rewrite <- times_add by (apply G_on || lia || apply Z.pow_nonneg; lia). rewrite Z.pow_add_r by lia. f_equal. ring.
Qed.

(** ** Elements of slices *)

Lemma element_Some {A} (l : list A) i a : 0 <= i -> l !! Z.to_nat i = Some a -> element l i = Some a.
Proof. intros H E. unfold element. by rewrite (proj2 (Z.leb_le 0 i) H). Qed.
Lemma element_lookup {A} (l : list A) i a : element l i = Some a -> 0 <= i /\ l !! Z.to_nat i = Some a.
Proof. unfold element. destruct (0 <=? i) eqn:E; [|done]. apply Z.leb_le in E. done. Qed.
Lemma assign_Some {A} (l : list A) i a : 0 <= i < Z.of_nat (length l) -> assign l i a = Some (<[Z.to_nat i := a]> l).
Proof. intros H. unfold assign. by rewrite (proj2 (Z.leb_le 0 i)), (proj2 (Z.ltb_lt i _)) by lia. Qed.
Lemma element_insert {A} (l : list A) i j a : 0 <= i < Z.of_nat (length l) -> 0 <= j ->
  element (<[Z.to_nat i := a]> l) j = if decide (i = j) then Some a else element l j.
Proof.
  intros Hi Hj. unfold element. rewrite (proj2 (Z.leb_le 0 j) Hj). destruct (decide (i = j)) as [->|N].
  - apply list_lookup_insert_eq. lia.
  - apply list_lookup_insert_ne. lia.
Qed.

(** ** The tables of byte sums *)

Lemma splitInt_spec j : 0 < j < 256 -> splitInt j = (Z.log2 j + 1, j - 2 ^ Z.log2 j).
Proof.
  intros H. pose (f := fun j => (j =? 0) || ((fst (splitInt j) =? Z.log2 j + 1) && (snd (splitInt j) =? j - 2 ^ Z.log2 j))).
  assert (Hc : f j = true) by (apply all_bytes; [by vm_compute|lia]). unfold f in Hc.
  rewrite orb_true_iff, andb_true_iff, !Z.eqb_eq in Hc. destruct Hc as [Hc|[H1 H2]]; [lia|]. destruct (splitInt j). cbn in H1, H2. by subst.
Qed.

(** The step that the two initialisations share: [pick] reads the constant points. *)
Definition fill (pick : Z -> option (Z * Z)) (i j : Z) (table : list (option (Z * Z))) : option (list (option (Z * Z))) :=
  let '(highestBitIdx, remainder) := splitInt j in
  xy ← pick highestBitIdx;
  if remainder =? 0 then assign table (Z.shiftl i compactBits + j) (Some xy)
  else
    r ← mjoin (element table (Z.shiftl i compactBits + remainder)); let '(x3, y3) := r in
    x5y5 ← Add NewStarkCurve x3 y3 xy.1 xy.2;
    assign table (Z.shiftl i compactBits + j) (Some x5y5).

Section tables.
Context (pt : Z -> point) (pt_on : forall p, on_curve (pt p)) (pick : Z -> Z -> option (Z * Z)).
Hypothesis pick_0 : forall i, 0 <= i < 32 -> exists xy, pick i 0 = Some xy.
Hypothesis pick_ok : forall i h, 0 <= i < 32 -> 0 <= h < 8 -> pick i (h + 1) = Some (enc (pt (i * 8 + h))).
Context (size : nat) (Hsize : 8192 <= Z.of_nat size).

(** The entries of chunk [i] below [j]. *)
Definition filled (table : list (option (Z * Z))) (i j : Z) : Prop :=
  forall j', 0 < j' < j -> element table (i * 256 + j') = Some (Some (enc (bit_sum pt (i * 8) j' 8))).
Definition filled_to (i j : Z) (table : list (option (Z * Z))) : Prop :=
  length table = size /\ filled table i j /\ forall i', 0 <= i' < i -> filled table i' 256.

Lemma fill_spec i j table : 0 <= i < 32 -> 0 <= j < 256 -> filled_to i j table ->
  exists table', fill (pick i) i j table = Some table' /\ filled_to i (j + 1) table'.
Proof using All.
  intros Hi Hj (Hl & Hf & Hp).
  assert (Hpos : Z.shiftl i compactBits = i * 256) by (rewrite Z.shiftl_mul_pow2; done).
  assert (Hb : 0 <= i * 256 + j < Z.of_nat (length table)) by lia.
  assert (Hstep : forall xy, (0 < j -> xy = enc (bit_sum pt (i * 8) j 8)) -> filled_to i (j + 1) (<[Z.to_nat (i * 256 + j) := Some xy]> table)).
  { intros xy Hxy. split; [by rewrite length_insert|]. split.
    - intros j' Hj'. rewrite element_insert by lia. case_decide; [replace j' with j by lia; by rewrite Hxy by lia|]. apply Hf. lia.
    - intros i' Hi' j' Hj'. rewrite element_insert by lia. case_decide; [lia|]. by apply Hp. }
  unfold fill. rewrite Hpos. destruct (decide (j = 0)) as [->|Nj].
  { destruct (pick_0 i Hi) as [xy Exy]. cbn [splitInt Z.eqb]. rewrite Exy. cbn [mbind option_bind]. eexists. split; [by apply assign_Some|].
    apply Hstep. lia. }
  rewrite splitInt_spec by lia. pose proof (Z.log2_nonneg j). destruct (Z.log2_spec j) as [L1 L2]; [lia|].
  assert (Hlog : Z.log2 j < 8) by (apply Z.log2_lt_pow2; lia).
  rewrite pick_ok by lia. cbn [mbind option_bind]. rewrite bit_sum_top in Hstep by lia.
  destruct (j - 2 ^ Z.log2 j =? 0) eqn:Er.
  - apply Z.eqb_eq in Er. eexists. split; [by apply assign_Some|]. apply Hstep. intros _. rewrite Er.
    rewrite (bit_sum_more pt (i * 8) 0 0 8) by (lia || (intros; apply Z.testbit_0_l)). done.
  - apply Z.eqb_neq in Er. rewrite (Hf (j - 2 ^ Z.log2 j)) by lia. cbn [mjoin option_join].
    pose proof (Add_plus _ _ (bit_sum_on pt pt_on (i * 8) (j - 2 ^ Z.log2 j) 8) (pt_on (i * 8 + Z.log2 j))) as Ha.
    destruct (enc (bit_sum pt (i * 8) (j - 2 ^ Z.log2 j) 8)) as [x3 y3]. cbn [fst snd] in Ha. cbn [mbind option_bind]. rewrite Ha.
    cbn [mbind option_bind]. eexists. split; [by apply assign_Some|]. by apply Hstep.
Qed.

(** The whole table, filled chunk by chunk. *)
Lemma fill_all table : length table = size ->
  exists table', range_loop (fun t i => range_loop (fun t j => fill (pick i) i j t) (seqZ 0 256) t) (seqZ 0 32) table = Some table' /\
    length table' = size /\ forall i j, 0 <= i < 32 -> 0 < j < 256 -> element table' (i * 256 + j) = Some (Some (enc (bit_sum pt (i * 8) j 8))).
Proof using All.
  intros Hl.
  destruct (range_loop_inv (fun t i => range_loop (fun t j => fill (pick i) i j t) (seqZ 0 256) t)
    (fun k => filled_to (Z.of_nat k) 0) (seqZ 0 32) table) as (t & E & Hlen & _ & Hall).
  - split; [done|]. split; intros ? ?; lia.
  - intros k i t Hk Ht. apply lookup_seqZ in Hk as [-> Hk]. rewrite Z.add_0_l in *.
    destruct (range_loop_inv (fun t j => fill (pick (Z.of_nat k)) (Z.of_nat k) j t) (fun n => filled_to (Z.of_nat k) (Z.of_nat n)) (seqZ 0 256) t)
      as (t' & E' & Hlen & Hf & Hp); [done| |].
    + intros n j t1 Hn H1. apply lookup_seqZ in Hn as [-> Hn]. rewrite Z.add_0_l.
      destruct (fill_spec (Z.of_nat k) (Z.of_nat n) t1) as (t2 & E2 & H2); [lia..|done|].
      exists t2. split; [done|]. by rewrite Nat2Z.inj_succ, <- Z.add_1_r.
    + exists t'. split; [done|]. rewrite length_seqZ in Hf. split; [done|]. split; [intros ? ?; lia|].
      intros i' Hi'. destruct (decide (i' = Z.of_nat k)) as [->|]; [exact Hf|]. apply Hp. lia.
  - exists t. split; [done|]. split; [done|]. intros i j Hi Hj. apply Hall; [|done]. rewrite length_seqZ. lia.
Qed.
End tables.

(** ** Multiples of the base point *)

Lemma G_finite : G <> None.
Proof. done. Qed.
Lemma G_times_mod k : 0 <= k -> times (k mod point_order) G = times k G.
Proof. intros H. apply times_mod; [done|done|apply G_on|apply G_order]. Qed.

(** ** Doubling and adding *)

Lemma ScalarBaseMult_spec k : SetBytes k < point_order ->
  ScalarBaseMult NewStarkCurve k = Some (if 0 <? SetBytes k then Some (enc (times (SetBytes k) G)) else None).
Proof.
  intros H. pose proof (ScalarMult_spec G point_order point_order_prime G_on G_finite G_order k H) as E. rewrite G_enc in E. exact E.
Qed.

(** ** The doubles of the base point *)

Lemma constPoints_double i : 0 <= i < 256 -> element constPoints i = Some (enc (double_G i)).
Proof.
  intros H. destruct (constPoints !! Z.to_nat i) as [xy|] eqn:E.
  - rewrite (element_Some _ _ _ (proj1 H) E). pose proof (constPoints_times _ _ E) as Exy. rewrite Z2Nat.id in Exy by lia. by rewrite Exy.
  - apply lookup_ge_None in E. rewrite constPoints_length in E. lia.
Qed.

(** What [ScalarBaseMultV2] holds after the bits of [m], with [r] bits to come. *)
Definition sum_state (m : Z) : option (Z * Z) := if 0 <? m then Some (enc (times m G)) else None.
Lemma sum_step m r : 0 <= m -> 0 <= r < 256 ->
  (match sum_state (m * 2 ^ (r + 1)) with
   | None => Some (Some (enc (double_G r)))
   | Some (x, y) => xy ← Add NewStarkCurve (enc (double_G r)).1 (enc (double_G r)).2 x y; Some (Some xy)
   end) = Some (sum_state ((2 * m + 1) * 2 ^ r)).
Proof.
  intros Hm Hr. pose proof (Z.pow_pos_nonneg 2 r ltac:(lia) ltac:(lia)) as Hp. pose proof (Z.pow_pos_nonneg 2 (r + 1) ltac:(lia) ltac:(lia)) as Hp'.
  unfold sum_state. rewrite (proj2 (Z.ltb_lt 0 ((2 * m + 1) * 2 ^ r))) by nia. destruct (0 <? m * 2 ^ (r + 1)) eqn:E.
  - pose proof (Add_plus (double_G r) (times (m * 2 ^ (r + 1)) G) (double_G_on r) (times_on _ _ G_on)) as Ha.
    destruct (enc (times (m * 2 ^ (r + 1)) G)) as [x y]. cbn [fst snd] in Ha. rewrite Ha. cbn [mbind option_bind].
    unfold double_G. rewrite <- times_add by (apply G_on || nia).
    replace (2 ^ r + m * 2 ^ (r + 1)) with ((2 * m + 1) * 2 ^ r) by (rewrite Z.pow_add_r by lia; lia). done.
  - apply Z.ltb_ge in E. assert (m = 0) as -> by nia. unfold double_G. by replace ((2 * 0 + 1) * 2 ^ r) with (2 ^ r) by lia.
Qed.

(** The loop variables when [m] is read and [r] bits are to come. *)
Definition V2_state (m r : Z) : Z * option (Z * Z) := (r - 1, sum_state (m * 2 ^ r)).
Lemma mult_bit_V2_spec m r b : 0 <= m -> 0 <= r < 256 -> 0 <= b < 256 ->
  mult_bit_V2 NewStarkCurve (V2_state m (r + 1)) b = Some (V2_state (2 * m + b / 128) r).
Proof.
  intros Hm Hr Hb. assert (Hbit : b / 128 = 0 \/ b / 128 = 1).
  { pose proof (Z.div_pos b 128). pose proof (Z.div_lt_upper_bound b 128 2). lia. }
  unfold mult_bit_V2, V2_state. rewrite (top_bit b Hb), Z.add_simpl_r. destruct Hbit as [-> | ->]; cbn [Z.eqb Pos.eqb].
  - cbn [mbind option_bind]. do 3 f_equal. rewrite Z.pow_add_r by lia. lia.
  - rewrite constPoints_double by done. pose proof (sum_step m r Hm Hr) as Hs. destruct (enc (double_G r)) as [tx ty].
    cbn [mbind option_bind fst snd] in Hs |- *. rewrite Hs. done.
Qed.
Lemma mult_bits_V2_spec n m r b : (n <= 8)%nat -> 0 <= m -> 0 <= r -> r + Z.of_nat n <= 256 -> 0 <= b < 256 ->
  mult_bits_V2 NewStarkCurve n (V2_state m (r + Z.of_nat n)) b = Some (V2_state (m * 2 ^ Z.of_nat n + left_bits n b) r).
Proof.
  revert m b. induction n as [|n IH]; intros m b Hn Hm Hr Hr' Hb; cbn [mult_bits_V2].
  - rewrite left_bits_0 by done. do 2 f_equal; lia.
  - replace (r + Z.of_nat (S n)) with (r + Z.of_nat n + 1) by lia. rewrite mult_bit_V2_spec by (done || lia).
    cbn [mbind option_bind]. fold (next_bits b). pose proof (Z.div_pos b 128). rewrite IH by (lia || apply next_bits_bound).
    do 2 f_equal. rewrite (left_bits_step n b) by (done || lia). rewrite Nat2Z.inj_succ, Z.pow_succ_r by lia. ring.
Qed.
Lemma ScalarBaseMultV2_spec k : (length k <= 32)%nat -> ScalarBaseMultV2 NewStarkCurve k = Some (sum_state (SetBytes k)).
Proof.
  intros Hk. unfold ScalarBaseMultV2.
  destruct (range_loop_inv (fun st b => mult_bits_V2 NewStarkCurve 8 st (byte_val b))
    (fun i st => st = V2_state (SetBytes (take i k)) (Z.of_nat (length k - i) * 8)) k (Z.of_nat (length k) * 8 - 1, None)) as (st & E & ->).
  - unfold V2_state, sum_state. cbn [take]. change (SetBytes []) with 0. rewrite Z.mul_0_l, Nat.sub_0_r. done.
  - intros i b st Hi ->. eexists. split; [|reflexivity]. pose proof (byte_val_bound b). pose proof (SetBytes_bound (take i k)).
    pose proof (lookup_lt_Some _ _ _ Hi). replace (Z.of_nat (length k - i) * 8) with (Z.of_nat (length k - S i) * 8 + Z.of_nat 8) by lia.
    rewrite mult_bits_V2_spec by lia. do 2 f_equal. by rewrite (take_S_r _ _ b), SetBytes_snoc, left_bits_8 by done.
  - rewrite E. cbn [fmap option_fmap option_map V2_state snd]. by rewrite take_ge, Nat.sub_diag, Z.pow_0_r, Z.mul_1_r by done.
Qed.

(** ** The table of byte multiples *)

Definition pick_point (i highestBitIdx : Z) : option (Z * Z) :=
  let idx := i * compactBits in
  if (idx + highestBitIdx - 1 <? 256) && (0 <=? idx + highestBitIdx - 1)
  then element constPoints (idx + highestBitIdx - 1) else Some (0, 0).
Lemma pick_point_0 i : 0 <= i < 32 -> exists xy, pick_point i 0 = Some xy.
Proof.
  intros H. unfold pick_point. change compactBits with 8. cbv zeta. destruct (0 <=? i * 8 + 0 - 1) eqn:E; [|rewrite andb_false_r; by eexists].
  apply Z.leb_le in E. rewrite (proj2 (Z.ltb_lt _ _)) by lia. cbn [andb]. rewrite constPoints_double by lia. by eexists.
Qed.
Lemma pick_point_ok i h : 0 <= i < 32 -> 0 <= h < 8 -> pick_point i (h + 1) = Some (enc (double_G (i * 8 + h))).
Proof.
  intros Hi Hh. unfold pick_point. change compactBits with 8. cbv zeta.
  rewrite (proj2 (Z.ltb_lt _ _)), (proj2 (Z.leb_le _ _)) by lia. cbn [andb]. rewrite constPoints_double by lia. do 4 f_equal. lia.
Qed.
Lemma init_point_fill i j table : init_point NewStarkCurve i j table = fill (pick_point i) i j table.
Proof.
  unfold init_point, fill, pick_point. destruct (splitInt j) as [h r]. cbv zeta.
  destruct (if _ && _ then _ else _) as [[x y]|]; [|done]. cbn [mbind option_bind fst snd].
  destruct (r =? 0); [done|]. destruct (mjoin _) as [[x3 y3]|]; [|done]. cbn [mbind option_bind].
  by destruct (Add NewStarkCurve x3 y3 x y) as [[x5 y5]|].
Qed.

(** Entry [b] of chunk [i] is [b * 256^i] times the base point. *)
Definition base_table (points : list CurvePoint) : Prop :=
  Z.of_nat (length points) = 8448 /\
  forall i b, 0 <= i < 32 -> 0 < b < 256 -> element points (i * 256 + b) = Some (Some (enc (times (b * 256 ^ i) G))).
Lemma InitStarkCurveParams_spec : exists points, InitStarkCurveParams NewStarkCurve = Some points /\ base_table points.
Proof.
  destruct (fill_all double_G double_G_on pick_point pick_point_0 pick_point_ok 8448%nat ltac:(vm_compute; discriminate)
    (replicate 8448 None)) as (points & E & Hl & H); [by rewrite length_replicate|].
  exists points. split.
  - unfold InitStarkCurveParams. change ((starkCurveBits + compactBits - 1) / compactBits) with 32.
    replace (Z.to_nat ((starkCurveBits / compactBits + 1) * Z.shiftl 1 compactBits)) with 8448%nat by (by vm_compute).
    etransitivity; [|exact E]. unfold init_points. change (Z.shiftl 1 compactBits) with 256.
    apply range_loop_ext. intros t i. apply range_loop_ext. intros t' j. apply init_point_fill.
  - split; [by apply (f_equal Z.of_nat) in Hl|]. intros i b Hi Hb. rewrite H by done. do 3 f_equal. rewrite bit_sum_G by lia.
    rewrite Z.mod_small by lia.
    by replace (256 ^ i) with (2 ^ (i * 8)) by (rewrite Z.mul_comm, Z.pow_mul_r by lia; done).
Qed.

(** What [ScalarBaseMultV3] holds when [m] is read and [r] bytes are to come. *)
Definition V3_state (len m r : Z) : Z * option (Z * Z) := (len - r, sum_state (m * 256 ^ r)).
Lemma mult_byte_V3_spec points len m r b : base_table points -> 0 <= m -> 0 <= r < 32 ->
  mult_byte_V3 NewStarkCurve points len (V3_state len m (r + 1)) b = Some (V3_state len (m * 256 + byte_val b) r).
Proof.
  intros [Hl Ht] Hm Hr. pose proof (byte_val_bound b) as Hb. pose proof (Z.pow_pos_nonneg 256 r ltac:(lia) ltac:(lia)) as Hp.
  assert (Hm' : m * 256 ^ (r + 1) = m * 256 * 256 ^ r) by (rewrite Z.pow_add_r by lia; lia).
  unfold mult_byte_V3, V3_state. replace (len - 1 - (len - (r + 1))) with r by lia. change 0xFF with (Z.ones 8). rewrite Z.land_ones, Z.mod_small by done.
  replace (len - (r + 1) + 1) with (len - r) by lia. rewrite Hm'. destruct (decide (byte_val b = 0)) as [E|N].
  - rewrite E. cbn [Z.eqb negb]. rewrite !Z.add_0_r. unfold element. rewrite (proj2 (Z.leb_le 0 _)) by lia.
    destruct (points !! Z.to_nat (r * 256)) eqn:Ep; [done|]. apply lookup_ge_None in Ep. lia.
  - rewrite Ht by lia. rewrite (proj2 (Z.eqb_neq _ _) N). cbn [mbind option_bind negb].
    destruct (enc (times (byte_val b * 256 ^ r) G)) as [tx ty] eqn:Et. unfold sum_state.
    rewrite (proj2 (Z.ltb_lt 0 ((m * 256 + byte_val b) * 256 ^ r))) by nia. destruct (0 <? m * 256 * 256 ^ r) eqn:E.
    + pose proof (Add_plus _ _ (times_on (byte_val b * 256 ^ r) _ G_on) (times_on (m * 256 * 256 ^ r) _ G_on)) as Ha. rewrite Et in Ha.
      destruct (enc (times (m * 256 * 256 ^ r) G)) as [x y]. cbn [fst snd] in Ha. rewrite Ha. cbn [mbind option_bind].
      rewrite <- times_add by (apply G_on || nia). by replace (byte_val b * 256 ^ r + m * 256 * 256 ^ r) with ((m * 256 + byte_val b) * 256 ^ r) by ring.
    + apply Z.ltb_ge in E. assert (m = 0) as -> by nia. cbn [mbind option_bind]. rewrite Z.mul_0_l, Z.add_0_l, Et. done.
Qed.
Lemma ScalarBaseMultV3_spec points k : base_table points -> (length k <= 32)%nat ->
  ScalarBaseMultV3 NewStarkCurve points k = Some (sum_state (SetBytes k)).
Proof.
  intros Hp Hk. unfold ScalarBaseMultV3.
  destruct (range_loop_inv (mult_byte_V3 NewStarkCurve points (Z.of_nat (length k)))
    (fun i st => st = V3_state (Z.of_nat (length k)) (SetBytes (take i k)) (Z.of_nat (length k - i))) k (0, None)) as (st & E & ->).
  - unfold V3_state, sum_state. cbn [take]. change (SetBytes []) with 0. by rewrite Z.mul_0_l, Nat.sub_0_r, Z.sub_diag.
  - intros i b st Hi ->. eexists. split; [|reflexivity]. pose proof (SetBytes_bound (take i k)). pose proof (lookup_lt_Some _ _ _ Hi).
    replace (Z.of_nat (length k - i)) with (Z.of_nat (length k - S i) + 1) by lia.
    rewrite mult_byte_V3_spec by (done || lia). by rewrite (take_S_r _ _ b), SetBytes_snoc by done.
  - rewrite E. cbn [fmap option_fmap option_map V3_state snd]. by rewrite take_ge, Nat.sub_diag, Z.pow_0_r, Z.mul_1_r by done.
Qed.

(** ** Encodings *)

Lemma pad_left_spec n z : 0 <= n -> 0 <= z < 256 ^ n ->
  exists bs, pad_left n (Bytes z) = Some bs /\ Z.of_nat (length bs) = n /\ SetBytes bs = z.
Proof.
  intros Hn Hz. pose proof (Bytes_length z n Hn) as Hl. rewrite Z.abs_eq in Hl by lia. specialize (Hl (proj2 Hz)).
  unfold pad_left. rewrite (proj2 (Z.ltb_ge _ _)) by lia. eexists. split; [reflexivity|].
  rewrite length_app, length_replicate, SetBytes_zeros, SetBytes_Bytes. lia.
Qed.
Lemma byteLen_32 : byteLen NewStarkCurve = 32.
Proof. done. Qed.
Lemma Marshal_reads x y : 0 <= x < 2 ^ 256 -> 0 <= y < 2 ^ 256 ->
  exists data, Marshal NewStarkCurve x y = Some data /\ length data = 65%nat /\ Unmarshal NewStarkCurve data = Some (x, y).
Proof.
  intros Hx Hy. change (2 ^ 256) with (256 ^ 32) in *. unfold Marshal. rewrite byteLen_32.
  destruct (pad_left_spec 32 x) as (bx & -> & Lx & Ex); [done..|]. destruct (pad_left_spec 32 y) as (by_ & -> & Ly & Ey); [done..|].
  cbn [mbind option_bind]. eexists. split; [reflexivity|]. cbn [length]. rewrite length_app. split; [lia|].
  unfold Unmarshal. rewrite byteLen_32. cbn [length]. rewrite length_app, (proj2 (Z.eqb_eq _ _)) by lia. cbn [negb].
  rewrite take_app_length', drop_app_length' by lia. by rewrite Ex, Ey.
Qed.

(** A point written by [Marshal] is 65 bytes long and [Unmarshal] reads it back. *)
Theorem point_roundtrip x y : 0 <= x < 2 ^ 256 -> 0 <= y < 2 ^ 256 ->
  exists data, Marshal NewStarkCurve x y = Some data /\ length data = 65%nat /\ Unmarshal NewStarkCurve data = Some (x, y).
Proof. apply Marshal_reads. Qed.

(** C13: The table of byte multiples can always be built, and with it the three ways to multiply the base point by a number
    below its order (double and add, the published doubles, a byte at a time) return the same point of the
    curve, or nil for zero. *)
Theorem base_multiples_agree k : (length k <= 32)%nat -> SetBytes k < sc_N NewStarkCurve ->
  exists points R, InitStarkCurveParams NewStarkCurve = Some points /\ ScalarBaseMult NewStarkCurve k = Some R /\
    ScalarBaseMultV2 NewStarkCurve k = Some R /\ ScalarBaseMultV3 NewStarkCurve points k = Some R /\
    match R with
    | Some (x, y) => 0 < SetBytes k /\ IsOnCurve NewStarkCurve x y = true /\ ~ (x = 0 /\ y = 0)
    | None => SetBytes k = 0
    end.
Proof.
  intros Hk Hlt. change (sc_N NewStarkCurve) with point_order in Hlt. destruct InitStarkCurveParams_spec as (points & E & Hp).
  exists points, (sum_state (SetBytes k)).
  split; [exact E|]. split; [exact (ScalarBaseMult_spec k Hlt)|]. split; [exact (ScalarBaseMultV2_spec k Hk)|].
  split; [exact (ScalarBaseMultV3_spec points k Hp Hk)|].
  pose proof (SetBytes_bound k). unfold sum_state. destruct (0 <? SetBytes k) eqn:E0; [|apply Z.ltb_ge in E0; lia]. apply Z.ltb_lt in E0.
  destruct (multiple_finite G point_order point_order_prime G_on G_finite G_order (SetBytes k) (conj E0 Hlt)) as (x & y & -> & Hxy).
  cbn [enc]. split; [done|]. split; [apply IsOnCurve_spec; by rewrite !elem_to_Z|]. intros [Ex Ey]. pose proof (enc_finite _ _ Hxy) as Hf. by rewrite Ex, Ey in Hf.
Qed.
