(* ===== verification/StarkHashFacts.v ===== *)
(** * The Pedersen hash, bit by bit and byte by byte *)
From Stdlib Require Import ZArith Zdivisibility Zmod.Zmod.
From stdpp Require Import base tactics decidable option list numbers.
From S2P Require Import Prelude StarkPrimes CurveGroup StarkConstants StarkCurve StarkField StarkBase StarkHash.

Open Scope Z_scope.

(** ** The points of the hash *)

Definition constant_point (i : Z) : point := match element (cfg_ConstantPoints cfg) i with Some xy => dec xy | None => None end.
Lemma constant_point_on i : on_curve (constant_point i).
Proof.
  unfold constant_point. destruct (element (cfg_ConstantPoints cfg) i) as [xy|] eqn:E; [|done].
  apply element_lookup in E as [_ E]. destruct (ConstantPoints_on _ _ E) as (p & Hp & _ & ->). by rewrite dec_enc.
Qed.
Lemma constant_point_read i : 0 <= i < 506 -> element (cfg_ConstantPoints cfg) i = Some (enc (constant_point i)).
Proof.
  intros H. unfold constant_point. destruct (element (cfg_ConstantPoints cfg) i) as [xy|] eqn:E.
  - apply element_lookup in E as [_ E]. destruct (ConstantPoints_on _ _ E) as (p & Hp & _ & ->). by rewrite dec_enc.
  - unfold element in E. rewrite (proj2 (Z.leb_le 0 i)) in E by lia. apply lookup_ge_None in E. rewrite cfg_ConstantPoints_length in E. lia.
Qed.

(** Bit [p] of the input [i] adds this point. *)
Definition hash_point (i p : Z) : point := constant_point (i * 252 + p + 2).
Lemma hash_point_on i p : on_curve (hash_point i p).
Proof. apply constant_point_on. Qed.
Definition shift_point : point := constant_point 0.
(** The point whose x-coordinate is the hash of two numbers. *)
Definition pedersen (x y : Z) : point := plus (plus shift_point (bit_sum (hash_point 0) 0 x 252)) (bit_sum (hash_point 1) 0 y 252).

(** ** Bit by bit *)

Lemma land_1 x : (Z.land x 1 =? 0) = negb (Z.testbit x 0).
Proof. change 1 with (Z.ones 1). rewrite Z.land_ones by done. change (2 ^ 1) with 2. rewrite Zmod_odd, <- Z.bit0_odd. by destruct (Z.testbit x 0). Qed.
Lemma hash_bit_spec i x j p : i = 0 \/ i = 1 -> 0 <= j < 252 -> on_curve p ->
  hash_bit i (Z.shiftr x j, enc (plus p (bit_sum (hash_point i) 0 x (Z.to_nat j)))) j =
    Some (Z.shiftr x (j + 1), enc (plus p (bit_sum (hash_point i) 0 x (Z.to_nat (j + 1))))).
Proof.
  intros Hi Hj Hp. unfold hash_bit. rewrite constant_point_read by lia. rewrite land_1, Z.shiftr_spec, Z.add_0_l, Z.shiftr_shiftr by lia.
  rewrite Z2Nat.inj_add, Nat.add_1_r by lia. cbn [bit_sum]. rewrite Z2Nat.id by lia.
  pose proof (bit_sum_on (hash_point i) (hash_point_on i) 0 x (Z.to_nat j)) as Hs.
  destruct (enc (plus p (bit_sum (hash_point i) 0 x (Z.to_nat j)))) as [sx sy] eqn:Es. destruct (Z.testbit x j); cbn [negb].
  - replace (2 + i * 252 + j) with (i * 252 + (0 + j) + 2) by lia. fold (hash_point i (0 + j)).
    pose proof (Add_plus _ _ (plus_on _ _ Hp Hs) (hash_point_on i (0 + j))) as Ha. rewrite Es in Ha.
    destruct (enc (hash_point i (0 + j))) as [ptx pty]. cbn [fst snd] in Ha. cbn [mbind option_bind]. rewrite Ha. cbn [mbind option_bind].
    by rewrite plus_assoc by (done || apply hash_point_on).
  - destruct (enc (constant_point (2 + i * 252 + j))). cbn [mbind option_bind]. rewrite plus_0_r, Es. done.
Qed.
Lemma hash_input_spec i x p : i = 0 \/ i = 1 -> on_curve p ->
  hash_input (i, enc p) x = Some (i + 1, enc (plus p (bit_sum (hash_point i) 0 x 252))).
Proof.
  intros Hi Hp. unfold hash_input.
  destruct (range_loop_inv (hash_bit i) (fun n st => st = (Z.shiftr x (Z.of_nat n), enc (plus p (bit_sum (hash_point i) 0 x n)))) (seqZ 0 252) (x, enc p))
    as (st & E & ->).
  - cbn [bit_sum]. by rewrite plus_0_r.
  - intros n j st Hn ->. apply lookup_seqZ in Hn as [-> Hn]. rewrite Z.add_0_l. eexists. split; [|reflexivity].
    pose proof (hash_bit_spec i x (Z.of_nat n) p Hi ltac:(lia) Hp) as H. rewrite Nat2Z.id in H. rewrite H, Nat2Z.inj_succ, <- Z.add_1_r.
    by rewrite Z2Nat.inj_add, Nat2Z.id, Nat.add_1_r by lia.
  - rewrite E. cbn [mbind option_bind snd]. done.
Qed.
Lemma shift_read : element (cfg_ConstantPoints cfg) 0 = Some (enc shift_point).
Proof. by apply constant_point_read. Qed.
Lemma bind_Some {A B} (a : A) (f : A -> option B) : (Some a ≫= f) = f a.
Proof. done. Qed.
Lemma loop_two {S X} (f : S -> X -> option S) s s1 s2 x y : f s x = Some s1 -> f s1 y = Some s2 -> range_loop f [x; y] s = Some s2.
Proof. intros E1 E2. cbn [range_loop]. rewrite E1, bind_Some. by rewrite E2. Qed.
Lemma hash_first_on x : on_curve (plus shift_point (bit_sum (hash_point 0) 0 x 252)).
Proof. apply plus_on; [apply constant_point_on|apply bit_sum_on, hash_point_on]. Qed.
#[local] Opaque plus bit_sum.
Lemma CalcHash_pedersen x y : CalcHash [x; y] = Some (Bytes (enc (pedersen x y)).1).
Proof.
  pose proof (hash_input_spec 0 x shift_point (or_introl eq_refl) (constant_point_on 0)) as E0.
  pose proof (hash_input_spec 1 y _ (or_intror eq_refl) (hash_first_on x)) as E1. change (0 + 1) with 1 in E0.
  unfold CalcHash, pedersen. rewrite shift_read, bind_Some, (loop_two hash_input _ _ _ x y E0 E1), bind_Some. reflexivity.
Qed.

(** ** Byte by byte

    The tables leave out bit 251: their points stop there. *)
Definition table_point (i p : Z) : point := if p <? 251 then hash_point i p else None.
Lemma table_point_on i p : on_curve (table_point i p).
Proof. unfold table_point. by destruct (p <? 251); [apply hash_point_on|]. Qed.

Definition pick_hash (offset i highestBitIdx : Z) : option (Z * Z) :=
  let idx := i * compactBits in
  if idx + highestBitIdx + 1 <? 253 then element (cfg_ConstantPoints cfg) (offset + idx + highestBitIdx + 1) else Some (0, 0).
Lemma pick_hash_0 offset i : 0 <= offset <= 252 -> 0 <= i < 32 -> exists xy, pick_hash offset i 0 = Some xy.
Proof.
  intros Ho H. unfold pick_hash. change compactBits with 8. cbv zeta. destruct (i * 8 + 0 + 1 <? 253) eqn:E; [|by eexists].
  apply Z.ltb_lt in E. rewrite constant_point_read by lia. by eexists.
Qed.
Lemma pick_hash_ok n i h : n = 0 \/ n = 1 -> 0 <= i < 32 -> 0 <= h < 8 ->
  pick_hash (n * 252) i (h + 1) = Some (enc (table_point n (i * 8 + h))).
Proof.
  intros Hn Hi Hh. unfold pick_hash, table_point. change compactBits with 8. cbv zeta.
  replace (i * 8 + (h + 1) + 1 <? 253) with (i * 8 + h <? 251) by (destruct (Z.ltb_spec (i * 8 + h) 251), (Z.ltb_spec (i * 8 + (h + 1) + 1) 253); (done || lia)).
  destruct (i * 8 + h <? 251) eqn:E; [|done]. apply Z.ltb_lt in E. rewrite constant_point_read by lia.
  unfold hash_point. do 3 f_equal. lia.
Qed.
Lemma init_hash_entry_fill offset i j table : init_hash_entry offset i j table = fill (pick_hash offset i) i j table.
Proof.
  unfold init_hash_entry, fill, pick_hash. destruct (splitInt j) as [h r]. cbv zeta.
  destruct (if _ <? _ then _ else _) as [[x y]|]; [|done]. cbn [mbind option_bind fst snd].
  destruct (r =? 0); [done|]. by destruct (mjoin _) as [[x3 y3]|].
Qed.

Definition hash_table (n : Z) (table : list HashPoint) : Prop :=
  forall i b, 0 <= i < 32 -> 0 < b < 256 -> element table (i * 256 + b) = Some (Some (enc (bit_sum (table_point n) (i * 8) b 8))).
Lemma fill_hash n : n = 0 \/ n = 1 ->
  exists table, range_loop (fun t i => range_loop (fun t j => init_hash_entry (n * 252) i j t) (seqZ 0 256) t) (seqZ 0 32) empty_params = Some table /\ hash_table n table.
Proof.
  intros Hn. destruct (fill_all (table_point n) (table_point_on n) (pick_hash (n * 252))
    (fun i => pick_hash_0 (n * 252) i ltac:(lia)) (fun i h => pick_hash_ok n i h Hn) 8192%nat ltac:(vm_compute; discriminate) empty_params) as (table & E & _ & H).
  { by vm_compute. }
  exists table. split; [|exact H]. etransitivity; [|exact E].
  apply range_loop_ext. intros t i. apply range_loop_ext. intros t' j. apply init_hash_entry_fill.
Qed.

(** Two loops side by side. *)
Definition both {S T X} (f : S -> X -> option S) (g : T -> X -> option T) (st : S * T) (x : X) : option (S * T) :=
  s ← f st.1 x; t ← g st.2 x; Some (s, t).
Lemma range_loop_both {S T X} (f : S -> X -> option S) (g : T -> X -> option T) l s s' t t' :
  range_loop f l s = Some s' -> range_loop g l t = Some t' -> range_loop (both f g) l (s, t) = Some (s', t').
Proof.
  revert s t. induction l as [|x l IH]; intros s t; cbn [range_loop]; [by intros [= ->] [= ->]|].
  change (both f g (s, t) x) with (s1 ← f s x; t1 ← g t x; Some (s1, t1)).
  destruct (f s x) as [s1|]; [|done]. destruct (g t x) as [t1|]; [|done]. rewrite !bind_Some. apply IH.
Qed.
Lemma range_loop_both_Some {S T X} (f : S -> X -> option S) (g : T -> X -> option T) l st st' :
  range_loop (both f g) l st = Some st' -> range_loop f l st.1 = Some st'.1 /\ range_loop g l st.2 = Some st'.2.
Proof.
  revert st. induction l as [|x l IH]; intros [s t]; cbn [range_loop fst snd]; [by intros [= <-]|].
  change (both f g (s, t) x) with (s1 ← f s x; t1 ← g t x; Some (s1, t1)).
  destruct (f s x) as [s1|]; [|done]. destruct (g t x) as [t1|]; [|done]. rewrite !bind_Some. apply IH.
Qed.
Lemma both_nested {S T X Y} (f : X -> S -> Y -> option S) (g : X -> T -> Y -> option T) l st x :
  both (fun s x => range_loop (f x) l s) (fun t x => range_loop (g x) l t) st x = range_loop (both (f x) (g x)) l st.
Proof.
  destruct st as [s t]. unfold both at 1. cbn [fst snd]. destruct (range_loop (both (f x) (g x)) l (s, t)) as [[s' t']|] eqn:E.
  - apply range_loop_both_Some in E as [E1 E2]. cbn [fst snd] in E1, E2. by rewrite E1, bind_Some, E2.
  - destruct (range_loop (f x) l s) as [s'|] eqn:Ef; [|done]. destruct (range_loop (g x) l t) as [t'|] eqn:Eg; [|done].
    by rewrite (range_loop_both _ _ _ _ _ _ _ Ef Eg) in E.
Qed.

Definition hash_tables (params : list HashPoint * list HashPoint) : Prop := hash_table 0 params.1 /\ hash_table 1 params.2.
Lemma InitHashParams_spec : exists params, InitHashParams = Some params /\ hash_tables params.
Proof.
  destruct (fill_hash 0 (or_introl eq_refl)) as (t1 & E1 & H1). destruct (fill_hash 1 (or_intror eq_refl)) as (t2 & E2 & H2).
  exists (t1, t2). split; [|by split]. pose proof (range_loop_both _ _ _ _ _ _ _ E1 E2) as E.
  etransitivity; [|exact E]. unfold InitHashParams.
  change (Z.shiftl 1 compactBits) with 256. change hash_chunks with (seqZ 0 32). change pedersenHashBits with (1 * 252).
  apply range_loop_ext. intros t i.
  rewrite (both_nested (fun i t j => init_hash_entry (0 * 252) i j t) (fun i t j => init_hash_entry (1 * 252) i j t)). done.
Qed.

(** ** The fast hash *)

Lemma land_byte x : Z.land x (Z.shiftl 1 compactBits - 1) = x mod 256.
Proof. change (Z.shiftl 1 compactBits - 1) with (Z.ones 8). by rewrite Z.land_ones. Qed.
Lemma bit_sum_byte pt base x : bit_sum pt base (x mod 256) 8 = bit_sum pt base x 8.
Proof. apply bit_sum_ext. intros p Hp. change 256 with (2 ^ 8). apply Z.mod_pow2_bits_low. lia. Qed.
Lemma hash_chunk_spec n table x i p : hash_table n table -> 0 <= i < 32 -> on_curve p ->
  hash_chunk table (Z.shiftr x (8 * i), enc (plus p (bit_sum (table_point n) 0 x (Z.to_nat (8 * i))))) i =
    Some (Z.shiftr x (8 * (i + 1)), enc (plus p (bit_sum (table_point n) 0 x (Z.to_nat (8 * (i + 1)))))).
Proof.
  intros Ht Hi Hp. unfold hash_chunk. rewrite land_byte. change compactBits with 8. rewrite Z.shiftr_shiftr, Z.mul_1_r by lia.
  replace (8 * i + 8) with (8 * (i + 1)) by lia. replace (Z.to_nat (8 * (i + 1))) with (Z.to_nat (8 * i) + 8)%nat by lia.
  pose proof (bit_sum_on _ (table_point_on n) 0 x (Z.to_nat (8 * i))) as Hs.
  pose proof (bit_sum_on _ (table_point_on n) (i * 8) (Z.shiftr x (8 * i) mod 256) 8) as Hb.
  assert (E : bit_sum (table_point n) 0 x (Z.to_nat (8 * i) + 8) =
    plus (bit_sum (table_point n) 0 x (Z.to_nat (8 * i))) (bit_sum (table_point n) (i * 8) (Z.shiftr x (8 * i) mod 256) 8)).
  { rewrite bit_sum_split by apply table_point_on. rewrite Z2Nat.id, Z.add_0_l by lia. rewrite bit_sum_byte. do 2 f_equal. lia. }
  rewrite E, <- plus_assoc by done. pose proof (Z.mod_pos_bound (Z.shiftr x (8 * i)) 256 ltac:(lia)) as Hm.
  set (q := plus p (bit_sum (table_point n) 0 x (Z.to_nat (8 * i)))) in *. assert (Hq : on_curve q) by by apply plus_on.
  destruct (0 <? Z.shiftr x (8 * i) mod 256) eqn:E0.
  - apply Z.ltb_lt in E0. replace (Z.shiftl i 8) with (i * 256) by (by rewrite Z.shiftl_mul_pow2). rewrite Ht by lia. cbn [mjoin option_join].
    pose proof (Add_plus _ _ Hq Hb) as Ha.
    destruct (enc q) as [sx sy]. destruct (enc (bit_sum (table_point n) (i * 8) (Z.shiftr x (8 * i) mod 256) 8)) as [X Y].
    cbn [fst snd] in Ha. rewrite bind_Some, Ha, bind_Some. done.
  - apply Z.ltb_ge in E0. replace (Z.shiftr x (8 * i) mod 256) with 0 by lia.
    rewrite (bit_sum_more _ (i * 8) 0 0 8) by (lia || (intros; apply Z.testbit_0_l)).
    destruct (enc q) as [sx sy] eqn:Eq. rewrite bind_Some. change (bit_sum (table_point n) (i * 8) 0 0) with (@None (F * F)).
    rewrite plus_0_r, Eq. done.
Qed.
Lemma hash_chunks_spec n table x p : hash_table n table -> on_curve p ->
  exists x', range_loop (hash_chunk table) hash_chunks (x, enc p) = Some (x', enc (plus p (bit_sum (table_point n) 0 x 256))).
Proof.
  intros Ht Hp. change hash_chunks with (seqZ 0 32).
  destruct (range_loop_inv (hash_chunk table) (fun k st => st = (Z.shiftr x (8 * Z.of_nat k), enc (plus p (bit_sum (table_point n) 0 x (Z.to_nat (8 * Z.of_nat k)))))) (seqZ 0 32) (x, enc p))
    as (st & E & ->).
  - change (bit_sum (table_point n) 0 x (Z.to_nat (8 * Z.of_nat 0))) with (@None (F * F)). by rewrite plus_0_r.
  - intros k i st Hk ->. apply lookup_seqZ in Hk as [-> Hk]. rewrite Z.add_0_l. eexists. split; [|reflexivity].
    rewrite (hash_chunk_spec n) by (done || lia). by rewrite Nat2Z.inj_succ, <- Z.add_1_r.
  - eexists. rewrite E. rewrite length_seqZ. reflexivity.
Qed.
(** Only the low 251 bits count. *)
Lemma table_sum n x : bit_sum (table_point n) 0 x 256 = bit_sum (hash_point n) 0 (x mod 2 ^ 251) 252.
Proof.
  change 256%nat with (251 + 5)%nat. rewrite bit_sum_split by apply table_point_on.
  rewrite (bit_sum_none _ (0 + Z.of_nat 251)), plus_0_r.
  - rewrite (bit_sum_more _ 0 (x mod 2 ^ 251) 251 252) by (lia || (intros p Hp; apply Z.mod_pow2_bits_high; lia)).
    rewrite (bit_sum_points _ (hash_point n)).
    + apply bit_sum_ext. intros p Hp. symmetry. apply Z.mod_pow2_bits_low. lia.
    + intros p Hp. unfold table_point. by rewrite (proj2 (Z.ltb_lt p 251)) by lia.
  - intros p Hp. unfold table_point. by rewrite (proj2 (Z.ltb_ge p 251)) by lia.
Qed.
Lemma FastHash_pedersen params x y : hash_tables params -> x < field_order -> y < field_order ->
  FastHash params x y = Some (Some (Bytes (enc (pedersen (x mod 2 ^ 251) (y mod 2 ^ 251))).1)).
Proof.
  intros [H1 H2] Hx Hy. unfold FastHash. change (cfg_FieldPrime cfg) with field_order.
  rewrite (proj2 (Z.leb_gt _ _) Hx), (proj2 (Z.leb_gt _ _) Hy), shift_read, bind_Some.
  destruct (hash_chunks_spec 0 params.1 x shift_point H1 (constant_point_on 0)) as [x' ->]. rewrite bind_Some. cbn [snd].
  assert (Hon : on_curve (plus shift_point (bit_sum (table_point 0) 0 x 256))).
  { apply plus_on; [apply constant_point_on|apply bit_sum_on, table_point_on]. }
  destruct (hash_chunks_spec 1 params.2 y _ H2 Hon) as [y' ->]. rewrite bind_Some. cbn [fst snd].
  unfold pedersen. rewrite !table_sum. reflexivity.
Qed.
Lemma FastHash_nil params x y : field_order <= x \/ field_order <= y -> FastHash params x y = Some None.
Proof.
  intros H. unfold FastHash. change (cfg_FieldPrime cfg) with field_order. destruct (Z.leb_spec field_order x); [done|].
  destruct (Z.leb_spec field_order y); [done|]. lia.
Qed.

(** More than two numbers run out of constant points. *)
Lemma hash_bit_outside st : hash_bit 2 st 0 = None.
Proof. destruct st as [x [sx sy]]. by vm_compute. Qed.
Lemma hash_input_outside shift x : hash_input (2, shift) x = None.
Proof.
  unfold hash_input. change (seqZ 0 252) with (0 :: seqZ 1 251). cbn [range_loop]. by rewrite hash_bit_outside.
Qed.
Lemma CalcHash_three x y z l : CalcHash (x :: y :: z :: l) = None.
Proof.
  pose proof (hash_input_spec 0 x shift_point (or_introl eq_refl) (constant_point_on 0)) as E0.
  pose proof (hash_input_spec 1 y _ (or_intror eq_refl) (hash_first_on x)) as E1. change (0 + 1) with 1 in E0. change (1 + 1) with 2 in E1.
  unfold CalcHash. rewrite shift_read, bind_Some. cbn [range_loop]. by rewrite E0, bind_Some, E1, bind_Some, hash_input_outside.
Qed.

(** C14: Once its tables are built, [FastHash] of two field elements never panics and is [CalcHash] of their low 251 bits:
    the two hashes agree below 2^251, and a number from 2^251 on collides with what is left of it. *)
Theorem FastHash_CalcHash x y : 0 <= x < cfg_FieldPrime cfg -> 0 <= y < cfg_FieldPrime cfg ->
  exists params h, InitHashParams = Some params /\ FastHash params x y = Some (Some h) /\ CalcHash [x mod 2 ^ 251; y mod 2 ^ 251] = Some h.
Proof.
  intros Hx Hy. destruct InitHashParams_spec as (params & E & H). exists params. eexists.
  split; [exact E|]. split; [exact (FastHash_pedersen params x y H (proj2 Hx) (proj2 Hy))|apply CalcHash_pedersen].
Qed.
