(* ===== verification/StarkSign.v ===== *)
(** * Signatures of the EdgeX client

    sdk/edgex/starkcurve/rfc6979.go and the signatures of hash.go and fast_basemult.go.  The
    clock and the generator of math/rand are arguments: [now] is [time.Now().Unix()] and
    [rand_Int seed] what [rand.Int()] gives after [rand.Seed(seed)]. *)
From Stdlib Require Import ZArith.
From stdpp Require Import base list option numbers strings.
From S2P Require Import Prelude StarkConstants StarkCurve StarkHash.

Open Scope Z_scope.

(** A computation that may panic ([None]) and may still loop when the fuel is used up ([Some None]). *)
Notation looping A := (option (option A)).

(** ** rfc6979.go *)

Definition mac (alg : bytes -> bytes) (k m : bytes) : bytes := hmac alg k m.
Definition bits2int (inp : bytes) (qlen : Z) : Z :=
  let vlen := Z.of_nat (length inp) * 8 in
  let v := SetBytes inp in
  if qlen <? vlen then Z.shiftr v (vlen - qlen) else v.
Definition int2octets (v rolen : Z) : bytes :=
  let out := Bytes v in
  let len := Z.of_nat (length out) in
  if len <? rolen then replicate (Z.to_nat (rolen - len)) Byte.x00 ++ out
  else if rolen <? len then drop (Z.to_nat (len - rolen)) out
  else out.
Definition bits2octets (inp : bytes) (q qlen rolen : Z) : bytes :=
  let z1 := bits2int inp qlen in
  let z2 := z1 - q in
  if z2 <? 0 then int2octets z1 rolen else int2octets z2 rolen.

Definition one : Z := 1.
(** An [int], which has 64 bits. *)
Definition int64 (z : Z) : Z := (z + 2 ^ 63) mod 2 ^ 64 - 2 ^ 63.

(** The key of the code: the hash, shifted by a nibble when its length asks for it. *)
Definition secret_key (hashOrig : bytes) : bytes :=
  let msg_hashInt := SetBytes hashOrig in
  let msg_hashBits := BitLen msg_hashInt in
  let msg_hashInt :=
    if (248 <=? msg_hashBits) && (1 <=? msg_hashBits mod 8) && (msg_hashBits mod 8 <? 4) then msg_hashInt * 16 else msg_hashInt in
  Bytes msg_hashInt.
Definition secret (q : Z) (alg : bytes -> bytes) (hash : bytes) (randValue : Z) : Z :=
  bits2int (mac alg hash (Bytes randValue)) (BitLen q).

Section loop.
Context {S : Type} (q : Z) (alg : bytes -> bytes) (hash : bytes) (test : S -> Z -> option (bool * S)).
Fixpoint secret_loop (fuel : nat) (randValue : Z) (s : S) : looping S :=
  match fuel with
  | O => Some None
  | Datatypes.S fuel =>
      let k := secret q alg hash randValue in
      if (one <=? k) && (k <? q) then
        r ← test s k; let '(ok, s) := r : bool * S in
        if ok then Some (Some s) else secret_loop fuel (int64 (randValue + 1)) s
      else secret_loop fuel (int64 (randValue + 1)) s
  end.
End loop.
Definition generateSecret {S} (fuel : nat) (now : Z) (rand_Int : Z -> Z) (q : Z) (alg : bytes -> bytes) (hashOrig : bytes)
  (test : S -> Z -> option (bool * S)) (s : S) : looping S :=
  let hash := secret_key hashOrig in
  let seed := now in
  let randValue := rand_Int seed in
  secret_loop q alg hash test fuel randValue s.

(** ** Signing

    The callbacks write to [r] and [s], which [Sign] returns. *)
Definition hashToInt (hash : bytes) (orderBits : Z) : Z :=
  let orderBytes := (orderBits + 7) / 8 in
  let hash := if orderBytes <? Z.of_nat (length hash) then take (Z.to_nat orderBytes) hash else hash in
  let ret := SetBytes hash in
  let excess := Z.of_nat (length hash) * 8 - orderBits in
  if 0 <? excess then Z.shiftr ret excess else ret.

Section test.
Context (curve : StarkCurve) (base : bytes -> option (option (Z * Z))) (privkeyInt : Z) (hash : bytes).
Local Notation N := (sc_N curve).
Definition sign_test (rs : Z * Z) (k : Z) : option (bool * (Z * Z)) :=
  let '(_, s) := rs in
  let inv := ModInverse k N in
  xy ← mjoin (base (Bytes k));
  let r := fst xy mod N in
  if r =? 0 then Some (false, (r, s))
  else
    let e := hashToInt hash (sc_BitSize curve) in
    let s := privkeyInt * r in
    let s := s + e in
    inv ← inv;
    let s := s * inv in
    let s := s mod N in
    Some (negb (s =? 0), (r, s)).
Definition sign_test2 (maxData : Z) (rs : Z * Z) (k : Z) : option (bool * (Z * Z)) :=
  let '(_, s) := rs in
  let inv := ModInverse k N in
  xy ← mjoin (base (Bytes k));
  let r := fst xy in
  if maxData <? r then Some (false, (r, s))
  else
    let r := r mod N in
    if r =? 0 then Some (false, (r, s))
    else
      let e := hashToInt hash (sc_BitSize curve) in
      let s := privkeyInt * r in
      let s := s + e in
      let tempData := s mod cfg_EcOrder cfg in
      if tempData =? 0 then Some (false, (r, s))
      else
        inv ← inv;
        let s := s * inv in
        let s := s mod N in
        Some (negb (s =? 0), (r, s)).
End test.

Section sign.
Context (fuel : nat) (now : Z) (rand_Int : Z -> Z).
(** What the three ways to sign share: [tested] is the callback. *)
Definition sign_with (tested : StarkCurve -> Z -> Z -> Z * Z -> Z -> option (bool * (Z * Z))) (privkey hash : bytes) : looping (res (Z * Z)) :=
  let hashInt := SetBytes hash in
  let maxData := Z.shiftl 1 251 in
  if maxData <? hashInt then Some (Some (Fail (mkErr ErrOther "hash cannot sign "%string)))
  else
    let curve := NewStarkCurve in
    let privkeyInt := SetBytes privkey in
    rs ← generateSecret fuel now rand_Int (sc_N curve) sha256 hash (tested curve privkeyInt maxData) (0, 0);
    Some (match rs : option (Z * Z) with Some rs => Some (Ok rs) | None => None end).
Definition Sign (privkey hash : bytes) : looping (res (Z * Z)) :=
  sign_with (fun curve privkeyInt _ => sign_test curve (ScalarBaseMult curve) privkeyInt hash) privkey hash.
Definition Sign2 (privkey hash : bytes) : looping (res (Z * Z)) :=
  sign_with (fun curve privkeyInt maxData => sign_test2 curve (ScalarBaseMult curve) privkeyInt hash maxData) privkey hash.
Definition SignV3 (starkCurvePoints : list CurvePoint) (privkey hash : bytes) : looping (res (Z * Z)) :=
  sign_with (fun curve privkeyInt maxData => sign_test2 curve (ScalarBaseMultV3 curve starkCurvePoints) privkeyInt hash maxData) privkey hash.
End sign.

(** ** Verifying *)

Definition VerifyPubKey (pubkey : bytes) : bool :=
  if negb (Nat.eqb (length pubkey) 64) then false
  else
    let pubx := SetBytes (take 32 pubkey) in
    let puby := SetBytes (drop 32 pubkey) in
    IsOnCurve NewStarkCurve pubx puby.
(** A nil coordinate panics in [Add]. *)
Definition verify_with (base : StarkCurve -> bytes -> option (option (Z * Z))) (hash : bytes) (pubkeyX pubkeyY r s : Z) : option bool :=
  let hashInt := SetBytes hash in
  let maxData := Z.shiftl one 251 in
  if maxData <? hashInt then Some false
  else
    let curve := NewStarkCurve in
    let N := sc_N curve in
    if (r <=? 0) || (s <=? 0) then Some false
    else if (N <=? r) || (N <=? s) then Some false
    else
      let e := hashToInt hash (sc_BitSize curve) in
      w ← ModInverse s N;
      let u1 := e * w in
      let u1 := u1 mod N in
      let u2 := r * w in
      let u2 := u2 mod N in
      x1y1 ← base curve (Bytes u1);
      x2y2 ← ScalarMult curve pubkeyX pubkeyY (Bytes u2);
      x1y1 ← x1y1; x2y2 ← x2y2;
      xy ← Add curve (fst x1y1) (snd x1y1) (fst x2y2) (snd x2y2);
      let '(x, y) := xy in
      if (x =? 0) && (y =? 0) then Some false
      else
        let x := x mod N in
        Some (x =? r).
Definition Verify (hash : bytes) (pubkeyX pubkeyY r s : Z) : option bool :=
  verify_with ScalarBaseMult hash pubkeyX pubkeyY r s.
Definition VerifyV3 (starkCurvePoints : list CurvePoint) (hash : bytes) (pubkeyX pubkeyY r s : Z) : option bool :=
  verify_with (fun curve => ScalarBaseMultV3 curve starkCurvePoints) hash pubkeyX pubkeyY r s.
