(* ===== verification/StarkSignFacts.v ===== *)
(** * Signatures verify

    What the callbacks of the signatures compute, that the verifications are those of ECDSA, and
    that the nonce does not depend on the private key. *)
From Stdlib Require Import ZArith Zcong Zdivisibility Zmod.Zmod Ring Field.
From stdpp Require Import base tactics decidable option list numbers strings.
From S2P Require Import Prelude StarkPrimes CurveGroup StarkConstants StarkCurve StarkField StarkBase StarkHash StarkSign.

Open Scope Z_scope.

(** ** Arithmetic modulo the order of the base point *)

Notation S := (Zmod point_order).
Lemma order_field_theory : field_theory (Zmod.zero (m:=point_order)) Zmod.one Zmod.add Zmod.mul Zmod.sub Zmod.opp Zmod.mdiv Zmod.inv eq.
Proof. exact (Zmod.field_theory point_order point_order_prime). Qed.
Add Field order_field : order_field_theory.
Definition num (z : Z) : S := Zmod.of_Z point_order z.
#[local] Opaque point_order.
Lemma point_order_pos : 2 ^ 251 < point_order < 2 ^ 252.
Proof. by vm_compute. Qed.
Lemma num_add x y : num (x + y) = Zmod.add (num x) (num y).
Proof. apply Zmod.of_Z_add. Qed.
Lemma num_mul x y : num (x * y) = Zmod.mul (num x) (num y).
Proof. apply Zmod.of_Z_mul. Qed.
Lemma num_sub x y : num (x - y) = Zmod.sub (num x) (num y).
Proof. apply Zmod.of_Z_sub. Qed.
Lemma num_mod x : num (x mod point_order) = num x.
Proof. apply Zmod.of_Z_mod. Qed.
Lemma num_inj x y : num x = num y <-> x mod point_order = y mod point_order.
Proof. apply Zmod.of_Z_inj. Qed.
#[export] Hint Rewrite num_add num_mul num_sub num_mod : num.
Lemma num_zero x : num x = Zmod.zero <-> x mod point_order = 0.
Proof. change Zmod.zero with (num 0). rewrite num_inj. pose proof point_order_pos. by rewrite Z.mod_0_l by lia. Qed.
Lemma num_small x : 0 < x < point_order -> num x <> Zmod.zero.
Proof. intros H E%num_zero. rewrite Z.mod_small in E; lia. Qed.
Lemma ModInverse_num s : 0 < s < point_order ->
  ModInverse s point_order = Some (Z.invmod s point_order) /\ num (Z.invmod s point_order) = Zmod.inv (num s).
Proof.
  intros Hs. pose proof point_order_pos as Ho. assert (Hm : s mod point_order <> 0) by (rewrite Z.mod_small; lia). split.
  - unfold ModInverse. rewrite Z.gcd_comm. by rewrite (Z.coprime_prime_small point_order s point_order_prime) by lia.
  - pose proof (num_small s Hs) as Hn. assert (E : Zmod.mul (num (Z.invmod s point_order)) (num s) = Zmod.one).
    { rewrite <- num_mul, <- num_mod, (Z.invmod_prime _ _ point_order_prime Hm). done. }
    transitivity (Zmod.mul (Zmod.mul (num (Z.invmod s point_order)) (num s)) (Zmod.inv (num s))); [by field|]. rewrite E. ring.
Qed.

(** ** Bytes of multipliers *)

Lemma hashToInt_bound hash : SetBytes hash <= 2 ^ 251 -> 0 <= hashToInt hash 256 <= 2 ^ 251.
Proof.
  intros H. unfold hashToInt. change ((256 + 7) / 8) with 32. destruct (32 <? Z.of_nat (length hash)) eqn:E.
  - apply Z.ltb_lt in E. change (Z.to_nat 32) with 32%nat. rewrite length_take. replace (32 `min` length hash)%nat with 32%nat by lia.
    change (0 <? Z.of_nat 32 * 8 - 256) with false. cbv iota. pose proof (SetBytes_bound (take 32 hash)) as Ht. split; [apply Ht|].
    rewrite <- (take_drop 32 hash), SetBytes_app in H. pose proof (SetBytes_bound (drop 32 hash)).
    pose proof (Z.pow_pos_nonneg 256 (Z.of_nat (length (drop 32 hash)))). nia.
  - apply Z.ltb_ge in E. replace (0 <? Z.of_nat (length hash) * 8 - 256) with false by (symmetry; apply Z.ltb_ge; lia).
    pose proof (SetBytes_bound hash). lia.
Qed.
Lemma Bytes_order k : 0 <= k < point_order -> (length (Bytes k) <= 32)%nat /\ SetBytes (Bytes k) = k.
Proof.
  intros H. pose proof point_order_pos. split; [|rewrite SetBytes_Bytes; lia].
  pose proof (Bytes_length k 32 ltac:(lia)) as Hl. rewrite Z.abs_eq in Hl by lia. change (256 ^ 32) with (2 ^ 256) in Hl.
  enough (k < 2 ^ 256) by lia. assert (2 ^ 252 < 2 ^ 256) by done. lia.
Qed.
(** A way to multiply the base point. *)
Definition base_mult (base : bytes -> option (option (Z * Z))) : Prop :=
  forall k, 0 <= k < point_order -> base (Bytes k) = Some (if 0 <? k then Some (enc (times k G)) else None).
Lemma ScalarBaseMult_base : base_mult (ScalarBaseMult NewStarkCurve).
Proof. intros k Hk. destruct (Bytes_order k Hk) as [_ E]. rewrite ScalarBaseMult_spec by lia. by rewrite E. Qed.
Lemma ScalarBaseMultV3_base points : base_table points -> base_mult (ScalarBaseMultV3 NewStarkCurve points).
Proof. intros Hp k Hk. destruct (Bytes_order k Hk) as [L E]. rewrite ScalarBaseMultV3_spec by done. by rewrite E. Qed.

Lemma G_multiple k : 0 < k < point_order -> exists x y, times k G = Some (x, y) /\ on_curve (Some (x, y)).
Proof. apply (multiple_finite G point_order point_order_prime G_on G_finite G_order). Qed.
Lemma G_times_order d : 0 <= d -> times point_order (times d G) = None.
Proof.
  intros Hd. pose proof point_order_pos. rewrite times_times, Z.mul_comm, <- times_times, G_order by (apply G_on || lia). apply times_none.
Qed.

(** ** Signing *)

(** The pair that the nonce [k] gives, where it gives one. *)
Definition signature (d e k : Z) : Z * Z :=
  match times k G with
  | Some (x, _) => let r := Zmod.to_Z x mod point_order in (r, ((d * r + e) * Z.invmod k point_order) mod point_order)
  | None => (0, 0)
  end.
Definition good (rs : Z * Z) : bool := negb (rs.1 =? 0) && negb (rs.2 =? 0).

Lemma sign_test_spec base d hash rs k : base_mult base -> 0 < k < point_order ->
  exists rs', sign_test NewStarkCurve base d hash rs k = Some (good (signature d (hashToInt hash 256) k), rs') /\
    (good (signature d (hashToInt hash 256) k) = true -> rs' = signature d (hashToInt hash 256) k).
Proof.
  intros Hb Hk. destruct rs as [r0 s0]. destruct (G_multiple k Hk) as (x & y & Ek & _). destruct (ModInverse_num k Hk) as [Ei _].
  unfold sign_test, signature. change (sc_N NewStarkCurve) with point_order. change (sc_BitSize NewStarkCurve) with 256.
  rewrite Hb, (proj2 (Z.ltb_lt 0 k)), Ek, Ei by lia. cbn [mjoin option_join mbind option_bind enc fst snd]. unfold good. cbn [fst snd].
  destruct (Zmod.to_Z x mod point_order =? 0); cbn [negb andb]; eexists; (split; [reflexivity|done]).
Qed.
Lemma sign_test2_spec base d hash rs k : base_mult base -> 0 < k < point_order ->
  exists ok rs', sign_test2 NewStarkCurve base d hash (Z.shiftl 1 251) rs k = Some (ok, rs') /\
    (ok = true -> good (signature d (hashToInt hash 256) k) = true /\ rs' = signature d (hashToInt hash 256) k).
Proof.
  intros Hb Hk. destruct rs as [r0 s0]. destruct (G_multiple k Hk) as (x & y & Ek & _). destruct (ModInverse_num k Hk) as [Ei _].
  unfold sign_test2, signature. change (sc_N NewStarkCurve) with point_order. change (sc_BitSize NewStarkCurve) with 256.
  rewrite Hb, (proj2 (Z.ltb_lt 0 k)), Ek, Ei by lia. cbn [mjoin option_join mbind option_bind enc fst snd]. unfold good. cbn [fst snd].
  destruct (Z.shiftl 1 251 <? Zmod.to_Z x); [by eexists _, _|]. destruct (Zmod.to_Z x mod point_order =? 0); [by eexists _, _|].
  destruct (_ =? 0); [by eexists _, _|]. eexists _, _. split; [reflexivity|]. cbn [negb andb]. done.
Qed.

(** The callback of one of the signatures: it accepts only what [signature] gives. *)
Definition signs (d e : Z) (test : Z * Z -> Z -> option (bool * (Z * Z))) : Prop :=
  forall rs k, 0 < k < point_order -> exists ok rs', test rs k = Some (ok, rs') /\
    (ok = true -> good (signature d e k) = true /\ rs' = signature d e k).

(** The values of the generator in the order that the loop tries them. *)
Definition attempt_value (randValue : Z) (j : nat) : Z := Nat.iter j (fun v => int64 (v + 1)) randValue.
Lemma attempt_value_succ v j : attempt_value (int64 (v + 1)) j = attempt_value v (Datatypes.S j).
Proof. unfold attempt_value. by rewrite Nat.iter_succ_r. Qed.

Section loops.
Context (d e : Z) (alg : bytes -> bytes) (key : bytes) (test : Z * Z -> Z -> option (bool * (Z * Z))) (Ht : signs d e test).

Lemma secret_loop_safe fuel v rs : secret_loop point_order alg key test fuel v rs <> None.
Proof using Ht.
  revert v rs. induction fuel as [|fuel IH]; intros v rs; cbn [secret_loop]; [done|].
  destruct ((one <=? secret point_order alg key v) && (secret point_order alg key v <? point_order)) eqn:E; [|apply IH].
  apply andb_true_iff in E as [E1 E2]. apply Z.leb_le in E1. apply Z.ltb_lt in E2. unfold one in E1.
  destruct (Ht rs (secret point_order alg key v)) as (ok & rs' & -> & _); [lia|]. cbn [mbind option_bind]. destruct ok; [done|apply IH].
Qed.
Lemma secret_loop_signs fuel v rs rs' : secret_loop point_order alg key test fuel v rs = Some (Some rs') ->
  exists j, (j < fuel)%nat /\ let k := secret point_order alg key (attempt_value v j) in
    0 < k < point_order /\ good (signature d e k) = true /\ rs' = signature d e k.
Proof using Ht.
  revert v rs. induction fuel as [|fuel IH]; intros v rs; cbn [secret_loop]; [done|]. intros H.
  assert (Hnext : forall rs, secret_loop point_order alg key test fuel (int64 (v + 1)) rs = Some (Some rs') ->
    exists j, (j < Datatypes.S fuel)%nat /\ let k := secret point_order alg key (attempt_value v j) in
      0 < k < point_order /\ good (signature d e k) = true /\ rs' = signature d e k).
  { intros rs0 H0. destruct (IH _ _ H0) as (j & Hj & Hk). exists (Datatypes.S j). rewrite attempt_value_succ in Hk. split; [lia|done]. }
  destruct ((one <=? secret point_order alg key v) && (secret point_order alg key v <? point_order)) eqn:E; [|by apply (Hnext rs)].
  apply andb_true_iff in E as [E1 E2]. apply Z.leb_le in E1. apply Z.ltb_lt in E2. unfold one in E1.
  destruct (Ht rs (secret point_order alg key v)) as (ok & rs1 & E & Hok); [lia|]. rewrite E in H. cbn [mbind option_bind] in H.
  destruct ok; [|by apply (Hnext rs1)]. injection H as <-. destruct (Hok eq_refl) as [Hg ->]. exists 0%nat. split; [lia|].
  split; [|done]. cbn [attempt_value Nat.iter nat_rect]. lia.
Qed.
End loops.

Lemma sign_test_signs base d hash : base_mult base -> signs d (hashToInt hash 256) (sign_test NewStarkCurve base d hash).
Proof.
  intros Hb rs k Hk. destruct (sign_test_spec base d hash rs k Hb Hk) as (rs' & E & Hg). exists (good (signature d (hashToInt hash 256) k)), rs'.
  split; [done|]. intros H. split; [done|by apply Hg].
Qed.
Lemma sign_test2_signs base d hash : base_mult base -> signs d (hashToInt hash 256) (sign_test2 NewStarkCurve base d hash (Z.shiftl 1 251)).
Proof. intros Hb rs k Hk. by apply sign_test2_spec. Qed.

(** What is known of a signature of the code. *)
Definition signed (fuel : nat) (now : Z) (rand_Int : Z -> Z) (privkey hash : bytes) (rs : Z * Z) : Prop :=
  SetBytes hash <= 2 ^ 251 /\
  exists j, (j < fuel)%nat /\ let k := secret point_order sha256 (secret_key hash) (attempt_value (rand_Int now) j) in
    0 < k < point_order /\ good (signature (SetBytes privkey) (hashToInt hash 256) k) = true /\
    rs = signature (SetBytes privkey) (hashToInt hash 256) k.
Lemma sign_with_signed fuel now rand_Int tested privkey hash rs :
  signs (SetBytes privkey) (hashToInt hash 256) (tested NewStarkCurve (SetBytes privkey) (Z.shiftl 1 251)) ->
  sign_with fuel now rand_Int tested privkey hash = Some (Some (Ok rs)) -> signed fuel now rand_Int privkey hash rs.
Proof.
  intros Ht. unfold sign_with. destruct (Z.shiftl 1 251 <? SetBytes hash) eqn:E; [done|]. apply Z.ltb_ge in E.
  unfold generateSecret. change (sc_N NewStarkCurve) with point_order.
  destruct (secret_loop _ _ _ _ _ _ _) as [[rs'|]|] eqn:El; [|done|done]. intros [= <-]. split; [exact E|].
  by apply (secret_loop_signs _ _ _ _ _ Ht) in El.
Qed.

(** ** Verifying *)

(** ECDSA: the first coordinate of [u1 * G + u2 * Q] is [r]. *)
Definition ecdsa (e r s : Z) (Q : point) : bool :=
  let w := Z.invmod s point_order in
  match plus (times ((e * w) mod point_order) G) (times ((r * w) mod point_order) Q) with
  | Some (x, _) => Zmod.to_Z x mod point_order =? r
  | None => false
  end.

Lemma scaled_small a w : 0 < a < point_order -> num w <> Zmod.zero -> 0 < (a * w) mod point_order < point_order.
Proof.
  intros Ha Hw. pose proof point_order_pos. pose proof (Z.mod_pos_bound (a * w) point_order ltac:(lia)) as Hb.
  destruct (decide ((a * w) mod point_order = 0)) as [E|N]; [exfalso|lia].
  apply num_zero in E. rewrite num_mul in E. apply (Zmod.mul_0_iff_prime point_order_prime) in E as [E|E]; [|done]. by apply (num_small a Ha).
Qed.
Lemma verify_with_spec base hash Q X Y r s : base_mult (base NewStarkCurve) -> SetBytes hash <= 2 ^ 251 -> hashToInt hash 256 <> 0 ->
  on_curve Q -> Q <> None -> times point_order Q = None -> enc Q = (X, Y) -> 0 < r < point_order -> 0 < s < point_order ->
  verify_with base hash X Y r s = Some (ecdsa (hashToInt hash 256) r s Q).
Proof.
  intros Hb Hh He HQ HQ0 Ho EQ Hr Hs. pose proof point_order_pos as Hn. destruct (ModInverse_num s Hs) as [Ei Ew].
  assert (Hw : num (Z.invmod s point_order) <> Zmod.zero).
  { rewrite Ew. apply (Zmod.inv_nz_prime _ point_order_prime). by apply num_small. }
  pose proof (hashToInt_bound hash Hh) as Hbound. unfold verify_with. change (Z.shiftl one 251) with (2 ^ 251).
  rewrite (proj2 (Z.ltb_ge _ _) Hh). cbv zeta. change (sc_N NewStarkCurve) with point_order. change (sc_BitSize NewStarkCurve) with 256.
  rewrite (proj2 (Z.leb_gt r 0)), (proj2 (Z.leb_gt s 0)), (proj2 (Z.leb_gt point_order r)), (proj2 (Z.leb_gt point_order s)) by lia. cbn [orb].
  rewrite Ei. cbn [mbind option_bind]. unfold ecdsa. set (w := Z.invmod s point_order) in *.
  assert (H1 : 0 < (hashToInt hash 256 * w) mod point_order < point_order) by (apply scaled_small; [lia|done]).
  assert (H2 : 0 < (r * w) mod point_order < point_order) by (apply scaled_small; [lia|done]).
  set (u1 := (hashToInt hash 256 * w) mod point_order) in *. set (u2 := (r * w) mod point_order) in *.
  rewrite Hb, (proj2 (Z.ltb_lt 0 u1)) by lia. cbn [mbind option_bind].
  destruct (Bytes_order u2) as [_ E2]; [lia|].
  pose proof (ScalarMult_spec Q point_order point_order_prime HQ HQ0 Ho (Bytes u2) ltac:(lia)) as Em. rewrite EQ in Em. cbn [fst snd] in Em.
  rewrite Em, E2, (proj2 (Z.ltb_lt 0 u2)) by lia. cbn [mbind option_bind].
  pose proof (Add_plus _ _ (times_on u1 G G_on) (times_on u2 Q HQ)) as Ha. rewrite Ha. cbn [mbind option_bind].
  pose proof (plus_on _ _ (times_on u1 G G_on) (times_on u2 Q HQ)) as Hon.
  destruct (plus (times u1 G) (times u2 Q)) as [[x y]|]; [|done]. cbn [enc]. by rewrite (enc_finite _ _ Hon).
Qed.

(** What was signed with [d] verifies with [d] times the base point. *)
Lemma ecdsa_signature d e k : 0 <= d -> 0 <= e -> 0 < k < point_order -> good (signature d e k) = true ->
  ecdsa e (signature d e k).1 (signature d e k).2 (times d G) = true.
Proof.
  intros Hd He Hk Hg. pose proof point_order_pos as Hn. destruct (G_multiple k Hk) as (x & y & Ek & _).
  unfold signature in *. rewrite Ek in *. cbn [fst snd good] in *. set (r := Zmod.to_Z x mod point_order) in *.
  set (s := ((d * r + e) * Z.invmod k point_order) mod point_order) in *.
  assert (Hr : 0 < r < point_order).
  { pose proof (Z.mod_pos_bound (Zmod.to_Z x) point_order ltac:(lia)). apply andb_true_iff in Hg as [Hg _]. apply negb_true_iff, Z.eqb_neq in Hg. cbn in Hg. unfold r in *. lia. }
  assert (Hs : 0 < s < point_order).
  { pose proof (Z.mod_pos_bound ((d * r + e) * Z.invmod k point_order) point_order ltac:(lia)). apply andb_true_iff in Hg as [_ Hg].
    apply negb_true_iff, Z.eqb_neq in Hg. cbn in Hg. unfold s in *. lia. }
  destruct (ModInverse_num k Hk) as [_ Ik]. destruct (ModInverse_num s Hs) as [_ Is]. pose proof (num_small k Hk) as Nk. pose proof (num_small s Hs) as Ns.
  assert (Es : num s = Zmod.mul (Zmod.add (Zmod.mul (num d) (num r)) (num e)) (Zmod.inv (num k))).
  { unfold s. autorewrite with num. by rewrite Ik. }
  assert (Nt : Zmod.add (Zmod.mul (num d) (num r)) (num e) <> Zmod.zero).
  { intros E. apply Ns. rewrite Es, E. ring. }
  assert (E : (((e * Z.invmod s point_order) mod point_order + (r * Z.invmod s point_order) mod point_order * d)) mod point_order = k).
  { rewrite <- (Z.mod_small k point_order) by lia. apply num_inj. autorewrite with num. rewrite Is, Es. field. by split. }
  unfold ecdsa. pose proof (Z.mod_pos_bound (e * Z.invmod s point_order) point_order ltac:(lia)).
  pose proof (Z.mod_pos_bound (r * Z.invmod s point_order) point_order ltac:(lia)).
  rewrite (times_times _ d) by (apply G_on || lia). rewrite <- times_add by (apply G_on || lia || apply Z.mul_nonneg_nonneg; lia).
  rewrite <- G_times_mod, E, Ek by nia. apply Z.eqb_refl.
Qed.

(** ** What a signature is good for *)

Lemma Sign_signed fuel now rand_Int privkey hash rs :
  Sign fuel now rand_Int privkey hash = Some (Some (Ok rs)) -> signed fuel now rand_Int privkey hash rs.
Proof. apply sign_with_signed, sign_test_signs, ScalarBaseMult_base. Qed.
Lemma Sign2_signed fuel now rand_Int privkey hash rs :
  Sign2 fuel now rand_Int privkey hash = Some (Some (Ok rs)) -> signed fuel now rand_Int privkey hash rs.
Proof. apply sign_with_signed, sign_test2_signs, ScalarBaseMult_base. Qed.
Lemma SignV3_signed points fuel now rand_Int privkey hash rs : base_table points ->
  SignV3 fuel now rand_Int points privkey hash = Some (Some (Ok rs)) -> signed fuel now rand_Int privkey hash rs.
Proof. intros Hp. by apply sign_with_signed, sign_test2_signs, ScalarBaseMultV3_base. Qed.
(** One of the three ways to sign gave this pair. *)
Definition signature_of (fuel : nat) (now : Z) (rand_Int : Z -> Z) (points : list CurvePoint) (privkey hash : bytes) (rs : Z * Z) : Prop :=
  Sign fuel now rand_Int privkey hash = Some (Some (Ok rs)) \/
  Sign2 fuel now rand_Int privkey hash = Some (Some (Ok rs)) \/
  SignV3 fuel now rand_Int points privkey hash = Some (Some (Ok rs)).
Lemma signature_of_signed fuel now rand_Int points privkey hash rs : InitStarkCurveParams NewStarkCurve = Some points ->
  signature_of fuel now rand_Int points privkey hash rs -> signed fuel now rand_Int privkey hash rs.
Proof.
  intros E H. destruct InitStarkCurveParams_spec as (points' & E' & Hp). assert (points' = points) as -> by congruence.
  destruct H as [H|[H|H]]; [by apply Sign_signed|by apply Sign2_signed|by apply (SignV3_signed points)].
Qed.

Lemma signature_bounds d e k : good (signature d e k) = true ->
  0 < (signature d e k).1 < point_order /\ 0 < (signature d e k).2 < point_order.
Proof.
  unfold good, signature. pose proof point_order_pos as Hn. rewrite andb_true_iff, !negb_true_iff, !Z.eqb_neq.
  destruct (times k G) as [[x y]|]; cbn [fst snd]; [|lia]. intros [H1 H2].
  pose proof (Z.mod_pos_bound (Zmod.to_Z x) point_order ltac:(lia)).
  pose proof (Z.mod_pos_bound ((d * (Zmod.to_Z x mod point_order) + e) * Z.invmod k point_order) point_order ltac:(lia)). lia.
Qed.

(** What was signed with [privkey] verifies with its public key, whichever way the base point is multiplied. *)
Lemma signed_verifies base fuel now rand_Int privkey hash r s X Y : base_mult (base NewStarkCurve) ->
  0 < SetBytes privkey < point_order -> hashToInt hash 256 <> 0 -> signed fuel now rand_Int privkey hash (r, s) ->
  ScalarBaseMult NewStarkCurve privkey = Some (Some (X, Y)) -> verify_with base hash X Y r s = Some true.
Proof.
  intros Hb Hd He (Hh & j & _ & Hk & Hg & E) EQ. set (k := secret _ _ _ _) in *.
  destruct (G_multiple _ Hd) as (x & y & Ed & Hxy). rewrite ScalarBaseMult_spec, (proj2 (Z.ltb_lt 0 _)), Ed in EQ by apply Hd.
  destruct (signature_bounds _ _ _ Hg) as [Br Bs].
  pose proof (ecdsa_signature (SetBytes privkey) (hashToInt hash 256) k ltac:(lia) (proj1 (hashToInt_bound _ Hh)) Hk Hg) as Hv.
  rewrite <- E in Br, Bs, Hv. cbn [fst snd] in Br, Bs, Hv. rewrite Ed in Hv.
  assert (Ho : times point_order (Some (x, y)) = None) by (rewrite <- Ed; apply G_times_order; lia).
  rewrite (verify_with_spec base hash (Some (x, y)) X Y r s Hb Hh He Hxy ltac:(discriminate) Ho ltac:(congruence) Br Bs). by f_equal.
Qed.
Lemma public_key privkey : 0 < SetBytes privkey < point_order -> exists X Y, ScalarBaseMult NewStarkCurve privkey = Some (Some (X, Y)).
Proof.
  intros Hd. destruct (G_multiple _ Hd) as (x & y & Ed & _). exists (Zmod.to_Z x), (Zmod.to_Z y).
  by rewrite ScalarBaseMult_spec, (proj2 (Z.ltb_lt 0 _)), Ed by apply Hd.
Qed.

(** C10: What [Sign], [Sign2] or [SignV3] returns for a hash that is not zero, [Verify] and [VerifyV3] accept with the public
    key of the private key, and neither panics. *)
Theorem signatures_verify fuel now rand_Int points privkey hash r s :
  InitStarkCurveParams NewStarkCurve = Some points -> 0 < SetBytes privkey < sc_N NewStarkCurve -> hashToInt hash 256 <> 0 ->
  signature_of fuel now rand_Int points privkey hash (r, s) ->
  exists X Y, ScalarBaseMult NewStarkCurve privkey = Some (Some (X, Y)) /\
    Verify hash X Y r s = Some true /\ VerifyV3 points hash X Y r s = Some true.
Proof.
  intros Ep Hd He Hs. change (sc_N NewStarkCurve) with point_order in Hd. apply (signature_of_signed _ _ _ _ _ _ _ Ep) in Hs.
  destruct (public_key privkey Hd) as (X & Y & EQ). exists X, Y. split; [exact EQ|].
  destruct InitStarkCurveParams_spec as (points' & E' & Hp). assert (points' = points) as -> by congruence.
  split; refine (signed_verifies _ _ _ _ _ _ _ _ _ _ _ Hd He Hs EQ).
  - exact ScalarBaseMult_base.
  - exact (ScalarBaseMultV3_base points Hp).
Qed.

(** The private key from a signature and its nonce. *)
Definition recovered (e r s k : Z) : Z := ((s * k - e) * Z.invmod r point_order) mod point_order.
Lemma recovered_key d e k : 0 < k < point_order -> good (signature d e k) = true ->
  recovered e (signature d e k).1 (signature d e k).2 k = d mod point_order.
Proof.
  intros Hk Hg. destruct (signature_bounds _ _ _ Hg) as [Br _]. unfold signature in *. destruct (times k G) as [[x y]|]; cbn [fst snd] in *; [|lia].
  destruct (ModInverse_num _ Br) as [_ Ir]. destruct (ModInverse_num k Hk) as [_ Ik]. apply num_inj. autorewrite with num.
  rewrite Ir, Ik. autorewrite with num. field. split; [rewrite <- num_mod; by apply num_small|by apply num_small].
Qed.


(** A hash of zeros verifies by a panic: nil is added to a point. *)
Theorem Verify_zero_hash hash X Y r s : hashToInt hash 256 = 0 -> SetBytes hash <= 2 ^ 251 ->
  0 < r < sc_N NewStarkCurve -> 0 < s < sc_N NewStarkCurve -> Verify hash X Y r s = None.
Proof.
  intros He Hh Hr Hs. change (sc_N NewStarkCurve) with point_order in *. pose proof point_order_pos. unfold Verify, verify_with.
  change (Z.shiftl one 251) with (2 ^ 251). rewrite (proj2 (Z.ltb_ge _ _) Hh). cbv zeta.
  change (sc_N NewStarkCurve) with point_order. change (sc_BitSize NewStarkCurve) with 256.
  rewrite (proj2 (Z.leb_gt r 0)), (proj2 (Z.leb_gt s 0)), (proj2 (Z.leb_gt point_order r)), (proj2 (Z.leb_gt point_order s)) by lia. cbn [orb].
  destruct (ModInverse_num s Hs) as [-> _]. cbn [mbind option_bind]. rewrite He, Z.mul_0_l, Z.mod_0_l by lia.
  change (ScalarBaseMult NewStarkCurve (Bytes 0)) with (@Some (option (Z * Z)) None). cbn [mbind option_bind].
  by destruct (ScalarMult NewStarkCurve X Y _) as [[?|]|].
Qed.
