(* ===== verification/EdgexPerp.v ===== *)
(** * Requests and orders of the EdgeX client

    sdk/edgex/perp/utils.go, and [PlaceOrder] of sdk/edgex/perp/order.go up to the request, which
    [call] sends.  Arguments of the definitions: the clocks, the generator of math/rand, the Keccak
    hash of golang.org/x/crypto, the JSON decoder, and how [fmt] prints a floating-point number.
    [None] is a panic and [Some None] a signature that has not been found within the fuel. *)
From Stdlib Require Import ZArith QArith Ascii Qround Qreduction.
From stdpp Require Import base list option numbers strings sorting pretty.
From S2P Require Import Prelude Decimals Identifiers StarkConstants StarkCurve StarkHash StarkSign.

Open Scope string_scope.
Open Scope Z_scope.

(** ** Hexadecimal *)

Definition hex_digit (c : Ascii.ascii) : option Z :=
  let n := Z.of_nat (Ascii.nat_of_ascii c) in
  if (48 <=? n) && (n <=? 57) then Some (n - 48)
  else if (97 <=? n) && (n <=? 102) then Some (n - 87)
  else if (65 <=? n) && (n <=? 70) then Some (n - 55)
  else None.
(** [hex.DecodeString]. *)
Fixpoint decode_hex (s : string) : option bytes :=
  match s with
  | EmptyString => Some []
  | String a (String b s) => x ← hex_digit a; y ← hex_digit b; bs ← decode_hex s; Some (to_byte (x * 16 + y) :: bs)
  | _ => None
  end.
Definition hex_char (z : Z) : Ascii.ascii := Ascii.ascii_of_nat (Z.to_nat (if z <? 10 then z + 48 else z + 87)).
(** [%x] of bytes. *)
Fixpoint print_hex (bs : bytes) : string :=
  match bs with
  | [] => ""
  | b :: bs => String (hex_char (byte_val b / 16)) (String (hex_char (byte_val b mod 16)) (print_hex bs))
  end.
(** [SetString] of math/big in base 10 or 16: a sign and digits. *)
Fixpoint digits (base n : Z) (s : string) : option Z :=
  match s with
  | EmptyString => Some n
  | String c s => d ← hex_digit c; if d <? base then digits base (n * base + d) s else None
  end.
Definition SetString (s : string) (base : Z) : option Z :=
  let '(neg, s) :=
    match s with
    | String c s' => if Ascii.eqb c "-"%char then (true, s') else if Ascii.eqb c "+"%char then (false, s') else (false, s)
    | EmptyString => (false, s)
    end in
  match s with EmptyString => None | _ => n ← digits base 0 s; Some (if neg : bool then - n else n) end.
Definition trim_0x (s : string) : string :=
  if (2 <? String.length s)%nat && String.prefix "0x" s then String.substring 2 (String.length s - 2) s else s.

Definition ToBigInt (number : string) : option Z :=
  if String.eqb number "" then Some 0
  else if String.prefix "0x" number then SetString (String.substring 2 (String.length number - 2) number) 16
  else SetString number 10.
Definition HexToBigInteger (hex : string) : res Z :=
  match SetString (trim_0x hex) 16 with Some z => Ok z | None => Fail (mkErr ErrOther "invalid hex string") end.

(** ** Canonical text *)

Section values.
(** The numbers that [fmt] prints other than as integers, and values of other types. *)
Context {Other : Type} (Sprint_other : Other -> string).

Inductive value :=
  | VNil | VString (s : string) | VBool (b : bool) | VInt (z : Z) | VOther (o : Other)
  | VList (l : list value) | VStrings (l : list string) | VMap (m : list (string * value)).

Definition print_bool (b : bool) : string := if b then "true" else "false".
(** The pairs of a map in the order of their keys. *)
Definition sorted_pairs (m : list (string * string)) : list (string * string) := merge_sort (by_key fst) m.
Definition join_pairs (eq sep : string) (m : list (string * string)) : string :=
  String.concat sep (map (fun kv => fst kv ++ eq ++ snd kv) (sorted_pairs m)).

Fixpoint GetValue (data : value) : string :=
  match data with
  | VNil => ""
  | VString v => v
  | VBool v => print_bool v
  | VInt v => pretty v
  | VOther v => Sprint_other v
  | VList v => String.concat "&" (map GetValue v)
  | VStrings v => String.concat "&" v
  | VMap v => join_pairs "=" "&" (map (fun '(key, val) => (key, GetValue val)) v)
  end.
(** [%v]. *)
Fixpoint Sprint (data : value) : string :=
  match data with
  | VNil => "<nil>"
  | VString v => v
  | VBool v => print_bool v
  | VInt v => pretty v
  | VOther v => Sprint_other v
  | VList v => "[" ++ String.concat " " (map Sprint v) ++ "]"
  | VStrings v => "[" ++ String.concat " " v ++ "]"
  | VMap v => "map[" ++ join_pairs ":" " " (map (fun '(key, val) => (key, Sprint val)) v) ++ "]"
  end.

(** ** Signatures of requests and orders *)

Section signatures.
Context (fuel : nat) (now : Z) (rand_Int : Z -> Z).

(** The hash modulo the order of the base point, signed. *)
Definition sign_reduced (privateKeyHex : string) (msgHash : bytes) : looping (res (bytes * (Z * Z))) :=
  let privateKeyHex := trim_0x privateKeyHex in
  match decode_hex privateKeyHex with
  | None => Some (Some (Fail (mkErr ErrOther "invalid private key hex: ")))
  | Some privBytes =>
      let msgHashInt := SetBytes msgHash in
      let curve := NewStarkCurve in
      let msgHashInt := msgHashInt mod sc_N curve in
      signed ← StarkSign.Sign fuel now rand_Int privBytes (Bytes msgHashInt);
      Some (match signed with
            | None => None
            | Some (Fail err) => Some (Fail (mkErr (err_kind err) "failed to sign: "))
            | Some (Ok rs) => Some (Ok (privBytes, rs))
            end)
  end.
(** [make([]byte, 32-len(bs))] and the bytes after it, in hexadecimal. *)
Definition pad_hex (z : Z) : option string := print_hex <$> pad_left 32 (Bytes z).

Record L2Signature := mkL2Signature { l2_R : string; l2_S : string; l2_V : string }.
Definition SignL2 (privateKeyHex : string) (msgHash : bytes) : looping (res L2Signature) :=
  signed ← sign_reduced privateKeyHex msgHash;
  match signed with
  | None => Some None
  | Some (Fail err) => Some (Some (Fail err))
  | Some (Ok (_, (r, s))) => R ← pad_hex r; S ← pad_hex s; Some (Some (Ok (mkL2Signature R S "")))
  end.

Context (keccak256 : string -> bytes) (unmarshal_map : string -> option (list (string * value))) (unmarshal_list : string -> option (list value)).
Definition sign_content (timestamp : Z) (method path body : string) (params : list (string * value)) : string :=
  pretty timestamp ++ ToUpper method ++ path ++
  (if negb (String.eqb body "") then
     match params with
     | _ :: _ => GetValue (VMap params)
     | [] =>
         match unmarshal_map body with
         | Some bodyMap => GetValue (VMap bodyMap)
         | None => match unmarshal_list body with Some bodyArr => GetValue (VList bodyArr) | None => body end
         end
     end
   else match params with
   | _ :: _ => join_pairs "=" "&" (map (fun '(k, v) => (k, Sprint v)) params)
   | [] => ""
   end).
Definition GenerateSignature (privateKeyHex : string) (timestamp : Z) (method path body : string) (params : list (string * value)) : looping (res string) :=
  let signContent := sign_content timestamp method path body params in
  let hash := keccak256 signContent in
  signed ← sign_reduced privateKeyHex hash;
  match signed with
  | None => Some None
  | Some (Fail err) => Some (Some (Fail err))
  | Some (Ok (privBytes, (r, s))) =>
      pub ← ScalarBaseMult NewStarkCurve privBytes;
      match pub with
      | None => Some (Some (Fail (mkErr ErrOther "failed to calculate public key: result is nil (invalid private key?)")))
      | Some (_, pubY) => R ← pad_hex r; S ← pad_hex s; Y ← pad_hex pubY; Some (Some (Ok (R ++ S ++ Y)))
      end
  end.
Definition GenerateSignatureForWS (privateKeyHex : string) (timestamp : Z) : looping (res string) :=
  let path := "/api/v1/private/ws" in
  GenerateSignature privateKeyHex timestamp "GET" path "" [].
End signatures.
End values.

(** ** The hash of a limit order *)

Definition LimitOrderWithFeeType : Z := 3.
(** The first four bytes of the hash of the text. *)
Definition CalcNonce (src : string) : Z :=
  let hash := print_hex (sha256 (ascii_bytes src)) in
  default 0 (SetString (String.substring 0 8 hash) 16).

Definition packed_message0 (amount_sell amount_buy max_amount_fee nonce : Z) : Z :=
  let packed := amount_sell in
  let packed := Z.shiftl packed 64 in
  let packed := packed + amount_buy in
  let packed := Z.shiftl packed 64 in
  let packed := packed + max_amount_fee in
  let packed := Z.shiftl packed 32 in
  packed + nonce.
Definition packed_message1 (positionID expirationTimestamp : Z) : Z :=
  let packed := LimitOrderWithFeeType in
  let packed := Z.shiftl packed 64 in
  let packed := packed + positionID in
  let packed := Z.shiftl packed 64 in
  let packed := packed + positionID in
  let packed := Z.shiftl packed 64 in
  let packed := packed + positionID in
  let packed := Z.shiftl packed 32 in
  let packed := packed + expirationTimestamp in
  Z.shiftl packed 17.
Definition CalcLimitOrderHash (assetIdSynthetic assetIdCollateral assetIdFee : string) (isBuyingSynthetic : bool)
  (amountSynthetic amountCollateral amountFee nonce positionID expirationTimestamp : Z) : option bytes :=
  let assetIdSynthetic := trim_0x assetIdSynthetic in
  let assetIdCollateral := trim_0x assetIdCollateral in
  let assetIdFee := trim_0x assetIdFee in
  let '(asset_id_sell, asset_id_buy, amount_sell, amount_buy) :=
    if isBuyingSynthetic then (SetString assetIdCollateral 16, SetString assetIdSynthetic 16, amountCollateral, amountSynthetic)
    else (SetString assetIdSynthetic 16, SetString assetIdCollateral 16, amountSynthetic, amountCollateral) in
  let asset_id_fee := SetString assetIdFee 16 in
  asset_id_sell ← asset_id_sell; asset_id_buy ← asset_id_buy;
  msg ← CalcHash [asset_id_sell; asset_id_buy];
  let msgInt := SetBytes msg in
  asset_id_fee ← asset_id_fee;
  msg ← CalcHash [msgInt; asset_id_fee];
  let packed0 := packed_message0 amount_sell amount_buy amountFee nonce in
  let msgInt := SetBytes msg in
  msg ← CalcHash [msgInt; packed0];
  let packed1 := packed_message1 positionID expirationTimestamp in
  let msgInt := SetBytes msg in
  CalcHash [msgInt; packed1].

(** ** Whole numbers as decimals *)

Class DecimalInts (DD : Decimal) := {
  dbig : option Z -> option D;   (** [decimal.NewFromBigInt(z, 0)]; of nil nothing is known *)
  dceil : D -> D;                (** [Ceil] *)
  dtrunc : D -> Z;               (** [BigInt], the integer part *)
}.
Class DecimalIntsLaws (DD : Decimal) {DI : DecimalInts DD} : Prop := {
  dval_big z : exists d, dbig (Some z) = Some d /\ (dval d == inject_Z z)%Q;
  dval_ceil a : (dval (dceil a) == inject_Z (Qceiling (dval a)))%Q;
  dtrunc_val a : dtrunc a = Qtrunc (dval a);
}.
#[export] Instance QDecimalInts : DecimalInts QDecimal := {
  dbig z := inject_Z <$> z;
  dceil a := inject_Z (Qceiling a);
  dtrunc a := Qtrunc a;
}.
#[export] Instance QDecimalIntsLaws : DecimalIntsLaws QDecimal.
Proof. split; [intros z; by exists (inject_Z z)|done..]. Qed.

(** ** The data of an order *)

(** What [PlaceOrder] reads of a contract and of its quote coin. *)
Record Contract := mkContract {
  ct_ContractId : string; ct_DefaultTakerFeeRate : string;
  ct_StarkExSyntheticAssetId : string; ct_StarkExResolution : string;
}.
Record Coin := mkCoin { co_StarkExAssetId : string; co_StarkExResolution : string }.
Record PlaceOrderParams := mkPlaceOrderParams {
  po_ContractId : string; po_Side : string; po_Type : string; po_Quantity : string; po_Price : string;
  po_ClientOrderId : string; po_TimeInForce : string; po_ReduceOnly : bool; po_ExpireTime : Z;
}.
Record Client := mkClient { cl_starkPrivateKey : string; cl_AccountID : string }.

(** The nanoseconds of [time.Now()] as a client order id. *)
Definition GetRandomClientId (nanoTimestamp : Z) : string := pretty nanoTimestamp.
Definition twenty_eight_days : Z := 28 * 24 * 60 * 60 * 1000000000.

(** The value of a call whose error is dropped, nil after an error. *)
Definition found {A} (r : res A) : option A := match r with Ok a => Some a | Fail _ => None end.

Section order.
Context {DD : Decimal} {DI : DecimalInts DD}.
(** [now] are the seconds of the signature, [nanoTimestamp] those of the id and of the expiration, in nanoseconds. *)
Context (fuel : nat) (now nanoTimestamp : Z) (rand_Int : Z -> Z).

(** The amounts that an order signs. *)
Record amounts := mkAmounts {
  am_Synthetic : Z; am_Collateral : Z; am_MaxFee : Z; am_LimitFee : D; am_Value : D;
}.
Definition order_amounts (size price : D) (contract : Contract) (syntheticFactor shiftFactor : D) : amounts :=
  let valueDm := dmul price size in
  let amountSynthetic := int64 (dtrunc (dmul size syntheticFactor)) in
  let amountCollateral := int64 (dtrunc (dmul valueDm shiftFactor)) in
  let feeRate := dparse "0.001" in
  let feeRate :=
    if negb (String.eqb (ct_DefaultTakerFeeRate contract) "") then
      match dparse (ct_DefaultTakerFeeRate contract) with Some fr => Some fr | None => feeRate end
    else feeRate in
  let limitFee := dceil (dmul (dmul size price) (default dzero feeRate)) in
  let maxAmountFee := int64 (dtrunc (dmul limitFee shiftFactor)) in
  mkAmounts amountSynthetic amountCollateral maxAmountFee limitFee valueDm.

(** The body of the request; [Some None] while the signature is searched for, [None] a panic. *)
Definition order_request (c : Client) (params : PlaceOrderParams) (contract : Contract) (quoteCoin : Coin) :
  looping (res (list (string * value (Other := Empty_set)))) :=
  match dparse (po_Quantity params) with
  | None => Some (Some (Fail (mkErr ErrOther "invalid quantity: ")))
  | Some size =>
  let priceStr := if String.eqb (po_Price params) "" then "0" else po_Price params in
  match dparse priceStr with
  | None => Some (Some (Fail (mkErr ErrOther "invalid price: ")))
  | Some price =>
  syntheticFactor ← dbig (found (HexToBigInteger (ct_StarkExResolution contract)));
  shiftFactor ← dbig (found (HexToBigInteger (co_StarkExResolution quoteCoin)));
  let am := order_amounts size price contract syntheticFactor shiftFactor in
  let clientOrderId := if String.eqb (po_ClientOrderId params) "" then GetRandomClientId nanoTimestamp else po_ClientOrderId params in
  let nonce := CalcNonce clientOrderId in
  let expireTime :=
    if po_ExpireTime params =? 0 then Z.quot (nanoTimestamp + twenty_eight_days) 1000000 else po_ExpireTime params in
  let l2ExpireTime := int64 (expireTime + 8 * 24 * 60 * 60 * 1000) in
  let l2ExpireHour := Z.quot l2ExpireTime (60 * 60 * 1000) in
  let isBuying := String.eqb (po_Side params) "BUY" in
  accountID ← ToBigInt (cl_AccountID c);
  msgHash ← CalcLimitOrderHash (ct_StarkExSyntheticAssetId contract) (co_StarkExAssetId quoteCoin) (co_StarkExAssetId quoteCoin) isBuying
    (am_Synthetic am) (am_Collateral am) (am_MaxFee am) nonce (int64 accountID) l2ExpireHour;
  sig ← SignL2 fuel now rand_Int (cl_starkPrivateKey c) msgHash;
  match sig with
  | None => Some None
  | Some (Fail err) => Some (Some (Fail (mkErr (err_kind err) "failed to sign order: ")))
  | Some (Ok sig) =>
  let timeInForce :=
    if String.eqb (po_TimeInForce params) "" then
      if String.eqb (po_Type params) "MARKET" then "IMMEDIATE_OR_CANCEL" else "GOOD_TIL_CANCEL"
    else po_TimeInForce params in
  Some (Some (Ok [
    ("accountId", VString (cl_AccountID c));
    ("contractId", VString (ct_ContractId contract));
    ("price", VString priceStr);
    ("size", VString (po_Quantity params));
    ("type", VString (po_Type params));
    ("side", VString (po_Side params));
    ("timeInForce", VString timeInForce);
    ("clientOrderId", VString clientOrderId);
    ("expireTime", VString (pretty expireTime));
    ("l2Nonce", VString (pretty nonce));
    ("l2Signature", VString (l2_R sig ++ l2_S sig ++ l2_V sig));
    ("l2ExpireTime", VString (pretty l2ExpireTime));
    ("l2Value", VString (dstring (am_Value am)));
    ("l2Size", VString (po_Quantity params));
    ("l2LimitFee", VString (dstring (am_LimitFee am)));
    ("reduceOnly", VBool (po_ReduceOnly params))]))
  end end end.

(** [call] posts the body to the endpoint and decodes the answer. *)
Definition PlaceOrder {A} (call : string -> list (string * value (Other := Empty_set)) -> res A)
  (c : Client) (params : PlaceOrderParams) (contract : Contract) (quoteCoin : Coin) : looping (res A) :=
  request ← order_request c params contract quoteCoin;
  Some (match request with
        | None => None
        | Some (Fail err) => Some (Fail err)
        | Some (Ok reqBody) => Some (call "/api/v1/private/order/createOrder" reqBody)
        end).
End order.
