(* ===== verification/EdgexFacts.v ===== *)
(** * Requests that are signed for what they say

    Hexadecimal text reads back, the packed fields of a limit order do not overlap, and the
    signature in the body of an order verifies for the amounts that the order states. *)
From Stdlib Require Import ZArith QArith Qround Ascii.
From stdpp Require Import base tactics list option numbers strings sorting pretty.
From S2P Require Import Prelude Decimals Identifiers Market StarkPrimes CurveGroup StarkCurve StarkField StarkBase StarkHash StarkSign StarkSignFacts EdgexPerp.

Open Scope string_scope.
Open Scope Z_scope.

(** ** Hexadecimal text *)

Lemma hex_digit_char z : 0 <= z < 16 -> hex_digit (hex_char z) = Some z.
Proof.
  intros H. assert (Hall : forallb (fun z => match hex_digit (hex_char z) with Some z' => z' =? z | None => false end) (seqZ 0 16) = true) by (by vm_compute).
  rewrite forallb_forall in Hall. specialize (Hall z ltac:(apply list_elem_of_In, elem_of_seqZ; lia)).
  destruct (hex_digit (hex_char z)); [|done]. by apply Z.eqb_eq in Hall as ->.
Qed.
Lemma byte_halves b : 0 <= byte_val b / 16 < 16 /\ 0 <= byte_val b mod 16 < 16.
Proof.
  pose proof (byte_val_bound b). pose proof (Z.mod_pos_bound (byte_val b) 16). pose proof (Z.div_pos (byte_val b) 16).
  pose proof (Z.div_lt_upper_bound (byte_val b) 16 16). lia.
Qed.
Lemma decode_print bs : decode_hex (print_hex bs) = Some bs.
Proof.
  induction bs as [|b bs IH]; [done|]. cbn [print_hex decode_hex]. destruct (byte_halves b) as [H1 H2].
  rewrite !hex_digit_char by done. cbn [mbind option_bind]. rewrite IH. cbn [mbind option_bind].
  rewrite Z.mul_comm, <- (Z.div_mod (byte_val b) 16) by lia. by rewrite to_byte_val.
Qed.
Lemma digits_print n bs : digits 16 n (print_hex bs) = Some (n * 256 ^ Z.of_nat (length bs) + SetBytes bs).
Proof.
  revert n. induction bs as [|b bs IH]; intros n; cbn [print_hex digits length]; [by rewrite Z.mul_1_r, Z.add_0_r|].
  destruct (byte_halves b) as [H1 H2]. rewrite !hex_digit_char by done. cbn [mbind option_bind].
  rewrite !(proj2 (Z.ltb_lt _ 16)) by lia. rewrite IH. f_equal.
  rewrite SetBytes_cons, Nat2Z.inj_succ, Z.pow_succ_r by lia. pose proof (Z.div_mod (byte_val b) 16 ltac:(done)). nia.
Qed.
(** A digit is no sign. *)
Lemma hex_char_sign z : 0 <= z < 16 -> Ascii.eqb (hex_char z) "-"%char = false /\ Ascii.eqb (hex_char z) "+"%char = false.
Proof.
  intros H. assert (Hall : forallb (fun z => negb (Ascii.eqb (hex_char z) "-"%char) && negb (Ascii.eqb (hex_char z) "+"%char)) (seqZ 0 16) = true) by (by vm_compute).
  rewrite forallb_forall in Hall. specialize (Hall z ltac:(apply list_elem_of_In, elem_of_seqZ; lia)).
  by rewrite andb_true_iff, !negb_true_iff in Hall.
Qed.
Lemma SetString_print b bs : SetString (print_hex (b :: bs)) 16 = Some (SetBytes (b :: bs)).
Proof.
  unfold SetString. cbn [print_hex]. destruct (hex_char_sign (byte_val b / 16)) as [-> ->]; [apply byte_halves|].
  change (String (hex_char (byte_val b / 16)) (String (hex_char (byte_val b mod 16)) (print_hex bs))) with (print_hex (b :: bs)).
  rewrite digits_print. cbn [mbind option_bind]. by rewrite Z.mul_0_l.
Qed.
Lemma print_hex_app a b : print_hex (a ++ b)%list = print_hex a ++ print_hex b.
Proof. induction a as [|x a IH]; [done|]. cbn [app print_hex]. by rewrite IH. Qed.
Lemma substring_print n bs : String.substring 0 (2 * n) (print_hex bs) = print_hex (take n bs).
Proof.
  revert bs. induction n as [|n IH]; intros [|b bs]; try done. replace (2 * Datatypes.S n)%nat with (Datatypes.S (Datatypes.S (2 * n))) by lia.
  cbn [print_hex String.substring take]. by rewrite IH.
Qed.

Lemma print_hex_length bs : String.length (print_hex bs) = (2 * length bs)%nat.
Proof. induction bs as [|b bs IH]; [done|]. cbn [print_hex String.length length]. lia. Qed.
Lemma String_app_nil s : s ++ "" = s.
Proof. induction s as [|c s IH]; [done|]. change (String c (s ++ "") = String c s). by rewrite IH. Qed.

(** ** The nonce of an order *)

Lemma CalcNonce_bytes src : CalcNonce src = SetBytes (take 4 (sha256 (ascii_bytes src))).
Proof.
  unfold CalcNonce. rewrite (substring_print 4). pose proof (sha256_length (ascii_bytes src)) as H.
  destruct (sha256 (ascii_bytes src)) as [|b bs]; [done|]. cbn [take]. by rewrite SetString_print.
Qed.
Lemma CalcNonce_bound src : 0 <= CalcNonce src < 2 ^ 32.
Proof.
  rewrite CalcNonce_bytes. pose proof (SetBytes_bound (take 4 (sha256 (ascii_bytes src)))) as H.
  rewrite length_take, sha256_length in H. exact H.
Qed.

(** ** The packed messages *)

Lemma packed_message0_sum sell buy fee nonce : packed_message0 sell buy fee nonce = ((sell * 2 ^ 64 + buy) * 2 ^ 64 + fee) * 2 ^ 32 + nonce.
Proof. unfold packed_message0. by rewrite !Z.shiftl_mul_pow2 by lia. Qed.
Lemma packed_message1_sum pos exp : packed_message1 pos exp = ((((3 * 2 ^ 64 + pos) * 2 ^ 64 + pos) * 2 ^ 64 + pos) * 2 ^ 32 + exp) * 2 ^ 17.
Proof. unfold packed_message1. by rewrite !Z.shiftl_mul_pow2 by lia. Qed.

(** C29: The two packed messages of a limit order fit the 252 bits that the hash reads, and determine the amounts,
    the fee, the nonce, the position and the expiration, as long as these are not negative and nonce and expiration
    have 32 bits; the nonce of [CalcNonce] does. *)
Theorem limit_order_packing sell buy fee nonce pos exp sell' buy' fee' nonce' pos' exp' src :
  Forall (fun z => 0 <= z < 2 ^ 63) [sell; buy; fee; pos; sell'; buy'; fee'; pos'] ->
  Forall (fun z => 0 <= z < 2 ^ 32) [nonce; exp; nonce'; exp'] ->
  0 <= packed_message0 sell buy fee nonce < 2 ^ 223 /\ 0 <= packed_message1 pos exp < 2 ^ 243 /\ 0 <= CalcNonce src < 2 ^ 32 /\
  (packed_message0 sell buy fee nonce = packed_message0 sell' buy' fee' nonce' -> (sell, buy, fee, nonce) = (sell', buy', fee', nonce')) /\
  (packed_message1 pos exp = packed_message1 pos' exp' -> (pos, exp) = (pos', exp')).
Proof.
  rewrite !Forall_cons, !packed_message0_sum, !packed_message1_sum. intros H1 H2. pose proof (CalcNonce_bound src). destruct_and?.
  repeat split; try lia.
  - intros E. assert (nonce = nonce') as -> by lia. assert (fee = fee') as -> by lia. assert (buy = buy') as -> by lia. by assert (sell = sell') as -> by lia.
  - intros E. assert (exp = exp') as -> by lia. by assert (pos = pos') as -> by lia.
Qed.

(** ** Signed orders *)

Lemma pad_hex_spec z : 0 <= z < sc_N NewStarkCurve ->
  exists s, pad_hex z = Some s /\ String.length s = 64%nat /\ SetString s 16 = Some z.
Proof.
  intros Hz. change (sc_N NewStarkCurve) with point_order in Hz. pose proof point_order_pos as Hn.
  assert (Hb : 2 ^ 252 < 256 ^ 32) by done. destruct (pad_left_spec 32 z) as (bs & E & Hl & Hs); [lia..|].
  unfold pad_hex. rewrite E. exists (print_hex bs). split; [done|]. assert (Hl' : length bs = 32%nat) by lia. split.
  - by rewrite print_hex_length, Hl'.
  - destruct bs as [|b bs]; [done|]. by rewrite SetString_print, Hs.
Qed.
Lemma hashToInt_Bytes e : 0 <= e < point_order -> hashToInt (Bytes e) 256 = e.
Proof.
  intros He. destruct (Bytes_order e He) as [Hl Hs]. unfold hashToInt. change ((256 + 7) / 8) with 32.
  rewrite (proj2 (Z.ltb_ge 32 _)), (proj2 (Z.ltb_ge 0 _)) by lia. exact Hs.
Qed.

(** The signature that [SignL2] writes, and when it verifies. *)
Definition valid_signature (priv msgHash : bytes) (signature : string) : Prop :=
  exists r s R S, signature = R ++ S /\ String.length R = 64%nat /\ String.length S = 64%nat /\
    SetString R 16 = Some r /\ SetString S 16 = Some s /\
    let e := SetBytes msgHash mod sc_N NewStarkCurve in
    (e <> 0 -> exists X Y, ScalarBaseMult NewStarkCurve priv = Some (Some (X, Y)) /\ Verify (Bytes e) X Y r s = Some true).
Lemma SignL2_valid fuel now rand_Int key priv msgHash sig :
  SignL2 fuel now rand_Int key msgHash = Some (Some (Ok sig)) -> decode_hex (trim_0x key) = Some priv ->
  0 < SetBytes priv < sc_N NewStarkCurve -> valid_signature priv msgHash (l2_R sig ++ l2_S sig ++ l2_V sig).
Proof.
  intros H Hd Hp. unfold SignL2, sign_reduced in H. rewrite Hd in H. cbv zeta in H. set (e := SetBytes msgHash mod sc_N NewStarkCurve) in *.
  destruct (StarkSign.Sign _ _ _ _ _) as [[[[r s]|]|]|] eqn:Es; try done. cbn [mbind option_bind] in H. apply Sign_signed in Es.
  assert (Hb : 0 < r < point_order /\ 0 < s < point_order).
  { destruct Es as (_ & j & _ & _ & Hg & E). apply signature_bounds in Hg. by rewrite <- E in Hg. }
  destruct (pad_hex_spec r) as (R & ER & LR & VR); [change (sc_N NewStarkCurve) with point_order; lia|].
  destruct (pad_hex_spec s) as (S & ES & LS & VS); [change (sc_N NewStarkCurve) with point_order; lia|].
  rewrite ER, ES in H. injection H as <-. exists r, s, R, S. cbn [l2_R l2_S l2_V]. rewrite (String_app_nil S). do 5 (split; [done|]).
  fold e. intros He. destruct (public_key priv Hp) as (X & Y & EQ). exists X, Y. split; [exact EQ|].
  refine (signed_verifies ScalarBaseMult _ _ _ _ _ _ _ _ _ ScalarBaseMult_base Hp _ Es EQ). pose proof point_order_pos.
  rewrite hashToInt_Bytes; [exact He|apply Z.mod_pos_bound; change (sc_N NewStarkCurve) with point_order; lia].
Qed.

Section orders.
Context {DD : Decimal} {DI : DecimalInts DD}.

#[local] Existing Instance Qtrunc_proper.
(** The amounts of an order, rounded to the assets' units: the fee limit is at least the fee. *)
Lemma order_amounts_spec {DL : DecimalLaws DD} {DIL : DecimalIntsLaws DD} size price contract syntheticFactor shiftFactor :
  let am := order_amounts size price contract syntheticFactor shiftFactor in
  let rate := match dparse (ct_DefaultTakerFeeRate contract) with
              | Some fr => if String.eqb (ct_DefaultTakerFeeRate contract) "" then default dzero (dparse "0.001") else fr
              | None => default dzero (dparse "0.001")
              end in
  (dval (am_Value am) == dval price * dval size)%Q /\ (dval size * dval price * dval rate <= dval (am_LimitFee am))%Q /\
  am_Synthetic am = int64 (Qtrunc (dval size * dval syntheticFactor)) /\
  am_Collateral am = int64 (Qtrunc (dval price * dval size * dval shiftFactor)) /\
  am_MaxFee am = int64 (Qtrunc (dval (am_LimitFee am) * dval shiftFactor)).
Proof.
  cbv zeta. unfold order_amounts. cbn [am_Value am_LimitFee am_Synthetic am_Collateral am_MaxFee].
  set (rate := match dparse _ with Some _ => _ | None => _ end).
  replace (default dzero _) with rate by (unfold rate; destruct (dparse (ct_DefaultTakerFeeRate contract)), (String.eqb _ _); done).
  rewrite !dtrunc_val. repeat split.
  - apply dval_mul.
  - rewrite dval_ceil, <- !dval_mul. apply Qle_ceiling.
  - by rewrite dval_mul.
  - by rewrite !dval_mul.
  - by rewrite dval_mul.
Qed.

(** The value of a field of a request. *)
Definition field (body : list (string * value (Other := Empty_set))) (key : string) : option value :=
  snd <$> find (fun kv => String.eqb (fst kv) key) body.

End orders.
