(* ===== verification/Witnesses.v ===== *)
(** * Witnesses

    Each property with hypotheses, applied at a concrete input where they hold. *)
From stdpp Require Import base gmap list strings sorting.
From Stdlib Require Import QArith Lqa.
From S2P Require Import Prelude Decimals Enums Identifiers Orders OrderState Market Accounts.
From S2P Require Import Cache CacheFacts Samples Reconciler ReconcilerFacts Kernel Risk RiskFacts.
From S2P Require Import Portfolio PortfolioFacts PortfolioLedger.

Open Scope go_scope.
Open Scope string_scope.

Lemma SubmitOrder_Validate_spec_witness :
  SubmitOrder_Validate q_submit = Ok tt /\ well_formed_order q_submit.
Proof.
  split; [vm_compute; reflexivity|].
  exact (proj2 (proj2 (proj1 (SubmitOrder_Validate_spec (DL := QDecimalLaws) q_submit) eq_refl))).
Defined.

Lemma ApplyOrderModification_sound_witness :
  exists u, ApplyOrderModification q_order q_modify = Ok u /\ quantity_ok q_order q_modify u.
Proof.
  assert (Hok : is_ok (ApplyOrderModification q_order q_modify) = true) by (vm_compute; reflexivity).
  destruct (ApplyOrderModification q_order q_modify) as [u|e] eqn:E; [|discriminate Hok].
  exists u. split; [reflexivity|].
  exact (proj1 (proj2 (ApplyOrderModification_sound (DL := QDecimalLaws) q_order q_modify u eq_refl E))).
Defined.

Lemma ApplyOrderModification_closed_witness :
  OrderStatus_IsOpen (or_Status q_canceled) = false /\ is_ok (ApplyOrderModification q_canceled q_modify) = false.
Proof. split; [reflexivity|]. apply ApplyOrderModification_closed. left. reflexivity. Defined.

Lemma NextOrderStatus_result_witness :
  NextOrderStatus OrderStatusPendingUpdate OrderStatusSubmitted = Some OrderStatusPendingUpdate /\
  ~ OrderStatusPendingUpdate = OrderStatusSubmitted.
Proof.
  split; [reflexivity|].
  destruct (NextOrderStatus_result OrderStatusPendingUpdate OrderStatusSubmitted OrderStatusPendingUpdate eq_refl)
    as [H|_]; [discriminate H|discriminate].
Defined.

Lemma ValidatePrice_Size_spec_witness :
  ValidatePrice q_instrument (100 # 1)%Q = Ok tt /\ exists k : Z, (0 < k)%Z /\ (100 # 1 == inject_Z k * (1 # 100))%Q.
Proof.
  split; [vm_compute; reflexivity|].
  exact (proj1 (proj1 (ValidatePrice_Size_spec (DL := QDecimalLaws) q_instrument (100 # 1)%Q eq_refl eq_refl)) eq_refl).
Defined.

Lemma MarketEvent_Validate_one_witness :
  let e := mkMarketEvent None None None None None None (Some (mkCustomData btc "x" {["k" := "v"]} 1%Z 1%Z)) in
  MarketEvent_Validate (DD := QDecimal) e = Ok tt /\ MarketEvent_count (DD := QDecimal) e = 1%nat.
Proof.
  intros e. assert (H : MarketEvent_Validate (DD := QDecimal) e = Ok tt) by (vm_compute; reflexivity).
  split; [exact H|]. exact (proj1 (MarketEvent_Validate_one e H)).
Defined.

Lemma Balance_Amounts_sum_witness :
  let b := mkBalance "USDT" "3" "" "10" in
  Balance_Amounts b = Ok ((10 # 1)%Q, (7 # 1)%Q, (3 # 1)%Q) /\ (10 # 1 == (7 # 1) + (3 # 1))%Q.
Proof.
  intros b. assert (H : Balance_Amounts b = Ok ((10 # 1)%Q, (7 # 1)%Q, (3 # 1)%Q)) by (vm_compute; reflexivity).
  split; [exact H|].
  apply (proj1 (Balance_Amounts_sum (DL := QDecimalLaws) b _ _ _ H)). right. left. split; [reflexivity|discriminate].
Defined.

Lemma NewPositionLifecycleEvent_spec_witness :
  PositionStatusReport_Validate q_position = Ok tt /\
  match NewPositionLifecycleEvent None q_position with
  | Some event => PositionLifecycleEvent_Validate event = Ok tt
  | None => False
  end.
Proof.
  split; [vm_compute; reflexivity|].
  assert (H := NewPositionLifecycleEvent_spec (DL := QDecimalLaws) None q_position).
  assert (Hsome : bool_decide (is_Some (NewPositionLifecycleEvent None q_position)) = true) by (vm_compute; reflexivity).
  destruct (NewPositionLifecycleEvent None q_position) as [e|]; [|discriminate Hsome].
  apply H; vm_compute; first [reflexivity | discriminate].
Defined.

Lemma Purge_keeps_newest_witness :
  let policy := mkPurgePolicy 0 0 0 in
  let c := run_ops New [OpOrder q_order; OpOrder q_canceled] in
  (0 <= pp_ClosedOrdersLimit policy)%Z /\
  OpenOrders (Purge c "acc" policy).1 "acc" = OpenOrders c "acc".
Proof.
  intros policy c. split; [reflexivity|].
  assert (H := Purge_keeps_newest [OpOrder q_order; OpOrder q_canceled] "acc" policy (Z.le_refl 0)).
  cbv zeta in H. fold c in H. rewrite (surjective_pairing (Purge c "acc" policy)) in H. exact (proj1 H).
Defined.

Lemma PutFill_once_witness :
  exists c', PutFill New q_fill = Ok (c', true) /\ PutFill c' q_fill = Ok (c', false).
Proof.
  assert (Hok : is_ok (PutFill New q_fill) = true) by (vm_compute; reflexivity).
  destruct (PutFill New q_fill) as [[c' stored]|e] eqn:E; [|discriminate Hok].
  destruct (PutFill_once New q_fill c' stored E) as (Hs & _ & _ & Hagain).
  change (stored = true) in Hs. subst stored. exists c'. split; [reflexivity|].
  apply Hagain; vm_compute; reflexivity.
Defined.

Lemma applyFillToOrder_effect_witness :
  (valid_report q_order /\ valid_fill q_fill) /\ or_AveragePrice (applyFillToOrder q_order q_fill) = (100 # 1)%Q.
Proof.
  assert (V : valid_report q_order) by (apply (OrderStatusReport_Validate_ok (DL := QDecimalLaws)); vm_compute; reflexivity).
  assert (F : valid_fill q_fill) by (apply (FillReport_Validate_ok (DL := QDecimalLaws)); vm_compute; reflexivity).
  split; [exact (conj V F)|].
  destruct (applyFillToOrder_effect (DL := QDecimalLaws) q_order q_fill V F) as (_ & _ & _ & _ & _ & _ & Havg & _).
  apply Havg. left. reflexivity.
Defined.

(** A fill, then the report of its order. *)
Lemma early_fills_replayed_witness :
  let c := apply_events New [fill_event q_fill] in
  exists c' u, Apply c (order_event q_order) = (c', Ok tt) /\ cache_Order c' "acc" "o1" = Some u /\
    (or_FilledQuantity u == capped (10 # 1) (total (FillsForOrder c "acc" "o1")))%Q.
Proof.
  intros c. destruct (Apply c (order_event q_order)) as [c' out] eqn:E.
  assert (Hout : out = Ok tt) by (change out with ((c', out).2); rewrite <- E; vm_compute; reflexivity). subst out.
  assert (H1 : cache_Order c "acc" "o1" = None) by (vm_compute; reflexivity).
  assert (H2 : or_Status q_order <> OrderStatusFilled) by discriminate.
  destruct (early_fills_replayed (DL := QDecimalLaws) [fill_event q_fill] q_order c' H1 eq_refl H2 E) as (u & Hu & _ & Hq).
  exists c', u. exact (conj eq_refl (conj Hu Hq)).
Defined.

(** A canceled order is reported accepted again: refused. *)
Lemma order_report_step_witness :
  let c := apply_events New [order_event q_canceled] in
  cache_Order c "acc" "o1" = Some q_canceled /\ (Apply c (order_event q_order)).1 = c.
Proof.
  intros c. assert (H : cache_Order c "acc" "o1" = Some q_canceled) by (vm_compute; reflexivity).
  split; [exact H|].
  assert (T := order_report_step (DL := QDecimalLaws) [order_event q_canceled] q_order q_canceled H). fold c in T.
  destruct (Apply c (order_event q_order)) as [c' [[]|e]] eqn:E; [|exact T].
  assert (Hbad : (Apply c (order_event q_order)).2 = Ok tt) by (rewrite E; reflexivity).
  vm_compute in Hbad. discriminate Hbad.
Defined.



Lemma RepairPositionReports_plan_witness :
  let rc := mkReconciler (run_ops New [OpPosition q_position]) ∅ in
  exists rc' result,
    RepairPositionReports 9 rc "acc" btc [] (mkPositionRepairPolicy 3 9) = (rc', Ok result) /\
    rc_cache rc' = rc_cache rc.
Proof.
  intros rc. destruct (RepairPositionReports 9 rc "acc" btc [] (mkPositionRepairPolicy 3 9)) as [rc' [result|e]] eqn:E.
  - exists rc', result. split; [reflexivity|].
    exact (proj1 (RepairPositionReports_plan (DL := QDecimalLaws) 9 rc "acc" btc [] (mkPositionRepairPolicy 3 9) rc' result
      (reachable_positions_ok [OpPosition q_position]) E)).
  - exfalso. assert (Hbad : is_ok (RepairPositionReports 9 rc "acc" btc [] (mkPositionRepairPolicy 3 9)).2 = true)
      by (vm_compute; reflexivity).
    rewrite E in Hbad. discriminate Hbad.
Defined.

(** ** Kernel and risk *)

Lemma failure_has_error_witness :
  let err := mkErr ErrOther "lost" in
  rtc kstep (NewComponent "c", []) (Fault (NewComponent "c") err, []) /\
  is_Some (kc_lastErr (Fault (NewComponent "c") err)).
Proof.
  intros err. assert (H : rtc kstep (NewComponent "c", []) (Fault (NewComponent "c") err, []))
    by (apply rtc_once; constructor).
  split; [exact H|]. exact (failure_has_error "c" (Fault (NewComponent "c") err) [] H (or_introl eq_refl)).
Defined.

(** An engine with one instrument and an order notional limit of 1000. *)
Definition q_config : Config :=
  mkConfig (1000 # 1)%Q 0%Q 0%Q "" TradingStateActive 4 2 0 0 ∅ ∅ ∅.
Definition q_engine : Engine := NewEngine (Some (run_ops New [OpInstrument q_instrument])) q_config.


Lemma resolveLimits_least_witness : resolved_ok (applicable q_config q_submit) (resolveLimits q_submit q_config).
Proof. exact (resolveLimits_least (DL := QDecimalLaws) q_submit q_config). Defined.

Lemma command_rate_bound_witness :
  admitted_times q_engine q_config [5%Z; 6%Z; 7%Z] = [5%Z; 6%Z] /\
  (Z.of_nat (in_window (rate_window q_config) 7 (admitted_times q_engine q_config [5%Z; 6%Z; 7%Z])) <= 2)%Z.
Proof.
  split; [vm_compute; reflexivity|].
  apply (command_rate_bound q_engine q_config [5%Z; 6%Z; 7%Z] 7); [reflexivity|reflexivity|].
  repeat constructor; discriminate.
Defined.


Lemma command_queue_fifo_witness :
  let ops := [OpExecute q_submit; OpCommand (fun _ => [q_instrument]) 7] in
  let '(e', queued, decided) := run_risk q_engine ops in
  ((de_Order <$> decided) ++ rk_cmdQueue e')%list = (rk_cmdQueue q_engine ++ queued)%list.
Proof.
  intros ops. assert (H := command_queue_fifo q_engine ops).
  destruct (run_risk q_engine ops) as [[e' queued] decided]. apply H. discriminate.
Defined.

Lemma exposure_enumeration_independent_witness :
  let c := rk_cache q_engine in
  let insts := fun _ : Site => cache_Instruments c in
  exists exposure, projectedAccountExposure insts c q_submit (100 # 1)%Q q_config = Some exposure /\
    (dval exposure == sumQ (exposure_share c q_submit (100 # 1)%Q <$> cache_Instruments c))%Q.
Proof.
  intros c insts. apply (exposure_enumeration_independent (DL := QDecimalLaws) insts c q_config q_submit (100 # 1)%Q).
  - vm_compute. reflexivity.
  - reflexivity.
Defined.

(** A portfolio of one instrument, and fills of an account that holds one position in it. *)
Definition q_portfolio : Portfolio := NewPortfolio (Some (run_ops New [OpInstrument q_instrument])).
Definition q_net (t : TradeID) (side : OrderSide) (price qty : Q) : FillReport :=
  mkFillReport "acc" btc "o1" "v1" "c1" t "" false side price qty (1 # 10)%Q "USDT" 5%Z.
Definition q_run : list FillReport :=
  [q_net "t1" OrderSideBuy (100 # 1)%Q (4 # 1)%Q; q_net "t1" OrderSideBuy (100 # 1)%Q (4 # 1)%Q;
   q_net "t2" OrderSideSell (110 # 1)%Q (6 # 1)%Q].

Lemma fill_position_witness :
  let q := (ApplyFill (fun _ _ => []) id q_portfolio (q_net "t1" OrderSideBuy (100 # 1)%Q (4 # 1)%Q)).1 in
  exists y, pos q "acc" btc = Some y /\ sided y /\ (held (Some y) == 4 # 1)%Q.
Proof.
  intros q. destruct (fill_position (DL := QDecimalLaws) (fun _ _ => []) id q_portfolio
    (q_net "t1" OrderSideBuy (100 # 1)%Q (4 # 1)%Q) "acc" btc) as (y & Hy & Hs & Hh & _).
  - apply netting_new; reflexivity.
  - split; [reflexivity|right; left; reflexivity].
  - vm_compute. reflexivity.
  - reflexivity.
  - reflexivity.
  - exists y. split; [exact Hy|]. split; [exact Hs|]. rewrite Hh. vm_compute. reflexivity.
Defined.


Lemma fills_count_once_witness :
  let q := apply_fills (fun _ _ => []) id q_portfolio q_run in
  (dval (Commission q "acc" "USDT") == 2 # 10)%Q /\
  ApplyFill (fun _ _ => []) id q (q_net "t1" OrderSideBuy (100 # 1)%Q (4 # 1)%Q) = (q, Ok tt).
Proof.
  intros q. destruct (fills_count_once (DL := QDecimalLaws) (fun _ _ => []) id q_portfolio q_run) as (_ & _ & Hc & Hr).
  fold q in Hc, Hr. split; [rewrite Hc; vm_compute; reflexivity|]. apply Hr; [left|reflexivity].
Defined.

Definition q_account : AccountSnapshot :=
  mkAccountSnapshot "acc" "SIM" AccountTypeCash "" [mkBalance "USDT" "90" "10" "100"] [] 0.
Definition q_deltas : list (Currency * @D QDecimal) := [("USDT", (- 20 # 1)%Q)].

Lemma balance_deltas_witness :
  exists updated, accountWithBalanceDeltas q_account q_deltas = Ok updated /\
    AccountSnapshot_Validate (DD := QDecimal) updated = Ok tt.
Proof.
  assert (Hok : is_ok (accountWithBalanceDeltas q_account q_deltas) = true) by (vm_compute; reflexivity).
  pose proof (balance_deltas (DL := QDecimalLaws) q_account q_deltas) as H.
  destruct (accountWithBalanceDeltas q_account q_deltas) as [updated|e] eqn:E; [|discriminate Hok].
  exists updated. split; [reflexivity|]. apply H; [vm_compute; reflexivity| | |].
  - apply NoDup_singleton.
  - apply NoDup_singleton.
  - intros Hin. apply list_elem_of_singleton in Hin. discriminate Hin.
Defined.
