(* ===== verification/ExecWitnesses.v ===== *)
(** * Witnesses: order lists and execution

    The properties of order lists, of the execution manager and of reconciliation, applied at
    concrete inputs. *)
From stdpp Require Import base gmap list strings sorting.
From Stdlib Require Import QArith Lqa.
From S2P Require Import Prelude Decimals Enums Identifiers Orders Market Accounts OrderLists Cache CacheFacts Samples.
From S2P Require Import Reconciler ReconcilerFacts ExecManager ExecManagerFacts OrderListProgress.
From S2P Require Import ExecReconciliation ExecReconciliationFacts.

Open Scope go_scope.
Open Scope string_scope.

(** A factory and the request of a bracket. *)
Definition q_factory : OrderFactory := NewOrderFactory "acc" [].
Definition q_bracket : BracketOrderRequest :=
  mkBracketOrderRequest btc OrderSideBuy (10 # 1)%Q (100 # 1)%Q (110 # 1)%Q (90 # 1)%Q.
Definition q_list : OrderList := (Bracket q_factory q_bracket).2.

Lemma OrderList_spec_witness : OrderList_Validate q_list = Ok tt /\ Kind q_list = OrderListKindBracket.
Proof.
  assert (H : OrderList_Validate q_list = Ok tt) by (vm_compute; reflexivity). split; [exact H|].
  rewrite (proj2 (OrderList_spec (DL := QDecimalLaws) q_list) H). vm_compute. reflexivity.
Defined.

Lemma Bracket_spec_witness : bracket_ok q_factory q_bracket /\ IsBracket q_list = true.
Proof.
  pose proof (Bracket_spec (DL := QDecimalLaws) q_factory q_bracket) as H. cbv zeta in H.
  split; [repeat split; try (vm_compute; reflexivity); try discriminate; left; reflexivity|].
  exact (proj1 (proj2 (proj2 H) (or_introl eq_refl))).
Defined.

(** A manager that has seen the report of [q_order], and fills of 4, 4 and 9 of it. *)
Definition q_ops : list ManagerOp := [MReport q_order].
Definition q_manager : Manager := run_mops (NewManager None false PositionIDModeNone) q_ops.
Definition q_fill2 : FillReport := mkFillReport "acc" btc "o1" "v1" "c1" "t2" "p1" false OrderSideBuy (101 # 1)%Q (4 # 1)%Q 0%Q "USDT" 6%Z.
Definition q_fill9 : FillReport := mkFillReport "acc" btc "o1" "v1" "c1" "t3" "p1" false OrderSideBuy (101 # 1)%Q (9 # 1)%Q 0%Q "USDT" 7%Z.
Definition q_fills : list FillReport := [q_fill; q_fill; q_fill2; q_fill9].

Example q_run_outcomes :
  (apply_fills q_manager q_fills).2 =
    [(true, Ok tt); (false, Ok tt); (true, Ok tt); (false, Fail (mkErr ErrOverfill "filled exceeds quantity"))].
Proof. vm_compute. reflexivity. Qed.

Lemma q_fills_for : Forall (for_order "acc" "o1") q_fills.
Proof. repeat constructor; vm_compute; reflexivity. Qed.

Lemma fills_booked_once_witness :
  exists u, booked_run "acc" "o1" q_manager q_order q_fills (apply_fills q_manager q_fills).1 u
    (apply_fills q_manager q_fills).2.
Proof.
  destruct (apply_fills q_manager q_fills) as [m' outs] eqn:E.
  destruct (fills_booked_once (DL := QDecimalLaws) false PositionIDModeNone q_ops "acc" "o1" q_order q_fills m' outs)
    as (u & Hu & _); [vm_compute; reflexivity | vm_compute; reflexivity | exact q_fills_for | exact E |].
  exists u. exact Hu.
Defined.

Lemma deferred_fills_replayed_witness :
  let m := run_mops (NewManager None false PositionIDModeNone) [MFill q_fill] in
  List.length (DeferredFillsForOrder (em_cache m) "acc" "o1") = 1%nat /\
  exists u, replayed (em_cache m) (em_cache (ApplyOrderReport m q_order).1) q_order [q_fill] u.
Proof.
  intros m. split; [vm_compute; reflexivity|].
  destruct (ApplyOrderReport m q_order) as [m' out] eqn:E.
  assert (Ho : out = (ApplyOrderReport m q_order).2) by (by rewrite E).
  assert (Hok : (ApplyOrderReport m q_order).2 = Ok tt) by (vm_compute; reflexivity). rewrite Hok in Ho. subst out.
  exact (deferred_fills_replayed (DL := QDecimalLaws) false PositionIDModeNone [MFill q_fill] q_order m' (Ok tt) eq_refl E).
Defined.

(** The order is canceled with nothing filled, and then the fill of 4 arrives. *)
Definition q_cancel_ops : list ManagerOp := [MReport q_order; MReport q_canceled].

Lemma late_fill_reopens_witness :
  let m := run_mops (NewManager None false PositionIDModeNone) q_cancel_ops in
  exists m' u, ApplyFill m q_fill = (m', true, Ok tt) /\ cache_Order (em_cache m') "acc" "o1" = Some u /\
    OrderStatus_IsOpen (or_Status u) = true.
Proof.
  intros m.
  destruct (late_fill_reopens (DL := QDecimalLaws) false PositionIDModeNone q_cancel_ops "acc" "o1" q_canceled q_fill)
    as [_ (m' & u & H1 & H2 & _ & H3)].
  - vm_compute. reflexivity.
  - reflexivity.
  - repeat split; vm_compute; reflexivity.
  - vm_compute. reflexivity.
  - vm_compute. reflexivity.
  - exists m', u. split; [exact H1|]. split; [exact H2|exact H3].
Defined.

Definition q_fill40 : FillReport := mkFillReport "acc" btc "o1" "v1" "c1" "t9" "p1" false OrderSideBuy (100 # 1)%Q (40 # 1)%Q 0%Q "USDT" 8%Z.

Lemma allowed_overfill_lost_witness :
  let m := run_mops (NewManager None true PositionIDModeNone) q_ops in
  exists m' e, ApplyFill m q_fill40 = (m', true, Fail e) /\ known (em_cache m') q_fill40 = true.
Proof.
  intros m.
  destruct (allowed_overfill_lost (DL := QDecimalLaws) true PositionIDModeNone q_ops "acc" "o1" q_order q_fill40)
    as (m' & e & H1 & H2 & _).
  - vm_compute. reflexivity.
  - repeat split; vm_compute; reflexivity.
  - vm_compute. reflexivity.
  - reflexivity.
  - vm_compute. reflexivity.
  - vm_compute. reflexivity.
  - exists m', e. split; [exact H1|exact H2].
Defined.

(** An open sibling of [q_order] in a list, and the list's order when it fills. *)
Definition in_list (c : ContingencyType) (r : OrderStatusReport) : OrderStatusReport :=
  r <| or_OrderListID := "l1" |> <| or_Contingency := c |>.
Definition q_sibling (c : ContingencyType) : OrderStatusReport :=
  in_list c (q_order <| or_OrderID := "o2" |> <| or_ClientOrderID := "c2" |> <| or_VenueOrderID := "v2" |>).
Definition q_part (c : ContingencyType) (filled : Q) : OrderStatusReport :=
  in_list c (q_order <| or_Status := OrderStatusPartiallyFilled |> <| or_FilledQuantity := filled |>
                     <| or_LeavesQuantity := (10 - filled)%Q |>).
Definition q_listed (c : ContingencyType) : OrderList :=
  mkOrderList CommandMetadata_zero "l1"
    [q_submit <| so_OrderListID := "l1" |> <| so_Contingency := c |>;
     q_submit <| so_OrderListID := "l1" |> <| so_Contingency := c |> <| so_ClientOrderID := "c2" |>].
Definition q_list_manager (c : ContingencyType) : Manager :=
  run_mops (NewManager None false PositionIDModeNone)
    [MList (q_listed c); MReport (in_list c q_order); MReport (q_sibling c)].

Lemma contingent_progress_witness :
  let m := q_list_manager ContingencyTypeOUO in let r := q_part ContingencyTypeOUO (4 # 1)%Q in
  List.length (open_siblings m r) = 1%nat /\
  exists acts, (HandleOrderListProgress m r).2 = Ok acts /\
    la_Modify acts = (fun s => reduce_to s (dsub (or_Quantity s) (fill_delta m r)))
                       <$> List.filter (reducible (fill_delta m r)) (open_siblings m r).
Proof.
  intros m r. split; [vm_compute; reflexivity|].
  assert (Hv : OrderStatusReport_Validate r = Ok tt) by (vm_compute; reflexivity).
  assert (Hok : is_ok (HandleOrderListProgress m r).2 = true) by (vm_compute; reflexivity).
  destruct (HandleOrderListProgress m r).2 as [acts|e] eqn:E; [|discriminate Hok]. exists acts. split; [reflexivity|].
  pose proof (proj2 (contingent_progress (DL := QDecimalLaws) m r acts Hv E) eq_refl) as H. cbv zeta in H.
  assert (Hb : LessThan dzero (or_FilledQuantity r) && LessThan (recorded m r) (or_FilledQuantity r) = true)
    by (vm_compute; reflexivity).
  rewrite Hb in H. exact (proj1 H).
Defined.

Lemma ouo_reduces_once_witness :
  let m := q_list_manager ContingencyTypeOUO in
  let rs := q_part ContingencyTypeOUO <$> [(4 # 1)%Q; (3 # 1)%Q; (4 # 1)%Q; (6 # 1)%Q] in
  (total_given_up m rs == 6)%Q.
Proof.
  intros m rs. etransitivity; [apply (ouo_reduces_once (DL := QDecimalLaws) m "acc" "o1")|].
  - vm_compute. discriminate.
  - repeat constructor.
  - vm_compute. reflexivity.
Defined.

Definition q_reconciler : Reconciler := NewReconciler (ConfigManager q_manager).

Lemma missing_fills_reconciled_witness :
  exists r' result, ReconcileMissingFills 1 2 q_reconciler [q_fill; q_fill; q_fill2] 6%Z = (r', result, Ok tt) /\
    rn_ReportsScanned result = 3%nat /\ rn_LookbackSkipped result = 2%nat.
Proof.
  destruct (ReconcileMissingFills 1 2 q_reconciler [q_fill; q_fill; q_fill2] 6%Z) as [[r' result] out] eqn:E.
  assert (Ho : out = (ReconcileMissingFills 1 2 q_reconciler [q_fill; q_fill; q_fill2] 6%Z).2) by (by rewrite E).
  assert (Hr : result = (ReconcileMissingFills 1 2 q_reconciler [q_fill; q_fill; q_fill2] 6%Z).1.2) by (by rewrite E).
  assert (Hok : (ReconcileMissingFills 1 2 q_reconciler [q_fill; q_fill; q_fill2] 6%Z).2 = Ok tt) by (vm_compute; reflexivity).
  rewrite Hok in Ho. subst out. exists r', result. split; [reflexivity|]. split.
  - exact (proj1 (missing_fills_reconciled false PositionIDModeNone q_ops 1 2 3 4 _ _ _ _ E)).
  - rewrite Hr. vm_compute. reflexivity.
Defined.

(** The venue reports the order with 4 filled, and the fill of those 4. *)
Definition q_reported : OrderStatusReport :=
  q_order <| or_Status := OrderStatusPartiallyFilled |> <| or_FilledQuantity := (4 # 1)%Q |>
          <| or_LeavesQuantity := (6 # 1)%Q |>.
Definition q_status : ExecutionMassStatus :=
  mkExecutionMassStatus CommandMetadata_zero "acc" "SIM" [] [q_reported] [q_fill] [] 9%Z.
Definition q_fresh : Reconciler := NewReconciler (ConfigManager (NewManager None false PositionIDModeNone)).

Lemma mass_status_adds_fills_witness :
  exists r' result u, ReconcileMassStatus 1 2 q_fresh q_status = (r', result, Ok tt) /\
    cache_Order (rcache r') "acc" "o1" = Some u /\ (dval (or_FilledQuantity u) == 8)%Q.
Proof.
  destruct (ReconcileMassStatus 1 2 q_fresh q_status) as [[r' result] out] eqn:E.
  assert (Ho : out = (ReconcileMassStatus 1 2 q_fresh q_status).2) by (by rewrite E).
  assert (Hok : (ReconcileMassStatus 1 2 q_fresh q_status).2 = Ok tt) by (vm_compute; reflexivity).
  rewrite Hok in Ho. subst out.
  destruct (mass_status_adds_fills (DL := QDecimalLaws) false PositionIDModeNone [] 1 2 CommandMetadata_zero "SIM"
              q_reported [q_fill] 9 r' result) as (_ & u & H1 & H2).
  - reflexivity.
  - vm_compute. reflexivity.
  - repeat constructor; vm_compute; reflexivity.
  - apply NoDup_singleton.
  - repeat constructor.
  - exact E.
  - exists r', result, u. split; [reflexivity|]. split; [exact H1|]. rewrite H2. vm_compute. reflexivity.
Defined.

(** A report without client order id and strategy. *)
Definition q_external : OrderStatusReport := q_order <| or_OrderID := "o7" |> <| or_ClientOrderID := "" |> <| or_VenueOrderID := "" |>.

Lemma external_orders_refused_witness :
  exists r' result, ReconcileExternalOrders 1 2 q_fresh [q_order; q_external] (mkExternalOrderPolicy false "") = (r', result, Ok tt) /\
    er_manager r' = apply_reports (er_manager q_fresh) [q_order] /\ List.length (rn_Unresolved result) = 1%nat.
Proof.
  destruct (ReconcileExternalOrders 1 2 q_fresh [q_order; q_external] (mkExternalOrderPolicy false "")) as [[r' result] out] eqn:E.
  assert (Ho : out = (ReconcileExternalOrders 1 2 q_fresh [q_order; q_external] (mkExternalOrderPolicy false "")).2) by (by rewrite E).
  assert (Hok : (ReconcileExternalOrders 1 2 q_fresh [q_order; q_external] (mkExternalOrderPolicy false "")).2 = Ok tt)
    by (vm_compute; reflexivity).
  rewrite Hok in Ho. subst out. exists r', result. split; [reflexivity|].
  destruct (external_orders_refused _ _ _ _ _ _ _ E) as (H1 & H2 & _). split; [exact H1|]. rewrite H2. reflexivity.
Defined.

Lemma discrepancies_found_witness :
  exists r' result, DetectOrderDiscrepancies 1 2 q_reconciler [q_reported] = (r', result, Ok tt) /\
    List.length (rn_Unresolved result) = 1%nat /\ rcache r' = rcache q_reconciler.
Proof.
  destruct (DetectOrderDiscrepancies 1 2 q_reconciler [q_reported]) as [[r' result] out] eqn:E.
  assert (Ho : out = (DetectOrderDiscrepancies 1 2 q_reconciler [q_reported]).2) by (by rewrite E).
  assert (Hr : result = (DetectOrderDiscrepancies 1 2 q_reconciler [q_reported]).1.2) by (by rewrite E).
  assert (Hok : (DetectOrderDiscrepancies 1 2 q_reconciler [q_reported]).2 = Ok tt) by (vm_compute; reflexivity).
  rewrite Hok in Ho. subst out. exists r', result. split; [reflexivity|]. split; [rewrite Hr; vm_compute; reflexivity|].
  exact (proj1 (proj2 (discrepancies_found (DL := QDecimalLaws) _ _ _ _ _ _ E))).
Defined.
