(* ===== verification/TradingWitnesses.v ===== *)
(** * Witnesses: matching, emulation and the engine

    The properties of the back-test matching, of the order emulator and of the execution engine,
    applied at concrete inputs. *)
From stdpp Require Import base gmap list strings sorting.
From Stdlib Require Import QArith Qminmax Lqa.
From S2P Require Import Prelude Decimals Enums Identifiers Orders Market Accounts OrderLists Cache CacheFacts Samples.
From S2P Require Import Portfolio PortfolioFacts Matching MatchingFacts Kernel ExecManager Emulator EmulatorFacts ExecEngine ExecEngineFacts.

Open Scope go_scope.
Open Scope string_scope.

(** ** Matching *)

(** A random source that answers one half. *)
#[local] Instance half_rand : Rand := {| Rng := Z; NewSource := fun seed => seed; Float64 := fun s => (s, (1 # 2)%Q) |}.

(** A book with 3 at 99, 4 at 100 and 5 at 101, of which 1 at 99 is already consumed. *)
Definition q_book : OrderBook :=
  mkOrderBook btc [] [mkOrderBookLevel (99 # 1)%Q (3 # 1)%Q; mkOrderBookLevel (100 # 1)%Q (4 # 1)%Q;
                      mkOrderBookLevel (101 # 1)%Q (5 # 1)%Q] 10.
Definition q_consumed : gmap string Q := {[ dstring (99 # 1)%Q := (1 # 1)%Q ]}.
Definition q_request : OrderBookMatchRequest := mkOrderBookMatchRequest q_order q_book q_consumed 0%Q.
Definition q_core : MatchingCore := mkMatchingCore _ q_instrument None.

Example q_matches :
  (fun m => (mx_Price m, mx_Quantity m)) <$> (MatchOrderBook q_core q_request).2 = [((99 # 1)%Q, (2 # 1)%Q); ((100 # 1)%Q, (4 # 1)%Q)].
Proof. vm_compute. reflexivity. Qed.


(** Market data of which the trade is the latest. *)
Definition q_trade (price : Q) (t : Z) : TradeTick := mkTradeTick btc price (1 # 1)%Q AggressorSideBuyer "t1" t t.
Definition q_market (price : Q) (t : Z) : LastMarket := mkLastMarket ∅ ∅ {[ btc := q_trade price t ]} ∅ ∅ ∅.

(** A sell trailing stop at 5 below the best price. *)
Definition q_trailing : OrderStatusReport :=
  q_order <| or_Side := OrderSideSell |> <| or_Type := OrderTypeTrailingStopMarket |>
    <| or_TrailingOffset := (5 # 1)%Q |> <| or_TrailingOffsetType := TrailingOffsetTypePrice |>.
Definition q_state : TrailingState := mkTrailingState ∅ ∅.

Lemma trailing_ratchet_witness :
  (isTrailingTriggered New (q_market (106 # 1)%Q 3)
     (run_trailing New q_trailing q_state [q_market (100 # 1)%Q 1; q_market (112 # 1)%Q 2]) q_trailing).2 = true.
Proof.
  pose proof (trailing_ratchet (DL := QDecimalLaws) New q_trailing q_state [q_market (100 # 1)%Q 1; q_market (112 # 1)%Q 2]
    (q_market (106 # 1)%Q 3)) as H. cbv zeta in H.
  destruct (isTrailingTriggered _ _ _ _) as [s2 triggered] eqn:E.
  destruct H as (_ & _ & H); [discriminate | vm_compute; reflexivity | vm_compute; reflexivity |].
  assert (Et : triggered = (isTrailingTriggered New (q_market (106 # 1)%Q 3)
     (run_trailing New q_trailing q_state [q_market (100 # 1)%Q 1; q_market (112 # 1)%Q 2]) q_trailing).2) by (by rewrite E).
  assert (triggered = true) as Htr by (rewrite Et; vm_compute; reflexivity).
  destruct (proj1 H Htr) as (f & a & e & o & _). exact Htr.
Defined.

Lemma latest_prices_witness :
  latestTriggerPrices (q_market (106 # 1)%Q 3) q_order = [(106 # 1)%Q].
Proof.
  destruct (latest_prices (q_market (106 # 1)%Q 3) q_order stopTrigger) as (_ & _ & H).
  assert (Hs : or_Status q_order ≠ OrderStatusTriggered) by discriminate. specialize (H Hs).
  vm_compute. reflexivity.
Defined.

Lemma immediate_quantity_witness :
  dval (availableImmediateQuantity (mkLastMarket ∅ {[ btc := q_book ]} ∅ ∅ ∅ ∅) ∅ q_order (10 # 1)%Q) == Qmin (10 # 1) 7.
Proof.
  destruct (immediate_quantity (DL := QDecimalLaws) (mkLastMarket ∅ {[ btc := q_book ]} ∅ ∅ ∅ ∅) ∅ q_order (10 # 1)%Q) as [H _];
    [vm_compute; discriminate|].
  rewrite H. vm_compute. reflexivity.
Defined.

(** A fill on a position of 4 long. *)
Definition q_pf : Portfolio :=
  NewPortfolio (match PutPosition New (mkPositionStatusReport CommandMetadata_zero "acc" btc (InstrumentID_String btc) ""
                  PositionSideLong (4 # 1)%Q (100 # 1)%Q 5) with Ok c => Some c | Fail _ => None end).
Definition q_fill_plain : FillReport :=
  mkFillReport "acc" btc "o1" "v1" "c1" "t1" "" false OrderSideBuy (110 # 1)%Q (4 # 1)%Q 0%Q "USDT" 6.


(** ** Emulation *)

(** A stop market order to sell, triggered by the last price, and one that expires. *)
Definition q_stop (client : string) (tif : TimeInForce) (expire : Z) : SubmitOrder :=
  mkSubmitOrder CommandMetadata_zero "acc" btc InstrumentID_zero "" "" client OrderSideSell OrderTypeStopMarket
    ContingencyTypeNone tif (10 # 1)%Q 0%Q (90 # 1)%Q 0%Q 0%Q TrailingOffsetTypeNone TriggerTypeLastPrice false false expire.
Definition q_tick (price : Q) : MarketEvent := trade_event (q_trade price 7).
Definition q_em0 : Emulator := NewEmulator None (Some (NewManager None false PositionIDModeNone)).
Definition q_em : Emulator := (Emulator_SubmitOrder q_em0 (q_stop "e1" TimeInForceGTC 0)).1.1.

Lemma q_em_keyed : keyed q_em.
Proof.
  pose proof (submit_step q_em0 (q_stop "e1" TimeInForceGTC 0) (NewEmulator_keyed _)) as Hs. unfold q_em.
  destruct (Emulator_SubmitOrder q_em0 _) as [[e' rel] r]. by destruct Hs as (Hk & _).
Qed.

Lemma event_releases_witness :
  exists keys, (forall k, k ∈ keys <-> exists order, el_orders q_em !! k = Some order /\
     SubmitOrder_TriggerInstrument order = MarketEvent_InstrumentID (q_tick (80 # 1)%Q)) /\
   (ProcessMarketEvent q_em (q_tick (80 # 1)%Q)).1.2 = omap (fun k => judged q_em (q_tick (80 # 1)%Q) k ≫= release_of) keys.
Proof.
  destruct (ProcessMarketEvent q_em (q_tick (80 # 1)%Q)) as [[e' releases] result] eqn:E.
  destruct (event_releases q_em (q_tick (80 # 1)%Q) e' releases result E) as (keys & Hk & _ & _ & Hr & _);
    [vm_compute; reflexivity|].
  exists keys. split; [exact Hk|exact Hr].
Defined.

Definition q_em_ops : list EmulatorOp :=
  [OpEmSubmit (q_stop "e1" TimeInForceGTC 0); OpEmSubmit (q_stop "e2" TimeInForceGTC 0); OpEmEvent (q_tick (95 # 1)%Q)].
Definition q_em_cancel : CancelOrder := mkCancelOrder CommandMetadata_zero "acc" btc "" "e1".

Lemma released_once_witness :
  let m := NewManager None false PositionIDModeNone in
  let '(e1, before) := em_run (NewEmulator None (Some m)) q_em_ops in
  let '(e2, handled, result) := Emulator_CancelOrder e1 q_em_cancel in
  let '(e3, after) := em_run e2 [OpEmEvent (q_tick (80 # 1)%Q)] in
  handled = true /\ release_key <$> (before ++ after)%list = [("acc", "e2")] /\ NoDup (release_key <$> (before ++ after)%list).
Proof.
  intros m. pose proof (released_once m q_em_ops q_em_cancel [OpEmEvent (q_tick (80 # 1)%Q)]) as H.
  assert (Hn : NoDup (submit_keys (q_em_ops ++ [OpEmEvent (q_tick (80 # 1)%Q)])%list)).
  { change (NoDup [("acc", "e1"); ("acc", "e2")]).
    constructor; [intros ?%list_elem_of_singleton; discriminate | apply NoDup_singleton]. }
  specialize (H Hn).
  destruct (em_run (NewEmulator None (Some m)) q_em_ops) as [e1 before] eqn:E1.
  destruct (Emulator_CancelOrder e1 q_em_cancel) as [[e2 handled] result] eqn:E2.
  destruct (em_run e2 [OpEmEvent (q_tick (80 # 1)%Q)]) as [e3 after] eqn:E3. destruct H as (Hnd & _).
  assert (Ee1 : e1 = (em_run (NewEmulator None (Some m)) q_em_ops).1) by (by rewrite E1).
  assert (Eb : before = (em_run (NewEmulator None (Some m)) q_em_ops).2) by (by rewrite E1).
  assert (Ee2 : e2 = (Emulator_CancelOrder e1 q_em_cancel).1.1) by (by rewrite E2).
  assert (Eh : handled = (Emulator_CancelOrder e1 q_em_cancel).1.2) by (by rewrite E2).
  assert (Ea : after = (em_run e2 [OpEmEvent (q_tick (80 # 1)%Q)]).2) by (by rewrite E3).
  split; [rewrite Eh, Ee1; vm_compute; reflexivity|]. split; [rewrite Eb, Ea, Ee2, Ee1; vm_compute; reflexivity | exact Hnd].
Defined.


Lemma release_valid_witness :
  SubmitOrder_Validate (rl_Order (released (q_stop "e1" TimeInForceGTC 0))) = Ok tt /\
  SubmitOrder_Validate (rl_Order (released (q_stop "e1" TimeInForceGTD (UnixEpoch + 1)))) ≠ Ok tt.
Proof.
  destruct (release_valid (DL := QDecimalLaws) (q_stop "e1" TimeInForceGTC 0)) as [H1 _]; [vm_compute; reflexivity|].
  destruct (release_valid (DL := QDecimalLaws) (q_stop "e1" TimeInForceGTD (UnixEpoch + 1))) as [H2 _]; [vm_compute; reflexivity|].
  split; [apply H1; intros [_ ?]; discriminate|]. intros V. apply (proj1 H2 V). split; reflexivity.
Defined.

(** ** The engine *)

(** A client that accepts every order and remembers it. *)
Definition q_accepts_order (w : list SubmitOrder) (order : SubmitOrder) : list SubmitOrder * res OrderStatusReport :=
  ((w ++ [order])%list, Ok (orderStatusReportFromSubmit order OrderStatusAccepted <| or_OrderID := "v1" |>)).
Definition q_client : Client (W := list SubmitOrder) :=
  mkClient "acc" "SIM" (fun w => (w, Ok tt)) (fun w => (w, Ok tt)) (fun w => (w, Ok AccountSnapshot_zero)) q_accepts_order
    (fun w _ => (w, Ok q_order)) (fun w _ => (w, Ok [q_order <| or_ClientOrderID := "" |>])) None None None None None None None.
Definition q_engine (em : option Emulator) : Engine (W := list SubmitOrder) :=
  (AddClient q_client (NewEngine None (el_manager <$> em) em, [])).1.1.

Lemma q_engine_emulator em : emulator_of (q_engine (Some em)) = Some em.
Proof. by destruct em. Qed.


Definition q_em_gtd : Emulator := (Emulator_SubmitOrder q_em0 (q_stop "e1" TimeInForceGTD (UnixEpoch + 1))).1.1.

Lemma q_em_gtd_keyed : keyed q_em_gtd.
Proof.
  pose proof (submit_step q_em0 (q_stop "e1" TimeInForceGTD (UnixEpoch + 1)) (NewEmulator_keyed _)) as Hs. unfold q_em_gtd.
  destruct (Emulator_SubmitOrder q_em0 _) as [[e' rel] r]. by destruct Hs as (Hk & _).
Qed.



Definition q_generate : GenerateOrderStatusReports := mkGenerateOrderStatusReports CommandMetadata_zero "acc" btc "" "" "".

Lemma reports_claimed_witness :
  md_StrategyID (or_Metadata (claimExternalOrderReport (q_engine None) (q_order <| or_ClientOrderID := "" |>))) = "EXTERNAL".
Proof.
  pose proof (reports_claimed (q_engine None) [] q_generate q_client [q_order <| or_ClientOrderID := "" |>]) as H.
  destruct (Engine_GenerateOrderStatusReports q_generate (q_engine None, [])) as [s [kept err]].
  assert (P : (cl_GenerateOrderStatusReports q_client [] (go_InstrumentID q_generate)).2 = Ok [q_order <| or_ClientOrderID := "" |>])
    by reflexivity.
  destruct (H eq_refl eq_refl P) as (_ & _ & _ & Hs).
  rewrite (proj1 (Hs (q_order <| or_ClientOrderID := "" |>))). vm_compute. reflexivity.
Defined.
