(* ===== verification/SystemWitnesses.v ===== *)
(** * Witnesses: buses, trading account, data and indicators

    The properties of the buses, the trading account, the data engine and the indicators,
    applied at concrete inputs. *)
From stdpp Require Import base strings pretty relations sets gmap list sorting.
From Stdlib Require Import QArith Lqa.
From S2P Require Import Prelude Decimals Enums Identifiers Orders OrderState Market Accounts OrderLists Cache Samples Reconciler.
From S2P Require Import Kernel ExecManager Emulator ExecEngine Channels MsgBus MsgBusFacts Bus BusFacts.
From S2P Require Import TradingAccount TradingAccountFacts Aggregation AggregationFacts DataEngine DataEngineFacts Indicators.

Open Scope go_scope.
Open Scope string_scope.

(** ** The message bus *)

(** A bus with one subscriber whose buffer holds one message. *)
Definition q_bus : @MsgBus.MsgBus nat unit unit := (MsgBus.Subscribe (NewMsgBus 0) "t" 1).1.
Lemma q_bus_reachable : MsgBus.reachable (MsgBus.Running q_bus []).
Proof. exists 0%Z. eapply rtc_l; [apply (MsgBus.step_subscribe _ _ "t" 1) | apply rtc_refl]. Qed.
Lemma q_bus_subscribers : [0%nat] ≡ₚ elements (MsgBus.subscribers q_bus "t").
Proof. vm_compute. reflexivity. Qed.

Lemma Publish_spec_witness :
  let '(b1, err1) := Publish q_bus [0%nat] 5 "t" 7%nat in
  err1 = None /\ (mb_published b1 - mb_published q_bus + (mb_dropped b1 - mb_dropped q_bus) = 1)%Z.
Proof.
  pose proof (Publish_spec q_bus [] [0%nat] 5 "t" 7%nat q_bus_reachable q_bus_subscribers) as H. cbv zeta in H.
  destruct (Publish q_bus [0%nat] 5 "t" 7%nat) as [b1 err1] eqn:E. destruct H as (_ & _ & H1 & H2).
  split; [|rewrite H1; vm_compute; reflexivity]. apply H2. assert (b1 = (Publish q_bus [0%nat] 5 "t" 7%nat).1) as -> by (by rewrite E).
  vm_compute. reflexivity.
Defined.

Lemma published_accepted_witness : mb_published q_bus = accepted (mb_heap q_bus).
Proof. exact (proj1 (published_accepted q_bus [] q_bus_reachable)). Defined.

Lemma close_during_publish_panics_witness : rtc MsgBus.step (MsgBus.Running q_bus []) MsgBus.Panicked.
Proof.
  apply (close_during_publish_panics q_bus [] "t" 0%nat 7%nat q_bus_reachable).
  assert (0%nat ∈ elements (MsgBus.subscribers q_bus "t")) as H by (rewrite <- q_bus_subscribers; apply list_elem_of_singleton; reflexivity).
  by apply elem_of_elements in H.
Defined.

(** ** The bus of market data: one subscriber without a buffer *)

Definition q_mbus : @Bus.Bus nat := Bus.Subscribe Bus.New "t" 0.
Definition q_env : @Bus.Envelope nat := Bus.mkEnvelope "t" 7%nat 5.
Definition q_publishing : @Bus.config nat :=
  Bus.mkConfig q_mbus [Bus.Returned None; Bus.Publishing None q_env [0%nat]].
Lemma q_publishing_reachable : Bus.reachable q_publishing.
Proof.
  eapply rtc_l; [apply (Bus.step_subscribe _ _ "t" 0)|].
  eapply rtc_l; [apply (Bus.step_subscribed _ _ 0 "t" 0); [reflexivity | by repeat constructor]|].
  eapply rtc_l; [|apply rtc_refl].
  assert (H : [0%nat] ≡ₚ elements (Bus.subscribers q_mbus "t")) by (vm_compute; reflexivity).
  assert (Hn : Bus.no_writer (A := nat) [Bus.Returned None]) by by repeat constructor.
  exact (Bus.step_publish q_mbus [Bus.Returned None] None "t" 7%nat 5 [0%nat] Hn H).
Qed.

Lemma pending_open_witness :
  exists sub, bs_heap q_mbus !! 0%nat = Some sub /\ sb_topic sub = "t" /\ ch_closed (sb_ch sub) = false.
Proof.
  exact (pending_open q_mbus _ 1%nat None q_env [0%nat] 0%nat q_publishing_reachable eq_refl (list_elem_of_here _ _)).
Defined.

(** The publisher waits and the reader closes. *)
Definition q_stuck : @Bus.config nat :=
  Bus.mkConfig (Bus.update q_mbus 0 (fun sub => sub <| sb_once := true |>))
    [Bus.Returned None; Bus.Publishing None q_env [0%nat]; Bus.Removing 0].
Lemma q_stuck_reachable : Bus.reachable q_stuck.
Proof.
  eapply rtc_r; [exact q_publishing_reachable|]. exact (Bus.step_close q_mbus [Bus.Returned None; Bus.Publishing None q_env [0%nat]] 0%nat (mkSubscription "t" (make_chan 0) false) eq_refl eq_refl).
Qed.
Lemma q_stuck_deadlocked : deadlocked 0 1 2 q_stuck.
Proof. split; [do 2 eexists; reflexivity|]. split; [reflexivity|]. eexists. split; [reflexivity|]. split; reflexivity. Qed.

(** Another subscriber that arrives later waits for ever too. *)
Lemma close_deadlocks_witness :
  exists cf, rtc Bus.step q_stuck cf /\ deadlocked 0 1 2 cf /\ length (bs_heap (cf_bus cf)) = 1%nat.
Proof.
  exists (Bus.mkConfig (cf_bus q_stuck) (cf_calls q_stuck ++ [Subscribing "t" 4])%list).
  assert (Hs : rtc Bus.step q_stuck (Bus.mkConfig (cf_bus q_stuck) (cf_calls q_stuck ++ [Subscribing "t" 4])%list)).
  { eapply rtc_l; [apply (Bus.step_subscribe _ _ "t" 4) | apply rtc_refl]. }
  split; [exact Hs|]. destruct (close_deadlocks 0 1 2 _ _ q_stuck_deadlocked Hs) as (H1 & _ & H2). split; [exact H1|].
  rewrite H2. reflexivity.
Defined.

(** ** The trading account: a venue without state that answers "submitted" *)

Definition q_answer : OrderStatusReport := q_order <| or_Status := OrderStatusSubmitted |>.
Definition q_client : Client (W := unit) :=
  mkClient "acc" "SIM" (fun w => (w, Ok tt)) (fun w => (w, Ok tt)) (fun w => (w, Ok AccountSnapshot_zero))
    (fun w _ => (w, Ok q_answer)) (fun w _ => (w, Ok q_canceled)) (fun w _ => (w, Ok [])) None None None None None None None.
Definition q_tclient : TradingClient := mkTradingClient q_client (fun _ => Some 0%nat) None.
Definition q_config : TradingAccountConfig := mkTradingAccountConfig None [btc] 1 0 0.
Definition q_now (w : unit) : time := 9%Z.
Definition q_account0 : TradingAccount :=
  match NewTradingAccount (Some q_tclient) q_config with Ok a => a | Fail _ => mkTradingAccount q_tclient (NewReconciler None) [] 0 0 0 [] ∅ TradingAccountHealth_zero false end.

(** After a submission, whose answer is tracked. *)
Definition q_account : TradingAccount := (run q_now (OpTrack q_answer) (q_account0, tt)).1.1.
Lemma q_account_reachable : TradingAccountFacts.reachable q_now (q_account, tt).
Proof.
  assert (H : TradingAccountFacts.reachable q_now (run q_now (OpTrack q_answer) (q_account0, tt)).1).
  { apply reach_op. by apply (reach_new q_now (Some q_tclient) q_config). }
  unfold q_account. by destruct (run q_now (OpTrack q_answer) (q_account0, tt)).1 as [a []].
Qed.


(** The tracker's channel of one is full: the acceptance is dropped, and counted. *)
Lemma report_published_witness :
  drops (applyAndPublish q_now (order_event q_order) (q_account, tt)).1.1 = 1%Z.
Proof.
  destruct (applyAndPublish q_now (order_event q_order) (q_account, tt)) as [[a' []] r] eqn:E.
  assert (Hr : r = (applyAndPublish q_now (order_event q_order) (q_account, tt)).2) by (by rewrite E).
  assert (Hok : (applyAndPublish q_now (order_event q_order) (q_account, tt)).2 = Ok tt) by (vm_compute; reflexivity).
  rewrite Hok in Hr. subst r.
  destruct (report_published q_now q_order q_account tt a' tt q_account_reachable E) as (_ & _ & H & _).
  simpl. rewrite H. vm_compute. reflexivity.
Defined.

(** The stream reports the acceptance before the answer "submitted" is handled. *)
Definition q_early : TradingAccount := (TradingAccount.forward_step q_now 0 (StreamEvent (order_event q_order)) (submit_send q_submit (q_account0, tt)).1).1.1.
Lemma submit_overtaken_witness :
  (submit_send q_submit (q_account0, tt)).2 = Ok q_answer /\
  exists a' t e, submit_track q_now q_answer (q_early, tt) = ((a', tt), Fail e) /\ tk_closed t = true /\
    ta_heap a' !! length (ta_heap q_early) = Some t.
Proof.
  split; [reflexivity|].
  assert (Hex : exists existing, cache_Order (ta_cache q_early) "acc" "o1" = Some existing /\ or_Status existing = OrderStatusAccepted).
  { destruct (cache_Order (ta_cache q_early) "acc" "o1") as [existing|] eqn:E; [|vm_compute in E; discriminate].
    exists existing. split; [reflexivity|].
    assert (H : or_Status <$> cache_Order (ta_cache q_early) "acc" "o1" = Some OrderStatusAccepted) by (vm_compute; reflexivity).
    rewrite E in H. by injection H. }
  destruct Hex as (existing & Hex & Hst).
  destruct (submit_overtaken q_now q_answer existing q_early tt Hex) as (a' & t & e & H1 & _ & _ & H2 & H3 & _).
  - left. rewrite Hst. reflexivity.
  - exists a', t, e. auto.
Defined.

(** ** Bars: trades in three minutes, the second and the third a minute apart *)

Definition q_bars : BarType := NewTimeBarType btc (60 * Second).
Definition q_at (price : Q) (t : Z) : MarketEvent :=
  mkMarketEvent None None (Some (mkTradeTick btc price (1 # 1)%Q AggressorSideBuyer "t1" (t * Second) (t * Second))) None None None None.
Definition q_ticks : list MarketEvent := [q_at (100 # 1)%Q 0; q_at (105 # 1)%Q 30; q_at (95 # 1)%Q 59; q_at (110 # 1)%Q 60; q_at (90 # 1)%Q 125].
Definition q_aggregator : BarAggregator := mkBarAggregator (BarType_Canonical q_bars) None.

Lemma aggregation_spec_witness :
  length (aggregated q_aggregator q_ticks) = 3%nat /\
  exists gs : list (list input), mjoin gs = omap (input_of (BarType_Canonical q_bars)) q_ticks /\
    Forall2 (summarises (BarType_Canonical q_bars)) gs (aggregated q_aggregator q_ticks).*1.
Proof.
  split; [vm_compute; reflexivity|].
  destruct (aggregation_spec (DL := QDecimalLaws) q_bars q_aggregator q_ticks eq_refl) as (gs & H1 & H2 & _).
  exists gs. split; [exact H1 | exact H2].
Defined.

Lemma aggregation_sound_witness :
  Sorted Z.lt (br_Timestamp <$> (aggregated q_aggregator q_ticks).*1).
Proof.
  destruct (aggregation_sound (DL := QDecimalLaws) q_bars q_aggregator q_ticks eq_refl) as [_ H].
  - repeat (constructor; [split; vm_compute; [reflexivity | discriminate]|]). constructor.
  - apply H. vm_compute. repeat constructor; discriminate.
Defined.

(** A catalog written out of order, asked for the first trades from the thirtieth second on. *)
Definition q_request : DataRequest :=
  mkDataRequest CommandMetadata_zero "r1" btc MarketDataTypeTradeTick q_bars (30 * Second) 0 2 0 "".
Definition q_catalog : MemoryCatalog := (Write [] (reverse q_ticks)).1.

Lemma Query_spec_witness :
  exists response, Query q_catalog q_request = Ok response /\ length (ds_Events response) = 2%nat.
Proof.
  assert (Hw : written [reverse q_ticks] q_catalog).
  { unfold q_catalog. destruct (Write [] (reverse q_ticks)) as [c r] eqn:E.
    assert (r = Ok tt) as -> by (assert (r = (Write [] (reverse q_ticks)).2) as -> by (by rewrite E); vm_compute; reflexivity).
    exact (written_more [] [] (reverse q_ticks) c (Ok tt) written_new E). }
  destruct (Query_spec [reverse q_ticks] q_catalog q_request Hw) as [_ H]; [vm_compute; reflexivity|].
  destruct (Query q_catalog q_request) as [response|err].
  - exists response. split; [reflexivity|]. destruct H as [-> _]. vm_compute. reflexivity.
  - destruct H as [H _]. vm_compute in H. discriminate.
Defined.

(** An engine with that aggregation. *)
Definition q_data : DataEngine (W := unit) :=
  (AddBarAggregation (DataEngine.NewEngine None None (mkRetryPolicy 1 0) 0) q_bars).1.

Lemma stream_published_witness :
  let '(e', _) := process_all [BarType_Canonical q_bars] q_ticks q_data in
  exists out, de_bus e' = out /\ bus_bars (BarType_Canonical q_bars) out = sound_bars (updates q_aggregator q_ticks).2.
Proof.
  assert (Hag : de_aggregators q_data = {[ BarType_Canonical q_bars := q_aggregator ]}) by reflexivity.
  pose proof (stream_published [BarType_Canonical q_bars] q_ticks q_data) as H.
  destruct (process_all [BarType_Canonical q_bars] q_ticks q_data) as [e' rs] eqn:E. cbv zeta in H. destruct H as (out & H1 & _ & H3 & _).
  - intros b agg. rewrite Hag. intros [<- <-]%lookup_singleton_Some. split; [reflexivity | discriminate].
  - apply NoDup_singleton.
  - intros b. rewrite Hag, list_elem_of_singleton, lookup_singleton_is_Some. split; intros ->; reflexivity.
  - repeat constructor.
  - exists out. split; [exact H1|]. rewrite (H3 _ q_aggregator); [reflexivity|]. rewrite Hag. apply lookup_singleton_eq.
Defined.

(** ** Indicators *)

Lemma EMA_bounded_witness :
  match NewExponentialMovingAverage 3 with
  | Ok ema => let e := EMA_updates (Some ema) [(10 # 1)%Q; (20 # 1)%Q; (15 # 1)%Q] in
      (10 # 1 <= dval (EMA_Value e) <= 20 # 1)%Q /\ EMA_Initialized e = true
  | Fail _ => False
  end.
Proof.
  destruct (NewExponentialMovingAverage 3) as [ema|] eqn:E; [|vm_compute in E; discriminate].
  destruct (EMA_bounded (DL := QDecimalLaws) 3 ema [(10 # 1)%Q; (20 # 1)%Q; (15 # 1)%Q] (10 # 1)%Q (20 # 1)%Q E) as (H1 & _ & H2).
  - discriminate.
  - repeat constructor; vm_compute; discriminate.
  - split; [exact H1|]. rewrite H2. reflexivity.
Defined.

Definition q_bar (high low close : Q) : Bar := mkBar q_bars low high low close (1 # 1)%Q 0 0 false.
Lemma ATR_smoothed_witness :
  match NewAverageTrueRange (Z.of_nat 2) with
  | Ok atr => dval (ATR_Value (ATR_updates (Some atr) [q_bar (12 # 1)%Q (10 # 1)%Q (11 # 1)%Q; q_bar (16 # 1)%Q (13 # 1)%Q (14 # 1)%Q])) == (7 # 2)%Q
  | Fail _ => False
  end.
Proof.
  destruct (NewAverageTrueRange (Z.of_nat 2)) as [atr|] eqn:E; [|vm_compute in E; discriminate].
  destruct (ATR_smoothed (DL := QDecimalLaws) 2 atr [q_bar (12 # 1)%Q (10 # 1)%Q (11 # 1)%Q; q_bar (16 # 1)%Q (13 # 1)%Q (14 # 1)%Q] E) as (H & _).
  - repeat constructor; vm_compute; reflexivity.
  - rewrite H. vm_compute. reflexivity.
Defined.
