(* ===== verification/BacktestWitnesses.v ===== *)
(** * Witnesses: the back-test

    A run of two events with a strategy that buys, and the theorems on runs applied to it. *)
From stdpp Require Import base gmap sets list strings.
From Stdlib Require Import QArith.
From S2P Require Import Prelude Partial Bus Decimals Enums Identifiers Orders Market Accounts OrderLists Cache CacheFacts Samples.
From S2P Require Import Kernel Reconciler ExecManager Emulator ExecEngine ExecEngineCache Portfolio PortfolioLedger DataEngine Aggregation Matching.
From S2P Require Import BacktestRuntime BacktestOrders BacktestRunner BacktestTermination BacktestInvariants BacktestLedger.

Open Scope go_scope.

#[local] Instance q_rand : Rand := {| Rng := Z; NewSource := fun seed => seed; Float64 := fun s => (s, (1 # 2)%Q) |}.
#[local] Instance q_ranges : Ranges (W := nat) := {|
  range_accounts := fun r => elements (rt_accounts r);
  range_deltas := fun _ l => l;
  range_instruments := fun _ _ _ => [] |}.

(** A limit order to buy 1 at 100. *)
Definition q_limit : SubmitOrder := q_submit <| so_Quantity := (1 # 1)%Q |>.
(** A strategy that submits the order at the market event number [k]. *)
Definition q_buyer (k : nat) : Strategy (W := nat) :=
  mkStrategy "s" (Done (Ok tt))
    (fun env => match ev_Message env with
       | MarketMessage _ =>
           Local S (fun n => if Nat.eqb n k then Invoke (DoSubmitOrder q_limit) (fun _ => Done (Ok tt)) else Done (Ok tt))
       | _ => Done (Ok tt)
       end) (Done (Ok tt)).

Lemma q_buyer_tame k : tame (q_buyer k).
Proof.
  split; [exact I | | exact I]. intros env. unfold on_event. simpl. destruct (ev_Message env); try exact I.
  intros n. by destruct (Nat.eqb n k).
Qed.

Definition q_quote : MarketEvent :=
  mkMarketEvent None None None (Some (mkQuoteTick btc (99 # 1)%Q (100 # 1)%Q (5 # 1)%Q (5 # 1)%Q 10 10)) None None None.
Definition q_trade : MarketEvent :=
  mkMarketEvent None None (Some (mkTradeTick btc (100 # 1)%Q (1 # 1)%Q AggressorSideBuyer "m1" 20 20)) None None None None.
Definition q_market (e : MarketEvent) (t : Z) : Event := mkEvent t TopicMarketData (MarketMessage e).

Definition q_cache : Cache := or_same New (PutInstrument New q_instrument).
Lemma q_untraded : untraded q_cache.
Proof. exact (touched_op New (OpInstrument q_instrument) I). Qed.

Definition q_config (events : list Event) (s : Strategy (W := nat)) : Config :=
  mkConfig (Some q_cache) None false None None None 0 events [s].
Definition q_runner (events : list Event) (s : Strategy (W := nat)) : Runner := NewRunner DefaultFillModel (q_config events s) 0%nat.
Definition q_run (events : list Event) (s : Strategy (W := nat)) : option (Runtime (W := nat) * (Result * option error)) :=
  Runner_Run 3 4 (rn_events (q_runner events s)) (rn_runtime (q_runner events s)).

(** The trade fills the order of the quote. *)
Definition q_fills (run : option (Runtime (W := nat) * (Result * option error))) : option (list (TradeID * Q) * Q) :=
  (fun a => let c := rt_cache a.1 in
            ((fun f => (fr_TradeID f, fr_Quantity f)) <$> FillsForOrder c "acc" "bt-order-1",
             held_in c "acc" (InstrumentID_String btc))) <$> run.

Example q_one_fill : q_fills (q_run [q_market q_trade 10; q_market q_quote 20] (q_buyer 1)) = Some ([("bt-trade-1", (1 # 1)%Q)], (1 # 1)%Q).
Proof. vm_compute. reflexivity. Qed.

(** The run of the example; it is evaluated where its outcome is used. *)
Definition q_one : option (Runtime (W := nat) * (Result * option error)) :=
  q_run [q_market q_trade 10; q_market q_quote 20] (q_buyer 1).



Lemma fuel_irrelevant_witness :
  match q_one with
  | Some answer => Runner_Run 30 40 (rn_events (q_runner [q_market q_trade 10; q_market q_quote 20] (q_buyer 1)))
      (rn_runtime (q_runner [q_market q_trade 10; q_market q_quote 20] (q_buyer 1))) = Some answer
  | None => False
  end.
Proof.
  assert (is_Some q_one) as [answer E] by (apply not_eq_None_Some; intros E; assert (q_fills q_one = None) as H by (by rewrite E);
    vm_compute in H; discriminate). rewrite E.
  apply (fuel_irrelevant 3%nat 30%nat 4%nat 40%nat _ _ _ ltac:(lia) ltac:(lia) E).
Defined.

(** ** Runs where the code does not do what it means to

    A limit order is matched against every source with the report it had when the matching
    began, so a quote and a trade at its price fill it twice. *)
Definition q_twice : option (Runtime (W := nat) * (Result * option error)) :=
  q_run [q_market q_quote 10; q_market q_trade 20] (q_buyer 2).
Example limit_order_overfilled :
  q_fills q_twice = Some ([("bt-trade-1"%string, (1 # 1)%Q); ("bt-trade-2"%string, (1 # 1)%Q)], (2 # 1)%Q).
Proof. vm_compute. reflexivity. Qed.

(** Matching goes through the orders that were open when it began: a bar that reaches both legs
    of a pair of which one cancels the other fills both. *)
Definition q_pair : OrderList :=
  let leg order := order <| so_OrderListID := "l1" |> <| so_Contingency := ContingencyTypeOCO |> in
  mkOrderList CommandMetadata_zero "l1"
    [leg (q_limit <| so_Price := (99 # 1)%Q |>);
     leg (q_limit <| so_Side := OrderSideSell |> <| so_Price := (101 # 1)%Q |> <| so_ClientOrderID := "c2" |>)].
Definition q_pair_strategy : Strategy (W := nat) :=
  mkStrategy "s" (Done (Ok tt))
    (fun env => match ev_Message env with
       | MarketMessage _ =>
           Local S (fun n => if Nat.eqb n 1 then Invoke (DoSubmitOrderList q_pair) (fun _ => Done (Ok tt)) else Done (Ok tt))
       | _ => Done (Ok tt)
       end) (Done (Ok tt)).
Definition q_wide_bar : MarketEvent :=
  mkMarketEvent None None None None
    (Some (mkBar (NewTimeBarType btc (60 * Second)) (100 # 1)%Q (102 # 1)%Q (98 # 1)%Q (100 # 1)%Q (1 # 1)%Q 20 20 false)) None None.
Example both_legs_fill :
  (fun a => (fun order => (or_ClientOrderID order, or_Status order)) <$> cache_Orders (rt_cache a.1) "acc")
    <$> q_run [q_market q_trade 10; q_market q_wide_bar 20] q_pair_strategy
  = Some [("c1"%string, OrderStatusFilled); ("c2"%string, OrderStatusFilled)].
Proof. vm_compute. reflexivity. Qed.
