(* ===== verification/NodeWitnesses.v ===== *)
(** * Witnesses: the platform node

    A node with a venue that accepts every order, runs of it, and the theorems on the node applied to
    them. *)
From stdpp Require Import base gmap sets list strings relations.
From Stdlib Require Import QArith.
From S2P Require Import Prelude Partial Decimals Enums Identifiers Orders Market Accounts OrderLists Cache CacheFacts Samples.
From S2P Require Import Kernel Reconciler Risk ExecManager Emulator ExecEngine Portfolio TradingAccount DataEngine BacktestRuntime.
From S2P Require Import NodeReports Node NodeOrders NodeLife NodeFacts NodeInvariants NodeEmulation NodeLifeFacts NodeTermination.

Open Scope go_scope.

(** Outside is what the venue was sent. *)
Notation QW := (list SubmitOrder).
#[local] Instance q_node_ranges : NodeRanges (W := QW) := {|
  range_risk_instruments := fun n _ => cache_Instruments (nd_cache n);
  range_instruments := fun n => cache_Instruments (nd_cache n);
  range_pf_instruments := fun n _ _ => cache_Instruments (nd_cache n);
  range_deltas := fun _ l => l;
  range_data_clients := nd_dataClients;
  range_data_subs := fun n => (map_to_list (de_subscriptions (nd_dataEngine n))).*2 |}.
Definition q_now (w : QW) : time := 50%Z.
Definition q_ctx (w : QW) : bool := false.

(** The venue fills market orders and accepts the others, cancels what it is asked to, and reports no
    order. *)
Definition q_answers (w : QW) (order : SubmitOrder) : QW * res OrderStatusReport :=
  ((w ++ [order])%list, Ok (orderStatusReportFromSubmit order
    (if so_Type order ≟ OrderTypeMarket then OrderStatusFilled else OrderStatusAccepted)
    <| or_FilledQuantity := if so_Type order ≟ OrderTypeMarket then so_Quantity order else 0%Q |> <| or_OrderID := "v" +:+ so_ClientOrderID order |>)).
Definition q_account : AccountSnapshot := mkAccountSnapshot "acc" "SIM" AccountTypeCash "" [] [] 0.
Definition q_venue : Client (W := QW) :=
  mkClient "acc" "SIM" (fun w => (w, Ok tt)) (fun w => (w, Ok tt)) (fun w => (w, Ok q_account)) q_answers
    (fun w c => (w, Ok (q_order <| or_OrderID := co_OrderID c |> <| or_ClientOrderID := co_ClientOrderID c |> <| or_Status := OrderStatusCanceled |>)))
    (fun w _ => (w, Ok [])) None None None None None None None.
Definition q_execution : ExecutionClient (W := QW) :=
  mkExecutionClient (mkTradingClient q_venue (fun _ => Some 0%nat) None) (fun _ => mkExecutionHealth true true 50 None).
Definition q_stream : StreamingDataClient (W := QW) :=
  mkStreamingDataClient (fun w _ => (w, Ok tt)) (fun w _ => (w, Ok tt)) (fun _ => 0%nat) (fun w => (w, Ok tt)).
Definition q_data : DataClient (W := QW) :=
  mkDataClient "SIM" "sim" None (fun w => (w, Ok tt)) (fun w => (w, Ok tt)) (fun _ => mkDataHealth true true 50 None)
    (fun w _ => (w, Fail not_found)) (fun w _ _ => (w, Fail not_found)) None (Some q_stream).

Definition q_cache : Cache := or_same New (PutInstrument New q_instrument).
Definition q_emulator : Emulator := NewEmulator None (Some (NewManager (Some q_cache) false PositionIDModeNone)).
Definition q_engine : ExecEngine.Engine (W := QW) :=
  ExecEngine.NewEngine (Some q_cache) (Some (el_manager q_emulator)) (Some q_emulator).
Definition q_new : Node (W := QW) :=
  NewNode (Some q_cache) None None None (Some q_engine) None 0 (mkRetryPolicy 1 0) (mkWiring true true true true).

(** Operations, one after the other. *)
Fixpoint q_ops (ops : list (NodeOp (W := QW))) (s : Node (W := QW) * QW) : option (Node (W := QW) * QW) :=
  match ops with
  | [] => Some s
  | op :: ops => match run_op q_now q_ctx 5 op s with Some (s, _) => q_ops ops s | None => None end
  end.
Lemma q_ops_run allowed ops s s' : forallb allowed ops = true -> q_ops ops s = Some s' -> rtc (node_step q_now q_ctx allowed) s s'.
Proof.
  revert s. induction ops as [|op ops IH]; intros s; simpl; [intros _ [= <-]; apply rtc_refl|].
  intros [Ho Hs]%andb_prop. destruct (run_op _ _ _ _ _) as [[s1 []]|] eqn:E; [|done]. intros H.
  eapply rtc_l; [exact (step_op _ _ allowed 5 op s s1 Ho E)|]. by apply IH.
Qed.

(** An order to sell that the emulator holds until the price falls to 90. *)
Definition q_stop : SubmitOrder :=
  mkSubmitOrder CommandMetadata_zero "acc" btc InstrumentID_zero "" "" "e1" OrderSideSell OrderTypeStopMarket
    ContingencyTypeNone TimeInForceGTC (10 # 1)%Q 0%Q (90 # 1)%Q 0%Q 0%Q TrailingOffsetTypeNone TriggerTypeLastPrice false false 0.
Definition q_started : list (NodeOp (W := QW)) := [OpAddDataClient q_data; OpAddExecutionClient q_execution; OpStart].
Definition q_held : list (NodeOp (W := QW)) := (q_started ++ [OpSubmit q_stop])%list.

Definition q_view (s : Node (W := QW) * QW) :=
  (nd_ready s.1, node_state s.1, (fun o => (or_ClientOrderID o, or_Status o)) <$> cache_Orders (nd_cache s.1) "acc",
   so_ClientOrderID <$> s.2, length (map_to_list (de_subscriptions (nd_dataEngine s.1))), nd_lastError s.1).

Definition q_tick (price : Q) : MarketEvent :=
  mkMarketEvent None None (Some (mkTradeTick btc price (1 # 1)%Q AggressorSideBuyer "t1" 60 60)) None None None None.
Definition q_at (price : Q) : NodeOp (W := QW) := OpForwardMarket (MarketMessage (q_tick price)).

(** The order is held while the price is above, and reaches the venue when it falls. *)
Example q_triggered :
  q_view <$> q_ops (q_held ++ [q_at (95 # 1)%Q]) (q_new, []) =
    Some (true, ComponentStateRunning, [("e1", OrderStatusEmulated)], [], 1%nat, None) /\
  q_view <$> q_ops (q_held ++ [q_at (95 # 1)%Q; q_at (80 # 1)%Q]) (q_new, []) =
    Some (true, ComponentStateRunning, [("e1", OrderStatusFilled)], ["e1"], 0%nat, None).
Proof. split; vm_compute; reflexivity. Qed.

(** ** Emulated orders *)

Definition q_emulated : OrderStatusReport := q_order <| or_Status := OrderStatusEmulated |>.
Definition q_holding : Node (W := QW) := q_new <| nd_cache := run_ops New [CacheFacts.OpInstrument q_instrument; CacheFacts.OpOrder q_emulated] |>.

Lemma emulated_order_immovable_witness :
  let cancel := mkCancelOrder CommandMetadata_zero "acc" btc "o1" "" in
  exists err n', Node_CancelOrder q_now (node_calls q_now 3) cancel (q_holding, []) = Some ((n', []), Fail err) /\
    nd_execEngine n' = nd_execEngine q_holding /\ nd_cache n' = nd_cache q_holding.
Proof.
  intros cancel.
  destruct (emulated_order_immovable q_now (node_calls q_now 3) q_holding [] q_emulated
    (proj1 (reachable_ok _)) (or_introl eq_refl)) as [H _].
  apply H. vm_compute. reflexivity.
Defined.


(** ** The life cycle *)

(** A venue that does not connect: the node starts no more. *)
Definition q_offline : ExecutionClient (W := QW) :=
  mkExecutionClient (mkTradingClient (mkClient "acc" "SIM" (fun w => (w, Fail not_found)) (fun w => (w, Ok tt))
    (fun w => (w, Ok q_account)) q_answers (fun w _ => (w, Fail not_found)) (fun w _ => (w, Ok [])) None None None None None None None)
    (fun _ => Some 0%nat) None) (fun _ => mkExecutionHealth false false 50 None).

Lemma node_life_witness :
  match q_ops [OpAddExecutionClient q_offline; OpStart] (q_new, []) with
  | Some s =>
      sound s.1 /\ faulty s.1 /\
      forall depth s2 r, Node_Start q_now (node_calls q_now depth) s = Some (s2, r) -> exists err, r = Fail err
  | None => False
  end.
Proof.
  assert (Hv : (fun s => node_state s.1) <$> q_ops [OpAddExecutionClient q_offline; OpStart] (q_new, []) = Some ComponentStateFaulted)
    by (vm_compute; reflexivity).
  destruct (q_ops _ _) as [s|] eqn:E; [|discriminate Hv]. injection Hv as Hf.
  destruct (node_life q_now q_ctx (Some q_cache) None None None (Some q_engine) None 0 (mkRetryPolicy 1 0)
    (mkWiring true true true true) [] s (q_ops_run any_op [OpAddExecutionClient q_offline; OpStart] _ _ eq_refl E)) as (H1 & _ & H3).
  split; [exact H1|]. split; [exact Hf|]. destruct (H3 Hf s (rtc_refl _ _)) as (_ & _ & H & _). exact H.
Defined.

(** ** Termination *)

(** A market order and a child that waits for it. *)
Definition q_parent : SubmitOrder :=
  q_submit <| so_Type := OrderTypeMarket |> <| so_Price := 0%Q |> <| so_ClientOrderID := "p" |> <| so_OrderListID := "l" |>.
Definition q_child : SubmitOrder :=
  q_submit <| so_ClientOrderID := "c" |> <| so_OrderListID := "l" |> <| so_ParentClientOrderID := "p" |>.
Definition q_list : OrderList := mkOrderList CommandMetadata_zero "l" [q_parent; q_child].
Definition q_listed : Node (W := QW) :=
  Node_indexOrderList q_list (q_new <| nd_execEngine := (ExecEngine.AddClient q_venue (q_engine, [])).1.1 |>).


(** ** Runs where the node loses an order

    After a reconnect the order, which the venue does not report, counts as canceled; the emulator holds
    it, and when its price comes it is taken out and sent nowhere.  Its market data stays subscribed. *)
Definition q_reconnected : list (NodeOp (W := QW)) := (q_held ++ [OpForward q_execution (Some 1%nat) StreamClosed])%list.
Definition q_emulating (s : Node (W := QW) * QW) : option nat := (fun e => length (map_to_list e.1)) <$> en_emulator (nd_execEngine s.1).
Example stop_lost_on_reconnect :
  (fun s => (q_view s, q_emulating s)) <$> q_ops q_reconnected (q_new, []) =
    Some ((true, ComponentStateRunning, [("e1", OrderStatusCanceled)], [], 1%nat, None), Some 1%nat) /\
  (fun s => (q_view s, q_emulating s)) <$> q_ops (q_reconnected ++ [q_at (80 # 1)%Q]) (q_new, []) =
    Some ((true, ComponentStateDegraded, [("e1", OrderStatusCanceled)], [], 1%nat,
           Some (mkErr ErrInvalidTransition "cannot transition order")), Some 0%nat).
Proof. split; vm_compute; reflexivity. Qed.

(** The user's own unsubscription takes the market data of the emulated order with it. *)
Example unsubscribing_starves :
  q_view <$> q_ops (q_held ++ [OpUnsubscribe (market_subscription MarketDataTypeTradeTick btc 0)]) (q_new, []) =
    Some (true, ComponentStateRunning, [("e1", OrderStatusEmulated)], [], 0%nat, None).
Proof. vm_compute. reflexivity. Qed.
