(* ===== verification/StarkWitnesses.v ===== *)
(** * Instances of the theorems about the Stark curve and the requests of EdgeX

    Sums and multiples of concrete points are computed on machine words. *)
From Bignums Require Import BigZ.
From Stdlib Require Import ZArith QArith Zdivisibility Zmod.Zmod.
From stdpp Require Import base tactics decidable option list numbers strings pretty.
From S2P Require Import Prelude Decimals StarkPrimes CurveGroup StarkConstants StarkCurve StarkField StarkBase StarkHash StarkHashFacts StarkSign StarkSignFacts EdgexPerp EdgexFacts.

Open Scope string_scope.
Open Scope Z_scope.

(** ** Points *)

Definition base_xy : Z * Z := (sc_Gx NewStarkCurve, sc_Gy NewStarkCurve).
Lemma base_xy_valid : valid_point base_xy = true.
Proof. by vm_compute. Qed.
Lemma infinity_valid : valid_point (0, 0) = true.
Proof. done. Qed.
Lemma Add_group_witness : valid_point base_xy = true /\ valid_point (0, 0) = true /\
  exists S T, add_points base_xy base_xy = Some S /\ add_points S (0, 0) = add_points base_xy T.
Proof.
  split; [exact base_xy_valid|]. split; [exact infinity_valid|].
  destruct (Add_group base_xy base_xy (0, 0) base_xy_valid base_xy_valid infinity_valid) as ((S & T & H1 & _ & _ & _ & _ & _ & H2) & _).
  exists S, T. split; [exact H1|exact H2].
Defined.
Lemma point_roundtrip_witness : exists data, Marshal NewStarkCurve 1 300 = Some data /\ Unmarshal NewStarkCurve data = Some (1, 300).
Proof.
  destruct (point_roundtrip 1 300) as (data & H1 & _ & H2); [by split|by split|]. exists data. split; [exact H1|exact H2].
Defined.
Lemma base_multiples_agree_witness : exists R, ScalarBaseMult NewStarkCurve [Byte.x03] = Some R /\ ScalarBaseMultV2 NewStarkCurve [Byte.x03] = Some R.
Proof.
  destruct (base_multiples_agree [Byte.x03]) as (points & R & _ & H1 & H2 & _); [apply Nat.leb_le; exact eq_refl|exact eq_refl|].
  exists R. split; [exact H1|exact H2].
Defined.
Lemma FastHash_CalcHash_witness : exists params h, FastHash params (2 ^ 251 + 1) 2 = Some (Some h) /\ CalcHash [1; 2] = Some h.
Proof.
  destruct (FastHash_CalcHash (2 ^ 251 + 1) 2) as (params & h & _ & H1 & H2); [split; [apply Z.leb_le|]; exact eq_refl|split; [apply Z.leb_le|]; exact eq_refl|].
  change ((2 ^ 251 + 1) mod 2 ^ 251) with 1 in H2. change (2 mod 2 ^ 251) with 2 in H2. exists params, h. split; [exact H1|exact H2].
Defined.

(** ** Hashes on machine words *)

Definition point_big (i : Z) : big_point := match element (cfg_ConstantPoints cfg) i with Some xy => big_of xy | None => None end.
Fixpoint bit_sum_big (i j : Z) (n : nat) : option big_point :=
  match n with
  | O => Some None
  | Datatypes.S n =>
      p ← bit_sum_big i j n;
      if Z.testbit j (Z.of_nat n) then plus_big p (point_big (i * 252 + Z.of_nat n + 2)) else Some p
  end.
Definition pedersen_big (x y : Z) : option Z :=
  p ← bit_sum_big 0 x 252; p ← plus_big (point_big 0) p;
  q ← bit_sum_big 1 y 252; r ← plus_big p q;
  match r with Some (z, _) => Some (BigZ.to_Z z mod field_order) | None => Some 0 end.
Lemma point_big_spec i : 0 <= i < 506 -> point_of (point_big i) = constant_point i.
Proof.
  intros Hi. unfold point_big, constant_point. destruct (element (cfg_ConstantPoints cfg) i) as [xy|] eqn:E; [|done].
  apply element_lookup in E as [_ E]. destruct (ConstantPoints_on _ _ E) as (p & Hp & Hn & ->). rewrite dec_enc by done.
  rewrite point_of_big. destruct p as [[x y]|]; [|done]. cbn [enc fst snd]. by rewrite !elem_to_Z.
Qed.
#[local] Opaque plus bit_sum plus_big.
Lemma bit_sum_big_spec i j n p : i = 0 \/ i = 1 -> (n <= 252)%nat -> bit_sum_big i j n = Some p -> point_of p = bit_sum (hash_point i) 0 j n.
Proof.
  intros Hi. revert p. induction n as [|n IH]; intros p Hn; cbn [bit_sum_big]; [by intros [= <-]|].
  destruct (bit_sum_big i j n) as [q|]; [|done]. specialize (IH q ltac:(lia) eq_refl). rewrite bind_Some.
  Transparent bit_sum. cbn [bit_sum]. Opaque bit_sum. destruct (Z.testbit j (Z.of_nat n)).
  - intros H%plus_big_plus. rewrite H, IH, point_big_spec by lia. by rewrite Z.add_0_l.
  - intros [= <-]. by rewrite plus_0_r.
Qed.
Lemma pedersen_big_spec x y h : pedersen_big x y = Some h -> CalcHash [x; y] = Some (Bytes h).
Proof.
  unfold pedersen_big. destruct (bit_sum_big 0 x 252) as [p|] eqn:Ep; [|done]. rewrite bind_Some.
  destruct (plus_big (point_big 0) p) as [p'|] eqn:Ep'; [|done]. rewrite bind_Some.
  destruct (bit_sum_big 1 y 252) as [q|] eqn:Eq; [|done]. rewrite bind_Some.
  destruct (plus_big p' q) as [r|] eqn:Er; [|done]. rewrite bind_Some. intros H. rewrite CalcHash_pedersen. do 2 f_equal.
  apply bit_sum_big_spec in Ep, Eq; [|by auto|lia|by auto|lia]. apply plus_big_plus in Ep', Er.
  assert (E : point_of r = pedersen x y).
  { rewrite Er, Ep', Ep, Eq, point_big_spec by lia. reflexivity. }
  rewrite <- E. destruct r as [[z w]|]; injection H as <-; [|done]. cbn [point_of enc fst]. unfold word. by rewrite to_Z_elem.
Qed.

(** ** Signatures on machine words *)

Definition signature_big (d e k : Z) : option (Z * Z) :=
  r ← times_big (Z.to_pos k) base_big;
  match r with
  | Some (x, _) => let r := (BigZ.to_Z x mod field_order) mod point_order in Some (r, ((d * r + e) * Z.invmod k point_order) mod point_order)
  | None => None
  end.
Lemma signature_big_spec d e k rs : 0 < k -> signature_big d e k = Some rs -> signature d e k = rs.
Proof.
  intros Hk. unfold signature_big. destruct (times_big (Z.to_pos k) base_big) as [[[x y]|]|] eqn:Et; [|done..]. rewrite bind_Some. intros [= <-].
  apply times_big_times in Et; [|rewrite base_big_G; exact G_on]. rewrite base_big_G, Z2Pos.id in Et by done. unfold signature. rewrite <- Et.
  cbn [point_of]. unfold word. by rewrite to_Z_elem.
Qed.
(** The first nonce gives a signature. *)
Definition signs_at_once (v : Z) (privkey hash : bytes) : bool :=
  let k := secret point_order sha256 (secret_key hash) v in
  (SetBytes hash <=? 2 ^ 251) && (0 <? k) && (k <? point_order) &&
  match signature_big (SetBytes privkey) (hashToInt hash 256) k with Some rs => good rs | None => false end.
Lemma Sign_at_once n now v privkey hash : signs_at_once v privkey hash = true ->
  exists rs, Sign (Datatypes.S n) now (fun _ => v) privkey hash = Some (Some (Ok rs)).
Proof.
  unfold signs_at_once. rewrite !andb_true_iff, Z.leb_le, !Z.ltb_lt. intros [[[Hh Hk] Hk'] H].
  destruct (signature_big _ _ _) as [rs|] eqn:Es; [|done]. apply signature_big_spec in Es; [|done].
  destruct (sign_test_spec (ScalarBaseMult NewStarkCurve) (SetBytes privkey) hash (0, 0) _ ScalarBaseMult_base (conj Hk Hk')) as (rs' & E & _).
  rewrite Es, H in E. exists rs'. unfold Sign, sign_with. change (Z.shiftl 1 251) with (2 ^ 251). rewrite (proj2 (Z.ltb_ge _ _) Hh). cbv zeta.
  unfold generateSecret. change (sc_N NewStarkCurve) with point_order. cbn [secret_loop]. unfold one.
  rewrite (proj2 (Z.leb_le 1 _)), (proj2 (Z.ltb_lt _ point_order)) by lia. cbn [andb]. by rewrite E.
Qed.

Definition sample_key : bytes := [Byte.x02].
Definition sample_hash : bytes := [Byte.x01].
Lemma sample_certified : signs_at_once 1 sample_key sample_hash = true.
Proof. vm_cast_no_check (eq_refl true). Qed.
Lemma sample_signature n now : exists r s, Sign (Datatypes.S n) now (fun _ => 1) sample_key sample_hash = Some (Some (Ok (r, s))).
Proof. destruct (Sign_at_once n now 1 _ _ sample_certified) as [[r s] E]. exists r, s. exact E. Qed.
Lemma sample_points : exists points, InitStarkCurveParams NewStarkCurve = Some points.
Proof. destruct InitStarkCurveParams_spec as (points & E & _). exists points. exact E. Qed.
Lemma sample_key_small : 0 < SetBytes sample_key < sc_N NewStarkCurve.
Proof. split; exact eq_refl. Qed.
Lemma sample_hash_int : hashToInt sample_hash 256 <> 0.
Proof. discriminate. Qed.
Lemma signatures_verify_witness : exists points r s X Y,
  Sign 1 0 (fun _ => 1) sample_key sample_hash = Some (Some (Ok (r, s))) /\
  Verify sample_hash X Y r s = Some true /\ VerifyV3 points sample_hash X Y r s = Some true.
Proof.
  destruct sample_points as [points Ep]. destruct (sample_signature 0 0) as (r & s & Es).
  destruct (signatures_verify 1 0 (fun _ => 1) points sample_key sample_hash r s Ep sample_key_small sample_hash_int (or_introl Es)) as (X & Y & _ & H1 & H2).
  exists points, r, s, X, Y. split; [exact Es|]. split; [exact H1|exact H2].
Defined.

(** ** Orders *)

Lemma limit_order_packing_witness :
  (0 <= packed_message0 5 6 1 9 < 2 ^ 223) /\
  (packed_message0 5 6 1 9 = packed_message0 5 6 1 9 -> (5, 6, 1, 9) = (5, 6, 1, 9)).
Proof.
  destruct (limit_order_packing 5 6 1 9 7 3 5 6 1 9 7 3 "id") as (H1 & _ & _ & H2 & _); [repeat constructor; lia|repeat constructor; lia|].
  split; [exact H1|exact H2].
Defined.

Definition limit_hash_big (sell buy fee packed0 packed1 : Z) : option Z :=
  h ← pedersen_big sell buy; h ← pedersen_big h fee; h ← pedersen_big h packed0; pedersen_big h packed1.
Lemma pedersen_big_read x y h : pedersen_big x y = Some h -> CalcHash [x; y] = Some (Bytes h) /\ SetBytes (Bytes h) = h.
Proof.
  intros H. split; [exact (pedersen_big_spec x y h H)|]. rewrite SetBytes_Bytes, Z.abs_eq; [done|]. unfold pedersen_big in H.
  destruct (bit_sum_big 0 x 252) as [p|]; [|done]. rewrite bind_Some in H. destruct (plus_big (point_big 0) p) as [p'|]; [|done]. rewrite bind_Some in H.
  destruct (bit_sum_big 1 y 252) as [q|]; [|done]. rewrite bind_Some in H. destruct (plus_big p' q) as [[[z w]|]|]; [| |done]; injection H as <-; [|done].
  apply Z.mod_pos_bound. exact eq_refl.
Qed.
Lemma limit_hash_big_spec sell buy fee buying synthetic collateral maxFee nonce pos exp h sellId buyId feeId :
  (if buying : bool then (SetString (trim_0x buyId) 16, SetString (trim_0x sellId) 16) else (SetString (trim_0x sellId) 16, SetString (trim_0x buyId) 16)) = (Some sell, Some buy) ->
  SetString (trim_0x feeId) 16 = Some fee ->
  limit_hash_big sell buy fee (if buying then packed_message0 collateral synthetic maxFee nonce else packed_message0 synthetic collateral maxFee nonce) (packed_message1 pos exp) = Some h ->
  CalcLimitOrderHash sellId buyId feeId buying synthetic collateral maxFee nonce pos exp = Some (Bytes h) /\ SetBytes (Bytes h) = h.
Proof.
  intros Eids Efee. unfold limit_hash_big. destruct (pedersen_big sell buy) as [h1|] eqn:E1; [|done]. rewrite bind_Some.
  destruct (pedersen_big h1 fee) as [h2|] eqn:E2; [|done]. rewrite bind_Some.
  destruct (pedersen_big h2 _) as [h3|] eqn:E3; [|done]. rewrite bind_Some. intros E4.
  apply pedersen_big_read in E1 as [E1 S1], E2 as [E2 S2], E3 as [E3 S3], E4 as [E4 S4]. split; [|exact S4].
  unfold CalcLimitOrderHash. destruct buying; injection Eids as Es Eb; rewrite Es, Eb, Efee, !bind_Some; cbv zeta;
    rewrite E1, !bind_Some, S1, E2, bind_Some, S2, E3, bind_Some, S3; exact E4.
Qed.

Definition sample_contract : Contract := mkContract "10000001" "1/1000" "0x2" "0x64".
Definition sample_coin : Coin := mkCoin "0x3" "0xa".
Definition sample_params : PlaceOrderParams := mkPlaceOrderParams "10000001" "BUY" "LIMIT" "3" "2" "id" "" false 1.
Definition sample_client : Client := mkClient "0x02" "7".
Definition sample_limit_hash : Z :=
  Eval vm_compute in default 0 (limit_hash_big 3 2 3 (packed_message0 60 300 10 (CalcNonce "id")) (packed_message1 7 192)).
Lemma sample_limit_hash_ok : limit_hash_big 3 2 3 (packed_message0 60 300 10 (CalcNonce "id")) (packed_message1 7 192) = Some sample_limit_hash.
Proof. vm_cast_no_check (eq_refl (Some sample_limit_hash)). Qed.
Lemma sample_amounts : order_amounts (3 : Q) (2 : Q) sample_contract (100 : Q) (10 : Q) = mkAmounts 300 60 10 (1 : Q) (6 : Q).
Proof. vm_compute. reflexivity. Qed.
Lemma sample_order_hash :
  CalcLimitOrderHash "0x2" "0x3" "0x3" true 300 60 10 (CalcNonce "id") 7 192 = Some (Bytes sample_limit_hash) /\
  SetBytes (Bytes sample_limit_hash) = sample_limit_hash.
Proof.
  apply (limit_hash_big_spec 3 2 3 true 300 60 10 (CalcNonce "id") 7 192 sample_limit_hash "0x2" "0x3" "0x3").
  - vm_compute. reflexivity.
  - vm_compute. reflexivity.
  - exact sample_limit_hash_ok.
Qed.
Lemma sample_reduced_certified : signs_at_once 1 sample_key (Bytes (sample_limit_hash mod sc_N NewStarkCurve)) = true.
Proof. vm_cast_no_check (eq_refl true). Qed.
Lemma SignL2_at_once n now v key priv msgHash : decode_hex (trim_0x key) = Some priv ->
  signs_at_once v priv (Bytes (SetBytes msgHash mod sc_N NewStarkCurve)) = true ->
  exists sig, SignL2 (Datatypes.S n) now (fun _ => v) key msgHash = Some (Some (Ok sig)).
Proof.
  intros Hd H. destruct (Sign_at_once n now v _ _ H) as [[r s] E]. pose proof (Sign_signed _ _ _ _ _ _ E) as Es.
  assert (Hb : 0 < r < point_order /\ 0 < s < point_order).
  { destruct Es as (_ & j & _ & _ & Hg & Eg). apply signature_bounds in Hg. by rewrite <- Eg in Hg. }
  destruct (pad_hex_spec r) as (R & ER & _); [change (sc_N NewStarkCurve) with point_order; lia|].
  destruct (pad_hex_spec s) as (S & ES & _); [change (sc_N NewStarkCurve) with point_order; lia|].
  exists (mkL2Signature R S ""). unfold SignL2, sign_reduced. rewrite Hd. cbv zeta. rewrite E, !bind_Some, ER, bind_Some, ES. reflexivity.
Qed.
Lemma sample_order : exists body, order_request 1 0 0 (fun _ => 1) sample_client sample_params sample_contract sample_coin = Some (Some (Ok body)).
Proof.
  destruct sample_order_hash as [Eh Es].
  destruct (SignL2_at_once 0 0 1 "0x02" sample_key (Bytes sample_limit_hash) eq_refl) as [sig E].
  { rewrite Es. exact sample_reduced_certified. }
  unfold order_request. change (dparse (po_Quantity sample_params)) with (Some (3 : Q)). cbv iota zeta.
  change (if String.eqb (po_Price sample_params) "" then "0" else po_Price sample_params) with "2".
  change (dparse "2") with (Some (2 : Q)). cbv iota.
  change (dbig (found (HexToBigInteger (ct_StarkExResolution sample_contract)))) with (Some (100 : Q)). rewrite bind_Some.
  change (dbig (found (HexToBigInteger (co_StarkExResolution sample_coin)))) with (Some (10 : Q)). rewrite bind_Some.
  change (ToBigInt (cl_AccountID sample_client)) with (Some 7). rewrite bind_Some.
  change (int64 7) with 7. change (Z.quot (int64 _) _) with 192.
  cbn [sample_params sample_contract sample_coin sample_client po_ClientOrderId po_Side ct_StarkExSyntheticAssetId co_StarkExAssetId cl_starkPrivateKey].
  change (if String.eqb "id" "" then GetRandomClientId 0 else "id") with "id". change (String.eqb "BUY" "BUY") with true.
  rewrite sample_amounts. cbn [am_Synthetic am_Collateral am_MaxFee].
  rewrite Eh, bind_Some, E, bind_Some. eexists. reflexivity.
Qed.
